(* ===== verification/_CoqProject ===== *)
-Q . S2P
Prelude.v
RustStr.v
Utf8.v
Examples.v
Float64.v
Msg.v
Registry.v
Metrics.v
Limit.v
Gateway.v
EnvExpand.v
Config.v
ServerConfig.v
TunnelManager.v
ServerControl.v
ServerSpec.v
ServerRefine.v
Auth.v
Agents.v
SessionTable.v
Service.v
ServiceSteps.v
ClientConfig.v
Reload.v
Net.v
ProxyProtocol.v
HttpHead.v
HttpIngress.v
ClientTunnels.v
ClientHandle.v
ClientSession.v
ClientReload.v
ClientOpen.v
ClientService.v
ClientServing.v
EndToEnd.v
Streams.v
LimitedStream.v
UdpForward.v
DataPool.v
Dashboard.v
DesktopConfig.v
Transport.v
WireStreams.v
Yamux.v
RotateLog.v
LocalControl.v
TunnelTasks.v
LogBuffer.v
CertStore.v
CertDns.v
DnsSigning.v
CertIssue.v
CertLibrary.v
CertPage.v
TunnelEditor.v
HandleTasks.v
ServerRun.v
PluginServe.v
DesktopWindow.v
