(* ===== verification/Prelude.v ===== *)
(** * Orbien: a verification development of the reverse proxy

    Orbien exposes services behind NAT.  A client ([src/client]) keeps a control
    connection to a server ([src/server]) and registers tunnels on it; a user who
    connects to the server's side of a tunnel is announced to the client, which
    opens a data connection and joins it to a local service.  Both use
    [src/core] for messages, authentication, configuration, bandwidth limits and
    addresses.  The development is a shallow embedding: pure functions for pure
    code, explicit state for shared state, one function per handler and a step
    relation or a list of events where tasks interleave.

    ** Conventions

    [anyhow::Result] is [Anyhow], a value or the rendered message; [?] is
    [let?], a bail-out is [bail_if].  Machine integers are [Z] with their wraps
    and saturations written out ([wrap_u], [wrap_i], [sat_i64], [sat_u64]).
    Strings are byte strings; a [HashMap] is a [gmap], and wherever the code
    iterates one the order is a parameter that is only known to list every entry.
    Clocks, sockets, files, TOML, JSON and cryptography are parameters: a stream's
    write is given its outcome, [Crypto] and [CryptoLaws] state what is used of
    HMAC and hex.  What a log line only tells an operator is left out, except
    where it is handed to the front end.

    ** Files

    Shared ground.
    - [Prelude]: results, integers, tactics, reachability.
    - [RustStr]: [str] methods and number printing and parsing of [std]; [Utf8]: when
      slicing text cannot panic.  [Examples]: the JSON of the witnesses.
    - [Float64]: [f64] comparisons and arithmetic on IEEE doubles.

    The core ([src/core]).
    - [Msg]: [msg/types.rs], [msg/codec.rs].
    - [Auth]: [auth/].  [Limit]: [limit/] but its stream.
    - [EnvExpand], [Config], [ServerConfig], [ClientConfig]: [config/].
    - [Net], [ProxyProtocol]: [net/proxy_protocol.rs] and the addresses of [std].
    - [HttpHead]: [net/xff.rs] and the heads of [server/tunnel/http.rs].
    - [Streams]: tokio's stream traits as a class, with the wrappers of [tls/sni.rs]
      and [io/counting.rs]; [LimitedStream]: [limit/stream.rs]; [WireStreams]: the
      adapters of [transport/websocket.rs], [kcp.rs] and [quic.rs].
    - [Transport]: [transport/tls.rs], what [client/connector.rs] wraps a connection
      in and what [server/service/ingress.rs] unwraps; [Yamux]:
      [transport/yamux_mux.rs].
    - [UdpForward]: [udp/mod.rs]; [RotateLog]: [logging/rotate_file.rs].

    The server ([src/server]).
    - [Registry]: [tunnel/registry.rs], [tunnel/ports.rs]; [Gateway]: the routing
      tables of [tunnel/gw.rs], [http.rs], [https.rs]; [TunnelManager].
    - [ServerControl]: [control/session/], a session's handlers.
    - [ServerSpec], [ServerRefine]: an abstract server that owns names, ports and
      hosts, and the proof that the sessions implement it.
    - [Agents], [SessionTable], [Service], [ServiceSteps]: [service/].
      [SessionTable] takes the table's gates apart into atomic steps; [Service]
      runs logins, ends, kicks and data connections over [ServerRefine.World], each
      to its end; [ServiceSteps] cuts them into the steps of tasks that interleave
      and shows that [Service]'s functions are their uninterrupted runs.
    - [Metrics]: [metrics/].  [HttpIngress]: what a gateway does with a connection.
    - [DataPool]: [control/session/data_pool.rs]; [Dashboard]: [dashboard/].
    - [TunnelTasks]: the tasks of [tunnel/tcp.rs] and [tunnel/udp.rs], and the
      client's UDP session.
    - [ServerRun]: [Service::run] of [service/mod.rs], the accept loops, and the
      configuration [main.rs] starts with.

    The client ([src/client]).
    - [Reload]: [reload/].  [ClientHandle]: the state of [handle.rs], a call at a
      time; [HandleTasks]: its calls and the client's task, lock by lock.
    - [ClientTunnels]: [tunnel/manager.rs], the making of plugins; [PluginServe]:
      what [plugin/tls_term.rs] and [socks5.rs] do with a connection.
    - [ClientSession]: [control/session.rs]; [ClientReload]: the task that applies
      a reload among everything else that happens in the session; [ClientOpen]:
      what opening establishes, and heartbeats.
    - [ClientService]: [service.rs] as a state machine; [ClientServing]: session,
      reloads and loop together.
    - [EndToEnd]: the client's logins against the server's service.
    - [LocalControl]: [local_control.rs], the command [orbien reload].

    The desktop ([src/desktop]).
    - [DesktopConfig]: [config_bridge.rs], its forms.  [LogBuffer]: [log_buffer.rs],
      [client_log_layer.rs] and the log page of [main.rs].
    - [CertStore]: [cert/store.rs] over a file system whose calls may fail; [CertDns]:
      [cert/dns]; [DnsSigning]: how its requests are signed; [CertIssue]:
      [cert/issue.rs] and the window that asks for it; [CertLibrary]:
      [cert_bridge.rs], the page of what is in the store; [CertPage]: its
      handlers in [main.rs], the key editor and the issues it waits for.
    - [TunnelEditor]: the tunnel page of [main.rs], its form and its rows;
      [DesktopWindow]: the launch and configuration pages, the timer, [i18n.rs] and
      [ui_prefs.rs].

    ** What the theorems show

    Server.  One session per id is open to its client, however logins, ends and
    kicks interleave, and the tables stay in step with the live tunnels as long as
    these have trimmed names ([ServiceSteps]); what a login that nothing interrupts
    leaves behind ([Service]); the gates exclude each other and never deadlock
    ([SessionTable]); names, ports and routes held are exactly those of the live
    sessions' tunnels, and none but an untrimmed name outlives them
    ([ServerRefine]); routing finds
    the longest location and registration is all or nothing ([Gateway]); agents
    stay consistent ([Agents]); a digest is accepted once ([Auth]).  A connection
    asked of the client reaches the task that waits for it, and none is lost
    ([DataPool]); a tunnel's tasks keep their accounts through every failure
    ([TunnelTasks]); the dashboard opens to its credentials only and shows what
    is there ([Dashboard]); the server runs until the first of its listeners ends
    and leaves none behind ([ServerRun]).

    Client.  The session's table follows the configuration taken over through
    every history of connections, losses and reloads
    ([session_serves_configuration]); a reload's plan is right, minimal and
    independent of hashing ([Reload]), applying it ends, reports each tunnel
    once and does what the plan says ([ClientReload]); every reload request is
    answered exactly once ([reload_requests_answered]); the wait between attempts
    doubles from where it is up to a minute; heartbeats are a timed trace, and which
    settings, with which delays, keep a healthy session and which lose it is
    [heartbeat_verdict]; the command line's reload is the client's own
    ([LocalControl]).  Calls of the handle made one at a time never leave two
    clients running ([HandleTasks]); the plugins hand on all they are given and
    relay only for who knows the credentials ([PluginServe]).

    Desktop.  A configuration in the spelling the form writes survives the form it is
    shown in and the saving of a page nobody changed ([DesktopConfig],
    [DesktopWindow]), a tunnel the editor it is opened in; how other spellings change
    is shown beside it; the editor never lets two tunnels have one name
    ([TunnelEditor]); a certificate a tunnel uses is kept ([CertLibrary]);
    a key survives its editor, and the page waits for one issue at a time while
    none is cancelled ([CertPage]).

    Transport.  Both sides agree on what a connection is wrapped in exactly when
    they are configured alike and their certificates satisfy the CA files of the
    other side ([layers_agree]); the wrappers give the bytes of the
    streams they wrap, in order ([Streams], [LimitedStream], [WireStreams]);
    streams are opened in the order they are asked for ([Yamux]); the datagrams of
    two users never share a socket ([UdpForward]).

    Data.  Round trips of messages up to 4 MiB and PROXY headers, the metric windows against a
    ledger of days, the placeholder expander against a grammar, loaded
    configurations are complete and valid, every byte written is in the log or in a
    backup that nothing has removed or overwritten ([RotateLog]).  The store of
    certificates stays usable whatever call fails, and keeps its secrets unless a
    file is overlooked ([CertStore]), issuing one is all or nothing and leaves no DNS record
    behind ([CertIssue]), and what a DNS service reads is what was signed
    ([DnsSigning]).

    Where the code does not do what it means to, a theorem states what it does
    instead; these are also listed as findings.

    ** Bounds and fuel

    The expander of [EnvExpand] and the digit readers run on the length of their
    input, and [env_expansion_correct] and the lemmas of [RustStr] and [Net] show
    that it is enough.  [Limit.wait_loop] takes its sleeps from a list of clock
    readings.  [ws_read_loop] runs one turn more than its socket has messages at
    hand, and [ws_poll_read_loop] shows that this is the code's loop.  A run of a
    session or of the client's loop is a list of events, and
    [apply_terminates] bounds the steps the reload task needs.

    ** Not modelled

    The set-up of sockets, TLS contexts and the tracing subscriber, which only call
    libraries; the named pipe of Windows; the dialling of a connection, whose
    outcome is an argument; the parsing of command lines and signals.  Of the
    desktop, what is glue to the toolkit and to other programs: widgets, the tray,
    dialogs, the clipboard, and the operating system's counters, which are shown in
    floating point; HTTP itself.  On the server,
    tasks interleave in the models of the service, the session table, the data pool
    and the tunnels' tasks; what a session does in one call - it answers a message,
    shuts down, is told of a kick - is one step.  A session's shutdown closes it
    first, so that the others see it closed before its tunnels are given back; the
    states between those are not modelled.  A data connection reader that its aborted
    loop leaves behind is [TunnelTasks]'s [UoDetached].
    [close_all_tunnels] is one step of the client's loop although its writes
    wait: nothing but the end of that session follows it.  In [HandleTasks] the
    service that runs in the client's task is its choice of status and addresses;
    what it does otherwise is [ClientService]'s. *)

From stdpp Require Export prelude gmap strings list fin_maps sets.
From Stdlib Require Export ZArith Lia Ascii.

#[global] Set Default Goal Selector "!".
#[global] Set Warnings "-clear-no-such-hyp".

(** ** Results

    Rust's [Result<A, E>]; [anyhow::Result<A>] carries the rendered message. *)

Inductive Result (A E : Type) : Type :=
| Ok (a : A)
| Err (e : E).
Arguments Ok {A E} a.
Arguments Err {A E} e.

Abbreviation Anyhow A := (Result A string).

Declare Scope rust_scope.
Delimit Scope rust_scope with rust.

(** The [?] operator. *)
Notation "'let?' x ':=' e 'in' k" :=
  (match e with Ok x => k | Err er => Err er end)
  (at level 10, x name, e at level 100, k at level 200,
   format "'[v' 'let?'  x  ':='  e  'in'  '/' k ']'") : rust_scope.
Notation "'let?' ' x ':=' e 'in' k" :=
  (match e with Ok x => k | Err er => Err er end)
  (at level 10, x pattern, e at level 100, k at level 200,
   format "'[v' 'let?'  ' x  ':='  e  'in'  '/' k ']'") : rust_scope.
(** A guard that bails out: [if b { return Err(e) }]. *)
Notation "'bail_if' b 'with' e ';;' k" :=
  (if b then Err e else k)
  (at level 10, b at level 99, e at level 99, k at level 200,
   format "'[v' 'bail_if'  b  'with'  e  ';;'  '/' k ']'") : rust_scope.
#[global] Open Scope rust_scope.

Section Results.
Context {A B E F : Type}.

Definition is_ok (r : Result A E) : bool :=
  match r with Ok _ => true | Err _ => false end.
Definition is_err (r : Result A E) : bool := negb (is_ok r).

Definition result_ok (r : Result A E) : option A :=
  match r with Ok a => Some a | Err _ => None end.

Definition map_err (f : E -> F) (r : Result A E) : Result A F :=
  match r with Ok a => Ok a | Err e => Err (f e) end.

Definition ok_or (o : option A) (e : E) : Result A E :=
  match o with Some a => Ok a | None => Err e end.

Definition unwrap_or (r : Result A E) (d : A) : A :=
  match r with Ok a => a | Err _ => d end.

Lemma is_ok_inv (r : Result A E) : is_ok r = true -> exists a, r = Ok a.
Proof. destruct r; naive_solver. Qed.

Lemma map_err_ok (f : E -> F) (r : Result A E) a : map_err f r = Ok a <-> r = Ok a.
Proof. destruct r; simpl; naive_solver. Qed.

Lemma ok_or_ok (o : option A) (e : E) a : ok_or o e = Ok a <-> o = Some a.
Proof. destruct o; simpl; naive_solver. Qed.
End Results.

Lemma Ok_inj {A E} (a b : A) : @Ok A E a = Ok b -> a = b.
Proof. congruence. Qed.

(** A [Result]-returning loop over a list: stops at the first error. *)
Fixpoint try_for_each {A S E : Type} (f : S -> A -> Result S E) (s : S) (l : list A) : Result S E :=
  match l with
  | [] => Ok s
  | x :: l => let? s' := f s x in try_for_each f s' l
  end.

Fixpoint try_map {A B E : Type} (f : A -> Result B E) (l : list A) : Result (list B) E :=
  match l with
  | [] => Ok []
  | x :: l => let? y := f x in let? ys := try_map f l in Ok (y :: ys)
  end.

Lemma try_map_ok {A B E : Type} (f : A -> Result B E) l ys :
  try_map f l = Ok ys <-> Forall2 (fun x y => f x = Ok y) l ys.
Proof.
  revert ys; induction l as [|x l IH]; intros ys; simpl.
  { split; [intros [= <-]; constructor | inversion 1; done]. }
  split.
  - destruct (f x) as [y|] eqn:Ex; [|done].
    destruct (try_map f l) as [ys'|]; [|done]. intros [= <-].
    constructor; [done | by apply IH].
  - inversion 1 as [|? y ? ys' Hx Hl]; subst. rewrite Hx.
    apply IH in Hl as ->. done.
Qed.

(** ** Lists *)

Lemma list_find_some {A} (f : A -> bool) (l : list A) x :
  List.find f l = Some x ->
  exists l1 l2, l = l1 ++ x :: l2 /\ f x = true /\ Forall (fun y => f y = false) l1.
Proof.
  induction l as [|y l IH]; simpl; [done|]. destruct (f y) eqn:E.
  - intros [= <-]. by exists [], l.
  - intros H. destruct (IH H) as (l1 & l2 & -> & Hx & Hl1). exists (y :: l1), l2. auto.
Qed.
Lemma list_find_none {A} (f : A -> bool) (l : list A) :
  List.find f l = None <-> Forall (fun y => f y = false) l.
Proof.
  induction l as [|y l IH]; simpl; [done|]. rewrite Forall_cons. destruct (f y); naive_solver.
Qed.

(** Two passes over a list are one pass when they work on different parts of the state. *)
Lemma fold_left_interleave {S X Y} (f : S -> X -> S) (g : S -> Y -> S) (h : X -> Y) l s :
  (forall s x y, f (g s y) x = g (f s x) y) ->
  fold_left g (map h l) (fold_left f l s) = fold_left (fun s x => g (f s x) (h x)) l s.
Proof.
  intros Hc. assert (forall l s y, fold_left f l (g s y) = g (fold_left f l s) y) as Hf.
  { clear l s. induction l as [|x l IH]; simpl; [done|]. intros s y. by rewrite Hc, IH. }
  revert s. induction l as [|x l IH]; simpl; [done|]. intros s. by rewrite <- Hf, IH.
Qed.

(** ** Machine integers *)

Definition u8_max : Z := 255.
Definition u16_max : Z := 65535.
Definition u32_max : Z := 4294967295.
Definition u64_max : Z := 18446744073709551615.
Definition i32_max : Z := 2147483647.
Definition i32_min : Z := -2147483648.
Definition i64_max : Z := 9223372036854775807.
Definition i64_min : Z := -9223372036854775808.

Definition in_u16 (z : Z) : Prop := (0 <= z <= u16_max)%Z.
Definition in_u64 (z : Z) : Prop := (0 <= z <= u64_max)%Z.
Definition in_i64 (z : Z) : Prop := (i64_min <= z <= i64_max)%Z.

(** Truncation [as uN] and two's complement wrap-around [as iN]. *)
Definition wrap_u (w : Z) (z : Z) : Z := (z mod 2 ^ w)%Z.
Definition wrap_i (w : Z) (z : Z) : Z := ((z + 2 ^ (w - 1)) mod 2 ^ w - 2 ^ (w - 1))%Z.

#[global] Arguments wrap_u : simpl never.
#[global] Arguments wrap_i : simpl never.

Definition sat_i64 (z : Z) : Z := Z.max i64_min (Z.min i64_max z).
Definition sat_u64 (z : Z) : Z := Z.max 0 (Z.min u64_max z).
(** [usize] is 64 bits wide. *)
Definition usize_sat_sub (a b : Z) : Z := Z.max 0 (a - b).
Definition clamp (z lo hi : Z) : Z := Z.max lo (Z.min hi z).

Lemma wrap_u_small w z : (0 <= z < 2 ^ w)%Z -> wrap_u w z = z.
Proof. intros. apply Z.mod_small; lia. Qed.

Lemma wrap_u_range w z : (0 <= w)%Z -> (0 <= wrap_u w z < 2 ^ w)%Z.
Proof. intros. apply Z.mod_pos_bound. lia. Qed.

Lemma wrap_i_small w z :
  (0 < w)%Z -> (- 2 ^ (w - 1) <= z < 2 ^ (w - 1))%Z -> wrap_i w z = z.
Proof.
  intros Hw Hz. unfold wrap_i.
  assert (2 ^ w = 2 * 2 ^ (w - 1))%Z as ->.
  { rewrite <- Z.pow_succ_r by lia. f_equal; lia. }
  rewrite Z.mod_small by lia. lia.
Qed.

(** ** Reachability of a step relation *)

Section Reach.
Context {S L : Type} (step : S -> L -> S -> Prop) (init : S -> Prop).

Inductive reachable : S -> Prop :=
| reach_init s : init s -> reachable s
| reach_step s l s' : reachable s -> step s l s' -> reachable s'.

Lemma reachable_invariant (P : S -> Prop) :
  (forall s, init s -> P s) ->
  (forall s l s', reachable s -> P s -> step s l s' -> P s') ->
  forall s, reachable s -> P s.
Proof. intros Hi Hs s Hr. induction Hr; eauto. Qed.
End Reach.

(** ** Automation *)

Create HintDb orbien discriminated.
Create Rewrite HintDb orbien_rw.
#[export] Hint Constructors reachable : orbien.

(** Case analysis on every [match]/[if] scrutinee of the goal or of [H]. *)
Ltac case_goal :=
  match goal with
  | |- context [match ?x with _ => _ end] => destruct x eqn:?
  end.
Ltac case_in H :=
  match type of H with
  | context [match ?x with _ => _ end] => destruct x eqn:?
  end.
Ltac case_all_in H := repeat (case_in H; simplify_eq/=; try done).

(** Turns boolean tests on [Z]/[nat] in the context into propositions. *)
Ltac zify_bools :=
  repeat match goal with
  | H : Z.leb _ _ = true |- _ => apply Z.leb_le in H
  | H : Z.leb _ _ = false |- _ => apply Z.leb_gt in H
  | H : Z.ltb _ _ = true |- _ => apply Z.ltb_lt in H
  | H : Z.ltb _ _ = false |- _ => apply Z.ltb_ge in H
  | H : Z.eqb _ _ = true |- _ => apply Z.eqb_eq in H
  | H : Z.eqb _ _ = false |- _ => apply Z.eqb_neq in H
  | H : Nat.leb _ _ = true |- _ => apply Nat.leb_le in H
  | H : Nat.leb _ _ = false |- _ => apply Nat.leb_gt in H
  | H : Nat.ltb _ _ = true |- _ => apply Nat.ltb_lt in H
  | H : Nat.ltb _ _ = false |- _ => apply Nat.ltb_ge in H
  | H : bool_decide _ = true |- _ => apply bool_decide_eq_true in H
  | H : bool_decide _ = false |- _ => apply bool_decide_eq_false in H
  | H : andb _ _ = true |- _ => apply andb_true_iff in H as [? ?]
  | H : orb _ _ = false |- _ => apply orb_false_iff in H as [? ?]
  | H : negb _ = true |- _ => apply negb_true_iff in H
  | H : negb _ = false |- _ => apply negb_false_iff in H
  end.
