(* ===== verification/RustStr.v ===== *)
(** * Rust strings

    [String], [&str] and byte strings are sequences of bytes ([string]).  This
    file holds the operations of the standard library the program uses on them:
    trimming, case folding, searching and splitting, joining, decimal printing
    and parsing, with the lemmas the components share. *)

From S2P Require Import Prelude.

Local Open Scope string_scope.
#[global] Arguments String.append !_ _ : simpl nomatch.

Definition byte_of (n : N) : ascii := ascii_of_N n.
Definition code (c : ascii) : N := N_of_ascii c.

(** The double quote, which string literals here never contain. *)
Definition dquote : string := String (byte_of 34) "".
Definition cr : ascii := byte_of 13.
Definition lf : ascii := byte_of 10.
Definition crlf : string := String cr (String lf "").

Fixpoint smap (f : ascii -> ascii) (s : string) : string :=
  match s with "" => "" | String c s => String (f c) (smap f s) end.
Fixpoint sforall (p : ascii -> bool) (s : string) : bool :=
  match s with "" => true | String c s => p c && sforall p s end.
Definition sexists (p : ascii -> bool) (s : string) : bool := negb (sforall (fun c => negb (p c)) s).
Fixpoint srev_app (s acc : string) : string :=
  match s with "" => acc | String c s => srev_app s (String c acc) end.
Definition srev (s : string) : string := srev_app s "".
Fixpoint sdrop (n : nat) (s : string) : string :=
  match n, s with O, _ => s | S n, String _ s => sdrop n s | S _, "" => "" end.
Fixpoint stake (n : nat) (s : string) : string :=
  match n, s with S n, String c s => String c (stake n s) | _, _ => "" end.
(** [slen s] is [s.len()]. *)
Definition slen (s : string) : Z := Z.of_nat (String.length s).
Definition is_empty (s : string) : bool := match s with "" => true | _ => false end.

(** ** Trimming

    [char::is_whitespace] on the UTF-8 encoding: the byte length of the white
    space character at the head of the string, 0 if there is none. *)
Definition ws_len (s : string) : nat :=
  match s with
  | "" => 0
  | String a s1 =>
      if (((9 <=? code a) && (code a <=? 13)) || (code a =? 32))%N then 1
      else match s1 with
      | "" => 0
      | String b s2 =>
          if ((code a =? 194) && ((code b =? 133) || (code b =? 160)))%N then 2
          else match s2 with
          | "" => 0
          | String c _ =>
              if ((code a =? 225) && (code b =? 154) && (code c =? 128))%N
                 || ((code a =? 226) && (code b =? 128)
                     && (((128 <=? code c) && (code c <=? 138))
                         || (code c =? 168) || (code c =? 169) || (code c =? 175)))%N
                 || ((code a =? 226) && (code b =? 129) && (code c =? 159))%N
                 || ((code a =? 227) && (code b =? 128) && (code c =? 128))%N
              then 3 else 0
          end
      end
  end.

(** The same, read backwards: the argument is the reversed string. *)
Definition ws_len_rev (r : string) : nat :=
  if Nat.eqb (ws_len (stake 1 r)) 1 then 1
  else if Nat.eqb (ws_len (srev (stake 2 r))) 2 then 2
  else if Nat.eqb (ws_len (srev (stake 3 r))) 3 then 3 else 0.

Fixpoint drop_while_len (len : string -> nat) (fuel : nat) (s : string) : string :=
  match fuel with
  | O => s
  | S fuel => match len s with O => s | S n => drop_while_len len fuel (sdrop (S n) s) end
  end.

Definition trim_start (s : string) : string := drop_while_len ws_len (String.length s) s.
Definition trim_end (s : string) : string :=
  srev (drop_while_len ws_len_rev (String.length s) (srev s)).
Definition trim (s : string) : string := trim_end (trim_start s).

(** ** Case *)

Definition ascii_lower (c : ascii) : ascii :=
  if ((65 <=? code c) && (code c <=? 90))%N then byte_of (code c + 32) else c.
Definition to_lower (s : string) : string := smap ascii_lower s.
Definition eq_ignore_ascii_case (a b : string) : bool := String.eqb (to_lower a) (to_lower b).
Definition is_digit (c : ascii) : bool := ((48 <=? code c) && (code c <=? 57))%N.
Definition is_alpha (c : ascii) : bool :=
  ((65 <=? code c) && (code c <=? 90) || (97 <=? code c) && (code c <=? 122))%N.
Definition is_alnum (c : ascii) : bool := is_alpha c || is_digit c.

(** ** Searching and splitting *)

Fixpoint strip_prefix (p s : string) : option string :=
  match p, s with
  | "", _ => Some s
  | String a p, String b s => if Ascii.eqb a b then strip_prefix p s else None
  | String _ _, "" => None
  end.
Definition starts_with (p s : string) : bool :=
  match strip_prefix p s with Some _ => true | None => false end.
Definition strip_suffix (p s : string) : option string :=
  option_map srev (strip_prefix (srev p) (srev s)).
Definition ends_with (p s : string) : bool :=
  match strip_suffix p s with Some _ => true | None => false end.

(** [s.find(pat)]: the byte offset of the first occurrence. *)
Fixpoint find (pat s : string) : option nat :=
  if starts_with pat s then Some 0 else
  match s with "" => None | String _ s => option_map S (find pat s) end.
Definition contains (pat s : string) : bool :=
  match find pat s with Some _ => true | None => false end.
Fixpoint find_char (p : ascii -> bool) (s : string) : option nat :=
  match s with
  | "" => None
  | String c s => if p c then Some 0 else option_map S (find_char p s)
  end.

(** [s.split_once(c)] and [s.rsplit_once(c)] for a one-byte separator. *)
Fixpoint split_once (c : ascii) (s : string) : option (string * string) :=
  match s with
  | "" => None
  | String d s =>
      if Ascii.eqb c d then Some ("", s)
      else option_map (fun '(a, b) => (String d a, b)) (split_once c s)
  end.
Fixpoint rsplit_once (c : ascii) (s : string) : option (string * string) :=
  match s with
  | "" => None
  | String d s =>
      match rsplit_once c s with
      | Some (a, b) => Some (String d a, b)
      | None => if Ascii.eqb c d then Some ("", s) else None
      end
  end.
(** [s.split(c)]: never empty. *)
Fixpoint split (c : ascii) (s : string) : list string :=
  match s with
  | "" => [""]
  | String d s =>
      if Ascii.eqb c d then "" :: split c s
      else match split c s with [] => [String d ""] | w :: ws => String d w :: ws end
  end.
Fixpoint join (sep : string) (l : list string) : string :=
  match l with
  | [] => ""
  | [s] => s
  | s :: l => s ++ sep ++ join sep l
  end.

(** [s.chars().all(f)], [trim_end_matches(c)], [trim_start_matches(c)]. *)
Fixpoint trim_start_matches (p : ascii -> bool) (s : string) : string :=
  match s with "" => "" | String c s' => if p c then trim_start_matches p s' else s end.
Definition trim_end_matches (p : ascii -> bool) (s : string) : string :=
  srev (trim_start_matches p (srev s)).
Definition trim_matches (p : ascii -> bool) (s : string) : string := trim_end_matches p (trim_start_matches p s).

(** ** UTF-8

    The first character of a byte string: its length and whether it is valid;
    an invalid one is the maximal prefix of a valid encoding, at least a byte. *)
Definition in_range (lo hi : N) (c : ascii) : bool := ((lo <=? code c) && (code c <=? hi))%N.
Definition is_cont : ascii -> bool := in_range 128 191.
Definition utf8_tail (n : nat) (s : string) : nat * bool :=
  (fix go n k s :=
     match n, s with
     | O, _ => (k, true)
     | S n, String c s => if is_cont c then go n (S k) s else (k, false)
     | S _, "" => (k, false)
     end) n 0 s.
Definition utf8_head (s : string) : nat * bool :=
  match s with
  | "" => (0, true)
  | String a s1 =>
      let more (ok : ascii -> bool) (n : nat) :=
        match s1 with
        | String b s2 =>
            if ok b then let '(k, v) := utf8_tail n s2 in (2 + k, v) else (1, false)
        | "" => (1, false)
        end in
      if (code a <? 128)%N then (1, true)
      else if in_range 194 223 a then more is_cont 0
      else if in_range 224 224 a then more (in_range 160 191) 1
      else if in_range 237 237 a then more (in_range 128 159) 1
      else if in_range 225 239 a then more is_cont 1
      else if in_range 240 240 a then more (in_range 144 191) 2
      else if in_range 241 243 a then more is_cont 2
      else if in_range 244 244 a then more (in_range 128 143) 2
      else (1, false)
  end.

Definition replacement_char : string :=
  String (byte_of 239) (String (byte_of 191) (String (byte_of 189) "")).
Fixpoint lossy_go (fuel : nat) (s : string) : string :=
  match fuel, s with
  | S fuel, String _ _ =>
      let '(n, valid) := utf8_head s in
      (if valid then stake n s else replacement_char) ++ lossy_go fuel (sdrop n s)
  | _, _ => ""
  end.
Definition from_utf8_lossy (s : string) : string := lossy_go (String.length s) s.
Fixpoint utf8_valid_go (fuel : nat) (s : string) : bool :=
  match fuel, s with
  | _, "" => true
  | O, _ => false
  | S fuel, _ => let '(n, valid) := utf8_head s in valid && utf8_valid_go fuel (sdrop n s)
  end.
Definition utf8_valid (s : string) : bool := utf8_valid_go (String.length s) s.
Definition from_utf8 (s : string) : option string := if utf8_valid s then Some s else None.

(** [s.is_char_boundary(n)]; slicing a [str] elsewhere panics. *)
Definition is_boundary (s : string) (n : nat) : bool :=
  match sdrop n s with
  | "" => Nat.eqb n (String.length s) || Nat.eqb n 0
  | String c _ => negb (is_cont c)
  end.

(** ** Decimal integers *)

Definition digit_char (n : N) : ascii := byte_of (48 + n).
Fixpoint show_go (fuel : nat) (n : N) (acc : string) : string :=
  match fuel with
  | O => acc
  | S fuel =>
      let acc := String (digit_char (n mod 10)) acc in
      if (n / 10 =? 0)%N then acc else show_go fuel (n / 10) acc
  end.
Definition show_N (n : N) : string := show_go (S (N.size_nat n)) n "".
Definition show_Z (z : Z) : string :=
  if (z <? 0)%Z then String "-" (show_N (Z.to_N (- z))) else show_N (Z.to_N z).

Fixpoint parse_digits (acc : N) (s : string) : option N :=
  match s with
  | "" => Some acc
  | String c s => if is_digit c then parse_digits (acc * 10 + (code c - 48)) s else None
  end.
(** [uN::from_str]: an optional plus sign, at least one digit, no overflow. *)
Definition parse_uint (max : Z) (s : string) : option Z :=
  let body := match s with String "+" s' => s' | _ => s end in
  match body with
  | "" => None
  | _ =>
      match parse_digits 0 body with
      | Some n => if (Z.of_N n <=? max)%Z then Some (Z.of_N n) else None
      | None => None
      end
  end.
(** [iN::from_str]. *)
Definition parse_int (min max : Z) (s : string) : option Z :=
  match s with
  | String "-" s' =>
      match s' with
      | "" => None
      | _ => match parse_digits 0 s' with
             | Some n => if (min <=? - Z.of_N n)%Z then Some (- Z.of_N n)%Z else None
             | None => None
             end
      end
  | _ => parse_uint max s
  end.

(** ** [{:?}] of a string

    Exact on ASCII; bytes of multi-byte characters are printed as they are. *)
Definition hex_digit (n : N) : ascii := if (n <? 10)%N then byte_of (48 + n) else byte_of (87 + n).
Fixpoint hex_go (fuel : nat) (n : N) (acc : string) : string :=
  match fuel with
  | O => acc
  | S fuel =>
      let acc := String (hex_digit (n mod 16)) acc in
      if (n / 16 =? 0)%N then acc else hex_go fuel (n / 16) acc
  end.
Definition show_hex (n : N) : string := hex_go (S (N.size_nat n)) n "".
Definition debug_char (c : ascii) : string :=
  let n := code c in
  if (n =? 34)%N then String "\" (String c "")
  else if (n =? 92)%N then "\\"
  else if (n =? 10)%N then "\n"
  else if (n =? 13)%N then "\r"
  else if (n =? 9)%N then "\t"
  else if (n =? 0)%N then "\0"
  else if ((n <? 32) || (n =? 127))%N then "\u{" ++ show_hex n ++ "}"
  else String c "".
Fixpoint debug_body (s : string) : string :=
  match s with "" => "" | String c s => debug_char c ++ debug_body s end.
Definition debug_str (s : string) : string := dquote ++ debug_body s ++ dquote.

(** Bytewise order, the [Ord] of [str]. *)
Definition str_leb (a b : string) : bool :=
  match String.compare a b with Gt => false | _ => true end.
Definition str_ltb (a b : string) : bool :=
  match String.compare a b with Lt => true | _ => false end.

(** ** Bytes and concatenation *)

Lemma byte_of_code c : byte_of (code c) = c.
Proof. apply ascii_N_embedding. Qed.
Lemma code_byte_of n : (n < 256)%N -> code (byte_of n) = n.
Proof. apply N_ascii_embedding. Qed.
Lemma code_bound c : (code c < 256)%N.
Proof. apply N_ascii_bounded. Qed.
Lemma code_inj c d : code c = code d -> c = d.
Proof. intros H. rewrite <- (byte_of_code c), <- (byte_of_code d). by f_equal. Qed.

Lemma String_inj a b s t : String a s = String b t -> a = b /\ s = t.
Proof. by intros [= -> ->]. Qed.
Lemma app_nil_r (s : string) : s ++ "" = s.
Proof. induction s; simpl; congruence. Qed.
Lemma app_assoc (a b c : string) : (a ++ b) ++ c = a ++ b ++ c.
Proof. induction a; simpl; congruence. Qed.
Lemma length_app_s (a b : string) : String.length (a ++ b) = String.length a + String.length b.
Proof. induction a; simpl; congruence. Qed.
Lemma slen_app (a b : string) : slen (a ++ b) = (slen a + slen b)%Z.
Proof. unfold slen. rewrite length_app_s. lia. Qed.
Lemma slen_nonneg s : (0 <= slen s)%Z.
Proof. unfold slen; lia. Qed.
Lemma app_inj_l (a b c : string) : a ++ b = a ++ c -> b = c.
Proof. induction a; simpl; [done|]. intros [= H]; auto. Qed.
Lemma srev_app_spec s acc : srev_app s acc = srev s ++ acc.
Proof.
  unfold srev. revert acc. induction s as [|c s IH]; intros acc; simpl; [done|].
  rewrite IH, (IH (String c "")), app_assoc. done.
Qed.
Lemma srev_cons c s : srev (String c s) = srev s ++ String c "".
Proof. unfold srev. simpl. apply srev_app_spec. Qed.
Lemma srev_app_distr a b : srev (a ++ b) = srev b ++ srev a.
Proof.
  induction a as [|c a IH]; simpl; [by rewrite app_nil_r|].
  rewrite !srev_cons, IH, app_assoc. done.
Qed.
Lemma srev_involutive s : srev (srev s) = s.
Proof. induction s as [|c s IH]; [done|]. rewrite srev_cons, srev_app_distr, IH. done. Qed.
Lemma length_srev s : String.length (srev s) = String.length s.
Proof. induction s as [|c s IH]; [done|]. rewrite srev_cons, length_app_s, IH. simpl. lia. Qed.
Lemma srev_inj a b : srev a = srev b -> a = b.
Proof. intros H. by rewrite <- (srev_involutive a), H, srev_involutive. Qed.
Lemma stake_sdrop n s : stake n s ++ sdrop n s = s.
Proof. revert s. induction n; intros [|c s]; simpl; congruence. Qed.
Lemma sdrop_sdrop a b s : sdrop a (sdrop b s) = sdrop (b + a) s.
Proof. revert s. induction b as [|b IH]; intros [|c s]; simpl; try done. by destruct a. Qed.
Lemma length_sdrop n s : String.length (sdrop n s) = String.length s - n.
Proof. revert s. induction n; intros [|c s]; simpl; auto. Qed.
Lemma length_stake n s : String.length (stake n s) = n `min` String.length s.
Proof. revert s. induction n; intros [|c s]; simpl; auto. Qed.
Lemma sdrop_app_length a b : sdrop (String.length a) (a ++ b) = b.
Proof. induction a; simpl; [by destruct b|done]. Qed.
Lemma stake_app_length a b : stake (String.length a) (a ++ b) = a.
Proof. induction a; simpl; [by destruct b|congruence]. Qed.
Lemma stake_all n s : String.length s <= n -> stake n s = s.
Proof. revert s. induction n; intros [|c s] H; simpl in *; try done; try lia. rewrite IHn; [done|lia]. Qed.
Lemma stake_app_le n a b : n <= String.length a -> stake n (a ++ b) = stake n a.
Proof.
  revert a. induction n as [|n IH]; intros [|c a] H; simpl in *; try done; try lia.
  rewrite IH; [done|lia].
Qed.

Lemma string_list_app a b :
  String.list_ascii_of_string (a ++ b) = (String.list_ascii_of_string a ++ String.list_ascii_of_string b)%list.
Proof. induction a; simpl; congruence. Qed.

Lemma strip_prefix_spec p s r : strip_prefix p s = Some r <-> s = p ++ r.
Proof.
  revert s. induction p as [|c p IH]; intros s; simpl; [naive_solver|].
  destruct s as [|d s]; [by split|].
  destruct (Ascii.eqb_spec c d) as [->|Hn]; [rewrite IH|]; split; congruence.
Qed.
Lemma starts_with_spec p s : starts_with p s = true <-> exists r, s = p ++ r.
Proof.
  unfold starts_with. destruct (strip_prefix p s) as [r|] eqn:E.
  - apply strip_prefix_spec in E. naive_solver.
  - split; [done|]. intros [r Hr%strip_prefix_spec]. congruence.
Qed.
Lemma starts_with_app p s : starts_with p (p ++ s) = true.
Proof. apply starts_with_spec. by exists s. Qed.
Lemma strip_suffix_spec p s r : strip_suffix p s = Some r <-> s = r ++ p.
Proof.
  unfold strip_suffix. split.
  - destruct (strip_prefix _ _) as [q|] eqn:H; [|done]. intros [= <-].
    apply strip_prefix_spec in H. apply srev_inj. rewrite H, srev_app_distr, srev_involutive. done.
  - intros ->. rewrite srev_app_distr. destruct (strip_prefix _ _) as [q|] eqn:H.
    + apply strip_prefix_spec, app_inj_l in H as <-. simpl. by rewrite srev_involutive.
    + assert (strip_prefix (srev p) (srev p ++ srev r) = Some (srev r)) as E
        by (by apply strip_prefix_spec). congruence.
Qed.
Lemma ends_with_spec p s : ends_with p s = true <-> exists r, s = r ++ p.
Proof.
  unfold ends_with. destruct (strip_suffix p s) as [r|] eqn:E.
  - apply strip_suffix_spec in E. naive_solver.
  - split; [done|]. intros [r Hr%strip_suffix_spec]. congruence.
Qed.

(** ** Lemmas on trimming *)

Lemma ws_len_bound s : ws_len s <= 3 /\ ws_len s <= String.length s.
Proof.
  destruct s as [|a [|b [|c s]]]; simpl; repeat case_match; simpl; lia.
Qed.
Lemma ws_len_app a b : 0 < ws_len a -> ws_len (a ++ b) = ws_len a.
Proof.
  destruct a as [|x [|y [|z a]]]; simpl; repeat case_match; simpl; try lia; congruence.
Qed.

Section DropWhile.
Context (len : string -> nat) (Hb : forall s, len s <= String.length s).

Lemma drop_while_done fuel s :
  String.length s <= fuel -> len (drop_while_len len fuel s) = 0.
Proof.
  revert s. induction fuel as [|fuel IH]; intros s Hf; cbn [drop_while_len].
  { specialize (Hb s). lia. }
  destruct (len s) as [|n] eqn:E; [done|]. apply IH. rewrite length_sdrop.
  specialize (Hb s). lia.
Qed.
Lemma drop_while_suffix fuel s : exists p, s = p ++ drop_while_len len fuel s.
Proof.
  revert s. induction fuel as [|fuel IH]; intros s; cbn [drop_while_len]; [by exists ""|].
  destruct (len s) as [|n]; [by exists ""|]. destruct (IH (sdrop (S n) s)) as [p Hp].
  exists (stake (S n) s ++ p). rewrite app_assoc, <- Hp. by rewrite stake_sdrop.
Qed.
Lemma drop_while_id fuel s : len s = 0 -> drop_while_len len fuel s = s.
Proof. destruct fuel; simpl; [done|]. by intros ->. Qed.
End DropWhile.

Lemma ws_len_rev_bound r : ws_len_rev r <= String.length r.
Proof.
  assert (forall n, ws_len (srev (stake n r)) <= String.length r) as H.
  { intros n. destruct (ws_len_bound (srev (stake n r))) as [_ H]. rewrite length_srev, length_stake in H. lia. }
  unfold ws_len_rev. pose proof (H 2) as L2. pose proof (H 3) as L3.
  pose proof (ws_len_bound (stake 1 r)) as [_ L1]. rewrite length_stake in L1.
  repeat case_match; try lia.
  all: repeat match goal with E : Nat.eqb _ _ = true |- _ => apply Nat.eqb_eq in E end; lia.
Qed.

Lemma trim_start_ws s : ws_len (trim_start s) = 0.
Proof. apply drop_while_done; [|lia]. intros; by apply ws_len_bound. Qed.
Lemma trim_end_ws s : ws_len_rev (srev (trim_end s)) = 0.
Proof.
  unfold trim_end. rewrite srev_involutive. apply drop_while_done; [|by rewrite length_srev].
  apply ws_len_rev_bound.
Qed.
Lemma trim_start_id s : ws_len s = 0 -> trim_start s = s.
Proof. apply drop_while_id. Qed.
Lemma trim_end_id s : ws_len_rev (srev s) = 0 -> trim_end s = s.
Proof. unfold trim_end. intros. rewrite drop_while_id by done. apply srev_involutive. Qed.
Lemma trim_end_prefix s : exists t, s = trim_end s ++ t.
Proof.
  unfold trim_end. destruct (drop_while_suffix ws_len_rev (String.length s) (srev s)) as [p Hp].
  exists (srev p). rewrite <- srev_app_distr, <- Hp. by rewrite srev_involutive.
Qed.
Lemma trim_ws s : ws_len (trim s) = 0.
Proof.
  unfold trim. destruct (trim_end_prefix (trim_start s)) as [t Ht].
  destruct (ws_len (trim_end (trim_start s))) as [|n] eqn:E; [done|exfalso].
  pose proof (trim_start_ws s) as H0. rewrite Ht, ws_len_app in H0; lia.
Qed.
Lemma trim_idemp s : trim (trim s) = trim s.
Proof.
  unfold trim at 1. rewrite (trim_start_id (trim s)) by apply trim_ws.
  apply trim_end_id. unfold trim. apply trim_end_ws.
Qed.
Lemma is_empty_true s : is_empty s = true <-> s = "".
Proof. by destruct s. Qed.
Lemma is_empty_false s : is_empty s = false <-> s <> "".
Proof. by destruct s. Qed.
(** A string is its own trimmed form when no white space starts or ends it. *)
Definition trimmed (s : string) : Prop := trim s = s.
#[global] Instance trimmed_dec s : Decision (trimmed s).
Proof. unfold trimmed. apply _. Defined.
#[export] Hint Rewrite trim_idemp : orbien_rw.

(** ** Lemmas on splitting *)

Lemma split_once_spec c s a b :
  split_once c s = Some (a, b) <-> s = a ++ String c b /\ sforall (fun d => negb (Ascii.eqb c d)) a = true.
Proof.
  revert a. induction s as [|d s IH]; intros a; simpl.
  { split; [done|]. intros [H _]. by destruct a. }
  destruct (Ascii.eqb_spec c d) as [<-|Hn].
  { split; [intros [= <- <-]; done|]. intros [H1 H2].
    destruct a as [|x a]; simpl in *; [naive_solver|]. injection H1 as <- ->.
    rewrite Ascii.eqb_refl in H2. done. }
  destruct (split_once c s) as [[a' b']|]; simpl.
  - split.
    + intros [= <- <-]. destruct (proj1 (IH a')) as [-> Ha']; [done|]. simpl. split; [done|].
      destruct (Ascii.eqb_spec c d); [congruence|]. done.
    + intros [H1 H2]. destruct a as [|x a]; [naive_solver|]. injection H1 as <- H1.
      simpl in H2. apply andb_true_iff in H2 as [_ H2]. assert (Some (a', b') = Some (a, b)) by (by apply IH).
      naive_solver.
  - split; [done|]. intros [H1 H2]. destruct a as [|x a]; [naive_solver|]. injection H1 as <- H1.
    simpl in H2. apply andb_true_iff in H2 as [_ H2].
    assert (None = Some (a, b)) by (by apply IH). done.
Qed.
Lemma rsplit_once_spec c s a b :
  rsplit_once c s = Some (a, b) -> s = a ++ String c b /\ sforall (fun d => negb (Ascii.eqb c d)) b = true.
Proof.
  assert (forall s, rsplit_once c s = None -> sforall (fun d => negb (Ascii.eqb c d)) s = true) as Hnone.
  { clear. intros s. induction s as [|d s IH]; simpl; [done|].
    destruct (rsplit_once c s) as [[? ?]|]; [done|]. destruct (Ascii.eqb c d); [done|]. intros _. by rewrite IH. }
  revert a. induction s as [|d s IH]; intros a; simpl; [done|].
  destruct (rsplit_once c s) as [[a' b']|] eqn:E.
  - intros [= <- <-]. destruct (IH a') as [-> ?]; [done|]. done.
  - destruct (Ascii.eqb_spec c d) as [->|]; [|done]. intros [= <- <-]. split; [done|]. by apply Hnone.
Qed.
Lemma rsplit_once_none c s :
  sforall (fun d => negb (Ascii.eqb c d)) s = true <-> rsplit_once c s = None.
Proof.
  induction s as [|d s IH]; simpl; [done|]. rewrite andb_true_iff, IH.
  destruct (rsplit_once c s) as [[? ?]|]; [naive_solver|]. destruct (Ascii.eqb c d); naive_solver.
Qed.
Lemma rsplit_once_app c a b :
  sforall (fun d => negb (Ascii.eqb c d)) b = true -> rsplit_once c (a ++ String c b) = Some (a, b).
Proof.
  intros Hb. apply rsplit_once_none in Hb. induction a as [|d a IH]; simpl.
  - by rewrite Hb, Ascii.eqb_refl.
  - by rewrite IH.
Qed.
Lemma split_none c s : sforall (fun d => negb (Ascii.eqb c d)) s = true -> split c s = [s].
Proof.
  induction s as [|d s IH]; simpl; [done|]. intros [H1 H2]%andb_true_iff.
  apply negb_true_iff in H1. rewrite H1, IH by done. done.
Qed.
Lemma split_app c a b :
  sforall (fun d => negb (Ascii.eqb c d)) a = true -> split c (a ++ String c b) = a :: split c b.
Proof.
  induction a as [|d a IH]; simpl; [by rewrite Ascii.eqb_refl|].
  intros [H1 H2]%andb_true_iff. apply negb_true_iff in H1. rewrite H1, IH by done. done.
Qed.

(** ** Lemmas on case folding *)

Lemma ascii_lower_idemp c : ascii_lower (ascii_lower c) = ascii_lower c.
Proof. destruct c as [[] [] [] [] [] [] [] []]; reflexivity. Qed.
Lemma to_lower_idemp s : to_lower (to_lower s) = to_lower s.
Proof. unfold to_lower. induction s; simpl; [done|]. by rewrite ascii_lower_idemp, IHs. Qed.
Lemma to_lower_app a b : to_lower (a ++ b) = to_lower a ++ to_lower b.
Proof. unfold to_lower. induction a; simpl; congruence. Qed.

Lemma smap_app f a b : smap f (a ++ b) = smap f a ++ smap f b.
Proof. induction a; simpl; congruence. Qed.
Lemma length_smap f s : String.length (smap f s) = String.length s.
Proof. induction s; simpl; congruence. Qed.
Lemma smap_srev f s : smap f (srev s) = srev (smap f s).
Proof. induction s as [|c s IH]; simpl; [done|]. by rewrite !srev_cons, smap_app, IH. Qed.
Lemma smap_sdrop f n s : smap f (sdrop n s) = sdrop n (smap f s).
Proof. revert s. induction n; intros [|c s]; simpl; auto. Qed.
Lemma smap_stake f n s : smap f (stake n s) = stake n (smap f s).
Proof. revert s. induction n; intros [|c s]; simpl; try done. by rewrite IHn. Qed.

Lemma lower_code c :
  code (ascii_lower c) = code c \/ ((65 <= code c <= 90) /\ code (ascii_lower c) = code c + 32)%N.
Proof.
  unfold ascii_lower. destruct (N.leb_spec 65 (code c)); simpl; [|by left].
  destruct (N.leb_spec (code c) 90); simpl; [|by left]. right. rewrite code_byte_of by lia. lia.
Qed.
Lemma lower_eqb c k : (k < 65 \/ 122 < k)%N -> (code (ascii_lower c) =? k)%N = (code c =? k)%N.
Proof.
  intros Hk. destruct (lower_code c) as [->|[H ->]]; [done|].
  destruct (N.eqb_spec (code c + 32) k), (N.eqb_spec (code c) k); try done; lia.
Qed.
Lemma lower_leb_l c k : (k <= 65 \/ 122 < k)%N -> (k <=? code (ascii_lower c))%N = (k <=? code c)%N.
Proof.
  intros Hk. destruct (lower_code c) as [->|[H ->]]; [done|].
  destruct (N.leb_spec k (code c + 32)), (N.leb_spec k (code c)); try done; lia.
Qed.
Lemma lower_leb_r c k : (k < 65 \/ 122 <= k)%N -> (code (ascii_lower c) <=? k)%N = (code c <=? k)%N.
Proof.
  intros Hk. destruct (lower_code c) as [->|[H ->]]; [done|].
  destruct (N.leb_spec (code c + 32) k), (N.leb_spec (code c) k); try done; lia.
Qed.
Lemma ws_len_lower s : ws_len (to_lower s) = ws_len s.
Proof.
  unfold to_lower. destruct s as [|a [|b [|c s]]]; cbn [smap ws_len]; [done|..];
    rewrite ?lower_eqb, ?lower_leb_l, ?lower_leb_r by lia; done.
Qed.
Lemma drop_while_lower len fuel s :
  (forall s, len (to_lower s) = len s) ->
  drop_while_len len fuel (to_lower s) = to_lower (drop_while_len len fuel s).
Proof.
  intros H. revert s. induction fuel as [|fuel IH]; intros s; cbn [drop_while_len]; [done|].
  rewrite H. destruct (len s); [done|]. unfold to_lower in *. by rewrite <- smap_sdrop, IH.
Qed.
Lemma ws_len_rev_lower s : ws_len_rev (to_lower s) = ws_len_rev s.
Proof.
  unfold ws_len_rev, to_lower. rewrite <- !smap_stake, <- !smap_srev.
  change (smap ascii_lower) with to_lower. by rewrite !ws_len_lower.
Qed.
Lemma trim_lower s : trim (to_lower s) = to_lower (trim s).
Proof.
  assert (forall s, trim_start (to_lower s) = to_lower (trim_start s)) as Hs.
  { clear. intros s. unfold trim_start. unfold to_lower at 1. rewrite length_smap.
    apply drop_while_lower, ws_len_lower. }
  assert (forall s, trim_end (to_lower s) = to_lower (trim_end s)) as He.
  { clear. intros s. unfold trim_end. unfold to_lower at 1 2. rewrite length_smap, <- smap_srev.
    change (smap ascii_lower (srev s)) with (to_lower (srev s)).
    rewrite drop_while_lower by apply ws_len_rev_lower. unfold to_lower. by rewrite smap_srev. }
  unfold trim. by rewrite Hs, He.
Qed.

(** ** Lemmas on decimal integers *)

Lemma digit_char_spec n : (n < 10)%N -> is_digit (digit_char n) = true /\ (code (digit_char n) - 48 = n)%N.
Proof.
  intros H. unfold is_digit, digit_char. rewrite code_byte_of by lia.
  split; [|lia]. apply andb_true_iff. split; apply N.leb_le; lia.
Qed.
Lemma parse_show_go fuel n acc :
  (n < 2 ^ N.of_nat fuel)%N -> parse_digits 0 (show_go fuel n acc) = parse_digits n acc.
Proof.
  revert n acc. induction fuel as [|fuel IH]; intros n acc Hn.
  { simpl in *. by assert (n = 0)%N as -> by lia. }
  cbn [show_go]. destruct (digit_char_spec (n mod 10)) as [Hd Hc]; [by apply N.mod_lt|].
  destruct (N.eqb_spec (n / 10) 0) as [E|E].
  - cbn [parse_digits]. rewrite Hd, Hc. f_equal. rewrite (N.div_mod n 10) at 2 by done. lia.
  - rewrite IH.
    + cbn [parse_digits]. rewrite Hd, Hc. f_equal. rewrite (N.div_mod n 10) at 3 by done. lia.
    + rewrite Nat2N.inj_succ, N.pow_succ_r' in Hn. apply N.Div0.div_lt_upper_bound. lia.
Qed.
Lemma size_nat_bound n : (n < 2 ^ N.of_nat (S (N.size_nat n)))%N.
Proof.
  destruct n as [|p]; [done|]. rewrite Nat2N.inj_succ, N.pow_succ_r'. simpl N.size_nat.
  assert (N.pos p < 2 ^ N.of_nat (Pos.size_nat p))%N; [|lia].
  induction p as [p IH|p IH|]; simpl Pos.size_nat; rewrite ?Nat2N.inj_succ, ?N.pow_succ_r'; try lia.
Qed.
Lemma parse_show_N n : parse_digits 0 (show_N n) = Some n.
Proof. unfold show_N. by rewrite parse_show_go by apply size_nat_bound. Qed.

Lemma show_go_all fuel n acc :
  sforall is_digit acc = true -> sforall is_digit (show_go fuel n acc) = true.
Proof.
  revert n acc. induction fuel as [|fuel IH]; intros n acc Ha; [done|]. cbn [show_go].
  destruct (digit_char_spec (n mod 10)) as [Hd _]; [by apply N.mod_lt|].
  destruct (n / 10 =? 0)%N; [|apply IH]; simpl; by rewrite Hd.
Qed.
Lemma show_N_digits n : sforall is_digit (show_N n) = true.
Proof. by apply show_go_all. Qed.
Lemma show_go_nonempty fuel n acc : acc <> "" -> show_go fuel n acc <> "".
Proof.
  revert n acc. induction fuel as [|fuel IH]; intros n acc Ha; [done|]. cbn [show_go].
  destruct (n / 10 =? 0)%N; [done|]. by apply IH.
Qed.
Lemma show_N_cons n : exists c s, show_N n = String c s /\ is_digit c = true.
Proof.
  pose proof (show_N_digits n) as Hd. unfold show_N in *. cbn [show_go] in *.
  assert ((if (n / 10 =? 0)%N then String (digit_char (n mod 10)) ""
           else show_go (N.size_nat n) (n / 10) (String (digit_char (n mod 10)) "")) <> "") as Hne.
  { destruct (n / 10 =? 0)%N; [done|]. by apply show_go_nonempty. }
  destruct (if (n / 10 =? 0)%N then _ else _) as [|c s]; [done|].
  exists c, s. split; [done|]. simpl in Hd. by apply andb_true_iff in Hd as [? _].
Qed.
Lemma show_Z_digits z : (0 <= z)%Z -> sforall is_digit (show_Z z) = true.
Proof. intros. unfold show_Z. destruct (Z.ltb_spec z 0); [lia|]. apply show_N_digits. Qed.
Lemma digit_not c : is_digit c = true -> c <> "+"%char /\ c <> "-"%char.
Proof. intros H. split; intros ->; vm_compute in H; done. Qed.
Lemma parse_uint_show max z : (0 <= z <= max)%Z -> parse_uint max (show_Z z) = Some z.
Proof.
  intros Hz. unfold show_Z. destruct (Z.ltb_spec z 0); [lia|]. unfold parse_uint.
  destruct (show_N_cons (Z.to_N z)) as (c & s & E & Hd). pose proof (parse_show_N (Z.to_N z)) as Hp.
  rewrite E in *. destruct (digit_not c Hd) as [Hc _].
  assert ((match c with "+"%char => s | _ => String c s end) = String c s) as Hm.
  { destruct c as [[] [] [] [] [] [] [] []]; try done. }
  rewrite Hm. rewrite Hp. rewrite Z2N.id by lia. destruct (Z.leb_spec z max); [done|lia].
Qed.
Lemma parse_uint_range max s z : parse_uint max s = Some z -> (0 <= z <= max)%Z.
Proof.
  unfold parse_uint. destruct (match s with String "+" s' => s' | _ => s end); [done|].
  destruct (parse_digits _ _) as [n|]; [|done]. destruct (Z.leb_spec (Z.of_N n) max); [|done].
  intros [= <-]. lia.
Qed.
Lemma show_Z_inj a b : (0 <= a)%Z -> (0 <= b)%Z -> show_Z a = show_Z b -> a = b.
Proof.
  intros Ha Hb E. pose proof (parse_uint_show (Z.max a b) a) as H1.
  pose proof (parse_uint_show (Z.max a b) b) as H2. rewrite E in H1.
  assert (Some a = Some b) by (rewrite <- H1, <- H2 by lia; done). congruence.
Qed.

(** ** Lemmas on UTF-8 *)

Lemma ascii_lossy s : sforall (fun c => (code c <? 128)%N) s = true -> from_utf8_lossy s = s.
Proof.
  unfold from_utf8_lossy. induction s as [|c s IH]; [done|].
  cbn [sforall String.length lossy_go]. intros [Hc Hs]%andb_true_iff.
  unfold utf8_head. rewrite Hc. cbn [stake sdrop String.append]. by rewrite IH.
Qed.

Lemma ascii_valid s : sforall (fun c => (code c <? 128)%N) s = true -> utf8_valid s = true.
Proof.
  unfold utf8_valid. induction s as [|c s IH]; [done|]. cbn [sforall String.length utf8_valid_go]. intros [Hc Hs]%andb_true_iff.
  unfold utf8_head. rewrite Hc. cbn [sdrop andb]. by apply IH.
Qed.

(** No continuation byte comes first, or right after an ASCII byte: those are boundaries. *)
Definition high (c : ascii) : bool := (128 <=? code c)%N.
Definition no_cont_head (s : string) : Prop := match s with String c _ => is_cont c = false | "" => True end.
Definition clean_text (s : string) : Prop :=
  no_cont_head s /\ forall a c rest, s = a ++ String c rest -> (code c < 128)%N -> no_cont_head rest.
Lemma clean_chunk chunk s : chunk <> "" -> no_cont_head chunk ->
  (exists c, chunk = String c "") \/ sforall high chunk = true -> clean_text s -> clean_text (chunk ++ s).
Proof.
  intros Hne Hhd Hc [H1 H2]. split; [by destruct chunk|]. destruct Hc as [[c0 ->]|Hh].
  - intros [|c a] c' rest [= -> E]; [by subst|]. by eapply H2.
  - clear Hne Hhd. revert Hh. induction chunk as [|c0 chunk IH]; cbn [sforall String.append]; intros Hh a c rest E Hlt; [by eapply H2|].
    apply andb_prop in Hh as [Hc0 Hh]. destruct a as [|c1 a]; injection E as -> E; [|by eapply IH].
    unfold high in Hc0. apply N.leb_le in Hc0. lia.
Qed.
Lemma in_range_high lo hi c : (128 <= lo)%N -> in_range lo hi c = true -> high c = true.
Proof. unfold in_range, high. intros Hlo [H%N.leb_le _]%andb_prop. apply N.leb_le. lia. Qed.
Lemma utf8_tail_high n s k : utf8_tail n s = (k, true) -> sforall high (stake k s) = true.
Proof.
  unfold utf8_tail. assert (forall n k0 s k, (fix go n k s :=
     match n, s with
     | O, _ => (k, true)
     | S n, String c s => if is_cont c then go n (S k) s else (k, false)
     | S _, "" => (k, false)
     end) n k0 s = (k, true) -> exists j, k = k0 + j /\ sforall high (stake j s) = true) as Hgo.
  { clear. intros n. induction n as [|n IH]; intros k0 s k; [intros [= ->]; exists 0; split; [lia|done]|].
    destruct s as [|c s]; [done|]. destruct (is_cont c) eqn:Ec; [|done]. intros (j & -> & Hj)%IH. exists (S j). split; [lia|].
    cbn. rewrite Hj, andb_true_r. by apply (in_range_high 128 191). }
  intros (j & -> & Hj)%Hgo. exact Hj.
Qed.
Lemma utf8_head_clean a s n : utf8_head (String a s) = (n, true) ->
  0 < n /\ is_cont a = false /\ ((n = 1 /\ (code a < 128)%N) \/ sforall high (stake n (String a s)) = true).
Proof.
  unfold utf8_head. destruct (N.ltb_spec (code a) 128) as [Hlt|Hge].
  { intros [= <-]. split; [lia|]. split; [|by left]. unfold is_cont, in_range. apply andb_false_iff. left. apply N.leb_gt. lia. }
  assert (high a = true) as Ha by (by apply N.leb_le).
  assert (forall ok m lo hi, (forall b, ok b = true -> high b = true) -> in_range lo hi a = true -> (192 <= lo)%N ->
    (match s with String b s2 => if ok b then let '(k, v) := utf8_tail m s2 in (2 + k, v) else (1, false) | "" => (1, false) end) = (n, true) ->
    0 < n /\ is_cont a = false /\ ((n = 1 /\ (code a < 128)%N) \/ sforall high (stake n (String a s)) = true)) as Hmore.
  { intros ok m lo hi Hok Hr Hlo. destruct s as [|b s2]; [done|]. destruct (ok b) eqn:Eb; [|done].
    destruct (utf8_tail m s2) as [k v] eqn:Et. intros [= <- ->]. split; [lia|]. split.
    - unfold is_cont, in_range. apply andb_false_iff. right. apply N.leb_gt. unfold in_range in Hr. apply andb_prop in Hr as [Hr%N.leb_le _]. lia.
    - right. cbn. rewrite Ha, (Hok b Eb). cbn. by apply (utf8_tail_high m). }
  repeat match goal with |- context [if in_range ?lo ?hi a then _ else _] => destruct (in_range lo hi a) eqn:? end; try done;
    (eapply Hmore; [|eassumption|lia]; intros b; eapply in_range_high; lia).
Qed.
Lemma lossy_clean s : clean_text (from_utf8_lossy s).
Proof.
  unfold from_utf8_lossy. generalize (String.length s) as fuel. intros fuel. revert s.
  assert (clean_text "") as Hnil by (split; [done|]; by intros [|c a] c' rest E).
  induction fuel as [|fuel IH]; intros s; [done|]. destruct s as [|a s]; [done|]. cbn [lossy_go].
  destruct (utf8_head (String a s)) as [n [|]] eqn:E; [|by apply clean_chunk; [| |right|]].
  apply utf8_head_clean in E as (Hn & Hc & Hh). destruct n as [|n]; [lia|]. apply clean_chunk; [done|done| |by apply IH].
  destruct Hh as [[[= ->] _]|Hh]; [left; by eexists|by right].
Qed.

Example utf8_ex :
  utf8_valid (String (byte_of 195) (String (byte_of 169) "x")) = true
  /\ from_utf8_lossy (String (byte_of 225) (String (byte_of 128) "x")) = replacement_char ++ "x".
Proof. split; reflexivity. Qed.

Example trim_ex : trim (String " " (String (byte_of 194) (String (byte_of 160) "ab c "))) = "ab c".
Proof. reflexivity. Qed.
Example show_ex : show_Z 65535 = "65535" /\ parse_uint 65535 "+080" = Some 80%Z /\ parse_uint 65535 "65536" = None.
Proof. repeat split; reflexivity. Qed.

(** ** Trimming text that ends in a digit *)

Lemma ws_len_app_ascii h c t :
  h <> "" -> (code c < 128)%N -> ws_len (h ++ String c t) = ws_len h.
Proof.
  intros Hh Hc.
  assert (forall k, (128 <= k)%N -> (code c =? k)%N = false) as He by (intros; apply N.eqb_neq; lia).
  assert (forall k, (128 <= k)%N -> (k <=? code c)%N = false) as Hl by (intros; apply N.leb_gt; lia).
  destruct h as [|a [|b [|d h]]]; [done|..]; cbn [String.append ws_len].
  - rewrite !He by lia. cbn [orb]. rewrite !andb_false_r. destruct t; [done|]. cbn [andb orb].
    rewrite ?andb_false_r. done.
  - rewrite !He, !Hl by lia. cbn [orb andb]. rewrite !andb_false_r. done.
  - done.
Qed.
Lemma ws_len_bracket s : ws_len (String "[" s) = 0.
Proof. destruct s as [|b [|c s]]; reflexivity. Qed.
(** A visible ASCII character. *)
Definition graphic (c : ascii) : bool := ((33 <=? code c) && (code c <=? 126))%N.
Lemma graphic_ws c s : graphic c = true -> ws_len (String c s) = 0.
Proof.
  unfold graphic. intros [H1%N.leb_le H2%N.leb_le]%andb_true_iff. cbn [ws_len].
  destruct (N.leb_spec (code c) 13); [lia|]. destruct (N.eqb_spec (code c) 32); [lia|].
  assert (forall k, (128 <= k)%N -> (code c =? k)%N = false) as He by (intros; apply N.eqb_neq; lia).
  rewrite !He by lia. rewrite andb_false_r. destruct s as [|b [|d s]]; reflexivity.
Qed.
Lemma digit_graphic c : is_digit c = true -> graphic c = true.
Proof. unfold is_digit, graphic. intros [H1%N.leb_le H2%N.leb_le]%andb_true_iff. apply andb_true_iff. split; apply N.leb_le; lia. Qed.
Lemma sforall_app p a b : sforall p (a ++ b) = sforall p a && sforall p b.
Proof. induction a; simpl; [done|]. by rewrite IHa, andb_assoc. Qed.
Lemma sforall_srev p s : sforall p (srev s) = sforall p s.
Proof.
  induction s as [|c s IH]; [done|]. rewrite srev_cons, sforall_app, IH. simpl.
  rewrite andb_true_r. apply andb_comm.
Qed.
Lemma sforall_impl (p q : ascii -> bool) s :
  (forall c, p c = true -> q c = true) -> sforall p s = true -> sforall q s = true.
Proof.
  intros H. induction s as [|c s IH]; simpl; [done|]. intros [H1 H2]%andb_true_iff.
  by rewrite (H c H1), IH.
Qed.
(** A byte of ASCII ends no longer white space character. *)
Lemma ws_len_rev_plain d r : (code d < 128)%N -> ws_len (String d "") = 0 -> ws_len_rev (String d r) = 0.
Proof.
  intros H2 H0.
  assert (forall k, (128 <= k)%N -> (code d =? k)%N = false) as He by (intros; apply N.eqb_neq; lia).
  assert (forall k, (128 <= k)%N -> (k <=? code d)%N = false) as Hl by (intros; apply N.leb_gt; lia).
  assert (forall a, ws_len (String a (String d "")) <> 2) as Hn2.
  { intros a. cbn [ws_len]. destruct (_ || _)%bool; [done|]. rewrite !He by lia. cbn [orb]. rewrite andb_false_r. done. }
  assert (forall a b, ws_len (String a (String b (String d ""))) <> 3) as Hn3.
  { intros a b. cbn [ws_len]. destruct (_ || _)%bool; [done|]. destruct (_ && _)%bool; [done|].
    rewrite !He, !Hl by lia. cbn [andb orb]. rewrite !andb_false_r. done. }
  unfold ws_len_rev. cbn [stake]. rewrite H0. cbn [Nat.eqb].
  destruct r as [|a [|b r]]; cbn [stake].
  - change (srev (String d "")) with (String d ""). rewrite H0. done.
  - destruct (Nat.eqb_spec (ws_len (srev (String d (String a "")))) 2) as [E|_]; [by apply Hn2 in E|].
    destruct (Nat.eqb_spec (ws_len (srev (String d (String a "")))) 3) as [E|_]; [|done].
    pose proof (proj2 (ws_len_bound (srev (String d (String a ""))))). rewrite E, length_srev in *. simpl in *. lia.
  - destruct (Nat.eqb_spec (ws_len (srev (String d (String a "")))) 2) as [E|_]; [by apply Hn2 in E|].
    destruct (Nat.eqb_spec (ws_len (srev (String d (String a (String b ""))))) 3) as [E|_]; [by apply Hn3 in E|done].
Qed.
Lemma ws_len_rev_digit d r : is_digit d = true -> ws_len_rev (String d r) = 0.
Proof.
  unfold is_digit. intros [H1%N.leb_le H2%N.leb_le]%andb_true_iff. apply ws_len_rev_plain; [lia|].
  cbn [ws_len]. destruct (N.eqb_spec (code d) 32); [lia|]. destruct (N.leb_spec (code d) 13); [lia|].
  by rewrite andb_false_r.
Qed.
Lemma trim_app_digits a b :
  ws_len (a ++ b) = 0 -> sforall is_digit b = true -> b <> "" -> trim (a ++ b) = a ++ b.
Proof.
  intros Ha Hb Hne. unfold trim. rewrite trim_start_id by done. apply trim_end_id.
  rewrite srev_app_distr. rewrite <- sforall_srev in Hb.
  destruct (srev b) as [|d r] eqn:E; [|].
  { apply (f_equal srev) in E. rewrite srev_involutive in E. done. }
  simpl in *. apply andb_true_iff in Hb as [Hd _]. by apply ws_len_rev_digit.
Qed.
Lemma show_Z_nonempty z : (0 <= z)%Z -> show_Z z <> "".
Proof.
  intros. unfold show_Z. destruct (Z.ltb_spec z 0); [lia|]. destruct (show_N_cons (Z.to_N z)) as (c & s & -> & _). done.
Qed.
Lemma digits_no c s : is_digit c = false -> sforall is_digit s = true -> sforall (fun d => negb (Ascii.eqb c d)) s = true.
Proof.
  intros Hc. apply sforall_impl. intros d Hd. destruct (Ascii.eqb_spec c d) as [->|]; [congruence|done].
Qed.
Lemma contains_char c s :
  contains (String c "") s = false <-> sforall (fun d => negb (Ascii.eqb c d)) s = true.
Proof.
  unfold contains. induction s as [|d s IH]; cbn [find sforall]; [done|].
  unfold starts_with. cbn [strip_prefix]. destruct (Ascii.eqb c d); cbn [negb andb]; [done|].
  rewrite <- IH. by destruct (find (String c "") s).
Qed.

Lemma drop_while_empty len fuel r :
  (forall s, len s <= String.length s) -> r <> "" -> drop_while_len len fuel r = "" ->
  exists q r', r = q ++ r' /\ r' <> "" /\ len r' = String.length r'.
Proof.
  intros Hb. revert r. induction fuel as [|fuel IH]; intros r Hne; cbn [drop_while_len]; [done|].
  destruct (len r) as [|n] eqn:E; [done|]. intros H.
  destruct (sdrop (S n) r) as [|c t] eqn:Ed.
  - exists "", r. split; [done|]. split; [done|]. pose proof (length_sdrop (S n) r) as Hl.
    rewrite Ed in Hl. simpl in Hl. specialize (Hb r). rewrite E in Hb |- *. lia.
  - destruct (IH (String c t)) as (q & r' & Hq & Hr'); [done|done|].
    exists (stake (S n) r ++ q), r'. split; [|done]. rewrite app_assoc, <- Hq, <- Ed. by rewrite stake_sdrop.
Qed.
Lemma ws_len_rev_full r : ws_len_rev r = String.length r -> r <> "" -> ws_len (srev r) = String.length r.
Proof.
  unfold ws_len_rev. intros H Hne.
  destruct (Nat.eqb_spec (ws_len (stake 1 r)) 1) as [E1|].
  { destruct r as [|a [|b r]]; [done| |simpl in H; lia]. exact E1. }
  destruct (Nat.eqb_spec (ws_len (srev (stake 2 r))) 2) as [E2|].
  { rewrite stake_all in E2 by lia. by rewrite E2. }
  destruct (Nat.eqb_spec (ws_len (srev (stake 3 r))) 3) as [E3|].
  { rewrite stake_all in E3 by lia. by rewrite E3. }
  by destruct r.
Qed.
(** Text that does not start with white space does not trim to nothing. *)
Lemma trim_nonempty s : ws_len s = 0 -> s <> "" -> trim s <> "".
Proof.
  intros Hw Hne. unfold trim. rewrite trim_start_id by done. unfold trim_end. intros E.
  apply (f_equal srev) in E. rewrite srev_involutive in E.
  destruct (drop_while_empty ws_len_rev (String.length s) (srev s)) as (q & r' & Hq & Hr & Hl);
    [apply ws_len_rev_bound| |exact E|].
  { intros E'. apply (f_equal srev) in E'. by rewrite srev_involutive in E'. }
  apply ws_len_rev_full in Hl; [|done]. apply (f_equal srev) in Hq.
  rewrite srev_involutive, srev_app_distr in Hq. rewrite Hq, ws_len_app in Hw; [|].
  - destruct r'; [done|]. simpl in Hl. lia.
  - destruct r'; [done|]. simpl in Hl. lia.
Qed.
