(* ===== verification/Utf8.v ===== *)
(** * Boundaries of UTF-8 text

    When slicing a [str] cannot panic: lemmas on where the characters of a valid
    text begin. *)

From S2P Require Import Prelude RustStr.

Local Open Scope string_scope.

(** [&s[from..to]] of a [str]: [None] is the panic. *)
Definition slice (s : string) (from to : nat) : option string :=
  if (from <=? to)%nat && is_boundary s from && is_boundary s to then Some (stake (to - from) (sdrop from s)) else None.

Lemma slice_mid p m x : is_boundary (p ++ m ++ x) (String.length p) = true ->
  is_boundary (p ++ m ++ x) (String.length p + String.length m) = true ->
  slice (p ++ m ++ x) (String.length p) (String.length p + String.length m) = Some m.
Proof.
  intros H1 H2. unfold slice. rewrite (proj2 (Nat.leb_le _ _)) by lia. rewrite H1, H2. cbn [andb]. f_equal.
  rewrite sdrop_app_length. replace (_ - _) with (String.length m) by lia. apply stake_app_length.
Qed.
Lemma boundary_at p s : no_cont_head s -> is_boundary (p ++ s) (String.length p) = true.
Proof.
  intros Hs. unfold is_boundary. rewrite sdrop_app_length. destruct s as [|c s]; [by rewrite app_nil_r, Nat.eqb_refl|]. by rewrite Hs.
Qed.

(** ** The first character *)

Lemma utf8_tail_S n c s : utf8_tail (S n) (String c s) = if is_cont c then (S (utf8_tail n s).1, (utf8_tail n s).2) else (0, false).
Proof.
  unfold utf8_tail. destruct (is_cont c); [|done].
  assert (forall n k s, (fix go n k s := match n, s with
     | O, _ => (k, true) | S n, String c s => if is_cont c then go n (S k) s else (k, false) | S _, "" => (k, false) end) n (S k) s
   = (S ((fix go n k s := match n, s with
     | O, _ => (k, true) | S n, String c s => if is_cont c then go n (S k) s else (k, false) | S _, "" => (k, false) end) n k s).1,
      ((fix go n k s := match n, s with
     | O, _ => (k, true) | S n, String c s => if is_cont c then go n (S k) s else (k, false) | S _, "" => (k, false) end) n k s).2)) as Hgo.
  { clear. intros n. induction n as [|n IH]; intros k s; [done|]. destruct s as [|c s]; [done|]. destruct (is_cont c); [apply IH|done]. }
  apply Hgo.
Qed.
Lemma utf8_tail_spec n s k : utf8_tail n s = (k, true) -> k = n /\ n <= String.length s /\ sforall is_cont (stake n s) = true.
Proof.
  revert s k. induction n as [|n IH]; intros s k; [intros [= <-]; repeat split; cbn; lia|]. destruct s as [|c s]; [done|].
  rewrite utf8_tail_S. destruct (is_cont c) eqn:Ec; [|done]. destruct (utf8_tail n s) as [k' [|]] eqn:E; [|done].
  intros [= <-]. destruct (IH s k' E) as (-> & Hl & Hc). cbn. rewrite Ec, Hc. repeat split; lia.
Qed.
Lemma utf8_tail_intro n s : n <= String.length s -> sforall is_cont (stake n s) = true -> utf8_tail n s = (n, true).
Proof.
  revert s. induction n as [|n IH]; intros s; [done|]. destruct s as [|c s]; cbn [String.length stake sforall]; [lia|].
  intros Hl [Hc Hs]%andb_prop. rewrite utf8_tail_S, Hc, IH by (done || lia). done.
Qed.

(** The shape of a valid first character: a lead byte and, beyond ASCII, a second
    byte it allows and as many continuation bytes as it asks for. *)
Definition lead (a : ascii) : option ((ascii -> bool) * nat) :=
  if in_range 194 223 a then Some (is_cont, 0)
  else if in_range 224 224 a then Some (in_range 160 191, 1)
  else if in_range 237 237 a then Some (in_range 128 159, 1)
  else if in_range 225 239 a then Some (is_cont, 1)
  else if in_range 240 240 a then Some (in_range 144 191, 2)
  else if in_range 241 243 a then Some (is_cont, 2)
  else if in_range 244 244 a then Some (in_range 128 143, 2)
  else None.
Lemma utf8_head_valid a s n : utf8_head (String a s) = (n, true) <->
  ((code a < 128)%N /\ n = 1)
  \/ ((128 <= code a)%N /\ exists ok m b s2, lead a = Some (ok, m) /\ s = String b s2 /\ ok b = true
      /\ m <= String.length s2 /\ sforall is_cont (stake m s2) = true /\ n = 2 + m).
Proof.
  assert (forall (ok : ascii -> bool) m, (match s with String b s2 => if ok b then let '(k, v) := utf8_tail m s2 in (2 + k, v) else (1, false) | "" => (1, false) end)
    = (n, true) <-> exists b s2, s = String b s2 /\ ok b = true /\ m <= String.length s2 /\ sforall is_cont (stake m s2) = true /\ n = 2 + m) as Hmore.
  { intros ok m. destruct s as [|b s2]; [split; [done|intros (b' & s' & E' & _); discriminate]|]. destruct (ok b) eqn:Eb.
    - split.
      + destruct (utf8_tail m s2) as [k v] eqn:E. intros [= <- ->]. apply utf8_tail_spec in E as (-> & Hl & Hc). by exists b, s2.
      + intros (b' & s' & [= <- <-] & _ & Hl & Hc & ->). by rewrite utf8_tail_intro.
    - split; [done|]. intros (b' & s' & [= <- <-] & Hb & _). congruence. }
  unfold utf8_head. destruct (N.ltb_spec (code a) 128) as [Hlt|Hge].
  - split; [intros [= <-]; by left|]. intros [[_ ->]|[H _]]; [done|lia].
  - assert (forall (x : option ((ascii -> bool) * nat)), (exists ok m b s2, x = Some (ok, m) /\ s = String b s2 /\ ok b = true
      /\ m <= String.length s2 /\ sforall is_cont (stake m s2) = true /\ n = 2 + m) <-> match x with Some (ok, m) =>
        exists b s2, s = String b s2 /\ ok b = true /\ m <= String.length s2 /\ sforall is_cont (stake m s2) = true /\ n = 2 + m | None => False end) as Hx.
    { intros [[ok m]|]; split; [intros (ok' & m' & b & s2 & [= <- <-] & H); eauto|intros (b & s2 & H); by exists ok, m, b, s2|intros (ok' & m' & b & s2 & E' & _); discriminate|done]. }
    rewrite Hx. unfold lead.
    repeat match goal with |- context [if in_range ?lo ?hi a then _ else _] => destruct (in_range lo hi a) end;
      rewrite ?Hmore; (split; [|intros [[? _]|[_ ?]]; [lia|done]]); intros H; right; by split.
Qed.
Lemma lead_cont a ok m b : lead a = Some (ok, m) -> ok b = true -> is_cont b = true.
Proof.
  assert (forall lo hi, (128 <= lo)%N -> (hi <= 191)%N -> in_range lo hi b = true -> is_cont b = true) as Hr.
  { unfold is_cont, in_range. intros lo hi H1 H2 [H3%N.leb_le H4%N.leb_le]%andb_prop. apply andb_true_iff. split; apply N.leb_le; lia. }
  unfold lead. repeat match goal with |- context [if ?c then _ else _] => destruct c end; intros [= <- _]; try done; apply Hr; lia.
Qed.
Lemma stake_char p s a c t m : sforall p (stake m s) = true -> s = a ++ String c t -> String.length a < m -> p c = true.
Proof.
  intros Hs -> Hm. revert m Hs Hm. induction a as [|x a IH]; intros [|m]; cbn; try lia; intros [H1 H2]%andb_prop Hm; [done|]. apply (IH m H2). lia.
Qed.
Lemma utf8_head_le a s n : utf8_head (String a s) = (n, true) -> 0 < n <= String.length (String a s).
Proof. intros [[_ ->]|[_ (ok & m & b & s2 & _ & -> & _ & Hl & _ & ->)]]%utf8_head_valid; cbn; lia. Qed.
Lemma utf8_head_inside s n a c t : utf8_head s = (n, true) -> s = a ++ String c t -> 0 < String.length a < n -> is_cont c = true.
Proof.
  destruct s as [|x s]; [by destruct a|]. intros [[_ ->]|[_ (ok & m & b & s2 & Hlead & -> & Hb & _ & Hc & ->)]]%utf8_head_valid E Hl; [lia|].
  destruct a as [|x' a]; cbn in Hl; [lia|]. injection E as <- E. destruct a as [|b' a]; injection E as <- E; [by eapply lead_cont|].
  eapply stake_char; [exact Hc|exact E|cbn in Hl; lia].
Qed.
Lemma utf8_head_app a s n r : utf8_head (String a s) = (n, true) -> utf8_head (String a s ++ r) = (n, true).
Proof.
  intros H%utf8_head_valid. cbn [String.append]. apply utf8_head_valid.
  destruct H as [H|[Ha (ok & m & b & s2 & H1 & -> & H2 & H3 & H4 & ->)]]; [by left|]. right. split; [done|].
  exists ok, m, b, (s2 ++ r). rewrite length_app_s, stake_app_le by done. repeat split; try done. lia.
Qed.

(** ** Texts character by character *)

Inductive chars : string -> Prop :=
| chars_nil : chars ""
| chars_cons a s n : utf8_head (String a s) = (n, true) -> chars (sdrop n (String a s)) -> chars (String a s).
Lemma valid_chars s : utf8_valid s = true -> chars s.
Proof.
  unfold utf8_valid. generalize (String.length s) as fuel. intros fuel. revert s.
  induction fuel as [|fuel IH]; intros [|a s]; cbn [utf8_valid_go]; try done; [intros _; apply chars_nil..|].
  destruct (utf8_head (String a s)) as [n v] eqn:E. intros [-> H]%andb_prop. econstructor; [exact E|by apply IH].
Qed.
Lemma chars_valid s : chars s -> utf8_valid s = true.
Proof.
  unfold utf8_valid. intros H. assert (forall fuel, String.length s <= fuel -> utf8_valid_go fuel s = true) as Hf; [|by apply Hf].
  induction H as [|a s n E _ IH]; intros fuel Hl; [by destruct fuel|]. destruct fuel as [|fuel]; [cbn in Hl; lia|].
  cbn [utf8_valid_go]. rewrite E. cbn [andb]. apply utf8_head_le in E as Hn. apply IH. rewrite length_sdrop. lia.
Qed.
Lemma chars_head s : chars s -> no_cont_head s.
Proof. intros [|a s' n E _]; [done|]. by apply utf8_head_clean in E as (_ & Hc & _). Qed.
Lemma sdrop_app_le n s r : n <= String.length s -> sdrop n (s ++ r) = sdrop n s ++ r.
Proof. revert s. induction n as [|n IH]; intros [|c s]; cbn; try lia; [done..|]. intros Hn. apply IH. lia. Qed.
Lemma chars_app_inv q r : chars q -> chars (q ++ r) -> chars r.
Proof.
  induction 1 as [|a s n E _ IH]; [done|]. intros H. apply IH.
  inversion H as [|a' s' n' E' H' Ea]; subst. apply (utf8_head_app _ _ _ r) in E as E2. cbn [String.append] in E2.
  rewrite E' in E2. injection E2 as ->. apply utf8_head_le in E. by rewrite <- (sdrop_app_le n (String a s) r) by lia.
Qed.
Lemma chars_suffix a c t : chars (a ++ String c t) -> is_cont c = false -> chars (String c t).
Proof.
  intros H Hc. remember (a ++ String c t) as s eqn:Es. revert a Es. induction H as [|x s n E H IH]; intros a Es; [by destruct a|].
  destruct a as [|y a]; [injection Es as -> ->; by econstructor|]. apply utf8_head_le in E as Hn.
  destruct (Nat.le_gt_cases n (String.length (String y a))) as [Hle|Hgt].
  - apply (IH (sdrop n (String y a))). rewrite Es. by apply sdrop_app_le.
  - rewrite (utf8_head_inside _ _ _ _ _ E Es) in Hc; [done|]. cbn in *. lia.
Qed.

Lemma utf8_head_cut a s r n : utf8_head (String a s ++ r) = (n, true) -> n <= String.length (String a s) -> utf8_head (String a s) = (n, true).
Proof.
  cbn [String.append]. intros H%utf8_head_valid Hn. apply utf8_head_valid.
  destruct H as [H|[Ha (ok & m & b & s2 & H1 & E & H2 & H3 & H4 & ->)]]; [by left|]. right. split; [done|].
  destruct s as [|b' s2']; [cbn in Hn; lia|]. injection E as -> <-. cbn in Hn. exists ok, m, b, s2'.
  rewrite stake_app_le in H4 by lia. repeat split; try done. lia.
Qed.
(** Text cut before a byte that begins a character is text. *)
Lemma chars_prefix a c t : chars (a ++ String c t) -> is_cont c = false -> chars a.
Proof.
  intros H Hc. remember (a ++ String c t) as s eqn:Es. revert a Es. induction H as [|x s n E H IH]; intros a Es; [by destruct a|].
  destruct a as [|y a]; [constructor|]. injection Es as -> Es. apply utf8_head_le in E as Hn.
  destruct (Nat.le_gt_cases n (String.length (String y a))) as [Hle|Hgt].
  - econstructor; [eapply (utf8_head_cut y a (String c t)); [cbn; by rewrite <- Es|done]|].
    apply IH. rewrite Es. by apply (sdrop_app_le n (String y a)).
  - rewrite (utf8_head_inside (String y s) n (String y a) c t E) in Hc; [done|by rewrite Es|cbn in *; lia].
Qed.
Lemma chars_app a b : chars a -> chars b -> chars (a ++ b).
Proof.
  intros Ha Hb. induction Ha as [|x s n E _ IH]; [done|]. cbn. econstructor; [by apply (utf8_head_app x s n b)|].
  apply utf8_head_le in E. change (String x (s ++ b)) with (String x s ++ b). by rewrite (sdrop_app_le n (String x s) b) by lia.
Qed.
(** Around an ASCII byte there is text on both sides. *)
Lemma chars_around a c t : (code c < 128)%N -> chars (a ++ String c t) -> chars a /\ chars t.
Proof.
  intros Hc H. assert (is_cont c = false) as Hn.
  { unfold is_cont, in_range. apply andb_false_iff. left. apply N.leb_gt. lia. }
  split; [by eapply chars_prefix|]. apply chars_suffix in H; [|done]. inversion H as [|? ? n E Ht]; subst.
  unfold utf8_head in E. rewrite (proj2 (N.ltb_lt _ _) Hc) in E. by injection E as <-.
Qed.
Lemma chars_lossy s : chars s -> from_utf8_lossy s = s.
Proof.
  intros H. unfold from_utf8_lossy. assert (forall fuel, String.length s <= fuel -> lossy_go fuel s = s) as Hf; [|by apply Hf].
  induction H as [|a s n E _ IH]; intros fuel Hl; [by destruct fuel|]. destruct fuel as [|fuel]; [cbn in Hl; lia|].
  cbn [lossy_go]. rewrite E. apply utf8_head_le in E as Hn. rewrite IH by (rewrite length_sdrop; lia). apply stake_sdrop.
Qed.

(** A whole text found inside another begins and ends at boundaries. *)
Lemma inner_boundaries a q r : utf8_valid (a ++ q ++ r) = true -> utf8_valid q = true -> q <> "" ->
  is_boundary (a ++ q ++ r) (String.length a) = true
  /\ is_boundary (a ++ q ++ r) (String.length a + String.length q) = true.
Proof.
  intros Ht%valid_chars Hq%valid_chars Hne. destruct q as [|c q]; [done|].
  assert (is_cont c = false) as Hc by (apply chars_head in Hq; exact Hq).
  pose proof (chars_suffix a c (q ++ r) Ht Hc) as H1. pose proof (chars_app_inv (String c q) r Hq H1) as H2.
  split; [by apply boundary_at|]. rewrite <- length_app_s, <- app_assoc. apply boundary_at. by apply chars_head.
Qed.

(** ** Folding ASCII case *)

Lemma ascii_lower_high c : (128 <= code c)%N -> ascii_lower c = c.
Proof. intros Hc. unfold ascii_lower. destruct (_ && _) eqn:E; [|done]. apply andb_prop in E as [_ E%N.leb_le]. lia. Qed.
Lemma ascii_lower_low c : (code c < 128)%N -> (code (ascii_lower c) < 128)%N.
Proof.
  intros Hc. unfold ascii_lower. destruct (_ && _) eqn:E; [|done]. apply andb_prop in E as [_ E%N.leb_le]. rewrite code_byte_of; lia.
Qed.
Lemma ascii_lower_cont c : is_cont (ascii_lower c) = is_cont c.
Proof.
  destruct (N.lt_ge_cases (code c) 128) as [Hc|Hc]; [|by rewrite ascii_lower_high].
  assert (forall d, (code d < 128)%N -> is_cont d = false) as Hd.
  { intros d H. unfold is_cont, in_range. apply andb_false_iff. left. apply N.leb_gt. lia. }
  by rewrite !Hd by (done || by apply ascii_lower_low).
Qed.
Lemma sforall_cont_lower s : sforall is_cont (to_lower s) = sforall is_cont s.
Proof. unfold to_lower. induction s as [|c s IH]; [done|]. cbn. by rewrite ascii_lower_cont, IH. Qed.
Lemma cont_lower_id b ok : (ok b = true -> is_cont b = true) -> ok b = true -> ascii_lower b = b.
Proof.
  intros H Hb. apply ascii_lower_high. apply H in Hb. unfold is_cont, in_range in Hb. apply andb_prop in Hb as [Hb%N.leb_le _]. lia.
Qed.
Lemma length_lower s : String.length (to_lower s) = String.length s.
Proof. apply length_smap. Qed.
Lemma stake_lower n s : stake n (to_lower s) = to_lower (stake n s).
Proof. symmetry. apply smap_stake. Qed.
Lemma sdrop_lower n s : sdrop n (to_lower s) = to_lower (sdrop n s).
Proof. symmetry. apply smap_sdrop. Qed.
Lemma chars_lower s : chars s <-> chars (to_lower s).
Proof.
  assert (forall a s n, utf8_head (String a s) = (n, true) <-> utf8_head (String (ascii_lower a) (to_lower s)) = (n, true)) as Hhead.
  { clear. intros a s n. rewrite !utf8_head_valid. destruct (N.lt_ge_cases (code a) 128) as [Ha|Ha].
    - pose proof (ascii_lower_low a Ha). split; (intros [[_ ->]|[? _]]; [by left|lia]).
    - rewrite (ascii_lower_high a Ha). split; (intros [[? _]|[_ (ok & m & b & s2 & H1 & H2 & H3 & H4 & H5 & ->)]]; [lia|]; right; split; [done|]).
      + subst s. exists ok, m, (ascii_lower b), (to_lower s2). rewrite (cont_lower_id b ok); [|by intros; eapply lead_cont|done].
        rewrite length_lower, stake_lower, sforall_cont_lower.
        repeat split; try done. cbn. by rewrite (cont_lower_id b ok); [|by intros; eapply lead_cont|].
      + destruct s as [|b' s']; [done|]. injection H2 as <- <-. exists ok, m, b', s'.
        rewrite length_lower in H4. rewrite stake_lower, sforall_cont_lower in H5.
        repeat split; try done. assert (is_cont b' = true) as Hb by (rewrite <- ascii_lower_cont; by eapply lead_cont).
        by rewrite (cont_lower_id b' is_cont) in H3. }
  split.
  - induction 1 as [|a s n E H IH]; [apply chars_nil|]. change (to_lower (String a s)) with (String (ascii_lower a) (to_lower s)). econstructor; [exact (proj1 (Hhead a s n) E)|].
    change (String (ascii_lower a) (to_lower s)) with (to_lower (String a s)). by rewrite sdrop_lower.
  - intros H. remember (to_lower s) as l eqn:El. revert s El. induction H as [|a l n E H IH]; intros s El; [destruct s; [apply chars_nil|discriminate]|].
    destruct s as [|c s]; [discriminate|]. injection El as -> ->. apply Hhead in E. econstructor; [exact E|]. apply IH.
    change (String (ascii_lower c) (smap ascii_lower s)) with (to_lower (String c s)). by rewrite sdrop_lower.
Qed.
