(* ===== verification/Examples.v ===== *)
(** * Encodings for the examples

    Where a printer and a parser of a library are parameters, the witnesses use a
    printer of their own: the bits of the number stdpp's [Countable] gives a value, in
    braces. *)

From S2P Require Import Prelude RustStr.

Local Open Scope string_scope.

Fixpoint show_bits (p : positive) : string :=
  match p with xH => "" | xO p => String "0" (show_bits p) | xI p => String "1" (show_bits p) end.
Fixpoint parse_bits (s : string) : option positive :=
  match s with
  | "" => Some xH
  | String c s => if Ascii.eqb c "0" then xO <$> parse_bits s else if Ascii.eqb c "1" then xI <$> parse_bits s else None
  end.
Lemma parse_show_bits p : parse_bits (show_bits p) = Some p.
Proof. by induction p as [p IH|p IH|]; cbn; rewrite ?IH. Qed.
Lemma show_bits_digits p : sforall is_digit (show_bits p) = true.
Proof. by induction p as [p IH|p IH|]; cbn; rewrite ?IH. Qed.

Definition ex_show {A} `{Countable A} (a : A) : string := "{" ++ show_bits (encode a) ++ "}".
Definition ex_parse {A} `{Countable A} (s : string) : Anyhow A :=
  match strip_prefix "{" s with
  | Some s => match strip_suffix "}" s with
              | Some s => match parse_bits s with
                          | Some n => match decode n with Some a => Ok a | None => Err "value" end
                          | None => Err "number"
                          end
              | None => Err "object"
              end
  | None => Err "object"
  end.
Lemma ex_parse_show {A} `{Countable A} (a : A) : ex_parse (ex_show a) = Ok a.
Proof.
  unfold ex_parse, ex_show. rewrite (proj2 (strip_prefix_spec "{" _ _) eq_refl), (proj2 (strip_suffix_spec "}" _ _) eq_refl).
  by rewrite parse_show_bits, decode_encode.
Qed.
Lemma ex_show_not_blank {A} `{Countable A} (a : A) : trim (ex_show a) <> "".
Proof. unfold ex_show. cbn [String.append]. apply trim_nonempty; [by apply graphic_ws|done]. Qed.
