(* ===== verification/Float64.v ===== *)
(** * IEEE 754 doubles

    Rust's [f64] as the Standard Library's [spec_float] with 53 bits of
    precision, with the operations and casts the program uses. *)

From S2P Require Import Prelude.
From Stdlib Require Import SpecFloat.

Local Open Scope Z_scope.

Abbreviation f64 := spec_float.
Definition f64_prec : Z := 53.
Definition f64_emax : Z := 1024.

Definition f_add : f64 -> f64 -> f64 := SFadd f64_prec f64_emax.
Definition f_sub : f64 -> f64 -> f64 := SFsub f64_prec f64_emax.
Definition f_mul : f64 -> f64 -> f64 := SFmul f64_prec f64_emax.
Definition f_div : f64 -> f64 -> f64 := SFdiv f64_prec f64_emax.

(** [z as f64]: rounded to nearest, ties to even. *)
Definition f_of_Z (z : Z) : f64 := binary_normalize f64_prec f64_emax z 0 false.

Definition f_is_nan (x : f64) : bool := match x with S754_nan => true | _ => false end.
Definition f_is_finite (x : f64) : bool :=
  match x with S754_zero _ | S754_finite _ _ _ => true | _ => false end.

Definition f_eq (x y : f64) : bool := match SFcompare x y with Some Eq => true | _ => false end.
Definition f_lt (x y : f64) : bool := match SFcompare x y with Some Lt => true | _ => false end.
Definition f_le (x y : f64) : bool :=
  match SFcompare x y with Some Lt | Some Eq => true | _ => false end.
Definition f_gt (x y : f64) : bool := f_lt y x.
Definition f_ge (x y : f64) : bool := f_le y x.

(** [f64::min] and [f64::max]: the other operand when one is NaN. *)
Definition f_min (x y : f64) : f64 :=
  if f_is_nan x then y else if f_is_nan y then x else if f_lt y x then y else x.
Definition f_max (x y : f64) : f64 :=
  if f_is_nan x then y else if f_is_nan y then x else if f_lt x y then y else x.

(** [x.round()]: to the nearest integer, ties away from zero. *)
Definition round_mag (m : positive) (e : Z) : Z :=
  if 0 <=? e then Z.pos m * 2 ^ e
  else let d := 2 ^ (- e) in
       let q := Z.pos m / d in
       if d <=? 2 * (Z.pos m mod d) then q + 1 else q.
Definition f_round (x : f64) : f64 :=
  match x with
  | S754_finite s m e =>
      match round_mag m e with
      | 0 => S754_zero s
      | q => f_of_Z (if s then - q else q)
      end
  | _ => x
  end.

(** [x as u64]: truncated, saturating, NaN to 0.  [usize] is the same width. *)
Definition f_trunc (m : positive) (e : Z) : Z :=
  if 0 <=? e then Z.pos m * 2 ^ e else Z.pos m / 2 ^ (- e).
Definition f_as_u64 (x : f64) : Z :=
  match x with
  | S754_finite false m e => Z.min u64_max (f_trunc m e)
  | S754_infinity false => u64_max
  | _ => 0
  end.

(** [f64::EPSILON]. *)
Definition f_epsilon : f64 := f_div (f_of_Z 1) (f_of_Z (2 ^ 52)).

Lemma f_trunc_nonneg m e : 0 <= f_trunc m e.
Proof.
  unfold f_trunc. destruct (Z.leb_spec 0 e).
  - apply Z.mul_nonneg_nonneg; [lia|]. apply Z.pow_nonneg; lia.
  - apply Z.div_pos; [lia|]. apply Z.pow_pos_nonneg; lia.
Qed.
Lemma f_as_u64_range x : 0 <= f_as_u64 x <= u64_max.
Proof.
  unfold f_as_u64, u64_max.
  destruct x as [s|[]| |[] m e]; try lia. pose proof (f_trunc_nonneg m e). lia.
Qed.

Lemma SFcompare_refl x : f_is_nan x = false -> SFcompare x x = Some Eq.
Proof.
  destruct x as [[]|[]| |[] m e]; simpl; try done; intros _.
  - by rewrite Z.compare_refl, Pos.compare_cont_refl.
  - by rewrite Z.compare_refl, Pos.compare_cont_refl.
Qed.
Lemma f_le_refl x : f_is_nan x = false -> f_le x x = true.
Proof. intros H. unfold f_le. by rewrite SFcompare_refl. Qed.

Lemma SFcompare_nan x y :
  f_is_nan x = false -> f_is_nan y = false -> exists c, SFcompare x y = Some c.
Proof.
  destruct x as [s|s| |s m e]; destruct y as [s'|s'| |s' m' e']; simpl; try done; intros _ _;
    try destruct s; try destruct s'; eauto; destruct (e ?= e'); eauto.
Qed.
Lemma SFcompare_antisym x y c : SFcompare x y = Some c -> SFcompare y x = Some (CompOpp c).
Proof.
  destruct x as [s|s| |s m e]; destruct y as [s'|s'| |s' m' e'];
    try destruct s; try destruct s'; simpl; try done; try (intros [= <-]; done).
  - rewrite (Z.compare_antisym e e'). destruct (e ?= e'); simpl; try (intros [= <-]; done).
    intros [= <-]. f_equal. f_equal. apply Pos.compare_antisym.
  - rewrite (Z.compare_antisym e e'). destruct (e ?= e'); simpl; try (intros [= <-]; done).
    intros [= <-]. f_equal. apply Pos.compare_antisym.
Qed.

(** The capped value is never above a cap that is a number. *)
Lemma f_min_le x y : f_is_nan y = false -> f_le (f_min x y) y = true.
Proof.
  intros Hy. unfold f_min. destruct (f_is_nan x) eqn:Hx; [by apply f_le_refl|]. rewrite Hy.
  destruct (f_lt y x) eqn:E; [by apply f_le_refl|].
  unfold f_lt in E. unfold f_le. destruct (SFcompare_nan x y Hx Hy) as [c Hc]. rewrite Hc.
  apply SFcompare_antisym in Hc. rewrite Hc in E. by destruct c.
Qed.

Example f_mbps : f_as_u64 (f_round (f_div (f_mul (f_of_Z 8) (f_of_Z 1000000)) (f_of_Z 8))) = 1000000.
Proof. vm_compute. reflexivity. Qed.
Lemma f_eq_sym x y : f_eq x y = f_eq y x.
Proof.
  unfold f_eq. destruct (SFcompare x y) as [c|] eqn:E.
  - apply SFcompare_antisym in E. rewrite E. by destruct c.
  - destruct (SFcompare y x) as [c|] eqn:E'; [|done]. apply SFcompare_antisym in E'. congruence.
Qed.
Lemma f_eq_refl x : f_is_nan x = false -> f_eq x x = true.
Proof. intros H. unfold f_eq. by rewrite SFcompare_refl. Qed.
(** Equal doubles are the same, zeros apart. *)
Lemma f_eq_inv x y : f_eq x y = true -> x = y \/ (exists s, x = S754_zero s) /\ (exists s, y = S754_zero s).
Proof.
  unfold f_eq. destruct x as [s|s| |s m e], y as [s'|s'| |s' m' e']; cbn; try done; try by destruct s; try by destruct s'.
  - intros _. right. eauto.
  - by destruct s, s'; [left|..|left].
  - destruct s, s'; try done.
    + destruct (Z.compare_spec e e') as [->| |]; try done. rewrite Pos.compare_cont_spec.
      destruct (Pos.compare_spec m m') as [->| |]; try done. by left.
    + destruct (Z.compare_spec e e') as [->| |]; try done. rewrite Pos.compare_cont_spec.
      destruct (Pos.compare_spec m m') as [->| |]; try done. by left.
Qed.
Lemma f_eq_trans x y z : f_eq x y = true -> f_eq y z = true -> f_eq x z = true.
Proof.
  intros Hxy Hyz. destruct (f_eq_inv x y Hxy) as [->|[[s ->] [s' ->]]]; [done|].
  by destruct (f_eq_inv _ z Hyz) as [<-|[_ [s'' ->]]].
Qed.
