(* ===== verification/Msg.v ===== *)
(** * The control protocol's messages and their framing

    [core/src/msg/types.rs]: the message structs, [Message] and its type bytes.
    [core/src/msg/codec.rs]: [write_msg] and [read_msg].  A frame is the type
    byte, the body length as a little-endian [u32] and the JSON body.  The body
    is produced and parsed by serde_json, a parameter of the codec. *)

From S2P Require Import Prelude RustStr Float64.

Local Open Scope string_scope.

(** ** Types *)

Definition TYPE_LOGIN : ascii := "A".
Definition TYPE_LOGIN_RESP : ascii := "a".
Definition TYPE_NEW_TUNNEL : ascii := "T".
Definition TYPE_NEW_TUNNEL_RESP : ascii := "t".
Definition TYPE_CLOSE_TUNNEL : ascii := "X".
Definition TYPE_NEW_DATA_CONN : ascii := "W".
Definition TYPE_REQ_DATA_CONN : ascii := "Q".
Definition TYPE_START_DATA_CONN : ascii := "S".
Definition TYPE_PING : ascii := "G".
Definition TYPE_PONG : ascii := "g".
Definition TYPE_UDP_PACKET : ascii := "D".
Definition TYPE_KICK_OUT : ascii := "E".

Record Login := MkLogin {
  lg_version : string; lg_hostname : string; lg_os : string; lg_arch : string;
  lg_user : string; lg_agent_id : string; lg_auth_digest : string;
  lg_timestamp : Z; lg_session_id : string; lg_pool_count : Z }.

Record LoginResp := MkLoginResp {
  lr_version : string; lr_session_id : string; lr_error : string }.

Record NewTunnel := MkNewTunnel {
  nt_tunnel_name : string; nt_protocol : string; nt_remote_port : Z;
  nt_local_ip : string; nt_local_port : Z;
  nt_domains : list string; nt_locations : list string;
  nt_basic_auth_user : string; nt_basic_auth_password : string;
  nt_host_header_rewrite : string;
  nt_headers : gmap string string; nt_response_headers : gmap string string;
  nt_bandwidth : f64; nt_bandwidth_limit_side : string }.

Record NewTunnelResp := MkNewTunnelResp {
  ntr_tunnel_name : string; ntr_remote_addr : string; ntr_error : string }.

Record CloseTunnel := MkCloseTunnel { ct_tunnel_name : string }.

Record ReqDataConn := MkReqDataConn {}.

Record NewDataConn := MkNewDataConn {
  nd_session_id : string; nd_auth_digest : string; nd_timestamp : Z }.

Record StartDataConn := MkStartDataConn {
  sd_tunnel_name : string; sd_src_addr : string; sd_src_port : Z;
  sd_dst_addr : string; sd_dst_port : Z; sd_error : string }.

Record Ping := MkPing { pi_auth_digest : string; pi_timestamp : Z }.
Record Pong := MkPong { po_error : string }.
Definition Pong_default : Pong := MkPong "".
Record KickOut := MkKickOut { ko_reason : string }.

Record UdpSocketAddr := MkUdpSocketAddr { ua_ip : string; ua_port : Z }.
#[global] Instance UdpSocketAddr_eq_dec : EqDecision UdpSocketAddr.
Proof. solve_decision. Defined.

Record UdpPacket := MkUdpPacket {
  up_content : string; up_local_addr : option UdpSocketAddr; up_remote_addr : option UdpSocketAddr }.

Inductive Message :=
| MLogin (m : Login)
| MLoginResp (m : LoginResp)
| MNewTunnel (m : NewTunnel)
| MNewTunnelResp (m : NewTunnelResp)
| MCloseTunnel (m : CloseTunnel)
| MReqDataConn (m : ReqDataConn)
| MNewDataConn (m : NewDataConn)
| MStartDataConn (m : StartDataConn)
| MPing (m : Ping)
| MPong (m : Pong)
| MUdpPacket (m : UdpPacket)
| MKickOut (m : KickOut).

Definition type_byte (m : Message) : ascii :=
  match m with
  | MLogin _ => TYPE_LOGIN
  | MLoginResp _ => TYPE_LOGIN_RESP
  | MNewTunnel _ => TYPE_NEW_TUNNEL
  | MNewTunnelResp _ => TYPE_NEW_TUNNEL_RESP
  | MCloseTunnel _ => TYPE_CLOSE_TUNNEL
  | MReqDataConn _ => TYPE_REQ_DATA_CONN
  | MNewDataConn _ => TYPE_NEW_DATA_CONN
  | MStartDataConn _ => TYPE_START_DATA_CONN
  | MPing _ => TYPE_PING
  | MPong _ => TYPE_PONG
  | MUdpPacket _ => TYPE_UDP_PACKET
  | MKickOut _ => TYPE_KICK_OUT
  end.

(** ** Readers

    The bytes a reader will still deliver before end of file. *)

Fixpoint read_exact (n : nat) (r : string) : option (string * string) :=
  match n, r with
  | O, _ => Some ("", r)
  | S n, String c r => option_map (fun '(a, r) => (String c a, r)) (read_exact n r)
  | S _, "" => None
  end.

Lemma read_exact_app a r : read_exact (String.length a) (a ++ r) = Some (a, r).
Proof. induction a as [|c a IH]; simpl; [done|]. by rewrite IH. Qed.
Lemma read_exact_spec n r a r' :
  read_exact n r = Some (a, r') <-> r = a ++ r' /\ String.length a = n.
Proof.
  split.
  - revert r a. induction n as [|n IH]; intros r a; simpl; [intros [= <- <-]; done|].
    destruct r as [|c r]; [done|]. destruct (read_exact n r) as [[a' r'']|] eqn:E; [|done].
    simpl. intros [= <- <-]. destruct (IH _ _ E) as [-> <-]. done.
  - intros [-> <-]. apply read_exact_app.
Qed.
Lemma read_exact_short n r : String.length r < n -> read_exact n r = None.
Proof.
  intros H. destruct (read_exact n r) as [[a r']|] eqn:E; [|done].
  apply read_exact_spec in E as [-> <-]. rewrite length_app_s in H. lia.
Qed.

(** [n.to_le_bytes()] of a [u32] and back. *)
Definition u32_le (n : Z) : string :=
  let b k := byte_of (Z.to_N (Z.land (Z.shiftr n (8 * k)) 255)) in
  String (b 0%Z) (String (b 1%Z) (String (b 2%Z) (String (b 3%Z) ""))).
#[global] Arguments u32_le : simpl never.
Definition u32_of_le (s : string) : Z :=
  match s with
  | String a (String b (String c (String d ""))) =>
      (Z.of_N (code a) + 256 * Z.of_N (code b) + 65536 * Z.of_N (code c) + 16777216 * Z.of_N (code d))%Z
  | _ => 0%Z
  end.

(** ** Codec *)

Inductive MessageReadError :=
| ReadIo
| ReadJson
| UnknownType (ty : ascii)
| TooLarge (len : Z).
Inductive MessageWriteError :=
| WriteIo
| WriteJson.

Definition MAX_MSG_SIZE : Z := 4 * 1024 * 1024.

(** serde_json's [to_vec] and [from_slice] at one message struct. *)
Record Serde (A : Type) := MkSerde { to_vec : A -> option string; from_slice : string -> option A }.
Arguments to_vec {A} _ _.
Arguments from_slice {A} _ _.
Arguments MkSerde {A} _ _.

Record SerdeJson := MkSerdeJson {
  js_Login : Serde Login; js_LoginResp : Serde LoginResp;
  js_NewTunnel : Serde NewTunnel; js_NewTunnelResp : Serde NewTunnelResp;
  js_CloseTunnel : Serde CloseTunnel; js_ReqDataConn : Serde ReqDataConn;
  js_NewDataConn : Serde NewDataConn; js_StartDataConn : Serde StartDataConn;
  js_Ping : Serde Ping; js_Pong : Serde Pong;
  js_UdpPacket : Serde UdpPacket; js_KickOut : Serde KickOut }.

Section Codec.
Context (serde_json : SerdeJson).

Definition encode_body (m : Message) : option string :=
  match m with
  | MLogin m => to_vec (js_Login serde_json) m
  | MLoginResp m => to_vec (js_LoginResp serde_json) m
  | MNewTunnel m => to_vec (js_NewTunnel serde_json) m
  | MNewTunnelResp m => to_vec (js_NewTunnelResp serde_json) m
  | MCloseTunnel m => to_vec (js_CloseTunnel serde_json) m
  | MReqDataConn m => to_vec (js_ReqDataConn serde_json) m
  | MNewDataConn m => to_vec (js_NewDataConn serde_json) m
  | MStartDataConn m => to_vec (js_StartDataConn serde_json) m
  | MPing m => to_vec (js_Ping serde_json) m
  | MPong m => to_vec (js_Pong serde_json) m
  | MUdpPacket m => to_vec (js_UdpPacket serde_json) m
  | MKickOut m => to_vec (js_KickOut serde_json) m
  end.

(** The bytes [write_msg] sends; the transport's own failures are not here. *)
Definition write_msg (m : Message) : Result string MessageWriteError :=
  let? body := ok_or (encode_body m) WriteJson in
  Ok (String (type_byte m) (u32_le (wrap_u 32 (slen body)) ++ body)).

Definition decode_body (ty : ascii) (buf : string) : Result Message MessageReadError :=
  let json {A} (f : A -> Message) (s : Serde A) := ok_or (option_map f (from_slice s buf)) ReadJson in
  if Ascii.eqb ty TYPE_LOGIN then json MLogin (js_Login serde_json)
  else if Ascii.eqb ty TYPE_LOGIN_RESP then json MLoginResp (js_LoginResp serde_json)
  else if Ascii.eqb ty TYPE_NEW_TUNNEL then json MNewTunnel (js_NewTunnel serde_json)
  else if Ascii.eqb ty TYPE_NEW_TUNNEL_RESP then json MNewTunnelResp (js_NewTunnelResp serde_json)
  else if Ascii.eqb ty TYPE_CLOSE_TUNNEL then json MCloseTunnel (js_CloseTunnel serde_json)
  else if Ascii.eqb ty TYPE_REQ_DATA_CONN then json MReqDataConn (js_ReqDataConn serde_json)
  else if Ascii.eqb ty TYPE_NEW_DATA_CONN then json MNewDataConn (js_NewDataConn serde_json)
  else if Ascii.eqb ty TYPE_START_DATA_CONN then json MStartDataConn (js_StartDataConn serde_json)
  else if Ascii.eqb ty TYPE_PING then json MPing (js_Ping serde_json)
  else if Ascii.eqb ty TYPE_PONG then json MPong (js_Pong serde_json)
  else if Ascii.eqb ty TYPE_UDP_PACKET then json MUdpPacket (js_UdpPacket serde_json)
  else if Ascii.eqb ty TYPE_KICK_OUT then json MKickOut (js_KickOut serde_json)
  else Err (UnknownType ty).

(** The message and what the reader has left; an end of file is an [Io] error. *)
Definition read_msg (r : string) : Result (Message * string) MessageReadError :=
  let? ' (ty, r) := ok_or (match r with String c r => Some (c, r) | "" => None end) ReadIo in
  let? ' (len, r) := ok_or (read_exact 4 r) ReadIo in
  let len := u32_of_le len in
  bail_if (MAX_MSG_SIZE <? len)%Z with TooLarge len ;;
  let? ' (buf, r) := ok_or (read_exact (Z.to_nat len) r) ReadIo in
  let? msg := decode_body ty buf in
  Ok (msg, r).

(** A reader loop and a writer loop over whole streams. *)
Fixpoint read_msgs (fuel : nat) (r : string) : Result (list Message) MessageReadError :=
  match fuel, r with
  | _, "" => Ok []
  | O, _ => Err ReadIo
  | S fuel, _ =>
      let? ' (m, r) := read_msg r in
      let? ms := read_msgs fuel r in Ok (m :: ms)
  end.
Definition write_msgs (ms : list Message) : Result string MessageWriteError :=
  let? bs := try_map write_msg ms in Ok (String.concat "" bs).

(** What the codec relies on, of serde_json at the struct a message carries: it
    prints the struct and parses back what it printed. *)
Definition serde_keeps {A : Type} (s : Serde A) (a : A) : Prop := exists body, to_vec s a = Some body /\ from_slice s body = Some a.
Definition payload_kept (m : Message) : Prop :=
  match m with
  | MLogin a => serde_keeps (js_Login serde_json) a
  | MLoginResp a => serde_keeps (js_LoginResp serde_json) a
  | MNewTunnel a => serde_keeps (js_NewTunnel serde_json) a
  | MNewTunnelResp a => serde_keeps (js_NewTunnelResp serde_json) a
  | MCloseTunnel a => serde_keeps (js_CloseTunnel serde_json) a
  | MReqDataConn a => serde_keeps (js_ReqDataConn serde_json) a
  | MNewDataConn a => serde_keeps (js_NewDataConn serde_json) a
  | MStartDataConn a => serde_keeps (js_StartDataConn serde_json) a
  | MPing a => serde_keeps (js_Ping serde_json) a
  | MPong a => serde_keeps (js_Pong serde_json) a
  | MUdpPacket a => serde_keeps (js_UdpPacket serde_json) a
  | MKickOut a => serde_keeps (js_KickOut serde_json) a
  end.
(** The length of a message's body. *)
Definition body_len (m : Message) : Z := match encode_body m with Some body => slen body | None => 0 end.

(** The type byte picks the parser of the struct that was printed. *)
Lemma decode_encode m : payload_kept m -> exists body, encode_body m = Some body /\ decode_body (type_byte m) body = Ok m.
Proof. destruct m; intros (body & He & Hd); exists body; (split; [exact He|]); unfold decode_body; cbn; by rewrite Hd. Qed.

Lemma u32_of_le_le n : (0 <= n < 2 ^ 32)%Z -> u32_of_le (u32_le n) = n.
Proof.
  intros Hn. unfold u32_of_le, u32_le.
  assert (forall k, (0 <= k)%Z -> Z.of_N (code (byte_of (Z.to_N (Z.land (Z.shiftr n (8 * k)) 255))))
                    = ((n / 2 ^ (8 * k)) mod 256)%Z) as Hb.
  { intros k Hk. change 255%Z with (Z.ones 8). rewrite Z.land_ones, Z.shiftr_div_pow2 by lia.
    change (2 ^ 8)%Z with 256%Z.
    pose proof (Z.mod_pos_bound (n / 2 ^ (8 * k)) 256 ltac:(lia)) as Hm.
    rewrite code_byte_of by lia. lia. }
  rewrite !Hb by lia.
  change (2 ^ (8 * 0))%Z with 1%Z. change (2 ^ (8 * 1))%Z with 256%Z.
  change (2 ^ (8 * 2))%Z with 65536%Z. change (2 ^ (8 * 3))%Z with 16777216%Z.
  change (2 ^ 32)%Z with 4294967296%Z in Hn.
  Z.div_mod_to_equations. lia.
Qed.
Lemma u32_le_length n : String.length (u32_le n) = 4.
Proof. done. Qed.
Lemma u32_of_le_bound s : (0 <= u32_of_le s < 2 ^ 32)%Z.
Proof.
  change (2 ^ 32)%Z with 4294967296%Z.
  destruct s as [|a [|b [|c [|d [|]]]]]; simpl; try lia.
  pose proof (code_bound a); pose proof (code_bound b).
  pose proof (code_bound c); pose proof (code_bound d). lia.
Qed.

(** A frame is read whatever its length field announces, up to the cap. *)
Lemma read_msg_frame ty body rest :
  (slen body <= MAX_MSG_SIZE)%Z ->
  read_msg (String ty (u32_le (slen body) ++ body ++ rest))
  = match decode_body ty body with Ok m => Ok (m, rest) | Err e => Err e end.
Proof.
  intros Hlen. unfold read_msg. cbn [ok_or].
  change 4 with (String.length (u32_le (slen body))). rewrite read_exact_app. cbn [ok_or].
  pose proof (slen_nonneg body) as H0. unfold MAX_MSG_SIZE in *.
  rewrite u32_of_le_le by lia. destruct (Z.ltb_spec (4 * 1024 * 1024) (slen body)); [lia|].
  unfold slen. rewrite Nat2Z.id, read_exact_app. done.
Qed.

Lemma read_msg_too_large ty n rest :
  (MAX_MSG_SIZE < n < 2 ^ 32)%Z -> read_msg (String ty (u32_le n ++ rest)) = Err (TooLarge n).
Proof.
  intros Hlen. unfold read_msg. cbn [ok_or].
  change 4 with (String.length (u32_le n)). rewrite read_exact_app. cbn [ok_or].
  unfold MAX_MSG_SIZE in *. rewrite u32_of_le_le by lia.
  destruct (Z.ltb_spec (4 * 1024 * 1024) n); [done|lia].
Qed.
End Codec.

(** ** Properties *)

Lemma write_msg_ok sj m body :
  encode_body sj m = Some body ->
  write_msg sj m = Ok (String (type_byte m) (u32_le (wrap_u 32 (slen body)) ++ body)).
Proof. intros H. unfold write_msg. rewrite H. done. Qed.

Lemma read_write_msg sj m fr rest :
  payload_kept sj m -> (body_len sj m <= MAX_MSG_SIZE)%Z -> write_msg sj m = Ok fr -> read_msg sj (fr ++ rest) = Ok (m, rest).
Proof.
  intros (body & He & Hd)%decode_encode Hl Hw. unfold body_len in Hl. rewrite He in Hl.
  rewrite (write_msg_ok _ _ _ He) in Hw. apply Ok_inj in Hw as <-.
  pose proof (slen_nonneg body). rewrite wrap_u_small by (unfold MAX_MSG_SIZE in *; lia).
  cbn [String.append]. rewrite app_assoc, read_msg_frame by done. by rewrite Hd.
Qed.
Lemma read_oversize sj m fr rest :
  (MAX_MSG_SIZE < body_len sj m < 2 ^ 32)%Z -> write_msg sj m = Ok fr -> read_msg sj (fr ++ rest) = Err (TooLarge (body_len sj m)).
Proof.
  unfold body_len. destruct (encode_body sj m) as [body|] eqn:He; [|by intros [H _]; unfold MAX_MSG_SIZE in H].
  intros Hl Hw. rewrite (write_msg_ok _ _ _ He) in Hw. apply Ok_inj in Hw as <-.
  rewrite wrap_u_small by (unfold MAX_MSG_SIZE in *; lia). cbn [String.append]. rewrite app_assoc. by apply read_msg_too_large.
Qed.

(** Frames one after the other, the first of them read. *)
Lemma write_msgs_cons sj m ms bs : write_msgs sj ms = Ok bs -> payload_kept sj m ->
  exists c fr, write_msg sj m = Ok (String c fr) /\ write_msgs sj (m :: ms) = Ok (String c fr ++ bs).
Proof.
  intros Hw (body & He & _)%decode_encode. pose proof (write_msg_ok _ _ _ He) as Hf. revert Hf.
  generalize (u32_le (wrap_u 32 (slen body)) ++ body)%string (type_byte m). intros fr c Hf. exists c, fr. split; [exact Hf|].
  unfold write_msgs in *. cbn [try_map]. rewrite Hf. destruct (try_map (write_msg sj) ms) as [frs|]; [|done].
  apply Ok_inj in Hw as <-. destruct frs; [cbn; by rewrite !app_nil_r|done].
Qed.
Lemma read_msgs_cons sj fuel c fr rest : read_msgs sj (S fuel) (String c fr ++ rest)
  = match read_msg sj (String c fr ++ rest) with
    | Ok (m, r) => match read_msgs sj fuel r with Ok ms => Ok (m :: ms) | Err e => Err e end
    | Err e => Err e
    end.
Proof. cbn [read_msgs String.append]. by destruct (read_msg _ _) as [[]|]. Qed.


(** A connection cut anywhere inside a frame is an I/O error: a truncated
    frame is never taken for a message. *)
Theorem codec_truncated (sj : SerdeJson) (m : Message) (fr p q : string) :
  write_msg sj m = Ok fr ->
  (forall body, encode_body sj m = Some body -> (slen body <= MAX_MSG_SIZE)%Z) ->
  fr = p ++ q -> q <> "" -> read_msg sj p = Err ReadIo.
Proof.
  unfold write_msg. destruct (encode_body sj m) as [body|]; [|done]. cbn [ok_or].
  intros <-%Ok_inj Hl E Hq. specialize (Hl body eq_refl). pose proof (slen_nonneg body).
  rewrite wrap_u_small in E by (unfold MAX_MSG_SIZE in *; lia).
  destruct p as [|ty p]; [reflexivity|]. cbn [String.append] in E. apply String_inj in E as [<- E]. unfold read_msg. cbn [ok_or].
  destruct (read_exact 4 p) as [[l r]|] eqn:E4; [|done]. cbn [ok_or].
  apply read_exact_spec in E4 as [-> Hl4]. rewrite app_assoc in E.
  assert (l = u32_le (slen body) /\ r ++ q = body) as [-> Er].
  { assert (stake 4 (u32_le (slen body) ++ body) = stake 4 (l ++ r ++ q)) as Ht by (by rewrite E).
    rewrite <- Hl4 in Ht at 2. rewrite stake_app_length in Ht. cbn in Ht. split; [done|].
    rewrite <- Ht in E. by apply app_inj_l in E. }
  rewrite u32_of_le_le by (unfold MAX_MSG_SIZE in *; lia).
  destruct (Z.ltb_spec MAX_MSG_SIZE (slen body)); [lia|].
  rewrite read_exact_short; [done|]. unfold slen. rewrite Nat2Z.id, <- Er, length_app_s.
  destruct q; [done|]. simpl. lia.
Qed.

(** [write_msg] has no size check: a message whose body is longer than the
    reader's limit of 4 MiB is sent without an error and the peer refuses it. *)
Theorem codec_oversize (sj : SerdeJson) (m : Message) (body rest : string) :
  encode_body sj m = Some body -> (MAX_MSG_SIZE < slen body < 2 ^ 32)%Z ->
  exists fr, write_msg sj m = Ok fr /\ read_msg sj (fr ++ rest) = Err (TooLarge (slen body)).
Proof.
  intros He Hl. assert (body_len sj m = slen body) as E by (unfold body_len; by rewrite He).
  eexists. split; [by apply write_msg_ok|]. rewrite <- E in Hl |- * at 2. apply read_oversize; [done|by apply write_msg_ok].
Qed.

(** *** Witnesses

    A serializer that prints the two messages of the witnesses by their only
    field and refuses the rest. *)
Definition no_serde {A} : Serde A := MkSerde (fun _ => None) (fun _ => None).
Definition test_serde (pad : string) : SerdeJson :=
  MkSerdeJson no_serde no_serde no_serde no_serde
    (MkSerde (fun m => Some (ct_tunnel_name m ++ pad)) (fun s => Some (MkCloseTunnel s)))
    no_serde no_serde no_serde no_serde no_serde no_serde
    (MkSerde (fun m => Some (ko_reason m)) (fun s => Some (MkKickOut s))).

Fixpoint repeat_char (c : ascii) (n : nat) : string :=
  match n with O => "" | S n => String c (repeat_char c n) end.
Lemma slen_repeat_char c n : slen (repeat_char c n) = Z.of_nat n.
Proof. unfold slen. f_equal. induction n; simpl; congruence. Qed.


Lemma codec_truncated_witness : read_msg (test_serde "") "E" = Err ReadIo.
Proof.
  apply (codec_truncated (test_serde "") (MKickOut (MkKickOut "bye"))
           (String "E" (u32_le 3 ++ "bye")) "E" (u32_le 3 ++ "bye")).
  - reflexivity.
  - intros body [= <-]. vm_compute. congruence.
  - reflexivity.
  - discriminate.
Defined.

Lemma codec_oversize_witness (pad := repeat_char "x" (Z.to_nat 4194305)) :
  exists fr, write_msg (test_serde pad) (MCloseTunnel (MkCloseTunnel "")) = Ok fr
             /\ read_msg (test_serde pad) (fr ++ "") = Err (TooLarge (slen pad)).
Proof.
  apply (codec_oversize (test_serde pad) (MCloseTunnel (MkCloseTunnel "")) pad "").
  - reflexivity.
  - unfold pad. rewrite slen_repeat_char, Z2Nat.id by lia. unfold MAX_MSG_SIZE. lia.
Defined.
