(* ===== verification/Registry.v ===== *)
(** * The server's name and port tables

    [server/src/tunnel/ports.rs] ([PortTable]) and
    [server/src/tunnel/registry.rs] ([TunnelRegistry]).  Each table is a map
    behind one mutex, so an operation is a function on the map; an operation
    that fails leaves the map as it was. *)

From S2P Require Import Prelude RustStr.

Local Open Scope string_scope.

(** ** Ports *)

Abbreviation PortTable := (gmap Z string).

Definition port_claim (by_port : PortTable) (port : Z) (tunnel_name : string) : Anyhow PortTable :=
  if (port =? 0)%Z then Err "invalid remote port 0"
  else match by_port !! port with
  | Some existing =>
      Err ("remote port " ++ show_Z port ++ " is already in use by tunnel `" ++ existing ++ "`")
  | None => Ok (<[port := tunnel_name]> by_port)
  end.

Definition port_release (by_port : PortTable) (port : Z) (tunnel_name : string) : PortTable :=
  match by_port !! port with
  | Some n => if String.eqb n tunnel_name then delete port by_port else by_port
  | None => by_port
  end.

(** ** Names *)

Record TunnelOwner := MkOwner { session_id : string; generation : Z }.

#[global] Instance TunnelOwner_eq_dec : EqDecision TunnelOwner.
Proof. solve_decision. Defined.

Abbreviation TunnelRegistry := (gmap string TunnelOwner).

Definition try_insert (by_name : TunnelRegistry) (name : string) (owner : TunnelOwner)
    : Anyhow TunnelRegistry :=
  let name := trim name in
  if is_empty name then Err "empty tunnel name"
  else match by_name !! name with
  | Some existing =>
      Err ("tunnel `" ++ name ++ "` is already registered (session=" ++ session_id existing
           ++ ", generation=" ++ show_Z (generation existing) ++ ")")
  | None => Ok (<[name := owner]> by_name)
  end.

Definition remove_if_owner (by_name : TunnelRegistry) (name : string) (owner : TunnelOwner)
    : TunnelRegistry :=
  if decide (by_name !! name = Some owner) then delete name by_name else by_name.

(** ** Lemmas *)

Lemma port_claim_ok t p n t' :
  port_claim t p n = Ok t' <-> p <> 0%Z /\ t !! p = None /\ t' = <[p := n]> t.
Proof.
  unfold port_claim. destruct (Z.eqb_spec p 0) as [->|Hp]; [naive_solver|].
  destruct (t !! p); naive_solver.
Qed.

Lemma port_release_claim t p n t' :
  port_claim t p n = Ok t' -> port_release t' p n = t.
Proof.
  intros (Hp & Hn & ->)%port_claim_ok. unfold port_release.
  rewrite lookup_insert_eq, String.eqb_refl. by apply delete_insert_id.
Qed.

Lemma port_release_other t p n q :
  t !! q <> Some n \/ q <> p -> port_release t p n !! q = t !! q.
Proof.
  intros Hq. unfold port_release. destruct (t !! p) as [m|] eqn:E; [|done].
  destruct (String.eqb_spec m n) as [->|]; [|done].
  rewrite lookup_delete_ne; [done|]. intros ->. naive_solver.
Qed.

Lemma port_release_lookup t p n q m :
  port_release t p n !! q = Some m <-> t !! q = Some m /\ ~ (q = p /\ m = n).
Proof.
  unfold port_release. destruct (t !! p) as [m'|] eqn:E.
  - destruct (String.eqb_spec m' n) as [->|]; [|naive_solver].
    rewrite lookup_delete_Some. naive_solver.
  - naive_solver.
Qed.

Lemma try_insert_ok r n o r' :
  try_insert r n o = Ok r' <->
  trim n <> "" /\ r !! trim n = None /\ r' = <[trim n := o]> r.
Proof.
  unfold try_insert. destruct (is_empty (trim n)) eqn:E.
  { apply is_empty_true in E. split; [done|]. intros (? & _). done. }
  apply is_empty_false in E. destruct (r !! trim n) as [w|].
  - split; [done|]. intros (_ & ? & _). done.
  - split; [intros [= <-]; done|]. intros (_ & _ & ->). done.
Qed.

Lemma remove_if_owner_lookup r n o m w :
  remove_if_owner r n o !! m = Some w <-> r !! m = Some w /\ ~ (m = n /\ w = o).
Proof.
  unfold remove_if_owner. destruct (decide _) as [E|E].
  - rewrite lookup_delete_Some. naive_solver.
  - naive_solver.
Qed.

Lemma remove_if_owner_insert r n o r' :
  trimmed n -> try_insert r n o = Ok r' -> remove_if_owner r' n o = r.
Proof.
  intros Ht (_ & Hn & ->)%try_insert_ok. unfold trimmed in Ht. rewrite Ht in *.
  unfold remove_if_owner. rewrite lookup_insert_eq. rewrite decide_True by done.
  by apply delete_insert_id.
Qed.

(** The keys of the registry are trimmed, non-empty names. *)
Definition registry_wf (r : TunnelRegistry) : Prop :=
  map_Forall (fun n _ => trimmed n /\ n <> "") r.

Lemma try_insert_wf r n o r' : registry_wf r -> try_insert r n o = Ok r' -> registry_wf r'.
Proof.
  intros Hr (Hne & _ & ->)%try_insert_ok. apply map_Forall_insert_2; [|done].
  split; [apply trim_idemp|done].
Qed.
Lemma remove_if_owner_wf r n o : registry_wf r -> registry_wf (remove_if_owner r n o).
Proof. unfold remove_if_owner. destruct (decide _); [|done]. by apply map_Forall_delete. Qed.

(** Where registration and removal disagree on the name: a name that starts or
    ends with white space is registered trimmed and never removed. *)
Lemma remove_untrimmed r n o :
  registry_wf r -> ~ trimmed n -> remove_if_owner r n o = r.
Proof.
  intros Hr Hn. unfold remove_if_owner. destruct (decide _) as [E|]; [|done].
  destruct (Hr _ _ E) as [? _]. done.
Qed.
#[export] Hint Resolve try_insert_wf remove_if_owner_wf : orbien.

Lemma port_release_insert (t : PortTable) p n :
  t !! p = None -> port_release (<[p := n]> t) p n = t.
Proof.
  intros. unfold port_release. rewrite lookup_insert_eq, String.eqb_refl. by apply delete_insert_id.
Qed.
