(* ===== verification/Metrics.v ===== *)
(** * Traffic and connection metrics

    [server/src/metrics/]: [Counter] (an [AtomicI64]), [DateCounter] and
    [HourCounter] (sliding windows of totals) and [MemMetrics], the record the
    server updates on every login, registration and proxied connection.
    The clock is read through chrono; a reading is an argument. *)

From S2P Require Import Prelude RustStr.

Local Open Scope string_scope.
Local Open Scope Z_scope.

Definition RESERVE_DAYS : nat := 7.
Definition RESERVE_HOURS : nat := 24.

(** What [Local::now()] gives: the local date as a day number, the start of the
    local hour and the instant itself, both in unix seconds. *)
Record Now := MkNow { now_date : Z; now_hour : Z; now_unix : Z }.

(** ** Counters *)

Definition counter_inc (v delta : Z) : Z := wrap_i 64 (v + delta).
Definition counter_dec (v delta : Z) : Z := wrap_i 64 (v - delta).

(** [Vec::rotate_right(n)] and zeroing the first [n] slots. *)
Definition rotate_right (n : nat) (l : list Z) : list Z :=
  drop (length l - n) l ++ take (length l - n) l.
Definition zero_first (n : nat) (l : list Z) : list Z :=
  replicate (n `min` length l) 0 ++ drop n l.
Definition add_head (delta : Z) (l : list Z) : list Z :=
  match l with [] => [] | c :: l => sat_i64 (c + delta) :: l end.

Record DateCounter := MkDateCounter {
  dc_reserve_days : nat; dc_counts : list Z; dc_last_date : Z }.

Definition date_new (reserve_days : nat) (t : Now) : DateCounter :=
  let reserve_days := Nat.max reserve_days 1 in
  MkDateCounter reserve_days (replicate reserve_days 0) (now_date t).

Definition date_rotate (c : DateCounter) (today : Z) : DateCounter :=
  if today <=? dc_last_date c then c else
  let days := today - dc_last_date c in
  if days <=? 0 then c else
  let shift := Z.to_nat days in
  let counts :=
    if (dc_reserve_days c <=? shift)%nat then replicate (length (dc_counts c)) 0
    else zero_first shift (rotate_right shift (dc_counts c)) in
  MkDateCounter (dc_reserve_days c) counts today.

Definition date_today_count (c : DateCounter) (t : Now) : Z * DateCounter :=
  let c := date_rotate c (now_date t) in (default 0 (head (dc_counts c)), c).
Definition date_last_days (c : DateCounter) (days : nat) (t : Now) : list Z * DateCounter :=
  let c := date_rotate c (now_date t) in
  (take (Nat.min days (dc_reserve_days c)) (dc_counts c), c).
Definition date_inc (c : DateCounter) (delta : Z) (t : Now) : DateCounter :=
  let c := date_rotate c (now_date t) in
  MkDateCounter (dc_reserve_days c) (add_head delta (dc_counts c)) (dc_last_date c).

Record HourCounter := MkHourCounter {
  hc_reserve_hours : nat; hc_counts : list Z; hc_last_hour : Z }.

Definition hour_new (reserve_hours : nat) (t : Now) : HourCounter :=
  let reserve_hours := Nat.max reserve_hours 1 in
  MkHourCounter reserve_hours (replicate reserve_hours 0) (now_hour t).

Definition hour_rotate (c : HourCounter) (current : Z) : HourCounter :=
  if current <=? hc_last_hour c then c else
  let hours := (current - hc_last_hour c) / 3600 in
  if hours <=? 0 then c else
  let shift := Z.to_nat hours in
  let counts :=
    if (hc_reserve_hours c <=? shift)%nat then replicate (length (hc_counts c)) 0
    else zero_first shift (rotate_right shift (hc_counts c)) in
  MkHourCounter (hc_reserve_hours c) counts current.

Definition hour_last_hours (c : HourCounter) (hours : nat) (t : Now) : list Z * HourCounter :=
  let c := hour_rotate c (now_hour t) in
  (take (Nat.min hours (hc_reserve_hours c)) (hc_counts c), c).
Definition hour_inc (c : HourCounter) (delta : Z) (t : Now) : HourCounter :=
  let c := hour_rotate c (now_hour t) in
  MkHourCounter (hc_reserve_hours c) (add_head delta (hc_counts c)) (hc_last_hour c).

(** ** [MemMetrics] *)

Inductive TrafficWindow := Days7 | Hours24.
Definition traffic_window_parse (raw : string) : TrafficWindow :=
  let s := to_lower (trim raw) in
  if decide (s ∈ ["24h"; "hour"; "hours"; "1d"]%string) then Hours24 else Days7.

Record TunnelStats := MkTunnelStats {
  ts_tunnel_type : string; ts_user : string; ts_session_id : string;
  ts_traffic_in : DateCounter; ts_traffic_out : DateCounter;
  ts_traffic_in_hourly : HourCounter; ts_traffic_out_hourly : HourCounter;
  ts_active_connections : Z;
  ts_last_start_unix : option Z; ts_last_close_unix : option Z }.

Definition tunnel_stats_new (tunnel_type user session_id : string) (t : Now) : TunnelStats :=
  MkTunnelStats tunnel_type user session_id
    (date_new RESERVE_DAYS t) (date_new RESERVE_DAYS t)
    (hour_new RESERVE_HOURS t) (hour_new RESERVE_HOURS t) 0 None None.

Record MemMetrics := MkMemMetrics {
  mm_total_traffic_in : DateCounter; mm_total_traffic_out : DateCounter;
  mm_total_traffic_in_hourly : HourCounter; mm_total_traffic_out_hourly : HourCounter;
  mm_active_connections : Z; mm_client_counts : Z;
  mm_seen_clients : gset string;
  mm_tunnel_type_counts : gmap string Z;
  mm_tunnels : gmap string TunnelStats }.

Definition metrics_new (t : Now) : MemMetrics :=
  MkMemMetrics (date_new RESERVE_DAYS t) (date_new RESERVE_DAYS t)
    (hour_new RESERVE_HOURS t) (hour_new RESERVE_HOURS t) 0 0 ∅ ∅ ∅.

Definition ts_set_active (p : TunnelStats) (v : Z) : TunnelStats :=
  MkTunnelStats (ts_tunnel_type p) (ts_user p) (ts_session_id p) (ts_traffic_in p) (ts_traffic_out p)
    (ts_traffic_in_hourly p) (ts_traffic_out_hourly p) v (ts_last_start_unix p) (ts_last_close_unix p).
Definition mm_set_conns (m : MemMetrics) (v : Z) (ts : gmap string TunnelStats) : MemMetrics :=
  MkMemMetrics (mm_total_traffic_in m) (mm_total_traffic_out m) (mm_total_traffic_in_hourly m)
    (mm_total_traffic_out_hourly m) v (mm_client_counts m) (mm_seen_clients m)
    (mm_tunnel_type_counts m) ts.
Definition mm_set_clients (m : MemMetrics) (v : Z) (seen : gset string) : MemMetrics :=
  MkMemMetrics (mm_total_traffic_in m) (mm_total_traffic_out m) (mm_total_traffic_in_hourly m)
    (mm_total_traffic_out_hourly m) (mm_active_connections m) v seen
    (mm_tunnel_type_counts m) (mm_tunnels m).
Definition mm_set_tunnels (m : MemMetrics) (tys : gmap string Z) (ts : gmap string TunnelStats)
    : MemMetrics :=
  MkMemMetrics (mm_total_traffic_in m) (mm_total_traffic_out m) (mm_total_traffic_in_hourly m)
    (mm_total_traffic_out_hourly m) (mm_active_connections m) (mm_client_counts m)
    (mm_seen_clients m) tys ts.

Definition MAX_SEEN : nat := 256.

(** [hash_iter] is the iteration order of the hash set, which Rust leaves open. *)
Definition new_client (hash_iter : gset string -> list string) (m : MemMetrics) (session_id : string)
    : MemMetrics :=
  let seen :=
    if is_empty session_id then mm_seen_clients m else
    let seen := {[session_id]} ∪ mm_seen_clients m in
    if (MAX_SEEN <? size seen)%nat
    then let overflow := (size seen - MAX_SEEN)%nat in
         seen ∖ list_to_set (take overflow (hash_iter seen))
    else seen in
  mm_set_clients m (counter_inc (mm_client_counts m) 1) seen.

Definition close_client (m : MemMetrics) : MemMetrics :=
  mm_set_clients m (counter_dec (mm_client_counts m) 1) (mm_seen_clients m).

Definition new_tunnel (m : MemMetrics) (name tunnel_type user session_id : string) (t : Now)
    : MemMetrics :=
  let tys := <[tunnel_type := counter_inc (default 0 (mm_tunnel_type_counts m !! tunnel_type)) 1]>
               (mm_tunnel_type_counts m) in
  let entry := default (tunnel_stats_new tunnel_type user session_id t) (mm_tunnels m !! name) in
  let entry :=
    if negb (String.eqb (ts_tunnel_type entry) tunnel_type)
    then tunnel_stats_new tunnel_type user session_id t
    else MkTunnelStats (ts_tunnel_type entry) user session_id (ts_traffic_in entry)
           (ts_traffic_out entry) (ts_traffic_in_hourly entry) (ts_traffic_out_hourly entry)
           (ts_active_connections entry) (ts_last_start_unix entry) (ts_last_close_unix entry) in
  let entry := MkTunnelStats (ts_tunnel_type entry) (ts_user entry) (ts_session_id entry)
           (ts_traffic_in entry) (ts_traffic_out entry) (ts_traffic_in_hourly entry)
           (ts_traffic_out_hourly entry) (ts_active_connections entry)
           (Some (now_unix t)) (ts_last_close_unix entry) in
  mm_set_tunnels m tys (<[name := entry]> (mm_tunnels m)).

Definition close_tunnel (m : MemMetrics) (name tunnel_type : string) (t : Now) : MemMetrics :=
  let tys := match mm_tunnel_type_counts m !! tunnel_type with
             | Some c => <[tunnel_type := counter_dec c 1]> (mm_tunnel_type_counts m)
             | None => mm_tunnel_type_counts m
             end in
  let close p := MkTunnelStats (ts_tunnel_type p) (ts_user p) (ts_session_id p) (ts_traffic_in p)
      (ts_traffic_out p) (ts_traffic_in_hourly p) (ts_traffic_out_hourly p)
      (ts_active_connections p) (ts_last_start_unix p) (Some (now_unix t)) in
  mm_set_tunnels m tys (alter close name (mm_tunnels m)).

Definition open_connection (m : MemMetrics) (name tunnel_type : string) : MemMetrics :=
  mm_set_conns m (counter_inc (mm_active_connections m) 1)
    (alter (fun p => ts_set_active p (counter_inc (ts_active_connections p) 1)) name (mm_tunnels m)).
Definition close_connection (m : MemMetrics) (name tunnel_type : string) : MemMetrics :=
  mm_set_conns m (counter_dec (mm_active_connections m) 1)
    (alter (fun p => ts_set_active p (counter_dec (ts_active_connections p) 1)) name (mm_tunnels m)).

Definition add_traffic_in (m : MemMetrics) (name tunnel_type : string) (bytes : Z) (t : Now)
    : MemMetrics :=
  if bytes =? 0 then m else
  let delta := wrap_i 64 bytes in
  MkMemMetrics (date_inc (mm_total_traffic_in m) delta t) (mm_total_traffic_out m)
    (hour_inc (mm_total_traffic_in_hourly m) delta t) (mm_total_traffic_out_hourly m)
    (mm_active_connections m) (mm_client_counts m) (mm_seen_clients m) (mm_tunnel_type_counts m)
    (alter (fun p =>
       MkTunnelStats (ts_tunnel_type p) (ts_user p) (ts_session_id p)
         (date_inc (ts_traffic_in p) delta t) (ts_traffic_out p)
         (hour_inc (ts_traffic_in_hourly p) delta t) (ts_traffic_out_hourly p)
         (ts_active_connections p) (ts_last_start_unix p) (ts_last_close_unix p)) name (mm_tunnels m)).
Definition add_traffic_out (m : MemMetrics) (name tunnel_type : string) (bytes : Z) (t : Now)
    : MemMetrics :=
  if bytes =? 0 then m else
  let delta := wrap_i 64 bytes in
  MkMemMetrics (mm_total_traffic_in m) (date_inc (mm_total_traffic_out m) delta t)
    (mm_total_traffic_in_hourly m) (hour_inc (mm_total_traffic_out_hourly m) delta t)
    (mm_active_connections m) (mm_client_counts m) (mm_seen_clients m) (mm_tunnel_type_counts m)
    (alter (fun p =>
       MkTunnelStats (ts_tunnel_type p) (ts_user p) (ts_session_id p)
         (ts_traffic_in p) (date_inc (ts_traffic_out p) delta t)
         (ts_traffic_in_hourly p) (hour_inc (ts_traffic_out_hourly p) delta t)
         (ts_active_connections p) (ts_last_start_unix p) (ts_last_close_unix p)) name (mm_tunnels m)).

(** ** Reports *)

Record ServerSnapshot := MkServerSnapshot {
  ss_total_traffic_in : Z; ss_total_traffic_out : Z; ss_active_connections : Z;
  ss_client_counts : Z; ss_total_client_counts : Z; ss_tunnel_type_counts : gmap string Z }.
Record TunnelSnapshot := MkTunnelSnapshot {
  tsn_name : string; tsn_tunnel_type : string; tsn_user : string; tsn_session_id : string;
  tsn_today_traffic_in : Z; tsn_today_traffic_out : Z; tsn_active_connections : Z;
  tsn_last_start_at : option Z; tsn_last_close_at : option Z }.
Record TrafficPoint := MkTrafficPoint { tp_date : string; tp_traffic_in : Z; tp_traffic_out : Z }.
Record TunnelTrafficHistory := MkTunnelTrafficHistory {
  th_name : string; th_unit : string; th_granularity : string; th_history : list TrafficPoint }.

Definition server_snapshot (m : MemMetrics) (t : Now) : ServerSnapshot * MemMetrics :=
  let counts := filter (fun '(_, n) => 0 < n) (fmap (fun v => Z.max v 0) (mm_tunnel_type_counts m)) in
  let '(tin, ci) := date_today_count (mm_total_traffic_in m) t in
  let '(tout, co) := date_today_count (mm_total_traffic_out m) t in
  (MkServerSnapshot (Z.max tin 0) (Z.max tout 0) (Z.max (mm_active_connections m) 0)
     (Z.max (mm_client_counts m) 0) (Z.of_nat (size (mm_seen_clients m))) counts,
   MkMemMetrics ci co (mm_total_traffic_in_hourly m) (mm_total_traffic_out_hourly m)
     (mm_active_connections m) (mm_client_counts m) (mm_seen_clients m)
     (mm_tunnel_type_counts m) (mm_tunnels m)).

Definition to_tunnel_snapshot (name : string) (p : TunnelStats) (t : Now)
    : TunnelSnapshot * TunnelStats :=
  let '(tin, ci) := date_today_count (ts_traffic_in p) t in
  let '(tout, co) := date_today_count (ts_traffic_out p) t in
  (MkTunnelSnapshot name (ts_tunnel_type p) (ts_user p) (ts_session_id p)
     (Z.max tin 0) (Z.max tout 0) (Z.max (ts_active_connections p) 0)
     (ts_last_start_unix p) (ts_last_close_unix p),
   MkTunnelStats (ts_tunnel_type p) (ts_user p) (ts_session_id p) ci co
     (ts_traffic_in_hourly p) (ts_traffic_out_hourly p) (ts_active_connections p)
     (ts_last_start_unix p) (ts_last_close_unix p)).

Definition tunnel_snapshot (m : MemMetrics) (name : string) (t : Now)
    : option TunnelSnapshot * MemMetrics :=
  match mm_tunnels m !! name with
  | None => (None, m)
  | Some p =>
      let '(s, p') := to_tunnel_snapshot name p t in
      (Some s, mm_set_tunnels m (mm_tunnel_type_counts m) (<[name := p']> (mm_tunnels m)))
  end.

Section History.
(** chrono's rendering of the day, respectively hour, [age] units ago. *)
Context (fmt_day fmt_hour : Now -> nat -> string).

Definition history_points (fmt : nat -> string) (n : nat) (inbound outbound : list Z)
    : list TrafficPoint :=
  map (fun age => MkTrafficPoint (fmt age) (Z.max (default 0 (inbound !! age)) 0)
                    (Z.max (default 0 (outbound !! age)) 0))
    (reverse (seq 0 n)).
Definition build_daily_history (name : string) (inbound outbound : list Z) (t : Now)
    : TunnelTrafficHistory :=
  let n := (RESERVE_DAYS `min` (length inbound `min` length outbound))%nat in
  MkTunnelTrafficHistory name "bytes" "day" (history_points (fmt_day t) n inbound outbound).
Definition build_hourly_history (name : string) (inbound outbound : list Z) (t : Now)
    : TunnelTrafficHistory :=
  let n := (RESERVE_HOURS `min` (length inbound `min` length outbound))%nat in
  MkTunnelTrafficHistory name "bytes" "hour" (history_points (fmt_hour t) n inbound outbound).

Definition tunnel_traffic (m : MemMetrics) (name : string) (window : TrafficWindow) (t : Now)
    : option TunnelTrafficHistory * MemMetrics :=
  match mm_tunnels m !! name with
  | None => (None, m)
  | Some p =>
      let '(h, p') :=
        match window with
        | Days7 =>
            let '(i, ci) := date_last_days (ts_traffic_in p) RESERVE_DAYS t in
            let '(o, co) := date_last_days (ts_traffic_out p) RESERVE_DAYS t in
            (build_daily_history name i o t,
             MkTunnelStats (ts_tunnel_type p) (ts_user p) (ts_session_id p) ci co
               (ts_traffic_in_hourly p) (ts_traffic_out_hourly p) (ts_active_connections p)
               (ts_last_start_unix p) (ts_last_close_unix p))
        | Hours24 =>
            let '(i, ci) := hour_last_hours (ts_traffic_in_hourly p) RESERVE_HOURS t in
            let '(o, co) := hour_last_hours (ts_traffic_out_hourly p) RESERVE_HOURS t in
            (build_hourly_history name i o t,
             MkTunnelStats (ts_tunnel_type p) (ts_user p) (ts_session_id p)
               (ts_traffic_in p) (ts_traffic_out p) ci co (ts_active_connections p)
               (ts_last_start_unix p) (ts_last_close_unix p))
        end in
      (Some h, mm_set_tunnels m (mm_tunnel_type_counts m) (<[name := p']> (mm_tunnels m)))
  end.

Definition server_traffic (m : MemMetrics) (window : TrafficWindow) (t : Now)
    : TunnelTrafficHistory * MemMetrics :=
  match window with
  | Days7 =>
      let '(i, ci) := date_last_days (mm_total_traffic_in m) RESERVE_DAYS t in
      let '(o, co) := date_last_days (mm_total_traffic_out m) RESERVE_DAYS t in
      (build_daily_history "server" i o t,
       MkMemMetrics ci co (mm_total_traffic_in_hourly m) (mm_total_traffic_out_hourly m)
         (mm_active_connections m) (mm_client_counts m) (mm_seen_clients m)
         (mm_tunnel_type_counts m) (mm_tunnels m))
  | Hours24 =>
      let '(i, ci) := hour_last_hours (mm_total_traffic_in_hourly m) RESERVE_HOURS t in
      let '(o, co) := hour_last_hours (mm_total_traffic_out_hourly m) RESERVE_HOURS t in
      (build_hourly_history "server" i o t,
       MkMemMetrics (mm_total_traffic_in m) (mm_total_traffic_out m) ci co
         (mm_active_connections m) (mm_client_counts m) (mm_seen_clients m)
         (mm_tunnel_type_counts m) (mm_tunnels m))
  end.
End History.

(** ** Proxied connections *)

Inductive ErrorKind :=
| ConnectionReset | ConnectionAborted | BrokenPipe | NotConnected | UnexpectedEof | OtherKind.
Definition is_benign_close (k : ErrorKind) : bool :=
  match k with OtherKind => false | _ => true end.

(** [join_and_record]: [join] is what [join_counted] reports (bytes to the data
    connection, bytes from it, the first error).  The connection guard is
    dropped on return. *)
Definition join_and_record (m : MemMetrics) (name tunnel_type : string)
    (join : Z * Z * option ErrorKind) (t : Now) : Result (Z * Z) ErrorKind * MemMetrics :=
  let m := open_connection m name tunnel_type in
  let '(to_data, from_data, err) := join in
  let m := add_traffic_in m name tunnel_type to_data t in
  let m := add_traffic_out m name tunnel_type from_data t in
  let m := close_connection m name tunnel_type in
  (match err with
   | None => Ok (to_data, from_data)
   | Some e => if is_benign_close e then Ok (to_data, from_data) else Err e
   end, m).

(** ** The sliding window refines a ledger of totals per day

    The ledger [M] gives the saturated total of every day; the vector holds its
    last [reserve_days] entries, newest first. *)

Definition dc_repr (c : DateCounter) (M : Z -> Z) : Prop :=
  (0 < dc_reserve_days c)%nat /\ length (dc_counts c) = dc_reserve_days c
  /\ (forall k, (k < dc_reserve_days c)%nat -> dc_counts c !! k = Some (M (dc_last_date c - Z.of_nat k)))
  /\ (forall d, dc_last_date c < d -> M d = 0).

Definition ledger_add (M : Z -> Z) (day delta : Z) : Z -> Z :=
  fun d => if d =? day then sat_i64 (M d + delta) else M d.

(** The reference: a write on a day the clock has already left counts for the
    newest day seen. *)
Fixpoint ledger (last : Z) (M : Z -> Z) (incs : list (Z * Z)) : Z * (Z -> Z) :=
  match incs with
  | [] => (last, M)
  | (day, delta) :: incs => ledger (Z.max last day) (ledger_add M (Z.max last day) delta) incs
  end.

Lemma shift_lookup (n : nat) (l : list Z) (k : nat) :
  (n < length l)%nat -> (k < length l)%nat ->
  zero_first n (rotate_right n l) !! k = if (k <? n)%nat then Some 0 else l !! (k - n)%nat.
Proof.
  intros Hn Hk. unfold zero_first, rotate_right.
  assert (length (drop (length l - n) l) = n) as Hd by (rewrite length_drop; lia).
  rewrite drop_app_length' by done.
  rewrite length_app, Hd, length_take.
  replace (n `min` (n + ((length l - n) `min` length l)))%nat with n by lia.
  destruct (Nat.ltb_spec k n).
  - rewrite lookup_app_l by (rewrite length_replicate; lia). rewrite lookup_replicate. naive_solver.
  - rewrite lookup_app_r by (rewrite length_replicate; lia). rewrite length_replicate.
    apply lookup_take_lt. lia.
Qed.
Lemma shift_length n l : length (zero_first n (rotate_right n l)) = length l.
Proof.
  unfold zero_first, rotate_right.
  repeat rewrite ?length_app, ?length_replicate, ?length_drop, ?length_take. lia.
Qed.

Lemma date_rotate_last c today : dc_last_date (date_rotate c today) = Z.max (dc_last_date c) today.
Proof.
  unfold date_rotate. destruct (Z.leb_spec today (dc_last_date c)); [lia|].
  destruct (Z.leb_spec (today - dc_last_date c) 0); simpl; lia.
Qed.
Lemma date_rotate_repr c M today : dc_repr c M -> dc_repr (date_rotate c today) M.
Proof.
  intros (Hr & Hl & Hk & Hz). unfold date_rotate.
  destruct (Z.leb_spec today (dc_last_date c)); [done|].
  destruct (Z.leb_spec (today - dc_last_date c) 0); [lia|].
  split; [done|]. split; [|split]; simpl.
  - destruct (Nat.leb_spec (dc_reserve_days c) (Z.to_nat (today - dc_last_date c))).
    + by rewrite length_replicate.
    + by rewrite shift_length.
  - intros k Hlt. destruct (Nat.leb_spec (dc_reserve_days c) (Z.to_nat (today - dc_last_date c))).
    + rewrite lookup_replicate_2 by lia. rewrite Hz; [done|lia].
    + rewrite shift_lookup by lia. destruct (Nat.ltb_spec k (Z.to_nat (today - dc_last_date c))).
      * rewrite Hz; [done|lia].
      * rewrite Hk by lia. do 2 f_equal. lia.
  - intros d Hd. apply Hz. lia.
Qed.
Lemma date_inc_repr c M delta t :
  dc_repr c M ->
  dc_repr (date_inc c delta t) (ledger_add M (Z.max (dc_last_date c) (now_date t)) delta).
Proof.
  intros H. apply (date_rotate_repr _ _ (now_date t)) in H.
  pose proof (date_rotate_last c (now_date t)) as Hlast.
  unfold date_inc. set (c' := date_rotate c (now_date t)) in *.
  destruct H as (Hr & Hl & Hk & Hz). rewrite <- Hlast.
  destruct (dc_counts c') as [|x xs] eqn:E; [simpl in Hl; lia|].
  split; [done|]. split; [done|]. unfold ledger_add. split; simpl.
  - intros [|k] Hlt; simpl.
    + specialize (Hk 0%nat Hr). rewrite Z.sub_0_r in *. injection Hk as ->. by rewrite Z.eqb_refl.
    + specialize (Hk (S k) Hlt). cbn in Hk. etransitivity; [exact Hk|].
      match goal with |- context [Z.eqb ?a ?b] => destruct (Z.eqb_spec a b) end; [lia|done].
  - intros d Hd. destruct (Z.eqb_spec d (dc_last_date c')); [lia|auto].
Qed.
Lemma date_new_repr n t : dc_repr (date_new n t) (fun _ => 0).
Proof.
  split; [simpl; lia|]. split; [simpl; by rewrite length_replicate|]. split; [|done].
  intros k Hk. simpl in *. apply lookup_replicate_2. lia.
Qed.
Lemma date_last_days_repr c M days t :
  dc_repr c M ->
  (date_last_days c days t).1 =
    map (fun k => M (Z.max (dc_last_date c) (now_date t) - Z.of_nat k)) (seq 0 (Nat.min days (dc_reserve_days c))).
Proof.
  intros H. apply (date_rotate_repr _ _ (now_date t)) in H.
  rewrite <- (date_rotate_last c (now_date t)).
  assert (dc_reserve_days c = dc_reserve_days (date_rotate c (now_date t))) as Er.
  { unfold date_rotate. repeat case_match; done. }
  unfold date_last_days. rewrite Er. set (c' := date_rotate c (now_date t)) in *.
  destruct H as (Hr & Hl & Hk & _). cbn [fst]. apply list_eq. intros i.
  rewrite list_lookup_fmap. destruct (decide (i < Nat.min days (dc_reserve_days c'))%nat).
  - rewrite lookup_take_lt by lia. rewrite Hk by lia. rewrite lookup_seq_lt by lia. done.
  - rewrite lookup_take_ge by lia. rewrite lookup_ge_None_2 by (rewrite length_seq; lia). done.
Qed.

Lemma fold_date_inc_repr incs c M :
  dc_repr c M ->
  let c' := fold_left (fun c '(t, delta) => date_inc c delta t) incs c in
  let '(last, M') := ledger (dc_last_date c) M (map (fun '(t, d) => (now_date t, d)) incs) in
  dc_repr c' M' /\ dc_last_date c' = last.
Proof.
  revert c M. induction incs as [|[t d] incs IH]; intros c M H; simpl; [done|].
  specialize (IH _ _ (date_inc_repr c M d t H)). simpl in IH.
  rewrite date_rotate_last in IH. exact IH.
Qed.

(** ** Gauges *)

Lemma wrap_i_sub_add v d : in_i64 v -> wrap_i 64 (wrap_i 64 (v + d) - d) = v.
Proof.
  unfold in_i64, i64_min, i64_max, wrap_i. intros Hv.
  change (2 ^ (64 - 1)) with 9223372036854775808. change (2 ^ 64) with 18446744073709551616.
  Z.div_mod_to_equations. lia.
Qed.
Lemma counter_dec_inc v : in_i64 v -> counter_dec (counter_inc v 1) 1 = v.
Proof. apply wrap_i_sub_add. Qed.

(** The connection gauge of every tunnel the record knows. *)
Definition gauge (m : MemMetrics) (name : string) : option Z :=
  ts_active_connections <$> mm_tunnels m !! name.
Definition gauges_ok (m : MemMetrics) : Prop :=
  in_i64 (mm_active_connections m) /\ forall n v, gauge m n = Some v -> in_i64 v.

Lemma gauge_add_traffic_in m n ty b t k :
  gauge (add_traffic_in m n ty b t) k = gauge m k
  /\ mm_active_connections (add_traffic_in m n ty b t) = mm_active_connections m.
Proof.
  unfold add_traffic_in, gauge. destruct (b =? 0); simpl; [done|]. split; [|done].
  destruct (decide (n = k)) as [->|].
  - rewrite lookup_alter_eq. by destruct (mm_tunnels m !! k).
  - by rewrite lookup_alter_ne.
Qed.
Lemma gauge_add_traffic_out m n ty b t k :
  gauge (add_traffic_out m n ty b t) k = gauge m k
  /\ mm_active_connections (add_traffic_out m n ty b t) = mm_active_connections m.
Proof.
  unfold add_traffic_out, gauge. destruct (b =? 0); simpl; [done|]. split; [|done].
  destruct (decide (n = k)) as [->|].
  - rewrite lookup_alter_eq. by destruct (mm_tunnels m !! k).
  - by rewrite lookup_alter_ne.
Qed.
Lemma gauge_open m n ty k :
  gauge (open_connection m n ty) k
  = if decide (n = k) then (fun v => counter_inc v 1) <$> gauge m k else gauge m k.
Proof.
  unfold gauge. simpl. destruct (decide (n = k)) as [->|].
  - rewrite lookup_alter_eq. by destruct (mm_tunnels m !! k).
  - by rewrite lookup_alter_ne.
Qed.
Lemma gauge_close m n ty k :
  gauge (close_connection m n ty) k
  = if decide (n = k) then (fun v => counter_dec v 1) <$> gauge m k else gauge m k.
Proof.
  unfold gauge. simpl. destruct (decide (n = k)) as [->|].
  - rewrite lookup_alter_eq. by destruct (mm_tunnels m !! k).
  - by rewrite lookup_alter_ne.
Qed.
Lemma gauge_new_tunnel m n ty u s t :
  gauge (new_tunnel m n ty u s t) n =
  Some (match mm_tunnels m !! n with
        | Some p => if String.eqb (ts_tunnel_type p) ty then ts_active_connections p else 0
        | None => 0
        end).
Proof.
  unfold gauge, new_tunnel. cbn [mm_tunnels mm_set_tunnels]. rewrite lookup_insert_eq.
  destruct (mm_tunnels m !! n) as [p|]; simpl; [|by rewrite String.eqb_refl].
  by destruct (String.eqb (ts_tunnel_type p) ty).
Qed.

Lemma gauges_ok_new m n ty u s t : gauges_ok m -> gauges_ok (new_tunnel m n ty u s t).
Proof.
  intros [Ha Hg]. split; [done|]. intros k v. destruct (decide (n = k)) as [<-|Hne].
  - rewrite gauge_new_tunnel. intros [= <-]. destruct (mm_tunnels m !! n) as [p|] eqn:E.
    + destruct (String.eqb _ _); [|unfold in_i64, i64_min, i64_max; lia].
      apply (Hg n). unfold gauge. by rewrite E.
    + unfold in_i64, i64_min, i64_max; lia.
  - unfold gauge, new_tunnel. cbn [mm_tunnels mm_set_tunnels]. rewrite lookup_insert_ne by done. apply Hg.
Qed.
Lemma gauges_ok_metrics_new t : gauges_ok (metrics_new t).
Proof. split; [unfold in_i64, i64_min, i64_max; simpl; lia|]. intros n v. unfold gauge. simpl. by rewrite lookup_empty. Qed.

(** ** Properties *)

(** C40: After any sequence of traffic updates, whatever the clock did, the
    dashboard's daily window is the ledger of totals per day: entry [k] is the
    total of the day [k] days before the newest day seen, saturated at the
    bounds of [i64]. *)
Theorem daily_window_exact (reserve days : nat) (t0 t : Now) (incs : list (Now * Z)) :
  let c := fold_left (fun c '(t, delta) => date_inc c delta t) incs (date_new reserve t0) in
  let '(last, M) := ledger (now_date t0) (fun _ => 0) (map (fun '(t, d) => (now_date t, d)) incs) in
  (date_last_days c days t).1
  = map (fun k => M (Z.max last (now_date t) - Z.of_nat k)) (seq 0 (Nat.min days (Nat.max reserve 1))).
Proof.
  intros c. pose proof (fold_date_inc_repr incs _ _ (date_new_repr reserve t0)) as H.
  cbn zeta in H. cbn [dc_last_date date_new] in H. fold c in H.
  destruct (ledger _ _ _) as [last M]. destruct H as [H <-].
  rewrite (date_last_days_repr _ M) by done. do 3 f_equal.
  assert (forall c, dc_reserve_days c = Nat.max reserve 1 ->
    dc_reserve_days (fold_left (fun c '(t, delta) => date_inc c delta t) incs c) = Nat.max reserve 1) as Hr.
  { clear. induction incs as [|[t d] incs IH]; intros c Hc; [done|]. simpl. apply IH. simpl.
    unfold date_rotate. by repeat case_match. }
  by apply Hr.
Qed.

(** A proxied connection leaves every connection gauge as it found it, the
    server's and each tunnel's, however the copy ended; errors of a peer that
    closed early are not reported. *)
Theorem join_and_record_balanced (m : MemMetrics) (name ty : string)
    (to_data from_data : Z) (err : option ErrorKind) (t : Now) :
  gauges_ok m ->
  let '(r, m') := join_and_record m name ty (to_data, from_data, err) t in
  mm_active_connections m' = mm_active_connections m
  /\ (forall k, gauge m' k = gauge m k)
  /\ (is_err r = true <-> err = Some OtherKind).
Proof.
  intros [Ha Hg]. unfold join_and_record.
  set (m1 := open_connection m name ty).
  set (m2 := add_traffic_in m1 name ty to_data t). set (m3 := add_traffic_out m2 name ty from_data t).
  assert (mm_active_connections m3 = counter_inc (mm_active_connections m) 1) as E3.
  { unfold m3. rewrite (proj2 (gauge_add_traffic_out _ _ _ _ _ name)).
    unfold m2. by rewrite (proj2 (gauge_add_traffic_in _ _ _ _ _ name)). }
  split; [|split].
  - unfold close_connection. cbn [mm_set_conns mm_active_connections]. rewrite E3.
    by apply counter_dec_inc.
  - intros k. rewrite gauge_close. unfold m3. rewrite (proj1 (gauge_add_traffic_out _ _ _ _ _ k)).
    unfold m2. rewrite (proj1 (gauge_add_traffic_in _ _ _ _ _ k)). unfold m1. rewrite gauge_open.
    destruct (decide (name = k)); [|done]. destruct (gauge m k) as [v|] eqn:E; [|done]. simpl.
    f_equal. apply counter_dec_inc. by apply (Hg k).
  - destruct err as [[]|]; simpl; naive_solver.
Qed.

(** A tunnel re-registered under another protocol while a connection is
    open loses count: its statistics are replaced, the old connection's guard
    then drives the new gauge to -1, and the next open connection is reported
    as none. *)
Theorem retyped_tunnel_undercounts (m : MemMetrics) (name ty1 ty2 user sid : string) (t : Now) :
  ty1 <> ty2 ->
  let m := new_tunnel m name ty1 user sid t in
  let m := open_connection m name ty1 in
  let m := new_tunnel m name ty2 user sid t in
  let m := close_connection m name ty1 in
  gauge m name = Some (-1)
  /\ option_map tsn_active_connections (tunnel_snapshot (open_connection m name ty2) name t).1 = Some 0.
Proof.
  intros Hne m1 m2 m3 m4.
  assert (gauge m4 name = Some (-1)) as Hg.
  { unfold m4. rewrite gauge_close, decide_True by done. unfold m3. rewrite gauge_new_tunnel.
    assert (exists p, mm_tunnels m2 !! name = Some p /\ ts_tunnel_type p = ty1) as (p & -> & ->).
    { unfold m2, m1. simpl. rewrite lookup_alter_eq, lookup_insert_eq. simpl. eexists. split; [done|].
      simpl. destruct (mm_tunnels m !! name) as [q|]; simpl.
      - destruct (String.eqb_spec (ts_tunnel_type q) ty1); done.
      - by rewrite String.eqb_refl. }
    by destruct (String.eqb_spec ty1 ty2). }
  split; [done|].
  assert (gauge (open_connection m4 name ty2) name = Some 0) as H0.
  { rewrite gauge_open, decide_True by done. by rewrite Hg. }
  unfold gauge in H0. unfold tunnel_snapshot.
  destruct (mm_tunnels (open_connection m4 name ty2) !! name) as [p|]; [|done].
  unfold to_tunnel_snapshot. destruct (date_today_count (ts_traffic_in p) t).
  destruct (date_today_count (ts_traffic_out p) t). simpl in *. injection H0 as ->. done.
Qed.

(** The set of seen clients never outgrows its cap of 256, whatever the
    order in which the hash set is iterated. *)
Theorem seen_clients_bounded (hash_iter : gset string -> list string) (m : MemMetrics) (sid : string) :
  (forall s, hash_iter s ≡ₚ elements s) ->
  (size (mm_seen_clients m) <= MAX_SEEN)%nat ->
  (size (mm_seen_clients (new_client hash_iter m sid)) <= MAX_SEEN)%nat.
Proof.
  intros Hiter Hs. unfold new_client. cbn [mm_seen_clients mm_set_clients].
  destruct (is_empty sid); [done|]. set (seen := {[sid]} ∪ mm_seen_clients m).
  destruct (Nat.ltb_spec MAX_SEEN (size seen)) as [Hlt|]; [|lia].
  set (n := (size seen - MAX_SEEN)%nat).
  assert (list_to_set (take n (hash_iter seen)) ⊆ seen) as Hsub.
  { intros x Hx%elem_of_list_to_set.
    apply elem_of_elements. rewrite <- (Hiter seen). by eapply subseteq_take. }
  rewrite size_difference by done. rewrite size_list_to_set.
  - rewrite length_take, (Permutation_length (Hiter seen)). change (length (elements seen)) with (size seen). lia.
  - assert (NoDup (hash_iter seen)) as Hnd by (rewrite (Hiter seen); apply NoDup_elements).
    rewrite <- (take_drop n (hash_iter seen)) in Hnd. by apply NoDup_app in Hnd as [? _].
Qed.

(** *** Witnesses *)
Definition day0 : Now := MkNow 0 0 0.

Lemma join_and_record_balanced_witness :
  gauge (join_and_record (new_tunnel (metrics_new day0) "web" "tcp" "u" "s" day0) "web" "tcp"
           (10, 20, Some BrokenPipe) day0).2 "web" = Some 0.
Proof.
  assert (gauges_ok (new_tunnel (metrics_new day0) "web" "tcp" "u" "s" day0)) as H
    by apply gauges_ok_new, gauges_ok_metrics_new.
  pose proof (join_and_record_balanced _ "web" "tcp" 10 20 (Some BrokenPipe) day0 H) as E.
  destruct (join_and_record _ _ _ _ _) as [r m']. destruct E as (_ & E & _). rewrite E. reflexivity.
Defined.

Lemma retyped_tunnel_undercounts_witness :
  gauge (close_connection (new_tunnel (open_connection (new_tunnel (metrics_new day0) "web" "tcp" "" "" day0)
    "web" "tcp") "web" "udp" "" "" day0) "web" "tcp") "web" = Some (-1).
Proof.
  apply (retyped_tunnel_undercounts (metrics_new day0) "web" "tcp" "udp" "" "" day0). discriminate.
Defined.

Lemma seen_clients_bounded_witness :
  (size (mm_seen_clients (new_client elements (metrics_new day0) "s1")) <= 256)%nat.
Proof. apply (seen_clients_bounded elements); [done|]. vm_compute. lia. Defined.
