(* ===== verification/Limit.v ===== *)
(** * Bandwidth limits

    [core/src/limit/quantity.rs], [core/src/limit/token_bucket.rs] and
    [limiter_if_side] of [core/src/limit/mod.rs]: the token bucket shared by the
    connections of a tunnel.  The bucket lives behind one mutex; an operation
    takes the clock reading it makes ([Instant::now()], in nanoseconds). *)

From S2P Require Import Prelude RustStr Float64.
From Stdlib Require Import SpecFloat.

Local Open Scope string_scope.
Local Open Scope Z_scope.

(** [core/src/limit/quantity.rs] *)
Definition mbps_to_bytes_per_sec (mbps : f64) : Z :=
  if f_le mbps (f_of_Z 0) || negb (f_is_finite mbps) then 0
  else f_as_u64 (f_round (f_div (f_mul mbps (f_of_Z 1000000)) (f_of_Z 8))).

Inductive BandwidthLimitSide := SideClient | SideServer.
#[global] Instance BandwidthLimitSide_eq_dec : EqDecision BandwidthLimitSide.
Proof. solve_decision. Defined.

Definition side_parse (s : string) : BandwidthLimitSide :=
  if eq_ignore_ascii_case (trim s) "server" then SideServer else SideClient.
Definition side_as_str (s : BandwidthLimitSide) : string :=
  match s with SideClient => "client" | SideServer => "server" end.

(** [str::parse::<f64>] is the standard library's float parser. *)
Definition parse_bandwidth_mbps (parse_f64 : string -> option f64) (raw : string) : Anyhow f64 :=
  let s := trim raw in
  if is_empty s then Ok (f_of_Z 0) else
  match parse_f64 s with
  | None => Err ("invalid bandwidth (Mbps number expected), got " ++ debug_str s)%string
  | Some n =>
      if negb (f_is_finite n) || f_lt n (f_of_Z 0)
      then Err ("invalid bandwidth value: " ++ debug_str s)%string
      else Ok n
  end.

(** [core/src/limit/token_bucket.rs] *)
Record BandwidthLimiter := MkLimiter { bl_rate : f64; bl_burst : f64 }.
Record BucketState := MkBucket { bs_tokens : f64; bs_last : Z }.

Definition limiter_new (bytes_per_sec : Z) (now : Z) : BandwidthLimiter * BucketState :=
  let b := f_of_Z (Z.max bytes_per_sec 1) in (MkLimiter b b, MkBucket b now).
Definition limiter_burst (l : BandwidthLimiter) : Z := f_as_u64 (bl_burst l).
Definition limiter_bytes_per_sec (l : BandwidthLimiter) : Z := f_as_u64 (bl_rate l).

(** [Duration::as_secs_f64] of a duration in nanoseconds. *)
Definition as_secs_f64 (ns : Z) : f64 :=
  f_add (f_of_Z (ns / 1000000000)) (f_div (f_of_Z (ns mod 1000000000)) (f_of_Z 1000000000)).

Definition refill (st : BucketState) (rate burst : f64) (now : Z) : BucketState :=
  let elapsed := as_secs_f64 (Z.max 0 (now - bs_last st)) in
  MkBucket (f_min (f_add (bs_tokens st) (f_mul elapsed rate)) burst) now.

Definition try_wait_n (l : BandwidthLimiter) (st : BucketState) (n now : Z) : bool * BucketState :=
  if n =? 0 then (true, st) else
  let n := f_of_Z n in
  if f_gt n (f_add (bl_burst l) f_epsilon) then (false, st) else
  let st := refill st (bl_rate l) (bl_burst l) now in
  if f_ge (bs_tokens st) n
  then (true, MkBucket (f_sub (bs_tokens st) n) (bs_last st))
  else (false, st).

Definition return_n (l : BandwidthLimiter) (st : BucketState) (n now : Z) : BucketState :=
  if n =? 0 then st else
  let st := refill st (bl_rate l) (bl_burst l) now in
  MkBucket (f_min (f_add (bs_tokens st) (f_of_Z n)) (bl_burst l)) (bs_last st).

(** One turn of [wait_n]'s inner loop: the tokens wanted are taken and the rest
    of the request remains, or the task sleeps for the time given in seconds. *)
Inductive WaitStep :=
| Taken (st : BucketState) (remaining : f64)
| SleepFor (st : BucketState) (secs : f64).
Definition wait_step (l : BandwidthLimiter) (st : BucketState) (remaining : f64) (now : Z) : WaitStep :=
  let want := f_min remaining (bl_burst l) in
  let st := refill st (bl_rate l) (bl_burst l) now in
  if f_ge (bs_tokens st) want
  then Taken (MkBucket (f_sub (bs_tokens st) want) (bs_last st)) (f_sub remaining want)
  else
    let need := f_sub want (bs_tokens st) in
    SleepFor st (f_max (f_div need (bl_rate l)) (f_div (f_of_Z 1) (f_of_Z 1000000))).

(** The loop, over the clock readings of its turns: [None] while still waiting. *)
Fixpoint wait_loop (l : BandwidthLimiter) (st : BucketState) (remaining : f64) (clock : list Z)
    : option BucketState * BucketState :=
  if f_gt remaining f_epsilon then
    match clock with
    | [] => (None, st)
    | now :: clock =>
        match wait_step l st remaining now with
        | Taken st remaining => wait_loop l st remaining clock
        | SleepFor st _ => wait_loop l st remaining clock
        end
    end
  else (Some st, st).
Definition wait_n (l : BandwidthLimiter) (st : BucketState) (n : Z) (clock : list Z)
    : option BucketState * BucketState :=
  if n =? 0 then (Some st, st) else wait_loop l st (f_of_Z n) clock.

(** [core/src/limit/mod.rs] *)
Definition limiter_if_side (bandwidth_mbps : f64) (bandwidth_limit_side : string)
    (want : BandwidthLimitSide) : Anyhow (option BandwidthLimiter) :=
  let bytes := mbps_to_bytes_per_sec bandwidth_mbps in
  if bytes =? 0 then Ok None
  else if negb (bool_decide (side_parse bandwidth_limit_side = want)) then Ok None
  else Ok (Some (limiter_new bytes 0).1).

(** ** Lemmas *)

Lemma shr_1_nonneg mrs : 0 <= shr_m mrs -> 0 <= shr_m (shr_1 mrs).
Proof. destruct mrs as [m r s]. destruct m as [|[]|[]]; simpl; lia. Qed.
Lemma iter_pos_nonneg n mrs : 0 <= shr_m mrs -> 0 <= shr_m (iter_pos shr_1 n mrs).
Proof.
  revert mrs. induction n as [n IH|n IH|]; intros mrs H; simpl; auto using shr_1_nonneg.
Qed.
Lemma shr_fexp_nonneg p e m ex l : 0 <= m -> 0 <= shr_m (shr_fexp p e m ex l).1.
Proof.
  intros Hm. unfold shr_fexp, shr.
  assert (0 <= shr_m (shr_record_of_loc m l)) as H0 by (by destruct l as [|[]]).
  destruct (_ - _) as [|n|n]; simpl; try done.
  by apply iter_pos_nonneg.
Qed.
Lemma round_nearest_even_nonneg m l : 0 <= m -> 0 <= round_nearest_even m l.
Proof. destruct l as [|[]]; simpl; try lia. destruct (Z.even m); lia. Qed.
Lemma binary_round_aux_not_nan p e s m ex l : 0 <= m -> f_is_nan (binary_round_aux p e s m ex l) = false.
Proof.
  intros Hm. unfold binary_round_aux. pose proof (shr_fexp_nonneg p e m ex l Hm) as H1.
  destruct (shr_fexp _ _ _ _ _) as [mrs' e']. simpl in H1.
  pose proof (shr_fexp_nonneg p e _ e' loc_Exact (round_nearest_even_nonneg _ (loc_of_shr_record mrs') H1)) as H2.
  destruct (shr_fexp _ _ _ _ _) as [mrs'' e'']. simpl in H2.
  destruct (shr_m mrs''); [done| |lia]. by destruct (_ <=? _).
Qed.
Lemma f_of_Z_not_nan z : f_is_nan (f_of_Z z) = false.
Proof.
  unfold f_of_Z, binary_normalize, binary_round. destruct z as [|p|p]; [done|..].
  all: destruct (shl_align _ _ _) as [mz ez]; by apply binary_round_aux_not_nan.
Qed.

Lemma refill_capped st rate burst now :
  f_is_nan burst = false -> f_le (bs_tokens (refill st rate burst now)) burst = true.
Proof. apply f_min_le. Qed.
Lemma limiter_if_side_total b s w : exists o, limiter_if_side b s w = Ok o.
Proof. unfold limiter_if_side. destruct (_ =? 0); [eauto|]. destruct (negb _); eauto. Qed.
