(* ===== verification/Gateway.v ===== *)
(** * The HTTP and HTTPS gateways

    [server/src/tunnel/gw.rs]: host names, domain expansion, [HttpGw] (domain to
    routes, longest location first) and basic authentication.
    [server/src/tunnel/https.rs]: [HttpsGw] (server name to route).
    [HttpTunnel] and [HttpsTunnel]: registering a tunnel's routes and removing
    them.  A [Weak<Control>] is the identity of the control it points to. *)

From stdpp Require Import sorting.
From S2P Require Import Prelude RustStr Float64 Registry Msg Limit.

Local Open Scope string_scope.

(** ** Host names and domains *)

Definition is_dot (c : ascii) : bool := Ascii.eqb c ".".
Definition normalize_host (host : string) : string :=
  let host := trim host in
  let without_port :=
    match strip_prefix "[" host with
    | Some h =>
        match find "]" h with
        | Some e => stake e h
        | None => host
        end
    | None => default host (head (split ":" host))
    end in
  to_lower (trim_end_matches is_dot (trim without_port)).

Definition is_host_under_root (host root : string) : bool :=
  String.eqb host root || ends_with ("." ++ root) host.

Definition expand_domain_entry (entry root : string) : Anyhow string :=
  let e := normalize_host entry in
  if is_empty e then Err "empty domain entry" else
  if starts_with "." e || ends_with "." e || contains ".." e
  then Err ("invalid domain entry: " ++ debug_str entry) else
  if negb (contains "." e) then
    if contains "*" e
    then Err ("subdomain prefix must not contain '*': " ++ debug_str entry) else
    if (63 <? slen e)%Z
    then Err ("subdomain prefix too long (max 63): " ++ debug_str entry) else
    if is_empty root
    then Err ("domain prefix " ++ debug_str entry ++ " requires server rootDomain") else
    Ok (normalize_host (e ++ "." ++ root))
  else if contains "*" e then Err ("wildcard domains are not supported: " ++ debug_str entry)
  else if negb (is_empty root) && is_host_under_root e root then Ok e
  else Ok e.

(** [retain(|d| seen.insert(d.clone()))]: the first occurrence of each stays. *)
Fixpoint retain_first (seen : gset string) (l : list string) : list string :=
  match l with
  | [] => []
  | d :: l =>
      if decide (d ∈ seen) then retain_first seen l else d :: retain_first ({[d]} ∪ seen) l
  end.

Definition build_domains (domains : list string) (root_domain : string) : Anyhow (list string) :=
  let root := normalize_host root_domain in
  let entries := filter (fun d => d <> "") (map trim domains) in
  match entries with
  | [] => Err "http/https requires at least one domain (fullDomain or subdomain prefix)"
  | _ =>
      let? out := try_map (fun entry => expand_domain_entry entry root) entries in
      Ok (retain_first ∅ out)
  end.

Definition expand_locations (locations : list string) : list string :=
  match locations with [] => [""] | _ => locations end.

(** ** Routes *)

Record HttpRoute := MkHttpRoute {
  hr_tunnel_name : string; hr_control : TunnelOwner; hr_location : string;
  hr_host_header_rewrite : string; hr_basic_auth_user : string; hr_basic_auth_password : string;
  hr_limiter : option BandwidthLimiter }.

Abbreviation DomainIndex := (gmap string (list HttpRoute)).
Record HttpGw := MkHttpGw { hg_routes : DomainIndex; hg_listen_port : Z }.
Definition http_gw_new (listen_port : Z) : HttpGw := MkHttpGw ∅ listen_port.

(** [b.location.cmp(&a.location)], descending. *)
Definition location_ge (a b : HttpRoute) : Prop := String.le (hr_location b) (hr_location a).
#[global] Instance location_ge_dec a b : Decision (location_ge a b).
Proof. unfold location_ge. apply _. Defined.

Definition http_register (gw : HttpGw) (domain : string) (route : HttpRoute) : Anyhow HttpGw :=
  let key := normalize_host domain in
  if is_empty key then Err "empty http domain" else
  let list := default [] (hg_routes gw !! key) in
  let insert list :=
    Ok (MkHttpGw (<[key := merge_sort location_ge (list ++ [route])%list]> (hg_routes gw))
          (hg_listen_port gw)) in
  match List.find (fun r => String.eqb (hr_location r) (hr_location route)) list with
  | Some existing =>
      if negb (String.eqb (hr_tunnel_name existing) (hr_tunnel_name route))
      then Err ("router config conflict: domain=" ++ key ++ " location=" ++ hr_location route)
      else insert (filter (fun r => hr_location r <> hr_location route) list)
  | None => insert list
  end.

Definition http_unregister (gw : HttpGw) (tunnel_name : string) : HttpGw :=
  MkHttpGw
    (filter (fun '(_, list) => list <> [])
       (fmap (filter (fun r => hr_tunnel_name r <> tunnel_name)) (hg_routes gw)))
    (hg_listen_port gw).

Definition match_location (map : DomainIndex) (host path : string) : option HttpRoute :=
  match map !! host with
  | None => None
  | Some list => List.find (fun route => starts_with (hr_location route) path) list
  end.
Definition http_lookup (gw : HttpGw) (host path : string) : option HttpRoute :=
  match_location (hg_routes gw) (normalize_host host) path.

Record HttpsRoute := MkHttpsRoute {
  hsr_tunnel_name : string; hsr_control : TunnelOwner; hsr_limiter : option BandwidthLimiter }.
Record HttpsGw := MkHttpsGw { hsg_routes : gmap string HttpsRoute; hsg_listen_port : Z }.
Definition https_gw_new (listen_port : Z) : HttpsGw := MkHttpsGw ∅ listen_port.

Definition https_register (gw : HttpsGw) (domain : string) (route : HttpsRoute) : Anyhow HttpsGw :=
  let key := normalize_host domain in
  if is_empty key then Err "empty https domain" else
  let insert := Ok (MkHttpsGw (<[key := route]> (hsg_routes gw)) (hsg_listen_port gw)) in
  match hsg_routes gw !! key with
  | Some existing =>
      if negb (String.eqb (hsr_tunnel_name existing) (hsr_tunnel_name route))
      then Err ("router config conflict: domain=" ++ key ++ " (https)")
      else insert
  | None => insert
  end.
Definition https_unregister (gw : HttpsGw) (tunnel_name : string) : HttpsGw :=
  MkHttpsGw (filter (fun '(_, r) => hsr_tunnel_name r <> tunnel_name) (hsg_routes gw))
    (hsg_listen_port gw).
Definition https_lookup (gw : HttpsGw) (sni : string) : option HttpsRoute :=
  hsg_routes gw !! normalize_host sni.

(** ** Basic authentication

    The base64 engine is a parameter. *)
Section BasicAuth.
Context (b64_decode : string -> option string).

(** [value[..6]] panics off a character boundary: [None] of the outer option. *)
Definition parse_basic_auth (header_value : string) : option (option (string * string)) :=
  let value := trim header_value in
  if (slen value <? 6)%Z then Some None else
  if negb (is_boundary value 6) then None else
  Some (
    if negb (eq_ignore_ascii_case (stake 6 value) "Basic ") then None else
    match b64_decode (trim (sdrop 6 value)) with
    | None => None
    | Some decoded =>
        match from_utf8 decoded with
        | None => None
        | Some text => split_once ":" text
        end
    end).

Definition route_basic_auth_ok (route : HttpRoute) (is_proxy_request : bool)
    (authorization proxy_authorization : option string) : option bool :=
  if is_empty (hr_basic_auth_user route) && is_empty (hr_basic_auth_password route) then Some true else
  match (if is_proxy_request then proxy_authorization else authorization) with
  | None => Some false
  | Some h =>
      match parse_basic_auth h with
      | None => None
      | Some None => Some false
      | Some (Some (u, p)) =>
          Some (String.eqb u (hr_basic_auth_user route)
                && String.eqb p (hr_basic_auth_password route))
      end
  end.
End BasicAuth.

(** ** Tunnels

    Registering clears the tunnel's own routes first, then adds one route per
    domain and location; a failure removes what was added.  The gateway changes
    either way, so it is returned beside the result. *)

Record HttpTunnel := MkHttpTunnel { ht_name : string; ht_domains : list string; ht_closed : bool }.

Definition http_route_of (np : NewTunnel) (control : TunnelOwner)
    (limiter : option BandwidthLimiter) (location : string) : HttpRoute :=
  MkHttpRoute (nt_tunnel_name np) control location (nt_host_header_rewrite np)
    (nt_basic_auth_user np) (nt_basic_auth_password np) limiter.

(** The registrations in order, up to and including the first that fails. *)
Fixpoint http_register_all (gw : HttpGw) (l : list (string * HttpRoute)) : HttpGw * option string :=
  match l with
  | [] => (gw, None)
  | (d, r) :: l =>
      match http_register gw d r with
      | Ok gw => http_register_all gw l
      | Err e => (gw, Some e)
      end
  end.

Definition http_tunnel_register (gw : HttpGw) (np : NewTunnel) (control : TunnelOwner)
    (sub_domain_host : string) (limiter : option BandwidthLimiter) : HttpGw * Anyhow HttpTunnel :=
  match build_domains (nt_domains np) sub_domain_host with
  | Err e => (gw, Err e)
  | Ok domains =>
      let name := nt_tunnel_name np in
      let locations := expand_locations (nt_locations np) in
      let gw := http_unregister gw name in
      match http_register_all gw
              (d ← domains; loc ← locations; [(d, http_route_of np control limiter loc)]) with
      | (gw, Some e) => (http_unregister gw name, Err e)
      | (gw, None) => (gw, Ok (MkHttpTunnel name domains false))
      end
  end.

(** [close], and [drop] after it: the flag makes the second a no-op. *)
Definition http_tunnel_close (gw : HttpGw) (t : HttpTunnel) : HttpGw * HttpTunnel :=
  if ht_closed t then (gw, t)
  else (http_unregister gw (ht_name t), MkHttpTunnel (ht_name t) (ht_domains t) true).

Record HttpsTunnel := MkHttpsTunnel { hst_name : string; hst_domains : list string; hst_closed : bool }.

Fixpoint https_register_all (gw : HttpsGw) (route : HttpsRoute) (domains : list string)
    : HttpsGw * option string :=
  match domains with
  | [] => (gw, None)
  | d :: domains =>
      match https_register gw d route with
      | Ok gw => https_register_all gw route domains
      | Err e => (gw, Some e)
      end
  end.

Definition https_tunnel_register (gw : HttpsGw) (np : NewTunnel) (control : TunnelOwner)
    (sub_domain_host : string) (limiter : option BandwidthLimiter) : HttpsGw * Anyhow HttpsTunnel :=
  match build_domains (nt_domains np) sub_domain_host with
  | Err e => (gw, Err e)
  | Ok domains =>
      let name := nt_tunnel_name np in
      let gw := https_unregister gw name in
      match https_register_all gw (MkHttpsRoute name control limiter) domains with
      | (gw, Some e) => (https_unregister gw name, Err e)
      | (gw, None) => (gw, Ok (MkHttpsTunnel name domains false))
      end
  end.

Definition https_tunnel_close (gw : HttpsGw) (t : HttpsTunnel) : HttpsGw * HttpsTunnel :=
  if hst_closed t then (gw, t)
  else (https_unregister gw (hst_name t), MkHttpsTunnel (hst_name t) (hst_domains t) true).

(** ** Lemmas *)

#[global] Instance location_ge_trans : Transitive location_ge.
Proof. intros a b c Hab Hbc. unfold location_ge in *. by etrans. Qed.
#[global] Instance location_ge_total : Total location_ge.
Proof. intros a b. unfold location_ge. destruct (total String.le (hr_location a) (hr_location b)); auto. Qed.

Lemma compare_app_gt q c z : String.compare (q ++ String c z) q = Gt.
Proof.
  induction q as [|d q IH]; simpl; [done|].
  assert (Ascii.compare d d = Eq) as -> by (unfold Ascii.compare; apply N.compare_refl). done.
Qed.
(** Of two prefixes of one path, the greater is the longer. *)
Lemma prefix_le_length path p q :
  starts_with p path = true -> starts_with q path = true -> String.le p q ->
  String.length p <= String.length q.
Proof.
  intros [x Hx]%starts_with_spec [y Hy]%starts_with_spec Hle.
  destruct (decide (String.length p <= String.length q)) as [|Hlt]; [done|exfalso].
  assert (stake (String.length q) p = q) as Hq.
  { transitivity (stake (String.length q) path).
    - rewrite Hx. symmetry. apply stake_app_le. lia.
    - rewrite Hy. apply stake_app_length. }
  assert (exists c z, p = q ++ String c z) as (c & z & ->).
  { pose proof (stake_sdrop (String.length q) p) as Hs. rewrite Hq in Hs.
    destruct (sdrop (String.length q) p) as [|c z] eqn:E; [|eauto].
    assert (String.length (sdrop (String.length q) p) = 0) as H0 by (by rewrite E).
    rewrite length_sdrop in H0. lia. }
  unfold String.le, String.leb in Hle. by rewrite compare_app_gt in Hle.
Qed.

Definition route_in (gw : HttpGw) (key : string) (r : HttpRoute) : Prop :=
  exists l, hg_routes gw !! key = Some l /\ r ∈ l.

(** Per domain: at least one route, no two with one location, sorted. *)
Definition routes_wf (l : list HttpRoute) : Prop :=
  l <> [] /\ NoDup (map hr_location l) /\ StronglySorted location_ge l.
Definition http_gw_wf (gw : HttpGw) : Prop :=
  map_Forall (fun key l => key <> "" /\ routes_wf l) (hg_routes gw).

Lemma StronglySorted_filter' {A} (R : A -> A -> Prop) (P : A -> Prop) `{forall x, Decision (P x)} l :
  StronglySorted R l -> StronglySorted R (filter P l).
Proof.
  induction 1 as [|x l Hl IH Hx]; [constructor|]. rewrite filter_cons.
  destruct (decide (P x)); [|done]. constructor; [done|].
  apply Forall_forall. intros y [_ Hy]%list_elem_of_filter. rewrite Forall_forall in Hx. auto.
Qed.
Lemma NoDup_map_filter {A B} (f : A -> B) (P : A -> Prop) `{forall x, Decision (P x)} l :
  NoDup (map f l) -> NoDup (map f (filter P l)).
Proof.
  induction l as [|x l IH]; simpl; [done|]. intros [Hx Hl]%NoDup_cons. rewrite filter_cons.
  destruct (decide (P x)); [|auto]. simpl. apply NoDup_cons. split; [|auto].
  intros (y & Hy & [_ Hin]%list_elem_of_filter)%list_elem_of_fmap. apply Hx.
  apply list_elem_of_fmap. eauto.
Qed.

Lemma routes_insert_wf (l : list HttpRoute) (r : HttpRoute) :
  NoDup (map hr_location l) -> Forall (fun r' => hr_location r' <> hr_location r) l ->
  routes_wf (merge_sort location_ge (l ++ [r])%list).
Proof.
  intros Hnd Hr. assert (merge_sort location_ge (l ++ [r])%list ≡ₚ (l ++ [r])%list) as Hp
    by apply merge_sort_Permutation. split; [|split].
  - intros E. rewrite E in Hp. apply Permutation_nil in Hp. by destruct l.
  - assert (map hr_location (merge_sort location_ge (l ++ [r])%list) ≡ₚ map hr_location (l ++ [r])%list) as ->
      by (by rewrite Hp).
    rewrite map_app. apply NoDup_app. split; [done|]. split; [|apply NoDup_singleton].
    intros x (y & -> & Hy)%list_elem_of_fmap Hx. apply list_elem_of_singleton in Hx.
    rewrite Forall_forall in Hr. by apply (Hr y).
  - apply StronglySorted_merge_sort; apply _.
Qed.

(** What a successful registration does to the routes of a domain. *)
Lemma http_register_ok gw d r gw' :
  http_gw_wf gw -> http_register gw d r = Ok gw' ->
  normalize_host d <> "" /\ http_gw_wf gw' /\ hg_listen_port gw' = hg_listen_port gw
  /\ (forall k r', route_in gw' k r' <->
        (k = normalize_host d /\ r' = r)
        \/ (route_in gw k r' /\ ~ (k = normalize_host d /\ hr_location r' = hr_location r)))
  /\ (forall r', route_in gw (normalize_host d) r' -> hr_location r' = hr_location r ->
        hr_tunnel_name r' = hr_tunnel_name r).
Proof.
  intros Hwf. unfold http_register. set (key := normalize_host d).
  destruct (is_empty key) eqn:Ek; [done|]. apply is_empty_false in Ek.
  set (l := default [] (hg_routes gw !! key)).
  assert (NoDup (map hr_location l)) as Hnd.
  { unfold l. destruct (hg_routes gw !! key) as [l0|] eqn:E; simpl; [|constructor].
    by destruct (Hwf _ _ E) as (_ & _ & ? & _). }
  assert (forall r', route_in gw key r' <-> r' ∈ l) as Hin.
  { intros r'. unfold route_in, l. destruct (hg_routes gw !! key) as [l0|]; simpl.
    - naive_solver.
    - split; [naive_solver|]. intros H. by apply not_elem_of_nil in H. }
  assert (forall l', (forall r', r' ∈ l' <-> r' ∈ l /\ hr_location r' <> hr_location r) ->
    NoDup (map hr_location l') ->
    let gw' := MkHttpGw (<[key := merge_sort location_ge (l' ++ [r])%list]> (hg_routes gw)) (hg_listen_port gw) in
    http_gw_wf gw' /\ (forall k r', route_in gw' k r' <->
        (k = key /\ r' = r) \/ (route_in gw k r' /\ ~ (k = key /\ hr_location r' = hr_location r)))) as Hins.
  { intros l' Hl' Hnd' gw1. split.
    - apply map_Forall_insert_2; [|done]. split; [done|]. apply routes_insert_wf; [done|].
      apply Forall_forall. intros r' Hr'. by apply Hl' in Hr' as [_ ?].
    - intros k r'. unfold route_in at 1. simpl. destruct (decide (k = key)) as [->|Hne].
      + rewrite lookup_insert_eq, Hin. split.
        * intros (l1 & [= <-] & Hr'). rewrite merge_sort_Permutation in Hr'.
          apply elem_of_app in Hr' as [Hr'|Hr'%list_elem_of_singleton]; [|auto].
          apply Hl' in Hr'. naive_solver.
        * intros H. eexists. split; [done|]. rewrite merge_sort_Permutation.
          apply elem_of_app. destruct H as [[_ ->]|[H1 H2]].
          -- right. by apply list_elem_of_singleton.
          -- left. apply Hl'. naive_solver.
      + rewrite lookup_insert_ne by done. unfold route_in. naive_solver. }
  destruct (List.find _ l) as [ex|] eqn:Ef.
  - apply list_find_some in Ef as (l1 & l2 & El & Hex & _). apply String.eqb_eq in Hex.
    destruct (String.eqb_spec (hr_tunnel_name ex) (hr_tunnel_name r)) as [Hn|]; simpl; [|done].
    intros <-%Ok_inj. split; [done|].
    destruct (Hins (filter (fun r0 => hr_location r0 <> hr_location r) l)) as [H1 H2].
    { intros r'. rewrite list_elem_of_filter. naive_solver. }
    { by apply NoDup_map_filter. }
    split; [done|]. split; [done|]. split; [done|].
    intros r' Hr' Hloc. apply Hin in Hr'. assert (r' = ex) as ->; [|done].
    assert (ex ∈ l) as Hex' by (rewrite El; set_solver). clear -Hnd Hr' Hex' Hloc Hex.
    rewrite <- Hex in Hloc. clear Hex. induction l as [|x l IH]; [by apply not_elem_of_nil in Hr'|].
    simpl in Hnd. apply NoDup_cons in Hnd as [Hx Hnd]. apply elem_of_cons in Hr', Hex'.
    destruct Hr' as [->|Hr'], Hex' as [->|Hex']; [done|..|auto].
    + exfalso. apply Hx. apply list_elem_of_fmap. exists ex. by rewrite Hloc.
    + exfalso. apply Hx. apply list_elem_of_fmap. exists r'. by rewrite Hloc.
  - apply list_find_none in Ef. intros <-%Ok_inj. split; [done|].
    assert (forall r', r' ∈ l -> hr_location r' <> hr_location r) as Hno.
    { intros r' Hr'. rewrite Forall_forall in Ef. by apply Ef, String.eqb_neq in Hr'. }
    destruct (Hins l) as [H1 H2]; [naive_solver|done|].
    split; [done|]. split; [done|]. split; [done|].
    intros r' Hr'%Hin Hloc. by apply Hno in Hr'.
Qed.

Lemma http_unregister_in gw n k r :
  route_in (http_unregister gw n) k r <-> route_in gw k r /\ hr_tunnel_name r <> n.
Proof.
  unfold route_in, http_unregister. cbn [hg_routes]. split.
  - intros (l & Hl & Hr). apply map_lookup_filter_Some in Hl as [Hl _].
    rewrite lookup_fmap in Hl. destruct (hg_routes gw !! k) as [l0|]; [|done].
    injection Hl as <-. apply list_elem_of_filter in Hr as [? ?]. eauto.
  - intros ((l & Hl & Hr) & Hn). exists (filter (fun r => hr_tunnel_name r <> n) l).
    assert (r ∈ filter (fun r => hr_tunnel_name r <> n) l) as Hf by (by apply list_elem_of_filter).
    split; [|done]. apply map_lookup_filter_Some. rewrite lookup_fmap, Hl. split; [done|].
    intros E. rewrite E in Hf. by apply not_elem_of_nil in Hf.
Qed.
Lemma http_unregister_wf gw n : http_gw_wf gw -> http_gw_wf (http_unregister gw n).
Proof.
  intros Hwf k l Hl. unfold http_unregister in Hl. cbn [hg_routes] in Hl.
  apply map_lookup_filter_Some in Hl as [Hl Hne]. rewrite lookup_fmap in Hl.
  destruct (hg_routes gw !! k) as [l0|] eqn:E; [|done]. injection Hl as <-.
  destruct (Hwf _ _ E) as (Hk & _ & Hnd & Hs). split; [done|]. split; [done|]. split.
  - by apply NoDup_map_filter.
  - by apply StronglySorted_filter'.
Qed.
#[export] Hint Resolve http_unregister_wf : orbien.

Lemma http_register_others gw d r gw' k r' :
  http_gw_wf gw -> http_register gw d r = Ok gw' -> hr_tunnel_name r' <> hr_tunnel_name r ->
  (route_in gw' k r' <-> route_in gw k r').
Proof.
  intros Hwf Hr Hn. destruct (http_register_ok _ _ _ _ Hwf Hr) as (_ & _ & _ & Hin & Hname).
  rewrite Hin. split; [naive_solver|]. intros H. right. split; [done|]. intros [-> Hloc].
  by apply Hname in Hloc.
Qed.

Section RegisterAll.
Context (n : string) (f : string -> HttpRoute)
        (Hf : forall loc, hr_location (f loc) = loc /\ hr_tunnel_name (f loc) = n).

Lemma http_register_all_spec l gw gw' res :
  http_gw_wf gw -> Forall (fun '(_, r) => exists loc, r = f loc) l ->
  http_register_all gw l = (gw', res) ->
  http_gw_wf gw' /\ hg_listen_port gw' = hg_listen_port gw
  /\ (forall k r, hr_tunnel_name r <> n -> (route_in gw' k r <-> route_in gw k r))
  /\ (res = None ->
      (forall k loc, route_in gw k (f loc) -> route_in gw' k (f loc))
      /\ (forall d r, (d, r) ∈ l -> route_in gw' (normalize_host d) r)
      /\ (forall k r, hr_tunnel_name r = n -> route_in gw' k r ->
            route_in gw k r \/ exists d, (d, r) ∈ l /\ k = normalize_host d)).
Proof.
  revert gw. induction l as [|[d r] l IH]; intros gw Hwf Hl; simpl.
  { intros [= <- <-]. split; [done|]. split; [done|]. split; [done|]. intros _.
    split; [done|]. split; [intros ? ? H; by apply not_elem_of_nil in H|]. auto. }
  apply Forall_cons in Hl as [[loc ->] Hl].
  destruct (http_register gw d (f loc)) as [gw1|e] eqn:E.
  - intros Hrec. pose proof (http_register_ok _ _ _ _ Hwf E) as (_ & Hwf1 & Hp1 & Hin & _).
    destruct (IH gw1 Hwf1 Hl Hrec) as (Hwf' & Hp' & Hoth & Hok).
    split; [done|]. split; [by rewrite Hp'|]. split.
    + intros k r Hn. rewrite Hoth by done. apply (http_register_others gw d (f loc)); [done..|].
      by rewrite (proj2 (Hf loc)).
    + intros Hnone. destruct (Hok Hnone) as (Hkeep & Hall & Honly).
      assert (forall k loc', route_in gw k (f loc') -> route_in gw1 k (f loc')) as Hkeep1.
      { intros k loc' Hk. apply Hin. destruct (decide (k = normalize_host d /\ loc' = loc)) as [[-> ->]|Hne].
        - by left.
        - right. split; [done|]. rewrite !(proj1 (Hf _)). done. }
      assert (route_in gw1 (normalize_host d) (f loc)) as H1 by (apply Hin; by left).
      split; [auto|]. split.
      * intros d' r' [[= -> ->]|H]%elem_of_cons; auto.
      * intros k r' Hn Hk. destruct (Honly k r' Hn Hk) as [Hg|(d' & Hd' & ->)].
        -- apply Hin in Hg as [[-> ->]|[Hg _]]; [|auto]. right. exists d. split; [|done].
           apply elem_of_cons. by left.
        -- right. exists d'. split; [|done]. apply elem_of_cons. by right.
  - intros [= <- <-]. split; [done|]. split; [done|]. split; [done|done].
Qed.
End RegisterAll.

Lemma http_tunnel_register_spec gw np ctl root lim gw' res :
  http_gw_wf gw -> http_tunnel_register gw np ctl root lim = (gw', res) ->
  http_gw_wf gw' /\ hg_listen_port gw' = hg_listen_port gw
  /\ (forall k r, hr_tunnel_name r <> nt_tunnel_name np -> (route_in gw' k r <-> route_in gw k r))
  /\ match res with
     | Ok t =>
         build_domains (nt_domains np) root = Ok (ht_domains t)
         /\ t = MkHttpTunnel (nt_tunnel_name np) (ht_domains t) false
         /\ forall k r, hr_tunnel_name r = nt_tunnel_name np ->
              (route_in gw' k r <-> exists d loc, d ∈ ht_domains t
                 /\ loc ∈ expand_locations (nt_locations np)
                 /\ k = normalize_host d /\ r = http_route_of np ctl lim loc)
     | Err e =>
         (build_domains (nt_domains np) root = Err e /\ gw' = gw)
         \/ (forall k r, route_in gw' k r -> hr_tunnel_name r <> nt_tunnel_name np)
     end.
Proof.
  intros Hwf. unfold http_tunnel_register.
  destruct (build_domains (nt_domains np) root) as [domains|e]; [|intros [= <- <-]; naive_solver].
  set (n := nt_tunnel_name np). set (f := http_route_of np ctl lim).
  set (l := d ← domains; loc ← expand_locations (nt_locations np); [(d, f loc)]).
  destruct (http_register_all (http_unregister gw n) l) as [gw1 res1] eqn:E.
  pose proof (http_unregister_wf gw n Hwf) as Hwf0.
  assert (forall d r, (d, r) ∈ l <-> exists loc, d ∈ domains /\ loc ∈ expand_locations (nt_locations np) /\ r = f loc) as Hl.
  { intros d r. unfold l. rewrite list_elem_of_bind. split.
    - intros (d' & (loc & [= -> ->]%list_elem_of_singleton & Hloc)%list_elem_of_bind & Hd). eauto.
    - intros (loc & Hd & Hloc & ->). exists d. split; [|done]. apply list_elem_of_bind. exists loc.
      split; [|done]. by apply list_elem_of_singleton. }
  assert (Forall (fun '(_, r) => exists loc, r = f loc) l) as Hfl.
  { apply Forall_forall. intros [d r] (loc & _ & _ & ->)%Hl. eauto. }
  destruct (http_register_all_spec n f (fun loc => conj eq_refl eq_refl) l _ _ _ Hwf0 Hfl E)
    as (Hwf1 & Hp1 & Hoth & Hok).
  assert (forall k r, hr_tunnel_name r <> n -> (route_in gw1 k r <-> route_in gw k r)) as Hoth'.
  { intros k r Hn. rewrite Hoth, http_unregister_in by done. naive_solver. }
  destruct res1 as [e|]; intros [= <- <-].
  - split; [by apply http_unregister_wf|]. split; [done|]. split.
    + intros k r Hn. rewrite http_unregister_in, Hoth' by done. naive_solver.
    + right. by intros k r [_ ?]%http_unregister_in.
  - split; [done|]. split; [done|]. split; [done|]. simpl. split; [done|]. split; [done|].
    destruct (Hok eq_refl) as (_ & Hall & Honly). intros k r Hn. split.
    + intros Hk. destruct (Honly k r Hn Hk) as [[_ H]%http_unregister_in|(d & Hd & ->)]; [done|].
      apply Hl in Hd as (loc & ? & ? & ->). eauto 10.
    + intros (d & loc & Hd & Hloc & -> & ->). apply Hall, Hl. eauto.
Qed.

(** The same for the HTTPS gateway. *)
Lemma https_register_ok gw d r gw' :
  https_register gw d r = Ok gw' ->
  normalize_host d <> "" /\ gw' = MkHttpsGw (<[normalize_host d := r]> (hsg_routes gw)) (hsg_listen_port gw)
  /\ (forall r', hsg_routes gw !! normalize_host d = Some r' -> hsr_tunnel_name r' = hsr_tunnel_name r).
Proof.
  unfold https_register. set (key := normalize_host d).
  destruct (is_empty key) eqn:Ek; [done|]. apply is_empty_false in Ek.
  destruct (hsg_routes gw !! key) as [ex|] eqn:E.
  - destruct (String.eqb_spec (hsr_tunnel_name ex) (hsr_tunnel_name r)); simpl; [|done].
    intros <-%Ok_inj. split; [done|]. split; [done|]. naive_solver.
  - intros <-%Ok_inj. split; [done|]. split; [done|]. naive_solver.
Qed.

Lemma https_register_all_spec r l gw gw' res :
  https_register_all gw r l = (gw', res) ->
  (forall k r', hsr_tunnel_name r' <> hsr_tunnel_name r ->
     (hsg_routes gw' !! k = Some r' <-> hsg_routes gw !! k = Some r'))
  /\ hsg_listen_port gw' = hsg_listen_port gw
  /\ (res = None ->
      (forall k, hsg_routes gw !! k = Some r -> hsg_routes gw' !! k = Some r)
      /\ (forall d, d ∈ l -> hsg_routes gw' !! normalize_host d = Some r)
      /\ (forall k r', hsg_routes gw' !! k = Some r' ->
            hsg_routes gw !! k = Some r' \/ (r' = r /\ exists d, d ∈ l /\ k = normalize_host d))).
Proof.
  revert gw. induction l as [|d l IH]; intros gw; simpl.
  { intros [= <- <-]. split; [done|]. split; [done|]. intros _. split; [done|].
    split; [intros ? H; by apply not_elem_of_nil in H|]. auto. }
  destruct (https_register gw d r) as [gw1|e] eqn:E; [|intros [= <- <-]; done].
  intros Hrec. apply https_register_ok in E as (_ & -> & Hn). destruct (IH _ Hrec) as (Hoth & Hp & Hok).
  simpl in *. split; [|split; [done|]].
  - intros k r' Hne. rewrite Hoth by done. destruct (decide (k = normalize_host d)) as [->|].
    + rewrite lookup_insert_eq. split; [naive_solver|]. intros H%Hn. done.
    + by rewrite lookup_insert_ne.
  - intros Hnone. destruct (Hok Hnone) as (Hkeep & Hall & Honly). split; [|split].
    + intros k Hk. apply Hkeep. destruct (decide (k = normalize_host d)) as [->|].
      * by rewrite lookup_insert_eq.
      * by rewrite lookup_insert_ne.
    + intros d' [->|Hd']%elem_of_cons; [|auto]. apply Hkeep. by rewrite lookup_insert_eq.
    + intros k r' Hk. destruct (Honly _ _ Hk) as [Hg|(-> & d' & Hd' & ->)].
      * destruct (decide (k = normalize_host d)) as [->|].
        -- rewrite lookup_insert_eq in Hg. injection Hg as <-. right. split; [done|]. exists d.
           split; [|done]. apply elem_of_cons. by left.
        -- rewrite lookup_insert_ne in Hg by done. by left.
      * right. split; [done|]. exists d'. split; [|done]. apply elem_of_cons. by right.
Qed.

Lemma https_unregister_in gw n k r :
  hsg_routes (https_unregister gw n) !! k = Some r
  <-> hsg_routes gw !! k = Some r /\ hsr_tunnel_name r <> n.
Proof. unfold https_unregister. simpl. apply map_lookup_filter_Some. Qed.

Lemma https_tunnel_register_spec gw np ctl root lim gw' res :
  https_tunnel_register gw np ctl root lim = (gw', res) ->
  hsg_listen_port gw' = hsg_listen_port gw
  /\ (forall k r, hsr_tunnel_name r <> nt_tunnel_name np ->
     (hsg_routes gw' !! k = Some r <-> hsg_routes gw !! k = Some r))
  /\ match res with
     | Ok t =>
         build_domains (nt_domains np) root = Ok (hst_domains t)
         /\ t = MkHttpsTunnel (nt_tunnel_name np) (hst_domains t) false
         /\ (forall k r, hsr_tunnel_name r = nt_tunnel_name np ->
               (hsg_routes gw' !! k = Some r <->
                 r = MkHttpsRoute (nt_tunnel_name np) ctl lim
                 /\ exists d, d ∈ hst_domains t /\ k = normalize_host d))
     | Err e =>
         (build_domains (nt_domains np) root = Err e /\ gw' = gw)
         \/ (forall k r, hsg_routes gw' !! k = Some r -> hsr_tunnel_name r <> nt_tunnel_name np)
     end.
Proof.
  unfold https_tunnel_register.
  destruct (build_domains (nt_domains np) root) as [domains|e]; [|intros [= <- <-]; naive_solver].
  set (n := nt_tunnel_name np). set (r0 := MkHttpsRoute n ctl lim).
  destruct (https_register_all (https_unregister gw n) r0 domains) as [gw1 res1] eqn:E.
  apply https_register_all_spec in E as (Hoth & Hp & Hok).
  assert (forall k r, hsr_tunnel_name r <> n ->
     (hsg_routes gw1 !! k = Some r <-> hsg_routes gw !! k = Some r)) as Hoth'.
  { intros k r Hn. rewrite Hoth, https_unregister_in by done. naive_solver. }
  destruct res1 as [e|]; intros [= <- <-].
  - split; [done|]. split.
    + intros k r Hn. rewrite https_unregister_in, Hoth' by done. naive_solver.
    + right. by intros k r [_ ?]%https_unregister_in.
  - split; [done|]. split; [done|]. simpl. split; [done|]. split; [done|].
    destruct (Hok eq_refl) as (_ & Hall & Honly). intros k r Hn. split.
    + intros Hk. destruct (Honly k r Hk) as [[_ H]%https_unregister_in|H]; [done|]. exact H.
    + intros (-> & d & Hd & ->). by apply Hall.
Qed.

(** ** Lookup *)

Definition is_longest_match (gw : HttpGw) (key path : string) (r : HttpRoute) : Prop :=
  route_in gw key r /\ starts_with (hr_location r) path = true
  /\ forall r', route_in gw key r' -> starts_with (hr_location r') path = true ->
       r' = r \/ String.length (hr_location r') < String.length (hr_location r).

Lemma same_location_same_route l (r r' : HttpRoute) :
  NoDup (map hr_location l) -> r ∈ l -> r' ∈ l -> hr_location r = hr_location r' -> r = r'.
Proof.
  induction l as [|x l IH]; simpl; [by intros _ ?%elem_of_nil|].
  intros [Hx Hnd]%NoDup_cons Hr%elem_of_cons Hr'%elem_of_cons E.
  destruct Hr as [->|Hr], Hr' as [->|Hr']; [done|..|auto];
    exfalso; apply Hx, list_elem_of_fmap; eauto.
Qed.

Lemma match_location_spec gw key path r :
  http_gw_wf gw -> match_location (hg_routes gw) key path = Some r <-> is_longest_match gw key path r.
Proof.
  intros Hwf. unfold match_location, is_longest_match, route_in.
  destruct (hg_routes gw !! key) as [l|] eqn:E; [|naive_solver].
  destruct (Hwf _ _ E) as (_ & _ & Hnd & Hs).
  assert (forall r, List.find (fun route => starts_with (hr_location route) path) l = Some r ->
    r ∈ l /\ starts_with (hr_location r) path = true
    /\ forall r', r' ∈ l -> starts_with (hr_location r') path = true ->
         r' = r \/ String.length (hr_location r') < String.length (hr_location r)) as Hfind.
  { clear r. intros r (l1 & l2 & -> & Hr & Hl1)%list_find_some.
    assert (r ∈ (l1 ++ r :: l2)%list) as Hin by set_solver.
    split; [done|]. split; [done|]. intros r' Hr' Hp'.
    destruct (decide (hr_location r' = hr_location r)) as [He|Hne].
    { left. by eapply same_location_same_route. }
    right. apply elem_of_app in Hr' as [Hr'|[->|Hr']%elem_of_cons].
    - rewrite Forall_forall in Hl1. apply Hl1 in Hr'. congruence.
    - done.
    - assert (location_ge r r') as Hge.
      { clear -Hs Hr'. induction l1 as [|x l1 IH]; simpl in Hs; apply StronglySorted_inv in Hs as [Hs Hx]; [|auto].
        rewrite Forall_forall in Hx. auto. }
      assert (String.length (hr_location r') <> String.length (hr_location r)) as Hl.
      { intros El. apply Hne. apply starts_with_spec in Hr as [x Hx], Hp' as [y Hy].
        rewrite <- (stake_app_length (hr_location r') y), <- Hy, El, Hx. apply stake_app_length. }
      pose proof (prefix_le_length path _ _ Hp' Hr Hge). lia. }
  split.
  - intros H%Hfind. naive_solver.
  - intros ((l' & [= <-] & Hr) & Hp & Hmax).
    destruct (List.find _ l) as [r1|] eqn:Ef.
    + destruct (Hfind r1 eq_refl) as (Hr1 & Hp1 & Hmax1).
      destruct (Hmax r1) as [->|Hlt]; [eauto|done|done|].
      destruct (Hmax1 r Hr Hp) as [->|?]; [done|lia].
    + apply list_find_none in Ef. rewrite Forall_forall in Ef. apply Ef in Hr. congruence.
Qed.

Lemma http_lookup_ext gw gw' host path :
  http_gw_wf gw -> http_gw_wf gw' -> (forall k r, route_in gw k r <-> route_in gw' k r) ->
  http_lookup gw host path = http_lookup gw' host path.
Proof.
  intros Hwf Hwf' Heq. apply option_eq. intros r. unfold http_lookup.
  rewrite !match_location_spec by done. unfold is_longest_match. rewrite Heq.
  split; intros (? & ? & Hm); (split; [done|]); (split; [done|]); intros r' Hr'; apply Hm; by apply Heq.
Qed.

(** The gateway between its operations: tunnels come and go. *)
Inductive http_gw_step : HttpGw -> unit -> HttpGw -> Prop :=
| gw_step_register gw np ctl root lim gw' res :
    http_tunnel_register gw np ctl root lim = (gw', res) -> http_gw_step gw tt gw'
| gw_step_close gw t : http_gw_step gw tt (http_tunnel_close gw t).1.
Definition http_gw_reachable : HttpGw -> Prop :=
  reachable http_gw_step (fun gw => exists port, gw = http_gw_new port).

Lemma http_gw_reachable_wf gw : http_gw_reachable gw -> http_gw_wf gw.
Proof.
  intros H. revert gw H. apply reachable_invariant.
  - intros gw [port ->]. apply map_Forall_empty.
  - intros gw l gw' _ Hwf Hstep. destruct Hstep as [gw np ctl root lim gw' res E|gw t].
    + by apply (http_tunnel_register_spec _ _ _ _ _ _ _ Hwf E).
    + unfold http_tunnel_close. destruct (ht_closed t); simpl; [done|]. by apply http_unregister_wf.
Qed.

Lemma creds_nonempty u p : u <> "" \/ p <> "" -> is_empty u && is_empty p = false.
Proof. intros H. apply andb_false_iff. by rewrite !is_empty_false. Qed.

(** ** Properties *)

(** C9: Whatever tunnels came and went, a request is routed to the route of its
    domain with the longest location that is a prefix of the path, which is
    unique; no route exactly when no location of the domain is a prefix. *)
Theorem http_lookup_longest (gw : HttpGw) (host path : string) (r : HttpRoute) :
  http_gw_reachable gw ->
  (http_lookup gw host path = Some r <-> is_longest_match gw (normalize_host host) path r)
  /\ (http_lookup gw host path = None <->
      forall r', route_in gw (normalize_host host) r' -> starts_with (hr_location r') path = false).
Proof.
  intros Hwf%http_gw_reachable_wf. unfold http_lookup. split; [by apply match_location_spec|].
  unfold match_location, route_in. destruct (hg_routes gw !! _) as [l|]; [|naive_solver].
  rewrite list_find_none, Forall_forall. naive_solver.
Qed.

(** A registration that succeeds routes every request for one of its
    domains and a path below one of its locations, to itself unless another
    tunnel holds a longer location; routes of other tunnels stay.  One that
    fails leaves every lookup as it was, when the tunnel had no routes before. *)
Theorem http_register_routes_or_rolls_back (gw : HttpGw) (np : NewTunnel) (ctl : TunnelOwner)
    (root : string) (lim : option BandwidthLimiter) (gw' : HttpGw) (res : Anyhow HttpTunnel) :
  http_gw_reachable gw ->
  (forall k r, route_in gw k r -> hr_tunnel_name r <> nt_tunnel_name np) ->
  http_tunnel_register gw np ctl root lim = (gw', res) ->
  match res with
  | Ok t =>
      (forall d loc rest, d ∈ ht_domains t -> loc ∈ expand_locations (nt_locations np) ->
         exists r, http_lookup gw' d (loc ++ rest) = Some r
           /\ (r = http_route_of np ctl lim loc
               \/ (String.length loc < String.length (hr_location r))))
      /\ (forall k r, route_in gw k r -> route_in gw' k r)
  | Err _ => forall host path, http_lookup gw' host path = http_lookup gw host path
  end.
Proof.
  intros Hwf%http_gw_reachable_wf Hfresh Hreg.
  destruct (http_tunnel_register_spec _ _ _ _ _ _ _ Hwf Hreg) as (Hwf' & _ & Hoth & Hres).
  destruct res as [t|e].
  - destruct Hres as (_ & _ & Hown). split.
    + intros d loc rest Hd Hloc.
      assert (route_in gw' (normalize_host d) (http_route_of np ctl lim loc)) as Hin.
      { apply Hown; [done|]. eauto 10. }
      destruct (http_lookup gw' d (loc ++ rest)) as [r|] eqn:E; unfold http_lookup in E.
      * exists r. split; [done|]. apply match_location_spec in E as (_ & _ & Hmax); [|done].
        destruct (Hmax _ Hin) as [<-|Hlt]; [apply starts_with_app|by left|by right].
      * unfold match_location in E. destruct Hin as (l & Hl & Hr). rewrite Hl in E.
        apply list_find_none in E. rewrite Forall_forall in E. apply E in Hr.
        cbn [hr_location http_route_of] in Hr. by rewrite starts_with_app in Hr.
    + intros k r Hr. apply Hoth; eauto.
  - intros host path. apply http_lookup_ext; [done..|]. intros k r.
    destruct Hres as [[_ ->]|Hnone]; [done|].
    destruct (decide (hr_tunnel_name r = nt_tunnel_name np)) as [E|E]; [|by apply Hoth].
    split; intros H; exfalso; [by eapply Hnone|by eapply Hfresh].
Qed.

(** Two tunnels never share a domain on the HTTPS gateway: a registration
    succeeds only by taking every one of its domains, and it never takes a
    domain another tunnel holds. *)
Theorem https_register_exclusive (gw : HttpsGw) (np : NewTunnel) (ctl : TunnelOwner)
    (root : string) (lim : option BandwidthLimiter) (gw' : HttpsGw) (res : Anyhow HttpsTunnel) :
  https_tunnel_register gw np ctl root lim = (gw', res) ->
  (forall k r, hsg_routes gw !! k = Some r -> hsr_tunnel_name r <> nt_tunnel_name np ->
     hsg_routes gw' !! k = Some r)
  /\ match res with
     | Ok t => forall d, d ∈ hst_domains t ->
         https_lookup gw' d = Some (MkHttpsRoute (nt_tunnel_name np) ctl lim)
     | Err _ => forall k r, hsg_routes gw' !! k = Some r ->
         hsg_routes gw !! k = Some r
     end.
Proof.
  intros Hreg. destruct (https_tunnel_register_spec _ _ _ _ _ _ _ Hreg) as (_ & Hoth & Hres). split.
  - intros k r Hk Hn. by apply Hoth.
  - destruct res as [t|e].
    + destruct Hres as (_ & _ & Hown). intros d Hd. apply Hown; [done|]. split; [done|]. eauto.
    + destruct Hres as [[_ ->]|Hnone]; [done|]. intros k r Hk. apply Hoth; eauto.
Qed.

(** A protected route lets a request in exactly when the header for its
    mode (proxy or direct) decodes to [user:password]; a user name that holds a
    colon can therefore never log in. *)
Theorem basic_auth_gate (b64_decode : string -> option string) (route : HttpRoute) (proxied : bool)
    (auth proxy_auth : option string) :
  hr_basic_auth_user route <> "" \/ hr_basic_auth_password route <> "" ->
  (route_basic_auth_ok b64_decode route proxied auth proxy_auth = Some true <->
   exists h, (if proxied then proxy_auth else auth) = Some h
     /\ (6 <= slen (trim h))%Z /\ is_boundary (trim h) 6 = true
     /\ eq_ignore_ascii_case (stake 6 (trim h)) "Basic " = true
     /\ sforall (fun d => negb (Ascii.eqb ":" d)) (hr_basic_auth_user route) = true
     /\ exists raw, b64_decode (trim (sdrop 6 (trim h))) = Some raw
          /\ utf8_valid raw = true
          /\ raw = hr_basic_auth_user route ++ ":" ++ hr_basic_auth_password route).
Proof.
  intros Hc%creds_nonempty. unfold route_basic_auth_ok. rewrite Hc.
  destruct (if proxied then proxy_auth else auth) as [h|]; [|split; [done|naive_solver]].
  unfold parse_basic_auth. destruct (Z.ltb_spec (slen (trim h)) 6) as [Hl|Hl].
  { split; [done|]. intros (h' & [= <-] & ? & _). lia. }
  destruct (is_boundary (trim h) 6) eqn:Eb; cbn [negb]; [|split; [done|]; intros (h' & [= <-] & _ & ? & _); congruence].
  destruct (eq_ignore_ascii_case (stake 6 (trim h)) "Basic ") eqn:Ep; cbn [negb];
    [|split; [done|]; intros (h' & [= <-] & _ & _ & ? & _); congruence].
  destruct (b64_decode (trim (sdrop 6 (trim h)))) as [raw|] eqn:Ed;
    [|split; [done|]; intros (h' & [= <-] & _ & _ & _ & _ & raw' & Hr & _); congruence].
  unfold from_utf8. destruct (utf8_valid raw) eqn:Eu;
    [|split; [done|]; intros (h' & [= <-] & _ & _ & _ & _ & raw' & Hr & ? & _); congruence].
  split.
  - destruct (split_once ":" raw) as [[u p]|] eqn:Es; [|done]. intros [= H].
    apply andb_true_iff in H as [->%String.eqb_eq ->%String.eqb_eq].
    apply split_once_spec in Es as [-> Hno]. exists h. naive_solver.
  - intros (h' & [= <-] & _ & _ & _ & Hno & raw' & Hr & _ & ->).
    rewrite Ed in Hr. injection Hr as ->.
    rewrite (proj2 (split_once_spec ":" _ _ _) (conj eq_refl Hno)).
    by rewrite !String.eqb_refl.
Qed.

(** The credential check slices the header at byte 6 without looking for a
    character boundary: a header value with a multi-byte character across that
    offset panics, whoever sends it. *)
Theorem basic_auth_header_panics (b64_decode : string -> option string) (route : HttpRoute)
    (proxied : bool) (h : string) :
  hr_basic_auth_user route <> "" \/ hr_basic_auth_password route <> "" ->
  (6 <= slen (trim h))%Z -> is_boundary (trim h) 6 = false ->
  route_basic_auth_ok b64_decode route proxied (Some h) (Some h) = None.
Proof.
  intros Hc%creds_nonempty Hl Hb. unfold route_basic_auth_ok. rewrite Hc.
  replace (if proxied then Some h else Some h) with (Some h) by (by destruct proxied).
  unfold parse_basic_auth. destruct (Z.ltb_spec (slen (trim h)) 6); [lia|]. by rewrite Hb.
Qed.

(** The host of a request is normalized when its head is parsed and again
    on lookup, and the second pass cuts an IPv6 address at its first colon: a
    request addressed to [::1] is never routed. *)
Theorem ipv6_host_unroutable (gw : HttpGw) (path : string) :
  http_gw_reachable gw -> http_lookup gw (normalize_host "[::1]:8080") path = None.
Proof.
  intros Hwf%http_gw_reachable_wf. unfold http_lookup, match_location.
  replace (normalize_host (normalize_host "[::1]:8080")) with "" by (by vm_compute).
  destruct (hg_routes gw !! "") as [l|] eqn:E; [|done]. by destruct (Hwf _ _ E) as [? _].
Qed.

(** *** Witnesses *)

Definition test_owner : TunnelOwner := MkOwner "s1" 1.
Definition test_tunnel : NewTunnel :=
  MkNewTunnel "web" "http" 0 "127.0.0.1" 80 ["app"; "b.example.org"] ["/api"] "admin" "pw" ""
    ∅ ∅ (f_of_Z 0) "".
Definition test_gw : HttpGw := (http_tunnel_register (http_gw_new 80) test_tunnel test_owner "Example.org." None).1.
Lemma test_gw_reachable : http_gw_reachable test_gw.
Proof.
  eapply reach_step; [apply reach_init; by exists 80%Z|].
  eapply (gw_step_register _ test_tunnel test_owner "Example.org." None).
  apply surjective_pairing.
Qed.

Lemma http_lookup_longest_witness :
  exists r, http_lookup test_gw "APP.example.org:80" "/api/x" = Some r
    /\ is_longest_match test_gw "app.example.org" "/api/x" r.
Proof.
  eexists. split; [vm_compute; reflexivity|].
  apply (http_lookup_longest test_gw "APP.example.org:80" "/api/x"); [apply test_gw_reachable|].
  vm_compute. reflexivity.
Defined.

Lemma http_register_routes_or_rolls_back_witness :
  http_lookup (http_tunnel_register test_gw
      (MkNewTunnel "web2" "http" 0 "" 80 ["b.example.org"] ["/api"] "" "" "" ∅ ∅ (f_of_Z 0) "")
      test_owner "" None).1 "b.example.org" "/api/x" = http_lookup test_gw "b.example.org" "/api/x".
Proof.
  assert (forall k r, route_in test_gw k r -> hr_tunnel_name r <> "web2") as Hfresh.
  { intros k r (l & Hl & Hr). assert (Forall (fun r => hr_tunnel_name r = "web") l) as Hall.
    { assert (map_Forall (fun _ l => Forall (fun r => hr_tunnel_name r = "web") l) (hg_routes test_gw)) as Hm
        by (apply (bool_decide_unpack _); vm_compute; exact I). by apply (Hm k). }
    rewrite Forall_forall in Hall. apply Hall in Hr. rewrite Hr. discriminate. }
  set (np := MkNewTunnel _ _ _ _ _ _ _ _ _ _ _ _ _ _).
  assert (is_err (http_tunnel_register test_gw np test_owner "" None).2 = true) as He by (vm_compute; reflexivity).
  destruct (http_tunnel_register test_gw np test_owner "" None) as [gw' [t|e]] eqn:E; [done|].
  exact (http_register_routes_or_rolls_back test_gw np test_owner "" None gw' (Err e)
           test_gw_reachable Hfresh E _ _).
Defined.

Lemma https_register_exclusive_witness :
  https_lookup (https_tunnel_register (https_gw_new 443) test_tunnel test_owner "example.org" None).1
    "b.example.org" = Some (MkHttpsRoute "web" test_owner None).
Proof.
  assert (exists t, (https_tunnel_register (https_gw_new 443) test_tunnel test_owner "example.org" None).2 = Ok t
                    /\ "b.example.org" ∈ hst_domains t) as (t & Et & Hd).
  { eexists. split; [vm_compute; reflexivity|]. simpl. right. left. }
  destruct (https_register_exclusive (https_gw_new 443) test_tunnel test_owner "example.org" None
                _ _ (surjective_pairing _)) as [_ H].
  rewrite Et in H. exact (H _ Hd).
Defined.

Definition test_route : HttpRoute := http_route_of test_tunnel test_owner None "/api".
Lemma basic_auth_gate_witness :
  route_basic_auth_ok (fun _ => Some "admin:pw") test_route false (Some "basic YWRtaW46cHc=") None = Some true.
Proof.
  apply (basic_auth_gate (fun _ => Some "admin:pw") test_route false (Some "basic YWRtaW46cHc=") None);
    [left; discriminate|].
  exists "basic YWRtaW46cHc=". split; [reflexivity|]. split; [apply Z.leb_le; reflexivity|].
  split; [reflexivity|]. split; [reflexivity|]. split; [reflexivity|].
  exists "admin:pw". split; [reflexivity|]. split; reflexivity.
Defined.

Lemma basic_auth_header_panics_witness :
  route_basic_auth_ok (fun _ => None) test_route false
    (Some ("token" ++ String (byte_of 195) (String (byte_of 169) "")))
    (Some ("token" ++ String (byte_of 195) (String (byte_of 169) ""))) = None.
Proof.
  apply (basic_auth_header_panics (fun _ => None) test_route false);
    [left; discriminate|vm_compute; congruence|reflexivity].
Defined.

Lemma ipv6_host_unroutable_witness : http_lookup test_gw (normalize_host "[::1]:8080") "/api" = None.
Proof. apply (ipv6_host_unroutable test_gw "/api"), test_gw_reachable. Defined.
