(* ===== verification/EnvExpand.v ===== *)
(** * Environment placeholders in configuration files

    [core/src/config/env.rs]: [{{env.NAME}}] and [{{env.NAME:default}}] are
    replaced before the TOML is parsed.  The code walks byte offsets of one
    string; so do the definitions, [sdrop i input] being [&input[i..]]. *)

From S2P Require Import Prelude RustStr.

Local Open Scope string_scope.

Definition OPEN : string := "{{".
Definition CLOSE : string := "}}".
Definition ENV_PREFIX : string := "env.".

Record Placeholder := MkPlaceholder { ph_end : nat; ph_name : string; ph_default : option string }.
Inductive OpenParse := NotOurs | Found (ph : Placeholder).

(** [std::env::var]. *)
Inductive EnvVar := NotPresent | NotUnicode | Present (value : string).

Definition is_placeholder_ws (c : ascii) : bool := Ascii.eqb c " " || Ascii.eqb c (byte_of 9).
Definition is_ident_start (c : ascii) : bool := is_alpha c || Ascii.eqb c "_".
Definition is_ident_continue (c : ascii) : bool := is_alnum c || Ascii.eqb c "_".

(** The length of the longest prefix that satisfies [p]. *)
Fixpoint span_len (p : ascii -> bool) (s : string) : nat :=
  match s with String c s => if p c then S (span_len p s) else 0 | "" => 0 end.
Definition skip_ws (input : string) (i : nat) : nat := i + span_len is_placeholder_ws (sdrop i input).

Definition find_close (input : string) (from : nat) : option nat :=
  option_map (fun rel => from + rel) (find CLOSE (sdrop from input)).

Definition snippet_at (input : string) (start : nat) : string :=
  let rest := sdrop start input in
  let taken := match option_map (fun i => (i + String.length CLOSE) `min` String.length rest) (find CLOSE rest) with
               | Some e => stake e rest
               | None => stake (String.length rest `min` 48) rest
               end in
  "`" ++ taken ++ "`".

(** The identifier at [i] and the offset after it. *)
Definition parse_ident (input : string) (i : nat) : Anyhow (string * nat) :=
  match sdrop i input with
  | "" => Ok ("", i)
  | String first rest =>
      if negb (is_ident_start first) then
        if is_alnum first || Ascii.eqb first "_"
        then Err ("invalid environment variable name: must start with a letter or '_', got '"
                  ++ String first "'")
        else Ok ("", i)
      else
        let n := S (span_len is_ident_continue rest) in
        Ok (stake n (sdrop i input), i + n)
  end.

Definition unclosed (start : nat) : string :=
  "unclosed environment placeholder at byte " ++ show_Z (Z.of_nat start) ++ " (missing '}}')".

Definition parse_open (input : string) (start : nat) : Anyhow OpenParse :=
  let i := skip_ws input (start + String.length OPEN) in
  if negb (starts_with ENV_PREFIX (sdrop i input)) then Ok NotOurs else
  let i := i + String.length ENV_PREFIX in
  let? ' (name, i) := parse_ident input i in
  if is_empty name
  then Err ("invalid environment placeholder at byte " ++ show_Z (Z.of_nat start)
            ++ ": missing variable name after 'env.'")
  else
  let i := skip_ws input i in
  let? ' (dflt, i) :=
    match sdrop i input with
    | String ":" _ =>
        let i := i + 1 in
        let? close := ok_or (find_close input i) (unclosed start) in
        Ok (Some (trim (stake (close - i) (sdrop i input))), close)
    | _ => Ok (None, i)
    end in
  let i := skip_ws input i in
  if negb (starts_with CLOSE (sdrop i input)) then
    if bool_decide (dflt = None) && bool_decide (find_close input i = None)
    then Err (unclosed start)
    else Err ("invalid environment placeholder " ++ snippet_at input start
              ++ ": expected '}}' or ':default}}' after the variable name")
  else Ok (Found (MkPlaceholder (i + String.length CLOSE) name dflt)).

Section Env.
Context (env : string -> EnvVar).

Definition lookup_process_env (name : string) : Anyhow (option string) :=
  match env name with
  | Present value => if is_empty value then Ok None else Ok (Some value)
  | NotPresent => Ok None
  | NotUnicode => Err ("environment variable '" ++ name ++ "' is not valid UTF-8")
  end.

(** The text a placeholder stands for. *)
Definition append_resolved (out : string) (ph : Placeholder) : Anyhow string :=
  let? v := lookup_process_env (ph_name ph) in
  match v with
  | Some value => Ok (out ++ value)
  | None =>
      match ph_default ph with
      | Some d => Ok (out ++ d)
      | None => Err ("environment variable '" ++ ph_name ph
                     ++ "' is not set (referenced as {{env." ++ ph_name ph ++ "}})")
      end
  end.

(** The loop; [None] only when the fuel runs out. *)
Fixpoint expand_go (fuel : nat) (input out : string) (i copy_from : nat) : option (Anyhow string) :=
  let finish := Some (Ok (out ++ sdrop copy_from input)) in
  if Nat.ltb (i + 1) (String.length input) then
    match fuel with
    | O => None
    | S fuel =>
        if starts_with OPEN (sdrop i input) then
          match parse_open input i with
          | Err e => Some (Err e)
          | Ok NotOurs => expand_go fuel input out (i + 1) copy_from
          | Ok (Found ph) =>
              match append_resolved (out ++ stake (i - copy_from) (sdrop copy_from input)) ph with
              | Err e => Some (Err e)
              | Ok out => expand_go fuel input out (ph_end ph) (ph_end ph)
              end
          end
        else expand_go fuel input out (i + 1) copy_from
    end
  else finish.

Definition expand_env_placeholders (input : string) : option (Anyhow string) :=
  if negb (contains OPEN input) then Some (Ok input)
  else expand_go (String.length input) input "" 0 0.
End Env.

(** The desktop client refuses placeholders: it searches for one. *)
Fixpoint contains_go (fuel : nat) (input : string) (i : nat) : bool :=
  match fuel with
  | O => false
  | S fuel =>
      match find OPEN (sdrop i input) with
      | None => false
      | Some rel =>
          let open := i + rel in
          let j := skip_ws input (open + String.length OPEN) in
          if starts_with ENV_PREFIX (sdrop j input) then true
          else contains_go fuel input (open + 1)
      end
  end.
Definition contains_env_placeholders (input : string) : bool :=
  contains_go (S (String.length input)) input 0.
Definition reject_env_placeholders (raw : string) : Anyhow unit :=
  if contains_env_placeholders raw
  then Err "environment placeholders like {{env.NAME}} are not supported in the desktop client; fill in actual values, or run the CLI / Docker client"
  else Ok tt.

(** ** The specification

    [expands env s o]: [o] is [s] with its placeholders resolved, read left to
    right; a [{{] that no [env.] follows is ordinary text. *)

Definition is_ws_str (s : string) : bool := sforall is_placeholder_ws s.
Definition is_ident (s : string) : bool :=
  match s with "" => false | String c s => is_ident_start c && sforall is_ident_continue s end.

Definition opens_ours (s : string) : bool :=
  match strip_prefix OPEN s with
  | Some r => starts_with ENV_PREFIX (sdrop (span_len is_placeholder_ws r) r)
  | None => false
  end.

Inductive expands (env : string -> EnvVar) : string -> string -> Prop :=
| ex_nil : expands env "" ""
| ex_char c s o : opens_ours (String c s) = false -> expands env s o -> expands env (String c s) (String c o)
| ex_value w1 name w2 dflt v rest o :
    is_ws_str w1 = true -> is_ident name = true -> is_ws_str w2 = true ->
    match dflt with Some d => find CLOSE (d ++ CLOSE ++ rest) = Some (String.length d) | None => True end ->
    match env name with
    | Present x => if is_empty x then option_map trim dflt = Some v else v = x
    | NotPresent => option_map trim dflt = Some v
    | NotUnicode => False
    end ->
    expands env rest o ->
    expands env ("{{" ++ w1 ++ "env." ++ name ++ w2
                 ++ match dflt with Some d => ":" ++ d | None => "" end ++ "}}" ++ rest) (v ++ o).

(** ** Lemmas *)

Lemma sdrop_succ i s c r : sdrop i s = String c r -> sdrop (i + 1) s = r.
Proof. intros H. by rewrite <- sdrop_sdrop, H. Qed.
Lemma sdrop_length_le i s : sdrop i s <> "" -> i < String.length s.
Proof.
  intros H. destruct (decide (i < String.length s)) as [|Hn]; [done|].
  exfalso. apply H. assert (String.length (sdrop i s) = 0) as H0 by (rewrite length_sdrop; lia).
  by destruct (sdrop i s).
Qed.
Lemma sdrop_app_n i s a b : sdrop i s = a ++ b -> sdrop (i + String.length a) s = b.
Proof. intros H. rewrite <- sdrop_sdrop, H. apply sdrop_app_length. Qed.
Lemma span_sforall p s : sforall p (stake (span_len p s) s) = true.
Proof. induction s as [|c s IH]; simpl; [done|]. destruct (p c) eqn:E; simpl; [by rewrite E|done]. Qed.
Lemma skip_ws_split input i :
  exists w, is_ws_str w = true /\ sdrop i input = w ++ sdrop (skip_ws input i) input
            /\ skip_ws input i = i + String.length w.
Proof.
  unfold skip_ws. set (n := span_len _ _). exists (stake n (sdrop i input)).
  split; [apply span_sforall|]. rewrite <- sdrop_sdrop. rewrite stake_sdrop. split; [done|].
  rewrite length_stake. f_equal. unfold n. clear n.
  induction (sdrop i input) as [|c s IH]; simpl; [done|]. destruct (is_placeholder_ws c); simpl; lia.
Qed.
Lemma find_spec pat s n : find pat s = Some n -> starts_with pat (sdrop n s) = true.
Proof.
  revert n. induction s as [|c s IH]; intros n; simpl.
  - destruct (starts_with pat "") eqn:E; [|done]. by intros [= <-].
  - destruct (starts_with pat (String c s)) eqn:E; [by intros [= <-]|].
    destruct (find pat s) as [m|]; [|done]. intros [= <-]. simpl. auto.
Qed.
Lemma find_length pat s n : find pat s = Some n -> n <= String.length s.
Proof.
  revert n. induction s as [|c s IH]; intros n; simpl.
  - destruct (starts_with pat ""); [|done]. by intros [= <-].
  - destruct (starts_with pat (String c s)); [intros [= <-]; lia|].
    destruct (find pat s) as [m|]; [|done]. intros [= <-]. specialize (IH m eq_refl). lia.
Qed.

Lemma parse_ident_spec input i name j :
  parse_ident input i = Ok (name, j) -> name <> "" ->
  is_ident name = true /\ sdrop i input = name ++ sdrop j input /\ i < j.
Proof.
  unfold parse_ident. destruct (sdrop i input) as [|c r] eqn:E; [naive_solver|].
  destruct (is_ident_start c) eqn:Ec; simpl.
  - intros [= <- <-] _. split; [cbn [is_ident]; by rewrite Ec, span_sforall|]. split; [|lia].
    rewrite <- sdrop_sdrop, E. cbn [sdrop String.append]. by rewrite stake_sdrop.
  - destruct (is_alnum c || _); naive_solver.
Qed.

Lemma parse_open_notours input i :
  starts_with OPEN (sdrop i input) = true -> parse_open input i = Ok NotOurs ->
  opens_ours (sdrop i input) = false.
Proof.
  intros Ho. unfold parse_open, opens_ours. apply starts_with_spec in Ho as [r Hr].
  rewrite Hr, (proj2 (strip_prefix_spec OPEN _ r) eq_refl).
  assert (sdrop (i + String.length OPEN) input = r) as Hd by (by apply sdrop_app_n).
  unfold skip_ws at 1. rewrite Hd, <- sdrop_sdrop, Hd.
  destruct (starts_with ENV_PREFIX _); [|done]. cbn [negb].
  destruct (parse_ident _ _) as [[name j]|]; [|done].
  destruct (is_empty name); [done|].
  destruct (match sdrop (skip_ws input j) input with String ":" _ => _ | _ => _ end) as [[d k]|]; [|done].
  destruct (negb _); [|done]. by destruct (bool_decide _ && bool_decide _).
Qed.

Definition dflt_text (dflt : option string) : string :=
  match dflt with Some d => ":" ++ d | None => "" end.

Lemma parse_open_found input i ph :
  starts_with OPEN (sdrop i input) = true -> parse_open input i = Ok (Found ph) ->
  exists w1 w2 dflt,
    is_ws_str w1 = true /\ is_ident (ph_name ph) = true /\ is_ws_str w2 = true
    /\ ph_default ph = option_map trim dflt
    /\ match dflt with
       | Some d => find CLOSE (d ++ CLOSE ++ sdrop (ph_end ph) input) = Some (String.length d)
       | None => True
       end
    /\ sdrop i input = "{{" ++ w1 ++ "env." ++ ph_name ph ++ w2 ++ dflt_text dflt ++ "}}" ++ sdrop (ph_end ph) input
    /\ i < ph_end ph /\ ph_end ph <= String.length input.
Proof.
  intros Ho. unfold parse_open. apply starts_with_spec in Ho as [r1 Hr1].
  assert (sdrop (i + String.length OPEN) input = r1) as Hd1 by (by apply sdrop_app_n).
  destruct (skip_ws_split input (i + String.length OPEN)) as (w1 & Hw1 & Hs1 & Hl1).
  set (i1 := skip_ws input (i + String.length OPEN)) in *.
  destruct (starts_with ENV_PREFIX (sdrop i1 input)) eqn:He; [|done]. cbn [negb].
  apply starts_with_spec in He as [r2 Hr2].
  assert (sdrop (i1 + String.length ENV_PREFIX) input = r2) as Hd2 by (by apply sdrop_app_n).
  destruct (parse_ident input (i1 + String.length ENV_PREFIX)) as [[name j]|] eqn:Ep; [|done].
  destruct (is_empty name) eqn:En; [done|]. apply is_empty_false in En.
  apply parse_ident_spec in Ep as (Hid & Hsplit & Hj); [|done].
  destruct (skip_ws_split input j) as (w2 & Hw2 & Hs2 & Hl2).
  set (i2 := skip_ws input j) in *.
  assert (forall dflt k, sdrop i2 input = dflt_text dflt ++ sdrop k input -> i2 <= k ->
    match dflt with Some d => find CLOSE (d ++ sdrop k input) = Some (String.length d) | None => True end ->
    (let i := skip_ws input k in
     if negb (starts_with CLOSE (sdrop i input)) then
       if bool_decide (option_map trim dflt = None) && bool_decide (find_close input i = None)
       then Err (unclosed i) else Err ""
     else Ok (Found (MkPlaceholder (i + String.length CLOSE) name (option_map trim dflt)))) = Ok (Found ph) ->
    exists w1 w2 dflt, is_ws_str w1 = true /\ is_ident (ph_name ph) = true /\ is_ws_str w2 = true
    /\ ph_default ph = option_map trim dflt
    /\ match dflt with
       | Some d => find CLOSE (d ++ CLOSE ++ sdrop (ph_end ph) input) = Some (String.length d)
       | None => True
       end
    /\ sdrop i input = "{{" ++ w1 ++ "env." ++ ph_name ph ++ w2 ++ dflt_text dflt ++ "}}" ++ sdrop (ph_end ph) input
    /\ i < ph_end ph /\ ph_end ph <= String.length input) as Hfinish.
  { intros dflt k Hk Hik Hfind. destruct (skip_ws_split input k) as (w3 & Hw3 & Hs3 & Hl3).
    set (i3 := skip_ws input k) in *. cbn zeta.
    destruct (starts_with CLOSE (sdrop i3 input)) eqn:Hc; cbn [negb];
      [|destruct (bool_decide _ && bool_decide _); done].
    intros [= <-]. cbn [ph_name ph_end ph_default]. apply starts_with_spec in Hc as [rest Hrest].
    assert (sdrop (i3 + String.length CLOSE) input = rest) as Hd3 by (by apply sdrop_app_n).
    change (String.length CLOSE) with 2 in *. rewrite Hd3. exists w1.
    assert (i3 + 2 <= String.length input) as Hle.
    { pose proof (length_sdrop i3 input) as Hl. rewrite Hrest, length_app_s in Hl.
      change (String.length CLOSE) with 2 in Hl. lia. }
    assert (sdrop i input = "{{" ++ w1 ++ "env." ++ name ++ w2 ++ dflt_text dflt ++ w3 ++ "}}" ++ rest) as Hall.
    { rewrite Hr1, <- Hd1, Hs1, Hr2, <- Hd2, Hsplit, Hs2, Hk, Hs3, Hrest. done. }
    destruct dflt as [d|].
    - exists w2, (Some d). assert (w3 = "") as ->.
      { apply find_spec in Hfind. rewrite sdrop_app_length, Hs3 in Hfind.
        destruct w3 as [|c w3]; [done|]. apply starts_with_spec in Hfind as [x Hx].
        injection Hx as -> _. done. }
      rewrite Hs3, Hrest in Hfind. simpl in Hl3. simpl in Hall. repeat (split; [done|]). simpl. lia.
    - exists (w2 ++ w3), None. simpl in *. rewrite app_assoc. split; [done|]. split; [done|]. split.
      + clear -Hw2 Hw3. induction w2 as [|c w2 IH]; [done|]. unfold is_ws_str in *. simpl in *.
        apply andb_true_iff in Hw2 as [-> ?]. auto.
      + repeat (split; [done|]). lia. }
  destruct (sdrop i2 input) as [|c r3] eqn:E2.
  { intros H. apply (Hfinish None i2); [done|lia|done|]. cbn zeta. revert H.
    destruct (negb _); [|done]. by destruct (bool_decide _ && bool_decide _). }
  destruct (decide (c = ":"%char)) as [->|Hc].
  - unfold find_close. rewrite (sdrop_succ _ _ _ _ E2).
    destruct (find CLOSE r3) as [rel|] eqn:Ef; [|done]. cbn [option_map ok_or].
    replace (i2 + 1 + rel - (i2 + 1)) with rel by lia. intros H.
    assert (sdrop (i2 + 1 + rel) input = sdrop rel r3) as Hk.
    { by rewrite <- sdrop_sdrop, (sdrop_succ _ _ _ _ E2). }
    apply (Hfinish (Some (stake rel r3)) (i2 + 1 + rel)); rewrite ?Hk.
    + cbn [dflt_text]. rewrite app_assoc, stake_sdrop. done.
    + lia.
    + rewrite stake_sdrop, Ef, length_stake. f_equal. apply find_length in Ef. lia.
    + cbn zeta. revert H. cbn [option_map].
      destruct (negb _); [|done]. by destruct (bool_decide _ && bool_decide _).
  - intros H. apply (Hfinish None i2); [done|lia|done|].
    cbn zeta. revert H.
    destruct c as [[] [] [] [] [] [] [] []]; try done;
      (destruct (negb _); [|done]; by destruct (bool_decide _ && bool_decide _)).
Qed.

Lemma opens_ours_false s : starts_with OPEN s = false -> opens_ours s = false.
Proof.
  intros H. unfold opens_ours. destruct (strip_prefix OPEN s) as [r|] eqn:E; [|done].
  apply strip_prefix_spec in E as ->. by rewrite starts_with_app in H.
Qed.
Lemma expands_plain env s : contains OPEN s = false -> expands env s s.
Proof.
  unfold contains. induction s as [|c s IH]; cbn [find]; [constructor|].
  destruct (starts_with OPEN (String c s)) eqn:E; [done|]. intros H.
  constructor; [by apply opens_ours_false|]. apply IH. by destruct (find OPEN s).
Qed.
Lemma opens_ours_short s : String.length s <= 1 -> opens_ours s = false.
Proof.
  intros H. apply opens_ours_false. unfold starts_with. destruct (strip_prefix OPEN s) as [r|] eqn:E; [|done].
  apply strip_prefix_spec in E as ->. rewrite length_app_s in H. simpl in H. lia.
Qed.
Lemma expands_short env s : String.length s <= 1 -> expands env s s.
Proof.
  destruct s as [|c [|d s]]; simpl; intros; [constructor| |lia].
  constructor; [by apply opens_ours_short|constructor].
Qed.

Lemma append_resolved_ok env out ph out' :
  append_resolved env out ph = Ok out' ->
  exists v, out' = out ++ v /\
    match env (ph_name ph) with
    | Present x => if is_empty x then ph_default ph = Some v else v = x
    | NotPresent => ph_default ph = Some v
    | NotUnicode => False
    end.
Proof.
  unfold append_resolved, lookup_process_env.
  destruct (env (ph_name ph)) as [| |x]; [|done|destruct (is_empty x)].
  - destruct (ph_default ph); [|done]. intros [= <-]. eauto.
  - destruct (ph_default ph); [|done]. intros [= <-]. eauto.
  - intros [= <-]. eauto.
Qed.

Lemma stake_succ_app n s c r : sdrop n s = String c r -> stake (n + 1) s = stake n s ++ String c "".
Proof.
  revert s. induction n as [|n IH]; intros [|d s]; simpl; try done.
  - by intros [= -> ->].
  - intros H. by rewrite (IH _ H).
Qed.

Lemma expand_go_spec env input fuel out i copy :
  String.length input - i <= fuel -> copy <= i -> i <= String.length input ->
  exists r, expand_go env fuel input out i copy = Some r
    /\ forall res, r = Ok res ->
         exists o, res = out ++ stake (i - copy) (sdrop copy input) ++ o
                   /\ expands env (sdrop i input) o.
Proof.
  revert out i copy. induction fuel as [|fuel IH]; intros out i copy Hf Hc Hi; cbn [expand_go].
  all: destruct (Nat.ltb_spec (i + 1) (String.length input)) as [Hlt|Hge].
  1: lia.
  1,3: eexists; split; [done|]; intros res [= <-]; exists (sdrop i input); split;
       [replace i with (copy + (i - copy)) at 2 by lia; rewrite <- sdrop_sdrop, stake_sdrop; done
       |apply expands_short; rewrite length_sdrop; lia].
  assert (exists c r, sdrop i input = String c r) as (c & r & Ecr).
  { assert (String.length (sdrop i input) <> 0) as Hl by (rewrite length_sdrop; lia).
    destruct (sdrop i input); [done|eauto]. }
  assert (opens_ours (sdrop i input) = false ->
    exists r0, expand_go env fuel input out (i + 1) copy = Some r0
      /\ forall res, r0 = Ok res ->
           exists o, res = out ++ stake (i - copy) (sdrop copy input) ++ o
                     /\ expands env (sdrop i input) o) as Hskip.
  { intros Hno. destruct (IH out (i + 1) copy) as (r0 & Hgo & Hres); [lia..|].
    exists r0. split; [done|]. intros res Hr. destruct (Hres res Hr) as (o & -> & Hex).
    exists (String c o). split.
    - replace (i + 1 - copy) with (i - copy + 1) by lia.
      rewrite (stake_succ_app (i - copy) _ c r).
      + by rewrite !app_assoc.
      + rewrite sdrop_sdrop. replace (copy + (i - copy)) with i by lia. done.
    - rewrite (sdrop_succ _ _ _ _ Ecr) in Hex. rewrite Ecr in *. by constructor. }
  destruct (starts_with OPEN (sdrop i input)) eqn:Eo; [|by apply Hskip, opens_ours_false].
  destruct (parse_open input i) as [[|ph]|e] eqn:Ep; [by apply Hskip, parse_open_notours| |by eexists].
  destruct (parse_open_found _ _ _ Eo Ep) as (w1 & w2 & dflt & Hw1 & Hid & Hw2 & Hd & Hfd & Hsplit & Hend & Hle).
  destruct (append_resolved _ _ _) as [out'|e] eqn:Ea; [|by eexists].
  apply append_resolved_ok in Ea as (v & -> & Hv).
  destruct (IH (out ++ stake (i - copy) (sdrop copy input) ++ v) (ph_end ph) (ph_end ph)) as (r0 & Hgo & Hres); [lia..|].
  exists r0. split; [by rewrite app_assoc|]. intros res Hr. destruct (Hres res Hr) as (o & -> & Hex).
  rewrite Nat.sub_diag. exists (v ++ o). split; [by rewrite !app_assoc|].
  rewrite Hsplit. apply ex_value; try done. rewrite <- Hd. exact Hv.
Qed.

Lemma expands_identity env s o :
  (forall i, opens_ours (sdrop i s) = false) -> expands env s o -> o = s.
Proof.
  intros Hno Hex. induction Hex as [|c s o _ _ IH|w1 name w2 dflt v rest o Hw1 _ _ _ _ _ _]; [done|..].
  - f_equal. apply IH. intros i. apply (Hno (S i)).
  - exfalso. specialize (Hno 0). cbn [sdrop String.append] in Hno. unfold opens_ours in Hno.
    set (tl := name ++ _) in Hno.
    replace (strip_prefix OPEN _) with (Some (w1 ++ "env." ++ tl)) in Hno.
    2: { symmetry. by apply strip_prefix_spec. }
    assert (span_len is_placeholder_ws (w1 ++ "env." ++ tl) = String.length w1) as Hs.
    { clear -Hw1. unfold is_ws_str in Hw1. induction w1 as [|c w1 IH]; [done|]. simpl in *.
      apply andb_true_iff in Hw1 as [-> ?]. f_equal. auto. }
    rewrite Hs, sdrop_app_length in Hno. by rewrite starts_with_app in Hno.
Qed.

(** ** Properties *)

(** C39: Expansion always terminates, and what it returns is the input with every
    placeholder replaced by the variable's value or its default and all other
    text, braces included, kept byte for byte; a text without placeholders is
    returned as it is. *)
Theorem env_expansion_correct (env : string -> EnvVar) (input : string) :
  exists r, expand_env_placeholders env input = Some r
    /\ forall out, r = Ok out ->
         expands env input out
         /\ ((forall i, opens_ours (sdrop i input) = false) -> out = input).
Proof.
  unfold expand_env_placeholders. destruct (contains OPEN input) eqn:E; cbn [negb].
  - destruct (expand_go_spec env input (String.length input) "" 0 0) as (r & Hr & Hok); [lia..|].
    exists r. split; [done|]. intros out Ho. destruct (Hok out Ho) as (o & -> & Hex).
    assert ("" ++ stake (0 - 0) (sdrop 0 input) ++ o = o) as -> by done.
    assert (sdrop 0 input = input) as Ed by (by destruct input). rewrite Ed in Hex.
    split; [done|]. intros Hno. by apply (expands_identity env).
  - eexists. split; [done|]. intros out [= <-]. split; [by apply expands_plain|done].
Qed.

Definition env_ex (n : string) : EnvVar := if String.eqb n "PORT" then Present "7000" else NotPresent.
Example expand_ex :
  expand_env_placeholders env_ex "a={{ env.PORT }};{{env.HOST: x }};{{{x" = Some (Ok "a=7000;x;{{{x").
Proof. vm_compute. reflexivity. Qed.
Example expand_unset_ex :
  is_err (default (Ok "") (expand_env_placeholders env_ex "{{env.HOST}}")) = true.
Proof. vm_compute. reflexivity. Qed.
