(* ===== verification/Config.v ===== *)
(** * Configuration: the parts client and server share

    [core/src/config/log.rs], [core/src/config/mod.rs], [Protocol] of
    [core/src/transport/mod.rs], the WebSocket path of
    [core/src/transport/websocket.rs] and the keepalive settings of
    [core/src/net/tcp.rs].  The file system is a parameter. *)

From S2P Require Import Prelude RustStr.

Local Open Scope string_scope.

(** [anyhow::Context]: the outermost message is what is displayed. *)
Definition with_context {A E} (r : Result A E) (msg : string) : Anyhow A :=
  match r with Ok a => Ok a | Err _ => Err msg end.

(** ** [core/src/config/log.rs] *)

Record LogConfig := MkLogConfig { lc_file : string; lc_level : string; lc_max_days : Z }.
#[global] Instance LogConfig_eq_dec : EqDecision LogConfig.
Proof. solve_decision. Defined.

Definition log_default_level : string := "info".
Definition log_default_max_days : Z := 3.
Definition log_default : LogConfig := MkLogConfig "" log_default_level log_default_max_days.

Definition is_valid_level (level : string) : bool :=
  bool_decide (to_lower (trim level) ∈ ["trace"; "debug"; "info"; "warn"; "error"]).

Definition log_complete (c : LogConfig) : LogConfig :=
  let level := to_lower (trim (lc_level c)) in
  MkLogConfig (trim (lc_file c)) (if is_empty level then log_default_level else level) (lc_max_days c).
Definition log_validate (c : LogConfig) : Anyhow unit :=
  if negb (is_valid_level (lc_level c))
  then Err ("log.level must be one of trace/debug/info/warn/error, got " ++ debug_str (lc_level c))
  else Ok tt.
Definition log_file_enabled (c : LogConfig) : bool := negb (is_empty (lc_file c)).

(** ** [core/src/net/tcp.rs] *)

Definition DEFAULT_TCP_KEEPALIVE_IDLE_SECS : Z := 30.
Definition DEFAULT_TCP_KEEPALIVE_INTERVAL_SECS : Z := 10.
Record TcpKeepaliveConfig := MkKeepalive { ka_idle_secs : Z; ka_interval_secs : Z }.
Definition keepalive_default : TcpKeepaliveConfig :=
  MkKeepalive DEFAULT_TCP_KEEPALIVE_IDLE_SECS DEFAULT_TCP_KEEPALIVE_INTERVAL_SECS.
Definition keepalive_new (idle_secs interval_secs : Z) : TcpKeepaliveConfig :=
  MkKeepalive idle_secs
    (if (0 <? idle_secs)%Z && (interval_secs =? 0)%Z then DEFAULT_TCP_KEEPALIVE_INTERVAL_SECS
     else interval_secs).
Definition keepalive_enabled (c : TcpKeepaliveConfig) : bool := (0 <? ka_idle_secs c)%Z.

(** ** [core/src/transport/] *)

Inductive Protocol := Tcp | Quic | Websocket | Kcp.
#[global] Instance Protocol_eq_dec : EqDecision Protocol.
Proof. solve_decision. Defined.

Definition protocol_parse (s : string) : option Protocol :=
  let s := trim s in
  if is_empty s || eq_ignore_ascii_case s "tcp" then Some Tcp
  else if eq_ignore_ascii_case s "quic" then Some Quic
  else if eq_ignore_ascii_case s "websocket" || eq_ignore_ascii_case s "ws" then Some Websocket
  else if eq_ignore_ascii_case s "kcp" then Some Kcp
  else None.
Definition protocol_as_str (p : Protocol) : string :=
  match p with Tcp => "tcp" | Quic => "quic" | Websocket => "websocket" | Kcp => "kcp" end.
Definition supports_yamux (p : Protocol) : bool :=
  match p with Tcp | Websocket | Kcp => true | Quic => false end.

Definition ORBIEN_WEBSOCKET_PATH : string := "/~!orbien".
Definition normalize_ws_path (path : string) : string :=
  let t := trim path in if is_empty t then ORBIEN_WEBSOCKET_PATH else t.
Definition is_websocket_http_request (peeked path : string) : bool :=
  starts_with ("GET " ++ path) peeked.

(** ** [core/src/config/mod.rs] *)

Definition CLIENT_DEFAULT_CONFIG : string := "orbien.toml".
Definition CLIENT_CONFIG_CANDIDATES : list string := ["orbien.toml"; "conf/orbien.toml"].
Definition newline : string := String lf "".

Section Paths.
(** [Path::is_file], [Path::canonicalize]; [Path::join] on Unix. *)
Context (is_file : string -> bool) (canonicalize : string -> option string).

Definition path_is_absolute (p : string) : bool := starts_with "/" p.
Definition path_join (base p : string) : string :=
  if path_is_absolute p || is_empty base then p
  else if ends_with "/" base then base ++ p else base ++ "/" ++ p.

Definition resolve_client_config_path (explicit : option string) : Anyhow string :=
  let raw := match explicit with
             | Some s => if is_empty (trim s) then None else Some (trim s)
             | None => None
             end in
  match raw with
  | Some raw =>
      if is_file raw then Ok raw
      else Err ("config file not found: '" ++ raw ++ "'" ++ newline ++ newline
                ++ "Specify a valid TOML with -c/--config." ++ newline
                ++ "Example:" ++ newline ++ "orbien -c conf/orbien.toml")
  | None =>
      match List.find is_file CLIENT_CONFIG_CANDIDATES with
      | Some cand => Ok cand
      | None =>
          Err ("no config file found (tried: " ++ join ", " CLIENT_CONFIG_CANDIDATES ++ ")"
               ++ newline ++ newline ++ "A config file is required." ++ newline
               ++ "Specify one with -c/--config." ++ newline
               ++ "Example:" ++ newline ++ "orbien -c conf/orbien.toml")
      end
  end.

Definition resolve_maybe_relative (base p : string) : string :=
  let p := trim p in
  if is_empty p then ""
  else if path_is_absolute p then p
  else default (path_join base p) (canonicalize (path_join base p)).
End Paths.

(** ** Lemmas *)

Lemma log_complete_idemp c : log_complete (log_complete c) = log_complete c.
Proof.
  unfold log_complete. cbn [lc_file lc_level lc_max_days]. rewrite trim_idemp. f_equal.
  destruct (is_empty (to_lower (trim (lc_level c)))) eqn:E; [reflexivity|].
  rewrite trim_lower, trim_idemp, to_lower_idemp. by rewrite E.
Qed.
Lemma normalize_ws_path_idemp p : normalize_ws_path (normalize_ws_path p) = normalize_ws_path p.
Proof.
  unfold normalize_ws_path. destruct (is_empty (trim p)) eqn:E; [reflexivity|].
  by rewrite trim_idemp, E.
Qed.
Lemma normalize_ws_path_nonempty p : normalize_ws_path p <> "".
Proof. unfold normalize_ws_path. destruct (is_empty (trim p)) eqn:E; [done|]. by apply is_empty_false. Qed.
Lemma protocol_parse_as_str p : protocol_parse (protocol_as_str p) = Some p.
Proof. by destruct p. Qed.
