(* ===== verification/ServerConfig.v ===== *)
(** * Server configuration

    [core/src/config/server.rs]: the configuration record, [parse_host_port],
    [complete] (defaults) and [validate].  Loading reads a file, expands its
    environment placeholders and parses TOML; the file and the TOML parser are
    parameters. *)

From S2P Require Import Prelude RustStr Config EnvExpand.

Local Open Scope string_scope.

Record AuthConfig := MkAuthConfig { ac_auth_type : string; ac_token : string }.
Record QuicConfig := MkQuicConfig {
  qc_keepalive_period : Z; qc_max_idle_timeout : Z; qc_max_incoming_streams : Z }.
Record ServerTlsConfig := MkServerTlsConfig {
  st_force : bool; st_cert_file : string; st_key_file : string; st_trusted_ca_file : string }.
Record DashboardConfig := MkDashboardConfig {
  db_addr : string; db_port : Z; db_user : string; db_password : string }.
Record ServerTransportConfig := MkServerTransportConfig {
  str_tcp_mux : bool; str_mux_keepalive_secs : Z; str_tcp_keepalive_idle : Z;
  str_tcp_keepalive_interval : Z; str_max_conn_pool : Z; str_heartbeat_timeout : Z;
  str_quic : QuicConfig; str_ws_path : string; str_tls : ServerTlsConfig }.
Record ServerConfig := MkServerConfig {
  sc_listen : string; sc_quic_port : Z; sc_kcp_port : Z; sc_http_gw_port : Z; sc_https_gw_port : Z;
  sc_root_domain : string; sc_auth : AuthConfig; sc_proxy_addr : string;
  sc_transport : ServerTransportConfig; sc_dashboard : DashboardConfig;
  sc_udp_packet_size : Z; sc_log : LogConfig }.

(** ** Defaults *)

Definition default_tcp_mux : bool := true.
Definition default_ws_path : string := ORBIEN_WEBSOCKET_PATH.
Definition default_tcp_mux_keepalive : Z := 30.
Definition default_tcp_keepalive_idle : Z := DEFAULT_TCP_KEEPALIVE_IDLE_SECS.
Definition default_tcp_keepalive_interval : Z := DEFAULT_TCP_KEEPALIVE_INTERVAL_SECS.
Definition default_listen_host : string := "0.0.0.0".
Definition default_listen_port : Z := 9527.
Definition default_listen : string := default_listen_host ++ ":" ++ show_Z default_listen_port.
Definition default_proxy_addr : string := default_listen_host.
Definition default_auth_type : string := "token".
Definition default_quic_keepalive : Z := 10.
Definition default_quic_idle : Z := 30.
Definition default_quic_streams : Z := 100000.
Definition default_udp_packet_size : Z := 1500.

Definition quic_default : QuicConfig :=
  MkQuicConfig default_quic_keepalive default_quic_idle default_quic_streams.
Definition quic_keepalive (q : QuicConfig) : Z := Z.max (qc_keepalive_period q) 1.
Definition quic_idle_timeout (q : QuicConfig) : Z := Z.max (qc_max_idle_timeout q) 1.
Definition transport_default : ServerTransportConfig :=
  MkServerTransportConfig default_tcp_mux default_tcp_mux_keepalive default_tcp_keepalive_idle
    default_tcp_keepalive_interval 0 0 quic_default default_ws_path (MkServerTlsConfig false "" "" "").
Definition transport_tcp_keepalive (t : ServerTransportConfig) : TcpKeepaliveConfig :=
  keepalive_new (str_tcp_keepalive_idle t) (str_tcp_keepalive_interval t).
Definition server_config_default : ServerConfig :=
  MkServerConfig default_listen 0 0 0 0 "" (MkAuthConfig "" "") default_proxy_addr transport_default
    (MkDashboardConfig "" 0 "" "") default_udp_packet_size log_default.

Definition dashboard_complete (d : DashboardConfig) : DashboardConfig :=
  if is_empty (trim (db_addr d))
  then MkDashboardConfig "127.0.0.1" (db_port d) (db_user d) (db_password d) else d.
Definition dashboard_enabled (d : DashboardConfig) : bool := (0 <? db_port d)%Z.
Definition dashboard_validate (d : DashboardConfig) : Anyhow unit :=
  if negb (dashboard_enabled d) then Ok tt
  else if is_empty (trim (db_user d)) || is_empty (trim (db_password d))
  then Err "dashboard.user and dashboard.password are required when dashboard.port > 0"
  else Ok tt.

(** ** Addresses *)

Definition parse_host_port (raw : string) (default_port : Z) : Anyhow (string * Z) :=
  let s := trim raw in
  let bad msg := "invalid listen address '" ++ raw ++ "': " ++ msg in
  let with_port host port_str :=
    if is_empty port_str then Ok (host, default_port) else
    let? port := ok_or (parse_uint u16_max port_str) ("invalid listen port in '" ++ raw ++ "'") in
    Ok (host, if (port =? 0)%Z then default_port else port) in
  if is_empty s then Ok (default_listen_host, default_port) else
  match strip_prefix "[" s with
  | Some rest =>
      let? ' (host, after) := ok_or (split_once "]" rest) (bad "missing ']'") in
      if is_empty host then Err (bad "empty IPv6 host") else
      let host := "[" ++ host ++ "]" in
      if is_empty after then Ok (host, default_port) else
      let? port_str := ok_or (strip_prefix ":" after) (bad "expected ':' after ']'") in
      with_port host port_str
  | None =>
      match rsplit_once ":" s with
      | Some (host, port_str) =>
          if negb (is_empty host) && negb (contains ":" host) then with_port host port_str
          else Ok (s, default_port)
      | None => Ok (s, default_port)
      end
  end.

Definition listen_host (c : ServerConfig) : Anyhow string :=
  let? ' (h, _) := parse_host_port (sc_listen c) default_listen_port in Ok h.
Definition listen_port (c : ServerConfig) : Anyhow Z :=
  let? ' (_, p) := parse_host_port (sc_listen c) default_listen_port in Ok p.

Definition is_unspecified_bind (addr : string) : bool :=
  bool_decide (addr ∈ ["0.0.0.0"; "::"; "[::]"]).
Definition listen_addrs_overlap (a b : string) : bool :=
  let a := trim a in
  let b := trim b in
  if is_empty a || is_empty b then true
  else if is_unspecified_bind a || is_unspecified_bind b then true
  else eq_ignore_ascii_case a b.
Definition tcp_listen_conflicts (addr_a : string) (port_a : Z) (addr_b : string) (port_b : Z) : bool :=
  if (port_a =? 0)%Z || (port_b =? 0)%Z || negb (port_a =? port_b)%Z then false
  else listen_addrs_overlap addr_a addr_b.

(** ** Completion and validation *)

Definition quic_enabled (c : ServerConfig) : bool := negb (sc_quic_port c =? 0)%Z.
Definition kcp_enabled (c : ServerConfig) : bool := negb (sc_kcp_port c =? 0)%Z.
Definition http_gw_enabled (c : ServerConfig) : bool := negb (sc_http_gw_port c =? 0)%Z.
Definition https_gw_enabled (c : ServerConfig) : bool := negb (sc_https_gw_port c =? 0)%Z.

Definition complete_listen (listen : string) : string :=
  match parse_host_port listen default_listen_port with
  | Ok (host, port) => host ++ ":" ++ show_Z port
  | Err _ => default_listen
  end.
Definition complete_tls (t : ServerTlsConfig) : ServerTlsConfig :=
  if is_empty (trim (st_trusted_ca_file t)) then t
  else MkServerTlsConfig true (st_cert_file t) (st_key_file t) (st_trusted_ca_file t).
Definition complete_transport (t : ServerTransportConfig) : ServerTransportConfig :=
  MkServerTransportConfig (str_tcp_mux t) (str_mux_keepalive_secs t) (str_tcp_keepalive_idle t)
    (str_tcp_keepalive_interval t)
    (if (str_max_conn_pool t =? 0)%Z then 5 else str_max_conn_pool t)
    (if (str_heartbeat_timeout t =? 0)%Z then (if str_tcp_mux t then -1 else 90)
     else str_heartbeat_timeout t)
    (str_quic t) (normalize_ws_path (str_ws_path t)) (complete_tls (str_tls t)).

Definition server_complete (c : ServerConfig) : ServerConfig :=
  let listen := complete_listen (sc_listen c) in
  let proxy_addr :=
    if is_empty (trim (sc_proxy_addr c))
    then match parse_host_port listen default_listen_port with
         | Ok (h, _) => h
         | Err _ => default_listen_host
         end
    else sc_proxy_addr c in
  MkServerConfig listen (sc_quic_port c) (sc_kcp_port c) (sc_http_gw_port c) (sc_https_gw_port c)
    (sc_root_domain c)
    (MkAuthConfig (if is_empty (trim (ac_auth_type (sc_auth c))) then default_auth_type
                   else ac_auth_type (sc_auth c)) (ac_token (sc_auth c)))
    proxy_addr (complete_transport (sc_transport c)) (dashboard_complete (sc_dashboard c))
    (if (sc_udp_packet_size c =? 0)%Z then default_udp_packet_size else sc_udp_packet_size c)
    (log_complete (sc_log c)).

Definition gw_conflict_msg (name : string) (port : Z) (c : ServerConfig) (host tail : string) : string :=
  name ++ " (" ++ show_Z port ++ ") must not share a TCP listen with listen (" ++ sc_listen c
  ++ ") on overlapping addresses (listen host=" ++ host ++ ", proxyAddr=" ++ sc_proxy_addr c ++ "). " ++ tail.

Definition server_validate (c : ServerConfig) : Anyhow unit :=
  let? _ := log_validate (sc_log c) in
  let? ' (host, port) := with_context (parse_host_port (sc_listen c) default_listen_port)
                           ("invalid listen '" ++ sc_listen c ++ "'") in
  bail_if (quic_enabled c && kcp_enabled c && (sc_quic_port c =? sc_kcp_port c)%Z)
    with ("quicPort and kcpPort both use UDP and must differ (got " ++ show_Z (sc_quic_port c) ++ ")") ;;
  bail_if (http_gw_enabled c && tcp_listen_conflicts host port (sc_proxy_addr c) (sc_http_gw_port c))
    with (gw_conflict_msg "httpGwPort" (sc_http_gw_port c) c host
      "HTTP gateway and the control/WebSocket listener are separate sockets; put HTTP on 80 (or another free port), keep control on listen.") ;;
  bail_if (https_gw_enabled c && tcp_listen_conflicts host port (sc_proxy_addr c) (sc_https_gw_port c))
    with (gw_conflict_msg "httpsGwPort" (sc_https_gw_port c) c host
      "HTTPS visitors and control TLS both start with 0x16; Orbien does not mux them on one port. Use 443 (or another free port) for HTTPS gateway.") ;;
  bail_if (http_gw_enabled c && https_gw_enabled c && (sc_http_gw_port c =? sc_https_gw_port c)%Z)
    with ("httpGwPort and httpsGwPort must differ (both set to " ++ show_Z (sc_http_gw_port c) ++ ")") ;;
  dashboard_validate (sc_dashboard c).

Definition server_from_defaults : ServerConfig := server_complete server_config_default.

Section Load.
Context (read_file : string -> option string) (toml_from_str : string -> option ServerConfig)
        (env : string -> EnvVar) (canonicalize : string -> option string)
        (parent : string -> string).

Definition server_resolve_paths (base : string) (c : ServerConfig) : ServerConfig :=
  let t := sc_transport c in
  let tls := str_tls t in
  let r := resolve_maybe_relative canonicalize base in
  MkServerConfig (sc_listen c) (sc_quic_port c) (sc_kcp_port c) (sc_http_gw_port c)
    (sc_https_gw_port c) (sc_root_domain c) (sc_auth c) (sc_proxy_addr c)
    (MkServerTransportConfig (str_tcp_mux t) (str_mux_keepalive_secs t) (str_tcp_keepalive_idle t)
       (str_tcp_keepalive_interval t) (str_max_conn_pool t) (str_heartbeat_timeout t) (str_quic t)
       (str_ws_path t)
       (MkServerTlsConfig (st_force tls) (r (st_cert_file tls)) (r (st_key_file tls))
          (r (st_trusted_ca_file tls))))
    (sc_dashboard c) (sc_udp_packet_size c) (sc_log c).

(** [read_toml_file], shared with the client. *)
Definition read_toml_file (path : string) : Anyhow string :=
  ok_or (read_file path)
    ("failed to read config file '" ++ path ++ "'; specify a valid path with -c/--config").

(** [None] only if the expansion ran out of fuel, which it never does. *)
Definition server_load (path : string) : option (Anyhow ServerConfig) :=
  match read_toml_file path with
  | Err e => Some (Err e)
  | Ok file =>
      match expand_env_placeholders env file with
      | None => None
      | Some expanded => Some (
          let? expanded := expanded in
          let? cfg := ok_or (toml_from_str expanded) ("failed to parse config file '" ++ path ++ "'") in
          let cfg := server_complete (server_resolve_paths (parent path) cfg) in
          let? _ := server_validate cfg in Ok cfg)
      end
  end.
End Load.

(** ** Lemmas *)

Lemma digits_no_colon s : sforall is_digit s = true -> sforall (fun d => negb (Ascii.eqb ":" d)) s = true.
Proof. by apply digits_no. Qed.

(** What [parse_host_port] returns. *)
Definition host_wf (h : string) : Prop :=
  (exists x, h = "[" ++ x ++ "]" /\ x <> "" /\ contains "]" x = false)
  \/ (strip_prefix "[" h = None /\ h <> "" /\ ws_len (h ++ ":") = 0).

Lemma with_port_ok (raw : string) (dp : Z) (host ps h : string) (p : Z) :
  (0 < dp <= u16_max)%Z ->
  (if is_empty ps then Ok (host, dp) else
    let? port := ok_or (parse_uint u16_max ps) ("invalid listen port in '" ++ raw ++ "'") in
    Ok (host, if (port =? 0)%Z then dp else port)) = Ok (h, p) ->
  h = host /\ (0 < p <= u16_max)%Z.
Proof.
  intros Hdp. destruct (is_empty ps); [by intros [= <- <-]|].
  destruct (parse_uint u16_max ps) as [port|] eqn:E; [|done]. cbn [ok_or]. intros [= <- <-].
  apply parse_uint_range in E. destruct (Z.eqb_spec port 0); [done|]. split; [done|]. unfold u16_max in *. lia.
Qed.

Lemma ws_len_colon h t : h <> "" -> ws_len (h ++ String ":" t) = ws_len h.
Proof. intros. apply ws_len_app_ascii; [done|]. by vm_compute. Qed.

Lemma parse_host_port_inv raw dp h p :
  (0 < dp <= u16_max)%Z -> parse_host_port raw dp = Ok (h, p) ->
  host_wf h /\ (0 < p <= u16_max)%Z.
Proof.
  intros Hdp. unfold parse_host_port. pose proof (trim_ws raw) as Hws. set (s := trim raw) in *.
  destruct (is_empty s) eqn:Es.
  { intros [= <- <-]. split; [right; by vm_compute|done]. }
  apply is_empty_false in Es.
  destruct (strip_prefix "[" s) as [rest|] eqn:Eb.
  - destruct (split_once "]" rest) as [[x after]|] eqn:Ex; [|done]. cbn [ok_or].
    destruct (is_empty x) eqn:Exe; [done|]. apply is_empty_false in Exe.
    apply split_once_spec in Ex as [_ Hx].
    assert (host_wf ("[" ++ x ++ "]")) as Hh.
    { left. exists x. split; [done|]. split; [done|]. by apply contains_char. }
    destruct (is_empty after); [by intros [= <- <-]|].
    destruct (strip_prefix ":" after) as [ps|]; [|done]. cbn [ok_or].
    intros [-> ?]%with_port_ok; done.
  - assert (host_wf s) as Hs.
    { right. split; [done|]. split; [done|]. by rewrite ws_len_colon. }
    destruct (rsplit_once ":" s) as [[host ps]|] eqn:Er; [|by intros [= <- <-]].
    destruct (is_empty host) eqn:Eh; cbn [negb andb]; [by intros [= <- <-]|].
    destruct (contains ":" host); cbn [negb]; [by intros [= <- <-]|].
    intros [-> ?]%with_port_ok; [|done]. split; [|done]. apply is_empty_false in Eh.
    apply rsplit_once_spec in Er as [Er _]. right. split; [|split; [done|]].
    + destruct host as [|c host]; [done|]. rewrite Er in Eb. cbn [strip_prefix String.append] in *. by destruct (Ascii.eqb "[" c).
    + rewrite Er in Hws. by rewrite ws_len_colon in * by done.
Qed.

(** Parsing the completed form [host:port]. *)
Lemma parse_host_port_complete h p dp :
  host_wf h -> (0 < p <= u16_max)%Z ->
  parse_host_port (h ++ ":" ++ show_Z p) dp
  = if contains ":" h && negb (starts_with "[" h)
    then Ok (h ++ ":" ++ show_Z p, dp) else Ok (h, p).
Proof.
  intros Hh Hp. unfold parse_host_port.
  assert (h <> "") as Hne by (destruct Hh as [(x & -> & _)|(_ & ? & _)]; done).
  assert (trim (h ++ ":" ++ show_Z p) = h ++ ":" ++ show_Z p) as ->.
  { change (":" ++ show_Z p) with (String ":" (show_Z p)).
    replace (h ++ String ":" (show_Z p)) with ((h ++ ":") ++ show_Z p) by (by rewrite app_assoc).
    apply trim_app_digits; [|by apply show_Z_digits; lia|by apply show_Z_nonempty; lia].
    rewrite app_assoc. simpl. rewrite ws_len_colon by done.
    destruct Hh as [(x & -> & _)|(_ & _ & Hw)]; [apply ws_len_bracket|]. by rewrite ws_len_colon in Hw. }
  assert (is_empty (h ++ ":" ++ show_Z p) = false) as -> by (by destruct h).
  assert (parse_uint u16_max (show_Z p) = Some p) as Hpp by (apply parse_uint_show; lia).
  assert (is_empty (show_Z p) = false) as Hse by (apply is_empty_false, show_Z_nonempty; lia).
  assert ((p =? 0)%Z = false) as Hp0 by (apply Z.eqb_neq; lia).
  destruct Hh as [(x & -> & Hx & Hc)|(Hb & _ & _)].
  - replace (strip_prefix "[" (("[" ++ x ++ "]") ++ ":" ++ show_Z p))
      with (Some (x ++ String "]" (":" ++ show_Z p))).
    2: { symmetry. apply strip_prefix_spec. by rewrite !app_assoc. }
    rewrite (proj2 (split_once_spec "]" _ x _) (conj eq_refl (proj1 (contains_char _ _) Hc))).
    cbn [ok_or]. rewrite (proj2 (is_empty_false x) Hx). cbn [is_empty String.append].
    cbn [strip_prefix Ascii.eqb Bool.eqb ok_or]. rewrite Hse, Hpp. cbn [ok_or]. rewrite Hp0.
    assert (starts_with "[" (String "[" (x ++ "]")) = true) as -> by done.
    by rewrite andb_false_r.
  - assert (strip_prefix "[" (h ++ ":" ++ show_Z p) = None) as ->.
    { destruct h as [|c h]; [done|]. cbn [strip_prefix String.append] in *. by destruct (Ascii.eqb "[" c). }
    change (":" ++ show_Z p) with (String ":" (show_Z p)).
    rewrite rsplit_once_app by (apply digits_no_colon, show_Z_digits; lia).
    rewrite (proj2 (is_empty_false h) Hne). cbn [negb andb].
    unfold starts_with. rewrite Hb. cbn [negb]. rewrite andb_true_r.
    destruct (contains ":" h); cbn [negb]; [done|]. rewrite Hse, Hpp. cbn [ok_or]. by rewrite Hp0.
Qed.

Lemma complete_listen_parses raw :
  exists h p, parse_host_port (complete_listen raw) default_listen_port = Ok (h, p) /\ (0 < p <= u16_max)%Z.
Proof.
  assert (0 < default_listen_port <= u16_max)%Z as Hdp by (unfold default_listen_port, u16_max; lia).
  unfold complete_listen. destruct (parse_host_port raw default_listen_port) as [[h p]|e] eqn:E.
  - apply parse_host_port_inv in E as [Hh Hp]; [|done]. rewrite parse_host_port_complete by done.
    destruct (_ && _)%bool; eauto.
  - exists "0.0.0.0", 9527%Z. split; [by vm_compute|done].
Qed.

(** ** Properties *)

(** The listeners of a configuration, as the server binds them. *)
Definition tcp_listeners (c : ServerConfig) : list (string * Z) :=
  match parse_host_port (sc_listen c) default_listen_port with
  | Ok hp => [hp]
  | Err _ => []
  end
  ++ (if http_gw_enabled c then [(sc_proxy_addr c, sc_http_gw_port c)] else [])
  ++ (if https_gw_enabled c then [(sc_proxy_addr c, sc_https_gw_port c)] else []).

Definition listeners_clash (a b : string * Z) : Prop :=
  a.2 = b.2 /\ listen_addrs_overlap a.1 b.1 = true.

(** What validation of a completed configuration leaves of its listeners. *)
Lemma validated_listeners c h p :
  parse_host_port (sc_listen c) default_listen_port = Ok (h, p) -> server_validate c = Ok tt ->
  (forall gp, gp <> 0%Z -> gp = sc_http_gw_port c \/ gp = sc_https_gw_port c -> p = gp ->
     listen_addrs_overlap h (sc_proxy_addr c) = false)
  /\ (sc_http_gw_port c <> 0%Z -> sc_http_gw_port c <> sc_https_gw_port c)
  /\ (quic_enabled c = true -> sc_quic_port c <> sc_kcp_port c)
  /\ is_valid_level (lc_level (sc_log c)) = true /\ dashboard_validate (sc_dashboard c) = Ok tt.
Proof.
  intros Hp. unfold server_validate, quic_enabled, kcp_enabled, http_gw_enabled, https_gw_enabled.
  destruct (log_validate (sc_log c)) as [[]|] eqn:El; [|done]. rewrite Hp. cbn [with_context].
  destruct (negb (sc_quic_port c =? 0)%Z && _ && _) eqn:Eq; [done|].
  destruct (negb (sc_http_gw_port c =? 0)%Z && tcp_listen_conflicts _ _ _ _) eqn:Eh; [done|].
  destruct (negb (sc_https_gw_port c =? 0)%Z && tcp_listen_conflicts _ _ _ _) eqn:Ehs; [done|].
  destruct (negb (sc_http_gw_port c =? 0)%Z && _ && _) eqn:Ehh; [done|]. intros Hd.
  split; [|split; [|split; [|split; [|done]]]].
  - intros gp Hgp Hor ->. apply Z.eqb_neq in Hgp.
    destruct Hor as [-> | ->]; rewrite Hgp in *; unfold tcp_listen_conflicts in *;
      rewrite Hgp, Z.eqb_refl in *; done.
  - intros Hgp E. apply Z.eqb_neq in Hgp. rewrite E, Z.eqb_refl, <- E, Hgp in Ehh. done.
  - intros Hq E. rewrite E, Z.eqb_refl, <- E, Hq in Eq. done.
  - unfold log_validate in El. by destruct (is_valid_level (lc_level (sc_log c))).
Qed.

Lemma listeners_disjoint c h p :
  parse_host_port (sc_listen c) default_listen_port = Ok (h, p) -> server_validate c = Ok tt ->
  forall i j a b, i < j -> tcp_listeners c !! i = Some a -> tcp_listeners c !! j = Some b -> ~ listeners_clash a b.
Proof.
  intros Hp Hv. destruct (validated_listeners _ _ _ Hp Hv) as (Hconf & Hhh & _).
  unfold tcp_listeners. rewrite Hp. unfold http_gw_enabled, https_gw_enabled, listeners_clash.
  intros i j a b Hij Ha Hb.
  destruct (Z.eqb_spec (sc_http_gw_port c) 0) as [E1|E1], (Z.eqb_spec (sc_https_gw_port c) 0) as [E2|E2];
    cbn [negb andb app] in *;
    (destruct i as [|[|[|]]]; [..|done]); (destruct j as [|[|[|]]]; [..|done]); simpl in Ha, Hb; simplify_eq; try lia;
    intros [Hport Hov]; simpl in *; subst;
    first [by rewrite (Hconf _ E2 (or_intror eq_refl) eq_refl) in Hov
          |by rewrite (Hconf _ E1 (or_introl eq_refl) eq_refl) in Hov
          |by apply Hhh].
Qed.

Lemma completed_proxy_addr c : trim (sc_proxy_addr (server_complete c)) <> "".
Proof.
  cbn [server_complete sc_proxy_addr]. destruct (is_empty (trim (sc_proxy_addr c))) eqn:Ep; [|by apply is_empty_false].
  destruct (complete_listen_parses (sc_listen c)) as (h & p & Hparse & _). rewrite Hparse.
  apply parse_host_port_inv in Hparse as [Hh _]; [|unfold default_listen_port, u16_max; lia].
  apply trim_nonempty; destruct Hh as [(x & -> & _)|(_ & Hne & Hw)]; try done; [apply ws_len_bracket|].
  by rewrite ws_len_colon in Hw.
Qed.

(** Whatever file the server loads, the configuration it starts with is
    complete (a port to listen on, a known log level, non-zero limits, TLS
    forced when a client CA is set, dashboard credentials when it is enabled)
    and no two of its TCP listeners claim the same port on overlapping
    addresses. *)
Theorem server_load_safe (read_file : string -> option string)
    (toml_from_str : string -> option ServerConfig) (env : string -> EnvVar)
    (canonicalize : string -> option string) (parent : string -> string) (path : string) (c : ServerConfig) :
  server_load read_file toml_from_str env canonicalize parent path = Some (Ok c) ->
  (exists h p, parse_host_port (sc_listen c) default_listen_port = Ok (h, p) /\ (0 < p <= u16_max)%Z)
  /\ (forall i j a b, i < j -> tcp_listeners c !! i = Some a -> tcp_listeners c !! j = Some b -> ~ listeners_clash a b)
  /\ (quic_enabled c = true -> sc_quic_port c <> sc_kcp_port c)
  /\ is_valid_level (lc_level (sc_log c)) = true
  /\ trim (sc_proxy_addr c) <> "" /\ sc_udp_packet_size c <> 0%Z
  /\ str_heartbeat_timeout (sc_transport c) <> 0%Z /\ str_max_conn_pool (sc_transport c) <> 0%Z
  /\ (trim (st_trusted_ca_file (str_tls (sc_transport c))) <> "" -> st_force (str_tls (sc_transport c)) = true)
  /\ ((0 < db_port (sc_dashboard c))%Z -> trim (db_user (sc_dashboard c)) <> "" /\ trim (db_password (sc_dashboard c)) <> "").
Proof.
  unfold server_load. destruct (read_toml_file read_file path) as [file|]; [|done].
  destruct (expand_env_placeholders env file) as [[expanded|]|]; [|done|done].
  destruct (toml_from_str expanded) as [cfg|]; [|done]. cbn [ok_or].
  set (c0 := server_resolve_paths canonicalize (parent path) cfg). clearbody c0.
  destruct (server_validate (server_complete c0)) as [[]|] eqn:Ev; [|done]. intros [= <-].
  destruct (complete_listen_parses (sc_listen c0)) as (h & p & Hparse & Hp).
  change (complete_listen (sc_listen c0)) with (sc_listen (server_complete c0)) in Hparse.
  destruct (validated_listeners _ _ _ Hparse Ev) as (_ & _ & Hq & Hl & Hd).
  split; [eauto|]. split; [by eapply listeners_disjoint|]. split; [done|]. split; [done|].
  split; [apply completed_proxy_addr|]. split; [|split; [|split; [|split]]].
  - simpl. by destruct (Z.eqb_spec (sc_udp_packet_size c0) 0).
  - simpl. destruct (Z.eqb_spec (str_heartbeat_timeout (sc_transport c0)) 0); [|done].
    by destruct (str_tcp_mux (sc_transport c0)).
  - simpl. by destruct (Z.eqb_spec (str_max_conn_pool (sc_transport c0)) 0).
  - cbn [server_complete sc_transport complete_transport str_tls]. unfold complete_tls.
    destruct (is_empty (trim (st_trusted_ca_file (str_tls (sc_transport c0))))) eqn:Et; [|done].
    by apply is_empty_true in Et.
  - intros Hport. unfold dashboard_validate, dashboard_enabled in Hd. apply Z.ltb_lt in Hport.
    rewrite Hport in Hd. cbn [negb] in Hd.
    destruct (is_empty (trim (db_user _))) eqn:E1 in Hd; [done|].
    destruct (is_empty (trim (db_password _))) eqn:E2 in Hd; [done|].
    split; by apply is_empty_false.
Qed.

(** An address that cannot be parsed is not reported: completing the
    configuration replaces it by the default [0.0.0.0:9527], so validation,
    which runs afterwards, never sees an invalid listen address. *)
Theorem invalid_listen_replaced (c : ServerConfig) :
  (is_err (parse_host_port (sc_listen c) default_listen_port) = true ->
     sc_listen (server_complete c) = "0.0.0.0:9527")
  /\ is_ok (parse_host_port (sc_listen (server_complete c)) default_listen_port) = true.
Proof.
  cbn [server_complete sc_listen]. split.
  - unfold complete_listen. destruct (parse_host_port _ _) as [[h p]|e]; [done|]. intros _. by vm_compute.
  - destruct (complete_listen_parses (sc_listen c)) as (h & p & -> & _). done.
Qed.

(** Completion keeps the address it was given: the completed text denotes
    the same host and port and completing it again changes nothing, for every
    listen address whose host is bracketed or free of colons. *)
Theorem complete_listen_stable (raw h : string) (p : Z) :
  parse_host_port raw default_listen_port = Ok (h, p) ->
  contains ":" h = false \/ starts_with "[" h = true ->
  parse_host_port (complete_listen raw) default_listen_port = Ok (h, p)
  /\ complete_listen (complete_listen raw) = complete_listen raw.
Proof.
  intros Hp Hcol. assert (0 < default_listen_port <= u16_max)%Z as Hdp
    by (unfold default_listen_port, u16_max; lia).
  pose proof (parse_host_port_inv _ _ _ _ Hdp Hp) as [Hh Hr].
  assert (complete_listen raw = h ++ ":" ++ show_Z p) as -> by (unfold complete_listen; by rewrite Hp).
  assert (parse_host_port (h ++ ":" ++ show_Z p) default_listen_port = Ok (h, p)) as Hc.
  { rewrite parse_host_port_complete by done. destruct Hcol as [-> | ->]; [done|].
    by rewrite andb_false_r. }
  split; [done|]. unfold complete_listen. by rewrite Hc.
Qed.

(** A listen address with a colon too many, as in [:8080] or a bare IPv6
    address, is taken for a host name as a whole: the default port is appended,
    and appended again each time the configuration is completed. *)
Theorem listen_extra_colon (s h ps : string) :
  trim s = s -> strip_prefix "[" s = None -> rsplit_once ":" s = Some (h, ps) ->
  h = "" \/ contains ":" h = true ->
  complete_listen s = s ++ ":9527" /\ complete_listen (s ++ ":9527") = (s ++ ":9527") ++ ":9527".
Proof.
  intros Ht Hb Hr Hh.
  assert (forall s h ps, trim s = s -> strip_prefix "[" s = None -> rsplit_once ":" s = Some (h, ps) ->
    h = "" \/ contains ":" h = true -> parse_host_port s default_listen_port = Ok (s, default_listen_port)) as Hparse.
  { clear. intros s h ps Ht Hb Hr Hh. unfold parse_host_port. rewrite Ht, Hb, Hr.
    destruct s as [|c s]; [done|]. cbn [is_empty].
    destruct (is_empty h) eqn:Eh; [done|]. apply is_empty_false in Eh. destruct Hh as [|Hc]; [done|].
    by rewrite Hc. }
  pose proof (Hparse s h ps Ht Hb Hr Hh) as Hp.
  assert (s <> "") as Hne by (intros ->; done).
  assert (trim (s ++ ":9527") = s ++ ":9527") as Ht2.
  { replace (s ++ ":9527") with ((s ++ ":") ++ "9527") by (by rewrite app_assoc).
    apply trim_app_digits; [|done|done]. rewrite app_assoc. cbn [String.append].
    rewrite ws_len_colon by done. rewrite <- Ht. apply trim_ws. }
  assert (rsplit_once ":" (s ++ ":9527") = Some (s, "9527")) as Hr2 by (by apply (rsplit_once_app ":" s "9527")).
  assert (contains ":" s = true) as Hcs.
  { destruct (contains ":" s) eqn:E; [done|]. apply contains_char, rsplit_once_none in E. congruence. }
  assert (strip_prefix "[" (s ++ ":9527") = None) as Hb2.
  { destruct s as [|c s]; [done|]. cbn [strip_prefix String.append] in *. by destruct (Ascii.eqb "[" c). }
  pose proof (Hparse _ _ _ Ht2 Hb2 Hr2 (or_intror Hcs)) as Hp2.
  unfold complete_listen. rewrite Hp, Hp2. split; by vm_compute (show_Z default_listen_port).
Qed.

(** *** Witnesses *)
Definition test_server_config : ServerConfig :=
  MkServerConfig "0.0.0.0:7000" 0 0 80 443 "example.org" (MkAuthConfig "" "secret") "" transport_default
    (MkDashboardConfig "" 9500 "admin" "pw") 0 log_default.

Lemma server_load_safe_witness :
  exists c, server_load (fun _ => Some "x") (fun _ => Some test_server_config) (fun _ => NotPresent)
      (fun _ => None) (fun _ => "/etc") "orbien.toml" = Some (Ok c)
    /\ trim (sc_proxy_addr c) <> "".
Proof.
  destruct (server_load (fun _ => Some "x") (fun _ => Some test_server_config) (fun _ => NotPresent)
      (fun _ => None) (fun _ => "/etc") "orbien.toml") as [[c|e]|] eqn:E; [|exfalso; revert E; vm_compute; discriminate..].
  exists c. split; [done|].
  apply (server_load_safe (fun _ => Some "x") (fun _ => Some test_server_config) (fun _ => NotPresent)
           (fun _ => None) (fun _ => "/etc") "orbien.toml" c E).
Defined.

Lemma complete_listen_stable_witness :
  parse_host_port (complete_listen " [::]:0 ") default_listen_port = Ok ("[::]", 9527%Z)
  /\ complete_listen (complete_listen " [::]:0 ") = complete_listen " [::]:0 ".
Proof.
  apply (complete_listen_stable " [::]:0 " "[::]" 9527%Z); [vm_compute; reflexivity|].
  right. vm_compute. reflexivity.
Defined.

Lemma listen_extra_colon_witness :
  complete_listen ":8080" = ":8080:9527" /\ complete_listen ":8080:9527" = ":8080:9527:9527".
Proof.
  apply (listen_extra_colon ":8080" "" "8080"); [vm_compute; reflexivity..|by left].
Defined.
