(* ===== verification/TunnelManager.v ===== *)
(** * The tunnels of one control session

    [server/src/tunnel/manager.rs]: [RegisteredTunnel], [TunnelManager] and the
    summaries shown on the dashboard; [TcpTunnel] and [UdpTunnel] as far as the
    manager sees them (name, port).  Closing an HTTP or HTTPS tunnel removes its
    routes from the shared gateway, which is why closing takes and returns the
    shared tables. *)

From S2P Require Import Prelude RustStr Registry Metrics Msg Limit Gateway.

Local Open Scope string_scope.

(** ** The state shared by all sessions *)

Record Tables := MkTables {
  tb_registry : TunnelRegistry;
  tb_tcp_ports : PortTable;
  tb_udp_ports : PortTable;
  tb_http_gw : option HttpGw;
  tb_https_gw : option HttpsGw;
  tb_metrics : MemMetrics }.

Definition set_registry (T : Tables) (r : TunnelRegistry) : Tables :=
  MkTables r (tb_tcp_ports T) (tb_udp_ports T) (tb_http_gw T) (tb_https_gw T) (tb_metrics T).
Definition set_tcp_ports (T : Tables) (p : PortTable) : Tables :=
  MkTables (tb_registry T) p (tb_udp_ports T) (tb_http_gw T) (tb_https_gw T) (tb_metrics T).
Definition set_udp_ports (T : Tables) (p : PortTable) : Tables :=
  MkTables (tb_registry T) (tb_tcp_ports T) p (tb_http_gw T) (tb_https_gw T) (tb_metrics T).
Definition set_http_gw (T : Tables) (g : HttpGw) : Tables :=
  MkTables (tb_registry T) (tb_tcp_ports T) (tb_udp_ports T) (Some g) (tb_https_gw T) (tb_metrics T).
Definition set_https_gw (T : Tables) (g : HttpsGw) : Tables :=
  MkTables (tb_registry T) (tb_tcp_ports T) (tb_udp_ports T) (tb_http_gw T) (Some g) (tb_metrics T).
Definition set_metrics (T : Tables) (m : MemMetrics) : Tables :=
  MkTables (tb_registry T) (tb_tcp_ports T) (tb_udp_ports T) (tb_http_gw T) (tb_https_gw T) m.

(** ** Tunnels *)

Inductive RegisteredTunnel :=
| RTcp (name : string) (remote_port : Z)
| RHttp (t : HttpTunnel)
| RHttps (t : HttpsTunnel)
| RUdp (name : string) (remote_port : Z).

Definition tunnel_type (t : RegisteredTunnel) : string :=
  match t with RTcp _ _ => "tcp" | RHttp _ => "http" | RHttps _ => "https" | RUdp _ _ => "udp" end.
Definition remote_port (t : RegisteredTunnel) : option Z :=
  match t with RTcp _ p | RUdp _ p => Some p | RHttp _ | RHttps _ => None end.

(** [close]: a TCP or UDP tunnel stops its own socket task only. *)
Definition tunnel_close (T : Tables) (t : RegisteredTunnel) : Tables :=
  match t with
  | RTcp _ _ | RUdp _ _ => T
  | RHttp h =>
      match tb_http_gw T with
      | Some gw => set_http_gw T (http_tunnel_close gw h).1
      | None => T
      end
  | RHttps h =>
      match tb_https_gw T with
      | Some gw => set_https_gw T (https_tunnel_close gw h).1
      | None => T
      end
  end.

Record DetachedTunnel := MkDetached { dt_tunnel_type : string; dt_remote_port : option Z }.
Record TunnelEntry := MkTunnelEntry { te_tunnel : RegisteredTunnel; te_local_addr : string }.
Abbreviation TunnelManager := (gmap string TunnelEntry).

Definition detached_of (t : RegisteredTunnel) : DetachedTunnel :=
  MkDetached (tunnel_type t) (remote_port t).

(** [None] when the name is taken: the caller gets its tunnel back. *)
Definition tm_insert (tm : TunnelManager) (name : string) (t : RegisteredTunnel) (local_addr : string)
    : option TunnelManager :=
  match tm !! name with
  | None => Some (<[name := MkTunnelEntry t local_addr]> tm)
  | Some _ => None
  end.

Definition tm_remove (T : Tables) (tm : TunnelManager) (name : string)
    : option DetachedTunnel * Tables * TunnelManager :=
  match tm !! name with
  | Some entry =>
      (Some (detached_of (te_tunnel entry)), tunnel_close T (te_tunnel entry), delete name tm)
  | None => (None, T, tm)
  end.

Section Drain.
(** The order in which [HashMap::drain] yields the entries. *)
Context (drain : TunnelManager -> list (string * TunnelEntry)).

Definition tm_close_all (T : Tables) (tm : TunnelManager)
    : list (string * DetachedTunnel) * Tables * TunnelManager :=
  (map (fun '(n, e) => (n, detached_of (te_tunnel e))) (drain tm),
   fold_left (fun T '(_, e) => tunnel_close T (te_tunnel e)) (drain tm) T, ∅).

(** The entries are dropped, and a dropped tunnel closes itself. *)
Definition tm_abandon_all (T : Tables) (tm : TunnelManager)
    : list (string * DetachedTunnel) * Tables * TunnelManager := tm_close_all T tm.
End Drain.

(** ** Summaries *)

Record TunnelSummary := MkTunnelSummary {
  tsm_name : string; tsm_tunnel_type : string; tsm_remote_addr : string;
  tsm_local_addr : string; tsm_status : string }.

Definition summary_of (name : string) (e : TunnelEntry) : TunnelSummary :=
  let '(ty, addr) :=
    match te_tunnel e with
    | RTcp _ p => ("tcp", ":" ++ show_Z p)
    | RHttp h => ("http", join "," (ht_domains h))
    | RHttps h => ("https", join "," (hst_domains h))
    | RUdp _ p => ("udp", ":" ++ show_Z p)
    end in
  MkTunnelSummary name ty addr (te_local_addr e) "online".
Definition tm_summaries (iter : TunnelManager -> list (string * TunnelEntry)) (tm : TunnelManager)
    : list TunnelSummary := map (fun '(n, e) => summary_of n e) (iter tm).
Definition tm_len (tm : TunnelManager) : Z := Z.of_nat (size tm).

Definition format_local_addr (ip : string) (port : Z) : string :=
  let ip := trim ip in
  if is_empty ip && (port <=? 0)%Z then ""
  else if is_empty ip then ":" ++ show_Z port
  else if (port <=? 0)%Z then ip
  else if contains ":" ip && negb (starts_with "[" ip) then "[" ++ ip ++ "]:" ++ show_Z port
  else ip ++ ":" ++ show_Z port.
