(* ===== verification/ServerControl.v ===== *)
(** * One control session of the server

    [server/src/control/session/mod.rs] and [register.rs]: the session's record,
    registering and closing tunnels, heartbeat, shutdown and kick.  A handler is
    a function from the shared tables and the session to the same, with what it
    answers; the operating system's answer to a bind and the transport's answer
    to a write are arguments. *)

From S2P Require Import Prelude RustStr Registry Metrics Msg Limit Gateway Config ServerConfig TunnelManager.

Local Open Scope string_scope.

Record Control := MkControl {
  c_session_id : string; c_generation : Z; c_user : string; c_agent_id : string;
  c_hostname : string; c_os : string; c_arch : string; c_version : string; c_client_ip : string;
  c_connected_at : Z; c_cfg : ServerConfig;
  c_tunnels : TunnelManager;
  c_data : list Z;
  c_closed : bool; c_cleaning : bool; c_finished : bool; c_activated : bool;
  c_pool_count : Z; c_last_ping_unix : Z;
  c_outbox : list Message }.

(** [Control::new]; [unix_now] is the clock, 0 before the epoch. *)
Definition control_new (session_id : string) (generation : Z) (cfg : ServerConfig) (pool_count : Z)
    (user agent_id hostname os arch version client_ip : string) (now unix_now : Z) : Control :=
  MkControl session_id generation user agent_id hostname os arch version client_ip now cfg
    ∅ [] false false false false (Z.max pool_count 1) (Z.max 0 unix_now) [].

Definition set_tunnels (c : Control) (tm : TunnelManager) : Control :=
  MkControl (c_session_id c) (c_generation c) (c_user c) (c_agent_id c) (c_hostname c) (c_os c)
    (c_arch c) (c_version c) (c_client_ip c) (c_connected_at c) (c_cfg c) tm (c_data c) (c_closed c)
    (c_cleaning c) (c_finished c) (c_activated c) (c_pool_count c) (c_last_ping_unix c) (c_outbox c).
Definition set_flags (c : Control) (closed cleaning finished activated : bool) : Control :=
  MkControl (c_session_id c) (c_generation c) (c_user c) (c_agent_id c) (c_hostname c) (c_os c)
    (c_arch c) (c_version c) (c_client_ip c) (c_connected_at c) (c_cfg c) (c_tunnels c) (c_data c) closed
    cleaning finished activated (c_pool_count c) (c_last_ping_unix c) (c_outbox c).
Definition set_io (c : Control) (data : list Z) (last_ping : Z) (outbox : list Message) : Control :=
  MkControl (c_session_id c) (c_generation c) (c_user c) (c_agent_id c) (c_hostname c) (c_os c)
    (c_arch c) (c_version c) (c_client_ip c) (c_connected_at c) (c_cfg c) (c_tunnels c) data (c_closed c)
    (c_cleaning c) (c_finished c) (c_activated c) (c_pool_count c) last_ping outbox.

Definition owner (c : Control) : TunnelOwner := MkOwner (c_session_id c) (c_generation c).
Definition is_closed (c : Control) : bool := c_closed c.
Definition is_accepting_data (c : Control) : bool := c_activated c && negb (is_closed c).
Definition tunnel_count (c : Control) : Z := tm_len (c_tunnels c).

(** [write_msg] on the control's writer: [Err] when the transport fails. *)
Definition send (c : Control) (write_ok : bool) (m : Message) : Result Control string :=
  if write_ok then Ok (set_io c (c_data c) (c_last_ping_unix c) (c_outbox c ++ [m]))
  else Err "io".

Definition mark_finished (c : Control) : Control :=
  set_flags c (c_closed c) (c_cleaning c) true (c_activated c).
Definition signal_close (c : Control) : Control :=
  set_flags c true (c_cleaning c) (c_finished c) (c_activated c).

Definition send_login_ok (c : Control) (version : string) (write_ok : bool) : Result Control string :=
  let? c := send c write_ok (MLoginResp (MkLoginResp version (c_session_id c) "")) in
  Ok (set_flags c (c_closed c) (c_cleaning c) (c_finished c) true).
Definition send_login_err (c : Control) (version error : string) (write_ok : bool) : Result Control string :=
  send c write_ok (MLoginResp (MkLoginResp version "" error)).

(** ** Releasing a tunnel *)

Definition release_global_slot (T : Tables) (o : TunnelOwner) (name : string) (d : DetachedTunnel) : Tables :=
  let T :=
    match dt_remote_port d with
    | Some port =>
        if String.eqb (dt_tunnel_type d) "tcp" then set_tcp_ports T (port_release (tb_tcp_ports T) port name)
        else if String.eqb (dt_tunnel_type d) "udp" then set_udp_ports T (port_release (tb_udp_ports T) port name)
        else T
    | None => T
    end in
  set_registry T (remove_if_owner (tb_registry T) name o).

Definition detach_tunnel (T : Tables) (c : Control) (name : string) : option string * Tables * Control :=
  match tm_remove T (c_tunnels c) name with
  | (Some d, T, tm) => (Some (dt_tunnel_type d), release_global_slot T (owner c) name d, set_tunnels c tm)
  | (None, T, tm) => (None, T, set_tunnels c tm)
  end.

Definition handle_close_tunnel (T : Tables) (c : Control) (cp : CloseTunnel) (t : Now) : Tables * Control :=
  match detach_tunnel T c (ct_tunnel_name cp) with
  | (Some ty, T, c) => (set_metrics T (close_tunnel (tb_metrics T) (ct_tunnel_name cp) ty t), c)
  | (None, T, c) => (T, c)
  end.

(** ** Registering a tunnel *)

Definition tunnel_transport (np : NewTunnel) : Anyhow (option BandwidthLimiter) :=
  limiter_if_side (nt_bandwidth np) (nt_bandwidth_limit_side np) SideServer.

Definition prepare_name_slot (T : Tables) (c : Control) (name : string) (t : Now) : Tables * Control :=
  match detach_tunnel T c name with
  | (Some old_ty, T, c) => (set_metrics T (close_tunnel (tb_metrics T) name old_ty t), c)
  | (None, T, c) => (T, c)
  end.

Definition claim_name (T : Tables) (c : Control) (name : string) (t : Now) : Tables * Control * Anyhow TunnelOwner :=
  let o := owner c in
  let '(T, c) := prepare_name_slot T c name t in
  match try_insert (tb_registry T) name o with
  | Ok r => (set_registry T r, c, Ok o)
  | Err e => (T, c, Err e)
  end.
Definition release_name (T : Tables) (name : string) (o : TunnelOwner) : Tables :=
  set_registry T (remove_if_owner (tb_registry T) name o).

(** Which of the two port tables a registration works on. *)
Inductive PortKind := PTcp | PUdp.
Definition ports_of (T : Tables) (k : PortKind) : PortTable :=
  match k with PTcp => tb_tcp_ports T | PUdp => tb_udp_ports T end.
Definition set_ports (T : Tables) (k : PortKind) (p : PortTable) : Tables :=
  match k with PTcp => set_tcp_ports T p | PUdp => set_udp_ports T p end.

Definition claim_port (T : Tables) (k : PortKind) (port : Z) (name : string) (o : TunnelOwner)
    : Tables * Anyhow unit :=
  match port_claim (ports_of T k) port name with
  | Err e => (release_name T name o, Err e)
  | Ok p => (set_ports T k p, Ok tt)
  end.

Definition note_tunnel_registered (T : Tables) (c : Control) (name ty : string) (t : Now) : Tables :=
  set_metrics T (new_tunnel (tb_metrics T) name ty (c_user c) (c_session_id c) t).

Definition insert_tunnel (T : Tables) (c : Control) (name : string) (tunnel : RegisteredTunnel)
    (local_addr remote_addr : string) (o : TunnelOwner) (ports : option (PortKind * Z)) (t : Now)
    : Tables * Control * Anyhow string :=
  match tm_insert (c_tunnels c) name tunnel local_addr with
  | None =>
      let T := tunnel_close T tunnel in
      let T := match ports with
               | Some (k, port) => set_ports T k (port_release (ports_of T k) port name)
               | None => T
               end in
      (release_name T name o, c, Err ("tunnel `" ++ name ++ "` already present in this session"))
  | Some tm =>
      (note_tunnel_registered T c name (tunnel_type tunnel) t, set_tunnels c tm, Ok remote_addr)
  end.

(** [register_tcp_tunnel] and [register_udp_tunnel] differ in the table, the
    socket and the tunnel built; [bind] is the system's answer. *)
Definition register_port_tunnel (k : PortKind) (T : Tables) (c : Control) (np : NewTunnel)
    (bind : Anyhow unit) (t : Now) : Tables * Control * Anyhow string :=
  if (nt_remote_port np <=? 0)%Z || (65535 <? nt_remote_port np)%Z then (T, c, Err "invalid remote_port") else
  match tunnel_transport np with
  | Err e => (T, c, Err e)
  | Ok _ =>
      let port := wrap_u 16 (nt_remote_port np) in
      let name := nt_tunnel_name np in
      match claim_name T c name t with
      | (T, c, Err e) => (T, c, Err e)
      | (T, c, Ok o) =>
          match claim_port T k port name o with
          | (T, Err e) => (T, c, Err e)
          | (T, Ok _) =>
              match bind with
              | Err e =>
                  let T := set_ports T k (port_release (ports_of T k) port name) in
                  (release_name T name o, c, Err e)
              | Ok _ =>
                  let tunnel := match k with PTcp => RTcp name port | PUdp => RUdp name port end in
                  insert_tunnel T c name tunnel
                    (format_local_addr (nt_local_ip np) (nt_local_port np))
                    (":" ++ show_Z port) o (Some (k, port)) t
              end
          end
      end
  end.
Definition register_tcp_tunnel := register_port_tunnel PTcp.
Definition register_udp_tunnel := register_port_tunnel PUdp.

Definition domain_addrs (domains : list string) (listen_port : Z) : string :=
  join "," (map (fun d => d ++ ":" ++ show_Z listen_port) domains).

Definition register_http_tunnel (T : Tables) (c : Control) (np : NewTunnel) (t : Now)
    : Tables * Control * Anyhow string :=
  match tb_http_gw T with
  | None => (T, c, Err "http tunnel requires server httpGwPort > 0")
  | Some gw0 =>
      match tunnel_transport np with
      | Err e => (T, c, Err e)
      | Ok limiter =>
          let name := nt_tunnel_name np in
          match claim_name T c name t with
          | (T, c, Err e) => (T, c, Err e)
          | (T, c, Ok o) =>
              let gw := default gw0 (tb_http_gw T) in
              match http_tunnel_register gw np (owner c) (sc_root_domain (c_cfg c)) limiter with
              | (gw, Err e) => (release_name (set_http_gw T gw) name o, c, Err e)
              | (gw, Ok tunnel) =>
                  insert_tunnel (set_http_gw T gw) c name (RHttp tunnel)
                    (format_local_addr (nt_local_ip np) (nt_local_port np))
                    (domain_addrs (ht_domains tunnel) (hg_listen_port gw)) o None t
              end
          end
      end
  end.

Definition register_https_tunnel (T : Tables) (c : Control) (np : NewTunnel) (t : Now)
    : Tables * Control * Anyhow string :=
  match tb_https_gw T with
  | None => (T, c, Err "https tunnel requires server httpsGwPort > 0")
  | Some gw0 =>
      match tunnel_transport np with
      | Err e => (T, c, Err e)
      | Ok limiter =>
          let name := nt_tunnel_name np in
          match claim_name T c name t with
          | (T, c, Err e) => (T, c, Err e)
          | (T, c, Ok o) =>
              let gw := default gw0 (tb_https_gw T) in
              match https_tunnel_register gw np (owner c) (sc_root_domain (c_cfg c)) limiter with
              | (gw, Err e) => (release_name (set_https_gw T gw) name o, c, Err e)
              | (gw, Ok tunnel) =>
                  insert_tunnel (set_https_gw T gw) c name (RHttps tunnel)
                    (format_local_addr (nt_local_ip np) (nt_local_port np))
                    (domain_addrs (hst_domains tunnel) (hsg_listen_port gw)) o None t
              end
          end
      end
  end.

Definition register_tunnel (T : Tables) (c : Control) (np : NewTunnel) (bind : Anyhow unit) (t : Now)
    : Tables * Control * Anyhow string :=
  if is_closed c then (T, c, Err "control session is closed")
  else if String.eqb (nt_protocol np) "tcp" then register_tcp_tunnel T c np bind t
  else if String.eqb (nt_protocol np) "http" then register_http_tunnel T c np t
  else if String.eqb (nt_protocol np) "https" then register_https_tunnel T c np t
  else if String.eqb (nt_protocol np) "udp" then register_udp_tunnel T c np bind t
  else (T, c, Err ("unsupported tunnel protocol: " ++ nt_protocol np)).

(** [handle_new_tunnel]: the result is always answered; the handler fails only
    when the answer cannot be written. *)
Definition handle_new_tunnel (T : Tables) (c : Control) (np : NewTunnel) (bind : Anyhow unit)
    (write_ok : bool) (t : Now) : Tables * Control * Anyhow unit :=
  let '(T, c, r) := register_tunnel T c np bind t in
  let resp := match r with
              | Ok remote_addr => MkNewTunnelResp (nt_tunnel_name np) remote_addr ""
              | Err e => MkNewTunnelResp (nt_tunnel_name np) "" e
              end in
  match send c write_ok (MNewTunnelResp resp) with
  | Ok c => (T, c, Ok tt)
  | Err e => (T, c, Err e)
  end.

(** ** Heartbeat *)

Definition effective_ping_timeout (c : Control) : Z :=
  let t := sc_transport (c_cfg c) in
  if (0 <? str_heartbeat_timeout t)%Z then str_heartbeat_timeout t
  else if str_tcp_mux t && (0 <? str_mux_keepalive_secs t)%Z
  then sat_i64 (str_mux_keepalive_secs t * 3)
  else -1.

Definition handle_ping (c : Control) (unix_now : Z) (write_ok : bool) : Control * Anyhow unit :=
  let c := set_io c (c_data c) (Z.max 0 unix_now) (c_outbox c) in
  match send c write_ok (MPong Pong_default) with
  | Ok c => (c, Ok tt)
  | Err e => (c, Err e)
  end.

(** One round of the watchdog task, once a second: the control afterwards and
    whether the task ends. *)
Definition watchdog_tick (c : Control) (timeout unix_now : Z) : Control * bool :=
  let last := c_last_ping_unix c in
  if (0 <? last)%Z && (timeout <? sat_i64 (Z.max 0 unix_now - last))%Z
  then (signal_close c, true) else (c, false).

(** ** The read loop's dispatch *)

Definition dispatch (T : Tables) (c : Control) (m : Message) (bind : Anyhow unit) (write_ok : bool) (t : Now)
    : Tables * Control * Anyhow unit :=
  match m with
  | MNewTunnel np => handle_new_tunnel T c np bind write_ok t
  | MCloseTunnel cp => let '(T, c) := handle_close_tunnel T c cp t in (T, c, Ok tt)
  | MPing _ => let '(c, r) := handle_ping c (now_unix t) write_ok in (T, c, r)
  | _ => (T, c, Ok tt)
  end.

(** ** Shutdown *)

Section Shutdown.
Context (drain : TunnelManager -> list (string * TunnelEntry)).

Definition release_all (T : Tables) (o : TunnelOwner) (l : list (string * DetachedTunnel)) (t : Now) : Tables :=
  fold_left (fun T '(name, d) =>
    let T := release_global_slot T o name d in
    set_metrics T (close_tunnel (tb_metrics T) name (dt_tunnel_type d) t)) l T.

Definition shutdown (T : Tables) (c : Control) (t : Now) : Tables * Control :=
  let c := signal_close c in
  if c_cleaning c then (T, c) else
  let c := set_flags c (c_closed c) true (c_finished c) (c_activated c) in
  let '(closed, T, tm) := tm_close_all drain T (c_tunnels c) in
  let c := set_tunnels c tm in
  (release_all T (owner c) closed t, mark_finished c).

Definition kick (T : Tables) (c : Control) (reason : string) (write_ok : bool) (t : Now) : Tables * Control :=
  let c := signal_close c in
  let c := match send c write_ok (MKickOut (MkKickOut reason)) with Ok c => c | Err _ => c end in
  shutdown T c t.

(** [drop]: [lock_ok] is the answer of [try_lock]. *)
Definition control_drop (T : Tables) (c : Control) (lock_ok : bool) : Tables * Control :=
  if c_finished c then (T, c) else
  let '(T, c) :=
    if lock_ok then
      let '(l, T, tm) := tm_abandon_all drain T (c_tunnels c) in
      (fold_left (fun T '(name, d) => release_global_slot T (owner c) name d) l T, set_tunnels c tm)
    else (T, c) in
  (T, mark_finished c).
End Shutdown.
