(* ===== verification/ServerSpec.v ===== *)
(** * What the server's shared tables promise

    The abstract server is a map of live tunnels: name to owner and tunnel.
    [tables_agree] ties it to the shared tables: the name registry is its
    projection, a port is in a port table exactly when a live tunnel has it, a
    route is in a gateway exactly when a live tunnel has its domain.  Releasing
    a tunnel and the claims of a registration are the moves of that map. *)

From S2P Require Import Prelude RustStr Registry Metrics Msg Limit Gateway Config ServerConfig TunnelManager ServerControl.

Local Open Scope string_scope.

(** ** The abstract server *)

Abbreviation Live := (gmap string (TunnelOwner * RegisteredTunnel)).

Inductive SpecLabel :=
| SLogin (o : TunnelOwner)
| SRegister (o : TunnelOwner) (name : string) (ok : bool)
| SClose (o : TunnelOwner) (name : string)
| SEnd (o : TunnelOwner)
| SOther.

Definition drop_own (o : TunnelOwner) (n : string) (A : Live) : Live :=
  match A !! n with
  | Some (o', _) => if decide (o' = o) then delete n A else A
  | None => A
  end.
Definition drop_all (o : TunnelOwner) (A : Live) : Live :=
  filter (fun '(_, (o', _)) => o' <> o) A.

Definition port_free (A : Live) (rt : RegisteredTunnel) : Prop :=
  forall n o rt', A !! n = Some (o, rt') -> tunnel_type rt' = tunnel_type rt ->
    remote_port rt <> None -> remote_port rt' <> remote_port rt.

(** A registration replaces the session's own tunnel of that name first, and
    that tunnel stays closed when the registration then fails. *)
Inductive spec_step : Live -> SpecLabel -> Live -> Prop :=
| spec_login A o : (forall n rt, A !! n <> Some (o, rt)) -> spec_step A (SLogin o) A
| spec_register_ok A o n rt :
    n <> "" -> drop_own o n A !! n = None -> port_free (drop_own o n A) rt ->
    spec_step A (SRegister o n true) (<[n := (o, rt)]> (drop_own o n A))
| spec_register_rejected A o n : spec_step A (SRegister o n false) A
| spec_register_failed A o n : spec_step A (SRegister o n false) (drop_own o n A)
| spec_close A o n : spec_step A (SClose o n) (drop_own o n A)
| spec_end A o : spec_step A (SEnd o) (drop_all o A)
| spec_other A : spec_step A SOther A.
#[export] Hint Constructors spec_step : orbien.

Definition label_owner (l : SpecLabel) : option TunnelOwner :=
  match l with
  | SLogin o | SRegister o _ _ | SClose o _ | SEnd o => Some o
  | SOther => None
  end.

Lemma drop_own_lookup o n (A : Live) m o' rt :
  drop_own o n A !! m = Some (o', rt) <-> A !! m = Some (o', rt) /\ ~ (m = n /\ o' = o).
Proof.
  unfold drop_own. destruct (A !! n) as [[w rt']|] eqn:E; [destruct (decide (w = o)) as [->|]|];
    rewrite ?lookup_delete_Some; naive_solver.
Qed.
Lemma drop_all_lookup o (A : Live) m o' rt :
  drop_all o A !! m = Some (o', rt) <-> A !! m = Some (o', rt) /\ o' <> o.
Proof. unfold drop_all. by rewrite map_lookup_filter_Some. Qed.

(** A step touches the tunnels of its own session only. *)
Lemma spec_step_others A l A' o n rt :
  spec_step A l A' -> label_owner l <> Some o ->
  (A' !! n = Some (o, rt) <-> A !! n = Some (o, rt)).
Proof.
  intros Hs Hl. destruct Hs as [| A w m rt' _ Hf _ | | | |A w|]; simpl in Hl;
    rewrite ?drop_own_lookup, ?drop_all_lookup; try naive_solver.
  destruct (decide (m = n)) as [->|Hne].
  - rewrite lookup_insert_eq. split; [naive_solver|]. intros H.
    assert (drop_own w n A !! n = Some (o, rt)) as E by (apply drop_own_lookup; naive_solver).
    congruence.
  - rewrite lookup_insert_ne by done. rewrite drop_own_lookup. naive_solver.
Qed.

(** ** Ports *)

Section Ports.
Context (mk : string -> Z -> RegisteredTunnel) (mk_inj : forall n p m q, mk n p = mk m q -> n = m /\ p = q).

Definition ports_agree (P : PortTable) (A : Live) : Prop :=
  forall p n, P !! p = Some n <-> exists o, A !! n = Some (o, mk n p).

Lemma ports_insert_other P A n o rt :
  A !! n = None -> (forall m p, rt <> mk m p) -> ports_agree P A -> ports_agree P (<[n := (o, rt)]> A).
Proof using mk_inj.
  intros HA Hne H p m. rewrite (H p m). setoid_rewrite lookup_insert_Some. naive_solver.
Qed.
Lemma ports_insert P A n o p :
  A !! n = None -> P !! p = None -> ports_agree P A ->
  ports_agree (<[p := n]> P) (<[n := (o, mk n p)]> A).
Proof using mk_inj.
  intros HA HP H q m. setoid_rewrite lookup_insert_Some. split.
  - intros [[-> ->]|[_ [o' Ho]%H]]; [naive_solver|]. exists o'. right. split; [congruence|done].
  - intros [o' [[-> [= _ E%mk_inj]]|[Hm Hl]]]; [naive_solver|]. right.
    assert (P !! q = Some m) as Hq by (apply H; eauto). split; [congruence|done].
Qed.
Lemma ports_delete_other P A n o rt :
  A !! n = Some (o, rt) -> (forall m p, rt <> mk m p) -> ports_agree P A -> ports_agree P (delete n A).
Proof using mk_inj.
  intros HA Hne H p m. rewrite (H p m). setoid_rewrite lookup_delete_Some. split; [|naive_solver].
  intros [o' Ho]. exists o'. split; [|done]. intros ->. rewrite HA in Ho. naive_solver.
Qed.
Lemma ports_delete P A n o p :
  A !! n = Some (o, mk n p) -> ports_agree P A -> ports_agree (port_release P p n) (delete n A).
Proof using mk_inj.
  intros HA H q m. rewrite port_release_lookup, (H q m). setoid_rewrite lookup_delete_Some. split.
  - intros [[o' Ho] Hne]. exists o'. split; [|done]. intros <-. rewrite HA in Ho.
    injection Ho as _ E%mk_inj. naive_solver.
  - intros (o' & Hne & Ho). split; [eauto|]. naive_solver.
Qed.
End Ports.

(** ** Routes *)

Section Routes.
(** The routes of a gateway as a relation of host key and route, the route's
    tunnel and session, and the domains of the tunnels of that gateway. *)
Context {R : Type} (rname : R -> string) (rctl : R -> TunnelOwner)
  (doms : RegisteredTunnel -> option (list string)).

Definition routes_agree (rel : string -> R -> Prop) (A : Live) : Prop :=
  (forall k r, rel k r -> exists rt ds d,
     A !! rname r = Some (rctl r, rt) /\ doms rt = Some ds /\ d ∈ ds /\ k = normalize_host d)
  /\ (forall n o rt ds d, A !! n = Some (o, rt) -> doms rt = Some ds -> d ∈ ds ->
        exists r, rel (normalize_host d) r /\ rname r = n /\ rctl r = o).

Lemma routes_none rel A n k r : routes_agree rel A -> A !! n = None -> rel k r -> rname r <> n.
Proof using Type. intros [Hb _] HA (? & ? & ? & H & _)%Hb E. congruence. Qed.

Lemma routes_insert_other rel A n o rt :
  A !! n = None -> doms rt = None -> routes_agree rel A -> routes_agree rel (<[n := (o, rt)]> A).
Proof using Type.
  intros HA Hd [Hb Hf]. split.
  - intros k r (rt' & ds & d & Hl & Hrest)%Hb. exists rt', ds, d.
    split; [|done]. apply lookup_insert_Some. right. split; [congruence|done].
  - intros m o' rt' ds d [[-> [= <- <-]]|[_ Hl]]%lookup_insert_Some Hds Hin; [congruence|by eapply Hf].
Qed.
Lemma routes_insert (rel rel' : string -> R -> Prop) A n o rt ds :
  A !! n = None -> doms rt = Some ds ->
  (forall k r, rname r <> n -> (rel' k r <-> rel k r)) ->
  (forall k r, rname r = n -> rel' k r -> rctl r = o /\ exists d, d ∈ ds /\ k = normalize_host d) ->
  (forall d, d ∈ ds -> exists r, rel' (normalize_host d) r /\ rname r = n /\ rctl r = o) ->
  routes_agree rel A -> routes_agree rel' (<[n := (o, rt)]> A).
Proof using Type.
  intros HA Hds Hoth Hown Hall HR. pose proof HR as [Hb Hf]. split.
  - intros k r Hr. destruct (decide (rname r = n)) as [E|E].
    + destruct (Hown k r E Hr) as (<- & d & Hd & ->). exists rt, ds, d. split; [|done].
      rewrite E. apply lookup_insert_eq.
    + apply Hoth in Hr; [|done]. apply Hb in Hr as (rt' & ds' & d & Hl & Hrest). exists rt', ds', d.
      split; [|done]. by rewrite lookup_insert_ne.
  - intros m o' rt' ds' d [[<- [= <- <-]]|[_ Hl]]%lookup_insert_Some Hds' Hin.
    + rewrite Hds in Hds'. injection Hds' as <-. by apply Hall.
    + destruct (Hf m o' rt' ds' d Hl Hds' Hin) as (r & Hr & Hrest). exists r. split; [|done].
      apply Hoth; [|done]. by eapply routes_none.
Qed.
Lemma routes_delete (rel rel' : string -> R -> Prop) A n :
  (forall k r, rel' k r <-> rel k r /\ rname r <> n) ->
  routes_agree rel A -> routes_agree rel' (delete n A).
Proof using Type.
  intros Hrel [Hb Hf]. split.
  - intros k r [Hr Hne]%Hrel. destruct (Hb k r Hr) as (rt & ds & d & Hl & Hrest). exists rt, ds, d.
    split; [|done]. by rewrite lookup_delete_ne.
  - intros m o rt ds d [Hne Hl]%lookup_delete_Some Hds Hin.
    destruct (Hf m o rt ds d Hl Hds Hin) as (r & Hr & Hn & Hc). exists r. split; [|done].
    apply Hrel. split; [done|]. congruence.
Qed.
Lemma routes_delete_other rel A n o rt :
  A !! n = Some (o, rt) -> doms rt = None -> routes_agree rel A -> routes_agree rel (delete n A).
Proof using Type.
  intros HA Hd HR. apply (routes_delete rel); [|done]. intros k r. split; [|naive_solver].
  intros Hr. split; [done|]. destruct HR as [Hb _]. destruct (Hb k r Hr) as (rt' & ds & d & Hl & Hds & _).
  intros E. rewrite E, HA in Hl. congruence.
Qed.
Lemma routes_failed (rel rel' : string -> R -> Prop) A n :
  A !! n = None ->
  (forall k r, rname r <> n -> (rel' k r <-> rel k r)) -> (forall k r, rel' k r -> rname r <> n) ->
  routes_agree rel A -> routes_agree rel' A.
Proof using Type.
  intros HA Hoth Hno HR. rewrite <- (delete_id A n HA). apply (routes_delete rel); [|done].
  intros k r. split.
  - intros Hr. pose proof (Hno k r Hr). by rewrite <- Hoth.
  - intros [Hr Hne]. by rewrite Hoth.
Qed.
End Routes.

Definition http_domains (rt : RegisteredTunnel) : option (list string) :=
  match rt with RHttp h => Some (ht_domains h) | _ => None end.
Definition https_domains (rt : RegisteredTunnel) : option (list string) :=
  match rt with RHttps h => Some (hst_domains h) | _ => None end.
Definition http_rel (g : option HttpGw) (k : string) (r : HttpRoute) : Prop :=
  match g with Some gw => route_in gw k r | None => False end.
Definition https_rel (g : option HttpsGw) (k : string) (r : HttpsRoute) : Prop :=
  match g with Some gw => hsg_routes gw !! k = Some r | None => False end.

(** ** Agreement with the shared tables *)

Definition tunnel_named (n : string) (rt : RegisteredTunnel) : Prop :=
  match rt with
  | RTcp m p | RUdp m p => m = n /\ p <> 0%Z
  | RHttp h => ht_name h = n /\ ht_closed h = false
  | RHttps h => hst_name h = n /\ hst_closed h = false
  end.

Record tables_agree (T : Tables) (A : Live) : Prop := {
  ta_reg : tb_registry T = fst <$> A;
  ta_names : forall n o rt, A !! n = Some (o, rt) -> trimmed n /\ n <> "" /\ tunnel_named n rt;
  ta_tcp : ports_agree RTcp (tb_tcp_ports T) A;
  ta_udp : ports_agree RUdp (tb_udp_ports T) A;
  ta_wf : forall gw, tb_http_gw T = Some gw -> http_gw_wf gw;
  ta_http : routes_agree hr_tunnel_name hr_control http_domains (http_rel (tb_http_gw T)) A;
  ta_https : routes_agree hsr_tunnel_name hsr_control https_domains (https_rel (tb_https_gw T)) A }.

Lemma tables_agree_metrics T A m : tables_agree T A -> tables_agree (set_metrics T m) A.
Proof. intros []; by constructor. Qed.
#[export] Hint Resolve tables_agree_metrics : orbien.

Lemma RTcp_inj n p m q : RTcp n p = RTcp m q -> n = m /\ p = q.
Proof. naive_solver. Qed.
Lemma RUdp_inj n p m q : RUdp n p = RUdp m q -> n = m /\ p = q.
Proof. naive_solver. Qed.

Lemma set_registry_id T : set_registry T (tb_registry T) = T.
Proof. by destruct T. Qed.
Lemma set_ports_id T k : set_ports T k (ports_of T k) = T.
Proof. by destruct T, k. Qed.

(** ** Releasing *)

Definition release (T : Tables) (o : TunnelOwner) (n : string) (rt : RegisteredTunnel) : Tables :=
  release_global_slot (tunnel_close T rt) o n (detached_of rt).

Lemma release_fields T o n rt :
  release T o n rt =
  MkTables (remove_if_owner (tb_registry T) n o)
    (match rt with RTcp _ p => port_release (tb_tcp_ports T) p n | _ => tb_tcp_ports T end)
    (match rt with RUdp _ p => port_release (tb_udp_ports T) p n | _ => tb_udp_ports T end)
    (match rt with RHttp h => (fun gw => (http_tunnel_close gw h).1) <$> tb_http_gw T | _ => tb_http_gw T end)
    (match rt with RHttps h => (fun gw => (https_tunnel_close gw h).1) <$> tb_https_gw T
                 | _ => tb_https_gw T end)
    (tb_metrics T).
Proof.
  destruct T as [reg tp up hg hsg m]. unfold release, tunnel_close.
  destruct rt; simpl; try done; [destruct hg|destruct hsg]; done.
Qed.

Lemma http_close_rel g h n k r :
  ht_name h = n -> ht_closed h = false ->
  (http_rel ((fun gw => (http_tunnel_close gw h).1) <$> g) k r <-> http_rel g k r /\ hr_tunnel_name r <> n).
Proof.
  intros Hn Hc. destruct g as [gw|]; simpl; [|naive_solver]. unfold http_tunnel_close. rewrite Hc, Hn.
  apply http_unregister_in.
Qed.
Lemma https_close_rel g h n k r :
  hst_name h = n -> hst_closed h = false ->
  (https_rel ((fun gw => (https_tunnel_close gw h).1) <$> g) k r
   <-> https_rel g k r /\ hsr_tunnel_name r <> n).
Proof.
  intros Hn Hc. destruct g as [gw|]; simpl; [|naive_solver]. unfold https_tunnel_close. rewrite Hc, Hn.
  apply https_unregister_in.
Qed.
Lemma http_close_wf (g : option HttpGw) h gw' :
  (forall gw, g = Some gw -> http_gw_wf gw) ->
  (fun gw => (http_tunnel_close gw h).1) <$> g = Some gw' -> http_gw_wf gw'.
Proof.
  intros Hwf. destruct g as [gw|]; simpl; [|done]. unfold http_tunnel_close.
  destruct (ht_closed h); simpl; intros [= <-]; [|apply http_unregister_wf]; by apply Hwf.
Qed.

Lemma release_agree T A n o rt :
  tables_agree T A -> A !! n = Some (o, rt) -> tables_agree (release T o n rt) (delete n A).
Proof.
  intros HT HA. destruct (ta_names _ _ HT _ _ _ HA) as (_ & _ & Hnm). rewrite release_fields.
  destruct HT as [Hreg Hnames Htcp Hudp Hwf Hhttp Hhttps]. constructor; simpl.
  - rewrite Hreg. unfold remove_if_owner. rewrite lookup_fmap, HA, decide_True by done.
    by rewrite fmap_delete.
  - intros m o' rt' [_ Hl]%lookup_delete_Some. by apply (Hnames m o').
  - destruct rt; try by (eapply ports_delete_other; eauto using RTcp_inj).
    destruct Hnm as [-> _]. eapply ports_delete; eauto using RTcp_inj.
  - destruct rt; try by (eapply ports_delete_other; eauto using RUdp_inj).
    destruct Hnm as [-> _]. eapply ports_delete; eauto using RUdp_inj.
  - destruct rt; try done. intros gw. by apply http_close_wf.
  - destruct rt as [| h | |]; try by eapply routes_delete_other.
    destruct Hnm. eapply routes_delete; [|done]. intros. by apply http_close_rel.
  - destruct rt as [| | h |]; try by eapply routes_delete_other.
    destruct Hnm. eapply routes_delete; [|done]. intros. by apply https_close_rel.
Qed.

(** ** Acquiring *)

Definition port_tunnel (k : PortKind) (n : string) (p : Z) : RegisteredTunnel :=
  match k with PTcp => RTcp n p | PUdp => RUdp n p end.

Section AcquireTable.
Context (T : Tables) (A : Live) (n : string) (o : TunnelOwner).
Context (HT : tables_agree T A) (HA : A !! n = None) (Htr : trimmed n) (Hne : n <> "").
Let T1 := set_registry T (<[n := o]> (tb_registry T)).

Lemma acquire_names rt :
  tunnel_named n rt -> forall m o' rt', <[n := (o, rt)]> A !! m = Some (o', rt') ->
  trimmed m /\ m <> "" /\ tunnel_named m rt'.
Proof using HT Htr Hne.
  intros Hn m o' rt' [[<- [= <- <-]]|[_ H]]%lookup_insert_Some; [done|]. by apply (ta_names _ _ HT m o').
Qed.
Lemma acquire_registry rt : <[n := o]> (tb_registry T) = fst <$> <[n := (o, rt)]> A.
Proof using HT. by rewrite fmap_insert, (ta_reg _ _ HT). Qed.

Lemma acquire_port k p t' :
  port_claim (ports_of T k) p n = Ok t' ->
  tables_agree (set_ports T1 k t') (<[n := (o, port_tunnel k n p)]> A).
Proof using HT HA Htr Hne.
  intros (Hp0 & Hfree & ->)%port_claim_ok.
  assert (tunnel_named n (port_tunnel k n p)) as Hnamed by (by destruct k).
  pose proof (acquire_names _ Hnamed) as Hnames.
  pose proof (acquire_registry (port_tunnel k n p)) as Hreg. unfold T1.
  destruct HT as [_ _ Htcp Hudp Hwf Hhttp Hhttps].
  destruct k; (constructor; simpl in *;
    auto using ports_insert, ports_insert_other, routes_insert_other, RTcp_inj, RUdp_inj).
Qed.

(** The routes of one gateway after a successful registration. *)
Lemma acquire_http gw np root lim gw' h :
  tb_http_gw T = Some gw -> nt_tunnel_name np = n ->
  http_tunnel_register gw np o root lim = (gw', Ok h) ->
  tables_agree (set_http_gw T1 gw') (<[n := (o, RHttp h)]> A).
Proof using HT HA Htr Hne.
  intros Hgw Hn Hr.
  destruct (http_tunnel_register_spec _ _ _ _ _ _ _ (ta_wf _ _ HT _ Hgw) Hr)
    as (Hwf' & _ & Hoth & _ & Hh & Hown). rewrite Hn in *.
  assert (tunnel_named n (RHttp h)) as Hnamed by (rewrite Hh; done).
  pose proof (acquire_names _ Hnamed) as Hnames.
  pose proof (acquire_registry (RHttp h)) as Hreg. unfold T1.
  destruct HT as [_ _ Htcp Hudp Hwf Hhttp Hhttps].
  constructor; simpl; auto using ports_insert_other, routes_insert_other, RTcp_inj, RUdp_inj.
  - by intros ? [= <-].
  - rewrite Hgw in Hhttp. eapply routes_insert; [done|done|exact Hoth| | |exact Hhttp].
    + intros k r E (d & loc & Hd & _ & -> & ->)%Hown; [|done]. split; [done|]. eauto.
    + intros d Hd.
      assert (exists loc, loc ∈ expand_locations (nt_locations np)) as [loc Hloc].
      { unfold expand_locations. destruct (nt_locations np); eexists; apply elem_of_cons; by left. }
      exists (http_route_of np o lim loc). split; [|done]. apply Hown; [done|]. eauto 10.
Qed.

Lemma failed_http gw np root lim gw' e :
  tb_http_gw T = Some gw -> nt_tunnel_name np = n ->
  http_tunnel_register gw np o root lim = (gw', Err e) -> tables_agree (set_http_gw T gw') A.
Proof using HT HA.
  intros Hgw Hn Hr.
  destruct (http_tunnel_register_spec _ _ _ _ _ _ _ (ta_wf _ _ HT _ Hgw) Hr)
    as (Hwf' & _ & Hoth & Hres). rewrite Hn in *.
  destruct HT as [Hreg Hnm Htcp Hudp Hwf Hhttp Hhttps]. rewrite Hgw in Hhttp.
  constructor; simpl; auto; [by intros ? [= <-]|].
  destruct Hres as [[_ ->]|Hnone]; [done|]. by eapply (routes_failed _ _ _ (route_in gw)).
Qed.

Lemma acquire_https gw np root lim gw' h :
  tb_https_gw T = Some gw -> nt_tunnel_name np = n ->
  https_tunnel_register gw np o root lim = (gw', Ok h) ->
  tables_agree (set_https_gw T1 gw') (<[n := (o, RHttps h)]> A).
Proof using HT HA Htr Hne.
  intros Hgw Hn Hr.
  destruct (https_tunnel_register_spec _ _ _ _ _ _ _ Hr) as (_ & Hoth & _ & Hh & Hown). rewrite Hn in *.
  assert (tunnel_named n (RHttps h)) as Hnamed by (rewrite Hh; done).
  pose proof (acquire_names _ Hnamed) as Hnames.
  pose proof (acquire_registry (RHttps h)) as Hreg. unfold T1.
  destruct HT as [_ _ Htcp Hudp Hwf Hhttp Hhttps].
  constructor; simpl; auto using ports_insert_other, routes_insert_other, RTcp_inj, RUdp_inj.
  rewrite Hgw in Hhttps. eapply routes_insert; [done|done|exact Hoth| | |exact Hhttps].
  - intros k r E (-> & d & Hd & ->)%Hown; [|done]. split; [done|]. eauto.
  - intros d Hd. exists (MkHttpsRoute n o lim). split; [|done]. apply Hown; [done|]. split; [done|]. eauto.
Qed.

Lemma failed_https gw np root lim gw' e :
  tb_https_gw T = Some gw -> nt_tunnel_name np = n ->
  https_tunnel_register gw np o root lim = (gw', Err e) -> tables_agree (set_https_gw T gw') A.
Proof using HT HA.
  intros Hgw Hn Hr.
  destruct (https_tunnel_register_spec _ _ _ _ _ _ _ Hr) as (_ & Hoth & Hres). rewrite Hn in *.
  destruct HT as [Hreg Hnm Htcp Hudp Hwf Hhttp Hhttps]. rewrite Hgw in Hhttps.
  constructor; simpl; auto.
  destruct Hres as [[_ ->]|Hnone]; [done|].
  by eapply (routes_failed _ _ _ (fun k r => hsg_routes gw !! k = Some r)).
Qed.
End AcquireTable.
