(* ===== verification/ServerRefine.v ===== *)
(** * The server's sessions implement the abstract server

    A world is the shared tables with the sessions that are alive; its steps are
    the handlers of [ServerControl], run one at a time: a login, a message of a
    client, a shutdown, a kick, the watchdog and the drop of a session.
    Every step is a step of the abstract server of [ServerSpec], so that in a
    reachable world the tables hold exactly what live tunnels need. *)

From S2P Require Import Prelude RustStr Float64 Registry Metrics Msg Limit Gateway Config ServerConfig TunnelManager ServerControl ServerSpec.

Local Open Scope string_scope.

(** ** A session and the abstract server *)

Definition session_agrees (c : Control) (A : Live) : Prop :=
  forall n rt, A !! n = Some (owner c, rt) <-> te_tunnel <$> c_tunnels c !! n = Some rt.
Definition session_ok (c : Control) : Prop :=
  c_cleaning c = true \/ c_finished c = true -> c_closed c = true /\ c_tunnels c = ∅.

Record pre (T : Tables) (c : Control) (A : Live) : Prop := {
  pre_tables : tables_agree T A;
  pre_session : session_agrees c A;
  pre_ok : session_ok c }.

(** What a handler leaves of a session. *)
Record same_session (c c' : Control) : Prop := {
  ss_owner : owner c' = owner c;
  ss_closed : c_closed c' = c_closed c;
  ss_flags : c_cleaning c' = c_cleaning c /\ c_finished c' = c_finished c;
  ss_cfg : c_cfg c' = c_cfg c }.

#[export] Instance same_session_preorder : PreOrder same_session.
Proof. split; [by intros []|]. intros a b c [??[??]?] [??[??]?]. split; [..|split|]; congruence. Qed.

Lemma pre_metrics T c A m : pre T c A -> pre (set_metrics T m) c A.
Proof. intros []. split; auto with orbien. Qed.
#[export] Hint Resolve pre_metrics : orbien.

Lemma pre_io T c A c' :
  pre T c A -> same_session c c' -> c_tunnels c' = c_tunnels c -> pre T c' A.
Proof.
  intros [Ht Hs Hok] [Ho Hc [Hcl Hf] _] Htm. split; [done| |].
  - intros n rt. rewrite Ho, Htm. apply Hs.
  - unfold session_ok. by rewrite Hcl, Hf, Hc, Htm.
Qed.

(** ** Detaching *)

Lemma drop_own_none o n (A : Live) : (forall rt, A !! n <> Some (o, rt)) -> drop_own o n A = A.
Proof.
  intros H. unfold drop_own. destruct (A !! n) as [[w rt]|] eqn:E; [|done].
  rewrite decide_False; [done|]. intros ->. by apply (H rt).
Qed.

Lemma detach_spec T c n A r T' c' :
  pre T c A -> detach_tunnel T c n = (r, T', c') ->
  pre T' c' (drop_own (owner c) n A) /\ same_session c c' /\ c_tunnels c' = delete n (c_tunnels c).
Proof.
  intros [Ht Hs Hok] Hd. unfold detach_tunnel, tm_remove in Hd.
  destruct (c_tunnels c !! n) as [e|] eqn:E; injection Hd as <- <- <-.
  - assert (A !! n = Some (owner c, te_tunnel e)) as HA by (apply Hs; by rewrite E).
    split; [|split; [by split|done]]. unfold drop_own. rewrite HA, decide_True by done. split.
    + by apply (release_agree T A n (owner c) (te_tunnel e)).
    + intros m rt. unfold owner. simpl. destruct (decide (m = n)) as [->|Hne].
      * by rewrite !lookup_delete_eq.
      * rewrite !lookup_delete_ne by done. apply Hs.
    + intros [H1 H2]%Hok. exfalso. rewrite H2, lookup_empty in E. done.
  - rewrite drop_own_none by (intros rt H%Hs; by rewrite E in H).
    split; [|split; [by split|simpl; by rewrite delete_id]]. by split.
Qed.

Lemma prepare_spec T c n t A T' c' :
  pre T c A -> prepare_name_slot T c n t = (T', c') ->
  pre T' c' (drop_own (owner c) n A) /\ same_session c c' /\ c_tunnels c' = delete n (c_tunnels c).
Proof.
  intros Hp. unfold prepare_name_slot. destruct (detach_tunnel T c n) as [[r T1] c1] eqn:E.
  destruct (detach_spec _ _ _ _ _ _ _ Hp E) as (H1 & H2 & H3).
  destruct r; intros [= <- <-]; auto with orbien.
Qed.

Lemma close_spec T c cp t A T' c' :
  pre T c A -> handle_close_tunnel T c cp t = (T', c') ->
  pre T' c' (drop_own (owner c) (ct_tunnel_name cp) A) /\ same_session c c'.
Proof.
  intros Hp. unfold handle_close_tunnel.
  destruct (detach_tunnel T c (ct_tunnel_name cp)) as [[r T1] c1] eqn:E.
  destruct (detach_spec _ _ _ _ _ _ _ Hp E) as (H1 & H2 & _).
  destruct r; intros [= <- <-]; auto with orbien.
Qed.

(** ** Claiming a name *)

(** The tables with the name claimed, before the tunnel exists. *)
Definition with_name (T : Tables) (n : string) (o : TunnelOwner) : Tables :=
  set_registry T (<[n := o]> (tb_registry T)).

Lemma claim_name_spec T c n t A T' c' r :
  pre T c A -> trimmed n -> claim_name T c n t = (T', c', r) ->
  same_session c c' /\ exists T2, pre T2 c' (drop_own (owner c) n A)
  /\ match r with
     | Err _ => T' = T2
     | Ok o => o = owner c /\ n <> "" /\ drop_own (owner c) n A !! n = None
               /\ c_tunnels c' !! n = None /\ T' = with_name T2 n (owner c)
     end.
Proof.
  intros Hp Htr. unfold claim_name. destruct (prepare_name_slot T c n t) as [T1 c1] eqn:E.
  destruct (prepare_spec _ _ _ _ _ _ _ Hp E) as (H1 & H2 & H3).
  destruct (try_insert (tb_registry T1) n (owner c)) as [reg|e] eqn:Ei;
    intros [= <- <- <-]; (split; [done|]); exists T1; [|done].
  apply try_insert_ok in Ei as (Hne & Hfree & ->). rewrite Htr in *.
  split; [done|]. split; [done|]. split; [done|]. split; [|split; [|done]].
  - rewrite (ta_reg _ _ (pre_tables _ _ _ H1)), lookup_fmap in Hfree.
    by destruct (drop_own (owner c) n A !! n).
  - by rewrite H3, lookup_delete_eq.
Qed.

Lemma release_with_name T n o : tb_registry T !! n = None -> release_name (with_name T n o) n o = T.
Proof.
  intros H. unfold release_name, with_name, remove_if_owner. destruct T. simpl in *.
  rewrite lookup_insert_eq, decide_True by done. by rewrite delete_insert_id.
Qed.
Lemma no_name T A n : tables_agree T A -> A !! n = None -> tb_registry T !! n = None.
Proof. intros HT HA. by rewrite (ta_reg _ _ HT), lookup_fmap, HA. Qed.

Lemma insert_tunnel_spec T c n rt la ra o ports t A T' c' r :
  tables_agree T (<[n := (owner c, rt)]> A) -> session_agrees c A -> session_ok c ->
  c_closed c = false -> A !! n = None -> c_tunnels c !! n = None ->
  insert_tunnel T c n rt la ra o ports t = (T', c', r) ->
  r = Ok ra /\ pre T' c' (<[n := (owner c, rt)]> A) /\ same_session c c'.
Proof.
  intros HT Hs Hok Hop HA Hn. unfold insert_tunnel, tm_insert. rewrite Hn.
  intros [= <- <- <-]. split; [done|]. split; [|by split]. split.
  - unfold note_tunnel_registered. auto with orbien.
  - intros m rt'. unfold owner. simpl. destruct (decide (m = n)) as [->|Hne].
    + rewrite !lookup_insert_eq. simpl. naive_solver.
    + rewrite !lookup_insert_ne by done. apply Hs.
  - intros [H _]%Hok. congruence.
Qed.

Lemma port_free_claim T A k n p t' :
  tables_agree T A -> port_claim (ports_of T k) p n = Ok t' -> port_free A (port_tunnel k n p).
Proof.
  intros HT (_ & Hfree & _)%port_claim_ok m o rt' Hm Hty _ Hp.
  enough (ports_of T k !! p = Some m) by congruence.
  destruct k, rt'; simpl in *; try done; injection Hp as ->;
    [apply (ta_tcp _ _ HT)|apply (ta_udp _ _ HT)];
    destruct (ta_names _ _ HT _ _ _ Hm) as (_ & _ & -> & _); eauto.
Qed.
Lemma port_free_none A rt : remote_port rt = None -> port_free A rt.
Proof. intros H n o rt' _ _ Hn. congruence. Qed.

(** ** Registering *)

(** What a registration does: a step of the abstract server, answered as it went. *)
Definition registers (c : Control) (n : string) (A : Live) (T' : Tables) (c' : Control) (r : Anyhow string)
    : Prop :=
  exists A', spec_step A (SRegister (owner c) n (is_ok r)) A' /\ pre T' c' A' /\ same_session c c'.

Lemma registers_rejected T c n A e : pre T c A -> registers c n A T c (Err e).
Proof. intros H. exists A. split; [constructor|]. by split. Qed.
Lemma registers_failed T' c n A c' e :
  pre T' c' (drop_own (owner c) n A) -> same_session c c' -> registers c n A T' c' (Err e).
Proof. intros H Hs. eexists. split; [apply spec_register_failed|]. by split. Qed.

Lemma registers_inserted c n A T2 c2 T3 rt la ra o ports t T' c' r :
  pre T2 c2 (drop_own (owner c) n A) -> same_session c c2 -> c_closed c = false -> n <> "" ->
  drop_own (owner c) n A !! n = None -> c_tunnels c2 !! n = None ->
  tables_agree T3 (<[n := (owner c, rt)]> (drop_own (owner c) n A)) ->
  port_free (drop_own (owner c) n A) rt ->
  insert_tunnel T3 c2 n rt la ra o ports t = (T', c', r) -> registers c n A T' c' r.
Proof.
  intros [_ Hs Hok] Hsame Hop Hne HA Hn HT Hpf Hi.
  destruct (insert_tunnel_spec _ _ _ _ _ _ _ _ _ (drop_own (owner c) n A) _ _ _
              ltac:(rewrite (ss_owner _ _ Hsame); exact HT) Hs Hok
              ltac:(rewrite (ss_closed _ _ Hsame); exact Hop) HA Hn Hi) as (-> & Hpre & Hss).
  rewrite (ss_owner _ _ Hsame) in Hpre. eexists. split; [by apply spec_register_ok|].
  split; [done|]. by transitivity c2.
Qed.

Lemma register_port_spec k T c np bind t A T' c' r :
  pre T c A -> c_closed c = false -> trimmed (nt_tunnel_name np) ->
  register_port_tunnel k T c np bind t = (T', c', r) -> registers c (nt_tunnel_name np) A T' c' r.
Proof.
  intros Hp Hop Htr. unfold register_port_tunnel.
  destruct ((_ || _)%bool); [intros [= <- <- <-]; by eapply registers_rejected|].
  destruct (tunnel_transport np) as [lim|e]; [|intros [= <- <- <-]; by eapply registers_rejected].
  set (n := nt_tunnel_name np) in *. set (port := wrap_u 16 (nt_remote_port np)).
  destruct (claim_name T c n t) as [[T1 c1] r1] eqn:E.
  destruct (claim_name_spec _ _ _ _ _ _ _ _ Hp Htr E) as (Hss & T2 & Hp2 & Hr1).
  destruct r1 as [o|e]; [|intros [= <- <- <-]; subst T1; by eapply registers_failed].
  destruct Hr1 as (-> & Hne & HA & Hn & ->). pose proof (pre_tables _ _ _ Hp2) as HT2.
  pose proof (no_name _ _ _ HT2 HA) as Hnn. unfold claim_port.
  assert (ports_of (with_name T2 n (owner c)) k = ports_of T2 k) as -> by (by destruct k).
  destruct (port_claim (ports_of T2 k) port n) as [t'|e] eqn:Ec.
  2: { intros [= <- <- <-]. rewrite release_with_name by done. by eapply registers_failed. }
  destruct bind as [u|e].
  - assert (match k with PTcp => RTcp n port | PUdp => RUdp n port end = port_tunnel k n port)
      as -> by (by destruct k).
    eapply (registers_inserted c n A T2 c1); try done.
    + unfold with_name. by eapply acquire_port.
    + by eapply port_free_claim.
  - intros [= <- <- <-].
    replace (release_name _ _ _) with T2; [by eapply registers_failed|].
    pose proof (port_release_claim _ _ _ _ Ec) as Hrel.
    rewrite <- (release_with_name T2 n (owner c) Hnn) at 1. f_equal.
    destruct k; simpl in *; rewrite Hrel; by destruct T2.
Qed.

(** The gateways a server has do not change while names are claimed. *)
Definition same_gateways (T T' : Tables) : Prop :=
  (is_Some (tb_http_gw T) -> is_Some (tb_http_gw T')) /\ (is_Some (tb_https_gw T) -> is_Some (tb_https_gw T')).

Lemma claim_name_gateways T c n t T' c' r :
  claim_name T c n t = (T', c', r) -> same_gateways T T'.
Proof.
  unfold claim_name, prepare_name_slot, detach_tunnel, tm_remove, same_gateways.
  destruct (c_tunnels c !! n) as [e|].
  - pose proof (release_fields T (owner c) n (te_tunnel e)) as Hf. unfold release in Hf. rewrite Hf.
    destruct (te_tunnel e), (try_insert _ n (owner c)); intros [= <- <- <-]; simpl;
      split; rewrite ?fmap_is_Some; done.
  - destruct (try_insert _ n (owner c)); intros [= <- <- <-]; done.
Qed.

Lemma failed_gateway T2 c1 c n A T3 e :
  pre T2 c1 (drop_own (owner c) n A) -> same_session c c1 -> drop_own (owner c) n A !! n = None ->
  tables_agree T3 (drop_own (owner c) n A) ->
  registers c n A (release_name (with_name T3 n (owner c)) n (owner c)) c1 (Err e).
Proof.
  intros [_ Hs Hok] Hss HA HT. rewrite release_with_name by (by eapply no_name).
  eapply registers_failed; [|done]. by split.
Qed.

Lemma register_http_spec T c np t A T' c' r :
  pre T c A -> c_closed c = false -> trimmed (nt_tunnel_name np) ->
  register_http_tunnel T c np t = (T', c', r) -> registers c (nt_tunnel_name np) A T' c' r.
Proof.
  intros Hp Hop Htr. unfold register_http_tunnel.
  destruct (tb_http_gw T) as [gw0|] eqn:Eg0; [|intros [= <- <- <-]; by eapply registers_rejected].
  destruct (tunnel_transport np) as [lim|e]; [|intros [= <- <- <-]; by eapply registers_rejected].
  destruct (claim_name T c (nt_tunnel_name np) t) as [[T1 c1] r1] eqn:E.
  destruct (claim_name_spec _ _ _ _ _ _ _ _ Hp Htr E) as (Hss & T2 & Hp2 & Hr1).
  destruct r1 as [o|e]; [|intros [= <- <- <-]; subst T1; by eapply registers_failed].
  destruct Hr1 as (-> & Hne & HA & Hn & ->). pose proof (pre_tables _ _ _ Hp2) as HT2.
  destruct (claim_name_gateways _ _ _ _ _ _ _ E) as [[gw Hgw] _]; [by rewrite Eg0|].
  rewrite Hgw. cbn [default from_option id]. rewrite (ss_owner _ _ Hss), (ss_cfg _ _ Hss).
  destruct (http_tunnel_register gw np (owner c) (sc_root_domain (c_cfg c)) lim) as [gw' [h|e]] eqn:Er.
  - eapply (registers_inserted c _ A T2 c1); try done.
    + by eapply acquire_http.
    + by apply port_free_none.
  - intros [= <- <- <-]. eapply (failed_gateway T2 c1 c _ A (set_http_gw T2 gw')); [done..|].
    by eapply (failed_http T2 _ _ (owner c) HT2 HA).
Qed.

Lemma register_https_spec T c np t A T' c' r :
  pre T c A -> c_closed c = false -> trimmed (nt_tunnel_name np) ->
  register_https_tunnel T c np t = (T', c', r) -> registers c (nt_tunnel_name np) A T' c' r.
Proof.
  intros Hp Hop Htr. unfold register_https_tunnel.
  destruct (tb_https_gw T) as [gw0|] eqn:Eg0; [|intros [= <- <- <-]; by eapply registers_rejected].
  destruct (tunnel_transport np) as [lim|e]; [|intros [= <- <- <-]; by eapply registers_rejected].
  destruct (claim_name T c (nt_tunnel_name np) t) as [[T1 c1] r1] eqn:E.
  destruct (claim_name_spec _ _ _ _ _ _ _ _ Hp Htr E) as (Hss & T2 & Hp2 & Hr1).
  destruct r1 as [o|e]; [|intros [= <- <- <-]; subst T1; by eapply registers_failed].
  destruct Hr1 as (-> & Hne & HA & Hn & ->). pose proof (pre_tables _ _ _ Hp2) as HT2.
  destruct (claim_name_gateways _ _ _ _ _ _ _ E) as [_ [gw Hgw]]; [by rewrite Eg0|].
  rewrite Hgw. cbn [default from_option id]. rewrite (ss_owner _ _ Hss), (ss_cfg _ _ Hss).
  destruct (https_tunnel_register gw np (owner c) (sc_root_domain (c_cfg c)) lim) as [gw' [h|e]] eqn:Er.
  - eapply (registers_inserted c _ A T2 c1); try done.
    + by eapply acquire_https.
    + by apply port_free_none.
  - intros [= <- <- <-]. eapply (failed_gateway T2 c1 c _ A (set_https_gw T2 gw')); [done..|].
    by eapply (failed_https T2 _ _ (owner c) HT2 HA).
Qed.

Lemma register_spec T c np bind t A T' c' r :
  pre T c A -> trimmed (nt_tunnel_name np) ->
  register_tunnel T c np bind t = (T', c', r) -> registers c (nt_tunnel_name np) A T' c' r.
Proof.
  intros Hp Htr. unfold register_tunnel, is_closed.
  destruct (c_closed c) eqn:Hop; [intros [= <- <- <-]; by eapply registers_rejected|].
  repeat case_match.
  - by eapply register_port_spec.
  - by eapply register_http_spec.
  - by eapply register_https_spec.
  - by eapply register_port_spec.
  - intros [= <- <- <-]. by eapply registers_rejected.
Qed.

(** ** Ending a session *)

Section End.
Context (drain : TunnelManager -> list (string * TunnelEntry))
  (drain_all : forall tm, drain tm ≡ₚ map_to_list tm).

Lemma release_list_agree (step : Tables -> string * TunnelEntry -> Tables) (o : TunnelOwner) l :
  (forall T A n e, tables_agree T A -> A !! n = Some (o, te_tunnel e) ->
     tables_agree (step T (n, e)) (delete n A)) ->
  forall T A, tables_agree T A -> NoDup l.*1 ->
  (forall n e, (n, e) ∈ l -> A !! n = Some (o, te_tunnel e)) ->
  tables_agree (fold_left step l T) (fold_left (fun A x => delete x.1 A) l A).
Proof using Type.
  intros Hstep. induction l as [|[n e] l IH]; simpl; [done|].
  intros T A HT [Hn Hnd]%NoDup_cons Hin. apply IH; [|done|].
  - apply Hstep; [done|]. apply Hin. apply elem_of_cons. by left.
  - intros m e' Hm. rewrite lookup_delete_ne; [apply Hin, elem_of_cons; by right|].
    intros ->. apply Hn, list_elem_of_fmap. by exists (m, e').
Qed.

Lemma fold_delete_lookup (l : list (string * TunnelEntry)) (A : Live) n v :
  fold_left (fun A x => delete x.1 A) l A !! n = Some v <-> A !! n = Some v /\ n ∉ l.*1.
Proof using Type.
  revert A. induction l as [|[m e] l IH]; intros A; simpl.
  - rewrite elem_of_nil. naive_solver.
  - rewrite IH, lookup_delete_Some, elem_of_cons. naive_solver.
Qed.

Lemma drop_all_drain c A :
  session_agrees c A ->
  fold_left (fun A x => delete x.1 A) (drain (c_tunnels c)) A = drop_all (owner c) A.
Proof using drain_all.
  intros Hs. apply map_eq. intros n. apply option_eq. intros [o rt].
  rewrite fold_delete_lookup, drop_all_lookup. split; intros [HA H]; (split; [done|]).
  - intros ->. apply H. apply Hs in HA. destruct (c_tunnels c !! n) as [e|] eqn:E; [|done].
    apply list_elem_of_fmap. exists (n, e). split; [done|]. rewrite (drain_all _). by apply elem_of_map_to_list.
  - intros Hin. apply list_elem_of_fmap in Hin as ([m e] & -> & Hin). rewrite (drain_all _) in Hin.
    apply elem_of_map_to_list in Hin. simpl in *. apply H.
    assert (A !! m = Some (owner c, te_tunnel e)) as HA' by (apply Hs; by rewrite Hin). congruence.
Qed.

Lemma end_tables (step : Tables -> string * TunnelEntry -> Tables) T c A :
  (forall T A n e, tables_agree T A -> A !! n = Some (owner c, te_tunnel e) ->
     tables_agree (step T (n, e)) (delete n A)) ->
  tables_agree T A -> session_agrees c A ->
  tables_agree (fold_left step (drain (c_tunnels c)) T) (drop_all (owner c) A).
Proof using drain_all.
  intros Hstep HT Hs. rewrite <- drop_all_drain by done.
  apply (release_list_agree _ _ _ Hstep); [done| |].
  - rewrite (drain_all _). apply NoDup_fst_map_to_list.
  - intros n e Hin. rewrite (drain_all _) in Hin. apply elem_of_map_to_list in Hin.
    apply Hs. by rewrite Hin.
Qed.

Lemma close_release_comm T rt o n d :
  tunnel_close (release_global_slot T o n d) rt = release_global_slot (tunnel_close T rt) o n d.
Proof using Type.
  destruct T as [reg tp up hg hsg m], d as [ty [p|]]; unfold release_global_slot; simpl;
    repeat case_match; destruct rt; simpl; try done; (destruct hg || idtac); try done; by destruct hsg.
Qed.
Lemma close_metrics_comm T rt m :
  tunnel_close (set_metrics T m) rt = set_metrics (tunnel_close T rt) m
  /\ tb_metrics (tunnel_close T rt) = tb_metrics T.
Proof using Type.
  destruct T as [reg tp up hg hsg m0], rt; simpl; try done; [by destruct hg|by destruct hsg].
Qed.

Lemma no_tunnels_agree T c A :
  tables_agree T A -> session_agrees c A -> c_tunnels c = ∅ -> drop_all (owner c) A = A.
Proof using Type.
  intros HT Hs He. apply map_eq. intros n. apply option_eq. intros [o rt]. rewrite drop_all_lookup.
  split; [naive_solver|]. intros H. split; [done|]. intros ->. apply Hs in H. by rewrite He, lookup_empty in H.
Qed.

Lemma ended_session c A : session_agrees (set_tunnels c ∅) (drop_all (owner c) A).
Proof using Type.
  intros n rt. unfold owner. simpl. rewrite lookup_empty, drop_all_lookup. naive_solver.
Qed.

Lemma release_slot_metrics T o n d : tb_metrics (release_global_slot T o n d) = tb_metrics T.
Proof using Type. unfold release_global_slot. by repeat case_match. Qed.

Lemma shutdown_spec T c t A T' c' :
  pre T c A -> shutdown drain T c t = (T', c') ->
  pre T' c' (drop_all (owner c) A) /\ owner c' = owner c /\ c_closed c' = true /\ c_tunnels c' = ∅.
Proof using drain_all.
  intros [HT Hs Hok]. unfold shutdown. cbn [c_cleaning signal_close set_flags].
  destruct (c_cleaning c) eqn:Ec.
  - intros [= <- <-]. destruct (Hok (or_introl Ec)) as [Hcl He].
    rewrite (no_tunnels_agree T c A) by done. split; [split|]; [done|exact Hs|done|by simpl].
  - unfold tm_close_all. intros [= <- <-].
    split; [split; [|apply (ended_session c A)|done]|by simpl].
    unfold release_all. cbn [set_tunnels set_flags signal_close c_tunnels].
    rewrite (fold_left_interleave (fun T '(_, e) => tunnel_close T (te_tunnel e)) _
      (fun '(n, e) => (n, detached_of (te_tunnel e)))).
    + apply (end_tables _ T c A); [|done..]. intros T1 A1 n e HT1 HA1. apply tables_agree_metrics.
      by apply (release_agree T1 A1 n (owner c) (te_tunnel e)).
    + intros s [n e] [m d]. cbn zeta. rewrite (proj1 (close_metrics_comm _ _ _)), close_release_comm.
      by rewrite !release_slot_metrics, (proj2 (close_metrics_comm s (te_tunnel e) (tb_metrics s))).
Qed.

Lemma kick_spec T c reason w t A T' c' :
  pre T c A -> kick drain T c reason w t = (T', c') ->
  pre T' c' (drop_all (owner c) A) /\ owner c' = owner c /\ c_closed c' = true /\ c_tunnels c' = ∅.
Proof using drain_all.
  intros [HT Hs Hok].
  assert (forall c1, owner c1 = owner c -> c_tunnels c1 = c_tunnels c -> c_closed c1 = true ->
    c_cleaning c1 = c_cleaning c -> c_finished c1 = c_finished c -> pre T c1 A) as Hpre.
  { intros c1 Ho Ht Hc Hcl Hf. split; [done| |].
    - intros n rt. rewrite Ho, Ht. apply Hs.
    - unfold session_ok. rewrite Hcl, Hf, Ht, Hc. intros H. by destruct (Hok H). }
  unfold kick, send. destruct w; intros H.
  - apply (shutdown_spec T _ t A T' c') in H; [done|by apply Hpre].
  - apply (shutdown_spec T _ t A T' c') in H; [done|by apply Hpre].
Qed.

(** The mutex is never held when a session is dropped, so [try_lock] succeeds. *)
Lemma drop_spec T c A T' c' :
  pre T c A -> control_drop drain T c true = (T', c') ->
  tables_agree T' (drop_all (owner c) A).
Proof using drain_all.
  intros [HT Hs Hok]. unfold control_drop. destruct (c_finished c) eqn:Ef.
  - intros [= <- <-]. destruct (Hok (or_intror Ef)) as [_ He]. by rewrite (no_tunnels_agree T c A).
  - unfold tm_abandon_all, tm_close_all. intros [= <- <-].
    rewrite (fold_left_interleave (fun T '(_, e) => tunnel_close T (te_tunnel e)) _
      (fun '(n, e) => (n, detached_of (te_tunnel e)))).
    + apply (end_tables _ T c A); [|done..]. intros T1 A1 n e HT1 HA1.
      by apply (release_agree T1 A1 n (owner c) (te_tunnel e)).
    + intros s [n e] [m d]. apply close_release_comm.
Qed.
End End.

(** ** Messages *)

Definition message_ok (m : Message) : Prop :=
  match m with MNewTunnel np => trimmed (nt_tunnel_name np) | _ => True end.

Definition message_label (T : Tables) (c : Control) (m : Message) (bind : Anyhow unit) (t : Now) : SpecLabel :=
  match m with
  | MNewTunnel np => SRegister (owner c) (nt_tunnel_name np) (is_ok (register_tunnel T c np bind t).2)
  | MCloseTunnel cp => SClose (owner c) (ct_tunnel_name cp)
  | _ => SOther
  end.

Lemma send_same T c A w m : pre T c A ->
  pre T (default c (match send c w m with Ok c' => Some c' | Err _ => None end)) A.
Proof. intros H. unfold send. destruct w; [|done]. simpl. by apply (pre_io T c). Qed.

Lemma dispatch_spec T c m bind w t A T' c' r :
  pre T c A -> message_ok m -> dispatch T c m bind w t = (T', c', r) ->
  exists A', spec_step A (message_label T c m bind t) A' /\ pre T' c' A' /\ same_session c c'.
Proof.
  intros Hp Hm.
  assert (pre T c A /\ same_session c c) as Hid by done.
  destruct m; cbn [dispatch message_label]; try (intros [= <- <- <-]; by eauto with orbien).
  - unfold handle_new_tunnel. destruct (register_tunnel T c m bind t) as [[T1 c1] r1] eqn:E.
    destruct (register_spec _ _ _ _ _ _ _ _ _ Hp Hm E) as (A' & Hs & Hp' & Hss).
    unfold send. destruct w; intros [= <- <- <-]; exists A'; (split; [done|]); [|done].
    split; [by apply (pre_io T1 c1)|]. transitivity c1; [done|by split].
  - destruct (handle_close_tunnel T c m t) as [T1 c1] eqn:E. intros [= <- <- <-].
    destruct (close_spec _ _ _ _ _ _ _ Hp E). eauto with orbien.
  - unfold handle_ping, send. destruct w; intros [= <- <- <-]; exists A; (split; [constructor|]);
      (split; [by apply (pre_io T c)|by split]).
Qed.

(** *** Whatever the tables hold

    A handler of a message changes a session's tunnels and its connection, nothing
    else. *)
Definition unmoved (c c' : Control) : Prop := same_session c c' /\ c_activated c' = c_activated c.
#[export] Instance unmoved_preorder : PreOrder unmoved.
Proof.
  split; [by intros c; split|]. intros a b c [H1 E1] [H2 E2]. split; [by transitivity b|congruence].
Qed.
Lemma unmoved_tunnels c tm : unmoved c (set_tunnels c tm).
Proof. by repeat split. Qed.
Lemma unmoved_io c d p o : unmoved c (set_io c d p o).
Proof. by repeat split. Qed.
#[export] Hint Resolve unmoved_tunnels unmoved_io : orbien.
#[export] Hint Extern 0 (unmoved ?c ?c) => reflexivity : orbien.

Lemma detach_unmoved T c n d T' c' : detach_tunnel T c n = (d, T', c') -> unmoved c c'.
Proof. unfold detach_tunnel. destruct (tm_remove _ _ _) as [[[d0|] T0] tm]; intros [= <- <- <-]; auto with orbien. Qed.
Lemma claim_unmoved T c n t T' c' r : claim_name T c n t = (T', c', r) -> unmoved c c'.
Proof.
  unfold claim_name, prepare_name_slot. destruct (detach_tunnel T c n) as [[[ty|] T1] c1] eqn:E; apply detach_unmoved in E;
    destruct (try_insert _ _ _); by intros [= <- <- <-].
Qed.
Lemma insert_unmoved T c n rt la ra o ports t T' c' r : insert_tunnel T c n rt la ra o ports t = (T', c', r) -> unmoved c c'.
Proof. unfold insert_tunnel. destruct (tm_insert _ _ _ _); intros [= <- <- <-]; auto with orbien. Qed.
Lemma register_port_unmoved k T c np bind t T' c' r : register_port_tunnel k T c np bind t = (T', c', r) -> unmoved c c'.
Proof.
  unfold register_port_tunnel. destruct (_ || _); [by intros [= <- <- <-]|]. destruct (tunnel_transport np); [|by intros [= <- <- <-]].
  destruct (claim_name _ _ _ _) as [[T1 c1] [o|e]] eqn:Ec; apply claim_unmoved in Ec; [|by intros [= <- <- <-]].
  destruct (claim_port _ _ _ _ _) as [T2 [u|e]]; [|by intros [= <- <- <-]]. destruct bind; [|by intros [= <- <- <-]].
  intros Hi%insert_unmoved. by transitivity c1.
Qed.
Lemma register_http_unmoved T c np t T' c' r : register_http_tunnel T c np t = (T', c', r) -> unmoved c c'.
Proof.
  unfold register_http_tunnel. destruct (tb_http_gw T); [|by intros [= <- <- <-]]. destruct (tunnel_transport np); [|by intros [= <- <- <-]].
  destruct (claim_name _ _ _ _) as [[T1 c1] [o|e]] eqn:Ec; apply claim_unmoved in Ec; [|by intros [= <- <- <-]].
  destruct (http_tunnel_register _ _ _ _ _) as [gw' [tn|e]]; [|by intros [= <- <- <-]]. intros Hi%insert_unmoved. by transitivity c1.
Qed.
Lemma register_https_unmoved T c np t T' c' r : register_https_tunnel T c np t = (T', c', r) -> unmoved c c'.
Proof.
  unfold register_https_tunnel. destruct (tb_https_gw T); [|by intros [= <- <- <-]]. destruct (tunnel_transport np); [|by intros [= <- <- <-]].
  destruct (claim_name _ _ _ _) as [[T1 c1] [o|e]] eqn:Ec; apply claim_unmoved in Ec; [|by intros [= <- <- <-]].
  destruct (https_tunnel_register _ _ _ _ _) as [gw' [tn|e]]; [|by intros [= <- <- <-]]. intros Hi%insert_unmoved. by transitivity c1.
Qed.
Lemma register_unmoved T c np bind t T' c' r : register_tunnel T c np bind t = (T', c', r) -> unmoved c c'.
Proof.
  unfold register_tunnel, register_tcp_tunnel, register_udp_tunnel.
  repeat match goal with |- context [if ?b then _ else _] => destruct b end;
    eauto using register_port_unmoved, register_http_unmoved, register_https_unmoved; by intros [= <- <- <-].
Qed.
Lemma dispatch_unmoved T c m bind w t T' c' r : dispatch T c m bind w t = (T', c', r) -> unmoved c c'.
Proof.
  destruct m; cbn [dispatch]; try (by intros [= <- <- <-]).
  - unfold handle_new_tunnel. destruct (register_tunnel T c m bind t) as [[T1 c1] r1] eqn:E. apply register_unmoved in E.
    unfold send. destruct w; intros [= <- <- <-]; [|done]. transitivity c1; auto with orbien.
  - unfold handle_close_tunnel. destruct (detach_tunnel T c (ct_tunnel_name m)) as [[[ty|] T1] c1] eqn:E; apply detach_unmoved in E; by intros [= <- <- <-].
  - unfold handle_ping, send. destruct w; intros [= <- <- <-]; auto with orbien.
    by transitivity (set_io c (c_data c) (Z.max 0 (now_unix t)) (c_outbox c)); auto with orbien.
Qed.

(** ** Worlds *)

Record World := MkWorld { w_tables : Tables; w_sessions : gmap Z Control }.

Inductive Event :=
| EvLogin (c : Control)
| EvLoginOk (g : Z) (version : string) (write_ok : bool)
| EvLoginErr (g : Z) (version error : string) (write_ok : bool)
| EvMetrics (m : MemMetrics)
| EvMessage (g : Z) (m : Message) (bind : Anyhow unit) (write_ok : bool) (t : Now)
| EvWatchdog (g : Z) (timeout unix_now : Z)
| EvShutdown (g : Z) (t : Now)
| EvKick (g : Z) (reason : string) (write_ok : bool) (t : Now)
| EvDrop (g : Z).

Definition fresh_control (c : Control) : Prop :=
  exists sid g cfg pool user agent host os arch version ip now unix,
    c = control_new sid g cfg pool user agent host os arch version ip now unix.

(** Generations are never reused, and a tunnel's name carries no outer white
    space. *)
Definition event_ok (w : World) (ev : Event) : Prop :=
  match ev with
  | EvLogin c => fresh_control c /\ w_sessions w !! c_generation c = None
  | EvMessage _ m _ _ _ => message_ok m
  | _ => True
  end.

Section Worlds.
Context (drain : TunnelManager -> list (string * TunnelEntry)).

(** The session after an answer that may not have been written. *)
Definition answered (c : Control) (r : Result Control string) : Control :=
  match r with Ok c' => c' | Err _ => c end.

(** What an event does to its session. *)
Definition session_exec (T : Tables) (c : Control) (ev : Event) : Tables * option Control :=
  match ev with
  | EvLogin _ | EvMetrics _ => (T, Some c)
  | EvLoginOk _ v w => (T, Some (answered c (send_login_ok c v w)))
  | EvLoginErr _ v e w => (T, Some (answered c (send_login_err c v e w)))
  | EvMessage _ m bind w t => let '(T, c, _) := dispatch T c m bind w t in (T, Some c)
  | EvWatchdog _ timeout now => (T, Some (watchdog_tick c timeout now).1)
  | EvShutdown _ t => let '(T, c) := shutdown drain T c t in (T, Some c)
  | EvKick _ reason w t => let '(T, c) := kick drain T c reason w t in (T, Some c)
  | EvDrop _ => ((control_drop drain T c true).1, None)
  end.
Definition event_session (ev : Event) : Z :=
  match ev with
  | EvLogin c => c_generation c
  | EvMetrics _ => 0
  | EvLoginOk g _ _ | EvLoginErr g _ _ _ | EvMessage g _ _ _ _ | EvWatchdog g _ _ | EvShutdown g _ | EvKick g _ _ _ | EvDrop g => g
  end.
Definition world_exec (w : World) (ev : Event) : World :=
  match ev with
  | EvLogin c => MkWorld (w_tables w) (<[c_generation c := c]> (w_sessions w))
  | EvMetrics m => MkWorld (set_metrics (w_tables w) m) (w_sessions w)
  | _ =>
      match w_sessions w !! event_session ev with
      | None => w
      | Some c =>
          match session_exec (w_tables w) c ev with
          | (T, Some c') => MkWorld T (<[event_session ev := c']> (w_sessions w))
          | (T, None) => MkWorld T (delete (event_session ev) (w_sessions w))
          end
      end
  end.
Definition world_step (w : World) (ev : Event) (w' : World) : Prop := event_ok w ev /\ w' = world_exec w ev.

Definition session_label (T : Tables) (c : Control) (ev : Event) : SpecLabel :=
  match ev with
  | EvLogin _ | EvMetrics _ | EvLoginOk _ _ _ | EvLoginErr _ _ _ _ | EvWatchdog _ _ _ => SOther
  | EvMessage _ m bind _ t => message_label T c m bind t
  | EvShutdown _ _ | EvKick _ _ _ _ | EvDrop _ => SEnd (owner c)
  end.
Definition event_label (w : World) (ev : Event) : SpecLabel :=
  match ev with
  | EvLogin c => SLogin (owner c)
  | EvMetrics _ => SOther
  | _ => match w_sessions w !! event_session ev with
         | Some c => session_label (w_tables w) c ev
         | None => SOther
         end
  end.

Record world_agrees (w : World) (A : Live) : Prop := {
  wa_tables : tables_agree (w_tables w) A;
  wa_session : forall g c, w_sessions w !! g = Some c ->
    c_generation c = g /\ session_ok c /\ session_agrees c A;
  wa_live : forall n o rt, A !! n = Some (o, rt) ->
    exists g c, w_sessions w !! g = Some c /\ owner c = o }.

Definition world_init (w : World) : Prop :=
  exists hg hsg m, w = MkWorld
    (MkTables ∅ ∅ ∅ (http_gw_new <$> hg) (https_gw_new <$> hsg) m) ∅.

(** ** The invariant *)

Context (drain_all : forall tm, drain tm ≡ₚ map_to_list tm).

Lemma watchdog_same c timeout now :
  let c' := (watchdog_tick c timeout now).1 in
  owner c' = owner c /\ c_tunnels c' = c_tunnels c
  /\ (c_cleaning c' = true \/ c_finished c' = true -> c_cleaning c = true \/ c_finished c = true)
  /\ (c_closed c = true -> c_closed c' = true).
Proof using Type. unfold watchdog_tick. by case_match. Qed.

Lemma session_step T c A ev T' oc :
  pre T c A -> (forall c', ev <> EvLogin c') -> (forall m, ev <> EvMetrics m) ->
  match ev with EvMessage _ m _ _ _ => message_ok m | _ => True end ->
  session_exec T c ev = (T', oc) ->
  exists A', spec_step A (session_label T c ev) A' /\ tables_agree T' A'
    /\ match oc with
       | Some c' => session_agrees c' A' /\ session_ok c' /\ owner c' = owner c
       | None => A' = drop_all (owner c) A
       end.
Proof using drain_all.
  intros Hp Hnl Hnm Hm.
  assert (forall c1, same_session c c1 -> c_tunnels c1 = c_tunnels c ->
    session_agrees c1 A /\ session_ok c1 /\ owner c1 = owner c) as Hio.
  { intros c1 Hss Htm. destruct (pre_io T c A c1 Hp Hss Htm). split; [done|]. split; [done|]. apply Hss. }
  destruct ev as [c0 | g v w | g v e w | m | g m bind w t | g timeout now | g t | g reason w t | g];
    cbn [session_exec session_label].
  - by destruct (Hnl c0).
  - intros [= <- <-]. exists A. split; [constructor|]. split; [apply Hp|].
    unfold send_login_ok, send, answered. destruct w; by apply Hio.
  - intros [= <- <-]. exists A. split; [constructor|]. split; [apply Hp|].
    unfold send_login_err, send, answered. destruct w; by apply Hio.
  - by destruct (Hnm m).
  - destruct (dispatch T c m bind w t) as [[T1 c1] r] eqn:E. intros [= <- <-].
    destruct (dispatch_spec _ _ _ _ _ _ _ _ _ _ Hp Hm E) as (A' & Hs & [] & Hss).
    exists A'. split; [done|]. split; [done|]. split; [done|]. split; [done|]. apply Hss.
  - intros [= <- <-]. exists A. split; [constructor|]. destruct Hp as [Ht Hs Hok]. split; [done|].
    destruct (watchdog_same c timeout now) as (Ho & Htm & Hf & Hc). split; [|split; [|done]].
    + intros n rt. rewrite Ho, Htm. apply Hs.
    + intros H. rewrite Htm. destruct (Hok (Hf H)). auto.
  - destruct (shutdown drain T c t) as [T1 c1] eqn:E. intros [= <- <-].
    destruct (shutdown_spec drain drain_all _ _ _ _ _ _ Hp E) as ([] & Ho & _).
    eexists. split; [constructor|]. done.
  - destruct (kick drain T c reason w t) as [T1 c1] eqn:E. intros [= <- <-].
    destruct (kick_spec drain drain_all _ _ _ _ _ _ _ _ Hp E) as ([] & Ho & _).
    eexists. split; [constructor|]. done.
  - destruct (control_drop drain T c true) as [T1 c1] eqn:E. intros [= <- <-].
    pose proof (drop_spec drain drain_all _ _ _ _ _ Hp E).
    eexists. split; [constructor|]. done.
Qed.

Lemma session_label_owner T c ev o : o <> owner c -> label_owner (session_label T c ev) <> Some o.
Proof using Type. intros Ho. destruct ev; simpl; try congruence. destruct m; simpl; congruence. Qed.

Lemma owner_generation w A g c g' c' :
  world_agrees w A -> w_sessions w !! g = Some c -> w_sessions w !! g' = Some c' ->
  owner c = owner c' -> g = g'.
Proof using Type.
  intros Hw H H' E. destruct (wa_session _ _ Hw _ _ H) as [<- _].
  destruct (wa_session _ _ Hw _ _ H') as [<- _]. by injection E.
Qed.

(** The other sessions do not notice. *)
Lemma world_update w A g c T' A' l (oc : option Control) :
  world_agrees w A -> w_sessions w !! g = Some c -> spec_step A l A' ->
  (forall o, o <> owner c -> label_owner l <> Some o) -> tables_agree T' A' ->
  match oc with
  | Some c' => session_agrees c' A' /\ session_ok c' /\ owner c' = owner c
  | None => A' = drop_all (owner c) A
  end ->
  world_agrees (MkWorld T' (match oc with
                            | Some c' => <[g := c']> (w_sessions w)
                            | None => delete g (w_sessions w)
                            end)) A'.
Proof using Type.
  intros Hw Hg Hs Hl HT Hoc. split; simpl; [done| |].
  - intros g' c1 Hc1.
    assert ((g' = g /\ oc = Some c1) \/ (g' <> g /\ w_sessions w !! g' = Some c1)) as [[-> ->]|[Hne H1]].
    { destruct oc; [apply lookup_insert_Some in Hc1|apply lookup_delete_Some in Hc1]; naive_solver. }
    + destruct Hoc as (Hsa & Hok & Ho). destruct (wa_session _ _ Hw _ _ Hg) as [<- _].
      split; [by injection Ho|done].
    + destruct (wa_session _ _ Hw _ _ H1) as (Hgen & Hok & Hsa). split; [done|]. split; [done|].
      intros n rt. rewrite <- (Hsa n rt). apply (spec_step_others A l A'); [done|]. apply Hl.
      intros E. by destruct Hne, (owner_generation _ _ _ _ _ _ Hw H1 Hg E).
  - intros n o rt HA'. destruct (decide (o = owner c)) as [->|Hne].
    + destruct oc as [c'|].
      * destruct Hoc as (_ & _ & Ho). exists g, c'. by rewrite lookup_insert_eq.
      * subst A'. apply drop_all_lookup in HA' as [_ ?]. done.
    + apply (spec_step_others A l A') in HA'; [|done|by apply Hl].
      destruct (wa_live _ _ Hw _ _ _ HA') as (g' & c' & Hg' & <-). exists g', c'. split; [|done].
      assert (g <> g') by (intros <-; congruence).
      destruct oc; [by rewrite lookup_insert_ne|by rewrite lookup_delete_ne].
Qed.

Lemma world_login w A c :
  world_agrees w A -> fresh_control c -> w_sessions w !! c_generation c = None ->
  spec_step A (SLogin (owner c)) A
  /\ world_agrees (MkWorld (w_tables w) (<[c_generation c := c]> (w_sessions w))) A.
Proof using Type.
  intros Hw Hf Hn.
  assert (forall n rt, A !! n <> Some (owner c, rt)) as Hno.
  { intros n rt H. destruct (wa_live _ _ Hw _ _ _ H) as (g & c' & Hg & E).
    destruct (wa_session _ _ Hw _ _ Hg) as [<- _].
    assert (c_generation c' = c_generation c) as E' by (by injection E). congruence. }
  split; [by constructor|]. split; simpl; [apply Hw| |].
  - intros g' c' [[<- <-]|[_ H]]%lookup_insert_Some; [|by apply (wa_session _ _ Hw)].
    destruct Hf as (? & ? & ? & ? & ? & ? & ? & ? & ? & ? & ? & ? & ? & ->). split; [done|]. split.
    + by intros [?|?].
    + intros n rt. split; [|done]. intros H. by destruct (Hno n rt).
  - intros n o rt H. destruct (wa_live _ _ Hw _ _ _ H) as (g & c' & Hg & E).
    exists g, c'. split; [|done]. rewrite lookup_insert_ne; [done|]. congruence.
Qed.

Lemma world_simulation w A ev :
  world_agrees w A -> event_ok w ev ->
  exists A', spec_step A (event_label w ev) A' /\ world_agrees (world_exec w ev) A'.
Proof using drain_all.
  intros Hw Hok.
  assert ((exists c, ev = EvLogin c) \/ (exists m, ev = EvMetrics m)
    \/ ((forall c, ev <> EvLogin c) /\ (forall m, ev <> EvMetrics m))) as [[c ->]|[[m ->]|[Hnl Hnm]]].
  { destruct ev; eauto; right; right; done. }
  { destruct Hok. exists A. by apply world_login. }
  { exists A. split; [constructor|]. destruct Hw. split; [by apply tables_agree_metrics|done|done]. }
  assert (world_exec w ev = match w_sessions w !! event_session ev with
      | None => w
      | Some c => MkWorld (session_exec (w_tables w) c ev).1
          (match (session_exec (w_tables w) c ev).2 with
           | Some c' => <[event_session ev := c']> (w_sessions w)
           | None => delete (event_session ev) (w_sessions w)
           end)
      end /\ event_label w ev = match w_sessions w !! event_session ev with
         | Some c => session_label (w_tables w) c ev
         | None => SOther
         end) as [-> ->].
  { unfold world_exec. destruct ev; [by destruct (Hnl c)| | |by destruct (Hnm m)|..]; (split; [|done]);
      (destruct (w_sessions w !! _); [|done]); by destruct (session_exec _ _ _) as [? []]. }
  destruct (w_sessions w !! event_session ev) as [c|] eqn:Hg; [|exists A; by auto with orbien].
  destruct (wa_session _ _ Hw _ _ Hg) as (_ & Hsok & Hsa).
  destruct (session_exec (w_tables w) c ev) as [T' oc] eqn:E.
  destruct (session_step (w_tables w) c A ev T' oc) as (A' & Hs & HT & Hoc);
    [split; auto; apply Hw|done|done|by destruct ev|done|].
  exists A'. split; [done|]. eapply world_update; eauto using session_label_owner.
Qed.

(** Nobody but a login, a shutdown, a kick or a drop moves a session: it keeps
    its identity, a closed one stays closed, and only the answer to its login
    lets data connections in. *)
Definition kept (c c' : Control) : Prop := owner c' = owner c /\ (c_closed c = true -> c_closed c' = true).
Definition closing (ev : Event) (g : Z) : bool := match ev with EvShutdown g' _ | EvKick g' _ _ _ => (g' =? g)%Z | _ => false end.
Definition greeting (ev : Event) (g : Z) : bool := match ev with EvLoginOk g' _ _ => (g' =? g)%Z | _ => false end.
Definition moved (ev : Event) (g : Z) (c c' : Control) : Prop :=
  kept c c' /\ (closing ev g = true -> c_closed c' = true) /\ (greeting ev g = false -> c_activated c' = c_activated c).

Lemma shutdown_moved T c t T' c' : shutdown drain T c t = (T', c') -> owner c' = owner c /\ c_closed c' = true /\ c_activated c' = c_activated c.
Proof using Type.
  unfold shutdown. destruct (c_cleaning _); [by intros [= <- <-]|]. destruct (tm_close_all _ _ _) as [[l T1] tm]. by intros [= <- <-].
Qed.
Lemma session_exec_moved T c ev T' c' : session_exec T c ev = (T', Some c') -> moved ev (event_session ev) c c'.
Proof using Type.
  unfold moved, kept. destruct ev as [c0 | g v w | g v e w | m | g m bind w t | g timeout now | g t | g reason w t | g];
    cbn [session_exec event_session closing greeting]; rewrite ?Z.eqb_refl.
  - by intros [= _ <-].
  - intros [= _ <-]. unfold send_login_ok, send, answered. by destruct w.
  - intros [= _ <-]. unfold send_login_err, send, answered. by destruct w.
  - by intros [= _ <-].
  - destruct (dispatch T c m bind w t) as [[T1 c1] r] eqn:E. intros [= _ <-].
    apply dispatch_unmoved in E as [[Ho Hc _ _] Ha]. split; [split; [done|congruence]|done].
  - intros [= _ <-]. unfold watchdog_tick. by case_match.
  - destruct (shutdown drain T c t) as [T1 c1] eqn:E. intros [= _ <-]. by apply shutdown_moved in E as (Ho & Hc & Ha).
  - unfold kick, send. destruct (shutdown drain T _ t) as [T1 c1] eqn:E. intros [= _ <-].
    apply shutdown_moved in E as (Ho & Hc & Ha). by destruct w.
  - by destruct (control_drop drain T c true).
Qed.

Lemma world_exec_sessions w ev g :
  (forall c, ev <> EvLogin c) -> (forall g', ev <> EvDrop g') ->
  match w_sessions (world_exec w ev) !! g, w_sessions w !! g with
  | Some c', Some c => moved ev g c c'
  | None, None => True
  | _, _ => False
  end.
Proof using Type.
  intros Hnl Hnd.
  assert ((exists m, ev = EvMetrics m) \/ (forall m, ev <> EvMetrics m)) as [[m ->]|Hnm] by (destruct ev; eauto).
  { simpl. by destruct (w_sessions w !! g). }
  assert (world_exec w ev = match w_sessions w !! event_session ev with
      | None => w
      | Some c => match session_exec (w_tables w) c ev with
          | (T, Some c') => MkWorld T (<[event_session ev := c']> (w_sessions w))
          | (T, None) => MkWorld T (delete (event_session ev) (w_sessions w))
          end
      end) as ->.
  { destruct ev; try done; [by destruct (Hnl c)|by destruct (Hnm m)]. }
  assert (forall c, w_sessions w !! g = Some c -> event_session ev <> g \/ w_sessions w !! event_session ev = None -> moved ev g c c) as Hother.
  { intros c Hc Hne. split; [done|]. split; [|done]. destruct ev; try done; cbn; intros E%Z.eqb_eq; cbn in Hne; destruct Hne; congruence. }
  destruct (w_sessions w !! event_session ev) as [c|] eqn:Hg.
  - destruct (session_exec (w_tables w) c ev) as [T' oc] eqn:E. destruct oc as [c'|].
    2: { exfalso. revert E. destruct ev; simpl; try done; repeat case_match; try done. by destruct (Hnd g0). }
    apply session_exec_moved in E. simpl. destruct (decide (event_session ev = g)) as [<-|Hne]; [by rewrite lookup_insert_eq, Hg|].
    rewrite lookup_insert_ne by done. destruct (w_sessions w !! g); [auto|done].
  - destruct (w_sessions w !! g) eqn:Hg'; [auto|done].
Qed.

Lemma world_agrees_init w : world_init w -> world_agrees w ∅.
Proof using Type.
  intros (hg & hsg & m & ->). split; [|done|done]. split; simpl; try done.
  - intros p n. split; [done|]. intros [o H]. by rewrite lookup_empty in H.
  - intros p n. split; [done|]. intros [o H]. by rewrite lookup_empty in H.
  - intros gw H k l Hk. destruct hg; [|done]. injection H as <-. done.
  - split; [|done]. intros k r H. destruct hg; [|done]. by destruct H as (l & Hl & _).
  - split; [|done]. intros k r H. by destruct hsg.
Qed.

Lemma reachable_agrees w :
  reachable world_step world_init w -> exists A, world_agrees w A.
Proof using drain_all.
  induction 1 as [w H|w ev w' _ [A HA] [Hok ->]]; [eauto using world_agrees_init|].
  destruct (world_simulation w A ev HA Hok) as (A' & _ & ?). eauto.
Qed.
End Worlds.

(** ** The properties *)

Section Properties.
Context (drain : TunnelManager -> list (string * TunnelEntry))
  (drain_all : forall tm, drain tm ≡ₚ map_to_list tm).

(** The tunnel of a session under a name. *)
Definition holds (w : World) (o : TunnelOwner) (n : string) (rt : RegisteredTunnel) : Prop :=
  exists g c e, w_sessions w !! g = Some c /\ owner c = o /\ c_tunnels c !! n = Some e /\ te_tunnel e = rt.

Lemma holds_live w A o n rt : world_agrees w A -> (A !! n = Some (o, rt) <-> holds w o n rt).
Proof using Type.
  intros Hw. split.
  - intros HA. destruct (wa_live _ _ Hw _ _ _ HA) as (g & c & Hg & <-).
    destruct (wa_session _ _ Hw _ _ Hg) as (_ & _ & Hs). apply Hs in HA.
    destruct (c_tunnels c !! n) as [e|] eqn:E; [|done]. injection HA as <-. by exists g, c, e.
  - intros (g & c & e & Hg & <- & He & <-). destruct (wa_session _ _ Hw _ _ Hg) as (_ & _ & Hs).
    apply Hs. by rewrite He.
Qed.

(** C7: An event of the server is a step of the abstract server, when a login has a
    generation no live session has and a registration names its tunnel without
    outer white space: a login, a message, a heartbeat check, a shutdown, a kick, a
    drop.  A successful registration adds exactly one free name with a free port, a
    failed one adds nothing, closing and ending a session remove exactly its own
    tunnels.  A name with outer white space is not covered, and could not be: the
    server accepts it and never gives it back ([untrimmed_name_leaks]). *)
Theorem server_simulates w A ev w' :
  world_agrees w A -> world_step drain w ev w' ->
  exists A', spec_step A (event_label w ev) A' /\ world_agrees w' A'.
Proof using drain_all. intros Hw [Hok ->]. by apply world_simulation. Qed.

(** In every reachable state the shared tables hold exactly what the live
    tunnels of the live sessions need: a name or a port is taken if and only if
    a session holds the tunnel, and every route of the gateways is a domain of
    a live tunnel of the session it names. *)
Theorem tables_exact w :
  reachable (world_step drain) world_init w ->
  (forall n o, tb_registry (w_tables w) !! n = Some o <-> exists rt, holds w o n rt)
  /\ (forall p n, tb_tcp_ports (w_tables w) !! p = Some n <-> exists o, holds w o n (RTcp n p))
  /\ (forall p n, tb_udp_ports (w_tables w) !! p = Some n <-> exists o, holds w o n (RUdp n p))
  /\ (forall k r, http_rel (tb_http_gw (w_tables w)) k r -> exists h d,
        holds w (hr_control r) (hr_tunnel_name r) (RHttp h) /\ d ∈ ht_domains h /\ k = normalize_host d)
  /\ (forall k r, https_rel (tb_https_gw (w_tables w)) k r -> exists h d,
        holds w (hsr_control r) (hsr_tunnel_name r) (RHttps h) /\ d ∈ hst_domains h /\ k = normalize_host d).
Proof using drain_all.
  intros [A Hw]%reachable_agrees; [|done]. destruct (wa_tables _ _ Hw) as [Hreg _ Htcp Hudp _ [Hh _] [Hs _]].
  split; [|split; [|split; [|split]]].
  - intros n o. rewrite Hreg, lookup_fmap. setoid_rewrite <- (holds_live w A o n _ Hw).
    destruct (A !! n) as [[o' rt]|]; simpl; naive_solver.
  - intros p n. rewrite (Htcp p n). by setoid_rewrite (holds_live w A _ _ _ Hw).
  - intros p n. rewrite (Hudp p n). by setoid_rewrite (holds_live w A _ _ _ Hw).
  - intros k r (rt & ds & d & HA & Hd & Hin & Hk)%Hh. destruct rt; try done. injection Hd as <-.
    exists t, d. by rewrite <- (holds_live w A _ _ _ Hw).
  - intros k r (rt & ds & d & HA & Hd & Hin & Hk)%Hs. destruct rt; try done. injection Hd as <-.
    exists t, d. by rewrite <- (holds_live w A _ _ _ Hw).
Qed.

(** A name is held by one session at a time, whatever the sessions did. *)
Theorem names_exclusive w g1 g2 c1 c2 n :
  reachable (world_step drain) world_init w ->
  w_sessions w !! g1 = Some c1 -> w_sessions w !! g2 = Some c2 ->
  g1 <> g2 -> is_Some (c_tunnels c1 !! n) -> c_tunnels c2 !! n = None.
Proof using drain_all.
  intros [A Hw]%reachable_agrees H1 H2 Hne [e1 He1]; [|done]. apply eq_None_not_Some. intros [e2 He2].
  assert (holds w (owner c1) n (te_tunnel e1)) as HA1%(holds_live _ _ _ _ _ Hw) by (repeat eexists; eauto).
  assert (holds w (owner c2) n (te_tunnel e2)) as HA2%(holds_live _ _ _ _ _ Hw) by (repeat eexists; eauto).
  destruct Hne. eapply owner_generation; eauto. congruence.
Qed.

(** Once every session is gone the shared tables are empty. *)
Theorem no_sessions_no_leaks w :
  reachable (world_step drain) world_init w -> w_sessions w = ∅ ->
  tb_registry (w_tables w) = ∅ /\ tb_tcp_ports (w_tables w) = ∅ /\ tb_udp_ports (w_tables w) = ∅
  /\ (forall k r, ~ http_rel (tb_http_gw (w_tables w)) k r)
  /\ (forall k r, ~ https_rel (tb_https_gw (w_tables w)) k r).
Proof using drain_all.
  intros [A Hw]%reachable_agrees He; [|done].
  assert (A = ∅) as ->.
  { apply map_empty. intros n. destruct (A !! n) as [[o rt]|] eqn:E; [|done].
    destruct (wa_live _ _ Hw _ _ _ E) as (g & c & Hg & _). by rewrite He, lookup_empty in Hg. }
  destruct (wa_tables _ _ Hw) as [Hreg _ Htcp Hudp _ [Hh _] [Hs _]].
  split; [by rewrite Hreg, fmap_empty|]. split; [|split; [|split]].
  - apply map_empty. intros p. apply eq_None_not_Some. intros [n [o Ho]%Htcp]. by rewrite lookup_empty in Ho.
  - apply map_empty. intros p. apply eq_None_not_Some. intros [n [o Ho]%Hudp]. by rewrite lookup_empty in Ho.
  - intros k r (rt & ds & d & HA & _)%Hh. by rewrite lookup_empty in HA.
  - intros k r (rt & ds & d & HA & _)%Hs. by rewrite lookup_empty in HA.
Qed.
End Properties.

Lemma claim_ok_inserts T c n t T' c' o :
  claim_name T c n t = (T', c', Ok o) ->
  o = owner c /\ trim n <> "" /\ c_tunnels c' = delete n (c_tunnels c)
  /\ tb_registry T' !! trim n = Some (owner c).
Proof.
  unfold claim_name, prepare_name_slot, detach_tunnel, tm_remove.
  destruct (c_tunnels c !! n) as [e|] eqn:E;
    (destruct (try_insert _ n (owner c)) as [reg|e'] eqn:Ei; [|done]); intros [= <- <- <-];
    apply try_insert_ok in Ei as (Hne & _ & ->); simpl; rewrite lookup_insert_eq; [done|].
  by rewrite (delete_id _ _ E).
Qed.

(** A TCP or UDP tunnel is answered with success only when its port is a
    valid one; the session then holds the tunnel under its name, on that very
    port, and the answer names the port. *)
Theorem port_registration_exact k T c np bind t T' c' addr :
  register_port_tunnel k T c np bind t = (T', c', Ok addr) ->
  (1 <= nt_remote_port np <= 65535)%Z /\ bind = Ok tt
  /\ addr = ":" ++ show_Z (nt_remote_port np)
  /\ te_tunnel <$> c_tunnels c' !! nt_tunnel_name np
     = Some (port_tunnel k (nt_tunnel_name np) (nt_remote_port np))
  /\ ports_of T' k !! nt_remote_port np = Some (nt_tunnel_name np).
Proof.
  unfold register_port_tunnel.
  destruct ((nt_remote_port np <=? 0)%Z || (65535 <? nt_remote_port np)%Z)%bool eqn:Hr; [done|].
  apply orb_false_iff in Hr as [Hlo Hhi]. zify_bools. rewrite wrap_u_small by (simpl; lia).
  destruct (tunnel_transport np) as [lim|]; [|done].
  destruct (claim_name T c _ t) as [[T1 c1] [o|]] eqn:E; [|done].
  destruct (claim_ok_inserts _ _ _ _ _ _ _ E) as (-> & _ & Htm & _).
  unfold claim_port. destruct (port_claim (ports_of T1 k) _ _) as [tab|] eqn:Ec; [|done].
  destruct bind as [[]|]; [|done]. unfold insert_tunnel, tm_insert. rewrite Htm, lookup_delete_eq.
  intros [= <- <- <-]. apply port_claim_ok in Ec as (_ & _ & ->).
  split; [lia|]. split; [done|]. split; [done|]. simpl. rewrite lookup_insert_eq.
  split; [by destruct k|]. destruct k; simpl; by rewrite lookup_insert_eq.
Qed.

Lemma release_keeps_name T o n d m v :
  tb_registry T !! m = Some v -> m <> n -> tb_registry (release_global_slot T o n d) !! m = Some v.
Proof.
  intros H Hne. assert (tb_registry (release_global_slot T o n d) = remove_if_owner (tb_registry T) n o) as ->.
  { unfold release_global_slot. by repeat case_match. }
  unfold remove_if_owner. case_decide; [|done]. by rewrite lookup_delete_ne.
Qed.

(** A tunnel name with outer white space is entered into the registry
    trimmed and looked for untrimmed when it is released: after the session has
    shut down its name is still taken, and nothing will ever free it. *)
Theorem untrimmed_name_leaks drain k T c np bind t t' T' c' addr :
  (forall tm, drain tm ≡ₚ map_to_list tm) ->
  nt_tunnel_name np <> trim (nt_tunnel_name np) -> c_tunnels c = ∅ -> c_cleaning c = false ->
  register_port_tunnel k T c np bind t = (T', c', Ok addr) ->
  tb_registry (shutdown drain T' c' t').1 !! trim (nt_tunnel_name np) = Some (owner c).
Proof.
  intros Hdrain Hn Hempty Hcl. unfold register_port_tunnel. destruct (_ || _)%bool; [done|].
  destruct (tunnel_transport np) as [lim|]; [|done].
  destruct (claim_name T c _ t) as [[T1 c1] [o|]] eqn:E; [|done].
  assert (c_cleaning c1 = c_cleaning c) as Hcl1.
  { revert E. unfold claim_name, prepare_name_slot, detach_tunnel, tm_remove.
    rewrite Hempty, lookup_empty. case_match; by intros [= <- <- <-]. }
  destruct (claim_ok_inserts _ _ _ _ _ _ _ E) as (-> & _ & Htm & Hreg).
  unfold claim_port. destruct (port_claim _ _ _) as [tab|]; [|done]. destruct bind as [[]|]; [|done].
  unfold insert_tunnel, tm_insert. rewrite Htm, lookup_delete_eq, Hempty, delete_empty, insert_empty.
  intros [= <- <- <-]. unfold shutdown. cbn [c_cleaning signal_close set_flags set_tunnels].
  rewrite Hcl1, Hcl. unfold tm_close_all. cbn [c_tunnels set_flags signal_close set_tunnels fst].
  set (e := MkTunnelEntry _ _).
  assert (drain {[nt_tunnel_name np := e]} = [(nt_tunnel_name np, e)]) as ->.
  { apply Permutation_singleton_r. by rewrite Hdrain, map_to_list_singleton. }
  unfold release_all. cbn [map fold_left tb_registry set_metrics].
  apply release_keeps_name; [|congruence]. subst e. by destruct k.
Qed.

(** ** Witnesses *)

Definition ex_tables : Tables := MkTables ∅ ∅ ∅ (Some (http_gw_new 80)) None (metrics_new (MkNow 0 0 0)).
Definition ex_control (g : Z) : Control :=
  control_new "s" g server_config_default 1 "u" "a" "h" "o" "x" "v" "127.0.0.1" 0 0.
Definition ex_tunnel (name : string) : NewTunnel :=
  MkNewTunnel name "tcp" 8080 "127.0.0.1" 22 [] [] "" "" "" ∅ ∅ (f_of_Z 0) "".
Definition ex_world0 : World := MkWorld ex_tables ∅.
Definition ex_world1 : World := world_exec map_to_list ex_world0 (EvLogin (ex_control 1)).
Definition ex_register : Event := EvMessage 1 (MNewTunnel (ex_tunnel "web")) (Ok tt) true (MkNow 0 0 0).
Definition ex_world2 : World := world_exec map_to_list ex_world1 ex_register.
Definition ex_world3 : World := world_exec map_to_list ex_world2 (EvDrop 1).

Lemma ex_reachable1 : reachable (world_step map_to_list) world_init ex_world1.
Proof.
  eapply (reach_step _ _ ex_world0 (EvLogin (ex_control 1))).
  - apply reach_init. exists (Some 80%Z), None, (metrics_new (MkNow 0 0 0)). reflexivity.
  - split; [|reflexivity]. split; [repeat eexists|reflexivity].
Qed.
Lemma ex_reachable2 : reachable (world_step map_to_list) world_init ex_world2.
Proof. eapply reach_step; [apply ex_reachable1|]. split; [|reflexivity]. by vm_compute. Qed.
Definition ex_world2b : World := world_exec map_to_list ex_world2 (EvLogin (ex_control 2)).
Lemma ex_reachable2b : reachable (world_step map_to_list) world_init ex_world2b.
Proof.
  eapply reach_step; [apply ex_reachable2|]. split; [|reflexivity].
  split; [repeat eexists|vm_compute; reflexivity].
Qed.
Lemma ex_reachable3 : reachable (world_step map_to_list) world_init ex_world3.
Proof. apply (reach_step _ _ ex_world2 (EvDrop 1)); [apply ex_reachable2|]. split; [exact I|reflexivity]. Qed.

Lemma server_simulates_witness :
  exists A, spec_step ∅ (SLogin (MkOwner "s" 1)) A /\ world_agrees ex_world1 A.
Proof.
  apply (server_simulates map_to_list (fun _ => reflexivity _) ex_world0 ∅ (EvLogin (ex_control 1))).
  - apply world_agrees_init. exists (Some 80%Z), None, (metrics_new (MkNow 0 0 0)). reflexivity.
  - split; [|reflexivity]. split; [repeat eexists|reflexivity].
Defined.

Lemma tables_exact_witness : exists o, holds ex_world2 o "web" (RTcp "web" 8080).
Proof.
  destruct (tables_exact map_to_list (fun _ => reflexivity _) ex_world2 ex_reachable2) as (_ & H & _).
  apply (H 8080%Z "web"). vm_compute. reflexivity.
Defined.

Lemma names_exclusive_witness : exists c, w_sessions ex_world2b !! 2%Z = Some c /\ c_tunnels c !! "web" = None.
Proof.
  destruct (w_sessions ex_world2b !! 1%Z) as [c1|] eqn:E1; [|exfalso; revert E1; vm_compute; discriminate].
  destruct (w_sessions ex_world2b !! 2%Z) as [c2|] eqn:E2; [|exfalso; revert E2; vm_compute; discriminate].
  exists c2. split; [reflexivity|].
  apply (names_exclusive map_to_list (fun _ => reflexivity _) ex_world2b 1 2 c1 c2 "web" ex_reachable2b E1 E2);
    [discriminate|].
  revert E1. vm_compute. intros [= <-]. eexists. reflexivity.
Defined.

Lemma no_sessions_no_leaks_witness : tb_tcp_ports (w_tables ex_world3) = ∅.
Proof.
  apply (no_sessions_no_leaks map_to_list (fun _ => reflexivity _) ex_world3 ex_reachable3).
  vm_compute. reflexivity.
Defined.

Lemma port_registration_exact_witness :
  (register_port_tunnel PTcp ex_tables (ex_control 1) (ex_tunnel "web") (Ok tt) (MkNow 0 0 0)).2 = Ok ":8080"
  /\ (1 <= 8080 <= 65535)%Z.
Proof.
  destruct (register_port_tunnel PTcp ex_tables (ex_control 1) (ex_tunnel "web") (Ok tt) (MkNow 0 0 0))
    as [[T' c'] [addr|e]] eqn:E; [|exfalso; revert E; vm_compute; discriminate].
  destruct (port_registration_exact _ _ _ _ _ _ _ _ _ E) as (H & _ & -> & _).
  split; [vm_compute; reflexivity|exact H].
Defined.

Lemma untrimmed_name_leaks_witness :
  exists T' c', tb_registry (shutdown map_to_list T' c' (MkNow 0 0 0)).1 !! "web" = Some (MkOwner "s" 1).
Proof.
  destruct (register_port_tunnel PTcp ex_tables (ex_control 1) (ex_tunnel " web") (Ok tt) (MkNow 0 0 0))
    as [[T' c'] [addr|e]] eqn:E; [|exfalso; revert E; vm_compute; discriminate].
  exists T', c'.
  apply (untrimmed_name_leaks map_to_list PTcp ex_tables (ex_control 1) (ex_tunnel " web") (Ok tt)
           (MkNow 0 0 0) (MkNow 0 0 0) T' c' addr); [done|discriminate|done|done|exact E].
Defined.
