(* ===== verification/Auth.v ===== *)
(** * Login authentication

    [core/src/auth]: the keyed digest of a login's time stamp, the window the
    stamp must lie in, and the cache that refuses a digest seen before.
    HMAC-SHA256 and the hexadecimal codec are parameters ([Crypto]); what the
    code relies on is [CryptoLaws].  Instants are nanoseconds of a monotonic
    clock.  The arithmetic is that of a release build: [i64] wraps. *)

From S2P Require Import Prelude RustStr.

Local Open Scope string_scope.

Definition AUTH_SKEW_SECS : Z := 180.
Definition REPLAY_TTL_SECS : Z := 360.
Definition REPLAY_MAX_ENTRIES : Z := 100000.
Definition nanos (secs : Z) : Z := secs * 1000000000.

Inductive AuthFailure := EmptyDigest | InvalidDigest | TimestampSkew | Replay | Capacity.

#[global] Instance AuthFailure_eq_dec : EqDecision AuthFailure.
Proof. solve_decision. Defined.

Definition auth_failure_str (f : AuthFailure) : string :=
  match f with
  | EmptyDigest => "empty authentication digest"
  | InvalidDigest => "invalid authentication digest"
  | TimestampSkew => "timestamp outside allowed window"
  | Replay => "authentication digest reused"
  | Capacity => "authentication replay cache full"
  end.

(** ** The replay cache: digest to expiry *)

Abbreviation ReplayCache := (gmap string Z).

Definition purge_expired (map : ReplayCache) (now : Z) : ReplayCache :=
  filter (fun '(_, exp) => (now < exp)%Z) map.

Definition accept_at (map : ReplayCache) (digest : string) (now : Z) : ReplayCache * Result unit AuthFailure :=
  let map := purge_expired map now in
  if decide (is_Some (map !! digest)) then (map, Err Replay)
  else if (REPLAY_MAX_ENTRIES <=? Z.of_nat (size map))%Z then (map, Err Capacity)
  else (<[digest := (now + nanos REPLAY_TTL_SECS)%Z]> map, Ok tt).

(** ** Digests *)

Class Crypto := {
  hmac : string -> string -> string;
  hex_encode : string -> string;
  hex_decode : string -> option string }.

(** Decoding undoes encoding, and a digest is not empty. *)
Class CryptoLaws `{Crypto} := {
  hex_decode_encode : forall b, hex_decode (hex_encode b) = Some b;
  hex_encode_nonempty : forall k m, hex_encode (hmac k m) <> "" }.

Section Digest.
Context `{Crypto}.

Definition compute_auth_digest (token : string) (timestamp : Z) : string :=
  hex_encode (hmac token (show_Z timestamp)).

Definition i64_abs (z : Z) : Z := wrap_i 64 (Z.abs z).

Definition verify_auth_digest (token auth_digest : string) (timestamp now_secs : Z)
    (replay : option ReplayCache) (instant : Z) : option ReplayCache * Result unit AuthFailure :=
  if is_empty token then (replay, Ok tt)
  else if is_empty auth_digest then (replay, Err EmptyDigest)
  else if (AUTH_SKEW_SECS <? i64_abs (wrap_i 64 (now_secs - timestamp)))%Z then (replay, Err TimestampSkew)
  else match hex_decode auth_digest with
  | None => (replay, Err InvalidDigest)
  | Some expected =>
      if negb (String.eqb (hmac token (show_Z timestamp)) expected) then (replay, Err InvalidDigest)
      else match replay with
      | None => (None, Ok tt)
      | Some cache => let '(cache, r) := accept_at cache auth_digest instant in (Some cache, r)
      end
  end.

Definition verify_login (token auth_digest : string) (timestamp now_secs : Z) (replay : ReplayCache)
    (instant : Z) : ReplayCache * Result unit AuthFailure :=
  match verify_auth_digest token auth_digest timestamp now_secs (Some replay) instant with
  | (Some c, r) => (c, r)
  | (None, r) => (replay, r)
  end.
End Digest.
Definition unix_now_secs (since_epoch : option Z) : Z := default 0%Z since_epoch.

(** ** Lemmas on the cache *)

Definition live (map : ReplayCache) (d : string) (now : Z) : Prop :=
  exists e, map !! d = Some e /\ (now < e)%Z.

Lemma purge_lookup map now d e : purge_expired map now !! d = Some e <-> map !! d = Some e /\ (now < e)%Z.
Proof. apply map_lookup_filter_Some. Qed.
Lemma purge_is_some map now d : is_Some (purge_expired map now !! d) <-> live map d now.
Proof.
  split; [intros [e H%purge_lookup]; by exists e|]. intros (e & H). exists e. by apply purge_lookup.
Qed.
Lemma purge_size map now : (size (purge_expired map now) <= size map)%nat.
Proof. apply map_subseteq_size, map_filter_subseteq. Qed.

Lemma accept_at_ok map d now :
  ~ live map d now -> (Z.of_nat (size (purge_expired map now)) < REPLAY_MAX_ENTRIES)%Z ->
  accept_at map d now = (<[d := (now + nanos REPLAY_TTL_SECS)%Z]> (purge_expired map now), Ok tt).
Proof.
  intros Hl Hs. unfold accept_at. rewrite decide_False by (by rewrite purge_is_some).
  destruct (Z.leb_spec REPLAY_MAX_ENTRIES (Z.of_nat (size (purge_expired map now)))); [lia|done].
Qed.
Lemma accept_at_inv map d now map' r :
  accept_at map d now = (map', r) ->
  match r with
  | Ok _ => ~ live map d now /\ live map' d (now + nanos REPLAY_TTL_SECS - 1)
  | Err Replay => live map d now
  | Err _ => (REPLAY_MAX_ENTRIES <= Z.of_nat (size map'))%Z
  end.
Proof.
  unfold accept_at. case_decide as Hd; [intros [= <- <-]; by rewrite <- purge_is_some|].
  destruct (Z.leb_spec REPLAY_MAX_ENTRIES (Z.of_nat (size (purge_expired map now)))); intros [= <- <-]; [done|].
  split; [by rewrite <- purge_is_some|]. eexists. rewrite lookup_insert_eq. split; [done|lia].
Qed.
(** An entry stays until it expires. *)
Lemma accept_at_keeps map d now map' r d0 t :
  accept_at map d now = (map', r) -> (now <= t)%Z -> live map d0 t -> live map' d0 t.
Proof.
  intros Ha Ht (e & He & Hlt). unfold accept_at in Ha.
  assert (purge_expired map now !! d0 = Some e) as Hp by (apply purge_lookup; split; [done|lia]).
  case_decide as Hd; [injection Ha as <- <-; by exists e|].
  destruct (REPLAY_MAX_ENTRIES <=? _)%Z; injection Ha as <- <-; [by exists e|].
  exists e. rewrite lookup_insert_ne; [done|]. intros ->. destruct Hd. by exists e.
Qed.

Lemma size_insert_le (map : ReplayCache) d e : (size (<[d := e]> map) <= S (size map))%nat.
Proof. rewrite map_size_insert. destruct (map !! d); unfold id; lia. Qed.

(** A run of logins: the digest and the instant of each. *)
Fixpoint accept_all (map : ReplayCache) (l : list (string * Z)) : ReplayCache :=
  match l with
  | [] => map
  | (d, now) :: l => accept_all (accept_at map d now).1 l
  end.

Lemma accept_all_keeps l : forall map d t,
  Forall (fun x => (x.2 <= t)%Z) l -> live map d t -> live (accept_all map l) d t.
Proof.
  induction l as [|[d' now] l IH]; simpl; intros map d t Hl Hd; [done|].
  apply Forall_cons in Hl as [Hn Hl]. apply IH; [done|].
  destruct (accept_at map d' now) as [map' r] eqn:E. by eapply accept_at_keeps.
Qed.

(** ** The properties *)

(** C8: a login digest that was accepted is refused for the next 360 seconds,
    whatever other logins are tried in between and however they end. *)
Theorem replay_refused map d t0 map1 l t :
  accept_at map d t0 = (map1, Ok tt) ->
  Forall (fun x => (x.2 <= t)%Z) l -> (t < t0 + nanos REPLAY_TTL_SECS)%Z ->
  (accept_at (accept_all map1 l) d t).2 = Err Replay.
Proof.
  intros Ha%accept_at_inv Hl Ht. destruct Ha as [_ (e & He & Hlt)].
  assert (live (accept_all map1 l) d t) as Hlive.
  { apply accept_all_keeps; [done|]. exists e. split; [done|lia]. }
  unfold accept_at. by rewrite decide_True by (by rewrite purge_is_some).
Qed.

(** The replay cache never holds more than 100000 digests. *)
Theorem replay_cache_bounded map d now :
  (Z.of_nat (size map) <= REPLAY_MAX_ENTRIES)%Z -> (Z.of_nat (size (accept_at map d now).1) <= REPLAY_MAX_ENTRIES)%Z.
Proof.
  intros Hs. pose proof (purge_size map now). unfold accept_at. case_decide; [simpl; lia|].
  destruct (Z.leb_spec REPLAY_MAX_ENTRIES (Z.of_nat (size (purge_expired map now)))); [simpl; lia|].
  cbn [fst]. pose proof (size_insert_le (purge_expired map now) d (now + nanos REPLAY_TTL_SECS)). lia.
Qed.

(** ** Digests *)

Lemma skew_spec now ts :
  (0 <= now <= 2 ^ 62)%Z -> in_i64 ts ->
  ((AUTH_SKEW_SECS <? i64_abs (wrap_i 64 (now - ts)))%Z = false
   <-> (Z.abs (now - ts) <= AUTH_SKEW_SECS)%Z \/ ts = (now - 2 ^ 63)%Z).
Proof.
  intros Hn Ht. unfold in_i64, i64_min, i64_max in Ht. unfold AUTH_SKEW_SECS.
  assert (2 ^ 62 = 4611686018427387904 /\ 2 ^ 63 = 9223372036854775808 /\ 2 ^ 64 = 18446744073709551616)%Z
    as (E62 & E63 & E64) by done.
  rewrite Z.ltb_ge. unfold i64_abs. rewrite E62, E63 in *.
  assert (forall z, (-9223372036854775808 <= z < 9223372036854775808)%Z -> wrap_i 64 z = z) as Hsmall
    by (intros; by apply wrap_i_small).
  destruct (Z.lt_ge_cases (now - ts) 9223372036854775808) as [Hlt|Hge].
  - rewrite (Hsmall (now - ts)%Z), Hsmall by lia. lia.
  - assert (wrap_i 64 (now - ts) = now - ts - 18446744073709551616)%Z as ->.
    { unfold wrap_i. change (64 - 1)%Z with 63%Z. rewrite E63, E64.
      replace (now - ts + 9223372036854775808)%Z
        with (now - ts - 9223372036854775808 + 1 * 18446744073709551616)%Z by lia.
      rewrite Z.mod_add, Z.mod_small by lia. lia. }
    destruct (Z.eq_dec ts (now - 9223372036854775808)) as [->|Hne].
    + replace (Z.abs _) with 9223372036854775808%Z by lia.
      assert (wrap_i 64 9223372036854775808 = -9223372036854775808)%Z as -> by done. lia.
    + rewrite Hsmall by lia. lia.
Qed.

Section DigestProperties.
Context `{CryptoLaws}.

Definition digest_ok (token d : string) (ts now : Z) : Prop :=
  d <> "" /\ hex_decode d = Some (hmac token (show_Z ts))
  /\ ((Z.abs (now - ts) <= AUTH_SKEW_SECS)%Z \/ ts = (now - 2 ^ 63)%Z).

Lemma verify_split token d ts now replay i :
  token <> "" -> (0 <= now <= 2 ^ 62)%Z -> in_i64 ts ->
  (digest_ok token d ts now /\ verify_auth_digest token d ts now replay i =
     match replay with
     | None => (None, Ok tt)
     | Some c => (Some (accept_at c d i).1, (accept_at c d i).2)
     end)
  \/ (~ digest_ok token d ts now /\ exists e, verify_auth_digest token d ts now replay i = (replay, Err e)
        /\ e <> Replay).
Proof using Type.
  intros Htok Hn Ht. unfold verify_auth_digest, digest_ok.
  destruct (is_empty token) eqn:E; [by apply is_empty_true in E|].
  destruct (is_empty d) eqn:Ed; [apply is_empty_true in Ed; right; naive_solver|].
  apply is_empty_false in Ed. pose proof (skew_spec now ts Hn Ht) as Hsk.
  destruct (_ <? _)%Z; [right; split; [|by eexists]; naive_solver|].
  destruct (hex_decode d) as [b|]; [|right; split; [|by eexists]; naive_solver].
  destruct (String.eqb_spec (hmac token (show_Z ts)) b) as [->|Hne]; simpl.
  - left. split; [split; [done|]; split; [done|]; by apply Hsk|]. destruct replay; [|done].
    by destruct (accept_at _ _ _).
  - right. split; [naive_solver|by eexists].
Qed.

(** A data connection is authenticated exactly when its digest is the keyed
    digest of its time stamp and the stamp is at most 180 seconds away - or
    exactly 2^63 seconds in the past, where [i64::abs] wraps. *)
Theorem data_conn_auth token d ts now i :
  token <> "" -> (0 <= now <= 2 ^ 62)%Z -> in_i64 ts ->
  ((verify_auth_digest token d ts now None i).2 = Ok tt <-> digest_ok token d ts now).
Proof using Type.
  intros Htok Hn Ht.
  destruct (verify_split token d ts now None i Htok Hn Ht) as [[H1 ->]|[H1 (e & -> & _)]]; naive_solver.
Qed.

(** A client that knows the token and whose clock is at most 180 seconds off
    logs in, unless it logged in with that very time stamp before or the cache
    is full. *)
Theorem honest_login_accepted token ts now map i :
  (0 <= now <= 2 ^ 62)%Z -> in_i64 ts -> (Z.abs (now - ts) <= AUTH_SKEW_SECS)%Z ->
  (Z.of_nat (size map) < REPLAY_MAX_ENTRIES)%Z -> ~ live map (compute_auth_digest token ts) i ->
  (verify_login token (compute_auth_digest token ts) ts now map i).2 = Ok tt.
Proof using Type*.
  intros Hn Ht Hs Hsz Hl. unfold verify_login.
  destruct (decide (token = "")) as [->|Htok]; [done|].
  destruct (verify_split token (compute_auth_digest token ts) ts now (Some map) i Htok Hn Ht)
    as [[_ ->]|[Hno _]].
  - rewrite accept_at_ok; [done|done|]. pose proof (purge_size map i). lia.
  - destruct Hno. split; [apply hex_encode_nonempty|]. split; [apply hex_decode_encode|by left].
Qed.

(** A login that failed authentication leaves the replay cache alone, so it
    cannot fill it; one that succeeded has its digest in it. *)
Theorem failed_login_leaves_cache token d ts now map i map' r :
  token <> "" -> (0 <= now <= 2 ^ 62)%Z -> in_i64 ts ->
  verify_login token d ts now map i = (map', r) ->
  (~ digest_ok token d ts now -> map' = map /\ r <> Ok tt) /\ (r = Ok tt -> digest_ok token d ts now /\ live map' d i).
Proof using Type.
  intros Htok Hn Ht. unfold verify_login.
  destruct (verify_split token d ts now (Some map) i Htok Hn Ht) as [[H1 ->]|[H1 (e & -> & _)]].
  - destruct (accept_at map d i) as [c r0] eqn:E. intros [= <- <-]. split; [done|].
    intros ->. split; [done|]. apply accept_at_inv in E as [_ (e & He & Hlt)].
    exists e. split; [done|]. unfold nanos, REPLAY_TTL_SECS in Hlt. lia.
  - intros [= <- <-]. naive_solver.
Qed.

(** The replay cache compares digests as text while verification decodes
    them: a captured login is accepted again when its digest is written with
    letters of the other case. *)
Theorem respelled_digest_replayed token d d' ts now now' map i i' :
  token <> "" -> (0 <= now <= 2 ^ 62)%Z -> (0 <= now' <= 2 ^ 62)%Z -> in_i64 ts ->
  d' <> d -> d' <> "" -> hex_decode d' = hex_decode d ->
  (verify_login token d ts now map i).2 = Ok tt -> (Z.abs (now' - ts) <= AUTH_SKEW_SECS)%Z ->
  ~ live map d' i' -> (i <= i')%Z -> (Z.of_nat (size map) + 1 < REPLAY_MAX_ENTRIES)%Z ->
  (verify_login token d' ts now' (verify_login token d ts now map i).1 i').2 = Ok tt.
Proof using Type.
  intros Htok Hn Hn' Ht Hne Hne' Hdec Hok Hs Hl Hi Hsz. unfold verify_login in *.
  destruct (verify_split token d ts now (Some map) i Htok Hn Ht) as [[(_ & Hd & _) E]|[_ (e & E & _)]];
    rewrite E in *; [|done].
  destruct (accept_at map d i) as [c r0] eqn:Ea. simpl in Hok. subst r0.
  destruct (verify_split token d' ts now' (Some c) i' Htok Hn' Ht) as [[_ E']|[Hno _]].
  - cbn [fst snd]. rewrite E'. rewrite accept_at_ok; [done| |].
    + intros (e & He & Hlt). apply Hl. unfold accept_at in Ea. case_decide; [done|].
      destruct (_ <=? _)%Z; [done|]. injection Ea as <-. rewrite lookup_insert_ne in He by done.
      apply purge_lookup in He as [? _]. by exists e.
    + pose proof (purge_size c i'). pose proof (purge_size map i). unfold accept_at in Ea.
      case_decide; [done|]. destruct (_ <=? _)%Z; [done|]. injection Ea as <-.
      pose proof (size_insert_le (purge_expired map i) d (i + nanos REPLAY_TTL_SECS)). lia.
  - destruct Hno. split; [done|]. split; [by rewrite Hdec|by left].
Qed.

(** The cache forgets a digest after 360 seconds and a stamp stays valid for
    361 of them: a login made when the server's clock was 180 seconds behind
    its stamp is accepted again, unchanged, when it is 180 seconds ahead. *)
Theorem replay_at_window_edge token d ts i i' map :
  token <> "" -> (180 <= ts <= 2 ^ 61)%Z -> (i + nanos REPLAY_TTL_SECS <= i')%Z ->
  map = ∅ -> (verify_login token d ts (ts - 180) map i).2 = Ok tt ->
  (verify_login token d ts (ts + 180) (verify_login token d ts (ts - 180) map i).1 i').2 = Ok tt.
Proof using Type.
  intros Htok Ht Hi -> Hok. assert (in_i64 ts) as Hts by (unfold in_i64, i64_min, i64_max; lia).
  unfold verify_login in *.
  destruct (verify_split token d ts (ts - 180) (Some ∅) i Htok ltac:(lia) Hts)
    as [[Hd E]|[_ (e & E & _)]]; rewrite E in *; [|done].
  destruct (accept_at ∅ d i) as [c r0] eqn:Ea. simpl in Hok. subst r0. cbn [fst snd].
  destruct (verify_split token d ts (ts + 180) (Some c) i' Htok ltac:(lia) Hts) as [[_ E']|[Hno _]].
  - rewrite E'. assert (c = {[d := (i + nanos REPLAY_TTL_SECS)%Z]}) as ->.
    { rewrite accept_at_ok in Ea; [by injection Ea as <-| |].
      - intros (e & He & _). by rewrite lookup_empty in He.
      - unfold purge_expired. by rewrite map_filter_empty, map_size_empty. }
    rewrite accept_at_ok; [done| |].
    + intros (e & He & Hlt). rewrite lookup_singleton_eq in He. injection He as <-. lia.
    + pose proof (purge_size {[d := (i + nanos REPLAY_TTL_SECS)%Z]} i') as Hp.
      rewrite map_size_singleton in Hp. unfold REPLAY_MAX_ENTRIES. lia.
  - destruct Hno. destruct Hd as (? & ? & _). split; [done|]. split; [done|]. left. unfold AUTH_SKEW_SECS. lia.
Qed.
End DigestProperties.

(** ** Witnesses, with a concrete codec and a keyed concatenation as the digest *)

Definition hex_value (c : ascii) : option N :=
  let n := N_of_ascii c in
  if (48 <=? n)%N && (n <=? 57)%N then Some (n - 48)%N
  else if (97 <=? n)%N && (n <=? 102)%N then Some (n - 87)%N
  else if (65 <=? n)%N && (n <=? 70)%N then Some (n - 55)%N
  else None.
Fixpoint hex_print (s : string) : string :=
  match s with
  | "" => ""
  | String c s => String (hex_digit (N_of_ascii c / 16)) (String (hex_digit (N_of_ascii c mod 16)) (hex_print s))
  end.
Fixpoint hex_read (s : string) : option string :=
  match s with
  | "" => Some ""
  | String a (String b s) =>
      match hex_value a, hex_value b, hex_read s with
      | Some x, Some y, Some r => Some (String (ascii_of_N (16 * x + y)) r)
      | _, _, _ => None
      end
  | String _ "" => None
  end.

#[local] Instance ex_crypto : Crypto :=
  {| hmac k m := "h" ++ k ++ m; hex_encode := hex_print; hex_decode := hex_read |}.
#[local] Instance ex_crypto_laws : CryptoLaws.
Proof.
  split; [|done]. intros b. cbn [hex_decode hex_encode ex_crypto]. induction b as [|c b IH]; [done|].
  cbn [hex_print hex_read]. rewrite IH. by destruct c as [[] [] [] [] [] [] [] []].
Qed.

(** The digest of a login with token [oK] at time stamp 1000: ["hoK1000"]. *)
Definition ex_digest : string := "686f4b31303030".

Lemma replay_refused_witness : (accept_at (accept_at ∅ "a" 5).1 "a" (nanos 360)).2 = Err Replay.
Proof.
  destruct (accept_at ∅ "a" 5) as [map1 r] eqn:E. assert (r = Ok tt) as -> by (by injection E as _ <-).
  apply (replay_refused ∅ "a" 5 map1 [] (nanos 360) E); [constructor|unfold nanos, REPLAY_TTL_SECS; lia].
Defined.

Lemma replay_cache_bounded_witness : (Z.of_nat (size (accept_at ∅ "a" 5).1) <= 100000)%Z.
Proof. apply (replay_cache_bounded ∅ "a" 5). rewrite map_size_empty. unfold REPLAY_MAX_ENTRIES. lia. Defined.

Lemma data_conn_auth_witness : digest_ok "oK" ex_digest 1000 1100.
Proof.
  apply (data_conn_auth "oK" ex_digest 1000 1100 0);
    [discriminate|lia|unfold in_i64, i64_min, i64_max; lia|vm_compute; reflexivity].
Defined.

Lemma honest_login_accepted_witness : (verify_login "oK" (compute_auth_digest "oK" 1000) 1000 900 ∅ 0).2 = Ok tt.
Proof.
  apply (honest_login_accepted "oK" 1000 900 ∅ 0); [lia|unfold in_i64, i64_min, i64_max; lia|vm_compute; discriminate| |].
  - rewrite map_size_empty. unfold REPLAY_MAX_ENTRIES. lia.
  - intros (e & He & _). rewrite lookup_empty in He. discriminate.
Defined.

Lemma failed_login_leaves_cache_witness : (verify_login "oK" "00" 1000 1000 {["x" := 7%Z]} 0).1 = {["x" := 7%Z]}.
Proof.
  destruct (verify_login "oK" "00" 1000 1000 {["x" := 7%Z]} 0) as [map' r] eqn:E.
  apply (failed_login_leaves_cache "oK" "00" 1000 1000 {["x" := 7%Z]} 0 map' r
    ltac:(discriminate) ltac:(lia) ltac:(unfold in_i64, i64_min, i64_max; lia) E).
  intros (_ & H & _). vm_compute in H. discriminate.
Defined.

Lemma respelled_digest_replayed_witness :
  (verify_login "oK" "686F4B31303030" 1000 1001 (verify_login "oK" ex_digest 1000 1000 ∅ 0).1 (nanos 1)).2 = Ok tt.
Proof.
  apply (respelled_digest_replayed "oK" ex_digest "686F4B31303030" 1000 1000 1001 ∅ 0 (nanos 1));
    try discriminate; try lia; try reflexivity.
  - unfold in_i64, i64_min, i64_max; lia.
  - intros (e & He & _). rewrite lookup_empty in He. discriminate.
Defined.

Lemma replay_at_window_edge_witness :
  (verify_login "oK" ex_digest 1000 1180 (verify_login "oK" ex_digest 1000 820 ∅ 0).1 (nanos 360)).2 = Ok tt.
Proof.
  apply (replay_at_window_edge "oK" ex_digest 1000 0 (nanos 360) ∅); try discriminate; try lia; reflexivity.
Defined.
