(* ===== verification/Agents.v ===== *)
(** * The agents of the server

    [server/src/service/agent_registry.rs]: which agent (user and agent id) is
    online through which session, and the identifiers a client may send.
    Both mutexes are held for the whole of an operation, so operations are
    atomic. *)

From S2P Require Import Prelude RustStr.

Local Open Scope string_scope.

Definition MAX_AGENT_ID_LEN : Z := 64.
Definition MAX_SESSION_ID_LEN : Z := 64.
Definition MAX_USER_LEN : Z := 64.

Record AgentEntry := MkAgent {
  ae_user : string; ae_agent_id : string; ae_session_id : string; ae_generation : Z;
  ae_hostname : string; ae_os : string; ae_arch : string; ae_client_ip : string; ae_version : string;
  ae_tunnel_count : Z; ae_online : bool; ae_disconnected_at : option Z }.

Record AgentOnlineSpec := MkSpec {
  sp_user : string; sp_agent_id : string; sp_session_id : string; sp_generation : Z;
  sp_hostname : string; sp_os : string; sp_arch : string; sp_client_ip : string; sp_version : string }.

Inductive AgentRegisterError := Conflict.

Record AgentRegistry := MkAgents { by_key : gmap string AgentEntry; by_session : gmap string string }.
Definition agents_new : AgentRegistry := MkAgents ∅ ∅.

Definition compose_key (user id : string) : string :=
  if is_empty user then id
  else if is_empty id then user
  else user ++ "." ++ id.

Definition set_offline (e : AgentEntry) (now tunnel_count : Z) : AgentEntry :=
  MkAgent (ae_user e) (ae_agent_id e) (ae_session_id e) 0 (ae_hostname e) (ae_os e) (ae_arch e)
    (ae_client_ip e) (ae_version e) tunnel_count false (Some now).

Definition online_entry (s : AgentOnlineSpec) (tunnel_count : Z) : AgentEntry :=
  MkAgent (sp_user s) (sp_agent_id s) (sp_session_id s) (sp_generation s) (sp_hostname s) (sp_os s)
    (sp_arch s) (sp_client_ip s) (sp_version s) tunnel_count true None.

Definition spec_key (s : AgentOnlineSpec) : string :=
  compose_key (sp_user s) (if is_empty (sp_agent_id s) then sp_session_id s else sp_agent_id s).

(** The agent is online through another session. *)
Definition conflicts (r : AgentRegistry) (s : AgentOnlineSpec) : bool :=
  negb (is_empty (sp_agent_id s)) &&
  match by_key r !! spec_key s with
  | Some e => ae_online e && negb (is_empty (ae_session_id e))
              && negb (String.eqb (ae_session_id e) (sp_session_id s))
  | None => false
  end.

(** The session leaves the agent it had under another key. *)
Definition leave_previous (r : AgentRegistry) (s : AgentOnlineSpec) (key : string) (now : Z) : AgentRegistry :=
  match by_session r !! sp_session_id s with
  | Some prev_key =>
      if String.eqb prev_key key then r else
      let bk :=
        match by_key r !! prev_key with
        | Some prev =>
            if String.eqb (ae_session_id prev) (sp_session_id s) then
              if is_empty (ae_agent_id prev) then delete prev_key (by_key r)
              else <[prev_key := set_offline prev now (ae_tunnel_count prev)]> (by_key r)
            else by_key r
        | None => by_key r
        end in
      MkAgents bk (delete (sp_session_id s) (by_session r))
  | None => r
  end.

Definition enter (r : AgentRegistry) (s : AgentOnlineSpec) (key : string) : AgentRegistry :=
  let '(bk, bs) :=
    match by_key r !! key with
    | Some e =>
        (<[key := online_entry s (ae_tunnel_count e)]> (by_key r),
         if negb (is_empty (ae_session_id e)) && negb (String.eqb (ae_session_id e) (sp_session_id s))
         then delete (ae_session_id e) (by_session r) else by_session r)
    | None => (<[key := online_entry s 0]> (by_key r), by_session r)
    end in
  MkAgents bk (<[sp_session_id s := key]> bs).

Definition try_online (r : AgentRegistry) (s : AgentOnlineSpec) (now : Z)
    : AgentRegistry * Result string AgentRegisterError :=
  let key := spec_key s in
  if conflicts r s then (r, Err Conflict)
  else (enter (leave_previous r s key now) s key, Ok key).

Definition agent_release (r : AgentRegistry) (session_id : string) (generation tunnel_count now : Z)
    : AgentRegistry :=
  match by_session r !! session_id with
  | None => r
  | Some key =>
      match by_key r !! key with
      | None => MkAgents (by_key r) (delete session_id (by_session r))
      | Some e =>
          if negb (String.eqb (ae_session_id e) session_id) || negb (ae_generation e =? generation)%Z then r
          else
            let bs := delete session_id (by_session r) in
            if is_empty (ae_agent_id e) then MkAgents (delete key (by_key r)) bs
            else MkAgents (<[key := set_offline e now tunnel_count]> (by_key r)) bs
      end
  end.

Definition agents_list (r : AgentRegistry) : list AgentEntry := (map_to_list (by_key r)).*2.

(** [char::is_control] on the encoded text: C0, DEL and C1 (which UTF-8 writes
    as C2 followed by 80-9F). *)
Fixpoint has_control (s : string) : bool :=
  match s with
  | "" => false
  | String a s' =>
      (code a <? 32)%N || (code a =? 127)%N
      || ((code a =? 194)%N && match s' with String b _ => in_range 128 159 b | "" => false end)
      || has_control s'
  end.

Definition sanitize_wire_id (raw : string) (max_len : Z) : Result string string :=
  let s := trim raw in
  if is_empty s then Ok ""
  else if (max_len <? slen s)%Z then Err "identifier too long"
  else if has_control s then Err "identifier contains control characters"
  else Ok s.

(** ** The invariant *)

(** A session is filed under an agent that is online through it, and every
    agent has had a session. *)
Record agents_ok (r : AgentRegistry) : Prop := {
  ao_filed : forall sid key, by_session r !! sid = Some key ->
    exists e, by_key r !! key = Some e /\ ae_session_id e = sid /\ ae_online e = true;
  ao_named : forall key e, by_key r !! key = Some e -> ae_session_id e <> "" }.

Lemma agents_ok_new : agents_ok agents_new.
Proof. split; intros ? ? H; simpl in H; by rewrite lookup_empty in H. Qed.

Lemma leave_previous_ok r s now :
  agents_ok r -> agents_ok (leave_previous r s (spec_key s) now)
  /\ (forall k, by_session (leave_previous r s (spec_key s) now) !! sp_session_id s = Some k -> k = spec_key s).
Proof.
  intros [Hf Hn]. unfold leave_previous.
  destruct (by_session r !! sp_session_id s) as [pk|] eqn:Es; [|split; [done|congruence]].
  destruct (String.eqb_spec pk (spec_key s)) as [->|Hne]; [split; [done|congruence]|].
  destruct (Hf _ _ Es) as (prev & Hp & Hs & Ho). rewrite Hp, Hs, String.eqb_refl. simpl.
  split; [split; simpl|intros k; by rewrite lookup_delete_eq].
  - intros sid key [Hns Hk]%lookup_delete_Some. destruct (Hf _ _ Hk) as (e & He & Hes & Heo).
    assert (key <> pk) by (intros ->; congruence).
    exists e. split; [|done]. by destruct (is_empty (ae_agent_id prev));
      [rewrite lookup_delete_ne|rewrite lookup_insert_ne].
  - intros key e. destruct (is_empty (ae_agent_id prev)).
    + intros [_ H]%lookup_delete_Some. by eapply Hn.
    + intros [[<- <-]|[_ H]]%lookup_insert_Some; [by eapply (Hn pk prev)|by eapply Hn].
Qed.

Lemma enter_ok r s key :
  agents_ok r -> (forall k, by_session r !! sp_session_id s = Some k -> k = key) ->
  sp_session_id s <> "" -> agents_ok (enter r s key).
Proof.
  intros [Hf Hn] Hk Hne. unfold enter.
  assert (forall bs tc, (forall sid k, bs !! sid = Some k -> sid <> sp_session_id s ->
             by_session r !! sid = Some k /\ k <> key) ->
            agents_ok (MkAgents (<[key := online_entry s tc]> (by_key r)) (<[sp_session_id s := key]> bs))) as Hgen.
  { intros bs tc Hbs. split; simpl.
    - intros sid k [[<- <-]|[Hns H]]%lookup_insert_Some.
      + eexists. rewrite lookup_insert_eq. split; [done|]. by simpl.
      + destruct (Hbs _ _ H) as [H' Hkk]; [done|]. destruct (Hf _ _ H') as (e & He & Hrest).
        exists e. by rewrite lookup_insert_ne.
    - intros k e [[<- <-]|[_ H]]%lookup_insert_Some; [done|by eapply Hn]. }
  destruct (by_key r !! key) as [e0|] eqn:E; apply Hgen; intros sid k H Hns.
  - assert (by_session r !! sid = Some k /\ sid <> ae_session_id e0) as [H' Hne0].
    { destruct (is_empty (ae_session_id e0)) eqn:Em; simpl in H.
      - apply is_empty_true in Em. by destruct (Hn key e0).
      - destruct (String.eqb_spec (ae_session_id e0) (sp_session_id s)) as [Ee|]; simpl in H.
        + split; [done|congruence].
        + apply lookup_delete_Some in H as [? ?]. done. }
    split; [done|]. intros ->. destruct (Hf _ _ H') as (e & He & Hes & _). congruence.
  - split; [done|]. intros ->. destruct (Hf _ _ H) as (e & He & _). congruence.
Qed.

Lemma try_online_ok r s now : agents_ok r -> sp_session_id s <> "" -> agents_ok (try_online r s now).1.
Proof.
  intros Hr Hs. unfold try_online. destruct (conflicts r s); [done|].
  destruct (leave_previous_ok r s now Hr) as [H1 H2]. by apply enter_ok.
Qed.
Lemma agent_release_ok r sid g tc now : agents_ok r -> agents_ok (agent_release r sid g tc now).
Proof.
  intros [Hf Hn]. unfold agent_release. destruct (by_session r !! sid) as [key|] eqn:Es; [|done].
  destruct (Hf _ _ Es) as (e & He & Hsid & _). rewrite He. destruct (_ || _)%bool; [done|].
  assert (forall sid' k, delete sid (by_session r) !! sid' = Some k ->
            exists e', by_key r !! k = Some e' /\ k <> key /\ ae_session_id e' = sid' /\ ae_online e' = true) as Hd.
  { intros sid' k [Hne H]%lookup_delete_Some. destruct (Hf _ _ H) as (e' & He' & Hs' & Ho').
    exists e'. split; [done|]. split; [|done]. intros ->. congruence. }
  destruct (is_empty (ae_agent_id e)); split; simpl.
  - intros sid' k (e' & He' & Hk & Hr)%Hd. exists e'. by rewrite lookup_delete_ne.
  - intros k e' [_ H]%lookup_delete_Some. by eapply Hn.
  - intros sid' k (e' & He' & Hk & Hr)%Hd. exists e'. by rewrite lookup_insert_ne.
  - intros k e' [[<- <-]|[_ H]]%lookup_insert_Some; [by eapply (Hn key e)|by eapply Hn].
Qed.
#[export] Hint Resolve agents_ok_new try_online_ok agent_release_ok : orbien.

Lemma try_online_entered r s now r' key :
  try_online r s now = (r', Ok key) ->
  key = spec_key s /\ by_session r' !! sp_session_id s = Some key
  /\ exists tc, by_key r' !! key = Some (online_entry s tc).
Proof.
  unfold try_online, enter. destruct (conflicts r s); [done|].
  destruct (by_key (leave_previous _ _ _ _) !! spec_key s); intros [= <- <-]; simpl;
    rewrite !lookup_insert_eq; eauto.
Qed.

(** ** The properties *)

Section Runs.
(** What the server does to the registry. *)
Inductive AgentOp :=
| OpOnline (s : AgentOnlineSpec) (now : Z)
| OpRelease (session_id : string) (generation tunnel_count now : Z).
Definition agent_step (r : AgentRegistry) (op : AgentOp) : AgentRegistry :=
  match op with
  | OpOnline s now => (try_online r s now).1
  | OpRelease sid g tc now => agent_release r sid g tc now
  end.
Definition op_ok (op : AgentOp) : Prop :=
  match op with OpOnline s _ => sp_session_id s <> "" | OpRelease _ _ _ _ => True end.
End Runs.

(** C21: however logins and releases follow each other, a session is filed under
    at most one agent, and that agent is online through that very session. *)
Theorem agents_consistent ops sid key :
  Forall op_ok ops -> by_session (fold_left agent_step ops agents_new) !! sid = Some key ->
  exists e, by_key (fold_left agent_step ops agents_new) !! key = Some e
            /\ ae_session_id e = sid /\ ae_online e = true.
Proof.
  intros Hops. apply ao_filed.
  assert (forall r, agents_ok r -> agents_ok (fold_left agent_step ops r)) as Hgen.
  { induction Hops as [|op ops Hop _ IH]; intros r Hr; simpl; [done|].
    apply IH. destruct op; simpl in *; auto with orbien. }
  apply Hgen, agents_ok_new.
Qed.

(** A login that names an agent which is online through another session is
    refused and changes nothing; every other login puts its agent online
    through its session. *)
Theorem agent_login_exclusive r s now :
  match try_online r s now with
  | (r', Err Conflict) => r' = r /\ sp_agent_id s <> "" /\ exists e, by_key r !! spec_key s = Some e
      /\ ae_online e = true /\ ae_session_id e <> sp_session_id s
  | (r', Ok key) => key = spec_key s /\ by_session r' !! sp_session_id s = Some key
      /\ (exists tc, by_key r' !! key = Some (online_entry s tc))
      /\ (forall e, sp_agent_id s <> "" -> by_key r !! key = Some e -> ae_online e = true ->
            ae_session_id e = "" \/ ae_session_id e = sp_session_id s)
  end.
Proof.
  destruct (try_online r s now) as [r' [key|[]]] eqn:E.
  - destruct (try_online_entered _ _ _ _ _ E) as (-> & H1 & H2). split; [done|]. split; [done|]. split; [done|].
    intros e Ha He Ho. unfold try_online, conflicts in E. rewrite He, Ho in E.
    apply is_empty_false in Ha. rewrite Ha in E. simpl in E.
    destruct (is_empty (ae_session_id e)) eqn:Es; [left; by apply is_empty_true|].
    destruct (String.eqb_spec (ae_session_id e) (sp_session_id s)); [by right|done].
  - unfold try_online in E. destruct (conflicts r s) eqn:Ec; [|done]. injection E as <-. split; [done|].
    unfold conflicts in Ec. apply andb_true_iff in Ec as [Ha Hc]. apply negb_true_iff, is_empty_false in Ha.
    split; [done|]. destruct (by_key r !! spec_key s) as [e|]; [|done].
    apply andb_true_iff in Hc as [[Ho _]%andb_true_iff Hn]. exists e. split; [done|]. split; [done|].
    apply negb_true_iff in Hn. by apply String.eqb_neq in Hn.
Qed.

(** A session that went online and is released by the same generation takes
    its agent offline, or removes it when the agent has no id of its own. *)
Theorem agent_release_spec r s now now' tc :
  agents_ok r -> sp_session_id s <> "" -> conflicts r s = false ->
  let r' := agent_release (try_online r s now).1 (sp_session_id s) (sp_generation s) tc now' in
  by_session r' !! sp_session_id s = None
  /\ match by_key r' !! spec_key s with
     | Some e => sp_agent_id s <> "" /\ ae_online e = false /\ ae_tunnel_count e = tc
                 /\ ae_session_id e = sp_session_id s
     | None => sp_agent_id s = ""
     end.
Proof.
  intros Hr Hs Hc. destruct (try_online r s now) as [r1 res] eqn:E.
  assert (res = Ok (spec_key s)) as -> by (unfold try_online in E; rewrite Hc in E; congruence).
  destruct (try_online_entered _ _ _ _ _ E) as (_ & H1 & tc0 & H2). cbn zeta. cbn [fst].
  unfold agent_release. rewrite H1, H2. cbn [ae_session_id ae_generation ae_agent_id online_entry].
  rewrite String.eqb_refl, Z.eqb_refl. cbn [negb orb].
  destruct (is_empty (sp_agent_id s)) eqn:Ea; cbn [by_session by_key]; rewrite lookup_delete_eq; (split; [done|]).
  - rewrite lookup_delete_eq. by apply is_empty_true.
  - rewrite lookup_insert_eq. simpl. apply is_empty_false in Ea. done.
Qed.

(** An agent that went offline keeps the id of its last session; when that
    session is online as another agent meanwhile, the first agent's next login
    through a new session unfiles it: the other agent's disconnection is then
    not noticed and it stays online. *)
Theorem reused_session_ghost r s e key sid gen tc now now' :
  by_key r !! spec_key s = Some e -> ae_online e = false -> ae_session_id e = sid -> sid <> "" ->
  sid <> sp_session_id s -> by_session r !! sid = Some key -> key <> spec_key s ->
  by_session r !! sp_session_id s = None ->
  let r' := (try_online r s now).1 in
  agent_release r' sid gen tc now' = r' /\ by_key r' !! key = by_key r !! key.
Proof.
  intros He Hoff Hsid Hne Hns Hk Hkey Hnone. unfold try_online.
  assert (conflicts r s = false) as -> by (unfold conflicts; rewrite He, Hoff; apply andb_false_r).
  unfold leave_previous. rewrite Hnone. unfold enter. rewrite He, Hsid.
  apply is_empty_false in Hne as ->. apply String.eqb_neq in Hns as E. rewrite E. cbn [negb andb fst].
  unfold agent_release. cbn [by_session by_key].
  rewrite !lookup_insert_ne by done. by rewrite lookup_delete_eq.
Qed.

(** An agent's key joins user and id with a dot that both may contain: one
    user's agent keeps another user's agent from logging in. *)
Theorem agent_key_collision r u v w s1 s2 now now' :
  u <> "" -> v <> "" -> w <> "" ->
  sp_user s1 = u -> sp_agent_id s1 = v ++ "." ++ w -> sp_user s2 = u ++ "." ++ v -> sp_agent_id s2 = w ->
  sp_session_id s1 <> "" -> sp_session_id s2 <> sp_session_id s1 -> conflicts r s1 = false ->
  (try_online (try_online r s1 now).1 s2 now').2 = Err Conflict.
Proof.
  intros Hu Hv Hw Hu1 Ha1 Hu2 Ha2 Hs1 Hne Hc.
  assert (forall a b : string, a <> "" -> is_empty (a ++ b) = false) as Happ by (by intros [|]).
  apply is_empty_false in Hw as Hw'. apply is_empty_false in Hu as Hu'.
  assert (spec_key s2 = spec_key s1) as Hk.
  { unfold spec_key, compose_key. rewrite Hu1, Ha1, Hu2, Ha2, !Happ, Hw', Hu' by done.
    by rewrite !RustStr.app_assoc, Hw'. }
  destruct (try_online r s1 now) as [r1 res] eqn:E.
  assert (res = Ok (spec_key s1)) as -> by (unfold try_online in E; rewrite Hc in E; congruence).
  destruct (try_online_entered _ _ _ _ _ E) as (_ & _ & tc & H2). unfold try_online. cbn [fst].
  assert (conflicts r1 s2 = true) as ->; [|done]. unfold conflicts. rewrite Hk, H2, Ha2, Hw'. simpl.
  apply is_empty_false in Hs1 as ->. simpl. rewrite negb_true_iff. by apply String.eqb_neq.
Qed.

(** An identifier that a client may use is at most [max_len] bytes long, is
    trimmed and holds no control character. *)
Theorem sanitized_id raw max_len s :
  (0 <= max_len)%Z -> sanitize_wire_id raw max_len = Ok s ->
  (slen s <= max_len)%Z /\ trimmed s /\ has_control s = false.
Proof.
  intros Hm. unfold sanitize_wire_id. destruct (is_empty (trim raw)); [by intros [= <-]|].
  destruct (Z.ltb_spec max_len (slen (trim raw))); [done|].
  destruct (has_control (trim raw)) eqn:E; [done|]. intros [= <-].
  split; [done|]. split; [apply trim_idemp|done].
Qed.

(** ** Witnesses *)

Definition ex_spec (user agent sid : string) (gen : Z) : AgentOnlineSpec :=
  MkSpec user agent sid gen "h" "o" "x" "127.0.0.1" "v".
Definition ex_ghost : AgentRegistry :=
  fold_left agent_step [OpOnline (ex_spec "u" "A" "S1" 1) 0; OpOnline (ex_spec "u" "B" "S1" 2) 1] agents_new.

Lemma agents_consistent_witness :
  exists e, by_key ex_ghost !! "u.B" = Some e /\ ae_session_id e = "S1" /\ ae_online e = true.
Proof.
  apply (agents_consistent [OpOnline (ex_spec "u" "A" "S1" 1) 0; OpOnline (ex_spec "u" "B" "S1" 2) 1] "S1" "u.B");
    [|reflexivity].
  constructor; [discriminate|]. constructor; [discriminate|constructor].
Defined.

Lemma agent_release_spec_witness :
  by_session (agent_release (try_online agents_new (ex_spec "u" "A" "S1" 1) 0).1 "S1" 1 3 9) !! "S1" = None.
Proof. apply (agent_release_spec agents_new (ex_spec "u" "A" "S1" 1) 0 9 3); [apply agents_ok_new|discriminate|reflexivity]. Defined.

Lemma reused_session_ghost_witness :
  let r := agent_release (try_online ex_ghost (ex_spec "u" "A" "S2" 3) 2).1 "S1" 2 0 3 in
  (ae_online <$> by_key r !! "u.B") = Some true
  /\ (try_online r (ex_spec "u" "B" "S3" 4) 4).2 = Err Conflict.
Proof.
  destruct (by_key ex_ghost !! "u.A") as [e|] eqn:E; [|exfalso; revert E; vm_compute; discriminate].
  destruct (reused_session_ghost ex_ghost (ex_spec "u" "A" "S2" 3) e "u.B" "S1" 2 0 2 3) as [-> H];
    try discriminate; try reflexivity; try exact E; try (revert E; vm_compute; intros [= <-]; reflexivity).
  split; [rewrite H; reflexivity|vm_compute; reflexivity].
Defined.

Lemma agent_key_collision_witness :
  (try_online (try_online agents_new (ex_spec "a" "b.c" "S1" 1) 0).1 (ex_spec "a.b" "c" "S2" 2) 1).2 = Err Conflict.
Proof.
  apply (agent_key_collision agents_new "a" "b" "c" (ex_spec "a" "b.c" "S1" 1) (ex_spec "a.b" "c" "S2" 2));
    try discriminate; reflexivity.
Defined.

Lemma sanitized_id_witness : (slen "host-1" <= 64)%Z /\ trimmed "host-1" /\ has_control "host-1" = false.
Proof. apply (sanitized_id " host-1 " 64); [lia|reflexivity]. Defined.
