(* ===== verification/SessionTable.v ===== *)
(** * The table of sessions and its gates

    [server/src/service/session_table.rs] and [Service::kick_client] of
    [server/src/service/mod.rs].  Tasks run concurrently: every lock taken and
    every access to the table under its mutex is one step, and a gate's guard is
    held across steps.  A gate is a number standing for its [Arc], a control its
    generation.  The table's own mutex never spans two steps. *)

From stdpp Require Import functions.
From S2P Require Import Prelude RustStr.

Local Open Scope string_scope.

Record SessionEntry := MkSession { se_control : Z; se_gate : Z }.
Abbreviation SessionMap := (gmap string SessionEntry).

(** The table, the tasks that hold a gate's guard, and the next new gate and control. *)
Record Shared := MkShared {
  sh_map : SessionMap; sh_held : gmap Z nat; sh_next_gate : Z; sh_next_control : Z }.

(** Where a task is. *)
Inductive Pc :=
| Idle
| SwapPeek (sid : string) (control : Z)
| SwapLock (sid : string) (control gate : Z)
| SwapCommit (sid : string) (control gate : Z)
| SwapDone (sid : string) (control gate : Z) (previous : option Z)
| RemoveLock (sid : string) (control gate : Z)
| RemoveCommit (sid : string) (control gate : Z)
| LookupLock (sid : string) (control gate : Z)
| LookupCommit (sid : string) (control gate : Z)
| KickLock (sid : string) (control gate : Z)
| KickCheck (sid : string) (control gate : Z)
| KickIn (sid : string) (control gate : Z).

Definition set_map (sh : Shared) (m : SessionMap) : Shared :=
  MkShared m (sh_held sh) (sh_next_gate sh) (sh_next_control sh).
Definition lock_gate (sh : Shared) (t : nat) (g : Z) : Shared :=
  MkShared (sh_map sh) (<[g := t]> (sh_held sh)) (sh_next_gate sh) (sh_next_control sh).
Definition unlock_gate (sh : Shared) (g : Z) : Shared :=
  MkShared (sh_map sh) (delete g (sh_held sh)) (sh_next_gate sh) (sh_next_control sh).

(** ** The atomic parts of the operations *)

(** [swap_in_locked]: read the gate, or make a new one. *)
Definition swap_peek (sh : Shared) (sid : string) : Shared * Z :=
  match sh_map sh !! sid with
  | Some e => (sh, se_gate e)
  | None => (MkShared (sh_map sh) (sh_held sh) (sh_next_gate sh + 1) (sh_next_control sh), sh_next_gate sh)
  end.

(** With the gate held: start again when the entry has another gate by now. *)
Definition swap_commit (sh : Shared) (sid : string) (control gate : Z) : Shared * Pc :=
  let insert :=
    (set_map sh (<[sid := MkSession control gate]> (sh_map sh)),
     SwapDone sid control gate (se_control <$> sh_map sh !! sid)) in
  match sh_map sh !! sid with
  | Some e => if (se_gate e =? gate)%Z then insert else (unlock_gate sh gate, SwapPeek sid control)
  | None => insert
  end.

Definition is_current (sh : Shared) (sid : string) (control : Z) : bool :=
  match sh_map sh !! sid with Some e => (se_control e =? control)%Z | None => false end.

(** [remove_if_current]: [None] is an early [return false]. *)
Definition remove_peek (sh : Shared) (sid : string) (control : Z) : option Z :=
  match sh_map sh !! sid with
  | Some e => if (se_control e =? control)%Z then Some (se_gate e) else None
  | None => None
  end.
Definition remove_commit (sh : Shared) (sid : string) (control gate : Z) : Shared * bool :=
  if is_current sh sid control
  then (unlock_gate (set_map sh (delete sid (sh_map sh))) gate, true)
  else (unlock_gate sh gate, false).

(** [lookup_accepting] *)
Definition lookup_commit (sh : Shared) (sid : string) (control gate : Z) (accepting : bool)
    : Shared * option Z :=
  (unlock_gate sh gate,
   if is_current sh sid control && accepting then Some control else None).

(** [kick_client], from taking the gate to dropping its guard. *)
Definition kick_check (sh : Shared) (sid : string) (control gate : Z) : Shared * Pc :=
  if is_current sh sid control then (sh, KickIn sid control gate) else (unlock_gate sh gate, Idle).
Definition kick_commit (sh : Shared) (sid : string) (control gate : Z) : Shared :=
  (remove_commit sh sid control gate).1.

(** ** Interleavings *)

Inductive task_step (t : nat) : Shared -> Pc -> Shared -> Pc -> Prop :=
| step_swap_start sh sid :
    task_step t sh Idle
      (MkShared (sh_map sh) (sh_held sh) (sh_next_gate sh) (sh_next_control sh + 1))
      (SwapPeek sid (sh_next_control sh))
| step_swap_peek sh sid c :
    task_step t sh (SwapPeek sid c) (swap_peek sh sid).1 (SwapLock sid c (swap_peek sh sid).2)
| step_swap_lock sh sid c g :
    sh_held sh !! g = None -> task_step t sh (SwapLock sid c g) (lock_gate sh t g) (SwapCommit sid c g)
| step_swap_commit sh sid c g :
    task_step t sh (SwapCommit sid c g) (swap_commit sh sid c g).1 (swap_commit sh sid c g).2
| step_swap_drop sh sid c g p : task_step t sh (SwapDone sid c g p) (unlock_gate sh g) Idle
| step_remove_peek sh sid c g :
    remove_peek sh sid c = Some g -> task_step t sh Idle sh (RemoveLock sid c g)
| step_remove_lock sh sid c g :
    sh_held sh !! g = None -> task_step t sh (RemoveLock sid c g) (lock_gate sh t g) (RemoveCommit sid c g)
| step_remove_commit sh sid c g :
    task_step t sh (RemoveCommit sid c g) (remove_commit sh sid c g).1 Idle
| step_lookup_peek sh sid e :
    sh_map sh !! sid = Some e -> task_step t sh Idle sh (LookupLock sid (se_control e) (se_gate e))
| step_lookup_lock sh sid c g :
    sh_held sh !! g = None -> task_step t sh (LookupLock sid c g) (lock_gate sh t g) (LookupCommit sid c g)
| step_lookup_commit sh sid c g a :
    task_step t sh (LookupCommit sid c g) (lookup_commit sh sid c g a).1 Idle
| step_kick_peek sh sid e :
    sh_map sh !! sid = Some e -> task_step t sh Idle sh (KickLock sid (se_control e) (se_gate e))
| step_kick_lock sh sid c g :
    sh_held sh !! g = None -> task_step t sh (KickLock sid c g) (lock_gate sh t g) (KickCheck sid c g)
| step_kick_check sh sid c g :
    task_step t sh (KickCheck sid c g) (kick_check sh sid c g).1 (kick_check sh sid c g).2
| step_kick_commit sh sid c g : task_step t sh (KickIn sid c g) (kick_commit sh sid c g) Idle.

Record System := MkSystem { sy_shared : Shared; sy_tasks : nat -> Pc }.
Inductive system_step : System -> nat -> System -> Prop :=
| sys_step sh th t sh' pc' :
    task_step t sh (th t) sh' pc' -> system_step (MkSystem sh th) t (MkSystem sh' (<[t := pc']> th)).
Definition system_init (s : System) : Prop :=
  s = MkSystem (MkShared ∅ ∅ 0 1) (fun _ => Idle).

(** ** The invariant *)

(** The gate whose guard a task holds. *)
Definition holding (pc : Pc) : option Z :=
  match pc with
  | SwapCommit _ _ g | SwapDone _ _ g _ | RemoveCommit _ _ g | LookupCommit _ _ g | KickCheck _ _ g
  | KickIn _ _ g => Some g
  | _ => None
  end.
(** The control a task is about to install, known to nobody else. *)
Definition private_control (pc : Pc) : option Z :=
  match pc with SwapPeek _ c | SwapLock _ c _ | SwapCommit _ c _ => Some c | _ => None end.
(** An entry a task has read from the table. *)
Definition seen (pc : Pc) : option (string * SessionEntry) :=
  match pc with
  | SwapDone sid c g _ | RemoveLock sid c g | RemoveCommit sid c g | LookupLock sid c g | LookupCommit sid c g
  | KickLock sid c g | KickCheck sid c g | KickIn sid c g => Some (sid, MkSession c g)
  | _ => None
  end.
(** The session whose critical section a task is in: its login holds the guard,
    or it is being kicked. *)
Definition critical (pc : Pc) : option (string * SessionEntry) :=
  match pc with
  | SwapDone sid c g _ | KickIn sid c g => Some (sid, MkSession c g)
  | _ => None
  end.

Record table_inv (sh : Shared) (th : nat -> Pc) : Prop := {
  ti_held : forall t g, holding (th t) = Some g <-> sh_held sh !! g = Some t;
  ti_private : forall t c, private_control (th t) = Some c ->
    (c < sh_next_control sh)%Z
    /\ (forall sid e, sh_map sh !! sid = Some e -> se_control e <> c)
    /\ (forall t' sid e, seen (th t') = Some (sid, e) -> se_control e <> c)
    /\ (forall t', private_control (th t') = Some c -> t' = t);
  ti_fresh : (forall sid e, sh_map sh !! sid = Some e -> (se_control e < sh_next_control sh)%Z)
    /\ (forall t sid e, seen (th t) = Some (sid, e) -> (se_control e < sh_next_control sh)%Z);
  ti_seen : forall t sid e e', seen (th t) = Some (sid, e) -> sh_map sh !! sid = Some e' ->
    se_control e' = se_control e -> e' = e;
  ti_critical : forall t sid e, critical (th t) = Some (sid, e) -> sh_map sh !! sid = Some e }.

Lemma critical_holding pc sid e : critical pc = Some (sid, e) -> holding pc = Some (se_gate e).
Proof. destruct pc; simpl; intros [= <- <-]; done. Qed.
Lemma critical_seen pc x : critical pc = Some x -> seen pc = Some x.
Proof. destruct pc; simpl; congruence. Qed.

Lemma is_current_true sh sid c :
  is_current sh sid c = true <-> exists e, sh_map sh !! sid = Some e /\ se_control e = c.
Proof.
  unfold is_current. destruct (sh_map sh !! sid) as [e|]; [|naive_solver].
  rewrite Z.eqb_eq. naive_solver.
Qed.

Lemma upd_ne (th : nat -> Pc) (t : nat) (pc : Pc) (t' : nat) : t' <> t -> <[t := pc]> th t' = th t'.
Proof. intros. by rewrite fn_lookup_insert_ne. Qed.

Section Preserve.
Context (sh : Shared) (th : nat -> Pc) (t : nat) (pc : Pc).
Context (Hinv : table_inv sh th).

(** Taking a free gate. *)
Lemma inv_lock g :
  sh_held sh !! g = None -> holding (th t) = None -> holding pc = Some g ->
  private_control pc = private_control (th t) -> seen pc = seen (th t) -> critical pc = None ->
  table_inv (lock_gate sh t g) (<[t := pc]> th).
Proof using Hinv.
  intros Hfree Hno Hg Hp Hs Hc. destruct Hinv as [Hh Hpr [Hf1 Hf2] Hse Hcr].
  assert (forall t', private_control (<[t := pc]> th t') = private_control (th t')) as Ep.
  { intros t'. destruct (decide (t' = t)) as [->|]; [by rewrite fn_lookup_insert|by rewrite upd_ne]. }
  assert (forall t', seen (<[t := pc]> th t') = seen (th t')) as Es.
  { intros t'. destruct (decide (t' = t)) as [->|]; [by rewrite fn_lookup_insert|by rewrite upd_ne]. }
  split; simpl.
  - intros t' g'. rewrite lookup_insert_Some. destruct (decide (t' = t)) as [->|Hne].
    + rewrite fn_lookup_insert, Hg. split; [intros [= ->]; by left|].
      intros [[-> _]|[_ H]]; [done|]. apply Hh in H. congruence.
    + rewrite upd_ne by done. rewrite Hh. split; [intros H; right; split; [congruence|done]|naive_solver].
  - intros t' c. rewrite Ep. intros H. destruct (Hpr t' c H) as (H1 & H2 & H3 & H4).
    split; [done|]. split; [done|]. split; [intros t''; by rewrite Es; eauto|intros t''; by rewrite Ep; eauto].
  - split; [done|]. intros t'. rewrite Es. apply Hf2.
  - intros t'. rewrite Es. apply Hse.
  - intros t'. destruct (decide (t' = t)) as [->|]; [rewrite fn_lookup_insert; congruence|].
    rewrite upd_ne by done. apply Hcr.
Qed.

(** Reading the table, or starting a login with a new control. *)
Lemma inv_quiet sh' :
  sh_map sh' = sh_map sh -> sh_held sh' = sh_held sh -> (sh_next_control sh <= sh_next_control sh')%Z ->
  holding pc = holding (th t) ->
  (forall c, private_control pc = Some c -> private_control (th t) = Some c
     \/ (c = sh_next_control sh /\ (c < sh_next_control sh')%Z)) ->
  (forall sid e, seen pc = Some (sid, e) -> seen (th t) = Some (sid, e) \/ sh_map sh !! sid = Some e) ->
  (forall sid e, critical pc = Some (sid, e) -> sh_map sh !! sid = Some e) ->
  table_inv sh' (<[t := pc]> th).
Proof using Hinv.
  intros Hm Hhe Hn Hg Hp Hs Hc. destruct Hinv as [Hh Hpr [Hf1 Hf2] Hse Hcr].
  assert (forall t' sid e, seen (<[t := pc]> th t') = Some (sid, e) ->
            (exists t0, seen (th t0) = Some (sid, e)) \/ sh_map sh !! sid = Some e) as Es.
  { intros t' sid e. destruct (decide (t' = t)) as [->|]; [rewrite fn_lookup_insert|rewrite upd_ne by done]; [|eauto].
    intros H. destruct (Hs sid e H); eauto. }
  assert (forall t' c, private_control (<[t := pc]> th t') = Some c ->
            private_control (th t') = Some c \/ (t' = t /\ c = sh_next_control sh /\ (c < sh_next_control sh')%Z)) as Ep.
  { intros t' c. destruct (decide (t' = t)) as [->|]; [rewrite fn_lookup_insert|rewrite upd_ne by done]; [|eauto].
    intros H. destruct (Hp c H) as [|[]]; eauto. }
  split; rewrite ?Hm, ?Hhe.
  - intros t' g. rewrite <- Hh. destruct (decide (t' = t)) as [->|]; [by rewrite fn_lookup_insert, Hg|by rewrite upd_ne].
  - intros t' c H. destruct (Ep t' c H) as [Ho|(-> & -> & Hlt)].
    + destruct (Hpr t' c Ho) as (H1 & H2 & H3 & H4). split; [lia|]. split; [done|]. split.
      * intros t'' sid e [[t0 H0]|H0]%Es; [by eapply H3|by eapply H2].
      * intros t'' [H0|(_ & E & _)]%Ep; [by apply H4|lia].
    + split; [done|]. split; [|split].
      * intros sid e He. pose proof (Hf1 _ _ He). lia.
      * intros t'' sid e [[t0 H0]|H0]%Es; [pose proof (Hf2 _ _ _ H0)|pose proof (Hf1 _ _ H0)]; lia.
      * intros t'' [H0|(-> & _)]%Ep; [|done]. destruct (Hpr _ _ H0). lia.
  - split; [intros sid e He; pose proof (Hf1 _ _ He); lia|].
    intros t' sid e [[t0 H0]|H0]%Es; [pose proof (Hf2 _ _ _ H0)|pose proof (Hf1 _ _ H0)]; lia.
  - intros t' sid e e' [[t0 H0]|H0]%Es He' E; [by eapply Hse|congruence].
  - intros t' sid e. destruct (decide (t' = t)) as [->|]; [rewrite fn_lookup_insert; apply Hc|].
    rewrite upd_ne by done. apply Hcr.
Qed.

(** Dropping a guard, after removing one's own entry or without. *)
Lemma inv_unlock m g :
  holding (th t) = Some g -> holding pc = None -> seen pc = None ->
  (forall c, private_control pc = Some c -> private_control (th t) = Some c) ->
  (m = sh_map sh \/ exists sid c, seen (th t) = Some (sid, MkSession c g)
     /\ is_current sh sid c = true /\ m = delete sid (sh_map sh)) ->
  table_inv (unlock_gate (set_map sh m) g) (<[t := pc]> th).
Proof using Hinv.
  intros Hg Hno Hs Hp Hm. pose proof Hinv as [Hh Hpr [Hf1 Hf2] Hse Hcr].
  assert (forall sid e, m !! sid = Some e -> sh_map sh !! sid = Some e) as Hsub.
  { intros sid e H. destruct Hm as [->|(sid' & c & _ & _ & ->)]; [done|]. by apply lookup_delete_Some in H as [_ ?]. }
  assert (critical pc = None) as Hc.
  { destruct (critical pc) as [x|] eqn:E; [|done]. apply critical_seen in E. congruence. }
  assert (forall t' x, seen (<[t := pc]> th t') = Some x -> seen (th t') = Some x) as Es.
  { intros t' x. destruct (decide (t' = t)) as [->|]; [rewrite fn_lookup_insert; congruence|by rewrite upd_ne]. }
  assert (forall t' c, private_control (<[t := pc]> th t') = Some c -> private_control (th t') = Some c) as Ep.
  { intros t' c. destruct (decide (t' = t)) as [->|]; [rewrite fn_lookup_insert; apply Hp|by rewrite upd_ne]. }
  split; simpl.
  - intros t' g'. rewrite lookup_delete_Some, <- Hh. destruct (decide (t' = t)) as [->|Hne].
    + rewrite fn_lookup_insert, Hno. split; [done|]. intros [? E]. congruence.
    + rewrite upd_ne by done. split; [|naive_solver]. intros H. split; [|done]. intros <-.
      apply Hh in H. apply Hh in Hg. congruence.
  - intros t' c H. destruct (Hpr t' c (Ep _ _ H)) as (H1 & H2 & H3 & H4).
    split; [done|]. split; [eauto|]. split; [eauto|]. eauto.
  - split; [intros sid e He%Hsub; by apply (Hf1 sid)|]. intros t' sid e He%Es. by apply (Hf2 t' sid).
  - intros t' sid e e' He%Es He'%Hsub. eauto.
  - intros t' sid e. destruct (decide (t' = t)) as [->|Hne]; [rewrite fn_lookup_insert; congruence|].
    rewrite upd_ne by done. intros Hcrit. pose proof (Hcr _ _ _ Hcrit) as He.
    destruct Hm as [->|(sid' & c & Hsee & Hcur & ->)]; [done|].
    rewrite lookup_delete_ne; [done|]. intros ->. apply is_current_true in Hcur as (e0 & He0 & Hc0).
    pose proof (Hse _ _ _ _ Hsee He0 Hc0) as ->. assert (e = MkSession c g) as -> by congruence.
    apply critical_holding in Hcrit. apply Hh in Hcrit, Hg. simpl in Hcrit. congruence.
Qed.

(** Installing a control, with the gate of the entry held. *)
Lemma inv_install sid c g p :
  th t = SwapCommit sid c g -> pc = SwapDone sid c g p ->
  (forall e, sh_map sh !! sid = Some e -> se_gate e = g) ->
  table_inv (set_map sh (<[sid := MkSession c g]> (sh_map sh))) (<[t := pc]> th).
Proof using Hinv.
  intros Ht -> Hgate. pose proof Hinv as [Hh Hpr [Hf1 Hf2] Hse Hcr].
  assert (private_control (th t) = Some c) as Hpc by (by rewrite Ht).
  destruct (Hpr t c Hpc) as (Hc1 & Hc2 & Hc3 & Hc4).
  assert (forall t' sid' e, seen (<[t := SwapDone sid c g p]> th t') = Some (sid', e) ->
            (t' = t /\ sid' = sid /\ e = MkSession c g) \/ (seen (th t') = Some (sid', e))) as Es.
  { intros t' sid' e. destruct (decide (t' = t)) as [->|]; [rewrite fn_lookup_insert|rewrite upd_ne by done; eauto].
    simpl. intros [= <- <-]. by left. }
  assert (forall t' c', private_control (<[t := SwapDone sid c g p]> th t') = Some c' ->
            t' <> t /\ private_control (th t') = Some c' /\ c' <> c) as Ep.
  { intros t' c'. destruct (decide (t' = t)) as [->|]; [by rewrite fn_lookup_insert|rewrite upd_ne by done].
    intros H. split; [done|]. split; [done|]. intros ->. by apply Hc4 in H. }
  split; simpl.
  - intros t' g'. rewrite <- Hh. destruct (decide (t' = t)) as [->|]; [by rewrite fn_lookup_insert, Ht|by rewrite upd_ne].
  - intros t' c' (Hne & H & Hcc)%Ep. destruct (Hpr t' c' H) as (H1 & H2 & H3 & H4). split; [done|]. split; [|split].
    + intros sid' e [[<- <-]|[_ ?]]%lookup_insert_Some; [simpl; congruence|eauto].
    + intros t'' sid' e [(-> & -> & ->)|H']%Es; [simpl; congruence|eauto].
    + intros t'' (_ & H' & _)%Ep. by apply H4.
  - split; [intros sid' e [[<- <-]|[_ ?]]%lookup_insert_Some; [done|eauto]|].
    intros t' sid' e [(-> & -> & ->)|H']%Es; [done|eauto].
  - intros t' sid' e e' [(-> & -> & ->)|H']%Es He' E.
    + rewrite lookup_insert_eq in He'. congruence.
    + apply lookup_insert_Some in He' as [[-> <-]|[Hne He']]; [|by eapply Hse].
      simpl in E. exfalso. eapply (Hc3 t'); [exact H'|done].
  - intros t' sid' e. destruct (decide (t' = t)) as [->|Hne].
    + rewrite fn_lookup_insert. simpl. intros [= <- <-]. apply lookup_insert_eq.
    + rewrite upd_ne by done. intros Hcrit. pose proof (Hcr _ _ _ Hcrit) as He.
      rewrite lookup_insert_ne; [done|]. intros <-. apply critical_holding in Hcrit. rewrite (Hgate _ He) in Hcrit.
      assert (holding (th t) = Some g) as Hg by (by rewrite Ht). apply Hh in Hcrit, Hg. congruence.
Qed.
End Preserve.

Lemma set_map_id sh : set_map sh (sh_map sh) = sh.
Proof. by destruct sh. Qed.

Lemma inv_unlock_same sh th t pc g :
  table_inv sh th -> holding (th t) = Some g -> holding pc = None -> seen pc = None ->
  (forall c, private_control pc = Some c -> private_control (th t) = Some c) ->
  table_inv (unlock_gate sh g) (<[t := pc]> th).
Proof.
  intros Hinv Hg Hno Hs Hp. rewrite <- (set_map_id sh) at 1. eapply inv_unlock; eauto.
Qed.

Lemma inv_remove sh th t sid c g :
  table_inv sh th -> holding (th t) = Some g -> seen (th t) = Some (sid, MkSession c g) ->
  table_inv (remove_commit sh sid c g).1 (<[t := Idle]> th).
Proof.
  intros Hinv Hg Hs. unfold remove_commit. destruct (is_current sh sid c) eqn:E; cbn [fst].
  - apply inv_unlock; [done|done|done|done|done|]. right. by exists sid, c.
  - by apply inv_unlock_same.
Qed.

Lemma table_inv_step s t s' : table_inv (sy_shared s) (sy_tasks s) -> system_step s t s' ->
  table_inv (sy_shared s') (sy_tasks s').
Proof.
  intros Hinv Hst. destruct Hst as [sh th t sh' pc' Hts]. cbn [sy_shared sy_tasks] in *.
  remember (th t) as pc0 eqn:Epc. pose proof (eq_sym Epc) as Ht. clear Epc.
  destruct Hts as [sh sid|sh sid c|sh sid c g Hf|sh sid c g|sh sid c g p|sh sid c g Hr|sh sid c g Hf
    |sh sid c g|sh sid e He|sh sid c g Hf|sh sid c g a|sh sid e He|sh sid c g Hf|sh sid c g|sh sid c g].
  - eapply inv_quiet; [done|done|done|simpl; lia|by rewrite Ht| | |done].
    + intros c [= <-]. right. simpl. split; [done|lia].
    + done.
  - unfold swap_peek. destruct (sh_map sh !! sid); (eapply inv_quiet; [done|done|done|simpl; lia|by rewrite Ht| |done|done]);
      rewrite Ht; intros c' H; left; exact H.
  - apply inv_lock; rewrite ?Ht; done.
  - unfold swap_commit. destruct (sh_map sh !! sid) as [e|] eqn:Ee.
    + destruct (Z.eqb_spec (se_gate e) g) as [Eg|]; cbn [fst snd].
      * eapply inv_install; [done|done|done|]. congruence.
      * eapply inv_unlock_same; rewrite ?Ht; done.
    + cbn [fst snd]. eapply inv_install; [done|done|done|]. congruence.
  - eapply inv_unlock_same; rewrite ?Ht; done.
  - unfold remove_peek in Hr. destruct (sh_map sh !! sid) as [e|] eqn:Ee; [|done].
    destruct (Z.eqb_spec (se_control e) c) as [<-|]; [|done]. injection Hr as <-.
    eapply inv_quiet; [done..|lia|by rewrite Ht|done| |done].
    simpl. intros sid' e' [= <- <-]. right. by destruct e.
  - apply inv_lock; rewrite ?Ht; done.
  - by apply inv_remove; rewrite ?Ht.
  - eapply inv_quiet; [done..|lia|by rewrite Ht|done| |done].
    simpl. intros sid' e' [= <- <-]. right. by destruct e.
  - apply inv_lock; rewrite ?Ht; done.
  - eapply inv_unlock_same; rewrite ?Ht; done.
  - eapply inv_quiet; [done..|lia|by rewrite Ht|done| |done].
    simpl. intros sid' e' [= <- <-]. right. by destruct e.
  - apply inv_lock; rewrite ?Ht; done.
  - unfold kick_check. destruct (is_current sh sid c) eqn:E; cbn [fst snd].
    + eapply inv_quiet; [done..|lia|by rewrite Ht|done| |].
      * intros sid' e' H. left. rewrite Ht. exact H.
      * simpl. intros sid' e' [= <- <-]. apply is_current_true in E as (e & He & Hc).
        rewrite He. f_equal. eapply ti_seen; [done| |done|done]. by rewrite Ht.
    + eapply inv_unlock_same; rewrite ?Ht; done.
  - by apply inv_remove; rewrite ?Ht.
Qed.

Lemma table_inv_reachable s :
  reachable system_step system_init s -> table_inv (sy_shared s) (sy_tasks s).
Proof.
  induction 1 as [s ->|s t s' _ IH Hs]; [|by eapply table_inv_step].
  split; simpl; try done.
Qed.

(** ** The properties *)

(** C6: in every interleaving at most one task is in the critical section of a
    session id: two logins with one id, or a login and a kick, never overlap. *)
Theorem session_gate_exclusive s t1 t2 sid e1 e2 :
  reachable system_step system_init s ->
  critical (sy_tasks s t1) = Some (sid, e1) -> t2 <> t1 -> critical (sy_tasks s t2) <> Some (sid, e2).
Proof.
  intros Hinv%table_inv_reachable H1 Hne H2. destruct Hinv as [Hh _ _ _ Hcr].
  pose proof (Hcr _ _ _ H1) as E1. pose proof (Hcr _ _ _ H2) as E2. assert (e2 = e1) as -> by congruence.
  apply critical_holding in H1, H2. apply Hh in H1, H2. congruence.
Qed.

(** While a login holds its session's guard, its own control is the current
    one under that id, whatever the other tasks do. *)
Theorem login_stays_current s t sid c g prev :
  reachable system_step system_init s -> sy_tasks s t = SwapDone sid c g prev ->
  is_current (sy_shared s) sid c = true.
Proof.
  intros Hinv%table_inv_reachable Ht. apply is_current_true. exists (MkSession c g). split; [|done].
  apply (ti_critical _ _ Hinv t). by rewrite Ht.
Qed.

(** A task that is done with a session takes out its own control only: the
    entry of a login that replaced it stays. *)
Theorem remove_keeps_newer sh sid c g e sid' :
  sh_map sh !! sid' = Some e -> sid' <> sid \/ se_control e <> c ->
  sh_map (remove_commit sh sid c g).1 !! sid' = Some e.
Proof.
  intros He Hne. unfold remove_commit. destruct (is_current sh sid c) eqn:E; [|done]. simpl.
  apply is_current_true in E as (e' & He' & <-). rewrite lookup_delete_ne; [done|].
  intros ->. destruct Hne; congruence.
Qed.

(** The gates cannot deadlock: as long as a task is in the middle of an
    operation, some task can take its next step. *)
Theorem gates_progress s t :
  reachable system_step system_init s -> sy_tasks s t <> Idle ->
  exists t' s', sy_tasks s t' <> Idle /\ system_step s t' s'.
Proof.
  intros Hinv%table_inv_reachable Ht. destruct s as [sh th]. cbn [sy_shared sy_tasks] in *.
  assert (forall t' pc' sh', th t' <> Idle -> task_step t' sh (th t') sh' pc' ->
            exists t' s', th t' <> Idle /\ system_step (MkSystem sh th) t' s') as Hstep.
  { intros t' pc' sh' Hi H. eexists t', _. split; [done|]. by constructor. }
  assert (forall t' g, holding (th t') = Some g ->
            exists t' s', th t' <> Idle /\ system_step (MkSystem sh th) t' s') as Hholder.
  { intros t' g Hg. assert (th t' <> Idle) as Hi by (intros E; by rewrite E in Hg).
    destruct (th t') eqn:E; try done; (eapply (Hstep t'); rewrite E; [done|]).
    all: first [apply step_swap_commit | apply step_swap_drop | apply step_remove_commit
      | apply (step_lookup_commit _ _ _ _ _ true) | apply step_kick_check | apply step_kick_commit]. }
  assert (forall g sh' pc', (sh_held sh !! g = None -> task_step t sh (th t) sh' pc') ->
            exists t' s', th t' <> Idle /\ system_step (MkSystem sh th) t' s') as Hwait.
  { intros g sh' pc' H. destruct (sh_held sh !! g) as [t'|] eqn:E; [|eauto].
    apply (Hholder t' g). by apply (ti_held _ _ Hinv). }
  destruct (th t) eqn:E; try done; try (by eapply (Hholder t); rewrite E);
    try (match type of E with _ = _ ?g => eapply (Hwait g); intros Hf; by constructor end).
Qed.

(** ** Witnesses: a login holds the guard while a second one waits at the gate *)


Definition ex_pcs : list Pc := [SwapPeek "s" 1; SwapLock "s" 1 0; SwapCommit "s" 1 0; SwapDone "s" 1 0 None].
Definition ex_tasks (l : list Pc) : nat -> Pc := fold_left (fun th pc => <[0%nat := pc]> th) l (fun _ => Idle).
Definition ex_system (sh : Shared) (n : nat) : System := MkSystem sh (ex_tasks (take n ex_pcs)).
Definition ex_done : System := ex_system (MkShared {["s" := MkSession 1 0]} {[0%Z := 0%nat]} 1 2) 4.

Lemma ex_step n pc sh sh' :
  ex_pcs !! n = Some pc -> task_step 0 sh (ex_tasks (take n ex_pcs) 0%nat) sh' pc ->
  system_step (ex_system sh n) 0 (ex_system sh' (S n)).
Proof.
  intros Hn Hs. assert (ex_tasks (take (S n) ex_pcs) = <[0%nat := pc]> (ex_tasks (take n ex_pcs))) as E.
  { unfold ex_tasks. by rewrite (take_S_r _ _ _ Hn), fold_left_app. }
  unfold ex_system. rewrite E. by constructor.
Qed.

Ltac by_step H := let E := fresh in pose proof H as E; vm_compute in E |- *; exact E.

Lemma ex_done_reachable : reachable system_step system_init ex_done.
Proof.
  eapply (reach_step _ _ (ex_system (MkShared ∅ {[0%Z := 0%nat]} 1 2) 3) 0%nat);
    [eapply (reach_step _ _ (ex_system (MkShared ∅ ∅ 1 2) 2) 0%nat);
      [eapply (reach_step _ _ (ex_system (MkShared ∅ ∅ 0 2) 1) 0%nat);
        [eapply (reach_step _ _ (ex_system (MkShared ∅ ∅ 0 1) 0) 0%nat); [by apply reach_init|]|]|]|];
    eapply ex_step; try reflexivity.
  - exact (step_swap_start 0 (MkShared ∅ ∅ 0 1) "s").
  - by_step (step_swap_peek 0 (MkShared ∅ ∅ 0 2) "s" 1).
  - by_step (step_swap_lock 0 (MkShared ∅ ∅ 1 2) "s" 1 0 eq_refl).
  - by_step (step_swap_commit 0 (MkShared ∅ {[0%Z := 0%nat]} 1 2) "s" 1 0).
Qed.

Lemma login_stays_current_witness : is_current (sy_shared ex_done) "s" 1 = true.
Proof. apply (login_stays_current ex_done 0 "s" 1 0 None ex_done_reachable). reflexivity. Defined.

Lemma session_gate_exclusive_witness : critical (sy_tasks ex_done 1%nat) <> Some ("s", MkSession 2 0).
Proof.
  apply (session_gate_exclusive ex_done 0 1 "s" (MkSession 1 0) (MkSession 2 0) ex_done_reachable);
    [reflexivity|discriminate].
Defined.

Lemma remove_keeps_newer_witness :
  sh_map (remove_commit (sy_shared ex_done) "s" 7 0).1 !! "s" = Some (MkSession 1 0).
Proof. apply remove_keeps_newer; [reflexivity|right; discriminate]. Defined.

Lemma gates_progress_witness : exists t' s', sy_tasks ex_done t' <> Idle /\ system_step ex_done t' s'.
Proof. apply (gates_progress ex_done 0 ex_done_reachable). discriminate. Defined.
