(* ===== verification/Service.v ===== *)
(** * The server's service

    [server/src/service/session_registry.rs] and [kick_client] of
    [server/src/service/mod.rs]: a login from its first message to the running
    session, the end of a session, a kick from the dashboard and a data
    connection.  Each handler is one function here, as it runs when no other task
    comes in between; [ServiceSteps] cuts the same handlers at every await, shows
    that these functions are their uninterrupted runs, and proves what holds
    whatever the order of the steps.  Tables and
    sessions are the [World] of [ServerRefine]; the table of sessions maps an id
    to the generation of its control. *)

From S2P Require Import Prelude RustStr Float64 Registry Metrics Msg Limit Gateway Config ServerConfig TunnelManager ServerControl ServerSpec ServerRefine Auth Agents.

Local Open Scope string_scope.

Record Service := MkService {
  sv_cfg : ServerConfig; sv_controls : gmap string Z; sv_agents : AgentRegistry;
  sv_auth_replay : ReplayCache; sv_world : World; sv_next_generation : Z }.

Definition set_controls (sv : Service) (m : gmap string Z) : Service :=
  MkService (sv_cfg sv) m (sv_agents sv) (sv_auth_replay sv) (sv_world sv) (sv_next_generation sv).
Definition set_agents (sv : Service) (a : AgentRegistry) : Service :=
  MkService (sv_cfg sv) (sv_controls sv) a (sv_auth_replay sv) (sv_world sv) (sv_next_generation sv).
Definition set_replay (sv : Service) (r : ReplayCache) : Service :=
  MkService (sv_cfg sv) (sv_controls sv) (sv_agents sv) r (sv_world sv) (sv_next_generation sv).
Definition set_world (sv : Service) (w : World) : Service :=
  MkService (sv_cfg sv) (sv_controls sv) (sv_agents sv) (sv_auth_replay sv) w (sv_next_generation sv).
(** [fetch_add] wraps. *)
Definition bump_generation (sv : Service) : Service :=
  MkService (sv_cfg sv) (sv_controls sv) (sv_agents sv) (sv_auth_replay sv) (sv_world sv)
    (wrap_u 64 (sv_next_generation sv + 1)).

(** [Service::new], as far as the tables go. *)
Definition service_new (cfg : ServerConfig) (t : Now) : Service :=
  MkService cfg ∅ agents_new ∅
    (MkWorld (MkTables ∅ ∅ ∅
       (if http_gw_enabled cfg then Some (http_gw_new (sc_http_gw_port cfg)) else None)
       (if https_gw_enabled cfg then Some (https_gw_new (sc_https_gw_port cfg)) else None)
       (metrics_new t)) ∅) 1.

Definition short_session_id (uuid_simple : string) : string := stake 16 uuid_simple.

(** What the world outside contributes to one call. *)
Record CallEnv := MkEnv {
  ev_version : string; ev_peer_ip : string; ev_now_secs : Z; ev_instant : Z; ev_uuid : string;
  ev_write_ok : bool; ev_now : Now }.

Section Service.
Context `{Crypto} (drain : TunnelManager -> list (string * TunnelEntry))
  (hash_iter : gset string -> list string).

Definition exec (sv : Service) (ev : Event) : Service := set_world sv (world_exec drain (sv_world sv) ev).
Definition metrics_of (sv : Service) : MemMetrics := tb_metrics (w_tables (sv_world sv)).
Definition session_of (sv : Service) (g : Z) : option Control := w_sessions (sv_world sv) !! g.

(** [remove_if_current] *)
Definition remove_current (sv : Service) (sid : string) (g : Z) : Service * bool :=
  if decide (sv_controls sv !! sid = Some g) then (set_controls sv (delete sid (sv_controls sv)), true)
  else (sv, false).

Definition requested_session_id (login : Login) (env : CallEnv) : Result string string :=
  if is_empty (trim (lg_session_id login)) then Ok (short_session_id (ev_uuid env))
  else match sanitize_wire_id (lg_session_id login) MAX_SESSION_ID_LEN with
       | Ok id => Ok (if is_empty id then short_session_id (ev_uuid env) else id)
       | Err e => Err e
       end.

Definition pool_count (sv : Service) (login : Login) : Z :=
  Z.min (Z.max 0 (lg_pool_count login)) (Z.max 0 (str_max_conn_pool (sc_transport (sv_cfg sv)))).

(** The session of a login: its record enters the world under a new generation. *)
Definition login_control (sv : Service) (login : Login) (user agent_id sid : string) (env : CallEnv) : Control :=
  control_new sid (sv_next_generation sv) (sv_cfg sv) (pool_count sv login) user agent_id
    (lg_hostname login) (lg_os login) (lg_arch login) (lg_version login) (ev_peer_ip env)
    (ev_now_secs env) (ev_now_secs env).

Definition online_spec (c : Control) : AgentOnlineSpec :=
  MkSpec (c_user c) (c_agent_id c) (c_session_id c) (c_generation c) (c_hostname c) (c_os c) (c_arch c)
    (c_client_ip c) (c_version c).

(** The login takes over its session id: the session that had it is shut down
    before anything else is decided. *)
Definition take_over (sv : Service) (c : Control) (env : CallEnv) : Service :=
  let previous := sv_controls sv !! c_session_id c in
  let sv := set_controls (exec sv (EvLogin c)) (<[c_session_id c := c_generation c]> (sv_controls sv)) in
  match previous with
  | Some g0 => exec sv (EvShutdown g0 (ev_now env))
  | None => sv
  end.

(** The login gives up: its control leaves the table, is shut down and dropped. *)
Definition abandon_login (sv : Service) (c : Control) (answer : option Event) (env : CallEnv) : Service :=
  let sv := (remove_current sv (c_session_id c) (c_generation c)).1 in
  let sv := match answer with Some ev => exec sv ev | None => sv end in
  exec (exec sv (EvShutdown (c_generation c) (ev_now env))) (EvDrop (c_generation c)).

Definition conflict_msg (agent_id user : string) : string :=
  "agent_id [" ++ agent_id ++ "] for user [" ++ user ++ "] is already online".

(** [register_control] up to the start of the read loop: the service, the reply
    to a client that has no session, and the session's generation. *)
Definition register_control (sv : Service) (login : Login) (env : CallEnv)
    : Service * option LoginResp * Result Z string :=
  let '(cache, r) := verify_login (ac_token (sc_auth (sv_cfg sv))) (lg_auth_digest login) (lg_timestamp login)
                       (ev_now_secs env) (sv_auth_replay sv) (ev_instant env) in
  let sv := set_replay sv cache in
  let reject e := (sv, Some (MkLoginResp (ev_version env) "" e), Err e) in
  match r with
  | Err _ => reject "authorization failed"
  | Ok _ =>
      match sanitize_wire_id (lg_user login) MAX_USER_LEN,
            sanitize_wire_id (lg_agent_id login) MAX_AGENT_ID_LEN,
            requested_session_id login env with
      | Err e, _, _ | Ok _, Err e, _ | Ok _, Ok _, Err e => reject e
      | Ok user, Ok agent_id, Ok sid =>
          let c := login_control sv login user agent_id sid env in
          let sv := take_over (bump_generation sv) c env in
          match try_online (sv_agents sv) (online_spec c) (ev_instant env) with
          | (_, Err Conflict) =>
              let err := conflict_msg agent_id user in
              (abandon_login sv c (Some (EvLoginErr (c_generation c) (ev_version env) err (ev_write_ok env))) env,
               None, Err err)
          | (agents, Ok _) =>
              let sv := set_agents sv agents in
              if ev_write_ok env then
                let sv := exec sv (EvLoginOk (c_generation c) (ev_version env) true) in
                (exec sv (EvMetrics (new_client hash_iter (metrics_of sv) sid)), None, Ok (c_generation c))
              else
                let sv := set_agents sv (agent_release (sv_agents sv) sid (c_generation c) 0 (ev_instant env)) in
                (abandon_login sv c None env, None, Err "io")
          end
      end
  end.

(** The read loop of session [g] has returned. *)
Definition session_ended (sv : Service) (g : Z) (env : CallEnv) : Service :=
  match session_of sv g with
  | None => sv
  | Some c =>
      let tc := tunnel_count c in
      let sv := exec sv (EvShutdown g (ev_now env)) in
      let '(sv, removed) := remove_current sv (c_session_id c) g in
      let sv :=
        if removed
        then set_agents sv (agent_release (sv_agents sv) (c_session_id c) g tc (ev_instant env))
        else sv in
      let sv := exec sv (EvMetrics (close_client (metrics_of sv))) in
      exec sv (EvDrop g)
  end.

(** [kick_client]; the session's own task then ends by itself. *)
Definition kick_client (sv : Service) (sid : string) (env : CallEnv) : Service * Result unit string :=
  match sv_controls sv !! sid with
  | None => (sv, Err ("client not online: " ++ sid))
  | Some g =>
      let tc := match session_of sv g with Some c => tunnel_count c | None => 0%Z end in
      let sv := exec sv (EvKick g "kicked from dashboard" (ev_write_ok env) (ev_now env)) in
      let sv := (remove_current sv sid g).1 in
      (set_agents sv (agent_release (sv_agents sv) sid g tc (ev_instant env)), Ok tt)
  end.

(** [lookup_accepting] *)
Definition lookup_accepting (sv : Service) (sid : string) : option Control :=
  match sv_controls sv !! sid with
  | Some g => match session_of sv g with
              | Some c => if is_accepting_data c then Some c else None
              | None => None
              end
  | None => None
  end.

(** [register_data_conn]: the control that gets the connection. *)
Definition register_data_conn (sv : Service) (nw : NewDataConn) (env : CallEnv) : Result Control string :=
  if is_empty (trim (nd_session_id nw)) then Err "empty session_id for data connection"
  else match (verify_auth_digest (ac_token (sc_auth (sv_cfg sv))) (nd_auth_digest nw) (nd_timestamp nw)
                (ev_now_secs env) None (ev_instant env)).2 with
       | Err _ => Err ("data connection authentication failed for session_id=" ++ nd_session_id nw)
       | Ok _ =>
           match lookup_accepting sv (nd_session_id nw) with
           | Some c => Ok c
           | None => Err ("no accepting control for data connection session_id=" ++ nd_session_id nw)
           end
       end.

(** [handle_connection]: what the first message of a connection starts. *)
Inductive FirstMessage := FirstLogin (login : Login) | FirstData (nw : NewDataConn) | FirstOther (type_byte : ascii).
Definition first_message (m : Message) : FirstMessage :=
  match m with
  | MLogin login => FirstLogin login
  | MNewDataConn nw => FirstData nw
  | other => FirstOther (type_byte other)
  end.
End Service.

(** ** The invariant *)

Section Invariant.
Context `{Crypto} (drain : TunnelManager -> list (string * TunnelEntry))
  (hash_iter : gset string -> list string) (drain_all : forall tm, drain tm ≡ₚ map_to_list tm).

Abbreviation exec := (exec drain).

Section Inv.
(** Whether every tunnel a client names has a name without outer white space. *)
Context (named : bool).

(** [ex] is a session on its way out: open, but not in the table. *)
Record service_inv (ex : option Z) (sv : Service) : Prop := {
  si_world : named = true -> reachable (world_step drain) world_init (sv_world sv);
  si_range : forall g c, session_of sv g = Some c -> c_generation c = g /\ (g < sv_next_generation sv)%Z;
  si_open : forall g c, session_of sv g = Some c -> c_closed c = false -> ex <> Some g ->
    sv_controls sv !! c_session_id c = Some g;
  si_table : forall sid g, sv_controls sv !! sid = Some g ->
    exists c, session_of sv g = Some c /\ c_session_id c = sid }.

Lemma inv_weaken ex sv : service_inv None sv -> service_inv ex sv.
Proof using Type. intros []. split; [done|done| |done]. intros g c Hg Hc _. by apply si_open0. Qed.

Lemma inv_same ex sv sv' :
  sv_world sv' = sv_world sv -> sv_controls sv' = sv_controls sv -> sv_next_generation sv' = sv_next_generation sv ->
  service_inv ex sv -> service_inv ex sv'.
Proof using Type.
  intros Hw Hc Hn [H1 H2 H3 H4]. split; unfold session_of in *; rewrite ?Hw, ?Hc, ?Hn; eauto.
Qed.

Lemma kept_owner c c' : kept c c' -> c_session_id c' = c_session_id c /\ c_generation c' = c_generation c.
Proof using Type. intros [E _]. by injection E. Qed.

(** Any event but a login or a drop. *)
Lemma inv_exec ex sv ev :
  service_inv ex sv -> (named = true -> event_ok (sv_world sv) ev) -> (forall c, ev <> EvLogin c) -> (forall g, ev <> EvDrop g) ->
  service_inv ex (exec sv ev)
  /\ (forall g c, closing ev g = true -> session_of (exec sv ev) g = Some c -> c_closed c = true).
Proof using Type.
  intros [Hw Hr Ho Ht] Hok Hnl Hnd. pose proof (fun g => world_exec_sessions drain (sv_world sv) ev g Hnl Hnd) as Hs.
  assert (forall g c', session_of (exec sv ev) g = Some c' -> exists c, session_of sv g = Some c /\ moved ev g c c') as Hback.
  { intros g c' Hg'. specialize (Hs g). unfold session_of in *. cbn [sv_world exec set_world] in Hg'.
    unfold Service.exec in Hg'. simpl in Hg'. rewrite Hg' in Hs. destruct (w_sessions (sv_world sv) !! g); [|done]. eauto. }
  split; [split|].
  - intros Hn. simpl. eapply reach_step; [exact (Hw Hn)|]. split; [by apply Hok|done].
  - intros g c' (c & Hg & Hk & _)%Hback. destruct (kept_owner _ _ Hk) as [_ ->]. by apply Hr.
  - intros g c' (c & Hg & Hk & _)%Hback Hcl Hex. destruct (kept_owner _ _ Hk) as [-> _]. apply (Ho g c); [done| |done].
    destruct Hk as [_ Hmono]. destruct (c_closed c); [|done]. rewrite Hmono in Hcl; done.
  - intros sid g Hsid. destruct (Ht sid g Hsid) as (c & Hg & <-). specialize (Hs g). unfold session_of in *.
    rewrite Hg in Hs. cbn [Service.exec sv_world set_world].
    destruct (w_sessions (world_exec drain (sv_world sv) ev) !! g) as [c'|]; [|done]. exists c'. split; [done|].
    destruct Hs as [Hk _]. by destruct (kept_owner _ _ Hk).
  - intros g c Hcl (c0 & _ & _ & Hc & _)%Hback. by apply Hc.
Qed.

Lemma inv_exec' ex sv ev :
  service_inv ex sv -> (named = true -> event_ok (sv_world sv) ev) -> (forall c, ev <> EvLogin c) -> (forall g, ev <> EvDrop g) ->
  service_inv ex (exec sv ev).
Proof using Type. intros. by apply inv_exec. Qed.

(** Shutting down the session on its way out. *)
Lemma inv_shutdown sv g t : service_inv (Some g) sv -> service_inv None (exec sv (EvShutdown g t)).
Proof using Type.
  intros Hinv. destruct (inv_exec _ _ (EvShutdown g t) Hinv) as ([H1 H2 H3 H4] & Hcl); [done..|].
  split; [done|done| |done]. intros g' c Hg' Hc _. apply H3; [done|done|]. intros [= ->].
  rewrite (Hcl g' c (Z.eqb_refl g') Hg') in Hc. done.
Qed.

Lemma inv_removed ex sv sid g :
  service_inv ex sv -> (forall c, session_of sv g = Some c -> c_closed c = false -> ex = Some g) ->
  service_inv ex (remove_current sv sid g).1.
Proof using Type.
  intros [H1 H2 H3 H4] Hc. unfold remove_current. case_decide as E; [|by split]. split; [done|done| |].
  - intros g' c Hg' Hcl Hex. cbn [sv_controls set_controls fst]. unfold session_of in *. simpl in Hg'.
    assert (g' <> g) as Hne by (intros ->; by apply Hex, (Hc c)).
    specialize (H3 g' c Hg' Hcl Hex). rewrite lookup_delete_ne; [done|]. intros ->. congruence.
  - cbn [fst sv_controls set_controls]. intros sid' g' [_ Hs]%lookup_delete_Some. by apply H4.
Qed.

Lemma inv_drop ex sv g :
  service_inv ex sv -> (forall sid, sv_controls sv !! sid <> Some g) -> service_inv ex (exec sv (EvDrop g)).
Proof using Type.
  intros [H1 H2 H3 H4] Hno.
  assert (forall g', session_of (exec sv (EvDrop g)) g' = if decide (g' = g) then None else session_of sv g') as Hs.
  { intros g'. unfold session_of, Service.exec. cbn [sv_world set_world world_exec event_session session_exec].
    destruct (w_sessions (sv_world sv) !! g) as [c|] eqn:E; simpl.
    - case_decide as Hd; [subst; by rewrite lookup_delete_eq|by rewrite lookup_delete_ne].
    - by case_decide; subst. }
  split.
  - intros Hn. apply (reach_step _ _ (sv_world sv) (EvDrop g)); [exact (H1 Hn)|]. by split.
  - intros g' c. rewrite Hs. case_decide; [done|]. apply H2.
  - intros g' c. rewrite Hs. case_decide; [done|]. apply H3.
  - intros sid g' Hg'. destruct (H4 sid g' Hg') as (c & Hc & Hsid). exists c. rewrite Hs.
    rewrite decide_False; [done|]. intros ->. by destruct (Hno sid).
Qed.

(** ** Each handler preserves it *)

Lemma exec_fields sv ev :
  sv_controls (exec sv ev) = sv_controls sv /\ sv_agents (exec sv ev) = sv_agents sv
  /\ sv_next_generation (exec sv ev) = sv_next_generation sv.
Proof using Type. done. Qed.

Lemma removed_gone ex sv c g sid :
  service_inv ex sv -> session_of sv g = Some c -> sv_controls (remove_current sv (c_session_id c) g).1 !! sid <> Some g.
Proof using Type.
  intros [H1 H2 H3 H4] Hg Hs. unfold remove_current in Hs.
  assert (forall sid', sv_controls sv !! sid' = Some g -> sid' = c_session_id c) as Honly.
  { intros sid' H'. destruct (H4 _ _ H') as (c' & Hc' & <-). congruence. }
  case_decide as E; simpl in Hs.
  - apply lookup_delete_Some in Hs as [Hne Hs]. apply Hne. symmetry. by apply Honly.
  - apply E. by rewrite <- (Honly sid Hs).
Qed.

Lemma inv_take_over sv c env :
  service_inv None sv -> fresh_control c -> (c_generation c < sv_next_generation sv)%Z ->
  session_of sv (c_generation c) = None ->
  service_inv None (take_over drain sv c env) /\ is_Some (session_of (take_over drain sv c env) (c_generation c)).
Proof using Type.
  intros Hinv Hf Hlt Hnone. pose proof Hinv as [H1 H2 H3 H4]. unfold take_over.
  set (sv1 := set_controls _ _).
  assert (forall g, session_of sv1 g = if decide (g = c_generation c) then Some c else session_of sv g) as Hs.
  { intros g. unfold sv1, session_of, Service.exec. cbn. case_decide as Hd; [subst; by rewrite lookup_insert_eq|].
    by rewrite lookup_insert_ne. }
  assert (service_inv (sv_controls sv !! c_session_id c) sv1) as Hinv1.
  { split.
    - intros Hn. apply (reach_step _ _ (sv_world sv) (EvLogin c)); [exact (H1 Hn)|]. split; [|done]. by split.
    - intros g c0. rewrite Hs. case_decide as Hd; [intros [= <-]; by subst|apply H2].
    - intros g c0. rewrite Hs. case_decide as Hd; [intros [= <-] _ _; subst; apply lookup_insert_eq|].
      intros Hg Hc Hex. specialize (H3 g c0 Hg Hc ltac:(done)). unfold sv1. cbn.
      rewrite lookup_insert_ne; [done|]. intros E. rewrite E in Hex. congruence.
    - unfold sv1. cbn [sv_controls set_controls]. fold sv1.
      intros sid g [[<- <-]|[Hne Hg]]%lookup_insert_Some; [exists c; by rewrite Hs, decide_True|].
      destruct (H4 sid g Hg) as (c0 & Hc0 & Hsid). exists c0. rewrite Hs. rewrite decide_False; [done|].
      intros ->. congruence. }
  destruct (sv_controls sv !! c_session_id c) as [g0|].
  - split; [by apply inv_shutdown|].
    pose proof (world_exec_sessions drain (sv_world sv1) (EvShutdown g0 (ev_now env)) (c_generation c) ltac:(done) ltac:(done)) as Hk.
    unfold session_of in *. rewrite Hs, decide_True in Hk by done. cbn [Service.exec sv_world set_world].
    destruct (w_sessions (world_exec _ _ _) !! _); [by eexists|done].
  - split; [done|]. rewrite Hs, decide_True by done. by eexists.
Qed.

Lemma remove_current_world sv sid g : sv_world (remove_current sv sid g).1 = sv_world sv.
Proof using Type. unfold remove_current. by case_decide. Qed.
Lemma remove_current_generation sv sid g :
  sv_next_generation (remove_current sv sid g).1 = sv_next_generation sv.
Proof using Type. unfold remove_current. by case_decide. Qed.

(** A session that has left the table is shut down and dropped. *)
Lemma inv_discard sv g t :
  service_inv (Some g) sv -> (forall sid, sv_controls sv !! sid <> Some g) ->
  service_inv None (exec (exec sv (EvShutdown g t)) (EvDrop g)).
Proof using Type. intros Hinv Hno. apply inv_drop; [by apply inv_shutdown|done]. Qed.

Lemma inv_abandon_login sv c answer env :
  service_inv None sv -> (exists c', session_of sv (c_generation c) = Some c' /\ c_session_id c' = c_session_id c) ->
  match answer with Some (EvLoginErr _ _ _ _) | None => True | _ => False end ->
  service_inv None (abandon_login drain sv c answer env).
Proof using Type.
  intros Hinv (c' & Hc' & Hsid) Ha. unfold abandon_login.
  set (sv1 := (remove_current sv (c_session_id c) (c_generation c)).1).
  assert (service_inv (Some (c_generation c)) sv1) as Hinv1 by (apply inv_removed; [by apply inv_weaken|done]).
  assert (forall sid, sv_controls sv1 !! sid <> Some (c_generation c)) as Hno.
  { intros sid. unfold sv1. rewrite <- Hsid. by eapply removed_gone. }
  destruct answer as [[]|]; try done; apply inv_discard; try done. by apply inv_exec'.
Qed.

Lemma taken_session sv c env :
  session_of sv (c_generation c) = None -> fresh_control c -> service_inv None sv ->
  (c_generation c < sv_next_generation sv)%Z ->
  exists c', session_of (take_over drain sv c env) (c_generation c) = Some c' /\ c_session_id c' = c_session_id c.
Proof using Type.
  intros Hn Hf Hinv Hlt. destruct (inv_take_over sv c env Hinv Hf Hlt Hn) as [Hinv' [c' Hc']].
  exists c'. split; [done|].
  assert (sv_controls (take_over drain sv c env) !! c_session_id c = Some (c_generation c)) as Hcur.
  { unfold take_over. destruct (sv_controls sv !! c_session_id c); cbn; apply lookup_insert_eq. }
  destruct (si_table _ _ Hinv' _ _ Hcur) as (c0 & Hc0 & Hs0). congruence.
Qed.

Lemma inv_register_control sv login env sv' reply r :
  service_inv None sv -> (0 <= sv_next_generation sv < u64_max)%Z ->
  register_control drain hash_iter sv login env = (sv', reply, r) -> service_inv None sv'.
Proof using Type.
  intros Hinv Hrange. unfold register_control.
  destruct (verify_login _ _ _ _ _ _) as [cache r0].
  assert (service_inv None (set_replay sv cache)) as Hinv0 by (by apply (inv_same None sv)).
  destruct r0 as [u|e]; [|by intros [= <- _ _]].
  destruct (sanitize_wire_id (lg_user login) _) as [user|e]; [|by intros [= <- _ _]].
  destruct (sanitize_wire_id (lg_agent_id login) _) as [agent|e]; [|by intros [= <- _ _]].
  destruct (requested_session_id login env) as [sid|e]; [|by intros [= <- _ _]].
  set (c := login_control _ _ _ _ _ _). set (sv0 := bump_generation _).
  assert (sv_next_generation sv0 = sv_next_generation sv + 1)%Z as Hnext.
  { unfold sv0. cbn. apply wrap_u_small. unfold u64_max in Hrange. change (2 ^ 64)%Z with 18446744073709551616%Z. lia. }
  assert (service_inv None sv0) as Hinv1.
  { destruct Hinv0 as [H1 H2 H3 H4]. split; [done| |done|done]. intros g c0 Hg.
    destruct (H2 g c0 Hg) as [? Hlt]. split; [done|]. rewrite Hnext. cbn in Hlt. lia. }
  assert (fresh_control c) as Hf by (unfold c, login_control; repeat eexists).
  assert (c_generation c = sv_next_generation sv) as Hg by done.
  assert (session_of sv0 (c_generation c) = None) as Hnone.
  { destruct (session_of sv0 (c_generation c)) as [c0|] eqn:E; [|done].
    destruct (si_range _ _ Hinv0 _ c0 E) as [_ Hlt]. cbn in Hlt. lia. }
  assert (c_generation c < sv_next_generation sv0)%Z as Hlt by lia.
  pose proof (proj1 (inv_take_over sv0 c env Hinv1 Hf Hlt Hnone)) as Hinv2.
  destruct (taken_session sv0 c env Hnone Hf Hinv1 Hlt) as (c' & Hc' & Hsid).
  destruct (try_online _ _ _) as [agents [key|[]]].
  - destruct (ev_write_ok env); intros [= <- _ _].
    + apply inv_exec'; [|done..]. apply inv_exec'; [|done..]. by eapply inv_same; [..|exact Hinv2].
    + apply inv_abandon_login; [by eapply inv_same; [..|exact Hinv2]|eauto|done].
  - intros [= <- _ _]. apply inv_abandon_login; [done|eauto|done].
Qed.

Lemma inv_session_ended sv g env : service_inv None sv -> service_inv None (session_ended drain sv g env).
Proof using Type.
  intros Hinv. unfold session_ended. destruct (session_of sv g) as [c|] eqn:Hg; [|done].
  set (sv1 := exec sv (EvShutdown g (ev_now env))).
  destruct (inv_exec None sv (EvShutdown g (ev_now env)) Hinv) as (Hinv1 & Hcl); [done..|].
  pose proof (world_exec_sessions drain (sv_world sv) (EvShutdown g (ev_now env)) g ltac:(done) ltac:(done)) as Hk. unfold session_of in Hg. rewrite Hg in Hk.
  destruct (w_sessions (world_exec drain (sv_world sv) (EvShutdown g (ev_now env))) !! g) as [c1|] eqn:Hc1; [|done].
  destruct Hk as [[Hsid _]%kept_owner _]. assert (session_of sv1 g = Some c1) as Hs1 by done.
  destruct (remove_current sv1 (c_session_id c) g) as [sv2 removed] eqn:Er.
  assert (sv2 = (remove_current sv1 (c_session_id c) g).1) as Hsv2 by (by rewrite Er).
  assert (service_inv None sv2) as Hinv2.
  { rewrite Hsv2. apply inv_removed; [done|]. intros c0 Hc0 Hop. rewrite (Hcl g c0 (Z.eqb_refl g) Hc0) in Hop. done. }
  assert (forall sid, sv_controls sv2 !! sid <> Some g) as Hno.
  { intros sid. rewrite Hsv2, <- Hsid. by eapply (removed_gone None). }
  apply inv_drop; [|by destruct removed]. apply inv_exec'; [|done..].
  destruct removed; [|done]. by apply (inv_same None sv2).
Qed.

Lemma inv_kick_client sv sid env sv' r :
  service_inv None sv -> kick_client drain sv sid env = (sv', r) -> service_inv None sv'.
Proof using Type.
  intros Hinv. unfold kick_client. destruct (sv_controls sv !! sid) as [g|] eqn:Hs; [|by intros [= <- _]].
  intros [= <- _].
  apply (inv_same None (remove_current (exec sv (EvKick g "kicked from dashboard" (ev_write_ok env) (ev_now env)))
           sid g).1); [done|done|done|].
  destruct (inv_exec None sv (EvKick g "kicked from dashboard" (ev_write_ok env) (ev_now env)) Hinv)
    as (Hinv1 & Hcl); [done..|].
  apply inv_removed; [done|]. intros c Hc Hop. rewrite (Hcl g c (Z.eqb_refl g) Hc) in Hop. done.
Qed.

Lemma service_new_inv cfg t : service_inv None (service_new cfg t).
Proof using Type.
  split; unfold session_of; cbn; [|intros ? ?; by rewrite lookup_empty..].
  intros _. apply reach_init. exists (if http_gw_enabled cfg then Some (sc_http_gw_port cfg) else None),
    (if https_gw_enabled cfg then Some (sc_https_gw_port cfg) else None), (metrics_new t).
  by destruct (http_gw_enabled cfg), (https_gw_enabled cfg).
Qed.
End Inv.

(** ** The service as a transition system

    The handlers one after another: what a service does whose tasks happen not to
    overlap.  [ServiceSteps] takes them apart. *)

Inductive ServiceOp :=
| OpLogin (login : Login) (env : CallEnv)
| OpMessage (g : Z) (m : Message) (bind : Anyhow unit) (write_ok : bool) (t : Now)
| OpWatchdog (g : Z) (timeout unix_now : Z)
| OpEnded (g : Z) (env : CallEnv)
| OpKick (sid : string) (env : CallEnv).

Definition service_exec (sv : Service) (op : ServiceOp) : Service :=
  match op with
  | OpLogin login env => (register_control drain hash_iter sv login env).1.1
  | OpMessage g m bind w t => exec sv (EvMessage g m bind w t)
  | OpWatchdog g timeout now => exec sv (EvWatchdog g timeout now)
  | OpEnded g env => session_ended drain sv g env
  | OpKick sid env => (kick_client drain sv sid env).1
  end.
(** Generations have not run out. *)
Definition service_step (sv : Service) (op : ServiceOp) (sv' : Service) : Prop :=
  (0 <= sv_next_generation sv < u64_max)%Z /\ sv' = service_exec sv op.
Definition service_init (sv : Service) : Prop := exists cfg t, sv = service_new cfg t.
(** Besides, tunnel names are trimmed. *)
Definition op_named (op : ServiceOp) : Prop := match op with OpMessage _ m _ _ _ => message_ok m | _ => True end.
Definition named_step (sv : Service) (op : ServiceOp) (sv' : Service) : Prop := op_named op /\ service_step sv op sv'.

Lemma inv_service_step (named : bool) sv op sv' :
  (named = true -> op_named op) -> service_inv named None sv -> service_step sv op sv' -> service_inv named None sv'.
Proof using Type.
  intros Hm IH (Hr & ->). destruct op as [login env|g m bind w t|g timeout now|g env|sid env]; cbn [service_exec].
  - destruct (register_control drain hash_iter sv login env) as [[sv1 reply] r] eqn:E.
    by eapply inv_register_control.
  - by apply inv_exec'.
  - by apply inv_exec'.
  - by apply inv_session_ended.
  - destruct (kick_client drain sv sid env) as [sv1 r] eqn:E. by eapply inv_kick_client.
Qed.
Lemma service_inv_reachable sv : reachable service_step service_init sv -> service_inv false None sv.
Proof using Type.
  induction 1 as [sv (cfg & t & ->)|sv op sv' _ IH Hs]; [apply service_new_inv|]. by eapply inv_service_step.
Qed.
Lemma named_inv_reachable sv : reachable named_step service_init sv -> service_inv true None sv.
Proof using Type.
  induction 1 as [sv (cfg & t & ->)|sv op sv' _ IH [Hm Hs]]; [apply service_new_inv|]. by eapply inv_service_step.
Qed.
(** Then the tables hold exactly what the live tunnels need. *)
Lemma named_world sv : reachable named_step service_init sv ->
  reachable (world_step drain) world_init (sv_world sv) /\ exists A, world_agrees (sv_world sv) A.
Proof using drain_all.
  intros Hinv%named_inv_reachable. pose proof (si_world _ _ _ Hinv eq_refl) as Hw. split; [done|].
  by apply (reachable_agrees drain drain_all).
Qed.

(** ** The properties *)

Lemma world_exec_other w ev g :
  (forall c, ev <> EvLogin c) -> (forall m, ev <> EvMetrics m) -> event_session ev <> g ->
  w_sessions (world_exec drain w ev) !! g = w_sessions w !! g.
Proof using Type.
  intros Hnl Hnm Hne. destruct ev as [c0| | |m| | | | |]; cbn [world_exec]; [by destruct (Hnl c0)| | |by destruct (Hnm m)|..];
    (destruct (w_sessions w !! event_session _) as [c|]; [|done]);
    destruct (session_exec drain _ c _) as [T [c'|]]; cbn [w_sessions];
    by rewrite ?lookup_insert_ne, ?lookup_delete_ne.
Qed.

Lemma take_over_session sv c env :
  session_of (take_over drain sv c env) (c_generation c)
  = match sv_controls sv !! c_session_id c with
    | Some g0 => if decide (g0 = c_generation c) then session_of (take_over drain sv c env) (c_generation c) else Some c
    | None => Some c
    end.
Proof using Type.
  unfold take_over. destruct (sv_controls sv !! c_session_id c) as [g0|].
  - case_decide; [done|]. unfold session_of, Service.exec. cbn [sv_world set_world].
    rewrite world_exec_other by (done || by simpl). cbn. by rewrite lookup_insert_eq.
  - unfold session_of. cbn. by rewrite lookup_insert_eq.
Qed.

Lemma abandon_login_controls sv c answer env :
  sv_controls sv !! c_session_id c = Some (c_generation c) ->
  sv_controls (abandon_login drain sv c answer env) = delete (c_session_id c) (sv_controls sv).
Proof using Type.
  intros Hc. unfold abandon_login, remove_current. rewrite decide_True by done. by destruct answer.
Qed.
Lemma abandon_login_agents sv c answer env : sv_agents (abandon_login drain sv c answer env) = sv_agents sv.
Proof using Type. unfold abandon_login, remove_current. case_decide; by destruct answer. Qed.
Lemma abandon_login_session sv c answer env : session_of (abandon_login drain sv c answer env) (c_generation c) = None.
Proof using Type.
  unfold abandon_login. set (sv1 := match answer with Some ev => _ | None => _ end). unfold session_of, Service.exec.
  cbn [sv_world set_world]. set (w := world_exec drain (sv_world sv1) _).
  cbn [world_exec event_session session_exec]. destruct (w_sessions w !! c_generation c) as [c0|] eqn:E; [|done].
  cbn [w_sessions]. apply lookup_delete_eq.
Qed.

Lemma take_over_controls sv c env :
  sv_controls (take_over drain sv c env) = <[c_session_id c := c_generation c]> (sv_controls sv).
Proof using Type. unfold take_over. by destruct (sv_controls sv !! c_session_id c). Qed.
Lemma take_over_agents sv c env : sv_agents (take_over drain sv c env) = sv_agents sv.
Proof using Type. unfold take_over. by destruct (sv_controls sv !! c_session_id c). Qed.

Lemma login_ok_session sv c version m :
  session_of sv (c_generation c) = Some c -> c_closed c = false ->
  exists c', session_of (exec (exec sv (EvLoginOk (c_generation c) version true)) (EvMetrics m)) (c_generation c) = Some c'
    /\ is_accepting_data c' = true /\ owner c' = owner c.
Proof using Type.
  intros Hs Hc. unfold session_of, Service.exec in *. cbn [sv_world set_world world_exec event_session w_sessions].
  rewrite Hs. cbn [session_exec w_sessions]. eexists. rewrite lookup_insert_eq. split; [done|].
  unfold is_accepting_data, is_closed. cbn. by rewrite Hc.
Qed.

(** C11: a login ends in one of two ways: its session is open, current under its
    id, ready for data connections and filed as an agent, or no session of it
    exists; the handlers run one after another here. *)
Theorem login_outcome sv login env :
  reachable service_step service_init sv -> (0 <= sv_next_generation sv < u64_max)%Z ->
  match register_control drain hash_iter sv login env with
  | (sv', _, Ok g) => g = sv_next_generation sv /\ exists c, session_of sv' g = Some c
      /\ is_accepting_data c = true /\ sv_controls sv' !! c_session_id c = Some g
      /\ is_Some (by_session (sv_agents sv') !! c_session_id c)
  | (sv', _, Err _) => session_of sv' (sv_next_generation sv) = None
  end.
Proof using Type.
  intros Hinv%service_inv_reachable Hrange.
  assert (forall sv', session_of sv' = session_of sv -> session_of sv' (sv_next_generation sv) = None) as Hold.
  { intros sv' ->. destruct (session_of sv _) as [c|] eqn:E; [|done]. apply (si_range _ _ _ Hinv) in E. lia. }
  unfold register_control. destruct (verify_login _ _ _ _ _ _) as [cache [u|e]]; [|by apply Hold].
  destruct (sanitize_wire_id (lg_user login) _) as [user|e]; [|by apply Hold].
  destruct (sanitize_wire_id (lg_agent_id login) _) as [agent|e]; [|by apply Hold].
  destruct (requested_session_id login env) as [sid|e]; [|by apply Hold].
  set (c := login_control _ _ _ _ _ _). set (sv0 := bump_generation _).
  assert (session_of (take_over drain sv0 c env) (c_generation c) = Some c) as Hsess.
  { rewrite take_over_session. destruct (sv_controls sv0 !! c_session_id c) as [g0|] eqn:E; [|done].
    rewrite decide_False; [done|]. intros ->. destruct (si_table _ _ _ Hinv _ _ E) as (c0 & Hc0 & _).
    apply (si_range _ _ _ Hinv) in Hc0 as [_ Hlt]. cbn in Hlt. lia. }
  destruct (try_online _ _ _) as [agents [key|[]]] eqn:Eon.
  - apply try_online_entered in Eon as (_ & Hon & _). destruct (ev_write_ok env).
    + split; [done|].
      destruct (login_ok_session (set_agents (take_over drain sv0 c env) agents) c (ev_version env)
        (new_client hash_iter (metrics_of (exec (set_agents (take_over drain sv0 c env) agents)
           (EvLoginOk (c_generation c) (ev_version env) true))) sid) Hsess eq_refl) as (c' & Hc' & Hacc & Ho).
      exists c'. split; [done|]. split; [done|]. injection Ho as Hsid _. rewrite Hsid. split; [|by eexists].
      cbn [Service.exec set_world sv_controls set_agents]. rewrite take_over_controls. apply lookup_insert_eq.
    + apply (abandon_login_session _ c).
  - apply (abandon_login_session _ c).
Qed.

(** A login that is refused because its agent is online elsewhere has
    already shut down the session that had its session id; that session's agent
    is never taken offline, not even when the session's task ends. *)
Theorem refused_login_evicts sv login env user agent sid g0 :
  reachable service_step service_init sv -> (0 <= sv_next_generation sv < u64_max)%Z ->
  (verify_login (ac_token (sc_auth (sv_cfg sv))) (lg_auth_digest login) (lg_timestamp login)
     (ev_now_secs env) (sv_auth_replay sv) (ev_instant env)).2 = Ok tt ->
  sanitize_wire_id (lg_user login) MAX_USER_LEN = Ok user ->
  sanitize_wire_id (lg_agent_id login) MAX_AGENT_ID_LEN = Ok agent ->
  requested_session_id login env = Ok sid ->
  sv_controls sv !! sid = Some g0 ->
  conflicts (sv_agents sv) (online_spec (login_control sv login user agent sid env)) = true ->
  let '(sv', _, r) := register_control drain hash_iter sv login env in
  r = Err (conflict_msg agent user) /\ sv_controls sv' !! sid = None
  /\ (forall c, session_of sv' g0 = Some c -> c_closed c = true)
  /\ sv_agents sv' = sv_agents sv
  /\ forall env', sv_agents (session_ended drain sv' g0 env') = sv_agents sv.
Proof using Type.
  intros Hinv%service_inv_reachable Hrange Hv Hu Ha Hs Hg0 Hconf.
  destruct (register_control drain hash_iter sv login env) as [[sv' reply] r] eqn:E.
  pose proof (inv_register_control _ _ _ _ _ _ _ Hinv Hrange E) as Hinv'. revert E. unfold register_control.
  destruct (verify_login _ _ _ _ _ _) as [cache r0]. simpl in Hv. subst r0. rewrite Hu, Ha, Hs.
  set (sv0 := bump_generation _). set (c := login_control _ _ _ _ _ _).
  assert (try_online (sv_agents (take_over drain sv0 c env)) (online_spec c) (ev_instant env)
          = (sv_agents sv, Err Conflict)) as ->.
  { rewrite take_over_agents. unfold try_online. change (sv_agents sv0) with (sv_agents sv).
    change (online_spec c) with (online_spec (login_control sv login user agent sid env)). by rewrite Hconf. }
  intros [= <- _ <-].
  set (sv' := abandon_login drain (take_over drain sv0 c env) c _ env) in *.
  assert (sv_agents sv' = sv_agents sv) as Hag by (unfold sv'; by rewrite abandon_login_agents, take_over_agents).
  assert (sv_controls sv' = delete sid (<[sid := c_generation c]> (sv_controls sv))) as Hctl.
  { unfold sv'. rewrite abandon_login_controls; rewrite take_over_controls; [done|apply lookup_insert_eq]. }
  assert (forall s, sv_controls sv' !! s <> Some g0) as Hno.
  { intros s. rewrite Hctl. intros [Hne H']%lookup_delete_Some. rewrite lookup_insert_ne in H' by done.
    destruct (si_table _ _ _ Hinv _ _ H') as (c1 & Hc1 & <-).
    destruct (si_table _ _ _ Hinv _ _ Hg0) as (c2 & Hc2 & <-). congruence. }
  split; [done|]. split; [rewrite Hctl; apply lookup_delete_eq|]. split; [|split; [done|]].
  - intros c0 Hc0. destruct (c_closed c0) eqn:Ecl; [done|].
    by destruct (Hno _ (si_open _ _ _ Hinv' _ _ Hc0 Ecl ltac:(done))).
  - intros env'. unfold session_ended. destruct (session_of sv' g0) as [c0|]; [|done].
    unfold remove_current. rewrite decide_False; [done|]. apply Hno.
Qed.

(** C12: a data connection is handed only to the open, logged-in session whose id
    it names, and only when it is authenticated; the handlers run one after
    another here. *)
Theorem data_conn_goes_to_its_session sv nw env c :
  reachable service_step service_init sv -> register_data_conn sv nw env = Ok c ->
  c_session_id c = nd_session_id nw /\ is_accepting_data c = true
  /\ session_of sv (c_generation c) = Some c
  /\ (verify_auth_digest (ac_token (sc_auth (sv_cfg sv))) (nd_auth_digest nw) (nd_timestamp nw)
        (ev_now_secs env) None (ev_instant env)).2 = Ok tt.
Proof using Type.
  intros Hinv%service_inv_reachable. unfold register_data_conn. destruct (is_empty _); [done|].
  destruct (verify_auth_digest _ _ _ _ _ _).2 as [[]|e] eqn:Ev; [|done].
  destruct (lookup_accepting sv (nd_session_id nw)) as [c0|] eqn:El; [|done]. intros [= <-].
  unfold lookup_accepting in El. destruct (sv_controls sv !! nd_session_id nw) as [g|] eqn:Et; [|done].
  destruct (si_table _ _ _ Hinv _ _ Et) as (c1 & Hc1 & Hsid). rewrite Hc1 in El.
  destruct (is_accepting_data c1) eqn:Ea; [|done]. injection El as <-.
  destruct (si_range _ _ _ Hinv _ _ Hc1) as [-> _]. done.
Qed.
End Invariant.

(** ** Witnesses *)

Definition ex_crypto_off : Crypto :=
  {| hmac := fun _ m => m; hex_encode := fun s => s; hex_decode := fun s => Some s |}.
Definition ex_login (agent sid : string) : Login := MkLogin "v" "h" "o" "x" "u" agent "" 0 sid 1.
Definition ex_env : CallEnv := MkEnv "v" "127.0.0.1" 100 100 "0123456789abcdef0123456789abcdef" true (MkNow 0 0 100).
#[local] Existing Instance ex_crypto_off.
Definition ex_step (sv : Service) (op : ServiceOp) : Service := service_exec map_to_list elements sv op.
Definition ex_service0 : Service := service_new server_config_default (MkNow 0 0 0).
Definition ex_service1 : Service := ex_step ex_service0 (OpLogin (ex_login "A" "S1") ex_env).
Definition ex_service2 : Service := ex_step ex_service1 (OpLogin (ex_login "B" "S9") ex_env).
Definition ex_nw : NewDataConn := MkNewDataConn "S1" "" 0.

Lemma ex_service_reachable1 :
  reachable (service_step map_to_list elements) service_init ex_service1.
Proof.
  apply (reach_step _ _ ex_service0 (OpLogin (ex_login "A" "S1") ex_env)).
  - apply reach_init. by eexists _, _.
  - by split; [vm_compute; split; [discriminate|reflexivity]|].
Qed.
Lemma ex_service_reachable2 :
  reachable (service_step map_to_list elements) service_init ex_service2.
Proof.
  apply (reach_step _ _ ex_service1 (OpLogin (ex_login "B" "S9") ex_env)); [apply ex_service_reachable1|].
  by split; [vm_compute; split; [discriminate|reflexivity]|].
Qed.

Lemma login_outcome_witness : exists c, session_of ex_service1 1 = Some c /\ is_accepting_data c = true.
Proof.
  pose proof (login_outcome map_to_list elements ex_service0 (ex_login "A" "S1") ex_env
    (reach_init _ _ _ (ex_intro _ server_config_default (ex_intro _ (MkNow 0 0 0) eq_refl)))
    ltac:(vm_compute; split; [discriminate|reflexivity])) as H.
  destruct (register_control map_to_list elements ex_service0 (ex_login "A" "S1") ex_env) as [[sv' reply] [g|e]] eqn:E.
  - destruct H as (-> & c & Hc & Ha & _). exists c. split; [|exact Ha].
    unfold ex_service1, ex_step. cbn [service_exec]. rewrite E. exact Hc.
  - exfalso. revert E. vm_compute. discriminate.
Defined.

Lemma data_conn_goes_to_its_session_witness :
  exists c, register_data_conn ex_service2 ex_nw ex_env = Ok c /\ c_session_id c = "S1".
Proof.
  destruct (register_data_conn ex_service2 ex_nw ex_env) as [c|e] eqn:E; [|exfalso; revert E; vm_compute; discriminate].
  exists c. split; [reflexivity|].
  apply (data_conn_goes_to_its_session map_to_list elements ex_service2 ex_nw ex_env c
           ex_service_reachable2 E).
Defined.

Lemma refused_login_evicts_witness :
  sv_controls (ex_step ex_service2 (OpLogin (ex_login "B" "S1") ex_env)) !! "S1" = None.
Proof.
  pose proof (refused_login_evicts map_to_list elements ex_service2 (ex_login "B" "S1") ex_env
    "u" "B" "S1" 1 ex_service_reachable2 ltac:(vm_compute; split; [discriminate|reflexivity]) eq_refl
    ltac:(vm_compute; reflexivity) ltac:(vm_compute; reflexivity) ltac:(vm_compute; reflexivity)
    ltac:(vm_compute; reflexivity) ltac:(vm_compute; reflexivity)) as H.
  unfold ex_step. cbn [service_exec].
  destruct (register_control map_to_list elements ex_service2 (ex_login "B" "S1") ex_env) as [[sv' reply] r].
  apply H.
Defined.
