(* ===== verification/ServiceSteps.v ===== *)
(** * The service's tasks, step by step

    [server/src/service/session_registry.rs], [session_table.rs] and [kick_client]
    of [server/src/service/mod.rs] as they run: every connection, every kick and
    every data connection is a task, cut before and after every lock of the table or
    of a gate it takes and every call of a session it awaits, and at each cut any other
    task may move.  What a session does in such a call is one step: a shutdown begins by
    closing the session and goes on to give its tunnels back.  The gates and the table are those of [SessionTable], the sessions and
    their tables the [World] of [ServerRefine]; the handlers of [Service] are what a
    task comes to that nobody interrupts. *)

From stdpp Require Import functions.
From S2P Require Import Prelude RustStr Registry Metrics Msg Config ServerConfig TunnelManager ServerControl ServerRefine Auth Agents SessionTable Service.

Local Open Scope string_scope.

(** ** Tasks *)

(** Why a login ends without a session. *)
Inductive Refusal := Conflicting | Unwritten.
(** What a task does once [remove_if_current] has returned: it gives up its login, or
    it ends a session, whose tunnels it has counted. *)
Inductive After := AfterLogin (why : Refusal) | AfterSession (tunnels : Z).

(** Where a task waits. [LoginEvict] to [LoginRefused] hold the gate of the session id,
    with the control that the table had before; from [RemoveStart] on the control is on
    its way out. [KickTold]: the kicked session has been told and shut down. *)
Inductive Task :=
| TaskIdle
| LoginPeek (c : Control)
| LoginLock (c : Control) (gate : Z)
| LoginCommit (c : Control) (gate : Z)
| LoginEvict (c : Control) (gate : Z) (previous : option Z)
| LoginOnline (c : Control) (gate : Z) (previous : option Z)
| LoginAnswer (c : Control) (gate : Z) (previous : option Z)
| LoginGreeted (c : Control) (gate : Z) (previous : option Z)
| LoginRefused (c : Control) (gate : Z) (previous : option Z) (why : Refusal)
| SessionStart (c : Control)
| SessionRuns (c : Control)
| SessionEnds (c : Control) (tunnels : Z)
| RemoveStart (c : Control) (after : After)
| RemoveLocks (c : Control) (gate : Z) (after : After)
| RemoveChecks (c : Control) (gate : Z) (after : After)
| Removed (c : Control) (after : After) (removed : bool)
| LoginShut (c : Control)
| SessionCount (c : Control)
| ControlDrop (c : Control)
| KickLocks (sid : string) (control gate : Z)
| KickChecks (sid : string) (control gate : Z)
| KickCounts (sid : string) (control gate : Z)
| KickTells (sid : string) (control gate : Z) (tunnels : Z)
| KickTold (sid : string) (control gate : Z) (tunnels : Z)
| KickReleases (sid : string) (control : Z) (tunnels : Z)
| DataLocks (sid : string) (control gate : Z)
| DataChecks (sid : string) (control gate : Z).

(** Where it is in the operations on the table. *)
Definition pc_of (k : Task) : Pc :=
  match k with
  | LoginPeek c => SwapPeek (c_session_id c) (c_generation c)
  | LoginLock c gate => SwapLock (c_session_id c) (c_generation c) gate
  | LoginCommit c gate => SwapCommit (c_session_id c) (c_generation c) gate
  | LoginEvict c gate previous | LoginOnline c gate previous | LoginAnswer c gate previous | LoginGreeted c gate previous
  | LoginRefused c gate previous _ => SwapDone (c_session_id c) (c_generation c) gate previous
  | RemoveLocks c gate _ => RemoveLock (c_session_id c) (c_generation c) gate
  | RemoveChecks c gate _ => RemoveCommit (c_session_id c) (c_generation c) gate
  | KickLocks sid g gate => KickLock sid g gate
  | KickChecks sid g gate => KickCheck sid g gate
  | KickCounts sid g gate | KickTells sid g gate _ | KickTold sid g gate _ => KickIn sid g gate
  | DataLocks sid g gate => LookupLock sid g gate
  | DataChecks sid g gate => LookupCommit sid g gate
  | _ => Idle
  end.

(** The controls of the table are the generations that [next_generation] gives out. *)
Record Stage := MkStage {
  sg_cfg : ServerConfig; sg_table : Shared; sg_agents : AgentRegistry; sg_replay : ReplayCache; sg_world : World;
  sg_tasks : nat -> Task }.
Definition sg_session (s : Stage) (g : Z) : option Control := w_sessions (sg_world s) !! g.
(** Who is current under each session id, and the rest. *)
Definition service_of (s : Stage) : Service :=
  MkService (sg_cfg s) (se_control <$> sh_map (sg_table s)) (sg_agents s) (sg_replay s) (sg_world s) (sh_next_control (sg_table s)).
Definition set_task (s : Stage) (t : nat) (k : Task) : Stage :=
  MkStage (sg_cfg s) (sg_table s) (sg_agents s) (sg_replay s) (sg_world s) (<[t := k]> (sg_tasks s)).
Definition set_table (s : Stage) (sh : Shared) : Stage :=
  MkStage (sg_cfg s) sh (sg_agents s) (sg_replay s) (sg_world s) (sg_tasks s).
Definition stage_agents (s : Stage) (a : AgentRegistry) : Stage :=
  MkStage (sg_cfg s) (sg_table s) a (sg_replay s) (sg_world s) (sg_tasks s).
Definition stage_replay (s : Stage) (r : ReplayCache) : Stage :=
  MkStage (sg_cfg s) (sg_table s) (sg_agents s) r (sg_world s) (sg_tasks s).
Definition stage_world (s : Stage) (w : World) : Stage :=
  MkStage (sg_cfg s) (sg_table s) (sg_agents s) (sg_replay s) w (sg_tasks s).

Definition stage_new (cfg : ServerConfig) (t : Now) : Stage :=
  MkStage cfg (MkShared ∅ ∅ 0 1) agents_new ∅ (sv_world (service_new cfg t)) (fun _ => TaskIdle).

(** What comes in: the first message of a connection, a request of the dashboard,
    nothing but time and answers ([InGo]); a message or the watchdog of a session. *)
Inductive Input := InLogin (login : Login) | InData (sid : string) | InKick (sid : string) | InGo.
Inductive StageLabel :=
| LTask (t : nat) (i : Input) (env : CallEnv)
| LMessage (g : Z) (m : Message) (bind : Anyhow unit) (write_ok : bool) (t : Now)
| LWatchdog (g : Z) (timeout unix_now : Z).

Section Steps.
Context `{Crypto} (drain : TunnelManager -> list (string * TunnelEntry))
  (hash_iter : gset string -> list string).

Definition stage_exec (s : Stage) (ev : Event) : Stage := stage_world s (world_exec drain (sg_world s) ev).

(** Taking a gate waits until it is free. *)
Definition take_gate (s : Stage) (t : nat) (gate : Z) (k : Task) : option Stage :=
  match sh_held (sg_table s) !! gate with
  | None => Some (set_task (set_table s (lock_gate (sg_table s) t gate)) t k)
  | Some _ => None
  end.

(** [register_control] up to the swap: the login is checked, and its control made. *)
Definition login_starts (s : Stage) (t : nat) (login : Login) (env : CallEnv) : Stage :=
  let '(cache, r) := verify_login (ac_token (sc_auth (sg_cfg s))) (lg_auth_digest login) (lg_timestamp login)
                       (ev_now_secs env) (sg_replay s) (ev_instant env) in
  let s := stage_replay s cache in
  match r, sanitize_wire_id (lg_user login) MAX_USER_LEN, sanitize_wire_id (lg_agent_id login) MAX_AGENT_ID_LEN,
        requested_session_id login env with
  | Ok _, Ok user, Ok agent_id, Ok sid =>
      let sh := sg_table s in
      set_task (set_table s (MkShared (sh_map sh) (sh_held sh) (sh_next_gate sh) (sh_next_control sh + 1))) t
        (LoginPeek (login_control (service_of s) login user agent_id sid env))
  | _, _, _, _ => s
  end.

(** The insertion into the table: the control is there for the others from now on. *)
Definition login_commits (s : Stage) (t : nat) (c : Control) (gate : Z) : Stage :=
  match swap_commit (sg_table s) (c_session_id c) (c_generation c) gate with
  | (sh, SwapDone _ _ _ previous) => set_task (stage_exec (set_table s sh) (EvLogin c)) t (LoginEvict c gate previous)
  | (sh, _) => set_task (set_table s sh) t (LoginPeek c)
  end.

Definition after_removed (s : Stage) (t : nat) (c : Control) (after : After) (removed : bool) (env : CallEnv) : Stage :=
  let g := c_generation c in
  match after with
  | AfterLogin Conflicting =>
      set_task (stage_exec s (EvLoginErr g (ev_version env) (conflict_msg (c_agent_id c) (c_user c)) (ev_write_ok env))) t (LoginShut c)
  | AfterLogin Unwritten => set_task s t (LoginShut c)
  | AfterSession tunnels =>
      set_task (if removed then stage_agents s (agent_release (sg_agents s) (c_session_id c) g tunnels (ev_instant env)) else s) t
        (SessionCount c)
  end.

(** One step of a task. *)
Definition task_exec (s : Stage) (t : nat) (i : Input) (env : CallEnv) : option Stage :=
  let sh := sg_table s in
  match sg_tasks s t, i with
  | TaskIdle, InLogin login => if (sh_next_control sh <? u64_max)%Z then Some (login_starts s t login env) else None
  | TaskIdle, InKick sid =>
      match sh_map sh !! sid with
      | Some e => Some (set_task s t (KickLocks sid (se_control e) (se_gate e)))
      | None => Some s
      end
  | TaskIdle, InData sid =>
      match sh_map sh !! sid with
      | Some e => Some (set_task s t (DataLocks sid (se_control e) (se_gate e)))
      | None => Some s
      end
  | LoginPeek c, InGo =>
      let '(sh, gate) := swap_peek sh (c_session_id c) in Some (set_task (set_table s sh) t (LoginLock c gate))
  | LoginLock c gate, InGo => take_gate s t gate (LoginCommit c gate)
  | LoginCommit c gate, InGo => Some (login_commits s t c gate)
  | LoginEvict c gate previous, InGo =>
      let s := match previous with Some g0 => stage_exec s (EvShutdown g0 (ev_now env)) | None => s end in
      Some (set_task s t (LoginOnline c gate previous))
  | LoginOnline c gate previous, InGo =>
      match try_online (sg_agents s) (online_spec c) (ev_instant env) with
      | (_, Err Conflict) => Some (set_task s t (LoginRefused c gate previous Conflicting))
      | (agents, Ok _) => Some (set_task (stage_agents s agents) t (LoginAnswer c gate previous))
      end
  | LoginAnswer c gate previous, InGo =>
      if ev_write_ok env
      then Some (set_task (stage_exec s (EvLoginOk (c_generation c) (ev_version env) true)) t (LoginGreeted c gate previous))
      else Some (set_task (stage_agents s (agent_release (sg_agents s) (c_session_id c) (c_generation c) 0 (ev_instant env))) t
                   (LoginRefused c gate previous Unwritten))
  | LoginGreeted c gate _, InGo => Some (set_task (set_table s (unlock_gate sh gate)) t (SessionStart c))
  | LoginRefused c gate _ why, InGo => Some (set_task (set_table s (unlock_gate sh gate)) t (RemoveStart c (AfterLogin why)))
  | SessionStart c, InGo =>
      Some (set_task (stage_exec s (EvMetrics (new_client hash_iter (tb_metrics (w_tables (sg_world s))) (c_session_id c)))) t (SessionRuns c))
  | SessionRuns c, InGo =>
      Some (set_task s t (SessionEnds c (match sg_session s (c_generation c) with Some c => tunnel_count c | None => 0 end)))
  | SessionEnds c tunnels, InGo =>
      Some (set_task (stage_exec s (EvShutdown (c_generation c) (ev_now env))) t (RemoveStart c (AfterSession tunnels)))
  | RemoveStart c after, InGo =>
      match remove_peek sh (c_session_id c) (c_generation c) with
      | Some gate => Some (set_task s t (RemoveLocks c gate after))
      | None => Some (set_task s t (Removed c after false))
      end
  | RemoveLocks c gate after, InGo => take_gate s t gate (RemoveChecks c gate after)
  | RemoveChecks c gate after, InGo =>
      let '(sh, removed) := remove_commit sh (c_session_id c) (c_generation c) gate in
      Some (set_task (set_table s sh) t (Removed c after removed))
  | Removed c after removed, InGo => Some (after_removed s t c after removed env)
  | LoginShut c, InGo => Some (set_task (stage_exec s (EvShutdown (c_generation c) (ev_now env))) t (ControlDrop c))
  | SessionCount c, InGo =>
      Some (set_task (stage_exec s (EvMetrics (close_client (tb_metrics (w_tables (sg_world s)))))) t (ControlDrop c))
  | ControlDrop c, InGo => Some (set_task (stage_exec s (EvDrop (c_generation c))) t TaskIdle)
  | KickLocks sid g gate, InGo => take_gate s t gate (KickChecks sid g gate)
  | KickChecks sid g gate, InGo =>
      match kick_check sh sid g gate with
      | (sh, KickIn _ _ _) => Some (set_task (set_table s sh) t (KickCounts sid g gate))
      | (sh, _) => Some (set_task (set_table s sh) t TaskIdle)
      end
  | KickCounts sid g gate, InGo =>
      Some (set_task s t (KickTells sid g gate (match sg_session s g with Some c => tunnel_count c | None => 0 end)))
  | KickTells sid g gate tunnels, InGo =>
      Some (set_task (stage_exec s (EvKick g "kicked from dashboard" (ev_write_ok env) (ev_now env))) t (KickTold sid g gate tunnels))
  | KickTold sid g gate tunnels, InGo =>
      Some (set_task (set_table s (kick_commit sh sid g gate)) t (KickReleases sid g tunnels))
  | KickReleases sid g tunnels, InGo =>
      Some (set_task (stage_agents s (agent_release (sg_agents s) sid g tunnels (ev_instant env))) t TaskIdle)
  | DataLocks sid g gate, InGo => take_gate s t gate (DataChecks sid g gate)
  | DataChecks sid g gate, InGo =>
      let accepting := match sg_session s g with Some c => is_accepting_data c | None => false end in
      Some (set_task (set_table s (lookup_commit sh sid g gate accepting).1) t TaskIdle)
  | _, _ => None
  end.

Definition label_exec (s : Stage) (l : StageLabel) : option Stage :=
  match l with
  | LTask t i env => task_exec s t i env
  | LMessage g m bind w t => Some (stage_exec s (EvMessage g m bind w t))
  | LWatchdog g timeout now => Some (stage_exec s (EvWatchdog g timeout now))
  end.
Fixpoint stage_run (s : Stage) (l : list StageLabel) : option Stage :=
  match l with [] => Some s | x :: l => match label_exec s x with Some s => stage_run s l | None => None end end.

(** Any step at any time; messages may name any tunnel. *)
Definition stage_step (s : Stage) (l : StageLabel) (s' : Stage) : Prop := label_exec s l = Some s'.
Definition stage_init (s : Stage) : Prop := exists cfg t, s = stage_new cfg t.
End Steps.

(** ** The gates

    Seen from the table, a step of a task is a step of [SessionTable] or none. *)

Definition gates_ok (s : Stage) : Prop := table_inv (sg_table s) (fun t => pc_of (sg_tasks s t)).

Lemma table_inv_ext sh th th' : (forall t, th t = th' t) -> table_inv sh th -> table_inv sh th'.
Proof.
  intros E [H1 H2 [H3 H3'] H4 H5]. split.
  - intros t g. rewrite <- E. apply H1.
  - intros t c. rewrite <- E. intros Hp. destruct (H2 t c Hp) as (P1 & P2 & P3 & P4). split; [done|]. split; [done|].
    split; [intros t'; rewrite <- E; apply P3|intros t'; rewrite <- E; apply P4].
  - split; [done|]. intros t. rewrite <- E. apply H3'.
  - intros t. rewrite <- E. apply H4.
  - intros t. rewrite <- E. apply H5.
Qed.

Lemma task_updated (th : nat -> Task) t k t' : <[t := k]> th t' = if decide (t' = t) then k else th t'.
Proof. case_decide as E; [by rewrite E, fn_lookup_insert|by rewrite fn_lookup_insert_ne]. Qed.

(** The tasks after a step of [t]. *)
Definition moves (s s' : Stage) (t : nat) (k : Task) : Prop := forall t', sg_tasks s' t' = if decide (t' = t) then k else sg_tasks s t'.
Lemma moves_set s0 s t k : sg_tasks s0 = sg_tasks s -> moves s (set_task s0 t k) t k.
Proof. intros E t'. cbn. by rewrite task_updated, E. Qed.
Lemma moves_none s t : moves s s t (sg_tasks s t).
Proof. intros t'. by case_decide; subst. Qed.

Lemma gates_moved s s' t k : gates_ok s -> moves s s' t k ->
  task_step t (sg_table s) (pc_of (sg_tasks s t)) (sg_table s') (pc_of k) -> gates_ok s'.
Proof.
  intros Hg Hm Hs. pose proof (table_inv_step (MkSystem (sg_table s) (fun t => pc_of (sg_tasks s t))) t
    (MkSystem (sg_table s') (<[t := pc_of k]> (fun t => pc_of (sg_tasks s t)))) Hg (sys_step _ _ _ _ _ Hs)) as Hg'.
  eapply table_inv_ext; [|exact Hg']. intros t'. cbn. rewrite Hm. case_decide as E; [by rewrite E, fn_lookup_insert|by rewrite fn_lookup_insert_ne].
Qed.
Lemma gates_same s s' t k : gates_ok s -> moves s s' t k -> sg_table s' = sg_table s -> pc_of k = pc_of (sg_tasks s t) -> gates_ok s'.
Proof.
  intros Hg Hm Et Ek. unfold gates_ok. rewrite Et. eapply table_inv_ext; [|exact Hg]. intros t'. cbn. rewrite Hm. case_decide; [by subst|done].
Qed.

Section Gates.
Context `{Crypto} (drain : TunnelManager -> list (string * TunnelEntry))
  (hash_iter : gset string -> list string).

(** Taking a gate, or standing still. *)
Lemma gates_taken s t gate k s' : gates_ok s -> take_gate s t gate k = Some s' ->
  (sh_held (sg_table s) !! gate = None -> task_step t (sg_table s) (pc_of (sg_tasks s t)) (lock_gate (sg_table s) t gate) (pc_of k)) ->
  gates_ok s'.
Proof.
  unfold take_gate. destruct (sh_held (sg_table s) !! gate) eqn:E; [done|]. intros Hg [= <-] Hs. eapply gates_moved; [exact Hg|by apply moves_set|by apply Hs].
Qed.

Ltac still Hg Ek := intros [= <-]; eapply gates_same; [exact Hg|by apply moves_set|done|by rewrite Ek].
Ltac stepped Hg Ek := eapply gates_moved; [exact Hg|by apply moves_set|rewrite Ek; cbn].
Ltac taken Hg Ek := intros Ht; eapply gates_taken; [exact Hg|exact Ht|]; intros Hf; rewrite Ek; by constructor.
Lemma gates_step s t i env s' : gates_ok s -> task_exec drain hash_iter s t i env = Some s' -> gates_ok s'.
Proof.
  intros Hg. unfold task_exec. destruct (sg_tasks s t) as [|c|c gate|c gate|c gate p|c gate p|c gate p|c gate p|c gate p why|c|c|c n|c a|c gate a
    |c gate a|c a b|c|c|c|sid g gate|sid g gate|sid g gate|sid g gate n|sid g gate n|sid g n|sid g gate|sid g gate] eqn:Ek; destruct i as [login|sid0|sid0|];
    try done; try (still Hg Ek); try (taken Hg Ek).
  - destruct (_ <? _)%Z; [|done]. intros [= <-]. unfold login_starts. destruct (verify_login _ _ _ _ _ _) as [cache [u|e]]; [|exact Hg].
    destruct (sanitize_wire_id _ _) as [user|e]; [|exact Hg]. destruct (sanitize_wire_id _ _) as [agent|e]; [|exact Hg].
    destruct (requested_session_id _ _) as [sid|e]; [|exact Hg]. stepped Hg Ek. apply step_swap_start.
  - destruct (sh_map _ !! sid0) as [e|] eqn:Em; intros [= <-]; [|done]. stepped Hg Ek. by apply step_lookup_peek.
  - destruct (sh_map _ !! sid0) as [e|] eqn:Em; intros [= <-]; [|done]. stepped Hg Ek. by apply step_kick_peek.
  - destruct (swap_peek _ _) as [sh gate] eqn:Ep. intros [= <-]. stepped Hg Ek.
    pose proof (step_swap_peek t (sg_table s) (c_session_id c) (c_generation c)) as Hs. by rewrite Ep in Hs.
  - intros [= <-]. unfold login_commits. pose proof (step_swap_commit t (sg_table s) (c_session_id c) (c_generation c) gate) as Hs. revert Hs.
    unfold swap_commit. repeat case_match; cbn [fst snd]; intros Hs; simplify_eq; stepped Hg Ek; exact Hs.
  - intros [= <-]. eapply gates_same; [exact Hg|apply moves_set; by destruct p|by destruct p|by rewrite Ek].
  - destruct (try_online _ _ _) as [ag [u|[]]]; still Hg Ek.
  - destruct (ev_write_ok env); still Hg Ek.
  - intros [= <-]. stepped Hg Ek. apply step_swap_drop.
  - intros [= <-]. stepped Hg Ek. apply step_swap_drop.
  - destruct (remove_peek _ _ _) as [gate|] eqn:Er; [|still Hg Ek]. intros [= <-]. stepped Hg Ek. by apply step_remove_peek.
  - destruct (remove_commit _ _ _ _) as [sh b] eqn:Er. intros [= <-]. stepped Hg Ek.
    pose proof (step_remove_commit t (sg_table s) (c_session_id c) (c_generation c) gate) as Hs. by rewrite Er in Hs.
  - intros [= <-]. unfold after_removed.
    destruct a as [[]|n]; [| |destruct b]; (eapply gates_same; [exact Hg|by apply moves_set|done|by rewrite Ek]).
  - pose proof (step_kick_check t (sg_table s) sid g gate) as Hs. revert Hs. unfold kick_check.
    destruct (is_current _ _ _); cbn [fst snd]; intros Hs [= <-]; stepped Hg Ek; exact Hs.
  - intros [= <-]. stepped Hg Ek. apply step_kick_commit.
  - intros [= <-]. stepped Hg Ek. exact (step_lookup_commit t (sg_table s) sid g gate false).
Qed.
End Gates.

(** ** The invariant *)

(** The control whose task this is. *)
Definition owned (k : Task) : option Control :=
  match k with
  | LoginPeek c | LoginLock c _ | LoginCommit c _ | LoginEvict c _ _ | LoginOnline c _ _ | LoginAnswer c _ _ | LoginGreeted c _ _
  | LoginRefused c _ _ _ | SessionStart c | SessionRuns c | SessionEnds c _ | RemoveStart c _ | RemoveLocks c _ _ | RemoveChecks c _ _
  | Removed c _ _ | LoginShut c | SessionCount c | ControlDrop c => Some c
  | _ => None
  end.
(** Others can find it. *)
Definition entered (k : Task) : bool :=
  match k with LoginPeek _ | LoginLock _ _ | LoginCommit _ _ => false | _ => match owned k with Some _ => true | None => false end end.
Definition refuses (after : After) : bool := match after with AfterLogin _ => true | AfterSession _ => false end.
(** Its client has not been told of a session, and will not be if the login failed. *)
Definition unanswered (k : Task) : bool :=
  match k with
  | LoginEvict _ _ _ | LoginOnline _ _ _ | LoginAnswer _ _ _ | LoginRefused _ _ _ _ | LoginShut _ => true
  | RemoveStart _ after | RemoveLocks _ _ after | RemoveChecks _ _ after | Removed _ after _ => refuses after
  | _ => false
  end.
(** It has been shut down. *)
Definition ended (k : Task) : bool :=
  match k with
  | RemoveStart _ after | RemoveLocks _ _ after | RemoveChecks _ _ after | Removed _ after _ => negb (refuses after)
  | SessionCount _ | ControlDrop _ => true
  | _ => false
  end.
(** It is not in the table any more. *)
Definition out (k : Task) : bool := match k with Removed _ _ _ | LoginShut _ | SessionCount _ | ControlDrop _ => true | _ => false end.

Definition closed_or_gone (s : Stage) (g : Z) : Prop := forall c, sg_session s g = Some c -> c_closed c = true.

(** A session that is open is the one the table names, or the login that took its
    place is about to shut it down, or it is a login that failed. *)
Record stage_inv (s : Stage) : Prop := {
  gi_fresh : forall t c, owned (sg_tasks s t) = Some c -> fresh_control c /\ (c_generation c < sh_next_control (sg_table s))%Z;
  gi_owner : forall t t' c c', owned (sg_tasks s t) = Some c -> owned (sg_tasks s t') = Some c' -> c_generation c = c_generation c' -> t' = t;
  gi_session : forall g c, sg_session s g = Some c -> c_generation c = g
    /\ exists t c0, owned (sg_tasks s t) = Some c0 /\ entered (sg_tasks s t) = true /\ owner c0 = owner c;
  gi_entered : forall t c0, owned (sg_tasks s t) = Some c0 -> entered (sg_tasks s t) = true ->
    exists c, sg_session s (c_generation c0) = Some c /\ owner c = owner c0
      /\ (unanswered (sg_tasks s t) = true -> c_activated c = false) /\ (ended (sg_tasks s t) = true -> c_closed c = true);
  gi_map : forall sid e, sh_map (sg_table s) !! sid = Some e ->
    exists t c0, owned (sg_tasks s t) = Some c0 /\ entered (sg_tasks s t) = true /\ out (sg_tasks s t) = false
      /\ owner c0 = MkOwner sid (se_control e);
  gi_kicked : forall t sid g gate n, sg_tasks s t = KickTold sid g gate n -> closed_or_gone s g;
  gi_open : forall g c, sg_session s g = Some c -> c_closed c = false ->
    (exists e, sh_map (sg_table s) !! c_session_id c = Some e /\ se_control e = g)
    \/ (exists t c' gate, sg_tasks s t = LoginEvict c' gate (Some g) /\ c_session_id c' = c_session_id c)
    \/ (exists t c0, owned (sg_tasks s t) = Some c0 /\ c_generation c0 = g /\ out (sg_tasks s t) && unanswered (sg_tasks s t) = true) }.

Lemma owner_parts c c' : owner c = owner c' -> c_session_id c = c_session_id c' /\ c_generation c = c_generation c'.
Proof. by intros [= ? ?]. Qed.

(** A task that moves on while the sessions stay. *)
Lemma inv_move s s' t k' :
  let k := sg_tasks s t in
  stage_inv s -> moves s s' t k' -> sg_world s' = sg_world s -> sh_next_control (sg_table s') = sh_next_control (sg_table s) ->
  owned k' = owned k -> entered k' = entered k ->
  (unanswered k' = true -> unanswered k = true) ->
  (ended k' = true -> ended k = true \/ forall c, owned k = Some c -> closed_or_gone s (c_generation c)) ->
  (forall sid g gate n, k' = KickTold sid g gate n -> closed_or_gone s g) ->
  (forall c gate g, k = LoginEvict c gate (Some g) -> closed_or_gone s g) ->
  (out k && unanswered k = true -> out k' && unanswered k' = true \/ forall c, owned k = Some c -> closed_or_gone s (c_generation c)) ->
  (forall sid e, sh_map (sg_table s') !! sid = Some e -> sh_map (sg_table s) !! sid = Some e
     /\ (out k' = true -> out k = true \/ forall c, owned k = Some c -> se_control e <> c_generation c)) ->
  (forall sid e, sh_map (sg_table s) !! sid = Some e -> sh_map (sg_table s') !! sid = Some e \/ closed_or_gone s (se_control e)
     \/ exists c, owned k = Some c /\ c_generation c = se_control e /\ out k' && unanswered k' = true) ->
  stage_inv s'.
Proof.
  intros k [F1 F2 F3 F4 F5 F6 F7] Hm Hw Hn Ho He Hu Hend Hk Hev Hout Hmap Hmap'.
  assert (forall g, sg_session s' g = sg_session s g) as Hs by (intros g; unfold sg_session; by rewrite Hw).
  assert (forall t', owned (sg_tasks s' t') = owned (sg_tasks s t') /\ entered (sg_tasks s' t') = entered (sg_tasks s t')) as Hoe.
  { intros t'. rewrite Hm. case_decide as E; [by rewrite E|done]. }
  split.
  - intros t' c. rewrite (proj1 (Hoe t')), Hn. apply F1.
  - intros t1 t2 c1 c2. rewrite (proj1 (Hoe t1)), (proj1 (Hoe t2)). apply F2.
  - intros g c. rewrite Hs. intros Hc. destruct (F3 g c Hc) as (Hg & t' & c0 & H1 & H2 & H3). split; [done|]. exists t', c0.
    by rewrite (proj1 (Hoe t')), (proj2 (Hoe t')).
  - intros t' c0. rewrite (proj1 (Hoe t')), (proj2 (Hoe t')), Hs. intros H1 H2. destruct (F4 t' c0 H1 H2) as (c & Hc & Hown & Ha & Hcl).
    exists c. split; [done|]. split; [done|]. rewrite Hm. case_decide as E; [subst t'|done]. split; [auto|].
    intros [Hcl'|Hcl']%Hend; [auto|]. by apply (Hcl' c0).
  - intros sid e Hsid. destruct (Hmap sid e Hsid) as [Hsid0 Hnot]. destruct (F5 sid e Hsid0) as (t' & c0 & H1 & H2 & H3 & H4). exists t', c0.
    rewrite (proj1 (Hoe t')), (proj2 (Hoe t')). split; [done|]. split; [done|]. split; [|done]. rewrite Hm. case_decide as E; [subst t'|done].
    destruct (out k') eqn:Ek; [|done]. exfalso. destruct (Hnot eq_refl) as [Hno|Hno]; [unfold k in Hno; congruence|].
    apply (Hno c0 H1). by injection H4.
  - intros t' sid g gate n. rewrite Hm. case_decide as E; intros Hkt c; rewrite Hs; [by eapply Hk|by eapply F6].
  - intros g c. rewrite Hs. intros Hc Hcl. destruct (F7 g c Hc Hcl) as [(e & He1 & He2)|[(t' & c' & gate & Ht & Hsid)|(t' & c0 & H1 & H2 & H3)]].
    + destruct (Hmap' _ _ He1) as [Hin|[Hgone|(c0 & H1 & H2 & H3)]]; [by left; exists e| |].
      * rewrite He2 in Hgone. specialize (Hgone c Hc). congruence.
      * right; right. exists t, c0. rewrite (proj1 (Hoe t)), Hm, decide_True by done. split; [done|]. split; [congruence|done].
    + destruct (decide (t' = t)) as [->|Hne].
      * specialize (Hev _ _ _ Ht c Hc). congruence.
      * right; left. exists t', c', gate. by rewrite Hm, decide_False.
    + right; right. exists t', c0. rewrite (proj1 (Hoe t')). split; [done|]. split; [done|]. rewrite Hm. case_decide as E; [subst t'|done].
      destruct (Hout H3) as [?|Hgone]; [done|]. rewrite <- H2 in Hc. specialize (Hgone c0 H1 c Hc). congruence.
Qed.

Section Inv.
Context `{Crypto} (drain : TunnelManager -> list (string * TunnelEntry))
  (hash_iter : gset string -> list string).

(** Any event of a session but a login or a drop, while the tasks stay. *)
Lemma inv_event s ev :
  stage_inv s -> (forall c, ev <> EvLogin c) -> (forall g, ev <> EvDrop g) ->
  (forall g t c, greeting ev g = true -> owned (sg_tasks s t) = Some c -> c_generation c = g -> unanswered (sg_tasks s t) = false) ->
  stage_inv (stage_exec drain s ev) /\ (forall g, closing ev g = true -> closed_or_gone (stage_exec drain s ev) g).
Proof.
  intros [F1 F2 F3 F4 F5 F6 F7] Hnl Hnd Hgr.
  pose proof (fun g => world_exec_sessions drain (sg_world s) ev g Hnl Hnd) as Hs.
  assert (forall g c', sg_session (stage_exec drain s ev) g = Some c' -> exists c, sg_session s g = Some c /\ moved ev g c c') as Hback.
  { intros g c' Hg'. specialize (Hs g). unfold sg_session in *. cbn [stage_exec stage_world sg_world] in Hg'. rewrite Hg' in Hs.
    destruct (w_sessions (sg_world s) !! g); [|done]. eauto. }
  assert (forall g c, sg_session s g = Some c -> exists c', sg_session (stage_exec drain s ev) g = Some c' /\ moved ev g c c') as Hforth.
  { intros g c Hg'. specialize (Hs g). unfold sg_session in *. cbn [stage_exec stage_world sg_world]. rewrite Hg' in Hs.
    destruct (w_sessions (world_exec drain (sg_world s) ev) !! g); [|done]. eauto. }
  split; [split|].
  - exact F1.
  - exact F2.
  - intros g c' (c & Hc & (Ho & _) & _)%Hback. destruct (F3 g c Hc) as (Hg & t & c0 & H1 & H2 & H3).
    destruct (owner_parts _ _ Ho) as [_ E]. split; [congruence|]. exists t, c0. by rewrite Ho.
  - intros t c0 H1 H2. destruct (F4 t c0 H1 H2) as (c & Hc & Hown & Ha & Hcl).
    destruct (Hforth _ c Hc) as (c' & Hc' & (Ho & Hmono) & _ & Hact). exists c'. split; [done|]. split; [congruence|]. split; [|auto].
    intros Hu. rewrite Hact; [auto|]. destruct (greeting ev (c_generation c0)) eqn:E; [|done].
    assert (unanswered (sg_tasks s t) = true) as Hu' by exact Hu. rewrite (Hgr _ t c0 E H1 eq_refl) in Hu'. discriminate.
  - exact F5.
  - intros t sid g gate n Ht c' (c & Hc & (_ & Hmono) & _)%Hback. apply Hmono. by eapply F6.
  - intros g c' (c & Hc & (Ho & Hmono) & _)%Hback Hcl. destruct (owner_parts _ _ Ho) as [-> _].
    apply F7; [done|]. destruct (c_closed c); [|done]. by rewrite Hmono in Hcl.
  - intros g Hg c' (c & Hc & _ & Hcl & _)%Hback. by apply Hcl.
Qed.

(** A login makes its control. *)
Lemma inv_start s s' t c :
  stage_inv s -> moves s s' t (LoginPeek c) -> sg_world s' = sg_world s -> sh_map (sg_table s') = sh_map (sg_table s) ->
  sh_next_control (sg_table s') = (sh_next_control (sg_table s) + 1)%Z ->
  sg_tasks s t = TaskIdle -> fresh_control c -> c_generation c = sh_next_control (sg_table s) -> stage_inv s'.
Proof.
  intros [F1 F2 F3 F4 F5 F6 F7] Hm Hw Hmap Hn Ht Hf Hg.
  assert (forall g, sg_session s' g = sg_session s g) as Hs by (intros g; unfold sg_session; by rewrite Hw).
  assert (forall t', t' <> t -> sg_tasks s' t' = sg_tasks s t') as Hother by (intros t' Hne; by rewrite Hm, decide_False).
  assert (sg_tasks s' t = LoginPeek c) as Hnew by (by rewrite Hm, decide_True).
  assert (forall t' c0, owned (sg_tasks s t') = Some c0 -> t' <> t) as Hnt by (intros t' c0 Ho ->; by rewrite Ht in Ho).
  split.
  - intros t' c0. destruct (decide (t' = t)) as [->|Hne].
    + rewrite Hnew. intros [= <-]. split; [done|]. rewrite Hg, Hn. lia.
    + rewrite (Hother t' Hne), Hn. intros Ho. destruct (F1 t' c0 Ho). split; [done|lia].
  - assert (forall t' c0, owned (sg_tasks s t') = Some c0 -> c_generation c0 <> c_generation c) as Hlt.
    { intros t' c0 Ho. destruct (F1 t' c0 Ho). lia. }
    intros t1 t2 c1 c2. destruct (decide (t1 = t)) as [->|H1], (decide (t2 = t)) as [->|H2]; rewrite ?Hnew, ?(Hother t1 H1), ?(Hother t2 H2); try done.
    + intros [= <-] Ho E. by destruct (Hlt _ _ Ho).
    + intros Ho [= <-] E. by destruct (Hlt _ _ Ho).
    + apply F2.
  - intros g c0. rewrite Hs. intros Hc. destruct (F3 g c0 Hc) as (H1 & t' & c1 & H2 & H3 & H4). split; [done|]. exists t', c1.
    by rewrite (Hother t' (Hnt _ _ H2)).
  - intros t' c0. rewrite Hs. destruct (decide (t' = t)) as [->|Hne]; [by rewrite Hnew|]. rewrite (Hother t' Hne). apply F4.
  - intros sid e. rewrite Hmap. intros He. destruct (F5 sid e He) as (t' & c0 & H1 & H2 & H3 & H4). exists t', c0. by rewrite (Hother t' (Hnt _ _ H1)).
  - intros t' sid g gate n. destruct (decide (t' = t)) as [->|Hne]; [by rewrite Hnew|]. rewrite (Hother t' Hne).
    intros Hk c0. rewrite Hs. by eapply F6.
  - intros g c0. rewrite Hs, Hmap. intros Hc Hcl. destruct (F7 g c0 Hc Hcl) as [?|[(t' & c' & gate & H1 & H2)|(t' & c' & H1 & H2 & H3)]]; [by left| |].
    + right; left. exists t', c', gate. rewrite (Hother t'); [done|]. intros ->. congruence.
    + right; right. exists t', c'. by rewrite (Hother t' (Hnt _ _ H1)).
Qed.

(** A login enters the table. *)
Lemma inv_commit s s' t c gate previous :
  stage_inv s -> gates_ok s -> moves s s' t (LoginEvict c gate previous) -> sg_tasks s t = LoginCommit c gate ->
  sg_world s' = world_exec drain (sg_world s) (EvLogin c) ->
  sh_map (sg_table s') = <[c_session_id c := MkSession (c_generation c) gate]> (sh_map (sg_table s)) ->
  sh_next_control (sg_table s') = sh_next_control (sg_table s) -> previous = se_control <$> sh_map (sg_table s) !! c_session_id c ->
  stage_inv s'.
Proof.
  intros [F1 F2 F3 F4 F5 F6 F7] Hg Hm Ht Hw Hmap Hn Hprev.
  assert (owned (sg_tasks s t) = Some c) as Hown by (by rewrite Ht).
  assert (forall g, sg_session s' g = if decide (g = c_generation c) then Some c else sg_session s g) as Hs.
  { intros g. unfold sg_session. rewrite Hw. cbn. case_decide as E; [by rewrite E, lookup_insert_eq|by rewrite lookup_insert_ne]. }
  assert (forall t', t' <> t -> sg_tasks s' t' = sg_tasks s t') as Hother by (intros t' Hne; by rewrite Hm, decide_False).
  assert (sg_tasks s' t = LoginEvict c gate previous) as Hnew by (by rewrite Hm, decide_True).
  assert (forall t', owned (sg_tasks s' t') = owned (sg_tasks s t')) as Ho'.
  { intros t'. destruct (decide (t' = t)) as [->|Hne]; [by rewrite Hnew, Ht|by rewrite Hother]. }
  destruct (ti_private _ _ Hg t (c_generation c) ltac:(by cbn; rewrite Ht)) as (_ & Hp1 & Hp2 & _).
  assert (sg_session s (c_generation c) = None) as Hnone.
  { destruct (sg_session s (c_generation c)) as [c1|] eqn:E; [|done]. destruct (F3 _ _ E) as (_ & t' & c0 & H1 & H2 & H3).
    assert (t' = t) as -> by (eapply F2; [exact Hown|exact H1|]; destruct (owner_parts _ _ H3) as [_ ->]; by destruct (F3 _ _ E)). by rewrite Ht in H2. }
  split.
  - intros t' c0. rewrite Ho', Hn. apply F1.
  - intros t1 t2 c1 c2. rewrite !Ho'. apply F2.
  - intros g c0. rewrite Hs. case_decide as E.
    + intros [= <-]. split; [done|]. exists t, c. by rewrite Hnew.
    + intros Hc. destruct (F3 g c0 Hc) as (H1 & t' & c1 & H2 & H3 & H4). split; [done|]. exists t', c1. rewrite (Hother t'); [done|].
      intros ->. by rewrite Ht in H3.
  - intros t' c0. rewrite Ho'. destruct (decide (t' = t)) as [->|Hne].
    + rewrite Hown. intros [= <-] _. exists c. rewrite Hs, decide_True by done. rewrite Hnew. split; [done|]. split; [done|]. split; [|done].
      intros _. destruct (F1 t c Hown) as [(? & ? & ? & ? & ? & ? & ? & ? & ? & ? & ? & ? & ? & ->) _]. done.
    + rewrite (Hother t' Hne). intros H1 H2. destruct (F4 t' c0 H1 H2) as (c1 & Hc1 & Hrest). exists c1. rewrite Hs. case_decide as E; [|done].
      rewrite E in Hc1. congruence.
  - intros sid e. rewrite Hmap. intros [[<- <-]|[Hne He]]%lookup_insert_Some; [exists t, c; by rewrite Hnew|].
    destruct (F5 sid e He) as (t' & c0 & H1 & H2 & H3 & H4). exists t', c0. rewrite (Hother t'); [done|]. intros ->. by rewrite Ht in H2.
  - intros t' sid g gate' n. destruct (decide (t' = t)) as [->|Hne]; [by rewrite Hnew|]. rewrite (Hother t' Hne). intros Hk c0. rewrite Hs.
    case_decide as E; [|by eapply F6]. exfalso. apply (Hp2 t' sid (MkSession g gate')); [cbn; by rewrite Hk|done].
  - intros g c0. rewrite Hs, Hmap. case_decide as E.
    + intros [= <-] _. left. exists (MkSession (c_generation c) gate). rewrite lookup_insert_eq. by rewrite E.
    + intros Hc Hcl. destruct (F7 g c0 Hc Hcl) as [(e & He1 & He2)|[(t' & c' & gate' & H1 & H2)|(t' & c' & H1 & H2 & H3)]].
      * destruct (decide (c_session_id c0 = c_session_id c)) as [Es|Hne]; [|left; exists e; by rewrite lookup_insert_ne].
        right; left. exists t, c, gate. rewrite Hnew, Hprev, <- Es, He1. cbn. by rewrite He2.
      * right; left. exists t', c', gate'. rewrite (Hother t'); [done|]. intros ->. congruence.
      * right; right. exists t', c'. rewrite Ho'. rewrite (Hother t'); [done|]. intros ->. by rewrite Ht in H3.
Qed.

(** The last of a control. *)
Lemma inv_dropped s s' t c :
  stage_inv s -> moves s s' t TaskIdle -> sg_tasks s t = ControlDrop c ->
  sg_world s' = world_exec drain (sg_world s) (EvDrop (c_generation c)) -> sg_table s' = sg_table s -> stage_inv s'.
Proof.
  intros [F1 F2 F3 F4 F5 F6 F7] Hm Ht Hw Htab.
  assert (owned (sg_tasks s t) = Some c) as Hown by (by rewrite Ht).
  assert (forall g, sg_session s' g = if decide (g = c_generation c) then None else sg_session s g) as Hs.
  { intros g. unfold sg_session. rewrite Hw. cbn [world_exec event_session session_exec].
    destruct (w_sessions (sg_world s) !! c_generation c) as [c0|] eqn:E; simpl.
    - case_decide as Hd; [by rewrite Hd, lookup_delete_eq|by rewrite lookup_delete_ne].
    - by case_decide as Hd; [rewrite Hd|]. }
  assert (forall t', t' <> t -> sg_tasks s' t' = sg_tasks s t') as Hother by (intros t' Hne; by rewrite Hm, decide_False).
  assert (sg_tasks s' t = TaskIdle) as Hnew by (by rewrite Hm, decide_True).
  assert (forall t' c0, owned (sg_tasks s t') = Some c0 -> t' <> t -> c_generation c0 <> c_generation c) as Hgen.
  { intros t' c0 Ho Hne E. by apply Hne, (F2 t t' c c0). }
  split; rewrite ?Htab.
  - intros t' c0. destruct (decide (t' = t)) as [->|Hne]; [by rewrite Hnew|]. rewrite (Hother t' Hne). apply F1.
  - intros t1 t2 c1 c2. destruct (decide (t1 = t)) as [->|H1]; [by rewrite Hnew|]. destruct (decide (t2 = t)) as [->|H2]; [by rewrite Hnew|].
    rewrite (Hother t1 H1), (Hother t2 H2). apply F2.
  - intros g c0. rewrite Hs. case_decide as E; [done|]. intros Hc. destruct (F3 g c0 Hc) as (H1 & t' & c1 & H2 & H3 & H4). split; [done|].
    exists t', c1. rewrite (Hother t'); [done|]. intros ->. rewrite Hown in H2. injection H2 as <-. apply E. destruct (owner_parts _ _ H4). congruence.
  - intros t' c0. destruct (decide (t' = t)) as [->|Hne]; [by rewrite Hnew|]. rewrite (Hother t' Hne). intros H1 H2.
    destruct (F4 t' c0 H1 H2) as (c1 & Hc1 & Hrest). exists c1. rewrite Hs, decide_False by (by eapply Hgen). done.
  - intros sid e He. destruct (F5 sid e He) as (t' & c0 & H1 & H2 & H3 & H4). exists t', c0. rewrite (Hother t'); [done|]. intros ->. by rewrite Ht in H3.
  - intros t' sid g gate n. destruct (decide (t' = t)) as [->|Hne]; [by rewrite Hnew|]. rewrite (Hother t' Hne). intros Hk c0. rewrite Hs.
    case_decide; [done|]. by eapply F6.
  - intros g c0. rewrite Hs. case_decide as E; [done|]. intros Hc Hcl. destruct (F7 g c0 Hc Hcl) as [?|[(t' & c' & gate & H1 & H2)|(t' & c' & H1 & H2 & H3)]]; [by left| |].
    + right; left. exists t', c', gate. rewrite (Hother t'); [done|]. intros ->. congruence.
    + right; right. exists t', c'. rewrite (Hother t'); [done|]. intros ->. rewrite Hown in H1. congruence.
Qed.

(** A control stands in the table under its own session id only. *)
Lemma own_entry s t c sid e : stage_inv s -> owned (sg_tasks s t) = Some c -> sh_map (sg_table s) !! sid = Some e ->
  se_control e = c_generation c -> sid = c_session_id c.
Proof using Type.
  intros Hi Ho He E. destruct (gi_map s Hi sid e He) as (t' & c0 & H1 & _ & _ & H4). injection H4 as Hsid Hgen.
  assert (t' = t) as -> by (eapply (gi_owner s Hi); [exact Ho|exact H1|congruence]). congruence.
Qed.
Lemma removed_map sh sid g gate sid' e : sh_map (remove_commit sh sid g gate).1 !! sid' = Some e ->
  sh_map sh !! sid' = Some e /\ (sid' = sid -> se_control e <> g).
Proof using Type.
  unfold remove_commit. destruct (is_current sh sid g) eqn:E; cbn.
  - intros [Hne He]%lookup_delete_Some. split; [done|]. intros ->. by destruct Hne.
  - intros He. split; [done|]. intros -> Hg. unfold is_current in E. rewrite He, Hg, Z.eqb_refl in E. discriminate.
Qed.
Lemma removed_map' sh sid g gate sid' e : sh_map sh !! sid' = Some e ->
  sh_map (remove_commit sh sid g gate).1 !! sid' = Some e \/ se_control e = g.
Proof using Type.
  intros He. destruct (decide (sid' = sid /\ se_control e = g)) as [[_ ?]|Hne]; [by right|]. left. apply remove_keeps_newer; [done|].
  destruct (decide (sid' = sid)); [right; naive_solver|by left].
Qed.
Lemma remove_commit_next sh sid g gate : sh_next_control (remove_commit sh sid g gate).1 = sh_next_control sh.
Proof using Type. unfold remove_commit. by destruct (is_current _ _ _). Qed.

(** Moving on with the table's entries as they are. *)
Lemma inv_stay s s' t k' :
  let k := sg_tasks s t in
  stage_inv s -> moves s s' t k' -> sg_world s' = sg_world s ->
  sh_map (sg_table s') = sh_map (sg_table s) -> sh_next_control (sg_table s') = sh_next_control (sg_table s) ->
  owned k' = owned k -> entered k' = entered k -> (unanswered k' = true -> unanswered k = true) ->
  (ended k' = true -> ended k = true \/ forall c, owned k = Some c -> closed_or_gone s (c_generation c)) ->
  (forall sid g gate n, k' = KickTold sid g gate n -> closed_or_gone s g) ->
  (forall c gate g, k = LoginEvict c gate (Some g) -> closed_or_gone s g) ->
  (out k && unanswered k = true -> out k' && unanswered k' = true \/ forall c, owned k = Some c -> closed_or_gone s (c_generation c)) ->
  (out k' = true -> out k = true) ->
  stage_inv s'.
Proof using Type.
  intros k Hi Hm Hw Hmap Hn Ho He Hu Hend Hk Hev Hout Hout'. eapply inv_move; [exact Hi|exact Hm|try done..].
  - intros sid e. rewrite Hmap. intros Hsid. split; [done|]. intros Hx. left. by apply Hout'.
  - intros sid e Hsid. left. by rewrite Hmap.
Qed.
Ltac goes Hi Ek := eapply inv_stay; [exact Hi|by apply moves_set|try done; cbn; rewrite ?Ek; cbn; try done; auto..].

Lemma inv_take s t gate k' s' :
  stage_inv s -> take_gate s t gate k' = Some s' ->
  owned k' = owned (sg_tasks s t) -> entered k' = entered (sg_tasks s t) -> unanswered k' = unanswered (sg_tasks s t) ->
  ended k' = ended (sg_tasks s t) -> out k' = false -> out (sg_tasks s t) = false ->
  (forall sid g gate n, k' <> KickTold sid g gate n) -> (forall c gate g, sg_tasks s t <> LoginEvict c gate (Some g)) -> stage_inv s'.
Proof using Type.
  intros Hi. unfold take_gate. destruct (_ !! gate); [done|]. intros [= <-] Ho He Hu Hend Hout Hout0 Hk Hev.
  eapply inv_stay; [exact Hi|by apply moves_set|done|done|done|done|done|by rewrite Hu|by left; congruence| | |by rewrite Hout0|by rewrite Hout].
  - intros sid g gate' n E. by destruct (Hk sid g gate' n).
  - intros c gate' g E. by destruct (Hev c gate' g).
Qed.

(** [remove_if_current] of a task that holds the gate, or finds another control. *)
Lemma inv_removes s s' t c after removed :
  stage_inv s -> owned (sg_tasks s t) = Some c -> unanswered (sg_tasks s t) = refuses after -> ended (sg_tasks s t) = negb (refuses after) ->
  entered (sg_tasks s t) = true -> out (sg_tasks s t) = false -> (forall c gate p, sg_tasks s t <> LoginEvict c gate p) ->
  moves s s' t (Removed c after removed) -> sg_world s' = sg_world s -> sh_next_control (sg_table s') = sh_next_control (sg_table s) ->
  (forall sid e, sh_map (sg_table s') !! sid = Some e -> sh_map (sg_table s) !! sid = Some e /\ (sid = c_session_id c -> se_control e <> c_generation c)) ->
  (forall sid e, sh_map (sg_table s) !! sid = Some e -> sh_map (sg_table s') !! sid = Some e \/ se_control e = c_generation c) ->
  stage_inv s'.
Proof using Type.
  intros Hi Ho Hu Hend He Hout Hev Hm Hw Hn Hsub Hsup. eapply inv_move; [exact Hi|exact Hm|exact Hw|exact Hn|by rewrite Ho|by rewrite He|by rewrite Hu| |done| |by rewrite Hout| |].
  - rewrite Hend. by left.
  - intros c' gate g E. by destruct (Hev c' gate (Some g)).
  - intros sid e Hsid. destruct (Hsub sid e Hsid) as [Hin Hne]. split; [done|]. intros _. right. intros c' Ho'. rewrite Ho in Ho'. injection Ho' as <-.
    intros E. apply Hne; [|done]. by eapply own_entry.
  - intros sid e Hin. destruct (Hsup sid e Hin) as [?|E]; [by left|]. right.
    destruct (refuses after) eqn:Er; [right; exists c; by rewrite Ho; cbn; rewrite Er|]. left.
    destruct (gi_entered s Hi t c Ho He) as (c1 & Hc1 & _ & _ & Hcl). intros c2 Hc2. rewrite E in Hc2. cbn in Hend. rewrite Hend in Hcl. 
    assert (c2 = c1) as -> by congruence. by apply Hcl.
Qed.

Lemma inv_task s t i env s' : stage_inv s -> gates_ok s -> task_exec drain hash_iter s t i env = Some s' -> stage_inv s'.
Proof using Type.
  intros Hi Hg. unfold task_exec. destruct (sg_tasks s t) as [|c|c gate|c gate|c gate p|c gate p|c gate p|c gate p|c gate p why|c|c|c n|c a|c gate a
    |c gate a|c a b|c|c|c|sid g gate|sid g gate|sid g gate|sid g gate n|sid g gate n|sid g n|sid g gate|sid g gate] eqn:Ek; destruct i as [login|sid0|sid0|];
    try done; try (intros Ht; eapply inv_take; [exact Hi|exact Ht|by rewrite ?Ek..]).
  - destruct (_ <? _)%Z; [|done]. intros [= <-]. unfold login_starts. destruct (verify_login _ _ _ _ _ _) as [cache r].
    assert (stage_inv (stage_replay s cache)) as Hi' by (by destruct Hi).
    destruct r; [|done]. destruct (sanitize_wire_id _ _) as [user|e]; [|done]. destruct (sanitize_wire_id _ _) as [agent|e]; [|done].
    destruct (requested_session_id _ _) as [sid|e]; [|done].
    eapply inv_start; [exact Hi'|by apply moves_set|done|done|done|done|by repeat eexists|done].
  - destruct (sh_map _ !! sid0) as [e|]; intros [= <-]; [|done]. goes Hi Ek.
  - destruct (sh_map _ !! sid0) as [e|]; intros [= <-]; [|done]. goes Hi Ek.
  - destruct (swap_peek _ _) as [sh gate] eqn:Ep. intros [= <-]. assert (sh_map sh = sh_map (sg_table s) /\ sh_next_control sh = sh_next_control (sg_table s)) as [Em En]
      by (revert Ep; unfold swap_peek; destruct (_ !! _); by intros [= <- <-]). goes Hi Ek.
  - intros [= <-]. unfold login_commits, swap_commit. pose proof (ti_held _ _ Hg) as _.
    destruct (sh_map (sg_table s) !! c_session_id c) as [e|] eqn:Em; [destruct (Z.eqb_spec (se_gate e) gate)|].
    + eapply inv_commit; [exact Hi|exact Hg|by apply moves_set|exact Ek|done|done|done|by rewrite Em].
    + goes Hi Ek.
    + eapply inv_commit; [exact Hi|exact Hg|by apply moves_set|exact Ek|done|done|done|by rewrite Em].
  - intros [= <-]. destruct p as [g0|]; [|goes Hi Ek; by intros c' gate' g [= _ _ ?]].
    destruct (inv_event s (EvShutdown g0 (ev_now env)) Hi) as [Hi' Hcl]; [done..|]. eapply inv_stay; [exact Hi'|by apply moves_set|..]; cbn; rewrite ?Ek; try done.
    intros c' gate' g [= _ _ <-]. apply Hcl. cbn. apply Z.eqb_refl.
  - destruct (try_online _ _ _) as [ag [u|[]]]; intros [= <-]; goes Hi Ek.
  - destruct (ev_write_ok env); intros [= <-]; [|goes Hi Ek].
    assert (stage_inv (set_task s t (LoginGreeted c gate p))) as Hi' by goes Hi Ek.
    apply (inv_event _ (EvLoginOk (c_generation c) (ev_version env) true) Hi'); [done..|].
    intros g t' c' E%Z.eqb_eq Ho Hc. cbn in Ho. cbn. rewrite task_updated in Ho |- *. case_decide as Et; [done|].
    destruct Et. eapply (gi_owner s Hi t t' c c'); [by rewrite Ek|done|congruence].
  - intros [= <-]. goes Hi Ek.
  - intros [= <-]. goes Hi Ek.
  - intros [= <-]. destruct (inv_event s (EvMetrics (new_client hash_iter (tb_metrics (w_tables (sg_world s))) (c_session_id c))) Hi) as [Hi' _]; [done..|].
    goes Hi' Ek.
  - intros [= <-]. goes Hi Ek.
  - intros [= <-]. destruct (inv_event s (EvShutdown (c_generation c) (ev_now env)) Hi) as [Hi' Hcl]; [done..|].
    eapply inv_stay; [exact Hi'|by apply moves_set|..]; cbn; rewrite ?Ek; try done.
    intros _. right. intros c' [= <-]. apply Hcl. cbn. apply Z.eqb_refl.
  - destruct (remove_peek _ _ _) as [gate|] eqn:Er; intros [= <-]; [goes Hi Ek|].
    eapply inv_removes; [exact Hi|by rewrite Ek..|by apply moves_set|done|done| |by left].
    intros sid e He. split; [done|]. intros -> E. unfold remove_peek in Er. cbn in He. by rewrite He, E, Z.eqb_refl in Er.
  - destruct (remove_commit _ _ _ _) as [sh b] eqn:Er. intros [= <-].
    assert (sh = (remove_commit (sg_table s) (c_session_id c) (c_generation c) gate).1) as Esh by (by rewrite Er).
    eapply inv_removes; [exact Hi|by rewrite Ek..|by apply moves_set|done|cbn; by rewrite Esh, remove_commit_next| |]; cbn; rewrite Esh; intros sid e He.
    + by eapply removed_map.
    + by apply removed_map'.
  - intros [= <-]. unfold after_removed. destruct a as [[]|n].
    + destruct (inv_event s (EvLoginErr (c_generation c) (ev_version env) (conflict_msg (c_agent_id c) (c_user c)) (ev_write_ok env)) Hi) as [Hi' _]; [done..|].
      goes Hi' Ek.
    + goes Hi Ek.
    + destruct b; goes Hi Ek.
  - intros [= <-]. destruct (inv_event s (EvShutdown (c_generation c) (ev_now env)) Hi) as [Hi' Hcl]; [done..|].
    eapply inv_stay; [exact Hi'|by apply moves_set|..]; cbn; rewrite ?Ek; try done.
    + intros _. right. intros c' [= <-]. apply Hcl. cbn. apply Z.eqb_refl.
    + intros _. right. intros c' [= <-]. apply Hcl. cbn. apply Z.eqb_refl.
  - intros [= <-]. destruct (inv_event s (EvMetrics (close_client (tb_metrics (w_tables (sg_world s))))) Hi) as [Hi' _]; [done..|].
    goes Hi' Ek.
  - intros [= <-]. eapply inv_dropped; [exact Hi|by apply moves_set|exact Ek|done|done].
  - unfold kick_check. destruct (is_current _ _ _); intros [= <-]; goes Hi Ek.
  - intros [= <-]. goes Hi Ek.
  - intros [= <-]. destruct (inv_event s (EvKick g "kicked from dashboard" (ev_write_ok env) (ev_now env)) Hi) as [Hi' Hcl]; [done..|].
    eapply inv_stay; [exact Hi'|by apply moves_set|..]; cbn; rewrite ?Ek; try done.
    intros sid' g' gate' n' [= _ <- _ _]. apply Hcl. cbn. apply Z.eqb_refl.
  - intros [= <-]. eapply inv_move; [exact Hi|by apply moves_set|..]; cbn; rewrite ?Ek; try done; [by apply remove_commit_next| |].
    + intros sid' e He. split; [by eapply removed_map|done].
    + intros sid' e He. destruct (removed_map' (sg_table s) sid g gate sid' e He) as [?|E]; [by left|]. right; left. rewrite E. by eapply (gi_kicked s Hi).
  - intros [= <-]. goes Hi Ek.
  - intros [= <-]. goes Hi Ek.
Qed.

(** Before it is inserted a control is nobody's session. *)
Lemma private_session s t c : stage_inv s -> owned (sg_tasks s t) = Some c -> entered (sg_tasks s t) = false -> sg_session s (c_generation c) = None.
Proof using Type.
  intros Hi Ho He. destruct (sg_session s (c_generation c)) as [c1|] eqn:E; [|done].
  destruct (gi_session s Hi _ _ E) as (Hg & t' & c0 & H1 & H2 & H3). destruct (owner_parts _ _ H3) as [_ Hgen].
  assert (t' = t) as -> by (eapply (gi_owner s Hi); [exact Ho|exact H1|congruence]). congruence.
Qed.

Lemma inv_label s l s' : stage_inv s -> gates_ok s -> stage_step drain hash_iter s l s' -> stage_inv s' /\ gates_ok s'.
Proof using Type.
  intros Hi Hg. destruct l as [t i env|g m bind w t|g timeout now]; unfold stage_step; cbn [label_exec].
  - intros Hs. split; [by eapply inv_task|by eapply gates_step].
  - intros [= <-]. split; [by apply inv_event|exact Hg].
  - intros [= <-]. split; [by apply inv_event|exact Hg].
Qed.
Lemma stage_new_inv cfg t : stage_inv (stage_new cfg t) /\ gates_ok (stage_new cfg t).
Proof using Type.
  split.
  - split; unfold sg_session; cbn; try done; intros ? ?; by rewrite lookup_empty.
  - apply (table_inv_reachable (MkSystem (MkShared ∅ ∅ 0 1) (fun _ => Idle))). by apply reach_init.
Qed.
Lemma stage_inv_reachable s : reachable (stage_step drain hash_iter) stage_init s -> stage_inv s /\ gates_ok s.
Proof using Type.
  induction 1 as [s (cfg & t & ->)|s l s' _ [Hi Hg] Hs]; [apply stage_new_inv|]. by eapply inv_label.
Qed.
Lemma reachable_run l : forall s s', reachable (stage_step drain hash_iter) stage_init s -> stage_run drain hash_iter s l = Some s' ->
  reachable (stage_step drain hash_iter) stage_init s'.
Proof using Type.
  induction l as [|x l IH]; intros s s' Hr; cbn; [by intros [= <-]|]. destruct (label_exec drain hash_iter s x) as [s1|] eqn:E; [|done].
  apply IH. by eapply reach_step.
Qed.

(** What a step does to the sessions and their tables is at most one event. *)
Definition label_named (l : StageLabel) : Prop := match l with LMessage _ m _ _ _ => message_ok m | _ => True end.
Definition one_event (s s' : Stage) : Prop :=
  sg_world s' = sg_world s \/ exists ev, event_ok (sg_world s) ev /\ sg_world s' = world_exec drain (sg_world s) ev.
Lemma world_of_step s l s' : stage_inv s -> label_named l -> stage_step drain hash_iter s l s' -> one_event s s'.
Proof using Type.
  intros Hi Hn. unfold stage_step, one_event. destruct l as [t i env|g m bind w t|g timeout now]; cbn [label_exec].
  2: { intros [= <-]. right. by exists (EvMessage g m bind w t). }
  2: { intros [= <-]. right. by exists (EvWatchdog g timeout now). }
  unfold task_exec, take_gate. destruct (sg_tasks s t) as [|c|c gate|c gate|c gate p|c gate p|c gate p|c gate p|c gate p why|c|c|c n|c a|c gate a
    |c gate a|c a b|c|c|c|sid g gate|sid g gate|sid g gate|sid g gate n|sid g gate n|sid g n|sid g gate|sid g gate] eqn:Ek; destruct i as [login|sid0|sid0|]; try done;
    try (by intros [= <-]; left); try (by repeat case_match; intros [= <-]; left);
    try (intros [= <-]; right; eexists; split; [|reflexivity]; done).
  - destruct (_ <? _)%Z; [|done]. intros [= <-]. left. unfold login_starts. by repeat case_match.
  - intros [= <-]. unfold login_commits. destruct (swap_commit _ _ _ _) as [sh pc]. destruct pc; try by left.
    right. exists (EvLogin c). split; [|done]. split; [exact (proj1 (gi_fresh s Hi t c ltac:(by rewrite Ek)))|].
    apply (private_session s t c Hi); by rewrite Ek.
  - intros [= <-]. destruct p as [g0|]; [right|by left]. by exists (EvShutdown g0 (ev_now env)).
  - destruct (ev_write_ok env); intros [= <-]; [right|by left]. by exists (EvLoginOk (c_generation c) (ev_version env) true).
  - intros [= <-]. unfold after_removed. destruct a as [[]|n]; [right; eexists; split; [|reflexivity]; done|by left|destruct b; by left].
Qed.

(** ** The properties *)

(** C1: however the tasks of the service interleave - logins, kicks, sessions that end,
    data connections and messages, each interrupted between any two of its calls - at
    most one session per session id is open to its client, whatever tunnels the clients
    name: two sessions of one id that are
    logged in and not closed are the same session. A session that is not closed is
    the one the table names; or a newer login, which the table names and which holds
    the gate, is just about to shut it down, not yet logged in itself; or it is a
    login that failed, on its way out, never logged in. *)
Theorem one_open_session_per_id s :
  reachable (stage_step drain hash_iter) stage_init s ->
  (forall g g' c c', sg_session s g = Some c -> sg_session s g' = Some c' -> is_accepting_data c = true -> is_accepting_data c' = true ->
     c_session_id c' = c_session_id c -> g' = g)
  /\ forall g c, sg_session s g = Some c -> c_closed c = false ->
     sv_controls (service_of s) !! c_session_id c = Some g
     \/ (exists t c' gate c1, sg_tasks s t = LoginEvict c' gate (Some g) /\ c_session_id c' = c_session_id c
         /\ sh_held (sg_table s) !! gate = Some t /\ sv_controls (service_of s) !! c_session_id c = Some (c_generation c')
         /\ sg_session s (c_generation c') = Some c1 /\ c_activated c1 = false)
     \/ (exists t c0, owned (sg_tasks s t) = Some c0 /\ c_generation c0 = g /\ out (sg_tasks s t) && unanswered (sg_tasks s t) = true
         /\ c_activated c = false).
Proof using Type.
  intros [Hi Hg]%stage_inv_reachable.
  assert (forall t c' gate g, sg_tasks s t = LoginEvict c' gate (Some g) -> sh_map (sg_table s) !! c_session_id c' = Some (MkSession (c_generation c') gate)
    /\ sh_held (sg_table s) !! gate = Some t) as Hcrit.
  { intros t c' gate g Ht. split; [apply (ti_critical _ _ Hg t)|apply (ti_held _ _ Hg t)]; cbn; by rewrite Ht. }
  assert (forall t c0 g c, owned (sg_tasks s t) = Some c0 -> c_generation c0 = g -> unanswered (sg_tasks s t) = true -> sg_session s g = Some c -> c_activated c = false) as Hun.
  { intros t c0 g c Ho <- Hu Hc. destruct (gi_entered s Hi t c0 Ho) as (c1 & Hc1 & _ & Ha & _); [by destruct (sg_tasks s t)|].
    assert (c = c1) as -> by congruence. by apply Ha. }
  assert (forall g c, sg_session s g = Some c -> is_accepting_data c = true ->
    (exists e, sh_map (sg_table s) !! c_session_id c = Some e /\ se_control e = g)
    \/ exists t c' gate, sg_tasks s t = LoginEvict c' gate (Some g) /\ c_session_id c' = c_session_id c) as Hacc.
  { intros g c Hc [Ha Hcl]%andb_true_iff. apply negb_true_iff in Hcl.
    destruct (gi_open s Hi g c Hc Hcl) as [?|[?|(t & c0 & H1 & H2 & [_ H3]%andb_true_iff)]]; [by left|by right|].
    rewrite (Hun t c0 g c H1 H2 H3 Hc) in Ha. discriminate. }
  (* A session that the table names is not logged in while it is about to evict. *)
  assert (forall g c t c' gate g', sg_session s g = Some c -> is_accepting_data c = true -> sg_tasks s t = LoginEvict c' gate (Some g') ->
    sh_map (sg_table s) !! c_session_id c' = Some (MkSession g gate) -> False) as Hno.
  { intros g c t c' gate g' Hc [Ha _]%andb_true_iff Ht He. rewrite (proj1 (Hcrit _ _ _ _ Ht)) in He. injection He as Hgen.
    rewrite (Hun t c' g c ltac:(by rewrite Ht) Hgen ltac:(by rewrite Ht) Hc) in Ha. discriminate. }
  split.
  - intros g g' c c' Hc Hc' Ha Ha' Hsid. destruct (Hacc g c Hc Ha) as [(e & He & Eg)|(t & c1 & gate & Ht & Hs1)],
      (Hacc g' c' Hc' Ha') as [(e' & He' & Eg')|(t' & c2 & gate' & Ht' & Hs2)].
    + rewrite Hsid in He'. congruence.
    + exfalso. pose proof (proj1 (Hcrit _ _ _ _ Ht')) as Hm. rewrite Hs2, Hsid, He in Hm. injection Hm as ->.
      eapply (Hno g c t' c2); [exact Hc|exact Ha|exact Ht'|]. rewrite Hs2, Hsid, He. by rewrite <- Eg.
    + exfalso. pose proof (proj1 (Hcrit _ _ _ _ Ht)) as Hm. rewrite Hs1, <- Hsid, He' in Hm. injection Hm as ->.
      eapply (Hno g' c' t c1); [exact Hc'|exact Ha'|exact Ht|]. rewrite Hs1, <- Hsid, He'. by rewrite <- Eg'.
    + pose proof (proj1 (Hcrit _ _ _ _ Ht)) as Hm. pose proof (proj1 (Hcrit _ _ _ _ Ht')) as Hm'.
      rewrite Hs1 in Hm. rewrite Hs2, Hsid, Hm in Hm'. injection Hm' as Hgen _.
      assert (t' = t) as -> by (eapply (gi_owner s Hi); [by rewrite Ht|by rewrite Ht'|done]). congruence.
  - intros g c Hc Hcl. destruct (gi_open s Hi g c Hc Hcl) as [(e & He & Eg)|[(t & c' & gate & Ht & Hsid)|(t & c0 & H1 & H2 & H3)]].
    + left. cbn. rewrite lookup_fmap, He. cbn. by rewrite Eg.
    + right; left. destruct (Hcrit _ _ _ _ Ht) as [Hm Hh]. destruct (gi_entered s Hi t c') as (c1 & Hc1 & _ & Hact & _); [by rewrite Ht..|].
      exists t, c', gate, c1. split; [exact Ht|]. split; [exact Hsid|]. split; [exact Hh|]. split; [cbn; by rewrite lookup_fmap, <- Hsid, Hm|].
      split; [exact Hc1|]. apply Hact. by rewrite Ht.
    + right; right. exists t, c0. split; [done|]. split; [done|]. split; [done|]. apply andb_true_iff in H3 as [_ H3]. by eapply Hun.
Qed.

(** C5: whatever logins, messages, heartbeats, kicks, data connections and
    disconnections happen, and however the tasks that serve them interleave between
    their calls, the shared tables stay in step with the live tunnels: every state of
    the service is a reachable state of the session model - as long as the tunnels that
    clients register have names without outer white space ([untrimmed_name_leaks]
    shows what one that has some leaves behind) and the generations, which are 64 bits
    wide, have not run out. What one session does in a call - it answers a message, it
    shuts down, it is told that it is kicked - is one step, as in [ServerControl]. *)
Theorem service_refines_world (drain_all : forall tm, drain tm ≡ₚ map_to_list tm) s :
  reachable (fun s l s' => label_named l /\ stage_step drain hash_iter s l s') stage_init s ->
  reachable (world_step drain) world_init (sg_world s) /\ exists A, world_agrees (sg_world s) A.
Proof using Type.
  intros Hr. enough (reachable (world_step drain) world_init (sg_world s)) as Hw by (split; [done|by apply (reachable_agrees drain drain_all)]).
  enough (stage_inv s /\ gates_ok s /\ reachable (world_step drain) world_init (sg_world s)) as (_ & _ & ?) by done.
  induction Hr as [s (cfg & t & ->)|s l s' _ (Hi & Hg & IH) [Hn Hs]].
  - destruct (stage_new_inv cfg t) as [Hi Hg]. split; [done|]. split; [done|]. exact (si_world drain true None _ (service_new_inv drain true cfg t) eq_refl).
  - destruct (inv_label s l s' Hi Hg Hs) as [Hi' Hg']. split; [done|]. split; [done|].
    destruct (world_of_step s l s' Hi Hn Hs) as [->|(ev & Hok & ->)]; [done|]. eapply reach_step; [exact IH|]. by split.
Qed.

(** ** The handlers of [Service] are uninterrupted tasks *)

Section Alone.
Context (t : nat) (env : CallEnv).

(** Task [t] stands at [k], the gates are held as [held] says, and the service is [sv]. *)
Definition at_ (s : Stage) (k : Task) (held : gmap Z nat) (sv : Service) : Prop :=
  sg_tasks s t = k /\ sh_held (sg_table s) = held /\ service_of s = sv.
Definition alone (n : nat) (k : Task) (held : gmap Z nat) (sv : Service) (k' : Task) (held' : gmap Z nat) (sv' : Service) : Prop :=
  forall s, at_ s k held sv -> exists s', stage_run drain hash_iter s (replicate n (LTask t InGo env)) = Some s' /\ at_ s' k' held' sv'.

Lemma stage_run_app l l' s : stage_run drain hash_iter s (l ++ l')%list
  = match stage_run drain hash_iter s l with Some s' => stage_run drain hash_iter s' l' | None => None end.
Proof using Type. revert s. induction l as [|x l IH]; intros s; cbn; [done|]. by destruct (label_exec drain hash_iter s x). Qed.
Lemma alone_then n m k held sv k1 held1 sv1 k2 held2 sv2 :
  alone n k held sv k1 held1 sv1 -> alone m k1 held1 sv1 k2 held2 sv2 -> alone (n + m) k held sv k2 held2 sv2.
Proof using Type.
  intros H1 H2 s Hs. destruct (H1 s Hs) as (s1 & E1 & Hs1). destruct (H2 s1 Hs1) as (s2 & E2 & Hs2). exists s2. split; [|done].
  by rewrite replicate_add, stage_run_app, E1.
Qed.
Lemma alone_step k held sv k' held' sv' :
  (forall s, at_ s k held sv -> exists s', task_exec drain hash_iter s t InGo env = Some s' /\ at_ s' k' held' sv') -> alone 1 k held sv k' held' sv'.
Proof using Type. intros Hs s Hat. destruct (Hs s Hat) as (s' & E & Hat'). exists s'. split; [cbn; by rewrite E|done]. Qed.
Lemma at_set s0 s k held sv : s = set_task s0 t k -> sh_held (sg_table s0) = held -> service_of s0 = sv -> at_ s k held sv.
Proof using Type. intros -> Hh Hsv. split; [cbn; by rewrite fn_lookup_insert|]. by split. Qed.
Ltac one := apply alone_step; intros s (Ht & Hh & <-); unfold task_exec; rewrite Ht.
Ltac lands := eexists; split; [reflexivity|]; eapply at_set; [reflexivity|try done..].

Lemma alone_evict c gate previous held sv : alone 1 (LoginEvict c gate previous) held sv (LoginOnline c gate previous) held
  (match previous with Some g0 => exec drain sv (EvShutdown g0 (ev_now env)) | None => sv end).
Proof using Type. one. destruct previous; lands. Qed.
Lemma alone_online c gate previous held sv :
  let r := try_online (sv_agents sv) (online_spec c) (ev_instant env) in
  alone 1 (LoginOnline c gate previous) held sv
    (match r.2 with Ok _ => LoginAnswer c gate previous | Err _ => LoginRefused c gate previous Conflicting end) held
    (match r.2 with Ok _ => set_agents sv r.1 | Err _ => sv end).
Proof using Type. one. cbn [service_of sv_agents]. destruct (try_online _ _ _) as [agents [u|[]]]; lands. Qed.
Lemma alone_answer c gate previous held sv :
  alone 1 (LoginAnswer c gate previous) held sv
    (if ev_write_ok env then LoginGreeted c gate previous else LoginRefused c gate previous Unwritten) held
    (if ev_write_ok env then exec drain sv (EvLoginOk (c_generation c) (ev_version env) true)
     else set_agents sv (agent_release (sv_agents sv) (c_session_id c) (c_generation c) 0 (ev_instant env))).
Proof using Type. one. destruct (ev_write_ok env); lands. Qed.
Lemma alone_greeted c gate previous sv : alone 1 (LoginGreeted c gate previous) {[gate := t]} sv (SessionStart c) ∅ sv.
Proof using Type. one. lands. cbn. rewrite Hh. apply delete_singleton_eq. Qed.
Lemma alone_refused c gate previous why sv : alone 1 (LoginRefused c gate previous why) {[gate := t]} sv (RemoveStart c (AfterLogin why)) ∅ sv.
Proof using Type. one. lands. cbn. rewrite Hh. apply delete_singleton_eq. Qed.
Lemma alone_start c held sv : alone 1 (SessionStart c) held sv (SessionRuns c) held
  (exec drain sv (EvMetrics (new_client hash_iter (metrics_of sv) (c_session_id c)))).
Proof using Type. one. lands. Qed.

Lemma run_go s s1 n (P : Stage -> Prop) : task_exec drain hash_iter s t InGo env = Some s1 ->
  (exists s', stage_run drain hash_iter s1 (replicate n (LTask t InGo env)) = Some s' /\ P s') ->
  exists s', stage_run drain hash_iter s (replicate (S n) (LTask t InGo env)) = Some s' /\ P s'.
Proof using Type. intros E (s' & E' & HP). exists s'. split; [cbn; by rewrite E|done]. Qed.
Ltac steps Ht := eapply run_go; [unfold task_exec; rewrite Ht|].
Ltac steps_on := eapply run_go; [unfold task_exec; cbn [sg_tasks set_task set_table]; rewrite fn_lookup_insert; cbn [sg_table set_task set_table]|].

(** [remove_if_current], when nobody holds a gate. *)
Lemma alone_remove c after sv : exists n, alone n (RemoveStart c after) ∅ sv
    (Removed c after (remove_current sv (c_session_id c) (c_generation c)).2) ∅ (remove_current sv (c_session_id c) (c_generation c)).1.
Proof using Type.
  unfold remove_current. case_decide as E; cbn [fst snd].
  - exists 3. intros s (Ht & Hh & <-). cbn in E. rewrite lookup_fmap in E. destruct (sh_map (sg_table s) !! c_session_id c) as [e|] eqn:Em; [|done].
    cbn in E. injection E as E. steps Ht. { unfold remove_peek. rewrite Em, E, Z.eqb_refl. reflexivity. }
    steps_on. { unfold take_gate. cbn [sg_table set_task]. rewrite Hh, lookup_empty. reflexivity. }
    steps_on. { unfold remove_commit, is_current. cbn. rewrite Em, E, Z.eqb_refl. reflexivity. }
    eexists. split; [reflexivity|]. eapply at_set; [reflexivity| |]; cbn.
    + rewrite Hh, insert_empty. apply delete_singleton_eq.
    + unfold service_of, set_controls. cbn. by rewrite fmap_delete.
  - exists 1. one. assert (remove_peek (sg_table s) (c_session_id c) (c_generation c) = None) as ->.
    { unfold remove_peek. cbn in E. rewrite lookup_fmap in E. destruct (_ !! _) as [e|]; [|done]. destruct (Z.eqb_spec (se_control e) (c_generation c)); [|done].
      destruct E. cbn. congruence. }
    lands.
Qed.
(** The swap, when nobody holds a gate. *)
Lemma alone_swap c s : sg_tasks s t = LoginPeek c -> sh_held (sg_table s) = ∅ ->
  exists s', stage_run drain hash_iter s (replicate 3 (LTask t InGo env)) = Some s'
    /\ exists gate, at_ s' (LoginEvict c gate (sv_controls (service_of s) !! c_session_id c)) {[gate := t]}
         (set_controls (exec drain (service_of s) (EvLogin c)) (<[c_session_id c := c_generation c]> (sv_controls (service_of s)))).
Proof using Type.
  intros Ht Hh. unfold service_of at 1. cbn [sv_controls]. rewrite lookup_fmap. destruct (sh_map (sg_table s) !! c_session_id c) as [e|] eqn:Em; cbn [fmap option_fmap option_map].
  - steps Ht. { unfold swap_peek. rewrite Em. reflexivity. }
    steps_on. { unfold take_gate. cbn [sg_table set_task set_table]. rewrite Hh, lookup_empty. reflexivity. }
    steps_on. { unfold login_commits, swap_commit. cbn [sg_table set_task set_table lock_gate sh_map]. rewrite Em, Z.eqb_refl. reflexivity. }
    eexists. split; [reflexivity|]. exists (se_gate e). eapply at_set; [reflexivity| |]; cbn; [by rewrite ?Hh|].
    unfold service_of, set_controls. cbn. by rewrite fmap_insert.
  - steps Ht. { unfold swap_peek. rewrite Em. reflexivity. }
    steps_on. { unfold take_gate. cbn [sg_table set_task set_table sh_held]. rewrite Hh, lookup_empty. reflexivity. }
    steps_on. { unfold login_commits, swap_commit. cbn [sg_table set_task set_table lock_gate sh_map]. rewrite Em. reflexivity. }
    eexists. split; [reflexivity|]. exists (sh_next_gate (sg_table s)). eapply at_set; [reflexivity| |]; cbn; [by rewrite ?Hh|].
    unfold service_of, set_controls. cbn. by rewrite fmap_insert.
Qed.
Lemma alone_removed c after removed sv : alone 1 (Removed c after removed) ∅ sv
  (match after with AfterLogin _ => LoginShut c | AfterSession _ => SessionCount c end) ∅
  (match after with
   | AfterLogin Conflicting =>
       exec drain sv (EvLoginErr (c_generation c) (ev_version env) (conflict_msg (c_agent_id c) (c_user c)) (ev_write_ok env))
   | AfterLogin Unwritten => sv
   | AfterSession tunnels =>
       if removed then set_agents sv (agent_release (sv_agents sv) (c_session_id c) (c_generation c) tunnels (ev_instant env)) else sv
   end).
Proof using Type. one. unfold after_removed. destruct after as [[]|n]; [lands..|destruct removed; lands]. Qed.
Lemma alone_shut c sv : alone 1 (LoginShut c) ∅ sv (ControlDrop c) ∅ (exec drain sv (EvShutdown (c_generation c) (ev_now env))).
Proof using Type. one. lands. Qed.
Lemma alone_drop c sv : alone 1 (ControlDrop c) ∅ sv TaskIdle ∅ (exec drain sv (EvDrop (c_generation c))).
Proof using Type. one. lands. Qed.
Lemma alone_ends c tunnels sv : alone 1 (SessionEnds c tunnels) ∅ sv (RemoveStart c (AfterSession tunnels)) ∅ (exec drain sv (EvShutdown (c_generation c) (ev_now env))).
Proof using Type. one. lands. Qed.
Lemma alone_count c sv : alone 1 (SessionCount c) ∅ sv (ControlDrop c) ∅ (exec drain sv (EvMetrics (close_client (metrics_of sv)))).
Proof using Type. one. lands. Qed.
(** A login that failed, from the gate it gave back. *)
Lemma alone_abandon c why sv : exists n, alone n (RemoveStart c (AfterLogin why)) ∅ sv TaskIdle ∅
  (abandon_login drain sv c (match why with
     | Conflicting => Some (EvLoginErr (c_generation c) (ev_version env) (conflict_msg (c_agent_id c) (c_user c)) (ev_write_ok env))
     | Unwritten => None end) env).
Proof using Type.
  destruct (alone_remove c (AfterLogin why) sv) as [n Hn]. eexists. eapply alone_then; [exact Hn|]. eapply alone_then; [apply alone_removed|].
  eapply alone_then; [apply alone_shut|]. destruct why; apply alone_drop.
Qed.

(** The rest of a login, once the table has its control. *)
Definition after_swap (sv : Service) (c : Control) : Service * bool :=
  match try_online (sv_agents sv) (online_spec c) (ev_instant env) with
  | (_, Err Conflict) =>
      (abandon_login drain sv c (Some (EvLoginErr (c_generation c) (ev_version env) (conflict_msg (c_agent_id c) (c_user c)) (ev_write_ok env))) env, false)
  | (agents, Ok _) =>
      let sv := set_agents sv agents in
      if ev_write_ok env then
        let sv := exec drain sv (EvLoginOk (c_generation c) (ev_version env) true) in
        (exec drain sv (EvMetrics (new_client hash_iter (metrics_of sv) (c_session_id c))), true)
      else (abandon_login drain (set_agents sv (agent_release (sv_agents sv) (c_session_id c) (c_generation c) 0 (ev_instant env))) c None env, false)
  end.
Lemma alone_after_swap c gate previous sv : exists n, alone n (LoginOnline c gate previous) {[gate := t]} sv
  (if (after_swap sv c).2 then SessionRuns c else TaskIdle) ∅ (after_swap sv c).1.
Proof using Type.
  unfold after_swap. pose proof (alone_online c gate previous {[gate := t]} sv) as H1. cbn zeta in H1.
  destruct (try_online _ _ _) as [agents [u|[]]]; cbn [fst snd] in *.
  - pose proof (alone_answer c gate previous {[gate := t]} (set_agents sv agents)) as H2. destruct (ev_write_ok env); cbn [fst snd].
    + eexists. eapply alone_then; [exact H1|]. eapply alone_then; [exact H2|]. eapply alone_then; [apply alone_greeted|]. apply alone_start.
    + match goal with |- context [abandon_login drain ?x c None env] => destruct (alone_abandon c Unwritten x) as [n Hn] end.
      eexists. eapply alone_then; [exact H1|]. eapply alone_then; [exact H2|]. eapply alone_then; [apply alone_refused|exact Hn].
  - destruct (alone_abandon c Conflicting sv) as [n Hn]. eexists. eapply alone_then; [exact H1|]. eapply alone_then; [apply alone_refused|exact Hn].
Qed.

(** [register_control] is a login that no other task interrupts, when no gate is held
    and the generations have not run out. *)
Theorem login_uninterrupted s login : at_ s TaskIdle ∅ (service_of s) -> (0 <= sv_next_generation (service_of s) < u64_max)%Z ->
  exists n s' k, stage_run drain hash_iter s (LTask t (InLogin login) env :: replicate n (LTask t InGo env)) = Some s'
    /\ at_ s' k ∅ (register_control drain hash_iter (service_of s) login env).1.1
    /\ match (register_control drain hash_iter (service_of s) login env).2 with
       | Ok g => exists c, k = SessionRuns c /\ c_generation c = g
       | Err _ => k = TaskIdle
       end.
Proof using Type.
  intros (Ht & Hh & _) Hr. cbn in Hr. cbn [stage_run label_exec]. unfold task_exec. rewrite Ht, (proj2 (Z.ltb_lt _ _)) by lia.
  unfold login_starts, register_control. change (sv_cfg (service_of s)) with (sg_cfg s). change (sv_auth_replay (service_of s)) with (sg_replay s).
  destruct (verify_login _ _ _ _ _ _) as [cache [u|e]]; [|by exists 0; eexists _, TaskIdle].
  destruct (sanitize_wire_id (lg_user login) _) as [user|e]; [|by exists 0; eexists _, TaskIdle].
  destruct (sanitize_wire_id (lg_agent_id login) _) as [agent|e]; [|by exists 0; eexists _, TaskIdle].
  destruct (requested_session_id login env) as [sid|e]; [|by exists 0; eexists _, TaskIdle].
  change (login_control (service_of (stage_replay s cache)) login user agent sid env) with (login_control (set_replay (service_of s) cache) login user agent sid env).
  set (c := login_control _ _ _ _ _ _). set (s1 := set_task _ t _).
  assert (sg_tasks s1 t = LoginPeek c) as Ht1 by (unfold s1; cbn; by rewrite fn_lookup_insert).
  assert (service_of s1 = bump_generation (set_replay (service_of s) cache)) as Hs1.
  { unfold s1, service_of, bump_generation, set_replay. cbn. f_equal. rewrite wrap_u_small; [done|]. unfold u64_max in Hr. change (2 ^ 64)%Z with 18446744073709551616%Z. lia. }
  destruct (alone_swap c s1 Ht1 Hh) as (s2 & E2 & gate & Hs2). rewrite Hs1 in Hs2.
  pose proof (alone_evict c gate (sv_controls (bump_generation (set_replay (service_of s) cache)) !! c_session_id c) {[gate := t]}
    (set_controls (exec drain (bump_generation (set_replay (service_of s) cache)) (EvLogin c))
       (<[c_session_id c := c_generation c]> (sv_controls (bump_generation (set_replay (service_of s) cache)))))) as He.
  change (match sv_controls _ !! c_session_id c with Some g0 => _ | None => _ end) with (take_over drain (bump_generation (set_replay (service_of s) cache)) c env) in He.
  set (sv := take_over _ _ _ _) in *. destruct (alone_after_swap c gate (sv_controls (bump_generation (set_replay (service_of s) cache)) !! c_session_id c) sv) as [n Hn].
  destruct (alone_then _ _ _ _ _ _ _ _ _ _ _ He Hn s2 Hs2) as (s3 & E3 & Hs3).
  exists (3 + (1 + n)), s3, (if (after_swap sv c).2 then SessionRuns c else TaskIdle).
  split; [by rewrite replicate_add, stage_run_app, E2|]. clear E3 E2 Hs2 He Hn Hs1 Ht1. revert Hs3. unfold after_swap.
  destruct (try_online (sv_agents sv) _ _) as [agents [u'|[]]]; [destruct (ev_write_ok env)|]; intros Hs3; (split; [exact Hs3|]); [by exists c|done..].
Qed.

(** [session_ended] is the end of a session that no other task interrupts. *)
Theorem session_uninterrupted s c c1 : at_ s (SessionRuns c) ∅ (service_of s) ->
  session_of (service_of s) (c_generation c) = Some c1 -> c_session_id c1 = c_session_id c ->
  exists n s', stage_run drain hash_iter s (replicate n (LTask t InGo env)) = Some s'
    /\ at_ s' TaskIdle ∅ (session_ended drain (service_of s) (c_generation c) env).
Proof using Type.
  intros (Ht & Hh & _) Hc1 Hsid. unfold session_ended. rewrite Hc1, Hsid.
  set (sv := exec drain (service_of s) _). destruct (alone_remove c (AfterSession (tunnel_count c1)) sv) as [n Hn].
  pose proof (alone_ends c (tunnel_count c1) (service_of s)) as H1. fold sv in H1.
  destruct (remove_current sv (c_session_id c) (c_generation c)) as [sv1 removed]. cbn [fst snd] in Hn.
  pose proof (alone_removed c (AfterSession (tunnel_count c1)) removed sv1) as H3. cbn zeta beta iota in H3.
  pose proof (alone_then _ _ _ _ _ _ _ _ _ _ _ H1 (alone_then _ _ _ _ _ _ _ _ _ _ _ Hn (alone_then _ _ _ _ _ _ _ _ _ _ _ H3
    (alone_then _ _ _ _ _ _ _ _ _ _ _ (alone_count _ _) (alone_drop _ _))))) as Hall.
  destruct (Hall (set_task s t (SessionEnds c (tunnel_count c1)))) as (s' & E & Hs'); [by eapply at_set|].
  eexists (S _), s'. split; [|exact Hs']. cbn [replicate stage_run label_exec]. unfold task_exec. rewrite Ht.
  change (sg_session s (c_generation c)) with (session_of (service_of s) (c_generation c)). rewrite Hc1. exact E.
Qed.

(** [kick_client] is a kick that no other task interrupts. *)
Theorem kick_uninterrupted s sid : at_ s TaskIdle ∅ (service_of s) ->
  exists n s', stage_run drain hash_iter s (LTask t (InKick sid) env :: replicate n (LTask t InGo env)) = Some s'
    /\ at_ s' TaskIdle ∅ (kick_client drain (service_of s) sid env).1.
Proof using Type.
  intros (Ht & Hh & _). unfold kick_client. cbn [stage_run label_exec]. unfold task_exec at 1. rewrite Ht.
  change (sv_controls (service_of s)) with (se_control <$> sh_map (sg_table s)). rewrite lookup_fmap.
  destruct (sh_map (sg_table s) !! sid) as [e|] eqn:Em; cbn [fmap option_fmap option_map fst]; [|by exists 0, s].
  exists 6. steps_on. { unfold take_gate. cbn [sg_table set_task set_table]. rewrite Hh, lookup_empty. reflexivity. }
  steps_on. { unfold kick_check, is_current. cbn. rewrite Em, Z.eqb_refl. reflexivity. }
  steps_on. { reflexivity. } steps_on. { reflexivity. } steps_on. { reflexivity. } steps_on. { reflexivity. }
  eexists. split; [reflexivity|]. eapply at_set; [reflexivity| |]; cbn; unfold kick_commit, remove_commit, is_current; cbn; rewrite Em, Z.eqb_refl; cbn.
  - rewrite Hh, insert_empty. apply delete_singleton_eq.
  - unfold remove_current. cbn. rewrite decide_True by (by rewrite lookup_fmap, Em). unfold service_of, set_agents, set_controls. cbn. by rewrite fmap_delete.
Qed.
End Alone.
End Inv.

(** *** Witnesses *)

#[local] Existing Instance ex_crypto_off.
Definition ex_go (t : nat) : StageLabel := LTask t InGo ex_env.
(** A session that runs, and a login of the same session id by another agent, as far as
    the table: both controls are open. *)
Definition ex_taken_over : list StageLabel :=
  LTask 0 (InLogin (ex_login "A" "S1")) ex_env :: replicate 8 (ex_go 0) ++ LTask 1 (InLogin (ex_login "B" "S1")) ex_env :: replicate 3 (ex_go 1).
(** The first session is evicted and ends, while the second is answered. *)
Definition ex_interleaved : list StageLabel := ex_taken_over ++ [ex_go 1; ex_go 0; ex_go 1; ex_go 0; ex_go 1; ex_go 0].
Definition ex_stage0 : Stage := stage_new server_config_default (MkNow 0 0 0).
Definition ex_stage (l : list StageLabel) : Stage := default ex_stage0 (stage_run map_to_list elements ex_stage0 l).

Lemma ex_stage_reachable l : is_Some (stage_run map_to_list elements ex_stage0 l) ->
  reachable (stage_step map_to_list elements) stage_init (ex_stage l).
Proof.
  intros [s' E]. unfold ex_stage. rewrite E. eapply reachable_run; [|exact E]. apply reach_init. by eexists _, _.
Qed.
(** Such a state comes about: the table names the newer login, the older session is
    open, and its eviction is what comes next. *)
Lemma two_open_controls :
  (c_closed <$> sg_session (ex_stage ex_taken_over) 1) = Some false /\ (c_closed <$> sg_session (ex_stage ex_taken_over) 2) = Some false
  /\ sv_controls (service_of (ex_stage ex_taken_over)) !! "S1" = Some 2%Z.
Proof. by vm_compute. Qed.

Lemma one_open_session_per_id_witness :
  exists c, sg_session (ex_stage ex_interleaved) 2 = Some c /\ is_accepting_data c = true
    /\ (forall g' c', sg_session (ex_stage ex_interleaved) g' = Some c' -> is_accepting_data c' = true -> c_session_id c' = c_session_id c -> g' = 2%Z)
    /\ exists c1, sg_session (ex_stage ex_taken_over) 1 = Some c1 /\ c_closed c1 = false
       /\ (sv_controls (service_of (ex_stage ex_taken_over)) !! c_session_id c1 = Some 1%Z
           \/ (exists t c' gate c2, sg_tasks (ex_stage ex_taken_over) t = LoginEvict c' gate (Some 1%Z) /\ c_session_id c' = c_session_id c1
               /\ sh_held (sg_table (ex_stage ex_taken_over)) !! gate = Some t
               /\ sv_controls (service_of (ex_stage ex_taken_over)) !! c_session_id c1 = Some (c_generation c')
               /\ sg_session (ex_stage ex_taken_over) (c_generation c') = Some c2 /\ c_activated c2 = false)
           \/ (exists t c0, owned (sg_tasks (ex_stage ex_taken_over) t) = Some c0 /\ c_generation c0 = 1%Z
               /\ out (sg_tasks (ex_stage ex_taken_over) t) && unanswered (sg_tasks (ex_stage ex_taken_over) t) = true /\ c_activated c1 = false)).
Proof.
  pose proof (one_open_session_per_id map_to_list elements (ex_stage ex_interleaved)) as H1.
  pose proof (one_open_session_per_id map_to_list elements (ex_stage ex_taken_over)) as H2.
  destruct (sg_session (ex_stage ex_interleaved) 2) as [c|] eqn:Ec; [|exfalso; revert Ec; vm_compute; discriminate].
  destruct (sg_session (ex_stage ex_taken_over) 1) as [c1|] eqn:Ec1; [|exfalso; revert Ec1; vm_compute; discriminate].
  assert (is_accepting_data c = true) as Ha by (revert Ec; vm_compute; intros [= <-]; reflexivity).
  assert (c_closed c1 = false) as Hc by (revert Ec1; vm_compute; intros [= <-]; reflexivity).
  exists c. split; [reflexivity|]. split; [exact Ha|]. split.
  - intros g' c' Hc' Ha' Hs. destruct H1 as [H1 _]; [apply ex_stage_reachable; vm_compute; eexists; reflexivity|]. exact (H1 2%Z g' c c' Ec Hc' Ha Ha' Hs).
  - exists c1. split; [reflexivity|]. split; [exact Hc|]. destruct H2 as [_ H2]; [apply ex_stage_reachable; vm_compute; eexists; reflexivity|]. exact (H2 1%Z c1 Ec1 Hc).
Defined.

Lemma service_refines_world_witness : exists A, world_agrees (sg_world (ex_stage ex_interleaved)) A.
Proof.
  apply (service_refines_world map_to_list elements (fun _ => reflexivity _) (ex_stage ex_interleaved)).
  assert (forall l s s', Forall label_named l -> reachable (fun s l s' => label_named l /\ stage_step map_to_list elements s l s') stage_init s ->
    stage_run map_to_list elements s l = Some s' -> reachable (fun s l s' => label_named l /\ stage_step map_to_list elements s l s') stage_init s') as Hrun.
  { induction l as [|x l IH]; intros s s' Hn Hr; cbn; [by intros [= <-]|]. apply Forall_cons in Hn as [Hx Hn].
    destruct (label_exec map_to_list elements s x) as [s1|] eqn:E; [|done]. apply IH; [exact Hn|]. eapply reach_step; [exact Hr|]. by split. }
  apply (Hrun ex_interleaved ex_stage0).
  - repeat constructor.
  - apply reach_init. by eexists _, _.
  - vm_compute. reflexivity.
Defined.
Lemma login_uninterrupted_witness : exists n s' k,
  stage_run map_to_list elements ex_stage0 (LTask 0 (InLogin (ex_login "A" "S1")) ex_env :: replicate n (ex_go 0)) = Some s'
  /\ at_ 0 s' k ∅ ex_service1.
Proof.
  destruct (login_uninterrupted map_to_list elements 0 ex_env ex_stage0 (ex_login "A" "S1")) as (n & s' & k & H1 & H2 & _).
  - split; [reflexivity|]. split; reflexivity.
  - split; [discriminate|reflexivity].
  - exists n, s', k. split; [exact H1|exact H2].
Defined.
