(* ===== verification/ClientConfig.v ===== *)
(** * Client configuration

    [core/src/config/client.rs]: the configuration records, completion,
    validation and loading.  [PartialEq] is the derived one, which compares
    bandwidths as floating-point numbers.  The file system, the TOML parser, the
    environment and the rendering of a float in an error text are parameters. *)

From S2P Require Import Prelude RustStr Float64 Config EnvExpand ServerConfig.

Local Open Scope string_scope.

(** ** Records *)

Record ClientAuthConfig := MkClientAuth { cau_auth_type : string; cau_token : string }.
Record ClientTlsConfig := MkClientTls {
  ctl_enable : bool; ctl_cert_file : string; ctl_key_file : string; ctl_trusted_ca_file : string;
  ctl_server_name : string }.
Record TransportConfig := MkTransport {
  tr_protocol : string; tr_pool_count : Z; tr_tcp_mux : bool; tr_mux_keepalive_secs : Z;
  tr_tcp_keepalive_idle : Z; tr_tcp_keepalive_interval : Z; tr_heartbeat_interval : Z;
  tr_heartbeat_timeout : Z; tr_quic : QuicConfig; tr_ws_path : string; tr_tls : ClientTlsConfig }.
Record PluginConfig := MkPlugin {
  pl_plugin_type : string; pl_service : string; pl_cert_file : string; pl_key_file : string;
  pl_host_header_rewrite : string; pl_username : string; pl_password : string }.
Record TunnelTransportConfig := MkTunnelTransport {
  tt_bandwidth : f64; tt_bandwidth_limit_side : string; tt_proxy_protocol_version : string }.
Record TunnelConfig := MkTunnel {
  tc_name : string; tc_protocol : string; tc_service : string; tc_remote_port : Z;
  tc_domains : list string; tc_locations : list string; tc_basic_auth_user : string;
  tc_basic_auth_password : string; tc_host_header_rewrite : string;
  tc_transport : TunnelTransportConfig; tc_plugin : option PluginConfig }.
Record ClientConfig := MkClientConfig {
  cc_server : string; cc_user : string; cc_agent_id : string; cc_auth : ClientAuthConfig;
  cc_transport : TransportConfig; cc_tunnels : list TunnelConfig; cc_udp_packet_size : Z; cc_log : LogConfig }.

#[global] Instance QuicConfig_eq_dec : EqDecision QuicConfig.
Proof. solve_decision. Defined.
#[global] Instance ClientAuthConfig_eq_dec : EqDecision ClientAuthConfig.
Proof. solve_decision. Defined.
#[global] Instance ClientTlsConfig_eq_dec : EqDecision ClientTlsConfig.
Proof. solve_decision. Defined.
#[global] Instance TransportConfig_eq_dec : EqDecision TransportConfig.
Proof. solve_decision. Defined.
#[global] Instance PluginConfig_eq_dec : EqDecision PluginConfig.
Proof. solve_decision. Defined.

(** ** [PartialEq] *)

Definition tunnel_transport_eq (a b : TunnelTransportConfig) : bool :=
  f_eq (tt_bandwidth a) (tt_bandwidth b)
  && String.eqb (tt_bandwidth_limit_side a) (tt_bandwidth_limit_side b)
  && String.eqb (tt_proxy_protocol_version a) (tt_proxy_protocol_version b).

(** A tunnel without its bandwidth. *)
Definition tunnel_rest (t : TunnelConfig) :=
  (tc_name t, tc_protocol t, tc_service t, tc_remote_port t, tc_domains t, tc_locations t,
   tc_basic_auth_user t, tc_basic_auth_password t, tc_host_header_rewrite t, tc_plugin t).
Definition tunnel_eq (a b : TunnelConfig) : bool :=
  bool_decide (tunnel_rest a = tunnel_rest b) && tunnel_transport_eq (tc_transport a) (tc_transport b).
Fixpoint vec_eq {A} (eq : A -> A -> bool) (l k : list A) : bool :=
  match l, k with
  | [], [] => true
  | a :: l, b :: k => eq a b && vec_eq eq l k
  | _, _ => false
  end.
Definition connection_settings_eq (a b : ClientConfig) : bool :=
  String.eqb (cc_server a) (cc_server b) && String.eqb (cc_user a) (cc_user b)
  && String.eqb (cc_agent_id a) (cc_agent_id b) && bool_decide (cc_auth a = cc_auth b)
  && bool_decide (cc_transport a = cc_transport b) && (cc_udp_packet_size a =? cc_udp_packet_size b)%Z.
Definition client_config_eq (a b : ClientConfig) : bool :=
  connection_settings_eq a b && vec_eq tunnel_eq (cc_tunnels a) (cc_tunnels b)
  && bool_decide (cc_log a = cc_log b).

(** ** Defaults *)

Definition default_bandwidth_limit_side : string := "client".
Definition default_client_protocol : string := "tcp".
Definition default_pool_count : Z := 1.
Definition default_mux_keepalive_secs : Z := 30.
Definition default_heartbeat_interval : Z := -1.
Definition default_heartbeat_timeout : Z := -1.
Definition default_server : string := "127.0.0.1:9527".
Definition client_tls_default : ClientTlsConfig := MkClientTls true "" "" "" "".
Definition client_transport_default : TransportConfig :=
  MkTransport default_client_protocol default_pool_count default_tcp_mux default_mux_keepalive_secs
    default_tcp_keepalive_idle default_tcp_keepalive_interval default_heartbeat_interval
    default_heartbeat_timeout quic_default default_ws_path client_tls_default.
Definition client_tcp_keepalive (t : TransportConfig) : TcpKeepaliveConfig :=
  keepalive_new (tr_tcp_keepalive_idle t) (tr_tcp_keepalive_interval t).

(** ** Tunnels *)

Definition tunnel_err (name msg : string) : string := "tunnel `" ++ name ++ "` " ++ msg.

Definition service_host_port (t : TunnelConfig) : Anyhow (string * Z) :=
  let raw := trim (tc_service t) in
  if is_empty raw then Ok ("127.0.0.1", 0%Z) else
  let? ' (host, port) :=
    map_err (fun e => tunnel_err (tc_name t) ("invalid service: " ++ e)) (parse_host_port raw 0) in
  bail_if (port =? 0)%Z with (tunnel_err (tc_name t) ("service must include a port (got " ++ debug_str raw ++ ")")) ;;
  bail_if (is_empty host) with (tunnel_err (tc_name t) "service has empty host") ;;
  Ok (host, port).

Definition has_plugin (t : TunnelConfig) : bool :=
  match tc_plugin t with Some p => negb (is_empty (trim (pl_plugin_type p))) | None => false end.
Definition requires_local_service (t : TunnelConfig) : bool := negb (has_plugin t).

(** ** Derived settings *)

Definition server_host (c : ClientConfig) : Anyhow string :=
  let? ' (h, _) := parse_host_port (cc_server c) 9527 in Ok h.
Definition server_port (c : ClientConfig) : Anyhow Z :=
  let? ' (_, p) := parse_host_port (cc_server c) 9527 in Ok p.
Definition server_endpoint (c : ClientConfig) : string := trim (cc_server c).
Definition tls_server_name (c : ClientConfig) : string :=
  let sn := trim (ctl_server_name (tr_tls (cc_transport c))) in
  if is_empty sn then match server_host c with Ok h => h | Err _ => "localhost" end else sn.
Definition client_protocol (c : ClientConfig) : Anyhow Protocol :=
  ok_or (protocol_parse (tr_protocol (cc_transport c)))
    ("unsupported transport.protocol " ++ debug_str (tr_protocol (cc_transport c)) ++ ", use tcp|quic|websocket|kcp").
Definition uses_yamux (c : ClientConfig) : bool :=
  tr_tcp_mux (cc_transport c)
  && match client_protocol c with Ok (Tcp | Websocket | Kcp) => true | _ => false end.

(** ** Completion *)

(** QUIC needs no multiplexing of its own and always uses TLS. *)
Definition complete_quic (quic : bool) (t : TransportConfig) : TransportConfig :=
  let tls := tr_tls t in
  if quic then
    MkTransport (tr_protocol t) (tr_pool_count t) false (tr_mux_keepalive_secs t) (tr_tcp_keepalive_idle t)
      (tr_tcp_keepalive_interval t) (tr_heartbeat_interval t) (tr_heartbeat_timeout t) (tr_quic t) (tr_ws_path t)
      (MkClientTls true (ctl_cert_file tls) (ctl_key_file tls) (ctl_trusted_ca_file tls) (ctl_server_name tls))
  else t.
Definition complete_heartbeat (t : TransportConfig) : TransportConfig :=
  if tr_tcp_mux t then t else
  MkTransport (tr_protocol t) (tr_pool_count t) (tr_tcp_mux t) (tr_mux_keepalive_secs t)
    (tr_tcp_keepalive_idle t) (tr_tcp_keepalive_interval t)
    (if (tr_heartbeat_interval t <? 0)%Z then 30 else tr_heartbeat_interval t)
    (if (tr_heartbeat_timeout t <? 0)%Z then 90 else tr_heartbeat_timeout t)
    (tr_quic t) (tr_ws_path t) (tr_tls t).
Definition complete_names (host : Anyhow string) (t : TransportConfig) : TransportConfig :=
  let tls := tr_tls t in
  MkTransport (tr_protocol t) (tr_pool_count t) (tr_tcp_mux t) (tr_mux_keepalive_secs t)
    (tr_tcp_keepalive_idle t) (tr_tcp_keepalive_interval t) (tr_heartbeat_interval t) (tr_heartbeat_timeout t)
    (tr_quic t) (normalize_ws_path (tr_ws_path t))
    (MkClientTls (ctl_enable tls) (ctl_cert_file tls) (ctl_key_file tls) (ctl_trusted_ca_file tls)
       (if is_empty (trim (ctl_server_name tls))
        then match host with Ok h => h | Err _ => ctl_server_name tls end
        else ctl_server_name tls)).

Definition client_complete (c : ClientConfig) : ClientConfig :=
  let quic := match client_protocol c with Ok Quic => true | _ => false end in
  MkClientConfig (cc_server c) (cc_user c) (cc_agent_id c)
    (MkClientAuth (if is_empty (trim (cau_auth_type (cc_auth c))) then default_auth_type
                   else cau_auth_type (cc_auth c)) (cau_token (cc_auth c)))
    (complete_names (server_host c) (complete_heartbeat (complete_quic quic (cc_transport c))))
    (cc_tunnels c)
    (if (cc_udp_packet_size c =? 0)%Z then default_udp_packet_size else cc_udp_packet_size c)
    (log_complete (cc_log c)).

(** ** Validation *)

Definition validate_socks5_plugin_fields (name : string) (p : PluginConfig) : Anyhow unit :=
  bail_if (is_empty (trim (pl_username p)) || is_empty (trim (pl_password p)))
    with (tunnel_err name "socks5 requires username and password") ;; Ok tt.

Definition validate_tcp_tunnel_plugin (name : string) (p : PluginConfig) : Anyhow unit :=
  let pt := to_lower (trim (pl_plugin_type p)) in
  if is_empty pt then Ok tt
  else if String.eqb pt "socks5" then validate_socks5_plugin_fields name p
  else Err (tunnel_err name ("unsupported plugin.type " ++ debug_str pt)).

Definition validate_https_tunnel_plugin (name : string) (p : PluginConfig) : Anyhow unit :=
  let pt := to_lower (trim (pl_plugin_type p)) in
  if is_empty pt then Ok tt
  else if String.eqb pt "tls-term" then
    bail_if (is_empty (trim (pl_service p))) with (tunnel_err name "plugin.service is required for tls-term") ;;
    let? ' (h, port) := map_err (fun e => tunnel_err name ("invalid plugin.service: " ++ e))
                          (parse_host_port (pl_service p) 0) in
    bail_if (is_empty h || (port =? 0)%Z) with (tunnel_err name "plugin.service must be host:port") ;; Ok tt
  else Err (tunnel_err name ("unsupported plugin.type " ++ debug_str pt)).

Definition is_port_protocol (proto : string) : bool := String.eqb proto "tcp" || String.eqb proto "udp".
Definition is_web_protocol (proto : string) : bool := String.eqb proto "http" || String.eqb proto "https".

Section Validate.
Context (show_f64 : f64 -> string).

Definition validate_tunnel_config (t : TunnelConfig) : Anyhow unit :=
  let proto := to_lower (trim (tc_protocol t)) in
  bail_if (negb (is_port_protocol proto || is_web_protocol proto))
    with (tunnel_err (tc_name t) ("unsupported protocol " ++ debug_str (tc_protocol t))) ;;
  let bw := tt_bandwidth (tc_transport t) in
  bail_if (negb (f_is_finite bw) || f_lt bw (f_of_Z 0))
    with (tunnel_err (tc_name t) ("invalid bandwidth " ++ show_f64 bw)) ;;
  let side := to_lower (trim (tt_bandwidth_limit_side (tc_transport t))) in
  bail_if (negb (is_empty side) && negb (String.eqb side "client") && negb (String.eqb side "server"))
    with (tunnel_err (tc_name t) ("invalid bandwidthLimitSide " ++ debug_str (tt_bandwidth_limit_side (tc_transport t)))) ;;
  if is_port_protocol proto then
    bail_if (tc_remote_port t =? 0)%Z with (tunnel_err (tc_name t) ("remotePort is required for " ++ proto)) ;;
    let? _ := if requires_local_service t then let? _ := service_host_port t in Ok tt else Ok tt in
    match tc_plugin t with Some p => validate_tcp_tunnel_plugin (tc_name t) p | None => Ok tt end
  else
    bail_if (match tc_domains t with [] => true | _ => false end)
      with (tunnel_err (tc_name t) ("domains is required for " ++ proto)) ;;
    let? _ := if requires_local_service t then let? _ := service_host_port t in Ok tt else Ok tt in
    match tc_plugin t with Some p => validate_https_tunnel_plugin (tc_name t) p | None => Ok tt end.

Fixpoint validate_tunnels (seen : gset string) (l : list TunnelConfig) : Anyhow unit :=
  match l with
  | [] => Ok tt
  | t :: l =>
      bail_if (is_empty (trim (tc_name t))) with "tunnel name is required" ;;
      bail_if (bool_decide (tc_name t ∈ seen)) with ("duplicate tunnel name `" ++ tc_name t ++ "`") ;;
      let? _ := validate_tunnel_config t in
      validate_tunnels ({[tc_name t]} ∪ seen) l
  end.

Definition client_validate (c : ClientConfig) : Anyhow unit :=
  let tr := cc_transport c in
  let? _ := log_validate (cc_log c) in
  bail_if (is_empty (trim (cc_server c))) with "server is required (host:port)" ;;
  let? ' (host, port) := map_err (fun e => "invalid server " ++ debug_str (cc_server c) ++ ": " ++ e)
                           (parse_host_port (cc_server c) 9527) in
  bail_if (is_empty host) with "server host is empty" ;;
  bail_if (port =? 0)%Z with "server port must be > 0" ;;
  let? _ := client_protocol c in
  bail_if (tr_pool_count tr <? 1)%Z
    with ("transport.poolCount must be >= 1, got " ++ show_Z (tr_pool_count tr)) ;;
  bail_if ((cc_udp_packet_size c =? 0)%Z || (65535 <? cc_udp_packet_size c)%Z)
    with ("udpPacketSize out of range: " ++ show_Z (cc_udp_packet_size c)) ;;
  bail_if ((0 <? tr_heartbeat_timeout tr)%Z && (0 <? tr_heartbeat_interval tr)%Z
           && (tr_heartbeat_timeout tr <? tr_heartbeat_interval tr)%Z)
    with ("heartbeatTimeout (" ++ show_Z (tr_heartbeat_timeout tr) ++ ") must be >= heartbeatInterval ("
          ++ show_Z (tr_heartbeat_interval tr) ++ ")") ;;
  validate_tunnels ∅ (cc_tunnels c).
End Validate.

(** ** Loading *)

Section Load.
Context (show_f64 : f64 -> string) (read_file : string -> option string)
  (toml_from_str : string -> option ClientConfig) (env : string -> EnvVar)
  (canonicalize : string -> option string) (parent : string -> string).

Definition client_resolve_paths (base : string) (c : ClientConfig) : ClientConfig :=
  let r := resolve_maybe_relative canonicalize base in
  let tr := cc_transport c in
  let tls := tr_tls tr in
  let plugin p := MkPlugin (pl_plugin_type p) (pl_service p) (r (pl_cert_file p)) (r (pl_key_file p))
                    (pl_host_header_rewrite p) (pl_username p) (pl_password p) in
  let tunnel t := MkTunnel (tc_name t) (tc_protocol t) (tc_service t) (tc_remote_port t) (tc_domains t)
                    (tc_locations t) (tc_basic_auth_user t) (tc_basic_auth_password t)
                    (tc_host_header_rewrite t) (tc_transport t) (plugin <$> tc_plugin t) in
  MkClientConfig (cc_server c) (cc_user c) (cc_agent_id c) (cc_auth c)
    (MkTransport (tr_protocol tr) (tr_pool_count tr) (tr_tcp_mux tr) (tr_mux_keepalive_secs tr)
       (tr_tcp_keepalive_idle tr) (tr_tcp_keepalive_interval tr) (tr_heartbeat_interval tr)
       (tr_heartbeat_timeout tr) (tr_quic tr) (tr_ws_path tr)
       (MkClientTls (ctl_enable tls) (r (ctl_cert_file tls)) (r (ctl_key_file tls))
          (r (ctl_trusted_ca_file tls)) (ctl_server_name tls)))
    (map tunnel (cc_tunnels c)) (cc_udp_packet_size c) (cc_log c).

Definition prepare_runtime (config_path : string) (c : ClientConfig) : ClientConfig :=
  client_complete (client_resolve_paths (parent config_path) c).

Inductive LoadMode := Runtime | Edit.

(** [None] only if the expansion ran out of fuel, which it never does. *)
Definition client_load_with (mode : LoadMode) (path : string) : option (Anyhow ClientConfig) :=
  match read_toml_file read_file path with
  | Err e => Some (Err e)
  | Ok file =>
      let finish text :=
        let? cfg := ok_or (toml_from_str text) ("failed to parse config file '" ++ path ++ "'") in
        let cfg := match mode with Runtime => client_resolve_paths (parent path) cfg | Edit => cfg end in
        let cfg := client_complete cfg in
        let? _ := client_validate show_f64 cfg in Ok cfg in
      match mode with
      | Runtime =>
          match expand_env_placeholders env file with
          | None => None
          | Some expanded => Some (let? text := expanded in finish text)
          end
      | Edit => Some (let? _ := reject_env_placeholders file in finish file)
      end
  end.
End Load.

(** ** Lemmas *)

Lemma tunnel_transport_eq_sym a b : tunnel_transport_eq a b = tunnel_transport_eq b a.
Proof.
  unfold tunnel_transport_eq. rewrite (String.eqb_sym (tt_bandwidth_limit_side a)),
    (String.eqb_sym (tt_proxy_protocol_version a)). by rewrite f_eq_sym.
Qed.
Lemma tunnel_eq_refl t : f_is_nan (tt_bandwidth (tc_transport t)) = false -> tunnel_eq t t = true.
Proof.
  intros H. unfold tunnel_eq, tunnel_transport_eq. rewrite bool_decide_eq_true_2 by done.
  by rewrite f_eq_refl, !String.eqb_refl by done.
Qed.
Lemma tunnel_eq_sym a b : tunnel_eq a b = tunnel_eq b a.
Proof.
  unfold tunnel_eq. rewrite tunnel_transport_eq_sym. f_equal. by apply bool_decide_ext.
Qed.
Lemma tunnel_eq_trans a b c : tunnel_eq a b = true -> tunnel_eq b c = true -> tunnel_eq a c = true.
Proof.
  unfold tunnel_eq, tunnel_transport_eq. rewrite !andb_true_iff, !bool_decide_eq_true, !String.eqb_eq.
  intros (Ha & (Hf & Hs) & Hv) (Ha' & (Hf' & Hs') & Hv'). split; [congruence|]. split; [|congruence].
  split; [by eapply f_eq_trans|congruence].
Qed.
Lemma tunnel_eq_name a b : tunnel_eq a b = true -> tc_name a = tc_name b.
Proof. unfold tunnel_eq, tunnel_rest. intros H. zify_bools. congruence. Qed.

(** What completion guarantees of the transport settings. *)
Definition transport_complete (c : ClientConfig) : Prop :=
  let t := cc_transport c in
  (client_protocol c = Ok Quic -> tr_tcp_mux t = false /\ ctl_enable (tr_tls t) = true)
  /\ (tr_tcp_mux t = false -> (0 <= tr_heartbeat_interval t)%Z /\ (0 <= tr_heartbeat_timeout t)%Z)
  /\ normalize_ws_path (tr_ws_path t) = tr_ws_path t.

Lemma client_complete_protocol c : client_protocol (client_complete c) = client_protocol c.
Proof.
  unfold client_protocol. cbn [client_complete cc_transport complete_names tr_protocol].
  unfold complete_heartbeat, complete_quic. by do 2 case_match.
Qed.
Lemma client_complete_transport c : transport_complete (client_complete c).
Proof.
  unfold transport_complete. rewrite client_complete_protocol. unfold client_complete, complete_heartbeat, complete_quic.
  cbn -[normalize_ws_path]. split; [|split].
  - intros ->. done.
  - destruct (match client_protocol c with Ok Quic => true | _ => false end); cbn -[normalize_ws_path].
    2: destruct (tr_tcp_mux (cc_transport c)) eqn:E; cbn -[normalize_ws_path]; [by rewrite E|].
    all: intros _; split; destruct (Z.ltb_spec (tr_heartbeat_interval (cc_transport c)) 0);
      destruct (Z.ltb_spec (tr_heartbeat_timeout (cc_transport c)) 0); lia.
  - apply normalize_ws_path_idemp.
Qed.

Lemma complete_names_idemp h t : complete_names h (complete_names h t) = complete_names h t.
Proof.
  unfold complete_names. cbn -[normalize_ws_path is_empty trim]. rewrite normalize_ws_path_idemp. f_equal. f_equal.
  destruct (is_empty (trim (ctl_server_name (tr_tls t)))) eqn:E; [|by rewrite E].
  destruct h; [by case_match|]. by rewrite E.
Qed.
Lemma complete_heartbeat_id t :
  (tr_tcp_mux t = false -> (0 <= tr_heartbeat_interval t)%Z /\ (0 <= tr_heartbeat_timeout t)%Z) ->
  complete_heartbeat t = t.
Proof.
  intros H. unfold complete_heartbeat. destruct t as [a b [] d e f g h i j k]; simpl in *; [done|].
  destruct (H eq_refl). destruct (Z.ltb_spec g 0), (Z.ltb_spec h 0); (lia || done).
Qed.
Lemma complete_quic_id q t :
  (q = true -> tr_tcp_mux t = false /\ ctl_enable (tr_tls t) = true) -> complete_quic q t = t.
Proof.
  intros H. unfold complete_quic. destruct q; [|done]. destruct (H eq_refl) as [H1 H2].
  destruct t as [? ? ? ? ? ? ? ? ? ? []]; simpl in *; congruence.
Qed.

Lemma client_complete_idemp c : client_complete (client_complete c) = client_complete c.
Proof.
  pose proof (client_complete_transport c) as (Hq & Hh & _). pose proof (client_complete_protocol c) as Hp.
  set (d := client_complete c) in *.
  assert (complete_names (server_host d) (cc_transport d) = cc_transport d) as Hn by apply complete_names_idemp.
  unfold client_complete at 1. rewrite complete_quic_id.
  2: { intros E. apply Hq. destruct (client_protocol d) as [[]|]; done. }
  rewrite (complete_heartbeat_id _ Hh), Hn. unfold d, client_complete.
  cbn -[is_empty trim log_complete complete_names complete_heartbeat complete_quic Z.eqb].
  rewrite log_complete_idemp. f_equal.
  - by destruct (is_empty (trim (cau_auth_type (cc_auth c)))) eqn:E; [|rewrite E].
  - destruct (Z.eqb_spec (cc_udp_packet_size c) 0) as [E|E]; [done|]. by apply Z.eqb_neq in E as ->.
Qed.

(** What validation guarantees of a tunnel. *)
Definition tunnel_ok (t : TunnelConfig) : Prop :=
  let proto := to_lower (trim (tc_protocol t)) in
  trim (tc_name t) <> ""
  /\ f_is_finite (tt_bandwidth (tc_transport t)) = true /\ f_lt (tt_bandwidth (tc_transport t)) (f_of_Z 0) = false
  /\ to_lower (trim (tt_bandwidth_limit_side (tc_transport t))) ∈ [""; "client"; "server"]
  /\ (proto = "tcp" \/ proto = "udp" ->
      tc_remote_port t <> 0%Z /\ (requires_local_service t = true -> is_ok (service_host_port t) = true)
      /\ forall p, tc_plugin t = Some p -> has_plugin t = true ->
           to_lower (trim (pl_plugin_type p)) = "socks5" /\ trim (pl_username p) <> "" /\ trim (pl_password p) <> "")
  /\ (proto = "http" \/ proto = "https" ->
      tc_domains t <> [] /\ (requires_local_service t = true -> is_ok (service_host_port t) = true)
      /\ forall p, tc_plugin t = Some p -> has_plugin t = true ->
           to_lower (trim (pl_plugin_type p)) = "tls-term" /\ trim (pl_service p) <> ""
           /\ exists h port, parse_host_port (pl_service p) 0 = Ok (h, port) /\ h <> "" /\ port <> 0%Z)
  /\ proto ∈ ["tcp"; "udp"; "http"; "https"].

Lemma plugin_type_nonempty p : is_empty (trim (pl_plugin_type p)) = is_empty (to_lower (trim (pl_plugin_type p))).
Proof. by destruct (trim (pl_plugin_type p)). Qed.

Lemma validate_tcp_plugin_ok name t p :
  validate_tcp_tunnel_plugin name p = Ok tt -> tc_plugin t = Some p -> has_plugin t = true ->
  to_lower (trim (pl_plugin_type p)) = "socks5" /\ trim (pl_username p) <> "" /\ trim (pl_password p) <> "".
Proof.
  unfold validate_tcp_tunnel_plugin, has_plugin, validate_socks5_plugin_fields. intros H ->.
  rewrite plugin_type_nonempty. destruct (is_empty (to_lower _)); [done|].
  destruct (String.eqb_spec (to_lower (trim (pl_plugin_type p))) "socks5"); [|done].
  destruct (is_empty (trim (pl_username p))) eqn:E1; [done|].
  destruct (is_empty (trim (pl_password p))) eqn:E2; [done|]. apply is_empty_false in E1, E2. done.
Qed.
Lemma validate_https_plugin_ok name t p :
  validate_https_tunnel_plugin name p = Ok tt -> tc_plugin t = Some p -> has_plugin t = true ->
  to_lower (trim (pl_plugin_type p)) = "tls-term" /\ trim (pl_service p) <> ""
  /\ exists h port, parse_host_port (pl_service p) 0 = Ok (h, port) /\ h <> "" /\ port <> 0%Z.
Proof.
  unfold validate_https_tunnel_plugin, has_plugin. intros H ->.
  rewrite plugin_type_nonempty. destruct (is_empty (to_lower _)); [done|].
  destruct (String.eqb_spec (to_lower (trim (pl_plugin_type p))) "tls-term"); [|done].
  destruct (is_empty (trim (pl_service p))) eqn:E1; [done|]. apply is_empty_false in E1.
  destruct (parse_host_port (pl_service p) 0) as [[h port]|]; [|done]. cbn [map_err] in H.
  destruct (is_empty h) eqn:E2; [done|]. destruct (Z.eqb_spec port 0); [done|]. apply is_empty_false in E2. eauto 10.
Qed.

Lemma side_ok side :
  negb (is_empty side) && negb (String.eqb side "client") && negb (String.eqb side "server") = false ->
  side ∈ [""; "client"; "server"].
Proof.
  rewrite !elem_of_cons. destruct (is_empty side) eqn:E; [apply is_empty_true in E; auto|].
  destruct (String.eqb_spec side "client"); [auto|]. destruct (String.eqb_spec side "server"); [auto|done].
Qed.

Lemma validate_tunnel_ok show t :
  validate_tunnel_config show t = Ok tt -> trim (tc_name t) <> "" -> tunnel_ok t.
Proof.
  unfold validate_tunnel_config, tunnel_ok. set (proto := to_lower (trim (tc_protocol t))). intros H Hn.
  destruct (is_port_protocol proto || is_web_protocol proto) eqn:Ep; [|done]. cbn [negb] in H.
  destruct (f_is_finite _); [|done]. cbn [negb orb] in H. destruct (f_lt _ _); [done|].
  destruct (negb (is_empty _) && _ && _) eqn:Eside in H; [done|]. apply side_ok in Eside.
  assert (proto ∈ ["tcp"; "udp"; "http"; "https"]) as Hin.
  { unfold is_port_protocol, is_web_protocol in Ep. rewrite !elem_of_cons. rewrite !orb_true_iff, !String.eqb_eq in Ep. tauto. }
  split; [done|]. split; [done|]. split; [done|]. split; [done|].
  assert (is_ok (service_host_port t) = true \/ requires_local_service t = false \/
          (if requires_local_service t then let? _ := service_host_port t in Ok tt else Ok tt : Anyhow unit) <> Ok tt) as Hs.
  { destruct (requires_local_service t); [|auto]. destruct (service_host_port t); [left; done|by right; right]. }
  destruct (is_port_protocol proto) eqn:E.
  - assert (~ (proto = "http" \/ proto = "https")) as Hnw by (intros [-> | ->]; done).
    split; [|tauto]. intros _. destruct (Z.eqb_spec (tc_remote_port t) 0); [done|].
    destruct (if requires_local_service t then _ else _ : Anyhow unit) as [[]|] eqn:Es in H, Hs; [|done]. split; [done|]. split.
    { intros Hr. rewrite Hr in Hs. destruct Hs as [?|[?|?]]; done. }
    intros p Hp Hh. rewrite Hp in H. by eapply validate_tcp_plugin_ok.
  - assert (~ (proto = "tcp" \/ proto = "udp")) as Hnw by (intros [E' | E']; by rewrite E' in E).
    split; [tauto|]. split; [|done]. intros _. destruct (tc_domains t) eqn:Ed; [done|]. cbn [app] in H.
    destruct (if requires_local_service t then _ else _ : Anyhow unit) as [[]|] eqn:Es in H, Hs; [|done]. split; [done|]. split.
    { intros Hr. rewrite Hr in Hs. destruct Hs as [?|[?|?]]; done. }
    intros p Hp Hh. rewrite Hp in H. by eapply validate_https_plugin_ok.
Qed.

Lemma validate_tunnels_ok show l : forall seen,
  validate_tunnels show seen l = Ok tt ->
  Forall tunnel_ok l /\ NoDup (map tc_name l) /\ Forall (fun t => tc_name t ∉ seen) l.
Proof.
  induction l as [|t l IH]; intros seen; simpl; [repeat constructor|].
  destruct (is_empty (trim (tc_name t))) eqn:En; [done|]. apply is_empty_false in En.
  destruct (bool_decide (tc_name t ∈ seen)) eqn:Es; [done|]. apply bool_decide_eq_false in Es.
  destruct (validate_tunnel_config show t) as [[]|] eqn:Et; [|done]. intros H.
  destruct (IH _ H) as (Hok & Hnd & Hseen). split; [|split].
  - constructor; [by eapply validate_tunnel_ok|done].
  - constructor; [|done]. intros Hin. apply list_elem_of_fmap in Hin as (t' & E & Hin').
    rewrite Forall_forall in Hseen. apply (Hseen t' Hin'). rewrite <- E. set_solver.
  - constructor; [done|]. eapply Forall_impl; [exact Hseen|]. simpl. set_solver.
Qed.

(** A configuration the client may run with. *)
Definition client_config_ok (c : ClientConfig) : Prop :=
  let t := cc_transport c in
  is_valid_level (lc_level (cc_log c)) = true
  /\ (exists h p, parse_host_port (cc_server c) 9527 = Ok (h, p) /\ h <> "" /\ (0 < p <= u16_max)%Z)
  /\ is_ok (client_protocol c) = true
  /\ (1 <= tr_pool_count t)%Z /\ (0 < cc_udp_packet_size c <= 65535)%Z
  /\ ((0 < tr_heartbeat_timeout t)%Z -> (0 < tr_heartbeat_interval t)%Z -> (tr_heartbeat_interval t <= tr_heartbeat_timeout t)%Z)
  /\ Forall tunnel_ok (cc_tunnels c) /\ NoDup (map tc_name (cc_tunnels c)).

Lemma client_validate_ok show c :
  (0 <= cc_udp_packet_size c)%Z -> client_validate show c = Ok tt -> client_config_ok c.
Proof.
  unfold client_validate, client_config_ok, log_validate. intros Hu H.
  destruct (is_valid_level (lc_level (cc_log c))); [|done]. cbn [negb] in H.
  destruct (is_empty (trim (cc_server c))); [done|].
  destruct (parse_host_port (cc_server c) 9527) as [[h p]|] eqn:Eh; [|done]. cbn [map_err] in H.
  destruct (is_empty h) eqn:Ehe; [done|]. apply is_empty_false in Ehe.
  apply parse_host_port_inv in Eh as [_ Hp]; [|unfold u16_max; lia].
  destruct (p =? 0)%Z; [done|].
  destruct (client_protocol c) as [pr|]; [|done].
  destruct (Z.ltb_spec (tr_pool_count (cc_transport c)) 1); [done|].
  destruct (Z.eqb_spec (cc_udp_packet_size c) 0); [done|]. cbn [orb] in H.
  destruct (Z.ltb_spec 65535 (cc_udp_packet_size c)); [done|].
  destruct (_ && _ && _) eqn:Ehb in H; [done|].
  apply validate_tunnels_ok in H as (Hok & Hnd & _).
  split; [done|]. split; [eauto|]. split; [done|]. split; [done|]. split; [lia|]. split; [|done].
  intros Ht Hi. apply Z.ltb_lt in Ht, Hi. rewrite Ht, Hi in Ehb. cbn [andb] in Ehb. by apply Z.ltb_ge in Ehb.
Qed.

(** ** Properties *)


Section Resolve.
Context (canonicalize : string -> option string).
(** Every relative path names a file that exists: it resolves to a canonical path. *)
Context (base : string)
  (Hcanon : forall p, exists q, canonicalize (path_join base p) = Some q /\ path_is_absolute q = true /\ trim q = q).

Lemma resolve_idemp p :
  resolve_maybe_relative canonicalize base (resolve_maybe_relative canonicalize base p)
  = resolve_maybe_relative canonicalize base p.
Proof using Hcanon.
  unfold resolve_maybe_relative at 2 3. destruct (is_empty (trim p)) eqn:E; [done|].
  destruct (path_is_absolute (trim p)) eqn:Ea.
  - unfold resolve_maybe_relative. by rewrite trim_idemp, E, Ea.
  - destruct (Hcanon (trim p)) as (q & -> & Hq & Ht). simpl. unfold resolve_maybe_relative. rewrite Ht, Hq.
    by destruct (is_empty q) eqn:Eq; [apply is_empty_true in Eq; subst|].
Qed.
Lemma client_resolve_paths_idemp c :
  client_resolve_paths canonicalize base (client_resolve_paths canonicalize base c)
  = client_resolve_paths canonicalize base c.
Proof using Hcanon.
  unfold client_resolve_paths. cbn -[resolve_maybe_relative]. rewrite !resolve_idemp. f_equal.
  rewrite map_map. apply map_ext. intros t. cbn -[resolve_maybe_relative]. destruct (tc_plugin t) as [p|]; [|done].
  cbn -[resolve_maybe_relative]. by rewrite !resolve_idemp.
Qed.
Lemma client_resolve_complete c :
  client_resolve_paths canonicalize base (client_complete c)
  = client_complete (client_resolve_paths canonicalize base c).
Proof using.
  unfold client_resolve_paths, client_complete, complete_heartbeat, complete_quic, complete_names, server_host.
  change (client_protocol (MkClientConfig _ _ _ _ _ _ _ _)) with (client_protocol c).
  destruct (match client_protocol c with Ok Quic => true | _ => false end); [done|].
  by destruct c as [? ? ? ? [? ? [] ? ? ? ? ? ? ? ?] ? ? ?].
Qed.
Lemma prepare_runtime_idemp parent path c :
  parent path = base ->
  prepare_runtime canonicalize parent path (prepare_runtime canonicalize parent path c)
  = prepare_runtime canonicalize parent path c.
Proof using Hcanon.
  unfold prepare_runtime. intros ->. by rewrite client_resolve_complete, client_resolve_paths_idemp, client_complete_idemp.
Qed.
End Resolve.

(** *** Witnesses *)

Definition test_tunnel (name proto : string) (port : Z) : TunnelConfig :=
  MkTunnel name proto "127.0.0.1:80" port [] [] "" "" "" (MkTunnelTransport (f_of_Z 0) "client" "") None.
Definition test_client_config : ClientConfig :=
  MkClientConfig "example.org" "u" "" (MkClientAuth "" "tok") client_transport_default
    [test_tunnel "web" "tcp" 8080] 0 (MkLogConfig "" "" 3).

