(* ===== verification/Reload.v ===== *)
(** * Planning a reload

    [client/src/reload/]: what has to change for a running client to follow a
    new configuration, and what is reported of it.  The order in which a
    [HashMap] yields its entries is a parameter; the lists are sorted, so it
    does not matter. *)

From stdpp Require Import sorting.
From S2P Require Import Prelude RustStr Float64 Config ServerConfig ClientConfig.

Local Open Scope string_scope.

(** ** [outcome.rs] *)

Inductive ReloadLevel := LvNoop | LvTunnelsOnly | LvReconnectControl.
#[global] Instance ReloadLevel_eq_dec : EqDecision ReloadLevel.
Proof. solve_decision. Defined.

Record ReloadOutcome := MkOutcome {
  ro_level : ReloadLevel; ro_added : list string; ro_removed : list string; ro_updated : list string;
  ro_failed : list (string * string); ro_connection_settings_changed : bool }.
Definition outcome_default : ReloadOutcome := MkOutcome LvNoop [] [] [] [] false.
Definition level_label (l : ReloadLevel) : string :=
  match l with LvNoop => "noop" | LvTunnelsOnly => "tunnels" | LvReconnectControl => "reconnect" end.
Definition succeeded (o : ReloadOutcome) : bool := match ro_failed o with [] => true | _ => false end.
Definition set_level (o : ReloadOutcome) (l : ReloadLevel) : ReloadOutcome :=
  MkOutcome l (ro_added o) (ro_removed o) (ro_updated o) (ro_failed o) (ro_connection_settings_changed o).

(** ** [plan.rs] *)

Record TunnelChanges := MkChanges {
  ch_added : list TunnelConfig; ch_removed : list string; ch_updated : list TunnelConfig }.
Definition changes_empty (ch : TunnelChanges) : bool :=
  match ch with MkChanges [] [] [] => true | _ => false end.

Inductive ReloadPlan :=
| Noop
| Apply (changes : TunnelChanges) (connection_settings_changed : bool).

Abbreviation TunnelMap := (gmap string TunnelConfig).

(** Collecting into a [HashMap]: a later entry replaces an earlier one. *)
Definition add_tunnel (m : TunnelMap) (t : TunnelConfig) : TunnelMap := <[tc_name t := t]> m.
Definition tunnel_map (l : list TunnelConfig) : TunnelMap := fold_left add_tunnel l ∅.

Definition name_le (a b : TunnelConfig) : Prop := String.le (tc_name a) (tc_name b).
#[global] Instance name_le_dec a b : Decision (name_le a b).
Proof. unfold name_le. apply _. Defined.

Section Plan.
Context (iter : TunnelMap -> list (string * TunnelConfig)).

Definition diff_tunnels (old new : list TunnelConfig) : TunnelChanges :=
  let old_map := tunnel_map old in
  let new_map := tunnel_map new in
  let added := omap (fun '(name, cfg) => match old_map !! name with None => Some cfg | Some _ => None end)
                 (iter new_map) in
  let updated := omap (fun '(name, cfg) =>
                   match old_map !! name with
                   | Some old_cfg => if negb (tunnel_eq old_cfg cfg) then Some cfg else None
                   | None => None
                   end) (iter new_map) in
  let removed := omap (fun '(name, _) => match new_map !! name with None => Some name | Some _ => None end)
                   (iter old_map) in
  MkChanges (merge_sort name_le added) (merge_sort String.le removed) (merge_sort name_le updated).

Definition plan_reload (old new : ClientConfig) : ReloadPlan :=
  if client_config_eq old new then Noop else
  let changes := diff_tunnels (cc_tunnels old) (cc_tunnels new) in
  let connection_settings_changed := negb (connection_settings_eq old new) in
  if changes_empty changes && negb connection_settings_changed then Noop
  else Apply changes connection_settings_changed.
End Plan.

Definition outcome_level (plan : ReloadPlan) : ReloadLevel :=
  match plan with
  | Noop => LvNoop
  | Apply _ true => LvReconnectControl
  | Apply _ false => LvTunnelsOnly
  end.
Definition plan_reconnects (plan : ReloadPlan) : bool :=
  match plan with Apply _ true => true | _ => false end.
Definition empty_outcome (plan : ReloadPlan) : ReloadOutcome :=
  MkOutcome (outcome_level plan) [] [] [] [] (plan_reconnects plan).
Definition outcome_from_plan (plan : ReloadPlan) (ch : TunnelChanges) : ReloadOutcome :=
  let o := empty_outcome plan in
  let o := if plan_reconnects plan then set_level o LvReconnectControl else o in
  MkOutcome (ro_level o) (map tc_name (ch_added ch)) (ch_removed ch) (map tc_name (ch_updated ch))
    (ro_failed o) (ro_connection_settings_changed o).

(** ** Lemmas *)

#[global] Instance name_le_trans : Transitive name_le.
Proof. intros a b c Hab Hbc. unfold name_le in *. by etrans. Qed.
#[global] Instance name_le_total : Total name_le.
Proof. intros a b. unfold name_le. destruct (total String.le (tc_name a) (tc_name b)); auto. Qed.

(** Collecting tunnels of distinct names on top of a map. *)
Lemma fold_add_tunnel_lookup l : forall m n t,
  NoDup (map tc_name l) ->
  fold_left add_tunnel l m !! n = Some t <->
  (t ∈ l /\ tc_name t = n) \/ ((n ∉ map tc_name l) /\ m !! n = Some t).
Proof.
  induction l as [|u l IH]; intros m n t Hnd; simpl; [set_solver|].
  apply NoDup_cons in Hnd as [Hu Hnd]. rewrite IH by done. unfold add_tunnel.
  rewrite elem_of_cons, not_elem_of_cons, lookup_insert_Some. split.
  - intros [[? ?]|(Hn & [[<- ->]|[Hne Hm]])]; [by auto..|right; auto].
  - intros [[[-> | Hin] Ht]|((Hne & Hn) & Hm)]; [|auto|right; auto].
    subst n. right. auto.
Qed.
Lemma tunnel_map_lookup l n t :
  NoDup (map tc_name l) -> tunnel_map l !! n = Some t <-> t ∈ l /\ tc_name t = n.
Proof. intros. unfold tunnel_map. rewrite fold_add_tunnel_lookup by done. rewrite lookup_empty. naive_solver. Qed.

(** In any map built from tunnels each is filed under its name. *)
Definition keyed (m : TunnelMap) : Prop := forall n t, m !! n = Some t -> tc_name t = n.
Lemma tunnel_map_keyed l : keyed (tunnel_map l).
Proof.
  unfold tunnel_map. assert (keyed ∅) as H by (intros n t; by rewrite lookup_empty).
  revert H. generalize (∅ : TunnelMap). induction l as [|u l IH]; intros m Hm; simpl; [done|].
  apply IH. intros n t. unfold add_tunnel. rewrite lookup_insert_Some. intros [[<- <-]|[_ ?]]; auto.
Qed.

(** Applying the changes to the tunnels that run. *)
Definition apply_changes (m : TunnelMap) (ch : TunnelChanges) : TunnelMap :=
  fold_left add_tunnel (ch_updated ch ++ ch_added ch)
    (fold_left (fun m n => delete n m) (ch_removed ch ++ map tc_name (ch_updated ch)) m).

(** Equal up to what [PartialEq] distinguishes. *)
Definition tunnel_same (a b : TunnelConfig) : Prop := a = b \/ tunnel_eq a b = true.
Definition tunnels_same (m k : TunnelMap) : Prop := forall n, option_Forall2 tunnel_same (m !! n) (k !! n).

#[global] Instance tunnel_same_equiv : Equivalence tunnel_same.
Proof.
  split; unfold tunnel_same.
  - by left.
  - intros a b [->|H]; [by left|right]. by rewrite tunnel_eq_sym.
  - intros a b c [->|H] [->|H']; auto. right. by eapply tunnel_eq_trans.
Qed.
#[global] Instance tunnels_same_equiv : Equivalence tunnels_same.
Proof.
  split; unfold tunnels_same.
  - intros m n. reflexivity.
  - intros m k H n. symmetry. apply H.
  - intros m k l H H' n. etrans; [apply H|apply H'].
Qed.
#[global] Instance add_tunnel_proper : Proper (tunnels_same ==> eq ==> tunnels_same) add_tunnel.
Proof.
  intros m k H t _ <- n. unfold add_tunnel. destruct (decide (tc_name t = n)) as [->|].
  - rewrite !lookup_insert_eq. constructor. reflexivity.
  - by rewrite !lookup_insert_ne.
Qed.
#[global] Instance delete_tunnel_proper n : Proper (tunnels_same ==> tunnels_same) (delete n).
Proof.
  intros m k H i. destruct (decide (n = i)) as [->|]; [by rewrite !lookup_delete_eq; constructor|].
  by rewrite !lookup_delete_ne.
Qed.
(** Applying changes to the same tunnels gives the same tunnels. *)
#[global] Instance apply_changes_proper : Proper (tunnels_same ==> eq ==> tunnels_same) apply_changes.
Proof.
  intros m k H ch _ <-. unfold apply_changes.
  assert (forall l a b, tunnels_same a b -> tunnels_same (fold_left add_tunnel l a) (fold_left add_tunnel l b)) as Ha.
  { induction l as [|t l IH]; intros a b Hab; [done|]. cbn. apply IH. by rewrite Hab. }
  apply Ha. revert m k H. generalize (ch_removed ch ++ map tc_name (ch_updated ch))%list as l.
  induction l as [|n l IH]; intros m k H; [done|]. cbn. apply IH. by rewrite H.
Qed.

Lemma fold_delete_tunnel_lookup (l : list string) (m : TunnelMap) n t :
  fold_left (fun m n => delete n m) l m !! n = Some t <-> (n ∉ l) /\ m !! n = Some t.
Proof.
  revert m. induction l as [|k l IH]; intros m; simpl; [set_solver|].
  rewrite IH, lookup_delete_Some, not_elem_of_cons. naive_solver.
Qed.

Section Diff.
Context (iter : TunnelMap -> list (string * TunnelConfig)) (iter_all : forall m, iter m ≡ₚ map_to_list m).

Lemma iter_elem m n t : (n, t) ∈ iter m <-> m !! n = Some t.
Proof using iter_all. rewrite (iter_all m). apply elem_of_map_to_list. Qed.

(** Selecting values of a keyed map keeps their names distinct. *)
Lemma select_nodup (f : string * TunnelConfig -> option TunnelConfig) m :
  keyed m -> (forall n t u, f (n, t) = Some u -> u = t) -> NoDup (map tc_name (omap f (iter m))).
Proof using iter_all.
  intros Hk Hf. rewrite (iter_all m). pose proof (NoDup_fst_map_to_list m) as Hnd.
  assert (Forall (fun x => tc_name x.2 = x.1) (map_to_list m)) as Hall.
  { apply Forall_forall. intros [n t] Hin. apply elem_of_map_to_list in Hin. by apply Hk. }
  revert Hnd Hall. generalize (map_to_list m) as l. induction l as [|[n t] l IH]; simpl; [constructor|].
  rewrite NoDup_cons, Forall_cons. intros [Hn Hnd] [Ht Hall]. destruct (f (n, t)) as [u|] eqn:E; [|auto].
  apply Hf in E as ->. simpl. apply NoDup_cons. split; [|auto]. simpl in Ht. intros Hin.
  apply Hn. apply list_elem_of_fmap in Hin as (u & E & Hu). apply list_elem_of_omap in Hu as ([k v] & Hkv & Hfv).
  apply Hf in Hfv as ->. rewrite Forall_forall in Hall. specialize (Hall _ Hkv). simpl in Hall.
  apply list_elem_of_fmap. exists (k, v). split; [simpl; congruence|done].
Qed.

Context (old new : list TunnelConfig).
Let om := tunnel_map old.
Let nm := tunnel_map new.
Let ch := diff_tunnels iter old new.

Lemma added_spec t : t ∈ ch_added ch <-> nm !! tc_name t = Some t /\ om !! tc_name t = None.
Proof using iter_all.
  unfold ch, diff_tunnels. cbn [ch_added]. rewrite merge_sort_Permutation, list_elem_of_omap. fold om nm. split.
  - intros ([n u] & Hin & E). apply iter_elem in Hin. destruct (om !! n) eqn:Eo; [done|].
    injection E as <-. assert (tc_name u = n) as -> by by apply (tunnel_map_keyed new). done.
  - intros [Hn Ho]. exists (tc_name t, t). split; [by apply iter_elem|]. by rewrite Ho.
Qed.
Lemma updated_spec t :
  t ∈ ch_updated ch <-> nm !! tc_name t = Some t /\ exists u, om !! tc_name t = Some u /\ tunnel_eq u t = false.
Proof using iter_all.
  unfold ch, diff_tunnels. cbn [ch_updated]. rewrite merge_sort_Permutation, list_elem_of_omap. fold om nm. split.
  - intros ([n u] & Hin & E). apply iter_elem in Hin. destruct (om !! n) as [v|] eqn:Eo; [|done].
    destruct (tunnel_eq v u) eqn:Et; [done|]. injection E as <-.
    assert (tc_name u = n) as -> by by apply (tunnel_map_keyed new). eauto.
  - intros [Hn (u & Ho & Ht)]. exists (tc_name t, t). split; [by apply iter_elem|]. by rewrite Ho, Ht.
Qed.
Lemma removed_spec n : n ∈ ch_removed ch <-> nm !! n = None /\ is_Some (om !! n).
Proof using iter_all.
  unfold ch, diff_tunnels. cbn [ch_removed]. rewrite merge_sort_Permutation, list_elem_of_omap. fold om nm. split.
  - intros ([k u] & Hin & E). apply iter_elem in Hin. destruct (nm !! k) eqn:En; [done|]. injection E as <-. eauto.
  - intros [Hn [u Ho]]. exists (n, u). split; [by apply iter_elem|]. by rewrite Hn.
Qed.
Lemma changes_nodup :
  NoDup (map tc_name (ch_added ch)) /\ NoDup (ch_removed ch) /\ NoDup (map tc_name (ch_updated ch)).
Proof using iter_all.
  unfold ch, diff_tunnels. cbn [ch_added ch_removed ch_updated]. rewrite !merge_sort_Permutation. split; [|split].
  - apply select_nodup; [apply tunnel_map_keyed|]. intros n t u. by case_match; intros [= <-].
  - fold om nm. rewrite (iter_all om). pose proof (NoDup_fst_map_to_list om) as Hnd. revert Hnd.
    generalize (map_to_list om) as l. induction l as [|[n t] l IH]; simpl; [constructor|].
    rewrite NoDup_cons. intros [Hn Hnd]. destruct (nm !! n); [auto|]. apply NoDup_cons. split; [|auto].
    intros Hin. apply list_elem_of_omap in Hin as ([k v] & Hkv & Hfv). apply Hn, list_elem_of_fmap. exists (k, v).
    split; [|done]. simpl. destruct (nm !! k); [done|congruence].
  - apply select_nodup; [apply tunnel_map_keyed|]. intros n t u.
    case_match; [|done]. case_match; [|done]. congruence.
Qed.
Lemma changes_sorted :
  StronglySorted name_le (ch_added ch) /\ StronglySorted String.le (ch_removed ch) /\ StronglySorted name_le (ch_updated ch).
Proof using. unfold ch, diff_tunnels. cbn [ch_added ch_removed ch_updated]. split; [|split]; apply StronglySorted_merge_sort; apply _. Qed.
End Diff.

Section Apply.
Context (iter : TunnelMap -> list (string * TunnelConfig)) (iter_all : forall m, iter m ≡ₚ map_to_list m).
Context (old new : list TunnelConfig) (Hold : NoDup (map tc_name old)) (Hnew : NoDup (map tc_name new)).
Let om := tunnel_map old.
Let nm := tunnel_map new.
Let ch := diff_tunnels iter old new.

Lemma elem_of_names n (l : list TunnelConfig) : n ∈ map tc_name l <-> exists t, t ∈ l /\ tc_name t = n.
Proof using. rewrite list_elem_of_fmap. naive_solver. Qed.

Lemma started_nodup : NoDup (map tc_name (ch_updated ch ++ ch_added ch)).
Proof using iter_all.
  destruct (changes_nodup iter iter_all old new) as (Ha & _ & Hu). rewrite map_app. apply NoDup_app. split; [done|].
  split; [|done]. intros n (t & Ht & <-)%elem_of_names (u & Hin & E)%elem_of_names.
  apply updated_spec in Ht as (_ & v & Hv & _); [|done]. apply added_spec in Hin as [_ Hin]; [|done].
  rewrite E in Hin. congruence.
Qed.

Lemma apply_changes_lookup n :
  apply_changes om ch !! n =
    match nm !! n with
    | None => None
    | Some t => match om !! n with
                | None => Some t
                | Some u => if tunnel_eq u t then Some u else Some t
                end
    end.
Proof using iter_all.
  apply option_eq. intros t. unfold apply_changes. rewrite fold_add_tunnel_lookup by apply started_nodup.
  rewrite fold_delete_tunnel_lookup, elem_of_app, not_elem_of_app, map_app, not_elem_of_app, !elem_of_names.
  unfold ch. setoid_rewrite updated_spec; [|done..]. setoid_rewrite added_spec; [|done..]. rewrite removed_spec by done.
  fold om nm. destruct (nm !! n) as [v|] eqn:En, (om !! n) as [u|] eqn:Eo.
  - destruct (tunnel_eq u v) eqn:Et; split.
    + intros [[[(H1 & w & H2 & H3)|[H1 H2]] <-]|(_ & _ & H)]; congruence.
    + intros [= <-]. right. split; [|split; [|done]].
      * split; intros (w & Hw & <-); [destruct Hw as (H1 & x & H2 & H3)|destruct Hw]; congruence.
      * split; [intros [? ?]; congruence|]. intros (w & (H1 & x & H2 & H3) & <-). congruence.
    + intros [[[(H1 & w & H2 & H3)|[H1 H2]] <-]|(_ & [_ Hx] & _)]; try congruence.
      destruct Hx. exists v. assert (tc_name v = n) as Hvn by by apply (tunnel_map_keyed new). rewrite Hvn. eauto.
    + intros [= <-]. left. assert (tc_name v = n) as Hvn by by apply (tunnel_map_keyed new). rewrite Hvn. eauto 10.
  - split.
    + intros [[[(H1 & w & H2 & H3)|[H1 H2]] <-]|(_ & _ & H)]; congruence.
    + intros [= <-]. left. assert (tc_name v = n) as Hvn by by apply (tunnel_map_keyed new). rewrite Hvn. auto.
  - split; [|done]. intros [[[(H1 & w & H2 & H3)|[H1 H2]] <-]|(_ & [Hx _] & _)]; try congruence. destruct Hx. eauto.
  - split; [|done]. intros [[[(H1 & w & H2 & H3)|[H1 H2]] <-]|(_ & _ & H)]; congruence.
Qed.

Lemma apply_changes_same : tunnels_same (apply_changes om ch) nm.
Proof using iter_all.
  intros n. rewrite apply_changes_lookup. destruct (nm !! n) as [t|]; [|constructor].
  destruct (om !! n) as [u|]; [|constructor; by left].
  destruct (tunnel_eq u t) eqn:E; constructor; [by right|by left].
Qed.

Lemma changes_empty_spec : changes_empty ch = true <-> forall n, option_Forall2 (fun a b => tunnel_eq a b = true) (om !! n) (nm !! n).
Proof using iter_all.
  split.
  - intros He n. assert (ch_added ch = [] /\ ch_removed ch = [] /\ ch_updated ch = []) as (Ea & Er & Eu).
    { by destruct ch as [[] [] []]. }
    destruct (nm !! n) as [t|] eqn:En; [assert (tc_name t = n) as Ht by by apply (tunnel_map_keyed new)|];
      destruct (om !! n) as [u|] eqn:Eo; [| | |by constructor].
    + constructor. destruct (tunnel_eq u t) eqn:E; [done|].
      assert (t ∈ ch_updated ch) as H by (apply updated_spec; [done|]; rewrite Ht; eauto). rewrite Eu in H. by apply not_elem_of_nil in H.
    + assert (t ∈ ch_added ch) as H by (apply added_spec; [done|]; rewrite Ht; eauto). rewrite Ea in H. by apply not_elem_of_nil in H.
    + assert (n ∈ ch_removed ch) as H by (apply removed_spec; eauto). rewrite Er in H. by apply not_elem_of_nil in H.
  - intros Hall. unfold changes_empty. destruct ch as [a r u] eqn:Ech.
    assert (a = []) as ->.
    { destruct a as [|t a]; [done|]. assert (t ∈ ch_added ch) as H by (rewrite Ech; left).
      apply added_spec in H as [H1 H2]; [|done]. specialize (Hall (tc_name t)). fold om nm in H1, H2.
      rewrite H1, H2 in Hall. inversion Hall. }
    assert (r = []) as ->.
    { destruct r as [|n r]; [done|]. assert (n ∈ ch_removed ch) as H by (rewrite Ech; left).
      apply removed_spec in H as [H1 [v H2]]; [|done]. specialize (Hall n). fold om nm in H1, H2.
      rewrite H1, H2 in Hall. inversion Hall. }
    destruct u as [|t u]; [done|]. assert (t ∈ ch_updated ch) as H by (rewrite Ech; left).
    apply updated_spec in H as (H1 & v & H2 & H3); [|done]. specialize (Hall (tc_name t)). fold om nm in H1, H2.
    rewrite H1, H2 in Hall. inversion Hall; subst; congruence.
Qed.
End Apply.

Lemma list_eq_forall2 {A} (eq : A -> A -> bool) l k : vec_eq eq l k = true <-> Forall2 (fun a b => eq a b = true) l k.
Proof.
  revert k. induction l as [|a l IH]; intros [|b k]; simpl.
  - by split; [constructor|].
  - split; [done|inversion 1].
  - split; [done|inversion 1].
  - rewrite andb_true_iff, IH. split; [intros [??]; by constructor|inversion 1; auto].
Qed.

Lemma equal_lists_same_maps old new :
  NoDup (map tc_name old) -> NoDup (map tc_name new) -> vec_eq tunnel_eq old new = true ->
  forall n, option_Forall2 (fun a b => tunnel_eq a b = true) (tunnel_map old !! n) (tunnel_map new !! n).
Proof.
  intros Hold Hnew Heq n. apply list_eq_forall2 in Heq.
  destruct (tunnel_map old !! n) as [u|] eqn:Eo.
  - apply tunnel_map_lookup in Eo as [Hu <-]; [|done]. apply list_elem_of_lookup in Hu as [i Hi].
    destruct (Forall2_lookup_l _ _ _ _ _ Heq Hi) as (t & Ht & E). pose proof (tunnel_eq_name _ _ E) as Hn.
    rewrite (proj2 (tunnel_map_lookup new (tc_name u) t Hnew)); [by constructor|].
    split; [by eapply list_elem_of_lookup_2|done].
  - destruct (tunnel_map new !! n) as [t|] eqn:En; [|constructor].
    apply tunnel_map_lookup in En as [Ht <-]; [|done]. apply list_elem_of_lookup in Ht as [i Hi].
    destruct (Forall2_lookup_r _ _ _ _ _ Heq Hi) as (u & Hu & E). pose proof (tunnel_eq_name _ _ E) as Hn.
    assert (tunnel_map old !! tc_name t = Some u) as E'; [|congruence].
    apply tunnel_map_lookup; [done|]. split; [by eapply list_elem_of_lookup_2|done].
Qed.

Section Properties.
Context (iter : TunnelMap -> list (string * TunnelConfig)) (iter_all : forall m, iter m ≡ₚ map_to_list m).

(** C16: A reload plan is right and minimal: applied to the tunnels that run, its
    changes give the tunnels of the new configuration; every name changes at most
    once, removed and updated tunnels ran, added ones did not; and there is
    nothing to do exactly when the connection settings agree and the two
    configurations have the same tunnels under the same names, in any order. *)
Theorem reload_plan_correct (old new : ClientConfig) :
  NoDup (map tc_name (cc_tunnels old)) -> NoDup (map tc_name (cc_tunnels new)) ->
  let om := tunnel_map (cc_tunnels old) in
  let nm := tunnel_map (cc_tunnels new) in
  let ch := diff_tunnels iter (cc_tunnels old) (cc_tunnels new) in
  tunnels_same (apply_changes om ch) nm
  /\ NoDup (ch_removed ch ++ map tc_name (ch_updated ch) ++ map tc_name (ch_added ch))
  /\ Forall (fun n => is_Some (om !! n)) (ch_removed ch ++ map tc_name (ch_updated ch))
  /\ Forall (fun n => om !! n = None) (map tc_name (ch_added ch))
  /\ (plan_reload iter old new = Noop <->
      connection_settings_eq old new = true
      /\ forall n, option_Forall2 (fun a b => tunnel_eq a b = true) (om !! n) (nm !! n))
  /\ (plan_reload iter old new <> Noop ->
      plan_reload iter old new = Apply ch (negb (connection_settings_eq old new))).
Proof using iter_all.
  intros Hold Hnew om nm ch. split; [by apply apply_changes_same|].
  split; [|split; [|split; [|split]]].
  - rewrite NoDup_app, <- map_app. split; [by apply changes_nodup|]. split; [|by apply started_nodup].
    intros n Hr Hin. apply removed_spec in Hr as [Hn _]; [|done]. apply elem_of_names in Hin as (t & Ht & <-).
    apply elem_of_app in Ht as [Ht|Ht]; [apply updated_spec in Ht as [Ht _]|apply added_spec in Ht as [Ht _]];
      (done || congruence).
  - apply Forall_forall. intros n. rewrite elem_of_app, elem_of_names. intros [Hr|(t & Ht & <-)].
    + by apply removed_spec in Hr as [_ Hr].
    + apply updated_spec in Ht as (_ & u & Hu & _); [eauto|done].
  - apply Forall_forall. intros n (t & Ht & <-)%elem_of_names. by apply added_spec in Ht as [_ Ht].
  - pose proof (changes_empty_spec iter iter_all (cc_tunnels old) (cc_tunnels new)) as Hce. fold om nm ch in Hce.
    rewrite <- Hce. unfold plan_reload. fold ch.
    destruct (client_config_eq old new) eqn:E.
    + split; [|done]. intros _. unfold client_config_eq in E. apply andb_true_iff in E as [[E1 E2]%andb_true_iff _].
      split; [done|]. apply Hce. by apply equal_lists_same_maps.
    + destruct (connection_settings_eq old new), (changes_empty ch); simpl; (split; [try done|]); try by intros [? ?].
  - unfold plan_reload. fold ch. destruct (client_config_eq old new); [done|].
    by destruct (changes_empty ch && _).
Qed.
End Properties.

(** Two sorted lists of tunnels of distinct names with the same members are equal. *)
Lemma sorted_by_name_unique l k :
  StronglySorted name_le l -> StronglySorted name_le k -> NoDup (map tc_name l) -> NoDup (map tc_name k) ->
  (forall t, t ∈ l <-> t ∈ k) -> l = k.
Proof.
  intros Hl Hk Hnl Hnk Heq.
  assert (l ≡ₚ k) as Hp by (apply NoDup_Permutation; [by eapply NoDup_fmap_1|by eapply NoDup_fmap_1|done]).
  eapply StronglySorted_unique_strong; [|done..]. intros a b Ha Hb Hab Hba. apply Heq in Hb.
  assert (tc_name a = tc_name b) as E by by apply (anti_symm String.le).
  apply list_elem_of_lookup in Ha as [i Hi], Hb as [j Hj].
  assert (i = j) as ->; [|congruence]. eapply (NoDup_lookup (map tc_name l)); [done| |].
  - rewrite list_lookup_fmap, Hi. done.
  - rewrite list_lookup_fmap, Hj. simpl. by rewrite E.
Qed.

(** The plan does not depend on the order in which the hash maps it is made
    from yield their entries. *)
Theorem reload_plan_deterministic (iter1 iter2 : TunnelMap -> list (string * TunnelConfig)) (old new : ClientConfig) :
  (forall m, iter1 m ≡ₚ map_to_list m) -> (forall m, iter2 m ≡ₚ map_to_list m) ->
  plan_reload iter1 old new = plan_reload iter2 old new.
Proof.
  intros H1 H2. unfold plan_reload.
  assert (diff_tunnels iter1 (cc_tunnels old) (cc_tunnels new) = diff_tunnels iter2 (cc_tunnels old) (cc_tunnels new)) as ->; [|done].
  set (o := cc_tunnels old). set (n := cc_tunnels new).
  destruct (changes_nodup iter1 H1 o n) as (Ha1 & Hr1 & Hu1), (changes_nodup iter2 H2 o n) as (Ha2 & Hr2 & Hu2).
  destruct (changes_sorted iter1 o n) as (Sa1 & Sr1 & Su1), (changes_sorted iter2 o n) as (Sa2 & Sr2 & Su2).
  pose proof (added_spec iter1 H1 o n) as A1. pose proof (added_spec iter2 H2 o n) as A2.
  pose proof (updated_spec iter1 H1 o n) as U1. pose proof (updated_spec iter2 H2 o n) as U2.
  pose proof (removed_spec iter1 H1 o n) as R1. pose proof (removed_spec iter2 H2 o n) as R2.
  destruct (diff_tunnels iter1 o n) as [a1 r1 u1], (diff_tunnels iter2 o n) as [a2 r2 u2]. simpl in *.
  f_equal.
  - apply sorted_by_name_unique; [done..|]. intros t. by rewrite A1, A2.
  - apply (StronglySorted_unique String.le); [done..|]. apply NoDup_Permutation; [done..|]. intros k. by rewrite R1, R2.
  - apply sorted_by_name_unique; [done..|]. intros t. by rewrite U1, U2.
Qed.

(** *** Witnesses *)

Definition ex_old : ClientConfig :=
  MkClientConfig "h" "" "" (MkClientAuth "" "") client_transport_default
    [test_tunnel "b" "tcp" 80; test_tunnel "a" "tcp" 81; test_tunnel "d" "udp" 83] 0 log_default.
Definition ex_new : ClientConfig :=
  MkClientConfig "h" "" "" (MkClientAuth "" "") client_transport_default
    [test_tunnel "c" "tcp" 82; test_tunnel "d" "udp" 83; test_tunnel "b" "tcp" 90] 0 log_default.

Lemma reload_plan_correct_witness :
  let ch := MkChanges [test_tunnel "c" "tcp" 82] ["a"] [test_tunnel "b" "tcp" 90] in
  plan_reload map_to_list ex_old ex_new = Apply ch false
  /\ tunnels_same (apply_changes (tunnel_map (cc_tunnels ex_old)) ch) (tunnel_map (cc_tunnels ex_new)).
Proof.
  assert (NoDup (map tc_name (cc_tunnels ex_old))) as Ho
    by (apply (bool_decide_unpack (NoDup (map tc_name (cc_tunnels ex_old)))); vm_compute; exact I).
  assert (NoDup (map tc_name (cc_tunnels ex_new))) as Hn
    by (apply (bool_decide_unpack (NoDup (map tc_name (cc_tunnels ex_new)))); vm_compute; exact I).
  destruct (reload_plan_correct map_to_list (fun _ => reflexivity _) ex_old ex_new Ho Hn) as [H _].
  assert (diff_tunnels map_to_list (cc_tunnels ex_old) (cc_tunnels ex_new)
          = MkChanges [test_tunnel "c" "tcp" 82] ["a"] [test_tunnel "b" "tcp" 90]) as E by (vm_compute; reflexivity).
  rewrite E in H. split; [vm_compute; reflexivity|exact H].
Defined.

Lemma reload_plan_deterministic_witness :
  plan_reload map_to_list ex_old ex_new = plan_reload (fun m => reverse (map_to_list m)) ex_old ex_new.
Proof.
  apply (reload_plan_deterministic map_to_list (fun m => reverse (map_to_list m)) ex_old ex_new (fun _ => reflexivity _)).
  intros m. apply reverse_Permutation.
Defined.
