(* ===== verification/Net.v ===== *)
(** * Internet addresses and their text

    What the program uses of [std::net]: addresses, how they are printed
    ([Display]) and how they are parsed ([FromStr]), after the standard
    library; then the addresses carried by messages
    ([core/src/msg/types.rs]).  Octets and groups are integers in [0..255] and
    [0..65535]. *)

From S2P Require Import Prelude RustStr Msg.

Local Open Scope string_scope.

Inductive IpAddr :=
| V4 (octets : Z * Z * Z * Z)
| V6 (segments : list Z).
#[global] Instance IpAddr_eq_dec : EqDecision IpAddr.
Proof. solve_decision. Defined.
Record SocketAddr := MkSocketAddr { sa_ip : IpAddr; sa_port : Z }.
#[global] Instance SocketAddr_eq_dec : EqDecision SocketAddr.
Proof. solve_decision. Defined.
#[global] Instance IpAddr_countable : Countable IpAddr.
Proof.
  refine (inj_countable' (fun a => match a with V4 o => inl o | V6 s => inr s end)
            (fun a => match a with inl o => V4 o | inr s => V6 s end) _). by intros [].
Defined.
#[global] Instance SocketAddr_countable : Countable SocketAddr.
Proof. refine (inj_countable' (fun a => (sa_ip a, sa_port a)) (fun a => MkSocketAddr a.1 a.2) _). by intros []. Defined.

Definition octet (z : Z) : Prop := (0 <= z <= 255)%Z.
Definition ip_wf (ip : IpAddr) : Prop :=
  match ip with
  | V4 (a, b, c, d) => octet a /\ octet b /\ octet c /\ octet d
  | V6 s => length s = 8 /\ Forall in_u16 s
  end.
Definition socket_addr_wf (a : SocketAddr) : Prop := ip_wf (sa_ip a) /\ in_u16 (sa_port a).
Definition V4_LOCALHOST : Z * Z * Z * Z := (127, 0, 0, 1)%Z.
Definition V4_UNSPECIFIED : Z * Z * Z * Z := (0, 0, 0, 0)%Z.
Definition V6_LOCALHOST : list Z := [0; 0; 0; 0; 0; 0; 0; 1]%Z.

(** ** [Display] *)

Definition show_ipv4 (o : Z * Z * Z * Z) : string :=
  let '(a, b, c, d) := o in show_Z a ++ "." ++ show_Z b ++ "." ++ show_Z c ++ "." ++ show_Z d.

Record Span := MkSpan { sp_start : nat; sp_len : nat }.
(** One step of the search for the longest run of zero groups. *)
Definition span_step (st : nat * Span * Span) (segment : Z) : nat * Span * Span :=
  let '(i, longest, current) := st in
  if (segment =? 0)%Z then
    let current := MkSpan (if (sp_len current =? 0)%nat then i else sp_start current) (S (sp_len current)) in
    (S i, if (sp_len longest <? sp_len current)%nat then current else longest, current)
  else (S i, longest, MkSpan 0 0).
Definition longest_zeros (segments : list Z) : Span :=
  (fold_left span_step segments (0, MkSpan 0 0, MkSpan 0 0)).1.2.

Definition show_group (z : Z) : string := show_hex (Z.to_N z).
Definition show_groups (l : list Z) : string := join ":" (map show_group l).
Definition v4_of_groups (ab cd : Z) : Z * Z * Z * Z := (ab / 256, ab mod 256, cd / 256, cd mod 256)%Z.
Definition show_ipv6 (s : list Z) : string :=
  if bool_decide (take 6 s = [0; 0; 0; 0; 0; 65535]%Z) then
    match drop 6 s with [ab; cd] => "::ffff:" ++ show_ipv4 (v4_of_groups ab cd) | _ => "" end
  else
    let z := longest_zeros s in
    if (1 <? sp_len z)%nat
    then show_groups (take (sp_start z) s) ++ "::" ++ show_groups (drop (sp_start z + sp_len z) s)
    else show_groups s.
Definition show_ip (ip : IpAddr) : string :=
  match ip with V4 o => show_ipv4 o | V6 s => show_ipv6 s end.

(** ** [FromStr] *)

Definition digit_value (radix : N) (c : ascii) : option N :=
  let n := code c in
  let v := if is_digit c then Some (n - 48)%N
           else if ((97 <=? n) && (n <=? 122))%N then Some (n - 87)%N
           else if ((65 <=? n) && (n <=? 90))%N then Some (n - 55)%N
           else None in
  match v with Some d => if (d <? radix)%N then Some d else None | None => None end.

(** [max] is the largest value of the type read. *)
Fixpoint read_digits (radix max : N) (max_digits : nat) (acc : N) (count : nat) (s : string)
    : option (N * nat * string) :=
  match s with
  | String c s' =>
      match digit_value radix c with
      | Some d =>
          let acc := (acc * radix + d)%N in
          if (max <? acc)%N || (max_digits <? S count)%nat then None
          else read_digits radix max max_digits acc (S count) s'
      | None => Some (acc, count, s)
      end
  | "" => Some (acc, count, "")
  end.
Definition read_number (radix max : N) (max_digits : nat) (allow_zero_prefix : bool) (s : string)
    : option (Z * string) :=
  match read_digits radix max max_digits 0 0 s with
  | Some (n, count, r) =>
      if (count =? 0)%nat then None
      else if negb allow_zero_prefix && starts_with "0" s && (1 <? count)%nat then None
      else Some (Z.of_N n, r)
  | None => None
  end.
Definition read_u8 : string -> option (Z * string) := read_number 10 255 3 false.
Definition read_group : string -> option (Z * string) := read_number 16 65535 4 true.

Definition read_ipv4_addr (s : string) : option ((Z * Z * Z * Z) * string) :=
  match read_u8 s with
  | Some (a, s) =>
      match strip_prefix "." s with
      | Some s =>
          match read_u8 s with
          | Some (b, s) =>
              match strip_prefix "." s with
              | Some s =>
                  match read_u8 s with
                  | Some (c, s) =>
                      match strip_prefix "." s with
                      | Some s =>
                          match read_u8 s with
                          | Some (d, s) => Some ((a, b, c, d), s)
                          | None => None
                          end
                      | None => None
                      end
                  | None => None
                  end
              | None => None
              end
          | None => None
          end
      | None => None
      end
  | None => None
  end.

(** [read_separator(':', i, inner)]: a colon before every item but the first. *)
Definition read_separator {A} (first : bool) (inner : string -> option (A * string)) (s : string)
    : option (A * string) :=
  if first then inner s
  else match strip_prefix ":" s with Some s => inner s | None => None end.

(** At most [limit] groups; whether they end with an IPv4 address, and the rest. *)
Fixpoint read_groups (limit : nat) (first : bool) (s : string) : list Z * bool * string :=
  match limit with
  | O => ([], false, s)
  | S limit' =>
      match (if (1 <? limit)%nat then read_separator first read_ipv4_addr s else None) with
      | Some ((a, b, c, d), r) => ([a * 256 + b; c * 256 + d]%Z, true, r)
      | None =>
          match read_separator first read_group s with
          | Some (g, r) => let '(l, v4, r) := read_groups limit' false r in (g :: l, v4, r)
          | None => ([], false, s)
          end
      end
  end.

Definition read_ipv6_addr (s : string) : option (list Z * string) :=
  let '(head, head_ipv4, r) := read_groups 8 true s in
  if (length head =? 8)%nat then Some (head, r)
  else if head_ipv4 then None
  else match strip_prefix "::" r with
  | None => None
  | Some r =>
      let '(tail, _, r) := read_groups (8 - (length head + 1)) true r in
      Some ((head ++ replicate (8 - length head - length tail) 0%Z ++ tail)%list, r)
  end.

Definition parse_ip (s : string) : option IpAddr :=
  match (match read_ipv4_addr s with
         | Some (o, r) => Some (V4 o, r)
         | None => match read_ipv6_addr s with Some (g, r) => Some (V6 g, r) | None => None end
         end) with
  | Some (ip, "") => Some ip
  | _ => None
  end.

(** ** Addresses in messages *)

Definition from_std (a : SocketAddr) : UdpSocketAddr := MkUdpSocketAddr (show_ip (sa_ip a)) (sa_port a).
Definition to_std (u : UdpSocketAddr) : option SocketAddr :=
  match parse_ip (ua_ip u) with Some ip => Some (MkSocketAddr ip (ua_port u)) | None => None end.
Definition udp_packet_new (content : string) (remote : option SocketAddr) : UdpPacket :=
  MkUdpPacket content None (from_std <$> remote).

Example parse_ip_1 : parse_ip "2001:db8::ff00:42:8329" = Some (V6 [8193; 3512; 0; 0; 0; 65280; 66; 33577]%Z).
Proof. vm_compute. reflexivity. Qed.
Example parse_ip_2 : parse_ip "::ffff:10.0.0.1" = Some (V6 [0; 0; 0; 0; 0; 65535; 2560; 1]%Z).
Proof. vm_compute. reflexivity. Qed.
Example show_ip_1 : show_ip (V6 [8193; 3512; 0; 0; 0; 65280; 0; 0]%Z) = "2001:db8::ff00:0:0".
Proof. vm_compute. reflexivity. Qed.

(** ** Lemmas: numbers *)

Fixpoint value_of (radix : N) (acc : N) (s : string) : option N :=
  match s with
  | "" => Some acc
  | String c s => match digit_value radix c with Some d => value_of radix (acc * radix + d) s | None => None end
  end.
(** The next character is not a digit: the number ends there. *)
Definition no_digit (radix : N) (s : string) : Prop :=
  match s with "" => True | String c _ => digit_value radix c = None end.

Lemma value_of_ge radix acc s n : (0 < radix)%N -> value_of radix acc s = Some n -> (acc <= n)%N.
Proof.
  intros Hr. revert acc. induction s as [|c s IH]; intros acc; simpl; [intros [= <-]; lia|].
  destruct (digit_value radix c); [|done]. intros H%IH. nia.
Qed.
Lemma read_digits_value radix max md ds : forall acc count rest n,
  (0 < radix)%N -> value_of radix acc ds = Some n -> (n <= max)%N -> count + String.length ds <= md ->
  no_digit radix rest ->
  read_digits radix max md acc count (ds ++ rest) = Some (n, count + String.length ds, rest).
Proof.
  induction ds as [|c ds IH]; intros acc count rest n Hr Hv Hn Hlen Hrest; simpl in *.
  - injection Hv as ->. rewrite Nat.add_0_r. destruct rest as [|c r]; simpl in *; [done|]. by rewrite Hrest.
  - destruct (digit_value radix c) as [d|]; [|done]. pose proof (value_of_ge _ _ _ _ Hr Hv) as Hge.
    assert ((max <? acc * radix + d)%N = false) as -> by (apply N.ltb_ge; lia).
    assert ((md <? S count)%nat = false) as -> by (apply Nat.ltb_ge; lia). cbn [orb].
    rewrite (IH _ _ _ n); [|done..|lia|done]. do 3 f_equal. lia.
Qed.
Lemma read_number_value radix max md zero ds rest n :
  (0 < radix)%N -> ds <> "" -> value_of radix 0 ds = Some n -> (n <= max)%N -> String.length ds <= md ->
  no_digit radix rest -> (zero = false -> starts_with "0" ds = true -> String.length ds = 1) ->
  read_number radix max md zero (ds ++ rest) = Some (Z.of_N n, rest).
Proof.
  intros Hr Hne Hv Hn Hlen Hrest Hz. unfold read_number.
  rewrite (read_digits_value radix max md ds 0 0 rest n); [|done..]. cbn [Nat.add].
  destruct ds as [|c ds]; [done|]. cbn [String.length Nat.eqb].
  destruct (negb zero && _ && _) eqn:E; [|done]. apply andb_true_iff in E as [[Ez Es]%andb_true_iff El].
  apply negb_true_iff in Ez. apply Nat.ltb_lt in El. specialize (Hz Ez). cbn [String.length] in Hz.
  assert (starts_with "0" (String c ds) = true) as Hs; [|specialize (Hz Hs); lia].
  unfold starts_with in *. cbn [String.append strip_prefix] in *. by destruct (Ascii.eqb "0" c).
Qed.

Definition octet_check (z : Z) : bool :=
  let s := show_Z z in
  bool_decide (value_of 10 0 s = Some (Z.to_N z)) && (String.length s <=? 3)%nat && negb (is_empty s)
  && (negb (starts_with "0" s) || (String.length s =? 1)%nat).
Lemma octet_checked z : octet z -> octet_check z = true.
Proof.
  intros Hz. assert (forallb octet_check (seqZ 0 256) = true) as H by (vm_compute; reflexivity).
  rewrite forallb_forall in H. apply H. apply list_elem_of_In. apply elem_of_seqZ. unfold octet in Hz. lia.
Qed.
Lemma read_u8_show z rest : octet z -> no_digit 10 rest -> read_u8 (show_Z z ++ rest) = Some (z, rest).
Proof.
  intros Hz Hr. pose proof (octet_checked z Hz) as Hc. unfold octet_check in Hc.
  apply andb_true_iff in Hc as [[[Hv Hl]%andb_true_iff Hne]%andb_true_iff H0].
  apply bool_decide_eq_true in Hv. apply Nat.leb_le in Hl. apply negb_true_iff, is_empty_false in Hne.
  unfold read_u8. rewrite (read_number_value 10 255 3 false (show_Z z) rest (Z.to_N z)); try done.
  - rewrite Z2N.id; [done|apply Hz].
  - unfold octet in Hz. lia.
  - intros _ Hs. rewrite Hs in H0. by apply Nat.eqb_eq in H0.
Qed.
Lemma strip_prefix_app p s : strip_prefix p (p ++ s) = Some s.
Proof. by apply strip_prefix_spec. Qed.
Lemma read_ipv4_show o rest :
  ip_wf (V4 o) -> no_digit 10 rest -> read_ipv4_addr (show_ipv4 o ++ rest) = Some (o, rest).
Proof.
  destruct o as [[[a b] c] d]. intros (Ha & Hb & Hc & Hd) Hr. unfold show_ipv4, read_ipv4_addr.
  rewrite !app_assoc. do 3 (rewrite read_u8_show by done; rewrite strip_prefix_app).
  by rewrite read_u8_show.
Qed.

(** *** Hexadecimal groups *)

Lemma hex_digit_spec n : (n < 16)%N -> digit_value 16 (hex_digit n) = Some n /\ is_alnum (hex_digit n) = true.
Proof.
  intros Hn. assert (forallb (fun n => bool_decide (digit_value 16 (hex_digit (Z.to_N n)) = Some (Z.to_N n))
    && is_alnum (hex_digit (Z.to_N n))) (seqZ 0 16) = true) as H by (vm_compute; reflexivity).
  rewrite forallb_forall in H. specialize (H (Z.of_N n)). rewrite N2Z.id in H.
  assert (In (Z.of_N n) (seqZ 0 16)) as Hin by (apply list_elem_of_In, elem_of_seqZ; lia).
  apply H, andb_true_iff in Hin as [H1 H2]. by apply bool_decide_eq_true in H1.
Qed.
Lemma value_hex_go fuel n acc :
  (n < 2 ^ N.of_nat fuel)%N -> value_of 16 0 (hex_go fuel n acc) = value_of 16 n acc.
Proof.
  revert n acc. induction fuel as [|fuel IH]; intros n acc Hn.
  { simpl in *. by assert (n = 0)%N as -> by lia. }
  cbn [hex_go]. destruct (hex_digit_spec (n mod 16)) as [Hd _]; [by apply N.mod_lt|].
  destruct (N.eqb_spec (n / 16) 0) as [E|E].
  - cbn [value_of]. rewrite Hd. f_equal. rewrite (N.div_mod n 16) at 2 by done. lia.
  - rewrite IH.
    + cbn [value_of]. rewrite Hd. f_equal. rewrite (N.div_mod n 16) at 3 by done. lia.
    + rewrite Nat2N.inj_succ, N.pow_succ_r' in Hn. apply N.Div0.div_lt_upper_bound. lia.
Qed.
Lemma length_hex_go k : forall fuel n acc,
  (n < 16 ^ N.of_nat (S k))%N -> String.length (hex_go fuel n acc) <= S k + String.length acc.
Proof.
  induction k as [|k IH]; intros [|fuel] n acc Hn; cbn [hex_go]; try (simpl; lia).
  - change (16 ^ N.of_nat 1)%N with 16%N in Hn. rewrite N.div_small by lia. simpl. lia.
  - destruct (n / 16 =? 0)%N; [simpl; lia|].
    specialize (IH fuel (n / 16)%N (String (hex_digit (n mod 16)) acc)). cbn [String.length] in IH.
    rewrite Nat2N.inj_succ, N.pow_succ_r' in Hn. assert (n / 16 < 16 ^ N.of_nat (S k))%N; [|lia].
    apply N.Div0.div_lt_upper_bound. lia.
Qed.
Lemma hex_go_all fuel n acc :
  sforall is_alnum acc = true -> sforall is_alnum (hex_go fuel n acc) = true.
Proof.
  revert n acc. induction fuel as [|fuel IH]; intros n acc Ha; [done|]. cbn [hex_go].
  destruct (hex_digit_spec (n mod 16)) as [_ Hd]; [by apply N.mod_lt|].
  destruct (n / 16 =? 0)%N; [|apply IH]; simpl; by rewrite Hd.
Qed.
Lemma hex_go_nonempty fuel n acc : acc <> "" -> hex_go fuel n acc <> "".
Proof.
  revert n acc. induction fuel as [|fuel IH]; intros n acc Ha; [done|]. cbn [hex_go].
  destruct (n / 16 =? 0)%N; [done|]. by apply IH.
Qed.
Lemma show_group_spec g :
  in_u16 g -> value_of 16 0 (show_group g) = Some (Z.to_N g) /\ 0 < String.length (show_group g) <= 4
              /\ sforall is_alnum (show_group g) = true.
Proof.
  unfold in_u16, u16_max, show_group, show_hex. intros Hg. split; [|split; [split|]].
  - by rewrite value_hex_go by apply size_nat_bound.
  - cbn [hex_go]. assert (forall s, s <> "" -> 0 < String.length s) as Hs by (intros []; simpl; [done|lia]).
    apply Hs. case_match; [done|]. by apply hex_go_nonempty.
  - apply (length_hex_go 3). simpl. lia.
  - by apply hex_go_all.
Qed.
Lemma read_group_show g rest : in_u16 g -> no_digit 16 rest -> read_group (show_group g ++ rest) = Some (g, rest).
Proof.
  intros Hg Hr. destruct (show_group_spec g Hg) as (Hv & Hl & _). unfold read_group.
  rewrite (read_number_value 16 65535 4 true _ rest (Z.to_N g)); try done; try lia.
  - rewrite Z2N.id; [done|apply Hg].
  - intros E. rewrite E in Hl. simpl in Hl. lia.
  - unfold in_u16, u16_max in Hg. lia.
Qed.

(** ** Lemmas: groups *)

Definition no_dot : string -> bool := sforall (fun c => negb (Ascii.eqb "." c)).

Lemma read_digits_suffix radix max md s : forall acc count n k r,
  read_digits radix max md acc count s = Some (n, k, r) -> exists p, s = p ++ r.
Proof.
  induction s as [|c s IH]; intros acc count n k r; simpl; [intros [= _ _ <-]; by exists ""|].
  destruct (digit_value radix c); [|intros [= _ _ <-]; by exists ""].
  destruct (_ || _); [done|]. intros (p & ->)%IH. by exists (String c p).
Qed.
Lemma read_ipv4_no_dot s : no_dot s = true -> read_ipv4_addr s = None.
Proof.
  intros Hs. unfold read_ipv4_addr. destruct (read_u8 s) as [[a r]|] eqn:E; [|done].
  assert (no_dot r = true) as Hr.
  { unfold read_u8, read_number in E. destruct (read_digits _ _ _ _ _ _) as [[[n k] r']|] eqn:Ed; [|done].
    destruct (k =? 0)%nat; [done|]. destruct (_ && _ && _); [done|]. injection E as _ <-.
    apply read_digits_suffix in Ed as (p & ->). unfold no_dot in *. rewrite sforall_app in Hs.
    by apply andb_true_iff in Hs as [_ Hs]. }
  destruct r as [|c r]; [done|]. cbn [no_dot sforall strip_prefix] in *. by destruct (Ascii.eqb "." c).
Qed.
Lemma no_dot_app a b : no_dot (a ++ b) = no_dot a && no_dot b.
Proof. apply sforall_app. Qed.

(** The text of groups that follow others, unless [first]. *)
Definition groups_text (first : bool) (l : list Z) : string :=
  match l with [] => "" | _ => (if first then "" else ":") ++ show_groups l end.
Lemma show_groups_cons g l : show_groups (g :: l) = show_group g ++ groups_text false l.
Proof. unfold show_groups. destruct l; simpl; [by rewrite app_nil_r|done]. Qed.
Lemma groups_text_no_dot first l : Forall in_u16 l -> no_dot (groups_text first l) = true.
Proof.
  intros Hl. assert (forall l, Forall in_u16 l -> no_dot (groups_text false l) = true) as H.
  { clear l Hl. induction l as [|g l IH]; intros Hl; [done|]. apply Forall_cons in Hl as [Hg Hl].
    unfold groups_text. rewrite show_groups_cons, !no_dot_app, IH by done.
    destruct (show_group_spec g Hg) as (_ & _ & Ha). rewrite andb_true_r. apply andb_true_iff. split; [done|].
    unfold no_dot. eapply sforall_impl; [|exact Ha]. intros c Hc. destruct (Ascii.eqb_spec "." c); [subst; by vm_compute in Hc|done]. }
  destruct first; [|by apply H]. specialize (H l Hl). destruct l; [done|]. exact H.
Qed.

(** Where a list of groups may end: at the end of the text, or before [::]. *)
Definition groups_end (rest : string) : Prop := rest = "" \/ exists r, rest = "::" ++ r.
Lemma read_group_end rest : groups_end rest -> read_group rest = None.
Proof. intros [-> | [r ->]]; done. Qed.
Lemma read_group_end' rest r : groups_end rest -> strip_prefix ":" rest = Some r -> read_group r = None.
Proof. intros [-> | [r' ->]]; [done|]. by intros [= <-]. Qed.

Lemma read_separator_no_dot first s : no_dot s = true -> read_separator first read_ipv4_addr s = None.
Proof.
  intros Hs. unfold read_separator. destruct first; [by apply read_ipv4_no_dot|].
  destruct (strip_prefix ":" s) as [r|] eqn:E; [|done]. apply strip_prefix_spec in E as ->.
  rewrite no_dot_app in Hs. apply andb_true_iff in Hs as [_ Hs]. by apply read_ipv4_no_dot.
Qed.
Lemma read_groups_show limit : forall l first rest,
  Forall in_u16 l -> length l <= limit -> groups_end rest -> no_dot rest = true ->
  read_groups limit first (groups_text first l ++ rest) = (l, false, rest).
Proof.
  induction limit as [|limit IH]; intros l first rest Hl Hlen Hend Hdot.
  { destruct l; simpl in *; [done|lia]. }
  cbn [read_groups].
  assert ((if (1 <? S limit)%nat then read_separator first read_ipv4_addr (groups_text first l ++ rest) else None) = None) as ->.
  { case_match; [|done]. apply read_separator_no_dot. rewrite no_dot_app, Hdot, groups_text_no_dot; done. }
  destruct l as [|g l].
  - cbn [groups_text String.append]. assert (read_separator first read_group rest = None) as ->; [|done].
    unfold read_separator. destruct first; [by apply read_group_end|].
    destruct (strip_prefix ":" rest) eqn:E; [|done]. by eapply read_group_end'.
  - apply Forall_cons in Hl as [Hg Hl].
    assert (read_separator first read_group (groups_text first (g :: l) ++ rest) = Some (g, groups_text false l ++ rest)) as ->.
    { unfold groups_text at 1. rewrite show_groups_cons. unfold read_separator.
      assert (no_digit 16 (groups_text false l ++ rest)) as Hnd.
      { destruct l; [|done]. destruct Hend as [-> | [r ->]]; done. }
      destruct first; rewrite ?app_assoc; [by apply read_group_show|]. rewrite strip_prefix_app.
      by apply read_group_show. }
    rewrite IH; [done|done| |done|done]. simpl in Hlen. lia.
Qed.

(** *** The longest run of zeros *)

Definition zeros_in (s : list Z) (z : Span) : Prop :=
  forall j, sp_start z <= j < sp_start z + sp_len z -> s !! j = Some 0%Z.
Lemma zeros_in_app s x z : zeros_in s z -> zeros_in (s ++ [x]) z.
Proof. intros H j Hj. by apply lookup_app_l_Some, H. Qed.
Lemma longest_zeros_run s : zeros_in s (longest_zeros s).
Proof.
  unfold longest_zeros.
  assert (forall l p i longest current, i = length p -> zeros_in p longest -> zeros_in p current ->
    (sp_len current <> 0 -> sp_start current + sp_len current = length p) ->
    zeros_in (p ++ l) (fold_left span_step l (i, longest, current)).1.2) as H.
  { induction l as [|x l IH]; intros p i longest current Hi Hl Hc Hend; [by rewrite (right_id_L [] (++))|].
    replace (p ++ x :: l)%list with ((p ++ [x]) ++ l)%list by (by rewrite <- (assoc_L (++))).
    cbn [fold_left span_step]. assert (length (p ++ [x]) = S (length p)) as Hlen by (rewrite length_app; simpl; lia).
    destruct (Z.eqb_spec x 0) as [->|Hx].
    - set (c' := MkSpan _ _).
      assert (zeros_in (p ++ [0%Z]) c' /\ sp_start c' + sp_len c' = S (length p)) as [Hc' He'].
      { subst c'. unfold zeros_in. simpl. destruct (Nat.eqb_spec (sp_len current) 0) as [E|E].
        - rewrite E, Hi. split; [|lia]. intros j Hj. assert (j = length p) as -> by lia. by apply list_lookup_middle.
        - specialize (Hend E). split; [|lia]. intros j Hj. destruct (decide (j = length p)) as [->|]; [by apply list_lookup_middle|].
          apply lookup_app_l_Some, Hc. lia. }
      apply IH; [lia| |done|lia]. case_match; [done|by apply zeros_in_app].
    - apply IH; [lia|by apply zeros_in_app| |done]. intros j Hj. simpl in Hj. lia. }
  apply (H s [] 0 (MkSpan 0 0) (MkSpan 0 0)); try done; intros j Hj; simpl in Hj; lia.
Qed.
Lemma zeros_split s z :
  zeros_in s z -> 0 < sp_len z ->
  s = (take (sp_start z) s ++ replicate (sp_len z) 0%Z ++ drop (sp_start z + sp_len z) s)%list
  /\ sp_start z + sp_len z <= length s.
Proof.
  intros Hz Hlen.
  assert (sp_start z + sp_len z <= length s) as Hle.
  { assert (s !! (sp_start z + sp_len z - 1) = Some 0%Z) as E by (apply Hz; lia).
    apply lookup_lt_Some in E. lia. }
  split; [|done]. rewrite <- (take_drop (sp_start z) s) at 1. f_equal.
  rewrite <- (take_drop (sp_len z) (drop (sp_start z) s)) at 1. rewrite drop_drop. f_equal.
  apply list_eq. intros j. destruct (decide (j < sp_len z)).
  - rewrite lookup_take_lt, lookup_drop, lookup_replicate_2 by lia. apply Hz. lia.
  - rewrite lookup_take_ge by lia. symmetry. apply lookup_ge_None. rewrite length_replicate. lia.
Qed.

(** ** Printing and parsing *)

Lemma parse_ip_v6_intro s g : read_ipv4_addr s = None -> read_ipv6_addr s = Some (g, "") -> parse_ip s = Some (V6 g).
Proof. intros H1 H2. unfold parse_ip. by rewrite H1, H2. Qed.

Lemma v4_of_groups_wf ab cd : in_u16 ab -> in_u16 cd -> ip_wf (V4 (v4_of_groups ab cd)).
Proof.
  unfold in_u16, u16_max, v4_of_groups, ip_wf, octet. intros Hab Hcd.
  repeat split; try (apply Z.div_pos; lia); try (apply Z.mod_pos_bound; lia);
    try (apply Z.lt_succ_r, Z.div_lt_upper_bound; lia); by apply Z.lt_succ_r, Z.mod_pos_bound.
Qed.
(** The groups of an IPv4-mapped address. *)
Lemma mapped_groups s :
  length s = 8 -> Forall in_u16 s -> take 6 s = [0; 0; 0; 0; 0; 65535]%Z ->
  exists ab cd, s = [0; 0; 0; 0; 0; 65535; ab; cd]%Z /\ in_u16 ab /\ in_u16 cd.
Proof.
  intros Hlen Hs Hm. assert (s = take 6 s ++ drop 6 s)%list as E by by rewrite take_drop.
  rewrite Hm in E. revert E. generalize (drop 6 s) as r. intros r ->. rewrite length_app in Hlen.
  destruct r as [|ab [|cd [|]]]; simpl in Hlen; try lia.
  apply Forall_app in Hs as [_ Hs]. rewrite !Forall_cons in Hs. destruct Hs as (? & ? & _). by exists ab, cd.
Qed.
Lemma read_ipv6_mapped ab cd :
  in_u16 ab -> in_u16 cd ->
  read_ipv4_addr ("::ffff:" ++ show_ipv4 (v4_of_groups ab cd)) = None
  /\ read_ipv6_addr ("::ffff:" ++ show_ipv4 (v4_of_groups ab cd)) = Some ([0; 0; 0; 0; 0; 65535; ab; cd]%Z, "").
Proof.
  intros Hab Hcd. split; [done|]. unfold in_u16, u16_max in *.
  pose proof (read_ipv4_show _ "" (v4_of_groups_wf ab cd Hab Hcd) I) as Hr. rewrite app_nil_r in Hr. revert Hr.
  generalize (show_ipv4 (v4_of_groups ab cd)) as t. intros t Hr.
  unfold read_ipv6_addr.
  assert (read_groups 8 true ("::ffff:" ++ t) = ([], false, "::ffff:" ++ t)) as -> by done.
  assert (strip_prefix "::" ("::ffff:" ++ t) = Some ("ffff:" ++ t)) as -> by done. cbn [length Nat.eqb Nat.add Nat.sub].
  assert (read_groups 7 true ("ffff:" ++ t) = ([65535; ab; cd]%Z, true, "")) as ->; [|done].
  assert (forall n, read_groups (S n) true ("ffff:" ++ t)
    = (let '(l, v4, r) := read_groups n false (":" ++ t) in ((65535 :: l)%Z, v4, r))) as ->.
  { intros n. cbn [read_groups]. destruct (1 <? S n)%nat; done. }
  cbn [read_groups Nat.ltb Nat.leb read_separator]. rewrite strip_prefix_app, Hr. unfold v4_of_groups.
  rewrite !(Z.mul_comm (_ / 256) 256), <- !Z.div_mod by lia. done.
Qed.

Lemma parse_show_ipv6 s : length s = 8 -> Forall in_u16 s -> parse_ip (show_ipv6 s) = Some (V6 s).
Proof.
  intros Hlen Hs. unfold show_ipv6. case_bool_decide as Hm.
  { destruct (mapped_groups s Hlen Hs Hm) as (ab & cd & -> & Hab & Hcd).
    destruct (read_ipv6_mapped ab cd Hab Hcd) as [H4 H6]. by apply parse_ip_v6_intro. }
  destruct (Nat.ltb_spec 1 (sp_len (longest_zeros s))) as [Hz|Hz].
  - destruct (zeros_split s (longest_zeros s)) as [Hsplit Hle]; [apply longest_zeros_run|lia|].
    set (z := longest_zeros s) in *. set (h := take (sp_start z) s) in *. set (t := drop (sp_start z + sp_len z) s) in *.
    assert (Forall in_u16 h) as Hh by by apply Forall_take. assert (Forall in_u16 t) as Ht by by apply Forall_drop.
    assert (length h = sp_start z) as Lh by (apply length_take_le; lia).
    assert (length t = 8 - (sp_start z + sp_len z)) as Lt by (unfold t; rewrite length_drop; lia).
    assert (forall l, groups_text true l = show_groups l) as Hg by (intros []; done).
    assert (no_dot ("::" ++ show_groups t) = true) as Hdot by (rewrite no_dot_app, <- Hg, groups_text_no_dot; done).
    apply parse_ip_v6_intro.
    { apply read_ipv4_no_dot. rewrite no_dot_app, Hdot, <- Hg, groups_text_no_dot; done. }
    unfold read_ipv6_addr. rewrite <- (Hg h), read_groups_show; [|done|lia|right; eauto|done].
    destruct (Nat.eqb_spec (length h) 8); [lia|]. rewrite strip_prefix_app.
    rewrite <- (app_nil_r (show_groups t)), <- Hg. rewrite read_groups_show; [|done|lia|by left|done].
    f_equal. f_equal. rewrite Hsplit at 1. do 3 f_equal. lia.
  - assert (show_groups s = groups_text true s ++ "") as -> by (rewrite app_nil_r; by destruct s).
    apply parse_ip_v6_intro; [by apply read_ipv4_no_dot; rewrite no_dot_app, groups_text_no_dot|].
    unfold read_ipv6_addr. rewrite read_groups_show; [|done|lia|by left|done]. by rewrite Hlen.
Qed.

(** Every address is read back from its text, IPv6 addresses with a compressed
    run of zeros or an embedded IPv4 address included. *)
Lemma parse_show_ip ip : ip_wf ip -> parse_ip (show_ip ip) = Some ip.
Proof.
  destruct ip as [o|s]; simpl; [|intros [Hl Hs]; by apply parse_show_ipv6].
  intros Ho. unfold parse_ip. pose proof (read_ipv4_show o "" Ho I) as H. rewrite app_nil_r in H. by rewrite H.
Qed.
Lemma to_from_std a : socket_addr_wf a -> to_std (from_std a) = Some a.
Proof. intros [Hip _]. unfold to_std, from_std. simpl. rewrite parse_show_ip by done. by destruct a. Qed.
