(* ===== verification/ProxyProtocol.v ===== *)
(** * The PROXY protocol

    [core/src/net/proxy_protocol.rs]: the headers, versions 1 and 2, that tell a
    local service who its client is, and their parser, which is given what has
    arrived so far.  Buffers are byte strings. *)

From S2P Require Import Prelude RustStr Config Msg Net.

Local Open Scope string_scope.

(** ** Bytes *)

Definition byte (z : Z) : ascii := byte_of (Z.to_N z).
Fixpoint bytes (l : list Z) : string := match l with [] => "" | z :: l => String (byte z) (bytes l) end.
(** [buf[i]], for an index that is in range. *)
Definition byte_at (s : string) (i : nat) : Z :=
  match String.get i s with Some c => Z.of_N (code c) | None => 0 end.
Definition u16_to_be_bytes (z : Z) : list Z := [z / 256; z mod 256]%Z.
Definition u16_from_be_bytes (a b : Z) : Z := (a * 256 + b)%Z.
Definition octets4 (o : Z * Z * Z * Z) : list Z := let '(a, b, c, d) := o in [a; b; c; d].
(** [Ipv6Addr::octets] and back. *)
Definition octets6 (s : list Z) : list Z := concat (map u16_to_be_bytes s).
Fixpoint groups_of (l : list Z) : list Z :=
  match l with a :: b :: l => u16_from_be_bytes a b :: groups_of l | _ => [] end.

(** [str::split_whitespace]. *)
Fixpoint take_word (s : string) : string * string :=
  match s with
  | "" => ("", "")
  | String c r => if (0 <? ws_len s)%nat then ("", s) else let '(w, r) := take_word r in (String c w, r)
  end.
Fixpoint split_words (fuel : nat) (s : string) : list string :=
  match fuel with
  | O => []
  | S fuel =>
      let s := trim_start s in
      if is_empty s then [] else let '(w, r) := take_word s in w :: split_words fuel r
  end.
Definition split_whitespace (s : string) : list string := split_words (S (String.length s)) s.

(** [str::parse::<u16>] with its error text. *)
Fixpoint int_error (acc : Z) (s : string) : string :=
  match s with
  | "" => ""
  | String c s =>
      if negb (is_digit c) then "invalid digit found in string"
      else
        let acc := (acc * 10 + Z.of_N (code c - 48))%Z in
        if (u16_max <? acc)%Z then "number too large to fit in target type" else int_error acc s
  end.
Definition parse_u16 (s : string) : Anyhow Z :=
  ok_or (parse_uint u16_max s)
    (match s with
     | "" => "cannot parse integer from empty string"
     | String "+" "" => "invalid digit found in string"
     | String "+" s => int_error 0 s
     | _ => int_error 0 s
     end).
Definition parse_ip_addr (s : string) : Anyhow IpAddr := ok_or (parse_ip s) "invalid IP address syntax".

(** ** Building *)

Definition PROXY_PROTOCOL_MAX_HEADER : nat := 256.
Definition V2_SIG : string := bytes [13; 10; 13; 10; 0; 13; 10; 81; 85; 73; 84; 10]%Z.

Definition parse_proxy_protocol_version (s : string) : Anyhow (option string) :=
  let s := trim s in
  if is_empty s then Ok None
  else if eq_ignore_ascii_case s "v1" then Ok (Some "v1")
  else if eq_ignore_ascii_case s "v2" then Ok (Some "v2")
  else Err ("invalid proxyProtocolVersion " ++ debug_str s ++ "; use " ++ debug_str "" ++ " | "
            ++ debug_str "v1" ++ " | " ++ debug_str "v2").

Definition build_v1 (src dst : SocketAddr) : string :=
  let '(family, src_ip, dst_ip) :=
    match sa_ip src, sa_ip dst with
    | V4 a, V4 b => ("TCP4", show_ip (V4 a), show_ip (V4 b))
    | V6 a, V6 b => ("TCP6", show_ip (V6 a), show_ip (V6 b))
    | V4 a, V6 _ => ("TCP4", show_ip (V4 a), "127.0.0.1")
    | V6 a, V4 _ => ("TCP6", show_ip (V6 a), "::1")
    end in
  "PROXY " ++ family ++ " " ++ src_ip ++ " " ++ dst_ip ++ " " ++ show_Z (sa_port src) ++ " "
  ++ show_Z (sa_port dst) ++ crlf.

Definition v2_ipv4 (s d : Z * Z * Z * Z) (sp dp : Z) : string :=
  bytes [17]%Z ++ bytes (u16_to_be_bytes 12) ++ bytes (octets4 s) ++ bytes (octets4 d)
  ++ bytes (u16_to_be_bytes sp) ++ bytes (u16_to_be_bytes dp).
Definition v2_ipv6 (s d : list Z) (sp dp : Z) : string :=
  bytes [33]%Z ++ bytes (u16_to_be_bytes 36) ++ bytes (octets6 s) ++ bytes (octets6 d)
  ++ bytes (u16_to_be_bytes sp) ++ bytes (u16_to_be_bytes dp).
Definition build_v2 (src dst : SocketAddr) : string :=
  V2_SIG ++ bytes [33]%Z ++
  match sa_ip src, sa_ip dst with
  | V4 s, V4 d => v2_ipv4 s d (sa_port src) (sa_port dst)
  | V6 s, V6 d => v2_ipv6 s d (sa_port src) (sa_port dst)
  | V4 s, _ => v2_ipv4 s V4_LOCALHOST (sa_port src) (sa_port dst)
  | V6 s, _ => v2_ipv6 s V6_LOCALHOST (sa_port src) (sa_port dst)
  end.

Definition build_proxy_protocol_header (src dst : SocketAddr) (version : string) : Anyhow string :=
  if String.eqb version "v1" then Ok (build_v1 src dst)
  else if String.eqb version "v2" then Ok (build_v2 src dst)
  else Err ("unsupported PROXY Protocol version: " ++ version).

(** ** Parsing *)

Record ParsedProxyHeader := MkParsed { pp_src : SocketAddr; pp_dst : SocketAddr; pp_header_len : nat }.
Inductive PpConsume :=
| NotProxy
| Incomplete
| Done (h : ParsedProxyHeader).

Definition unspecified : SocketAddr := MkSocketAddr (V4 V4_UNSPECIFIED) 0.

Definition parse_v1 (buf : string) : Anyhow PpConsume :=
  match find crlf buf with
  | None =>
      if (108 <=? String.length buf)%nat then Err "invalid PROXY v1 header (no CRLF)" else Ok Incomplete
  | Some end_ =>
      let? line := ok_or (from_utf8 (stake end_ buf)) "PROXY v1 not utf8" in
      let header_len := end_ + 2 in
      let parts := split_whitespace line in
      if (2 <=? length parts)%nat && bool_decide (parts !! 1 = Some "UNKNOWN")
      then Ok (Done (MkParsed unspecified unspecified header_len))
      else match parts with
      | _ :: _ :: p2 :: p3 :: p4 :: p5 :: _ =>
          let? src_ip := parse_ip_addr p2 in
          let? dst_ip := parse_ip_addr p3 in
          let? src_port := parse_u16 p4 in
          let? dst_port := parse_u16 p5 in
          Ok (Done (MkParsed (MkSocketAddr src_ip src_port) (MkSocketAddr dst_ip dst_port) header_len))
      | _ => Err ("invalid PROXY v1 line: " ++ line)
      end
  end.

Definition parse_v2 (buf : string) : Anyhow PpConsume :=
  if (String.length buf <? 16)%nat then Ok Incomplete else
  let ver_cmd := byte_at buf 12 in
  let version := Z.shiftr ver_cmd 4 in
  let cmd := Z.land ver_cmd 15 in
  bail_if negb (version =? 2)%Z with ("unsupported PROXY v2 version " ++ show_Z version) ;;
  let fam_prot := byte_at buf 13 in
  let addr_len := Z.to_nat (u16_from_be_bytes (byte_at buf 14) (byte_at buf 15)) in
  let total := 16 + addr_len in
  if (String.length buf <? total)%nat then Ok Incomplete else
  if (cmd =? 0)%Z then Ok (Done (MkParsed unspecified unspecified total)) else
  bail_if negb (cmd =? 1)%Z with ("unsupported PROXY v2 command " ++ show_Z cmd) ;;
  let addr i := byte_at buf (16 + i) in
  let port i := u16_from_be_bytes (addr i) (addr (i + 1)) in
  let done_ s sp d dp := Ok (Done (MkParsed (MkSocketAddr s sp) (MkSocketAddr d dp) total)) in
  if (fam_prot =? 17)%Z then
    bail_if (addr_len <? 12)%nat with "PROXY v2 IPv4 address block short" ;;
    done_ (V4 (addr 0, addr 1, addr 2, addr 3)) (port 8) (V4 (addr 4, addr 5, addr 6, addr 7)) (port 10)
  else if (fam_prot =? 33)%Z then
    bail_if (addr_len <? 36)%nat with "PROXY v2 IPv6 address block short" ;;
    done_ (V6 (groups_of (map addr (seq 0 16)))) (port 32) (V6 (groups_of (map addr (seq 16 16)))) (port 34)
  else Err ("unsupported PROXY v2 family/protocol 0x" ++ show_hex (Z.to_N fam_prot)).

Definition try_consume_proxy_protocol (buf : string) : Anyhow PpConsume :=
  if is_empty buf then Ok Incomplete
  else if (byte_at buf 0 =? 80)%Z then
    if (String.length buf <? 6)%nat then Ok (if starts_with buf "PROXY " then Incomplete else NotProxy)
    else if negb (starts_with "PROXY " buf) then Ok NotProxy
    else parse_v1 buf
  else if (byte_at buf 0 =? 13)%Z then
    if (String.length buf <? 12)%nat then Ok (if starts_with buf V2_SIG then Incomplete else NotProxy)
    else if negb (starts_with V2_SIG buf) then Ok NotProxy
    else parse_v2 buf
  else Ok NotProxy.

Definition addrs_from_start_data_conn (src_ip : string) (src_port : Z) (dst_ip : string)
    (dst_port fallback_dst_port : Z) : option (SocketAddr * SocketAddr) :=
  if is_empty src_ip then None else
  match parse_ip src_ip with
  | None => None
  | Some s =>
      let src := MkSocketAddr s src_port in
      match (if is_empty dst_ip then Some (V4 V4_LOCALHOST) else parse_ip dst_ip) with
      | None => None
      | Some d => Some (src, MkSocketAddr d (if (dst_port =? 0)%Z then fallback_dst_port else dst_port))
      end
  end.

Example pp_1 :
  let src := MkSocketAddr (V4 (10, 0, 0, 1)%Z) 5000 in
  let dst := MkSocketAddr (V4 (127, 0, 0, 1)%Z) 80 in
  try_consume_proxy_protocol (build_v1 src dst ++ "GET /") = Ok (Done (MkParsed src dst 39))
  /\ try_consume_proxy_protocol (build_v2 src dst ++ "GET /") = Ok (Done (MkParsed src dst 28)).
Proof. vm_compute. split; reflexivity. Qed.

(** ** Lemmas: words *)

Definition word (w : string) : Prop := w <> "" /\ sforall graphic w = true.

Lemma take_word_spec w rest :
  sforall graphic w = true -> rest = "" \/ (exists r, rest = String " " r) -> take_word (w ++ rest) = (w, rest).
Proof.
  intros Hw Hr. induction w as [|c w IH].
  - destruct Hr as [-> | [r ->]]; done.
  - simpl in Hw. apply andb_true_iff in Hw as [Hc Hw]. cbn [String.append take_word].
    rewrite graphic_ws by done. cbn [Nat.ltb Nat.leb]. by rewrite IH.
Qed.
Lemma word_head w s : word w -> ws_len (w ++ s) = 0.
Proof. intros [Hne Hw]. destruct w as [|c w]; [done|]. simpl in Hw. apply andb_true_iff in Hw as [Hc _]. by apply graphic_ws. Qed.
Lemma trim_start_space s : trim_start (String " " s) = trim_start s.
Proof.
  unfold trim_start. cbn [String.length drop_while_len]. change (ws_len (String " " s)) with 1. cbn [sdrop]. by destruct s.
Qed.
Lemma join_cons sep w x ws : join sep (w :: x :: ws) = w ++ sep ++ join sep (x :: ws).
Proof. reflexivity. Qed.
Lemma split_words_join fuel : forall ws, Forall word ws -> length ws <= fuel -> split_words fuel (join " " ws) = ws.
Proof.
  induction fuel as [|fuel IH]; intros ws Hws Hlen.
  { destruct ws; [done|simpl in Hlen; lia]. }
  destruct ws as [|w ws]; [done|]. apply Forall_cons in Hws as [Hw Hws]. cbn [split_words].
  assert (forall w ws, word w -> trim_start (join " " (w :: ws)) = join " " (w :: ws)) as Ht.
  { clear. intros w ws Hw. apply trim_start_id. destruct ws as [|x ws]; simpl; [rewrite <- (app_nil_r w)|]; by apply word_head. }
  rewrite Ht by done.
  assert (is_empty (join " " (w :: ws)) = false) as ->.
  { apply is_empty_false. destruct Hw as [Hw _]. destruct ws; simpl; [done|]. by destruct w. }
  destruct ws as [|x ws].
  - cbn [join]. rewrite <- (app_nil_r w) at 1. rewrite take_word_spec; [|apply Hw|by left].
    destruct fuel; done.
  - cbn [join]. rewrite take_word_spec; [|apply Hw|right; eauto]. f_equal.
    transitivity (split_words fuel (join " " (x :: ws))); [|apply IH; [done|simpl in *; lia]].
    destruct fuel as [|fuel]; [done|]. cbn [split_words String.append]. by rewrite trim_start_space.
Qed.
Lemma join_length_ge ws : Forall word ws -> length ws <= String.length (join " " ws).
Proof.
  induction ws as [|w ws IH]; intros Hws; [simpl; lia|]. apply Forall_cons in Hws as [Hw Hws].
  assert (0 < String.length w) by (destruct Hw as [Hw _]; destruct w; [done|simpl; lia]).
  specialize (IH Hws). destruct ws as [|x ws]; [simpl; lia|]. rewrite join_cons, !length_app_s. simpl in *. lia.
Qed.
Lemma split_whitespace_join ws : Forall word ws -> split_whitespace (join " " ws) = ws.
Proof. intros Hws. apply split_words_join; [done|]. pose proof (join_length_ge ws Hws). lia. Qed.

(** *** Text of a header line *)

Definition line_char (c : ascii) : bool := ((32 <=? code c) && (code c <=? 126))%N.
Lemma graphic_line c : graphic c = true -> line_char c = true.
Proof. unfold graphic, line_char. rewrite !andb_true_iff, !N.leb_le. lia. Qed.
Lemma join_line ws : Forall word ws -> sforall line_char (join " " ws) = true.
Proof.
  induction ws as [|w ws IH]; intros Hws; [done|]. apply Forall_cons in Hws as [[_ Hw] Hws].
  assert (sforall line_char w = true) as Hl by (eapply sforall_impl; [apply graphic_line|done]).
  destruct ws as [|x ws]; [done|]. rewrite join_cons, !sforall_app, Hl, IH by done. done.
Qed.
Lemma line_utf8 s : sforall line_char s = true -> from_utf8 s = Some s.
Proof.
  intros Hs. unfold from_utf8. assert (utf8_valid s = true) as ->; [|done].
  apply ascii_valid. eapply sforall_impl; [|exact Hs]. intros c Hc. unfold line_char in Hc.
  apply andb_true_iff in Hc as [_ Hc%N.leb_le]. apply N.ltb_lt. lia.
Qed.
Lemma find_crlf_line a s : sforall line_char a = true -> find crlf (a ++ s) = option_map (Nat.add (String.length a)) (find crlf s).
Proof.
  intros Ha. induction a as [|c a IH]; cbn [String.append String.length]; [by destruct (find crlf s)|].
  simpl in Ha. apply andb_true_iff in Ha as [Hc Ha]. cbn [find].
  assert (starts_with crlf (String c (a ++ s)) = false) as ->.
  { unfold starts_with, crlf. cbn [strip_prefix]. destruct (Ascii.eqb_spec cr c); [subst; by vm_compute in Hc|done]. }
  rewrite (IH Ha). by destruct (find crlf s).
Qed.

Lemma alnum_graphic c : is_alnum c = true -> graphic c = true.
Proof.
  unfold is_alnum, is_alpha, is_digit, graphic. rewrite !orb_true_iff, !andb_true_iff, !N.leb_le. lia.
Qed.
Lemma digits_graphic s : sforall is_digit s = true -> sforall graphic s = true.
Proof. apply sforall_impl, digit_graphic. Qed.
Lemma show_Z_word z : (0 <= z)%Z -> word (show_Z z).
Proof. intros Hz. split; [by apply show_Z_nonempty|]. by apply digits_graphic, show_Z_digits. Qed.
Lemma show_N_length k n : (n < 10 ^ N.of_nat (S k))%N -> String.length (show_N n) <= S k.
Proof.
  intros Hn. unfold show_N. assert (forall k fuel n acc, (n < 10 ^ N.of_nat (S k))%N ->
    String.length (show_go fuel n acc) <= S k + String.length acc) as H; [|specialize (H k (S (N.size_nat n)) n "" Hn); simpl in *; lia].
  clear. induction k as [|k IH]; intros [|fuel] n acc Hn; cbn [show_go]; try (simpl; lia).
  - change (10 ^ N.of_nat 1)%N with 10%N in Hn. rewrite N.div_small by lia. simpl. lia.
  - destruct (n / 10 =? 0)%N; [simpl; lia|].
    specialize (IH fuel (n / 10)%N (String (digit_char (n mod 10)) acc)). cbn [String.length] in IH.
    rewrite Nat2N.inj_succ, N.pow_succ_r' in Hn. assert (n / 10 < 10 ^ N.of_nat (S k))%N; [|lia].
    apply N.Div0.div_lt_upper_bound. lia.
Qed.
Lemma show_Z_length k z : (0 <= z < 10 ^ Z.of_nat (S k))%Z -> String.length (show_Z z) <= S k.
Proof.
  intros Hz. unfold show_Z. destruct (Z.ltb_spec z 0); [lia|]. apply show_N_length.
  apply N2Z.inj_lt. rewrite N2Z.inj_pow, Z2N.id, nat_N_Z by lia. simpl (Z.of_N 10). lia.
Qed.

Lemma show_ipv4_word o : ip_wf (V4 o) -> sforall graphic (show_ipv4 o) = true /\ 0 < String.length (show_ipv4 o) <= 15.
Proof.
  destruct o as [[[a b] c] d]. unfold ip_wf, octet, show_ipv4. intros (Ha & Hb & Hc & Hd).
  rewrite !sforall_app, !length_app_s.
  assert (forall z, (0 <= z <= 255)%Z -> sforall graphic (show_Z z) = true) as Hw by (intros; apply digits_graphic, show_Z_digits; lia).
  rewrite (Hw a Ha), (Hw b Hb), (Hw c Hc), (Hw d Hd). split; [done|]. simpl (String.length ".").
  assert (forall z, (0 <= z <= 255)%Z -> 0 < String.length (show_Z z) <= 3) as Hz.
  { intros z Hz. split; [|apply show_Z_length; simpl; lia].
    destruct (show_Z z) eqn:E; [by apply show_Z_nonempty in E; [|lia]|simpl; lia]. }
  pose proof (Hz a Ha). pose proof (Hz b Hb). pose proof (Hz c Hc). pose proof (Hz d Hd). lia.
Qed.
Lemma show_groups_word l : Forall in_u16 l -> sforall graphic (show_groups l) = true /\ String.length (show_groups l) <= 5 * length l - 1.
Proof.
  induction l as [|g l IH]; intros Hl; [done|]. apply Forall_cons in Hl as [Hg Hl]. destruct (IH Hl) as [IH1 IH2].
  destruct (show_group_spec g Hg) as (_ & Hlen & Ha).
  rewrite show_groups_cons, sforall_app, length_app_s. rewrite (sforall_impl _ graphic _ alnum_graphic Ha).
  unfold groups_text. destruct l as [|x l]; [simpl; lia|]. rewrite sforall_app, length_app_s, IH1. simpl length in *. simpl (String.length ":").
  split; [done|]. lia.
Qed.
Lemma show_ip_word ip : ip_wf ip -> word (show_ip ip) /\ String.length (show_ip ip) <= 39.
Proof.
  assert (forall s, sforall graphic s = true -> 0 < String.length s <= 39 -> word s /\ String.length s <= 39) as Hintro.
  { intros s Hs Hl. split; [|lia]. split; [|done]. intros ->. simpl in Hl. lia. }
  destruct ip as [o|s]; simpl show_ip.
  - intros Ho. destruct (show_ipv4_word o Ho). apply Hintro; [done|lia].
  - intros [Hlen Hs]. unfold show_ipv6. case_bool_decide as Hm.
    + destruct (mapped_groups s Hlen Hs Hm) as (ab & cd & -> & Hab & Hcd).
      destruct (show_ipv4_word (v4_of_groups ab cd)) as [Hw Hl]; [by apply v4_of_groups_wf|]. simpl drop. cbn iota.
      apply Hintro; [rewrite sforall_app, Hw; done|]. rewrite length_app_s. simpl (String.length "::ffff:"). lia.
    + destruct (Nat.ltb_spec 1 (sp_len (longest_zeros s))) as [Hz|Hz].
      * destruct (zeros_split s (longest_zeros s)) as [_ Hle]; [apply longest_zeros_run|lia|].
        set (z := longest_zeros s) in *.
        destruct (show_groups_word (take (sp_start z) s)) as [H1 L1]; [by apply Forall_take|].
        destruct (show_groups_word (drop (sp_start z + sp_len z) s)) as [H2 L2]; [by apply Forall_drop|].
        rewrite length_take_le in L1 by lia. rewrite length_drop in L2.
        apply Hintro; [rewrite !sforall_app, H1, H2; done|]. rewrite !length_app_s. simpl (String.length "::"). lia.
      * destruct (show_groups_word s Hs) as [H1 L1]. apply Hintro; [done|]. split; [|lia].
        destruct s as [|g s]; [done|]. rewrite show_groups_cons, length_app_s.
        apply Forall_cons in Hs as [Hg _]. destruct (show_group_spec g Hg) as (_ & ? & _). lia.
Qed.

(** ** Lemmas: version 1 *)

(** The destination as the header announces it: in the source's family. *)
Definition announced (src dst : SocketAddr) : SocketAddr :=
  match sa_ip src, sa_ip dst with
  | V4 _, V6 _ => MkSocketAddr (V4 V4_LOCALHOST) (sa_port dst)
  | V6 _, V4 _ => MkSocketAddr (V6 V6_LOCALHOST) (sa_port dst)
  | _, _ => dst
  end.
Definition family (a : SocketAddr) : string := match sa_ip a with V4 _ => "TCP4" | V6 _ => "TCP6" end.
Definition v1_words (src dst : SocketAddr) : list string :=
  ["PROXY"; family src; show_ip (sa_ip src); show_ip (sa_ip (announced src dst)); show_Z (sa_port src); show_Z (sa_port dst)].

Lemma announced_wf src dst : socket_addr_wf dst -> socket_addr_wf (announced src dst).
Proof.
  unfold announced, socket_addr_wf. intros [Hip Hp].
  destruct (sa_ip src), (sa_ip dst) eqn:E; simpl; rewrite ?E; split; auto; unfold octet, V6_LOCALHOST; try lia.
  split; [done|]. repeat constructor; unfold u16_max; lia.
Qed.
Lemma announced_port src dst : sa_port (announced src dst) = sa_port dst.
Proof. unfold announced. by destruct (sa_ip src), (sa_ip dst). Qed.
Lemma build_v1_words src dst : build_v1 src dst = join " " (v1_words src dst) ++ crlf.
Proof.
  unfold build_v1, v1_words, family, announced. cbn [join].
  destruct (sa_ip src), (sa_ip dst) eqn:E; simpl sa_ip; rewrite ?E, !app_assoc; done.
Qed.
Lemma v1_words_ok src dst :
  socket_addr_wf src -> socket_addr_wf dst ->
  Forall word (v1_words src dst) /\ String.length (join " " (v1_words src dst)) <= 103.
Proof.
  intros [Hs Hsp] Hd. pose proof (announced_wf src dst Hd) as [Ha _]. destruct Hd as [_ Hdp].
  destruct (show_ip_word _ Hs) as [Ws Ls], (show_ip_word _ Ha) as [Wa La]. unfold in_u16, u16_max in *.
  assert (String.length (show_Z (sa_port src)) <= 5 /\ String.length (show_Z (sa_port dst)) <= 5) as [Lp Lq]
    by (split; apply show_Z_length; simpl; lia).
  split.
  - unfold v1_words, family. repeat constructor; try (apply Ws || apply Wa || apply show_Z_word; lia);
      by destruct (sa_ip src).
  - unfold v1_words, family. cbn [join]. rewrite !length_app_s. simpl (String.length " ").
    destruct (sa_ip src); simpl (String.length "PROXY"); simpl (String.length "TCP4"); simpl (String.length "TCP6"); lia.
Qed.
Lemma parse_u16_show z : in_u16 z -> parse_u16 (show_Z z) = Ok z.
Proof. intros Hz. unfold parse_u16. by rewrite parse_uint_show. Qed.

Lemma try_consume_v1 buf : starts_with "PROXY " buf = true -> try_consume_proxy_protocol buf = parse_v1 buf.
Proof. intros Hs. apply starts_with_spec in Hs as [r ->]. done. Qed.
Lemma v1_starts src dst : exists r, join " " (v1_words src dst) = "PROXY " ++ r.
Proof. unfold v1_words. cbn [join]. eauto. Qed.

Lemma v1_consumed src dst rest :
  socket_addr_wf src -> socket_addr_wf dst ->
  try_consume_proxy_protocol (build_v1 src dst ++ rest)
  = Ok (Done (MkParsed src (announced src dst) (String.length (build_v1 src dst)))).
Proof.
  intros Hs Hd. destruct (v1_words_ok src dst Hs Hd) as [Hw _]. rewrite build_v1_words.
  pose proof (join_line _ Hw) as Hline. rewrite try_consume_v1.
  2: { apply starts_with_spec. destruct (v1_starts src dst) as [r ->]. exists (r ++ crlf ++ rest). by rewrite !app_assoc. }
  unfold parse_v1. rewrite app_assoc, find_crlf_line by done.
  assert (find crlf (crlf ++ rest) = Some 0) as -> by done. cbn [option_map]. rewrite Nat.add_0_r.
  rewrite stake_app_length, line_utf8 by done. cbn [ok_or]. rewrite split_whitespace_join by done.
  rewrite (bool_decide_eq_false_2 (v1_words src dst !! 1 = Some "UNKNOWN")), andb_false_r.
  2: { unfold v1_words, family. by destruct (sa_ip src). }
  unfold v1_words, parse_ip_addr.
  rewrite parse_show_ip by apply Hs. rewrite parse_show_ip by (by apply announced_wf). cbn [ok_or].
  rewrite !parse_u16_show by (apply Hs || apply Hd). do 3 f_equal.
  - by destruct src.
  - rewrite <- (announced_port src dst). by destruct (announced src dst).
  - rewrite length_app_s. done.
Qed.

(** *** What has arrived of a header *)

Lemma stake_app_ge n a b : String.length a <= n -> stake n (a ++ b) = a ++ stake (n - String.length a) b.
Proof.
  revert n. induction a as [|c a IH]; intros n Hn; simpl in *; [by rewrite Nat.sub_0_r|].
  destruct n as [|n]; [lia|]. cbn [stake Nat.sub]. f_equal. apply IH. lia.
Qed.
Lemma sforall_stake p n s : sforall p s = true -> sforall p (stake n s) = true.
Proof.
  intros Hs. rewrite <- (stake_sdrop n s), sforall_app in Hs. by apply andb_true_iff in Hs as [Hs _].
Qed.
Lemma v1_incomplete src dst n :
  socket_addr_wf src -> socket_addr_wf dst -> n < String.length (build_v1 src dst) ->
  try_consume_proxy_protocol (stake n (build_v1 src dst)) = Ok Incomplete.
Proof.
  intros Hs Hd Hn. destruct (v1_words_ok src dst Hs Hd) as [Hw Hlen]. rewrite build_v1_words in *.
  pose proof (join_line _ Hw) as Hline. destruct (v1_starts src dst) as [r Hr].
  set (line := join " " (v1_words src dst)) in *. rewrite length_app_s in Hn. simpl (String.length crlf) in Hn.
  destruct (Nat.ltb_spec n 6) as [H6|H6].
  - rewrite Hr, app_assoc. do 6 (destruct n as [|n]; [done|]). lia.
  - rewrite try_consume_v1.
    2: { rewrite Hr, app_assoc, stake_app_ge by done. apply starts_with_app. }
    unfold parse_v1.
    assert (find crlf (stake n (line ++ crlf)) = None) as ->.
    { destruct (Nat.leb_spec n (String.length line)).
      - rewrite stake_app_le by done. rewrite <- (app_nil_r (stake n line)).
        by rewrite find_crlf_line by by apply sforall_stake.
      - rewrite stake_app_ge by lia. assert (n - String.length line = 1) as -> by lia.
        by rewrite find_crlf_line. }
    rewrite length_stake, length_app_s. simpl (String.length crlf).
    destruct (Nat.leb_spec 108 (n `min` (String.length line + 2))); [lia|done].
Qed.

(** ** Lemmas: version 2 *)

Lemma bytes_app a b : bytes a ++ bytes b = bytes (a ++ b)%list.
Proof. induction a as [|z a IH]; simpl; [done|]. by rewrite IH. Qed.
Lemma length_bytes l : String.length (bytes l) = length l.
Proof. induction l; simpl; auto. Qed.
Lemma stake_bytes n l : stake n (bytes l) = bytes (take n l).
Proof. revert n. induction l as [|z l IH]; intros [|n]; simpl; [done..|]. by rewrite IH. Qed.
Lemma byte_at_bytes l rest i z : Forall octet l -> l !! i = Some z -> byte_at (bytes l ++ rest) i = z.
Proof.
  intros Hl. revert i. induction Hl as [|x l Hx Hl IH]; intros i; [done|]. destruct i as [|i].
  - intros [= ->]. unfold octet in Hx. unfold byte_at. cbn [bytes String.append String.get].
    unfold byte. rewrite code_byte_of by lia. lia.
  - intros Hi. apply (IH i Hi).
Qed.
Lemma u16_octets z : in_u16 z -> Forall octet (u16_to_be_bytes z) /\ u16_from_be_bytes (z / 256) (z mod 256) = z.
Proof.
  unfold in_u16, u16_max, u16_to_be_bytes, u16_from_be_bytes, octet. intros Hz. split.
  - assert (0 <= z mod 256 < 256)%Z by by apply Z.mod_pos_bound.
    assert (0 <= z / 256 < 256)%Z by (split; [apply Z.div_pos; lia|apply Z.div_lt_upper_bound; lia]).
    repeat constructor; lia.
  - rewrite (Z.div_mod z 256) at 3 by done. lia.
Qed.
Lemma octets6_spec s : Forall in_u16 s -> Forall octet (octets6 s) /\ groups_of (octets6 s) = s /\ length (octets6 s) = 2 * length s.
Proof.
  induction 1 as [|z s Hz Hs (IH1 & IH2 & IH3)]; [done|]. destruct (u16_octets z Hz) as [Ho Hb].
  unfold octets6 in *. simpl. split; [|split].
  - apply (Forall_app_2 _ _ _ Ho IH1).
  - by rewrite Hb, IH2.
  - lia.
Qed.

(** The bytes of a version 2 header. *)
Definition v2_sig : list Z := [13; 10; 13; 10; 0; 13; 10; 81; 85; 73; 84; 10]%Z.
Definition ip_octets (ip : IpAddr) : list Z := match ip with V4 o => octets4 o | V6 s => octets6 s end.
Definition v2_addrs (src dst : SocketAddr) : list Z :=
  ip_octets (sa_ip src) ++ ip_octets (sa_ip (announced src dst))
  ++ u16_to_be_bytes (sa_port src) ++ u16_to_be_bytes (sa_port dst).
Definition v2_bytes (src dst : SocketAddr) : list Z :=
  v2_sig ++ 33%Z :: match sa_ip src with V4 _ => [17; 0; 12]%Z | V6 _ => [33; 0; 36]%Z end ++ v2_addrs src dst.

Lemma ip_octets_spec ip :
  ip_wf ip -> Forall octet (ip_octets ip) /\ length (ip_octets ip) = match ip with V4 _ => 4 | V6 _ => 16 end.
Proof.
  destruct ip as [[[[a b] c] d]|s]; simpl.
  - intros (Ha & Hb & Hc & Hd). split; [|done]. rewrite !Forall_cons. auto.
  - intros [Hlen Hs]. destruct (octets6_spec s Hs) as (? & _ & ->). split; [done|lia].
Qed.
Lemma announced_family src dst :
  match sa_ip src with V4 _ => exists o, sa_ip (announced src dst) = V4 o | V6 _ => exists s, sa_ip (announced src dst) = V6 s end.
Proof. unfold announced. destruct (sa_ip src), (sa_ip dst) eqn:E; simpl; rewrite ?E; eauto. Qed.

Lemma build_v2_bytes src dst : build_v2 src dst = bytes (v2_bytes src dst).
Proof.
  unfold build_v2, v2_bytes, v2_addrs, announced, v2_ipv4, v2_ipv6, V2_SIG.
  destruct (sa_ip src), (sa_ip dst) eqn:E; simpl sa_ip; rewrite ?E, !bytes_app; f_equal; unfold v2_sig;
    rewrite <- ?(assoc_L (++))%list; done.
Qed.
Lemma v2_addrs_spec src dst :
  socket_addr_wf src -> socket_addr_wf dst ->
  Forall octet (v2_addrs src dst)
  /\ length (v2_addrs src dst) = match sa_ip src with V4 _ => 12 | V6 _ => 36 end.
Proof.
  intros [Hs Hsp] Hd. pose proof (announced_wf src dst Hd) as [Ha _]. destruct Hd as [_ Hdp].
  destruct (u16_octets _ Hsp) as [Osp _], (u16_octets _ Hdp) as [Odp _].
  destruct (ip_octets_spec _ Hs) as [Os Ls], (ip_octets_spec _ Ha) as [Oa La]. unfold v2_addrs.
  rewrite !Forall_app, !length_app. simpl (length (u16_to_be_bytes _)). split; [auto|]. rewrite Ls, La.
  pose proof (announced_family src dst) as Hf. destruct (sa_ip src); destruct Hf as [? ->]; lia.
Qed.
Lemma v2_bytes_spec src dst :
  socket_addr_wf src -> socket_addr_wf dst ->
  Forall octet (v2_bytes src dst) /\ length (v2_bytes src dst) = match sa_ip src with V4 _ => 28 | V6 _ => 52 end.
Proof.
  intros Hs Hd. destruct (v2_addrs_spec src dst Hs Hd) as [Ho Hl]. unfold v2_bytes.
  rewrite Forall_app, Forall_cons, Forall_app, length_app. simpl length. rewrite length_app, Hl. split; [|by destruct (sa_ip src)].
  assert (forall l, forallb (fun z => (0 <=? z) && (z <=? 255))%Z l = true -> Forall octet l) as Hb.
  { intros l Hf. apply Forall_forall. intros z Hz. rewrite forallb_forall in Hf. apply list_elem_of_In in Hz.
    specialize (Hf z Hz). unfold octet. zify_bools. lia. }
  split; [by apply Hb|]. split; [unfold octet; lia|]. split; [|done]. destruct (sa_ip src); by apply Hb.
Qed.

(** The address block, as the parser reads it. *)
Lemma map_byte_at l rest k n :
  Forall octet l -> 16 + k + n <= length l ->
  map (fun i => byte_at (bytes l ++ rest) (16 + i)) (seq k n) = take n (drop (16 + k) l).
Proof.
  intros Hl. revert k. induction n as [|n IH]; intros k Hn; [done|]. simpl seq. cbn [map].
  destruct (drop (16 + k) l) as [|z r] eqn:E.
  { apply (f_equal length) in E. rewrite length_drop in E. simpl in E. lia. }
  assert (l !! (16 + k) = Some z) as Hz by by apply (f_equal (lookup 0)) in E; rewrite lookup_drop, Nat.add_0_r in E.
  rewrite (byte_at_bytes l rest _ z Hl Hz). simpl take. f_equal. rewrite IH by lia.
  replace (16 + S k) with (16 + k + 1) by lia. rewrite <- drop_drop, E. done.
Qed.

(** Of a header of which at least the first sixteen bytes have arrived. *)
Lemma try_consume_v2 src dst n rest :
  socket_addr_wf src -> socket_addr_wf dst -> 12 <= n ->
  try_consume_proxy_protocol (bytes (take n (v2_bytes src dst)) ++ rest)
  = parse_v2 (bytes (take n (v2_bytes src dst)) ++ rest).
Proof.
  intros Hs Hd Hn. unfold v2_bytes. rewrite take_app_ge by (simpl; lia). generalize (take (n - length v2_sig)
    (33%Z :: match sa_ip src with V4 _ => [17; 0; 12]%Z | V6 _ => [33; 0; 36]%Z end ++ v2_addrs src dst)%list) as l. intros l.
  rewrite <- bytes_app, app_assoc. done.
Qed.

Lemma v2_consumed src dst rest :
  socket_addr_wf src -> socket_addr_wf dst ->
  try_consume_proxy_protocol (build_v2 src dst ++ rest)
  = Ok (Done (MkParsed src (announced src dst) (String.length (build_v2 src dst)))).
Proof.
  intros Hs Hd. destruct (v2_bytes_spec src dst Hs Hd) as [Ho Hlen].
  destruct (v2_addrs_spec src dst Hs Hd) as [Hoa Hla].
  rewrite build_v2_bytes. pose proof (try_consume_v2 src dst (length (v2_bytes src dst)) rest Hs Hd) as E.
  rewrite firstn_all in E. rewrite E by (rewrite Hlen; destruct (sa_ip src); lia). clear E.
  pose proof (fun i z => byte_at_bytes (v2_bytes src dst) rest i z Ho) as Hb.
  pose proof (fun k n => map_byte_at (v2_bytes src dst) rest k n Ho) as Hm.
  assert (forall k n, take n (drop (16 + k) (v2_bytes src dst)) = take n (drop k (v2_addrs src dst))) as Hdrop.
  { intros k n. unfold v2_bytes. by destruct (sa_ip src). }
  assert (forall k z, v2_addrs src dst !! k = Some z -> byte_at (bytes (v2_bytes src dst) ++ rest) (16 + k) = z) as Ha.
  { intros k z Hz. apply Hb. unfold v2_bytes. by destruct (sa_ip src). }
  destruct (u16_octets (sa_port src)) as [_ Hsp]; [apply Hs|]. destruct (u16_octets (sa_port dst)) as [_ Hdp]; [apply Hd|].
  unfold v2_addrs in Ha, Hdrop.
  pose proof (announced_family src dst) as Hf. pose proof (announced_port src dst) as Hp.
  pose proof (announced_wf src dst Hd) as [Haw _]. destruct Hs as [Hs _].
  unfold parse_v2. rewrite length_app_s, length_bytes, Hlen.
  destruct src as [sip sp]. simpl sa_ip in *. simpl sa_port in *. set (an := announced _ dst) in *.
  destruct an as [aip ap]. simpl sa_ip in *. simpl sa_port in *. subst ap.
  destruct sip as [[[[a b] c] d]|s]; destruct Hf as [o ->].
  - rewrite (Hb 12 33%Z), (Hb 13 17%Z), (Hb 14 0%Z), (Hb 15 12%Z) by done. cbv beta zeta. destruct o as [[[a' b'] c'] d'].
    rewrite (Ha 0 a), (Ha 1 b), (Ha 2 c), (Ha 3 d), (Ha 4 a'), (Ha 5 b'), (Ha 6 c'), (Ha 7 d') by done.
    rewrite (Ha 8 (sp / 256)%Z), (Ha (8 + 1) (sp mod 256)%Z), (Ha 10 (sa_port dst / 256)%Z),
      (Ha (10 + 1) (sa_port dst mod 256)%Z), Hsp, Hdp by done.
    simpl. by destruct (Nat.ltb_spec (28 + String.length rest) 28); [lia|].
  - rewrite (Hb 12 33%Z), (Hb 13 33%Z), (Hb 14 0%Z), (Hb 15 36%Z) by done. cbv beta zeta.
    destruct (ip_octets_spec (V6 s) Hs) as [_ L1], (ip_octets_spec (V6 o) Haw) as [_ L2].
    destruct (octets6_spec s) as (_ & G1 & _); [apply Hs|]. destruct (octets6_spec o) as (_ & G2 & _); [apply Haw|].
    simpl ip_octets in *.
    rewrite !Hm, !Hdrop by (rewrite Hlen; lia). rewrite drop_0, (take_app_length' _ _ 16), (drop_app_length' _ _ 16),
      (take_app_length' _ _ 16), G1, G2 by done.
    rewrite (Ha 32 (sp / 256)%Z), (Ha (32 + 1) (sp mod 256)%Z), (Ha 34 (sa_port dst / 256)%Z),
      (Ha (34 + 1) (sa_port dst mod 256)%Z), Hsp, Hdp.
    2-5: by rewrite !lookup_app_r by lia; rewrite L1, L2.
    simpl. by destruct (Nat.ltb_spec (52 + String.length rest) 52); [lia|].
Qed.
Lemma v2_incomplete src dst n :
  socket_addr_wf src -> socket_addr_wf dst -> n < String.length (build_v2 src dst) ->
  try_consume_proxy_protocol (stake n (build_v2 src dst)) = Ok Incomplete.
Proof.
  intros Hs Hd Hn. destruct (v2_bytes_spec src dst Hs Hd) as [Ho Hlen].
  rewrite build_v2_bytes, length_bytes in *. rewrite stake_bytes.
  destruct (Nat.ltb_spec n 12) as [H12|H12].
  { unfold v2_bytes. rewrite take_app_le by (simpl; lia). do 12 (destruct n as [|n]; [done|]). lia. }
  rewrite <- (app_nil_r (bytes _)), try_consume_v2, app_nil_r by done. unfold parse_v2. rewrite length_bytes, length_take_le by lia.
  destruct (Nat.ltb_spec n 16) as [H16|H16]; [done|].
  assert (forall i z, i < 16 -> v2_bytes src dst !! i = Some z -> byte_at (bytes (take n (v2_bytes src dst))) i = z) as Hb.
  { intros i z Hi Hz. rewrite <- (app_nil_r (bytes _)). apply byte_at_bytes; [by apply Forall_take|].
    rewrite lookup_take_lt by lia. done. }
  rewrite Hlen in Hn. unfold v2_bytes at 1 in Hb. destruct (sa_ip src).
  - rewrite (Hb 12 33%Z), (Hb 14 0%Z), (Hb 15 12%Z) by (lia || done).
    assert ((n <? 16 + Z.to_nat (u16_from_be_bytes 0 12))%nat = true) as -> by (apply Nat.ltb_lt; exact Hn). done.
  - rewrite (Hb 12 33%Z), (Hb 14 0%Z), (Hb 15 36%Z) by (lia || done).
    assert ((n <? 16 + Z.to_nat (u16_from_be_bytes 0 36))%nat = true) as -> by (apply Nat.ltb_lt; exact Hn). done.
Qed.

(** ** Properties *)

(** Every header the client writes is parsed back: whatever follows it, the
    parser consumes exactly the header and finds the source, and the destination
    or, if its family differs from the source's, the loopback address of that
    family with the destination's port; while only part of the header has arrived
    the parser asks for more; and the header never exceeds 107 bytes. *)
Theorem pp_header_roundtrip (src dst : SocketAddr) (version hdr : string) :
  socket_addr_wf src -> socket_addr_wf dst -> build_proxy_protocol_header src dst version = Ok hdr ->
  (forall rest, try_consume_proxy_protocol (hdr ++ rest)
     = Ok (Done (MkParsed src (announced src dst) (String.length hdr))))
  /\ (forall n, n < String.length hdr -> try_consume_proxy_protocol (stake n hdr) = Ok Incomplete)
  /\ String.length hdr <= 107 < PROXY_PROTOCOL_MAX_HEADER.
Proof.
  intros Hs Hd. unfold build_proxy_protocol_header, PROXY_PROTOCOL_MAX_HEADER.
  destruct (String.eqb version "v1"); [|destruct (String.eqb version "v2"); [|done]]; intros [= <-].
  - split; [|split]; [intros; by apply v1_consumed|intros; by apply v1_incomplete|].
    destruct (v1_words_ok src dst Hs Hd) as [_ Hl]. rewrite build_v1_words, length_app_s.
    simpl (String.length crlf). lia.
  - split; [|split]; [intros; by apply v2_consumed|intros; by apply v2_incomplete|].
    rewrite build_v2_bytes, length_bytes. destruct (v2_bytes_spec src dst Hs Hd) as [_ ->]. destruct (sa_ip src); lia.
Qed.

Lemma find_crlf_bound s n : find crlf s = Some n -> n + 2 <= String.length s.
Proof.
  revert n. induction s as [|c s IH]; intros n; cbn [find]; [done|].
  destruct (starts_with crlf (String c s)) eqn:E.
  - intros [= <-]. apply starts_with_spec in E as [r ->]. rewrite length_app_s. simpl. lia.
  - destruct (find crlf s) as [k|]; [|done]. intros [= <-]. specialize (IH k eq_refl). simpl. lia.
Qed.

(** On any input whatever, a header the parser reports lies within the bytes
    that have arrived, so the caller's split of the buffer is in range. *)
Theorem pp_consumed_in_range (buf : string) (h : ParsedProxyHeader) :
  try_consume_proxy_protocol buf = Ok (Done h) -> 1 < pp_header_len h <= String.length buf.
Proof.
  unfold try_consume_proxy_protocol. destruct (is_empty buf); [done|].
  destruct (byte_at buf 0 =? 80)%Z.
  - destruct (_ <? 6)%nat; [by destruct (starts_with _ _)|]. destruct (negb _); [done|]. unfold parse_v1.
    destruct (find crlf buf) as [n|] eqn:Ef; [|by case_match]. apply find_crlf_bound in Ef.
    destruct (from_utf8 _) as [line|]; [|done]. cbn [ok_or]. destruct (_ && _); [intros [= <-]; simpl; lia|].
    destruct (split_whitespace line) as [|? [|? [|p2 [|p3 [|p4 [|p5 ?]]]]]]; try done.
    destruct (parse_ip_addr p2); [|done]. destruct (parse_ip_addr p3); [|done].
    destruct (parse_u16 p4); [|done]. destruct (parse_u16 p5); [|done]. intros [= <-]. simpl. lia.
  - destruct (byte_at buf 0 =? 13)%Z; [|done]. destruct (_ <? 12)%nat; [by destruct (starts_with _ _)|].
    destruct (negb _); [done|]. unfold parse_v2. destruct (_ <? 16)%nat; [done|].
    destruct (negb _); [done|]. set (total := (16 + _)). destruct (Nat.ltb_spec (String.length buf) total); [done|].
    assert (16 <= total) by (subst total; lia). clearbody total. cbv zeta.
    destruct (_ =? 0)%Z; [intros [= <-]; simpl; lia|]. destruct (negb _); [done|].
    destruct (_ =? 17)%Z; [|destruct (_ =? 33)%Z; [|done]]; (destruct (_ <? _)%nat; [done|]); intros [= <-]; simpl; lia.
Qed.

(** *** Witnesses *)

Definition ex_src6 : SocketAddr := MkSocketAddr (V6 [8193; 3512; 0; 0; 0; 0; 0; 1]%Z) 40000.
Definition ex_dst4 : SocketAddr := MkSocketAddr (V4 (192, 0, 2, 7)%Z) 443.

Lemma pp_header_roundtrip_witness :
  exists hdr, build_proxy_protocol_header ex_src6 ex_dst4 "v1" = Ok hdr
  /\ try_consume_proxy_protocol (hdr ++ "GET /")
     = Ok (Done (MkParsed ex_src6 (MkSocketAddr (V6 V6_LOCALHOST) 443) (String.length hdr))).
Proof.
  eexists. split; [vm_compute; reflexivity|].
  apply (pp_header_roundtrip ex_src6 ex_dst4 "v1"); [| |vm_compute; reflexivity].
  - split; [split; [reflexivity|]|]; [repeat (apply Forall_cons; split; [split; discriminate|]); apply Forall_nil; exact I|split; discriminate].
  - split; repeat split; discriminate.
Defined.

Lemma pp_consumed_in_range_witness :
  1 < 15 <= String.length ("PROXY UNKNOWN" ++ crlf ++ "x").
Proof.
  apply (pp_consumed_in_range ("PROXY UNKNOWN" ++ crlf ++ "x") (MkParsed unspecified unspecified 15)).
  vm_compute. reflexivity.
Defined.
