(* ===== verification/HttpHead.v ===== *)
(** * Rewriting HTTP request heads

    [core/src/net/xff.rs] and the helpers of [server/src/tunnel/http.rs] and
    [client/src/plugin/tls_term.rs] that read a request head and change its
    lines.  The HTTP parser ([httparse]) is a parameter; a request head is read
    from the chunks the connection delivers. *)

From S2P Require Import Prelude RustStr Utf8 Config Gateway.

Local Open Scope string_scope.

(** ** Lines *)

(** [str::split_inclusive('\n')]. *)
Fixpoint split_lines (s : string) : list string :=
  match s with
  | "" => []
  | String c r =>
      if Ascii.eqb c lf then String c "" :: split_lines r
      else match split_lines r with
           | [] => [String c ""]
           | l :: ls => String c l :: ls
           end
  end.
Definition is_blank_line (l : string) : bool := String.eqb l crlf || String.eqb l (String lf "").
Definition is_space_tab (c : ascii) : bool := Ascii.eqb c " " || Ascii.eqb c (byte_of 9).
(** Whether a line is the header [name], in any case, at least a byte longer than the name. *)
Definition is_header (name line : string) : bool :=
  let t := trim_start_matches is_space_tab line in
  (S (String.length name) <=? String.length t)%nat
  && eq_ignore_ascii_case (stake (String.length name) t) name
  && starts_with ":" (sdrop (String.length name) t).
Fixpoint position {A} (p : A -> bool) (l : list A) : option nat :=
  match l with [] => None | x :: l => if p x then Some 0 else option_map S (position p l) end.
Definition header_block_end (lines : list string) : nat := default (length lines) (position is_blank_line lines).
Definition line_ending (lines : list string) : string :=
  if existsb (fun l => ends_with crlf l) lines then crlf else String lf "".
Definition insert_at {A} (i : nat) (x : A) (l : list A) : list A := take i l ++ x :: drop i l.

(** ** [apply_x_forwarded_for] *)

(** The loop over the header lines: the last X-Forwarded-For, whether there is an X-Forwarded-Proto. *)
Fixpoint scan_forwarded (i : nat) (xff_idx : option nat) (has_proto : bool) (lines : list string)
    : option nat * bool :=
  match lines with
  | [] => (xff_idx, has_proto)
  | l :: ls =>
      scan_forwarded (S i) (if is_header "x-forwarded-for" l then Some i else xff_idx)
        (is_header "x-forwarded-proto" l || has_proto) ls
  end.
Definition forwarded_value (line client_ip : string) : string :=
  let t := trim_start_matches is_space_tab line in
  let value := trim_end_matches (fun c => Ascii.eqb c cr || Ascii.eqb c lf)
                 (trim (sdrop (S (default 0 (find ":" t))) t)) in
  if is_empty value then client_ip else value ++ ", " ++ client_ip.
Definition xff_line (value ending : string) : string := "X-Forwarded-For: " ++ value ++ ending.
Definition proto_line (proto ending : string) : string := "X-Forwarded-Proto: " ++ proto ++ ending.

Definition apply_x_forwarded_for (head client_ip proto : string) : Anyhow string :=
  let lines := split_lines (from_utf8_lossy head) in
  match lines with
  | [] => Err "empty http request"
  | _ =>
      let ending := line_ending lines in
      let blank_idx := header_block_end lines in
      let '(xff_idx, has_proto) := scan_forwarded 1 None false (drop 1 (take blank_idx lines)) in
      let lines :=
        if is_empty client_ip then lines else
        match xff_idx with
        | Some i => <[i := xff_line (forwarded_value (default "" (lines !! i)) client_ip) ending]> lines
        | None => insert_at blank_idx (xff_line client_ip ending) lines
        end in
      let lines :=
        if negb (is_empty proto) && negb has_proto
        then insert_at (header_block_end lines) (proto_line proto ending) lines else lines in
      Ok (join "" lines)
  end.

(** ** Host headers *)

(** [rewrite_host_header] of the gateway. *)
Fixpoint rewrite_host_lines (new_host : string) (replaced in_headers : bool) (lines : list string)
    : list string * bool :=
  match lines with
  | [] => ([], replaced)
  | line :: ls =>
      if negb in_headers then
        let '(out, r) := rewrite_host_lines new_host replaced false ls in (line :: out, r)
      else if is_blank_line line then
        let '(out, r) := rewrite_host_lines new_host replaced false ls in (line :: out, r)
      else
        let t := trim_start_matches is_space_tab line in
        if negb replaced && (5 <=? String.length t)%nat && eq_ignore_ascii_case (stake 5 t) "host:" then
          let ending := if ends_with crlf line then crlf else if ends_with (String lf "") line then String lf "" else "" in
          let '(out, r) := rewrite_host_lines new_host true true ls in (("Host: " ++ new_host ++ ending) :: out, r)
        else
          let '(out, r) := rewrite_host_lines new_host replaced true ls in (line :: out, r)
  end.
Definition rewrite_host_header (buf new_host : string) : Anyhow string :=
  let '(out, replaced) := rewrite_host_lines new_host false true (split_lines (from_utf8_lossy buf)) in
  if negb replaced then Err "Host header not found for rewrite" else Ok (join "" out).

(** [apply_host_rewrite] of the TLS plugin. *)
Definition is_host_line (line : string) : bool :=
  let t := trim_start_matches is_space_tab line in
  (5 <=? String.length t)%nat && eq_ignore_ascii_case (stake 5 t) "host:".
Definition apply_host_rewrite (buf host_rewrite : string) : Anyhow string :=
  if is_empty host_rewrite then Ok buf else
  let lines := split_lines (from_utf8_lossy buf) in
  match lines with
  | [] => Err "empty http request"
  | _ =>
      let new_line := "Host: " ++ host_rewrite ++ line_ending lines in
      let blank_idx := header_block_end lines in
      Ok (join "" (match position is_host_line (drop 1 (take blank_idx lines)) with
                   | Some i => <[S i := new_line]> lines
                   | None => insert_at blank_idx new_line lines
                   end))
  end.

(** ** Request targets *)

Definition strip_scheme (target : string) : option string :=
  let or_else (o : option string) (p : string) := match o with Some r => Some r | None => strip_prefix p target end in
  or_else (or_else (or_else (strip_prefix "http://" target) "https://") "HTTP://") "HTTPS://".
Definition classify_request_target (method target : string) : bool * string :=
  if eq_ignore_ascii_case method "CONNECT" then (true, "/")
  else match strip_scheme target with
  | Some rest => (true, match find "/" rest with Some i => sdrop i rest | None => "/" end)
  | None => (false, target)
  end.
Definition host_from_absolute_target (target : string) : option string :=
  match strip_scheme target with
  | None => None
  | Some rest =>
      let hostport := default rest (List.hd_error (split "/" rest)) in
      if is_empty hostport then None else Some hostport
  end.

(** ** Reading a head *)

(** The result of [httparse::Request::parse]: the method, target and headers of a complete head. *)
Inductive HttpParse :=
| PComplete (header_len : nat) (method target : option string) (headers : list (string * string))
| PPartial
| PError (e : string).

Record ParsedHttpHead := MkHttpHead {
  hh_raw : string; hh_body_prefix : string; hh_host : string; hh_path : string; hh_is_proxy_request : bool;
  hh_authorization : option string; hh_proxy_authorization : option string }.

Definition header_value (headers : list (string * string)) (name : string) : option string :=
  match List.find (fun h => eq_ignore_ascii_case h.1 name) headers with
  | Some h => Some (from_utf8_lossy h.2)
  | None => None
  end.

Section ReadHead.
Context (httparse : string -> HttpParse).

Definition MAX_HEAD : nat := 64 * 1024.

(** What the parser's answer on the bytes read so far means: [None] to read on. *)
Definition head_of (buf : string) : option (Anyhow ParsedHttpHead) :=
  match httparse buf with
  | PError e => Some (Err e)
  | PPartial => None
  | PComplete header_len method target headers =>
      Some (
        bail_if (String.length buf <? header_len)%nat with "httparse header length exceeds buffer" ;;
        let method := default "" method in
        let target := default "/" target in
        let '(is_proxy_request, path) := classify_request_target method target in
        let? host := ok_or (match header_value headers "host" with
                            | Some h => Some h
                            | None => host_from_absolute_target target
                            end) "missing Host header" in
        Ok (MkHttpHead (stake header_len buf) (sdrop header_len buf) (normalize_host host) path is_proxy_request
              (header_value headers "authorization") (header_value headers "proxy-authorization")))
  end.

(** The connection delivers chunks, an empty one at its end; [None] while the head is not complete. *)
Fixpoint read_http_request_head (buf : string) (chunks : list string)
    : option (Anyhow ParsedHttpHead * list string) :=
  match chunks with
  | [] => None
  | chunk :: chunks =>
      if is_empty chunk then Some (Err "client closed before http headers completed", chunks)
      else
        let buf := buf ++ chunk in
        if (MAX_HEAD <? String.length buf)%nat then Some (Err "http headers too large", chunks)
        else match head_of buf with
        | Some r => Some (r, chunks)
        | None => read_http_request_head buf chunks
        end
  end.
End ReadHead.

(** ** Error responses *)

Definition http_response (status extra body : string) : string :=
  "HTTP/1.1 " ++ status ++ crlf ++ extra ++ "Content-Type: text/plain" ++ crlf ++ "Content-Length: "
  ++ show_Z (slen body) ++ crlf ++ "Connection: close" ++ crlf ++ crlf ++ body.
Definition realm : string := "Basic realm=" ++ dquote ++ "Restricted" ++ dquote.
Definition not_found_response : string := http_response "404 Not Found" "" ("Not Found" ++ newline).
Definition unauthorized_response : string :=
  http_response "401 Unauthorized" ("WWW-Authenticate: " ++ realm ++ crlf) ("Unauthorized" ++ newline).
Definition proxy_unauthorized_response : string :=
  http_response "407 Proxy Authentication Required" ("Proxy-Authenticate: " ++ realm ++ crlf)
    ("Proxy Authentication Required" ++ newline).
Definition bad_gateway_response : string := http_response "502 Bad Gateway" "" ("Bad Gateway" ++ newline).

Example xff_ex :
  apply_x_forwarded_for ("GET / HTTP/1.1" ++ crlf ++ "x-forwarded-FOR: 1.1.1.1" ++ crlf ++ "Host: a" ++ crlf ++ crlf) "9.9.9.9" "http"
  = Ok ("GET / HTTP/1.1" ++ crlf ++ "X-Forwarded-For: 1.1.1.1, 9.9.9.9" ++ crlf ++ "Host: a" ++ crlf
        ++ "X-Forwarded-Proto: http" ++ crlf ++ crlf).
Proof. vm_compute. reflexivity. Qed.
Example host_ex :
  rewrite_host_header ("GET / HTTP/1.1" ++ crlf ++ "host: a" ++ crlf ++ crlf) "b.c"
  = Ok ("GET / HTTP/1.1" ++ crlf ++ "Host: b.c" ++ crlf ++ crlf)
  /\ apply_host_rewrite ("GET / HTTP/1.1" ++ crlf ++ "X: a" ++ crlf ++ crlf) "b.c"
  = Ok ("GET / HTTP/1.1" ++ crlf ++ "X: a" ++ crlf ++ "Host: b.c" ++ crlf ++ crlf).
Proof. vm_compute. split; reflexivity. Qed.

(** ** Lemmas *)

Local Open Scope list_scope.

Lemma join_nil_cons l ls : join "" (l :: ls) = l +:+ join "" ls.
Proof. destruct ls; simpl; [by rewrite app_nil_r|done]. Qed.
Lemma join_nil_app a b : join "" (a ++ b) = join "" a +:+ join "" b.
Proof. induction a as [|x a IH]; [done|]. cbn [app]. rewrite !join_nil_cons, IH. by rewrite app_assoc. Qed.
Lemma join_split_lines s : join "" (split_lines s) = s.
Proof.
  induction s as [|c s IH]; [done|]. cbn [split_lines]. destruct (Ascii.eqb c lf).
  - rewrite join_nil_cons, IH. done.
  - destruct (split_lines s) as [|l ls]; [by rewrite <- IH|]. rewrite join_nil_cons in IH. rewrite join_nil_cons, <- IH. done.
Qed.

Lemma position_split {A} (p : A -> bool) l1 x l2 :
  Forall (fun y => p y = false) l1 -> p x = true -> position p (l1 ++ x :: l2) = Some (length l1).
Proof.
  intros H Hx. induction l1 as [|y l1 IH]; simpl; [by rewrite Hx|].
  apply Forall_cons in H as [-> H]. by rewrite IH.
Qed.
Lemma position_none {A} (p : A -> bool) l : Forall (fun y => p y = false) l -> position p l = None.
Proof. induction 1 as [|y l Hy _ IH]; simpl; [done|]. by rewrite Hy, IH. Qed.

(** The head's lines before the blank line that ends it. *)
Definition head_lines (lines : list string) : Prop := Forall (fun l => is_blank_line l = false) lines.

Lemma block_end pre b post :
  head_lines pre -> is_blank_line b = true -> header_block_end (pre ++ b :: post) = length pre.
Proof. intros Hp Hb. unfold header_block_end. by rewrite position_split. Qed.
Lemma insert_at_length {A} (x : A) l k : insert_at (length l) x (l ++ k) = (l ++ x :: k).
Proof. unfold insert_at. by rewrite take_app_length, drop_app_length. Qed.

Lemma last_split {A} (p : A -> bool) l :
  Forall (fun x => p x = false) l \/ exists l1 x l2, l = l1 ++ x :: l2 /\ p x = true /\ Forall (fun x => p x = false) l2.
Proof.
  induction l as [|y l [IH|(l1 & x & l2 & -> & Hx & Hl)]]; [by left; constructor| |].
  - destruct (p y) eqn:E; [right; by exists [], y, l|left; by constructor].
  - right. by exists (y :: l1), x, l2.
Qed.

Abbreviation is_xff := (is_header "x-forwarded-for").
Abbreviation is_proto := (is_header "x-forwarded-proto").

Lemma scan_none ls : forall i x p,
  Forall (fun l => is_xff l = false) ls -> scan_forwarded i x p ls = (x, existsb is_proto ls || p).
Proof.
  induction ls as [|l ls IH]; intros i x p H; [done|]. apply Forall_cons in H as [Hl H]. cbn [scan_forwarded existsb].
  rewrite Hl, IH by done. f_equal. by destruct (is_proto l), (existsb is_proto ls).
Qed.
Lemma scan_last l1 y l2 : forall i x p,
  is_xff y = true -> Forall (fun l => is_xff l = false) l2 ->
  scan_forwarded i x p (l1 ++ y :: l2) = (Some (i + length l1), existsb is_proto (l1 ++ y :: l2) || p).
Proof.
  induction l1 as [|l l1 IH]; intros i x p Hy H; cbn [app scan_forwarded existsb].
  - rewrite Hy, scan_none by done. simpl. rewrite Nat.add_0_r. f_equal. by destruct (is_proto y), (existsb is_proto l2).
  - rewrite IH by done. simpl. f_equal; [f_equal; lia|]. by destruct (is_proto l), (existsb is_proto (l1 ++ y :: l2)).
Qed.

Lemma xff_line_not_blank v e : is_blank_line (xff_line v e) = false.
Proof. done. Qed.

(** What the header lines become: the address is appended to the last
    X-Forwarded-For, or to the block if there is none. *)
Inductive forwarded (client_ip ending : string) : list string -> list string -> Prop :=
| fw_append hs : Forall (fun l => is_xff l = false) hs ->
    forwarded client_ip ending hs (hs ++ [xff_line client_ip ending])
| fw_extend h1 x h2 : is_xff x = true -> Forall (fun l => is_xff l = false) h2 ->
    forwarded client_ip ending (h1 ++ x :: h2) (h1 ++ xff_line (forwarded_value x client_ip) ending :: h2).

Lemma forwarded_head ip e hs hs' : forwarded ip e hs hs' -> head_lines hs -> head_lines hs'.
Proof.
  intros [hs0 _|h1 x h2 _ _] H; unfold head_lines in *.
  - apply Forall_app. split; [done|]. by repeat constructor.
  - apply Forall_app in H as [H1 H]. apply Forall_cons in H as [_ H2]. apply Forall_app. split; [done|]. by constructor.
Qed.

(** ** Properties *)

(** The gateway tells the local service who the client is without losing or
    reordering anything: in a request head the client's address is appended to
    the last X-Forwarded-For line, after whatever the client had put there, or to
    a new line at the end of the head; X-Forwarded-Proto is added only where there
    is none; the request line, the other headers and all that follows the blank
    line stay as they were. *)
Theorem xff_appended (head client_ip proto r b : string) (hs body : list string) :
  split_lines (from_utf8_lossy head) = r :: hs ++ b :: body ->
  head_lines (r :: hs) -> is_blank_line b = true -> client_ip <> "" -> proto <> "" ->
  let ending := line_ending (r :: hs ++ b :: body) in
  exists hs', forwarded client_ip ending hs hs'
  /\ apply_x_forwarded_for head client_ip proto
     = Ok (join "" (r :: hs' ++ (if existsb is_proto hs then [] else [proto_line proto ending]) ++ b :: body)).
Proof.
  intros Hl Hh Hb Hip Hproto ending. apply is_empty_false in Hip, Hproto.
  pose proof Hh as Hh'. apply Forall_cons in Hh' as [Hr Hhs].
  assert (exists hs', forwarded client_ip ending hs hs'
    /\ (if is_empty client_ip then r :: hs ++ b :: body else
        match (scan_forwarded 1 None false hs).1 with
        | Some i => <[i := xff_line (forwarded_value (default "" ((r :: hs ++ b :: body) !! i)) client_ip) ending]> (r :: hs ++ b :: body)
        | None => insert_at (length (r :: hs)) (xff_line client_ip ending) (r :: hs ++ b :: body)
        end) = r :: hs' ++ b :: body /\ (scan_forwarded 1 None false hs).2 = existsb is_proto hs) as (hs' & Hf & Hlines & Hhas).
  { rewrite Hip. destruct (last_split is_xff hs) as [Hn|(h1 & x & h2 & -> & Hx & Hn)].
    - exists (hs ++ [xff_line client_ip ending]). rewrite scan_none, orb_false_r by done. split; [by constructor|].
      split; [|done]. simpl fst. cbv iota. change (r :: hs ++ b :: body) with ((r :: hs) ++ b :: body).
      rewrite insert_at_length. simpl. by rewrite <- (assoc_L (++)).
    - exists (h1 ++ xff_line (forwarded_value x client_ip) ending :: h2). rewrite scan_last, orb_false_r by done.
      split; [by constructor|]. split; [|done]. simpl fst. cbv iota. simpl lookup. simpl insert.
      rewrite <- (assoc_L (++)), <- app_comm_cons. rewrite list_lookup_middle by done. simpl.
      by rewrite insert_app_r_alt, Nat.sub_diag, <- (assoc_L (++)) by done. }
  exists hs'. split; [done|]. unfold apply_x_forwarded_for. rewrite Hl.
  change (r :: hs ++ b :: body) with ((r :: hs) ++ b :: body) in *.
  rewrite block_end, take_app_length by done. cbn [app drop length] in *. rewrite drop_0.
  destruct (scan_forwarded 1 None false hs) as [xff_idx has_proto] eqn:Es. simpl in Hhas, Hlines. subst has_proto.
  cbn zeta. fold ending. rewrite Hlines. f_equal. rewrite Hproto. cbn [negb andb].
  destruct (existsb is_proto hs); cbn [negb]; [done|].
  change (r :: hs' ++ b :: body) with ((r :: hs') ++ b :: body).
  rewrite block_end, insert_at_length; [by rewrite <- app_comm_cons| |done].
  constructor; [done|]. by eapply forwarded_head.
Qed.

Lemma host_line_eq l : is_host_line l =
  ((5 <=? String.length (trim_start_matches is_space_tab l))%nat
   && eq_ignore_ascii_case (stake 5 (trim_start_matches is_space_tab l)) "host:").
Proof. done. Qed.
Lemma rewrite_host_after h replaced ls : rewrite_host_lines h replaced false ls = (ls, replaced).
Proof. induction ls as [|l ls IH]; [done|]. simpl. by rewrite IH. Qed.
Lemma rewrite_host_done h ls : rewrite_host_lines h true true ls = (ls, true).
Proof.
  induction ls as [|l ls IH]; [done|]. simpl. rewrite IH, rewrite_host_after. by destruct (is_blank_line l).
Qed.
Lemma rewrite_host_skip h pre rest :
  head_lines pre -> Forall (fun l => is_host_line l = false) pre ->
  rewrite_host_lines h false true (pre ++ rest)
  = (pre ++ (rewrite_host_lines h false true rest).1, (rewrite_host_lines h false true rest).2).
Proof.
  intros Hb Hh. induction pre as [|l pre IH]; [cbn [app]; by destruct (rewrite_host_lines h false true rest)|].
  apply Forall_cons in Hb as [Hbl Hb], Hh as [Hhl Hh]. rewrite host_line_eq in Hhl. cbn [app rewrite_host_lines negb].
  rewrite Hbl. cbn zeta. cbn [andb]. rewrite Hhl, IH by done. done.
Qed.

Definition own_ending (line : string) : string :=
  if ends_with crlf line then crlf else if ends_with (String lf "") line then String lf "" else "".

(** A host rewrite replaces the first Host line of the head, in its own line
    ending, and nothing else; without one the request is refused. *)
Lemma host_rewritten (buf new_host : string) (pre post : list string) (h : string) :
  split_lines (from_utf8_lossy buf) = pre ++ h :: post ->
  head_lines pre -> Forall (fun l => is_host_line l = false) pre ->
  (is_blank_line h = true -> rewrite_host_header buf new_host = Err "Host header not found for rewrite")
  /\ (is_blank_line h = false -> is_host_line h = true ->
      rewrite_host_header buf new_host = Ok (join "" (pre ++ ("Host: " +:+ new_host +:+ own_ending h) :: post))).
Proof.
  intros Hl Hb Hh. unfold rewrite_host_header. rewrite Hl, rewrite_host_skip by done. cbn [rewrite_host_lines negb].
  split; intros Eb; rewrite Eb.
  - by rewrite rewrite_host_after.
  - rewrite host_line_eq. intros Eh. cbn zeta. cbn [andb]. rewrite Eh, rewrite_host_done. done.
Qed.

(** ** Lines of a head *)

Definition full_line (l : string) : Prop := exists s, l = s +:+ String lf "" /\ sforall (fun c => negb (Ascii.eqb c lf)) s = true.

Lemma split_full s rest : sforall (fun c => negb (Ascii.eqb c lf)) s = true ->
  split_lines (s +:+ String lf rest) = (s +:+ String lf "") :: split_lines rest.
Proof.
  induction s as [|c s IH]; [done|]. cbn [sforall String.append]. intros [Hc Hs]%andb_true_iff. cbn [split_lines].
  apply negb_true_iff in Hc. by rewrite Hc, IH.
Qed.
Lemma split_join ls : Forall full_line ls -> split_lines (join "" ls) = ls.
Proof.
  induction 1 as [|l ls (s & -> & Hs) _ IH]; [done|]. rewrite join_nil_cons, app_assoc. cbn [String.append]. by rewrite split_full, IH.
Qed.
(** Every line but the last ends with a line feed and has no other. *)
Lemma split_shape s ls l : split_lines s = ls ++ [l] -> Forall full_line ls.
Proof.
  revert ls. induction s as [|c s IH]; intros ls; cbn [split_lines]; [by destruct ls|]. destruct (Ascii.eqb_spec c lf) as [->|Hc].
  - destruct ls as [|l0 ls]; [done|]. intros [= <- E]. constructor; [by exists ""|by apply IH].
  - destruct (split_lines s) as [|l0 ls0] eqn:Es; [by destruct ls as [|? []]|]. destruct ls as [|l1 ls]; [done|]. intros [= <- ->].
    specialize (IH (l0 :: ls) eq_refl). apply Forall_cons in IH as [(t & -> & Ht) IH]. constructor; [|done].
    exists (String c t). split; [done|]. cbn [sforall]. rewrite Ht. by destruct (Ascii.eqb_spec c lf).
Qed.
Lemma blank_full b : is_blank_line b = true -> full_line b.
Proof. unfold is_blank_line. intros [->%String.eqb_eq| ->%String.eqb_eq]%orb_true_iff; [by exists (String cr "")|by exists ""]. Qed.
Lemma join_chars ls rest : Forall full_line ls -> chars (join "" ls +:+ rest) -> chars (join "" ls) /\ chars rest.
Proof.
  revert rest. induction ls as [|l ls IH]; intros rest; [by split; [constructor|]|].
  intros [(s & -> & Hs) Hls]%Forall_cons. rewrite !join_nil_cons, !app_assoc. cbn [String.append].
  intros [H1 H2]%chars_around; [|done]. destruct (IH rest Hls H2) as [H3 H4]. split; [|done].
  apply chars_app; [done|]. change (String lf (join "" ls)) with (String lf "" +:+ join "" ls). apply chars_app; [|done].
  by apply valid_chars.
Qed.

(** ** What a head becomes *)

(** A host rewrite takes the first Host line's place; without one nothing changes. *)
Inductive host_changed (new_host : string) : list string -> list string -> Prop :=
| hc_kept ls : new_host = "" -> host_changed new_host ls ls
| hc_line pre h post : new_host <> "" -> Forall (fun l => is_host_line l = false) pre -> is_host_line h = true ->
    host_changed new_host (pre ++ h :: post) (pre ++ ("Host: " +:+ new_host +:+ own_ending h) :: post).

Lemma own_ending_full l : full_line l -> own_ending l = crlf \/ own_ending l = String lf "".
Proof.
  intros (s & -> & _). unfold own_ending. destruct (ends_with crlf _); [by left|]. right.
  assert (ends_with (String lf "") (s +:+ String lf "") = true) as ->; [|done].
  unfold ends_with, strip_suffix. rewrite srev_app_distr. cbn. by destruct (srev s).
Qed.
Lemma new_line_full new_host l : full_line l -> sforall (fun c => negb (Ascii.eqb c lf)) new_host = true ->
  full_line ("Host: " +:+ new_host +:+ own_ending l).
Proof.
  intros Hl Hn. destruct (own_ending_full l Hl) as [-> | ->].
  - exists ("Host: " +:+ new_host +:+ String cr ""). split; [by rewrite !app_assoc|]. by rewrite !sforall_app, Hn.
  - exists ("Host: " +:+ new_host). split; [by rewrite !app_assoc|]. by rewrite sforall_app, Hn.
Qed.
Lemma first_split {A} (p : A -> bool) l :
  Forall (fun x => p x = false) l \/ exists l1 x l2, l = l1 ++ x :: l2 /\ p x = true /\ Forall (fun x => p x = false) l1.
Proof.
  induction l as [|y l IH]; [by left|]. destruct (p y) eqn:E; [right; by exists [], y, l|].
  destruct IH as [IH|(l1 & x & l2 & -> & Hx & Hl)]; [left; by constructor|]. right. exists (y :: l1), x, l2. split; [done|]. split; [done|by constructor].
Qed.

(** A head of UTF-8 lines, its host rewritten: again one, of the same lines but the Host line. *)
Lemma rewritten_lines raw new_host ls b out :
  split_lines raw = ls ++ [b] -> utf8_valid raw = true -> head_lines ls -> is_blank_line b = true ->
  utf8_valid new_host = true -> sforall (fun c => negb (Ascii.eqb c lf)) new_host = true -> new_host <> "" ->
  rewrite_host_header raw new_host = Ok out ->
  exists ls', host_changed new_host ls ls' /\ split_lines out = ls' ++ [b] /\ utf8_valid out = true /\ head_lines ls'.
Proof.
  intros Hl Hv%valid_chars Hh Hb Hvn Hn Hne Ho. pose proof (split_shape _ _ _ Hl) as Hf. pose proof (blank_full b Hb) as Hbf.
  destruct (first_split is_host_line ls) as [Hno|(pre & h & post & -> & Hhost & Hno)].
  { destruct (host_rewritten raw new_host ls [] b) as [He _]; [by rewrite chars_lossy|done|done|]. by rewrite He in Ho. }
  rewrite <- (assoc_L (++)) in Hl. cbn [app] in Hl. pose proof (proj1 (Forall_app _ _ _) Hh) as [Hh1 [Hhh Hh2]%Forall_cons].
  destruct (host_rewritten raw new_host pre (post ++ [b]) h) as [_ He]; [by rewrite chars_lossy|done|done|].
  rewrite He in Ho by done. apply Ok_inj in Ho as <-. apply Forall_app in Hf as [Hf1 [Hfh Hf2]%Forall_cons].
  exists (pre ++ ("Host: " +:+ new_host +:+ own_ending h) :: post). split; [by constructor|].
  assert (Forall full_line (post ++ [b])) as Hfb by (apply Forall_app; split; [done|by constructor]).
  rewrite split_join, <- (assoc_L (++)); [|apply Forall_app; split; [done|]; constructor; [by apply new_line_full|done]].
  split; [done|]. split.
  - rewrite <- (join_split_lines raw), Hl, join_nil_app, join_nil_cons in Hv.
    apply join_chars in Hv as [Hp Hv]; [|done]. apply chars_valid. rewrite join_nil_app, join_nil_cons. apply chars_app; [done|].
    apply (join_chars [h]) in Hv as [_ Hv]; [|by constructor]. apply chars_app; [|done].
    rewrite <- app_assoc. apply chars_app; [apply chars_app; by apply valid_chars|].
    destruct (own_ending_full h Hfh) as [-> | ->]; by apply valid_chars.
  - apply Forall_app. split; [done|]. by constructor.
Qed.

(** *** Witness *)

Definition ex_crlf (s : string) : string := s +:+ crlf.
Definition ex_head : string :=
  join "" [ex_crlf "GET / HTTP/1.1"; ex_crlf "X-Forwarded-For: 10.0.0.1"; ex_crlf "Host: a"; crlf; "body"].

Lemma xff_appended_witness :
  exists hs', apply_x_forwarded_for ex_head "203.0.113.9" "http"
    = Ok (join "" (ex_crlf "GET / HTTP/1.1" :: hs' ++ [proto_line "http" crlf] ++ crlf :: ["body"])).
Proof.
  destruct (xff_appended ex_head "203.0.113.9" "http" (ex_crlf "GET / HTTP/1.1") crlf
    [ex_crlf "X-Forwarded-For: 10.0.0.1"; ex_crlf "Host: a"] ["body"]) as (hs' & _ & H).
  - vm_compute. reflexivity.
  - repeat constructor.
  - reflexivity.
  - discriminate.
  - discriminate.
  - exists hs'. exact H.
Defined.
