(* ===== verification/HttpIngress.v ===== *)
(** * Requests through the gateways

    [handle_http_ingress] of [server/src/tunnel/http.rs] and
    [handle_https_ingress] of [server/src/tunnel/https.rs], with
    [peek_client_hello_sni] of [core/src/tls/sni.rs]: what a user's connection
    gets, and what reaches the client that serves it.  The chunks the connection
    delivers and the answers of the client's session are arguments; the HTTP and
    TLS parsers and the base64 engine are parameters. *)

From S2P Require Import Prelude RustStr Utf8 Config Registry Msg Metrics Limit Gateway Net ProxyProtocol HttpHead.

Local Open Scope string_scope.

(** [IngressConn], without its stream: the peer and the address it connected to. *)
Record IngressConn := MkIngress { ig_peer : SocketAddr; ig_source : SocketAddr; ig_local : option SocketAddr }.
Definition prepare_ingress (local : option SocketAddr) (peer : SocketAddr) : IngressConn := MkIngress peer peer local.

(** The client's session, when a data connection is asked of it: whether it is
    still there, [get_data_conn] and the sending of [StartDataConn]. *)
Record SessionEnv := MkSessionEnv { se_alive : bool; se_data_conn : Anyhow unit; se_start : Anyhow unit }.

(** How the handling of a connection ends before or when bytes are relayed. *)
Inductive IngressEnd :=
| Answered (response : string)
| Failed (response : option string) (e : string)
| Panicked
| Relayed (owner : TunnelOwner) (start : StartDataConn) (preamble : string).

Definition start_of (tunnel_name : string) (ig : IngressConn) : StartDataConn :=
  MkStartDataConn tunnel_name (show_ip (sa_ip (ig_source ig))) (sa_port (ig_source ig))
    (match ig_local ig with Some a => show_ip (sa_ip a) | None => "" end)
    (match ig_local ig with Some a => sa_port a | None => 0%Z end) "".

Section Http.
Context (b64_decode : string -> option string) (httparse : string -> HttpParse).

(** The head as it is sent on. *)
Definition outgoing_head (route : HttpRoute) (ig : IngressConn) (raw : string) : Anyhow string :=
  let? raw := if negb (is_empty (hr_host_header_rewrite route))
              then rewrite_host_header raw (hr_host_header_rewrite route) else Ok raw in
  apply_x_forwarded_for raw (show_ip (sa_ip (ig_source ig))) "http".

Definition serve_http (gw : HttpGw) (session : TunnelOwner -> SessionEnv) (ig : IngressConn) (head : ParsedHttpHead)
    : IngressEnd :=
  match http_lookup gw (hh_host head) (hh_path head) with
  | None => Answered not_found_response
  | Some route =>
      match route_basic_auth_ok b64_decode route (hh_is_proxy_request head) (hh_authorization head)
              (hh_proxy_authorization head) with
      | None => Panicked
      | Some false =>
          Answered (if hh_is_proxy_request head then proxy_unauthorized_response else unauthorized_response)
      | Some true =>
          let env := session (hr_control route) in
          if negb (se_alive env)
          then Failed (Some not_found_response) ("http tunnel client gone: " ++ hr_tunnel_name route) else
          match outgoing_head route ig (hh_raw head) with
          | Err e => Failed None e
          | Ok raw =>
              match se_data_conn env with
              | Err e => Failed (Some bad_gateway_response) e
              | Ok _ =>
                  match se_start env with
                  | Err e => Failed None e
                  | Ok _ => Relayed (hr_control route) (start_of (hr_tunnel_name route) ig) (raw ++ hh_body_prefix head)
                  end
              end
          end
      end
  end.

(** [None] while the head is not complete. *)
Definition handle_http_ingress (gw : HttpGw) (session : TunnelOwner -> SessionEnv) (ig : IngressConn)
    (chunks : list string) : option (IngressEnd * list string) :=
  match read_http_request_head httparse "" chunks with
  | None => None
  | Some (Err e, rest) => Some (Failed None e, rest)
  | Some (Ok head, rest) => Some (serve_http gw session ig head, rest)
  end.
End Http.

(** The traffic of a relayed request: the preamble counts as sent to the tunnel. *)
Definition http_relay_metrics (m : MemMetrics) (name : string) (preamble_len : Z) (join : Z * Z) (t : Now)
    : MemMetrics :=
  let m := open_connection m name "http" in
  let '(to_data, from_data) := join in
  let m := add_traffic_in m name "http" (sat_u64 (to_data + preamble_len)) t in
  let m := add_traffic_out m name "http" from_data t in
  close_connection m name "http".

(** ** TLS *)

Definition MAX_RECORD : nat := 5 + 16 * 1024.

Section Sni.
(** The host name in a handshake record, by [tls_parser]. *)
Context (sni_of_record : string -> option string).

(** Reads until [need] bytes have arrived: the bytes, or [None] while waiting. *)
Fixpoint fill (need : nat) (eof_error : string) (buf : string) (chunks : list string)
    : option (Anyhow string * list string) :=
  if (need <=? String.length buf)%nat then Some (Ok buf, chunks) else
  match chunks with
  | [] => None
  | chunk :: chunks =>
      if is_empty chunk then Some (Err eof_error, chunks)
      else
        let buf := buf ++ chunk in
        if (MAX_RECORD <? String.length buf)%nat then Some (Err "TLS preamble too large", chunks)
        else fill need eof_error buf chunks
  end.

Definition peek_client_hello_sni (chunks : list string) : option (Anyhow (string * string) * list string) :=
  match fill 5 "connection closed before TLS ClientHello" "" chunks with
  | None => None
  | Some (Err e, chunks) => Some (Err e, chunks)
  | Some (Ok buf, chunks) =>
      if negb (byte_at buf 0 =? 22)%Z
      then Some (Err ("not a TLS handshake record (type=0x" ++ show_hex (Z.to_N (byte_at buf 0)) ++ ")"), chunks) else
      let record_len := Z.to_nat (u16_from_be_bytes (byte_at buf 3) (byte_at buf 4)) in
      let need := 5 + record_len in
      if (MAX_RECORD <? need)%nat
      then Some (Err ("TLS record too large: " ++ show_Z (Z.of_nat record_len)), chunks) else
      match fill need "connection closed mid ClientHello" buf chunks with
      | None => None
      | Some (Err e, chunks) => Some (Err e, chunks)
      | Some (Ok buf, chunks) =>
          Some (let? sni := ok_or (sni_of_record (stake need buf)) "TLS ClientHello missing SNI" in
                Ok (to_lower sni, stake need buf ++ sdrop need buf), chunks)
      end
  end.

Definition handle_https_ingress (gw : HttpsGw) (session : TunnelOwner -> SessionEnv) (ig : IngressConn)
    (chunks : list string) : option (IngressEnd * list string) :=
  match peek_client_hello_sni chunks with
  | None => None
  | Some (Err e, rest) => Some (Failed None e, rest)
  | Some (Ok (sni, prefix), rest) =>
      Some (match https_lookup gw sni with
            | None => Answered ""
            | Some route =>
                let env := session (hsr_control route) in
                if negb (se_alive env) then Failed None ("https tunnel client gone: " ++ hsr_tunnel_name route) else
                match se_data_conn env, se_start env with
                | Err e, _ => Failed None e
                | Ok _, Err e => Failed None e
                | Ok _, Ok _ => Relayed (hsr_control route) (start_of (hsr_tunnel_name route) ig) prefix
                end
            end, rest)
  end.
End Sni.

(** ** Lemmas *)

Local Open Scope list_scope.

(** A complete head and the body after it are what has been read. *)
Lemma read_head_conserves httparse chunks : forall buf head rest,
  read_http_request_head httparse buf chunks = Some (Ok head, rest) ->
  exists used, chunks = used ++ rest /\ (buf +:+ join "" used = hh_raw head +:+ hh_body_prefix head)
    /\ String.length (hh_raw head +:+ hh_body_prefix head) <= MAX_HEAD.
Proof.
  induction chunks as [|c chunks IH]; intros buf head rest; [done|]. cbn [read_http_request_head].
  destruct (is_empty c); [done|]. destruct (Nat.ltb_spec MAX_HEAD (String.length (buf +:+ c))); [done|].
  destruct (head_of httparse (buf +:+ c)) as [r|] eqn:Eh.
  - intros [= -> <-]. exists [c]. split; [done|]. unfold head_of in Eh.
    destruct (httparse (buf +:+ c)) as [n m t h| |]; [|done|done].
    destruct (String.length (buf +:+ c) <? n)%nat; [done|].
    destruct (classify_request_target _ _) as [prox path]. destruct (ok_or _ _) as [host|]; [|done].
    injection Eh as <-. cbn [hh_raw hh_body_prefix join]. by rewrite stake_sdrop.
  - intros H'. destruct (IH _ _ _ H') as (used & -> & Hu & Hl). exists (c :: used). split; [done|].
    split; [|done]. by rewrite join_nil_cons, <- app_assoc.
Qed.

Lemma fill_conserves need e chunks : forall buf buf' rest,
  fill need e buf chunks = Some (Ok buf', rest) ->
  exists used, chunks = used ++ rest /\ (buf +:+ join "" used = buf') /\ need <= String.length buf'.
Proof.
  induction chunks as [|c chunks IH]; intros buf buf' rest; cbn [fill].
  - destruct (Nat.leb_spec need (String.length buf)); [|done]. intros [= <- <-]. exists []. by rewrite app_nil_r.
  - destruct (Nat.leb_spec need (String.length buf)).
    { intros [= <- <-]. exists []. by rewrite app_nil_r. }
    destruct (is_empty c); [done|]. destruct (_ <? _)%nat; [done|].
    intros (used & -> & Hu & Hl)%IH. exists (c :: used). split; [done|]. split; [|done].
    by rewrite join_nil_cons, <- app_assoc.
Qed.

(** What a head of UTF-8 lines becomes: the Host line as the route wants it, the user's
    address after what X-Forwarded-For says already, X-Forwarded-Proto where there is
    none, and every other line as it was and where it was. *)
Definition head_sent (route : HttpRoute) (ig : IngressConn) (raw out : string) : Prop :=
  forall lines b, split_lines raw = lines ++ [b] -> lines <> [] -> head_lines lines -> is_blank_line b = true ->
    utf8_valid raw = true ->
  exists r hs hs', host_changed (hr_host_header_rewrite route) lines (r :: hs)
  /\ (let ending := line_ending (r :: hs ++ [b]) in
      forwarded (show_ip (sa_ip (ig_source ig))) ending hs hs'
      /\ out = join "" (r :: hs' ++ (if existsb (is_header "x-forwarded-proto") hs then [] else [proto_line "http" ending]) ++ [b])).

(** A host rewrite that is one line of text. *)
Definition rewrite_ok (route : HttpRoute) : Prop :=
  utf8_valid (hr_host_header_rewrite route) = true
  /\ sforall (fun c => negb (Ascii.eqb c lf)) (hr_host_header_rewrite route) = true.

Lemma outgoing_head_sent route ig raw out : rewrite_ok route -> ip_wf (sa_ip (ig_source ig)) ->
  outgoing_head route ig raw = Ok out -> head_sent route ig raw out.
Proof.
  intros [Hrv Hrn] Hip Ho lines b Hl Hne Hh Hb Hv. unfold outgoing_head in Ho.
  assert (exists raw' lines', (if negb (is_empty (hr_host_header_rewrite route)) then rewrite_host_header raw (hr_host_header_rewrite route)
            else Ok raw) = Ok raw'
    /\ host_changed (hr_host_header_rewrite route) lines lines' /\ split_lines raw' = lines' ++ [b] /\ utf8_valid raw' = true
    /\ head_lines lines') as (raw' & lines' & E & Hc & Hl' & Hv' & Hh').
  { destruct (is_empty (hr_host_header_rewrite route)) eqn:Ee; cbn [negb] in Ho |- *.
    - apply is_empty_true in Ee. exists raw, lines. split; [done|]. split; [by apply hc_kept|done].
    - apply is_empty_false in Ee. destruct (rewrite_host_header raw (hr_host_header_rewrite route)) as [raw'|e] eqn:Er; [|done].
      destruct (rewritten_lines raw (hr_host_header_rewrite route) lines b raw') as (lines' & H); [done..|]. by exists raw', lines'. }
  rewrite E in Ho. cbn in Ho. assert (lines' <> []) as Hne'.
  { inversion Hc; subst; [done|]. by destruct pre. }
  destruct lines' as [|r hs]; [done|]. exists r, hs.
  destruct (xff_appended raw' (show_ip (sa_ip (ig_source ig))) "http" r b hs []) as (hs' & Hf & Ha);
    [by rewrite chars_lossy by (by apply valid_chars)|done|done| |done|].
  { destruct (show_ip_word _ Hip) as [[H _] _]. exact H. }
  exists hs'. split; [exact Hc|]. split; [exact Hf|]. rewrite Ha in Ho. by apply Ok_inj in Ho.
Qed.

(** ** Properties *)

(** C36: The first request of a connection reaches a client only through a route of
    its tunnel that matches it and whose credentials, if the route has any, it shows,
    announced with the user's own address. What is relayed before the rest of the
    connection is the whole of what was read, in order: the head, rewritten, and
    unchanged the bytes that came with it. Of a head that is UTF-8, ending at its
    blank line, every line stays as and where it was, except that the Host line, if the
    route says so, takes the route's host (a line of text), the user's address is put behind the last
    X-Forwarded-For line or in a new one at the end, and X-Forwarded-Proto is added
    where there is none. (Later requests on the connection are relayed unseen, and in
    a head that is not UTF-8 the other bytes are replaced.) *)
Theorem http_ingress_gate (b64_decode : string -> option string) (httparse : string -> HttpParse) (gw : HttpGw)
    (session : TunnelOwner -> SessionEnv) (ig : IngressConn) (chunks rest : list string)
    (owner : TunnelOwner) (start : StartDataConn) (preamble : string) :
  handle_http_ingress b64_decode httparse gw session ig chunks = Some (Relayed owner start preamble, rest) ->
  exists head route used out,
    chunks = used ++ rest /\ (join "" used = hh_raw head +:+ hh_body_prefix head)
    /\ http_lookup gw (hh_host head) (hh_path head) = Some route
    /\ route_basic_auth_ok b64_decode route (hh_is_proxy_request head) (hh_authorization head)
         (hh_proxy_authorization head) = Some true
    /\ hr_control route = owner /\ se_alive (session owner) = true
    /\ start = start_of (hr_tunnel_name route) ig
    /\ (preamble = out +:+ hh_body_prefix head)
    /\ (rewrite_ok route -> ip_wf (sa_ip (ig_source ig)) -> head_sent route ig (hh_raw head) out).
Proof.
  unfold handle_http_ingress. destruct (read_http_request_head httparse "" chunks) as [[[head|e] r]|] eqn:Er; [|done|done].
  intros [= H <-]. apply read_head_conserves in Er as (used & Hc & Hu & _). unfold serve_http in H.
  destruct (http_lookup gw (hh_host head) (hh_path head)) as [route|] eqn:El; [|done].
  destruct (route_basic_auth_ok _ _ _ _ _) as [[]|] eqn:Ea; [|done|done].
  destruct (se_alive (session (hr_control route))) eqn:Ealive; cbn [negb] in H; [|done].
  destruct (outgoing_head route ig (hh_raw head)) as [out|] eqn:Eo; [|done].
  destruct (se_data_conn _); [|done]. destruct (se_start _); [|done]. injection H as <- <- <-.
  exists head, route, used, out. repeat (split; [done|]). intros Hr Hip. by apply outgoing_head_sent.
Qed.

(** The HTTPS gateway passes TLS through untouched: whatever it read to find
    the server name is relayed, in order and complete, before the rest of the
    connection, to the tunnel that registered that name. *)
Theorem https_ingress_passthrough (sni_of_record : string -> option string) (gw : HttpsGw)
    (session : TunnelOwner -> SessionEnv) (ig : IngressConn) (chunks rest : list string)
    (owner : TunnelOwner) (start : StartDataConn) (preamble : string) :
  handle_https_ingress sni_of_record gw session ig chunks = Some (Relayed owner start preamble, rest) ->
  exists used route sni need,
    chunks = used ++ rest /\ (join "" used = preamble)
    /\ need <= String.length preamble /\ sni_of_record (stake need preamble) = Some sni
    /\ https_lookup gw (to_lower sni) = Some route /\ hsr_control route = owner
    /\ start = start_of (hsr_tunnel_name route) ig.
Proof.
  unfold handle_https_ingress, peek_client_hello_sni.
  destruct (fill 5 _ "" chunks) as [[[buf|e] c1]|] eqn:E1; [|done|done].
  apply fill_conserves in E1 as (u1 & -> & Hu1 & _).
  destruct (negb _); [done|]. set (need := 5 + _). destruct (MAX_RECORD <? need)%nat; [done|].
  destruct (fill need _ buf c1) as [[[buf'|e] c2]|] eqn:E2; [|done|done].
  apply fill_conserves in E2 as (u2 & -> & Hu2 & Hl). rewrite stake_sdrop.
  destruct (sni_of_record (stake need buf')) as [sni|] eqn:Es; [|done]. cbn [ok_or].
  destruct (https_lookup gw (to_lower sni)) as [route|] eqn:El; [|done].
  destruct (negb _); [done|]. destruct (se_data_conn _); [|done]. destruct (se_start _); [|done].
  intros [= <- <- <- <-]. exists (u1 ++ u2), route, sni, need. split; [by rewrite (assoc_L (++))|].
  split; [|by repeat split]. rewrite join_nil_app, <- Hu2, <- Hu1. done.
Qed.

(** The limit on the bytes read before the server name is known counts what
    arrived after the record too: a complete ClientHello of nearly the largest
    size is refused when more data came with it in the same read. *)
Theorem sni_overshoot_refused (sni_of_record : string -> option string) (first more : string) (rest : list string) :
  5 <= String.length first <= MAX_RECORD -> byte_at first 0 = 22%Z ->
  let need := 5 + Z.to_nat (u16_from_be_bytes (byte_at first 3) (byte_at first 4)) in
  String.length first < need <= MAX_RECORD ->
  need <= String.length (first +:+ more) -> MAX_RECORD < String.length (first +:+ more) ->
  peek_client_hello_sni sni_of_record (first :: more :: rest) = Some (Err "TLS preamble too large", rest).
Proof.
  intros [H5 Hmax] Ht need [Hlt Hneed] _ Hover. unfold peek_client_hello_sni.
  assert (is_empty first = false) as Hf by (apply is_empty_false; intros ->; simpl in H5; lia).
  assert (is_empty more = false) as Hm.
  { apply is_empty_false. intros ->. rewrite app_nil_r in Hover. lia. }
  assert (fill 5 "connection closed before TLS ClientHello" "" (first :: more :: rest) = Some (Ok first, more :: rest)) as ->.
  { cbn [fill]. change (5 <=? String.length "")%nat with false. cbn [String.append]. rewrite Hf.
    destruct (Nat.ltb_spec MAX_RECORD (String.length first)); [lia|].
    by destruct (Nat.leb_spec 5 (String.length first)); [|lia]. }
  rewrite Ht. change (negb (22 =? 22)%Z) with false. cbv iota zeta. fold need.
  destruct (Nat.ltb_spec MAX_RECORD need); [lia|]. cbn [fill].
  destruct (Nat.leb_spec need (String.length first)); [lia|]. rewrite Hm.
  by destruct (Nat.ltb_spec MAX_RECORD (String.length (first +:+ more))); [|lia].
Qed.

(** *** Witnesses *)

Definition ex_owner : TunnelOwner := MkOwner "s" 1.
Definition ex_route : HttpRoute := MkHttpRoute "web" ex_owner "" "" "" "" None.
Definition ex_gw : HttpGw := match http_register (http_gw_new 80) "a.org" ex_route with Ok gw => gw | Err _ => http_gw_new 80 end.
Definition ex_ingress : IngressConn := prepare_ingress None (MkSocketAddr (V4 (9, 9, 9, 9)%Z) 5000).
Definition ex_session (o : TunnelOwner) : SessionEnv := MkSessionEnv true (Ok tt) (Ok tt).
Definition ex_request : string := ("GET / HTTP/1.1" ++ crlf ++ "Host: a.org" ++ crlf ++ crlf)%string.
Definition ex_httparse (buf : string) : HttpParse :=
  if starts_with ex_request buf
  then PComplete (String.length ex_request) (Some "GET") (Some "/") [("Host", "a.org")] else PPartial.

Lemma http_ingress_gate_witness :
  exists preamble, handle_http_ingress (fun _ => None) ex_httparse ex_gw ex_session ex_ingress [ex_request +:+ "body"; "more"]
    = Some (Relayed ex_owner (MkStartDataConn "web" "9.9.9.9" 5000 "" 0 "") preamble, ["more"])
  /\ exists head route out, join "" [ex_request +:+ "body"] = hh_raw head +:+ hh_body_prefix head
  /\ preamble = out +:+ hh_body_prefix head /\ (rewrite_ok route -> head_sent route ex_ingress (hh_raw head) out).
Proof.
  eexists. split; [vm_compute; reflexivity|].
  destruct (http_ingress_gate (fun _ => None) ex_httparse ex_gw ex_session ex_ingress [ex_request +:+ "body"; "more"] ["more"]
    ex_owner (MkStartDataConn "web" "9.9.9.9" 5000 "" 0 "") ("GET / HTTP/1.1" +:+ crlf +:+ "Host: a.org" +:+ crlf
      +:+ "X-Forwarded-For: 9.9.9.9" +:+ crlf +:+ "X-Forwarded-Proto: http" +:+ crlf +:+ crlf +:+ "body")
    ltac:(vm_compute; reflexivity)) as (head & route & used & out & Hc & Hu & _ & _ & _ & _ & _ & Hp & Hs).
  exists head, route, out. split; [|split; [exact Hp|]]; [|intros Hr; apply (Hs Hr); vm_compute; intuition discriminate].
  apply (app_inv_tail ["more"] [ex_request +:+ "body"] used) in Hc. rewrite Hc. exact Hu.
Defined.

(** Of a connection's requests only the first is looked at: one that came with it, for a
    location whose route asks for credentials and without any, is relayed to the
    location that asks for none. *)
Definition ex_secret_route : HttpRoute := MkHttpRoute "web" ex_owner "/private" "" "admin" "secret" None.
Definition ex_guarded_gw : HttpGw :=
  match http_register ex_gw "a.org" ex_secret_route with Ok gw => gw | Err _ => ex_gw end.
Definition ex_second : string := ("GET /private HTTP/1.1" ++ crlf ++ "Host: a.org" ++ crlf ++ crlf)%string.
Definition ex_httparse2 (buf : string) : HttpParse :=
  if starts_with ex_second buf
  then PComplete (String.length ex_second) (Some "GET") (Some "/private") [("Host", "a.org")] else ex_httparse buf.
Lemma later_request_unchecked :
  handle_http_ingress (fun _ => None) ex_httparse2 ex_guarded_gw ex_session ex_ingress [ex_second] = Some (Answered unauthorized_response, [])
  /\ exists start out, handle_http_ingress (fun _ => None) ex_httparse2 ex_guarded_gw ex_session ex_ingress [ex_request +:+ ex_second]
     = Some (Relayed ex_owner start (out +:+ ex_second), []).
Proof.
  split; [vm_compute; reflexivity|]. exists (MkStartDataConn "web" "9.9.9.9" 5000 "" 0 ""), ("GET / HTTP/1.1" +:+ crlf +:+ "Host: a.org" +:+ crlf
      +:+ "X-Forwarded-For: 9.9.9.9" +:+ crlf +:+ "X-Forwarded-Proto: http" +:+ crlf +:+ crlf).
  vm_compute. reflexivity.
Qed.
(** A byte above ASCII in a header, as ISO 8859-1 has it, reaches the local service as
    the three bytes of the replacement character. *)
Lemma latin1_header_replaced :
  outgoing_head ex_route ex_ingress ("GET / HTTP/1.1" ++ crlf ++ "Host: a.org" ++ crlf ++ "X: caf" ++ String (byte_of 233) "" ++ crlf ++ crlf)%string
  = Ok ("GET / HTTP/1.1" ++ crlf ++ "Host: a.org" ++ crlf ++ "X: caf" ++ replacement_char ++ crlf
        ++ "X-Forwarded-For: 9.9.9.9" ++ crlf ++ "X-Forwarded-Proto: http" ++ crlf ++ crlf)%string.
Proof. vm_compute. reflexivity. Qed.

Definition ex_hello : string := (bytes [22; 3; 1; 0; 3]%Z ++ "abc")%string.
Definition ex_https_gw : HttpsGw :=
  match https_register (https_gw_new 443) "a.org" (MkHttpsRoute "sec" ex_owner None) with Ok gw => gw | Err _ => https_gw_new 443 end.
Lemma https_ingress_passthrough_witness :
  exists used, handle_https_ingress (fun r => if String.eqb r ex_hello then Some "A.org" else None) ex_https_gw ex_session
    ex_ingress [ex_hello +:+ "x"; "y"] = Some (Relayed ex_owner (MkStartDataConn "sec" "9.9.9.9" 5000 "" 0 "") (ex_hello +:+ "x"), ["y"])
  /\ [ex_hello +:+ "x"; "y"] = used ++ ["y"] /\ join "" used = ex_hello +:+ "x".
Proof.
  destruct (https_ingress_passthrough (fun r => if String.eqb r ex_hello then Some "A.org" else None) ex_https_gw ex_session
    ex_ingress [ex_hello +:+ "x"; "y"] ["y"] ex_owner (MkStartDataConn "sec" "9.9.9.9" 5000 "" 0 "") (ex_hello +:+ "x")
    ltac:(vm_compute; reflexivity)) as (used & route & sni & need & Hc & Hu & _).
  exists used. split; [vm_compute; reflexivity|]. split; [exact Hc|exact Hu].
Defined.

Definition ex_big_hello : string :=
  (bytes [22; 3; 1; 64; 0]%Z ++ Init.Nat.iter (Z.to_nat 16000) (String "x") "")%string.
Lemma sni_overshoot_refused_witness :
  peek_client_hello_sni (fun _ => Some "a.org") [ex_big_hello; Init.Nat.iter 500 (String "x") ""] = Some (Err "TLS preamble too large", []).
Proof.
  apply (sni_overshoot_refused (fun _ => Some "a.org") ex_big_hello (Init.Nat.iter 500 (String "x") "") []).
  - split; apply Nat.leb_le; vm_compute; reflexivity.
  - vm_compute. reflexivity.
  - split; [apply Nat.ltb_lt|apply Nat.leb_le]; vm_compute; reflexivity.
  - apply Nat.leb_le. vm_compute. reflexivity.
  - apply Nat.ltb_lt. vm_compute. reflexivity.
Defined.
