(* ===== verification/ClientTunnels.v ===== *)
(** * The client's tunnels

    [client/src/tunnel/manager.rs], with [create] of
    [client/src/plugin/mod.rs]: the tunnels a client serves, by name, and what it
    does with a data connection for one of them.  An entry is shared between the
    table and the connections that use it: it is an identity, and the mutable
    part of an entry, the UDP session it serves, is kept in a store.  Loading
    certificates and connecting to the local service are arguments. *)

From stdpp Require Import sorting.
From S2P Require Import Prelude RustStr Float64 Config ServerConfig ClientConfig Registry Msg Limit Gateway Net ProxyProtocol HttpHead HttpIngress Reload.

Local Open Scope string_scope.

(** ** Plugins *)

Inductive Plugin :=
| TlsTerm (local_addr host_header_rewrite : string)
| Socks5 (tunnel_name username password : string).
#[global] Instance Plugin_eq_dec : EqDecision Plugin.
Proof. solve_decision. Defined.

Definition plugin_name (p : Plugin) : string := match p with TlsTerm _ _ => "tls-term" | Socks5 _ _ _ => "socks5" end.

Definition required_credentials (cfg : PluginConfig) : Anyhow (string * string) :=
  let user := trim (pl_username cfg) in
  let pass := trim (pl_password cfg) in
  bail_if (is_empty user || is_empty pass) with "socks5 plugin requires username and password" ;; Ok (user, pass).
Definition socks5_new (name : string) (cfg : PluginConfig) : Anyhow Plugin :=
  let? ' (username, password) := required_credentials cfg in Ok (Socks5 name username password).
(** The check of a user's credentials. *)
Definition socks5_accepts (p : Plugin) (user pass : string) : bool :=
  match p with Socks5 _ u w => String.eqb user u && String.eqb pass w | _ => false end.

Section Entries.
(** [load_or_generate_https_server_config cert_file key_file common_name]. *)
Context (load_tls : string -> string -> string -> Anyhow unit).

Definition tls_term_new (cert_common_name : string) (cfg : PluginConfig) : Anyhow Plugin :=
  let local_addr := trim (pl_service cfg) in
  bail_if (is_empty local_addr) with
    ("tls-term requires plugin.service (e.g. " ++ dquote ++ "127.0.0.1:8080" ++ dquote ++ ")") ;;
  let cn := if is_empty cert_common_name then "localhost" else cert_common_name in
  let? _ := load_tls (pl_cert_file cfg) (pl_key_file cfg) cn in
  Ok (TlsTerm local_addr (pl_host_header_rewrite cfg)).

Definition plugin_create (name cert_common_name : string) (cfg : PluginConfig) : Anyhow Plugin :=
  let pt := to_lower (trim (pl_plugin_type cfg)) in
  if String.eqb pt "tls-term" then tls_term_new cert_common_name cfg
  else if String.eqb pt "socks5" then socks5_new name cfg
  else Err ("unknown client plugin type: " ++ pt).

(** ** Entries *)

Definition pick_cert_common_name (domains : list string) (tunnel_name : string) : string :=
  let ds := filter (fun d => d <> "") (map trim domains) in
  match List.find (fun d => contains "." d && negb (contains "*" d)) ds with
  | Some d => to_lower d
  | None => match ds with d :: _ => to_lower d | [] => to_lower (trim tunnel_name) end
  end.

Record CTunnelEntry := MkCEntry {
  ce_cfg : TunnelConfig; ce_limiter : option BandwidthLimiter; ce_plugin : option Plugin;
  ce_proxy_protocol : option string; ce_tcp_keepalive : TcpKeepaliveConfig; ce_udp_cancel : Z }.

(** [slot] is the identity of the new entry's UDP slot. *)
Definition build_entry (tunnel : TunnelConfig) (tcp_keepalive : TcpKeepaliveConfig) (slot : Z) : Anyhow CTunnelEntry :=
  let limiter :=
    match limiter_if_side (tt_bandwidth (tc_transport tunnel)) (tt_bandwidth_limit_side (tc_transport tunnel)) SideClient with
    | Ok l => l
    | Err _ => None
    end in
  let? plugin :=
    match tc_plugin tunnel with
    | Some pc =>
        if is_empty (pl_plugin_type pc) then Ok None
        else
          let cn := pick_cert_common_name (tc_domains tunnel) (tc_name tunnel) in
          let? p := plugin_create (tc_name tunnel) cn pc in Ok (Some p)
    | None => Ok None
    end in
  let? proxy_protocol := parse_proxy_protocol_version (tt_proxy_protocol_version (tc_transport tunnel)) in
  Ok (MkCEntry tunnel limiter plugin proxy_protocol tcp_keepalive slot).

(** ** The manager *)

(** [cm_slots]: the UDP session an entry's slot holds the cancel handle of;
    [cm_cancelled]: the sessions told to stop. *)
Record CTunnelManager := MkCManager {
  cm_by_name : gmap string CTunnelEntry; cm_udp_packet_size : Z; cm_tcp_keepalive : TcpKeepaliveConfig;
  cm_slots : gmap Z Z; cm_cancelled : gset Z; cm_next_slot : Z; cm_next_session : Z }.

Definition cm_new (cfg : ClientConfig) : CTunnelManager :=
  MkCManager ∅ (Z.max (cc_udp_packet_size cfg) 512) (client_tcp_keepalive (cc_transport cfg)) ∅ ∅ 0 0.
Definition cm_upsert (m : CTunnelManager) (tunnel : TunnelConfig) : Anyhow CTunnelManager :=
  let? entry := build_entry tunnel (cm_tcp_keepalive m) (cm_next_slot m) in
  Ok (MkCManager (<[tc_name tunnel := entry]> (cm_by_name m)) (cm_udp_packet_size m) (cm_tcp_keepalive m)
        (cm_slots m) (cm_cancelled m) (cm_next_slot m + 1) (cm_next_session m)).
Definition cm_from_config (cfg : ClientConfig) : Anyhow CTunnelManager :=
  try_for_each cm_upsert (cm_new cfg) (cc_tunnels cfg).

(** [try_lock]: when the slot is being changed its session is not cancelled. *)
Definition cancel_udp_sync (m : CTunnelManager) (entry : CTunnelEntry) (locked : bool) : CTunnelManager :=
  if locked then m else
  match cm_slots m !! ce_udp_cancel entry with
  | Some s =>
      MkCManager (cm_by_name m) (cm_udp_packet_size m) (cm_tcp_keepalive m) (delete (ce_udp_cancel entry) (cm_slots m))
        ({[s]} ∪ cm_cancelled m) (cm_next_slot m) (cm_next_session m)
  | None => m
  end.
Definition cm_remove (m : CTunnelManager) (name : string) (locked : bool) : CTunnelManager :=
  match cm_by_name m !! name with
  | Some entry =>
      cancel_udp_sync
        (MkCManager (delete name (cm_by_name m)) (cm_udp_packet_size m) (cm_tcp_keepalive m) (cm_slots m)
           (cm_cancelled m) (cm_next_slot m) (cm_next_session m)) entry locked
  | None => m
  end.
Definition cm_tunnel_names (iter : gmap string CTunnelEntry -> list (string * CTunnelEntry)) (m : CTunnelManager)
    : list string := merge_sort String.le (map fst (iter (cm_by_name m))).
End Entries.

(** ** Serving a data connection *)

(** [SocketAddr::from_str]: an IP address and a port, the IPv6 address in
    brackets, with an optional scope, which the model drops. *)
Definition parse_port_text (s : string) : option Z :=
  match read_number 10 65535 (String.length s) true s with Some (p, "") => Some p | _ => None end.
Definition parse_socket_addr (s : string) : option SocketAddr :=
  match read_ipv4_addr s with
  | Some (o, r) =>
      match strip_prefix ":" r with
      | Some r => match parse_port_text r with Some p => Some (MkSocketAddr (V4 o) p) | None => None end
      | None => None
      end
  | None =>
      match strip_prefix "[" s with
      | Some s =>
          match read_ipv6_addr s with
          | Some (g, r) =>
              let r := match strip_prefix "%" r with
                       | Some r' =>
                           match read_number 10 4294967295 (String.length r') true r' with Some (_, r) => r | None => r end
                       | None => r
                       end in
              match strip_prefix "]:" r with
              | Some r => match parse_port_text r with Some p => Some (MkSocketAddr (V6 g) p) | None => None end
              | None => None
              end
          | None => None
          end
      | None => None
      end
  end.

(** What a data connection is joined to. *)
Inductive DataTask :=
| ToPlugin (plugin : Plugin) (src_addr : string) (src_port : Z)
| ToLocal (local_addr : string) (header : string)
| UdpSession (session : Z) (local_addr : SocketAddr) (packet_size : Z) (proxy_protocol : option string).

(** [dial]: the local service accepts the connection, or the error. *)
Definition handle_stream (dial : string -> Anyhow unit) (entry : CTunnelEntry) (start : StartDataConn) : Anyhow DataTask :=
  match ce_plugin entry with
  | Some plugin => Ok (ToPlugin plugin (sd_src_addr start) (sd_src_port start))
  | None =>
      let? ' (_, svc_port) := service_host_port (ce_cfg entry) in
      let local_addr := trim (tc_service (ce_cfg entry)) in
      bail_if (is_empty local_addr || (svc_port =? 0)%Z)
        with ("tunnel " ++ tc_name (ce_cfg entry) ++ " has empty or invalid service (local backend)") ;;
      let? _ := map_err (fun e => "dial local " ++ local_addr ++ " for tunnel " ++ tc_name (ce_cfg entry) ++ ": " ++ e)
                  (dial local_addr) in
      match ce_proxy_protocol entry with
      | Some ver =>
          match addrs_from_start_data_conn (sd_src_addr start) (sd_src_port start) (sd_dst_addr start)
                  (sd_dst_port start) svc_port with
          | Some (src, dst) => let? hdr := build_proxy_protocol_header src dst ver in Ok (ToLocal local_addr hdr)
          | None => Ok (ToLocal local_addr "")
          end
      | None => Ok (ToLocal local_addr "")
      end
  end.

(** A new UDP session replaces the one in the entry's slot, which is told to stop. *)
Definition handle_udp (m : CTunnelManager) (entry : CTunnelEntry) : CTunnelManager * Anyhow DataTask :=
  match parse_socket_addr (trim (tc_service (ce_cfg entry))) with
  | None => (m, Err ("invalid local udp service " ++ tc_service (ce_cfg entry) ++ ": invalid socket address syntax"))
  | Some local_addr =>
      let session := cm_next_session m in
      (MkCManager (cm_by_name m) (cm_udp_packet_size m) (cm_tcp_keepalive m)
         (<[ce_udp_cancel entry := session]> (cm_slots m))
         (match cm_slots m !! ce_udp_cancel entry with Some old => {[old]} ∪ cm_cancelled m | None => cm_cancelled m end)
         (cm_next_slot m) (session + 1),
       Ok (UdpSession session local_addr (cm_udp_packet_size m) (ce_proxy_protocol entry)))
  end.

Definition serve_entry (dial : string -> Anyhow unit) (m : CTunnelManager) (entry : CTunnelEntry) (start : StartDataConn)
    : CTunnelManager * Anyhow DataTask :=
  let proto := tc_protocol (ce_cfg entry) in
  if String.eqb proto "udp" then handle_udp m entry
  else if String.eqb proto "tcp" || is_web_protocol proto then (m, handle_stream dial entry start)
  else (m, Err ("unsupported tunnel protocol on data conn: " ++ proto ++ " (" ++ tc_name (ce_cfg entry) ++ ")")).

Definition handle_data_conn (dial : string -> Anyhow unit) (m : CTunnelManager) (start : StartDataConn)
    : CTunnelManager * Anyhow DataTask :=
  match cm_by_name m !! sd_tunnel_name start with
  | None => (m, Err ("unknown tunnel: " ++ sd_tunnel_name start))
  | Some entry => serve_entry dial m entry start
  end.

(** ** Lemmas *)

Definition ingress_wf (ig : IngressConn) : Prop :=
  socket_addr_wf (ig_source ig) /\ match ig_local ig with Some a => socket_addr_wf a | None => True end.

(** The addresses of a user's connection, as the client reads them from the message that announces it. *)
Lemma announced_addresses name ig fallback :
  ingress_wf ig -> in_u16 fallback ->
  exists dst, addrs_from_start_data_conn (sd_src_addr (start_of name ig)) (sd_src_port (start_of name ig))
    (sd_dst_addr (start_of name ig)) (sd_dst_port (start_of name ig)) fallback = Some (ig_source ig, dst)
  /\ socket_addr_wf dst
  /\ match ig_local ig with
     | Some a => sa_ip dst = sa_ip a /\ (sa_port a <> 0%Z -> dst = a)
     | None => dst = MkSocketAddr (V4 V4_LOCALHOST) fallback
     end.
Proof.
  intros [[Hip Hport] Hlocal] Hf. unfold addrs_from_start_data_conn, start_of. cbn [sd_src_addr sd_src_port sd_dst_addr sd_dst_port].
  destruct (show_ip_word _ Hip) as [[Hne _] _]. apply is_empty_false in Hne. rewrite Hne, parse_show_ip by done.
  assert (MkSocketAddr (sa_ip (ig_source ig)) (sa_port (ig_source ig)) = ig_source ig) as -> by by destruct (ig_source ig).
  destruct (ig_local ig) as [a|].
  - destruct Hlocal as [Ha Hap]. destruct (show_ip_word _ Ha) as [[Hna _] _]. apply is_empty_false in Hna.
    rewrite Hna, parse_show_ip by done. eexists. split; [done|]. split.
    + split; [done|]. simpl. by case_match.
    + split; [done|]. intros Hp. apply Z.eqb_neq in Hp. rewrite Hp. by destruct a.
  - eexists. split; [done|]. split; [|done]. split; [|done]. simpl. unfold octet. lia.
Qed.

(** ** Properties *)

(** With the PROXY protocol on, the local service learns the user's own
    address: the header the client writes, from what the server announced of the
    connection it accepted, is read by any conforming parser as coming from the
    address the server saw, whatever the user sends after it. *)
Theorem proxy_header_names_user (dial : string -> Anyhow unit) (entry : CTunnelEntry) (name ver host : string) (port : Z)
    (ig : IngressConn) :
  ce_plugin entry = None -> ce_proxy_protocol entry = Some ver -> ver = "v1" \/ ver = "v2" ->
  service_host_port (ce_cfg entry) = Ok (host, port) -> port <> 0%Z -> in_u16 port ->
  dial (trim (tc_service (ce_cfg entry))) = Ok tt -> ingress_wf ig ->
  exists hdr dst,
    handle_stream dial entry (start_of name ig) = Ok (ToLocal (trim (tc_service (ce_cfg entry))) hdr)
    /\ forall rest, try_consume_proxy_protocol (hdr ++ rest)
       = Ok (Done (MkParsed (ig_source ig) (announced (ig_source ig) dst) (String.length hdr))).
Proof.
  intros Hpl Hpp Hver Hs Hp Hp16 Hdial Hig. unfold handle_stream. rewrite Hpl, Hs, Hpp, Hdial. cbn [map_err].
  assert (is_empty (trim (tc_service (ce_cfg entry))) = false) as ->.
  { unfold service_host_port in Hs. destruct (is_empty (trim _)); [congruence|done]. }
  apply Z.eqb_neq in Hp. rewrite Hp. cbn [orb].
  destruct (announced_addresses name ig port Hig Hp16) as (dst & -> & Hd & _). destruct Hig as [Hsrc _].
  destruct Hver as [-> | ->]; (eexists; exists dst; split; [reflexivity|]; intros rest).
  - by apply v1_consumed.
  - by apply v2_consumed.
Qed.

(** *** Witness *)

Definition ex_tunnel_pp : TunnelConfig :=
  MkTunnel "web" "tcp" "127.0.0.1:80" 8080 [] [] "" "" "" (MkTunnelTransport (f_of_Z 0) "client" "V2") None.
Definition ex_entry : CTunnelEntry := MkCEntry ex_tunnel_pp None None (Some "v2") keepalive_default 0.

Lemma proxy_header_names_user_witness :
  exists hdr dst, handle_stream (fun _ => Ok tt) ex_entry (start_of "web" ex_ingress) = Ok (ToLocal "127.0.0.1:80" hdr)
  /\ try_consume_proxy_protocol (hdr ++ "x")
     = Ok (Done (MkParsed (ig_source ex_ingress) (announced (ig_source ex_ingress) dst) (String.length hdr))).
Proof.
  destruct (proxy_header_names_user (fun _ => Ok tt) ex_entry "web" "v2" "127.0.0.1" 80 ex_ingress)
    as (hdr & dst & H & Hc).
  1-2: reflexivity.
  - right. reflexivity.
  - vm_compute. reflexivity.
  - discriminate.
  - split; discriminate.
  - reflexivity.
  - split; [|exact I]. split; repeat split; discriminate.
  - exists hdr, dst. split; [exact H|apply Hc].
Defined.
