(* ===== verification/ClientHandle.v ===== *)
(** * The handle on a running client

    The state behind [ClientHandle] of [client/src/handle.rs]: the status, the
    last error, the log lines a front end has not fetched yet and the remote
    addresses of the tunnels, with the operations of the front end and of the
    client's task, each of which takes one lock and is atomic. *)

From S2P Require Import Prelude RustStr Float64 Config ServerConfig ClientConfig Reload.

Local Open Scope string_scope.

Inductive ClientStatus := Stopped | Starting | Running | Reconnecting | Stopping.
#[global] Instance ClientStatus_eq_dec : EqDecision ClientStatus.
Proof. solve_decision. Defined.
Definition is_active (s : ClientStatus) : bool := match s with Stopped => false | _ => true end.

(** ** Remote addresses *)

Record TunnelRemoteState := MkRemotes { rs_gen : Z; rs_by_name : gmap string string }.
Definition remotes_default : TunnelRemoteState := MkRemotes 0 ∅.
Definition next_gen (g : Z) : Z := wrap_u 64 (g + 1).

Definition clear_tunnel_remotes (g : TunnelRemoteState) : TunnelRemoteState := MkRemotes (next_gen (rs_gen g)) ∅.
Definition set_tunnel_remote (g : TunnelRemoteState) (name remote_addr : string) : TunnelRemoteState :=
  if is_empty name then g
  else if bool_decide (rs_by_name g !! name = Some remote_addr) then g
  else MkRemotes (next_gen (rs_gen g)) (<[name := remote_addr]> (rs_by_name g)).
Definition remove_tunnel_remote (g : TunnelRemoteState) (name : string) : TunnelRemoteState :=
  if is_empty name then g
  else match rs_by_name g !! name with
  | Some _ => MkRemotes (next_gen (rs_gen g)) (delete name (rs_by_name g))
  | None => g
  end.
Definition tunnel_remotes_if_changed (g : TunnelRemoteState) (since_gen : Z) : option (Z * gmap string string) :=
  if (rs_gen g =? since_gen)%Z then None else Some (rs_gen g, rs_by_name g).

(** ** The handle *)

(** [h_cancel], [h_join], [h_reload_tx]: whether the slot holds a token, a task, a sender. *)
Record ClientHandle := MkHandle {
  h_status : ClientStatus; h_last_error : option string; h_pending_logs : list string;
  h_remotes : TunnelRemoteState; h_cancel : bool; h_join : bool; h_reload_tx : bool }.
Definition handle_new : ClientHandle := MkHandle Stopped None [] remotes_default false false false.

Definition set_status (h : ClientHandle) (s : ClientStatus) : ClientHandle :=
  MkHandle s (h_last_error h) (h_pending_logs h) (h_remotes h) (h_cancel h) (h_join h) (h_reload_tx h).
Definition set_error (h : ClientHandle) (e : option string) : ClientHandle :=
  MkHandle (h_status h) e (h_pending_logs h) (h_remotes h) (h_cancel h) (h_join h) (h_reload_tx h).
Definition set_logs (h : ClientHandle) (l : list string) : ClientHandle :=
  MkHandle (h_status h) (h_last_error h) l (h_remotes h) (h_cancel h) (h_join h) (h_reload_tx h).
Definition set_remotes (h : ClientHandle) (g : TunnelRemoteState) : ClientHandle :=
  MkHandle (h_status h) (h_last_error h) (h_pending_logs h) g (h_cancel h) (h_join h) (h_reload_tx h).
Definition set_slots (h : ClientHandle) (cancel join reload_tx : bool) : ClientHandle :=
  MkHandle (h_status h) (h_last_error h) (h_pending_logs h) (h_remotes h) cancel join reload_tx.

Definition take_last_error (h : ClientHandle) : option string * ClientHandle := (h_last_error h, set_error h None).
Definition MAX_PENDING : nat := 500.
Definition enqueue_log (h : ClientHandle) (line : string) : ClientHandle :=
  let g := h_pending_logs h in
  let g := if (MAX_PENDING <=? length g)%nat then drop (length g - MAX_PENDING + 1) g else g in
  set_logs h (g ++ [line])%list.
Definition drain_logs (h : ClientHandle) : list string * ClientHandle := (h_pending_logs h, set_logs h []).

Section Start.
Context (show_f64 : f64 -> string) (canonicalize : string -> option string) (parent : string -> string).

(** [start_with], up to the spawning of the task that runs the client. *)
Definition start_with (h : ClientHandle) (cfg : ClientConfig) (config_path : string)
    : ClientHandle * Anyhow ClientConfig :=
  if is_active (h_status h) then (h, Err "client already running") else
  let cfg := prepare_runtime canonicalize parent config_path cfg in
  match client_validate show_f64 cfg with
  | Err e => (h, Err e)
  | Ok _ =>
      let h := set_slots h true (h_join h) (h_reload_tx h) in
      let h := set_error (set_status h Starting) None in
      let h := set_remotes h (clear_tunnel_remotes (h_remotes h)) in
      (set_slots h (h_cancel h) true (h_reload_tx h), Ok cfg)
  end.
(** The start of the task ([run_inner]): the configuration is prepared again. *)
Definition run_inner_start (h : ClientHandle) (cfg : ClientConfig) (config_path : string) (is_foreground : bool)
    : ClientHandle * Anyhow ClientConfig :=
  let cfg := prepare_runtime canonicalize parent config_path cfg in
  match client_validate show_f64 cfg with
  | Err e => (h, Err e)
  | Ok _ =>
      if negb is_foreground && negb (h_cancel h) then (h, Err "missing cancel token") else
      let h :=
        if is_foreground then
          let h := set_slots h true (h_join h) (h_reload_tx h) in
          let h := set_error (set_status h Starting) None in
          set_remotes h (clear_tunnel_remotes (h_remotes h))
        else h in
      (set_slots h (h_cancel h) (h_join h) true, Ok cfg)
  end.
End Start.

(** The end of the task, in the background or in the foreground. *)
Definition task_end (h : ClientHandle) (result : Anyhow unit) : ClientHandle :=
  let h := match result with Err e => set_error h (Some e) | Ok _ => h end in
  let h := set_remotes h (clear_tunnel_remotes (h_remotes h)) in
  set_status (set_slots h false (h_join h) false) Stopped.

(** How the task a stop waits for ends. *)
Inductive JoinOutcome := JoinOk | JoinErr | JoinTimeout.
(** [stop], with the task's own end in between when it ends in time. *)
Definition stop (h : ClientHandle) (outcome : JoinOutcome) (result : Anyhow unit) : ClientHandle :=
  if bool_decide (h_status h = Stopped) then h else
  let h := set_status (set_error h None) Stopping in
  let h := set_slots h false (h_join h) (h_reload_tx h) in
  let h :=
    if h_join h then
      let h := set_slots h (h_cancel h) false (h_reload_tx h) in
      match outcome with
      | JoinOk => task_end h result
      | JoinErr => h
      | JoinTimeout => set_status h Stopped
      end
    else set_status h Stopped in
  let h := set_remotes h (clear_tunnel_remotes (h_remotes h)) in
  set_slots h (h_cancel h) (h_join h) false.

(** Whether a reload request is sent; the service's answer comes later. *)
Definition reload_check (h : ClientHandle) : Anyhow unit :=
  bail_if negb (is_active (h_status h)) with "client is not running" ;;
  bail_if negb (h_reload_tx h) with "reload channel not ready" ;; Ok tt.

Definition needs_udp_session_drain (cfg : ClientConfig) : bool :=
  match client_protocol cfg with Ok (Quic | Kcp) => true | _ => false end.

(** ** Lemmas *)

Inductive RemoteOp :=
| OpClear
| OpSet (name addr : string)
| OpRemove (name : string).
Definition remote_step (g : TunnelRemoteState) (o : RemoteOp) : TunnelRemoteState :=
  match o with
  | OpClear => clear_tunnel_remotes g
  | OpSet n a => set_tunnel_remote g n a
  | OpRemove n => remove_tunnel_remote g n
  end.

(** How often the generation moved, at most once an operation; it moves whenever the table does. *)
Lemma remote_step_gen g o :
  remote_step g o = g \/ rs_gen (remote_step g o) = next_gen (rs_gen g).
Proof.
  destruct o; simpl; [by right|unfold set_tunnel_remote|unfold remove_tunnel_remote]; repeat case_match; auto.
Qed.
Lemma remote_steps_gen ops g :
  (0 <= rs_gen g < 2 ^ 64)%Z ->
  exists k, (0 <= k <= Z.of_nat (length ops))%Z
    /\ rs_gen (fold_left remote_step ops g) = wrap_u 64 (rs_gen g + k)
    /\ (k = 0%Z -> fold_left remote_step ops g = g).
Proof.
  revert g. induction ops as [|o ops IH]; intros g Hg; simpl.
  - exists 0%Z. split; [lia|]. split; [|done]. rewrite Z.add_0_r. symmetry. by apply wrap_u_small.
  - destruct (remote_step_gen g o) as [->|E].
    + destruct (IH g Hg) as (k & Hk & H1 & H2). exists k. split; [lia|done].
    + assert (0 <= rs_gen (remote_step g o) < 2 ^ 64)%Z as Hg' by (rewrite E; apply wrap_u_range; lia).
      destruct (IH _ Hg') as (k & Hk & H1 & H2). exists (k + 1)%Z. split; [lia|]. split; [|lia].
      rewrite H1, E. unfold next_gen, wrap_u. rewrite Z.add_mod_idemp_l by done. f_equal. lia.
Qed.

(** ** Properties *)

(** A front end that polls the remote addresses by generation misses nothing:
    told that nothing changed, it holds the table as it is now, and a table it is
    given is the current one; only 2^64 changes between two polls could mislead
    it. *)
Theorem remotes_polling_exact (g : TunnelRemoteState) (ops : list RemoteOp) :
  (0 <= rs_gen g < 2 ^ 64)%Z -> (Z.of_nat (length ops) < 2 ^ 64)%Z ->
  let g' := fold_left remote_step ops g in
  match tunnel_remotes_if_changed g' (rs_gen g) with
  | None => rs_by_name g' = rs_by_name g
  | Some (gen, table) => gen = rs_gen g' /\ table = rs_by_name g' /\ gen <> rs_gen g
  end.
Proof.
  intros Hg Hlen g'. unfold tunnel_remotes_if_changed. destruct (Z.eqb_spec (rs_gen g') (rs_gen g)) as [E|E]; [|done].
  destruct (remote_steps_gen ops g Hg) as (k & Hk & H1 & H2). fold g' in H1, H2. rewrite E in H1.
  assert (k = 0%Z) as Hk0.
  { unfold wrap_u in H1. destruct (decide (rs_gen g + k < 2 ^ 64)%Z) as [Hlt|Hge].
    - rewrite Z.mod_small in H1 by lia. lia.
    - assert ((rs_gen g + k) mod 2 ^ 64 = rs_gen g + k - 2 ^ 64)%Z as Em.
      { symmetry. apply (Z.mod_unique _ _ 1); lia. }
      lia. }
  by rewrite (H2 Hk0).
Qed.

(** The pending log is bounded and loses only the oldest lines: after any
    lines it holds the last five hundred of them, in order. *)
Theorem pending_logs_bounded (h : ClientHandle) (lines : list string) :
  length (h_pending_logs h) <= MAX_PENDING ->
  h_pending_logs (fold_left enqueue_log lines h)
  = drop (length (h_pending_logs h ++ lines) - MAX_PENDING) (h_pending_logs h ++ lines).
Proof.
  revert h. induction lines as [|l lines IH]; intros h Hh; simpl.
  - rewrite (right_id_L [] (++))%list. replace (length (h_pending_logs h) - MAX_PENDING) with 0 by lia. by rewrite drop_0.
  - assert (h_pending_logs (enqueue_log h l)
            = drop (length (h_pending_logs h ++ [l]) - MAX_PENDING) (h_pending_logs h ++ [l])) as E.
    { unfold enqueue_log. cbn [h_pending_logs set_logs]. rewrite length_app. simpl length.
      destruct (Nat.leb_spec MAX_PENDING (length (h_pending_logs h))) as [Hf|Hf].
      - rewrite drop_app_le by (unfold MAX_PENDING in *; lia). do 2 f_equal. lia.
      - replace (length (h_pending_logs h) + 1 - MAX_PENDING) with 0 by lia. by rewrite drop_0. }
    rewrite IH; rewrite E.
    + change (l :: lines) with ([l] ++ lines)%list. rewrite (assoc_L (++))%list. set (a := (h_pending_logs h ++ [l])%list).
      assert (length a - MAX_PENDING <= length a) as Hd by lia. clearbody a.
      rewrite <- drop_app_le by done. rewrite drop_drop. f_equal. rewrite length_drop, length_app. lia.
    + rewrite length_drop. lia.
Qed.

(** *** Witnesses *)

Lemma remotes_polling_exact_witness :
  (0 <= 5 < 2 ^ 64)%Z /\
  match tunnel_remotes_if_changed (fold_left remote_step [OpSet "a" "x"; OpRemove "a"] (MkRemotes 5 ∅)) 5 with
  | None => False
  | Some (gen, table) => gen = 7%Z /\ table = ∅
  end.
Proof.
  split; [lia|].
  pose proof (remotes_polling_exact (MkRemotes 5 ∅) [OpSet "a" "x"; OpRemove "a"] ltac:(simpl; lia) ltac:(simpl; lia)) as H.
  vm_compute in H. destruct H as (H & _). split; [exact H|vm_compute; reflexivity].
Defined.
Lemma pending_logs_bounded_witness :
  h_pending_logs (fold_left enqueue_log ["b"; "c"] (enqueue_log handle_new "a")) = ["a"; "b"; "c"].
Proof. rewrite pending_logs_bounded; [reflexivity|]. apply Nat.leb_le. reflexivity. Defined.
