(* ===== verification/ClientSession.v ===== *)
(** * A client's session with the server

    [client/src/control/session.rs].  A session's shared state is changed by the
    reader task, which handles the server's messages one at a time, and by the
    reload that runs beside it; what each does between two points where the other
    may run is one step.  The outcome of every write to the control stream, the
    clock and the server's messages are arguments.  What the front end is told of
    the tunnels' remote addresses is part of the state. *)

From stdpp Require Import sorting.
From S2P Require Import Prelude RustStr Float64 Config ServerConfig ClientConfig Registry Msg Limit Auth Reload ClientHandle ClientTunnels.

Local Open Scope string_scope.

(** ** Results *)

Inductive OpenError :=
| LoginRejected (reason : string)
| OtherError (e : string).
Definition open_error_str (e : OpenError) : string :=
  match e with LoginRejected reason => "login rejected: " ++ reason | OtherError e => e end.
Inductive SessionEnd :=
| Disconnected (session_id : string)
| Kicked (session_id reason : string).
Inductive ReaderEnd := REClosed | REKicked (reason : string).

(** ** [RegisterWatch] *)

Record RegisterWatch := MkWatch { rw_pending : gset string; rw_errors : gmap string string }.
Definition watch_new : RegisterWatch := MkWatch ∅ ∅.
Definition watch_begin (w : RegisterWatch) (name : string) : RegisterWatch :=
  MkWatch ({[name]} ∪ rw_pending w) (delete name (rw_errors w)).
Definition watch_finish (w : RegisterWatch) (name : string) (error : option string) : RegisterWatch :=
  MkWatch (rw_pending w ∖ {[name]})
    (match error with Some e => <[name := e]> (rw_errors w) | None => rw_errors w end).

(** ** Messages for tunnels *)

Definition omit_client_side (side : string) : string :=
  let s := to_lower (trim side) in if is_empty s || String.eqb s "client" then "" else s.

Definition normalize_remote_addr (server_addr remote_addr : string) : string :=
  let remote := trim remote_addr in
  if is_empty remote then "" else
  match strip_prefix ":" remote with
  | Some port =>
      let host := trim server_addr in
      let host := match rsplit_once ":" host with Some (h, _) => h | None => host end in
      if negb (is_empty host) && negb (is_empty port) then host ++ ":" ++ port else remote
  | None => remote
  end.

Definition validate_tunnel (p : TunnelConfig) : Anyhow unit :=
  let? ' (_, local_port) := service_host_port p in
  bail_if (requires_local_service p && (local_port =? 0)%Z)
    with (tunnel_err (tc_name p) ("requires service = " ++ dquote ++ "host:port" ++ dquote ++ " (local backend)")) ;;
  bail_if ((tc_remote_port p =? 0)%Z && is_port_protocol (tc_protocol p))
    with (tunnel_err (tc_name p) ("type " ++ tc_protocol p ++ " requires remotePort > 0")) ;;
  if is_port_protocol (tc_protocol p) || is_web_protocol (tc_protocol p) then Ok tt
  else Err (tunnel_err (tc_name p) ("unsupported protocol " ++ tc_protocol p)).

Definition new_tunnel_base (name protocol : string) (remote_port : Z) (local_ip : string) (local_port : Z)
    (transport : TunnelTransportConfig) : NewTunnel :=
  MkNewTunnel name protocol remote_port local_ip local_port [] [] "" "" "" ∅ ∅ (tt_bandwidth transport)
    (omit_client_side (tt_bandwidth_limit_side transport)).
Definition build_new_tunnel_message (p : TunnelConfig) : Anyhow Message :=
  let? ' (local_ip, local_port) := service_host_port p in
  let base protocol remote_port := new_tunnel_base (tc_name p) protocol remote_port local_ip local_port (tc_transport p) in
  if String.eqb (tc_protocol p) "tcp" then Ok (MNewTunnel (base "tcp" (wrap_i 32 (tc_remote_port p))))
  else if String.eqb (tc_protocol p) "udp" then Ok (MNewTunnel (base "udp" (wrap_i 32 (tc_remote_port p))))
  else if String.eqb (tc_protocol p) "http" then
    let np := base "http" 0%Z in
    Ok (MNewTunnel (MkNewTunnel (nt_tunnel_name np) (nt_protocol np) (nt_remote_port np) (nt_local_ip np)
          (nt_local_port np) (tc_domains p) (tc_locations p) (tc_basic_auth_user p) (tc_basic_auth_password p)
          (tc_host_header_rewrite p) (nt_headers np) (nt_response_headers np) (nt_bandwidth np) (nt_bandwidth_limit_side np)))
  else if String.eqb (tc_protocol p) "https" then
    let np := base "https" 0%Z in
    Ok (MNewTunnel (MkNewTunnel (nt_tunnel_name np) (nt_protocol np) (nt_remote_port np) (nt_local_ip np)
          (nt_local_port np) (tc_domains p) (nt_locations np) (nt_basic_auth_user np) (nt_basic_auth_password np)
          (nt_host_header_rewrite np) (nt_headers np) (nt_response_headers np) (nt_bandwidth np) (nt_bandwidth_limit_side np)))
  else Err (tunnel_err (tc_name p) ("unsupported protocol " ++ tc_protocol p)).

(** ** The session *)

(** [cs_sent]: the messages written to the control stream; [cs_tasks]: the data
    connections the server has asked for. *)
Record CControl := MkCControl {
  cs_session_id : string; cs_tunnels : CTunnelManager; cs_cancelled : bool; cs_last_pong : Z;
  cs_watch : RegisterWatch; cs_sent : list Message; cs_tasks : Z; cs_remotes : TunnelRemoteState }.

Definition cs_set_tunnels (c : CControl) (m : CTunnelManager) : CControl :=
  MkCControl (cs_session_id c) m (cs_cancelled c) (cs_last_pong c) (cs_watch c) (cs_sent c) (cs_tasks c) (cs_remotes c).
Definition cs_set_watch (c : CControl) (w : RegisterWatch) : CControl :=
  MkCControl (cs_session_id c) (cs_tunnels c) (cs_cancelled c) (cs_last_pong c) w (cs_sent c) (cs_tasks c) (cs_remotes c).
Definition cs_set_remotes (c : CControl) (g : TunnelRemoteState) : CControl :=
  MkCControl (cs_session_id c) (cs_tunnels c) (cs_cancelled c) (cs_last_pong c) (cs_watch c) (cs_sent c) (cs_tasks c) g.
Definition cs_send (c : CControl) (m : Message) : CControl :=
  MkCControl (cs_session_id c) (cs_tunnels c) (cs_cancelled c) (cs_last_pong c) (cs_watch c) (cs_sent c ++ [m])%list
    (cs_tasks c) (cs_remotes c).
Definition cs_cancel (c : CControl) : CControl :=
  MkCControl (cs_session_id c) (cs_tunnels c) true (cs_last_pong c) (cs_watch c) (cs_sent c) (cs_tasks c) (cs_remotes c).
Definition cs_set_pong (c : CControl) (now : Z) : CControl :=
  MkCControl (cs_session_id c) (cs_tunnels c) (cs_cancelled c) now (cs_watch c) (cs_sent c) (cs_tasks c) (cs_remotes c).
Definition cs_add_task (c : CControl) : CControl :=
  MkCControl (cs_session_id c) (cs_tunnels c) (cs_cancelled c) (cs_last_pong c) (cs_watch c) (cs_sent c) (cs_tasks c + 1) (cs_remotes c).

Definition request_disconnect (c : CControl) : CControl := cs_cancel c.

(** [locked]: whether the tunnel's UDP slot is held when its entry is removed. *)
Definition close_tunnel (c : CControl) (name : string) (write : Anyhow unit) (locked : bool) : CControl * Anyhow unit :=
  match write with
  | Err e => (c, Err e)
  | Ok _ =>
      let c := cs_send c (MCloseTunnel (MkCloseTunnel name)) in
      let c := cs_set_tunnels c (cm_remove (cs_tunnels c) name locked) in
      (cs_set_remotes c (remove_tunnel_remote (cs_remotes c) name), Ok tt)
  end.

Section Session.
Context (load_tls : string -> string -> string -> Anyhow unit)
  (iter : gmap string CTunnelEntry -> list (string * CTunnelEntry)).

(** The tunnel is filed and awaited before its message is written. *)
Definition register_tunnel (c : CControl) (tunnel : TunnelConfig) (write : Anyhow unit) : CControl * Anyhow unit :=
  match (let? _ := validate_tunnel tunnel in build_new_tunnel_message tunnel) with
  | Err e => (c, Err e)
  | Ok msg =>
      match cm_upsert load_tls (cs_tunnels c) tunnel with
      | Err e => (c, Err e)
      | Ok m =>
          let c := cs_set_tunnels c m in
          let c := cs_set_watch c (watch_begin (cs_watch c) (tc_name tunnel)) in
          match write with
          | Err e => (c, Err e)
          | Ok _ => (cs_send c msg, Ok tt)
          end
      end
  end.

(** [register_all_tunnels], over the outcomes of the writes: [None] if they run out. *)
Fixpoint register_all_tunnels (c : CControl) (tunnels : list TunnelConfig) (writes : list (Anyhow unit))
    : option (CControl * Anyhow unit) :=
  match tunnels, writes with
  | [], _ => Some (c, Ok tt)
  | _, [] => None
  | t :: tunnels, w :: writes =>
      match register_tunnel c t w with
      | (c, Err e) => Some (c, Err e)
      | (c, Ok _) => register_all_tunnels c tunnels writes
      end
  end.

(** [close_all_tunnels]: a close that fails is skipped. *)
Definition close_all_tunnels (c : CControl) (write : string -> Anyhow unit * bool) : CControl :=
  fold_left (fun c name => (close_tunnel c name (write name).1 (write name).2).1)
    (cm_tunnel_names iter (cs_tunnels c)) c.

(** ** Applying a reload: [apply_tunnel_changes] *)

(** Where the task that applies the changes is: the tunnels left to close, then to
    register, then waiting for the server's answers. *)
Inductive ApplyPc :=
| ApClosing (names : list string) (o : ReloadOutcome)
| ApRegistering (tunnels : list TunnelConfig) (o : ReloadOutcome) (started : list string)
| ApCollecting (o : ReloadOutcome) (started : list string)
| ApDone (o : ReloadOutcome).

(** [sort] and [dedup]. *)
Fixpoint dedup_sorted (l : list string) : list string :=
  match l with
  | [] => []
  | x :: l => match l with y :: _ => if String.eqb x y then dedup_sorted l else x :: dedup_sorted l | [] => [x] end
  end.
Definition stop_names (ch : TunnelChanges) : list string :=
  dedup_sorted (merge_sort String.le
    (fold_left (fun names t => if bool_decide (tc_name t ∈ names) then names else (names ++ [tc_name t])%list)
       (ch_updated ch) (ch_removed ch))).

Definition add_removed (o : ReloadOutcome) (n : string) : ReloadOutcome :=
  MkOutcome (ro_level o) (ro_added o) (ro_removed o ++ [n])%list (ro_updated o) (ro_failed o) (ro_connection_settings_changed o).
Definition add_failed (o : ReloadOutcome) (n e : string) : ReloadOutcome :=
  MkOutcome (ro_level o) (ro_added o) (ro_removed o) (ro_updated o) (ro_failed o ++ [(n, e)])%list (ro_connection_settings_changed o).
Definition add_added (o : ReloadOutcome) (n : string) : ReloadOutcome :=
  MkOutcome (ro_level o) (ro_added o ++ [n])%list (ro_removed o) (ro_updated o) (ro_failed o) (ro_connection_settings_changed o).
Definition add_updated (o : ReloadOutcome) (n : string) : ReloadOutcome :=
  MkOutcome (ro_level o) (ro_added o) (ro_removed o) (ro_updated o ++ [n])%list (ro_failed o) (ro_connection_settings_changed o).
Definition has_failed (o : ReloadOutcome) (n : string) : bool := bool_decide (n ∈ map fst (ro_failed o)).

(** One error the server or the deadline reports for a tunnel that was started. *)
Definition note_error (o : ReloadOutcome) (err : string * string) : ReloadOutcome :=
  let '(n, e) := err in
  let o := MkOutcome (ro_level o) (filter (fun k => k <> n) (ro_added o)) (ro_removed o)
             (filter (fun k => k <> n) (ro_updated o)) (ro_failed o) (ro_connection_settings_changed o) in
  if has_failed o n then o else add_failed o n e.

(** What [collect_register_errors] finds: the errors, once no answer is awaited
    or the deadline has passed; [None] while it waits. *)
Definition collect_register_errors (w : RegisterWatch) (names : list string) (deadline : bool)
    : option (list (string * string)) :=
  if negb (existsb (fun n => bool_decide (n ∈ rw_pending w)) names)
  then Some (omap (fun n => match rw_errors w !! n with Some e => Some (n, e) | None => None end) names)
  else if deadline
  then Some (omap (fun n => if bool_decide (n ∈ rw_pending w) then Some (n, "tunnel start timed out")
                            else match rw_errors w !! n with Some e => Some (n, e) | None => None end) names)
  else None.

Definition apply_start (ch : TunnelChanges) : ApplyPc :=
  ApClosing (stop_names ch) (MkOutcome LvTunnelsOnly [] [] [] [] false).

(** One step of the task: the outcome of the write it makes, whether the UDP slot
    of the tunnel it closes is held, whether its deadline has passed. *)
Definition apply_step (ch : TunnelChanges) (c : CControl) (pc : ApplyPc) (write : Anyhow unit) (locked deadline : bool)
    : CControl * ApplyPc :=
  match pc with
  | ApClosing [] o => (c, ApRegistering (ch_updated ch ++ ch_added ch)%list o [])
  | ApClosing (n :: names) o =>
      match close_tunnel c n write locked with
      | (c, Ok _) => (c, ApClosing names (if bool_decide (n ∈ ch_removed ch) then add_removed o n else o))
      | (c, Err e) => (c, ApClosing names (add_failed o n e))
      end
  | ApRegistering [] o started => (c, match started with [] => ApDone o | _ => ApCollecting o started end)
  | ApRegistering (t :: tunnels) o started =>
      if has_failed o (tc_name t) then (c, ApRegistering tunnels o started) else
      match register_tunnel c t write with
      | (c, Ok _) =>
          (c, ApRegistering tunnels
                (if bool_decide (tc_name t ∈ map tc_name (ch_added ch)) then add_added o (tc_name t) else add_updated o (tc_name t))
                (started ++ [tc_name t])%list)
      | (c, Err e) => (c, ApRegistering tunnels (add_failed o (tc_name t) e) started)
      end
  | ApCollecting o started =>
      match collect_register_errors (cs_watch c) started deadline with
      | Some errors => (c, ApDone (fold_left note_error errors o))
      | None => (c, pc)
      end
  | ApDone o => (c, pc)
  end.

(** ** The reader *)

(** The handling of one message from the server; [server] is the configured
    server address at that time. *)
Definition handle_message (c : CControl) (m : Message) (server : string) (now : Z) : CControl * option ReaderEnd :=
  match m with
  | MKickOut k => (c, Some (REKicked (ko_reason k)))
  | MReqDataConn _ => (cs_add_task c, None)
  | MNewTunnelResp resp =>
      let name := ntr_tunnel_name resp in
      if is_empty (ntr_error resp) then
        let c := cs_set_watch c (watch_finish (cs_watch c) name None) in
        (cs_set_remotes c (set_tunnel_remote (cs_remotes c) name (normalize_remote_addr server (ntr_remote_addr resp))), None)
      else (cs_set_watch c (watch_finish (cs_watch c) name (Some (ntr_error resp))), None)
  | MPong _ => (cs_set_pong c now, None)
  | _ => (c, None)
  end.
(** One turn of [reader_loop_inner]: a message, or the end or failure of the stream. *)
Definition reader_turn (c : CControl) (read : option Message) (server : string) (now : Z) : CControl * option ReaderEnd :=
  if cs_cancelled c then (c, Some REClosed)
  else match read with
  | None => (c, Some REClosed)
  | Some m => handle_message c m server now
  end.

(** [shutdown], then the session's end as the service is told it. *)
Definition session_shutdown (c : CControl) : CControl := cs_cancel c.
Definition session_end (c : CControl) (r : ReaderEnd) : SessionEnd :=
  match r with REKicked reason => Kicked (cs_session_id c) reason | REClosed => Disconnected (cs_session_id c) end.

(** ** Heartbeats *)

Definition effective_ping_interval (t : TransportConfig) : Z :=
  if (0 <? tr_heartbeat_interval t)%Z then tr_heartbeat_interval t
  else if tr_tcp_mux t && (0 <? tr_mux_keepalive_secs t)%Z then tr_mux_keepalive_secs t
  else -1.
Definition effective_pong_timeout (t : TransportConfig) : Z :=
  if (0 <? tr_heartbeat_timeout t)%Z then tr_heartbeat_timeout t
  else if (tr_heartbeat_interval t <=? 0)%Z && tr_tcp_mux t && (0 <? tr_mux_keepalive_secs t)%Z
  then sat_i64 (tr_mux_keepalive_secs t * 3)
  else -1.
(** A second of [heartbeat_timeout_loop]. *)
Definition timeout_tick (c : CControl) (timeout now : Z) : CControl :=
  if (timeout <=? 0)%Z || cs_cancelled c then c
  else if (0 <? cs_last_pong c)%Z && (timeout <? sat_i64 (now - cs_last_pong c))%Z then cs_cancel c else c.

Context `{Crypto}.

(** A tick of [heartbeat_loop]. *)
Definition ping_tick (c : CControl) (token : string) (now : Z) (write_ok : bool) : CControl :=
  if cs_cancelled c || negb write_ok then c
  else cs_send c (MPing (MkPing (compute_auth_digest token now) now)).

(** ** Opening a session *)

Record OpenEnv := MkOpenEnv {
  oe_version : string; oe_hostname : string; oe_os : string; oe_arch : string; oe_now : Z;
  oe_connect : Anyhow unit; oe_login_write : Anyhow unit; oe_reply : Anyhow Message;
  oe_registers : list (Anyhow unit) }.

Definition login_message (cfg : ClientConfig) (previous_session_id : string) (env : OpenEnv) : Login :=
  MkLogin (oe_version env) (oe_hostname env) (oe_os env) (oe_arch env) (cc_user cfg) (cc_agent_id cfg)
    (compute_auth_digest (cau_token (cc_auth cfg)) (oe_now env)) (oe_now env) previous_session_id
    (tr_pool_count (cc_transport cfg)).

Definition lift {A} (r : Anyhow A) : Result A OpenError := map_err OtherError r.

(** [None] while the writes that register the tunnels go on. *)
Definition open_session (cfg : ClientConfig) (previous_session_id : string) (remotes : TunnelRemoteState) (env : OpenEnv)
    : option (Result CControl OpenError) :=
  match lift (oe_connect env), lift (oe_login_write env), lift (oe_reply env) with
  | Err e, _, _ | Ok _, Err e, _ | Ok _, Ok _, Err e => Some (Err e)
  | Ok _, Ok _, Ok (MLoginResp r) =>
      if negb (is_empty (lr_error r)) then Some (Err (LoginRejected (lr_error r))) else
      match lift (cm_from_config load_tls cfg) with
      | Err e => Some (Err e)
      | Ok tunnels =>
          let c := MkCControl (lr_session_id r) tunnels false (oe_now env) watch_new
                     [MLogin (login_message cfg previous_session_id env)] 0 remotes in
          match register_all_tunnels c (cc_tunnels cfg) (oe_registers env) with
          | None => None
          | Some (c, Err e) => Some (Err (OtherError e))
          | Some (c, Ok _) => Some (Ok c)
          end
      end
  | Ok _, Ok _, Ok other => Some (Err (OtherError ("expected LoginResp, got type " ++ show_Z (Z.of_N (code (type_byte other))))))
  end.

(** ** A data connection: [handle_req_data_conn] *)

Definition data_conn_message (c : CControl) (token : string) (now : Z) : NewDataConn :=
  MkNewDataConn (cs_session_id c) (compute_auth_digest token now) now.
Definition handle_req_data_conn (dial : string -> Anyhow unit) (c : CControl) (connect write : Anyhow unit)
    (reply : option (Anyhow Message)) : CControl * Anyhow (option DataTask) :=
  match connect, write with
  | Err e, _ | Ok _, Err e => (c, Err e)
  | Ok _, Ok _ =>
      match reply with
      | None => (c, Ok None)
      | Some (Err e) => (c, Err e)
      | Some (Ok (MStartDataConn start)) =>
          if negb (is_empty (sd_error start)) then (c, Err ("StartDataConn error: " ++ sd_error start)) else
          let '(m, r) := handle_data_conn dial (cs_tunnels c) start in
          (cs_set_tunnels c m, let? task := r in Ok (Some task))
      | Some (Ok other) => (c, Err ("expected StartDataConn, got " ++ show_Z (Z.of_N (code (type_byte other)))))
      end
  end.
End Session.
