(* ===== verification/ClientReload.v ===== *)
(** * What applying a reload does

    The task of [apply_tunnel_changes] beside everything else that can change its
    session while it waits: the reader's messages, data connections, heartbeats.
    The events are a list; the task's own steps and the others come in any order. *)

From stdpp Require Import sorting.
From S2P Require Import Prelude RustStr Float64 Config ServerConfig ClientConfig Registry Msg Limit Auth Reload Net ProxyProtocol ClientHandle ClientTunnels ClientSession.

Local Open Scope string_scope.

(** ** The events of a session *)

Inductive SessionEvent :=
| SeApply (write : Anyhow unit) (locked deadline : bool)
| SeRead (read : option Message) (server : string) (now : Z)
| SePing (token : string) (now : Z) (write_ok : bool)
| SeTimeout (timeout now : Z)
| SeData (dial : string -> Anyhow unit) (connect write : Anyhow unit) (reply : option (Anyhow Message)).

Section Run.
Context (load_tls : string -> string -> string -> Anyhow unit) `{Crypto} (ch : TunnelChanges).

Definition run_event (st : CControl * ApplyPc) (ev : SessionEvent) : CControl * ApplyPc :=
  let '(c, pc) := st in
  match ev with
  | SeApply write locked deadline => apply_step load_tls ch c pc write locked deadline
  | SeRead read server now => ((reader_turn c read server now).1, pc)
  | SePing token now ok => (ping_tick c token now ok, pc)
  | SeTimeout timeout now => (timeout_tick c timeout now, pc)
  | SeData dial connect write reply => ((handle_req_data_conn dial c connect write reply).1, pc)
  end.
Definition run_events (st : CControl * ApplyPc) (evs : list SessionEvent) : CControl * ApplyPc :=
  fold_left run_event evs st.
End Run.

(** ** Lemmas: the outcome *)

Local Open Scope list_scope.

Lemma dedup_sorted_nodup l : NoDup l -> dedup_sorted l = l.
Proof.
  induction l as [|x l IH]; intros Hnd; [done|]. apply NoDup_cons in Hnd as [Hx Hnd]. simpl.
  destruct l as [|y l]; [done|]. rewrite IH by done.
  destruct (String.eqb_spec x y) as [->|]; [|done]. set_solver.
Qed.
Lemma stop_names_perm ch :
  NoDup (ch_removed ch ++ map tc_name (ch_updated ch)) ->
  stop_names ch ≡ₚ ch_removed ch ++ map tc_name (ch_updated ch).
Proof.
  intros Hnd. unfold stop_names.
  assert (forall l r, NoDup (r ++ map tc_name l) ->
    fold_left (fun names t => if bool_decide (tc_name t ∈ names) then names else names ++ [tc_name t]) l r = r ++ map tc_name l) as Hfold.
  { induction l as [|t l IH]; intros r Hr; simpl; [by rewrite (right_id_L [] (++))|].
    assert (tc_name t ∉ r) as Hn.
    { apply NoDup_app in Hr as (_ & Hd & _). intros Hin. specialize (Hd _ Hin). simpl in Hd. set_solver. }
    rewrite bool_decide_eq_false_2 by done. rewrite IH; [by rewrite <- (assoc_L (++))|].
    by rewrite <- (assoc_L (++)). }
  rewrite Hfold by done. rewrite dedup_sorted_nodup; [apply merge_sort_Permutation|].
  by rewrite merge_sort_Permutation.
Qed.

(** A filter that takes one element out of a list without duplicates. *)
Lemma filter_out_perm (n : string) (l : list string) : NoDup l -> n ∈ l -> l ≡ₚ n :: filter (fun k => k <> n) l.
Proof.
  intros Hnd Hin. apply NoDup_Permutation; [done| |].
  - apply NoDup_cons. split; [|by apply NoDup_filter]. rewrite list_elem_of_filter. naive_solver.
  - intros k. rewrite elem_of_cons, list_elem_of_filter. destruct (decide (k = n)); naive_solver.
Qed.

Abbreviation failed_names o := (map fst (ro_failed o)).
(** What has been decided so far. *)
Definition decided (o : ReloadOutcome) : list string := ro_removed o ++ ro_updated o ++ ro_added o ++ failed_names o.

Lemma note_error_perm o n e :
  NoDup (decided o) -> n ∈ ro_updated o ++ ro_added o ->
  decided (note_error o (n, e)) ≡ₚ decided o
  /\ ro_updated (note_error o (n, e)) ++ ro_added (note_error o (n, e)) = filter (fun k => k <> n) (ro_updated o ++ ro_added o).
Proof.
  intros Hnd Hin. unfold decided in *. rewrite (assoc_L (++) (ro_updated o)) in Hnd.
  apply NoDup_app in Hnd as (_ & _ & Hnd). apply NoDup_app in Hnd as (Hua & Hf & _).
  unfold note_error, has_failed. cbn [ro_failed]. rewrite bool_decide_eq_false_2 by (by apply Hf). cbn.
  split; [|by rewrite filter_app].
  rewrite map_app. cbn. rewrite !(assoc_L (++) (ro_updated o)), (assoc_L (++) (filter _ (ro_updated o))), <- filter_app.
  rewrite (filter_out_perm n (ro_updated o ++ ro_added o)) at 2 by done.
  solve_Permutation.
Qed.
#[local] Arguments note_error : simpl never.
Lemma note_errors_perm errors o :
  NoDup (decided o) -> NoDup (map fst errors) -> (forall n, n ∈ map fst errors -> n ∈ ro_updated o ++ ro_added o) ->
  decided (fold_left note_error errors o) ≡ₚ decided o.
Proof.
  revert o. induction errors as [|[n e] errors IH]; intros o Hnd He Hin; [done|]. cbn in *.
  apply NoDup_cons in He as [Hn He].
  destruct (note_error_perm o n e) as [Hp Hf]; [done|apply Hin; by left|].
  rewrite IH; [done| |done|].
  - by rewrite Hp.
  - intros k Hk. rewrite Hf, list_elem_of_filter. split; [by intros ->|]. apply Hin. by right.
Qed.
Lemma collect_names w names deadline errors :
  collect_register_errors w names deadline = Some errors -> NoDup names ->
  NoDup (map fst errors) /\ forall n, n ∈ map fst errors -> n ∈ names.
Proof.
  intros H Hnd.
  assert (exists f : string -> option string,
    errors = omap (fun n => match f n with Some e => Some (n, e) | None => None end) names) as [f ->].
  { unfold collect_register_errors in H. destruct (negb _); [|destruct deadline; [|done]]; injection H as <-.
    - by exists (fun n => rw_errors w !! n).
    - exists (fun n => if bool_decide (n ∈ rw_pending w) then Some "tunnel start timed out" else rw_errors w !! n).
      apply list_omap_ext. apply Forall2_same_length_lookup. split; [done|]. intros i x y Hx Hy. simplify_eq.
      by case_bool_decide. }
  clear H. induction names as [|n names IH]; [by split; [constructor|set_solver]|].
  apply NoDup_cons in Hnd as [Hn Hnd]. specialize (IH Hnd) as [IH1 IH2]. cbn.
  destruct (f n); cbn; [|set_solver]. split; [constructor; set_solver|set_solver].
Qed.

Section Partition.
Context (ch : TunnelChanges).
Let all := ch_removed ch ++ map tc_name (ch_updated ch) ++ map tc_name (ch_added ch).
Context (Hnd : NoDup all).

(** Names awaiting their turn: those to register that have not failed already. *)
Definition waiting (o : ReloadOutcome) (tunnels : list TunnelConfig) : list string :=
  filter (fun n => n ∉ failed_names o) (map tc_name tunnels).

Definition apply_inv (pc : ApplyPc) : Prop :=
  match pc with
  | ApClosing names o =>
      ro_added o = [] /\ ro_updated o = [] /\
      exists closed, ro_removed o ++ failed_names o ++ closed ++ names ≡ₚ ch_removed ch ++ map tc_name (ch_updated ch)
        /\ Forall (fun n => n ∈ map tc_name (ch_updated ch)) closed /\ Forall (fun n => n ∈ ch_removed ch) (ro_removed o)
  | ApRegistering tunnels o started =>
      decided o ++ waiting o tunnels ≡ₚ all /\ NoDup (map tc_name tunnels)
      /\ (forall n, n ∈ started <-> n ∈ ro_updated o ++ ro_added o) /\ NoDup started
  | ApCollecting o started =>
      decided o ≡ₚ all /\ (forall n, n ∈ started <-> n ∈ ro_updated o ++ ro_added o) /\ NoDup started
  | ApDone o => decided o ≡ₚ all
  end.

Lemma apply_inv_start : apply_inv (apply_start ch).
Proof using Hnd.
  unfold apply_start. repeat split; try done. exists []. cbn. split; [|split; constructor].
  apply stop_names_perm. subst all. rewrite (assoc_L (++)) in Hnd. by apply NoDup_app in Hnd as [? _].
Qed.

Lemma apply_inv_open o :
  apply_inv (ApClosing [] o) -> apply_inv (ApRegistering (ch_updated ch ++ ch_added ch) o []).
Proof using Hnd.
  intros (Ha & Hu & closed & Hp & Hc & Hr). rewrite (right_id_L [] (++)) in Hp. cbn. unfold decided.
  rewrite Ha, Hu. subst all.
  assert (NoDup (ro_removed o ++ failed_names o ++ closed)) as Hnd'.
  { rewrite Hp. rewrite (assoc_L (++)) in Hnd. by apply NoDup_app in Hnd as [? _]. }
  rewrite Forall_forall in Hc, Hr.
  assert (forall n, n ∈ failed_names o -> n ∈ ch_removed ch \/ n ∈ map tc_name (ch_updated ch)) as Hfl.
  { intros n Hn. apply elem_of_app. rewrite <- Hp. set_solver. }
  assert (forall n, n ∈ ch_removed ch \/ n ∈ map tc_name (ch_updated ch) ->
            n ∈ ro_removed o \/ n ∈ failed_names o \/ n ∈ closed) as Hfr.
  { intros n Hn. apply elem_of_app in Hn. rewrite <- Hp, !elem_of_app in Hn. done. }
  apply NoDup_app in Hnd as (Hnd1 & Hd1 & Hnd2). pose proof Hnd2 as Hnd3. apply NoDup_app in Hnd2 as (Hnd2 & Hd2 & Hnd4).
  apply NoDup_app in Hnd' as (Hx1 & Hx2 & Hx3). apply NoDup_app in Hx3 as (Hx3 & Hx4 & Hx5).
  rewrite map_app. split; [|split; [done|split; [set_solver|constructor]]].
  cbn. apply NoDup_Permutation.
  - apply NoDup_app. split; [apply NoDup_app; split; [done|split; [set_solver|done]]|].
    split; [|apply NoDup_filter; by rewrite map_app].
    intros n. unfold waiting. rewrite map_app, list_elem_of_filter, !elem_of_app. intros [Hn|Hn]; [|naive_solver].
    specialize (Hd1 _ (Hr _ Hn)). set_solver.
  - apply NoDup_app. split; [done|]. split; [|done]. done.
  - intros n. unfold waiting. rewrite map_app, !elem_of_app, list_elem_of_filter, !elem_of_app.
    specialize (Hfr n). specialize (Hfl n). specialize (Hr n). specialize (Hc n).
    destruct (decide (n ∈ failed_names o)); naive_solver.
Qed.

Lemma waiting_cons_in o t tunnels :
  tc_name t ∉ failed_names o -> waiting o (t :: tunnels) = tc_name t :: waiting o tunnels.
Proof. intros H. unfold waiting. cbn [map]. by rewrite filter_cons_True. Qed.
Lemma waiting_fail o t e tunnels :
  tc_name t ∉ map tc_name tunnels -> waiting (add_failed o (tc_name t) e) tunnels = waiting o tunnels.
Proof.
  intros H. unfold waiting, add_failed. cbn. rewrite map_app. cbn. induction (map tc_name tunnels) as [|n l IH]; [done|].
  apply not_elem_of_cons in H as [Hn H]. rewrite !filter_cons, IH by done.
  destruct (decide (n ∉ failed_names o)) as [Hd|Hd].
  - rewrite decide_True; [done|set_solver].
  - rewrite decide_False; [done|set_solver].
Qed.

Lemma apply_inv_step load_tls c pc w locked deadline c' pc' :
  apply_inv pc -> apply_step load_tls ch c pc w locked deadline = (c', pc') -> apply_inv pc'.
Proof using Hnd.
  intros Hi H. destruct pc as [[|n names] o|[|t tunnels] o started|o started|o]; unfold apply_step in H.
  - injection H as <- <-. by apply apply_inv_open.
  - destruct Hi as (Ha & Hu & closed & Hp & Hc & Hr).
    destruct (close_tunnel c n w locked) as [c1 [[]|e]]; injection H as <- <-; cbn in *;
      [case_bool_decide as Hn|]; cbn; (split; [done|]); (split; [done|]).
    + exists closed. split; [|split; [done|]].
      * rewrite <- Hp. solve_Permutation.
      * apply Forall_app. split; [done|]. by apply Forall_singleton.
    + exists (closed ++ [n]). split; [rewrite <- Hp; solve_Permutation|]. split; [|done]. apply Forall_app. split; [done|].
      apply Forall_singleton. assert (n ∈ ch_removed ch ++ map tc_name (ch_updated ch)) as Hin by (rewrite <- Hp; set_solver).
      set_solver.
    + exists closed. split; [|by split]. rewrite <- Hp, map_app. cbn. solve_Permutation.
  - injection H as <- <-. destruct Hi as (Hp & _ & Hs & Hd). unfold waiting in Hp. cbn in Hp. rewrite (right_id_L [] (++)) in Hp.
    destruct started; done.
  - destruct Hi as (Hp & Ht & Hs & Hd). cbn in Ht. apply NoDup_cons in Ht as [Htn Ht].
    unfold has_failed in H. case_bool_decide as Hf.
    { injection H as <- <-. cbn. unfold waiting in *. cbn [map] in Hp. rewrite filter_cons_False in Hp by tauto. done. }
    rewrite waiting_cons_in in Hp by done.
    assert (tc_name t ∉ started) as Hns.
    { rewrite Hs. intros Hin. assert (NoDup (decided o ++ tc_name t :: waiting o tunnels)) as Hno by by rewrite Hp.
      apply NoDup_app in Hno as (_ & Hno & _). apply (Hno (tc_name t)); [|by left]. unfold decided. set_solver. }
    destruct (register_tunnel load_tls c t w) as [c1 [[]|e]]; injection H as <- <-; [case_bool_decide|].
    1,2: cbn; unfold decided, waiting in *; cbn; split; [rewrite <- Hp; solve_Permutation|];
      split; [done|]; split; [intros k; specialize (Hs k); set_solver|];
      apply NoDup_app; split; [done|split; [set_solver|apply NoDup_singleton]].
    cbn [apply_inv]. rewrite waiting_fail by done. split; [|by split].
    unfold decided in *. cbn. rewrite map_app. cbn. rewrite <- Hp. solve_Permutation.
  - destruct Hi as (Hp & Hs & Hd). destruct (collect_register_errors _ _ _) as [errors|] eqn:E; injection H as <- <-; [|done].
    apply collect_names in E as [He Hin]; [|done]. cbn. rewrite note_errors_perm; [done| |done|].
    + rewrite Hp. done.
    + intros n Hn. apply Hs, Hin, Hn.
  - by injection H as <- <-.
Qed.

End Partition.

Section Outcome.
Context (load_tls : string -> string -> string -> Anyhow unit) `{Crypto} (ch : TunnelChanges).

Lemma apply_inv_run c pc evs :
  NoDup (ch_removed ch ++ map tc_name (ch_updated ch) ++ map tc_name (ch_added ch)) ->
  apply_inv ch pc -> apply_inv ch (run_events load_tls ch (c, pc) evs).2.
Proof.
  intros Hnd. revert c pc. induction evs as [|ev evs IH]; intros c pc Hi; [done|]. unfold run_events. cbn [fold_left].
  destruct (run_event load_tls ch (c, pc) ev) as [c1 pc1] eqn:E. apply IH.
  destruct ev; cbn [run_event] in E; [by eapply apply_inv_step|by injection E as <- <-..].
Qed.

(** The steps the task has left when no answer is waited for beyond the deadline. *)
Definition steps_left (pc : ApplyPc) : nat :=
  match pc with
  | ApClosing names _ => length names + length (ch_updated ch ++ ch_added ch) + 3
  | ApRegistering tunnels _ _ => length tunnels + 2
  | ApCollecting _ _ => 1
  | ApDone _ => 0
  end.
Definition is_apply (ev : SessionEvent) : Prop := match ev with SeApply _ _ _ => True | _ => False end.
#[global] Instance is_apply_dec ev : Decision (is_apply ev).
Proof. destruct ev; apply _. Defined.

Lemma apply_step_left c pc w locked deadline :
  steps_left (apply_step load_tls ch c pc w locked deadline).2 <= Nat.max 1 (steps_left pc - 1)
  /\ steps_left (apply_step load_tls ch c pc w locked deadline).2 <= steps_left pc
  /\ (deadline = true -> steps_left (apply_step load_tls ch c pc w locked deadline).2 <= steps_left pc - 1).
Proof.
  destruct pc as [[|n names] o|[|t tunnels] o started|o started|o]; unfold apply_step.
  - cbn. lia.
  - destruct (close_tunnel _ _ _ _) as [c1 [[]|e]]; cbn; lia.
  - destruct started; cbn; lia.
  - destruct (has_failed _ _); [cbn; lia|]. destruct (register_tunnel _ _ _ _) as [c1 [[]|e]]; cbn; lia.
  - unfold collect_register_errors. destruct (negb _); [cbn; lia|]. destruct deadline; cbn; lia.
  - cbn. lia.
Qed.
Lemma run_left c pc evs :
  steps_left (run_events load_tls ch (c, pc) evs).2 <= Nat.max 1 (steps_left pc - length (filter is_apply evs))
  \/ steps_left (run_events load_tls ch (c, pc) evs).2 = 0.
Proof.
  revert c pc. induction evs as [|ev evs IH]; intros c pc; [cbn; lia|]. unfold run_events in *. cbn [fold_left].
  destruct (run_event load_tls ch (c, pc) ev) as [c1 pc1] eqn:E. specialize (IH c1 pc1). rewrite filter_cons.
  destruct ev as [w l d| | | |]; cbn [run_event] in E.
  2-5: injection E as <- <-; rewrite decide_False by (intros []); apply IH.
  rewrite decide_True by exact I. cbn [length]. destruct (apply_step_left c pc w l d) as (H1 & H2 & _). rewrite E in H1, H2.
  cbn [snd] in H1, H2. lia.
Qed.
End Outcome.

(** ** Lemmas: the tunnels a session has *)

(** The configurations of the tunnels a session serves. *)
Definition cfgs (c : CControl) : TunnelMap := ce_cfg <$> cm_by_name (cs_tunnels c).
(** The messages about tunnels among those a session has written. *)
Definition is_tunnel_message (m : Message) : Prop := match m with MNewTunnel _ | MCloseTunnel _ => True | _ => False end.
#[global] Instance is_tunnel_message_dec m : Decision (is_tunnel_message m).
Proof. destruct m; apply _. Defined.
Definition traffic (c : CControl) : list Message := filter is_tunnel_message (cs_sent c).
(** The message that registers a tunnel. *)
Definition register_message (t : TunnelConfig) : Anyhow Message :=
  let? _ := validate_tunnel t in build_new_tunnel_message t.
Definition register_messages (l : list TunnelConfig) : list Message :=
  omap (fun t => match register_message t with Ok m => Some m | Err _ => None end) l.
Definition close_messages (l : list string) : list Message := map (fun n => MCloseTunnel (MkCloseTunnel n)) l.

Lemma register_message_type t m : register_message t = Ok m -> is_tunnel_message m.
Proof.
  unfold register_message, build_new_tunnel_message. destruct (validate_tunnel t); [|done].
  destruct (service_host_port t) as [[host port]|]; [|done].
  repeat (case_match; [by intros [= <-]|]). done.
Qed.

Section Tables.
Context (load_tls : string -> string -> string -> Anyhow unit).

(** A tunnel the client can set up: its entry can be made and its message written. *)
Definition usable (t : TunnelConfig) : Prop :=
  is_ok (register_message t) = true /\ forall ka slot, is_ok (build_entry load_tls t ka slot) = true.

Lemma build_entry_cfg t ka slot e : build_entry load_tls t ka slot = Ok e -> ce_cfg e = t.
Proof.
  unfold build_entry. destruct (match tc_plugin t with Some _ => _ | None => _ end); [|done].
  destruct (parse_proxy_protocol_version _); [|done]. by intros [= <-].
Qed.
Lemma upsert_cfgs m t m' :
  cm_upsert load_tls m t = Ok m' -> ce_cfg <$> cm_by_name m' = add_tunnel (ce_cfg <$> cm_by_name m) t.
Proof.
  unfold cm_upsert. destruct (build_entry _ _ _ _) as [e|] eqn:E; [|done]. intros [= <-]. cbn.
  by rewrite fmap_insert, (build_entry_cfg _ _ _ _ E).
Qed.
Lemma remove_cfgs m n locked : ce_cfg <$> cm_by_name (cm_remove m n locked) = delete n (ce_cfg <$> cm_by_name m).
Proof.
  unfold cm_remove. rewrite <- fmap_delete. destruct (cm_by_name m !! n) eqn:E; [|by rewrite delete_id].
  f_equal. unfold cancel_udp_sync. destruct locked; [done|]. by case_match.
Qed.
Lemma serve_entries dial m e start : cm_by_name (serve_entry dial m e start).1 = cm_by_name m.
Proof.
  unfold serve_entry. case_match; [|by case_match]. unfold handle_udp. by case_match.
Qed.

Lemma register_ok c t w c' u :
  register_tunnel load_tls c t w = (c', Ok u) ->
  cfgs c' = add_tunnel (cfgs c) t /\ exists m, register_message t = Ok m /\ cs_sent c' = cs_sent c ++ [m]
  /\ cs_watch c' = watch_begin (cs_watch c) (tc_name t) /\ cs_session_id c' = cs_session_id c.
Proof.
  unfold register_tunnel. fold (register_message t). destruct (register_message t) as [m|]; [|done].
  destruct (cm_upsert _ _ _) as [tm|] eqn:E; [|done]. destruct w; [|done]. intros [= <- <-].
  split; [by apply upsert_cfgs|]. by exists m.
Qed.
Lemma register_usable c t :
  usable t -> exists c', register_tunnel load_tls c t (Ok tt) = (c', Ok tt).
Proof.
  intros [Hm He]. unfold register_tunnel. fold (register_message t). destruct (register_message t) as [m|]; [|done].
  unfold cm_upsert. specialize (He (cm_tcp_keepalive (cs_tunnels c)) (cm_next_slot (cs_tunnels c))).
  destruct (build_entry _ _ _ _); [|done]. eauto.
Qed.
Lemma close_ok c n locked :
  exists c', close_tunnel c n (Ok tt) locked = (c', Ok tt) /\ cfgs c' = delete n (cfgs c)
  /\ cs_sent c' = cs_sent c ++ [MCloseTunnel (MkCloseTunnel n)].
Proof. eexists. split; [reflexivity|]. split; [apply remove_cfgs|done]. Qed.

Lemma traffic_snoc c c' m :
  cs_sent c' = cs_sent c ++ [m] -> is_tunnel_message m -> traffic c' = traffic c ++ [m].
Proof. unfold traffic. intros -> Hm. by rewrite filter_app, filter_cons_True. Qed.

(** Everything but the task that applies the changes leaves the tunnels alone. *)
Lemma others_leave_tunnels `{Crypto} ch st ev :
  ~ is_apply ev ->
  cfgs (run_event load_tls ch st ev).1 = cfgs st.1 /\ traffic (run_event load_tls ch st ev).1 = traffic st.1
  /\ (run_event load_tls ch st ev).2 = st.2.
Proof.
  intros Hn. destruct st as [c pc], ev as [|read server now|token now ok|timeout now|dial co w reply]; [by destruct Hn|..]; cbn.
  - unfold reader_turn. destruct (cs_cancelled c), read as [m|]; try done. destruct m; try done. cbn. by case_match.
  - unfold ping_tick. case_match; [done|]. unfold cfgs, traffic, cs_send. cbn. rewrite filter_app.
    rewrite (filter_cons_False _ (MPing _)); [|by intros []]. by rewrite filter_nil, (right_id_L [] (++)).
  - unfold timeout_tick. by repeat case_match.
  - unfold handle_req_data_conn. destruct co, w; [|done..]. destruct reply as [[m|]|]; [|done..].
    destruct m; try done. case_match; [done|]. destruct (handle_data_conn _ _ _) as [tm r] eqn:E. cbn. split; [|done].
    unfold cfgs, handle_data_conn in *. cbn. case_match; [|by simplify_eq]. f_equal.
    rewrite <- (serve_entries dial (cs_tunnels c) c0 m), E. done.
Qed.
End Tables.

Section Applied.
Context (load_tls : string -> string -> string -> Anyhow unit) `{Crypto} (ch : TunnelChanges) (c0 : CControl).
Context (Husable : Forall (usable load_tls) (ch_updated ch ++ ch_added ch)).
Definition write_ok (ev : SessionEvent) : Prop := match ev with SeApply w _ _ => w = Ok tt | _ => True end.
Abbreviation deletes := (fold_left (fun (m : TunnelMap) n => delete n m)).

(** With every write done: what is closed, then what is registered, is exactly what the plan says. *)
Definition applied_inv (c : CControl) (pc : ApplyPc) : Prop :=
  match pc with
  | ApClosing names o => ro_failed o = [] /\ exists closed, stop_names ch = closed ++ names
      /\ cfgs c = deletes closed (cfgs c0) /\ traffic c = traffic c0 ++ close_messages closed
  | ApRegistering tunnels o _ => ro_failed o = [] /\ exists registered, ch_updated ch ++ ch_added ch = registered ++ tunnels
      /\ cfgs c = fold_left add_tunnel registered (deletes (stop_names ch) (cfgs c0))
      /\ traffic c = traffic c0 ++ close_messages (stop_names ch) ++ register_messages registered
  | _ => cfgs c = fold_left add_tunnel (ch_updated ch ++ ch_added ch) (deletes (stop_names ch) (cfgs c0))
      /\ traffic c = traffic c0 ++ close_messages (stop_names ch) ++ register_messages (ch_updated ch ++ ch_added ch)
  end.

Lemma applied_inv_apply c pc locked deadline :
  applied_inv c pc -> applied_inv (apply_step load_tls ch c pc (Ok tt) locked deadline).1
                        (apply_step load_tls ch c pc (Ok tt) locked deadline).2.
Proof using Husable.
  destruct pc as [[|n names] o|[|t tunnels] o started|o started|o]; unfold apply_step; [| | | | |done].
  - intros (Hf & closed & E & Hc & Ht). rewrite (right_id_L [] (++)) in E. subst closed. cbn. split; [done|].
    exists []. split; [done|]. split; [done|]. cbn. by rewrite (right_id_L [] (++)).
  - intros (Hf & closed & E & Hc & Ht). destruct (close_ok c n locked) as (c1 & -> & Hc1 & Ht1). cbn.
    split; [by case_bool_decide|]. exists (closed ++ [n]). rewrite <- (assoc_L (++)). split; [done|].
    rewrite Hc1, Hc, fold_left_app. split; [done|]. apply traffic_snoc in Ht1; [|exact I].
    unfold close_messages. rewrite Ht1, Ht, map_app, <- (assoc_L (++)). done.
  - intros (Hf & registered & E & Hc & Ht). rewrite (right_id_L [] (++)) in E. subst registered. by destruct started.
  - intros (Hf & registered & E & Hc & Ht). unfold has_failed. rewrite Hf, bool_decide_eq_false_2 by (apply not_elem_of_nil).
    assert (usable load_tls t) as Hu.
    { rewrite E in Husable. apply Forall_app in Husable as [_ Hu]. by apply Forall_cons in Hu as [Hu _]. }
    destruct (register_usable load_tls c t Hu) as (c1 & E1). rewrite E1.
    apply register_ok in E1 as (Hc1 & m & Hm & Ht1 & _). cbn. split; [by case_bool_decide|].
    exists (registered ++ [t]). rewrite <- (assoc_L (++)). split; [done|]. rewrite Hc1, Hc, fold_left_app.
    split; [done|]. apply traffic_snoc in Ht1; [|by eapply register_message_type].
    unfold register_messages. rewrite Ht1, Ht, omap_app. cbn. by rewrite Hm, <- !(assoc_L (++)).
  - intros [Hc Ht]. destruct (collect_register_errors _ _ _); done.
Qed.
Lemma applied_inv_run evs c pc :
  Forall write_ok evs -> applied_inv c pc ->
  applied_inv (run_events load_tls ch (c, pc) evs).1 (run_events load_tls ch (c, pc) evs).2.
Proof using Husable.
  revert c pc. induction evs as [|ev evs IH]; intros c pc Hw Hi; [done|]. apply Forall_cons in Hw as [Hev Hw].
  unfold run_events in *. cbn [fold_left].
  assert (applied_inv (run_event load_tls ch (c, pc) ev).1 (run_event load_tls ch (c, pc) ev).2) as Hi'.
  { destruct (decide (is_apply ev)) as [Ha|Ha].
    - destruct ev; [|by destruct Ha..]. cbn in Hev. subst. by apply applied_inv_apply.
    - destruct (others_leave_tunnels load_tls ch (c, pc) ev Ha) as (Hc & Ht & ->). cbn [fst snd] in *.
      destruct pc; unfold applied_inv in *; rewrite ?Hc, ?Ht; done. }
  destruct (run_event load_tls ch (c, pc) ev) as [c1 pc1]. by apply IH.
Qed.
Lemma applied_inv_start : applied_inv c0 (apply_start ch).
Proof using.
  split; [done|]. exists []. split; [done|]. split; [done|]. cbn. by rewrite (right_id_L [] (++)).
Qed.

(** Closing in any order and then registering is [apply_changes]. *)
Lemma applied_changes m :
  NoDup (map tc_name (ch_updated ch ++ ch_added ch)) -> NoDup (ch_removed ch ++ map tc_name (ch_updated ch)) ->
  fold_left add_tunnel (ch_updated ch ++ ch_added ch) (deletes (stop_names ch) m) = apply_changes m ch.
Proof using.
  intros Hnd Hstop. apply map_eq. intros n. apply option_eq. intros t. unfold apply_changes.
  rewrite !fold_add_tunnel_lookup, !fold_delete_tunnel_lookup by done. by rewrite (stop_names_perm ch Hstop).
Qed.
End Applied.

(** What a plan closes it closes once. *)
Lemma stop_nodup iter old new :
  (forall m, iter m ≡ₚ map_to_list m) ->
  NoDup (ch_removed (diff_tunnels iter old new) ++ map tc_name (ch_updated (diff_tunnels iter old new))).
Proof.
  intros Hiter. destruct (changes_nodup iter Hiter old new) as (Ha & Hrm & Hup).
  apply NoDup_app. split; [done|]. split; [|done]. intros n Hn (t & Ht' & <-)%elem_of_names.
  apply removed_spec in Hn as [Hn _]; [|done]. apply updated_spec in Ht' as [Ht' _]; [|done]. congruence.
Qed.

(** ** Properties *)

Section Properties.
Context (load_tls : string -> string -> string -> Anyhow unit) `{Crypto} (ch : TunnelChanges).

(** C13: However the writes, the server's answers, the deadline and everything
    else in the session fall, a reload that finishes reports every tunnel of its
    plan exactly once: as removed, as updated, as added or as failed. *)
Theorem apply_outcome_partition (c c' : CControl) (evs : list SessionEvent) (o : ReloadOutcome) :
  NoDup (ch_removed ch ++ map tc_name (ch_updated ch) ++ map tc_name (ch_added ch)) ->
  run_events load_tls ch (c, apply_start ch) evs = (c', ApDone o) ->
  ro_removed o ++ ro_updated o ++ ro_added o ++ map fst (ro_failed o)
  ≡ₚ ch_removed ch ++ map tc_name (ch_updated ch) ++ map tc_name (ch_added ch).
Proof.
  intros Hnd Hr. pose proof (apply_inv_run load_tls ch c (apply_start ch) evs Hnd (apply_inv_start ch Hnd)) as Hi.
  by rewrite Hr in Hi.
Qed.

(** C14: Applying a reload ends: whatever else happens in the session, after one
    step per tunnel to close or register and two more, the first step at or after
    the deadline finishes it. *)
Theorem apply_terminates (c : CControl) (before after : list SessionEvent) (w : Anyhow unit) (locked : bool) :
  length (stop_names ch) + length (ch_updated ch ++ ch_added ch) + 2 <= length (filter is_apply before) ->
  exists o, (run_events load_tls ch (c, apply_start ch) (before ++ SeApply w locked true :: after)).2 = ApDone o.
Proof.
  intros Hlen. unfold run_events. rewrite fold_left_app. cbn [fold_left].
  assert (forall st evs, steps_left ch st.2 = 0 -> exists o, (fold_left (run_event load_tls ch) evs st).2 = ApDone o) as Hdone.
  { intros st evs. revert st. induction evs as [|ev evs IH]; intros [c1 [?|?|?|o]]; cbn [snd steps_left]; try lia.
    - intros _. by exists o.
    - intros _. apply IH. by destruct ev. }
  apply Hdone. pose proof (run_left load_tls ch c (apply_start ch) before) as Hl. unfold run_events in Hl.
  destruct (fold_left (run_event load_tls ch) before (c, apply_start ch)) as [c1 pc1]. cbn [snd run_event] in *.
  destruct (apply_step_left load_tls ch c1 pc1 w locked true) as (_ & _ & H1). specialize (H1 eq_refl).
  unfold apply_start in Hl. cbn [steps_left] in Hl. lia.
Qed.
End Properties.

(** C3: A reload gives the session the tunnels of the new configuration: when the
    stream takes every message and each new tunnel can be set up, then however
    the server's messages, data connections and heartbeats interleave, the task
    ends with exactly the new configuration's tunnels in the session's table,
    having closed each removed or updated tunnel and then registered each
    updated and added one, once and in the plan's order. *)
Theorem reload_applied (load_tls : string -> string -> string -> Anyhow unit) `{Crypto}
    (iter : TunnelMap -> list (string * TunnelConfig)) (old new : ClientConfig) (c c' : CControl)
    (evs : list SessionEvent) (o : ReloadOutcome) :
  (forall m, iter m ≡ₚ map_to_list m) ->
  NoDup (map tc_name (cc_tunnels old)) -> NoDup (map tc_name (cc_tunnels new)) ->
  cfgs c = tunnel_map (cc_tunnels old) ->
  let ch := diff_tunnels iter (cc_tunnels old) (cc_tunnels new) in
  Forall (usable load_tls) (ch_updated ch ++ ch_added ch) -> Forall write_ok evs ->
  run_events load_tls ch (c, apply_start ch) evs = (c', ApDone o) ->
  tunnels_same (cfgs c') (tunnel_map (cc_tunnels new))
  /\ traffic c' = traffic c ++ close_messages (stop_names ch) ++ register_messages (ch_updated ch ++ ch_added ch).
Proof.
  intros Hiter Hold Hnew Hc ch Hu Hw Hr.
  pose proof (applied_inv_run load_tls ch c Hu evs c (apply_start ch) Hw (applied_inv_start ch c)) as Hi.
  rewrite Hr in Hi. destruct Hi as [Hc' Ht]. cbn [fst] in *. split; [|done].
  rewrite Hc', applied_changes, Hc.
  - by apply apply_changes_same.
  - by apply started_nodup.
  - by apply stop_nodup.
Qed.

(** *** Witnesses *)

#[local] Instance ex_crypto : Crypto := {| hmac k m := k +:+ m; hex_encode b := "x" +:+ b; hex_decode := Some |}.
Definition ex_load_tls (_ _ _ : string) : Anyhow unit := Ok tt.
Definition ex_changes : TunnelChanges := diff_tunnels map_to_list (cc_tunnels ex_old) (cc_tunnels ex_new).
(** A session that serves [ex_old]. *)
Definition ex_running : CControl :=
  match cm_from_config ex_load_tls ex_old with
  | Ok m => MkCControl "s1" m false 1000 watch_new [] 0 remotes_default
  | Err _ => MkCControl "" (cm_new ex_old) false 0 watch_new [] 0 remotes_default
  end.
(** Two tunnels closed and two registered, while the server asks for a data
    connection, accepts one of them and refuses the other. *)
Definition ex_before : list SessionEvent :=
  [SeApply (Ok tt) false false; SeRead (Some (MReqDataConn MkReqDataConn)) "h" 1001; SeApply (Ok tt) false false;
   SeApply (Ok tt) false false; SeApply (Ok tt) false false; SePing "tok" 1002 true; SeApply (Ok tt) false false;
   SeRead (Some (MNewTunnelResp (MkNewTunnelResp "c" ":82" ""))) "h" 1002;
   SeRead (Some (MNewTunnelResp (MkNewTunnelResp "b" "" "port in use"))) "h" 1002; SeApply (Ok tt) false false].
Definition ex_outcome : ReloadOutcome := MkOutcome LvTunnelsOnly ["c"] ["a"] [] [("b", "port in use")] false.
Definition ex_events : list SessionEvent := ex_before ++ [SeApply (Ok tt) false false].

Lemma apply_outcome_partition_witness :
  NoDup (ch_removed ex_changes ++ map tc_name (ch_updated ex_changes) ++ map tc_name (ch_added ex_changes))
  /\ ["a"; "c"; "b"] ≡ₚ ch_removed ex_changes ++ map tc_name (ch_updated ex_changes) ++ map tc_name (ch_added ex_changes).
Proof.
  assert (NoDup (ch_removed ex_changes ++ map tc_name (ch_updated ex_changes) ++ map tc_name (ch_added ex_changes))) as Hnd.
  { apply (bool_decide_unpack (NoDup (ch_removed ex_changes ++ map tc_name (ch_updated ex_changes) ++ map tc_name (ch_added ex_changes)))).
    vm_compute. exact I. }
  split; [exact Hnd|].
  destruct (run_events ex_load_tls ex_changes (ex_running, apply_start ex_changes) ex_events) as [c' pc] eqn:E.
  assert (pc = ApDone ex_outcome) as -> by (change (pc = ApDone ex_outcome) with ((c', pc).2 = ApDone ex_outcome); rewrite <- E; vm_compute; reflexivity).
  exact (apply_outcome_partition ex_load_tls ex_changes ex_running c' ex_events ex_outcome Hnd E).
Defined.

Lemma apply_terminates_witness :
  exists o, (run_events ex_load_tls ex_changes (ex_running, apply_start ex_changes)
               (replicate 6 (SeApply (Err "broken pipe") false false) ++ SeApply (Ok tt) false true :: [])).2 = ApDone o.
Proof. apply (apply_terminates ex_load_tls ex_changes ex_running). vm_compute. repeat constructor. Defined.

Lemma reload_applied_witness :
  exists c', run_events ex_load_tls ex_changes (ex_running, apply_start ex_changes) ex_events = (c', ApDone ex_outcome)
  /\ tunnels_same (cfgs c') (tunnel_map (cc_tunnels ex_new)).
Proof.
  destruct (run_events ex_load_tls ex_changes (ex_running, apply_start ex_changes) ex_events) as [c' pc] eqn:E.
  assert (pc = ApDone ex_outcome) as -> by (change (pc = ApDone ex_outcome) with ((c', pc).2 = ApDone ex_outcome); rewrite <- E; vm_compute; reflexivity).
  exists c'. split; [reflexivity|].
  destruct (reload_applied ex_load_tls map_to_list ex_old ex_new ex_running c' ex_events ex_outcome) as [H _]; [..|exact H].
  - intros m. reflexivity.
  - apply (bool_decide_unpack (NoDup (map tc_name (cc_tunnels ex_old)))). vm_compute. exact I.
  - apply (bool_decide_unpack (NoDup (map tc_name (cc_tunnels ex_new)))). vm_compute. exact I.
  - vm_compute. reflexivity.
  - change (diff_tunnels map_to_list (cc_tunnels ex_old) (cc_tunnels ex_new)) with ex_changes.
    replace (ch_updated ex_changes ++ ch_added ex_changes)
      with [test_tunnel "b" "tcp" 90; test_tunnel "c" "tcp" 82] by (vm_compute; reflexivity).
    repeat constructor.
  - repeat constructor.
  - exact E.
Defined.
