(* ===== verification/ClientOpen.v ===== *)
(** * Opening a session, and the heartbeats that keep it

    What [open_session] of [client/src/control/session.rs] establishes, which
    configurations that validation accepts it can never serve, and how the
    heartbeat settings relate. *)

From stdpp Require Import sorting.
From S2P Require Import Prelude RustStr Float64 Config ServerConfig ClientConfig Registry Msg Limit Auth Reload Net ProxyProtocol ClientHandle ClientTunnels ClientSession ClientReload.

Local Open Scope string_scope.
Local Open Scope list_scope.

(** ** Example tunnels *)

Definition ex_bad (proto service plugin_type version : string) : TunnelConfig :=
  MkTunnel "bad" proto service 8080 [] [] "" "" "" (MkTunnelTransport (f_of_Z 0) "client" version)
    (if is_empty plugin_type then None else Some (MkPlugin plugin_type "" "" "" "" "" "")).
Definition ex_capitals : TunnelConfig := ex_bad "TCP" "127.0.0.1:80" "" "".
Definition ex_no_service : TunnelConfig := ex_bad "tcp" "" "" "".
Definition ex_blank_plugin : TunnelConfig := ex_bad "tcp" "127.0.0.1:80" "  " "".
Definition ex_proxy_v3 : TunnelConfig := ex_bad "tcp" "127.0.0.1:80" "" "v3".

(** ** Lemmas: registering *)

Section Open.
Context (load_tls : string -> string -> string -> Anyhow unit).

Lemma from_config_cfgs m l m' :
  try_for_each (cm_upsert load_tls) m l = Ok m' ->
  ce_cfg <$> cm_by_name m' = fold_left add_tunnel l (ce_cfg <$> cm_by_name m).
Proof.
  revert m. induction l as [|t l IH]; intros m; cbn; [by intros [= ->]|].
  destruct (cm_upsert load_tls m t) as [m1|] eqn:E; [|done]. intros H. apply IH in H. by rewrite H, (upsert_cfgs _ _ _ _ E).
Qed.
Lemma register_all_ok l : forall c ws c' u,
  register_all_tunnels load_tls c l ws = Some (c', Ok u) ->
  cfgs c' = fold_left add_tunnel l (cfgs c) /\ cs_sent c' = cs_sent c ++ register_messages l
  /\ cs_session_id c' = cs_session_id c
  /\ (forall n, n ∈ rw_pending (cs_watch c') <-> n ∈ map tc_name l \/ n ∈ rw_pending (cs_watch c))
  /\ Forall (fun t => is_ok (register_message t) = true) l.
Proof.
  induction l as [|t l IH]; intros c [|w ws] c' u H; cbn in H; try done.
  1,2: injection H as <- <-; cbn; rewrite (right_id_L [] (++)); set_solver.
  destruct (register_tunnel load_tls c t w) as [c1 [u1|]] eqn:E; [|done].
  apply register_ok in E as (Hc & m & Hm & Hs & Hw & Hid). apply IH in H as (IH1 & IH2 & IH3 & IH4 & IH5).
  unfold register_messages in *. cbn. rewrite IH1, IH2, IH3, Hc, Hs, Hm, <- (assoc_L (++)). split; [done|]. split; [done|].
  split; [done|]. split; [|by constructor; [rewrite Hm|]].
  intros n. rewrite IH4, Hw. cbn. set_solver.
Qed.

Lemma fold_add_twice l :
  NoDup (map tc_name l) -> fold_left add_tunnel l (tunnel_map l) = tunnel_map l.
Proof.
  intros Hnd. apply map_eq. intros n. apply option_eq. intros t.
  rewrite fold_add_tunnel_lookup, !tunnel_map_lookup by done. naive_solver.
Qed.

Context `{Crypto}.

(** What the server has answered when a session opens. *)
Lemma open_session_inv cfg previous remotes env c :
  open_session load_tls cfg previous remotes env = Some (Ok c) ->
  exists r tunnels u, oe_reply env = Ok (MLoginResp r) /\ lr_error r = ""
  /\ cm_from_config load_tls cfg = Ok tunnels
  /\ register_all_tunnels load_tls
       (MkCControl (lr_session_id r) tunnels false (oe_now env) watch_new
          [MLogin (login_message cfg previous env)] 0 remotes) (cc_tunnels cfg) (oe_registers env) = Some (c, Ok u).
Proof.
  unfold open_session. destruct (oe_connect env), (oe_login_write env), (oe_reply env) as [[]|]; try done. cbn.
  destruct (is_empty (lr_error m)) eqn:E; [|done]. cbn. destruct (cm_from_config load_tls cfg) as [tunnels|]; [|done]. cbn.
  destruct (register_all_tunnels _ _ _ _) as [[c1 [u|]]|] eqn:Er; [|done..]. intros [= ->]. apply is_empty_true in E.
  eauto 10.
Qed.

Lemma open_session_cfgs cfg previous remotes env c :
  NoDup (map tc_name (cc_tunnels cfg)) -> open_session load_tls cfg previous remotes env = Some (Ok c) ->
  cfgs c = tunnel_map (cc_tunnels cfg).
Proof using.
  intros Hnd Ho. apply open_session_inv in Ho as (r & tunnels & u & _ & _ & Hm & Ha).
  apply register_all_ok in Ha as [Hc _]. rewrite Hc. apply from_config_cfgs in Hm. unfold cfgs. cbn [cs_tunnels]. rewrite Hm.
  cbn. rewrite fmap_empty. by apply fold_add_twice.
Qed.

(** C15: A session that opens serves the configuration's tunnels: its table holds
    exactly them, the login came first and then each tunnel's own message in the
    order of the configuration, an answer is awaited for each, and the session
    has the identity the server gave. *)
Theorem open_session_registers (cfg : ClientConfig) (previous : string) (remotes : TunnelRemoteState) (env : OpenEnv)
    (c : CControl) :
  NoDup (map tc_name (cc_tunnels cfg)) ->
  open_session load_tls cfg previous remotes env = Some (Ok c) ->
  cfgs c = tunnel_map (cc_tunnels cfg)
  /\ cs_sent c = MLogin (login_message cfg previous env) :: register_messages (cc_tunnels cfg)
  /\ length (register_messages (cc_tunnels cfg)) = length (cc_tunnels cfg)
  /\ (forall n, n ∈ rw_pending (cs_watch c) <-> n ∈ map tc_name (cc_tunnels cfg))
  /\ exists r, oe_reply env = Ok (MLoginResp r) /\ cs_session_id c = lr_session_id r.
Proof using.
  intros Hnd Ho. split; [by eapply open_session_cfgs|].
  apply open_session_inv in Ho as (r & tunnels & u & Hr & _ & _ & Ha).
  apply register_all_ok in Ha as (_ & Hs & Hid & Hp & Hok). cbn in *. split; [done|]. split.
  { clear -Hok. unfold register_messages. induction Hok as [|t l Ht _ IH]; [done|]. cbn. destruct (register_message t); [|done]. cbn.
    by f_equal. }
  split; [set_solver|]. eauto.
Qed.

Lemma upsert_usable m l m' :
  try_for_each (cm_upsert load_tls) m l = Ok m' ->
  Forall (fun t => exists ka slot, is_ok (build_entry load_tls t ka slot) = true) l.
Proof.
  revert m. induction l as [|t l IH]; intros m; cbn; [constructor|].
  destruct (cm_upsert load_tls m t) as [m1|] eqn:E; [|done]. intros Ht. constructor; [|by eapply IH].
  unfold cm_upsert in E. destruct (build_entry _ _ _ _) eqn:Eb; [|done]. do 2 eexists. by rewrite Eb.
Qed.
Lemma build_entry_uniform t ka slot ka' slot' :
  is_ok (build_entry load_tls t ka slot) = is_ok (build_entry load_tls t ka' slot').
Proof. unfold build_entry. by repeat case_match; simplify_eq. Qed.

Lemma open_session_usable cfg previous remotes env c :
  open_session load_tls cfg previous remotes env = Some (Ok c) -> Forall (usable load_tls) (cc_tunnels cfg).
Proof.
  intros Ho. apply open_session_inv in Ho as (r & tunnels & u & _ & _ & Hm & Ha).
  apply register_all_ok in Ha as (_ & _ & _ & _ & Hok). apply upsert_usable in Hm.
  rewrite !Forall_forall in *. intros t Ht. split; [by apply Hok|]. intros ka slot.
  destruct (Hm t Ht) as (ka' & slot' & E). rewrite <- E. apply build_entry_uniform.
Qed.
End Open.

(** Validation accepts tunnels that no session can serve: a protocol in
    capitals, a tunnel with nothing to connect to, a plugin type of spaces and an
    unknown PROXY protocol version all pass it, and a client whose configuration
    has one of them never gets a session, for its other tunnels neither, whatever
    the server answers. *)
Theorem accepted_tunnel_blocks_client (load_tls : string -> string -> string -> Anyhow unit) `{Crypto}
    (show_f64 : f64 -> string) (t : TunnelConfig) (cfg : ClientConfig) (previous : string) (remotes : TunnelRemoteState)
    (env : OpenEnv) :
  t ∈ [ex_capitals; ex_no_service; ex_blank_plugin; ex_proxy_v3] -> t ∈ cc_tunnels cfg ->
  validate_tunnel_config show_f64 t = Ok tt
  /\ forall c, open_session load_tls cfg previous remotes env <> Some (Ok c).
Proof.
  intros Ht Hin. split.
  - apply list_elem_of_In in Ht as [<-|[<-|[<-|[<-|[]]]]]; vm_compute; reflexivity.
  - intros c Ho. apply open_session_usable in Ho. rewrite Forall_forall in Ho. destruct (Ho t Hin) as [Hm Hb].
    specialize (Hb keepalive_default 0%Z). clear -Ht Hm Hb.
    apply list_elem_of_In in Ht as [<-|[<-|[<-|[<-|[]]]]]; [discriminate..| |]; revert Hb; vm_compute; discriminate.
Qed.

(** ** Heartbeats *)

(** The clock counts nanoseconds; the session only sees its seconds. *)
Definition NANOS : Z := 1000000000.
Definition now_secs (time : Z) : Z := time / NANOS.

(** A session and its heartbeat tasks: when the next ping is due, and how many pings
    were not answered yet. *)
Record Heartbeats := MkHeartbeats { hb_session : CControl; hb_time : Z; hb_due : Z; hb_unanswered : nat }.
(** What happens to it: a tick of [heartbeat_loop], an answer of the server that the
    reader takes, a check of [heartbeat_timeout_loop], each at its time. *)
Inductive HbEvent := HbPing (at_ : Z) | HbPong (at_ : Z) (p : Pong) | HbCheck (at_ : Z).
Definition hb_at (e : HbEvent) : Z := match e with HbPing at_ | HbPong at_ _ | HbCheck at_ => at_ end.

Section Heartbeat.
Context `{Crypto} (t : TransportConfig) (token : string).

Definition ping_period : Z := effective_ping_interval t * NANOS.
(** The tasks start: the first tick of an [interval] passes at once, the next comes a
    period later. *)
Definition heartbeats_start (c : CControl) (began : Z) : Heartbeats := MkHeartbeats c began (began + ping_period) 0.
(** Nothing happens before its time: a tick comes when it is due or later, the one after
    it a period after it was due, and an answer has a ping before it. *)
Definition hb_step (s : Heartbeats) (e : HbEvent) : option Heartbeats :=
  let now := now_secs (hb_at e) in
  if (hb_at e <? hb_time s)%Z then None else
  match e with
  | HbPing at_ =>
      if (0 <? effective_ping_interval t)%Z && (hb_due s <=? at_)%Z
      then Some (MkHeartbeats (ping_tick (hb_session s) token now true) at_ (hb_due s + ping_period) (S (hb_unanswered s)))
      else None
  | HbPong at_ p =>
      match hb_unanswered s with
      | O => None
      | S n => Some (MkHeartbeats (reader_turn (hb_session s) (Some (MPong p)) "" now).1 at_ (hb_due s) n)
      end
  | HbCheck at_ => Some (MkHeartbeats (timeout_tick (hb_session s) (effective_pong_timeout t) now) at_ (hb_due s) (hb_unanswered s))
  end.
Fixpoint hb_run (s : Heartbeats) (evs : list HbEvent) : option Heartbeats :=
  match evs with [] => Some s | e :: evs => match hb_step s e with Some s => hb_run s evs | None => None end end.

(** When the oldest ping that is not answered was due, or the next one is. *)
Definition oldest_due (s : Heartbeats) : Z := hb_due s - Z.of_nat (hb_unanswered s) * ping_period.
(** Every ping is sent and its answer taken within [lag] of when it is due. *)
Fixpoint answers_within (lag : Z) (s : Heartbeats) (evs : list HbEvent) : bool :=
  match evs with
  | [] => true
  | e :: evs =>
      ((effective_ping_interval t <=? 0)%Z || (hb_at e <=? oldest_due s + lag)%Z)
      && match hb_step s e with Some s => answers_within lag s evs | None => true end
  end.

Lemma timeout_tick_fields c timeout now : cs_last_pong (timeout_tick c timeout now) = cs_last_pong c.
Proof. unfold timeout_tick. by repeat case_match. Qed.

(** The last answer the session knows of is not older than the ping before the oldest
    that is not answered, less the time that registering took. *)
Definition kept_up (delay : Z) (s : Heartbeats) : Prop :=
  cs_cancelled (hb_session s) = false /\ (0 < Z.of_nat (hb_unanswered s) -> hb_due s - ping_period <= hb_time s)%Z
  /\ (now_secs (oldest_due s - ping_period - delay) <= cs_last_pong (hb_session s))%Z.

Lemma now_secs_mono a b : (a <= b)%Z -> (now_secs a <= now_secs b)%Z.
Proof. intros Hab. unfold now_secs. apply Z.div_le_mono; [done|exact Hab]. Qed.
Lemma now_secs_plus a n : now_secs (a + n * NANOS) = (now_secs a + n)%Z.
Proof. unfold now_secs. by apply Z_div_plus. Qed.
Lemma sat_le x b : (i64_min <= b)%Z -> (x <= b)%Z -> (sat_i64 x <= b)%Z.
Proof. unfold sat_i64. lia. Qed.
(** A check as late as the next answer may be. *)
Lemma check_in_time delay lag u at_ last :
  (at_ <= u + lag)%Z -> (now_secs (u - ping_period - delay) <= last)%Z ->
  (delay + lag <= (effective_pong_timeout t - effective_ping_interval t) * NANOS)%Z ->
  (now_secs at_ - last <= effective_pong_timeout t)%Z.
Proof.
  unfold ping_period. set (i := effective_ping_interval t). set (o := effective_pong_timeout t). intros Ha Hl Hs.
  assert (now_secs at_ <= now_secs (u - i * NANOS - delay + o * NANOS))%Z as Hn by (apply now_secs_mono; lia).
  rewrite now_secs_plus in Hn. lia.
Qed.

Section Healthy.
Context (delay lag : Z).
Context (pings : (0 < effective_ping_interval t)%Z) (delay_ok : (0 <= delay)%Z).
Context (slack : (effective_pong_timeout t <= 0 \/ delay + lag <= (effective_pong_timeout t - effective_ping_interval t) * NANOS)%Z).

Lemma period_pos : (0 < ping_period)%Z.
Proof using pings. unfold ping_period, NANOS. lia. Qed.
Lemma kept_up_step s e s' :
  (hb_at e <= oldest_due s + lag)%Z -> kept_up delay s -> hb_step s e = Some s' -> kept_up delay s'.
Proof using pings delay_ok slack.
  intros Ht (Hc & Hd & Hl). pose proof period_pos as Hp. unfold hb_step. destruct (Z.ltb_spec (hb_at e) (hb_time s)) as [|Hm]; [done|].
  destruct e as [at_|at_ p|at_]; cbn [hb_at] in *.
  - destruct (Z.leb_spec (hb_due s) at_) as [Hdue|]; [|by rewrite andb_false_r].
    rewrite (proj2 (Z.ltb_lt _ _) pings). intros [= <-]. unfold ping_tick. rewrite Hc. split; [done|]. split; [cbn; lia|]. cbn.
    replace (oldest_due _) with (oldest_due s) by (unfold oldest_due; cbn; lia). exact Hl.
  - destruct (hb_unanswered s) as [|n] eqn:En; [done|]. intros [= <-]. unfold reader_turn. rewrite Hc. cbn.
    split; [done|]. split; [cbn; lia|]. cbn. apply now_secs_mono. unfold oldest_due. cbn. lia.
  - intros [= <-]. split; [|split; [cbn; lia|]].
    + cbn. unfold timeout_tick. destruct (Z.leb_spec (effective_pong_timeout t) 0); [done|]. rewrite Hc. cbn [orb].
      destruct (Z.ltb_spec (effective_pong_timeout t) (sat_i64 (now_secs at_ - cs_last_pong (hb_session s)))) as [Hgone|];
        [|by rewrite andb_false_r].
      exfalso. destruct slack as [|Hs]; [lia|]. pose proof (check_in_time delay lag _ at_ _ Ht Hl Hs) as Hi.
      apply sat_le in Hi; [lia|unfold i64_min; lia].
    + cbn. rewrite timeout_tick_fields. exact Hl.
Qed.
Lemma kept_up_run evs : forall s s',
  kept_up delay s -> answers_within lag s evs = true -> hb_run s evs = Some s' -> kept_up delay s'.
Proof using pings delay_ok slack.
  induction evs as [|e evs IH]; intros s s' Hk; cbn; [by intros _ [= <-]|].
  rewrite (proj2 (Z.leb_gt _ _) pings). cbn [orb]. intros [He Ha]%andb_true_iff. apply Z.leb_le in He.
  destruct (hb_step s e) as [s1|] eqn:E; [|done]. apply IH; [|done]. by eapply kept_up_step.
Qed.
End Healthy.

(** Without a timeout nothing is given up. *)
Lemma unwatched_run evs : forall s s',
  (effective_pong_timeout t <= 0)%Z -> cs_cancelled (hb_session s) = false -> hb_run s evs = Some s' ->
  cs_cancelled (hb_session s') = false.
Proof.
  induction evs as [|e evs IH]; intros s s' Ht Hc; cbn; [by intros [= <-]|].
  destruct (hb_step s e) as [s1|] eqn:E; [|done]. apply IH; [done|]. revert E. unfold hb_step. destruct (_ <? _)%Z; [done|].
  destruct e as [at_|at_ p|at_].
  - destruct (_ && _); [|done]. intros [= <-]. cbn. unfold ping_tick. by rewrite Hc.
  - destruct (hb_unanswered s); [done|]. intros [= <-]. unfold reader_turn. by rewrite Hc.
  - intros [= <-]. cbn. unfold timeout_tick. by rewrite (proj2 (Z.leb_le _ _) Ht).
Qed.

(** Before the first ping is due there is no answer. *)
Definition no_ping_yet (began : Z) (s : Heartbeats) : Prop :=
  hb_unanswered s = 0 /\ hb_due s = (began + ping_period)%Z.
Lemma no_answer_step began last s e s' :
  (effective_ping_interval t <= 0 \/ hb_at e < began + ping_period)%Z -> no_ping_yet began s ->
  cs_last_pong (hb_session s) = last -> hb_step s e = Some s' ->
  no_ping_yet began s' /\ cs_last_pong (hb_session s') = last.
Proof.
  intros He [Hn Hd] Hl. unfold hb_step. destruct (_ <? _)%Z; [done|]. destruct e as [at_|at_ p|at_]; cbn in He.
  - destruct (Z.ltb_spec 0 (effective_ping_interval t)), (Z.leb_spec (hb_due s) at_); cbn; try done. lia.
  - by rewrite Hn.
  - intros [= <-]. split; [by split|]. cbn. by rewrite timeout_tick_fields.
Qed.
Lemma no_answer_run began last evs : forall s s',
  Forall (fun e => effective_ping_interval t <= 0 \/ hb_at e < began + ping_period)%Z evs -> no_ping_yet began s ->
  cs_last_pong (hb_session s) = last -> hb_run s evs = Some s' -> cs_last_pong (hb_session s') = last.
Proof.
  induction evs as [|e evs IH]; intros s s' Hall Hn Hl; cbn; [by intros [= <-]|].
  apply Forall_cons in Hall as [He Hall]. destruct (hb_step s e) as [s1|] eqn:E; [|done].
  destruct (no_answer_step began last s e s1 He Hn Hl E) as [Hn1 Hl1]. by apply IH.
Qed.
Lemma late_check s at_ s' :
  (0 < effective_pong_timeout t < i64_max)%Z -> (0 < cs_last_pong (hb_session s))%Z ->
  (cs_last_pong (hb_session s) + effective_pong_timeout t < now_secs at_)%Z ->
  hb_step s (HbCheck at_) = Some s' -> cs_cancelled (hb_session s') = true.
Proof.
  intros Ht Hl Hn. unfold hb_step. destruct (_ <? _)%Z; [done|]. intros [= <-]. cbn. unfold timeout_tick.
  destruct (Z.leb_spec (effective_pong_timeout t) 0); [lia|]. destruct (cs_cancelled (hb_session s)) eqn:E; [done|].
  rewrite (proj2 (Z.ltb_lt _ _) Hl). cbn [orb andb].
  destruct (Z.ltb_spec (effective_pong_timeout t) (sat_i64 (now_secs at_ - cs_last_pong (hb_session s)))) as [|Hs]; [done|].
  unfold sat_i64, i64_max, i64_min in *. lia.
Qed.
End Heartbeat.

(** The settings under which the client gives up a server that answers: a timeout of
    its own, heartbeats off, and no keepalive of the multiplexer within it. *)
Definition starves (t : TransportConfig) : Prop :=
  (0 < tr_heartbeat_timeout t /\ tr_heartbeat_interval t <= 0
   /\ ~ (tr_tcp_mux t = true /\ 0 < tr_mux_keepalive_secs t <= tr_heartbeat_timeout t))%Z.

Lemma starves_spec t :
  (0 < tr_heartbeat_timeout t -> 0 < tr_heartbeat_interval t -> tr_heartbeat_interval t <= tr_heartbeat_timeout t)%Z ->
  (tr_mux_keepalive_secs t <= i64_max)%Z ->
  if decide (0 < effective_pong_timeout t /\ (effective_ping_interval t <= 0 \/ effective_pong_timeout t < effective_ping_interval t))%Z
  then starves t /\ effective_pong_timeout t = tr_heartbeat_timeout t
  else ~ starves t /\ (effective_pong_timeout t <= 0 \/ 0 < effective_ping_interval t <= effective_pong_timeout t)%Z.
Proof.
  intros Hv Hk. unfold starves, effective_pong_timeout, effective_ping_interval, sat_i64, i64_max, i64_min in *.
  destruct (Z.ltb_spec 0 (tr_heartbeat_timeout t)), (Z.ltb_spec 0 (tr_heartbeat_interval t)),
    (Z.leb_spec (tr_heartbeat_interval t) 0), (Z.ltb_spec 0 (tr_mux_keepalive_secs t));
    destruct (tr_tcp_mux t); cbn [andb]; case_decide; lia.
Qed.

(** C18: A client of a validated configuration keeps the session of a server that
    answers, and the settings that starve a session lose it. Let the answer to the
    login be taken at [opened] and the heartbeat tasks start at [began], after the
    registrations, and let every ping be sent and its answer taken within [lag]
    nanoseconds of when it is due. Unless the settings starve sessions, the session
    is never given up, whatever the order and times of pings, answers and checks,
    provided that the timeout is off, or that the registrations and the lag together
    fit between the ping interval and the timeout. Settings starve sessions when the
    timeout is set while heartbeats are off and the multiplexer's keepalive, if any,
    is longer; validation accepts them: then no answer can come before the timeout,
    and every check once it has passed, and before a first ping is due, gives up the
    session, whatever the server does. *)
Theorem heartbeat_verdict `{Crypto} (show_f64 : f64 -> string) (cfg : ClientConfig) (token : string) (c : CControl)
    (opened began : Z) :
  let t := cc_transport cfg in
  client_validate show_f64 cfg = Ok tt -> (0 <= cc_udp_packet_size cfg)%Z -> (tr_mux_keepalive_secs t <= i64_max)%Z ->
  cs_cancelled c = false -> cs_last_pong c = now_secs opened -> (NANOS <= opened <= began)%Z ->
  (~ starves t -> forall lag evs s,
     (effective_pong_timeout t <= 0
      \/ (began - opened) + lag <= (effective_pong_timeout t - effective_ping_interval t) * NANOS)%Z ->
     answers_within t token lag (heartbeats_start t c began) evs = true ->
     hb_run t token (heartbeats_start t c began) evs = Some s -> cs_cancelled (hb_session s) = false)
  /\ (starves t -> (tr_heartbeat_timeout t < i64_max)%Z -> forall evs s at_ s',
      hb_run t token (heartbeats_start t c began) evs = Some s -> hb_step t token s (HbCheck at_) = Some s' ->
      Forall (fun e => effective_ping_interval t <= 0 \/ hb_at e < began + effective_ping_interval t * NANOS)%Z evs ->
      (now_secs opened + tr_heartbeat_timeout t < now_secs at_)%Z -> cs_cancelled (hb_session s') = true).
Proof.
  intros t Hv Hu Hk Hc Hl Hs. apply client_validate_ok in Hv as (_ & _ & _ & _ & _ & Hhb & _); [|done].
  pose proof (starves_spec t Hhb Hk) as Hsp. case_decide as Hd; destruct Hsp as [H1 H2]; (split; [|try done]); [done| |].
  - intros _ Hb evs s at_ s' Hr Hch Hall Hat. destruct Hd as [Hp _].
    assert (cs_last_pong (hb_session s) = now_secs opened) as Hlast.
    { eapply (no_answer_run t token began _ evs (heartbeats_start t c began)); [exact Hall|by split|exact Hl|exact Hr]. }
    eapply late_check; [|..|exact Hch]; rewrite ?Hlast, ?H2; [lia| |exact Hat].
    pose proof (now_secs_mono NANOS opened ltac:(lia)) as Hn. change (now_secs NANOS) with 1%Z in Hn. lia.
  - intros _ lag evs s Hslack Ha Hr. destruct H2 as [Hoff|Hon]; [by apply (unwatched_run t token evs (heartbeats_start t c began) s)|].
    refine (_ (kept_up_run t token (began - opened) lag (proj1 Hon) ltac:(lia) Hslack evs (heartbeats_start t c began) s _ Ha Hr)); [by intros [? _]|].
    split; [exact Hc|]. split; [cbn; lia|]. cbn [heartbeats_start hb_session]. rewrite Hl. apply now_secs_mono.
    unfold oldest_due. cbn. lia.
Qed.

(** *** Witnesses *)

#[local] Instance ex_crypto : Crypto := {| hmac k m := k +:+ m; hex_encode b := "x" +:+ b; hex_decode := Some |}.
Definition ex_load_tls (_ _ _ : string) : Anyhow unit := Ok tt.
Definition ex_env : OpenEnv :=
  MkOpenEnv "1" "h" "linux" "x86_64" 1000 (Ok tt) (Ok tt) (Ok (MLoginResp (MkLoginResp "1" "s1" ""))) [Ok tt; Ok tt; Ok tt].
Definition ex_session : CControl :=
  MkCControl "s1" (cm_new ex_old) false 1000 watch_new [] 0 remotes_default.

Lemma open_session_registers_witness :
  exists c, open_session ex_load_tls ex_old "" remotes_default ex_env = Some (Ok c)
  /\ cfgs c = tunnel_map (cc_tunnels ex_old) /\ length (cs_sent c) = 4.
Proof.
  destruct (open_session ex_load_tls ex_old "" remotes_default ex_env) as [[c|]|] eqn:E;
    [|exfalso; revert E; vm_compute; discriminate..].
  exists c. split; [reflexivity|].
  destruct (open_session_registers ex_load_tls ex_old "" remotes_default ex_env c) as (H1 & H2 & H3 & _); [|exact E|].
  - apply (bool_decide_unpack (NoDup (map tc_name (cc_tunnels ex_old)))). vm_compute. exact I.
  - split; [exact H1|]. rewrite H2. cbn [length]. rewrite H3. reflexivity.
Defined.

Definition ex_bad_cfg : ClientConfig :=
  MkClientConfig "h" "" "" (MkClientAuth "" "") client_transport_default [test_tunnel "web" "tcp" 80; ex_capitals] 0 log_default.
Lemma accepted_tunnel_blocks_client_witness :
  validate_tunnel_config (fun _ => "") ex_capitals = Ok tt
  /\ forall c, open_session ex_load_tls ex_bad_cfg "" remotes_default ex_env <> Some (Ok c).
Proof.
  apply (accepted_tunnel_blocks_client ex_load_tls (fun _ => "") ex_capitals ex_bad_cfg "" remotes_default ex_env).
  - left.
  - right. left.
Defined.

(** Heartbeats switched off without multiplexing, the timeout left unset. *)
Definition ex_quiet : ClientConfig :=
  let t := client_transport_default in
  client_complete (MkClientConfig "h" "" "" (MkClientAuth "" "")
    (MkTransport (tr_protocol t) (tr_pool_count t) false (tr_mux_keepalive_secs t) (tr_tcp_keepalive_idle t)
       (tr_tcp_keepalive_interval t) 0 (-1) (tr_quic t) (tr_ws_path t) (tr_tls t)) [] 0 (MkLogConfig "" "" 3)).
Definition ex_at (secs millis : Z) : Z := secs * NANOS + millis * 1000000.
Definition ex_tasks (cfg : ClientConfig) (c : CControl) : Heartbeats := heartbeats_start (cc_transport cfg) c (ex_at 1001 100).
Definition ex_heartbeats (interval : Z) : ClientConfig :=
  let t := client_transport_default in
  client_complete (MkClientConfig "h" "" "" (MkClientAuth "" "")
    (MkTransport (tr_protocol t) (tr_pool_count t) false (tr_mux_keepalive_secs t) (tr_tcp_keepalive_idle t)
       (tr_tcp_keepalive_interval t) interval 30 (tr_quic t) (tr_ws_path t) (tr_tls t)) [] 0 (MkLogConfig "" "" 3)).
Definition ex_healthy : list HbEvent :=
  [HbCheck (ex_at 1002 100); HbCheck (ex_at 1011 0); HbPing (ex_at 1011 100); HbPong (ex_at 1011 150) Pong_default;
   HbPing (ex_at 1021 100); HbCheck (ex_at 1021 110); HbPong (ex_at 1021 150) Pong_default; HbCheck (ex_at 1031 0)].
(** Both conclusions, at the default interval of ten seconds and with heartbeats off. *)
Lemma heartbeat_verdict_witness :
  (exists s, hb_run (cc_transport (ex_heartbeats 10)) "tok" (ex_tasks (ex_heartbeats 10) ex_session) ex_healthy = Some s
   /\ cs_cancelled (hb_session s) = false)
  /\ client_validate (fun _ => "") ex_quiet = Ok tt
  /\ exists s, hb_step (cc_transport ex_quiet) "tok" (ex_tasks ex_quiet ex_session) (HbCheck (ex_at 1091 0)) = Some s
     /\ cs_cancelled (hb_session s) = true.
Proof.
  split; [|split; [vm_compute; reflexivity|]].
  - destruct (hb_run (cc_transport (ex_heartbeats 10)) "tok" (ex_tasks (ex_heartbeats 10) ex_session) ex_healthy) as [s|] eqn:E;
      [|vm_compute in E; discriminate].
    exists s. split; [reflexivity|].
    destruct (heartbeat_verdict (fun _ => "") (ex_heartbeats 10) "tok" ex_session (ex_at 1000 900) (ex_at 1001 100)) as [H _];
      [vm_compute; reflexivity|discriminate|discriminate|reflexivity|reflexivity|split; discriminate|].
    apply (H ltac:(intros (_ & Hi & _); revert Hi; vm_compute; intros Hi; apply Hi; reflexivity) (ex_at 0 50) ex_healthy s);
      [right; vm_compute; discriminate|vm_compute; reflexivity|exact E].
  - destruct (hb_step (cc_transport ex_quiet) "tok" (ex_tasks ex_quiet ex_session) (HbCheck (ex_at 1091 0))) as [s|] eqn:E;
      [|vm_compute in E; discriminate].
    exists s. split; [reflexivity|].
    destruct (heartbeat_verdict (fun _ => "") ex_quiet "tok" ex_session (ex_at 1000 900) (ex_at 1001 100)) as [_ H];
      [vm_compute; reflexivity|discriminate|discriminate|reflexivity|reflexivity|split; discriminate|].
    apply (H ltac:(split; [reflexivity|split; [discriminate|intros [Hm _]; revert Hm; vm_compute; discriminate]])
             ltac:(reflexivity) [] (ex_tasks ex_quiet ex_session) (ex_at 1091 0) s);
      [reflexivity|exact E|constructor|reflexivity].
Defined.

(** Validation accepts a timeout equal to the interval, which leaves no room at all: the
    session opens 0.9 s into a second, registering takes 0.2 s, the server answers at
    once, and the session is given up before its first ping is due. *)
Lemma equal_interval_gives_up :
  client_validate (fun _ => "") (ex_heartbeats 30) = Ok tt
  /\ exists s, hb_run (cc_transport (ex_heartbeats 30)) "tok" (ex_tasks (ex_heartbeats 30) ex_session) [HbCheck (ex_at 1031 0)] = Some s
     /\ answers_within (cc_transport (ex_heartbeats 30)) "tok" 0 (ex_tasks (ex_heartbeats 30) ex_session) [HbCheck (ex_at 1031 0)] = true
     /\ cs_cancelled (hb_session s) = true /\ (hb_at (HbCheck (ex_at 1031 0)) < hb_due s)%Z.
Proof. split; [vm_compute; reflexivity|]. eexists. split; [vm_compute; reflexivity|]. by vm_compute. Qed.
