(* ===== verification/ClientService.v ===== *)
(** * The client's service loop

    [client/src/service.rs]: connecting, serving a session, waiting before the
    next attempt, and the reload requests that can arrive at any of these points.
    The loop is a state machine; what its [select!] arms wait for, and what
    happens inside a session, are its events.  [close_all_tunnels] is one step,
    taken just before the session it closes is told to end. *)

From stdpp Require Import sorting.
From S2P Require Import Prelude RustStr Float64 Config ServerConfig ClientConfig Registry Msg Limit Auth Reload Net ProxyProtocol ClientHandle ClientTunnels ClientSession ClientReload ClientOpen.

Local Open Scope string_scope.

Definition RECONNECT_BASE_SECS : Z := 1.
Definition RECONNECT_MAX_SECS : Z := 60.

(** ** State *)

(** [rq_id] is the request's reply channel. *)
Record ReloadRequest := MkRequest { rq_id : Z; rq_cfg : ClientConfig; rq_config_path : string }.
Record PendingReloadReply := MkPending { pr_reply : Z; pr_outcome : ReloadOutcome }.

(** Why a session is being closed. *)
Inductive Closing := ClCancelled | ClReconnect (pending : PendingReloadReply) | ClChannelClosed.

(** Where the loop is.  [ended]: what the session's reader ended with, which its
    runner reports. *)
Inductive Phase :=
| PhConnecting
| PhBackoff (delay : Z)
| PhSession (c : CControl) (ended : option ReaderEnd)
| PhApplying (c : CControl) (ended : option ReaderEnd) (plan : ReloadPlan) (ch : TunnelChanges) (pc : ApplyPc)
    (new_cfg : ClientConfig) (reply : Z)
| PhClosing (c : CControl) (ended : option ReaderEnd) (why : Closing)
| PhEnded (r : Anyhow unit).

Record ClientService := MkClientService {
  cv_cfg : ClientConfig; cv_session_id : string; cv_first_attempt : bool; cv_backoff_secs : Z;
  cv_pending : option PendingReloadReply; cv_phase : Phase; cv_cancelled : bool; cv_queue : list ReloadRequest;
  cv_replies : list (Z * Anyhow ReloadOutcome); cv_statuses : list ClientStatus; cv_log : list string;
  cv_remotes : TunnelRemoteState }.

Definition cv_set_cfg (sv : ClientService) (cfg : ClientConfig) : ClientService :=
  MkClientService cfg (cv_session_id sv) (cv_first_attempt sv) (cv_backoff_secs sv) (cv_pending sv) (cv_phase sv)
    (cv_cancelled sv) (cv_queue sv) (cv_replies sv) (cv_statuses sv) (cv_log sv) (cv_remotes sv).
Definition cv_set_session_id (sv : ClientService) (id : string) : ClientService :=
  MkClientService (cv_cfg sv) id (cv_first_attempt sv) (cv_backoff_secs sv) (cv_pending sv) (cv_phase sv)
    (cv_cancelled sv) (cv_queue sv) (cv_replies sv) (cv_statuses sv) (cv_log sv) (cv_remotes sv).
Definition cv_set_attempt (sv : ClientService) (first : bool) (backoff : Z) : ClientService :=
  MkClientService (cv_cfg sv) (cv_session_id sv) first backoff (cv_pending sv) (cv_phase sv)
    (cv_cancelled sv) (cv_queue sv) (cv_replies sv) (cv_statuses sv) (cv_log sv) (cv_remotes sv).
Definition cv_set_pending (sv : ClientService) (p : option PendingReloadReply) : ClientService :=
  MkClientService (cv_cfg sv) (cv_session_id sv) (cv_first_attempt sv) (cv_backoff_secs sv) p (cv_phase sv)
    (cv_cancelled sv) (cv_queue sv) (cv_replies sv) (cv_statuses sv) (cv_log sv) (cv_remotes sv).
Definition goto (sv : ClientService) (ph : Phase) : ClientService :=
  MkClientService (cv_cfg sv) (cv_session_id sv) (cv_first_attempt sv) (cv_backoff_secs sv) (cv_pending sv) ph
    (cv_cancelled sv) (cv_queue sv) (cv_replies sv) (cv_statuses sv) (cv_log sv) (cv_remotes sv).
Definition cv_set_cancelled (sv : ClientService) : ClientService :=
  MkClientService (cv_cfg sv) (cv_session_id sv) (cv_first_attempt sv) (cv_backoff_secs sv) (cv_pending sv) (cv_phase sv)
    true (cv_queue sv) (cv_replies sv) (cv_statuses sv) (cv_log sv) (cv_remotes sv).
Definition cv_set_queue (sv : ClientService) (q : list ReloadRequest) : ClientService :=
  MkClientService (cv_cfg sv) (cv_session_id sv) (cv_first_attempt sv) (cv_backoff_secs sv) (cv_pending sv) (cv_phase sv)
    (cv_cancelled sv) q (cv_replies sv) (cv_statuses sv) (cv_log sv) (cv_remotes sv).
Definition reply (sv : ClientService) (id : Z) (r : Anyhow ReloadOutcome) : ClientService :=
  MkClientService (cv_cfg sv) (cv_session_id sv) (cv_first_attempt sv) (cv_backoff_secs sv) (cv_pending sv) (cv_phase sv)
    (cv_cancelled sv) (cv_queue sv) (cv_replies sv ++ [(id, r)])%list (cv_statuses sv) (cv_log sv) (cv_remotes sv).
Definition on_status (sv : ClientService) (s : ClientStatus) : ClientService :=
  MkClientService (cv_cfg sv) (cv_session_id sv) (cv_first_attempt sv) (cv_backoff_secs sv) (cv_pending sv) (cv_phase sv)
    (cv_cancelled sv) (cv_queue sv) (cv_replies sv) (cv_statuses sv ++ [s])%list (cv_log sv) (cv_remotes sv).
Definition on_log (sv : ClientService) (line : string) : ClientService :=
  MkClientService (cv_cfg sv) (cv_session_id sv) (cv_first_attempt sv) (cv_backoff_secs sv) (cv_pending sv) (cv_phase sv)
    (cv_cancelled sv) (cv_queue sv) (cv_replies sv) (cv_statuses sv) (cv_log sv ++ [line])%list (cv_remotes sv).
Definition on_remotes_clear (sv : ClientService) (g : TunnelRemoteState) : ClientService :=
  MkClientService (cv_cfg sv) (cv_session_id sv) (cv_first_attempt sv) (cv_backoff_secs sv) (cv_pending sv) (cv_phase sv)
    (cv_cancelled sv) (cv_queue sv) (cv_replies sv) (cv_statuses sv) (cv_log sv) (clear_tunnel_remotes g).

Definition fail_pending_reload (sv : ClientService) (reason : string) : ClientService :=
  match cv_pending sv with
  | Some p => reply (cv_set_pending sv None) (pr_reply p) (Err reason)
  | None => sv
  end.

Definition counts (what : string) (o : ReloadOutcome) : string :=
  "INFO  reload " ++ what ++ ": +" ++ show_Z (Z.of_nat (length (ro_added o))) ++ " -" ++ show_Z (Z.of_nat (length (ro_removed o)))
  ++ " ~" ++ show_Z (Z.of_nat (length (ro_updated o))).

(** ** Steps *)

Section Service.
Context (show_f64 : f64 -> string) (canonicalize : string -> option string) (parent : string -> string)
  (load_tls : string -> string -> string -> Anyhow unit)
  (iter : TunnelMap -> list (string * TunnelConfig)) (iter_entries : gmap string CTunnelEntry -> list (string * CTunnelEntry)).

(** [apply_reload], as far as the plan. *)
Definition reload_plan (sv : ClientService) (req : ReloadRequest) : Anyhow (ClientConfig * ReloadPlan) :=
  let new_cfg := prepare_runtime canonicalize parent (rq_config_path req) (rq_cfg req) in
  let? _ := client_validate show_f64 new_cfg in Ok (new_cfg, plan_reload iter (cv_cfg sv) new_cfg).

(** [apply_reload] with no session, and [serve_reload_request], which is only called so. *)
Definition apply_reload_offline (sv : ClientService) (req : ReloadRequest) : ClientService * Anyhow ReloadOutcome :=
  match reload_plan sv req with
  | Err e => (sv, Err e)
  | Ok (_, Noop) => (sv, Ok (empty_outcome Noop))
  | Ok (new_cfg, (Apply ch conn as plan)) =>
      let o := outcome_from_plan plan ch in
      if conn then
        let sv := if negb (changes_empty ch) then on_log sv (counts "pending" o) else sv in
        (on_log (cv_set_cfg sv new_cfg) "INFO  client settings updated", Ok o)
      else
        let o := set_level o (outcome_level plan) in
        (on_log (cv_set_cfg sv new_cfg) (counts "queued" o), Ok o)
  end.
Definition serve_reload_request (sv : ClientService) (req : ReloadRequest) : ClientService :=
  let '(sv, result) := apply_reload_offline sv req in reply sv (rq_id req) result.
Definition drain_reload_requests (sv : ClientService) : ClientService :=
  fold_left serve_reload_request (cv_queue sv) (cv_set_queue sv []).

(** The head of the loop, up to the connection. *)
Definition loop_top (sv : ClientService) : ClientService :=
  if cv_cancelled sv then goto (fail_pending_reload sv "client stopped during reconnect") (PhEnded (Ok tt)) else
  let sv := drain_reload_requests sv in
  let sv := on_remotes_clear sv (cv_remotes sv) in
  let sv :=
    if cv_first_attempt sv then on_log (on_status sv Starting) "INFO  connecting to server"
    else match cv_pending sv with None => on_status sv Reconnecting | Some _ => sv end in
  goto sv PhConnecting.

Definition backoff (sv : ClientService) : ClientService :=
  let delay := cv_backoff_secs sv in
  goto (on_log sv ("INFO  retrying in " ++ show_Z delay ++ "s")) (PhBackoff delay).
(** The wait is over. *)
Definition next_attempt (sv : ClientService) : ClientService :=
  loop_top (cv_set_attempt sv (cv_first_attempt sv)
              (clamp (sat_u64 (cv_backoff_secs sv * 2)) RECONNECT_BASE_SECS RECONNECT_MAX_SECS)).
Definition stopped (sv : ClientService) : ClientService :=
  goto (fail_pending_reload sv "client stopped during reconnect") (PhEnded (Ok tt)).

Definition connected (sv : ClientService) (c : CControl) : ClientService :=
  let sv := on_log (on_status sv Running) "INFO  connected to server" in
  let sv := cv_set_attempt sv false RECONNECT_BASE_SECS in
  let sv := match cv_pending sv with
            | Some p => reply (cv_set_pending sv None) (pr_reply p) (Ok (pr_outcome p))
            | None => sv
            end in
  goto sv (PhSession c None).
Definition connect_failed (sv : ClientService) (e : OpenError) : ClientService :=
  if cv_cancelled sv then stopped sv else
  match e with
  | LoginRejected _ =>
      let sv := fail_pending_reload sv (open_error_str e) in
      goto (on_log sv ("ERROR " ++ open_error_str e)) (PhEnded (Err (open_error_str e)))
  | OtherError s =>
      let sv := on_status (on_log sv ("ERROR failed to connect: " ++ s)) Reconnecting in
      backoff (cv_set_attempt sv false (cv_backoff_secs sv))
  end.

(** [apply_reload] while a session is up, with the arm of [run_session_loop] that
    calls it: an answer, a reconnection, or the start of the task that applies it. *)
Definition session_reload (sv : ClientService) (c : CControl) (ended : option ReaderEnd) (req : ReloadRequest)
    (write : string -> Anyhow unit * bool) : ClientService :=
  match reload_plan sv req with
  | Err e => reply sv (rq_id req) (Err e)
  | Ok (_, Noop) => reply sv (rq_id req) (Ok (empty_outcome Noop))
  | Ok (new_cfg, (Apply ch conn as plan)) =>
      if conn then
        let o := outcome_from_plan plan ch in
        let sv := if negb (changes_empty ch) then on_log sv (counts "pending" o) else sv in
        let sv := on_log (cv_set_cfg sv new_cfg) "INFO  client settings changed; reconnecting" in
        goto sv (PhClosing (request_disconnect (close_all_tunnels iter_entries c write)) ended (ClReconnect (MkPending (rq_id req) o)))
      else goto sv (PhApplying c ended plan ch (apply_start ch) new_cfg (rq_id req))
  end.
Definition reload_applied_reply (sv : ClientService) (plan : ReloadPlan) (o : ReloadOutcome) (new_cfg : ClientConfig) (id : Z) : ClientService :=
  let o := set_level o (outcome_level plan) in
  reply (on_log (cv_set_cfg sv new_cfg) (counts "applied" o)) id (Ok o).

(** What follows a session's end. *)
Definition session_over (sv : ClientService) (c : CControl) (r : ReaderEnd) : ClientService :=
  let sv := on_remotes_clear sv (cs_remotes c) in
  match session_end c r with
  | Kicked _ reason =>
      let sv := fail_pending_reload sv "kicked by server" in
      goto (on_log sv ("WARN  kicked by server: " ++ reason)) (PhEnded (Err ("kicked by server: " ++ reason)))
  | Disconnected rid =>
      if cv_cancelled sv then stopped sv else
      let sv := on_status (on_log (cv_set_session_id sv rid) "WARN  disconnected from server") Reconnecting in
      backoff (drain_reload_requests sv)
  end.
Definition closed (sv : ClientService) (c : CControl) (r : ReaderEnd) (why : Closing) : ClientService :=
  match why with
  | ClChannelClosed => session_over sv c r
  | ClCancelled => stopped (on_remotes_clear sv (cs_remotes c))
  | ClReconnect p =>
      let sv := cv_set_pending (on_remotes_clear sv (cs_remotes c)) (Some p) in
      loop_top (on_status (on_log sv "INFO  reconnecting to apply client settings") Reconnecting)
  end.

Context `{Crypto}.

(** An event inside the session: a task's step, and the reader's end if this is one. *)
Definition session_event (c : CControl) (ended : option ReaderEnd) (ev : SessionEvent) : CControl * option ReaderEnd :=
  match ev, ended with
  | SeApply _ _ _, _ => (c, ended)
  | SeRead _ _ _, Some _ => (c, ended)
  | SeRead read server now, None =>
      match reader_turn c read server now with
      | (c, Some r) => (session_shutdown c, Some r)
      | (c, None) => (c, None)
      end
  | ev, _ => ((run_event load_tls (MkChanges [] [] []) (c, ApDone outcome_default) ev).1, ended)
  end.

(** ** Events *)

(** [CvCancel] fires the token; [CvCancelled], [CvReload], [CvTimer] and
    [CvChannelClosed] are what the [select!] at that point takes. *)
Inductive ServiceEvent :=
| CvSubmit (req : ReloadRequest)
| CvCancel
| CvCancelled (write : string -> Anyhow unit * bool)
| CvReload (write : string -> Anyhow unit * bool)
| CvConnect (env : OpenEnv)
| CvTimer
| CvChannelClosed
| CvSession (ev : SessionEvent)
| CvApplied
| CvDone.

Definition client_step (sv : ClientService) (ev : ServiceEvent) : ClientService :=
  match ev, cv_phase sv with
  | CvSubmit _, PhEnded _ => sv
  | CvSubmit req, _ => cv_set_queue sv (cv_queue sv ++ [req])%list
  | CvCancel, _ => cv_set_cancelled sv
  | CvCancelled write, ph =>
      if negb (cv_cancelled sv) then sv else
      match ph with
      | PhConnecting | PhBackoff _ => stopped sv
      | PhSession c ended => goto sv (PhClosing (request_disconnect (close_all_tunnels iter_entries c write)) ended ClCancelled)
      | _ => sv
      end
  | CvReload write, ph =>
      match cv_queue sv with
      | [] => sv
      | req :: queue =>
          match ph with
          | PhConnecting => loop_top (serve_reload_request (cv_set_queue sv queue) req)
          | PhBackoff _ => next_attempt (serve_reload_request (cv_set_queue sv queue) req)
          | PhSession c ended => session_reload (cv_set_queue sv queue) c ended req write
          | _ => sv
          end
      end
  | CvConnect env, PhConnecting =>
      match open_session load_tls (cv_cfg sv) (cv_session_id sv) (cv_remotes sv) env with
      | None => sv
      | Some (Ok c) => connected sv c
      | Some (Err e) => connect_failed sv e
      end
  | CvTimer, PhBackoff _ => next_attempt sv
  | CvChannelClosed, PhConnecting => loop_top sv
  | CvChannelClosed, PhBackoff _ => next_attempt sv
  | CvChannelClosed, PhSession c ended => goto sv (PhClosing (request_disconnect c) ended ClChannelClosed)
  | CvSession ev, PhSession c ended => let '(c, ended) := session_event c ended ev in goto sv (PhSession c ended)
  | CvSession (SeApply w locked deadline), PhApplying c ended plan ch pc new_cfg id =>
      let '(c, pc) := apply_step load_tls ch c pc w locked deadline in goto sv (PhApplying c ended plan ch pc new_cfg id)
  | CvSession ev, PhApplying c ended plan ch pc new_cfg id =>
      let '(c, ended) := session_event c ended ev in goto sv (PhApplying c ended plan ch pc new_cfg id)
  | CvSession ev, PhClosing c ended why => let '(c, ended) := session_event c ended ev in goto sv (PhClosing c ended why)
  | CvApplied, PhApplying c ended plan ch (ApDone o) new_cfg id =>
      reload_applied_reply (goto sv (PhSession c ended)) plan o new_cfg id
  | CvDone, PhSession c (Some r) => session_over sv c r
  | CvDone, PhClosing c (Some r) why => closed sv c r why
  | _, _ => sv
  end.

Definition client_run (cfg : ClientConfig) : ClientService :=
  loop_top (MkClientService cfg "" true RECONNECT_BASE_SECS None PhConnecting false [] [] [] [] remotes_default).
Definition client_exec (cfg : ClientConfig) (evs : list ServiceEvent) : ClientService :=
  fold_left client_step evs (client_run cfg).
End Service.

(** ** Lemmas: requests and replies *)

Local Open Scope list_scope.

Definition pending_ids (p : option PendingReloadReply) : list Z := match p with Some p => [pr_reply p] | None => [] end.
(** The request a phase is working on. *)
Definition phase_ids (ph : Phase) : list Z :=
  match ph with
  | PhApplying _ _ _ _ _ _ id => [id]
  | PhClosing _ _ (ClReconnect p) => [pr_reply p]
  | _ => []
  end.
Definition answered (sv : ClientService) : list Z := map fst (cv_replies sv).
Definition queued (sv : ClientService) : list Z := map rq_id (cv_queue sv).
(** The requests that wait for an answer outside the phase, and those answered. *)
Definition held (sv : ClientService) : list Z := answered sv ++ queued sv ++ pending_ids (cv_pending sv).
(** Only connecting and waiting leave a reply pending. *)
Definition may_pend (ph : Phase) : Prop := match ph with PhConnecting | PhBackoff _ => True | _ => False end.

Record requests_inv (ids : list Z) (sv : ClientService) : Prop := {
  ri_held : held sv ++ phase_ids (cv_phase sv) ≡ₚ ids;
  ri_pending : may_pend (cv_phase sv) \/ cv_pending sv = None }.

Section Requests.
Context (show_f64 : f64 -> string) (canonicalize : string -> option string) (parent : string -> string)
  (load_tls : string -> string -> string -> Anyhow unit)
  (iter : TunnelMap -> list (string * TunnelConfig)) (iter_entries : gmap string CTunnelEntry -> list (string * CTunnelEntry)).
Abbreviation serve := (serve_reload_request show_f64 canonicalize parent iter).
Abbreviation top := (loop_top show_f64 canonicalize parent iter).

Lemma held_reply sv id r : held (reply sv id r) ≡ₚ id :: held sv.
Proof. unfold held, answered. cbn. rewrite map_app. cbn. solve_Permutation. Qed.

(** What serving a request offline leaves alone. *)
Lemma serve_held sv req :
  held (serve sv req) ≡ₚ rq_id req :: held sv /\ cv_pending (serve sv req) = cv_pending sv
  /\ cv_cancelled (serve sv req) = cv_cancelled sv /\ cv_backoff_secs (serve sv req) = cv_backoff_secs sv
  /\ cv_queue (serve sv req) = cv_queue sv.
Proof.
  unfold serve_reload_request, apply_reload_offline. destruct (reload_plan _ _ _ _ _ _) as [[cfg [|ch []]]|]; [| |cbn [negb]|];
    rewrite ?held_reply; try done. by destruct (changes_empty ch).
Qed.
Lemma drain_held sv :
  held (drain_reload_requests show_f64 canonicalize parent iter sv) ≡ₚ held sv
  /\ cv_pending (drain_reload_requests show_f64 canonicalize parent iter sv) = cv_pending sv
  /\ cv_backoff_secs (drain_reload_requests show_f64 canonicalize parent iter sv) = cv_backoff_secs sv.
Proof.
  unfold drain_reload_requests.
  assert (forall q sv0, held (fold_left serve q sv0) ≡ₚ map rq_id q ++ held sv0
    /\ cv_pending (fold_left serve q sv0) = cv_pending sv0
    /\ cv_backoff_secs (fold_left serve q sv0) = cv_backoff_secs sv0) as Hq.
  { induction q as [|r q IH]; intros sv0; [done|]. cbn [fold_left map app].
    destruct (IH (serve sv0 r)) as (-> & -> & ->). destruct (serve_held sv0 r) as (-> & -> & _ & -> & _).
    split; [solve_Permutation|done]. }
  destruct (Hq (cv_queue sv) (cv_set_queue sv [])) as (-> & -> & ->). split; [|done].
  unfold held, queued, answered. cbn. solve_Permutation.
Qed.
Lemma fail_pending_held sv reason :
  held (fail_pending_reload sv reason) ≡ₚ held sv /\ cv_pending (fail_pending_reload sv reason) = None.
Proof.
  unfold fail_pending_reload. destruct (cv_pending sv) as [p|] eqn:E; [|done]. rewrite held_reply. split; [|done].
  unfold held, queued, answered. cbn. rewrite E. cbn. solve_Permutation.
Qed.

(** Steps that end with nothing in the phase. *)
Lemma stopped_inv ids sv : held sv ≡ₚ ids -> requests_inv ids (stopped sv).
Proof.
  intros Hh. destruct (fail_pending_held sv "client stopped during reconnect") as [H1 H2].
  split; [|by right]. cbn. rewrite (right_id_L [] (++)). change (held (stopped sv)) with (held (fail_pending_reload sv "client stopped during reconnect")). by rewrite H1.
Qed.
Lemma top_inv ids sv : held sv ≡ₚ ids -> requests_inv ids (top sv).
Proof.
  intros Hh. unfold loop_top. destruct (cv_cancelled sv); [by apply stopped_inv|].
  destruct (drain_held sv) as [H1 _]. split; [|by left]. cbn. rewrite (right_id_L [] (++)).
  etrans; [|exact Hh]. etrans; [|exact H1]. generalize (drain_reload_requests show_f64 canonicalize parent iter sv) as s.
  intros s. cbn. destruct (cv_first_attempt s); [done|]. destruct (cv_pending s) eqn:E; unfold held; cbn; by rewrite E.
Qed.
Lemma next_attempt_inv ids sv :
  held sv ≡ₚ ids -> requests_inv ids (next_attempt show_f64 canonicalize parent iter sv).
Proof. intros Hh. by apply top_inv. Qed.
Lemma backoff_inv ids sv : held sv ≡ₚ ids -> requests_inv ids (backoff sv).
Proof. intros Hh. split; [|by left]. cbn. by rewrite (right_id_L [] (++)). Qed.

Lemma connected_inv ids sv c : held sv ≡ₚ ids -> requests_inv ids (connected sv c).
Proof.
  intros Hh. unfold connected. destruct (cv_pending sv) as [p|] eqn:E; cbn; rewrite E; (split; [|by right]);
    cbn; rewrite (right_id_L [] (++)), <- Hh; unfold held, queued, answered; cbn; rewrite E; [|done].
  rewrite map_app. cbn. solve_Permutation.
Qed.
Lemma connect_failed_inv ids sv e : held sv ≡ₚ ids -> requests_inv ids (connect_failed sv e).
Proof.
  intros Hh. unfold connect_failed. destruct (cv_cancelled sv); [by apply stopped_inv|]. destruct e as [r|s].
  - destruct (fail_pending_held sv (open_error_str (LoginRejected r))) as [H1 H2]. split; [|by right].
    cbn. rewrite (right_id_L [] (++)), <- Hh, <- H1. done.
  - by apply backoff_inv.
Qed.
Lemma session_over_inv ids sv c r :
  held sv ≡ₚ ids -> requests_inv ids (session_over show_f64 canonicalize parent iter sv c r).
Proof.
  intros Hh. unfold session_over. destruct (session_end c r) as [rid|rid reason].
  - case_match; [by apply stopped_inv|]. apply backoff_inv.
    match goal with |- held (drain_reload_requests _ _ _ _ ?s) ≡ₚ _ => destruct (drain_held s) as [-> _] end. exact Hh.
  - destruct (fail_pending_held (on_remotes_clear sv (cs_remotes c)) "kicked by server") as [H1 H2]. split; [|by right].
    cbn. rewrite (right_id_L [] (++)), <- Hh. change (held sv) with (held (on_remotes_clear sv (cs_remotes c))).
    rewrite <- H1. done.
Qed.
Lemma session_reload_inv ids sv c ended req write :
  held sv ++ [rq_id req] ≡ₚ ids -> cv_pending sv = None -> phase_ids (cv_phase sv) = [] ->
  requests_inv ids (session_reload show_f64 canonicalize parent iter iter_entries sv c ended req write).
Proof.
  intros Hh Hp Hph. unfold session_reload.
  destruct (reload_plan _ _ _ _ _ _) as [[cfg [|ch []]]|]; (split; [|right]); try done.
  1,4: rewrite held_reply; cbn; rewrite Hph, (right_id_L [] (++)), <- Hh; solve_Permutation.
  - destruct (negb _); rewrite <- Hh; done.
  - by destruct (negb _).
Qed.

Context `{Crypto}.
Abbreviation step := (client_step show_f64 canonicalize parent load_tls iter iter_entries).

(** The requests the loop takes: a stopped loop has closed the channel. *)
Definition taken (sv : ClientService) (ev : ServiceEvent) : list Z :=
  match ev, cv_phase sv with
  | CvSubmit _, PhEnded _ => []
  | CvSubmit req, _ => [rq_id req]
  | _, _ => []
  end.

Lemma requests_goto ids sv ph :
  held sv ++ phase_ids (cv_phase sv) ≡ₚ ids -> (may_pend (cv_phase sv) \/ cv_pending sv = None) ->
  phase_ids ph = phase_ids (cv_phase sv) -> (may_pend (cv_phase sv) -> may_pend ph) -> requests_inv ids (goto sv ph).
Proof. intros Hh Hp E Hm. split; cbn; [rewrite E; exact Hh|]. destruct Hp; auto. Qed.

Lemma requests_step ids sv ev : requests_inv ids sv -> requests_inv (ids ++ taken sv ev) (step sv ev).
Proof.
  intros [Hh Hp].
  assert (forall req, cv_phase sv = cv_phase sv -> (forall r, cv_phase sv <> PhEnded r) -> ev = CvSubmit req ->
    requests_inv (ids ++ [rq_id req]) (cv_set_queue sv (cv_queue sv ++ [req]))) as Hsub.
  { intros req _ _ _. split; [|exact Hp]. rewrite <- Hh. unfold held, queued, answered. cbn. rewrite map_app. cbn. solve_Permutation. }
  destruct ev as [req| |write|write|env| | |se| |].
  - destruct (cv_phase sv) eqn:E; cbn [client_step taken]; rewrite E; try (by apply Hsub; rewrite ?E).
    rewrite (right_id_L [] (++)). split; rewrite E; done.
  - cbn [client_step taken]. rewrite (right_id_L [] (++)). destruct (cv_phase sv) eqn:E; (split; cbn; rewrite E; done).
  - cbn [taken]. rewrite (right_id_L [] (++)). cbn [client_step].
    destruct (cv_cancelled sv); cbn [negb]; [|by split].
    destruct (cv_phase sv) eqn:E; cbn in Hh; rewrite ?(right_id_L [] (++)) in Hh; try (by split; rewrite E; cbn; rewrite ?(right_id_L [] (++))).
    1,2: by apply stopped_inv.
    split; [cbn; by rewrite (right_id_L [] (++))|]. right. by destruct Hp.
  - cbn [taken]. rewrite (right_id_L [] (++)). cbn [client_step]. destruct (cv_queue sv) as [|req queue] eqn:Eq; [by split|].
    assert (held (cv_set_queue sv queue) ++ [rq_id req] ≡ₚ held sv) as Hq.
    { unfold held, queued, answered. cbn. rewrite Eq. cbn. solve_Permutation. }
    assert (held (serve (cv_set_queue sv queue) req) ≡ₚ held sv) as Hs.
    { destruct (serve_held (cv_set_queue sv queue) req) as [-> _]. rewrite <- Hq. solve_Permutation. }
    destruct (cv_phase sv) eqn:E; cbn in Hh; rewrite ?(right_id_L [] (++)) in Hh; try (by split; rewrite E; cbn; rewrite ?(right_id_L [] (++))).
    + apply top_inv. by rewrite Hs.
    + apply next_attempt_inv. by rewrite Hs.
    + apply session_reload_inv; [by rewrite Hq|by destruct Hp|cbn; by rewrite E].
  - cbn [taken]. rewrite (right_id_L [] (++)). destruct (cv_phase sv) eqn:E; cbn [client_step]; rewrite E; try (by split; rewrite E).
    cbn in Hh. rewrite (right_id_L [] (++)) in Hh.
    destruct (open_session _ _ _ _ _) as [[c|e]|]; [by apply connected_inv|by apply connect_failed_inv|].
    split; rewrite E; [cbn; by rewrite (right_id_L [] (++))|done].
  - cbn [taken]. rewrite (right_id_L [] (++)). destruct (cv_phase sv) eqn:E; cbn [client_step]; rewrite E; try (by split; rewrite E).
    cbn in Hh. rewrite (right_id_L [] (++)) in Hh. by apply next_attempt_inv.
  - cbn [taken]. rewrite (right_id_L [] (++)). destruct (cv_phase sv) eqn:E; cbn [client_step]; rewrite E; try (by split; rewrite E);
      cbn in Hh; rewrite ?(right_id_L [] (++)) in Hh.
    + by apply top_inv.
    + by apply next_attempt_inv.
    + split; [cbn; by rewrite (right_id_L [] (++))|]. right. by destruct Hp.
  - cbn [taken]. rewrite (right_id_L [] (++)). destruct (cv_phase sv) eqn:E; cbn [client_step]; rewrite E; try (by destruct se; split; rewrite E).
    + destruct se; destruct (session_event _ _ _ _) as [c1 e1]; by apply requests_goto; rewrite ?E.
    + destruct se; [destruct (apply_step _ _ _ _ _ _ _)|destruct (session_event _ _ _ _)..]; by apply requests_goto; rewrite ?E.
    + destruct se; destruct (session_event _ _ _ _) as [c1 e1]; by apply requests_goto; rewrite ?E.
  - cbn [taken]. rewrite (right_id_L [] (++)). destruct (cv_phase sv) as [| | |c ended plan ch [| | |o]| |] eqn:E; cbn [client_step]; rewrite E; try (by split; rewrite E).
    cbn in Hh. unfold reload_applied_reply. split; [|right; by destruct Hp]. rewrite held_reply. cbn. rewrite (right_id_L [] (++)), <- Hh.
    unfold held, queued, answered. cbn. solve_Permutation.
  - cbn [taken]. rewrite (right_id_L [] (++)). destruct (cv_phase sv) as [| |c [r|]| |c [r|] [|p|]|] eqn:E; cbn [client_step]; rewrite E; try (by split; rewrite E);
      cbn in Hh; rewrite ?(right_id_L [] (++)) in Hh.
    + by apply session_over_inv.
    + by apply stopped_inv.
    + apply top_inv. rewrite <- Hh. destruct Hp as [[]|Hp]. unfold held, queued, answered. cbn. rewrite Hp. cbn. solve_Permutation.
    + by apply session_over_inv.
Qed.

(** The requests taken over a run. *)
Fixpoint received (sv : ClientService) (evs : list ServiceEvent) : list Z :=
  match evs with
  | [] => []
  | ev :: evs => taken sv ev ++ received (step sv ev) evs
  end.
Lemma requests_run ids sv evs :
  requests_inv ids sv -> requests_inv (ids ++ received sv evs) (fold_left step evs sv).
Proof.
  revert ids sv. induction evs as [|ev evs IH]; intros ids sv Hi; cbn; [by rewrite (right_id_L [] (++))|].
  rewrite (assoc_L (++)). apply IH. by apply requests_step.
Qed.
End Requests.

(** ** Lemmas: waiting *)

Definition backoff_ok (sv : ClientService) : Prop :=
  (RECONNECT_BASE_SECS <= cv_backoff_secs sv <= RECONNECT_MAX_SECS)%Z
  /\ match cv_phase sv with
     | PhBackoff d => d = cv_backoff_secs sv
     | PhSession _ _ | PhApplying _ _ _ _ _ _ _ | PhClosing _ _ _ => cv_backoff_secs sv = RECONNECT_BASE_SECS
     | _ => True
     end.

Section Backoff.
Context (show_f64 : f64 -> string) (canonicalize : string -> option string) (parent : string -> string)
  (load_tls : string -> string -> string -> Anyhow unit)
  (iter : TunnelMap -> list (string * TunnelConfig)) (iter_entries : gmap string CTunnelEntry -> list (string * CTunnelEntry)).
Abbreviation top := (loop_top show_f64 canonicalize parent iter).

Lemma fail_pending_backoff sv reason :
  cv_backoff_secs (fail_pending_reload sv reason) = cv_backoff_secs sv.
Proof. unfold fail_pending_reload. by destruct (cv_pending sv). Qed.
Lemma top_backoff sv : cv_backoff_secs (top sv) = cv_backoff_secs sv
  /\ (cv_phase (top sv) = PhConnecting \/ cv_phase (top sv) = PhEnded (Ok tt)).
Proof.
  unfold loop_top. destruct (cv_cancelled sv); [split; [apply fail_pending_backoff|by right]|].
  destruct (drain_held show_f64 canonicalize parent iter sv) as (_ & _ & E). split; [|by left].
  rewrite <- E. generalize (drain_reload_requests show_f64 canonicalize parent iter sv) as s. intros s. cbn.
  destruct (cv_first_attempt s); [done|]. by destruct (cv_pending s).
Qed.
Lemma top_cancelled sv : cv_cancelled sv = false -> cv_cancelled (top sv) = false.
Proof.
  intros Hc. unfold loop_top. rewrite Hc.
  assert (cv_cancelled (drain_reload_requests show_f64 canonicalize parent iter sv) = false) as Hd.
  { unfold drain_reload_requests. change (cv_cancelled sv) with (cv_cancelled (cv_set_queue sv [])) in Hc.
    revert Hc. generalize (cv_set_queue sv []) as s. induction (cv_queue sv) as [|r q IH]; intros s Hs; [done|].
    cbn [fold_left]. apply IH. by destruct (serve_held show_f64 canonicalize parent iter s r) as (_ & _ & -> & _). }
  revert Hd. generalize (drain_reload_requests show_f64 canonicalize parent iter sv) as s. intros s Hs. cbn.
  destruct (cv_first_attempt s); [done|]. by destruct (cv_pending s).
Qed.
Lemma top_ok sv : (RECONNECT_BASE_SECS <= cv_backoff_secs sv <= RECONNECT_MAX_SECS)%Z -> backoff_ok (top sv).
Proof. intros Hb. destruct (top_backoff sv) as [E [Ep|Ep]]; unfold backoff_ok; rewrite E, Ep; done. Qed.
Lemma doubled_ok b : (RECONNECT_BASE_SECS <= clamp b RECONNECT_BASE_SECS RECONNECT_MAX_SECS <= RECONNECT_MAX_SECS)%Z.
Proof. unfold clamp, RECONNECT_BASE_SECS, RECONNECT_MAX_SECS. lia. Qed.
Lemma next_attempt_ok sv : backoff_ok (next_attempt show_f64 canonicalize parent iter sv).
Proof. apply top_ok. apply doubled_ok. Qed.
Lemma stopped_ok sv : (RECONNECT_BASE_SECS <= cv_backoff_secs sv <= RECONNECT_MAX_SECS)%Z -> backoff_ok (stopped sv).
Proof. intros Hb. split; [|done]. cbn. by rewrite fail_pending_backoff. Qed.
Lemma session_over_ok sv c r :
  (RECONNECT_BASE_SECS <= cv_backoff_secs sv <= RECONNECT_MAX_SECS)%Z ->
  backoff_ok (session_over show_f64 canonicalize parent iter sv c r).
Proof.
  intros Hb. unfold session_over. destruct (session_end c r) as [rid|rid reason].
  - case_match; [by apply stopped_ok|]. split; [|done].
    match goal with |- context [backoff ?s] => change (cv_backoff_secs (backoff s)) with (cv_backoff_secs s) end.
    match goal with |- context [drain_reload_requests _ _ _ _ ?s] => by destruct (drain_held show_f64 canonicalize parent iter s) as (_ & _ & ->) end.
  - split; [|done]. cbn. by rewrite fail_pending_backoff.
Qed.
Lemma session_reload_ok sv c c0 ended ended0 req write :
  backoff_ok sv -> cv_phase sv = PhSession c0 ended0 ->
  backoff_ok (session_reload show_f64 canonicalize parent iter iter_entries sv c ended req write).
Proof.
  unfold backoff_ok. intros [Hb He] E. rewrite E in He. unfold session_reload.
  destruct (reload_plan _ _ _ _ _ _) as [[cfg [|ch []]]|]; cbn; rewrite ?E; try done.
  by destruct (negb _).
Qed.

Context `{Crypto}.
Abbreviation step := (client_step show_f64 canonicalize parent load_tls iter iter_entries).

Lemma backoff_step sv ev : backoff_ok sv -> backoff_ok (step sv ev).
Proof.
  intros Hok. pose proof Hok as [Hb He]. destruct ev as [req| |write|write|env| | |se| |].
  - destruct (cv_phase sv) eqn:E; cbn [client_step]; rewrite E; unfold backoff_ok; cbn; rewrite E; done.
  - cbn [client_step]. destruct (cv_phase sv) eqn:E; unfold backoff_ok; cbn; rewrite E; done.
  - cbn [client_step]. destruct (negb _); [done|]. destruct (cv_phase sv) as [| |c ended| | |] eqn:E; [by apply stopped_ok..| | | |]; [|done..].
    split; cbn -[close_all_tunnels]; done.
  - cbn [client_step]. destruct (cv_queue sv) as [|req queue]; [done|].
    destruct (serve_held show_f64 canonicalize parent iter (cv_set_queue sv queue) req) as (_ & _ & _ & Eb & _).
    destruct (cv_phase sv) eqn:E; [| | |exact Hok..].
    + apply top_ok. by rewrite Eb.
    + apply next_attempt_ok.
    + eapply session_reload_ok; [|exact E]. unfold backoff_ok. cbn. rewrite E. done.
  - destruct (cv_phase sv) eqn:E; cbn [client_step]; rewrite E; try done.
    destruct (open_session _ _ _ _ _) as [[c|e]|]; [| |done].
    + unfold connected. destruct (cv_pending _); (split; [|done]); cbn; unfold RECONNECT_BASE_SECS, RECONNECT_MAX_SECS; lia.
    + unfold connect_failed. destruct (cv_cancelled sv); [by apply stopped_ok|]. destruct e; (split; [|done]); cbn; [|done].
      by rewrite fail_pending_backoff.
  - destruct (cv_phase sv) eqn:E; cbn [client_step]; rewrite E; try done. apply next_attempt_ok.
  - destruct (cv_phase sv) eqn:E; cbn [client_step]; rewrite E; try done; [by apply top_ok|apply next_attempt_ok].
  - destruct (cv_phase sv) eqn:E; cbn [client_step]; rewrite E; destruct se; try done;
      first [destruct (session_event _ _ _ _)|destruct (apply_step _ _ _ _ _ _ _)]; done.
  - destruct (cv_phase sv) as [| | |c ended plan ch [| | |o]| |] eqn:E; cbn [client_step]; rewrite E; done.
  - destruct (cv_phase sv) as [| |c [r|]| |c [r|] [|p|]|] eqn:E; cbn [client_step]; rewrite E; try done.
    + by apply session_over_ok.
    + by apply stopped_ok.
    + by apply top_ok.
    + by apply session_over_ok.
Qed.

(** A connection that cannot be made. *)
Definition unreachable (env : OpenEnv) : Prop := exists e, oe_connect env = Err e.

Lemma waited sv : cv_cancelled sv = false -> backoff_ok sv ->
  let sv' := next_attempt show_f64 canonicalize parent iter sv in
  cv_phase sv' = PhConnecting /\ cv_cancelled sv' = false
  /\ cv_backoff_secs sv' = Z.min RECONNECT_MAX_SECS (2 * cv_backoff_secs sv).
Proof.
  intros Hc [Hb _] sv'. unfold sv', next_attempt. set (sv2 := cv_set_attempt _ _ _). assert (cv_cancelled sv2 = false) as Hc2 by done.
  destruct (top_backoff sv2) as [Eb _]. split; [unfold loop_top; by rewrite Hc2|]. split; [by apply top_cancelled|].
  rewrite Eb. cbn. unfold clamp, sat_u64, u64_max, RECONNECT_BASE_SECS, RECONNECT_MAX_SECS in *. lia.
Qed.
Lemma failed_attempt sv env b k : (1 <= b <= RECONNECT_MAX_SECS)%Z ->
  unreachable env -> cv_phase sv = PhConnecting -> cv_cancelled sv = false ->
  cv_backoff_secs sv = Z.min RECONNECT_MAX_SECS (b * 2 ^ Z.of_nat k) ->
  cv_phase (step sv (CvConnect env)) = PhBackoff (Z.min RECONNECT_MAX_SECS (b * 2 ^ Z.of_nat k))
  /\ cv_phase (step (step sv (CvConnect env)) CvTimer) = PhConnecting
  /\ cv_cancelled (step (step sv (CvConnect env)) CvTimer) = false
  /\ cv_backoff_secs (step (step sv (CvConnect env)) CvTimer) = Z.min RECONNECT_MAX_SECS (b * 2 ^ Z.of_nat (S k)).
Proof.
  intros Hrange [e He] Hp Hc Hb. assert (1 <= 2 ^ Z.of_nat k)%Z as Hk by (pose proof (Z.pow_pos_nonneg 2 (Z.of_nat k)); lia).
  assert (exists sv', step sv (CvConnect env) = backoff sv' /\ cv_cancelled sv' = false /\ cv_backoff_secs sv' = cv_backoff_secs sv)
    as (sv' & -> & Hc' & Hb').
  { cbn [client_step]. rewrite Hp. unfold open_session. rewrite He. cbn. unfold connect_failed. rewrite Hc. eexists. done. }
  split; [cbn; by rewrite Hb', Hb|]. cbn [client_step cv_phase backoff goto].
  match goal with |- context [next_attempt _ _ _ _ ?s] => destruct (waited s) as (H1 & H2 & H3); [exact Hc'| |] end.
  { split; [|done]. cbn. rewrite Hb', Hb. unfold RECONNECT_BASE_SECS, RECONNECT_MAX_SECS in *. nia. }
  split; [exact H1|]. split; [exact H2|]. rewrite H3. cbn. rewrite Hb', Hb, Nat2Z.inj_succ, Z.pow_succ_r by lia.
  unfold RECONNECT_MAX_SECS in *. nia.
Qed.
Lemma failed_attempts sv b envs : (1 <= b <= RECONNECT_MAX_SECS)%Z ->
  Forall unreachable envs -> cv_phase sv = PhConnecting -> cv_cancelled sv = false -> cv_backoff_secs sv = b ->
  let sv' := fold_left step (flat_map (fun e => [CvConnect e; CvTimer]) envs) sv in
  cv_phase sv' = PhConnecting /\ cv_cancelled sv' = false
  /\ cv_backoff_secs sv' = Z.min RECONNECT_MAX_SECS (b * 2 ^ Z.of_nat (length envs)).
Proof.
  intros Hb Hf Hp Hc E. induction envs as [|e envs IH] using rev_ind.
  { cbn. split; [done|]. split; [done|]. lia. }
  apply Forall_app in Hf as [Hf Hl]. apply Forall_cons in Hl as [Hl _].
  destruct (IH Hf) as (H1 & H2 & H3). cbn zeta. rewrite flat_map_app, fold_left_app, length_app, Nat.add_1_r.
  by destruct (failed_attempt _ _ b _ Hb Hl H1 H2 H3) as (_ & ? & ? & ?).
Qed.
Lemma lost_session sv c r rid : backoff_ok sv -> cv_cancelled sv = false -> cv_phase sv = PhSession c (Some r) ->
  session_end c r = Disconnected rid -> cv_phase (step sv CvDone) = PhBackoff RECONNECT_BASE_SECS.
Proof.
  intros [_ He] Hc E Hr. cbn [client_step]. rewrite E in He |- *. unfold session_over. rewrite Hr. cbn [cv_cancelled on_remotes_clear].
  rewrite Hc. match goal with |- context [drain_reload_requests _ _ _ _ ?s] =>
    destruct (drain_held show_f64 canonicalize parent iter s) as (_ & _ & Ed) end.
  unfold backoff. cbn [cv_phase goto]. rewrite Ed. cbn. by rewrite He.
Qed.
End Backoff.

(** ** Lemmas: a configuration against itself *)

Lemma vec_eq_refl {A} (eq : A -> A -> bool) l : Forall (fun a => eq a a = true) l -> vec_eq eq l l = true.
Proof. induction 1 as [|a l Ha _ IH]; [done|]. cbn. by rewrite Ha, IH. Qed.
Lemma client_validate_tunnels show c :
  client_validate show c = Ok tt -> Forall tunnel_ok (cc_tunnels c) /\ NoDup (map tc_name (cc_tunnels c)).
Proof.
  unfold client_validate. intros Hv.
  assert (validate_tunnels show ∅ (cc_tunnels c) = Ok tt) as Ht.
  { destruct (log_validate _); [|done]. destruct (is_empty _); [done|]. destruct (map_err _ _) as [[host port]|]; [|done].
    destruct (is_empty host); [done|]. destruct (port =? 0)%Z; [done|]. destruct (client_protocol c); [|done].
    repeat (match type of Hv with (if ?b then _ else _) = _ => destruct b; [done|] end). exact Hv. }
  by apply validate_tunnels_ok in Ht as (? & ? & _).
Qed.
Lemma plan_reload_same iter c : Forall tunnel_ok (cc_tunnels c) -> plan_reload iter c c = Noop.
Proof.
  intros Hok. unfold plan_reload. assert (client_config_eq c c = true) as ->; [|done].
  unfold client_config_eq, connection_settings_eq. rewrite !String.eqb_refl, Z.eqb_refl, !bool_decide_eq_true_2 by done.
  rewrite vec_eq_refl; [done|]. eapply Forall_impl; [exact Hok|]. intros t (_ & Hf & _). apply tunnel_eq_refl.
  by destruct (tt_bandwidth (tc_transport t)).
Qed.

(** ** Properties *)

Section Properties.
Context (show_f64 : f64 -> string) (canonicalize : string -> option string) (parent : string -> string)
  (load_tls : string -> string -> string -> Anyhow unit)
  (iter : TunnelMap -> list (string * TunnelConfig)) (iter_entries : gmap string CTunnelEntry -> list (string * CTunnelEntry))
  `{Crypto}.
Abbreviation step := (client_step show_f64 canonicalize parent load_tls iter iter_entries).
Abbreviation run := (client_run show_f64 canonicalize parent iter).
Abbreviation exec := (client_exec show_f64 canonicalize parent load_tls iter iter_entries).

(** C4: No reload request is lost or answered twice: at any point, whatever
    connections, sessions, cancellations and further requests come in any order,
    the requests taken are those answered, those queued, the one a reconnection
    has still to answer and the one being applied; and a loop that has stopped
    has answered everything it took off its queue. *)
Theorem reload_requests_answered (cfg : ClientConfig) (evs : list ServiceEvent) :
  let sv := exec cfg evs in
  received show_f64 canonicalize parent load_tls iter iter_entries (run cfg) evs
    ≡ₚ map fst (cv_replies sv) ++ map rq_id (cv_queue sv) ++ pending_ids (cv_pending sv) ++ phase_ids (cv_phase sv)
  /\ match cv_phase sv with
     | PhEnded _ => pending_ids (cv_pending sv) ++ phase_ids (cv_phase sv) = []
     | PhSession _ _ => cv_pending sv = None
     | _ => True
     end.
Proof using.
  intros sv. destruct (requests_run show_f64 canonicalize parent load_tls iter iter_entries [] (run cfg) evs) as [Hh Hp].
  { by apply top_inv. }
  change (fold_left step evs (run cfg)) with sv in Hh, Hp. clearbody sv. split.
  - cbn in Hh. rewrite <- Hh. unfold held. by rewrite <- !(assoc_L (++)).
  - destruct (cv_phase sv); try exact I; (destruct Hp as [Hp|Hp]; [by destruct Hp|]); [done|by rewrite Hp].
Qed.

(** C19: The wait between attempts grows by doubling to at most a minute. In every state
    the client reaches the wait is between one second and sixty; it is one second when
    the client starts and again whenever a session is up. Where the client waits for
    [d] seconds, the wait over, it is [min 60 (2 d)]; with a wait of [d] when it begins
    to connect, after [k] failed connections in a row, each waited out, the next
    failure waits [min 60 (d 2^k)]. A lost session waits one second first, so that
    the first failure after it waits two. *)
Theorem reconnect_backoff (cfg : ClientConfig) (evs : list ServiceEvent) :
  let sv := exec cfg evs in
  backoff_ok sv
  /\ cv_backoff_secs (run cfg) = 1%Z
  /\ (cv_cancelled sv = false -> cv_phase sv = PhConnecting -> forall envs env, Forall unreachable envs -> unreachable env ->
      cv_phase (step (fold_left step (flat_map (fun e => [CvConnect e; CvTimer]) envs) sv) (CvConnect env))
      = PhBackoff (Z.min RECONNECT_MAX_SECS (cv_backoff_secs sv * 2 ^ Z.of_nat (length envs))))
  /\ (cv_cancelled sv = false -> forall d, cv_phase sv = PhBackoff d ->
      cv_phase (step sv CvTimer) = PhConnecting /\ cv_backoff_secs (step sv CvTimer) = Z.min RECONNECT_MAX_SECS (2 * d))
  /\ (cv_cancelled sv = false -> forall c r rid, cv_phase sv = PhSession c (Some r) -> session_end c r = Disconnected rid ->
      cv_phase (step sv CvDone) = PhBackoff 1).
Proof using.
  intros sv. assert (backoff_ok sv) as Hok.
  { unfold sv, client_exec. assert (backoff_ok (run cfg)) as Hok by (split; done).
    revert Hok. generalize (run cfg) as s. induction evs as [|ev evs' IH]; intros s Hok; [done|].
    cbn [fold_left]. apply IH. by apply backoff_step. }
  clearbody sv. pose proof Hok as [Hb Hp]. split; [done|]. split; [done|]. split; [|split]; intros Hc.
  - intros E envs env Hf He.
    destruct (failed_attempts show_f64 canonicalize parent load_tls iter iter_entries sv (cv_backoff_secs sv) envs) as (H1 & H2 & H3); [done..|].
    by destruct (failed_attempt show_f64 canonicalize parent load_tls iter iter_entries _ env _ _ Hb He H1 H2 H3).
  - intros d E. cbn [client_step]. rewrite E in Hp |- *. subst d.
    by destruct (waited show_f64 canonicalize parent iter sv Hc Hok) as (? & _ & ?).
  - intros c r rid E Hr. by eapply lost_session.
Qed.

(** A reload whose tunnels failed cannot be tried again: the new
    configuration is taken over whatever the outcome, so the same request made
    once more is found to change nothing and is reported a success. *)
Theorem failed_reload_forgotten (sv : ClientService) (c : CControl) (ended : option ReaderEnd) (plan : ReloadPlan)
    (ch : TunnelChanges) (o : ReloadOutcome) (new_cfg : ClientConfig) (req : ReloadRequest)
    (write : string -> Anyhow unit * bool) :
  cv_phase sv = PhApplying c ended plan ch (ApDone o) new_cfg (rq_id req) -> cv_queue sv = [] ->
  reload_plan show_f64 canonicalize parent iter sv req = Ok (new_cfg, plan) -> succeeded o = false ->
  let sv2 := step (step (step sv CvApplied) (CvSubmit req)) (CvReload write) in
  cv_phase sv2 = PhSession c ended /\ cv_cfg sv2 = new_cfg
  /\ cv_replies sv2 = cv_replies sv ++ [(rq_id req, Ok (set_level o (outcome_level plan)));
                                        (rq_id req, Ok (empty_outcome Noop))].
Proof using.
  intros Hph Hq Hplan Hfail. unfold reload_plan in Hplan.
  destruct (client_validate _ _) as [[]|] eqn:Ev; [|done]. injection Hplan as Hn Hplan.
  pose proof Ev as Ev'. rewrite Hn in Ev'. apply client_validate_tunnels in Ev' as [Hok _].
  cbn [client_step]. rewrite Hph. unfold reload_applied_reply. cbn -[prepare_runtime]. rewrite Hq. cbn -[prepare_runtime].
  unfold session_reload, reload_plan. cbn -[prepare_runtime]. rewrite Ev, Hn, plan_reload_same by done. cbn.
  split; [done|]. split; [done|]. by rewrite <- (assoc_L (++)).
Qed.
End Properties.

(** *** Witnesses *)

#[local] Instance ex_crypto : Crypto := {| hmac k m := k +:+ m; hex_encode b := "x" +:+ b; hex_decode := Some |}.
Definition ex_level : LogConfig := MkLogConfig "" "" 3.
Definition ex_cfg (tunnels : list TunnelConfig) : ClientConfig :=
  client_complete (MkClientConfig "h" "" "" (MkClientAuth "" "") client_transport_default tunnels 0 ex_level).
Definition ex_req : ReloadRequest := MkRequest 7 (ex_cfg [test_tunnel "b" "tcp" 90]) "c.toml".
(** A reload that the server refuses. *)
Definition ex_service_events : list ServiceEvent :=
  [CvConnect ex_env; CvSubmit ex_req; CvReload (fun _ => (Ok tt, false));
   CvSession (SeApply (Ok tt) false false); CvSession (SeApply (Ok tt) false false);
   CvSession (SeApply (Ok tt) false false); CvSession (SeApply (Ok tt) false false);
   CvSession (SeRead (Some (MNewTunnelResp (MkNewTunnelResp "b" "" "port in use"))) "h" 1002);
   CvSession (SeApply (Ok tt) false false); CvSession (SeApply (Ok tt) false false)].
Definition ex_service : ClientService :=
  client_exec (fun _ => "") (fun _ => None) (fun _ => "/etc") ex_load_tls map_to_list map_to_list
    (ex_cfg [test_tunnel "b" "tcp" 80]) ex_service_events.

Lemma failed_reload_forgotten_witness :
  exists o, succeeded o = false /\
  let step := client_step (fun _ => "") (fun _ => None) (fun _ => "/etc") ex_load_tls map_to_list map_to_list in
  cv_replies (step (step (step ex_service CvApplied) (CvSubmit ex_req)) (CvReload (fun _ => (Ok tt, false))))
  = cv_replies ex_service ++ [(7%Z, Ok o); (7%Z, Ok (empty_outcome Noop))].
Proof.
  destruct (cv_phase ex_service) as [| | |c ended plan ch pc new_cfg id| |] eqn:E; try (exfalso; revert E; vm_compute; discriminate).
  pose proof E as E'. vm_compute in E'. injection E' as Ec Ee Epl Ech Epc En Ei. subst.
  match type of E with _ = PhApplying ?c ?ended ?plan ?ch (ApDone ?o) ?cfg _ =>
    destruct (failed_reload_forgotten (fun _ => "") (fun _ => None) (fun _ => "/etc") ex_load_tls map_to_list map_to_list
      ex_service c ended plan ch o cfg ex_req (fun _ => (Ok tt, false))) as (_ & _ & Hr); [exact E|..] end.
  - vm_compute. reflexivity.
  - vm_compute. reflexivity.
  - reflexivity.
  - eexists. split; [|exact Hr]. reflexivity.
Defined.
