(* ===== verification/ClientServing.v ===== *)
(** * A running client and its configuration

    The service loop, its sessions and the reloads put together: what a session's
    table holds follows the configuration the loop has taken over. *)

From stdpp Require Import sorting.
From S2P Require Import Prelude RustStr Float64 Config ServerConfig ClientConfig Registry Msg Limit Auth Reload Net ProxyProtocol ClientHandle ClientTunnels ClientSession ClientReload ClientOpen ClientService.

Local Open Scope string_scope.
Local Open Scope list_scope.

Section Serving.
Context (show_f64 : f64 -> string) (canonicalize : string -> option string) (parent : string -> string)
  (load_tls : string -> string -> string -> Anyhow unit)
  (iter : TunnelMap -> list (string * TunnelConfig)) (iter_entries : gmap string CTunnelEntry -> list (string * CTunnelEntry))
  (Hiter : forall m, iter m ≡ₚ map_to_list m) `{Crypto}.
Abbreviation step := (client_step show_f64 canonicalize parent load_tls iter iter_entries).
Abbreviation serve := (serve_reload_request show_f64 canonicalize parent iter).
Abbreviation drain := (drain_reload_requests show_f64 canonicalize parent iter).
Abbreviation top := (loop_top show_f64 canonicalize parent iter).

(** A session that serves the tunnels of a configuration. *)
Definition serves (c : CControl) (cfg : ClientConfig) : Prop := tunnels_same (cfgs c) (tunnel_map (cc_tunnels cfg)).
Definition usable_request (req : ReloadRequest) : Prop :=
  Forall (usable load_tls) (cc_tunnels (prepare_runtime canonicalize parent (rq_config_path req) (rq_cfg req))).
Definition names_distinct (cfg : ClientConfig) : Prop := NoDup (map tc_name (cc_tunnels cfg)).

(** An event in which the stream takes what a reload writes and every configuration asked for can be set up. *)
Definition calm (ev : ServiceEvent) : Prop :=
  match ev with
  | CvSession (SeApply w _ _) => w = Ok tt
  | CvSubmit req => usable_request req
  | _ => True
  end.

Definition config_inv (sv : ClientService) : Prop := names_distinct (cv_cfg sv) /\ Forall usable_request (cv_queue sv).
Definition phase_inv (cfg : ClientConfig) (ph : Phase) : Prop :=
  match ph with
  | PhSession c _ => serves c cfg
  | PhApplying c _ _ ch pc new_cfg _ =>
      names_distinct new_cfg /\ ch = diff_tunnels iter (cc_tunnels cfg) (cc_tunnels new_cfg)
      /\ Forall (usable load_tls) (ch_updated ch ++ ch_added ch)
      /\ exists c0, serves c0 cfg /\ applied_inv ch c0 c pc
  | _ => True
  end.
Definition serving_inv (sv : ClientService) : Prop := config_inv sv /\ phase_inv (cv_cfg sv) (cv_phase sv).

Lemma reload_plan_ok sv req new_cfg plan :
  reload_plan show_f64 canonicalize parent iter sv req = Ok (new_cfg, plan) ->
  new_cfg = prepare_runtime canonicalize parent (rq_config_path req) (rq_cfg req) /\ names_distinct new_cfg
  /\ forall ch conn, plan = Apply ch conn -> ch = diff_tunnels iter (cc_tunnels (cv_cfg sv)) (cc_tunnels new_cfg).
Proof using.
  unfold reload_plan. destruct (client_validate _ _) as [[]|] eqn:Ev; [|done]. intros [= <- <-].
  apply client_validate_tunnels in Ev as [_ Hnd]. split; [done|]. split; [done|].
  intros ch conn. unfold plan_reload. case_match; [done|]. case_match; [done|]. by intros [= <- _].
Qed.

Lemma serve_config sv req : config_inv sv -> config_inv (serve sv req) /\ cv_queue (serve sv req) = cv_queue sv.
Proof using.
  intros [Hn Hq]. destruct (serve_held show_f64 canonicalize parent iter sv req) as (_ & _ & _ & _ & Eq).
  split; [|done]. split; [|by rewrite Eq]. unfold serve_reload_request, apply_reload_offline.
  destruct (reload_plan _ _ _ _ _ _) as [[new_cfg plan]|] eqn:E; [|done].
  apply reload_plan_ok in E as (_ & Hnd & _). destruct plan as [|ch []]; cbn; by try destruct (negb _).
Qed.
Lemma drain_config sv : config_inv sv -> config_inv (drain sv).
Proof using.
  intros [Hn Hq]. unfold drain_reload_requests. assert (config_inv (cv_set_queue sv [])) as Hi by (split; [done|constructor]).
  revert Hi. generalize (cv_set_queue sv []) as s. clear Hq. induction (cv_queue sv) as [|r q IH]; intros s Hs; [done|].
  cbn [fold_left]. apply IH. by apply serve_config.
Qed.
Lemma fail_pending_config sv reason : config_inv sv -> config_inv (fail_pending_reload sv reason).
Proof using. intros Hi. unfold fail_pending_reload. by destruct (cv_pending sv). Qed.

Lemma stopped_serving sv : config_inv sv -> serving_inv (stopped sv).
Proof using. intros Hi. split; [|done]. by apply (fail_pending_config sv). Qed.
Lemma top_serving sv : config_inv sv -> serving_inv (top sv).
Proof using.
  intros Hi. unfold loop_top. destruct (cv_cancelled sv); [by apply stopped_serving|].
  apply drain_config in Hi. revert Hi. generalize (drain sv) as s. intros s Hi. split; [|done].
  cbn. destruct (cv_first_attempt s); [done|]. by destruct (cv_pending s).
Qed.
Lemma session_over_serving sv c r : config_inv sv -> serving_inv (session_over show_f64 canonicalize parent iter sv c r).
Proof using.
  intros Hi. unfold session_over. destruct (session_end c r) as [rid|rid reason].
  - case_match; [by apply stopped_serving|]. split; [|done].
    match goal with |- config_inv (backoff ?s) => change (config_inv s) end. by apply drain_config.
  - split; [|done]. by apply (fail_pending_config (on_remotes_clear sv (cs_remotes c))).
Qed.

(** What happens in a session beside a reload. *)
Lemma session_event_tunnels c ended ev :
  cfgs (session_event load_tls c ended ev).1 = cfgs c /\ traffic (session_event load_tls c ended ev).1 = traffic c.
Proof using.
  unfold session_event.
  assert (~ is_apply ev -> cfgs (run_event load_tls (MkChanges [] [] []) (c, ApDone outcome_default) ev).1 = cfgs c
    /\ traffic (run_event load_tls (MkChanges [] [] []) (c, ApDone outcome_default) ev).1 = traffic c) as Ho.
  { intros Hn. destruct (others_leave_tunnels load_tls (MkChanges [] [] []) (c, ApDone outcome_default) ev Hn) as (H1 & H2 & _).
    by split. }
  destruct ev as [|read server now| | |]; [done|destruct ended; [done|]|apply Ho; by intros []..].
  specialize (Ho (fun x => x)). cbn [run_event fst] in Ho. destruct (reader_turn c read server now) as [c1 [r|]]; exact Ho.
Qed.

Lemma changes_usable old new :
  NoDup (map tc_name new) -> Forall (usable load_tls) new ->
  Forall (usable load_tls) (ch_updated (diff_tunnels iter old new) ++ ch_added (diff_tunnels iter old new)).
Proof using Hiter.
  intros Hnd Hu. rewrite Forall_forall in *. intros t. rewrite elem_of_app. intros [Ht|Ht]; apply Hu.
  - apply updated_spec in Ht as [Ht _]; [|done]. by apply tunnel_map_lookup in Ht as [Ht _].
  - apply added_spec in Ht as [Ht _]; [|done]. by apply tunnel_map_lookup in Ht as [Ht _].
Qed.

(** A reload that has gone through leaves the new configuration's tunnels. *)
Lemma applied_serves c0 c cfg new_cfg o :
  names_distinct cfg -> names_distinct new_cfg -> serves c0 cfg ->
  applied_inv (diff_tunnels iter (cc_tunnels cfg) (cc_tunnels new_cfg)) c0 c (ApDone o) -> serves c new_cfg.
Proof using Hiter.
  intros Hnd Hnd' Hs [Hc _]. unfold serves in *. rewrite Hc, applied_changes.
  - rewrite Hs. by apply apply_changes_same.
  - by apply started_nodup.
  - by apply stop_nodup.
Qed.

Lemma session_reload_serving sv c ended req write :
  config_inv sv -> usable_request req -> cv_phase sv = PhSession c ended -> serves c (cv_cfg sv) ->
  serving_inv (session_reload show_f64 canonicalize parent iter iter_entries sv c ended req write).
Proof using Hiter.
  intros Hi Hu Hph Hs. unfold session_reload.
  assert (forall r, serving_inv (reply sv (rq_id req) r)) as Hr by (intros r; split; [done|]; cbn; by rewrite Hph).
  destruct (reload_plan _ _ _ _ _ _) as [[new_cfg plan]|] eqn:E; [|apply Hr].
  apply reload_plan_ok in E as (Hnew & Hnd & Hch). destruct plan as [|ch []]; [apply Hr| |].
  - split; [|done]. destruct Hi. by destruct (negb _).
  - specialize (Hch ch false eq_refl). split; [done|]. cbn. split; [done|]. split; [done|]. split.
    + subst ch. apply changes_usable; [done|]. by rewrite Hnew.
    + exists c. split; [done|]. apply applied_inv_start.
Qed.

Lemma serving_step sv ev : calm ev -> serving_inv sv -> serving_inv (step sv ev).
Proof using Hiter.
  intros Hcalm Hinv. pose proof Hinv as [Hi Hp]. destruct ev as [req| |write|write|env| | |se| |].
  - assert (config_inv (cv_set_queue sv (cv_queue sv ++ [req]))) as Hq.
    { destruct Hi as [Hn Hq]. split; [done|]. cbn. apply Forall_app. by split; [|apply Forall_singleton]. }
    destruct (cv_phase sv) eqn:E; cbn [client_step]; rewrite E; try exact Hinv; (split; [exact Hq|]; cbn; rewrite E; exact Hp).
  - cbn [client_step]. destruct (cv_phase sv) eqn:E; (split; [exact Hi|]; cbn; rewrite E; exact Hp).
  - cbn [client_step]. destruct (negb _); [done|].
    destruct (cv_phase sv) eqn:E; [by apply stopped_serving|by apply stopped_serving|by split|exact Hinv..].
  - cbn [client_step]. destruct (cv_queue sv) as [|req queue] eqn:Eq; [done|].
    destruct Hi as [Hn Hq]. rewrite Eq in Hq. apply Forall_cons in Hq as [Hr Hq].
    assert (config_inv (cv_set_queue sv queue)) as Hi' by done.
    destruct (serve_config (cv_set_queue sv queue) req Hi') as [Hs _].
    destruct (cv_phase sv) eqn:E; [by apply top_serving|by apply top_serving|by apply session_reload_serving|exact Hinv..].
  - destruct (cv_phase sv) eqn:E; cbn [client_step]; rewrite E; [|exact Hinv..].
    destruct (open_session _ _ _ _ _) as [[c|e]|] eqn:Eo; [| |exact Hinv].
    + apply open_session_cfgs in Eo; [|by destruct Hi]. unfold connected.
      destruct (cv_pending _); (split; [done|]); unfold phase_inv, serves; cbn; by rewrite Eo.
    + unfold connect_failed. destruct (cv_cancelled sv); [by apply stopped_serving|]. destruct e; (split; [|done]); [|done].
      by apply (fail_pending_config sv).
  - destruct (cv_phase sv) eqn:E; cbn [client_step]; rewrite E; try exact Hinv. by apply top_serving.
  - destruct (cv_phase sv) eqn:E; cbn [client_step]; rewrite E; try exact Hinv; [by apply top_serving..|by split].
  - destruct (cv_phase sv) as [| |c ended|c ended plan ch pc new_cfg id|c ended why|] eqn:E; cbn [client_step]; rewrite E.
    1,2,6: destruct se; exact Hinv.
    + assert (serving_inv (goto sv (PhSession (session_event load_tls c ended se).1 (session_event load_tls c ended se).2))) as Hg.
      { split; [exact Hi|]. cbn. destruct (session_event_tunnels c ended se) as [Ec _]. unfold serves. by rewrite Ec. }
      by destruct se; destruct (session_event load_tls c ended _).
    + destruct Hp as (Hnd & Hch & Hu & c0 & Hs & Ha).
      assert (serving_inv (goto sv (PhApplying (session_event load_tls c ended se).1 (session_event load_tls c ended se).2 plan ch pc new_cfg id))) as Hg.
      { split; [exact Hi|]. cbn. split; [done|]. split; [done|]. split; [done|]. exists c0. split; [done|].
        destruct (session_event_tunnels c ended se) as [Ec Et].
        destruct pc; unfold applied_inv in *; rewrite ?Ec, ?Et; exact Ha. }
      destruct se as [w locked deadline| | | |]; [|by destruct (session_event load_tls c ended _)..].
      cbn in Hcalm. subst w. pose proof (applied_inv_apply load_tls ch c0 Hu c pc locked deadline Ha) as Ha'.
      destruct (apply_step _ _ _ _ _ _ _) as [c1 pc1]. split; [exact Hi|]. cbn. eauto 10.
    + by destruct se; destruct (session_event load_tls c ended _).
  - destruct (cv_phase sv) as [| | |c ended plan ch [| | |o] new_cfg id| |] eqn:E; cbn [client_step]; rewrite E; try exact Hinv.
    destruct Hp as (Hnd & -> & Hu & c0 & Hs & Ha), Hi as [Hn Hq]. split; [by split|].
    exact (applied_serves c0 c (cv_cfg sv) new_cfg o Hn Hnd Hs Ha).
  - destruct (cv_phase sv) as [| |c [r|]| |c [r|] [|p|]|] eqn:E; cbn [client_step]; rewrite E; try exact Hinv.
    + by apply session_over_serving.
    + by apply stopped_serving.
    + by apply top_serving.
    + by apply session_over_serving.
Qed.

(** C2: While a session is up its table holds exactly the tunnels of the
    configuration the client last took over, through any number of connections,
    losses, reloads and requests in any order, provided each configuration asked
    for can be set up and the stream takes what a reload writes. *)
Theorem session_serves_configuration (cfg : ClientConfig) (evs : list ServiceEvent) (c : CControl) (ended : option ReaderEnd) :
  let sv := client_exec show_f64 canonicalize parent load_tls iter iter_entries cfg evs in
  NoDup (map tc_name (cc_tunnels cfg)) -> Forall calm evs -> cv_phase sv = PhSession c ended ->
  tunnels_same (cfgs c) (tunnel_map (cc_tunnels (cv_cfg sv))).
Proof using Hiter.
  intros sv Hnd Hc Hph. assert (serving_inv sv) as [_ Hp]; [|by rewrite Hph in Hp].
  unfold sv, client_exec. assert (serving_inv (client_run show_f64 canonicalize parent iter cfg)) as Hi.
  { apply top_serving. split; [done|constructor]. }
  clear Hph sv. revert Hi. generalize (client_run show_f64 canonicalize parent iter cfg) as sv.
  induction Hc as [|ev evs Hev _ IH]; intros sv Hi; [done|]. cbn [fold_left]. apply IH. by apply serving_step.
Qed.
End Serving.

(** *** Witness *)

#[local] Existing Instance ClientService.ex_crypto.

Abbreviation ex_served :=
  (client_exec (fun _ => "") (fun _ => None) (fun _ => "/etc") ex_load_tls map_to_list map_to_list
    (ex_cfg [test_tunnel "b" "tcp" 80]) (ex_service_events ++ [CvApplied])).

Lemma session_serves_configuration_witness :
  cc_tunnels (cv_cfg ex_served) = [test_tunnel "b" "tcp" 90]
  /\ exists c ended, cv_phase ex_served = PhSession c ended /\ tunnels_same (cfgs c) (tunnel_map (cc_tunnels (cv_cfg ex_served))).
Proof.
  split; [vm_compute; reflexivity|].
  destruct (cv_phase ex_served) as [| |c ended| | |] eqn:E; try (exfalso; revert E; vm_compute; discriminate).
  exists c, ended. split; [reflexivity|].
  assert (NoDup (map tc_name (cc_tunnels (ex_cfg [test_tunnel "b" "tcp" 80])))) as Hnd.
  { apply (bool_decide_unpack (NoDup (map tc_name (cc_tunnels (ex_cfg [test_tunnel "b" "tcp" 80]))))). vm_compute. exact I. }
  assert (Forall (calm (fun _ => None) (fun _ => "/etc") ex_load_tls) (ex_service_events ++ [CvApplied])) as Hcalm by repeat constructor.
  exact (session_serves_configuration (fun _ => "") (fun _ => None) (fun _ => "/etc") ex_load_tls map_to_list map_to_list
    (fun _ => reflexivity _) (ex_cfg [test_tunnel "b" "tcp" 80]) (ex_service_events ++ [CvApplied]) c ended Hnd Hcalm E).
Defined.
