(* ===== verification/EndToEnd.v ===== *)
(** * A client and its server

    What the server answers to the logins that [login_message] of the client's
    session makes, and what the client's service loop does with the answer. *)

From stdpp Require Import sorting.
From S2P Require Import Prelude RustStr Float64 Registry Metrics Msg Limit Gateway Config ServerConfig TunnelManager ServerControl ServerSpec ServerRefine Auth Agents Service ClientConfig Reload ClientHandle ClientTunnels ClientSession ClientService.

Local Open Scope string_scope.
Local Open Scope list_scope.

Section EndToEnd.
Context `{Crypto} (drain : TunnelManager -> list (string * TunnelEntry)) (hash_iter : gset string -> list string)
  (show_f64 : f64 -> string) (canonicalize : string -> option string) (parent : string -> string)
  (load_tls : string -> string -> string -> Anyhow unit)
  (iter : TunnelMap -> list (string * TunnelConfig)) (iter_entries : gmap string CTunnelEntry -> list (string * CTunnelEntry)).

Lemma verify_login_accepted token digest ts now cache instant cache' :
  verify_login token digest ts now cache instant = (cache', Ok tt) -> token <> "" ->
  live cache' digest (instant + nanos REPLAY_TTL_SECS - 1).
Proof.
  unfold verify_login, verify_auth_digest. intros Hv Ht. apply is_empty_false in Ht. rewrite Ht in Hv.
  destruct (is_empty digest); [done|]. destruct (_ <? _)%Z; [done|]. destruct (hex_decode digest); [|done].
  destruct (negb _); [done|]. destruct (accept_at cache digest instant) as [c r] eqn:Ea. injection Hv as -> ->.
  by apply accept_at_inv in Ea as [_ Hl].
Qed.
(** A digest that is remembered is refused, whatever else is wrong with it. *)
Lemma verify_login_known token digest ts now cache instant :
  live cache digest instant -> token <> "" ->
  exists cache' e, verify_login token digest ts now cache instant = (cache', Err e).
Proof.
  intros Hl Ht. apply is_empty_false in Ht. unfold verify_login, verify_auth_digest. rewrite Ht.
  destruct (is_empty digest); [eauto|]. destruct (_ <? _)%Z; [eauto|]. destruct (hex_decode digest); [|eauto].
  destruct (negb _); [eauto|]. unfold accept_at. rewrite decide_True by (by apply purge_is_some). eauto.
Qed.

(** A login that is accepted leaves its digest in the cache. *)
Lemma register_control_remembers sv login env sv' reply g :
  register_control drain hash_iter sv login env = (sv', reply, Ok g) -> ac_token (sc_auth (sv_cfg sv)) <> "" ->
  sv_cfg sv' = sv_cfg sv /\ live (sv_auth_replay sv') (lg_auth_digest login) (ev_instant env + nanos REPLAY_TTL_SECS - 1).
Proof.
  intros Hr Ht. unfold register_control in Hr. destruct (verify_login _ _ _ _ _ _) as [cache [[]|e]] eqn:Ev; [|done].
  apply verify_login_accepted in Ev; [|done].
  destruct (sanitize_wire_id (lg_user login) _) as [user|e]; [|done].
  destruct (sanitize_wire_id (lg_agent_id login) _) as [agent|e]; [|done].
  destruct (requested_session_id login env) as [sid|e]; [|done].
  destruct (try_online _ _ _) as [agents [key|[]]]; [|done]. destruct (ev_write_ok env); [|done].
  injection Hr as <- _ _. cbn [sv_cfg sv_auth_replay Service.exec set_world set_agents].
  unfold take_over. destruct (sv_controls _ !! _); exact (conj eq_refl Ev).
Qed.

(** C10: Two clients that share the server's token and log in within the same
    second send the same digest, so the second is taken for a replay of the
    first: the server refuses it, although it is an honest login, and the client,
    for which a refused login is final, stops for good instead of trying again.
    The two may be one client whose settings were reloaded just after it
    connected. *)
Theorem same_second_login_stops_client (server server1 server2 : Service) (cfg1 : ClientConfig) (previous1 : string)
    (oe1 oe2 : OpenEnv) (env1 env2 : CallEnv) (csv : ClientService) (reply1 reply2 : option LoginResp) (g : Z) (r2 : Result Z string) :
  ac_token (sc_auth (sv_cfg server)) <> "" ->
  cau_token (cc_auth cfg1) = cau_token (cc_auth (cv_cfg csv)) -> oe_now oe1 = oe_now oe2 ->
  register_control drain hash_iter server (login_message cfg1 previous1 oe1) env1 = (server1, reply1, Ok g) ->
  (ev_instant env2 < ev_instant env1 + nanos REPLAY_TTL_SECS)%Z ->
  register_control drain hash_iter server1 (login_message (cv_cfg csv) (cv_session_id csv) oe2) env2 = (server2, reply2, r2) ->
  cv_phase csv = PhConnecting -> cv_cancelled csv = false ->
  oe_connect oe2 = Ok tt -> oe_login_write oe2 = Ok tt -> (forall r, reply2 = Some r -> oe_reply oe2 = Ok (MLoginResp r)) ->
  r2 = Err "authorization failed" /\ sv_controls server2 = sv_controls server1
  /\ cv_phase (client_step show_f64 canonicalize parent load_tls iter iter_entries csv (CvConnect oe2))
     = PhEnded (Err "login rejected: authorization failed").
Proof.
  intros Ht Htok Hnow H1 Hi H2 Hph Hc Hco Hw Hre.
  apply register_control_remembers in H1 as [Ecfg [e [He Hlt]]]; [|done].
  assert (lg_auth_digest (login_message cfg1 previous1 oe1)
          = lg_auth_digest (login_message (cv_cfg csv) (cv_session_id csv) oe2)) as Ed by (cbn; by rewrite Htok, Hnow).
  unfold register_control in H2. rewrite Ecfg, <- Ed in H2.
  destruct (verify_login_known (ac_token (sc_auth (sv_cfg server))) (lg_auth_digest (login_message cfg1 previous1 oe1))
    (lg_timestamp (login_message (cv_cfg csv) (cv_session_id csv) oe2)) (ev_now_secs env2) (sv_auth_replay server1) (ev_instant env2))
    as (cache & f & Ev); [exists e; split; [done|lia]|done|].
  rewrite Ev in H2. injection H2 as <- <- <-. split; [done|]. split; [done|].
  cbn [client_step]. rewrite Hph. unfold open_session. rewrite Hco, Hw, (Hre _ eq_refl). cbn.
  unfold connect_failed. rewrite Hc. done.
Qed.
End EndToEnd.

(** *** Witness *)

#[local] Existing Instance ex_crypto_off.
Definition ex_tok_server : Service :=
  service_new (MkServerConfig default_listen 0 0 0 0 "" (MkAuthConfig "" "tok") default_proxy_addr transport_default
    (MkDashboardConfig "" 0 "" "") default_udp_packet_size log_default) (MkNow 0 0 0).
Definition ex_tok_client (agent : string) : ClientConfig :=
  MkClientConfig "h" "u" agent (MkClientAuth "" "tok") client_transport_default [] 1500 log_default.
Definition ex_second_client : ClientService :=
  client_run (fun _ => "") (fun _ => None) (fun _ => "/etc") map_to_list (ex_tok_client "B").
Definition ex_open (reply : Anyhow Message) : OpenEnv := MkOpenEnv "1" "h" "linux" "x86_64" 100 (Ok tt) (Ok tt) reply [].
Definition ex_refusal : LoginResp := MkLoginResp "v" "" "authorization failed".

Lemma same_second_login_stops_client_witness :
  (register_control map_to_list elements ex_tok_server (login_message (ex_tok_client "A") "" (ex_open (Err ""))) ex_env).2 = Ok 1%Z
  /\ cv_phase (client_step (fun _ => "") (fun _ => None) (fun _ => "/etc") (fun _ _ _ => Ok tt) map_to_list map_to_list
       ex_second_client (CvConnect (ex_open (Ok (MLoginResp ex_refusal)))))
     = PhEnded (Err "login rejected: authorization failed").
Proof.
  destruct (register_control map_to_list elements ex_tok_server (login_message (ex_tok_client "A") "" (ex_open (Err ""))) ex_env)
    as [[server1 reply1] r1] eqn:E1.
  assert (r1 = Ok 1%Z) as -> by (revert E1; vm_compute; intros [= _ _ <-]; reflexivity).
  split; [reflexivity|].
  destruct (register_control map_to_list elements server1
    (login_message (cv_cfg ex_second_client) (cv_session_id ex_second_client) (ex_open (Ok (MLoginResp ex_refusal)))) ex_env)
    as [[server2 reply2] r2] eqn:E2.
  assert (reply2 = Some ex_refusal) as ->.
  { revert E1. vm_compute. intros [= <- _]. revert E2. vm_compute. intros [= _ <- _]. reflexivity. }
  apply (same_second_login_stops_client map_to_list elements (fun _ => "") (fun _ => None) (fun _ => "/etc") (fun _ _ _ => Ok tt)
    map_to_list map_to_list ex_tok_server server1 server2 (ex_tok_client "A") "" (ex_open (Err ""))
    (ex_open (Ok (MLoginResp ex_refusal))) ex_env ex_env ex_second_client reply1 (Some ex_refusal) 1 r2); try reflexivity.
  - discriminate.
  - exact E1.
  - exact E2.
  - intros r [= <-]. reflexivity.
Defined.
