(* ===== verification/Streams.v ===== *)
(** * Byte streams

    The interface of [tokio::io::AsyncRead] and [AsyncWrite] as a type class, and
    the wrappers [PrefixedStream] of [core/src/tls/sni.rs] and [CountingStream] of
    [core/src/io/counting.rs] as instances over any stream.  A stream's state is a
    value; polling it gives the next one. *)

From S2P Require Import Prelude RustStr.

Local Open Scope string_scope.

(** ** The interface *)

Inductive Poll (A : Type) := Pending | Ready (a : A).
Arguments Pending {A}.
Arguments Ready {A} a.

(** [poll_read] is given the room left in the caller's buffer and yields what it puts there. *)
Class AsyncStream (S : Type) := {
  poll_read : S -> nat -> S * Poll (Anyhow string);
  poll_write : S -> string -> S * Poll (Anyhow nat);
  poll_flush : S -> S * Poll (Anyhow unit);
  poll_shutdown : S -> S * Poll (Anyhow unit) }.

(** What the traits' documentation promises: no more is read than there is room
    for, and no more is written than was offered. *)
Class StreamLaws (S : Type) `{AsyncStream S} := {
  poll_read_fits : forall s n s' d, poll_read s n = (s', Ready (Ok d)) -> String.length d <= n;
  poll_write_fits : forall s buf s' k, poll_write s buf = (s', Ready (Ok k)) -> k <= String.length buf }.

Section Runs.
Context {S : Type} `{AsyncStream S}.

Inductive IoOp := OpRead (room : nat) | OpWrite (buf : string) | OpFlush | OpShutdown.
(** An operation, with the bytes it took from the stream and those it gave it. *)
Definition io_step (s : S) (op : IoOp) : S * string * string :=
  match op with
  | OpRead room => match poll_read s room with (s, Ready (Ok d)) => (s, d, "") | (s, _) => (s, "", "") end
  | OpWrite buf => match poll_write s buf with (s, Ready (Ok k)) => (s, "", stake k buf) | (s, _) => (s, "", "") end
  | OpFlush => ((poll_flush s).1, "", "")
  | OpShutdown => ((poll_shutdown s).1, "", "")
  end.
(** [io_run s d w s']: some operations lead from [s] to [s'], which read [d] and wrote [w]. *)
Inductive io_run : S -> string -> string -> S -> Prop :=
| io_nil s : io_run s "" "" s
| io_cons s op s1 d w d' w' s' :
    io_step s op = (s1, d, w) -> io_run s1 d' w' s' -> io_run s (d ++ d') (w ++ w') s'.

Lemma io_one s op s1 d w : io_step s op = (s1, d, w) -> io_run s d w s1.
Proof. intros E. rewrite <- (app_nil_r d), <- (app_nil_r w). eapply io_cons; [exact E|apply io_nil]. Qed.
Lemma io_app s d w s1 d' w' s' : io_run s d w s1 -> io_run s1 d' w' s' -> io_run s (d ++ d') (w ++ w') s'.
Proof.
  induction 1 as [s|s op s1' d1 w1 d2 w2 s2 E Hr IH]; intros Hr'; [done|].
  rewrite !app_assoc. eapply io_cons; [exact E|by apply IH].
Qed.

(** The operations a wrapper makes on its inner stream. *)
Lemma io_read s n s1 d : poll_read s n = (s1, Ready (Ok d)) -> io_run s d "" s1.
Proof. intros E. apply (io_one s (OpRead n)). cbn. by rewrite E. Qed.
Lemma io_read_none s n s1 r : poll_read s n = (s1, r) -> (forall d, r <> Ready (Ok d)) -> io_run s "" "" s1.
Proof. intros E Hr. apply (io_one s (OpRead n)). cbn. rewrite E. destruct r as [|[d|e]]; [done| |done]. by destruct (Hr d). Qed.
Lemma io_write s buf s1 k : poll_write s buf = (s1, Ready (Ok k)) -> io_run s "" (stake k buf) s1.
Proof. intros E. apply (io_one s (OpWrite buf)). cbn. by rewrite E. Qed.
Lemma io_write_none s buf s1 r : poll_write s buf = (s1, r) -> (forall k, r <> Ready (Ok k)) -> io_run s "" "" s1.
Proof. intros E Hr. apply (io_one s (OpWrite buf)). cbn. rewrite E. destruct r as [|[k|e]]; [done| |done]. by destruct (Hr k). Qed.
Lemma io_flush s : io_run s "" "" (poll_flush s).1.
Proof. by apply (io_one s OpFlush). Qed.
Lemma io_shutdown s : io_run s "" "" (poll_shutdown s).1.
Proof. by apply (io_one s OpShutdown). Qed.
End Runs.
Arguments IoOp : clear implicits.

Create HintDb io.
#[export] Hint Resolve io_nil io_read io_write io_flush io_shutdown : io.

(** ** [PrefixedStream] *)

Record PrefixedStream (S : Type) := MkPrefixed { ps_prefix : string; ps_pos : nat; ps_inner : S }.
Arguments MkPrefixed {S} ps_prefix ps_pos ps_inner.
Arguments ps_prefix {S} p.
Arguments ps_pos {S} p.
Arguments ps_inner {S} p.
Definition prefixed_new {S} (prefix : string) (inner : S) : PrefixedStream S := MkPrefixed prefix 0 inner.

Section Prefixed.
Context {S : Type} `{AsyncStream S}.
Definition ps_with {A} (p : PrefixedStream S) (r : S * A) : PrefixedStream S * A := (MkPrefixed (ps_prefix p) (ps_pos p) r.1, r.2).
Definition prefixed_poll_read (p : PrefixedStream S) (room : nat) : PrefixedStream S * Poll (Anyhow string) :=
  if (ps_pos p <? String.length (ps_prefix p))%nat then
    let remain := sdrop (ps_pos p) (ps_prefix p) in
    let n := String.length remain `min` room in
    (MkPrefixed (ps_prefix p) (ps_pos p + n) (ps_inner p), Ready (Ok (stake n remain)))
  else ps_with p (poll_read (ps_inner p) room).
#[global] Instance prefixed_stream : AsyncStream (PrefixedStream S) := {
  poll_read := prefixed_poll_read;
  poll_write p buf := ps_with p (poll_write (ps_inner p) buf);
  poll_flush p := ps_with p (poll_flush (ps_inner p));
  poll_shutdown p := ps_with p (poll_shutdown (ps_inner p)) }.

#[global] Instance prefixed_laws : StreamLaws S -> StreamLaws (PrefixedStream S).
Proof.
  intros Hl. split.
  - cbn. unfold prefixed_poll_read. intros p n p' d. destruct (_ <? _)%nat.
    + intros [= _ <-]. rewrite length_stake. lia.
    + destruct (poll_read (ps_inner p) n) as [s r] eqn:E. intros [= _ ->]. by eapply poll_read_fits.
  - cbn. intros p buf p' k. destruct (poll_write (ps_inner p) buf) as [s r] eqn:E. intros [= _ ->]. by eapply poll_write_fits.
Qed.
End Prefixed.

(** ** [CountingStream] *)

Record ByteCounter := MkCounter { bc_read : Z; bc_written : Z }.
Definition counter_new : ByteCounter := MkCounter 0 0.
Definition count_read (c : ByteCounter) (n : nat) : ByteCounter := MkCounter (wrap_u 64 (bc_read c + Z.of_nat n)) (bc_written c).
Definition count_written (c : ByteCounter) (n : nat) : ByteCounter := MkCounter (bc_read c) (wrap_u 64 (bc_written c + Z.of_nat n)).

Record CountingStream (S : Type) := MkCounting { ct_inner : S; ct_counter : ByteCounter }.
Arguments MkCounting {S} ct_inner ct_counter.
Arguments ct_inner {S} c.
Arguments ct_counter {S} c.
Definition counting_new {S} (inner : S) : CountingStream S := MkCounting inner counter_new.

Section Counting.
Context {S : Type} `{AsyncStream S}.
Definition counting_poll_read (c : CountingStream S) (room : nat) : CountingStream S * Poll (Anyhow string) :=
  match poll_read (ct_inner c) room with
  | (s, Ready (Ok d)) =>
      (MkCounting s (if (0 <? String.length d)%nat then count_read (ct_counter c) (String.length d) else ct_counter c), Ready (Ok d))
  | (s, other) => (MkCounting s (ct_counter c), other)
  end.
Definition counting_poll_write (c : CountingStream S) (buf : string) : CountingStream S * Poll (Anyhow nat) :=
  match poll_write (ct_inner c) buf with
  | (s, Ready (Ok n)) => (MkCounting s (if (0 <? n)%nat then count_written (ct_counter c) n else ct_counter c), Ready (Ok n))
  | (s, other) => (MkCounting s (ct_counter c), other)
  end.
#[global] Instance counting_stream : AsyncStream (CountingStream S) := {
  poll_read := counting_poll_read;
  poll_write := counting_poll_write;
  poll_flush c := (MkCounting (poll_flush (ct_inner c)).1 (ct_counter c), (poll_flush (ct_inner c)).2);
  poll_shutdown c := (MkCounting (poll_shutdown (ct_inner c)).1 (ct_counter c), (poll_shutdown (ct_inner c)).2) }.

#[global] Instance counting_laws : StreamLaws S -> StreamLaws (CountingStream S).
Proof.
  intros Hl. split.
  - cbn. unfold counting_poll_read. intros c n c' d. destruct (poll_read (ct_inner c) n) as [s [|[d'|e]]] eqn:E; try done.
    intros [= _ <-]. by eapply poll_read_fits.
  - cbn. unfold counting_poll_write. intros c buf c' k. destruct (poll_write (ct_inner c) buf) as [s [|[n|e]]] eqn:E; try done.
    intros [= _ <-]. by eapply poll_write_fits.
Qed.

(** [join_counted]: tokio copies both ways between the counted streams. *)
Definition join_counted {T} (copy : CountingStream S -> CountingStream T -> CountingStream S * CountingStream T * Anyhow unit)
    (a : S) (b : T) : Z * Z * option string :=
  match copy (counting_new a) (counting_new b) with
  | (a, b, r) => (bc_read (ct_counter a), bc_read (ct_counter b), match r with Err e => Some e | Ok _ => None end)
  end.
End Counting.

(** ** Properties *)

(** Reading through a [PrefixedStream] gives what is left of the prefix and then
    what its inner stream gives; what is written goes to the inner stream as it is. *)
Theorem prefixed_transparent {S} `{AsyncStream S} (p p' : PrefixedStream S) (d w : string) :
  io_run p d w p' -> exists d', io_run (ps_inner p) d' w (ps_inner p') /\ ps_prefix p' = ps_prefix p
  /\ sdrop (ps_pos p) (ps_prefix p) ++ d' = d ++ sdrop (ps_pos p') (ps_prefix p').
Proof.
  induction 1 as [p|p op p1 d w d2 w2 p2 E _ (d' & Hr & Hp & Hd)]; [exists ""; rewrite app_nil_r; eauto with io|].
  assert (forall dr, io_run (ps_inner p) dr w (ps_inner p1) -> ps_prefix p1 = ps_prefix p ->
    sdrop (ps_pos p) (ps_prefix p) ++ dr = d ++ sdrop (ps_pos p1) (ps_prefix p1) ->
    exists d', io_run (ps_inner p) d' (w ++ w2) (ps_inner p2) /\ ps_prefix p2 = ps_prefix p
    /\ sdrop (ps_pos p) (ps_prefix p) ++ d' = (d ++ d2) ++ sdrop (ps_pos p2) (ps_prefix p2)) as Hgoal.
  { intros dr H1 H2 H3. exists (dr ++ d'). split; [by eapply io_app|]. split; [congruence|].
    rewrite <- app_assoc, H3, !app_assoc. by rewrite Hd. }
  destruct op as [room|buf| |]; cbn in E.
  - unfold prefixed_poll_read in E. destruct (Nat.ltb_spec (ps_pos p) (String.length (ps_prefix p))) as [Hlt|Hge].
    + injection E as <- <- <-. apply (Hgoal ""); [apply io_nil|done|]. cbn. rewrite app_nil_r.
      set (n := _ `min` room). rewrite <- (stake_sdrop n (sdrop (ps_pos p) (ps_prefix p))) at 1. f_equal.
      clear. revert n. generalize (ps_pos p) as i. induction (ps_prefix p) as [|c s IH]; intros [|i] n; [done|by destruct n|done|apply IH].
    + assert (forall i, String.length (ps_prefix p) <= i -> sdrop i (ps_prefix p) = "") as Hnil.
      { clear. induction (ps_prefix p) as [|c s IH]; intros [|i] Hi; cbn in *; try done; [lia|apply IH; lia]. }
      destruct (poll_read (ps_inner p) room) as [s [|[dr|e]]] eqn:Er; cbn in E; injection E as <- <- <-.
      * apply (Hgoal ""); [by eapply io_read_none|done|]. cbn. by rewrite Hnil.
      * apply (Hgoal dr); [by eapply io_read|done|]. cbn. by rewrite Hnil, app_nil_r.
      * apply (Hgoal ""); [by eapply io_read_none|done|]. cbn. by rewrite Hnil.
  - destruct (poll_write (ps_inner p) buf) as [s [|[k|e]]] eqn:Ew; cbn in E; injection E as <- <- <-;
      (apply (Hgoal ""); [|done|cbn; by rewrite app_nil_r]); [by eapply io_write_none|by eapply io_write|by eapply io_write_none].
  - injection E as <- <- <-. apply (Hgoal ""); [apply io_flush|done|cbn; by rewrite app_nil_r].
  - injection E as <- <- <-. apply (Hgoal ""); [apply io_shutdown|done|cbn; by rewrite app_nil_r].
Qed.

(** A [CountingStream] is its inner stream, and its counters hold, as 64-bit
    numbers, the bytes that went through it. *)
Theorem counting_exact {S} `{AsyncStream S, !StreamLaws S} (c c' : CountingStream S) (d w : string) :
  io_run c d w c' -> (0 <= bc_read (ct_counter c) < 2 ^ 64)%Z -> (0 <= bc_written (ct_counter c) < 2 ^ 64)%Z ->
  io_run (ct_inner c) d w (ct_inner c')
  /\ bc_read (ct_counter c') = wrap_u 64 (bc_read (ct_counter c) + Z.of_nat (String.length d))
  /\ bc_written (ct_counter c') = wrap_u 64 (bc_written (ct_counter c) + Z.of_nat (String.length w)).
Proof.
  induction 1 as [c|c op c1 d w d2 w2 c2 E _ IH]; intros Hr Hw.
  { split; [apply io_nil|]. cbn. rewrite !Z.add_0_r. unfold wrap_u. by rewrite !Z.mod_small. }
  assert (io_run (ct_inner c) d w (ct_inner c1)
    /\ bc_read (ct_counter c1) = wrap_u 64 (bc_read (ct_counter c) + Z.of_nat (String.length d))
    /\ bc_written (ct_counter c1) = wrap_u 64 (bc_written (ct_counter c) + Z.of_nat (String.length w))) as (H1 & H2 & H3).
  { clear IH. assert (forall z, (0 <= z < 2 ^ 64)%Z -> z = wrap_u 64 (z + Z.of_nat 0)) as Hz.
    { intros z Hz. unfold wrap_u. rewrite Z.add_0_r. by rewrite Z.mod_small. }
    assert (io_run (ct_inner c) "" "" (ct_inner c1) -> ct_counter c1 = ct_counter c -> d = "" -> w = "" ->
      io_run (ct_inner c) d w (ct_inner c1)
      /\ bc_read (ct_counter c1) = wrap_u 64 (bc_read (ct_counter c) + Z.of_nat (String.length d))
      /\ bc_written (ct_counter c1) = wrap_u 64 (bc_written (ct_counter c) + Z.of_nat (String.length w))) as Hnone.
    { intros Hrun -> -> ->. split; [done|]. split; by apply Hz. }
    destruct op as [room|buf| |]; cbn in E.
    - unfold counting_poll_read in E. destruct (poll_read (ct_inner c) room) as [s [|[dr|e]]] eqn:Er; injection E as <- <- <-.
      1,3: apply Hnone; [by eapply io_read_none|done..].
      split; [by eapply io_read|]. cbn [ct_counter]. destruct (Nat.ltb_spec 0 (String.length dr)) as [_|Hl].
      + split; [done|by apply Hz].
      + replace (String.length dr) with 0 by lia. split; by apply Hz.
    - unfold counting_poll_write in E. destruct (poll_write (ct_inner c) buf) as [s [|[k|e]]] eqn:Ew; injection E as <- <- <-.
      1,3: apply Hnone; [by eapply io_write_none|done..].
      split; [by eapply io_write|]. apply poll_write_fits in Ew. rewrite length_stake. replace (k `min` String.length buf) with k by lia.
      cbn [ct_counter]. destruct (Nat.ltb_spec 0 k) as [_|Hl].
      + split; [by apply Hz|done].
      + replace k with 0 by lia. split; by apply Hz.
    - injection E as <- <- <-. apply Hnone; [apply io_flush|done..].
    - injection E as <- <- <-. apply Hnone; [apply io_shutdown|done..]. }
  destruct IH as (I1 & I2 & I3); [rewrite H2; apply wrap_u_range; lia|rewrite H3; apply wrap_u_range; lia|].
  split; [by eapply io_app|]. rewrite I2, I3, H2, H3, !length_app_s. unfold wrap_u. rewrite !Z.add_mod_idemp_l by lia.
  split; f_equal; lia.
Qed.
