(* ===== verification/LimitedStream.v ===== *)
(** * Streams under a bandwidth limit

    [core/src/limit/stream.rs].  A [LimitedStream] pays a token for each byte: it
    tries for the tokens first and otherwise waits, holding the bytes it has read
    or copied.  The limiter is an interface, of which the token bucket of
    [Limit] is an instance; it is shared, so others may change it between polls. *)

From S2P Require Import Prelude RustStr Float64 Limit Streams.

Local Open Scope string_scope.

(** ** The limiter's interface *)

(** [W] is the state of a [wait_n] future; polled to its end it is gone. *)
Class Limiter (L W : Type) := {
  lim_burst : L -> Z;
  lim_try : L -> nat -> L * bool;
  lim_return : L -> nat -> L;
  lim_wait : nat -> W;
  lim_poll : L -> W -> L * option W }.

(** The bucket and the clock.  A wait is for at most a burst, so the turn that
    takes its tokens ends it; until then a poll finds it asleep. *)
Definition bucket_poll (l : BandwidthLimiter * BucketState * Z) (remaining : f64)
    : (BandwidthLimiter * BucketState * Z) * option f64 :=
  let '(lim, st, now) := l in
  match wait_step lim st remaining now with
  | SleepFor st _ => ((lim, st, now), Some remaining)
  | Taken st remaining => ((lim, st, now), if f_gt remaining f_epsilon then Some remaining else None)
  end.
#[global] Instance bucket_limiter : Limiter (BandwidthLimiter * BucketState * Z) f64 := {
  lim_burst l := limiter_burst l.1.1;
  lim_try l n := let '(lim, st, now) := l in let '(b, st) := try_wait_n lim st (Z.of_nat n) now in ((lim, st, now), b);
  lim_return l n := let '(lim, st, now) := l in (lim, return_n lim st (Z.of_nat n) now, now);
  lim_wait n := f_of_Z (Z.of_nat n);
  lim_poll := bucket_poll }.

(** ** The stream *)

Definition MAX_IO_CHUNK : Z := 256 * 1024.

Inductive ReadPhase (W : Type) :=
| RIdle
| RWait (data : string) (off : nat) (wait : W)
| RDeliver (data : string) (off : nat).
Arguments RIdle {W}.
Arguments RWait {W} data off wait.
Arguments RDeliver {W} data off.
Inductive WritePhase (W : Type) :=
| WIdle
| WWait (wait : W) (chunk : nat)
| WWrite (chunk written : nat).
Arguments WIdle {W}.
Arguments WWait {W} wait chunk.
Arguments WWrite {W} chunk written.

Record LimitedStream (S L W : Type) := MkLimited {
  ls_inner : S; ls_limiter : L; ls_read_phase : ReadPhase W; ls_write_pending : string; ls_write_report : nat;
  ls_write_phase : WritePhase W }.
Arguments MkLimited {S L W}.
Arguments ls_inner {S L W} l.
Arguments ls_limiter {S L W} l.
Arguments ls_read_phase {S L W} l.
Arguments ls_write_pending {S L W} l.
Arguments ls_write_report {S L W} l.
Arguments ls_write_phase {S L W} l.

Section Limited.
Context {S L W : Type} `{AsyncStream S} `{Limiter L W}.
Abbreviation LS := (LimitedStream S L W).

Definition limited_new (inner : S) (limiter : L) : LS := MkLimited inner limiter RIdle "" 0 WIdle.
Definition io_chunk_cap (l : L) : nat := Z.to_nat (Z.min (Z.max (lim_burst l) 1) MAX_IO_CHUNK).

Definition ls_set_inner (s : LS) (i : S) : LS :=
  MkLimited i (ls_limiter s) (ls_read_phase s) (ls_write_pending s) (ls_write_report s) (ls_write_phase s).
Definition ls_set_limiter (s : LS) (l : L) : LS :=
  MkLimited (ls_inner s) l (ls_read_phase s) (ls_write_pending s) (ls_write_report s) (ls_write_phase s).
Definition ls_set_read (s : LS) (p : ReadPhase W) : LS :=
  MkLimited (ls_inner s) (ls_limiter s) p (ls_write_pending s) (ls_write_report s) (ls_write_phase s).
Definition ls_set_write (s : LS) (pending : string) (report : nat) (p : WritePhase W) : LS :=
  MkLimited (ls_inner s) (ls_limiter s) (ls_read_phase s) pending report p.

(** The arms of [poll_read]'s loop, from the last to the first. *)
Definition deliver (s : LS) (data : string) (off room : nat) : LS * Poll (Anyhow string) :=
  let avail := sdrop off data in
  let n := String.length avail `min` room in
  let off := (off + n)%nat in
  (ls_set_read s (if (off <? String.length data)%nat then RDeliver data off else RIdle), Ready (Ok (stake n avail))).
Definition read_wait (s : LS) (data : string) (off : nat) (wait : W) (room : nat) : LS * Poll (Anyhow string) :=
  match lim_poll (ls_limiter s) wait with
  | (l, Some wait) => (ls_set_read (ls_set_limiter s l) (RWait data off wait), Pending)
  | (l, None) => deliver (ls_set_limiter s l) data off room
  end.
Definition read_paid (s : LS) (want : nat) : LS * Poll (Anyhow string) :=
  match poll_read (ls_inner s) want with
  | (i, Pending) => (ls_set_limiter (ls_set_inner s i) (lim_return (ls_limiter s) want), Pending)
  | (i, Ready (Err e)) => (ls_set_limiter (ls_set_inner s i) (lim_return (ls_limiter s) want), Ready (Err e))
  | (i, Ready (Ok d)) =>
      let n := String.length d in
      let l := if (n <? want)%nat then lim_return (ls_limiter s) (want - n) else ls_limiter s in
      (ls_set_limiter (ls_set_inner s i) l, Ready (Ok d))
  end.
Definition read_unpaid (s : LS) (want room : nat) : LS * Poll (Anyhow string) :=
  match poll_read (ls_inner s) want with
  | (i, Pending) => (ls_set_inner s i, Pending)
  | (i, Ready (Err e)) => (ls_set_inner s i, Ready (Err e))
  | (i, Ready (Ok d)) =>
      let n := String.length d in
      let s := ls_set_inner s i in
      if (n =? 0)%nat then (s, Ready (Ok "")) else
      match lim_try (ls_limiter s) n with
      | (l, true) => (ls_set_limiter s l, Ready (Ok d))
      | (l, false) => read_wait (ls_set_limiter s l) d 0 (lim_wait n) room
      end
  end.
Definition limited_poll_read (s : LS) (room : nat) : LS * Poll (Anyhow string) :=
  match ls_read_phase s with
  | RIdle =>
      let want := room `min` io_chunk_cap (ls_limiter s) in
      if (want =? 0)%nat then (s, Ready (Ok "")) else
      match lim_try (ls_limiter s) want with
      | (l, true) => read_paid (ls_set_limiter s l) want
      | (l, false) => read_unpaid (ls_set_limiter s l) want room
      end
  | RWait data off wait => read_wait (ls_set_read s RIdle) data off wait room
  | RDeliver data off => deliver (ls_set_read s RIdle) data off room
  end.

Definition is_w_idle (p : WritePhase W) : bool := match p with WIdle => true | _ => false end.

(** One turn of [poll_write]'s loop: the next state, or the result. *)
Definition write_turn (s : LS) : LS * option (Poll (Anyhow nat)) :=
  let pending := ls_write_pending s in
  match ls_write_phase s with
  | WIdle =>
      if is_empty pending then (ls_set_write s pending 0 WIdle, Some (Ready (Ok (ls_write_report s)))) else
      let chunk := String.length pending `min` io_chunk_cap (ls_limiter s) in
      match lim_try (ls_limiter s) chunk with
      | (l, true) => (ls_set_write (ls_set_limiter s l) pending (ls_write_report s) (WWrite chunk 0), None)
      | (l, false) => (ls_set_write (ls_set_limiter s l) pending (ls_write_report s) (WWait (lim_wait chunk) chunk), None)
      end
  | WWait wait chunk =>
      match lim_poll (ls_limiter s) wait with
      | (l, Some wait) => (ls_set_write (ls_set_limiter s l) pending (ls_write_report s) (WWait wait chunk), Some Pending)
      | (l, None) => (ls_set_write (ls_set_limiter s l) pending (ls_write_report s) (WWrite chunk 0), None)
      end
  | WWrite chunk written =>
      let chunk := chunk `min` String.length pending in
      if (chunk <=? written)%nat then (ls_set_write s (sdrop chunk pending) (ls_write_report s) WIdle, None) else
      match poll_write (ls_inner s) (stake (chunk - written) (sdrop written pending)) with
      | (i, Pending) => (ls_set_inner s i, Some Pending)
      | (i, Ready (Err e)) => (ls_set_write (ls_set_inner s i) "" 0 WIdle, Some (Ready (Err e)))
      | (i, Ready (Ok O)) => (ls_set_write (ls_set_inner s i) "" 0 WIdle, Some (Ready (Err "write zero in limited stream")))
      | (i, Ready (Ok n)) =>
          let written := (written + n)%nat in
          if (chunk <=? written)%nat
          then (ls_set_write (ls_set_inner s i) (sdrop chunk pending) (ls_write_report s) WIdle, None)
          else (ls_set_write (ls_set_inner s i) pending (ls_write_report s) (WWrite chunk written), None)
      end
  end.
Fixpoint write_loop (fuel : nat) (s : LS) : option (LS * Poll (Anyhow nat)) :=
  match fuel with
  | O => None
  | Datatypes.S fuel =>
      match write_turn s with
      | (s, Some r) => Some (s, r)
      | (s, None) => write_loop fuel s
      end
  end.
(** The turns that are enough: see [write_loop_spec]. *)
Definition write_measure (s : LS) : nat :=
  match ls_write_phase s with
  | WIdle => 3 * String.length (ls_write_pending s) + 2
  | WWait _ _ => 3 * String.length (ls_write_pending s) + 1
  | WWrite _ written => 3 * (String.length (ls_write_pending s) - written)
  end.
Definition write_accept (s : LS) (buf : string) : LS :=
  let take := String.length buf `min` io_chunk_cap (ls_limiter s) in
  ls_set_write s (stake take buf) take (ls_write_phase s).
Definition limited_poll_write (s : LS) (buf : string) : option (LS * Poll (Anyhow nat)) :=
  if is_w_idle (ls_write_phase s) && is_empty (ls_write_pending s) then
    if is_empty buf then Some (s, Ready (Ok 0)) else
    let s := write_accept s buf in write_loop (write_measure s + 1) s
  else write_loop (write_measure s + 1) s.

Definition write_busy (s : LS) : bool := negb (is_empty (ls_write_pending s)) || negb (is_w_idle (ls_write_phase s)).
(** The loop of [poll_flush] goes round at most once: see [write_loop_spec]. *)
Definition limited_poll_flush (s : LS) : option (LS * Poll (Anyhow unit)) :=
  let inner_flush s := (ls_set_inner s (poll_flush (ls_inner s)).1, (poll_flush (ls_inner s)).2) in
  if write_busy s then
    match limited_poll_write s "" with
    | None => None
    | Some (s, Pending) => Some (s, Pending)
    | Some (s, Ready (Err e)) => Some (s, Ready (Err e))
    | Some (s, Ready (Ok _)) => Some (inner_flush s)
    end
  else Some (inner_flush s).
Definition limited_poll_shutdown (s : LS) : option (LS * Poll (Anyhow unit)) :=
  match limited_poll_flush s with
  | None => None
  | Some (s, Pending) => Some (s, Pending)
  | Some (s, Ready (Err e)) => Some (s, Ready (Err e))
  | Some (s, Ready (Ok _)) => Some (ls_set_inner s (poll_shutdown (ls_inner s)).1, (poll_shutdown (ls_inner s)).2)
  end.
End Limited.

(** ** [maybe_limit] *)

(** A stream that is limited or not. *)
Definition maybe_limit {S L W} (stream : S) (limiter : option L) : S + LimitedStream S L W :=
  match limiter with Some l => inr (limited_new stream l) | None => inl stream end.

(** ** Lemmas: reading *)

Section ReadLemmas.
Context {S L W : Type} `{AsyncStream S} `{Limiter L W}.
Abbreviation LS := (LimitedStream S L W).

(** What has been read and not handed on. *)
Definition held_back (s : LS) : string :=
  match ls_read_phase s with RIdle => "" | RWait data off _ | RDeliver data off => sdrop off data end.
(** What a poll hands to the caller. *)
Definition got (r : Poll (Anyhow string)) : string := match r with Ready (Ok d) => d | _ => "" end.

Lemma sdrop_beyond n s : String.length s <= n -> sdrop n s = "".
Proof. revert n. induction s as [|c s IH]; intros [|n] Hn; cbn in *; try done; [lia|apply IH; lia]. Qed.

Lemma deliver_held (s : LS) data off room s' r :
  deliver s data off room = (s', r) ->
  ls_inner s' = ls_inner s /\ sdrop off data = got r ++ held_back s' /\ ls_write_phase s' = ls_write_phase s
  /\ ls_write_pending s' = ls_write_pending s /\ ls_write_report s' = ls_write_report s.
Proof.
  unfold deliver. intros [= <- <-]. split; [done|]. split; [|done]. unfold held_back. cbn [got ls_set_read ls_read_phase].
  rewrite <- (stake_sdrop (String.length (sdrop off data) `min` room) (sdrop off data)) at 1. f_equal. rewrite sdrop_sdrop.
  destruct (Nat.ltb_spec (off + String.length (sdrop off data) `min` room) (String.length data)); [done|].
  by apply sdrop_beyond.
Qed.
Lemma read_wait_held (s : LS) data off wait room s' r :
  read_wait s data off wait room = (s', r) ->
  ls_inner s' = ls_inner s /\ sdrop off data = got r ++ held_back s' /\ ls_write_phase s' = ls_write_phase s
  /\ ls_write_pending s' = ls_write_pending s /\ ls_write_report s' = ls_write_report s.
Proof.
  unfold read_wait. destruct (lim_poll _ _) as [l [wait'|]]; [by intros [= <- <-]|]. by intros ?%deliver_held.
Qed.

(** A poll to read: what the inner stream gave is handed on or held back, in
    order, and the writing side is left alone. *)
Lemma poll_read_held (s : LS) room s' r :
  limited_poll_read s room = (s', r) ->
  (exists d, io_run (ls_inner s) d "" (ls_inner s') /\ held_back s ++ d = got r ++ held_back s')
  /\ ls_write_phase s' = ls_write_phase s /\ ls_write_pending s' = ls_write_pending s /\ ls_write_report s' = ls_write_report s.
Proof.
  unfold limited_poll_read. destruct (ls_read_phase s) as [|data off wait|data off] eqn:E; unfold held_back at 1; rewrite E.
  - destruct (_ =? 0)%nat; [intros [= <- <-]; split; [exists ""; unfold held_back; rewrite E; eauto with io|done]|].
    destruct (lim_try _ _) as [l []].
    + unfold read_paid. cbn [ls_inner ls_set_limiter].
      destruct (poll_read (ls_inner s) _) as [i [|[d|e]]] eqn:Er; intros [= <- <-]; (split; [|done]);
        unfold held_back; cbn; rewrite E.
      * exists "". split; [by eapply io_read_none|done].
      * exists d. split; [by eapply io_read|by rewrite app_nil_r].
      * exists "". split; [by eapply io_read_none|done].
    + unfold read_unpaid. cbn [ls_inner ls_set_limiter].
      destruct (poll_read (ls_inner s) _) as [i [|[d|e]]] eqn:Er.
      * intros [= <- <-]. split; [|done]. unfold held_back. cbn. rewrite E. exists "". split; [by eapply io_read_none|done].
      * destruct (Nat.eqb_spec (String.length d) 0) as [Hd|Hd].
        { intros [= <- <-]. split; [|done]. unfold held_back. cbn. rewrite E. exists d. split; [by eapply io_read|]. by destruct d. }
        destruct (lim_try _ _) as [l' []].
        { intros [= <- <-]. split; [|done]. unfold held_back. cbn. rewrite E. exists d. split; [by eapply io_read|by rewrite app_nil_r]. }
        intros (Hi & Hh & Hw)%read_wait_held. split; [|done]. exists d. rewrite Hi. split; [by eapply io_read|done].
      * intros [= <- <-]. split; [|done]. unfold held_back. cbn. rewrite E. exists "". split; [by eapply io_read_none|done].
  - intros (Hi & Hh & Hw)%read_wait_held. split; [|done]. exists "". rewrite Hi, app_nil_r. eauto with io.
  - intros (Hi & Hh & Hw)%deliver_held. split; [|done]. exists "". rewrite Hi, app_nil_r. eauto with io.
Qed.

(** No more than there is room for. *)
Lemma limited_read_fits `{!StreamLaws S} (s : LS) room s' d :
  limited_poll_read s room = (s', Ready (Ok d)) -> String.length d <= room.
Proof.
  assert (forall (s s' : LS) data off, deliver s data off room = (s', Ready (Ok d)) -> String.length d <= room) as Hd.
  { intros s0 s1 data off. unfold deliver. intros [= _ <-]. rewrite length_stake. lia. }
  assert (forall (s s' : LS) data off w, read_wait s data off w room = (s', Ready (Ok d)) -> String.length d <= room) as Hw.
  { intros s0 s1 data off w. unfold read_wait. destruct (lim_poll _ _) as [l [wait'|]]; [done|apply Hd]. }
  unfold limited_poll_read. destruct (ls_read_phase s); [|by apply Hw|by apply Hd].
  destruct (_ =? 0)%nat; [intros [= _ <-]; cbn; lia|]. destruct (lim_try _ _) as [l []].
  - unfold read_paid. destruct (poll_read _ _) as [i [|[d'|e]]] eqn:Er; [done| |done]. intros [= _ <-].
    apply poll_read_fits in Er. lia.
  - unfold read_unpaid. destruct (poll_read _ _) as [i [|[d'|e]]] eqn:Er; [done| |done].
    destruct (_ =? 0)%nat; [intros [= _ <-]; cbn; lia|]. destruct (lim_try _ _) as [l' []]; [|apply Hw].
    intros [= _ <-]. apply poll_read_fits in Er. lia.
Qed.
End ReadLemmas.

(** ** Lemmas: writing *)

Section WriteLemmas.
Context {S L W : Type} `{AsyncStream S, !StreamLaws S} `{Limiter L W}.
Abbreviation LS := (LimitedStream S L W).

Definition write_wf (s : LS) : Prop :=
  match ls_write_phase s with
  | WIdle => True
  | WWait _ chunk => 1 <= chunk <= String.length (ls_write_pending s)
  | WWrite chunk written => written < chunk <= String.length (ls_write_pending s)
  end.
(** Nothing under way. *)
Definition at_rest (s : LS) : Prop := ls_write_phase s = WIdle /\ ls_write_pending s = "".
(** What was taken from the caller and not yet given to the inner stream. *)
Definition unsent (s : LS) : string :=
  match ls_write_phase s with WWrite _ written => sdrop written (ls_write_pending s) | _ => ls_write_pending s end.

Lemma cap_pos l : 1 <= io_chunk_cap (W := W) l.
Proof. unfold io_chunk_cap, MAX_IO_CHUNK. lia. Qed.

(** One turn: it makes progress, and what it gives the inner stream is the head of what was unsent. *)
Lemma write_turn_spec (s s' : LS) r :
  write_turn s = (s', r) -> write_wf s ->
  ls_read_phase s' = ls_read_phase s
  /\ exists w, io_run (ls_inner s) "" w (ls_inner s') /\
  match r with
  | None => write_wf s' /\ write_measure s' < write_measure s /\ w ++ unsent s' = unsent s /\ ls_write_report s' = ls_write_report s
  | Some Pending => write_wf s' /\ w ++ unsent s' = unsent s /\ ls_write_report s' = ls_write_report s /\ ls_write_phase s' <> WIdle
  | Some (Ready (Ok k)) => at_rest s' /\ w = unsent s /\ k = ls_write_report s
  | Some (Ready (Err _)) => at_rest s'
  end.
Proof.
  unfold write_turn, write_wf, unsent, at_rest, write_measure. destruct (ls_write_phase s) as [|wait chunk|chunk written] eqn:E.
  - destruct (is_empty (ls_write_pending s)) eqn:Ee.
    + apply is_empty_true in Ee. intros [= <- <-] _. cbn. split; [done|]. exists "". rewrite Ee. eauto with io.
    + apply is_empty_false in Ee. assert (1 <= String.length (ls_write_pending s)) as Hl by (destruct (ls_write_pending s); cbn; [done|lia]).
      pose proof (cap_pos (ls_limiter s)). destruct (lim_try _ _) as [l []]; intros [= <- <-] _; cbn; (split; [done|]); exists "";
        (split; [apply io_nil|]); (split; [lia|]); (split; [lia|done]).
  - destruct (lim_poll _ _) as [l [wait'|]]; intros [= <- <-] Hwf; cbn; (split; [done|]); exists ""; (split; [apply io_nil|]);
      (split; [lia|]); [done|]. split; [lia|done].
  - intros Hr Hwf. replace (chunk `min` String.length (ls_write_pending s)) with chunk in Hr by lia.
    destruct (Nat.leb_spec chunk written); [lia|].
    destruct (poll_write (ls_inner s) _) as [i [|[[|n]|e]]] eqn:Ew; [injection Hr as <- <-|injection Hr as <- <-| |injection Hr as <- <-].
    + cbn. rewrite E. split; [done|]. exists "". split; [by eapply io_write_none|]. done.
    + cbn. split; [done|]. exists "". split; [|done]. rewrite <- (app_nil_r ""). eapply io_cons; [|apply io_nil]. instantiate (1 := OpWrite _).
      cbn. rewrite Ew. done.
    + pose proof (poll_write_fits _ _ _ _ Ew) as Hfit. rewrite length_stake, length_sdrop in Hfit. apply io_write in Ew.
      assert (stake (Datatypes.S n) (stake (chunk - written) (sdrop written (ls_write_pending s)))
              = stake (Datatypes.S n) (sdrop written (ls_write_pending s))) as Es.
      { rewrite <- (stake_sdrop (chunk - written) (sdrop written (ls_write_pending s))) at 2.
        rewrite stake_app_le; [done|]. rewrite length_stake, length_sdrop. lia. }
      rewrite Es in Ew.
      destruct (Nat.leb_spec chunk (written + Datatypes.S n)) as [Hc|Hc]; injection Hr as <- <-; cbn; (split; [done|]);
        exists (stake (Datatypes.S n) (sdrop written (ls_write_pending s))); (split; [done|]).
      * split; [done|]. rewrite length_sdrop. split; [lia|]. split; [|done].
        replace chunk with (written + Datatypes.S n) by lia. by rewrite <- sdrop_sdrop, stake_sdrop.
      * split; [lia|]. split; [lia|]. split; [|done]. by rewrite <- sdrop_sdrop, stake_sdrop.
    + cbn. split; [done|]. exists "". split; [by eapply io_write_none|]. done.
Qed.

(** The loop ends within the turns it is given. *)
Lemma write_loop_spec fuel : forall s : LS,
  write_wf s -> write_measure s < fuel ->
  exists s' r, write_loop fuel s = Some (s', r) /\ ls_read_phase s' = ls_read_phase s
  /\ exists w, io_run (ls_inner s) "" w (ls_inner s') /\
  match r with
  | Pending => write_wf s' /\ w ++ unsent s' = unsent s /\ ls_write_report s' = ls_write_report s /\ ls_write_phase s' <> WIdle
  | Ready (Ok k) => at_rest s' /\ w = unsent s /\ k = ls_write_report s
  | Ready (Err _) => at_rest s'
  end.
Proof.
  induction fuel as [|fuel IH]; intros s Hwf Hm; [lia|]. cbn [write_loop].
  destruct (write_turn s) as [s1 o] eqn:E. destruct (write_turn_spec s s1 o E Hwf) as (Hread & w & Hrun & Ho).
  destruct o as [r|]; [by exists s1, r; split; [|split; [|exists w]]|].
  destruct Ho as (Hwf1 & Hm1 & Hu & Hrep). destruct (IH s1 Hwf1) as (s' & r & El & Hread' & w' & Hrun' & Hr); [lia|].
  exists s', r. split; [done|]. split; [congruence|]. exists (w ++ w'). split; [by apply (io_app _ "" _ s1.(ls_inner) "" _)|].
  rewrite <- Hu. destruct r as [|[k|e]].
  - destruct Hr as (H1 & H2 & H3 & H4). split; [done|]. split; [by rewrite app_assoc, H2|]. split; [congruence|done].
  - destruct Hr as (H1 & -> & ->). done.
  - done.
Qed.
End WriteLemmas.

(** ** Properties *)

Section Uses.
Context {S L W : Type} `{AsyncStream S, !StreamLaws S} `{Limiter L W}.
Abbreviation LS := (LimitedStream S L W).

(** A poll to write always returns, in one of the ways [write_loop_spec] lists. *)
Lemma poll_write_spec (s : LS) buf :
  write_wf s ->
  exists s' r, limited_poll_write s buf = Some (s', r) /\ ls_read_phase s' = ls_read_phase s
  /\ exists w, io_run (ls_inner s) "" w (ls_inner s') /\
  let start := if is_w_idle (ls_write_phase s) && is_empty (ls_write_pending s)
               then (if is_empty buf then s else write_accept s buf) else s in
  match r with
  | Pending => write_wf s' /\ w ++ unsent s' = unsent start /\ ls_write_report s' = ls_write_report start
  | Ready (Ok k) => (at_rest s' \/ s' = s) /\ w = unsent start
      /\ k = if is_w_idle (ls_write_phase s) && is_empty (ls_write_pending s) && is_empty buf then 0 else ls_write_report start
  | Ready (Err _) => at_rest s'
  end.
Proof using StreamLaws0.
  intros Hwf. unfold limited_poll_write.
  destruct (is_w_idle (ls_write_phase s) && is_empty (ls_write_pending s)) eqn:Er.
  - apply andb_true_iff in Er as [Ep Ee]. apply is_empty_true in Ee. destruct (is_empty buf) eqn:Eb.
    + exists s, (Ready (Ok 0)). split; [done|]. split; [done|]. exists "". split; [apply io_nil|]. cbn. split; [by right|].
      split; [|done]. unfold unsent. rewrite Ee. by destruct (ls_write_phase s).
    + destruct (write_loop_spec (write_measure (write_accept s buf) + 1) (write_accept s buf)) as (s' & r & El & Hp & w & Hrun & Hr);
        [unfold write_wf; cbn; by destruct (ls_write_phase s)|lia|].
      exists s', r. split; [done|]. split; [done|]. exists w. split; [done|]. cbn zeta. destruct r as [|[k|e]]; [|naive_solver|done].
      destruct Hr as (H1 & H2 & H3 & _). done.
  - destruct (write_loop_spec (write_measure s + 1) s) as (s' & r & El & Hp & w & Hrun & Hr); [done|lia|].
    exists s', r. split; [done|]. split; [done|]. exists w. split; [done|]. cbn zeta. destruct r as [|[k|e]]; [|naive_solver|done].
    destruct Hr as (H1 & H2 & H3 & _). done.
Qed.

(** Any use of the stream; [limited_use s d s']: the reads handed [d] to the caller. *)
Inductive limited_use : LS -> string -> LS -> Prop :=
| lu_nil s : limited_use s "" s
| lu_read s room s1 r d s' :
    limited_poll_read s room = (s1, r) -> limited_use s1 d s' -> limited_use s (got r ++ d) s'
| lu_write s buf s1 r d s' : limited_poll_write s buf = Some (s1, r) -> limited_use s1 d s' -> limited_use s d s'
| lu_others s l d s' : limited_use (ls_set_limiter s l) d s' -> limited_use s d s'.

(** Reading under a limit loses, repeats and reorders nothing: what the stream held
    back and what its inner stream gave is what the caller got and what is held
    back still. *)
Theorem limited_reads_exact (s s' : LS) (d : string) :
  limited_use s d s' -> write_wf s ->
  exists di w, io_run (ls_inner s) di w (ls_inner s') /\ held_back s ++ di = d ++ held_back s'.
Proof using StreamLaws0.
  induction 1 as [s|s room s1 r d s' E _ IH|s buf s1 r d s' E _ IH|s l d s' _ IH]; intros Hwf.
  - exists "", "". rewrite app_nil_r. split; [apply io_nil|done].
  - destruct (poll_read_held s room s1 r E) as ((d1 & Hr & Hh) & Hp & Hpe & _). destruct IH as (d2 & w & Hr2 & Hh2).
    { unfold write_wf. by rewrite Hp, Hpe. }
    exists (d1 ++ d2), ("" ++ w). split; [by eapply io_app|]. by rewrite <- app_assoc, Hh, !app_assoc, Hh2.
  - destruct (poll_write_spec s buf Hwf) as (s2 & r2 & E2 & Hp & w & Hr & Hc). rewrite E in E2. injection E2 as <- <-.
    assert (write_wf s1) as Hwf1.
    { unfold write_wf in *. destruct r as [|[k|e]]; [by destruct Hc| |by destruct Hc as [-> _]].
      destruct Hc as [[[-> _]| ->] _]; done. }
    destruct (IH Hwf1) as (d2 & w2 & Hr2 & Hh2). exists ("" ++ d2), (w ++ w2). split; [by eapply io_app|].
    unfold held_back in *. rewrite <- Hp. exact Hh2.
  - apply (IH Hwf).
Qed.

(** A caller that offers the same buffer until the stream takes some of it, while
    the other half of its task reads. *)
Inductive offering (buf : string) : LS -> LS -> nat -> Prop :=
| of_done s s' k : limited_poll_write s buf = Some (s', Ready (Ok k)) -> offering buf s s' k
| of_pending s s1 s' k : limited_poll_write s buf = Some (s1, Pending) -> offering buf s1 s' k -> offering buf s s' k
| of_read s room s1 r s' k : limited_poll_read s room = (s1, r) -> offering buf s1 s' k -> offering buf s s' k
| of_others s l s' k : offering buf (ls_set_limiter s l) s' k -> offering buf s s' k.

Lemma pending_busy (s : LS) buf s1 :
  write_wf s -> limited_poll_write s buf = Some (s1, Pending) -> write_busy s1 = true /\ write_wf s1.
Proof using StreamLaws0.
  intros Hwf E. split.
  - assert (forall s0 : LS, write_wf s0 -> write_loop (write_measure s0 + 1) s0 = Some (s1, Pending) ->
      write_busy s1 = true) as Hp1.
    { intros s0 Hs0 El. destruct (write_loop_spec (write_measure s0 + 1) s0 Hs0) as (s3 & r3 & E3 & _ & w3 & _ & H3); [lia|].
      rewrite El in E3. injection E3 as <- <-. destruct H3 as (_ & _ & _ & H3). unfold write_busy.
      destruct (ls_write_phase s1); [done|apply orb_true_r..]. }
    unfold limited_poll_write in E. destruct (_ && _) eqn:Er; [|by apply (Hp1 s)].
    destruct (is_empty buf); [done|]. apply (Hp1 (write_accept s buf)); [|done].
    apply andb_true_iff in Er as [Er _]. unfold write_wf. cbn. by destruct (ls_write_phase s).
  - destruct (poll_write_spec s buf Hwf) as (s4 & r4 & E4 & _ & w4 & _ & H4). rewrite E in E4. injection E4 as <- <-. by destruct H4.
Qed.

Lemma offering_spec buf (s s' : LS) k :
  offering buf s s' k -> buf <> "" -> write_wf s ->
  (at_rest s -> 1 <= k <= String.length buf /\ at_rest s' /\ exists d, io_run (ls_inner s) d (stake k buf) (ls_inner s'))
  /\ (write_busy s = true -> k = ls_write_report s /\ at_rest s' /\ exists d, io_run (ls_inner s) d (unsent s) (ls_inner s')).
Proof using StreamLaws0.
  intros Ho Hb. apply is_empty_false in Hb as Hbe.
  assert (forall s : LS, at_rest s -> is_w_idle (ls_write_phase s) && is_empty (ls_write_pending s) = true) as Hidle.
  { by intros s0 [-> ->]. }
  assert (forall s : LS, write_busy s = true -> is_w_idle (ls_write_phase s) && is_empty (ls_write_pending s) = false) as Hbusy.
  { intros s0. unfold write_busy. rewrite <- negb_andb, andb_comm. intros Hn. by apply negb_true_iff in Hn. }
  assert (forall s : LS, at_rest s -> unsent (write_accept s buf) = stake (ls_write_report (write_accept s buf)) buf
    /\ 1 <= ls_write_report (write_accept s buf) <= String.length buf) as Hacc.
  { intros s0 [Hp _]. unfold unsent, write_accept. cbn. rewrite Hp. split; [done|].
    pose proof (cap_pos (ls_limiter s0)). destruct buf as [|c b]; [done|]. cbn [String.length]. lia. }
  induction Ho as [s s' k E|s s1 s' k E _ IH|s room s1 r s' k E _ IH|s l s' k _ IH]; intros Hwf.
  - destruct (poll_write_spec s buf Hwf) as (s2 & r2 & E2 & Hp & w & Hr & Hc). rewrite E in E2. injection E2 as <- <-.
    destruct Hc as (Hrest & Hw & Hk). rewrite Hbe, andb_false_r in Hk. split.
    + intros Hs. rewrite (Hidle s Hs) in Hw, Hk. rewrite Hbe in Hw. destruct (Hacc s Hs) as [Hu Hlen]. rewrite <- Hk in Hlen. rewrite Hu, <- Hk in Hw.
      split; [done|]. split; [by destruct Hrest as [?| ->]|]. exists "". by rewrite <- Hw.
    + intros Hs. rewrite (Hbusy s Hs) in Hw, Hk. split; [done|]. rewrite <- Hw. split; [|by exists ""].
      destruct Hrest as [?| ->]; [done|]. exfalso.
      assert (write_loop (write_measure s + 1) s = Some (s, Ready (Ok k))) as El.
      { unfold limited_poll_write in E. by rewrite (Hbusy s Hs) in E. }
      destruct (write_loop_spec (write_measure s + 1) s Hwf) as (s3 & r3 & E3 & _ & w3 & _ & H3); [lia|].
      rewrite El in E3. injection E3 as <- <-. destruct H3 as [H3 _]. apply Hidle in H3. by rewrite (Hbusy s Hs) in H3.
  - destruct (poll_write_spec s buf Hwf) as (s2 & r2 & E2 & Hp & w & Hr & Hc). rewrite E in E2. injection E2 as <- <-.
    destruct Hc as (Hwf1 & Hu & Hrep). destruct (IH Hwf1) as [_ IH2].
    destruct (pending_busy s buf s1 Hwf E) as [Hb1 _].
    destruct (IH2 Hb1) as (-> & Hrest & d & Hr2). split.
    + intros Hs. rewrite (Hidle s Hs), Hbe in Hu, Hrep. destruct (Hacc s Hs) as [Hua Hlen]. rewrite Hrep. split; [done|]. split; [done|].
      exists ("" ++ d). rewrite <- Hua, <- Hu. by eapply io_app.
    + intros Hs. rewrite (Hbusy s Hs) in Hu, Hrep. split; [done|]. split; [done|]. exists ("" ++ d). rewrite <- Hu. by eapply io_app.
  - destruct (poll_read_held s room s1 r E) as ((d1 & Hr & _) & Hp & Hpe & Hrep).
    assert (write_wf s1) as Hwf1 by (unfold write_wf; by rewrite Hp, Hpe). destruct (IH Hwf1) as [IH1 IH2]. split.
    + intros Hs. destruct IH1 as (H1 & H2 & d & H3); [unfold at_rest; by rewrite Hp, Hpe|]. split; [done|]. split; [done|].
      exists (d1 ++ d). by apply (io_app _ d1 "" (ls_inner s1) d).
    + intros Hs. destruct IH2 as (H1 & H2 & d & H3); [unfold write_busy; by rewrite Hp, Hpe|]. rewrite H1, Hrep. split; [done|].
      split; [done|]. exists (d1 ++ d). assert (unsent s1 = unsent s) as Eu by (unfold unsent; by rewrite Hp, Hpe).
      rewrite <- Eu. by apply (io_app _ d1 "" (ls_inner s1) d).
  - by apply IH.
Qed.
(** C37: Writing under a limit loses, repeats and reorders nothing: a caller that
    offers the same buffer until the stream takes some of it, however often it
    has to wait, for tokens or for the inner stream, and whatever is read and
    whoever else uses the limiter meanwhile, is told how much was taken, at least
    a byte and no more than it offered, and exactly that much of its buffer has
    then gone to the inner stream. *)
Theorem limited_write_retried (buf : string) (s s' : LS) (k : nat) :
  at_rest s -> buf <> "" -> offering buf s s' k ->
  1 <= k <= String.length buf /\ at_rest s' /\ exists d, io_run (ls_inner s) d (stake k buf) (ls_inner s').
Proof using StreamLaws0.
  intros Hs Hb Ho. assert (write_wf s) as Hwf by (unfold write_wf; by rewrite (proj1 Hs)).
  by apply (offering_spec buf s s' k Ho Hb Hwf).
Qed.

(** A flush that completes a write whose taker has not been told of it forgets
    that it was taken: offered again, the same bytes are sent again. *)
Lemma limited_flush_resends (buf : string) (s s1 s2 s3 : LS) (k : nat) (u : unit) :
  at_rest s -> buf <> "" -> limited_poll_write s buf = Some (s1, Pending) ->
  limited_poll_flush s1 = Some (s2, Ready (Ok u)) -> offering buf s2 s3 k ->
  exists r d, 1 <= r /\ io_run (ls_inner s) d (stake r buf ++ stake k buf) (ls_inner s3).
Proof using StreamLaws0.
  intros Hs Hb Hw Hf Ho. assert (write_wf s) as Hwf by (unfold write_wf; by rewrite (proj1 Hs)).
  destruct (pending_busy s buf s1 Hwf Hw) as [Eb Hwf1]. unfold limited_poll_flush in Hf. rewrite Eb in Hf.
  destruct (limited_poll_write s1 "") as [[s2' [|[n|e]]]|] eqn:E2; try done. injection Hf as <- Hfl.
  assert (offering buf s s2' (ls_write_report s1)) as Hoff.
  { eapply of_pending; [exact Hw|]. apply of_done.
    unfold limited_poll_write in *. unfold write_busy in Eb. rewrite <- negb_andb, andb_comm in Eb. apply negb_true_iff in Eb.
    rewrite Eb in *. rewrite E2. do 3 f_equal.
    destruct (write_loop_spec (write_measure s1 + 1) s1 Hwf1) as (s4 & r4 & E4 & _ & w4 & _ & H4); [lia|].
    rewrite E2 in E4. injection E4 as <- <-. by destruct H4 as (_ & _ & ->). }
  destruct (offering_spec buf s s2' _ Hoff Hb Hwf) as [H1 _]. destruct (H1 Hs) as (Hk1 & Hs2 & d1 & H3).
  assert (at_rest (ls_set_inner s2' (poll_flush (ls_inner s2')).1)) as Hs2f by done.
  destruct (offering_spec buf _ s3 k Ho Hb) as [H4 _]; [unfold write_wf; by rewrite (proj1 Hs2f)|].
  destruct (H4 Hs2f) as (_ & _ & d2 & H5). exists (ls_write_report s1), (d1 ++ ("" ++ d2)). split; [lia|].
  apply (io_app _ d1 (stake (ls_write_report s1) buf) (ls_inner s2')); [done|].
  by apply (io_app _ "" "" (poll_flush (ls_inner s2')).1); [apply io_flush|].
Qed.
End Uses.

(** *** Witnesses *)

(** A stream that yields and takes what its script says; [None] is not ready. *)
Record Script := MkScript { sc_in : list (option string); sc_takes : list (option nat); sc_out : string }.
Definition script_read (s : Script) (room : nat) : Script * Poll (Anyhow string) :=
  match sc_in s with
  | [] => (s, Ready (Ok ""))
  | None :: l => (MkScript l (sc_takes s) (sc_out s), Pending)
  | Some d :: l => (MkScript (if (String.length d <=? room)%nat then l else Some (sdrop room d) :: l) (sc_takes s) (sc_out s),
                    Ready (Ok (stake room d)))
  end.
Definition script_write (s : Script) (buf : string) : Script * Poll (Anyhow nat) :=
  match sc_takes s with
  | [] => (s, Ready (Err "broken pipe"))
  | None :: l => (MkScript (sc_in s) l (sc_out s), Pending)
  | Some n :: l => let n := n `min` String.length buf in (MkScript (sc_in s) l (sc_out s +:+ stake n buf), Ready (Ok n))
  end.
#[global] Instance script_stream : AsyncStream Script := {
  poll_read := script_read; poll_write := script_write;
  poll_flush s := (s, Ready (Ok tt)); poll_shutdown s := (s, Ready (Ok tt)) }.
#[global] Instance script_laws : StreamLaws Script.
Proof.
  split; cbn.
  - intros [i t o] n s' d. unfold script_read. cbn. destruct i as [|[d'|] i]; intros [= _ <-]; [cbn; lia|].
    rewrite length_stake. lia.
  - intros [i t o] buf s' k. unfold script_write. cbn. destruct t as [|[n|] t]; intros [= _ <-]. lia.
Qed.

(** Four bytes a second, of which none is left. *)
Definition ex_bucket : BandwidthLimiter * BucketState * Z := ((limiter_new 4 0).1, MkBucket (f_of_Z 0) 0, 0%Z).
Definition ex_limited : LimitedStream Script (BandwidthLimiter * BucketState * Z) f64 :=
  limited_new (MkScript [Some "pong"] [Some 3; None; Some 3] "") ex_bucket.
Definition ex_later (s : LimitedStream Script (BandwidthLimiter * BucketState * Z) f64) (now : Z)
    : LimitedStream Script (BandwidthLimiter * BucketState * Z) f64 := ls_set_limiter s ((ls_limiter s).1, now).
Definition ex_poll (s : LimitedStream Script (BandwidthLimiter * BucketState * Z) f64)
    : LimitedStream Script (BandwidthLimiter * BucketState * Z) f64 :=
  match limited_poll_write s "ping!" with Some (s, _) => s | None => s end.
(** Waiting for tokens while the other half reads, then for the inner stream, then done. *)
Definition ex_waiting := ex_poll ex_limited.
Definition ex_read := (limited_poll_read ex_waiting 10).1.
Definition ex_paid := ex_later ex_read 1000000000.
Definition ex_blocked := ex_poll ex_paid.
Definition ex_sent := ex_poll ex_blocked.

Lemma limited_write_retried_witness :
  limited_poll_write ex_blocked "ping!" = Some (ex_sent, Ready (Ok 4))
  /\ exists d, io_run (ls_inner ex_limited) d "ping" (ls_inner ex_sent).
Proof.
  assert (limited_poll_write ex_blocked "ping!" = Some (ex_sent, Ready (Ok 4))) as Hs by (vm_compute; reflexivity).
  split; [exact Hs|].
  destruct (limited_write_retried "ping!" ex_limited ex_sent 4) as (_ & _ & H); [| | |exact H].
  - split; reflexivity.
  - discriminate.
  - apply (of_pending _ _ ex_waiting); [vm_compute; reflexivity|].
    apply (of_read _ _ 10 ex_read (limited_poll_read ex_waiting 10).2); [vm_compute; reflexivity|].
    apply (of_others _ _ ((ls_limiter ex_read).1, 1000000000%Z)).
    apply (of_pending _ _ ex_blocked); [vm_compute; reflexivity|].
    apply of_done. exact Hs.
Defined.

Lemma limited_reads_exact_witness :
  exists di w, io_run (ls_inner ex_limited) di w (ls_inner ex_read) /\ di = held_back ex_read.
Proof.
  destruct (limited_reads_exact ex_limited ex_read ("" ++ "")) as (di & w & H & E).
  - apply (lu_write _ "ping!" ex_waiting Pending); [vm_compute; reflexivity|].
    apply (lu_read ex_waiting 10 ex_read Pending); [vm_compute; reflexivity|]. apply lu_nil.
  - exact I.
  - exists di, w. split; [exact H|]. exact E.
Defined.

(** The count reported need not be of the buffer last offered: four bytes of "a". *)
Lemma limited_write_other_buffer :
  limited_poll_write ex_blocked "a" = Some (ex_sent, Ready (Ok 4)) /\ (String.length "a" < 4)%nat.
Proof. split; [vm_compute; reflexivity|cbn; lia]. Qed.
