(* ===== verification/UdpForward.v ===== *)
(** * Datagrams through a tunnel

    [core/src/udp/mod.rs], with the readers of [client/src/tunnel/udp.rs] and
    [server/src/tunnel/udp.rs].  The server names the user a datagram came from;
    the client keeps a socket for each user it has heard of, so that the local
    service can tell them apart, and a task per socket that carries the answers
    back.  The tasks' steps, and whether a socket call or a channel succeeds, are
    arguments. *)

From S2P Require Import Prelude RustStr Float64 Registry Msg Net ProxyProtocol.

Local Open Scope string_scope.

Definition CHANNEL_CAP : Z := 1024.
(** In seconds. *)
Definition CLIENT_IDLE : Z := 30.
Definition SERVER_DATA_READ_DEADLINE : Z := 60.

(** ** The server's socket: [forward_user_conn] *)

(** What a datagram from a user becomes. *)
Definition from_user (content : string) (remote : SocketAddr) : UdpPacket := udp_packet_new content (Some remote).
(** What is sent to a user: the content and the address, or nothing. *)
Definition to_user (pkt : UdpPacket) : option (string * SocketAddr) :=
  match up_remote_addr pkt with
  | Some a => match to_std a with Some remote => Some (up_content pkt, remote) | None => None end
  | None => None
  end.

(** ** The client's sockets: [forwarder] *)

(** [uf_map]: the socket of each user; [uf_readers]: the tasks, by their socket,
    with the user they answer to and when they last did; [uf_opened]: the user
    each socket was ever opened for; [uf_sent]: what went to the local service,
    and whether its flow was new; [uf_out]: the answers sent to the server. *)
Record Forwarder := MkForwarder {
  uf_map : gmap SocketAddr Z; uf_readers : gmap Z (SocketAddr * Z); uf_opened : gmap Z SocketAddr; uf_next : Z;
  uf_sent : list (Z * bool * string); uf_out : list (Z * UdpPacket) }.
Definition forwarder_new : Forwarder := MkForwarder ∅ ∅ ∅ 0 [] [].

Definition uf_set_map (f : Forwarder) (m : gmap SocketAddr Z) : Forwarder :=
  MkForwarder m (uf_readers f) (uf_opened f) (uf_next f) (uf_sent f) (uf_out f).
Definition uf_set_readers (f : Forwarder) (r : gmap Z (SocketAddr * Z)) : Forwarder :=
  MkForwarder (uf_map f) r (uf_opened f) (uf_next f) (uf_sent f) (uf_out f).
Definition uf_log (f : Forwarder) (sock : Z) (is_new : bool) (payload : string) : Forwarder :=
  MkForwarder (uf_map f) (uf_readers f) (uf_opened f) (uf_next f) (uf_sent f ++ [(sock, is_new, payload)])%list (uf_out f).
Definition uf_answer (f : Forwarder) (sock : Z) (pkt : UdpPacket) : Forwarder :=
  MkForwarder (uf_map f) (uf_readers f) (uf_opened f) (uf_next f) (uf_sent f) (uf_out f ++ [(sock, pkt)])%list.
Definition uf_open (f : Forwarder) (remote : SocketAddr) : Forwarder :=
  MkForwarder (<[remote := uf_next f]> (uf_map f)) (uf_readers f) (<[uf_next f := remote]> (uf_opened f)) (uf_next f + 1)
    (uf_sent f) (uf_out f).

Definition pp_version (proxy_protocol_version : option string) : option string :=
  match proxy_protocol_version with
  | Some v => let v := trim v in if is_empty v then None else Some v
  | None => None
  end.

Section Forwarder.
Context (local_addr : SocketAddr) (proxy_protocol_version : option string).

Definition first_payload (remote : SocketAddr) (content : string) : string :=
  match pp_version proxy_protocol_version with
  | Some ver => match build_proxy_protocol_header remote local_addr ver with Ok hdr => hdr ++ content | Err _ => content end
  | None => content
  end.

(** A packet from the server; [bind], [connect] and [send]: the socket's calls. *)
Definition forward_packet (f : Forwarder) (pkt : UdpPacket) (bind connect send : Anyhow unit) (now : Z) : Forwarder :=
  match up_remote_addr pkt ≫= to_std with
  | None => f
  | Some remote =>
      let use f sock is_new :=
        let payload := if is_new : bool then first_payload remote (up_content pkt) else up_content pkt in
        match send with
        | Err _ => uf_set_map f (delete remote (uf_map f))
        | Ok _ =>
            let f := uf_log f sock is_new payload in
            if is_new then uf_set_readers f (<[sock := (remote, now)]> (uf_readers f)) else f
        end in
      match uf_map f !! remote with
      | Some sock => use f sock false
      | None =>
          match bind, connect with
          | Ok _, Ok _ => use (uf_open f remote) (uf_next f) true
          | _, _ => f
          end
      end
  end.

(** A turn of [writer_fn]: what its socket gave before the idle time ran out, if
    anything, and whether the channel took it. *)
Definition writer_end (f : Forwarder) (sock : Z) (remote : SocketAddr) : Forwarder :=
  uf_set_map (uf_set_readers f (delete sock (uf_readers f))) (delete remote (uf_map f)).
Definition writer_turn (f : Forwarder) (sock : Z) (now : Z) (received : option string) (sent : bool) (after : Z) : Forwarder :=
  match uf_readers f !! sock with
  | None => f
  | Some (remote, last_activity) =>
      if (CLIENT_IDLE - (now - last_activity) <=? 0)%Z then writer_end f sock remote else
      match received with
      | None => writer_end f sock remote
      | Some d =>
          if sent
          then uf_answer (uf_set_readers f (<[sock := (remote, after)]> (uf_readers f))) sock
                 (MkUdpPacket d None (Some (from_std remote)))
          else writer_end f sock remote
      end
  end.
(** The server's channel has closed. *)
Definition forwarder_end (f : Forwarder) : Forwarder := uf_set_map f ∅.

Inductive ForwardOp :=
| FoPacket (pkt : UdpPacket) (bind connect send : Anyhow unit) (now : Z)
| FoReader (sock now : Z) (received : option string) (sent : bool) (after : Z).
Definition forward_op (f : Forwarder) (op : ForwardOp) : Forwarder :=
  match op with
  | FoPacket pkt bind connect send now => forward_packet f pkt bind connect send now
  | FoReader sock now received sent after => writer_turn f sock now received sent after
  end.
Definition forward_run (ops : list ForwardOp) : Forwarder := fold_left forward_op ops forwarder_new.
End Forwarder.

(** ** The readers of the data connection *)

(** What the client's and the server's [data_reader] do with a message: the packet
    to hand on, whether to go on; the server also counts the bytes. *)
Inductive DataRead := DrMessage (m : Message) | DrError | DrDeadline.
Definition client_data_reader (r : DataRead) : option UdpPacket * bool :=
  match r with DrMessage (MUdpPacket pkt) => (Some pkt, true) | DrMessage _ => (None, true) | _ => (None, false) end.
Definition server_data_reader (r : DataRead) : option (UdpPacket * Z) * bool :=
  match r with
  | DrMessage (MUdpPacket pkt) => (Some (pkt, Z.of_nat (String.length (up_content pkt))), true)
  | DrMessage _ => (None, true)
  | _ => (None, false)
  end.

(** [spawn_data_ping]: what sending each ping to the data connection's channel came to, every
    thirty seconds: how many were sent, and whether the task still ticks. *)
Definition DATA_PING_INTERVAL : Z := 30.
Inductive TrySend := TrySent | TryFull | TryClosed.
Fixpoint data_ping (ticks : list TrySend) : nat * bool :=
  match ticks with
  | [] => (0, true)
  | TrySent :: ticks => let '(n, on) := data_ping ticks in (S n, on)
  | _ :: _ => (0, false)
  end.

(** ** Lemmas *)

Local Open Scope list_scope.

(** A channel that is full for one tick ends the pings for good; a data connection that is
    then idle is given up by the server at its deadline, though both ends live. *)
Lemma full_channel_ends_pings n rest :
  data_ping (replicate n TrySent ++ TryFull :: rest) = (n, false)
  /\ server_data_reader DrDeadline = (None, false) /\ (DATA_PING_INTERVAL < SERVER_DATA_READ_DEADLINE)%Z.
Proof. split; [|done]. induction n as [|n IH]; [done|]. cbn [replicate app data_ping]. by rewrite IH. Qed.

Section Lemmas.
Context (local_addr : SocketAddr) (version : option string).
Abbreviation step := (forward_op local_addr version).
Abbreviation first := (first_payload local_addr version).

(** A packet the server made of a datagram. *)
Definition from_server (pkt : UdpPacket) : Prop := exists c r, socket_addr_wf r /\ pkt = from_user c r.
Definition op_packet (op : ForwardOp) : option UdpPacket := match op with FoPacket pkt _ _ _ _ => Some pkt | _ => None end.
Definition op_ok (op : ForwardOp) : Prop := match op with FoPacket pkt _ _ _ _ => from_server pkt | _ => True end.

(** The datagrams that went out of a socket, in order, with whether they began its flow. *)
Definition sent_on (f : Forwarder) (sock : Z) : list (bool * string) :=
  omap (fun '(s, n, p) => if decide (s = sock) then Some (n, p) else None) (uf_sent f).
(** What a socket opened for [r] may have sent: the content of a packet from [r], the first with the header. *)
Definition sent_ok (seen : list UdpPacket) (r : SocketAddr) (x : bool * string) : Prop :=
  exists c, from_user c r ∈ seen /\ x.2 = if x.1 then first r c else c.

Record flows_inv (seen : list UdpPacket) (f : Forwarder) : Prop := {
  fi_map : forall r s, uf_map f !! r = Some s -> uf_opened f !! s = Some r /\ sent_on f s <> [];
  fi_readers : forall s r t, uf_readers f !! s = Some (r, t) -> uf_opened f !! s = Some r;
  fi_opened : forall s r, uf_opened f !! s = Some r -> (s < uf_next f)%Z /\ socket_addr_wf r;
  fi_sent : forall s n p, (s, n, p) ∈ uf_sent f -> exists r, uf_opened f !! s = Some r /\ sent_ok seen r (n, p);
  fi_first : forall s, match sent_on f s with [] => True | (n, _) :: l => n = true /\ Forall (fun x => x.1 = false) l end;
  fi_out : forall s pkt, (s, pkt) ∈ uf_out f -> exists r d, uf_opened f !! s = Some r /\ pkt = MkUdpPacket d None (Some (from_std r)) }.

Lemma sent_on_log f s n p k :
  sent_on (uf_log f s n p) k = sent_on f k ++ (if decide (s = k) then [(n, p)] else []).
Proof. unfold sent_on. cbn. rewrite omap_app. cbn. by destruct (decide (s = k)). Qed.
Lemma sent_on_unopened seen f s : flows_inv seen f -> uf_opened f !! s = None -> sent_on f s = [].
Proof.
  intros Hi Hs. unfold sent_on. pose proof (fi_sent _ f Hi) as Hsent. induction (uf_sent f) as [|[[k n] p] l IH]; [done|].
  cbn. rewrite decide_False; [apply IH; intros; eapply Hsent; by right|].
  intros ->. destruct (Hsent s n p) as [r [Hr _]]; [by left|congruence].
Qed.
Lemma sent_on_elem f s x : x ∈ sent_on f s -> (s, x.1, x.2) ∈ uf_sent f.
Proof.
  unfold sent_on. intros Hx. apply list_elem_of_omap in Hx as ([[k n] p] & Hin & E).
  destruct (decide (k = s)) as [->|]; [|done]. by injection E as <-.
Qed.

Lemma flows_inv_seen seen seen' f : (forall p, p ∈ seen -> p ∈ seen') -> flows_inv seen f -> flows_inv seen' f.
Proof.
  intros Hs [H1 H2 H3 H4 H5 H6]. split; try done. intros s n p Hin. destruct (H4 s n p Hin) as (r & Hr & c & Hc & E).
  exists r. split; [done|]. exists c. auto.
Qed.

(** A datagram that goes out of a socket of its user. *)
Lemma inv_log seen f sock r c :
  flows_inv seen f -> uf_opened f !! sock = Some r -> from_user c r ∈ seen -> sent_on f sock <> [] ->
  flows_inv seen (uf_log f sock false c).
Proof.
  intros [H1 H2 H3 H4 H5 H6] Ho Hc Hne. split; try done.
  - intros r' s' Hm. destruct (H1 r' s' Hm) as [Ha Hb]. split; [done|]. rewrite sent_on_log. by destruct (sent_on f s').
  - intros s' n p. cbn. rewrite elem_of_app, list_elem_of_singleton. intros [Hin|[= -> -> ->]]; [by apply H4|].
    exists r. split; [done|]. by exists c.
  - intros s'. specialize (H5 s'). rewrite sent_on_log. destruct (decide (sock = s')) as [->|]; [|by rewrite (right_id_L [] (++))].
    destruct (sent_on f s') as [|[n p] l]; [done|]. cbn. destruct H5 as [-> Hl]. split; [done|]. apply Forall_app. by split; [|repeat constructor].
Qed.
Lemma inv_delete seen f r : flows_inv seen f -> flows_inv seen (uf_set_map f (delete r (uf_map f))).
Proof. intros [H1 H2 H3 H4 H5 H6]. split; try done. intros r' s'. cbn. rewrite lookup_delete_Some. intros [_ Hm]. by apply H1. Qed.
Lemma inv_writer_end seen f sock r : flows_inv seen f -> flows_inv seen (writer_end f sock r).
Proof.
  intros Hi. apply (inv_delete seen (uf_set_readers f (delete sock (uf_readers f))) r). destruct Hi as [H1 H2 H3 H4 H5 H6]. split; try done.
  intros s' r' t. cbn. rewrite lookup_delete_Some. intros [_ Hr]. by eapply H2.
Qed.

(** The first datagram of a flow: its socket is new. *)
Lemma inv_first seen f r c now :
  flows_inv seen f -> socket_addr_wf r -> from_user c r ∈ seen ->
  flows_inv seen (uf_set_readers (uf_log (uf_open f r) (uf_next f) true (first r c)) (<[uf_next f := (r, now)]> (uf_readers f))).
Proof.
  intros Hi Hr Hc. pose proof Hi as [H1 H2 H3 H4 H5 H6].
  assert (uf_opened f !! uf_next f = None) as Hn.
  { destruct (uf_opened f !! uf_next f) as [r'|] eqn:E; [|done]. apply H3 in E as [? _]. lia. }
  assert (forall s r', uf_opened f !! s = Some r' -> s <> uf_next f /\ (<[uf_next f := r]> (uf_opened f)) !! s = Some r') as Hold.
  { intros s r' Hs. apply H3 in Hs as Hlt. split; [lia|]. rewrite lookup_insert_ne; [done|lia]. }
  assert (forall s, sent_on (uf_set_readers (uf_log (uf_open f r) (uf_next f) true (first r c)) (<[uf_next f := (r, now)]> (uf_readers f))) s
    = sent_on f s ++ (if decide (uf_next f = s) then [(true, first r c)] else [])) as Hsent.
  { intros s. apply (sent_on_log (uf_open f r)). }
  split.
  - intros r' s'. cbn [uf_map uf_set_readers uf_log uf_open uf_opened]. rewrite Hsent, lookup_insert_Some. intros [[<- <-]|[_ Hm]].
    + rewrite lookup_insert_eq, decide_True by done. split; [done|]. by destruct (sent_on f (uf_next f)).
    + destruct (H1 r' s' Hm) as [Ha Hb]. destruct (Hold _ _ Ha) as [_ Ha']. split; [exact Ha'|]. by destruct (sent_on f s').
  - intros s' r' t. cbn [uf_readers uf_set_readers uf_log uf_open uf_opened]. rewrite lookup_insert_Some. intros [[<- [= <- _]]|[_ Hm]].
    + by rewrite lookup_insert_eq.
    + by apply Hold, H2 with t.
  - intros s' r'. cbn [uf_opened uf_set_readers uf_log uf_open uf_next]. rewrite lookup_insert_Some. intros [[<- <-]|[_ Hs]]; [split; [lia|done]|].
    apply H3 in Hs as [? ?]. split; [lia|done].
  - intros s' n p. cbn [uf_sent uf_set_readers uf_log uf_open uf_opened]. rewrite elem_of_app, list_elem_of_singleton.
    intros [Hin|[= -> -> ->]].
    + destruct (H4 s' n p Hin) as (r' & Hs & Hok). exists r'. split; [by apply Hold|done].
    + exists r. rewrite lookup_insert_eq. split; [done|]. by exists c.
  - intros s'. rewrite Hsent. specialize (H5 s'). destruct (decide (uf_next f = s')) as [<-|]; [|by rewrite (right_id_L [] (++))].
    by rewrite (sent_on_unopened seen f _ Hi Hn).
  - intros s' pkt Hin. destruct (H6 s' pkt Hin) as (r' & d & Hs & E). exists r', d. split; [by apply Hold|done].
Qed.

Lemma inv_step seen f op :
  op_ok op -> flows_inv seen f -> flows_inv (seen ++ option_list (op_packet op)) (step f op).
Proof.
  intros Hok Hi. assert (flows_inv (seen ++ option_list (op_packet op)) f) as Hi'.
  { eapply flows_inv_seen; [|exact Hi]. intros p Hp. apply elem_of_app. by left. }
  destruct op as [pkt bind connect send now|sock now received sent after]; cbn [forward_op].
  - destruct Hok as (c & r & Hr & ->). cbn [op_packet option_list] in *.
    assert (from_user c r ∈ seen ++ [from_user c r]) as Hc by (apply elem_of_app; right; by apply list_elem_of_singleton).
    unfold forward_packet. cbn [from_user udp_packet_new up_remote_addr up_content].
    assert ((from_std <$> Some r) ≫= to_std = Some r) as -> by (cbn; by apply to_from_std).
    destruct (uf_map f !! r) as [sock|] eqn:Em.
    + destruct send; [|by apply inv_delete]. destruct (fi_map _ _ Hi' _ _ Em) as [Ho Hne]. by eapply inv_log.
    + destruct bind, connect; try done. destruct send as [[]|e]; [exact (inv_first _ f r c now Hi' Hr Hc)|].
      unfold uf_set_map, uf_open. cbn [uf_map uf_readers uf_opened uf_next uf_sent uf_out]. rewrite delete_insert_id by done.
      destruct Hi' as [H1 H2 H3 H4 H5 H6].
      assert (forall s r', uf_opened f !! s = Some r' -> (<[uf_next f := r]> (uf_opened f)) !! s = Some r') as Hold.
      { intros s r' Hs. apply H3 in Hs as Hlt. rewrite lookup_insert_ne; [done|lia]. }
      split; cbn.
      * intros r' s' Hm. destruct (H1 r' s' Hm). split; [by apply Hold|done].
      * intros s' r' t Hs. by eapply Hold, H2.
      * intros s' r'. rewrite lookup_insert_Some. intros [[<- <-]|[_ Hs]]; [split; [lia|done]|]. apply H3 in Hs as [? ?]. split; [lia|done].
      * intros s' n p Hin. destruct (H4 s' n p Hin) as (r' & Hs & Hok). exists r'. split; [by apply Hold|done].
      * done.
      * intros s' pkt Hin. destruct (H6 s' pkt Hin) as (r' & d & Hs & E). exists r', d. split; [by apply Hold|done].
  - clear Hi. unfold writer_turn.
    destruct (uf_readers f !! sock) as [[r t]|] eqn:Er; [|done]. destruct (_ <=? 0)%Z; [by apply inv_writer_end|].
    destruct received as [d|]; [|by apply inv_writer_end]. destruct sent; [|by apply inv_writer_end].
    destruct Hi' as [H1 H2 H3 H4 H5 H6]. split; try done.
    + intros s' r' t'. cbn. rewrite lookup_insert_Some. intros [[<- [= <- _]]|[_ Hm]]; by eapply H2.
    + intros s' pkt. cbn. rewrite elem_of_app, list_elem_of_singleton. intros [Hin|[= -> ->]]; [by apply H6|].
      exists r, d. split; [by eapply H2|done].
Qed.

Lemma inv_run ops : Forall op_ok ops -> flows_inv (omap op_packet ops) (forward_run local_addr version ops).
Proof.
  unfold forward_run. intros Hok. assert (flows_inv [] forwarder_new) as Hi by (split; set_solver).
  change (omap op_packet ops) with ([] ++ omap op_packet ops). revert Hi. generalize (@nil UdpPacket) as seen. generalize forwarder_new as f.
  induction Hok as [|op ops Hop _ IH]; intros f seen Hi; [cbn; by rewrite (right_id_L [] (++))|].
  cbn [fold_left omap list_omap]. specialize (IH (step f op) _ (inv_step seen f op Hop Hi)).
  rewrite <- (assoc_L (++)) in IH. destruct (op_packet op); exact IH.
Qed.

(** C35: Users' datagrams do not mix: whatever packets arrive, sockets fail and
    answers come in any order, each socket of the client carries only datagrams
    of the one user it was opened for, unchanged but for the PROXY header in
    front of the first and only the first, and an answer read from it is
    delivered by the server to that same user. *)
Theorem udp_flows_isolated (ops : list ForwardOp) :
  Forall op_ok ops ->
  let f := forward_run local_addr version ops in
  (forall s (x : bool * string), x ∈ sent_on f s -> exists r c, uf_opened f !! s = Some r /\ from_user c r ∈ omap op_packet ops
     /\ x.2 = if x.1 then first r c else c)
  /\ (forall s, match sent_on f s with [] => True | x :: l => x.1 = true /\ Forall (fun y : bool * string => y.1 = false) l end)
  /\ (forall s pkt, (s, pkt) ∈ uf_out f -> exists r d, uf_opened f !! s = Some r /\ to_user pkt = Some (d, r)).
Proof.
  intros Hok f. pose proof (inv_run ops Hok) as [H1 H2 H3 H4 H5 H6]. fold f in H1, H2, H3, H4, H5, H6. split; [|split].
  - intros s [n p] Hx. apply sent_on_elem in Hx. destruct (H4 _ _ _ Hx) as (r & Hr & c & Hc & E). eauto.
  - intros s. specialize (H5 s). by destruct (sent_on f s) as [|[n p] l].
  - intros s pkt Hin. destruct (H6 s pkt Hin) as (r & d & Hr & ->). exists r, d. split; [done|].
    unfold to_user. cbn. destruct (H3 s r Hr) as [_ Hwf]. by rewrite to_from_std.
Qed.

(** The end of a task takes its user's entry out of the map even when it is by then
    another socket's, which is left without an entry while it still works. *)
Lemma stale_writer_unfiles f stale current r t now after :
  uf_readers f !! stale = Some (r, t) -> uf_map f !! r = Some current -> stale <> current ->
  uf_map (writer_turn f stale now None true after) !! r = None
  /\ uf_readers (writer_turn f stale now None true after) !! current = uf_readers f !! current.
Proof.
  intros Hr Hm Hne. unfold writer_turn. rewrite Hr. destruct (_ <=? 0)%Z; cbn; rewrite lookup_delete_eq, lookup_delete_ne by done; done.
Qed.
End Lemmas.

(** *** Witness *)

Definition ex_user (port : Z) : SocketAddr := MkSocketAddr (V4 (203, 0, 113, 9)%Z) port.
Definition ex_local : SocketAddr := MkSocketAddr (V4 (127, 0, 0, 1)%Z) 53.
Definition ex_ops : list ForwardOp :=
  [FoPacket (from_user "q1" (ex_user 1000)) (Ok tt) (Ok tt) (Ok tt) 0; FoPacket (from_user "q2" (ex_user 2000)) (Ok tt) (Ok tt) (Ok tt) 1;
   FoReader 1 2 (Some "a2") true 2; FoPacket (from_user "q3" (ex_user 1000)) (Ok tt) (Ok tt) (Ok tt) 3; FoReader 0 4 (Some "a1") true 4].

Lemma udp_flows_isolated_witness :
  exists a2 a1, uf_out (forward_run ex_local (Some "v1") ex_ops) = [(1%Z, a2); (0%Z, a1)]
  /\ to_user a2 = Some ("a2", ex_user 2000)
  /\ exists r d, uf_opened (forward_run ex_local (Some "v1") ex_ops) !! 0%Z = Some r /\ to_user a1 = Some (d, r).
Proof.
  exists (MkUdpPacket "a2" None (Some (from_std (ex_user 2000)))), (MkUdpPacket "a1" None (Some (from_std (ex_user 1000)))).
  split; [vm_compute; reflexivity|]. split; [vm_compute; reflexivity|].
  destruct (udp_flows_isolated ex_local (Some "v1") ex_ops) as (_ & _ & H).
  - repeat constructor; (eexists _, _; split; [|reflexivity]); repeat split; discriminate.
  - apply H. replace (uf_out (forward_run ex_local (Some "v1") ex_ops))
      with [(1%Z, MkUdpPacket "a2" None (Some (from_std (ex_user 2000)))); (0%Z, MkUdpPacket "a1" None (Some (from_std (ex_user 1000))))]
      by (vm_compute; reflexivity). right. left.
Defined.
