(* ===== verification/DataPool.v ===== *)
(** * The server's pool of data connections

    [server/src/control/session/data_pool.rs], and from [mod.rs] the requests
    [run] begins with.  The client opens a data connection for each request the
    server writes on the control connection; the tasks that serve users take them
    from a bounded channel.  Every await is a point where others may run, so the
    pool is a transition system: a task that waits comes back for another turn,
    and a full channel keeps its senders in order of arrival. *)

From S2P Require Import Prelude RustStr Registry Metrics Msg ServerConfig TunnelManager ServerControl.

Local Open Scope string_scope.

(** The capacity of the channel [Control::new] makes. *)
Definition DATA_CHANNEL_CAP : nat := 64.
(** In nanoseconds: how long a task waits at all, and between two looks. *)
Definition GET_DEADLINE : Z := 10 * 1000000000.
Definition POLL_EVERY : Z := 100 * 1000000.

(** Where a task is in [get_data_conn]: about to ask the client for a connection,
    waiting for one, or holding one while it waits for the lock of the background
    tasks, which [spawn_bg] takes for the refill. *)
Inductive TaskState := Asking | Waiting (deadline : Z) | Refilling (stream : Z).

(** The control with its channel [c_data]; the connections whose senders wait for
    room; the requests [run] still has to begin with; the refills spawned and not
    yet run; the tasks under way; what was taken from the channel, and by whom, in
    order; how many waits there were, and how many tasks were dropped with the
    connection in their hands. *)
Record Pool := MkPool {
  pl_control : Control; pl_blocked : list Z; pl_left : nat; pl_refills : nat; pl_tasks : gmap Z TaskState;
  pl_given : list (Z * Z); pl_asked : nat; pl_lost : nat }.
Definition pool_new (c : Control) : Pool := MkPool c [] (Z.to_nat (c_pool_count c)) 0 ∅ [] 0 0.

Definition pl_set_control (p : Pool) (c : Control) : Pool :=
  MkPool c (pl_blocked p) (pl_left p) (pl_refills p) (pl_tasks p) (pl_given p) (pl_asked p) (pl_lost p).
Definition pl_set_blocked (p : Pool) (b : list Z) : Pool :=
  MkPool (pl_control p) b (pl_left p) (pl_refills p) (pl_tasks p) (pl_given p) (pl_asked p) (pl_lost p).
Definition pl_set_requests (p : Pool) (left refills : nat) : Pool :=
  MkPool (pl_control p) (pl_blocked p) left refills (pl_tasks p) (pl_given p) (pl_asked p) (pl_lost p).
Definition pl_set_tasks (p : Pool) (t : gmap Z TaskState) (asked : nat) : Pool :=
  MkPool (pl_control p) (pl_blocked p) (pl_left p) (pl_refills p) t (pl_given p) asked (pl_lost p).
Definition pl_give (p : Pool) (task stream : Z) (t : gmap Z TaskState) : Pool :=
  MkPool (pl_control p) (pl_blocked p) (pl_left p) (pl_refills p) t (pl_given p ++ [(task, stream)])%list
    (pl_asked p) (pl_lost p).
Definition pl_lose (p : Pool) : Pool :=
  MkPool (pl_control p) (pl_blocked p) (pl_left p) (pl_refills p) (pl_tasks p) (pl_given p) (pl_asked p) (S (pl_lost p)).
Definition pl_data (p : Pool) : list Z := c_data (pl_control p).
Definition pl_set_data (p : Pool) (data : list Z) : Pool :=
  pl_set_control p (set_io (pl_control p) data (c_last_ping_unix (pl_control p)) (c_outbox (pl_control p))).

(** ** Filling *)

(** [push_data_conn]: its send goes behind those that already wait. *)
Definition has_room (p : Pool) : bool := (length (pl_data p) <? DATA_CHANNEL_CAP)%nat.
Definition push_data_conn (p : Pool) (stream : Z) : Pool :=
  if has_room p && bool_decide (pl_blocked p = [])
  then pl_set_data p (pl_data p ++ [stream])%list
  else pl_set_blocked p (pl_blocked p ++ [stream])%list.
(** The first sender that waits goes on when there is room. *)
Definition unblock (p : Pool) : Pool :=
  match pl_blocked p with
  | stream :: blocked => if has_room p then pl_set_blocked (pl_set_data p (pl_data p ++ [stream])%list) blocked else p
  | [] => p
  end.

Definition request_data_conn (c : Control) (write_ok : bool) : Anyhow Control :=
  if c_closed c then Err "control closed" else send c write_ok (MReqDataConn (MkReqDataConn)).
(** A turn of the loop [run] begins with. *)
Definition run_turn (p : Pool) (write_ok : bool) : Pool * Anyhow unit :=
  match pl_left p with
  | O => (p, Ok tt)
  | S n =>
      if c_closed (pl_control p) then (pl_set_requests p 0 (pl_refills p), Ok tt) else
      match request_data_conn (pl_control p) write_ok with
      | Ok c => (pl_set_control (pl_set_requests p n (pl_refills p)) c, Ok tt)
      | Err e => (pl_set_requests p 0 (pl_refills p), Err e)
      end
  end.

(** The end of [spawn_refill], once [spawn_bg] has its lock: nothing is started on
    a control that was closed meanwhile. *)
Definition spawn_refill (p : Pool) : Pool :=
  if c_closed (pl_control p) || c_cleaning (pl_control p) then p else pl_set_requests p (pl_left p) (S (pl_refills p)).
(** The task it spawned. *)
Definition refill_turn (p : Pool) (write_ok : bool) : Pool :=
  match pl_refills p with
  | O => p
  | S n =>
      let p := pl_set_requests p (pl_left p) n in
      match request_data_conn (pl_control p) write_ok with
      | Ok c => pl_set_control p c
      | Err _ => p
      end
  end.

(** ** Taking *)

Inductive Taken := GotConn (stream : Z) | GotErr (e : string) | WaitUntil (at_most : Z).

(** What follows a successful [try_pop_data]: [spawn_refill] returns at once on a
    closed control and otherwise awaits the lock of the background tasks, the
    connection in hand. *)
Definition hand_out (p : Pool) (task stream : Z) (rest : list Z) (now : Z) : Pool * Taken :=
  let p := pl_set_data p rest in
  if c_closed (pl_control p) then (pl_give p task stream (delete task (pl_tasks p)), GotConn stream)
  else (pl_give p task stream (<[task := Refilling stream]> (pl_tasks p)), WaitUntil now).
(** With the lock the refill is spawned and the connection returned. *)
Definition locked_turn (p : Pool) (task stream : Z) : Pool * Taken :=
  (spawn_refill (pl_set_tasks p (delete task (pl_tasks p)) (pl_asked p)), GotConn stream).
(** [get_data_conn] up to its request. *)
Definition get_data_conn (p : Pool) (task now : Z) : Pool * Taken :=
  match pl_data p with
  | stream :: rest => hand_out p task stream rest now
  | [] => (pl_set_tasks p (<[task := Asking]> (pl_tasks p)) (pl_asked p), WaitUntil now)
  end.
(** Its request. *)
Definition ask_turn (p : Pool) (task now : Z) (write_ok : bool) : Pool * Taken :=
  match request_data_conn (pl_control p) write_ok with
  | Err e => (pl_set_tasks p (delete task (pl_tasks p)) (pl_asked p), GotErr e)
  | Ok c =>
      (pl_set_tasks (pl_set_control p c) (<[task := Waiting (now + GET_DEADLINE)]> (pl_tasks p)) (S (pl_asked p)), WaitUntil now)
  end.
(** A turn of its loop. *)
Definition poll_turn (p : Pool) (task deadline now : Z) : Pool * Taken :=
  if c_closed (pl_control p)
  then (pl_set_tasks p (delete task (pl_tasks p)) (pl_asked p), GotErr "control closed while waiting for data connection") else
  match pl_data p with
  | stream :: rest => hand_out p task stream rest now
  | [] =>
      let remaining := Z.max 0 (deadline - now) in
      if (remaining =? 0)%Z
      then (pl_set_tasks p (delete task (pl_tasks p)) (pl_asked p), GotErr "timeout waiting for data connection")
      else (p, WaitUntil (now + Z.min remaining POLL_EVERY))
  end.
Definition task_turn (p : Pool) (task now : Z) (write_ok : bool) : Pool * Taken :=
  match pl_tasks p !! task with
  | None => (p, WaitUntil now)
  | Some Asking => ask_turn p task now write_ok
  | Some (Waiting deadline) => poll_turn p task deadline now
  | Some (Refilling stream) => locked_turn p task stream
  end.
(** A task that is dropped while it waits; what it holds is dropped with it. *)
Definition abandon (p : Pool) (task : Z) : Pool :=
  let p' := pl_set_tasks p (delete task (pl_tasks p)) (pl_asked p) in
  match pl_tasks p !! task with Some (Refilling _) => pl_lose p' | _ => p' end.

Definition start_data_conn (tunnel_name src_addr : string) (src_port : Z) (dst_addr : string) (dst_port : Z) (write_ok : bool)
    : Anyhow Message :=
  if write_ok then Ok (MStartDataConn (MkStartDataConn tunnel_name src_addr src_port dst_addr dst_port "")) else Err "io".

(** ** Runs *)

(** The number of a task stands for one call: it begins once. *)
Inductive PoolOp :=
| PoRun (write_ok : bool)
| PoPush (stream : Z)
| PoUnblock
| PoRefill (write_ok : bool)
| PoGet (task now : Z)
| PoTurn (task now : Z) (write_ok : bool)
| PoAbandon (task : Z)
| PoClose.
Definition pool_op (p : Pool) (op : PoolOp) : Pool :=
  match op with
  | PoRun ok => (run_turn p ok).1
  | PoPush stream => push_data_conn p stream
  | PoUnblock => unblock p
  | PoRefill ok => refill_turn p ok
  | PoGet task now => match pl_tasks p !! task with None => (get_data_conn p task now).1 | Some _ => p end
  | PoTurn task now ok => (task_turn p task now ok).1
  | PoAbandon task => abandon p task
  | PoClose => pl_set_control p (signal_close (pl_control p))
  end.
Definition pool_run (c : Control) (ops : list PoolOp) : Pool := fold_left pool_op ops (pool_new c).

(** ** Invariants *)

Local Open Scope list_scope.

Definition pushed (op : PoolOp) : option Z := match op with PoPush s => Some s | _ => None end.
(** Every connection the pool was given, in order: handed out, in the channel, or with a sender. *)
Definition all_conns (p : Pool) : list Z := (pl_given p).*2 ++ pl_data p ++ pl_blocked p.

Definition is_request (m : Message) : bool := match m with MReqDataConn _ => true | _ => false end.
(** The requests written so far. *)
Definition requests (c : Control) : nat := length (List.filter is_request (c_outbox c)).

(** A step of a session that stays open and whose writes succeed. *)
Definition op_clean (op : PoolOp) : Prop :=
  match op with PoRun ok | PoRefill ok | PoTurn _ _ ok => ok = true | PoClose => False | _ => True end.

Definition is_waiting (s : TaskState) : bool := match s with Waiting _ => true | _ => false end.
Definition is_refilling (s : TaskState) : bool := match s with Refilling _ => true | _ => false end.
(** How many tasks are in a state that [f] picks. *)
Definition count (f : TaskState -> bool) (m : gmap Z TaskState) : nat := size (filter (fun kv => f kv.2 = true) m).
Definition waiting (p : Pool) : nat := count is_waiting (pl_tasks p).
Definition refilling (p : Pool) : nat := count is_refilling (pl_tasks p).

(** Each wait and each connection handed out has asked for one, or will, unless its task was dropped. *)
Record pool_clean (start : nat) (p : Pool) : Prop := {
  pc_open : c_closed (pl_control p) = false /\ c_cleaning (pl_control p) = false;
  pc_balance : requests (pl_control p) + pl_left p + pl_refills p + refilling p + pl_lost p = start + pl_asked p + length (pl_given p);
  pc_waits : waiting p <= pl_asked p }.

(** Nothing is left to do but to wait: [run] has made its requests, no task waits
    for the lock, the refills have run and no sender could go on. *)
Definition settled (p : Pool) : Prop :=
  pl_left p = 0 /\ pl_refills p = 0 /\ refilling p = 0 /\ (pl_blocked p = [] \/ has_room p = false).

(** ** Lemmas *)

Lemma request_ok c ok c' : request_data_conn c ok = Ok c' ->
  c_data c' = c_data c /\ requests c' = S (requests c) /\ c_closed c' = c_closed c /\ c_cleaning c' = c_cleaning c.
Proof.
  unfold request_data_conn, send. destruct (c_closed c) eqn:Ec, ok; try done. intros [= <-].
  split; [done|]. split; [|done]. unfold requests. cbn [c_outbox set_io].
  rewrite List.filter_app, length_app. cbn. lia.
Qed.
Lemma request_open c : c_closed c = false -> exists c', request_data_conn c true = Ok c'.
Proof. unfold request_data_conn, send. intros ->. eauto. Qed.

(** What a step does to the connections handed out, in the channel and with senders. *)
Inductive change : option Z -> list (Z * Z) * list Z * list Z -> list (Z * Z) * list Z * list Z -> Prop :=
| ch_none x : change None x x
| ch_give g d b task s : change None (g, s :: d, b) (g ++ [(task, s)], d, b)
| ch_push g d s : length d < DATA_CHANNEL_CAP -> change (Some s) (g, d, []) (g, d ++ [s], [])
| ch_block g d b s : change (Some s) (g, d, b) (g, d, b ++ [s])
| ch_move g d b s : length d < DATA_CHANNEL_CAP -> change None (g, d, s :: b) (g, d ++ [s], b).
#[local] Hint Constructors change : core.
Definition conns (p : Pool) : list (Z * Z) * list Z * list Z := (pl_given p, pl_data p, pl_blocked p).

Lemma change_hand_out p task s rest now : pl_data p = s :: rest -> change None (conns p) (conns (hand_out p task s rest now).1).
Proof. intros Hd. unfold conns at 1. rewrite Hd. unfold hand_out. destruct (c_closed _); apply ch_give. Qed.
Lemma conns_locked p task s : conns (locked_turn p task s).1 = conns p.
Proof. unfold locked_turn, spawn_refill. cbn. by destruct (_ || _). Qed.
Lemma conns_abandon p task : conns (abandon p task) = conns p.
Proof. unfold abandon. by destruct (pl_tasks p !! task) as [[]|]. Qed.
Lemma change_request p c ok : request_data_conn (pl_control p) ok = Ok c -> conns (pl_set_control p c) = conns p.
Proof. intros [Hd _]%request_ok. unfold conns, pl_data. cbn. by rewrite Hd. Qed.

Lemma op_change p op : change (pushed op) (conns p) (conns (pool_op p op)).
Proof.
  destruct op as [ok|s| |ok|task now|task now ok|task|]; cbn [pool_op pushed]; try apply ch_none.
  - unfold run_turn. destruct (pl_left p); [apply ch_none|]. destruct (c_closed _); [apply ch_none|].
    destruct (request_data_conn _ ok) as [c|e] eqn:Er; [|apply ch_none]. cbn [fst].
    rewrite change_request with (ok := ok) by done. apply ch_none.
  - unfold push_data_conn, has_room. destruct (_ && _) eqn:E; [|apply ch_block].
    apply andb_true_iff in E as [E%Nat.ltb_lt Eb%bool_decide_eq_true]. unfold conns. cbn. rewrite Eb. by apply ch_push.
  - unfold unblock, has_room. destruct (pl_blocked p) as [|s b] eqn:Eb; [apply ch_none|]. destruct (_ <? _)%nat eqn:E; [|apply ch_none].
    apply Nat.ltb_lt in E. unfold conns at 1. rewrite Eb. by apply ch_move.
  - unfold refill_turn. destruct (pl_refills p); [apply ch_none|]. destruct (request_data_conn _ ok) as [c|e] eqn:Er; [|apply ch_none].
    rewrite change_request with (ok := ok) by done. apply ch_none.
  - destruct (pl_tasks p !! task); [apply ch_none|].
    unfold get_data_conn. destruct (pl_data p) eqn:Ed; [apply ch_none|by apply change_hand_out].
  - unfold task_turn. destruct (pl_tasks p !! task) as [[|d|s]|]; [| |rewrite conns_locked; apply ch_none|apply ch_none].
    + unfold ask_turn. destruct (request_data_conn _ ok) as [c|e] eqn:Er; [|apply ch_none]. cbn [fst].
      pose proof (change_request _ _ _ Er) as Hc. unfold conns in *. cbn in *. rewrite <- Hc. apply ch_none.
    + unfold poll_turn. destruct (c_closed _); [apply ch_none|]. destruct (pl_data p) eqn:Ed; [|by apply change_hand_out].
      destruct (_ =? 0)%Z; apply ch_none.
  - rewrite conns_abandon. apply ch_none.
Qed.

Lemma change_all o x y : change o x y ->
  y.1.1.*2 ++ y.1.2 ++ y.2 = (x.1.1.*2 ++ x.1.2 ++ x.2) ++ option_list o
  /\ (length x.1.2 <= DATA_CHANNEL_CAP -> length y.1.2 <= DATA_CHANNEL_CAP).
Proof.
  destruct 1; cbn [fst snd option_list]; rewrite ?fmap_app, ?length_app; cbn [fmap list_fmap snd length];
    (split; [|lia]); rewrite <- ?(assoc_L (++)); cbv beta iota delta [option_list option_rect]; rewrite ?(right_id_L [] (++)); done.
Qed.
Lemma run_conns ops p :
  all_conns (fold_left pool_op ops p) = all_conns p ++ omap pushed ops
  /\ (length (pl_data p) <= DATA_CHANNEL_CAP -> length (pl_data (fold_left pool_op ops p)) <= DATA_CHANNEL_CAP).
Proof.
  revert p. induction ops as [|op ops IH]; intros p; cbn [fold_left]; [cbn; by rewrite (right_id_L [] (++))|].
  destruct (change_all _ _ _ (op_change p op)) as [Ha Hl]. destruct (IH (pool_op p op)) as [Ha' Hl']. split; [|auto].
  rewrite Ha'. etrans; [apply (f_equal (fun l => l ++ _)), Ha|]. rewrite <- (assoc_L (++)). f_equal. cbn. by destruct (pushed op).
Qed.

(** ** The balance *)

Lemma count_insert f m k s : count f (<[k := s]> m) = count f (delete k m) + Nat.b2n (f s).
Proof.
  rewrite <- insert_delete_eq. unfold count. rewrite map_filter_insert. cbn [snd]. destruct (f s); cbn [decide Nat.b2n].
  - rewrite decide_True by done. rewrite map_size_insert_None; [lia|].
    apply map_lookup_filter_None. left. apply lookup_delete_eq.
  - rewrite decide_False by done. rewrite delete_delete_eq. lia.
Qed.
Lemma count_empty f : count f ∅ = 0.
Proof. unfold count. by rewrite map_filter_empty, map_size_empty. Qed.
Lemma count_delete f m k : count f m = count f (delete k m) + match m !! k with Some s => Nat.b2n (f s) | None => 0 end.
Proof.
  destruct (m !! k) as [s|] eqn:E; [|rewrite delete_id by done; lia].
  rewrite <- (insert_id m k s E) at 1. apply count_insert.
Qed.
Ltac count_tasks p task :=
  pose proof (count_delete is_waiting (pl_tasks p) task); pose proof (count_delete is_refilling (pl_tasks p) task);
  rewrite ?count_insert.

Section Clean.
Context (start : nat).

Lemma clean_hand_out p task s rest now : pool_clean start p -> pl_data p = s :: rest ->
  match pl_tasks p !! task with Some (Refilling _) => False | _ => True end ->
  pool_clean start (hand_out p task s rest now).1.
Proof.
  intros [[Ho Hc] Hb Hw] Hd Ht. unfold hand_out. cbn [pl_control pl_set_data pl_set_control c_closed set_io]. rewrite Ho.
  unfold requests, waiting, refilling in *. count_tasks p task.
  destruct (pl_tasks p !! task) as [[]|]; split; cbn in *; unfold waiting, refilling; cbn; rewrite ?length_app; count_tasks p task; cbn; try done; lia.
Qed.
Lemma clean_locked p task s : pool_clean start p -> pl_tasks p !! task = Some (Refilling s) -> pool_clean start (locked_turn p task s).1.
Proof.
  intros [[Ho Hc] Hb Hw] Ht. unfold locked_turn, spawn_refill. cbn [pl_control pl_set_tasks]. rewrite Ho, Hc.
  unfold waiting, refilling in *. count_tasks p task. rewrite Ht in *. split; unfold waiting, refilling; cbn in *; try done; lia.
Qed.
Lemma clean_abandon p task : pool_clean start p -> pool_clean start (abandon p task).
Proof.
  intros [Ho Hb Hw]. unfold abandon, waiting, refilling in *. count_tasks p task.
  destruct (pl_tasks p !! task) as [[]|]; split; unfold waiting, refilling; cbn in *; try done; lia.
Qed.
Lemma clean_request p : pool_clean start p -> exists c, request_data_conn (pl_control p) true = Ok c
  /\ requests c = S (requests (pl_control p)) /\ c_closed c = false /\ c_cleaning c = false.
Proof.
  intros [[Ho Hc] _ _]. destruct (request_open _ Ho) as [c Er]. exists c. split; [done|].
  apply request_ok in Er as (_ & -> & -> & ->). done.
Qed.
Lemma clean_op p op : op_clean op -> pool_clean start p -> pool_clean start (pool_op p op).
Proof.
  intros Hop Hp. pose proof Hp as [[Ho Hc] Hb Hw].
  destruct op as [ok|s| |ok|task now|task now ok|task|]; cbn [pool_op op_clean] in *; subst; try done.
  - unfold run_turn. destruct (pl_left p) as [|n] eqn:El; [done|]. rewrite Ho. destruct (clean_request p Hp) as (c & -> & Hr & ?). cbn [fst].
    split; unfold waiting, refilling in *; cbn in *; [done|lia|done].
  - unfold push_data_conn. destruct (_ && _); split; done.
  - unfold unblock. destruct (pl_blocked p); [done|]. destruct (has_room p); [|done]. split; done.
  - unfold refill_turn. destruct (pl_refills p) as [|n] eqn:El; [done|]. cbn [pl_control pl_set_requests].
    destruct (clean_request p Hp) as (c & -> & Hr & ?). split; unfold waiting, refilling in *; cbn in *; [done|lia|done].
  - destruct (pl_tasks p !! task) eqn:Et; [done|].
    unfold get_data_conn. destruct (pl_data p) eqn:Ed; [|apply clean_hand_out; try done; by rewrite Et].
    unfold waiting, refilling in *. count_tasks p task. rewrite Et in *. split; unfold waiting, refilling; cbn; count_tasks p task; cbn in *; try done; lia.
  - unfold task_turn. destruct (pl_tasks p !! task) as [[|d|s]|] eqn:Et; [| |by apply clean_locked|done].
    + unfold ask_turn. destruct (clean_request p Hp) as (c & -> & Hr & ?). unfold waiting, refilling in *. count_tasks p task. rewrite Et in *.
      split; unfold waiting, refilling; cbn; count_tasks p task; cbn in *; try done; lia.
    + unfold poll_turn. rewrite Ho. destruct (pl_data p) eqn:Ed; [|apply clean_hand_out; try done; by rewrite Et]. destruct (_ =? 0)%Z; [|done].
      unfold waiting, refilling in *. count_tasks p task. rewrite Et in *. split; unfold waiting, refilling; cbn in *; try done; lia.
  - by apply clean_abandon.
Qed.
Lemma clean_run p ops : Forall op_clean ops -> pool_clean start p -> pool_clean start (fold_left pool_op ops p).
Proof. intros Hops. revert p. induction Hops; intros p Hp; [done|]. cbn. auto using clean_op. Qed.
End Clean.

(** ** Properties *)

(** A control that has just logged in. *)
Definition fresh (c : Control) : Prop :=
  c_closed c = false /\ c_cleaning c = false /\ c_data c = [] /\ requests c = 0.

(** C23: The pool loses, invents and repeats no connection: whatever the order of the
    tasks' turns, of failures and of closing, the connections handed out, those in
    the channel and those whose senders wait are, in that order, the connections
    the client opened in the order they came, and the channel keeps its bound. *)
Theorem pool_conserves (c : Control) (ops : list PoolOp) :
  c_data c = [] ->
  let p := pool_run c ops in
  (pl_given p).*2 ++ pl_data p ++ pl_blocked p = omap pushed ops /\ length (pl_data p) <= DATA_CHANNEL_CAP.
Proof.
  intros Hd p. destruct (run_conns ops (pool_new c)) as [Ha Hl]. split.
  - etrans; [exact Ha|]. unfold all_conns, pl_data. cbn. by rewrite Hd.
  - apply Hl. unfold pl_data. cbn. rewrite Hd. cbn. unfold DATA_CHANNEL_CAP. lia.
Qed.

(** C22: No task waits in vain: in an open session whose writes succeed, once the
    client has answered every request and the pool's own tasks have run, the pool
    holds its own size and one connection for every wait there ever was, less those
    whose task was dropped between taking a connection and asking for its
    replacement.  Where no task was dropped there, a connection is there for every
    task that waits: each takes one at its next look, its deadline past or not, and
    returns it as soon as it gets the lock its refill needs. *)
Theorem pool_serves (c : Control) (ops : list PoolOp) :
  fresh c -> Forall op_clean ops ->
  let p := pool_run c ops in
  settled p -> requests (pl_control p) = length (omap pushed ops) ->
  length (pl_data p) + length (pl_blocked p) + pl_lost p = Z.to_nat (c_pool_count c) + pl_asked p
  /\ waiting p <= pl_asked p
  /\ (pl_lost p = 0 -> forall task deadline now ok, pl_tasks p !! task = Some (Waiting deadline) ->
       exists stream, let q := (task_turn p task now ok).1 in
         pl_given q = pl_given p ++ [(task, stream)] /\ pl_tasks q !! task = Some (Refilling stream)
         /\ forall q' now' ok', pl_tasks q' !! task = Some (Refilling stream) -> (task_turn q' task now' ok').2 = GotConn stream).
Proof.
  intros (Ho & Hcl & Hd & Hr) Hops p (Hl & Hf & Hre & Hs) Hreq.
  assert (pool_clean (Z.to_nat (c_pool_count c)) p) as [[Hop _] Hb Hw].
  { apply clean_run; [done|]. split; unfold waiting, refilling; cbn [pl_tasks pool_new]; rewrite ?count_empty; cbn; [done|lia|lia]. }
  destruct (run_conns ops (pool_new c)) as [Ha _]. fold (pool_run c ops) in Ha. fold p in Ha.
  apply (f_equal length) in Ha. unfold all_conns in Ha. rewrite !length_app, length_fmap in Ha.
  unfold pl_data at 2 in Ha. cbn [pl_given pl_blocked pool_new pl_control] in Ha. rewrite Hd in Ha. cbn in Ha.
  assert (length (pl_data p) + length (pl_blocked p) + pl_lost p = Z.to_nat (c_pool_count c) + pl_asked p) as Hn
    by (rewrite Hl, Hf, Hre in Hb; lia).
  split; [done|]. split; [done|]. intros Hlost task deadline now ok Ht. unfold task_turn at 1 2. rewrite Ht. unfold poll_turn. rewrite Hop.
  destruct (pl_data p) as [|s rest] eqn:Ed.
  - exfalso. assert (0 < waiting p) as Hpos.
    { unfold waiting. rewrite (count_delete _ _ task), Ht. cbn. lia. }
    destruct Hs as [Hs|Hs]; [rewrite Hs in Hn; cbn in Hn; lia|]. unfold has_room in Hs. rewrite Ed in Hs. done.
  - exists s. unfold hand_out. cbn [pl_control pl_set_data pl_set_control c_closed set_io]. rewrite Hop. cbn.
    rewrite lookup_insert_eq. repeat split. intros q' now' ok' Hq. unfold task_turn. by rewrite Hq.
Qed.

(** ** Witnesses *)

Definition ex_control : Control := control_new "S1" 1 server_config_default 1 "u" "A" "h" "o" "x" "v" "127.0.0.1" 0 0.
(** Two users come at once to a pool of one; the client answers all three requests. *)
Definition ex_waits : list PoolOp :=
  [PoRun true; PoGet 1 0; PoGet 2 0; PoTurn 1 0 true; PoTurn 2 1 true; PoPush 10; PoPush 11; PoPush 12].
(** They are served, and the refills that follow are answered too. *)
Definition ex_served : list PoolOp :=
  ex_waits ++ [PoTurn 1 2 true; PoTurn 2 2 true; PoTurn 1 3 true; PoTurn 2 3 true; PoRefill true; PoRefill true; PoPush 13; PoPush 14].

Lemma pool_conserves_witness :
  c_data ex_control = [] /\ (pl_given (pool_run ex_control ex_served)).*2 = [10%Z; 11%Z]
  /\ length (pl_data (pool_run ex_control ex_served)) <= DATA_CHANNEL_CAP.
Proof. split; [reflexivity|]. split; [vm_compute; reflexivity|]. apply (pool_conserves ex_control ex_served). reflexivity. Defined.

Lemma pool_serves_witness :
  pl_tasks (pool_run ex_control ex_waits) !! 2%Z = Some (Waiting 10000000001)
  /\ exists stream, let q := (task_turn (pool_run ex_control ex_waits) 2 5 true).1 in (task_turn q 2 6 true).2 = GotConn stream.
Proof.
  split; [vm_compute; reflexivity|].
  destruct (pool_serves ex_control ex_waits) as (_ & _ & H).
  - repeat split; reflexivity.
  - repeat constructor.
  - do 3 (split; [vm_compute; reflexivity|]). left. vm_compute. reflexivity.
  - vm_compute. reflexivity.
  - destruct (H ltac:(vm_compute; reflexivity) 2%Z 10000000001%Z 5%Z true) as (stream & _ & Hq & Hall); [vm_compute; reflexivity|].
    exists stream. by apply Hall.
Defined.

(** A pool of one that two users found empty at once idles with three connections
    for the rest of the session. *)
Lemma pool_outgrows :
  c_pool_count ex_control = 1%Z /\ settled (pool_run ex_control ex_served) /\ pl_tasks (pool_run ex_control ex_served) = ∅
  /\ pl_data (pool_run ex_control ex_served) = [12%Z; 13%Z; 14%Z].
Proof.
  split; [reflexivity|]. split; [|split; vm_compute; reflexivity].
  do 3 (split; [vm_compute; reflexivity|]). left. vm_compute. reflexivity.
Qed.

(** A task that is dropped while it holds a connection and waits for the lock takes
    the connection with it: another, which asked and was answered, then waits in vain. *)
Definition ex_dropped : list PoolOp :=
  [PoRun true; PoPush 10; PoGet 1 0; PoAbandon 1; PoGet 2 1; PoTurn 2 1 true; PoPush 11; PoGet 3 2; PoAbandon 3].
Lemma dropped_taker_starves :
  let p := pool_run ex_control ex_dropped in
  settled p /\ requests (pl_control p) = length (omap pushed ex_dropped) /\ pl_tasks p = {[2%Z := Waiting 10000000001]}
  /\ pl_data p = [] /\ (task_turn p 2 10000000001 true).2 = GotErr "timeout waiting for data connection".
Proof. cbn zeta. split; [do 3 (split; [vm_compute; reflexivity|]); left|]; repeat split; vm_compute; reflexivity. Qed.
