(* ===== verification/Dashboard.v ===== *)
(** * The dashboard

    [server/src/dashboard/]: the gate in front of every route, the snapshot the
    answers are made of, the listings with their pages, and the decoding of path
    segments.  axum, the embedded assets and chrono are parameters; a handler is
    a function from the service and the request to the answer and the service,
    whose counters rotate when they are read. *)

From stdpp Require Import sorting.
From S2P Require Import Prelude RustStr Registry Metrics Msg Limit Gateway Config ServerConfig TunnelManager ServerControl ServerSpec ServerRefine Auth Agents Service.

Local Open Scope string_scope.

(** ** [model.rs] *)

Record ApiResponse (A : Type) := MkApiResponse { ar_code : Z; ar_msg : string; ar_data : A }.
Arguments MkApiResponse {A}.
Definition api_ok {A} (data : A) : ApiResponse A := MkApiResponse 200 "success" data.
Record Page (A : Type) := MkPage { pg_total : nat; pg_page : Z; pg_page_size : Z; pg_items : list A }.
Arguments MkPage {A}.
Arguments pg_total {A}.
Arguments pg_items {A}.
Record SystemConfig := MkSystemConfig {
  syc_listen : string; syc_quic_port : Z; syc_kcp_port : Z; syc_http_gw_port : Z; syc_https_gw_port : Z;
  syc_root_domain : string; syc_tcp_mux : bool; syc_tls_force : bool; syc_max_conn_pool : Z; syc_heartbeat_timeout : Z }.
Record SystemStatus := MkSystemStatus {
  sst_client_counts : nat; sst_total_client_counts : nat; sst_tunnel_type_count : gmap string nat;
  sst_active_connections : Z; sst_total_traffic_in : Z; sst_total_traffic_out : Z }.
Record SystemInfo := MkSystemInfo { sy_version : string; sy_config : SystemConfig; sy_status : SystemStatus }.
Record ClientInfo := MkClientInfo {
  ci_session_id : string; ci_agent_id : string; ci_user : string; ci_hostname : string; ci_os : string; ci_arch : string;
  ci_client_ip : string; ci_version : string; ci_tunnel_count : Z; ci_active_connections : Z; ci_connected_secs : Z;
  ci_status : string }.
Definition display_id (c : ClientInfo) : string := if is_empty (ci_agent_id c) then ci_session_id c else ci_agent_id c.
Record TunnelInfo := MkTunnelInfo {
  ti_name : string; ti_tunnel_type : string; ti_remote_addr : string; ti_local_addr : string; ti_session_id : string;
  ti_status : string; ti_today_traffic_in : Z; ti_today_traffic_out : Z; ti_active_connections : Z;
  ti_last_start_time : option string }.

(** ** [snapshot.rs] *)

Record DashboardSnapshot := MkDashboardSnapshot {
  ds_clients : list ClientInfo; ds_tunnels : list TunnelInfo; ds_tunnel_type_count : gmap string nat;
  ds_active_connections : Z; ds_total_client_counts : nat; ds_total_traffic_in : Z; ds_total_traffic_out : Z }.

(** [sort_by]: online ones first, then by the id shown, then by session. *)
Definition client_le (a b : ClientInfo) : Prop :=
  let ao := String.eqb (ci_status a) "online" in let bo := String.eqb (ci_status b) "online" in
  if Bool.eqb ao bo
  then if decide (display_id a = display_id b) then String.le (ci_session_id a) (ci_session_id b)
       else String.le (display_id a) (display_id b)
  else ao = true.
Definition tunnel_le (a b : TunnelInfo) : Prop :=
  if decide (ti_name a = ti_name b) then String.le (ti_session_id a) (ti_session_id b) else String.le (ti_name a) (ti_name b).
#[global] Instance client_le_dec a b : Decision (client_le a b).
Proof. unfold client_le. destruct (Bool.eqb _ _); [destruct (decide _)|]; apply _. Defined.
#[global] Instance tunnel_le_dec a b : Decision (tunnel_le a b).
Proof. unfold tunnel_le. destruct (decide _); apply _. Defined.

(** [Duration::as_secs] of an elapsed time in nanoseconds. *)
Definition elapsed_secs (since now : Z) : Z := Z.max 0 (now - since) / 1000000000.

Section Snapshot.
(** The order a hash map is walked in, and chrono's rendering of a time stamp. *)
Context (iter_controls : gmap string Z -> list (string * Z)) (iter_tunnels : TunnelManager -> list (string * TunnelEntry))
  (fmt_time : Z -> option string).

Definition format_tunnel_time (unix : option Z) : option string := unix ≫= fmt_time.

Definition tunnel_info (m : MemMetrics) (t : Now) (session_id : string) (s : TunnelSummary) : TunnelInfo * MemMetrics :=
  let '(traffic, m) := tunnel_snapshot m (tsm_name s) t in
  (MkTunnelInfo (tsm_name s) (tsm_tunnel_type s) (tsm_remote_addr s) (tsm_local_addr s) session_id (tsm_status s)
     (from_option tsn_today_traffic_in 0%Z traffic) (from_option tsn_today_traffic_out 0%Z traffic)
     (from_option tsn_active_connections 0%Z traffic) (traffic ≫= fun x => format_tunnel_time (tsn_last_start_at x)), m).
Fixpoint tunnel_infos (m : MemMetrics) (t : Now) (session_id : string) (l : list TunnelSummary) : list TunnelInfo * MemMetrics :=
  match l with
  | [] => ([], m)
  | s :: l => let '(i, m) := tunnel_info m t session_id s in let '(rest, m) := tunnel_infos m t session_id l in (i :: rest, m)
  end.

Definition online_client (c : Control) (tunnels : list TunnelInfo) (now : Z) : ClientInfo :=
  MkClientInfo (c_session_id c) (c_agent_id c) (c_user c) (c_hostname c) (c_os c) (c_arch c) (c_client_ip c) (c_version c)
    (tunnel_count c) (foldr Z.add 0%Z (map ti_active_connections tunnels)) (elapsed_secs (c_connected_at c) now) "online".
Fixpoint online_clients (m : MemMetrics) (t : Now) (now : Z) (online : list Control)
    : list ClientInfo * list TunnelInfo * MemMetrics :=
  match online with
  | [] => ([], [], m)
  | c :: online =>
      let '(ts, m) := tunnel_infos m t (c_session_id c) (tm_summaries iter_tunnels (c_tunnels c)) in
      let '(cs, ts', m) := online_clients m t now online in
      (online_client c ts now :: cs, (ts ++ ts')%list, m)
  end.
Definition offline_client (r : AgentEntry) (now : Z) : ClientInfo :=
  MkClientInfo (ae_session_id r) (ae_agent_id r) (ae_user r) (ae_hostname r) (ae_os r) (ae_arch r) (ae_client_ip r)
    (ae_version r) (ae_tunnel_count r) 0 (from_option (fun t => elapsed_secs t now) 0%Z (ae_disconnected_at r)) "offline".
Definition shown_offline (online : list Control) (r : AgentEntry) : bool :=
  negb (ae_online r) && negb (bool_decide (ae_session_id r ∈ map c_session_id online)).

Definition type_counts (ts : list TunnelInfo) : gmap string nat :=
  fold_left (fun m x => <[ti_tunnel_type x := S (default O (m !! ti_tunnel_type x))]> m) ts ∅.

(** The controls of the table. *)
Definition online_controls (sv : Service) : list Control :=
  omap (fun e => session_of sv e.2) (iter_controls (sv_controls sv)).
Definition set_dash_metrics (sv : Service) (m : MemMetrics) : Service :=
  let w := sv_world sv in set_world sv (MkWorld (set_metrics (w_tables w) m) (w_sessions w)).
Definition dashboard_snapshot (sv : Service) (t : Now) (now : Z) : DashboardSnapshot * Service :=
  let online := online_controls sv in
  let '(on, tunnels, m) := online_clients (metrics_of sv) t now online in
  let off := map (fun r => offline_client r now) (List.filter (shown_offline online) (agents_list (sv_agents sv))) in
  let clients := merge_sort client_le (on ++ off)%list in
  let '(stats, m) := server_snapshot m t in
  (MkDashboardSnapshot clients (merge_sort tunnel_le tunnels) (type_counts tunnels) (ss_active_connections stats)
     (length clients) (ss_total_traffic_in stats) (ss_total_traffic_out stats), set_dash_metrics sv m).
End Snapshot.

(** ** [routes.rs]: the gate *)

Section Gate.
(** [HeaderValue::to_str] and the base64 engine. *)
Context (to_str : string -> option string) (b64_decode : string -> option string).

(** [authorization]: the request's first Authorization header. *)
Definition authorized (cfg : DashboardConfig) (authorization : option string) : bool :=
  match authorization ≫= to_str with
  | None => false
  | Some h =>
      match (match strip_prefix "Basic " h with Some r => Some r | None => strip_prefix "basic " h end) with
      | None => false
      | Some b64 =>
          match b64_decode (trim b64) ≫= from_utf8 with
          | None => false
          | Some s =>
              match split_once ":" s with
              | None => false
              | Some (u, p) => String.eqb u (db_user cfg) && String.eqb p (db_password cfg)
              end
          end
      end
  end.

Inductive GateResponse (R : Type) := Served (r : R) | Unauthorized (www_authenticate : string).
Arguments Served {R}.
Arguments Unauthorized {R}.
(** The middleware of every route; [next] is the route's handler. *)
Definition basic_auth {R S} (cfg : DashboardConfig) (authorization : option string) (sv : S) (next : S -> R * S) : GateResponse R * S :=
  if authorized cfg authorization then let '(r, sv) := next sv in (Served r, sv)
  else (Unauthorized ("Basic realm=" ++ dquote ++ "Restricted" ++ dquote), sv).
End Gate.
Arguments Served {R}.
Arguments Unauthorized {R}.

(** ** [routes.rs]: path segments and assets *)

Definition from_hex (b : ascii) : option N :=
  let n := code b in
  if is_digit b then Some (n - 48)%N
  else if in_range 97 102 b then Some (n - 97 + 10)%N
  else if in_range 65 70 b then Some (n - 65 + 10)%N
  else None.
Fixpoint percent_bytes (input : string) : option string :=
  match input with
  | "" => Some ""
  | String c rest =>
      let plain c := String c <$> percent_bytes rest in
      if Ascii.eqb c "%" then
        match rest with
        | String a (String b rest) =>
            match from_hex a, from_hex b with
            | Some h, Some l => String (byte_of (16 * h + l)) <$> percent_bytes rest
            | _, _ => None
            end
        | _ => plain c
        end
      else plain (if Ascii.eqb c "+" then " "%char else c)
  end.
Definition percent_decode (input : string) : option string := percent_bytes input ≫= from_utf8.
Definition urlencoding_decode (raw : string) : string := default raw (percent_decode raw).

Definition is_safe_asset_path (path : string) : bool := negb (is_empty path) && negb (contains ".." path).
Definition content_type (path : string) : string :=
  if ends_with ".js" path || ends_with ".mjs" path then "application/javascript; charset=utf-8"
  else if ends_with ".css" path then "text/css; charset=utf-8"
  else if ends_with ".html" path then "text/html; charset=utf-8"
  else if ends_with ".svg" path then "image/svg+xml"
  else if ends_with ".png" path then "image/png"
  else if ends_with ".ico" path then "image/x-icon"
  else if ends_with ".woff2" path then "font/woff2"
  else if ends_with ".map" path then "application/json"
  else "application/octet-stream".

Inductive AssetResponse := AssetFound (content_type body : string) | AssetMissing | NotFound.
Section Assets.
Context (assets : string -> option string).
Definition try_embedded (path : string) : option AssetResponse := (fun f => AssetFound (content_type path) f) <$> assets path.
Definition serve_asset (path : string) : AssetResponse := default AssetMissing (try_embedded path).
Definition index_html : AssetResponse := serve_asset "index.html".
Definition favicon : AssetResponse := default NotFound (try_embedded "favicon.ico").
Definition static_file (path : string) : AssetResponse :=
  let rel := trim_start_matches (Ascii.eqb "/") path in
  if negb (is_safe_asset_path rel) then NotFound else default (serve_asset "index.html") (try_embedded rel).
End Assets.

(** ** [routes.rs]: the handlers *)

Record PageQuery := MkPageQuery { pq_page : Z; pq_page_size : Z }.
Record TunnelListQuery := MkTunnelListQuery { tq_page : Z; tq_page_size : Z; tq_session_id : string; tq_q : string }.
Definition default_page : Z := 1.
Definition default_page_size : Z := 50.

(** What both listings do; the product saturates at the largest usize. *)
Definition paginate {A} (page page_size : Z) (l : list A) : Page A :=
  let page := Z.max page 1 in
  let page_size := Z.min (Z.max page_size 1) 200 in
  let start := Z.min ((page - 1) * page_size) (2 ^ 64 - 1) in
  MkPage (length l) page page_size (take (Z.to_nat page_size) (drop (Z.to_nat start) l)).

Definition tunnel_matches (session_id needle : string) (x : TunnelInfo) : bool :=
  (is_empty session_id || String.eqb (ti_session_id x) session_id)
  && (is_empty needle || contains needle (to_lower (ti_name x))).

Definition is_online_status (c : ClientInfo) : bool := is_empty (ci_status c) || String.eqb (ci_status c) "online".

Section Handlers.
Context (iter_controls : gmap string Z -> list (string * Z)) (iter_tunnels : TunnelManager -> list (string * TunnelEntry))
  (drain : TunnelManager -> list (string * TunnelEntry)) (fmt_time : Z -> option string) (fmt_day fmt_hour : Now -> nat -> string).
Abbreviation snapshot := (dashboard_snapshot iter_controls iter_tunnels fmt_time).

Definition system_info (sv : Service) (version : string) (t : Now) (now : Z) : ApiResponse SystemInfo * Service :=
  let '(snap, sv) := snapshot sv t now in
  let cfg := sv_cfg sv in
  (api_ok (MkSystemInfo version
     (MkSystemConfig (sc_listen cfg) (sc_quic_port cfg) (sc_kcp_port cfg) (sc_http_gw_port cfg) (sc_https_gw_port cfg)
        (sc_root_domain cfg) (str_tcp_mux (sc_transport cfg)) (st_force (str_tls (sc_transport cfg)))
        (str_max_conn_pool (sc_transport cfg)) (str_heartbeat_timeout (sc_transport cfg)))
     (MkSystemStatus (length (List.filter is_online_status (ds_clients snap))) (ds_total_client_counts snap)
        (ds_tunnel_type_count snap) (ds_active_connections snap) (ds_total_traffic_in snap) (ds_total_traffic_out snap))), sv).
Definition system_traffic (sv : Service) (range : string) (t : Now) : ApiResponse TunnelTrafficHistory * Service :=
  let '(hist, m) := server_traffic fmt_day fmt_hour (metrics_of sv) (traffic_window_parse range) t in
  (api_ok hist, set_dash_metrics sv m).
Definition list_clients (sv : Service) (q : PageQuery) (t : Now) (now : Z) : ApiResponse (Page ClientInfo) * Service :=
  let '(snap, sv) := snapshot sv t now in (api_ok (paginate (pq_page q) (pq_page_size q) (ds_clients snap)), sv).
(** [None]: the answer is 404. *)
Definition get_client (sv : Service) (segment : string) (t : Now) (now : Z) : option (ApiResponse ClientInfo) * Service :=
  let session_id := urlencoding_decode segment in
  let '(snap, sv) := snapshot sv t now in
  (api_ok <$> List.find (fun c => String.eqb (ci_session_id c) session_id || String.eqb (ci_agent_id c) session_id)
                (ds_clients snap), sv).
Definition kick_client_route (sv : Service) (segment : string) (env : CallEnv) : ApiResponse unit * Service :=
  let session_id := urlencoding_decode segment in
  match kick_client drain sv session_id env with
  | (sv, Ok _) => (api_ok tt, sv)
  | (sv, Err e) => (MkApiResponse 404 e tt, sv)
  end.
Definition list_tunnels (sv : Service) (q : TunnelListQuery) (t : Now) (now : Z) : ApiResponse (Page TunnelInfo) * Service :=
  let '(snap, sv) := snapshot sv t now in
  let filtered := List.filter (tunnel_matches (trim (tq_session_id q)) (to_lower (trim (tq_q q)))) (ds_tunnels snap) in
  (api_ok (paginate (tq_page q) (tq_page_size q) filtered), sv).
Definition tunnel_traffic_route (sv : Service) (segment range : string) (t : Now) : option (ApiResponse TunnelTrafficHistory) * Service :=
  let name := urlencoding_decode segment in
  let '(hist, m) := tunnel_traffic fmt_day fmt_hour (metrics_of sv) name (traffic_window_parse range) t in
  (api_ok <$> hist, set_dash_metrics sv m).
End Handlers.

(** ** Lemmas: the gate *)

Local Open Scope list_scope.

Lemma authorized_spec to_str b64_decode cfg auth :
  authorized to_str b64_decode cfg auth = true <->
  exists h b raw, auth ≫= to_str = Some h /\ (h = "Basic " +:+ b \/ h = "basic " +:+ b)
    /\ b64_decode (trim b) = Some raw /\ utf8_valid raw = true /\ raw = db_user cfg +:+ ":" +:+ db_password cfg
    /\ sforall (fun d => negb (Ascii.eqb ":" d)) (db_user cfg) = true.
Proof.
  unfold authorized. destruct (auth ≫= to_str) as [h|]; [|naive_solver].
  assert (forall b, (match strip_prefix "Basic " h with Some r => Some r | None => strip_prefix "basic " h end) = Some b
    <-> h = "Basic " +:+ b \/ h = "basic " +:+ b) as Hp.
  { intros b. destruct (strip_prefix "Basic " h) as [r|] eqn:E1.
    - apply strip_prefix_spec in E1 as ->. split; [intros [= <-]; by left|].
      intros [H|H]; [by injection H as ->|by injection H].
    - rewrite strip_prefix_spec. split; [by right|]. intros [H|H]; [|done]. apply strip_prefix_spec in H. congruence. }
  destruct (match strip_prefix "Basic " h with Some r => Some r | None => strip_prefix "basic " h end) as [b|] eqn:Eb.
  2:{ split; [done|]. intros (h' & b & raw & [= <-] & Hb & _). apply Hp in Hb. congruence. }
  assert (h = "Basic " +:+ b \/ h = "basic " +:+ b) as Hb by (by apply Hp).
  assert (forall h' b', Some h = Some h' -> h' = "Basic " +:+ b' \/ h' = "basic " +:+ b' -> b' = b) as Huniq.
  { intros h' b' [= <-] H. apply Hp in H. congruence. }
  destruct (b64_decode (trim b)) as [raw|] eqn:Er; cbn [mbind option_bind].
  2:{ split; [done|]. intros (h' & b' & raw & Eh & Hb' & Hr & _). rewrite (Huniq _ _ Eh Hb') in Hr. congruence. }
  unfold from_utf8. destruct (utf8_valid raw) eqn:Eu.
  2:{ split; [done|]. intros (h' & b' & raw' & Eh & Hb' & Hr & Hu & _). rewrite (Huniq _ _ Eh Hb') in Hr. congruence. }
  split.
  - destruct (split_once ":" raw) as [[u p]|] eqn:Es; [|done]. intros [->%String.eqb_eq ->%String.eqb_eq]%andb_true_iff.
    apply split_once_spec in Es as [-> Hno]. exists h, b, (db_user cfg +:+ ":" +:+ db_password cfg). naive_solver.
  - intros (h' & b' & raw' & Eh & Hb' & Hr & _ & -> & Hno). rewrite (Huniq _ _ Eh Hb'), Er in Hr. injection Hr as ->.
    rewrite (proj2 (split_once_spec ":" _ _ _) (conj eq_refl Hno)). by rewrite !String.eqb_refl.
Qed.

(** ** Lemmas: pages *)

Lemma concat_pages {A} (sz n : nat) (l : list A) :
  length l <= n * sz -> concat (map (fun k => take sz (drop (k * sz) l)) (seq 0 n)) = l.
Proof.
  revert l. induction n as [|n IH]; intros l Hl; [destruct l; [done|cbn in Hl; lia]|].
  rewrite <- cons_seq. cbn [map concat]. rewrite <- seq_shift, map_map. cbn [Nat.mul]. rewrite drop_0.
  etrans; [|apply (take_drop sz l)]. f_equal. rewrite <- (IH (drop sz l)) at 1 by (rewrite length_drop; lia).
  f_equal. apply map_ext. intros k. by rewrite drop_drop.
Qed.

(** ** Lemmas: the snapshot *)

Section SnapshotLemmas.
Context (iter_tunnels : TunnelManager -> list (string * TunnelEntry)) (fmt_time : Z -> option string).

Lemma tunnel_infos_rows m t sid l :
  map (fun x => (ti_session_id x, ti_name x)) (tunnel_infos fmt_time m t sid l).1 = map (fun s => (sid, tsm_name s)) l.
Proof.
  revert m. induction l as [|s l IH]; intros m; [done|]. cbn [tunnel_infos]. unfold tunnel_info.
  destruct (tunnel_snapshot m (tsm_name s) t) as [traffic m1]. specialize (IH m1).
  destruct (tunnel_infos _ m1 t sid l) as [rest m2]. cbn in *. by rewrite IH.
Qed.
Lemma online_clients_rows m t now online :
  map ci_session_id (online_clients iter_tunnels fmt_time m t now online).1.1 = map c_session_id online
  /\ Forall (fun c => ci_status c = "online"%string) (online_clients iter_tunnels fmt_time m t now online).1.1
  /\ map (fun x => (ti_session_id x, ti_name x)) (online_clients iter_tunnels fmt_time m t now online).1.2
     = concat (map (fun c => map (fun e => (c_session_id c, e.1)) (iter_tunnels (c_tunnels c))) online).
Proof.
  revert m. induction online as [|c online IH]; intros m; [by repeat constructor|]. cbn [online_clients].
  pose proof (tunnel_infos_rows m t (c_session_id c) (tm_summaries iter_tunnels (c_tunnels c))) as Ht.
  destruct (tunnel_infos _ m t _ _) as [ts m1]. specialize (IH m1).
  destruct (online_clients _ _ m1 t now online) as [[cs ts'] m2]. cbn in *. destruct IH as (-> & Hs & Htt).
  split; [done|]. split; [by constructor|]. rewrite map_app, Htt, Ht. f_equal. unfold tm_summaries. rewrite map_map.
  apply map_ext. intros [n e]. unfold summary_of. cbn. by destruct (te_tunnel e).
Qed.
End SnapshotLemmas.

(** *** The orders of the listings *)

#[local] Instance string_le_trans : Transitive String.le.
Proof. apply _. Qed.
Lemma le_lex_trans {A} (f g : A -> string) (a b c : A) :
  let R a b := if decide (f a = f b) then String.le (g a) (g b) else String.le (f a) (f b) in R a b -> R b c -> R a c.
Proof.
  cbn. destruct (decide (f a = f b)) as [->|Hab]; [destruct (decide (f b = f c)); [by etrans|done]|].
  destruct (decide (f b = f c)) as [<-|Hbc]; [by rewrite decide_False|]. intros H1 H2.
  destruct (decide (f a = f c)) as [E|]; [|by etrans]. rewrite E in *. destruct Hbc. by apply (anti_symm String.le).
Qed.
Lemma le_lex_total {A} (f g : A -> string) (a b : A) :
  let R a b := if decide (f a = f b) then String.le (g a) (g b) else String.le (f a) (f b) in R a b \/ R b a.
Proof.
  cbn. destruct (decide (f a = f b)) as [E|E].
  - rewrite decide_True by done. apply (total String.le).
  - rewrite decide_False by congruence. apply (total String.le).
Qed.

#[local] Instance tunnel_le_trans : Transitive tunnel_le.
Proof. intros a b c. apply (le_lex_trans ti_name ti_session_id). Qed.
#[local] Instance tunnel_le_total : Total tunnel_le.
Proof. intros a b. apply (le_lex_total ti_name ti_session_id). Qed.
#[local] Instance client_le_trans : Transitive client_le.
Proof.
  intros a b c. unfold client_le. pose proof (le_lex_trans display_id ci_session_id a b c) as H. cbn in H.
  destruct (String.eqb (ci_status a) "online"), (String.eqb (ci_status b) "online"), (String.eqb (ci_status c) "online"); cbn; naive_solver.
Qed.
#[local] Instance client_le_total : Total client_le.
Proof.
  intros a b. unfold client_le. pose proof (le_lex_total display_id ci_session_id a b) as H. cbn in H.
  destruct (String.eqb (ci_status a) "online"), (String.eqb (ci_status b) "online"); cbn; auto.
Qed.

Lemma filter_bool_perm {A} (p : A -> bool) (l k : list A) : l ≡ₚ k -> List.filter p l ≡ₚ List.filter p k.
Proof.
  induction 1 as [|x l k _ IH|x y l|l k j _ IH1 _ IH2]; cbn; [done| | |by etrans].
  - destruct (p x); [by constructor|done].
  - destruct (p x), (p y); try done. constructor.
Qed.

(** The controls of a consistent service are those its table names. *)
Lemma online_controls_ids iter_controls sv :
  iter_controls (sv_controls sv) ≡ₚ map_to_list (sv_controls sv) -> service_inv (fun tm => map_to_list tm) false None sv ->
  map c_session_id (online_controls iter_controls sv) = map fst (iter_controls (sv_controls sv)).
Proof.
  intros Hp Hinv. unfold online_controls.
  assert (forall e, e ∈ iter_controls (sv_controls sv) -> sv_controls sv !! e.1 = Some e.2) as Hin.
  { intros [sid g] He. rewrite Hp in He. by apply elem_of_map_to_list in He. }
  clear Hp. induction (iter_controls (sv_controls sv)) as [|[sid g] l IH]; [done|]. cbn.
  destruct (si_table _ _ _ _ Hinv sid g) as (c & E & Hs); [apply (Hin (sid, g)); by left|]. unfold session_of in *. cbn in E. rewrite E. cbn. rewrite Hs. f_equal.
  apply IH. intros e He. apply Hin. by right.
Qed.

(** ** Properties *)

(** The dashboard serves a request exactly when its Authorization header is
    readable, carries the scheme in one of the two spellings the code knows, and
    decodes to the configured user and password, the user without a colon; any
    other request gets the challenge and touches nothing. *)
Theorem dashboard_gate {R S} (to_str b64_decode : string -> option string) (cfg : DashboardConfig) (auth : option string)
    (sv : S) (next : S -> R * S) :
  let '(response, sv') := basic_auth to_str b64_decode cfg auth sv next in
  (response = Served (next sv).1 /\ sv' = (next sv).2
   /\ exists h b raw, auth ≫= to_str = Some h /\ (h = "Basic " +:+ b \/ h = "basic " +:+ b)
        /\ b64_decode (trim b) = Some raw /\ utf8_valid raw = true /\ raw = db_user cfg +:+ ":" +:+ db_password cfg
        /\ sforall (fun d => negb (Ascii.eqb ":" d)) (db_user cfg) = true)
  \/ (response = Unauthorized ("Basic realm=" +:+ dquote +:+ "Restricted" +:+ dquote) /\ sv' = sv
      /\ forall h b, auth ≫= to_str = Some h -> h = "Basic " +:+ b \/ h = "basic " +:+ b ->
           b64_decode (trim b) = Some (db_user cfg +:+ ":" +:+ db_password cfg) ->
           utf8_valid (db_user cfg +:+ ":" +:+ db_password cfg) = true ->
           sforall (fun d => negb (Ascii.eqb ":" d)) (db_user cfg) = false).
Proof.
  unfold basic_auth. pose proof (authorized_spec to_str b64_decode cfg auth) as [Hf Hb].
  destruct (authorized to_str b64_decode cfg auth).
  - destruct (next sv) as [r sv'] eqn:En. left. split; [done|]. split; [done|]. by apply Hf.
  - right. split; [done|]. split; [done|]. intros h b Hh Hs Hd Hu. destruct (sforall _ _) eqn:E; [|done].
    assert (false = true) by (apply Hb; by exists h, b, (db_user cfg +:+ ":" +:+ db_password cfg)). done.
Qed.

(** A user name with a colon passes the validation and locks everyone out. *)
Lemma colon_user_locked_out to_str b64_decode addr port auth :
  authorized to_str b64_decode (MkDashboardConfig addr port "ops:web" "pw") auth = false
  /\ dashboard_validate (MkDashboardConfig addr port "ops:web" "pw") = Ok tt.
Proof.
  split; [|unfold dashboard_validate, dashboard_enabled; by destruct (0 <? db_port _)%Z]. apply not_true_is_false.
  intros (h & b & raw & _ & _ & _ & _ & _ & Hno)%authorized_spec. done.
Qed.

(** The pages of a listing are the listing: for a page size as the handlers clamp
    it, the items of the pages from the first on, put one after another, are the
    whole list without gap or overlap, and every page tells its length. *)
Theorem pages_partition {A} (page_size : Z) (n : nat) (l : list A) :
  let sz := Z.min (Z.max page_size 1) 200 in
  (Z.of_nat n * 200 < 2 ^ 64)%Z -> (Z.of_nat (length l) <= Z.of_nat n * sz)%Z ->
  concat (map (fun k => pg_items (paginate (Z.of_nat k + 1) page_size l)) (seq 0 n)) = l
  /\ forall page, pg_total (paginate page page_size l) = length l.
Proof.
  intros sz Hn Hl. split; [|done]. etrans; [|apply (concat_pages (Z.to_nat sz) n l); lia]. f_equal.
  apply map_ext_in. intros k Hk%List.in_seq. unfold paginate. cbn [pg_items]. fold sz.
  replace (Z.max (Z.of_nat k + 1) 1 - 1)%Z with (Z.of_nat k) by lia. rewrite Z.min_l by (subst sz; nia).
  do 2 f_equal. subst sz. nia.
Qed.

(** C32: The snapshot shows what is there: in every reachable state of the service there
    is exactly one online row for each entry of the session table, and one row for
    each tunnel of each session and no other; both listings are sorted. *)
Theorem snapshot_exact `{Crypto} (hash_iter : gset string -> list string) iter_controls iter_tunnels fmt_time
    (sv : Service) (t : Now) (now : Z) :
  (forall m, iter_controls m ≡ₚ map_to_list m) -> (forall tm, iter_tunnels tm ≡ₚ map_to_list tm) ->
  reachable (service_step map_to_list hash_iter) service_init sv ->
  let snap := (dashboard_snapshot iter_controls iter_tunnels fmt_time sv t now).1 in
  map ci_session_id (List.filter (fun c => String.eqb (ci_status c) "online") (ds_clients snap)) ≡ₚ (map_to_list (sv_controls sv)).*1
  /\ map (fun x => (ti_session_id x, ti_name x)) (ds_tunnels snap)
     ≡ₚ concat (map (fun c => map (fun e => (c_session_id c, e.1)) (iter_tunnels (c_tunnels c))) (online_controls iter_controls sv))
  /\ StronglySorted client_le (ds_clients snap) /\ StronglySorted tunnel_le (ds_tunnels snap).
Proof.
  intros Hic Hit Hr. apply service_inv_reachable in Hr. unfold dashboard_snapshot.
  pose proof (online_clients_rows iter_tunnels fmt_time (metrics_of sv) t now (online_controls iter_controls sv)) as (Hids & Hon & Hts).
  destruct (online_clients _ _ _ t now _) as [[on tunnels] m]. cbn in Hids, Hon, Hts.
  destruct (server_snapshot m t) as [stats m']. cbn.
  set (off := map (fun r => offline_client r now) _).
  split; [|split; [|split; apply StronglySorted_merge_sort; apply _]].
  - etrans; [apply Permutation_map, filter_bool_perm, merge_sort_Permutation|]. rewrite List.filter_app, map_app.
    assert (List.filter (fun c => String.eqb (ci_status c) "online") off = []) as ->.
    { subst off. generalize (List.filter (shown_offline (online_controls iter_controls sv)) (agents_list (sv_agents sv))) as l.
      intros l. induction l as [|r l IH]; [done|exact IH]. }
    assert (List.filter (fun c => String.eqb (ci_status c) "online") on = on) as ->.
    { clear -Hon. induction Hon as [|c l Hc _ IH]; [done|]. cbn. by rewrite Hc, IH. }
    cbn [map]. rewrite (right_id_L [] (++)), Hids, (online_controls_ids _ _ (Hic _) Hr). apply Permutation_map, Hic.
  - etrans; [apply Permutation_map, merge_sort_Permutation|]. by rewrite Hts.
Qed.

(** *** Witnesses *)

Lemma pages_partition_witness :
  let l := seq 0 7 in
  (Z.of_nat 3 * 200 < 2 ^ 64)%Z /\ (Z.of_nat (length l) <= Z.of_nat 3 * 3)%Z
  /\ concat (map (fun k => pg_items (paginate (Z.of_nat k + 1) 3 l)) (seq 0 3)) = l.
Proof. split; [reflexivity|]. split; [vm_compute; discriminate|]. apply (pages_partition 3 3 (seq 0 7)); [reflexivity|vm_compute; discriminate]. Defined.

#[local] Existing Instance ex_crypto_off.
Lemma snapshot_exact_witness :
  let snap := (dashboard_snapshot map_to_list map_to_list (fun _ => None) ex_service2 (MkNow 0 0 100) 100).1 in
  length (ds_clients snap) = 2
  /\ map ci_session_id (List.filter (fun c => String.eqb (ci_status c) "online") (ds_clients snap)) ≡ₚ (map_to_list (sv_controls ex_service2)).*1.
Proof.
  split; [vm_compute; reflexivity|].
  apply (snapshot_exact elements map_to_list map_to_list (fun _ => None) ex_service2 (MkNow 0 0 100) 100
           (fun _ => reflexivity _) (fun _ => reflexivity _) ex_service_reachable2).
Defined.

(** A name with a plus sign: the router has decoded the segment by the time the
    handler decodes it again, and looks for another tunnel. *)
Lemma plus_name_not_found : urlencoding_decode "a+b" = "a b"%string.
Proof. reflexivity. Qed.
