(* ===== verification/DesktopConfig.v ===== *)
(** * The desktop application's forms

    [desktop/src/config_bridge.rs], with [apply_config_to_ui] and
    [collect_tunnel_configs] of [desktop/src/main.rs]: a configuration becomes the
    strings of two forms, one for the server and one row for each tunnel, and the
    forms become the configuration that is saved.  The file, when it is there, has
    been loaded for editing; parsing and printing a fractional number are
    arguments. *)

From Stdlib Require Import SpecFloat.
From S2P Require Import Prelude RustStr Float64 Config EnvExpand ServerConfig ClientConfig.

Local Open Scope string_scope.

(** ** Strings *)

Fixpoint split_by (p : ascii -> bool) (s : string) : list string :=
  match s with
  | "" => [""]
  | String d s =>
      if p d then "" :: split_by p s
      else match split_by p s with [] => [String d ""] | w :: ws => String d w :: ws end
  end.
Definition is_csv_sep (c : ascii) : bool := Ascii.eqb c "," || Ascii.eqb c ";" || Ascii.eqb c lf.
Definition split_csv (raw : string) : list string :=
  List.filter (fun s => negb (is_empty s)) (map trim (split_by is_csv_sep raw)).

Definition i64_min : Z := - 2 ^ 63.
Definition i64_max : Z := 2 ^ 63 - 1.
Definition i32_min : Z := - 2 ^ 31.
Definition i32_max : Z := 2 ^ 31 - 1.

Definition parse_optional_i64 (raw : string) (dflt : Z) : Z :=
  let t := trim raw in if is_empty t then dflt else default dflt (parse_int i64_min i64_max t).
Definition parse_u16 (raw field : string) : Anyhow Z :=
  let t := trim raw in
  if is_empty t then Ok 0%Z else ok_or (parse_uint u16_max t) ("invalid " ++ field ++ ": " ++ raw).

Definition split_server_endpoint (server : string) : string * string :=
  match parse_host_port server 9527 with
  | Ok (host, port) => (host, show_Z port)
  | Err _ => let t := trim server in if is_empty t then ("127.0.0.1", "9527") else (t, "9527")
  end.
Definition assemble_server (server_addr server_port : string) : Anyhow string :=
  let addr := trim server_addr in
  bail_if (is_empty addr) with "server address is required" ;;
  let? port := ok_or (parse_uint u16_max (trim server_port)) ("invalid server port: " ++ server_port) in
  Ok (addr ++ ":" ++ show_Z port).
Definition assemble_service (local_ip local_port : string) : Anyhow string :=
  let ip := trim local_ip in
  let port_raw := trim local_port in
  if is_empty ip && is_empty port_raw then Ok "" else
  let host := if is_empty ip then "127.0.0.1" else ip in
  let? port := parse_u16 port_raw "service port" in
  Ok (host ++ ":" ++ show_Z port).

Definition is_tls_term_plugin (ty : string) : bool := String.eqb (to_lower (trim ty)) "tls-term".
Definition is_socks5_plugin (ty : string) : bool := String.eqb (to_lower (trim ty)) "socks5".

Definition protocol_index (protocol : string) : Z :=
  let p := to_lower (trim protocol) in
  if String.eqb p "websocket" || String.eqb p "ws" then 1
  else if String.eqb p "quic" then 2 else if String.eqb p "kcp" then 3 else 0.
(** [protocols.get(index as usize)]; a negative index is out of range. *)
Definition protocol_name (index : Z) : string :=
  if (index <? 0)%Z then "tcp" else default "tcp" (["tcp"; "websocket"; "quic"; "kcp"] !! Z.to_nat index).
Definition optional_i64_display (v : Z) : string := if (v <? 0)%Z then "" else show_Z v.
Definition ws_path_display (path : string) : string :=
  let t := trim path in if is_empty t || String.eqb t ORBIEN_WEBSOCKET_PATH then "" else t.

(** The first 19 digits of a random UUID's 32. *)
Definition new_agent_id (uuid_simple : string) : string := stake 19 uuid_simple.
Definition set_agent_id (c : ClientConfig) (id : string) : ClientConfig :=
  MkClientConfig (cc_server c) (cc_user c) id (cc_auth c) (cc_transport c) (cc_tunnels c) (cc_udp_packet_size c) (cc_log c).
Definition ensure_agent_id (uuid_simple : string) (c : ClientConfig) : ClientConfig * bool :=
  if negb (is_empty (trim (cc_agent_id c))) then (c, false) else (set_agent_id c (new_agent_id uuid_simple), true).

Definition resolve_path (default_config_path config_path : string) : string :=
  let trimmed := trim config_path in if is_empty trimmed then default_config_path else trimmed.

(** ** A tunnel's row *)

Record TunnelParts := MkTunnelParts {
  tp_name : string; tp_tunnel_type : string; tp_local_ip : string; tp_local_port : string; tp_remote_port : string;
  tp_domains : string; tp_locations : string; tp_basic_auth_user : string; tp_basic_auth_password : string;
  tp_host_header_rewrite : string; tp_bandwidth : string; tp_bandwidth_limit_side : string;
  tp_proxy_protocol_version : string; tp_plugin_tls_term : bool; tp_plugin_local_addr : string;
  tp_plugin_cert_file : string; tp_plugin_key_file : string; tp_plugin_host_rewrite : string;
  tp_plugin_username : string; tp_plugin_password : string }.

Section Rows.
Context (parse_f64 : string -> option f64) (show_f64 : f64 -> string).

Definition parse_bandwidth_mbps (raw : string) : f64 :=
  let t := trim raw in if is_empty t then f_of_Z 0 else default (f_of_Z 0) (parse_f64 t).
(** [v as i64] of a number without a fraction. *)
Definition f_whole (v : f64) : option Z :=
  match v with
  | S754_zero _ => Some 0%Z
  | S754_finite s m e =>
      let z := f_trunc m e in
      if (0 <=? e)%Z || (z * 2 ^ (- e) =? Z.pos m)%Z then Some (if s then - z else z)%Z else None
  | _ => None
  end.
Definition bandwidth_display (v : f64) : string :=
  if f_eq v (f_of_Z 0) then ""
  else match f_whole v with
       | Some z => if (Z.abs z <? 2 ^ 63)%Z then show_Z z else show_f64 v
       | None => show_f64 v
       end.

Definition socks5_of (t : TunnelConfig) : option PluginConfig :=
  match tc_plugin t with Some p => if is_socks5_plugin (pl_plugin_type p) then Some p else None | None => None end.
Definition tls_term_of (t : TunnelConfig) : option PluginConfig :=
  match tc_plugin t with Some p => if is_tls_term_plugin (pl_plugin_type p) then Some p else None | None => None end.

Definition local_parts (t : TunnelConfig) : string * string :=
  match socks5_of t, tls_term_of t with
  | Some _, _ => ("", "")
  | None, Some p => match parse_host_port (pl_service p) 8080 with Ok (h, port) => (h, show_Z port) | Err _ => ("127.0.0.1", "8080") end
  | None, None =>
      if is_empty (trim (tc_service t)) then ("127.0.0.1", "0")
      else match parse_host_port (tc_service t) 0 with Ok (h, port) => (h, show_Z port) | Err _ => (tc_service t, "0") end
  end.
Definition tunnel_to_parts (t : TunnelConfig) : TunnelParts :=
  let '(local_ip, local_port) := local_parts t in
  let tls {A} (f : PluginConfig -> A) (d : A) := match tls_term_of t with Some p => f p | None => d end in
  let socks f := match socks5_of t with Some p => f p | None => "" end in
  MkTunnelParts (tc_name t) (match socks5_of t with Some _ => "socks5" | None => tc_protocol t end) local_ip local_port
    (show_Z (tc_remote_port t)) (join "," (tc_domains t)) (join "," (tc_locations t)) (tc_basic_auth_user t)
    (tc_basic_auth_password t) (tc_host_header_rewrite t) (bandwidth_display (tt_bandwidth (tc_transport t)))
    (tt_bandwidth_limit_side (tc_transport t)) (tt_proxy_protocol_version (tc_transport t))
    (tls (fun _ => true) false) (tls (fun _ => local_ip ++ ":" ++ local_port) "") (tls pl_cert_file "") (tls pl_key_file "")
    (tls pl_host_header_rewrite "") (socks pl_username) (socks pl_password).

Definition plugin_service (p : TunnelParts) : Anyhow string :=
  if negb (is_empty (trim (tp_local_port p))) || negb (is_empty (trim (tp_local_ip p)))
  then assemble_service (tp_local_ip p) (tp_local_port p)
  else if negb (is_empty (trim (tp_plugin_local_addr p))) then Ok (trim (tp_plugin_local_addr p))
  else assemble_service "127.0.0.1" "8080".
Definition plugin_from_parts (p : TunnelParts) (ty : string) : Anyhow (option PluginConfig) :=
  if String.eqb ty "socks5"
  then Ok (Some (MkPlugin "socks5" "" "" "" "" (trim (tp_plugin_username p)) (trim (tp_plugin_password p))))
  else if String.eqb ty "https" && tp_plugin_tls_term p
  then let? service := plugin_service p in
       Ok (Some (MkPlugin "tls-term" service (trim (tp_plugin_cert_file p)) (trim (tp_plugin_key_file p))
                   (trim (tp_plugin_host_rewrite p)) "" ""))
  else Ok None.
Definition tunnel_from_parts (p : TunnelParts) : Anyhow TunnelConfig :=
  let ty := to_lower (trim (tp_tunnel_type p)) in
  let? plugin := plugin_from_parts p ty in
  let? service := match plugin with Some _ => Ok "" | None => assemble_service (tp_local_ip p) (tp_local_port p) end in
  let? remote_port := parse_u16 (tp_remote_port p) "remotePort" in
  Ok (MkTunnel (trim (tp_name p)) (if String.eqb ty "socks5" then "tcp" else ty) service remote_port
        (split_csv (tp_domains p)) (split_csv (tp_locations p)) (trim (tp_basic_auth_user p)) (trim (tp_basic_auth_password p))
        (trim (tp_host_header_rewrite p))
        (MkTunnelTransport (parse_bandwidth_mbps (tp_bandwidth p))
           (if String.eqb (trim (tp_bandwidth_limit_side p)) "server" then "server" else "client")
           (trim (tp_proxy_protocol_version p))) plugin).

Definition collect_tunnel_configs (rows : list TunnelParts) : Anyhow (list TunnelConfig) :=
  try_map tunnel_from_parts (List.filter (fun r => negb (is_empty (trim (tp_name r)))) rows).

(** ** The server's form *)

Record ServerForm := MkServerForm {
  sf_server_addr : string; sf_server_port : string; sf_token : string; sf_user : string; sf_protocol_index : Z;
  sf_pool_count : string; sf_tcp_mux : bool; sf_tls_enable : bool; sf_ws_path : string; sf_mux_keepalive : string;
  sf_heartbeat_interval : string; sf_heartbeat_timeout : string; sf_udp_packet_size : string; sf_tls_server_name : string;
  sf_tls_ca : string; sf_tls_cert : string; sf_tls_key : string; sf_quic_keepalive : string; sf_quic_idle : string;
  sf_quic_streams : string }.

(** [apply_config_to_ui] *)
Definition form_of (c : ClientConfig) : ServerForm :=
  let '(host, port) := split_server_endpoint (cc_server c) in
  let tr := cc_transport c in
  let index := protocol_index (tr_protocol tr) in
  let is_quic := (index =? 2)%Z in
  MkServerForm host port (cau_token (cc_auth c)) (cc_user c) index (show_Z (tr_pool_count tr)) (negb is_quic && tr_tcp_mux tr)
    (is_quic || ctl_enable (tr_tls tr)) (ws_path_display (tr_ws_path tr)) (show_Z (tr_mux_keepalive_secs tr))
    (optional_i64_display (tr_heartbeat_interval tr)) (optional_i64_display (tr_heartbeat_timeout tr))
    (show_Z (cc_udp_packet_size c)) (ctl_server_name (tr_tls tr)) (ctl_trusted_ca_file (tr_tls tr))
    (ctl_cert_file (tr_tls tr)) (ctl_key_file (tr_tls tr)) (show_Z (qc_keepalive_period (tr_quic tr)))
    (show_Z (qc_max_idle_timeout (tr_quic tr))) (show_Z (qc_max_incoming_streams (tr_quic tr))).
Definition rows_of (c : ClientConfig) : list TunnelParts := map tunnel_to_parts (cc_tunnels c).

(** What there is to start from when there is no file. *)
Definition blank_config : ClientConfig :=
  MkClientConfig "" "" "" (MkClientAuth default_auth_type "") client_transport_default [] 1500 log_default.
Definition build_base (f : ServerForm) (uuid_simple : string) (tunnels : list TunnelConfig) : Anyhow ClientConfig :=
  let? server := assemble_server (sf_server_addr f) (sf_server_port f) in
  let is_quic := (sf_protocol_index f =? 2)%Z in
  let d := client_transport_default in
  let tls := tr_tls d in
  Ok (client_complete (MkClientConfig server (trim (sf_user f)) (new_agent_id uuid_simple) (MkClientAuth "token" (sf_token f))
    (MkTransport (protocol_name (sf_protocol_index f)) (default 1%Z (parse_int i32_min i32_max (trim (sf_pool_count f))))
       (negb is_quic && sf_tcp_mux f) (tr_mux_keepalive_secs d) (tr_tcp_keepalive_idle d) (tr_tcp_keepalive_interval d)
       (tr_heartbeat_interval d) (tr_heartbeat_timeout d) (tr_quic d) (tr_ws_path d)
       (MkClientTls (is_quic || sf_tls_enable f) (ctl_cert_file tls) (ctl_key_file tls) (ctl_trusted_ca_file tls) (ctl_server_name tls)))
    tunnels 1500 log_default)).

(** [existing]: the configuration loaded from the file, when the path is one. *)
Definition load_merge_tunnels (existing : option (Anyhow ClientConfig)) (f : ServerForm) (tunnels : list TunnelConfig)
    (uuid_simple uuid' : string) : Anyhow ClientConfig :=
  let? c := match existing with Some c => c | None => build_base f uuid_simple [] end in
  let c := client_complete (MkClientConfig (cc_server c) (cc_user c) (cc_agent_id c) (cc_auth c) (cc_transport c) tunnels
                              (cc_udp_packet_size c) (cc_log c)) in
  Ok (ensure_agent_id uuid' c).1.
Definition load_merge_server_fields (existing : option (Anyhow ClientConfig)) (f : ServerForm) (tunnels : list TunnelConfig)
    (uuid_simple : string) : Anyhow ClientConfig :=
  let? c := match existing with Some c => c | None => Ok blank_config end in
  let? server := assemble_server (sf_server_addr f) (sf_server_port f) in
  let is_quic := (sf_protocol_index f =? 2)%Z in
  let tr := cc_transport c in
  let c := client_complete (MkClientConfig server (trim (sf_user f)) (cc_agent_id c) (MkClientAuth "token" (sf_token f))
    (MkTransport (protocol_name (sf_protocol_index f)) (default 1%Z (parse_int i32_min i32_max (trim (sf_pool_count f))))
       (negb is_quic && sf_tcp_mux f) (default 30%Z (parse_int i64_min i64_max (trim (sf_mux_keepalive f))))
       (tr_tcp_keepalive_idle tr) (tr_tcp_keepalive_interval tr)
       (parse_optional_i64 (sf_heartbeat_interval f) (-1)) (parse_optional_i64 (sf_heartbeat_timeout f) (-1))
       (MkQuicConfig (default 10%Z (parse_uint u64_max (trim (sf_quic_keepalive f))))
          (default 30%Z (parse_uint u64_max (trim (sf_quic_idle f))))
          (default 100000%Z (parse_uint u32_max (trim (sf_quic_streams f)))))
       (trim (sf_ws_path f))
       (MkClientTls (is_quic || sf_tls_enable f) (trim (sf_tls_cert f)) (trim (sf_tls_key f)) (trim (sf_tls_ca f))
          (trim (sf_tls_server_name f))))
    tunnels (default 1500%Z (parse_uint u64_max (trim (sf_udp_packet_size f)))) (cc_log c)) in
  let tr := cc_transport c in
  bail_if ((0 <? tr_heartbeat_timeout tr)%Z && (0 <? tr_heartbeat_interval tr)%Z
           && (tr_heartbeat_timeout tr <? tr_heartbeat_interval tr)%Z)
    with ("heartbeatTimeout (" ++ show_Z (tr_heartbeat_timeout tr) ++ ") must be >= heartbeatInterval ("
          ++ show_Z (tr_heartbeat_interval tr) ++ ")") ;;
  Ok (ensure_agent_id uuid_simple c).1.
End Rows.

(** ** Lemmas: strings *)

Definition no_sep (p : ascii -> bool) (s : string) : bool := sforall (fun c => negb (p c)) s.

Lemma split_by_plain p w : no_sep p w = true -> split_by p w = [w].
Proof.
  induction w as [|c w IH]; [done|]. cbn. intros [Hc Hw]%andb_true_iff. apply negb_true_iff in Hc. by rewrite Hc, (IH Hw).
Qed.
Lemma split_by_app p w c s : no_sep p w = true -> p c = true -> split_by p (w ++ String c s) = w :: split_by p s.
Proof.
  intros Hw Hc. induction w as [|d w IH]; cbn; [by rewrite Hc|]. cbn in Hw. apply andb_true_iff in Hw as [Hd Hw].
  apply negb_true_iff in Hd. by rewrite Hd, (IH Hw).
Qed.

(** An entry of a list that survives being written with commas. *)
Definition csv_item (s : string) : Prop := trimmed s /\ s <> "" /\ no_sep is_csv_sep s = true.

Lemma split_csv_join l : Forall csv_item l -> split_csv (join "," l) = l.
Proof.
  unfold split_csv. induction 1 as [|w l (Ht & Hne & Hw) Hl IH]; [done|].
  assert (negb (is_empty w) = true) as He by (apply negb_true_iff; by apply is_empty_false).
  destruct l as [|w' l].
  - cbn [join]. rewrite split_by_plain by done. cbn [map]. rewrite Ht. cbn [List.filter]. by rewrite He.
  - change (join "," (w :: w' :: l)) with (w ++ String "," (join "," (w' :: l))).
    rewrite split_by_app by done. cbn [map]. rewrite Ht. cbn [List.filter]. rewrite He. f_equal. exact IH.
Qed.

Lemma parse_int_show min max z : (min <= z <= max)%Z -> parse_int min max (show_Z z) = Some z.
Proof.
  intros Hz. unfold parse_int. destruct (Z.ltb_spec z 0) as [Hneg|Hpos].
  - unfold show_Z. rewrite (proj2 (Z.ltb_lt _ _) Hneg). pose proof (parse_show_N (Z.to_N (- z))) as Hp.
    destruct (show_N_cons (Z.to_N (- z))) as (c & s & E & _). rewrite E in *. rewrite Hp.
    rewrite (proj2 (Z.leb_le _ _)) by lia. f_equal. lia.
  - assert (parse_uint max (show_Z z) = Some z) as Hu by (apply parse_uint_show; lia).
    pose proof (show_Z_digits z Hpos) as Hd. destruct (show_Z z) as [|c s]; [done|]. cbn in Hd.
    apply andb_true_iff in Hd as [Hc _]. destruct (digit_not c Hc) as [_ Hm]. destruct c as [[] [] [] [] [] [] [] []]; try done.
Qed.
Lemma trimmed_show z : trimmed (show_Z z).
Proof.
  unfold trimmed. destruct (Z.ltb_spec z 0) as [Hneg|Hpos].
  - unfold show_Z. rewrite (proj2 (Z.ltb_lt _ _) Hneg). change (String "-" (show_N (Z.to_N (- z)))) with ("-" ++ show_N (Z.to_N (- z))).
    apply trim_app_digits; [|apply show_N_digits|]; destruct (show_N_cons (Z.to_N (- z))) as (c & s & -> & Hc); [by apply graphic_ws|done].
  - pose proof (show_Z_digits z Hpos) as H. pose proof (show_Z_nonempty z Hpos) as Hne.
    assert (ws_len (show_Z z) = 0) as Hw; [|exact (trim_app_digits "" (show_Z z) Hw H Hne)].
    destruct (show_Z z) as [|c s]; [done|]. cbn [sforall] in H. apply andb_true_iff in H as [Hc _]. by apply graphic_ws, digit_graphic.
Qed.

(** ** Lemmas: endpoints *)

(** An address that is written as it is shown: host, colon, port. *)
Definition canonical_endpoint (dp : Z) (s : string) : Prop :=
  exists h p, parse_host_port s dp = Ok (h, p) /\ s = h ++ ":" ++ show_Z p /\ trimmed h /\ h <> "" /\ in_u16 p.

Lemma parse_port_show z field : in_u16 z -> parse_u16 (show_Z z) field = Ok z.
Proof.
  intros Hz. unfold parse_u16. rewrite trimmed_show. rewrite (proj2 (is_empty_false _) (show_Z_nonempty z (proj1 Hz))).
  by rewrite parse_uint_show.
Qed.
Lemma assemble_service_shown h p : trimmed h -> h <> "" -> in_u16 p -> assemble_service h (show_Z p) = Ok (h ++ ":" ++ show_Z p).
Proof.
  intros Ht Hne Hp. unfold assemble_service. rewrite Ht, trimmed_show, (proj2 (is_empty_false h) Hne).
  cbn [andb]. by rewrite parse_port_show.
Qed.
Lemma split_assemble_server s : canonical_endpoint 9527 s ->
  assemble_server (split_server_endpoint s).1 (split_server_endpoint s).2 = Ok s.
Proof.
  intros (h & p & Hp & -> & Ht & Hne & Hu). unfold split_server_endpoint. rewrite Hp. unfold assemble_server. cbn [fst snd].
  rewrite Ht, trimmed_show, (proj2 (is_empty_false h) Hne). by rewrite parse_uint_show.
Qed.
Lemma canonical_nonempty dp s : canonical_endpoint dp s -> is_empty (trim s) = false.
Proof.
  intros (h & p & Hp & -> & Ht & Hne & Hu). apply is_empty_false. intros E. unfold parse_host_port in Hp. rewrite E in Hp.
  injection Hp as <- <-. revert E. change (default_listen_host ++ ":" ++ show_Z dp) with ((default_listen_host ++ ":") ++ show_Z dp).
  rewrite trim_app_digits; [|reflexivity|by apply show_Z_digits, Hu|by apply show_Z_nonempty, Hu]. done.
Qed.

(** ** Properties *)

Section Roundtrip.
Context (parse_f64 : string -> option f64) (show_f64 : f64 -> string).
Abbreviation to_parts := (tunnel_to_parts show_f64).
Abbreviation from_parts := (tunnel_from_parts parse_f64).

(** A plugin as the form makes them. *)
Inductive form_plugin (protocol : string) : PluginConfig -> Prop :=
| fp_socks5 u p : protocol = "tcp" -> trimmed u -> trimmed p -> form_plugin protocol (MkPlugin "socks5" "" "" "" "" u p)
| fp_tls_term s c k r : protocol = "https" -> canonical_endpoint 8080 s -> trimmed c -> trimmed k -> trimmed r ->
    form_plugin protocol (MkPlugin "tls-term" s c k r "" "").

(** A tunnel that is written the way the form writes it. *)
Record editable (t : TunnelConfig) : Prop := {
  ed_strings : Forall trimmed [tc_name t; tc_basic_auth_user t; tc_basic_auth_password t; tc_host_header_rewrite t;
                               tt_proxy_protocol_version (tc_transport t)];
  ed_lists : Forall csv_item (tc_domains t) /\ Forall csv_item (tc_locations t);
  ed_port : in_u16 (tc_remote_port t);
  ed_bandwidth : parse_bandwidth_mbps parse_f64 (bandwidth_display show_f64 (tt_bandwidth (tc_transport t)))
                 = tt_bandwidth (tc_transport t);
  ed_side : tt_bandwidth_limit_side (tc_transport t) = "client" \/ tt_bandwidth_limit_side (tc_transport t) = "server";
  ed_kind : match tc_plugin t with
            | Some p => tc_service t = "" /\ form_plugin (tc_protocol t) p
            | None => to_lower (trim (tc_protocol t)) = tc_protocol t /\ tc_protocol t <> "socks5"
                      /\ canonical_endpoint 0 (tc_service t)
            end }.

(** The parts but for the kind of the tunnel. *)
Definition parts_like (t : TunnelConfig) (p : TunnelParts) : Prop :=
  tp_name p = tc_name t /\ tp_remote_port p = show_Z (tc_remote_port t) /\ tp_domains p = join "," (tc_domains t)
  /\ tp_locations p = join "," (tc_locations t) /\ tp_basic_auth_user p = tc_basic_auth_user t
  /\ tp_basic_auth_password p = tc_basic_auth_password t /\ tp_host_header_rewrite p = tc_host_header_rewrite t
  /\ tp_bandwidth p = bandwidth_display show_f64 (tt_bandwidth (tc_transport t))
  /\ tp_bandwidth_limit_side p = tt_bandwidth_limit_side (tc_transport t)
  /\ tp_proxy_protocol_version p = tt_proxy_protocol_version (tc_transport t).
Lemma to_parts_like t : parts_like t (to_parts t).
Proof. unfold tunnel_to_parts. destruct (local_parts t). repeat split. Qed.

Lemma from_parts_like t p :
  editable t -> parts_like t p ->
  plugin_from_parts p (to_lower (trim (tp_tunnel_type p))) = Ok (tc_plugin t) ->
  match tc_plugin t with Some _ => Ok "" | None => assemble_service (tp_local_ip p) (tp_local_port p) end = Ok (tc_service t) ->
  (if String.eqb (to_lower (trim (tp_tunnel_type p))) "socks5" then "tcp" else to_lower (trim (tp_tunnel_type p))) = tc_protocol t ->
  from_parts p = Ok t.
Proof.
  intros [Hs [Hd Hl] Hp Hb Hside _] (E1 & E2 & E3 & E4 & E5 & E6 & E7 & E8 & E9 & E10) Hpl Hsv Hpr.
  unfold tunnel_from_parts. cbn zeta. rewrite Hpl. cbn [is_ok]. rewrite Hsv, Hpr, E1, E2, E3, E4, E5, E6, E7, E8, E9, E10.
  rewrite parse_port_show, Hb, !split_csv_join by done. repeat rewrite Forall_cons in Hs. destruct Hs as (-> & -> & -> & -> & -> & _).
  destruct t as [name proto service port domains locations bu bp hr [bw side ppv] plugin]. cbn in *.
  by destruct Hside as [-> | ->].
Qed.

Lemma local_parts_endpoint dp s t h p :
  canonical_endpoint dp s -> parse_host_port s dp = Ok (h, p) -> local_parts t = (h, show_Z p) ->
  tp_local_ip (to_parts t) = h /\ tp_local_port (to_parts t) = show_Z p /\ assemble_service h (show_Z p) = Ok s.
Proof.
  intros (h' & p' & Hp & -> & Ht & Hne & Hu) Hp' El. rewrite Hp in Hp'. injection Hp' as -> ->.
  unfold tunnel_to_parts. rewrite El. split; [done|]. split; [done|]. by apply assemble_service_shown.
Qed.

Lemma row_shown_socks5 t u w :
  editable t -> tc_plugin t = Some (MkPlugin "socks5" "" "" "" "" u w) -> tc_service t = "" -> tc_protocol t = "tcp" ->
  trimmed u -> trimmed w -> from_parts (to_parts t) = Ok t.
Proof.
  intros He Ep Es Epr Hu Hw. assert (tp_tunnel_type (to_parts t) = "socks5") as Ety.
  { unfold tunnel_to_parts, socks5_of. rewrite Ep. by destruct (local_parts t). }
  apply from_parts_like; [done|apply to_parts_like|rewrite ?Ety..]; [|by rewrite Ep, Es|by rewrite Epr].
  unfold tunnel_to_parts, local_parts, socks5_of. rewrite Ep. change (is_socks5_plugin (pl_plugin_type _)) with true.
  unfold plugin_from_parts. change (String.eqb (to_lower (trim "socks5")) "socks5") with true.
  cbn [tp_plugin_username tp_plugin_password pl_username pl_password]. by rewrite Hu, Hw.
Qed.
Lemma row_shown_tls_term t s c k r :
  editable t -> tc_plugin t = Some (MkPlugin "tls-term" s c k r "" "") -> tc_service t = "" -> tc_protocol t = "https" ->
  canonical_endpoint 8080 s -> trimmed c -> trimmed k -> trimmed r -> from_parts (to_parts t) = Ok t.
Proof.
  intros He Ep Es Epr Hend Hc Hk Hr. pose proof Hend as (h & q & Hq & _ & Hth & Hne & _).
  assert (local_parts t = (h, show_Z q)) as El.
  { unfold local_parts, socks5_of, tls_term_of. rewrite Ep. change (is_socks5_plugin (pl_plugin_type _)) with false.
    change (is_tls_term_plugin (pl_plugin_type _)) with true. cbn [pl_service]. by rewrite Hq. }
  assert (tp_tunnel_type (to_parts t) = "https") as Ety.
  { unfold tunnel_to_parts, socks5_of. rewrite Ep, El. exact Epr. }
  destruct (local_parts_endpoint 8080 s t h q Hend Hq El) as (Hip & Hport & Hass).
  apply from_parts_like; [done|apply to_parts_like|rewrite ?Ety..]; [|by rewrite Ep, Es|by rewrite Epr].
  unfold plugin_from_parts, plugin_service. rewrite Hip, Hport, Hth, trimmed_show, (proj2 (is_empty_false h) Hne), orb_true_r, Hass.
  unfold tunnel_to_parts, tls_term_of. rewrite Ep, El. change (is_tls_term_plugin (pl_plugin_type _)) with true.
  change (String.eqb (to_lower (trim "https")) "socks5") with false. change (String.eqb (to_lower (trim "https")) "https") with true.
  cbn [andb tp_plugin_tls_term tp_plugin_cert_file tp_plugin_key_file tp_plugin_host_rewrite pl_cert_file pl_key_file pl_host_header_rewrite].
  by rewrite Hc, Hk, Hr.
Qed.
Lemma row_shown_plain t :
  editable t -> tc_plugin t = None -> to_lower (trim (tc_protocol t)) = tc_protocol t -> tc_protocol t <> "socks5" ->
  canonical_endpoint 0 (tc_service t) -> from_parts (to_parts t) = Ok t.
Proof.
  intros He Ep Hlow Hns Hend. pose proof (canonical_nonempty _ _ Hend) as Hse. pose proof Hend as (h & q & Hq & _).
  assert (local_parts t = (h, show_Z q)) as El by (unfold local_parts, socks5_of, tls_term_of; by rewrite Ep, Hse, Hq).
  assert (tp_tunnel_type (to_parts t) = tc_protocol t) as Ety by (unfold tunnel_to_parts, socks5_of; by rewrite Ep, El).
  destruct (local_parts_endpoint 0 _ t h q Hend Hq El) as (Hip & Hport & Hass).
  apply from_parts_like; [done|apply to_parts_like|rewrite ?Ety, ?Hlow..]; [| |by rewrite (proj2 (String.eqb_neq _ _) Hns)].
  - unfold plugin_from_parts. rewrite (proj2 (String.eqb_neq _ _) Hns), Ep. unfold tunnel_to_parts, tls_term_of. rewrite Ep, El.
    cbn [tp_plugin_tls_term]. by rewrite andb_false_r.
  - by rewrite Ep, Hip, Hport.
Qed.
Lemma row_shown t : editable t -> from_parts (to_parts t) = Ok t.
Proof.
  intros He. pose proof (ed_kind _ He) as Hk. destruct (tc_plugin t) as [p|] eqn:Ep.
  - destruct Hk as [Hsv Hf]. inversion Hf; subst p; [by eapply row_shown_socks5|by eapply row_shown_tls_term].
  - destruct Hk as (? & ? & ?). by apply row_shown_plain.
Qed.

(** A configuration the server's form can show. *)
Record form_ready (c : ClientConfig) : Prop := {
  fr_server : canonical_endpoint 9527 (cc_server c);
  fr_auth : cau_auth_type (cc_auth c) = "token" /\ trim (cc_agent_id c) <> "";
  fr_protocol : tr_protocol (cc_transport c) ∈ ["tcp"; "websocket"; "quic"; "kcp"];
  fr_strings : let tls := tr_tls (cc_transport c) in
    Forall trimmed [cc_user c; ctl_cert_file tls; ctl_key_file tls; ctl_trusted_ca_file tls; ctl_server_name tls];
  fr_numbers : let tr := cc_transport c in
    (i32_min <= tr_pool_count tr <= i32_max)%Z /\ (i64_min <= tr_mux_keepalive_secs tr <= i64_max)%Z
    /\ (-1 <= tr_heartbeat_interval tr <= i64_max)%Z /\ (-1 <= tr_heartbeat_timeout tr <= i64_max)%Z
    /\ in_u64 (cc_udp_packet_size c) /\ in_u64 (qc_keepalive_period (tr_quic tr)) /\ in_u64 (qc_max_idle_timeout (tr_quic tr))
    /\ (0 <= qc_max_incoming_streams (tr_quic tr) <= u32_max)%Z;
  fr_heartbeat : let tr := cc_transport c in
    (0 < tr_heartbeat_timeout tr -> 0 < tr_heartbeat_interval tr -> tr_heartbeat_interval tr <= tr_heartbeat_timeout tr)%Z;
  fr_tunnels : Forall (fun t => editable t /\ tc_name t <> "") (cc_tunnels c) }.

Lemma rows_shown l : Forall (fun t => editable t /\ tc_name t <> "") l ->
  collect_tunnel_configs parse_f64 (map to_parts l) = Ok l.
Proof.
  unfold collect_tunnel_configs. intros Hl.
  assert (List.filter (fun r => negb (is_empty (trim (tp_name r)))) (map to_parts l) = map to_parts l) as ->.
  { induction Hl as [|t l [He Hne] _ IH]; [done|]. cbn [map List.filter]. destruct (to_parts_like t) as [-> _].
    pose proof (ed_strings _ He) as Hs. apply Forall_cons in Hs as [-> _]. rewrite (proj2 (is_empty_false _) Hne). cbn. by rewrite IH. }
  apply try_map_ok. induction Hl as [|t l [He _] _ IH]; [constructor|]. cbn [map]. constructor; [by apply row_shown|done].
Qed.
End Roundtrip.

Definition set_ws_path (c : ClientConfig) (ws : string) : ClientConfig :=
  let tr := cc_transport c in
  MkClientConfig (cc_server c) (cc_user c) (cc_agent_id c) (cc_auth c)
    (MkTransport (tr_protocol tr) (tr_pool_count tr) (tr_tcp_mux tr) (tr_mux_keepalive_secs tr) (tr_tcp_keepalive_idle tr)
       (tr_tcp_keepalive_interval tr) (tr_heartbeat_interval tr) (tr_heartbeat_timeout tr) (tr_quic tr) ws (tr_tls tr))
    (cc_tunnels c) (cc_udp_packet_size c) (cc_log c).
Lemma complete_ws_path c ws : normalize_ws_path ws = normalize_ws_path (tr_ws_path (cc_transport c)) ->
  client_complete (set_ws_path c ws) = client_complete c.
Proof.
  intros Hws. unfold client_complete, server_host, client_protocol.
  cbn [set_ws_path cc_server cc_user cc_agent_id cc_auth cc_transport cc_tunnels cc_udp_packet_size cc_log tr_protocol]. f_equal.
  unfold complete_names, complete_heartbeat, complete_quic. destruct (match ok_or _ _ with Ok Quic => true | _ => false end);
    [|destruct (tr_tcp_mux (cc_transport c)) eqn:E]; cbn -[normalize_ws_path trim is_empty parse_host_port]; by rewrite Hws, ?E.
Qed.
Lemma ws_path_shown p : normalize_ws_path (trim (ws_path_display p)) = normalize_ws_path p.
Proof.
  unfold ws_path_display, normalize_ws_path. destruct (is_empty (trim p)) eqn:Ee; [done|]. cbn [orb].
  destruct (String.eqb_spec (trim p) ORBIEN_WEBSOCKET_PATH) as [->|]; [done|]. rewrite !trim_idemp. by rewrite Ee.
Qed.
Lemma protocol_shown p : p ∈ ["tcp"; "websocket"; "quic"; "kcp"] ->
  protocol_name (protocol_index p) = p /\ ((protocol_index p =? 2)%Z = true -> p = "quic").
Proof. intros Hp. repeat (apply elem_of_cons in Hp as [->|Hp]; [split; [reflexivity|intros E; first [reflexivity|by vm_compute in E]]|]). by apply not_elem_of_nil in Hp. Qed.
Lemma heartbeat_shown v : (-1 <= v <= i64_max)%Z -> parse_optional_i64 (optional_i64_display v) (-1) = v.
Proof.
  intros Hv. unfold optional_i64_display, parse_optional_i64. destruct (Z.ltb_spec v 0); [cbn; lia|].
  rewrite trimmed_show, (proj2 (is_empty_false _) (show_Z_nonempty v ltac:(lia))), parse_int_show; [done|]. unfold i64_min, i64_max in *. lia.
Qed.

(** Opening a configuration in the desktop application and saving it unedited
    changes nothing: for a complete configuration the forms can show, the server's
    form and the tunnels' rows give back exactly what was loaded. *)
Theorem form_roundtrip (parse_f64 : string -> option f64) (show_f64 : f64 -> string) (c : ClientConfig) (uuid_simple : string) :
  form_ready parse_f64 show_f64 c -> client_complete c = c ->
  (let? tunnels := collect_tunnel_configs parse_f64 (rows_of show_f64 c) in
   load_merge_server_fields (Some (Ok c)) (form_of c) tunnels uuid_simple) = Ok c.
Proof.
  intros [Hsrv [Hauth Hag] Hpr Hs (Hpool & Hmux & Hhi & Hht & Hudp & Hqk & Hqi & Hqs) Hhb Ht] Hc.
  unfold rows_of. rewrite rows_shown by done. pose proof (client_complete_transport c) as (Hq & _ & _). rewrite Hc in Hq.
  destruct (protocol_shown _ Hpr) as [Hname Hquic]. repeat rewrite Forall_cons in Hs. destruct Hs as (Hu & Hcf & Hkf & Hca & Hsn & _).
  pose proof (split_assemble_server _ Hsrv) as Has. unfold form_of. destruct (split_server_endpoint (cc_server c)) as [host port].
  unfold load_merge_server_fields. cbn [fst snd] in Has.
  cbn [sf_server_addr sf_server_port sf_token sf_user sf_protocol_index sf_pool_count sf_tcp_mux sf_tls_enable sf_ws_path
    sf_mux_keepalive sf_heartbeat_interval sf_heartbeat_timeout sf_udp_packet_size sf_tls_server_name sf_tls_ca sf_tls_cert
    sf_tls_key sf_quic_keepalive sf_quic_idle sf_quic_streams]. rewrite Has, Hname, Hu, Hcf, Hkf, Hca, Hsn, !trimmed_show.
  rewrite !parse_int_show, !parse_uint_show, !heartbeat_shown by done. cbn [default from_option id].
  set (is_quic := (protocol_index (tr_protocol (cc_transport c)) =? 2)%Z) in *.
  assert (is_quic = true -> tr_tcp_mux (cc_transport c) = false /\ ctl_enable (tr_tls (cc_transport c)) = true) as Hqq.
  { intros E. apply Hq. unfold client_protocol. by rewrite (Hquic E). }
  replace (negb is_quic && (negb is_quic && tr_tcp_mux (cc_transport c))) with (tr_tcp_mux (cc_transport c))
    by (destruct is_quic; [by destruct Hqq as [-> _]|done]).
  replace (is_quic || (is_quic || ctl_enable (tr_tls (cc_transport c)))) with (ctl_enable (tr_tls (cc_transport c)))
    by (destruct is_quic; [by destruct Hqq as [_ ->]|done]).
  set (c1 := MkClientConfig _ _ _ _ _ _ _ _).
  assert (c1 = set_ws_path c (trim (ws_path_display (tr_ws_path (cc_transport c))))) as ->.
  { subst c1. unfold set_ws_path. destruct c as [sv us ag [at_ tok] [pr pc mx mk ki kn hi ht [q1 q2 q3] ws [e1 e2 e3 e4 e5]] tn up lg].
    cbn in *. by subst. }
  rewrite complete_ws_path by apply ws_path_shown. rewrite Hc. cbn zeta.
  replace (((0 <? tr_heartbeat_timeout (cc_transport c))%Z && (0 <? tr_heartbeat_interval (cc_transport c))%Z
           && (tr_heartbeat_timeout (cc_transport c) <? tr_heartbeat_interval (cc_transport c))%Z)) with false
    by (symmetry; destruct (Z.ltb_spec 0 (tr_heartbeat_timeout (cc_transport c))), (Z.ltb_spec 0 (tr_heartbeat_interval (cc_transport c)));
        try done; cbn; apply Z.ltb_ge; auto).
  unfold ensure_agent_id. by rewrite (proj2 (is_empty_false _) Hag).
Qed.

(** *** Witness *)

Definition ex_transport : TunnelTransportConfig := MkTunnelTransport (f_of_Z 0) "client" "v2".
Definition ex_plain : TunnelConfig :=
  MkTunnel "web" "http" "127.0.0.1:8080" 0 ["a.example"; "b.example"] ["/api"] "u" "p" "" ex_transport None.
Definition ex_socks5 : TunnelConfig :=
  MkTunnel "socks" "tcp" "" 1080 [] [] "" "" "" ex_transport (Some (MkPlugin "socks5" "" "" "" "" "me" "pw")).
Definition ex_tls_term : TunnelConfig :=
  MkTunnel "site" "https" "" 0 ["c.example"] [] "" "" "" ex_transport
    (Some (MkPlugin "tls-term" "127.0.0.1:80" "/c.pem" "/k.pem" "inner" "" "")).
Definition ex_desktop : ClientConfig :=
  client_complete (MkClientConfig "example.org:7000" "ops" "agent-1" (MkClientAuth "token" "tok") client_transport_default
    [ex_plain; ex_socks5; ex_tls_term] 1500 log_default).

Lemma ex_editable parse show : Forall (fun t => editable parse show t /\ tc_name t <> "") (cc_tunnels ex_desktop).
Proof.
  repeat constructor; try done; try (by left); cbn.
  - exists "127.0.0.1", 8080%Z. repeat split; done.
  - exists "127.0.0.1", 80%Z. repeat split; done.
Qed.

Lemma form_roundtrip_witness :
  form_ready (fun _ => None) (fun _ => "") ex_desktop
  /\ (let? tunnels := collect_tunnel_configs (fun _ => None) (rows_of (fun _ => "") ex_desktop) in
      load_merge_server_fields (Some (Ok ex_desktop)) (form_of ex_desktop) tunnels "0") = Ok ex_desktop.
Proof.
  assert (form_ready (fun _ => None) (fun _ => "") ex_desktop) as Hf.
  { split; [exists "example.org", 7000%Z; repeat split; done|split; [reflexivity|discriminate]|left|repeat constructor
           |vm_compute; intuition discriminate|vm_compute; discriminate|apply ex_editable]. }
  split; [exact Hf|]. apply (form_roundtrip (fun _ => None) (fun _ => "") ex_desktop "0" Hf). reflexivity.
Defined.

(** ** What the forms lose *)

(** A tunnel with no service is accepted when a configuration is loaded.  Its row
    makes port 0 of it, and what is then saved is refused by the next load. *)
Definition ex_no_service : TunnelConfig :=
  MkTunnel "t" "tcp" "" 9000 [] [] "" "" "" ex_transport None.
Lemma saved_tunnel_refused parse show :
  validate_tunnel_config show ex_no_service = Ok tt
  /\ exists t, tunnel_from_parts parse (tunnel_to_parts show ex_no_service) = Ok t /\ is_ok (validate_tunnel_config show t) = false.
Proof.
  split; [vm_compute; reflexivity|].
  exists (MkTunnel "t" "tcp" "127.0.0.1:0" 9000 [] [] "" "" "" ex_transport None). split; [reflexivity|vm_compute; reflexivity].
Qed.

(** The side of a bandwidth limit is validated without regard to case, and the row
    knows it in lower case only: a server's limit becomes the client's. *)
Lemma limit_side_changes parse show :
  let t := MkTunnel "t" "tcp" "127.0.0.1:80" 9000 [] [] "" "" "" (MkTunnelTransport (f_of_Z 0) "Server" "") None in
  validate_tunnel_config show t = Ok tt
  /\ exists t', tunnel_from_parts parse (tunnel_to_parts show t) = Ok t' /\ tt_bandwidth_limit_side (tc_transport t') = "client".
Proof.
  split; [vm_compute; reflexivity|].
  exists (MkTunnel "t" "tcp" "127.0.0.1:80" 9000 [] [] "" "" "" (MkTunnelTransport (f_of_Z 0) "client" "") None). by split.
Qed.

(** A location with a semicolon in it comes back as two. *)
Lemma location_split parse show :
  let t := MkTunnel "t" "http" "127.0.0.1:80" 0 ["a.example"] ["/a;b"] "" "" "" ex_transport None in
  validate_tunnel_config show t = Ok tt
  /\ exists t', tunnel_from_parts parse (tunnel_to_parts show t) = Ok t' /\ tc_locations t' = ["/a"; "b"].
Proof.
  split; [vm_compute; reflexivity|].
  exists (MkTunnel "t" "http" "127.0.0.1:80" 0 ["a.example"] ["/a"; "b"] "" "" "" ex_transport None). by split.
Qed.

(** A server given as a bare IPv6 address gains a port each time it is saved. *)
Lemma ipv6_server_grows :
  assemble_server (split_server_endpoint "2001:db8::1").1 (split_server_endpoint "2001:db8::1").2 = Ok "2001:db8::1:9527"
  /\ assemble_server (split_server_endpoint "2001:db8::1:9527").1 (split_server_endpoint "2001:db8::1:9527").2
     = Ok "2001:db8::1:9527:9527".
Proof. split; reflexivity. Qed.
