(* ===== verification/Transport.v ===== *)
(** * What a connection is wrapped in

    The choices around the transports: [core/src/transport/tls.rs] (which
    certificates and verifiers, the server's test for TLS), the client's
    [client/src/connector.rs] and the server's [server/src/service/ingress.rs].
    rustls, yamux, tungstenite, quinn and KCP are parameters: a layer is a
    constructor, and of its bytes only those matter that the code looks at. *)

From S2P Require Import Prelude RustStr Float64 Msg Config ServerConfig ClientConfig Streams.

Local Open Scope string_scope.

Definition TLS_HANDSHAKE_TYPE : ascii := byte_of 22.

(** ** [tls.rs]: certificates and verifiers *)

Section TlsConfig.
Context {Certs Roots : Type} (self_signed : string -> Anyhow Certs) (load_pem_cert_key : string -> string -> Anyhow Certs)
  (load_ca_roots : string -> Anyhow Roots).

(** Who the other side must prove to be: anyone, or the holder of a certificate of these roots. *)
Inductive Verifier := AnyPeer | Verify (roots : Roots).
Record TlsServer := MkTlsServer { tsv_certs : Certs; tsv_clients : Verifier }.
Record TlsClient := MkTlsClient { tcl_servers : Verifier; tcl_certs : option Certs }.

Definition new_server_tls_config (cert_file key_file ca_path : string) : Anyhow TlsServer :=
  let? certs := if is_empty (trim cert_file) || is_empty (trim key_file) then self_signed "orbien-server"
                else load_pem_cert_key cert_file key_file in
  let? clients := if is_empty (trim ca_path) then Ok AnyPeer else let? roots := load_ca_roots ca_path in Ok (Verify roots) in
  Ok (MkTlsServer certs clients).
Definition new_client_tls_config (cert_file key_file ca_path : string) : Anyhow TlsClient :=
  let? servers := if is_empty (trim ca_path) then Ok AnyPeer else let? roots := load_ca_roots ca_path in Ok (Verify roots) in
  let? certs := if negb (is_empty (trim cert_file)) && negb (is_empty (trim key_file))
                then let? c := load_pem_cert_key cert_file key_file in Ok (Some c) else Ok None in
  Ok (MkTlsClient servers certs).
End TlsConfig.
Arguments AnyPeer {Roots}.
Arguments Verify {Roots}.
Arguments TlsServer : clear implicits.
Arguments TlsClient : clear implicits.

(** ** [PrefixedByteStream] *)

Record PrefixedByteStream (S : Type) := MkPrefixedByte { pb_prefix : option ascii; pb_inner : S }.
Arguments MkPrefixedByte {S}.
Arguments pb_prefix {S}.
Arguments pb_inner {S}.

Section PrefixedByte.
Context {S : Type} `{AsyncStream S}.
Definition pb_with {A} (p : PrefixedByteStream S) (r : S * A) : PrefixedByteStream S * A := (MkPrefixedByte (pb_prefix p) r.1, r.2).
Definition prefixed_byte_poll_read (p : PrefixedByteStream S) (room : nat) : PrefixedByteStream S * Poll (Anyhow string) :=
  match pb_prefix p with
  | Some b => if (0 <? room)%nat then (MkPrefixedByte None (pb_inner p), Ready (Ok (String b ""))) else pb_with p (poll_read (pb_inner p) room)
  | None => pb_with p (poll_read (pb_inner p) room)
  end.
#[global] Instance prefixed_byte_stream : AsyncStream (PrefixedByteStream S) := {
  poll_read := prefixed_byte_poll_read;
  poll_write p buf := pb_with p (poll_write (pb_inner p) buf);
  poll_flush p := pb_with p (poll_flush (pb_inner p));
  poll_shutdown p := pb_with p (poll_shutdown (pb_inner p)) }.
End PrefixedByte.

Definition pb_text {S} (p : PrefixedByteStream S) : string := match pb_prefix p with Some b => String b "" | None => "" end.

(** ** [check_and_enable_tls] *)

(** What the first byte decides; the byte goes back in front of the stream. *)
Inductive TlsChoice (S : Type) := Handshake (stream : PrefixedByteStream S) | Plaintext (stream : PrefixedByteStream S).
Arguments Handshake {S}.
Arguments Plaintext {S}.
(** [first]: what [read_exact] of one byte gave. *)
Definition check_tls {S} (first : Anyhow ascii) (stream : S) (force : bool) : Anyhow (TlsChoice S) :=
  let? first := map_err (fun _ => "peek TLS first byte") first in
  let stream := MkPrefixedByte (Some first) stream in
  if Ascii.eqb first TLS_HANDSHAKE_TYPE then Ok (Handshake stream)
  else bail_if force with "transport.tls.force=true but first byte is not a TLS handshake" ;; Ok (Plaintext stream).

(** ** The layers of a connection *)

(** The first message of a stream in its wrappings, from the outside in; a TLS layer
    has the settings and the name the client began it with. *)
Inductive Wire (Certs Roots : Type) :=
| Raw (m : Message)
| Yamux (w : Wire Certs Roots)
| Tls (client : TlsClient Certs Roots) (server_name : string) (w : Wire Certs Roots)
| Ws (target : string) (w : Wire Certs Roots).
Arguments Raw {Certs Roots}.
Arguments Yamux {Certs Roots}.
Arguments Tls {Certs Roots}.
Arguments Ws {Certs Roots}.
(** What a connection opened by the connector carries; QUIC is its own transport, with TLS in it. *)
Inductive Dialled (Certs Roots : Type) :=
| DialTcp (w : Wire Certs Roots)
| DialKcp (w : Wire Certs Roots)
| DialQuic (client : TlsClient Certs Roots) (server_name : string) (m : Message).
Arguments DialTcp {Certs Roots}.
Arguments DialKcp {Certs Roots}.
Arguments DialQuic {Certs Roots}.

(** rustls' judgements: whether a text is a server name, whether a server's
    certificates prove it to be the one of that name, and whether a client's are of
    the roots; the loading of files. *)
Class Rustls (Certs Roots : Type) := {
  server_name_ok : string -> bool;
  server_cert_ok : Roots -> string -> Certs -> bool;
  client_cert_ok : Roots -> Certs -> bool;
  self_signed_cert : string -> Anyhow Certs;
  load_cert_key : string -> string -> Anyhow Certs;
  load_roots : string -> Anyhow Roots }.

Section Layers.
(** The version byte a yamux frame begins with, what tungstenite asks for when the URL has this
    path, and what it sends after that. *)
Context {Certs Roots : Type} `{Rustls Certs Roots}
  (yamux_version : ascii) (uri_target : string -> Anyhow string) (ws_rest : string).
Abbreviation Wire := (Wire Certs Roots).
Abbreviation Dialled := (Dialled Certs Roots).

(** The bytes a connection begins with, as far as anyone looks; [Ws] is given the target asked for. *)
Definition head_bytes (w : Wire) : string :=
  match w with
  | Raw m => String (type_byte m) ""
  | Yamux _ => String yamux_version ""
  | Tls _ _ _ => String TLS_HANDSHAKE_TYPE ""
  | Ws target _ => "GET " ++ target ++ ws_rest
  end.
Definition first_byte (w : Wire) : ascii := match head_bytes w with String c _ => c | "" => zero end.

(** *** The client: [connector.rs] *)

Record TlsDialOpts := MkTlsDialOpts { td_enable : bool; td_cfg : TlsClient Certs Roots; td_server_name : string }.
(** [TlsDialOpts::from_config]: the files are read whether TLS is on or not. *)
Definition tls_from_config (c : ClientConfig) : Anyhow TlsDialOpts :=
  let tls := tr_tls (cc_transport c) in
  let? cfg := new_client_tls_config load_cert_key load_roots (ctl_cert_file tls) (ctl_key_file tls) (ctl_trusted_ca_file tls) in
  Ok (MkTlsDialOpts (ctl_enable tls) cfg (tls_server_name c)).
(** [client_enable_tls], up to the handshake. *)
Definition maybe_wrap (tls : TlsDialOpts) (w : Wire) : Anyhow Wire :=
  if td_enable tls then
    bail_if negb (server_name_ok (td_server_name tls)) with "invalid tls serverName " ++ td_server_name tls ;;
    Ok (Tls (td_cfg tls) (td_server_name tls) w)
  else Ok w.
Definition mux_wrap (mux : bool) (w : Wire) : Wire := if mux then Yamux w else w.

Definition build_connector_open (c : ClientConfig) (m : Message) : Anyhow Dialled :=
  let tr := cc_transport c in
  let? tls := tls_from_config c in
  let? p := client_protocol c in
  let inner := mux_wrap (tr_tcp_mux tr) (Raw m) in
  match p with
  | Tcp => let? w := maybe_wrap tls inner in Ok (DialTcp w)
  | Websocket =>
      let? target := uri_target (tr_ws_path tr) in
      let? w := maybe_wrap tls inner in Ok (DialTcp (Ws target w))
  | Kcp => let? w := maybe_wrap tls inner in Ok (DialKcp w)
  | Quic =>
      bail_if negb (server_name_ok (td_server_name tls)) with "quic connect" ;;
      Ok (DialQuic (td_cfg tls) (td_server_name tls) m)
  end.

(** *** The server: [ingress.rs] *)

(** A handshake of both sides' settings: the client judges the server's certificates,
    and the server, if it asks for them, the client's. *)
Definition handshake (client : TlsClient Certs Roots) (server_name : string) (server : TlsServer Certs Roots) : bool :=
  match tcl_servers client with AnyPeer => true | Verify roots => server_cert_ok roots server_name (tsv_certs server) end
  && match tsv_clients server with
     | AnyPeer => true
     | Verify roots => match tcl_certs client with Some certs => client_cert_ok roots certs | None => false end
     end.

(** [Service::new] *)
Definition server_tls (c : ServerConfig) : Anyhow (TlsServer Certs Roots) :=
  let tls := str_tls (sc_transport c) in
  new_server_tls_config self_signed_cert load_cert_key load_roots (st_cert_file tls) (st_key_file tls) (st_trusted_ca_file tls).

(** [handle_physical] and [handle_connection]: the first message. Without [tcpMux] a request line
    fails too: its G is the type of a ping, but the length that follows is beyond the limit. *)
Definition handle_physical (tcp_mux : bool) (w : Wire) : Anyhow Message :=
  match tcp_mux, w with
  | true, Yamux (Raw m) => Ok m
  | true, _ => Err "yamux session"
  | false, Raw m => Ok m
  | false, _ => Err "read_msg"
  end.
Definition serve_tls (tls : TlsServer Certs Roots) (force tcp_mux : bool) (w : Wire) : Anyhow Message :=
  match check_tls (Ok (first_byte w)) w force with
  | Err e => Err e
  | Ok (Handshake s) =>
      match pb_inner s with
      | Tls client name w => if handshake client name tls then handle_physical tcp_mux w else Err "server TLS handshake"
      | _ => Err "server TLS handshake"
      end
  | Ok (Plaintext s) => handle_physical tcp_mux (pb_inner s)
  end.
(** [peeked]: how many bytes had arrived when [peek] looked. *)
Definition handle_tcp_or_websocket (c : ServerConfig) (tls : TlsServer Certs Roots) (peeked : nat) (w : Wire) : Anyhow Message :=
  let tr := sc_transport c in
  let path := str_ws_path tr in
  let n := peeked `min` (4 + String.length path) in
  let? physical := if is_websocket_http_request (stake n (head_bytes w)) path
                   then match w with Ws _ w => Ok w | _ => Err "websocket server accept or upgrade" end
                   else Ok w in
  serve_tls tls (st_force (str_tls tr)) (str_tcp_mux tr) physical.
(** [tls]: what [server_tls] gave, once for TCP, WebSocket and KCP and once for QUIC. *)
Definition serve_dialled (c : ServerConfig) (tls : TlsServer Certs Roots) (peeked : nat) (d : Dialled) : Anyhow Message :=
  let tr := sc_transport c in
  match d with
  | DialTcp w => handle_tcp_or_websocket c tls peeked w
  | DialKcp w => serve_tls tls (st_force (str_tls tr)) (str_tcp_mux tr) w
  | DialQuic client name m => if handshake client name tls then Ok m else Err "quic accept failed"
  end.
End Layers.
Arguments TlsDialOpts : clear implicits.

(** ** Lemmas *)

Lemma stake_nil_le n s p : starts_with p (stake n s) = true -> String.length p <= n /\ starts_with p s = true.
Proof.
  unfold starts_with. destruct (strip_prefix p (stake n s)) as [r|] eqn:E; [|done]. intros _. apply strip_prefix_spec in E.
  pose proof (f_equal String.length E) as Hl. rewrite length_stake, length_app_s in Hl. split; [lia|].
  rewrite <- (stake_sdrop n s), E, app_assoc. by rewrite (proj2 (strip_prefix_spec p _ (r ++ sdrop n s)) eq_refl).
Qed.
Lemma starts_with_stake n s p : starts_with p s = true -> String.length p <= n -> starts_with p (stake n s) = true.
Proof.
  unfold starts_with. destruct (strip_prefix p s) as [r|] eqn:E; [|done]. intros _ Hn. apply strip_prefix_spec in E as ->.
  replace n with (String.length p + (n - String.length p)) by lia.
  assert (forall k, stake (String.length p + k) (p ++ r) = p ++ stake k r) as ->.
  { intros k. induction p as [|c p IH]; [done|]. cbn. by rewrite IH by (cbn in Hn; lia). }
  by rewrite (proj2 (strip_prefix_spec p _ _) eq_refl).
Qed.
Lemma starts_with_cons_app p a s : starts_with (p ++ a) (p ++ s) = starts_with a s.
Proof.
  induction p as [|c p IH]; [done|]. unfold starts_with in *. cbn [String.append strip_prefix]. by rewrite Ascii.eqb_refl.
Qed.

Section Agreement.
Context {Certs Roots : Type} `{Rustls Certs Roots}
  (yamux_version : ascii) (ws_rest : string) (yamux_not_tls : yamux_version <> TLS_HANDSHAKE_TYPE).
Abbreviation Wire := (Wire Certs Roots).
Abbreviation first_byte := (first_byte (Certs := Certs) (Roots := Roots) yamux_version ws_rest).
Abbreviation serve_tls := (serve_tls yamux_version ws_rest).

(** The messages a connection may begin with. *)
Definition opens_connection (m : Message) : Prop := match m with MLogin _ | MNewDataConn _ => True | _ => False end.

(** The sides take each other for genuine: a client with a trusted CA file only a server
    whose certificates are of its roots and the name it asked for, and a server with
    one only a client that shows certificates of its roots. *)
Definition sides_trust (c : ClientConfig) (s : ServerConfig) (tls : TlsServer Certs Roots) : Prop :=
  let ct := tr_tls (cc_transport c) in
  let st := str_tls (sc_transport s) in
  (trim (ctl_trusted_ca_file ct) <> "" ->
     exists roots, load_roots (ctl_trusted_ca_file ct) = Ok roots /\ server_cert_ok roots (tls_server_name c) (tsv_certs tls) = true)
  /\ (trim (st_trusted_ca_file st) <> "" ->
     trim (ctl_cert_file ct) <> "" /\ trim (ctl_key_file ct) <> ""
     /\ exists roots certs, load_roots (st_trusted_ca_file st) = Ok roots
        /\ load_cert_key (ctl_cert_file ct) (ctl_key_file ct) = Ok certs /\ client_cert_ok roots certs = true).

Lemma handshake_trust c s tls opts : tls_from_config c = Ok opts -> server_tls s = Ok tls ->
  handshake (td_cfg opts) (td_server_name opts) tls = true <-> sides_trust c s tls.
Proof using Type.
  unfold tls_from_config, new_client_tls_config, server_tls, new_server_tls_config, sides_trust, handshake. cbn zeta.
  set (ct := tr_tls (cc_transport c)). set (st := str_tls (sc_transport s)).
  set (ca := ctl_trusted_ca_file ct). set (sca := st_trusted_ca_file st).
  set (cert := ctl_cert_file ct). set (key := ctl_key_file ct).
  destruct (if is_empty (trim ca) then Ok AnyPeer else let? roots := load_roots ca in Ok (Verify roots)) as [servers|] eqn:E1; [|done]. cbn.
  destruct (if negb (is_empty (trim cert)) && negb (is_empty (trim key)) then let? c := load_cert_key cert key in Ok (Some c) else Ok None)
    as [certs|] eqn:E2; [|done]. cbn. intros [= <-].
  destruct (if is_empty _ || is_empty _ then _ else _) as [scerts|]; [|done]. cbn.
  destruct (if is_empty (trim sca) then Ok AnyPeer else let? roots := load_roots sca in Ok (Verify roots)) as [clients|] eqn:E3; [|done]. cbn.
  intros [= <-]. cbn.
  assert (match servers with AnyPeer => true | Verify roots => server_cert_ok roots (tls_server_name c) scerts end = true
    <-> (trim ca <> "" -> exists roots, load_roots ca = Ok roots /\ server_cert_ok roots (tls_server_name c) scerts = true)) as Hs.
  { destruct (is_empty (trim ca)) eqn:Ee; [apply is_empty_true in Ee|apply is_empty_false in Ee].
    - injection E1 as <-. done.
    - destruct (load_roots ca) as [r|]; [|done]. injection E1 as <-. split; [intros; by exists r|]. intros Hx. by destruct (Hx Ee) as (? & [= <-] & ?). }
  rewrite andb_true_iff, Hs. apply and_iff_compat_l.
  destruct (is_empty (trim sca)) eqn:Ee; [apply is_empty_true in Ee|apply is_empty_false in Ee].
  - injection E3 as <-. done.
  - destruct (load_roots sca) as [r|]; [|done]. injection E3 as <-.
    destruct (is_empty (trim cert)) eqn:Ec; [|destruct (is_empty (trim key)) eqn:Ek]; cbn in E2.
    + injection E2 as <-. apply is_empty_true in Ec. split; [done|]. intros Hx. by destruct (Hx Ee).
    + injection E2 as <-. apply is_empty_true in Ek. split; [done|]. intros Hx. by destruct (Hx Ee) as (_ & ? & _).
    + apply is_empty_false in Ec, Ek. destruct (load_cert_key cert key) as [k|]; [|done]. injection E2 as <-. split.
      * intros Hk. intros _. split; [done|]. split; [done|]. by exists r, k.
      * intros Hx. by destruct (Hx Ee) as (_ & _ & ? & ? & [= <-] & [= <-] & ?).
Qed.

Lemma handle_physical_mux mux mux' m : handle_physical (Certs := Certs) (Roots := Roots) mux' (mux_wrap mux (Raw m)) = Ok m <-> mux = mux'.
Proof. by destruct mux, mux'. Qed.
Lemma not_websocket (w : Wire) path n : (match w with Ws _ _ => False | _ => True end) ->
  is_websocket_http_request (stake n (head_bytes yamux_version ws_rest w)) path = false.
Proof.
  intros Hw. apply not_true_is_false. intros [_ Hx]%stake_nil_le. revert Hx. unfold starts_with.
  assert (exists c, head_bytes yamux_version ws_rest w = String c "") as [c ->] by (destruct w; try done; by eexists).
  cbn [String.append strip_prefix]. by destruct (Ascii.eqb "G" c).
Qed.
Lemma wrapped opts mux m (w : Wire) : maybe_wrap opts (mux_wrap mux (Raw m)) = Ok w ->
  w = (if td_enable opts then Tls (td_cfg opts) (td_server_name opts) (mux_wrap mux (Raw m)) else mux_wrap mux (Raw m))
  /\ match w with Ws _ _ => False | _ => True end.
Proof.
  unfold maybe_wrap. destruct (td_enable opts); [|intros [= <-]; by destruct mux]. destruct (negb _); [done|]. by intros [= <-].
Qed.
Lemma serve_tls_agrees tls opts force mux mux' m w : opens_connection m -> maybe_wrap opts (mux_wrap mux (Raw m)) = Ok w ->
  serve_tls tls force mux' w = Ok m
  <-> mux = mux' /\ (force = true -> td_enable opts = true) /\ (td_enable opts = true -> handshake (td_cfg opts) (td_server_name opts) tls = true).
Proof using yamux_not_tls.
  intros Hm [-> _]%wrapped. unfold Transport.serve_tls, check_tls. destruct (td_enable opts); cbn [map_err].
  - cbn. destruct (handshake _ _ _); [rewrite handle_physical_mux; intuition|]. split; [done|]. intros (_ & _ & Hx). by specialize (Hx eq_refl).
  - assert (Ascii.eqb (first_byte (mux_wrap mux (Raw m))) TLS_HANDSHAKE_TYPE = false) as ->.
    { apply Ascii.eqb_neq. destruct mux; [done|]. by destruct m. }
    destruct force; cbn; [split; [done|intros (_ & Hx & _); by specialize (Hx eq_refl)]|]. rewrite handle_physical_mux. intuition done.
Qed.

(** C24: What the server makes of a connection is what the client meant by it exactly
    when both are configured alike and trust each other: the same [tcpMux], TLS where
    the server insists on it, where there is TLS - always with QUIC - certificates
    that satisfy the trusted CA files of the other side, and over WebSocket a target
    the server looks for and sees whole in its one look at the bytes that have
    arrived; [tcpMux] and the server's insisting do not concern QUIC. Otherwise the
    message does not reach the server's handlers. What rustls makes of a certificate
    and which bytes the layers begin with are parameters. *)
Theorem layers_agree (uri_target : string -> Anyhow string) (c : ClientConfig) (s : ServerConfig) (tls : TlsServer Certs Roots)
    (m : Message) (d : Dialled Certs Roots) (peeked : nat) :
  opens_connection m -> server_tls s = Ok tls -> build_connector_open uri_target c m = Ok d ->
  (serve_dialled yamux_version ws_rest s tls peeked d = Ok m <->
   (client_protocol c = Ok Quic /\ sides_trust c s tls) \/
   (client_protocol c <> Ok Quic
    /\ tr_tcp_mux (cc_transport c) = str_tcp_mux (sc_transport s)
    /\ (st_force (str_tls (sc_transport s)) = true -> ctl_enable (tr_tls (cc_transport c)) = true)
    /\ (ctl_enable (tr_tls (cc_transport c)) = true -> sides_trust c s tls)
    /\ (client_protocol c = Ok Websocket ->
        4 + String.length (str_ws_path (sc_transport s)) <= peeked
        /\ exists target, uri_target (tr_ws_path (cc_transport c)) = Ok target
           /\ starts_with (str_ws_path (sc_transport s)) (target ++ ws_rest) = true))).
Proof using yamux_not_tls.
  intros Hm Hs. unfold build_connector_open. destruct (tls_from_config c) as [opts|e] eqn:Eo; [|done]. cbn.
  pose proof (handshake_trust c s tls opts Eo Hs) as Ht.
  assert (td_enable opts = ctl_enable (tr_tls (cc_transport c))) as Een.
  { unfold tls_from_config in Eo. destruct (new_client_tls_config _ _ _ _ _); [|done]. by injection Eo as <-. }
  rewrite <- Een, <- Ht. clear Ht Een Eo Hs.
  destruct (client_protocol c) as [p|e]; [|done]. cbn.
  set (mux := tr_tcp_mux (cc_transport c)). set (mux' := str_tcp_mux (sc_transport s)). set (force := st_force (str_tls (sc_transport s))).
  destruct p; [| | |]; cbn [serve_dialled].
  - destruct (maybe_wrap opts _) as [w|] eqn:Ew; [|done]. intros [= <-]. cbn [serve_dialled]. unfold handle_tcp_or_websocket. fold mux' force.
    rewrite not_websocket by (by eapply wrapped). cbn. rewrite (serve_tls_agrees _ _ _ _ _ _ _ Hm Ew). naive_solver.
  - destruct (negb _); [done|]. intros [= <-]. cbn [serve_dialled]. destruct (handshake _ _ _); naive_solver.
  - destruct (uri_target _) as [target|]; [|done]. cbn. destruct (maybe_wrap opts _) as [w|] eqn:Ew; [|done]. intros [= <-]. cbn [serve_dialled].
    unfold handle_tcp_or_websocket. fold mux' force. set (path := str_ws_path (sc_transport s)).
    destruct (is_websocket_http_request _ path) eqn:Eq.
    + cbn. rewrite (serve_tls_agrees _ _ _ _ _ _ _ Hm Ew). apply stake_nil_le in Eq as [Hl Hst]. cbn [head_bytes] in Hst.
      rewrite starts_with_cons_app in Hst. rewrite length_app_s in Hl. cbn in Hl. split; [|naive_solver].
      intros (H1 & H2 & H3). right. split; [done|]. split; [done|]. split; [done|]. split; [done|]. intros _. split; [lia|by eexists].
    + split.
      * unfold Transport.serve_tls, check_tls. cbn. by destruct force, mux'.
      * intros [[? _]|(_ & _ & _ & _ & Hx)]; [done|]. destruct (Hx eq_refl) as (Hp & ? & [= <-] & Hst). exfalso. revert Eq.
        unfold is_websocket_http_request. rewrite starts_with_stake; [done| |].
        -- cbn [head_bytes]. by rewrite starts_with_cons_app.
        -- rewrite length_app_s. cbn. lia.
  - destruct (maybe_wrap opts _) as [w|] eqn:Ew; [|done]. intros [= <-]. cbn [serve_dialled].
    rewrite (serve_tls_agrees _ _ _ _ _ _ _ Hm Ew). naive_solver.
Qed.
End Agreement.

(** The byte the server looked at is given back: through the stream it goes on
    with, reading gives that byte and then what the connection gives, and what is
    written passes unchanged. *)
Theorem first_byte_given_back {S} `{AsyncStream S, !StreamLaws S} (p p' : PrefixedByteStream S) (d w : string) :
  io_run p d w p' -> exists d', io_run (pb_inner p) d' w (pb_inner p') /\ pb_text p ++ d' = d ++ pb_text p'.
Proof.
  induction 1 as [p|p op p1 d w d2 w2 p2 E _ (d' & Hr & Hd)]; [exists ""; rewrite app_nil_r; eauto with io|].
  assert (forall dr, io_run (pb_inner p) dr w (pb_inner p1) -> pb_text p ++ dr = d ++ pb_text p1 ->
    exists d', io_run (pb_inner p) d' (w ++ w2) (pb_inner p2) /\ pb_text p ++ d' = (d ++ d2) ++ pb_text p2) as Hgoal.
  { intros dr H1 H2. exists (dr ++ d'). split; [by eapply io_app|]. rewrite <- app_assoc, H2, !app_assoc. by rewrite Hd. }
  destruct op as [room|buf| |]; cbn in E.
  - destruct (match pb_prefix p with Some _ => (0 <? room)%nat | None => false end) eqn:Et.
    + unfold prefixed_byte_poll_read in E. destruct (pb_prefix p) as [b|] eqn:Eb; [|done]. rewrite Et in E. injection E as <- <- <-.
      apply (Hgoal ""); [apply io_nil|]. unfold pb_text. by rewrite Eb.
    + assert (prefixed_byte_poll_read p room = pb_with p (poll_read (pb_inner p) room)) as Ep.
      { unfold prefixed_byte_poll_read. destruct (pb_prefix p); [by rewrite Et|done]. }
      rewrite Ep in E. destruct (poll_read (pb_inner p) room) as [s [|[dr|e]]] eqn:Er; cbn in E; injection E as <- <- <-.
      * apply (Hgoal ""); [by eapply io_read_none|]. by rewrite app_nil_r.
      * apply (Hgoal dr); [by eapply io_read|]. unfold pb_text. cbn. apply poll_read_fits in Er. destruct (pb_prefix p); [|by rewrite app_nil_r].
        apply Nat.ltb_ge in Et. destruct dr; [done|cbn in Er; lia].
      * apply (Hgoal ""); [by eapply io_read_none|]. by rewrite app_nil_r.
  - destruct (poll_write (pb_inner p) buf) as [s [|[k|e]]] eqn:Ew; cbn in E; injection E as <- <- <-;
      (apply (Hgoal ""); [|by rewrite app_nil_r]); [by eapply io_write_none|by eapply io_write|by eapply io_write_none].
  - injection E as <- <- <-. apply (Hgoal ""); [apply io_flush|by rewrite app_nil_r].
  - injection E as <- <- <-. apply (Hgoal ""); [apply io_shutdown|by rewrite app_nil_r].
Qed.

(** Without a trusted CA the client takes any server for the right one, and the
    server any client; with one, each side demands a certificate of its roots. *)
Lemma client_verifies {Certs Roots} load (roots_of : string -> Anyhow Roots) cert key ca (t : TlsClient Certs Roots) :
  new_client_tls_config load roots_of cert key ca = Ok t ->
  tcl_servers t = AnyPeer /\ trim ca = "" \/ exists roots, tcl_servers t = Verify roots /\ roots_of ca = Ok roots /\ trim ca <> "".
Proof.
  unfold new_client_tls_config. destruct (is_empty (trim ca)) eqn:Ee.
  - apply is_empty_true in Ee. destruct (negb _ && _); [destruct (load cert key); [|done]|]; intros [= <-]; by left.
  - apply is_empty_false in Ee. destruct (roots_of ca) as [r|] eqn:Er; [|done].
    destruct (negb _ && _); [destruct (load cert key); [|done]|]; intros [= <-]; right; by exists r.
Qed.

(** *** Witness *)

Definition ex_ws_client (path : string) : ClientConfig :=
  let tr := client_transport_default in
  MkClientConfig "example.org:9527" "u" "A" (MkClientAuth "token" "t")
    (MkTransport "websocket" 1 true 30 7200 75 (-1) (-1) (tr_quic tr) path (tr_tls tr)) [] 1500 log_default.
Definition ex_message : Message := MLogin (MkLogin "v" "h" "o" "x" "u" "A" "" 0 "" 1).
Definition ex_ws_rest : string := " HTTP/1.1" ++ crlf.

(** Files are their names; a certificate proves the name it has and is of the roots
    [ca]; self-signed ones are of no roots. *)
#[local] Instance ex_rustls : Rustls string string := {
  server_name_ok n := negb (is_empty n);
  server_cert_ok roots name certs := String.eqb roots "ca" && String.eqb certs name;
  client_cert_ok roots certs := String.eqb roots "ca" && String.eqb certs "client";
  self_signed_cert n := Ok n;
  load_cert_key c k := Ok c;
  load_roots r := Ok r }.
Definition ex_server_tls : TlsServer string string := MkTlsServer "orbien-server" AnyPeer.

Lemma layers_agree_witness :
  exists d, build_connector_open Ok (ex_ws_client "/~!orbien") ex_message = Ok d
  /\ serve_dialled zero ex_ws_rest server_config_default ex_server_tls 13 d = Ok ex_message.
Proof.
  exists (DialTcp (Ws "/~!orbien" (Tls (MkTlsClient AnyPeer None) "example.org" (Yamux (Raw ex_message))))). split; [vm_compute; reflexivity|].
  apply (layers_agree zero ex_ws_rest ltac:(discriminate) Ok (ex_ws_client "/~!orbien") server_config_default ex_server_tls ex_message);
    [exact I|vm_compute; reflexivity|vm_compute; reflexivity|].
  right. split; [vm_compute; discriminate|]. split; [vm_compute; reflexivity|]. split; [vm_compute; discriminate|].
  split; [intros _; split; vm_compute; intuition done|]. intros _. split; [vm_compute; lia|]. eexists. by split.
Defined.

(** A server that trusts a CA refuses a client without a certificate, over QUIC too. *)
Lemma no_client_cert_refused (m : Message) :
  serve_dialled zero ex_ws_rest server_config_default (MkTlsServer "server" (Verify "ca")) 13 (DialQuic (MkTlsClient AnyPeer None) "example.org" m)
  = Err "quic accept failed".
Proof. reflexivity. Qed.

(** The server looks once: when the request has arrived in part only, a client
    configured alike is refused. *)
Lemma short_peek_refused :
  serve_dialled zero ex_ws_rest server_config_default ex_server_tls 12
    (DialTcp (Ws "/~!orbien" (Tls (MkTlsClient AnyPeer None) "example.org" (Yamux (Raw ex_message))))) = Err "yamux session".
Proof. vm_compute. reflexivity. Qed.
