(* ===== verification/WireStreams.v ===== *)
(** * The byte streams of the transports

    The adapters [WsByteStream] of [core/src/transport/websocket.rs],
    [KcpByteStream] of [kcp.rs] and [QuicBiStream] of [quic.rs], as instances of
    the interface of [Streams].  What tungstenite, tokio-kcp and quinn offer is a
    class each; over WebSocket bytes travel as messages, and the adapter turns
    messages back into a stream. *)

From S2P Require Import Prelude RustStr Streams.

Local Open Scope string_scope.

(** ** WebSocket *)

Inductive WsMessage := Text (data : string) | Binary (data : string) | WsPing (data : string) | WsPong (data : string)
  | Close | Frame.

(** [WebSocketStream] as [Stream] and [Sink]. [ws_backlog] bounds the messages it
    can hand out before it has to wait: tokio makes every task yield after a while. *)
Class WsSocket (W : Type) := {
  poll_next : W -> W * Poll (option (Anyhow WsMessage));
  poll_ready : W -> W * Poll (Anyhow unit);
  start_send : W -> WsMessage -> W * Anyhow unit;
  sink_poll_flush : W -> W * Poll (Anyhow unit);
  poll_close : W -> W * Poll (Anyhow unit);
  ws_backlog : W -> nat }.
Class WsLaws (W : Type) `{WsSocket W} := {
  poll_next_backlog : forall w w' m, poll_next w = (w', Ready (Some (Ok m))) -> ws_backlog w' < ws_backlog w }.

Record WsByteStream (W : Type) := MkWsStream { wb_inner : W; wb_read_buf : string }.
Arguments MkWsStream {W}.
Arguments wb_inner {W}.
Arguments wb_read_buf {W}.
Definition ws_new {W} (inner : W) : WsByteStream W := MkWsStream inner "".

Section Ws.
Context {W : Type} `{WsSocket W}.

(** What a message adds to the bytes read. *)
Definition ws_payload (m : WsMessage) : string := match m with Text d | Binary d => d | _ => "" end.

(** One look at the buffer and, when that is empty, at the socket; [None] to go round again. *)
Definition ws_read_turn (s : WsByteStream W) (room : nat) : WsByteStream W * option (Poll (Anyhow string)) :=
  if negb (is_empty (wb_read_buf s)) then
    let n := room `min` String.length (wb_read_buf s) in
    (MkWsStream (wb_inner s) (sdrop n (wb_read_buf s)), Some (Ready (Ok (stake n (wb_read_buf s)))))
  else
    match poll_next (wb_inner s) with
    | (w, Ready (Some (Ok (Binary data)))) => (MkWsStream w (wb_read_buf s ++ data), None)
    | (w, Ready (Some (Ok (Text text)))) => (MkWsStream w (wb_read_buf s ++ text), None)
    | (w, Ready (Some (Ok (WsPing _)))) | (w, Ready (Some (Ok (WsPong _)))) => (MkWsStream w (wb_read_buf s), None)
    | (w, Ready (Some (Ok Close))) | (w, Ready None) => (MkWsStream w (wb_read_buf s), Some (Ready (Ok "")))
    | (w, Ready (Some (Ok Frame))) => (MkWsStream w (wb_read_buf s), None)
    | (w, Ready (Some (Err e))) => (MkWsStream w (wb_read_buf s), Some (Ready (Err e)))
    | (w, Pending) => (MkWsStream w (wb_read_buf s), Some Pending)
    end.
Fixpoint ws_read_loop (fuel : nat) (s : WsByteStream W) (room : nat) : WsByteStream W * Poll (Anyhow string) :=
  match fuel with
  | O => (s, Pending)
  | S fuel => match ws_read_turn s room with (s, Some r) => (s, r) | (s, None) => ws_read_loop fuel s room end
  end.
(** A turn more than there are messages to be had. *)
Definition ws_poll_read (s : WsByteStream W) (room : nat) : WsByteStream W * Poll (Anyhow string) :=
  ws_read_loop (S (ws_backlog (wb_inner s))) s room.

Definition ws_poll_write (s : WsByteStream W) (buf : string) : WsByteStream W * Poll (Anyhow nat) :=
  match poll_ready (wb_inner s) with
  | (w, Pending) => (MkWsStream w (wb_read_buf s), Pending)
  | (w, Ready (Err e)) => (MkWsStream w (wb_read_buf s), Ready (Err e))
  | (w, Ready (Ok _)) =>
      match start_send w (Binary buf) with
      | (w, Err e) => (MkWsStream w (wb_read_buf s), Ready (Err e))
      | (w, Ok _) => (MkWsStream w (wb_read_buf s), Ready (Ok (String.length buf)))
      end
  end.
Definition ws_with {A} (s : WsByteStream W) (r : W * A) : WsByteStream W * A := (MkWsStream r.1 (wb_read_buf s), r.2).
#[global] Instance ws_stream : AsyncStream (WsByteStream W) := {
  poll_read := ws_poll_read;
  poll_write := ws_poll_write;
  poll_flush s := ws_with s (sink_poll_flush (wb_inner s));
  poll_shutdown s := ws_with s (poll_close (wb_inner s)) }.

(** *** What happens on the socket *)

(** [ws_run w got sent w']: on the way from [w] to [w'] the socket handed out the
    messages [got] and took the messages [sent]. *)
Inductive ws_run : W -> list WsMessage -> list WsMessage -> W -> Prop :=
| wr_nil w : ws_run w [] [] w
| wr_next w w1 m got sent w' : poll_next w = (w1, Ready (Some (Ok m))) -> ws_run w1 got sent w' -> ws_run w (m :: got) sent w'
| wr_send w w1 m got sent w' : start_send w m = (w1, Ok tt) -> ws_run w1 got sent w' -> ws_run w got (m :: sent) w'
| wr_other w w1 got sent w' :
    (exists r, poll_next w = (w1, r) /\ match r with Ready (Some (Ok _)) => False | _ => True end)
    \/ (exists r, poll_ready w = (w1, r)) \/ (exists m e, start_send w m = (w1, Err e))
    \/ (exists r, sink_poll_flush w = (w1, r)) \/ (exists r, poll_close w = (w1, r)) ->
    ws_run w1 got sent w' -> ws_run w got sent w'.
Definition payloads (ms : list WsMessage) : string := foldr (fun m s => ws_payload m ++ s) "" ms.
End Ws.

(** ** KCP *)

(** The stream of tokio-kcp; shutting the adapter down only flushes it. *)
Record KcpByteStream (S : Type) := MkKcpStream { kb_inner : S }.
Arguments MkKcpStream {S}.
Arguments kb_inner {S}.
#[global] Instance kcp_stream {S} `{AsyncStream S} : AsyncStream (KcpByteStream S) := {
  poll_read s room := (MkKcpStream (poll_read (kb_inner s) room).1, (poll_read (kb_inner s) room).2);
  poll_write s buf := (MkKcpStream (poll_write (kb_inner s) buf).1, (poll_write (kb_inner s) buf).2);
  poll_flush s := (MkKcpStream (poll_flush (kb_inner s)).1, (poll_flush (kb_inner s)).2);
  poll_shutdown s := (MkKcpStream (poll_flush (kb_inner s)).1, (poll_flush (kb_inner s)).2) }.

(** ** QUIC *)

(** The two halves of a stream of quinn, of which only one reads and one writes. *)
Class RecvHalf (R : Type) := recv_poll_read : R -> nat -> R * Poll (Anyhow string).
Class SendHalf (T : Type) := {
  send_poll_write : T -> string -> T * Poll (Anyhow nat);
  send_poll_flush : T -> T * Poll (Anyhow unit);
  send_poll_shutdown : T -> T * Poll (Anyhow unit) }.
Record QuicBiStream (R T : Type) := MkQuicBi { qb_send : T; qb_recv : R }.
Arguments MkQuicBi {R T}.
Arguments qb_send {R T}.
Arguments qb_recv {R T}.
Definition qb_with_send {R T A} (s : QuicBiStream R T) (r : T * A) : QuicBiStream R T * A := (MkQuicBi r.1 (qb_recv s), r.2).
#[global] Instance quic_stream {R T} `{RecvHalf R, SendHalf T} : AsyncStream (QuicBiStream R T) := {
  poll_read s room := (MkQuicBi (qb_send s) (recv_poll_read (qb_recv s) room).1, (recv_poll_read (qb_recv s) room).2);
  poll_write s buf := qb_with_send s (send_poll_write (qb_send s) buf);
  poll_flush s := qb_with_send s (send_poll_flush (qb_send s));
  poll_shutdown s := qb_with_send s (send_poll_shutdown (qb_send s)) }.

(** ** Lemmas *)

Section WsLemmas.
Context {W : Type} `{WsLaws W}.

Lemma ws_run_app (w w1 w2 : W) got sent got' sent' :
  ws_run w got sent w1 -> ws_run w1 got' sent' w2 -> ws_run w (got ++ got') (sent ++ sent') w2.
Proof. induction 1; intros Hr; cbn; [done|econstructor; eauto..]. Qed.
Lemma payloads_app ms ms' : payloads (ms ++ ms') = payloads ms ++ payloads ms'.
Proof. unfold payloads. induction ms as [|m ms IH]; [done|]. cbn. by rewrite IH, app_assoc. Qed.

(** What a turn does to the socket, and to the bytes. *)
Lemma ws_read_turn_spec (s s' : WsByteStream W) room r : ws_read_turn s room = (s', r) ->
  exists got, ws_run (wb_inner s) got [] (wb_inner s')
  /\ wb_read_buf s ++ payloads got = (match r with Some (Ready (Ok d)) => d | _ => "" end) ++ wb_read_buf s'
  /\ (r = None -> ws_backlog (wb_inner s') < ws_backlog (wb_inner s)).
Proof.
  unfold ws_read_turn. destruct (is_empty (wb_read_buf s)) eqn:Eb; cbn [negb].
  - apply is_empty_true in Eb. rewrite Eb.
    assert (forall w m, poll_next (wb_inner s) = (w, Ready (Some (Ok m))) -> ws_run (wb_inner s) [m] [] w) as Hone
      by (intros w m E; econstructor; [exact E|constructor]).
    assert (forall w r, poll_next (wb_inner s) = (w, r) -> (match r with Ready (Some (Ok _)) => False | _ => True end) ->
      ws_run (wb_inner s) [] [] w) as Hnone by (intros w r0 E Hr; eapply wr_other; [left; by eexists|constructor]).
    destruct (poll_next (wb_inner s)) as [w [|[[m|e]|]]] eqn:E.
    + intros [= <- <-]. exists []. split; [by eapply Hnone|done].
    + specialize (Hone w m eq_refl). apply poll_next_backlog in E.
      destruct m; intros [= <- <-]; eexists; (split; [exact Hone|]); cbn; by rewrite ?app_nil_r.
    + intros [= <- <-]. exists []. split; [by eapply Hnone|done].
    + intros [= <- <-]. exists []. split; [by eapply Hnone|done].
  - intros [= <- <-]. exists []. split; [apply wr_nil|]. cbn. by rewrite app_nil_r, stake_sdrop.
Qed.
Lemma ws_read_loop_spec fuel (s s' : WsByteStream W) room r : ws_read_loop fuel s room = (s', r) ->
  exists got, ws_run (wb_inner s) got [] (wb_inner s')
  /\ wb_read_buf s ++ payloads got = (match r with Ready (Ok d) => d | _ => "" end) ++ wb_read_buf s'.
Proof.
  revert s. induction fuel as [|fuel IH]; intros s; cbn.
  { intros [= <- <-]. exists []. split; [apply wr_nil|]. cbn. by rewrite app_nil_r. }
  destruct (ws_read_turn s room) as [s1 [r1|]] eqn:E; apply ws_read_turn_spec in E as (got & H1 & H2 & _).
  - intros [= <- <-]. eauto.
  - intros (got' & H3 & H4)%IH. exists (got ++ got')%list. split; [by apply (ws_run_app _ _ _ got [] got' [] H1 H3)|].
    by rewrite payloads_app, <- app_assoc, H2.
Qed.

(** The fuel suffices: any more gives the same. *)
Lemma ws_read_loop_enough fuel fuel' (s : WsByteStream W) room :
  ws_backlog (wb_inner s) < fuel -> ws_backlog (wb_inner s) < fuel' -> ws_read_loop fuel s room = ws_read_loop fuel' s room.
Proof.
  revert fuel' s. induction fuel as [|fuel IH]; intros [|fuel'] s; try lia. intros H1 H2. cbn.
  destruct (ws_read_turn s room) as [s1 [r1|]] eqn:E; [done|]. apply ws_read_turn_spec in E as (_ & _ & _ & E).
  specialize (E eq_refl). apply IH; lia.
Qed.
Lemma ws_poll_read_loop (s : WsByteStream W) room :
  ws_poll_read s room = match ws_read_turn s room with (s1, Some r) => (s1, r) | (s1, None) => ws_poll_read s1 room end.
Proof.
  unfold ws_poll_read. rewrite (ws_read_loop_enough _ (S (S (ws_backlog (wb_inner s))))) by lia.
  cbn [ws_read_loop]. destruct (ws_read_turn s room) as [s1 [r1|]] eqn:E; [done|].
  apply ws_read_turn_spec in E as (_ & _ & _ & E). specialize (E eq_refl).
  change (ws_read_loop (S (ws_backlog (wb_inner s))) s1 room = ws_read_loop (S (ws_backlog (wb_inner s1))) s1 room).
  apply ws_read_loop_enough; lia.
Qed.

(** What an operation on the adapter is on the socket. *)
Definition ws_does (s : WsByteStream W) (d w : string) (s' : WsByteStream W) : Prop :=
  exists got sent, ws_run (wb_inner s) got sent (wb_inner s')
  /\ wb_read_buf s ++ payloads got = d ++ wb_read_buf s'
  /\ payloads sent = w /\ (forall m, m ∈ sent -> exists buf, m = Binary buf).
Lemma ws_does_quiet (s s' : WsByteStream W) : ws_run (wb_inner s) [] [] (wb_inner s') -> wb_read_buf s = wb_read_buf s' ->
  ws_does s "" "" s'.
Proof. intros Hr Hb. exists [], []. split; [done|]. cbn. rewrite app_nil_r. split; [done|]. split; [done|]. by intros m Hm%not_elem_of_nil. Qed.
Lemma ws_does_app (s s1 s2 : WsByteStream W) d w d' w' : ws_does s d w s1 -> ws_does s1 d' w' s2 -> ws_does s (d ++ d') (w ++ w') s2.
Proof.
  intros (got & sent & H1 & H2 & H3 & H4) (got' & sent' & G1 & G2 & G3 & G4).
  exists (got ++ got')%list, (sent ++ sent')%list. split; [by eapply ws_run_app|].
  rewrite !payloads_app, <- app_assoc, H2, !app_assoc, G2, G3, H3. split; [done|]. split; [done|].
  intros m [Hm|Hm]%elem_of_app; eauto.
Qed.
Lemma ws_run_other (w w1 : W) :
  (exists r, poll_ready w = (w1, r)) \/ (exists m e, start_send w m = (w1, Err e))
  \/ (exists r, sink_poll_flush w = (w1, r)) \/ (exists r, poll_close w = (w1, r)) -> ws_run w [] [] w1.
Proof. intros Ho. eapply wr_other; [right; exact Ho|apply wr_nil]. Qed.
Lemma ws_write_does (s s1 : WsByteStream W) buf r : ws_poll_write s buf = (s1, r) ->
  ws_does s "" (match r with Ready (Ok k) => stake k buf | _ => "" end) s1.
Proof.
  unfold ws_poll_write. destruct (poll_ready (wb_inner s)) as [w1 rr] eqn:Er.
  assert (ws_run (wb_inner s) [] [] w1) as Hr by (apply ws_run_other; eauto).
  destruct rr as [|[[]|e]]; [by intros [= <- <-]; apply ws_does_quiet| |by intros [= <- <-]; apply ws_does_quiet].
  destruct (start_send w1 (Binary buf)) as [w3 [[]|e]] eqn:Es; intros [= <- <-].
  - exists [], [Binary buf]. split; [|split; [by rewrite app_nil_r|]].
    + apply (ws_run_app _ _ _ _ _ [] [Binary buf] Hr). eapply wr_send; [exact Es|apply wr_nil].
    + split; [cbn; by rewrite app_nil_r, stake_all|]. intros m ->%list_elem_of_singleton. by eexists.
  - apply ws_does_quiet; [|done]. apply (ws_run_app _ _ _ _ _ [] [] Hr). apply ws_run_other. eauto.
Qed.
Lemma ws_step_does (s s1 : WsByteStream W) op d w : io_step s op = (s1, d, w) -> ws_does s d w s1.
Proof.
  destruct op as [room|buf| |]; cbn [io_step poll_read poll_write poll_flush poll_shutdown ws_stream].
  - destruct (ws_poll_read s room) as [s3 r] eqn:Er. unfold ws_poll_read in Er. apply ws_read_loop_spec in Er as (got & H1 & H2).
    intros E. assert (s3 = s1 /\ w = "" /\ d = match r with Ready (Ok d) => d | _ => "" end) as (<- & -> & ->)
      by (destruct r as [|[dr|e]]; by simplify_eq).
    exists got, []. split; [done|]. split; [done|]. split; [done|]. by intros m Hm%not_elem_of_nil.
  - destruct (ws_poll_write s buf) as [s3 r] eqn:Er. apply ws_write_does in Er. by destruct r as [|[k|e]]; intros [= <- <- <-].
  - intros [= <- <- <-]. apply ws_does_quiet; [|done]. apply ws_run_other. cbn. destruct (sink_poll_flush _). eauto.
  - intros [= <- <- <-]. apply ws_does_quiet; [|done]. apply ws_run_other. cbn. destruct (poll_close _). eauto 6.
Qed.

(** A turn that reports the end of the stream. *)
Lemma ws_turn_end (s s' : WsByteStream W) room : 0 < room -> ws_read_turn s room = (s', Some (Ready (Ok ""))) ->
  wb_read_buf s = "" /\ (poll_next (wb_inner s) = (wb_inner s', Ready None) \/ poll_next (wb_inner s) = (wb_inner s', Ready (Some (Ok Close)))).
Proof.
  intros Hroom. unfold ws_read_turn. destruct (is_empty (wb_read_buf s)) eqn:Eb; cbn [negb].
  - apply is_empty_true in Eb. destruct (poll_next (wb_inner s)) as [w [|[[[]|e]|]]] eqn:E; intros [= <-]; eauto.
  - apply is_empty_false in Eb. destruct (wb_read_buf s) as [|c b]; [done|]. destruct room; [lia|]. by intros [= _ E].
Qed.
Lemma ws_loop_end fuel (s s' : WsByteStream W) room : 0 < room -> ws_read_loop fuel s room = (s', Ready (Ok "")) ->
  exists got w, ws_run (wb_inner s) got [] w /\ wb_read_buf s ++ payloads got = ""
  /\ (poll_next w = (wb_inner s', Ready None) \/ poll_next w = (wb_inner s', Ready (Some (Ok Close)))).
Proof.
  intros Hroom. revert s. induction fuel as [|fuel IH]; intros s; [done|]. cbn [ws_read_loop].
  destruct (ws_read_turn s room) as [s1 [r|]] eqn:E.
  - intros [= -> ->]. apply ws_turn_end in E as [E1 E2]; [|done]. exists [], (wb_inner s). split; [apply wr_nil|]. cbn. by rewrite app_nil_r.
  - intros (got & w & H1 & H2 & H3)%IH. apply ws_read_turn_spec in E as (got1 & G1 & G2 & _).
    exists (got1 ++ got)%list, w. split; [by apply (ws_run_app _ _ _ _ [] _ [] G1 H1)|]. by rewrite payloads_app, <- app_assoc, G2.
Qed.
End WsLemmas.

(** ** Properties *)

(** C27: The WebSocket adapter is a byte stream. What is read through it is the
    payload of the messages the socket hands out, in order, after what was left
    over before, whatever else arrives in between and however the reader's buffers
    cut it; each write is sent whole as one binary message; and a read always
    comes to an end as the code's loop does. *)
Theorem ws_transparent {W} `{WsLaws W} (s s' : WsByteStream W) (d w : string) : io_run s d w s' ->
  (exists got sent, ws_run (wb_inner s) got sent (wb_inner s')
     /\ wb_read_buf s ++ payloads got = d ++ wb_read_buf s'
     /\ payloads sent = w /\ (forall m, m ∈ sent -> exists buf, m = Binary buf))
  /\ forall room, poll_read s room = match ws_read_turn s room with (s1, Some r) => (s1, r) | (s1, None) => poll_read s1 room end.
Proof.
  intros Hrun. split; [|intros room; apply ws_poll_read_loop].
  induction Hrun as [s|s op s1 d w d2 w2 s2 E _ IH]; [by apply ws_does_quiet; [apply wr_nil|]|].
  eapply ws_does_app; [by eapply ws_step_does|exact IH].
Qed.

(** A reader is told that the stream has ended only when the socket has ended or
    a close message has come and every byte before it was read: a message without
    bytes, a ping or a pong does not look like the end. *)
Theorem ws_end_is_end {W} `{WsLaws W} (s s' : WsByteStream W) (room : nat) :
  0 < room -> poll_read s room = (s', Ready (Ok "")) ->
  exists got w, ws_run (wb_inner s) got [] w /\ wb_read_buf s ++ payloads got = ""
  /\ (poll_next w = (wb_inner s', Ready None) \/ poll_next w = (wb_inner s', Ready (Some (Ok Close)))).
Proof. apply ws_loop_end. Qed.

(** Shutting a KCP stream down leaves it open: whatever is done with the adapter,
    its stream is never shut down, so the other side does not learn of the end. *)
Theorem kcp_never_shut_down {S} `{AsyncStream S} (s s' : KcpByteStream S) op d w : io_step s op = (s', d, w) ->
  exists op', op' <> OpShutdown /\ io_step (kb_inner s) op' = (kb_inner s', d, w).
Proof.
  destruct op as [room|buf| |]; cbn; intros E.
  - exists (OpRead room). split; [done|]. cbn. by destruct (poll_read (kb_inner s) room) as [s1 [|[]]]; injection E as <- <- <-.
  - exists (OpWrite buf). split; [done|]. cbn. by destruct (poll_write (kb_inner s) buf) as [s1 [|[]]]; injection E as <- <- <-.
  - exists OpFlush. split; [done|]. by injection E as <- <- <-.
  - exists OpFlush. split; [done|]. by injection E as <- <- <-.
Qed.

(** *** Witnesses *)

(** A socket with these messages to hand out and those it took. *)
#[local] Instance ex_socket : WsSocket (list WsMessage * list WsMessage) := {
  poll_next w := match w.1 with m :: ms => ((ms, w.2), Ready (Some (Ok m))) | [] => (w, Pending) end;
  poll_ready w := (w, Ready (Ok tt));
  start_send w m := ((w.1, w.2 ++ [m])%list, Ok tt);
  sink_poll_flush w := (w, Ready (Ok tt));
  poll_close w := (w, Ready (Ok tt));
  ws_backlog w := length w.1 }.
#[local] Instance ex_socket_laws : WsLaws (list WsMessage * list WsMessage).
Proof. split. intros [[|m ms] sent] w' m'; [done|]. intros [= <- <-]. cbn. lia. Qed.
Definition ex_ws : WsByteStream (list WsMessage * list WsMessage) := ws_new ([Binary ""; WsPing "x"; Binary "hello"; Close], []).

Lemma ws_transparent_witness :
  exists s', io_run ex_ws "hel" "abc" s' /\
  exists got sent, ws_run (wb_inner ex_ws) got sent (wb_inner s') /\ payloads got = "hel" ++ wb_read_buf s' /\ payloads sent = "abc".
Proof.
  set (s1 := (ws_poll_read ex_ws 3).1). set (s2 := (ws_poll_write s1 "abc").1).
  assert (io_run ex_ws ("hel" ++ "" ++ "") ("" ++ "abc" ++ "") s2) as Hr.
  { eapply io_cons with (op := OpRead 3) (s1 := s1); [reflexivity|]. eapply io_cons with (op := OpWrite "abc"); [reflexivity|apply io_nil]. }
  exists s2. split; [exact Hr|]. destruct (ws_transparent ex_ws s2 _ _ Hr) as [(got & sent & H1 & H2 & H3 & _) _].
  exists got, sent. split; [exact H1|]. split; [exact H2|exact H3].
Defined.

Lemma ws_end_is_end_witness :
  let s := MkWsStream ([Binary ""; Close], []) "" in
  exists got w, ws_run (wb_inner s) got [] w /\ payloads got = ""
  /\ (poll_next w = (([] : list WsMessage, []), Ready None) \/ poll_next w = (([], []), Ready (Some (Ok Close)))).
Proof.
  cbn zeta. apply (ws_end_is_end (MkWsStream ([Binary ""; Close], []) "") (MkWsStream ([], []) "") 5); [lia|reflexivity].
Defined.
