(* ===== verification/Yamux.v ===== *)
(** * Multiplexed connections

    [core/src/transport/yamux_mux.rs]: the client's end, [YamuxClient] and the
    task [drive_client] behind it, as a state machine whose steps are what callers
    do and what the task's [select!] picks; and the server's end,
    [serve_yamux_session].  yamux itself is the outcome of each step.  The client
    opens every data connection through here. *)

From S2P Require Import Prelude RustStr.

Local Open Scope string_scope.

(** The capacity of the channel [start] makes. *)
Definition OPEN_QUEUE_CAP : nat := 64.

(** Where [drive_client] is: in its [select!], waiting for an outbound stream for
    this caller, or over. *)
Inductive Driver := Selecting | Opening (caller : Z) | Ended.

(** The slot [stop_tx]; whether [stop_rx] would resolve; whether the client was
    dropped; the callers in the channel, and those whose [send] waits for room; what
    each caller got, in order. *)
Record YamuxClient := MkYamux {
  yc_stop_tx : bool; yc_stopping : bool; yc_dropped : bool; yc_queue : list Z; yc_blocked : list Z;
  yc_driver : Driver; yc_replies : list (Z * Anyhow Z) }.
(** [YamuxClient::start] *)
Definition yamux_start : YamuxClient := MkYamux true false false [] [] Selecting [].

Definition yc_set_stop (y : YamuxClient) (stop_tx stopping dropped : bool) : YamuxClient :=
  MkYamux stop_tx stopping dropped (yc_queue y) (yc_blocked y) (yc_driver y) (yc_replies y).
Definition yc_set_callers (y : YamuxClient) (queue blocked : list Z) (d : Driver) : YamuxClient :=
  MkYamux (yc_stop_tx y) (yc_stopping y) (yc_dropped y) queue blocked d (yc_replies y).
Definition yc_reply (y : YamuxClient) (caller : Z) (r : Anyhow Z) : YamuxClient :=
  MkYamux (yc_stop_tx y) (yc_stopping y) (yc_dropped y) (yc_queue y) (yc_blocked y) (yc_driver y) (yc_replies y ++ [(caller, r)])%list.

(** [open_stream] up to its wait. *)
Definition open_stream (y : YamuxClient) (caller : Z) : YamuxClient :=
  match yc_driver y with
  | Ended => yc_reply y caller (Err "yamux client session closed")
  | d =>
      if (length (yc_queue y) <? OPEN_QUEUE_CAP)%nat && bool_decide (yc_blocked y = [])
      then yc_set_callers y (yc_queue y ++ [caller])%list (yc_blocked y) d
      else yc_set_callers y (yc_queue y) (yc_blocked y ++ [caller])%list d
  end.
(** [close]: sends once. *)
Definition close (y : YamuxClient) : YamuxClient :=
  if yc_stop_tx y then yc_set_stop y false true (yc_dropped y) else y.
(** The client is dropped, when no caller waits any more (an answer to one that gave up
    goes nowhere); [stop_rx] resolves then too. *)
Definition drop_client (y : YamuxClient) : YamuxClient := yc_set_stop y false true true.

(** [drive_client] returns: the callers still in its channel lose their sender,
    those that wait for room find the channel closed. *)
Definition driver_ends (y : YamuxClient) : YamuxClient :=
  let lost := map (fun c => (c, Err "yamux open_stream cancelled")) (yc_queue y) in
  let refused := map (fun c => (c, Err "yamux client session closed")) (yc_blocked y) in
  MkYamux (yc_stop_tx y) (yc_stopping y) (yc_dropped y) [] [] Ended (yc_replies y ++ lost ++ refused)%list.

(** What [poll_next_inbound] yields. *)
Inductive Inbound := InStream (stream : Z) | InErr (e : string) | InNone.

Inductive YamuxOp :=
| YoOpen (caller : Z) | YoClose | YoDrop | YoStop | YoCommand | YoOpened (r : Anyhow Z) | YoInbound (i : Inbound).
(** [None]: not now. *)
Definition yamux_op (y : YamuxClient) (op : YamuxOp) : option YamuxClient :=
  match op, yc_driver y with
  | YoOpen caller, _ => if yc_dropped y then None else Some (open_stream y caller)
  | YoClose, _ => if yc_dropped y then None else Some (close y)
  | YoDrop, _ => if bool_decide (yc_blocked y = []) then Some (drop_client y) else None
  | YoStop, Selecting => if yc_stopping y then Some (driver_ends y) else None
  | YoCommand, Selecting =>
      match yc_queue y with
      | caller :: queue =>
          match yc_blocked y with
          | next :: blocked => Some (yc_set_callers y (queue ++ [next])%list blocked (Opening caller))
          | [] => Some (yc_set_callers y queue [] (Opening caller))
          end
      | [] => if yc_dropped y then Some (driver_ends y) else None
      end
  | YoOpened r, Opening caller =>
      let r := map_err (fun e => "yamux open outbound: " ++ e) r in
      Some (yc_reply (yc_set_callers y (yc_queue y) (yc_blocked y) Selecting) caller r)
  | YoInbound (InStream _), Selecting => Some y
  | YoInbound _, Selecting => Some (driver_ends y)
  | _, _ => None
  end.
Fixpoint yamux_run (y : YamuxClient) (ops : list YamuxOp) : option YamuxClient :=
  match ops with [] => Some y | op :: ops => match yamux_op y op with Some y => yamux_run y ops | None => None end end.

(** ** The server's end *)

(** The streams handed to [on_stream], and how the session ends; [None] while it goes on. *)
Fixpoint serve_yamux_session (inbound : list Inbound) : list Z * option (Anyhow unit) :=
  match inbound with
  | [] => ([], None)
  | InStream s :: rest => let r := serve_yamux_session rest in (s :: r.1, r.2)
  | InErr e :: _ => ([], Some (Err ("yamux server accept: " ++ e)))
  | InNone :: _ => ([], Some (Ok tt))
  end.
(** What [handle_physical] makes of its error. *)
Definition session_error (peer e : string) : string :=
  if contains "unknown version: 65" e || contains "unknown version: 87" e
  then "yamux session " ++ peer ++ ": " ++ e
       ++ " — transport.tcpMux mismatch: server expects yamux (tcpMux=true) but peer sent a raw control frame (Login 'A'=65 / NewDataConn 'W'=87). Set the same tcpMux on orbien and orbien-server, then restart both."
  else "yamux session " ++ peer ++ ": " ++ e.

(** ** Lemmas *)

Local Open Scope list_scope.

Definition opening (y : YamuxClient) : list Z := match yc_driver y with Opening c => [c] | _ => [] end.
(** The callers of a run, in order. *)
Definition asked (ops : list YamuxOp) : list Z := omap (fun op => match op with YoOpen c => Some c | _ => None end) ops.

(** Every caller is answered or waits, in the order of the calls. *)
Record yamux_ok (callers : list Z) (y : YamuxClient) : Prop := {
  yo_callers : (yc_replies y).*1 ++ opening y ++ yc_queue y ++ yc_blocked y = callers;
  yo_cap : length (yc_queue y) <= OPEN_QUEUE_CAP;
  yo_ended : yc_driver y = Ended -> yc_queue y = [] /\ yc_blocked y = [] }.

Lemma ends_ok callers y : yamux_ok callers y -> yc_driver y = Selecting -> yamux_ok callers (driver_ends y).
Proof.
  intros [H1 _ _] Hd. unfold opening in H1. rewrite Hd in H1. split; [|cbn; unfold OPEN_QUEUE_CAP; lia|done].
  cbn. rewrite !fmap_app, <- !list_fmap_compose. unfold compose. cbn. rewrite !list_fmap_id, List.app_nil_r. exact H1.
Qed.
Lemma open_ok callers y c : yamux_ok callers y -> yamux_ok (callers ++ [c]) (open_stream y c).
Proof.
  intros [H1 H2 H3]. unfold open_stream. destruct (yc_driver y) eqn:Hd.
  3: { destruct (H3 eq_refl) as [Hq Hb]. unfold opening in H1. rewrite Hd, Hq, Hb in H1. cbn in H1. rewrite List.app_nil_r in H1. subst callers.
       split; [|exact H2|by intros _]. unfold opening. cbn. by rewrite fmap_app, Hd, Hq, Hb, List.app_nil_r. }
  all: unfold opening in H1; rewrite Hd in H1; destruct (_ && _) eqn:Ea; subst callers.
  1,3: apply andb_prop in Ea as [El Eb%bool_decide_eq_true]; apply Nat.ltb_lt in El; rewrite Eb;
    (split; [unfold opening; cbn; rewrite ?Hd, ?Eb; by rewrite !List.app_nil_r, <- ?List.app_assoc|cbn; rewrite length_app; cbn; lia|done]).
  all: (split; [unfold opening; cbn; rewrite <- ?List.app_assoc; cbn; by rewrite <- ?List.app_assoc|done|done]).
Qed.
Lemma yamux_op_ok callers y op y' : yamux_ok callers y -> yamux_op y op = Some y' -> yamux_ok (callers ++ asked [op]) y'.
Proof.
  intros Hok. destruct op as [c| | | | |r|i]; cbn [yamux_op asked omap list_omap]; rewrite ?List.app_nil_r.
  - destruct (yc_dropped y); [done|]. intros [= <-]. by apply open_ok.
  - destruct (yc_dropped y); [done|]. intros [= <-]. unfold close. destruct Hok. by destruct (yc_stop_tx y).
  - destruct (bool_decide _); [|done]. intros [= <-]. by destruct Hok.
  - destruct (yc_driver y) eqn:Hd; try done. destruct (yc_stopping y); [|done]. intros [= <-]. by apply ends_ok.
  - destruct (yc_driver y) eqn:Hd; try done. destruct (yc_queue y) as [|c q] eqn:Eq.
    + destruct (yc_dropped y); [|done]. intros [= <-]. by apply ends_ok.
    + destruct Hok as [H1 H2 _]. unfold opening in H1. rewrite Hd, Eq in H1. rewrite Eq in H2. cbn in H1, H2.
      destruct (yc_blocked y) as [|n b]; intros [= <-]; (split; [|cbn; rewrite ?length_app; cbn; lia|done]); unfold opening; cbn; rewrite <- H1; [done|].
      by rewrite <- List.app_assoc.
  - destruct (yc_driver y) eqn:Hd; try done. intros [= <-]. destruct Hok as [H1 H2 _]. unfold opening in H1. rewrite Hd in H1.
    split; [|done|done]. unfold opening. cbn. rewrite fmap_app, <- H1. cbn. by rewrite <- List.app_assoc.
  - destruct (yc_driver y) eqn:Hd; [|by destruct i..]. destruct i; intros [= <-]; by try apply ends_ok.
Qed.
Lemma asked_cons op ops : asked (op :: ops) = asked [op] ++ asked ops.
Proof. by destruct op. Qed.
Lemma yamux_run_ok callers y ops y' : yamux_ok callers y -> yamux_run y ops = Some y' -> yamux_ok (callers ++ asked ops) y'.
Proof.
  revert callers y. induction ops as [|op ops IH]; intros callers y Hok; cbn [yamux_run]; [intros [= <-]; by rewrite List.app_nil_r|].
  destruct (yamux_op y op) as [y1|] eqn:E; [|done]. intros Hr. rewrite asked_cons, List.app_assoc.
  eapply IH; [by eapply yamux_op_ok|exact Hr].
Qed.

(** ** Properties *)

(** C26: Callers of [open_stream] are served in the order of their calls and each gets
    one answer: at any time the answers given, the caller whose stream is being
    opened, those in the channel and those that wait for room are the callers so
    far. When the driver has ended, for whatever reason, nobody is left waiting, and
    whoever calls then is answered at once. *)
Theorem opens_answered_in_order (ops : list YamuxOp) (y : YamuxClient) : yamux_run yamux_start ops = Some y ->
  (yc_replies y).*1 ++ opening y ++ yc_queue y ++ yc_blocked y = asked ops
  /\ length (yc_queue y) <= OPEN_QUEUE_CAP
  /\ (yc_driver y = Ended -> (yc_replies y).*1 = asked ops
      /\ forall c, yc_replies (open_stream y c) = yc_replies y ++ [(c, Err "yamux client session closed")]).
Proof.
  intros Hr. apply (yamux_run_ok []) in Hr as [H1 H2 H3]; [|by split; [|cbn; lia|]]. split; [exact H1|]. split; [exact H2|].
  intros Hd. destruct (H3 Hd) as [Hq Hb]. unfold opening in H1. rewrite Hd, Hq, Hb in H1. cbn in H1. rewrite List.app_nil_r in H1.
  split; [exact H1|]. intros c. unfold open_stream. by rewrite Hd.
Qed.

(** [close] takes effect, if not while an outbound stream is being opened: once
    that has an outcome the driver can end, and then it stays ended. *)
Theorem close_ends_driver (y : YamuxClient) : yc_dropped y = false -> yc_stop_tx y = true -> yc_driver y <> Ended ->
  exists ops y', length ops <= 2 /\ yamux_run (close y) ops = Some y' /\ yc_driver y' = Ended
  /\ forall op y2, yamux_op y' op = Some y2 -> yc_driver y2 = Ended.
Proof.
  intros Hdr Hs Hd. assert (forall y' op y2, yc_driver y' = Ended -> yamux_op y' op = Some y2 -> yc_driver y2 = Ended) as Hstay.
  { intros y' op y2 He. destruct op as [c| | | | |r|[]]; cbn; rewrite ?He; try done.
    - destruct (yc_dropped y'); [done|]. intros [= <-]. unfold open_stream. rewrite He. exact He.
    - destruct (yc_dropped y'); [done|]. intros [= <-]. unfold close. by destruct (yc_stop_tx y').
    - destruct (bool_decide _); [|done]. by intros [= <-]. }
  unfold close. rewrite Hs. destruct (yc_driver y) as [|c|] eqn:E; [| |done].
  - exists [YoStop]. eexists. cbn. rewrite E. split; [lia|]. split; [done|]. split; [done|]. intros op y2. by apply Hstay.
  - exists [YoOpened (Ok 0%Z); YoStop]. eexists. cbn. rewrite E. cbn. split; [lia|]. split; [done|]. split; [done|]. intros op y2. by apply Hstay.
Qed.

(** Every stream the peer opens before its session ends is served, once. *)
Lemma session_serves_all (streams : list Z) (rest : list Inbound) :
  serve_yamux_session (map InStream streams ++ rest) =
  (streams ++ (serve_yamux_session rest).1, (serve_yamux_session rest).2).
Proof. induction streams as [|s l IH]; cbn; [by destruct (serve_yamux_session rest)|]. by rewrite IH. Qed.

(** *** Witness *)

Lemma opens_answered_in_order_witness : exists y,
  yamux_run yamux_start [YoOpen 1; YoCommand; YoOpen 2; YoClose; YoOpened (Ok 7%Z); YoOpen 3; YoStop] = Some y
  /\ (yc_replies y).*1 = [1; 2; 3]%Z.
Proof.
  eexists. split; [reflexivity|].
  apply (opens_answered_in_order [YoOpen 1; YoCommand; YoOpen 2; YoClose; YoOpened (Ok 7%Z); YoOpen 3; YoStop]); reflexivity.
Defined.
