(* ===== verification/RotateLog.v ===== *)
(** * The rotating log file

    [core/src/logging/rotate_file.rs].  The log's directory is a map from names to
    contents; every operation of [std::fs] has its outcome, and every reading of the
    clock its value, in a record.  chrono's dates and their text are parameters,
    with what the code relies on as laws.  No other process touches the files. *)

From S2P Require Import Prelude RustStr Utf8.

Local Open Scope string_scope.

Definition BACKUP_TIME_LEN : nat := 15.

(** A result of code that may panic. *)
Inductive Outcome (A : Type) := Done (a : A) | Failed (e : string) | Panicked.
Arguments Done {A}.
Arguments Failed {A}.
Arguments Panicked {A}.

(** [Path::extension] of a file name: after the last dot, unless nothing is before it. *)
Definition file_extension (filename : string) : option string :=
  match rsplit_once "." filename with Some (before, ext) => if is_empty before then None else Some ext | None => None end.

(** Points in time, days and times of day of chrono. *)
Class LocalTime (T D C : Type) := {
  date_naive : T -> D;
  format_backup : T -> string;
  parse_date : string -> option D;
  parse_time : string -> option C;
  from_local : D -> C -> option T;
  minus_days : T -> Z -> option T;
  before : T -> T -> bool }.

(** Of chrono's text: a year of four digits is printed as a date of eight bytes, a
    dash and a time of six, which parse as the day and the time to the second. *)
Class LocalTimeLaws (T D C : Type) `{LocalTime T D C} := {
  four_digit_year : T -> Prop;
  seconds_naive : T -> C;
  format_backup_shape : forall t, four_digit_year t -> exists date time, format_backup t = date ++ "-" ++ time
    /\ String.length date = 8 /\ String.length time = 6
    /\ sforall (fun c => (code c <? 128)%N) (date ++ "-" ++ time) = true
    /\ parse_date date = Some (date_naive t) /\ parse_time time = Some (seconds_naive t) }.

Section Rotate.
Context {T D C : Type} `{LocalTime T D C} `{EqDecision D}.

(** ** The writer *)

(** The names are those of files in [dir]; [rf_file]: whether the file is open. *)
Record RotateFileWriter := MkRotate {
  rf_path : string; rf_ext : string; rf_backup_prefix : string; rf_max_days : Z; rf_file : bool; rf_day : option D }.
Definition rf_set (w : RotateFileWriter) (file : bool) (day : option D) : RotateFileWriter :=
  MkRotate (rf_path w) (rf_ext w) (rf_backup_prefix w) (rf_max_days w) file day.

(** The directory; and, for the record, the backups made so far, with what was moved
    there, and the names removed. *)
Record Disk := MkDisk { dk_files : gmap string string; dk_backups : list (string * string); dk_removed : list string }.
Definition dk_write (d : Disk) (name content : string) : Disk :=
  MkDisk (<[name := content]> (dk_files d)) (dk_backups d) (dk_removed d).
Definition dk_rename (d : Disk) (name backup content : string) : Disk :=
  MkDisk (<[backup := content]> (delete name (dk_files d))) (dk_backups d ++ [(backup, content)])%list (dk_removed d).
Definition dk_remove (d : Disk) (name : string) : Disk :=
  MkDisk (delete name (dk_files d)) (dk_backups d) (name :: dk_removed d).

(** What one call finds: the clock as it is read, the errors of the operations, the
    listing of the directory, how much of the buffer is written before an error. *)
Record IoEnv := MkIo {
  io_today : T; io_append : option string; io_now : T; io_rename : option string; io_create : option string;
  io_later : T; io_entries : Anyhow (list (Anyhow string)); io_remove : string -> bool; io_write : option nat }.

Definition backup_name (w : RotateFileWriter) (now : T) : string :=
  rf_backup_prefix w ++ format_backup now ++ rf_ext w.

Definition open_new (w : RotateFileWriter) (d : Disk) (env : IoEnv) : RotateFileWriter * Disk * Outcome unit :=
  let fresh (d : Disk) :=
    match io_create env with
    | Some e => (w, d, Failed e)
    | None => (rf_set w true (Some (date_naive (io_now env))), dk_write d (rf_path w) "", Done tt)
    end in
  match dk_files d !! rf_path w with
  | Some content =>
      let backup := backup_name w (io_now env) in
      match io_rename env with
      | Some e => (w, d, Failed e)
      | None => fresh (dk_rename d (rf_path w) backup content)
      end
  | None => fresh d
  end.
Definition open_existing_or_new (w : RotateFileWriter) (d : Disk) (env : IoEnv) : RotateFileWriter * Disk * Outcome unit :=
  match io_append env with
  | Some e => (w, d, Failed e)
  | None =>
      match dk_files d !! rf_path w with
      | Some _ => (rf_set w true (rf_day w), d, Done tt)
      | None => open_new w d env
      end
  end.
(** [RotateFileWriter::open] once the directory exists; the path is a setting, so its
    last component is text. *)
Definition rotate_open (filename : string) (max_days : Z) (d : Disk) (env : IoEnv) : Disk * Outcome RotateFileWriter :=
  let ext := match file_extension filename with Some e => "." ++ e | None => "" end in
  let stem := match strip_suffix ext filename with Some s => s | None => filename end in
  let w := MkRotate filename ext (stem ++ ".") max_days false None in
  match open_existing_or_new w d env with
  | (w, d, Done _) => (d, Done (rf_set w (rf_file w) (Some (date_naive (io_later env)))))
  | (_, d, Failed e) => (d, Failed e)
  | (_, d, Panicked) => (d, Panicked)
  end.

(** [parse_backup_timestamp]: [None] of the outer option is a panic. *)
Definition parse_backup_timestamp (prefix ext name : string) : option (option (D * C)) :=
  if negb (starts_with prefix name) || negb (ends_with ext name) then Some None else
  if (String.length name <=? String.length prefix + String.length ext)%nat then Some None else
  match slice name (String.length prefix) (String.length name - String.length ext) with
  | None => None
  | Some mid =>
      if negb (String.length mid =? BACKUP_TIME_LEN)%nat
         || negb (match sdrop 8 mid with String c _ => Ascii.eqb c "-" | "" => false end) then Some None else
      match slice mid 0 8 with
      | None => None
      | Some s =>
          match parse_date s with
          | None => Some None
          | Some date =>
              match slice mid 9 (String.length mid) with
              | None => None
              | Some s => Some (match parse_time s with Some time => Some (date, time) | None => None end)
              end
          end
      end
  end.
(** One entry of the directory. *)
Definition clear_entry (w : RotateFileWriter) (cutoff : T) (env : IoEnv) (d : Disk) (name : string) : option Disk :=
  match parse_backup_timestamp (rf_backup_prefix w) (rf_ext w) (from_utf8_lossy name) with
  | None => None
  | Some None => Some d
  | Some (Some (date, time)) =>
      match from_local date time with
      | None => Some d
      | Some dt => Some (if before dt cutoff && io_remove env name then dk_remove d name else d)
      end
  end.
Fixpoint clear_entries (w : RotateFileWriter) (cutoff : T) (env : IoEnv) (d : Disk) (entries : list (Anyhow string))
    : Disk * Outcome unit :=
  match entries with
  | [] => (d, Done tt)
  | Err e :: _ => (d, Failed e)
  | Ok name :: rest =>
      match clear_entry w cutoff env d name with
      | None => (d, Panicked)
      | Some d => clear_entries w cutoff env d rest
      end
  end.
Definition clear_old_backups (w : RotateFileWriter) (d : Disk) (env : IoEnv) : Disk * Outcome unit :=
  if (rf_max_days w =? 0)%Z then (d, Done tt) else
  match minus_days (io_later env) (rf_max_days w) with
  | None => (d, Panicked)
  | Some cutoff =>
      match io_entries env with
      | Err e => (d, Failed e)
      | Ok entries => clear_entries w cutoff env d entries
      end
  end.
Definition rotate (w : RotateFileWriter) (d : Disk) (env : IoEnv) : RotateFileWriter * Disk * Outcome unit :=
  match open_new (rf_set w false (rf_day w)) d env with
  | (w, d, Done _) =>
      match clear_old_backups w d env with
      | (d, Panicked) => (w, d, Panicked)
      | (d, _) => (w, d, Done tt)
      end
  | failed => failed
  end.
Definition ensure_ready (w : RotateFileWriter) (d : Disk) (env : IoEnv) : RotateFileWriter * Disk * Outcome unit :=
  let today := date_naive (io_today env) in
  if bool_decide (rf_day w = Some today) && rf_file w then (w, d, Done tt) else
  if bool_decide (rf_day w <> None) && negb (bool_decide (rf_day w = Some today)) then rotate w d env else
  match open_existing_or_new w d env with
  | (w, d, Done _) => (rf_set w (rf_file w) (Some today), d, Done tt)
  | failed => failed
  end.
(** [write]: [write_all] on the open file; [unwrap] on none panics. *)
Definition rotate_write (w : RotateFileWriter) (d : Disk) (env : IoEnv) (buf : string) : RotateFileWriter * Disk * Outcome nat :=
  match ensure_ready w d env with
  | (w, d, Done _) =>
      if negb (rf_file w) then (w, d, Panicked) else
      let add s := dk_write d (rf_path w) (default "" (dk_files d !! rf_path w) ++ s) in
      match io_write env with
      | None => (w, add buf, Done (String.length buf))
      | Some k => (w, add (stake k buf), Failed "write_all")
      end
  | (w, d, Failed e) => (w, d, Failed e)
  | (w, d, Panicked) => (w, d, Panicked)
  end.

(** ** Runs *)

(** The bytes of the buffer that reach the file. *)
Definition reached (w : RotateFileWriter) (d : Disk) (env : IoEnv) (buf : string) : string :=
  match ensure_ready w d env with
  | (_, _, Done _) => match io_write env with None => buf | Some k => stake k buf end
  | _ => ""
  end.
Fixpoint log_run (w : RotateFileWriter) (d : Disk) (l : list (IoEnv * string)) : RotateFileWriter * Disk * string :=
  match l with
  | [] => (w, d, "")
  | (env, buf) :: l =>
      let '(w1, d1, _) := rotate_write w d env buf in
      let '(w2, d2, s) := log_run w1 d1 l in (w2, d2, reached w d env buf ++ s)
  end.
End Rotate.
Arguments RotateFileWriter D : clear implicits.
Arguments IoEnv T : clear implicits.

(** ** The record of what was logged *)

Definition contents (l : list (string * string)) : string := foldr (fun bc s => bc.2 ++ s) "" l.
Record log_ok (path start : string) (d : Disk) (s : string) : Prop := {
  lo_ledger : contents (dk_backups d) ++ default "" (dk_files d !! path) = start ++ s;
  lo_names : forall b c, (b, c) ∈ dk_backups d -> b <> path;
  lo_kept : forall l b c later, dk_backups d = (l ++ (b, c) :: later)%list -> b ∉ later.*1 -> dk_files d !! b = Some c \/ b ∈ dk_removed d }.

Lemma contents_snoc l b c : contents (l ++ [(b, c)]) = contents l ++ c.
Proof. unfold contents. induction l as [|bc l IH]; cbn; [by rewrite app_nil_r|]. by rewrite IH, app_assoc. Qed.
(** An entry of a list with one more at its end is that one or an entry of the list. *)
Lemma app_eq_snoc {A} (l later : list A) (x y : A) (k : list A) : (k ++ [y] = l ++ x :: later)%list ->
  (later = [] /\ x = y) \/ exists later', later = (later' ++ [y])%list /\ k = (l ++ x :: later')%list.
Proof.
  destruct later as [|z later _] using rev_ind; intros E.
  - left. apply (app_inj_tail k l) in E as [_ ->]. done.
  - right. exists later. rewrite app_comm_cons, List.app_assoc in E. apply (app_inj_tail k _) in E as [-> ->]. done.
Qed.
Lemma log_ok_rename path start d s b content : log_ok path start d s -> dk_files d !! path = Some content -> b <> path ->
  log_ok path start (dk_rename d path b content) s /\ dk_files (dk_rename d path b content) !! path = None.
Proof.
  intros [H1 H2 H3] Hp Hb. cbn. assert (<[b:=content]> (delete path (dk_files d)) !! path = None) as Hn
    by (rewrite lookup_insert_ne by done; apply lookup_delete_eq).
  split; [|exact Hn]. split; cbn.
  - rewrite contents_snoc, Hn, <- H1, Hp. cbn. by rewrite app_nil_r.
  - intros b' c' [Hin|[= -> ->]%list_elem_of_singleton]%elem_of_app; [by eapply H2|done].
  - intros l b' c' later E Hb'. destruct (app_eq_snoc l later (b', c') (b, content) (dk_backups d) E) as [[-> [= -> ->]]|(later' & -> & E')];
      [left; apply lookup_insert_eq|].
    rewrite fmap_app, not_elem_of_app in Hb'. destruct Hb' as [Hl Hne]. cbn in Hne.
    rewrite lookup_insert_ne by set_solver. rewrite lookup_delete_ne by (intros E0; apply (H2 b' c'); [rewrite E'; set_solver|done]).
    by apply (H3 l b' c' later').
Qed.
Lemma log_ok_write path start d s x : log_ok path start d s ->
  log_ok path start (dk_write d path (default "" (dk_files d !! path) ++ x)) (s ++ x).
Proof.
  intros [H1 H2 H3]. split; cbn; [|done|].
  - rewrite lookup_insert_eq. cbn. by rewrite <- (app_assoc (contents _)), H1, app_assoc.
  - intros l b c later E Hb. rewrite lookup_insert_ne by (intros <-; apply (H2 path c); [rewrite E; set_solver|done]). by apply (H3 l b c later).
Qed.
Lemma log_ok_create path start d s : log_ok path start d s -> dk_files d !! path = None -> log_ok path start (dk_write d path "") s.
Proof. intros Hok Hn. pose proof (log_ok_write _ _ _ _ "" Hok) as H. rewrite Hn, !app_nil_r in H. exact H. Qed.
Lemma log_ok_remove path start d s name : log_ok path start d s -> name <> path -> log_ok path start (dk_remove d name) s.
Proof.
  intros [H1 H2 H3] Hne. split; cbn; [|done|].
  - by rewrite lookup_delete_ne.
  - intros l b c later E Hl. destruct (decide (b = name)) as [->|Hb]; [right; by left|].
    rewrite lookup_delete_ne by done. destruct (H3 l b c later E Hl); [by left|right; by right].
Qed.

Section RotateLemmas.
Context {T D C : Type} `{LocalTime T D C} `{EqDecision D}.
Implicit Types (w : RotateFileWriter D) (d : Disk) (env : IoEnv T).

(** A writer as [rotate_open] makes it: the prefix ends and the extension begins with a dot. *)
Definition writer_wf w : Prop :=
  from_utf8_lossy (rf_path w) = rf_path w
  /\ exists stem, rf_backup_prefix w = stem ++ "." /\ rf_path w = stem ++ rf_ext w /\ (rf_ext w = "" \/ exists e, rf_ext w = "." ++ e).
(** The writer but for its file and day. *)
Definition settings w : RotateFileWriter D := rf_set w false None.

Lemma open_wf filename days : from_utf8_lossy filename = filename ->
  let ext := match file_extension filename with Some e => "." ++ e | None => "" end in
  let stem := match strip_suffix ext filename with Some s => s | None => filename end in
  writer_wf (MkRotate filename ext (stem ++ ".") days false None).
Proof.
  intros Hu ext stem. split; [done|]. exists stem. cbn. split; [done|]. unfold stem, ext, file_extension. clear stem ext.
  destruct (rsplit_once "." filename) as [[a e]|] eqn:E; [destruct (is_empty a)|].
  2: { apply rsplit_once_spec in E as [-> _]. split; [|right; by eexists].
       change (String "." e) with ("." ++ e).
       by rewrite (proj2 (strip_suffix_spec ("." ++ e) (a ++ "." ++ e) a) eq_refl). }
  all: rewrite (proj2 (strip_suffix_spec "" filename filename) (eq_sym (app_nil_r _))); rewrite app_nil_r; split; [done|by left].
Qed.
Lemma backup_not_path w now : writer_wf w -> backup_name w now <> rf_path w.
Proof.
  intros (_ & stem & Hp & Hf & _) E%(f_equal String.length). revert E. unfold backup_name. rewrite Hp, Hf, !length_app_s. cbn. lia.
Qed.
Lemma wf_settings w w' : settings w' = settings w -> writer_wf w -> writer_wf w'.
Proof. destruct w, w'. by intros [= -> -> -> ->]. Qed.

(** ** Backup names *)

Lemma boundary_after_ascii a c rest : clean_text (a ++ String c rest) -> (code c < 128)%N ->
  is_boundary (a ++ String c rest) (S (String.length a)) = true.
Proof.
  intros [_ Hc] Hlt. unfold is_boundary.
  assert (sdrop (S (String.length a)) (a ++ String c rest) = rest) as ->.
  { replace (S (String.length a)) with (String.length a + 1) by lia. by rewrite <- sdrop_sdrop, sdrop_app_length. }
  specialize (Hc a c rest eq_refl Hlt). destruct rest as [|c' rest].
  - rewrite length_app_s. cbn. by rewrite Nat.add_1_r, Nat.eqb_refl.
  - by rewrite Hc.
Qed.
Lemma overlap p r q x : p ++ r = q ++ x -> String.length p + String.length x <= String.length (p ++ r) ->
  exists mid, r = mid ++ x.
Proof.
  revert q. induction p as [|c p IH]; intros q; cbn; [by eexists|]. destruct q as [|c' q]; cbn.
  - intros <-. cbn. rewrite length_app_s. lia.
  - intros [= -> E] Hl. apply (IH q E). lia.
Qed.
(** The part of a name between prefix and extension. *)
Lemma mid_slice p x name : (exists a, p = a ++ ".") -> (x = "" \/ exists e, x = "." ++ e) -> clean_text name ->
  starts_with p name = true -> ends_with x name = true -> String.length p + String.length x < String.length name ->
  exists mid, name = p ++ mid ++ x /\ no_cont_head (mid ++ x) /\ slice name (String.length p) (String.length name - String.length x) = Some mid.
Proof.
  intros [a ->] Hx [_ Hc] [r Hr]%starts_with_spec [q Hq]%ends_with_spec Hl.
  destruct (overlap (a ++ ".") r q x) as [mid ->]; [congruence|rewrite <- Hr; lia|]. exists mid.
  assert (no_cont_head (mid ++ x)) as Hn by (eapply Hc; [rewrite Hr, app_assoc; done|done]).
  split; [done|]. split; [done|]. rewrite Hr.
  replace (_ - String.length x) with (String.length (a ++ ".") + String.length mid) by (rewrite !length_app_s; lia).
  apply slice_mid; [by apply boundary_at|]. rewrite <- length_app_s, <- app_assoc. apply boundary_at.
  by destruct Hx as [->|[e ->]].
Qed.
(** A text of eight bytes, a dash and six. *)
Lemma stamp_slices a b x : no_cont_head ((a ++ "-" ++ b) ++ x) -> no_cont_head (b ++ x) -> a <> "" -> b <> "" ->
  slice (a ++ "-" ++ b) 0 (String.length a) = Some a
  /\ slice (a ++ "-" ++ b) (S (String.length a)) (String.length (a ++ "-" ++ b)) = Some b.
Proof.
  intros H1 H2 Ha Hb. split.
  - apply (slice_mid "" a ("-" ++ b)); [apply (boundary_at "" _); by destruct a|exact (boundary_at a ("-" ++ b) eq_refl)].
  - pose proof (slice_mid (a ++ "-") b "") as Hs. rewrite app_nil_r, app_assoc in Hs.
    assert (String.length (a ++ "-") = S (String.length a)) as El by (rewrite length_app_s; cbn; lia).
    assert (String.length (a ++ "-" ++ b) = S (String.length a) + String.length b) as -> by (rewrite !length_app_s; cbn; lia).
    rewrite El in Hs. apply Hs.
    + rewrite <- app_assoc, <- El. apply boundary_at. by destruct b.
    + pose proof (boundary_at (a ++ "-" ++ b) "" I) as Hb'. rewrite app_nil_r, !length_app_s in Hb'.
      replace (S (String.length a) + String.length b) with (String.length a + (String.length "-" + String.length b)) by (cbn; lia). exact Hb'.
Qed.
Lemma parse_not_panic w name : writer_wf w -> clean_text name ->
  parse_backup_timestamp (rf_backup_prefix w) (rf_ext w) name <> None.
Proof.
  intros (_ & stem & Hp & _ & Hx) Hname. unfold parse_backup_timestamp.
  destruct (starts_with _ name) eqn:Es; [|done]. destruct (ends_with (rf_ext w) name) eqn:Ee; [|done]. cbn [negb orb].
  destruct (Nat.leb_spec (String.length name) (String.length (rf_backup_prefix w) + String.length (rf_ext w))) as [|Hlen]; [done|].
  destruct (mid_slice _ _ name (ex_intro _ stem Hp) Hx Hname Es Ee Hlen) as (mid & Hmid & Hn & ->).
  destruct (Nat.eqb_spec (String.length mid) BACKUP_TIME_LEN) as [Hl|]; [|done]. cbn [negb orb]. unfold BACKUP_TIME_LEN in Hl.
  destruct (sdrop 8 mid) as [|c b] eqn:Ed; [done|]. destruct (Ascii.eqb_spec c "-") as [->|]; [|done]. cbn [negb].
  assert (mid = stake 8 mid ++ "-" ++ b) as Em by (rewrite <- (stake_sdrop 8 mid) at 1; by rewrite Ed).
  assert (String.length (stake 8 mid) = 8) as E8 by (rewrite length_stake, Hl; done).
  assert (no_cont_head (b ++ rf_ext w)) as Hb.
  { eapply (proj2 Hname (rf_backup_prefix w ++ stake 8 mid) "-"%char); [|done]. rewrite Hmid, Em at 1. by rewrite !app_assoc. }
  assert (b <> "") as Hbn by (intros ->; rewrite Em, length_app_s, E8 in Hl; done).
  destruct (stamp_slices (stake 8 mid) b (rf_ext w)) as [S1 S2]; [by rewrite <- Em|done|by destruct (stake 8 mid)|done|].
  rewrite <- Em, E8 in S1, S2. rewrite S1. destruct (parse_date _); [|done]. by rewrite S2.
Qed.

(** The name of a backup is recognised, and gives back when it was made. *)
Lemma parse_backup_name `{!LocalTimeLaws T D C} w now : writer_wf w -> four_digit_year now -> clean_text (backup_name w now) ->
  parse_backup_timestamp (rf_backup_prefix w) (rf_ext w) (backup_name w now) = Some (Some (date_naive now, seconds_naive now)).
Proof.
  intros Hw Hy Hname. pose proof (parse_not_panic w _ Hw Hname) as Hp. destruct Hw as (_ & stem & Hpre & _ & Hx).
  destruct (format_backup_shape now Hy) as (date & time & Hf & Ed & Et & _ & Pd & Pt).
  unfold backup_name in *. rewrite Hf in *. set (p := rf_backup_prefix w) in *. set (x := rf_ext w) in *. set (mid := date ++ "-" ++ time) in *.
  assert (String.length mid = 15) as El by (unfold mid; rewrite !length_app_s; cbn; lia).
  revert Hp. unfold parse_backup_timestamp. rewrite starts_with_app. cbn [negb orb].
  assert (ends_with x (p ++ mid ++ x) = true) as -> by (apply ends_with_spec; exists (p ++ mid); by rewrite app_assoc). cbn [negb].
  rewrite (proj2 (Nat.leb_gt _ _)) by (rewrite !length_app_s; lia).
  replace (String.length (p ++ mid ++ x) - String.length x) with (String.length p + String.length mid) by (rewrite !length_app_s; lia).
  assert (forall s from to, slice s from to = if (from <=? to)%nat && is_boundary s from && is_boundary s to
    then Some (stake (to - from) (sdrop from s)) else None) as Hslice by done.
  rewrite (Hslice (p ++ mid ++ x)), sdrop_app_length, (Nat.add_comm (String.length p)), Nat.add_sub, stake_app_length.
  destruct (_ && _ && _); [|done]. unfold BACKUP_TIME_LEN. rewrite El. cbn [Nat.eqb negb orb].
  assert (sdrop 8 mid = String "-" time) as -> by (unfold mid; rewrite <- Ed; apply sdrop_app_length).
  rewrite Ascii.eqb_refl. cbn [negb].
  rewrite (Hslice mid 0 8). cbn [sdrop Nat.sub]. destruct (_ && _ && _); [|done].
  assert (stake 8 mid = date) as -> by (unfold mid; rewrite <- Ed; apply stake_app_length). rewrite Pd.
  rewrite (Hslice mid 9 15). destruct (_ && _ && _); [|done].
  assert (sdrop 9 mid = time) as -> by (unfold mid; rewrite <- app_assoc; replace 9 with (String.length (date ++ "-")) by (rewrite length_app_s, Ed; done); apply sdrop_app_length).
  rewrite stake_all by (rewrite Et; cbn; lia). by rewrite Pt.
Qed.

(** ** What each operation does *)

(** The writer keeps its settings, and the record stays true. *)
Record keeps (start s : string) w d w' d' (r : Outcome unit) : Prop := {
  kp_settings : settings w' = settings w;
  kp_log : log_ok (rf_path w) start d' s;
  kp_file : r = Done tt -> rf_file w' = true;
  kp_removed : rf_max_days w = 0%Z -> dk_removed d' = dk_removed d }.
Lemma open_new_ok start s w d env w' d' r : writer_wf w -> log_ok (rf_path w) start d s ->
  open_new w d env = (w', d', r) -> keeps start s w d w' d' r /\ r <> Panicked /\ (r = Done tt -> dk_files d' !! rf_path w = Some "").
Proof.
  intros Hw Hok. unfold open_new.
  assert (forall d1 w' d' r, log_ok (rf_path w) start d1 s -> dk_files d1 !! rf_path w = None -> dk_removed d1 = dk_removed d ->
    (match io_create env with Some e => (w, d1, Failed e) | None =>
       (rf_set w true (Some (date_naive (io_now env))), dk_write d1 (rf_path w) "", Done tt) end) = (w', d', r) ->
    keeps start s w d w' d' r /\ r <> Panicked /\ (r = Done tt -> dk_files d' !! rf_path w = Some "")) as Hfresh.
  { clear. intros d1 w' d' r Hok Hn Hr. destruct (io_create env); intros [= <- <- <-]; [done|].
    split; [by split; [destruct w|apply log_ok_create| |]|]. split; [done|]. intros _. apply lookup_insert_eq. }
  destruct (dk_files d !! rf_path w) as [content|] eqn:Ep; [|by apply Hfresh].
  destruct (io_rename env); [by intros [= <- <- <-]|].
  destruct (log_ok_rename _ _ _ _ (backup_name w (io_now env)) _ Hok Ep (backup_not_path w _ Hw)) as [H1 H2]. by apply Hfresh.
Qed.
Lemma open_existing_ok start s w d env w' d' r : writer_wf w -> log_ok (rf_path w) start d s ->
  open_existing_or_new w d env = (w', d', r) -> keeps start s w d w' d' r /\ r <> Panicked.
Proof.
  intros Hw Hok. unfold open_existing_or_new. destruct (io_append env); [by intros [= <- <- <-]|].
  destruct (dk_files d !! rf_path w); [intros [= <- <- <-]; by split; [split; [destruct w|..]|]|].
  intros E. by destruct (open_new_ok start s w d env w' d' r Hw Hok E) as (? & ? & _).
Qed.
Lemma parse_path w : writer_wf w -> parse_backup_timestamp (rf_backup_prefix w) (rf_ext w) (from_utf8_lossy (rf_path w)) = Some None.
Proof.
  intros (-> & stem & Hp & Hf & _). unfold parse_backup_timestamp. destruct (negb _ || negb _); [done|].
  rewrite (proj2 (Nat.leb_le _ _)); [done|]. rewrite Hp, Hf, !length_app_s. lia.
Qed.
Lemma clear_entry_some w cutoff env d name : writer_wf w -> exists d', clear_entry w cutoff env d name = Some d'.
Proof.
  intros Hw. unfold clear_entry. pose proof (parse_not_panic w _ Hw (lossy_clean name)) as Hp.
  destruct (parse_backup_timestamp _ _ _) as [[[date time]|]|]; [|by eexists|done]. destruct (from_local date time); by eexists.
Qed.
Lemma clear_entry_ok start s w cutoff env d name d' : writer_wf w -> log_ok (rf_path w) start d s ->
  clear_entry w cutoff env d name = Some d' -> log_ok (rf_path w) start d' s.
Proof.
  intros Hw Hok. unfold clear_entry. destruct (decide (name = rf_path w)) as [->|Hne]; [rewrite parse_path by done; by intros [= <-]|].
  destruct (parse_backup_timestamp _ _ _) as [[[date time]|]|]; [|by intros [= <-]|done].
  destruct (from_local date time); intros [= <-]; [|done]. destruct (_ && _); [by apply log_ok_remove|done].
Qed.
Lemma clear_entries_ok start s w cutoff env entries d d' r : writer_wf w -> log_ok (rf_path w) start d s ->
  clear_entries w cutoff env d entries = (d', r) -> log_ok (rf_path w) start d' s /\ r <> Panicked.
Proof.
  intros Hw. revert d. induction entries as [|[name|e] entries IH]; intros d Hok; cbn [clear_entries]; [by intros [= <- <-]| |by intros [= <- <-]].
  destruct (clear_entry_some w cutoff env d name Hw) as [d1 E]. rewrite E. apply IH. by eapply clear_entry_ok.
Qed.
(** Panics come only from a retention that reaches back before chrono's first day. *)
Definition retention_ok (env : IoEnv T) w : Prop := rf_max_days w <> 0%Z -> minus_days (io_later env) (rf_max_days w) <> None.
Lemma clear_ok start s w d env d' r : writer_wf w -> log_ok (rf_path w) start d s -> clear_old_backups w d env = (d', r) ->
  log_ok (rf_path w) start d' s /\ (retention_ok env w -> r <> Panicked) /\ (rf_max_days w = 0%Z -> dk_removed d' = dk_removed d).
Proof.
  intros Hw Hok. unfold clear_old_backups, retention_ok. destruct (Z.eqb_spec (rf_max_days w) 0) as [E0|E0]; [by intros [= <- <-]|].
  destruct (minus_days _ _) as [cutoff|] eqn:Em.
  - destruct (io_entries env) as [entries|e]; [|by intros [= <- <-]]. intros Hc.
    destruct (clear_entries_ok start s w cutoff env entries d d' r Hw Hok Hc). by split; [|split].
  - intros [= <- <-]. split; [done|]. split; [|done]. intros Hd _. by apply Hd.
Qed.
Lemma rotate_ok start s w d env w' d' r : writer_wf w -> log_ok (rf_path w) start d s -> rotate w d env = (w', d', r) ->
  keeps start s w d w' d' r /\ (retention_ok env w -> r <> Panicked).
Proof.
  intros Hw Hok. unfold rotate. set (w0 := rf_set w false (rf_day w)).
  destruct (open_new w0 d env) as [[w1 d1] r1] eqn:E1.
  assert (writer_wf w0) as Hw0 by (by eapply wf_settings; [|exact Hw]; destruct w).
  destruct (open_new_ok start s w0 d env w1 d1 r1 Hw0) as ([K1 K2 K3 K4] & Hp & _); [by destruct w|exact E1|].
  assert (settings w1 = settings w) as Es by (rewrite K1; by destruct w).
  assert (rf_path w0 = rf_path w /\ rf_max_days w0 = rf_max_days w) as [Ep Ed] by (by destruct w). rewrite Ep in K2. rewrite Ed in K4.
  destruct r1 as [[]|e|]; [|intros [= <- <- <-]; by split|done].
  assert (writer_wf w1 /\ rf_path w1 = rf_path w /\ rf_max_days w1 = rf_max_days w) as (Hw1 & Ep1 & Ed1).
  { split; [by eapply wf_settings|]. destruct w, w1. by injection Es. }
  destruct (clear_old_backups w1 d1 env) as [d2 r2] eqn:E2. rewrite <- Ep1 in K2.
  destruct (clear_ok start s w1 d1 env d2 r2 Hw1 K2 E2) as (L1 & L2 & L3). rewrite Ep1 in L1. rewrite Ed1 in L3.
  assert (retention_ok env w -> r2 <> Panicked) as L2' by (unfold retention_ok in *; by rewrite <- Ed1).
  assert (rf_max_days w = 0%Z -> dk_removed d2 = dk_removed d) as L3' by (intros E0; by rewrite L3, K4).
  specialize (K3 eq_refl). destruct r2 as [[]|e|]; intros [= <- <- <-]; by split.
Qed.
Lemma keeps_set start s w d w1 d' file day (r : Outcome unit) : keeps start s w d w1 d' r -> (r = Done tt -> file = true) ->
  keeps start s w d (rf_set w1 file day) d' r.
Proof. intros [K1 K2 K3 K4] Hf. split; [|done|by intros E; apply Hf|done]. rewrite <- K1. by destruct w1. Qed.
Lemma ensure_ready_ok start s w d env w' d' r : writer_wf w -> log_ok (rf_path w) start d s -> ensure_ready w d env = (w', d', r) ->
  keeps start s w d w' d' r /\ (retention_ok env w -> r <> Panicked).
Proof.
  intros Hw Hok. unfold ensure_ready. destruct (bool_decide _ && rf_file w) eqn:Er.
  { intros [= <- <- <-]. apply andb_prop in Er as [_ Ef]. by split. }
  destruct (_ && negb _); [by apply rotate_ok|].
  destruct (open_existing_or_new w d env) as [[w1 d1] r1] eqn:E. destruct (open_existing_ok start s w d env w1 d1 r1 Hw Hok E) as [K Hp].
  destruct r1 as [[]|e|]; intros [= <- <- <-]; [|by split..]. split; [|done]. apply keeps_set; [done|]. apply K.
Qed.
Lemma rotate_write_ok start s w d env buf w' d' r : writer_wf w -> log_ok (rf_path w) start d s ->
  rotate_write w d env buf = (w', d', r) ->
  settings w' = settings w /\ log_ok (rf_path w) start d' (s ++ reached w d env buf)
  /\ (rf_max_days w = 0%Z -> dk_removed d' = dk_removed d) /\ (retention_ok env w -> r <> Panicked).
Proof.
  intros Hw Hok. unfold rotate_write, reached. destruct (ensure_ready w d env) as [[w1 d1] r1] eqn:E.
  destruct (ensure_ready_ok start s w d env w1 d1 r1 Hw Hok E) as [[K1 K2 K3 K4] Hp].
  destruct r1 as [[]|e|]; [|intros [= <- <- <-]; rewrite app_nil_r; repeat (split; [done|]); intros Hr E1..]; [|done|by apply (Hp Hr)].

  rewrite (K3 eq_refl). cbn [negb]. assert (rf_path w1 = rf_path w) as Ep by (destruct w, w1; by injection K1). rewrite Ep.
  destruct (io_write env); intros [= <- <- <-]; (split; [done|]); (split; [by apply log_ok_write|]); by split.
Qed.
Lemma log_run_ok start l : forall s w d w' d' bytes, writer_wf w -> log_ok (rf_path w) start d s -> log_run w d l = (w', d', bytes) ->
  settings w' = settings w /\ log_ok (rf_path w) start d' (s ++ bytes) /\ (rf_max_days w = 0%Z -> dk_removed d' = dk_removed d).
Proof.
  induction l as [|[env buf] l IH]; intros s w d w' d' bytes Hw Hok; cbn [log_run]; [intros [= <- <- <-]; by rewrite app_nil_r|].
  destruct (rotate_write w d env buf) as [[w1 d1] r1] eqn:E1.
  destruct (rotate_write_ok start s w d env buf w1 d1 r1 Hw Hok E1) as (S1 & L1 & R1 & _).
  assert (rf_path w1 = rf_path w /\ rf_max_days w1 = rf_max_days w) as [Ep Ed] by (destruct w, w1; by injection S1).
  destruct (log_run w1 d1 l) as [[w2 d2] s2] eqn:E2. intros [= <- <- <-].
  destruct (IH (s ++ reached w d env buf) w1 d1 w2 d2 s2) as (S2 & L2 & R2); [by eapply wf_settings|by rewrite Ep|done|].
  rewrite Ep in L2. rewrite app_assoc in L2. split; [congruence|]. split; [done|]. intros E0. rewrite R2 by congruence. by apply R1.
Qed.
Lemma rotate_open_ok filename days files env d w : from_utf8_lossy filename = filename ->
  rotate_open filename days (MkDisk files [] []) env = (d, Done w) ->
  writer_wf w /\ rf_path w = filename /\ rf_max_days w = days /\ log_ok filename (default "" (files !! filename)) d "" /\ (days = 0%Z -> dk_removed d = []).
Proof.
  intros Hu. unfold rotate_open. pose proof (open_wf filename days Hu) as Hw. cbv zeta in Hw.
  set (w0 := MkRotate _ _ _ _ _ _) in *. destruct (open_existing_or_new w0 _ env) as [[w1 d1] r1] eqn:E.
  destruct (open_existing_ok (default "" (files !! filename)) "" w0 (MkDisk files [] []) env w1 d1 r1 Hw) as [[K1 K2 K3 K4] _]; [|exact E|].
  { split; cbn; [by rewrite app_nil_r|..]; [by intros b c Hin%not_elem_of_nil|by intros [] ????]. }
  destruct r1 as [[]|e|]; [|done..]. intros [= <- <-].
  assert (settings (rf_set w1 (rf_file w1) (Some (date_naive (io_later env)))) = settings w0) as Es by (rewrite <- K1; by destruct w1).
  split; [by eapply wf_settings|]. split; [destruct w1; by injection K1|]. split; [destruct w1; by injection K1|]. by split.
Qed.

(** A clearing of the whole directory takes away exactly these. *)
Definition is_old w (cutoff : T) (env : IoEnv T) (name : string) : bool :=
  match parse_backup_timestamp (rf_backup_prefix w) (rf_ext w) (from_utf8_lossy name) with
  | Some (Some (date, time)) => match from_local date time with Some dt => before dt cutoff && io_remove env name | None => false end
  | _ => false
  end.
Lemma clear_entries_exact w cutoff env names d : writer_wf w ->
  exists d', clear_entries w cutoff env d (map Ok names) = (d', Done tt)
  /\ forall n, dk_files d' !! n = if bool_decide (n ∈ names) && is_old w cutoff env n then None else dk_files d !! n.
Proof.
  intros Hw. revert d. induction names as [|name names IH]; intros d; cbn [clear_entries map]; [by eexists|].
  destruct (clear_entry_some w cutoff env d name Hw) as [d1 E]. rewrite E. destruct (IH d1) as (d2 & -> & Hd). exists d2. split; [done|].
  intros n. rewrite Hd.
  assert (dk_files d1 !! n = if bool_decide (n = name) && is_old w cutoff env n then None else dk_files d !! n) as ->.
  { destruct (bool_decide_reflect (n = name)) as [->|Hn].
    - revert E. unfold clear_entry, is_old. destruct (parse_backup_timestamp _ _ _) as [[[date time]|]|]; [|by intros [= <-]|done].
      destruct (from_local date time); intros [= <-]; [|done]. destruct (_ && _); [|done]. apply lookup_delete_eq.
    - revert E. unfold clear_entry. destruct (parse_backup_timestamp _ _ _) as [[[date time]|]|]; [|by intros [= <-]|done].
      destruct (from_local date time); intros [= <-]; [|done]. destruct (_ && _); [|done]. by apply lookup_delete_ne. }
  destruct (is_old w cutoff env n); rewrite ?andb_false_r, ?andb_true_r; [|done].
  destruct (bool_decide_reflect (n ∈ names)), (bool_decide_reflect (n = name)), (bool_decide_reflect (n ∈ name :: names)); set_solver.
Qed.

Lemma clear_entries_path w cutoff env entries d d' r : writer_wf w -> clear_entries w cutoff env d entries = (d', r) ->
  dk_files d' !! rf_path w = dk_files d !! rf_path w.
Proof.
  intros Hw. revert d. induction entries as [|[name|e] entries IH]; intros d; cbn [clear_entries]; [by intros [= <- _]| |by intros [= <- _]].
  destruct (clear_entry w cutoff env d name) as [d1|] eqn:E; [|by intros [= <- _]]. intros ->%IH.
  revert E. unfold clear_entry. destruct (decide (name = rf_path w)) as [->|Hne]; [rewrite parse_path by done; by intros [= <-]|].
  destruct (parse_backup_timestamp _ _ _) as [[[date time]|]|]; [|by intros [= <-]|done].
  destruct (from_local date time); intros [= <-]; [|done]. destruct (_ && _); [|done]. by apply lookup_delete_ne.
Qed.
Lemma clear_path w d env d' r : writer_wf w -> clear_old_backups w d env = (d', r) -> dk_files d' !! rf_path w = dk_files d !! rf_path w.
Proof.
  intros Hw. unfold clear_old_backups. destruct (_ =? _)%Z; [by intros [= <- _]|]. destruct (minus_days _ _); [|by intros [= <- _]].
  destruct (io_entries env); [by apply clear_entries_path|by intros [= <- _]].
Qed.
Lemma rotate_fresh start s w d env w' d' : writer_wf w -> log_ok (rf_path w) start d s -> rotate w d env = (w', d', Done tt) ->
  dk_files d' !! rf_path w = Some "".
Proof.
  intros Hw Hok. unfold rotate. set (w0 := rf_set w false (rf_day w)).
  destruct (open_new w0 d env) as [[w1 d1] r1] eqn:E1. assert (writer_wf w0) as Hw0 by (by eapply wf_settings; [|exact Hw]; destruct w).
  destruct (open_new_ok start s w0 d env w1 d1 r1 Hw0) as ([K1 _ _ _] & _ & Hp); [by destruct w|exact E1|].
  assert (settings w1 = settings w) as Es by (rewrite K1; by destruct w).
  assert (rf_path w1 = rf_path w) as Ep by (destruct w, w1; by injection Es).
  destruct r1 as [[]|e|]; [|done..]. specialize (Hp eq_refl).
  destruct (clear_old_backups w1 d1 env) as [d2 r2] eqn:E2. apply clear_path in E2; [|by eapply wf_settings].
  rewrite Ep in E2. intros Hr. assert (d2 = d') as <- by (destruct r2; by injection Hr). rewrite E2. exact Hp.
Qed.
End RotateLemmas.

(** ** Properties *)


(** A rotation with a retention of days clears by age. Among the files of the
    directory it removes those whose name says that they are backups of this log
    made before the cutoff, and that the system lets it remove, and no others; the
    log itself never, and a backup made by this writer exactly when its second lies
    before the cutoff. It never panics over a name. *)
Theorem backups_cleared_by_age {T D C} `{LT : LocalTime T D C, EqDecision D, !LocalTimeLaws T D C}
    (w : RotateFileWriter D) (d : Disk) (env : IoEnv T) (cutoff : T) (names : list string) :
  writer_wf w -> rf_max_days w <> 0%Z -> minus_days (io_later env) (rf_max_days w) = Some cutoff ->
  io_entries env = Ok (map Ok names) -> (forall n, is_Some (dk_files d !! n) -> n ∈ names) ->
  exists d', clear_old_backups w d env = (d', Done tt)
  /\ (forall n, dk_files d' !! n = if is_old w cutoff env n then None else dk_files d !! n)
  /\ dk_files d' !! rf_path w = dk_files d !! rf_path w
  /\ (forall now, four_digit_year now -> from_utf8_lossy (backup_name w now) = backup_name w now ->
      is_old w cutoff env (backup_name w now) =
      match from_local (date_naive now) (seconds_naive now) with
      | Some dt => before dt cutoff && io_remove env (backup_name w now)
      | None => false
      end).
Proof.
  intros Hw Hd Hm He Hall. destruct (clear_entries_exact w cutoff env names d Hw) as (d' & Hc & Hf). exists d'.
  assert (forall n, dk_files d' !! n = if is_old w cutoff env n then None else dk_files d !! n) as Hf'.
  { intros n. rewrite Hf. destruct (bool_decide_reflect (n ∈ names)) as [|Hn]; [done|]. cbn.
    destruct (dk_files d !! n) eqn:E; [|by destruct (is_old _ _ _ _)]. by destruct Hn; apply Hall. }
  split; [unfold clear_old_backups; rewrite (proj2 (Z.eqb_neq _ _) Hd), Hm, He; exact Hc|]. split; [exact Hf'|]. split.
  - rewrite Hf'. unfold is_old. by rewrite parse_path.
  - intros now Hy Hu. unfold is_old. rewrite Hu, parse_backup_name; [done|done|done|]. rewrite <- Hu. apply lossy_clean.
Qed.

(** A new day begins a new file. A write on another day than the file's leaves a
    log that holds the buffer and nothing else, what was there before having been
    moved; a write on the file's own day adds to it. *)
Theorem new_day_new_file {T D C} `{LocalTime T D C, EqDecision D} (start s : string) (w w' : RotateFileWriter D) (d d' : Disk)
    (env : IoEnv T) (buf : string) (n : nat) (day : D) :
  writer_wf w -> log_ok (rf_path w) start d s -> rf_day w = Some day -> rotate_write w d env buf = (w', d', Done n) ->
  n = String.length buf
  /\ dk_files d' !! rf_path w =
     Some ((if bool_decide (date_naive (io_today env) = day) then default "" (dk_files d !! rf_path w) else "") ++ buf).
Proof.
  intros Hw Hok Hday. unfold rotate_write. destruct (ensure_ready w d env) as [[w1 d1] r1] eqn:E.
  destruct (ensure_ready_ok start s w d env w1 d1 r1 Hw Hok E) as [[K1 _ K3 _] _]. destruct r1 as [[]|e|]; [|done..].
  rewrite (K3 eq_refl). cbn [negb]. destruct (io_write env); [done|]. intros [= <- <- <-]. split; [done|]. cbn.
  assert (rf_path w1 = rf_path w) as -> by (destruct w, w1; by injection K1). rewrite lookup_insert_eq. do 2 f_equal.
  revert E. unfold ensure_ready. rewrite Hday. destruct (bool_decide_reflect (date_naive (io_today env) = day)) as [<-|Hne].
  - rewrite !(bool_decide_eq_true_2 (Some _ = Some _)) by done. cbn [andb negb]. rewrite andb_false_r.
    destruct (rf_file w); [by intros [= _ <-]|]. unfold open_existing_or_new. destruct (io_append env); [done|].
    destruct (dk_files d !! rf_path w) as [c|] eqn:Ef; [intros [= _ <-]; by rewrite Ef|].
    destruct (open_new w d env) as [[w2 d2] r2] eqn:E2. destruct (open_new_ok start s w d env w2 d2 r2 Hw Hok E2) as (_ & _ & Hp).
    destruct r2 as [[]|e|]; [|done..]. intros [= _ <-]. by rewrite Hp.
  - rewrite (bool_decide_eq_false_2 (Some day = _)) by congruence. rewrite bool_decide_eq_true_2 by done. cbn [andb negb].
    intros E. by rewrite (rotate_fresh start s w d env w1 d1 Hw Hok E).
Qed.

(** *** Witnesses *)

(** A clock of seconds, whose days are numbered. *)
Fixpoint pad (width : nat) (z : Z) (acc : string) : string :=
  match width with O => acc | S k => pad k (z / 10) (String (byte_of (48 + Z.to_N (z mod 10))) acc) end.
#[local] Instance ex_time : LocalTime Z Z Z := {
  date_naive t := (t / 86400)%Z;
  format_backup t := pad 8 (t / 86400) "" ++ "-" ++ pad 6 (t mod 86400) "";
  parse_date s := parse_uint 99999999 s;
  parse_time s := parse_uint 999999 s;
  from_local d c := Some (d * 86400 + c)%Z;
  minus_days t n := Some (t - n * 86400)%Z;
  before a b := (a <? b)%Z }.
#[local] Instance ex_time_laws : LocalTimeLaws Z Z Z.
Proof.
  refine {| four_digit_year t := t = 864007%Z; seconds_naive t := (t mod 86400)%Z |}.
  intros t ->. exists "00000010", "000007". repeat split.
Defined.
Definition ex_io (now : Z) : IoEnv Z := MkIo now None now None None now (Ok [Ok "o.log"; Ok "o.00000010-000007.log"]) (fun _ => true) None.
Definition ex_writer : RotateFileWriter Z := MkRotate "o.log" ".log" "o." 1 true (Some 12%Z).
Definition ex_disk : Disk := MkDisk (<["o.log" := "new"]> (<["o.00000010-000007.log" := "old"]> ∅)) [] [].


(** The clock is set back over midnight and forward again within a second: two
    rotations take one name, and what the first one moved is gone. *)
Lemma same_second_overwrites : exists d w w' d',
  rotate_open "o.log" 0 (MkDisk (<["o.log" := "a"]> ∅) [] []) (ex_io 950399) = (d, Done w)
  /\ log_run w d [(ex_io 950400, "b"); (ex_io 950399, "c"); (ex_io 950400, "d")] = (w', d', "bcd")
  /\ (dk_backups d').*2 = ["a"; "b"; "c"] /\ dk_files d' !! "o.00000011-000000.log" = Some "c".
Proof.
  destruct (rotate_open (D := Z) "o.log" 0 (MkDisk (<["o.log" := "a"]> ∅) [] []) (ex_io 950399)) as [d [w|e|]] eqn:Eo; [|vm_compute in Eo; discriminate..].
  destruct (log_run w d [(ex_io 950400, "b"); (ex_io 950399, "c"); (ex_io 950400, "d")]) as [[w' d'] bytes] eqn:Er.
  exists d, w, w', d'. split; [reflexivity|]. vm_compute in Eo. injection Eo as <- <-. vm_compute in Er. injection Er as <- <- <-.
  split; [reflexivity|]. split; vm_compute; reflexivity.
Qed.

Lemma ex_writer_wf : writer_wf ex_writer.
Proof. split; [reflexivity|]. exists "o". split; [done|]. split; [done|]. right. by exists "log". Defined.

Lemma backups_cleared_by_age_witness :
  exists d', clear_old_backups ex_writer ex_disk (ex_io 1036800) = (d', Done tt)
  /\ dk_files d' !! "o.log" = Some "new" /\ is_old ex_writer 950400%Z (ex_io 1036800) (backup_name ex_writer 864007%Z) = true.
Proof.
  destruct (backups_cleared_by_age ex_writer ex_disk (ex_io 1036800) 950400%Z ["o.log"; "o.00000010-000007.log"]) as (d' & H1 & _ & H3 & H4);
    [exact ex_writer_wf|discriminate|reflexivity|reflexivity| |].
  - intros n Hn. unfold ex_disk in Hn. cbn [dk_files] in Hn. rewrite !lookup_insert_is_Some, lookup_empty in Hn.
    destruct Hn as [<-|[_ [<-|[_ [? [=]]]]]]; set_solver.
  - exists d'. split; [exact H1|]. split; [exact H3|]. rewrite (H4 864007%Z); [reflexivity|reflexivity|reflexivity].
Defined.

Lemma new_day_new_file_witness : exists w' d', rotate_write ex_writer ex_disk (ex_io 1123200) "x" = (w', d', Done 1)
  /\ dk_files d' !! "o.log" = Some "x".
Proof.
  destruct (rotate_write ex_writer ex_disk (ex_io 1123200) "x") as [[w' d'] r] eqn:E.
  assert (r = Done 1) as -> by (vm_compute in E; by injection E).
  exists w', d'. split; [reflexivity|].
  refine (proj2 (new_day_new_file "new" "" ex_writer w' ex_disk d' (ex_io 1123200) "x" 1 12%Z _ _ _ E));
    [exact ex_writer_wf|split; [reflexivity|by intros b c Hin%not_elem_of_nil|by intros [] ????]|reflexivity].
Defined.

(** A retention that reaches back before the first day of the calendar panics at the
    first rotation, in the thread that writes the log. *)
Theorem long_retention_panics {T D C} `{LocalTime T D C, EqDecision D} (w : RotateFileWriter D) (d : Disk) (env : IoEnv T) w1 d1 :
  open_new (rf_set w false (rf_day w)) d env = (w1, d1, Done tt) -> rf_max_days w1 <> 0%Z -> minus_days (io_later env) (rf_max_days w1) = None ->
  rotate w d env = (w1, d1, Panicked).
Proof. intros Ho Hd Hm. unfold rotate. rewrite Ho. unfold clear_old_backups. by rewrite (proj2 (Z.eqb_neq _ _) Hd), Hm. Qed.
