(* ===== verification/LocalControl.v ===== *)
(** * The local control socket

    [client/src/local_control.rs] on Unix: where the socket is, who gets to serve
    it, and the one request a connection carries, from [orbien reload] to the
    running client and back.  JSON, the socket calls and the running client's
    [reload_from_path] are parameters. *)

From S2P Require Import Prelude RustStr Examples Config EnvExpand Reload.

Local Open Scope string_scope.

(** ** Where the socket is *)

Definition SOCKET_FILE : string := "control.sock".

Section Paths.
(** [std::env::var], the text of [var_os], and [std::env::temp_dir]. *)
Context (env : string -> EnvVar) (env_os : string -> option string) (temp_dir : string).

Definition env_path (name : string) : option string :=
  match env name with
  | Present value => if is_empty (trim value) then None else Some (trim value)
  | _ => None
  end.
Definition user_home : option string :=
  let try key := match env_os key with Some value => if is_empty value then None else Some value | None => None end in
  match try "HOME" with Some v => Some v | None => try "USERPROFILE" end.
Definition state_dir : string :=
  match env_path "ORBIEN_STATE_DIR" with
  | Some dir => dir
  | None =>
      match user_home with
      | Some home => path_join (path_join home ".config") "orbien"
      | None => path_join temp_dir "orbien"
      end
  end.
Definition default_socket_path : string :=
  match env_path "ORBIEN_CONTROL_SOCKET" with
  | Some path => path
  | None =>
      let fallback := path_join (path_join state_dir "run") SOCKET_FILE in
      match env_os "XDG_RUNTIME_DIR" with
      | Some dir => let dir := from_utf8_lossy dir in
          if negb (is_empty (trim dir)) then path_join (path_join dir "orbien") SOCKET_FILE else fallback
      | None => fallback
      end
  end.
End Paths.

(** ** Requests *)

Record ControlRequest := MkControlRequest { cr_op : string; cr_config : option string }.
Record ControlResponse := MkControlResponse { cp_ok : bool; cp_outcome : option ReloadOutcome; cp_error : option string }.

(** What serde_json does with the two. *)
Class ControlJson := {
  show_request : string -> string -> string;
  parse_request : string -> Anyhow ControlRequest;
  show_response : ControlResponse -> Anyhow string;
  parse_response : string -> Anyhow ControlResponse;
  debug_failed : list (string * string) -> string }.
(** A value is printed on one line, an object, as text that parses as the value. *)
Definition json_object (s : string) : Prop :=
  utf8_valid s = true /\ (exists body, s = "{" ++ body ++ "}") /\ sforall (fun c => negb (Ascii.eqb lf c)) s = true.
Class ControlJsonLaws `{ControlJson} := {
  request_object : forall op config, json_object (show_request op config);
  request_roundtrip : forall op config, parse_request (show_request op config) = Ok (MkControlRequest op (Some config));
  response_printed : forall r, exists s, show_response r = Ok s /\ json_object s /\ parse_response s = Ok r }.

(** [Lines::next_line] on what arrives before the end. *)
Definition next_line (s : string) : Anyhow (option string) :=
  if is_empty s then Ok None else
  let l := match split_once lf s with
           | Some (l, _) => match strip_suffix (String cr "") l with Some l => l | None => l end
           | None => s
           end in
  if utf8_valid l then Ok (Some l) else Err "stream did not contain valid UTF-8".

Section Control.
Context `{ControlJson} (reload_from_path : string -> Anyhow ReloadOutcome).

Definition handle_reload (config : option string) : ControlResponse :=
  match config with
  | None => MkControlResponse false None (Some "config path is required")
  | Some path =>
      match reload_from_path path with
      | Ok outcome => MkControlResponse (succeeded outcome) (Some outcome) None
      | Err e => MkControlResponse false None (Some e)
      end
  end.
(** From the bytes received to those written; [Err] closes the connection. *)
Definition handle_connection (received : string) : Anyhow string :=
  let? line := next_line received in
  match line with
  | Some l =>
      if is_empty (trim l) then Err "empty control request" else
      let? req := parse_request l in
      let resp :=
        if String.eqb (cr_op req) "reload" then handle_reload (cr_config req)
        else if String.eqb (cr_op req) "ping" then MkControlResponse true None None
        else MkControlResponse false None (Some ("unknown op: " ++ cr_op req)) in
      let? body := show_response resp in
      Ok (body ++ String lf "")
  | None => Err "empty control request"
  end.

(** [exchange]: what the other side answers to what is written, up to its end. *)
Definition reload_via_socket (socket_path : string) (connected : Anyhow unit) (exchange : string -> string) (config_path : string)
    : Anyhow ReloadOutcome :=
  let? _ := map_err (fun _ => "connect to control socket at " ++ socket_path ++ " (start orbien with -c first)") connected in
  let answer := exchange (show_request "reload" (from_utf8_lossy config_path) ++ String lf "") in
  let? line := next_line answer in
  match line with
  | None => Err "empty control response"
  | Some l =>
      let? resp := parse_response l in
      match cp_outcome resp with
      | Some outcome =>
          if cp_ok resp then Ok outcome else Err ("reload completed with errors: " ++ debug_failed (ro_failed outcome))
      | None => Err (match cp_error resp with Some e => e | None => "reload failed" end)
      end
  end.
(** The other side: a connection of the running client. *)
Definition client_answers (received : string) : string :=
  match handle_connection received with Ok written => written | Err _ => "" end.
End Control.

(** ** Who serves *)

(** The socket file with the process that bound it, and the processes that accept. *)
Record Socket := MkSocket { sk_file : option Z; sk_accepting : gset Z }.

(** What [UnixStream::connect] says about a socket file. *)
Inductive Probe := Answered | StaleSocket | OtherError (e : string).
(** Where [serve_unix] is before it listens. *)
Inductive Start := ToProbe | ToRemove | ToBind | Listening | Refused (e : string).

(** [connect_error]: why no connection was made although somebody listens. *)
Definition probe (s : Socket) (connect_error : option string) : option Probe :=
  match sk_file s with
  | None => None
  | Some owner =>
      Some (match connect_error with
            | Some e => OtherError e
            | None => if bool_decide (owner ∈ sk_accepting s) then Answered else StaleSocket
            end)
  end.
(** One step of the start of process [p]. *)
Definition start_step (s : Socket) (p : Z) (st : Start) (connect_error : option string) : Socket * Start :=
  match st with
  | ToProbe =>
      match probe s connect_error with
      | None => (s, ToBind)
      | Some Answered => (s, Refused "control socket is already in use; another orbien client may be running")
      | Some StaleSocket => (s, ToRemove)
      | Some (OtherError e) => (s, Refused ("probe control socket: " ++ e))
      end
  | ToRemove =>
      match sk_file s with
      | Some _ => (MkSocket None (sk_accepting s), ToBind)
      | None => (s, Refused "remove stale control socket")
      end
  | ToBind =>
      match sk_file s with
      | Some _ => (s, Refused "bind control socket")
      | None => (MkSocket (Some p) ({[p]} ∪ sk_accepting s), Listening)
      end
  | st => (s, st)
  end.
(** A start that nothing interrupts. *)
Definition start (s : Socket) (p : Z) (connect_error : option string) : Socket * Start :=
  let '(s, st) := start_step s p ToProbe connect_error in
  let '(s, st) := start_step s p st None in
  start_step s p st None.
(** The end of [serve_unix] when it is cancelled, and of a process that is killed. *)
Definition finish (s : Socket) (p : Z) : Socket := MkSocket None (sk_accepting s ∖ {[p]}).
Definition killed (s : Socket) (p : Z) : Socket := MkSocket (sk_file s) (sk_accepting s ∖ {[p]}).

Inductive SocketOp := SoStart (p : Z) (connect_error : option string) | SoFinish (p : Z) | SoKilled (p : Z).
Definition socket_op (s : Socket) (op : SocketOp) : Socket :=
  match op with
  | SoStart p e => (start s p e).1
  | SoFinish p => if bool_decide (p ∈ sk_accepting s) then finish s p else s
  | SoKilled p => killed s p
  end.
Definition socket_run (ops : list SocketOp) : Socket := fold_left socket_op ops (MkSocket None ∅).

(** ** Lemmas *)

Lemma next_line_object s rest : json_object s -> next_line (s ++ String lf rest) = Ok (Some s).
Proof.
  intros (Hu & [body Hb] & Hn). unfold next_line.
  assert (is_empty (s ++ String lf rest) = false) as -> by (by rewrite Hb).
  assert (split_once lf (s ++ String lf rest) = Some (s, rest)) as -> by (by apply split_once_spec).
  assert (strip_suffix (String cr "") s = None) as ->; [|by rewrite Hu].
  destruct (strip_suffix (String cr "") s) as [r|] eqn:E; [|done]. apply strip_suffix_spec in E. exfalso.
  rewrite Hb, <- app_assoc in E. apply (f_equal srev) in E. by rewrite !srev_app_distr in E.
Qed.
Lemma object_not_blank s : json_object s -> is_empty (trim s) = false.
Proof. intros (_ & [body ->] & _). apply is_empty_false, trim_nonempty; [by apply graphic_ws|done]. Qed.
Lemma object_line s : json_object s -> next_line (s ++ String lf "") = Ok (Some s).
Proof. apply next_line_object. Qed.

(** *** The socket *)

(** At most one process accepts, and the file is its own. *)
Definition sole_owner (s : Socket) : Prop := forall p, p ∈ sk_accepting s -> sk_file s = Some p.
Lemma start_sole s p e : sole_owner s -> sole_owner (start s p e).1.
Proof.
  intros Hs. unfold start. cbn [start_step]. unfold probe. destruct (sk_file s) as [owner|] eqn:Ef.
  - destruct e; [done|]. destruct (bool_decide_reflect (owner ∈ sk_accepting s)) as [|Ho]; [done|]. cbn. rewrite Ef. cbn.
    intros q Hq. assert (q ∉ sk_accepting s) as Hn by (intros Hq'; apply Hs in Hq' as E; congruence). set_solver.
  - cbn. rewrite Ef. cbn. intros q Hq. assert (q ∉ sk_accepting s) as Hn by (intros Hq'%Hs; congruence). set_solver.
Qed.
Lemma socket_op_sole s op : sole_owner s -> sole_owner (socket_op s op).
Proof.
  intros Hs. destruct op as [p e|p|p]; cbn; [by apply start_sole| |].
  - destruct (bool_decide_reflect (p ∈ sk_accepting s)) as [Hp|]; [|done]. intros q Hq. cbn in *. apply Hs in Hp.
    apply elem_of_difference in Hq as [Hq Hne]. apply Hs in Hq. set_solver.
  - intros q Hq. cbn in *. apply Hs. set_solver.
Qed.
Lemma socket_run_sole ops s : sole_owner s -> sole_owner (fold_left socket_op ops s).
Proof. revert s. induction ops as [|op ops IH]; intros s Hs; [done|]. by apply IH, socket_op_sole. Qed.

(** ** Properties *)

(** C28: [orbien reload] is as good as a reload in the running client. What the command
    reports is what the client's own reload gave: its outcome when no tunnel
    failed, an error that names the failed ones otherwise, and the client's own
    error when it refused; the path is used by the client as it was typed. *)
Theorem reload_command_transparent `{ControlJsonLaws} (reload_from_path : string -> Anyhow ReloadOutcome) (socket_path config_path : string) :
  reload_via_socket socket_path (Ok tt) (client_answers reload_from_path) config_path =
  match reload_from_path (from_utf8_lossy config_path) with
  | Ok outcome => if succeeded outcome then Ok outcome else Err ("reload completed with errors: " ++ debug_failed (ro_failed outcome))
  | Err e => Err e
  end.
Proof.
  unfold reload_via_socket, client_answers, handle_connection. cbn [map_err].
  rewrite (object_line (show_request _ _)) by apply request_object. rewrite object_not_blank by apply request_object.
  rewrite request_roundtrip. cbn [cr_op cr_config]. rewrite String.eqb_refl. unfold handle_reload.
  destruct (reload_from_path (from_utf8_lossy config_path)) as [outcome|e].
  all: match goal with |- context [show_response ?r] => destruct (response_printed r) as (s & -> & Hs & Hp) end.
  all: rewrite (object_line s Hs), Hp; done.
Qed.

(** One client serves the socket. Whatever clients start, end or are killed, one
    after the other, at most one accepts requests and the socket file is its own;
    a start is refused while it lives, and when it was killed the next one takes the
    stale file over. *)
Theorem one_client_serves (ops : list SocketOp) (p : Z) :
  let s := socket_run ops in
  (forall q q', q ∈ sk_accepting s -> q' ∈ sk_accepting s -> q = q')
  /\ (forall q, q ∈ sk_accepting s -> sk_file s = Some q /\ start s p None =
        (s, Refused "control socket is already in use; another orbien client may be running"))
  /\ (sk_accepting s = ∅ -> start s p None = (MkSocket (Some p) {[p]}, Listening)).
Proof.
  intros s. assert (sole_owner s) as Hs by (apply socket_run_sole; intros q Hq; cbn in Hq; set_solver).
  split; [intros q q' Hq%Hs Hq'%Hs; congruence|]. split.
  - intros q Hq. pose proof (Hs q Hq) as Ef. split; [done|]. unfold start. cbn [start_step]. unfold probe. by rewrite Ef, bool_decide_eq_true_2.
  - intros He. unfold start. cbn [start_step]. unfold probe. destruct (sk_file s) as [o|] eqn:Ef.
    + rewrite bool_decide_eq_false_2 by (rewrite He; set_solver). cbn. rewrite Ef. cbn. by rewrite He, union_empty_r_L.
    + cbn. rewrite Ef. cbn. by rewrite He, union_empty_r_L.
Qed.

(** Two clients that start at once over a stale file: the second removes the file the
    first has just bound, and both go on; nobody can reach the first any more. *)
Theorem racing_starts_steal :
  let s0 := MkSocket (Some 9%Z) ∅ in
  let '(s, a) := start_step s0 1 ToProbe None in let '(s, b) := start_step s 2 ToProbe None in
  let '(s, a) := start_step s 1 a None in let '(s, a) := start_step s 1 a None in
  let '(s, b) := start_step s 2 b None in let '(s, b) := start_step s 2 b None in
  a = Listening /\ b = Listening /\ sk_file s = Some 2%Z /\ 1%Z ∈ sk_accepting s.
Proof. vm_compute. repeat split. Qed.

(** *** Witness *)

(** Values as the numbers of their encodings. *)
#[local] Instance level_countable : Countable ReloadLevel.
Proof.
  refine (inj_countable' (fun l => match l with LvNoop => 0 | LvTunnelsOnly => 1 | LvReconnectControl => 2 end)%nat
            (fun n => match n with 0 => LvNoop | 1 => LvTunnelsOnly | _ => LvReconnectControl end)%nat _). by intros [].
Defined.
#[local] Instance outcome_eq_dec : EqDecision ReloadOutcome.
Proof. solve_decision. Defined.
#[local] Instance outcome_countable : Countable ReloadOutcome.
Proof.
  refine (inj_countable' (fun o => (ro_level o, ro_added o, ro_removed o, ro_updated o, ro_failed o, ro_connection_settings_changed o))
            (fun '(l, a, r, u, f, c) => MkOutcome l a r u f c) _). by intros [].
Defined.
#[local] Instance response_eq_dec : EqDecision ControlResponse.
Proof. solve_decision. Defined.
#[local] Instance response_countable : Countable ControlResponse.
Proof.
  refine (inj_countable' (fun r => (cp_ok r, cp_outcome r, cp_error r)) (fun '(k, o, e) => MkControlResponse k o e) _). by intros [].
Defined.
Lemma ex_object {A} `{Countable A} (a : A) : json_object (ex_show a).
Proof.
  unfold ex_show. pose proof (show_bits_digits (encode a)) as Hd. revert Hd. generalize (show_bits (encode a)) as d. intros d Hd.
  assert (forall p, (forall c, is_digit c = true -> p c = true) -> p "{"%char = true -> p "}"%char = true -> sforall p ("{" ++ d ++ "}") = true) as Hp.
  { intros p H1 H2 H3. cbn. rewrite H2, sforall_app. cbn. rewrite H3, (sforall_impl is_digit p d H1 Hd). done. }
  split; [|split; [by eexists|]].
  - apply ascii_valid, Hp; [|done|done]. intros c Hc. unfold is_digit in Hc. apply andb_prop in Hc as [_ Hc%N.leb_le]. apply N.ltb_lt. lia.
  - apply Hp; [|done|done]. intros c Hc. destruct (Ascii.eqb_spec lf c) as [<-|]; [done|done].
Qed.
#[local] Instance ex_json : ControlJson := {
  show_request op config := ex_show (op, config);
  parse_request s := match ex_parse (A := string * string) s with Ok (op, config) => Ok (MkControlRequest op (Some config)) | Err e => Err e end;
  show_response r := Ok (ex_show r);
  parse_response := ex_parse;
  debug_failed l := join ", " (map fst l) }.
#[local] Instance ex_json_laws : ControlJsonLaws.
Proof.
  split; [intros; apply ex_object|intros op config; cbn [parse_request show_request ex_json]; by rewrite ex_parse_show|].
  intros r. eexists. split; [reflexivity|]. split; [apply ex_object|apply ex_parse_show].
Defined.

Lemma reload_command_transparent_witness :
  reload_via_socket "s" (Ok tt) (client_answers (fun p => if String.eqb p "a.toml" then Ok (MkOutcome LvTunnelsOnly ["web"] [] [] [("db", "refused")] false) else Err "no file")) "a.toml"
  = Err "reload completed with errors: db".
Proof.
  refine (eq_trans (reload_command_transparent _ "s" "a.toml") _). reflexivity.
Defined.
