(* ===== verification/TunnelTasks.v ===== *)
(** * The tasks behind a tunnel

    [server/src/tunnel/tcp.rs], the tasks of [server/src/tunnel/udp.rs] with the
    socket's loops in [core/src/udp/mod.rs], and the session loop of
    [client/src/tunnel/udp.rs].  A task is a state machine: what its awaits yield
    are the operations, and an operation is refused where the task does not wait
    for it. *)

From S2P Require Import Prelude RustStr Registry Metrics Msg Net HttpIngress UdpForward.

Local Open Scope string_scope.

(** ** [TcpTunnel] *)

(** [tt_accepting]: the accept task lives; [tt_ingress]: the peers whose
    connections were handed to [handle_ingress], in order. *)
Record TcpTunnel := MkTcpTunnel { tt_closed : bool; tt_accepting : bool; tt_ingress : list SocketAddr }.
(** [start], given what [bind] said. *)
Definition tcp_start (bound : Anyhow unit) : Anyhow TcpTunnel := let? _ := bound in Ok (MkTcpTunnel false true []).
Definition tt_stop (t : TcpTunnel) : TcpTunnel := MkTcpTunnel (tt_closed t) false (tt_ingress t).
(** What the [select!] of the accept loop yields. *)
Inductive AcceptEvent := AcNotified | AcAccepted (peer : SocketAddr) (control_alive : bool) | AcError.
Definition accept_turn (t : TcpTunnel) (e : AcceptEvent) : TcpTunnel :=
  if negb (tt_accepting t) then t else
  match e with
  | AcNotified | AcError => tt_stop t
  | AcAccepted peer alive =>
      if tt_closed t || negb alive then tt_stop t
      else MkTcpTunnel (tt_closed t) true (tt_ingress t ++ [peer])%list
  end.
(** [close]: the flag, then the task is aborted. *)
Definition tcp_close (t : TcpTunnel) : TcpTunnel := MkTcpTunnel true false (tt_ingress t).

(** [handle_ingress]: the data connection, the announcement and the relay. *)
Definition handle_ingress (tunnel_name : string) (ig : IngressConn) (get_data start : Anyhow unit)
    (join : Z * Z * option ErrorKind) (m : MemMetrics) (t : Now) : Anyhow StartDataConn * MemMetrics :=
  match get_data with
  | Err e => (Err e, m)
  | Ok _ =>
      match start with
      | Err e => (Err e, m)
      | Ok _ => (Ok (start_of tunnel_name ig), (join_and_record m tunnel_name "tcp" join t).2)
      end
  end.

(** ** [forward_user_conn] *)

(** The two halves of the server's socket: whether each still runs, what was sent to
    users, what went to the data connection's channel. *)
Record UserConn := MkUserConn {
  uc_writer : bool; uc_reader : bool; uc_to_users : list (string * SocketAddr); uc_from_users : list UdpPacket }.
Definition user_conn_new : UserConn := MkUserConn true true [] [].
(** The writer's next packet, and what [send_to] says. *)
Definition user_writer_turn (u : UserConn) (pkt : UdpPacket) (send : Anyhow unit) : UserConn :=
  if negb (uc_writer u) then u else
  match to_user pkt with
  | None => u
  | Some d =>
      match send with
      | Ok _ => MkUserConn true (uc_reader u) (uc_to_users u ++ [d])%list (uc_from_users u)
      | Err _ => MkUserConn false (uc_reader u) (uc_to_users u) (uc_from_users u)
      end
  end.
(** The reader's next datagram, and whether the channel takes it; when the reader
    ends the writer is aborted. *)
Definition user_reader_turn (u : UserConn) (received : Anyhow (string * SocketAddr)) (room : bool) : UserConn :=
  if negb (uc_reader u) then u else
  match received with
  | Ok (content, remote) =>
      if room then MkUserConn (uc_writer u) true (uc_to_users u) (uc_from_users u ++ [from_user content remote])%list else u
  | Err _ => MkUserConn false false (uc_to_users u) (uc_from_users u)
  end.

(** ** [data_conn_loop] *)

(** Where the loop waits: before it begins, for a data connection, after a failure
    (listening to [notify]), for the announcement, after its failure, and in the
    [select!] over an established connection. *)
Inductive DataPhase := DpDelayed | DpGet | DpRetry | DpAnnounce | DpWait | DpJoined | DpEnded.
#[global] Instance DataPhase_eq_dec : EqDecision DataPhase.
Proof. solve_decision. Defined.

(** [ut_reader]: the reader task of the connection runs; [ut_failed]: it has reported;
    [ut_detached]: readers whose handle was dropped while they ran: they go on reading
    their connection, counting what they read and offering it to the socket's channel,
    until the connection fails. [ut_written]: the
    packets written to data connections; [ut_lost]: those whose write failed. *)
Record UdpTask := MkUdpTask {
  ut_phase : DataPhase; ut_closed : bool; ut_reader : bool; ut_failed : bool; ut_detached : nat;
  ut_metrics : MemMetrics; ut_written : list UdpPacket; ut_lost : list UdpPacket; ut_to_users : list UdpPacket }.
Definition udp_start (m : MemMetrics) : UdpTask := MkUdpTask DpDelayed false false false 0 m [] [] [].

Section DataConn.
Context (tunnel_name : string).

Definition ut_goto (u : UdpTask) (p : DataPhase) : UdpTask :=
  MkUdpTask p (ut_closed u) (ut_reader u) (ut_failed u) (ut_detached u) (ut_metrics u) (ut_written u) (ut_lost u) (ut_to_users u).
Definition ut_set_metrics (u : UdpTask) (m : MemMetrics) : UdpTask :=
  MkUdpTask (ut_phase u) (ut_closed u) (ut_reader u) (ut_failed u) (ut_detached u) m (ut_written u) (ut_lost u) (ut_to_users u).
Definition ut_set_reader (u : UdpTask) (reader failed : bool) (detached : nat) : UdpTask :=
  MkUdpTask (ut_phase u) (ut_closed u) reader failed detached (ut_metrics u) (ut_written u) (ut_lost u) (ut_to_users u).

(** The head of the [while]. *)
Definition loop_head (u : UdpTask) (control_alive : bool) : UdpTask :=
  ut_goto u (if ut_closed u || negb control_alive then DpEnded else DpGet).
(** The connection is over: the reader is aborted and waited for, the guard dropped. *)
Definition leave_joined (u : UdpTask) : UdpTask :=
  let u := ut_set_reader u false false (ut_detached u) in
  ut_set_metrics u (close_connection (ut_metrics u) tunnel_name "udp").
(** The task is aborted where it waits: the guard is dropped, and the handle of a
    reader that runs, which goes on by itself. *)
Definition abort_task (u : UdpTask) : UdpTask :=
  match ut_phase u with
  | DpJoined =>
      let u := ut_set_reader u false false (if ut_reader u then S (ut_detached u) else ut_detached u) in
      ut_goto (ut_set_metrics u (close_connection (ut_metrics u) tunnel_name "udp")) DpEnded
  | _ => ut_goto u DpEnded
  end.

(** [data_reader]'s next turn: what it counts and offers to the channel, which drops it
    when it is full or closed. *)
Definition reader_turn_out (u : UdpTask) (pkt : UdpPacket) (n : Z) (room : bool) (t : Now) : UdpTask :=
  MkUdpTask (ut_phase u) (ut_closed u) (ut_reader u) (ut_failed u) (ut_detached u) (add_traffic_out (ut_metrics u) tunnel_name "udp" n t)
    (ut_written u) (ut_lost u) (if room then ut_to_users u ++ [pkt] else ut_to_users u)%list.

(** [UoReader] is a turn of the connection's own reader, [UoDetached] one of a reader
    that was left to itself; its failure has nobody to report to. *)
Inductive UdpOp :=
| UoSlept (control_alive : bool)
| UoGot (r : Anyhow unit)
| UoAnnounced (r : Anyhow unit)
| UoNotified
| UoFailed (control_alive : bool)
| UoPacket (pkt : option UdpPacket) (written : Anyhow unit) (control_alive : bool) (t : Now)
| UoReader (r : DataRead) (room : bool) (t : Now)
| UoDetached (r : DataRead) (room : bool) (t : Now)
| UoClose
| UoAbort.
Definition udp_op (u : UdpTask) (op : UdpOp) : option UdpTask :=
  match op, ut_phase u with
  | UoClose, _ => Some (MkUdpTask (ut_phase u) true (ut_reader u) (ut_failed u) (ut_detached u) (ut_metrics u) (ut_written u) (ut_lost u) (ut_to_users u))
  | UoAbort, _ => Some (abort_task u)
  | UoSlept alive, (DpDelayed | DpRetry | DpWait) => Some (loop_head u alive)
  | UoGot r, DpGet => Some (ut_goto u (match r with Ok _ => DpAnnounce | Err _ => DpRetry end))
  | UoAnnounced (Err _), DpAnnounce => Some (ut_goto u DpWait)
  | UoAnnounced (Ok _), DpAnnounce =>
      let u := ut_set_metrics u (open_connection (ut_metrics u) tunnel_name "udp") in
      Some (ut_goto (ut_set_reader u true false (ut_detached u)) DpJoined)
  | UoNotified, (DpGet | DpRetry) => Some (ut_goto u DpEnded)
  | UoNotified, DpJoined => Some (ut_goto (leave_joined u) DpEnded)
  | UoFailed alive, DpJoined => if ut_failed u then Some (loop_head (leave_joined u) alive) else None
  | UoPacket None _ _ _, DpJoined => Some (ut_goto (leave_joined u) DpEnded)
  | UoPacket (Some pkt) (Ok _) _ t, DpJoined =>
      let m := add_traffic_in (ut_metrics u) tunnel_name "udp" (slen (up_content pkt)) t in
      Some (MkUdpTask (ut_phase u) (ut_closed u) (ut_reader u) (ut_failed u) (ut_detached u) m (ut_written u ++ [pkt])%list (ut_lost u) (ut_to_users u))
  | UoPacket (Some pkt) (Err _) alive _, DpJoined =>
      let u := leave_joined u in
      Some (loop_head (MkUdpTask (ut_phase u) (ut_closed u) (ut_reader u) (ut_failed u) (ut_detached u) (ut_metrics u) (ut_written u)
        (ut_lost u ++ [pkt])%list (ut_to_users u)) alive)
  | UoReader r room t, DpJoined =>
      if negb (ut_reader u) then None else
      match server_data_reader r with
      | (Some (pkt, n), _) => Some (reader_turn_out u pkt n room t)
      | (None, true) => Some u
      | (None, false) => Some (ut_set_reader u false true (ut_detached u))
      end
  | UoDetached r room t, _ =>
      match ut_detached u with
      | O => None
      | S others =>
          match server_data_reader r with
          | (Some (pkt, n), _) => Some (reader_turn_out u pkt n room t)
          | (None, true) => Some u
          | (None, false) => Some (ut_set_reader u (ut_reader u) (ut_failed u) others)
          end
      end
  | _, _ => None
  end.
Fixpoint udp_run (u : UdpTask) (ops : list UdpOp) : option UdpTask :=
  match ops with [] => Some u | op :: ops => match udp_op u op with Some u => udp_run u ops | None => None end end.
End DataConn.

(** ** The client's [run_udp_session] *)

Inductive SessionEvent := SeCancelled | SeFailed (e : option string) | SeOut (m : option Message) (written : Anyhow unit).
(** The messages written, and the result once the loop is left. *)
Fixpoint udp_session (events : list SessionEvent) : list Message * option (Anyhow unit) :=
  match events with
  | [] => ([], None)
  | SeCancelled :: _ => ([], Some (Ok tt))
  | SeFailed (Some e) :: _ => ([], Some (Err e))
  | SeFailed None :: _ => ([], Some (Ok tt))
  | SeOut (Some m) (Ok _) :: rest => let r := udp_session rest in (m :: r.1, r.2)
  | SeOut (Some _) (Err e) :: _ => ([], Some (Err ("udp data write: " ++ e)))
  | SeOut None _ :: _ => ([], Some (Ok tt))
  end.

(** ** Lemmas *)

Local Open Scope list_scope.

Definition peer_of (e : AcceptEvent) : option SocketAddr := match e with AcAccepted p true => Some p | _ => None end.
Definition accept_run (t : TcpTunnel) (evs : list AcceptEvent) : TcpTunnel := fold_left accept_turn evs t.
Lemma accept_stopped evs t : tt_accepting t = false -> accept_run t evs = t.
Proof. intros Ht. induction evs as [|e evs IH]; [done|]. cbn. unfold accept_turn at 2. rewrite Ht. exact IH. Qed.
Lemma accept_serves evs t : tt_accepting t = true -> tt_closed t = false -> Forall (fun e => is_Some (peer_of e)) evs ->
  accept_run t evs = MkTcpTunnel false true (tt_ingress t ++ omap peer_of evs).
Proof.
  revert t. induction evs as [|e evs IH]; intros [c a l] Ha Hc Hall; cbn in Ha, Hc; subst; cbn [accept_run fold_left].
  { cbn. by rewrite List.app_nil_r. }
  apply Forall_cons in Hall as [[p He] Hall]. destruct e as [|p' alive|]; try done. destruct alive; [|done]. injection He as ->.
  cbn. unfold accept_run in IH. rewrite IH by done. cbn. by rewrite <- List.app_assoc.
Qed.

(** The gauge counts the connection that is joined, and readers belong to it. *)
Record udp_ok (base : Z) (u : UdpTask) : Prop := {
  uk_gauge : mm_active_connections (ut_metrics u) = if decide (ut_phase u = DpJoined) then counter_inc base 1 else base;
  uk_reader : ut_reader u = true -> ut_phase u = DpJoined;
  uk_watched : ut_phase u = DpJoined -> ut_reader u = true \/ ut_failed u = true }.

Section UdpLemmas.
Context (name : string) (base : Z) (base_ok : in_i64 base).

Lemma closed_gauge m : mm_active_connections m = counter_inc base 1 -> mm_active_connections (close_connection m name "udp") = base.
Proof using base_ok. intros Hm. cbn. rewrite Hm. by apply counter_dec_inc. Qed.
(** Any way out of the connection. *)
Lemma left_ok u p : udp_ok base u -> ut_phase u = DpJoined -> p <> DpJoined -> udp_ok base (ut_goto (leave_joined name u) p).
Proof using base_ok.
  intros [H1 _ _] Hj Hp. rewrite decide_True in H1 by done. split; cbn; [|done|done]. rewrite decide_False by done. by apply closed_gauge.
Qed.
Lemma quiet_ok u p : udp_ok base u -> ut_phase u <> DpJoined -> p <> DpJoined -> udp_ok base (ut_goto u p).
Proof.
  intros [H1 H2 _] Hj Hp. split; cbn; [|by intros Hr; destruct Hj; apply H2|done]. rewrite decide_False in H1 by done. by rewrite decide_False.
Qed.
Lemma head_phase u alive : ut_phase (loop_head u alive) <> DpJoined.
Proof. cbn. by destruct (_ || _). Qed.
Lemma udp_op_ok u op u' : udp_ok base u -> udp_op name u op = Some u' -> udp_ok base u'.
Proof using base_ok.
  intros Hok. destruct op as [alive|r|r| |alive|pkt r alive t|r room t|r room t| |]; cbn [udp_op].
  - destruct (ut_phase u) eqn:Ep; intros [= <-]; by apply quiet_ok; [|congruence|destruct (_ || _)].
  - destruct (ut_phase u) eqn:Ep; intros [= <-]. by apply quiet_ok; [|congruence|destruct r].
  - destruct (ut_phase u) eqn:Ep; [by destruct r..| | | |]; try by destruct r.
    destruct r; intros [= <-]; [|by apply quiet_ok; [|congruence|]].
    destruct Hok as [H1 _ _]. rewrite Ep in H1. cbn in H1. split; cbn; [by rewrite H1|done|by left].
  - destruct (ut_phase u) eqn:Ep; intros [= <-]; [by apply quiet_ok; [|congruence|]..|by apply left_ok].
  - destruct (ut_phase u) eqn:Ep; try done. destruct (ut_failed u); intros [= <-]. apply left_ok; [done|done|by destruct (_ || _)].
  - destruct (ut_phase u) eqn:Ep; [by destruct pkt as [?|], r..| |by destruct pkt as [?|], r].
    destruct pkt as [pkt|]; [|intros [= <-]; by apply left_ok]. destruct r as [[]|e]; intros [= <-].
    + destruct Hok as [H1 H2 H3]. rewrite Ep in *. split; cbn; [|by intros _|done].
      by rewrite (proj2 (gauge_add_traffic_in _ _ _ _ _ name)).
    + pose proof (left_ok u (if ut_closed u || negb alive then DpEnded else DpGet) Hok Ep ltac:(by destruct (_ || _))) as [G1 G2 G3].
      by split.
  - destruct (ut_phase u) eqn:Ep; try done. destruct (ut_reader u) eqn:Er; [|done]. cbn [negb].
    destruct Hok as [H1 H2 H3]. rewrite Ep in *.
    destruct (server_data_reader r) as [[[pkt n]|] [|]]; intros [= <-]; (split; cbn; rewrite ?Ep, ?Er; [|by intros _|by auto]);
      by rewrite ?(proj2 (gauge_add_traffic_out _ _ _ _ _ name)).
  - destruct (ut_detached u) as [|others]; [done|]. destruct Hok as [H1 H2 H3].
    destruct (server_data_reader r) as [[[pkt n]|] [|]]; intros [= <-]; (split; cbn; [|by auto|by auto]);
      by rewrite ?(proj2 (gauge_add_traffic_out _ _ _ _ _ name)).
  - intros [= <-]. by destruct Hok.
  - intros [= <-]. unfold abort_task. destruct (ut_phase u) eqn:Ep; try by apply quiet_ok; [|congruence|].
    destruct Hok as [H1 _ _]. rewrite Ep in H1. cbn in H1. split; cbn; [|done|done]. by apply closed_gauge.
Qed.
Lemma udp_run_ok u ops u' : udp_ok base u -> udp_run name u ops = Some u' -> udp_ok base u'.
Proof using base_ok.
  revert u. induction ops as [|op ops IH]; intros u Hok; cbn; [by intros [= <-]|].
  destruct (udp_op name u op) as [u1|] eqn:E; [|done]. apply IH. by eapply udp_op_ok.
Qed.
End UdpLemmas.

(** Only a task aborted over a connection leaves a reader behind, and it leaves one. *)
Definition left_behind (u : UdpTask) : Prop := ut_detached u <= (if decide (ut_phase u = DpEnded) then 1 else 0).
Lemma left_nobody u : left_behind u -> ut_phase u <> DpEnded -> ut_detached u = 0.
Proof. unfold left_behind. intros H He. rewrite decide_False in H by done. lia. Qed.
Lemma none_left u : ut_detached u = 0 -> left_behind u.
Proof. unfold left_behind. intros ->. lia. Qed.
Lemma udp_op_left name u op u' : left_behind u -> udp_op name u op = Some u' -> left_behind u'.
Proof.
  intros Hl. destruct (decide (ut_phase u = DpEnded)) as [Ep|Hp].
  { unfold left_behind in *. rewrite Ep in Hl. cbn in Hl.
    destruct op as [alive|r|r| |alive|pkt r alive t|r room t|r room t| |]; cbn [udp_op]; rewrite ?Ep; try done.
    - by destruct r.
    - by destruct pkt, r.
    - destruct (ut_detached u) as [|others] eqn:Ed; [done|].
      destruct (server_data_reader r) as [[[pkt n]|] [|]]; intros [= <-]; cbn [reader_turn_out ut_set_reader ut_detached ut_phase];
        rewrite Ep; [..|cbn in *; lia]; rewrite Ed; exact Hl.
    - intros [= <-]. exact Hl.
    - intros [= <-]. unfold abort_task. rewrite Ep. exact Hl. }
  pose proof (left_nobody u Hl Hp) as H0.
  destruct op as [alive|r|r| |alive|pkt r alive t|r room t|r room t| |]; cbn [udp_op].
  all: try (destruct pkt as [pkt|]; [destruct r as [[]|e]|]); try (destruct r as [[]|e]).
  all: destruct (ut_phase u) eqn:Ep; try done; try (by intros [= <-]; apply none_left).
  all: try (destruct (ut_failed u); [by intros [= <-]; apply none_left|done]).
  all: try (by rewrite H0).
  all: try (by intros [= <-]; unfold abort_task; rewrite Ep; apply none_left).
  - destruct (ut_reader u); [|done]. cbn [negb].
    destruct (server_data_reader _) as [[[pkt n]|] [|]]; intros [= <-]; by apply none_left.
  - intros [= <-]. unfold abort_task, left_behind. rewrite Ep. cbn [ut_goto ut_set_metrics ut_set_reader ut_detached ut_phase].
    rewrite H0, decide_True by done. destruct (ut_reader u); lia.
Qed.
Lemma udp_run_left name u ops u' : left_behind u -> udp_run name u ops = Some u' -> left_behind u'.
Proof.
  revert u. induction ops as [|op ops IH]; intros u Hu; cbn; [by intros [= <-]|].
  destruct (udp_op name u op) as [u1|] eqn:E; [|done]. apply IH. by eapply udp_op_left.
Qed.

Definition packet_written (op : UdpOp) : option UdpPacket := match op with UoPacket (Some p) (Ok _) _ _ => Some p | _ => None end.
Definition packet_lost (op : UdpOp) : option UdpPacket := match op with UoPacket (Some p) (Err _) _ _ => Some p | _ => None end.
Lemma udp_op_packets name u op u' : udp_op name u op = Some u' ->
  ut_written u' = ut_written u ++ omap packet_written [op] /\ ut_lost u' = ut_lost u ++ omap packet_lost [op].
Proof.
  assert (forall a b, ut_written (loop_head a b) = ut_written a /\ ut_lost (loop_head a b) = ut_lost a) as Hh by done.
  destruct op as [alive|r|r| |alive|pkt r alive t|r room t|r room t| |]; cbn [udp_op omap list_omap packet_written packet_lost].
  all: try (destruct pkt as [pkt|]; [destruct r as [[]|e]|]); try (destruct r as [[]|e]); rewrite ?List.app_nil_r.
  all: destruct (ut_phase u) eqn:Ep; try done; try (by intros [= <-]).
  all: try (destruct (ut_failed u); [by intros [= <-]|done]).
  all: try (intros [= <-]; unfold abort_task; by rewrite Ep).
  all: try (destruct (ut_detached u) as [|others]; [done|]).
  all: try (destruct (ut_reader u); [|done]; cbn [negb]); by destruct (server_data_reader _) as [[[pkt n]|] [|]]; intros [= <-].
Qed.
Lemma udp_run_packets name u ops u' : udp_run name u ops = Some u' ->
  ut_written u' = ut_written u ++ omap packet_written ops /\ ut_lost u' = ut_lost u ++ omap packet_lost ops.
Proof.
  revert u. induction ops as [|op ops IH]; intros u; cbn [udp_run]; [intros [= <-]; cbn; by rewrite !List.app_nil_r|].
  destruct (udp_op name u op) as [u1|] eqn:E; [|done]. intros [H1 H2]%IH. apply udp_op_packets in E as [G1 G2].
  rewrite H1, H2, G1, G2, <- !List.app_assoc. split; cbn; [by destruct (packet_written op)|by destruct (packet_lost op)].
Qed.
(** What the task's end leaves: a reader it left behind still counts. *)
Definition counts_detached (name : string) (u : UdpTask) (op : UdpOp) (m : MemMetrics) : Prop :=
  exists r room t pkt n more, op = UoDetached r room t /\ 0 < ut_detached u /\ server_data_reader r = (Some (pkt, n), more)
    /\ m = add_traffic_out (ut_metrics u) name "udp" n t.
Lemma ended_stays name u op u' : ut_phase u = DpEnded -> udp_op name u op = Some u' ->
  ut_phase u' = DpEnded /\ ut_written u' = ut_written u /\ (ut_metrics u' = ut_metrics u \/ counts_detached name u op (ut_metrics u')).
Proof.
  intros Ep. destruct op as [alive|r|r| |alive|pkt r alive t|r room t|r room t| |]; cbn [udp_op]; rewrite ?Ep; try done.
  - by destruct r.
  - by destruct pkt, r.
  - destruct (ut_detached u) as [|others] eqn:Ed; [done|].
    destruct (server_data_reader r) as [[[pkt n]|] [|]] eqn:Er; intros [= <-]; (split; [done|split; [done|]]); try (by left);
      right; repeat eexists; [rewrite Ed; lia|exact Er|rewrite Ed; lia|exact Er].
  - intros [= <-]. auto.
  - intros [= <-]. unfold abort_task. rewrite Ep. auto.
Qed.

(** ** Properties *)

(** A TCP tunnel hands every connection to the client, once and in order, from
    its start until it is closed, its control is gone or an accept fails; after any
    of these it serves nobody. *)
Theorem tcp_serves_until_end (before after : list AcceptEvent) (t : TcpTunnel) :
  tcp_start (Ok tt) = Ok t -> Forall (fun e => is_Some (peer_of e)) before ->
  let s := accept_run t before in
  tt_ingress s = omap peer_of before /\ tt_accepting s = true
  /\ accept_run (tcp_close s) after = tcp_close s
  /\ (forall e, peer_of e = None -> accept_run s (e :: after) = tt_stop s).
Proof.
  intros [= <-] Hall. rewrite accept_serves by done. cbn zeta. split; [done|]. split; [done|]. split; [by apply accept_stopped|].
  intros e He. cbn [accept_run fold_left]. assert (accept_turn (MkTcpTunnel false true ([] ++ omap peer_of before)) e
    = tt_stop (MkTcpTunnel false true ([] ++ omap peer_of before))) as Ht.
  { destruct e as [|p [|]|]; done. }
  cbn [tt_ingress]. rewrite Ht. by apply accept_stopped.
Qed.

(** C25: A UDP tunnel's data connection is accounted for. Through every course of its
    task - connections made, lost and made again, packets, failures, closing and
    being aborted at any wait - the server's connection gauge stands one higher
    exactly while a connection is joined; a joined connection has a reader that
    runs or has reported its failure; packets go to the data connections in the
    order they came, except those whose write failed; and once the task has ended
    it writes nothing and the gauge stays where it was, and so do the traffic counts,
    but for one reader at most: an abort over a joined connection leaves its reader
    behind, which goes on counting what it reads from that connection until it
    fails. *)
Theorem udp_task_accounted (name : string) (m : MemMetrics) (ops : list UdpOp) (u : UdpTask) :
  in_i64 (mm_active_connections m) -> udp_run name (udp_start m) ops = Some u ->
  mm_active_connections (ut_metrics u)
    = (if decide (ut_phase u = DpJoined) then counter_inc (mm_active_connections m) 1 else mm_active_connections m)
  /\ (ut_phase u = DpJoined -> ut_reader u = true \/ ut_failed u = true)
  /\ ut_written u = omap packet_written ops /\ ut_lost u = omap packet_lost ops
  /\ (ut_phase u = DpEnded -> ut_detached u <= 1 /\ forall op u', udp_op name u op = Some u' ->
      ut_phase u' = DpEnded /\ ut_written u' = ut_written u
      /\ mm_active_connections (ut_metrics u') = mm_active_connections (ut_metrics u)
      /\ (ut_metrics u' = ut_metrics u \/ counts_detached name u op (ut_metrics u')))
  /\ (ut_phase u <> DpEnded -> ut_detached u = 0).
Proof.
  intros Hm Hr. pose proof (udp_run_packets name (udp_start m) ops u Hr) as [Hw Hl].
  pose proof (udp_run_left name (udp_start m) ops u (none_left (udp_start m) eq_refl) Hr) as Hd.
  apply (udp_run_ok name _ Hm) in Hr as Hok; [|by split]. destruct (Hok) as [H1 _ H3].
  split; [exact H1|]. split; [exact H3|]. split; [exact Hw|]. split; [exact Hl|]. split; [|by apply left_nobody].
  intros Ep. unfold left_behind in Hd. rewrite Ep in Hd. split; [exact Hd|]. intros op u' E.
  destruct (ended_stays name u op u' Ep E) as (Ep' & Hs & Hc). split; [exact Ep'|]. split; [exact Hs|]. split; [|exact Hc].
  rewrite (uk_gauge _ _ (udp_op_ok name _ Hm u op u' Hok E)), H1, Ep, Ep'. reflexivity.
Qed.

(** Closing ends the task wherever it waits: the flag is set, the waiters are told and
    the task is aborted. *)
Lemma udp_close_ends name u : exists u', udp_run name u [UoClose; UoAbort] = Some u' /\ ut_phase u' = DpEnded.
Proof. eexists. split; [reflexivity|]. cbn. unfold abort_task. cbn. by destruct (ut_phase u). Qed.

(** But a reader that runs then is not aborted with it: its handle is dropped, and it
    goes on reading from the data connection and counting what arrives there. *)
Theorem aborted_reader_detached name u pkt room t : ut_phase u = DpJoined -> ut_reader u = true ->
  exists u1 u2, udp_run name u [UoClose; UoAbort] = Some u1 /\ ut_phase u1 = DpEnded /\ ut_detached u1 = S (ut_detached u)
    /\ udp_op name u1 (UoDetached (DrMessage (MUdpPacket pkt)) room t) = Some u2
    /\ ut_metrics u2 = add_traffic_out (ut_metrics u1) name "udp" (slen (up_content pkt)) t.
Proof. intros Ep Er. unfold udp_run, udp_op at 1 2. cbn. unfold abort_task. cbn. rewrite Ep, Er. repeat eexists. Qed.

(** One answer that cannot be sent, to whatever address a client names, silences the
    tunnel: no user gets an answer any more, while their datagrams are still taken. *)
Theorem failed_send_silences_tunnel (u : UserConn) (pkt : UdpPacket) (d : string * SocketAddr) (e : string)
    (later : list (UdpPacket * Anyhow unit)) :
  uc_writer u = true -> to_user pkt = Some d ->
  let u' := user_writer_turn u pkt (Err e) in
  fold_left (fun u x => user_writer_turn u x.1 x.2) later u' = u' /\ uc_reader u' = uc_reader u.
Proof.
  intros Hw Hd. assert (user_writer_turn u pkt (Err e) = MkUserConn false (uc_reader u) (uc_to_users u) (uc_from_users u)) as ->
    by (unfold user_writer_turn; by rewrite Hw, Hd).
  cbn zeta. split; [|done]. induction later as [|[p s] later IH]; [done|]. exact IH.
Qed.

(** The client's session writes what it is given, in order, until something ends it. *)
Lemma session_writes (ms : list Message) (rest : list SessionEvent) :
  udp_session (map (fun m => SeOut (Some m) (Ok tt)) ms ++ rest) = (ms ++ (udp_session rest).1, (udp_session rest).2).
Proof. induction ms as [|m ms IH]; cbn; [by destruct (udp_session rest)|]. by rewrite IH. Qed.

(** *** Witnesses *)

Definition ex_peer (n : Z) : SocketAddr := MkSocketAddr (V4 (9, 9, 9, n)%Z) 5000.
Lemma tcp_serves_until_end_witness :
  let s := accept_run (MkTcpTunnel false true []) [AcAccepted (ex_peer 1) true; AcAccepted (ex_peer 2) true] in
  tt_ingress s = [ex_peer 1; ex_peer 2] /\ tt_accepting s = true.
Proof.
  destruct (tcp_serves_until_end [AcAccepted (ex_peer 1) true; AcAccepted (ex_peer 2) true] [] (MkTcpTunnel false true [])) as (H1 & H2 & _);
    [reflexivity|by repeat constructor; eexists|split; [exact H1|exact H2]].
Defined.

Definition ex_day : Now := day0.
Definition ex_packet : UdpPacket := from_user "ping" (ex_peer 1).
Definition ex_udp_ops : list UdpOp :=
  [UoSlept true; UoGot (Ok tt); UoAnnounced (Ok tt); UoPacket (Some ex_packet) (Ok tt) true ex_day;
   UoReader DrDeadline false ex_day; UoFailed true; UoGot (Err "closed"); UoSlept true; UoGot (Ok tt); UoAnnounced (Ok tt);
   UoClose; UoAbort; UoDetached (DrMessage (MUdpPacket ex_packet)) false ex_day].
Lemma udp_task_accounted_witness : exists u, udp_run "dns" (udp_start (metrics_new ex_day)) ex_udp_ops = Some u
  /\ mm_active_connections (ut_metrics u) = 0%Z /\ ut_written u = [ex_packet] /\ ut_detached u = 1
  /\ forall op u', udp_op "dns" u op = Some u' -> ut_written u' = [ex_packet].
Proof.
  destruct (udp_run "dns" (udp_start (metrics_new ex_day)) ex_udp_ops) as [u|] eqn:E; [|vm_compute in E; discriminate].
  exists u. split; [reflexivity|].
  destruct (udp_task_accounted "dns" (metrics_new ex_day) ex_udp_ops u) as (H1 & _ & H3 & _ & H5 & _); [split; discriminate|exact E|].
  assert (ut_phase u = DpEnded /\ ut_detached u = 1) as [Ep Ed] by (vm_compute in E; injection E as <-; split; reflexivity).
  rewrite H1, Ep. split; [reflexivity|]. split; [exact H3|]. split; [exact Ed|].
  intros op u' Hu. destruct (H5 Ep) as [_ H6]. destruct (H6 op u' Hu) as (_ & H7 & _). rewrite H7, H3. reflexivity.
Defined.
