(* ===== verification/LogBuffer.v ===== *)
(** * The desktop's log page

    [desktop/src/log_buffer.rs] with the cursor of [main.rs] that keeps the page's
    rows in step with it, and the text of a line as
    [desktop/src/client_log_layer.rs] makes it.  Slint's model of rows is a list. *)

From S2P Require Import Prelude RustStr Utf8.

Local Open Scope string_scope.

Definition MAX_LOG_LINES : nat := 1000.

Record LogEntry := MkLogEntry { le_level : Z; le_tag : string; le_body : string; le_text : string }.
Record LogLine := MkLogLine {
  ll_level : Z; ll_tag : string; ll_body : string; ll_text : string; ll_pre : string; ll_mid : string; ll_post : string; ll_has_hit : bool }.
(** [epoch] changes whenever lines disappear, as a 64-bit number. *)
Record LogStore := MkLogStore { lg_entries : list LogEntry; lg_epoch : Z }.
Definition log_store_default : LogStore := MkLogStore [] 0.
Record UiSyncCursor := MkCursor { uc_epoch : Z; uc_len : nat }.
Definition cursor_default : UiSyncCursor := MkCursor 0 0.

(** ** A line *)

(** [split_at] panics off a boundary: [None] of the outer option. *)
Definition strip_level_prefix (s level : string) : option (option string) :=
  let n := String.length level in
  if (String.length s <? n)%nat then Some None else
  if negb (is_boundary s n) then None else
  let head := stake n s in
  let rest := sdrop n s in
  if negb (eq_ignore_ascii_case head level) then Some None
  else if is_empty rest then Some (Some "")
  else if (ws_len rest =? 0)%nat then Some None
  else Some (Some ("  " ++ trim_start rest)).
Definition LEVELS : list (string * Z) := [("ERROR", 3); ("WARN", 2); ("WARNING", 2); ("INFO", 1); ("DEBUG", 4); ("TRACE", 4)]%Z.
Fixpoint find_level (levels : list (string * Z)) (trimmed text : string) : option (option LogEntry) :=
  match levels with
  | [] => Some None
  | (name, level) :: rest =>
      match strip_level_prefix trimmed name with
      | None => None
      | Some (Some body) => Some (Some (MkLogEntry level name body text))
      | Some None => find_level rest trimmed text
      end
  end.
Definition parse_line (raw : string) : option LogEntry :=
  let trimmed := trim_start raw in
  match find_level LEVELS trimmed raw with
  | None => None
  | Some (Some e) => Some e
  | Some None =>
      let '(tag, body) :=
        match find_char (Ascii.eqb "]") trimmed with
        | Some end_ => if starts_with "[" trimmed then (stake (S end_) trimmed, sdrop (S end_) trimmed) else ("", trimmed)
        | None => ("", trimmed)
        end in
      Some (MkLogEntry 0 tag body raw)
  end.

(** ** A line of the client

    [client_log_layer.rs]: an event of the client's tracing becomes a line. A field's
    value is given as its visitor formats it, before quotes are stripped. *)

Inductive TraceLevel := TL_ERROR | TL_WARN | TL_INFO | TL_DEBUG | TL_TRACE.
Definition level_rank (l : TraceLevel) : nat :=
  match l with TL_ERROR => 1 | TL_WARN => 2 | TL_INFO => 3 | TL_DEBUG => 4 | TL_TRACE => 5 end.
Record FieldVisitor := MkVisitor { fv_message : option string; fv_fields : list (string * string) }.
Definition trim_quotes (s : string) : string := trim_matches (fun c => (code c =? 34)%N) s.
Definition visitor_push (v : FieldVisitor) (field : string * string) : FieldVisitor :=
  let '(name, value) := field in
  if String.eqb name "message" then MkVisitor (Some (trim_quotes value)) (fv_fields v)
  else MkVisitor (fv_message v) (fv_fields v ++ [(name, trim_quotes value)])%list.
Definition log_field (k : string) : bool :=
  String.eqb k "log.target" || String.eqb k "log.module_path" || String.eqb k "log.file" || String.eqb k "log.line".
Definition push_field (out : string) (field : string * string) : string :=
  let '(k, v) := field in
  if log_field k then out else (if ends_with " " out then out else out ++ " ") ++ k ++ "=" ++ v.
Definition into_line (v : FieldVisitor) (level : TraceLevel) : option string :=
  let msg := trim (default "" (fv_message v)) in
  if is_empty msg && (match fv_fields v with [] => true | _ => false end) then None else
  match level with
  | TL_ERROR => Some "ERROR" | TL_WARN => Some "WARN " | TL_INFO => Some "INFO " | _ => None
  end ≫= fun prefix => Some (fold_left push_field (fv_fields v) (prefix ++ " " ++ msg)).
Definition on_event (level : TraceLevel) (target : string) (fields : list (string * string)) : option string :=
  if (level_rank TL_INFO <? level_rank level)%nat then None else
  if negb (starts_with "orbien_client" target || starts_with "orbien_core" target || starts_with "orbien_desktop" target) then None else
  into_line (fold_left visitor_push fields (MkVisitor None [])) level.

(** [highlight_parts]: [None] is a panic of its slices. *)
Definition highlight_parts (text query : string) : option (string * string * string * bool) :=
  let q := trim query in
  if is_empty q then Some ("", "", "", false) else
  match find (to_lower q) (to_lower text) with
  | Some pos =>
      let end_ := pos + String.length (to_lower q) `min` (String.length text - pos) in
      match slice text 0 pos, slice text pos end_, slice text end_ (String.length text) with
      | Some pre, Some mid, Some post => Some (pre, mid, post, true)
      | _, _, _ => None
      end
  | None => Some ("", "", "", false)
  end.
Definition entry_to_row (query : string) (e : LogEntry) : option LogLine :=
  match highlight_parts (le_text e) query with
  | Some (pre, mid, post, hit) => Some (MkLogLine (le_level e) (le_tag e) (le_body e) (le_text e) pre mid post hit)
  | None => None
  end.

(** ** The store *)

Definition next_epoch (e : Z) : Z := wrap_u 64 (e + 1).
Definition log_trim (s : LogStore) : LogStore :=
  if (MAX_LOG_LINES <? length (lg_entries s))%nat
  then MkLogStore (drop (length (lg_entries s) - MAX_LOG_LINES) (lg_entries s)) (next_epoch (lg_epoch s))
  else s.
Definition log_clear (s : LogStore) : LogStore := MkLogStore [] (next_epoch (lg_epoch s)).
Definition push_raw (s : LogStore) (raw : string) : option LogStore :=
  match parse_line raw with
  | Some e => Some (log_trim (MkLogStore (lg_entries s ++ [e])%list (lg_epoch s)))
  | None => None
  end.
Definition push_many_raw (s : LogStore) (lines : list string) : option LogStore :=
  match lines with
  | [] => Some s
  | _ => match mapM parse_line lines with
         | Some es => Some (log_trim (MkLogStore (lg_entries s ++ es)%list (lg_epoch s)))
         | None => None
         end
  end.

(** ** The rows on the page *)

Definition log_to_model (s : LogStore) (query : string) : option (list LogLine) := mapM (entry_to_row query) (lg_entries s).
Definition cursor_after_full_sync (s : LogStore) : UiSyncCursor := MkCursor (lg_epoch s) (length (lg_entries s)).
(** [append_to_model]: [Some None] when the rows cannot be continued. *)
Definition append_to_model (s : LogStore) (model : list LogLine) (query : string) (cursor : UiSyncCursor)
    : option (option (list LogLine * UiSyncCursor)) :=
  if negb (uc_epoch cursor =? lg_epoch s)%Z || negb (length model =? uc_len cursor)%nat then Some None else
  if (length (lg_entries s) <? uc_len cursor)%nat then Some None else
  match mapM (entry_to_row query) (drop (uc_len cursor) (lg_entries s)) with
  | Some rows => Some (Some ((model ++ rows)%list, MkCursor (lg_epoch s) (length (lg_entries s))))
  | None => None
  end.

(** The page: whether it is shown, its rows, the query they are made for, the cursor. *)
Record LogPage := MkPage { pg_shown : bool; pg_store : LogStore; pg_rows : list LogLine; pg_query : string; pg_cursor : UiSyncCursor }.
Definition page_new (query : string) : LogPage := MkPage false log_store_default [] query cursor_default.
Definition page_full_sync (p : LogPage) (query : string) : option LogPage :=
  match log_to_model (pg_store p) query with
  | Some rows => Some (MkPage (pg_shown p) (pg_store p) rows query (cursor_after_full_sync (pg_store p)))
  | None => None
  end.
Definition flush_logs_to_ui (p : LogPage) : option LogPage :=
  match append_to_model (pg_store p) (pg_rows p) (pg_query p) (pg_cursor p) with
  | None => None
  | Some (Some (rows, next)) => Some (MkPage (pg_shown p) (pg_store p) rows (pg_query p) next)
  | Some None => page_full_sync p (pg_query p)
  end.
(** What happens: lines arrive, the timer fires, the page is entered or left, the log is
    cleared, the query is edited. *)
Inductive PageOp := PgPush (lines : list string) | PgTimer | PgEnter | PgLeave | PgClear | PgQuery (q : string).
Definition page_op (p : LogPage) (op : PageOp) : option LogPage :=
  match op with
  | PgPush lines =>
      match push_many_raw (pg_store p) lines with
      | Some s => Some (MkPage (pg_shown p) s (pg_rows p) (pg_query p) (pg_cursor p))
      | None => None
      end
  | PgTimer => if pg_shown p then flush_logs_to_ui p else Some p
  | PgEnter => flush_logs_to_ui (MkPage true (pg_store p) (pg_rows p) (pg_query p) (pg_cursor p))
  | PgLeave => Some (MkPage false (pg_store p) [] (pg_query p) cursor_default)
  | PgClear =>
      let s := log_clear (pg_store p) in
      Some (MkPage (pg_shown p) s [] (pg_query p) (cursor_after_full_sync s))
  | PgQuery q => if pg_shown p then page_full_sync p q else Some p
  end.
Fixpoint page_run (p : LogPage) (ops : list PageOp) : option LogPage :=
  match ops with [] => Some p | op :: ops => match page_op p op with Some p => page_run p ops | None => None end end.

(** ** Lemmas *)

Local Open Scope list_scope.

(** Rows and cursor are right about the store as long as it has not dropped lines. *)
Record page_ok (n : Z) (p : LogPage) : Prop := {
  po_store : (0 <= lg_epoch (pg_store p) <= n)%Z;
  po_cursor : (0 <= uc_epoch (pg_cursor p) <= lg_epoch (pg_store p))%Z;
  po_rows : uc_epoch (pg_cursor p) = lg_epoch (pg_store p) ->
    uc_len (pg_cursor p) <= length (lg_entries (pg_store p))
    /\ mapM (entry_to_row (pg_query p)) (take (uc_len (pg_cursor p)) (lg_entries (pg_store p))) = Some (pg_rows p) }.

Lemma next_epoch_small e : (0 <= e)%Z -> (e + 1 < 2 ^ 64)%Z -> next_epoch e = (e + 1)%Z.
Proof. intros H1 H2. apply wrap_u_small. lia. Qed.
Lemma rows_app q a b ra rb : mapM (entry_to_row q) a = Some ra -> mapM (entry_to_row q) b = Some rb ->
  mapM (entry_to_row q) (a ++ b) = Some (ra ++ rb).
Proof. intros Ha Hb. apply mapM_Some. apply mapM_Some in Ha, Hb. by apply Forall2_app. Qed.
Lemma full_sync_ok n p q p' : (0 <= lg_epoch (pg_store p) <= n)%Z -> page_full_sync p q = Some p' ->
  page_ok n p' /\ pg_query p' = q /\ pg_store p' = pg_store p /\ log_to_model (pg_store p') q = Some (pg_rows p').
Proof.
  intros Hn. unfold page_full_sync. destruct (log_to_model (pg_store p) q) as [rows|] eqn:E; [|done]. intros [= <-]. cbn. rewrite E.
  split; [|done]. split; cbn; [done|lia|]. intros _. split; [done|]. by rewrite firstn_all.
Qed.
Lemma flush_ok n p p' : page_ok n p -> flush_logs_to_ui p = Some p' ->
  page_ok n p' /\ pg_query p' = pg_query p /\ pg_store p' = pg_store p /\ log_to_model (pg_store p') (pg_query p') = Some (pg_rows p').
Proof.
  intros [H1 H2 H3]. unfold flush_logs_to_ui, append_to_model.
  destruct (negb _ || negb _) eqn:Eg; [intros E; by destruct (full_sync_ok n p _ p' H1 E) as (? & -> & ? & ?)|].
  apply orb_false_iff in Eg as [Ee%negb_false_iff%Z.eqb_eq _]. destruct (H3 Ee) as [Hl Hr].
  rewrite (proj2 (Nat.ltb_ge _ _) Hl). destruct (mapM _ (drop _ _)) as [rows|] eqn:Ed; [|done]. intros [= <-]. cbn.
  pose proof (rows_app _ _ _ _ _ Hr Ed) as Hall. rewrite firstn_skipn in Hall.
  split; [|done]. split; cbn; [done|lia|]. intros _. split; [done|]. by rewrite firstn_all.
Qed.
Lemma push_many_spec s lines s' : push_many_raw s lines = Some s' ->
  (lg_epoch s' = lg_epoch s /\ exists es, lg_entries s' = lg_entries s ++ es) \/ lg_epoch s' = next_epoch (lg_epoch s).
Proof.
  unfold push_many_raw. destruct lines as [|l lines]; [intros [= <-]; left; split; [done|]; exists []; by rewrite List.app_nil_r|].
  destruct (mapM parse_line (l :: lines)) as [es|]; [|done]. intros [= <-]. unfold log_trim. destruct (_ <? _)%nat; [by right|].
  left. split; [done|]. by exists es.
Qed.
Lemma page_op_ok n p op p' : (n + 1 < 2 ^ 64)%Z -> page_ok n p -> page_op p op = Some p' -> page_ok (n + 1) p'.
Proof.
  intros Hn Hok. assert (forall p, page_ok n p -> page_ok (n + 1) p) as Hup by (intros q [? ? ?]; split; [lia|done|done]).
  pose proof Hok as [H1 H2 H3]. destruct op as [lines| | | | |q]; cbn [page_op].
  - destruct (push_many_raw (pg_store p) lines) as [s|] eqn:E; [|done]. intros [= <-]. apply push_many_spec in E as [[Ee [es Es]]|Ee].
    + split; cbn; rewrite ?Ee; [lia|done|]. intros E. destruct (H3 E) as [Hl Hr]. rewrite Es, length_app. split; [lia|]. by rewrite take_app_le.
    + rewrite next_epoch_small in Ee by lia. split; cbn; rewrite Ee; lia.
  - destruct (pg_shown p); [|intros [= <-]; by apply Hup]. intros E. apply Hup. by apply (flush_ok n p p' Hok).
  - intros E. apply Hup. by apply (flush_ok n _ p' (Build_page_ok n (MkPage true _ _ _ _) H1 H2 H3)).
  - intros [= <-]. split; cbn; [lia|lia|]. intros _. split; [lia|done].
  - intros [= <-]. unfold log_clear. split; cbn; rewrite ?next_epoch_small by lia; [lia|lia|done].
  - destruct (pg_shown p); [|intros [= <-]; by apply Hup]. intros E. apply Hup. by apply (full_sync_ok n p q p' H1).
Qed.
Lemma page_run_ok ops : forall n p p', (n + Z.of_nat (length ops) < 2 ^ 64)%Z -> page_ok n p -> page_run p ops = Some p' ->
  page_ok (n + Z.of_nat (length ops)) p'.
Proof.
  induction ops as [|op ops IH]; intros n p p' Hn Hok; cbn [page_run length] in *; [intros [= <-]; by rewrite Z.add_0_r|].
  destruct (page_op p op) as [p1|] eqn:E; [|done]. intros Hr.
  replace (n + Z.of_nat (S (length ops)))%Z with (n + 1 + Z.of_nat (length ops))%Z by lia.
  apply (IH _ p1); [lia| |done]. apply (page_op_ok n p op); [lia|done..].
Qed.

Local Open Scope string_scope.

Lemma find_split pat s n : find pat s = Some n -> exists r, s = stake n s ++ pat ++ r /\ n + String.length pat <= String.length s.
Proof.
  revert n. induction s as [|c s IH]; intros n; cbn [find].
  - destruct (starts_with pat "") eqn:E; [|done]. intros [= <-]. apply starts_with_spec in E as [r Hr]. exists r. split; [exact Hr|]. by destruct pat.
  - destruct (starts_with pat (String c s)) eqn:E.
    + intros [= <-]. apply starts_with_spec in E as [r Hr]. exists r. split; [exact Hr|]. rewrite Hr, length_app_s. lia.
    + destruct (find pat s) as [k|] eqn:Ek; [|done]. intros [= <-]. destruct (IH k eq_refl) as (r & Hr & Hl). exists r.
      split; [cbn; by rewrite <- Hr|cbn; lia].
Qed.
Lemma lower_split text a q r : to_lower text = a ++ q ++ r ->
  exists ta tq tr, text = ta ++ tq ++ tr /\ String.length ta = String.length a /\ to_lower tq = q.
Proof.
  intros E. exists (stake (String.length a) text), (stake (String.length q) (sdrop (String.length a) text)),
    (sdrop (String.length q) (sdrop (String.length a) text)).
  pose proof (f_equal String.length E) as El. rewrite length_lower, !length_app_s in El.
  split; [by rewrite !stake_sdrop|]. split; [rewrite length_stake; lia|].
  rewrite <- stake_lower, <- sdrop_lower, E, sdrop_app_length. apply stake_app_length.
Qed.
Lemma boundary_ends s : utf8_valid s = true -> is_boundary s 0 = true /\ is_boundary s (String.length s) = true.
Proof.
  intros Hs%valid_chars%chars_head. split; [by apply (boundary_at "" s)|].
  pose proof (boundary_at s "" I) as H. by rewrite app_nil_r in H.
Qed.

(** ** Properties *)

(** The page shows the log. After any course of lines arriving, being dropped at
    the limit and being cleared, of the page being shown, left and searched, a
    refresh gives the rows of the whole log for the query, although it only adds the
    new ones where it can. *)
Theorem log_page_in_step (query : string) (ops : list PageOp) (p p' : LogPage) :
  (Z.of_nat (length ops) < 2 ^ 64)%Z -> page_run (page_new query) ops = Some p -> flush_logs_to_ui p = Some p' ->
  log_to_model (pg_store p) (pg_query p) = Some (pg_rows p') /\ pg_store p' = pg_store p.
Proof.
  intros Hn Hr Hf. assert (page_ok 0 (page_new query)) as H0 by (split; cbn; [lia|lia|]; intros _; split; [lia|done]).
  pose proof (page_run_ok ops 0 _ p ltac:(lia) H0 Hr) as Hp.
  destruct (flush_ok _ p p' Hp Hf) as (_ & Eq & Es & Em). by rewrite <- Es, <- Eq.
Qed.

(** Highlighting never panics on text, whatever it contains: a hit splits the
    line into what is before it, the part that is the query but for the case of its
    letters, and what is after it. *)
Theorem highlight_splits (text query : string) : utf8_valid text = true -> utf8_valid (trim query) = true ->
  exists pre mid post hit, highlight_parts text query = Some (pre, mid, post, hit)
  /\ (hit = true -> pre ++ mid ++ post = text /\ to_lower mid = to_lower (trim query) /\ mid <> "")
  /\ (hit = true <-> trim query <> "" /\ contains (to_lower (trim query)) (to_lower text) = true).
Proof.
  intros Ht Hq. unfold highlight_parts, contains. set (q := trim query) in *. destruct (is_empty q) eqn:Eq.
  { apply is_empty_true in Eq. exists "", "", "", false. split; [done|]. split; [done|]. rewrite Eq. split; [done|]. by intros [? _]. }
  apply is_empty_false in Eq. destruct (find (to_lower q) (to_lower text)) as [pos|] eqn:Ef; [|exists "", "", "", false; naive_solver].
  apply find_split in Ef as (r & Er & Hl). rewrite !length_lower in Hl.
  destruct (lower_split _ _ _ _ Er) as (ta & tq & tr & -> & Ha & Hm). rewrite length_stake, length_lower in Ha.
  assert (String.length ta = pos) as Hpos by lia. assert (String.length tq = String.length q) as Hlq by (rewrite <- (length_lower tq), Hm; apply length_lower).
  assert (tq <> "") as Hne by (intros ->; destruct q; cbn in Hlq; [done|lia]).
  assert (utf8_valid tq = true) as Hvq by (apply chars_valid, chars_lower; rewrite Hm; by apply (proj1 (chars_lower q)), valid_chars).
  destruct (inner_boundaries ta tq tr Ht Hvq Hne) as [B1 B2]. destruct (boundary_ends _ Ht) as [B0 B3].
  rewrite length_lower. replace (pos + String.length q `min` (String.length (ta ++ tq ++ tr) - pos)) with (String.length ta + String.length tq)
    by (rewrite !length_app_s; lia).
  rewrite <- Hpos. exists ta, tq, tr, true. split; [|naive_solver].
  rewrite slice_mid by done. pose proof (slice_mid "" ta (tq ++ tr)) as S1. cbn [String.append String.length Nat.add] in S1. rewrite S1 by done.
  pose proof (slice_mid (ta ++ tq) tr "") as S2. rewrite app_nil_r, app_assoc, length_app_s in S2.
  replace (String.length (ta ++ tq ++ tr)) with (String.length ta + String.length tq + String.length tr) in * by (rewrite !length_app_s; lia).
  by rewrite S2.
Qed.

(** A line whose fourth, fifth or seventh byte is inside a character panics before
    its level is found: an INFO line whose message begins with a character beyond
    ASCII does. *)
Theorem info_line_panics (c b : ascii) (rest : string) : is_cont b = true -> parse_line ("INFO  " ++ String c (String b rest)) = None.
Proof.
  intros Hb. unfold parse_line. rewrite trim_start_id by (apply graphic_ws; done).
  unfold LEVELS, find_level, strip_level_prefix. cbn [String.length String.append Nat.ltb Nat.leb is_boundary sdrop]. cbn.
  unfold is_boundary. cbn. by rewrite Hb.
Qed.
(** Where they are not, every line is taken. *)
Lemma parse_line_total (raw : string) :
  is_boundary (trim_start raw) 4 = true -> is_boundary (trim_start raw) 5 = true -> is_boundary (trim_start raw) 7 = true ->
  exists e, parse_line raw = Some e /\ le_text e = raw.
Proof.
  intros H4 H5 H7. unfold parse_line. set (t := trim_start raw) in *.
  assert (forall name, is_boundary t (String.length name) = true -> exists o, strip_level_prefix t name = Some o) as Hs.
  { intros name Hb. unfold strip_level_prefix. rewrite Hb. cbn [negb]. destruct (_ <? _)%nat; [by eexists|]. destruct (negb _); [by eexists|].
    destruct (is_empty _); [by eexists|]. destruct (_ =? _)%nat; by eexists. }
  assert (forall levels, Forall (fun nl => is_boundary t (String.length nl.1) = true) levels ->
    exists o, find_level levels t raw = Some o /\ forall e, o = Some e -> le_text e = raw) as Hf.
  { induction 1 as [|[name level] levels Hn _ (o & Ho & Hoe)]; cbn; [by eexists|]. destruct (Hs name Hn) as [[body|] ->]; [|by eexists].
    eexists. split; [reflexivity|]. by intros e [= <-]. }
  destruct (Hf LEVELS) as (o & -> & Ho); [by repeat constructor|]. destruct o as [e|]; [exists e; split; [done|by apply Ho]|].
  destruct (match find_char _ _ with Some _ => _ | None => _ end) as [tag body]. by eexists.
Qed.

Lemma push_fields_extend fields out : exists r, fold_left push_field fields out = (out ++ r)%string.
Proof.
  revert out. induction fields as [|[k v] fields IH]; intros out; cbn [fold_left]; [exists ""; by rewrite app_nil_r|].
  destruct (IH (push_field out (k, v))) as [r ->]. unfold push_field. destruct (log_field k); [by exists r|].
  destruct (ends_with _ _); [exists (k ++ "=" ++ v ++ r)%string|exists (" " ++ k ++ "=" ++ v ++ r)%string]; by rewrite !app_assoc.
Qed.
Lemma on_event_line level target fields line : on_event level target fields = Some line -> exists r,
  match level with
  | TL_ERROR => line = ("ERROR " ++ r)%string | TL_WARN => line = ("WARN  " ++ r)%string | TL_INFO => line = ("INFO  " ++ r)%string | _ => False
  end.
Proof.
  unfold on_event. destruct (_ <? _)%nat; [done|]. destruct (negb _); [done|]. unfold into_line. destruct (_ && _); [done|].
  generalize (fold_left visitor_push fields (MkVisitor None [])) as v. intros v.
  destruct level; cbn [mbind option_bind]; try done;
    match goal with |- context [fold_left push_field ?l ?o] => destruct (push_fields_extend l o) as [r ->] end;
    rewrite app_assoc; cbn; intros [= <-]; by eexists.
Qed.

(** The log's page gives a traced line the level it was traced at, whatever its
    message and fields are, except that an INFO line panics when its seventh byte is
    inside a character. *)
Theorem traced_line_level (level : TraceLevel) (target : string) (fields : list (string * string)) (line : string) :
  on_event level target fields = Some line ->
  match level with
  | TL_ERROR => exists body, parse_line line = Some (MkLogEntry 3 "ERROR" body line)
  | TL_WARN => exists body, parse_line line = Some (MkLogEntry 2 "WARN" body line)
  | TL_INFO => if (7 <=? String.length line)%nat && negb (is_boundary line 7) then parse_line line = None
               else exists body, parse_line line = Some (MkLogEntry 1 "INFO" body line)
  | _ => False
  end.
Proof.
  intros E%on_event_line. destruct E as [r E]. destruct level; [..|done|done]; subst line; unfold parse_line;
    rewrite trim_start_id by (apply graphic_ws; done).
  - unfold LEVELS, find_level, strip_level_prefix. cbn. by eexists.
  - unfold LEVELS, find_level, strip_level_prefix. cbn. by eexists.
  - unfold LEVELS, find_level, strip_level_prefix. destruct r as [|c [|b r]]; [by eexists|by eexists|].
    cbn. unfold is_boundary. cbn. destruct (is_cont b); [done|by eexists].
Qed.

(** *** Witnesses *)

Lemma log_page_in_step_witness : exists p p',
  page_run (page_new "up") [PgPush ["INFO  up"]; PgEnter; PgPush ["WARN  down"]] = Some p
  /\ flush_logs_to_ui p = Some p' /\ log_to_model (pg_store p) "up" = Some (pg_rows p').
Proof.
  destruct (page_run (page_new "up") [PgPush ["INFO  up"]; PgEnter; PgPush ["WARN  down"]]) as [p|] eqn:E; [|vm_compute in E; discriminate].
  destruct (flush_logs_to_ui p) as [p'|] eqn:Ef; [|vm_compute in E; injection E as <-; vm_compute in Ef; discriminate].
  exists p, p'. split; [reflexivity|]. split; [exact Ef|].
  assert (pg_query p = "up") as <- by (vm_compute in E; injection E as <-; reflexivity).
  exact (proj1 (log_page_in_step "up" [PgPush ["INFO  up"]; PgEnter; PgPush ["WARN  down"]] p p' ltac:(reflexivity) E Ef)).
Defined.
Lemma highlight_splits_witness : exists pre mid post hit, highlight_parts "Tunnel UP" " up " = Some (pre, mid, post, hit)
  /\ (hit = true -> pre ++ mid ++ post = "Tunnel UP" /\ to_lower mid = to_lower (trim " up ") /\ mid <> "")
  /\ (hit = true <-> trim " up " <> "" /\ contains (to_lower (trim " up ")) (to_lower "Tunnel UP") = true).
Proof. apply (highlight_splits "Tunnel UP" " up "); reflexivity. Defined.
