(* ===== verification/CertStore.v ===== *)
(** * The desktop's certificate store

    [desktop/src/cert/store.rs] and [model.rs].  A file system is a map from paths
    below the store's root to files; a call of [std::fs] takes its outcome from a
    list.  serde_json and the randomness of identifiers are parameters. *)

From S2P Require Import Prelude RustStr Examples.

Local Open Scope string_scope.

(** ** Data *)

Inductive Vendor := Cloudflare | Aliyun | Tencent.
#[global] Instance vendor_eq_dec : EqDecision Vendor.
Proof. solve_decision. Defined.
Definition vendor_as_str (v : Vendor) : string :=
  match v with Cloudflare => "cloudflare" | Aliyun => "aliyun" | Tencent => "tencent" end.
Definition vendor_from_index (i : Z) : option Vendor :=
  if (i =? 0)%Z then Some Aliyun else if (i =? 1)%Z then Some Tencent else if (i =? 2)%Z then Some Cloudflare else None.
Definition vendor_index (v : Vendor) : Z := match v with Aliyun => 0 | Tencent => 1 | Cloudflare => 2 end.

Record Provider := MkProvider { pr_id : string; pr_name : string; pr_vendor : Vendor; pr_access_key_id : string }.
#[global] Instance provider_eq_dec : EqDecision Provider.
Proof. solve_decision. Defined.
Record Cert := MkCert { ce_id : string; ce_domains : list string; ce_provider_id : string; ce_not_after : string }.
#[global] Instance cert_eq_dec : EqDecision Cert.
Proof. solve_decision. Defined.

(** serde_json on the store's three files. *)
Class Json (A : Type) := { to_json : A -> string; from_json : string -> Anyhow A }.
Class JsonLaws (A : Type) `{Json A} := {
  json_roundtrip : forall a : A, from_json (to_json a) = Ok a;
  json_not_blank : forall a : A, trim (to_json a) <> "" }.

(** ** The file system *)

Abbreviation Path := (list string).
(** A file's text and whether its mode is 0600. *)
Record File := MkFile { fl_text : string; fl_private : bool }.
#[global] Instance file_eq_dec : EqDecision File.
Proof. solve_decision. Defined.
Abbreviation Fs := (@gmap (list string) list_eq_dec list_countable File).

(** The outcome of a call. A write that fails may leave other text in its file; a
    removal of a directory that fails may have removed one of its files. [Path::exists]
    reports no error: one makes it say no, which is [Blind] (any other call works then). *)
Inductive Fault := Works | Fails (e : string) (remains : option string) | Blind.
#[global] Instance fault_eq_dec : EqDecision Fault.
Proof. solve_decision. Defined.
Record IoState := MkIoState { io_fs : Fs; io_faults : list Fault }.

(** What the program is built for. *)
Class Platform := { cfg_unix : bool }.

(** An operation on a state: what it gives, and the state it leaves, on an error too. *)
Abbreviation Eff S A := (S -> Anyhow A * S).
Abbreviation Io A := (Eff IoState A).
Definition io_ret {S A : Type} (a : A) : Eff S A := fun s => (Ok a, s).
Definition io_bail {S A : Type} (e : string) : Eff S A := fun s => (Err e, s).
Definition io_bind {S A B : Type} (m : Eff S A) (k : A -> Eff S B) : Eff S B :=
  fun s => match m s with (Ok a, s) => k a s | (Err e, s) => (Err e, s) end.
Notation "'do?' x ':=' m 'in' k" := (io_bind m (fun x => k)) (at level 10, x name, m at level 99, k at level 200) : rust_scope.
Notation "'do!' m ';;' k" := (io_bind m (fun _ => k)) (at level 10, m at level 99, k at level 200) : rust_scope.

(** One call: what it leaves when it works, and when it does not. *)
Definition io_call (context : string) (works : Fs -> Fs) (fails : option string -> Fs -> Fs) : Io unit :=
  fun s => match io_faults s with
           | Fails e remains :: rest => (Err (if is_empty context then e else context), MkIoState (fails remains (io_fs s)) rest)
           | faults => (Ok tt, MkIoState (works (io_fs s)) (tail faults))
           end.
Definition fs_put (p : Path) (text : string) (fs : Fs) : Fs :=
  <[p := MkFile text (match fs !! p with Some f => fl_private f | None => false end)]> fs.
Definition fs_create_dir (context : string) : Io unit := io_call context id (fun _ => id).
Definition fs_write (context : string) (p : Path) (text : string) : Io unit :=
  io_call context (fs_put p text) (fun remains fs => match remains with Some t => fs_put p t fs | None => fs end).
Definition fs_rename (context : string) (from to : Path) : Io unit :=
  io_call context (fun fs => match fs !! from with Some f => <[to := f]> (delete from fs) | None => fs end) (fun _ => id).
Definition fs_exists (p : Path) : Io bool :=
  fun s => (Ok (match io_faults s with Blind :: _ => false | _ => bool_decide (is_Some (io_fs s !! p)) end),
            MkIoState (io_fs s) (tail (io_faults s))).
Definition fs_read (context : string) (p : Path) : Io string :=
  do! io_call context id (fun _ => id) ;;
  fun s => (match io_fs s !! p with Some f => Ok (fl_text f) | None => Err context end, s).
Definition set_private_mode `{Platform} (p : Path) : Io unit :=
  if negb cfg_unix then io_ret tt else
  do! io_call "" id (fun _ => id) ;;
  io_call "" (fun fs => match fs !! p with Some f => <[p := MkFile (fl_text f) true]> fs | None => fs end) (fun _ => id).
Definition in_dir (dir p : Path) : Prop := take (length dir) p = dir.
#[global] Instance in_dir_dec dir p : Decision (in_dir dir p).
Proof. unfold in_dir. apply _. Defined.
Definition fs_remove_dir (dir : Path) (fs : Fs) : Fs := filter (fun '(p, _) => ~ in_dir dir p) fs.
Definition dir_exists (dir : Path) : Io bool :=
  fun s => (Ok (match io_faults s with Blind :: _ => false | _ => negb (bool_decide (fs_remove_dir dir (io_fs s) = io_fs s)) end),
            MkIoState (io_fs s) (tail (io_faults s))).
Definition remove_dir_all (dir : Path) : Io unit :=
  io_call "" (fs_remove_dir dir) (fun remains fs => match remains with Some name => delete (dir ++ [name])%list fs | None => fs end).
(** [let _ = ...]. *)
Definition io_ignore {S A : Type} (m : Eff S A) : Eff S unit := fun s => (Ok tt, (m s).2).

(** ** Paths *)

Definition providers_path : Path := ["providers.json"].
Definition secrets_path : Path := ["secrets.json"].
Definition certs_index_path : Path := ["certs"; "index.json"].
Definition cert_dir (id : string) : Path := ["certs"; id].
Definition cert_pem_path (id : string) : Path := (cert_dir id ++ ["fullchain.pem"])%list.
Definition key_pem_path (id : string) : Path := (cert_dir id ++ ["privkey.pem"])%list.
Definition acme_account_path : Path := ["acme"; "account.json"].
(** [Path::with_extension] of a file name that has one. *)
Definition with_extension (ext : string) (p : Path) : Path :=
  match list.last p with
  | Some name => (removelast p ++ [((match rsplit_once "." name with Some (stem, _) => stem | None => name end) ++ "." ++ ext)%string])%list
  | None => p
  end.

Section Store.
Context (root : string) `{Platform, Json (list Provider), Json (gmap string string), Json (list Cert)}.

Definition show_path (p : Path) : string := join "/" (root :: p).

Definition read_json_or_default {A : Type} `{Json A} (dflt : A) (p : Path) : Io A :=
  do? there := fs_exists p in
  if negb there then io_ret dflt else
  do? raw := fs_read ("read " ++ show_path p) p in
  if is_empty (trim raw) then io_ret dflt else
  match from_json raw with Ok a => io_ret a | Err _ => io_bail ("parse " ++ show_path p) end.
Definition write_json_atomic {A : Type} `{Json A} (p : Path) (value : A) : Io unit :=
  let tmp := with_extension "tmp" p in
  do! fs_create_dir "" ;;
  do! fs_write ("write " ++ show_path tmp) tmp (to_json value) ;;
  fs_rename ("rename " ++ show_path p) tmp p.

Definition load_providers : Io (list Provider) := read_json_or_default [] providers_path.
Definition save_providers (l : list Provider) : Io unit := write_json_atomic providers_path l.
Definition load_certs : Io (list Cert) := read_json_or_default [] certs_index_path.
Definition save_certs (l : list Cert) : Io unit := write_json_atomic certs_index_path l.
Definition load_secrets : Io (gmap string string) := read_json_or_default ∅ secrets_path.
Definition save_secrets (m : gmap string string) : Io unit :=
  do! write_json_atomic secrets_path m ;; set_private_mode secrets_path.

(** ** Operations *)

(** [uuid_simple]: 32 hexadecimal digits. *)
Definition new_id (prefix uuid_simple : string) : string := prefix ++ "_" ++ stake 12 uuid_simple.

Definition get_provider (id : string) : Io (option Provider) :=
  do? l := load_providers in io_ret (List.find (fun p => String.eqb (pr_id p) id) l).
Definition get_cert (id : string) : Io (option Cert) :=
  do? l := load_certs in io_ret (List.find (fun c => String.eqb (ce_id c) id) l).
Definition get_secret (provider_id : string) : Io (option string) :=
  do? m := load_secrets in io_ret (m !! provider_id).

(** The slot of the first provider with the id. *)
Fixpoint replace_provider (p : Provider) (l : list Provider) : option (list Provider) :=
  match l with
  | [] => None
  | q :: l => if String.eqb (pr_id q) (pr_id p) then Some (p :: l) else cons q <$> replace_provider p l
  end.
Definition set_id (p : Provider) (id : string) : Provider := MkProvider id (pr_name p) (pr_vendor p) (pr_access_key_id p).
Definition no_secret (secret : option string) : bool := match secret with Some s => is_empty (trim s) | None => true end.

Definition upsert_provider (uuid_simple : string) (provider : Provider) (secret : option string) : Io Provider :=
  if is_empty (trim (pr_name provider)) then io_bail "name is required" else
  do? file := load_providers in
  do? placed := (if is_empty (pr_id provider) then
                   if no_secret secret then io_bail "secret is required"
                   else let provider := set_id provider (new_id "p" uuid_simple) in io_ret (provider, (file ++ [provider])%list)
                 else match replace_provider provider file with
                      | Some file => io_ret (provider, file)
                      | None => io_bail "provider not found"
                      end) in
  let '(provider, file) := placed in
  do! (match secret with
       | Some s =>
           if is_empty (trim s) then io_ret tt else
           do? secrets := load_secrets in save_secrets (<[pr_id provider := trim s]> secrets)
       | None => io_ret tt
       end) ;;
  do! save_providers file ;;
  io_ret provider.

Definition delete_provider (id : string) : Io unit :=
  do? file := load_providers in
  let rest := List.filter (fun p => negb (String.eqb (pr_id p) id)) file in
  if (length rest =? length file)%nat then io_bail "provider not found" else
  do! save_providers rest ;;
  do? secrets := load_secrets in
  save_secrets (delete id secrets).

Definition add_cert (cert : Cert) (fullchain_pem key_pem : string) : Io unit :=
  let id := ce_id cert in
  do! fs_create_dir ("mkdir " ++ show_path (cert_dir id)) ;;
  do! fs_write ("write " ++ show_path (cert_pem_path id)) (cert_pem_path id) fullchain_pem ;;
  do! fs_write ("write " ++ show_path (key_pem_path id)) (key_pem_path id) key_pem ;;
  do! set_private_mode (key_pem_path id) ;;
  do? file := load_certs in
  save_certs (cert :: List.filter (fun c => negb (String.eqb (ce_id c) id)) file).

Definition delete_cert (id : string) : Io unit :=
  do? file := load_certs in
  let rest := List.filter (fun c => negb (String.eqb (ce_id c) id)) file in
  if (length rest =? length file)%nat then io_bail "cert not found" else
  do! save_certs rest ;;
  io_ignore (do? there := dir_exists (cert_dir id) in if there then remove_dir_all (cert_dir id) else io_ret tt).
End Store.

(** ** Reasoning about file operations

    From a file system with [P] an operation that succeeds with [a] leaves one with
    [Q a], and one that fails at any of its calls leaves one with [E]; with [sight] no
    existence check fails. *)

Definition sighted (sight : bool) (s : IoState) : Prop := sight = true -> Blind ∉ io_faults s.
Lemma sighted_tail sight fs fs' faults : sighted sight (MkIoState fs faults) -> sighted sight (MkIoState fs' (tail faults)).
Proof. unfold sighted. cbn. intros H Hs Hin. apply (H Hs). destruct faults; [done|by right]. Qed.
Definition io_triple (sight : bool) {A : Type} (P : Fs -> Prop) (m : Io A) (Q : A -> Fs -> Prop) (E : Fs -> Prop) : Prop :=
  forall s, sighted sight s -> P (io_fs s) ->
    sighted sight (m s).2 /\ match m s with (Ok a, s') => Q a (io_fs s') | (Err _, s') => E (io_fs s') end.

Section Triples.
Context {sight : bool}.
Abbreviation triple := (io_triple sight).
Lemma t_ret {A} (P : Fs -> Prop) (a : A) (Q : A -> Fs -> Prop) E : (forall fs, P fs -> Q a fs) -> triple P (io_ret a) Q E.
Proof. intros H s Hg Hs. split; [done|]. by apply H. Qed.
Lemma t_bail {A} (P : Fs -> Prop) e (Q : A -> Fs -> Prop) (E : Fs -> Prop) : (forall fs, P fs -> E fs) -> triple P (io_bail e) Q E.
Proof. intros H s Hg Hs. split; [done|]. by apply H. Qed.
Lemma t_bind {A B} P (m : Io A) (k : A -> Io B) Q R E : triple P m Q E -> (forall a, triple (Q a) (k a) R E) -> triple P (io_bind m k) R E.
Proof.
  intros Hm Hk s Hg Hs. unfold io_bind. destruct (Hm s Hg Hs) as [Hg' H']. destruct (m s) as [[a|e] s'] eqn:Es; [|done]. exact (Hk a s' Hg' H').
Qed.
Lemma t_weaken {A} (P P' : Fs -> Prop) (m : Io A) Q Q' (E E' : Fs -> Prop) : triple P' m Q' E' ->
  (forall fs, P fs -> P' fs) -> (forall a fs, Q' a fs -> Q a fs) -> (forall fs, E' fs -> E fs) -> triple P m Q E.
Proof. intros Hm HP HQ HE s Hg Hs. destruct (Hm s Hg (HP _ Hs)) as [Hg' H']. split; [done|]. destruct (m s) as [[a|e] s']; auto. Qed.
Lemma t_pure {A} (p : Prop) P (m : Io A) Q E : (p -> triple P m Q E) -> triple (fun fs => p /\ P fs) m Q E.
Proof. intros H s Hg [Hp Hs]. exact (H Hp s Hg Hs). Qed.
Lemma t_know {A : Type} (p : Prop) (P : Fs -> Prop) (m : Io A) Q E : (forall fs, P fs -> p) -> (p -> triple P m Q E) -> triple P m Q E.
Proof. intros Hp H s Hg Hs. exact (H (Hp _ Hs) s Hg Hs). Qed.
Lemma t_exists {A X : Type} (P : X -> Fs -> Prop) (m : Io A) Q E : (forall x, triple (P x) m Q E) -> triple (fun fs => exists x, P x fs) m Q E.
Proof. intros H s Hg [x Hs]. exact (H x s Hg Hs). Qed.
Lemma t_call (P : Fs -> Prop) context works fails (Q : unit -> Fs -> Prop) (E : Fs -> Prop) :
  (forall fs, P fs -> Q tt (works fs)) -> (forall fs remains, P fs -> E (fails remains fs)) -> triple P (io_call context works fails) Q E.
Proof.
  intros Hw Hf [fs faults] Hg Hs. unfold io_call. cbn in Hs. destruct faults as [|[|e remains|] rest]; (split; [exact (sighted_tail _ _ _ _ Hg)|]); cbn; auto.
Qed.
Lemma t_ignore {A : Type} P (m : Io A) (Q : Fs -> Prop) E : triple P m (fun _ => Q) Q -> triple P (io_ignore m) (fun _ => Q) E.
Proof. intros H s Hg Hs. unfold io_ignore. destruct (H s Hg Hs) as [Hg' H']. split; [exact Hg'|]. cbn. by destruct (m s) as [[a|e] s']. Qed.
(** An existence check: what it says is so, unless it is blind. *)
Lemma t_fs_exists (P : Fs -> Prop) p E :
  triple P (fs_exists p) (fun there fs => P fs /\ (there = bool_decide (is_Some (fs !! p)) \/ sight = false /\ there = false)) E.
Proof.
  intros [fs faults] Hg Hs. cbn in *. split; [exact (sighted_tail _ _ _ _ Hg)|]. split; [done|].
  destruct faults as [|[| |] rest]; [by left..|]. right. split; [|done]. unfold sighted in Hg. destruct sight; [|done].
  exfalso. apply (Hg eq_refl). left.
Qed.
Lemma t_dir_exists (P : Fs -> Prop) p E : triple P (dir_exists p) (fun _ => P) E.
Proof. intros [fs faults] Hg Hs. split; [exact (sighted_tail _ _ _ _ Hg)|exact Hs]. Qed.
Lemma t_fs_read (P : Fs -> Prop) context p : triple P (fs_read context p) (fun text fs => P fs /\ exists b, fs !! p = Some (MkFile text b)) P.
Proof.
  unfold fs_read. eapply t_bind with (Q := fun _ => P); [apply t_call; [exact (fun fs H => H)|exact (fun fs _ H => H)]|].
  intros [] s Hg Hs. split; [done|]. cbn. destruct (io_fs s !! p) as [[text b]|] eqn:E; [|done]. split; [done|]. by exists b.
Qed.
End Triples.

(** File systems that differ at most at the paths. *)
Definition same_but (ps : list Path) (fs fs' : Fs) : Prop := forall q, q ∉ ps -> fs' !! q = fs !! q.
Lemma same_refl ps fs : same_but ps fs fs.
Proof. done. Qed.
Lemma same_put p text fs : same_but [p] fs (fs_put p text fs).
Proof. intros q Hq. unfold fs_put. apply lookup_insert_ne. set_solver. Qed.

Section Files.
Context (root : string) {sight : bool} {platform : Platform}.
Abbreviation triple := (io_triple sight).

(** What a file of the store says. *)
Definition view {A : Type} `{Json A} (dflt : A) (p : Path) (fs : Fs) : option A :=
  match fs !! p with
  | None => Some dflt
  | Some f => if is_empty (trim (fl_text f)) then Some dflt else result_ok (from_json (fl_text f))
  end.
Lemma view_same {A : Type} `{Json A} (dflt : A) p fs fs' : fs' !! p = fs !! p -> view dflt p fs' = view dflt p fs.
Proof. unfold view. by intros ->. Qed.
Lemma view_written {A : Type} `{JsonLaws A} (dflt : A) p fs a b : fs !! p = Some (MkFile (to_json a) b) -> view dflt p fs = Some a.
Proof.
  unfold view. intros ->. cbn [fl_text]. rewrite json_roundtrip. pose proof (json_not_blank a) as Hb.
  by rewrite (proj2 (is_empty_false _) Hb).
Qed.

(** What was read, unless the file was overlooked. *)
Definition loaded {A : Type} (dflt v a : A) : Prop := a = v \/ sight = false /\ a = dflt.
Lemma t_read {A : Type} `{Json A} P (dflt v : A) p : (forall fs, P fs -> view dflt p fs = Some v) ->
  triple P (read_json_or_default root dflt p) (fun a fs => P fs /\ loaded dflt v a) P.
Proof.
  intros Hview. unfold read_json_or_default. eapply t_bind; [apply t_fs_exists|]. intros there. cbn beta.
  destruct there; cbn [negb].
  - eapply t_bind; [eapply t_weaken; [apply (t_fs_read P)|by intros fs [? _]|exact (fun _ _ H => H)|exact (fun _ H => H)]|].
    intros raw. assert (forall fs, (P fs /\ exists b, fs !! p = Some (MkFile raw b)) ->
      P fs /\ (if is_empty (trim raw) then Some dflt else result_ok (from_json raw)) = Some v) as Hraw.
    { intros fs [Hp [b Hb]]. split; [done|]. rewrite <- (Hview fs Hp). unfold view. by rewrite Hb. }
    destruct (is_empty (trim raw)); [apply t_ret; intros fs [Hp [= <-]]%Hraw; split; [done|by left]|].
    destruct (from_json raw) as [a|e]; [apply t_ret; intros fs [Hp [= <-]]%Hraw; split; [done|by left]|apply t_bail; by intros fs [? _]].
  - apply t_ret. intros fs [Hp Hthere]. split; [done|]. destruct Hthere as [Hno|[Hs _]]; [|by right].
    left. symmetry in Hno. apply bool_decide_eq_false in Hno. specialize (Hview fs Hp). unfold view in Hview.
    destruct (fs !! p); [|by injection Hview]. by destruct Hno.
Qed.
Lemma t_write {A : Type} `{Json A} (P : Fs -> Prop) p (v : A) (Q : unit -> Fs -> Prop) (E : Fs -> Prop) : with_extension "tmp" p <> p ->
  (forall fs fs', P fs -> same_but [with_extension "tmp" p] fs fs' -> E fs') ->
  (forall fs fs' b, P fs -> same_but [with_extension "tmp" p; p] fs fs' -> fs' !! p = Some (MkFile (to_json v) b) -> Q tt fs') ->
  triple P (write_json_atomic root p v) Q E.
Proof.
  intros Hne HE HQ. unfold write_json_atomic. set (tmp := with_extension "tmp" p) in *.
  eapply t_bind with (Q := fun _ => P); [apply t_call; [exact (fun fs H => H)|]; intros fs _ Hf; exact (HE _ _ Hf (same_refl _ _))|]. intros [].
  eapply t_bind with (Q := fun _ fs' => exists fs b, P fs /\ same_but [tmp] fs fs' /\ fs' !! tmp = Some (MkFile (to_json v) b)).
  - apply t_call.
    + intros fs Hf. eexists fs, _. split; [done|]. split; [apply same_put|apply lookup_insert_eq].
    + intros fs remains Hf. destruct remains as [t|]; apply (HE fs); try done. apply same_put.
  - intros []. apply t_call.
    + intros fs' (fs & b & Hf & Hs & Ht). rewrite Ht. apply (HQ fs _ b Hf); [|apply lookup_insert_eq].
      intros q Hq. rewrite lookup_insert_ne, lookup_delete_ne by set_solver. apply Hs. set_solver.
    + intros fs' _ (fs & b & Hf & Hs & _). exact (HE fs fs' Hf Hs).
Qed.
Definition made_private (p : Path) (fs : Fs) : Fs :=
  if cfg_unix then match fs !! p with Some f => <[p := MkFile (fl_text f) true]> fs | None => fs end else fs.
Lemma t_private (P : Fs -> Prop) p (Q : unit -> Fs -> Prop) (E : Fs -> Prop) : (forall fs, P fs -> E fs) ->
  (forall fs, P fs -> Q tt (made_private p fs)) -> triple P (set_private_mode p) Q E.
Proof.
  intros HE HQ. unfold set_private_mode, made_private in *. destruct cfg_unix; cbn [negb]; [|by apply t_ret].
  eapply t_bind with (Q := fun _ => P); [apply t_call; [exact (fun fs H => H)|exact (fun fs _ H => HE fs H)]|].
  intros []. apply t_call; [exact HQ|exact (fun fs _ H => HE fs H)].
Qed.
End Files.

(** ** The store's invariant *)

Section Invariant.
Context (root : string) {platform : Platform} `{JsonLaws (list Provider), JsonLaws (gmap string string), JsonLaws (list Cert)}.
Section Sight.
Context (sight : bool).
Abbreviation triple := (io_triple sight).

(** What was given to [add_cert]. *)
Definition Given : Type := list (Cert * (string * string)).
Definition has_secret (ss : gmap string string) (p : Provider) : Prop := exists s, ss !! pr_id p = Some s /\ trim s <> "".
(** The key is there, on Unix for its owner only. *)
Definition key_kept (fs : Fs) (p : Path) (key : string) : Prop :=
  exists b, fs !! p = Some (MkFile key b) /\ (cfg_unix = true -> b = true).
Lemma key_kept_same fs fs' p key : fs' !! p = fs !! p -> key_kept fs p key -> key_kept fs' p key.
Proof. unfold key_kept. by intros ->. Qed.
Lemma key_made_private p fs key b : fs !! p = Some (MkFile key b) -> key_kept (made_private p fs) p key.
Proof.
  intros Hp. unfold made_private, key_kept. rewrite Hp. destruct cfg_unix; [|by exists b]. exists true. by rewrite lookup_insert_eq.
Qed.
Lemma made_private_other p fs q : q <> p -> made_private p fs !! q = fs !! q.
Proof. intros Hq. unfold made_private. destruct cfg_unix; [|done]. destruct (fs !! p); [|done]. by rewrite lookup_insert_ne. Qed.
Lemma made_private_view {A} `{Json A} (dflt : A) p fs q : view dflt q (made_private p fs) = view dflt q fs.
Proof.
  destruct (decide (q = p)) as [->|Hq]; [|by apply view_same, made_private_other].
  unfold made_private, view. destruct cfg_unix; [|done]. destruct (fs !! p) eqn:E; rewrite ?E; [|done]. by rewrite lookup_insert_eq.
Qed.
Definition on_disk (given : Given) (fs : Fs) (c : Cert) : Prop :=
  exists pem key, (c, (pem, key)) ∈ given
  /\ (exists b, fs !! cert_pem_path (ce_id c) = Some (MkFile pem b)) /\ key_kept fs (key_pem_path (ce_id c)) key.
Definition cert_id (id : string) : Prop := exists uuid, id = new_id "c" uuid.

(** Every provider has a secret that can be used, when no file was overlooked; every
    certificate has its chain and its key, whole, the key on Unix readable by its owner
    only; identifiers are unique. *)
Record store_ok (given : Given) (used : list string) (fs : Fs) (ps : list Provider) (ss : gmap string string) (cs : list Cert) : Prop := {
  so_providers : view [] providers_path fs = Some ps;
  so_secrets : view ∅ secrets_path fs = Some ss;
  so_certs : view [] certs_index_path fs = Some cs;
  so_pids : NoDup (pr_id <$> ps) /\ Forall (fun p => pr_id p ∈ used) ps;
  so_cids : NoDup (ce_id <$> cs) /\ Forall (fun c => ce_id c ∈ used /\ cert_id (ce_id c)) cs;
  so_has : sight = true -> Forall (has_secret ss) ps;
  so_disk : Forall (on_disk given fs) cs }.
Definition store_inv (given : Given) (used : list string) (fs : Fs) : Prop := exists ps ss cs, store_ok given used fs ps ss cs.

Lemma cert_id_dir id name : cert_id id -> name ∈ ["index.json"; "index.tmp"] -> id <> name.
Proof. intros [uuid ->] Hn Heq. unfold new_id in Heq. cbn in Heq. repeat (apply elem_of_cons in Hn as [->|Hn]; [done|]). by apply elem_of_nil in Hn. Qed.
Lemma on_disk_same given fs fs' c : (forall name, fs' !! (cert_dir (ce_id c) ++ [name])%list = fs !! (cert_dir (ce_id c) ++ [name])%list) ->
  on_disk given fs c -> on_disk given fs' c.
Proof.
  intros Hs (pem & key & Hg & [b Hp] & Hk). exists pem, key. split; [done|]. unfold cert_pem_path, key_pem_path in *.
  rewrite Hs. split; [by exists b|]. eapply key_kept_same; [apply Hs|done].
Qed.

(** Files of the store's top and index are not in a certificate's directory. *)
Lemma top_not_pem (p : Path) id name : length p <= 2 -> (cert_dir id ++ [name])%list ∉ [p].
Proof. intros Hl Hp%list_elem_of_singleton. apply (f_equal length) in Hp. cbn in Hp. lia. Qed.
Lemma store_ok_same given used fs fs' ps ss cs changed : store_ok given used fs ps ss cs -> same_but changed fs fs' ->
  Forall (fun p => length p <= 2) changed -> Forall (fun p => p ∉ changed) [providers_path; secrets_path; certs_index_path] ->
  store_ok given used fs' ps ss cs.
Proof.
  intros [K1 K2 K3 K4 K5 K6 K7] Hs Hl Hc. rewrite !Forall_cons in Hc. destruct Hc as (C1 & C2 & C3 & _).
  split; [by rewrite (view_same _ _ fs) by (by apply Hs)..|done|done|done|].
  eapply Forall_impl; [exact K7|]. intros c. apply on_disk_same. intros name. apply Hs. intros Hin.
  pose proof (proj1 (Forall_forall _ _) Hl _ Hin) as Hlen. cbn in Hlen. lia.
Qed.
Ltac apart := repeat (first [apply Forall_cons; split|apply Forall_nil; exact I]); cbn; try lia; try (vm_compute; set_solver).

(** Saving one of the three files keeps the rest. *)
Lemma t_save_providers given used ps ss cs ps' :
  NoDup (pr_id <$> ps') -> Forall (fun p => pr_id p ∈ used) ps' -> (sight = true -> Forall (has_secret ss) ps') ->
  triple (fun fs => store_ok given used fs ps ss cs) (save_providers root ps')
    (fun _ fs => store_ok given used fs ps' ss cs) (fun fs => store_ok given used fs ps ss cs).
Proof.
  intros N1 N2 N3. apply t_write; [done| |].
  - intros fs fs' Hi Hs. apply (store_ok_same _ _ _ _ _ _ _ _ Hi Hs); apart.
  - intros fs fs' b Hi Hs Hw.
    assert (store_ok given used fs' ps' ss cs) as ?; [|done]. destruct Hi as [K1 K2 K3 K4 K5 K6 K7].
    split; [by eapply view_written|by rewrite (view_same _ _ fs) by (apply Hs; vm_compute; set_solver)..|done|done|done|].
    eapply Forall_impl; [exact K7|]. intros c. apply on_disk_same. intros name. apply Hs. vm_compute. set_solver.
Qed.
Lemma t_save_certs given used ps ss cs cs' :
  NoDup (ce_id <$> cs') -> Forall (fun c => ce_id c ∈ used /\ cert_id (ce_id c)) cs' ->
  triple (fun fs => store_ok given used fs ps ss cs /\ Forall (on_disk given fs) cs') (save_certs root cs')
    (fun _ fs => store_ok given used fs ps ss cs') (fun fs => store_ok given used fs ps ss cs).
Proof.
  intros N1 N2. apply t_write; [done| |].
  - intros fs fs' [Hi _] Hs. apply (store_ok_same _ _ _ _ _ _ _ _ Hi Hs); apart.
  - intros fs fs' b [Hi Hd] Hs Hw. destruct Hi as [K1 K2 K3 K4 K5 K6 K7].
    split; [by rewrite (view_same _ _ fs) by (apply Hs; vm_compute; set_solver)..|by eapply view_written|done|done|done|].
    eapply Forall_impl; [exact Hd|]. intros c. apply on_disk_same. intros name. apply Hs. vm_compute. set_solver.
Qed.
Lemma t_save_secrets given used ps ss cs ss' : (sight = true -> Forall (has_secret ss') ps) ->
  triple (fun fs => store_ok given used fs ps ss cs) (save_secrets root ss')
    (fun _ fs => store_ok given used fs ps ss' cs) (fun fs => store_inv given used fs).
Proof.
  intros N1. unfold save_secrets. eapply t_bind with (Q := fun _ fs => store_ok given used fs ps ss' cs).
  - apply t_write; [done| |].
    + intros fs fs' Hi Hs. exists ps, ss, cs. apply (store_ok_same _ _ _ _ _ _ _ _ Hi Hs); apart.
    + intros fs fs' b Hi Hs Hw. destruct Hi as [K1 K2 K3 K4 K5 K6 K7].
      split; [by rewrite (view_same _ _ fs) by (apply Hs; vm_compute; set_solver)|by eapply view_written|
              by rewrite (view_same _ _ fs) by (apply Hs; vm_compute; set_solver)|done|done|done|].
      eapply Forall_impl; [exact K7|]. intros c. apply on_disk_same. intros name. apply Hs. vm_compute. set_solver.
  - intros []. apply t_private; [intros fs Hi; by exists ps, ss', cs|].
    intros fs [K1 K2 K3 K4 K5 K6 K7]. split; [by rewrite made_private_view..|done|done|done|].
    eapply Forall_impl; [exact K7|]. intros c. apply on_disk_same. intros name. by apply made_private_other.
Qed.

(** The operations. *)
Lemma t_load_providers given used : triple (store_inv given used) (load_providers root)
  (fun l fs => exists ps ss cs, store_ok given used fs ps ss cs /\ loaded (sight := sight) [] ps l) (store_inv given used).
Proof.
  apply t_exists. intros ps. eapply t_weaken; [apply (t_read root (fun fs => exists ss cs, store_ok given used fs ps ss cs) [] ps)|done| |].
  - by intros fs (ss & cs & []).
  - intros l fs [(ss & cs & Hi) Hv]. by exists ps, ss, cs.
  - intros fs (ss & cs & Hi). by exists ps, ss, cs.
Qed.
Lemma t_load_certs given used : triple (store_inv given used) (load_certs root)
  (fun l fs => exists ps ss cs, store_ok given used fs ps ss cs /\ loaded (sight := sight) [] cs l) (store_inv given used).
Proof.
  apply (t_weaken _ (fun fs => exists cs ps ss, store_ok given used fs ps ss cs) _ _
    (fun l fs => exists cs ps ss, store_ok given used fs ps ss cs /\ loaded (sight := sight) [] cs l) _ (store_inv given used));
    [|intros fs (ps & ss & cs & Hi); by exists cs, ps, ss|intros l fs (cs & ps & ss & Hi); by exists ps, ss, cs|done].
  apply t_exists. intros cs. eapply t_weaken; [apply (t_read root (fun fs => exists ps ss, store_ok given used fs ps ss cs) [] cs)|done| |].
  - by intros fs (ps & ss & []).
  - intros l fs [(ps & ss & Hi) Hv]. by exists cs, ps, ss.
  - intros fs (ps & ss & Hi). by exists ps, ss, cs.
Qed.
Lemma t_load_secrets given used ps ss cs : triple (fun fs => store_ok given used fs ps ss cs) (load_secrets root)
  (fun m fs => loaded (sight := sight) ∅ ss m /\ store_ok given used fs ps ss cs) (store_inv given used).
Proof.
  eapply t_weaken; [apply (t_read root (fun fs => store_ok given used fs ps ss cs) ∅ ss)|done| |].
  - by intros fs [].
  - by intros m fs [Hi Hv].
  - intros fs Hi. by exists ps, ss, cs.
Qed.
(** What holds of all the entries holds of the ones loaded. *)
Lemma loaded_sublist {A} (l0 l : list A) : loaded (sight := sight) [] l0 l -> l `sublist_of` l0.
Proof. intros [->|[_ ->]]; [done|apply sublist_nil_l]. Qed.
Lemma loaded_seen {A} (dflt v a : A) : loaded (sight := sight) dflt v a -> sight = true -> a = v.
Proof. intros [->|[-> _]]; done. Qed.
Lemma store_inv_more given given' used used' fs : given ⊆ given' -> used ⊆ used' -> store_inv given used fs -> store_inv given' used' fs.
Proof.
  intros Hg Hu (ps & ss & cs & [K1 K2 K3 [K4 K4u] [K5 K5u] K6 K7]). exists ps, ss, cs. split; try done.
  - split; [done|]. eapply Forall_impl; [exact K4u|]. set_solver.
  - split; [done|]. eapply Forall_impl; [exact K5u|]. cbn. set_solver.
  - eapply Forall_impl; [exact K7|]. intros c (pem & key & Hin & ?). exists pem, key. split; [set_solver|done].
Qed.

Lemma replace_provider_spec p l l' : replace_provider p l = Some l' ->
  pr_id <$> l' = pr_id <$> l /\ pr_id p ∈ pr_id <$> l /\ forall q, q ∈ l' -> q = p \/ q ∈ l.
Proof.
  revert l'. induction l as [|q l IH]; intros l'; cbn; [done|]. destruct (String.eqb_spec (pr_id q) (pr_id p)) as [E|].
  - intros [= <-]. cbn. rewrite E. set_solver.
  - destruct (replace_provider p l) as [l2|]; [|done]. intros [= <-]. destruct (IH _ eq_refl) as (Ei & Hi & Hq). cbn. rewrite Ei. set_solver.
Qed.
Lemma filter_ids {A} (f : A -> string) id (l : list A) : 
  (f <$> List.filter (fun a => negb (String.eqb (f a) id)) l) `sublist_of` (f <$> l)
  /\ forall a, a ∈ List.filter (fun a => negb (String.eqb (f a) id)) l <-> a ∈ l /\ f a <> id.
Proof.
  split.
  - induction l as [|a l IH]; cbn; [constructor|]. destruct (negb _); cbn; by constructor.
  - intros a. rewrite !list_elem_of_In, List.filter_In. destruct (String.eqb_spec (f a) id); naive_solver.
Qed.

Lemma t_upsert given used uuid p secret : (pr_id p = "" -> new_id "p" uuid ∉ used) ->
  triple (store_inv given used) (upsert_provider root uuid p secret)
    (fun _ => store_inv given (new_id "p" uuid :: used)) (store_inv given (new_id "p" uuid :: used)).
Proof.
  intros Hfresh. unfold upsert_provider. set (used' := new_id "p" uuid :: used).
  assert (forall fs, store_inv given used fs -> store_inv given used' fs) as Hmore by (intros fs; by apply store_inv_more; set_solver).
  destruct (is_empty (trim (pr_name p))); [apply t_bail; exact Hmore|].
  eapply t_bind; [exact (t_weaken _ _ _ _ _ _ _ (t_load_providers given used) (fun _ H => H) (fun _ _ H => H) Hmore)|].
  intros l. cbn beta. apply t_exists. intros ps.
  apply (t_know (loaded (sight := sight) [] ps l)); [by intros fs (ss & cs & _ & ?)|]. intros Hl.
  apply (t_weaken _ (fun fs => exists ss cs, store_ok given used fs ps ss cs) _ _ (fun _ => store_inv given used') _ (store_inv given used'));
    [|intros fs (ss & cs & Hi & _); by exists ss, cs|done|done].
  (* What is to be stored: its ids, and that all but its own provider had a secret. *)
  set (placed_ok := fun ss (qf : Provider * list Provider) => NoDup (pr_id <$> qf.2) /\ Forall (fun q => pr_id q ∈ used') qf.2
    /\ (no_secret secret = true -> sight = true -> Forall (has_secret ss) qf.2)
    /\ (sight = true -> forall q, q ∈ qf.2 -> pr_id q = pr_id qf.1 \/ has_secret ss q)).
  eapply t_bind with (Q := fun qf fs => exists ss cs, placed_ok ss qf /\ store_ok given used' fs ps ss cs).
  { assert (forall fs ss cs, store_ok given used fs ps ss cs -> store_ok given used' fs ps ss cs) as Hup.
    { intros fs ss cs [K1 K2 K3 [K4 K4u] [K5 K5u] K6 K7]. split; try done.
      - split; [done|]. eapply Forall_impl; [exact K4u|]. set_solver.
      - split; [done|]. eapply Forall_impl; [exact K5u|]. cbn. set_solver. }
    assert (forall fs ss cs, store_ok given used fs ps ss cs ->
      NoDup (pr_id <$> l) /\ (forall q, q ∈ l -> pr_id q ∈ used) /\ (sight = true -> forall q, q ∈ l -> has_secret ss q)) as Hls.
    { intros fs ss cs [_ _ _ [K4 K4u] _ K6 _]. pose proof (loaded_sublist _ _ Hl) as Hsub. rewrite Forall_forall in K4u.
      split; [eapply sublist_NoDup; [exact K4|]; by apply fmap_sublist|].
      split; [intros q Hq; apply K4u; by eapply elem_of_submseteq, sublist_submseteq|].
      intros Hs. rewrite (loaded_seen _ _ _ Hl Hs). specialize (K6 Hs). by rewrite Forall_forall in K6. }
    destruct (is_empty (pr_id p)) eqn:Eid.
    - apply is_empty_true in Eid. destruct (no_secret secret); [apply t_bail; intros fs (ss & cs & Hi); apply Hmore; by exists ps, ss, cs|].
      apply t_ret. intros fs (ss & cs & Hi). exists ss, cs. split; [|by apply Hup]. unfold placed_ok. destruct (Hls _ _ _ Hi) as (K4 & K4u & K6). cbn [fst snd].
      rewrite fmap_app. split; [|split; [|split; [done|]]].
      + apply NoDup_app. split; [done|]. split; [|apply NoDup_singleton]. cbn. intros id (q & -> & Hq)%list_elem_of_fmap.
        specialize (K4u q Hq). rewrite list_elem_of_singleton. intros Heq. rewrite Heq in K4u. by apply (Hfresh Eid).
      + apply Forall_app. split; [apply Forall_forall; set_solver|]. apply Forall_singleton. cbn. set_solver.
      + intros Hs q [Hq|Hq]%elem_of_app; [right; by apply K6|apply list_elem_of_singleton in Hq as ->; by left].
    - destruct (replace_provider p l) as [ps'|] eqn:Er; [|apply t_bail; intros fs (ss & cs & Hi); apply Hmore; by exists ps, ss, cs].
      apply replace_provider_spec in Er as (Ei & Hp & Hq).
      apply t_ret. intros fs (ss & cs & Hi). exists ss, cs. split; [|by apply Hup]. unfold placed_ok. destruct (Hls _ _ _ Hi) as (K4 & K4u & K6). cbn [fst snd].
      rewrite Ei. split; [done|]. apply list_elem_of_fmap in Hp as (p0 & Hp0 & Hin0).
      assert (sight = true -> has_secret ss p) as Hsp by (intros Hs; destruct (K6 Hs p0 Hin0) as (s & ? & ?); exists s; by rewrite Hp0).
      split; [|split].
      + apply Forall_forall. intros q [->|Hq']%Hq; [rewrite Hp0|]; set_solver.
      + intros _ Hs. apply Forall_forall. intros q [->|Hq']%Hq; auto.
      + intros Hs q [->|Hq']%Hq; auto. }
  intros [p' ps']. apply t_exists. intros ss. apply t_exists. intros cs. apply t_pure. intros (N1 & N2 & N3 & N4). cbn [fst snd] in *.
  eapply t_bind with (Q := fun _ fs => exists ss', (sight = true -> Forall (has_secret ss') ps') /\ store_ok given used' fs ps ss' cs).
  - destruct secret as [s|]; [|apply t_ret; intros fs Hi; exists ss; auto]. cbn [no_secret] in N3.
    destruct (is_empty (trim s)) eqn:Es; [apply t_ret; intros fs Hi; exists ss; auto|]. apply is_empty_false in Es.
    eapply t_bind; [apply t_load_secrets|]. intros m. apply t_pure. intros Hm.
    assert (sight = true -> forall q, q ∈ ps' \/ has_secret ss q -> has_secret (<[pr_id p' := trim s]> m) q) as Hnew.
    { intros Hs q Hq. rewrite (loaded_seen _ _ _ Hm Hs). unfold has_secret. destruct (decide (pr_id q = pr_id p')) as [->|Hne].
      - exists (trim s). rewrite lookup_insert_eq, trim_idemp. done.
      - destruct Hq as [[|Hq]%(N4 Hs)|Hq]; [done|..]; by rewrite lookup_insert_ne. }
    apply (t_know (sight = true -> Forall (has_secret ss) ps)); [by intros fs [_ _ _ _ _ ? _]|]. intros K6.
    eapply t_weaken; [apply (t_save_secrets given used' ps ss cs (<[pr_id p' := trim s]> m))|exact (fun _ H => H)| |exact (fun _ H => H)].
    + intros Hs. eapply Forall_impl; [exact (K6 Hs)|]. intros q ?. apply (Hnew Hs). by right.
    + intros ? fs Hi. exists (<[pr_id p' := trim s]> m). split; [|done]. intros Hs. apply Forall_forall. intros q Hq. apply (Hnew Hs). by left.
  - intros ?. apply t_exists. intros ss'. apply t_pure. intros N5.
    eapply t_bind; [eapply t_weaken; [exact (t_save_providers given used' ps ss' cs ps' N1 N2 N5)|exact (fun _ H => H)|exact (fun _ _ H => H)|]|].
    + intros fs Hi. by exists ps, ss', cs.
    + intros ?. apply t_ret. intros fs Hi. by exists ps', ss', cs.
Qed.
Lemma t_delete_provider given used id : triple (store_inv given used) (delete_provider root id) (fun _ => store_inv given used) (store_inv given used).
Proof.
  unfold delete_provider. eapply t_bind; [apply t_load_providers|]. intros l. cbn beta.
  apply t_exists. intros ps. apply t_exists. intros ss. apply t_exists. intros cs.
  destruct (_ =? _)%nat; [apply t_bail; intros fs [Hi _]; by exists ps, ss, cs|].
  destruct (filter_ids pr_id id l) as [Hsub Hin]. set (ps' := List.filter _ l) in *.
  apply (t_know (loaded (sight := sight) [] ps l)); [by intros fs [_ ?]|]. intros Hl.
  apply (t_weaken _ (fun fs => store_ok given used fs ps ss cs) _ _ (fun _ => store_inv given used) _ (store_inv given used));
    [|by intros fs [Hi _]|done|done].
  apply (t_know (NoDup (pr_id <$> ps) /\ Forall (fun q => pr_id q ∈ used) ps /\ (sight = true -> Forall (has_secret ss) ps)));
    [by intros fs [_ _ _ [? ?] _ ? _]|].
  intros (K4 & K4u & K6). rewrite Forall_forall in K4u. pose proof (loaded_sublist _ _ Hl) as Hsubl.
  assert (sight = true -> forall q, q ∈ ps' -> has_secret ss q) as K6'.
  { intros Hs q [Hq _]%Hin. rewrite (loaded_seen _ _ _ Hl Hs) in Hq. specialize (K6 Hs). rewrite Forall_forall in K6. auto. }
  eapply t_bind; [eapply t_weaken; [apply (t_save_providers given used ps ss cs ps')|exact (fun _ H => H)|exact (fun _ _ H => H)|]|].
  - eapply sublist_NoDup; [|exact Hsub]. eapply sublist_NoDup; [exact K4|]. by apply fmap_sublist.
  - apply Forall_forall. intros q [Hq _]%Hin. apply K4u. by eapply elem_of_submseteq, sublist_submseteq.
  - intros Hs. apply Forall_forall. exact (K6' Hs).
  - intros fs Hi. by exists ps, ss, cs.
  - intros ?. eapply t_bind; [apply t_load_secrets|]. intros m. apply t_pure. intros Hm.
    eapply t_weaken; [apply t_save_secrets|exact (fun _ H => H)| |exact (fun _ H => H)].
    + intros Hs. apply Forall_forall. intros q Hq. destruct (K6' Hs q Hq) as (s & ? & ?). apply Hin in Hq as [_ Hne]. exists s.
      rewrite (loaded_seen _ _ _ Hm Hs). by rewrite lookup_delete_ne.
    + intros ? fs Hi. by exists ps', (delete id m), cs.
Qed.

(** What happens in one certificate's directory does not concern the others. *)
Lemma store_ok_dir given used id fs fs' ps ss cs : cert_id id -> Forall (fun c => ce_id c <> id) cs ->
  (forall q, ~ in_dir (cert_dir id) q -> fs' !! q = fs !! q) -> store_ok given used fs ps ss cs -> store_ok given used fs' ps ss cs.
Proof.
  intros Hid Hne Hs [K1 K2 K3 K4 K5 K6 K7].
  assert (view [] certs_index_path fs' = Some cs) as Kc.
  { rewrite (view_same _ _ fs); [done|]. apply Hs. cbn. intros Heq. apply (cert_id_dir id "index.json"); [done|set_solver|]. by injection Heq. }
  split; [by rewrite (view_same _ _ fs) by (by apply Hs)|by rewrite (view_same _ _ fs) by (by apply Hs)|done..|].
  rewrite Forall_forall in Hne, K7 |- *. intros c Hc. eapply on_disk_same; [|by apply K7].
  intros name. apply Hs. unfold in_dir. cbn. intros [=]. by apply (Hne c Hc).
Qed.
Lemma not_used given used fs ps ss cs id : store_ok given used fs ps ss cs -> id ∉ used -> Forall (fun c => ce_id c <> id) cs.
Proof. intros [_ _ _ _ [_ K5u] _ _] Hid. eapply Forall_impl; [exact K5u|]. intros c [Hc _] <-. done. Qed.
Lemma store_inv_dir given used id fs fs' : cert_id id -> id ∉ used -> (forall q, ~ in_dir (cert_dir id) q -> fs' !! q = fs !! q) ->
  store_inv given used fs -> store_inv given used fs'.
Proof.
  intros Hid Hu Hs (ps & ss & cs & Hi). exists ps, ss, cs. eapply store_ok_dir; [done| |done|done]. by eapply not_used.
Qed.
Lemma put_dir id name text fs q : ~ in_dir (cert_dir id) q -> fs_put (cert_dir id ++ [name])%list text fs !! q = fs !! q.
Proof. intros Hq. unfold fs_put. apply lookup_insert_ne. intros <-. by apply Hq. Qed.

(** Writing a file there, with a fact about its other files that the write keeps. *)
Lemma t_write_pem given used id context name text (K : Fs -> Prop) : cert_id id -> id ∉ used ->
  (forall fs f, K fs -> K (<[(cert_dir id ++ [name])%list := f]> fs)) ->
  triple (fun fs => store_inv given used fs /\ K fs) (fs_write context (cert_dir id ++ [name])%list text)
    (fun _ fs => store_inv given used fs /\ K fs /\ exists b, fs !! (cert_dir id ++ [name])%list = Some (MkFile text b)) (store_inv given used).
Proof.
  intros Hid Hu HK. apply t_call.
  - intros fs [Hi Hk]. split; [by eapply store_inv_dir, Hi; [..|intros; apply put_dir]|]. split; [by apply HK|].
    eexists. apply lookup_insert_eq.
  - intros fs [t|] [Hi _]; [|done]. by eapply store_inv_dir, Hi; [..|intros; apply put_dir].
Qed.

Lemma t_add_cert given used c pem key : cert_id (ce_id c) -> ce_id c ∉ used ->
  triple (store_inv given used) (add_cert root c pem key)
    (fun _ => store_inv ((c, (pem, key)) :: given) (ce_id c :: used)) (store_inv ((c, (pem, key)) :: given) (ce_id c :: used)).
Proof.
  intros Hid Hu. set (id := ce_id c) in *. set (given' := _ :: given). set (used' := id :: used).
  assert (forall fs, store_inv given used fs -> store_inv given' used' fs) as Hmore by (intros fs; by apply store_inv_more; set_solver).
  unfold add_cert. fold id.
  eapply t_bind with (Q := fun _ => store_inv given used); [apply t_call; [exact (fun _ H => H)|exact (fun _ _ H => Hmore _ H)]|]. intros _.
  pose (K1 := fun fs : Fs => exists b, fs !! cert_pem_path id = Some (MkFile pem b)).
  pose (K2 := fun fs : Fs => K1 fs /\ exists b, fs !! key_pem_path id = Some (MkFile key b)).
  pose (K3 := fun fs : Fs => K1 fs /\ key_kept fs (key_pem_path id) key).
  eapply t_bind with (Q := fun _ fs => store_inv given used fs /\ K1 fs).
  { eapply t_weaken; [apply (t_write_pem given used id _ "fullchain.pem" pem (fun _ => True) Hid Hu); done|done| |exact Hmore].
    intros ? fs (? & _ & ?). done. }
  intros _. eapply t_bind with (Q := fun _ fs => store_inv given used fs /\ K2 fs).
  { eapply t_weaken; [apply (t_write_pem given used id _ "privkey.pem" key K1 Hid Hu)|exact (fun _ H => H)| |exact Hmore].
    - intros fs f [b Hb]. exists b. by rewrite lookup_insert_ne.
    - intros ? fs (? & ? & ?). done. }
  intros _. eapply t_bind with (Q := fun _ fs => store_inv given used fs /\ K3 fs).
  { apply t_private; [intros fs [? _]; by apply Hmore|]. intros fs (Hi & [b1 Hb1] & [b2 Hb2]). split; [|split].
    - eapply store_inv_dir, Hi; [done|done|]. intros q Hq. apply made_private_other. intros ->. by apply Hq.
    - exists b1. by rewrite made_private_other.
    - by eapply key_made_private. }
  intros _. eapply t_bind.
  { apply (t_weaken _ (fun fs => exists cs ps ss, store_ok given used fs ps ss cs /\ K3 fs) _ _
      (fun l fs => exists cs ps ss, store_ok given used fs ps ss cs /\ K3 fs /\ loaded (sight := sight) [] cs l) _ (store_inv given' used'));
      [|intros fs [(ps & ss & cs & Hi) Hk]; by exists cs, ps, ss|exact (fun _ _ H => H)|done].
    apply t_exists. intros cs. eapply t_weaken; [apply (t_read root (fun fs => exists ps ss, store_ok given used fs ps ss cs /\ K3 fs) [] cs)|done| |].
    - by intros fs (ps & ss & [] & _).
    - intros l fs [(ps & ss & Hi & Hk) Hl]. by exists cs, ps, ss.
    - intros fs (ps & ss & Hi & _). apply Hmore. by exists ps, ss, cs. }
  intros l. cbn beta. apply t_exists. intros cs. set (cs' := c :: List.filter _ l).
  apply (t_know (loaded (sight := sight) [] cs l)); [by intros fs (ps & ss & _ & _ & ?)|]. intros Hl%loaded_sublist.
  apply (t_weaken _ (fun fs => exists ps ss, store_ok given' used' fs ps ss cs
      /\ Forall (on_disk given' fs) cs' /\ Forall (fun c => ce_id c <> id) cs) _ _ (fun _ fs => store_inv given' used' fs) _ (store_inv given' used'));
    [|intros fs (ps & ss & Hi & [Hp Hk] & _)|done|done].
  - apply t_exists. intros ps. apply t_exists. intros ss.
    apply (t_know (NoDup (ce_id <$> cs) /\ Forall (fun c => ce_id c ∈ used' /\ cert_id (ce_id c)) cs /\ Forall (fun c => ce_id c <> id) cs)).
    { by intros fs ([_ _ _ _ [? ?] _ _] & _ & ?). }
    intros (N1 & N2 & N3). destruct (filter_ids ce_id id l) as [Hsub Hin]. rewrite Forall_forall in N2, N3.
    eapply t_weaken; [apply (t_save_certs given' used' ps ss cs cs')| | |].
    + unfold cs'. cbn. constructor; [intros (x & Ex & [Hx Hne]%Hin)%list_elem_of_fmap; by apply Hne|].
      eapply sublist_NoDup; [|exact Hsub]. eapply sublist_NoDup; [exact N1|]. by apply fmap_sublist.
    + apply Forall_cons. split; [split; [set_solver|done]|]. apply Forall_forall. intros x [Hx _]%Hin. apply N2.
      by eapply elem_of_submseteq, sublist_submseteq.
    + intros fs (Hi & Hd & _). done.
    + intros ? fs Hi. by exists ps, ss, cs'.
    + intros fs Hi. by exists ps, ss, cs.
  - pose proof (not_used _ _ _ _ _ _ _ Hi Hu) as Hne.
    exists ps, ss. destruct Hi as [J1 J2 J3 [J4 J4u] [J5 J5u] J6 J7].
    assert (forall x, on_disk given fs x -> on_disk given' fs x) as Hgiven.
    { intros x (pem' & key' & Hin & Hrest). exists pem', key'. split; [set_solver|done]. }
    split; [split; [done..| | |done|]|split; [|done]].
    + split; [done|]. eapply Forall_impl; [exact J4u|]. set_solver.
    + split; [done|]. eapply Forall_impl; [exact J5u|]. cbn. set_solver.
    + eapply Forall_impl; [exact J7|exact Hgiven].
    + apply Forall_cons. split; [exists pem, key; split; [set_solver|done]|].
      rewrite Forall_forall in J7 |- *. intros x [Hx _]%(proj2 (filter_ids ce_id id l)). apply Hgiven, J7. by eapply elem_of_submseteq, sublist_submseteq.
Qed.
Lemma t_add_cert_index c pem key cs :
  io_triple true (fun fs => view [] certs_index_path fs = Some cs) (add_cert root c pem key)
    (fun _ fs => view [] certs_index_path fs = Some (c :: List.filter (fun d => negb (String.eqb (ce_id d) (ce_id c))) cs)
       /\ (exists b, fs !! cert_pem_path (ce_id c) = Some (MkFile pem b)) /\ key_kept fs (key_pem_path (ce_id c)) key)
    (fun fs => view [] certs_index_path fs = Some cs).
Proof.
  set (id := ce_id c). pose (P := fun fs : Fs => view [] certs_index_path fs = Some cs).
  pose (K1 := fun fs : Fs => exists b, fs !! cert_pem_path id = Some (MkFile pem b)).
  pose (K2 := fun fs : Fs => exists b, fs !! key_pem_path id = Some (MkFile key b)).
  pose (K3 := fun fs : Fs => key_kept fs (key_pem_path id) key).
  assert (forall fs name text, P fs -> P (fs_put (cert_dir id ++ [name])%list text fs)) as Hput.
  { intros fs name text Hv. unfold P. rewrite (view_same _ _ fs); [done|]. unfold fs_put. by apply lookup_insert_ne. }
  unfold add_cert. fold id. eapply t_bind with (Q := fun _ => P); [apply t_call; [exact (fun _ H => H)|exact (fun _ _ H => H)]|]. intros ?.
  eapply t_bind with (Q := fun _ fs => P fs /\ K1 fs).
  { apply t_call; [|intros fs [r|] Hv; [by apply Hput|done]]. intros fs Hv. split; [by apply Hput|]. eexists. apply lookup_insert_eq. }
  intros ?. eapply t_bind with (Q := fun _ fs => P fs /\ K1 fs /\ K2 fs).
  { apply t_call; [|intros fs [r|] [Hv _]; [by apply Hput|done]]. intros fs [Hv [b Hb]]. split; [by apply Hput|].
    split; [exists b; unfold fs_put; by rewrite lookup_insert_ne|]. eexists. apply lookup_insert_eq. }
  intros ?. eapply t_bind with (Q := fun _ fs => P fs /\ K1 fs /\ K3 fs).
  { apply t_private; [by intros fs [? _]|]. intros fs (Hv & [b1 Hb1] & [b2 Hb2]). split; [|split].
    - unfold P. by rewrite made_private_view.
    - exists b1. by rewrite made_private_other.
    - by eapply key_made_private. }
  intros ?. eapply t_bind.
  { eapply t_weaken; [apply (t_read (sight := true) root (fun fs => P fs /\ K1 fs /\ K3 fs) [] cs)|exact (fun _ H => H)|exact (fun _ _ H => H)|];
      [by intros fs [? _]|by intros fs [? _]]. }
  intros l. apply t_know with (p := l = cs); [by intros fs [_ [?|[? _]]]|]. intros ->.
  apply t_write; [done| |].
  - intros fs fs' [[Hv _] _] Hs. rewrite (view_same _ _ fs); [done|]. apply Hs. vm_compute. set_solver.
  - intros fs fs' b [[_ [[b1 H1'] H2']] _] Hs Hw. split; [by eapply view_written|].
    split; [exists b1; rewrite Hs; [done|]; vm_compute; set_solver|]. eapply key_kept_same; [|exact H2']. apply Hs. vm_compute. set_solver.
Qed.
Lemma t_delete_cert given used id : triple (store_inv given used) (delete_cert root id) (fun _ => store_inv given used) (store_inv given used).
Proof.
  unfold delete_cert. eapply t_bind; [apply t_load_certs|]. intros l. cbn beta.
  apply t_exists. intros ps. apply t_exists. intros ss. apply t_exists. intros cs.
  apply (t_know (loaded (sight := sight) [] cs l)); [by intros fs [_ ?]|]. intros Hl%loaded_sublist.
  apply (t_weaken _ (fun fs => store_ok given used fs ps ss cs) _ _ (fun _ => store_inv given used) _ (store_inv given used));
    [|by intros fs [Hi _]|done|done].
  destruct (_ =? _)%nat eqn:En; [apply t_bail; intros fs Hi; by exists ps, ss, cs|]. apply Nat.eqb_neq in En.
  apply (t_know (NoDup (ce_id <$> cs) /\ Forall (fun c => ce_id c ∈ used /\ cert_id (ce_id c)) cs)); [by intros fs [_ _ _ _ ? _ _]|].
  intros (N1 & N2). destruct (filter_ids ce_id id l) as [Hsub Hin]. set (cs' := List.filter _ l) in *.
  assert (forall x, x ∈ cs' -> x ∈ cs /\ ce_id x <> id) as Hcs by (intros x [Hx ?]%Hin; split; [by eapply elem_of_submseteq, sublist_submseteq|done]).
  assert (exists c, c ∈ l /\ ce_id c = id) as (c0 & Hc0 & Eid).
  { destruct (decide (Exists (fun c => ce_id c = id) l)) as [He|Hne%not_Exists_Forall]; [by apply Exists_exists in He|exfalso; apply En|apply _].
    rewrite Forall_forall in Hne. subst cs'. f_equal. clear -Hne. induction l as [|c l IH]; [done|]. cbn.
    rewrite (proj2 (String.eqb_neq _ _) (Hne c ltac:(set_solver))). cbn. f_equal. apply IH. set_solver. }
  rewrite Forall_forall in N2. assert (cert_id id) as Hid by (rewrite <- Eid; apply N2; by eapply elem_of_submseteq, sublist_submseteq).
  eapply t_bind with (Q := fun _ fs => store_ok given used fs ps ss cs').
  - eapply t_weaken; [apply (t_save_certs given used ps ss cs cs')| |exact (fun _ _ H => H)|].
    + eapply sublist_NoDup; [|exact Hsub]. eapply sublist_NoDup; [exact N1|]. by apply fmap_sublist.
    + apply Forall_forall. intros x [Hx _]%Hcs. auto.
    + intros fs Hi. split; [done|]. destruct Hi as [_ _ _ _ _ _ K7]. rewrite Forall_forall in K7 |- *. intros x [Hx _]%Hcs. auto.
    + intros fs Hi. by exists ps, ss, cs.
  - intros ?. apply t_ignore. eapply t_bind; [apply t_dir_exists|].
    intros [|]; [|apply t_ret; intros fs Hi; by exists ps, ss, cs']. apply t_call.
    + intros fs Hi. exists ps, ss, cs'. eapply store_ok_dir, Hi; [done|apply Forall_forall; by intros x [_ ?]%Hcs|].
      intros q Hq. unfold fs_remove_dir. rewrite map_lookup_filter. destruct (fs !! q); cbn; [|done]. by rewrite option_guard_True.
    + intros fs [name|] Hi; [|by exists ps, ss, cs']. exists ps, ss, cs'. eapply store_ok_dir, Hi; [done|apply Forall_forall; by intros x [_ ?]%Hcs|].
      intros q Hq. apply lookup_delete_ne. intros <-. by apply Hq.
Qed.

(** *** Any course of operations, whatever fails *)

Local Open Scope list_scope.

(** The certificate of [StAddCert] gets its identifier as [issue] gives it. *)
Inductive StoreOp :=
| StUpsert (uuid : string) (provider : Provider) (secret : option string)
| StDeleteProvider (id : string)
| StAddCert (uuid : string) (domains : list string) (provider_id not_after fullchain_pem key_pem : string)
| StDeleteCert (id : string).
Definition added_cert uuid domains provider_id not_after : Cert := MkCert (new_id "c" uuid) domains provider_id not_after.
Definition store_op (op : StoreOp) : Io unit :=
  match op with
  | StUpsert uuid p secret => do? _p := upsert_provider root uuid p secret in io_ret tt
  | StDeleteProvider id => delete_provider root id
  | StAddCert uuid ds pid na pem key => add_cert root (added_cert uuid ds pid na) pem key
  | StDeleteCert id => delete_cert root id
  end.
Definition store_run (fs : Fs) (l : list (StoreOp * list Fault)) : Fs :=
  fold_left (fun fs '(op, faults) => io_fs (store_op op (MkIoState fs faults)).2) l fs.
Definition op_ids (op : StoreOp) : list string :=
  match op with StUpsert uuid _ _ => [new_id "p" uuid] | StAddCert uuid _ _ _ _ _ => [new_id "c" uuid] | _ => [] end.
Definition op_given (op : StoreOp) : Given :=
  match op with StAddCert uuid ds pid na pem key => [(added_cert uuid ds pid na, (pem, key))] | _ => [] end.

Lemma t_op given used op : Forall (fun id => id ∉ used) (op_ids op) ->
  triple (store_inv given used) (store_op op) (fun _ => store_inv (op_given op ++ given) (op_ids op ++ used))
    (store_inv (op_given op ++ given) (op_ids op ++ used)).
Proof.
  destruct op as [uuid p secret|id|uuid ds pid na pem key|id]; cbn [store_op op_given op_ids List.app]; intros Hf.
  - eapply t_bind; [apply (t_upsert given used uuid p secret); intros _; exact (proj1 (Forall_singleton _ _) Hf)|]. intros ?. by apply t_ret.
  - apply t_delete_provider.
  - apply (t_add_cert given used (added_cert uuid ds pid na)); [by exists uuid|exact (proj1 (Forall_singleton _ _) Hf)].
  - apply t_delete_cert.
Qed.
Lemma store_run_inv l : forall given used fs, Forall (fun x => sight = true -> Blind ∉ x.2) l -> store_inv given used fs -> NoDup (mjoin (op_ids <$> l.*1)) ->
  Forall (fun id => id ∉ used) (mjoin (op_ids <$> l.*1)) ->
  store_inv (reverse (mjoin ((reverse ∘ op_given) <$> l.*1)) ++ given) (reverse (mjoin ((reverse ∘ op_ids) <$> l.*1)) ++ used) (store_run fs l).
Proof.
  induction l as [|[op faults] l IH]; intros given used fs Hg Hi Hn Hu; [done|]. apply Forall_cons in Hg as [Hg Hgs]. cbn -[reverse store_run] in Hn, Hu |- *.
  apply NoDup_app in Hn as (Hn1 & Hn2 & Hn3). apply Forall_app in Hu as [Hu1 Hu2].
  assert (store_inv (op_given op ++ given) (op_ids op ++ used) (io_fs (store_op op (MkIoState fs faults)).2)) as Hi'.
  { pose proof (t_op given used op Hu1 (MkIoState fs faults) Hg Hi) as [_ Ht]. by destruct (store_op op _) as [[?|?] ?]. }
  specialize (IH _ _ _ Hgs Hi' Hn3). rewrite !reverse_app, !reverse_involutive, <- !(assoc_L (++)). apply IH.
  rewrite Forall_forall in Hu2 |- *. intros id Hid [?|?]%elem_of_app; [by apply (Hn2 id)|by apply (Hu2 id)].
Qed.
End Sight.

Lemma in_given (l : list (StoreOp * list Fault)) x : x ∈ reverse (mjoin ((reverse ∘ op_given) <$> l.*1)) ->
  exists uuid ds pid na pem key, x = (added_cert uuid ds pid na, (pem, key)) /\ StAddCert uuid ds pid na pem key ∈ l.*1.
Proof.
  rewrite elem_of_reverse. intros (g & Hg & (op & -> & Hop)%list_elem_of_fmap)%list_elem_of_join.
  cbn in Hg. rewrite elem_of_reverse in Hg.
  destruct op; cbn in Hg; try by apply elem_of_nil in Hg. apply list_elem_of_singleton in Hg as ->. eauto 10.
Qed.

(** C29: The store stays usable whatever goes wrong. Through any operations that run one
    after another and whose generated identifiers (twelve digits of random UUIDs) are
    distinct, any of whose calls may fail or be cut short, the store's files can be
    read, no two providers or certificates share an identifier, and every certificate
    listed has on disk the chain and the key that were issued for it, whole, on Unix
    the key readable by its owner only. Every provider listed has a secret that is not
    blank, unless a check whether a file exists failed: such a failure is taken for
    the file's absence, and what it held is then overwritten. *)
Theorem store_consistent (l : list (StoreOp * list Fault)) : NoDup (mjoin (op_ids <$> l.*1)) ->
  exists ps ss cs, view [] providers_path (store_run ∅ l) = Some ps
  /\ view ∅ secrets_path (store_run ∅ l) = Some ss /\ view [] certs_index_path (store_run ∅ l) = Some cs
  /\ NoDup (pr_id <$> ps) /\ NoDup (ce_id <$> cs)
  /\ (Forall (fun x => Blind ∉ x.2) l -> Forall (fun p => exists s, ss !! pr_id p = Some s /\ trim s <> "") ps)
  /\ Forall (fun c => exists uuid ds pid na pem key b b', StAddCert uuid ds pid na pem key ∈ l.*1 /\ c = added_cert uuid ds pid na
       /\ store_run ∅ l !! cert_pem_path (ce_id c) = Some (MkFile pem b)
       /\ store_run ∅ l !! key_pem_path (ce_id c) = Some (MkFile key b') /\ (cfg_unix = true -> b' = true)) cs.
Proof.
  intros Hn. set (sight := bool_decide (Forall (fun x => Blind ∉ x.2) l)).
  assert (store_inv sight [] [] ∅) as H0' by (exists [], ∅, []; split; by repeat constructor).
  assert (Forall (fun id => id ∉ @nil string) (mjoin (op_ids <$> l.*1))) as Hu by (apply Forall_forall; set_solver).
  assert (Forall (fun x => sight = true -> Blind ∉ x.2) l) as Hg.
  { apply Forall_forall. intros x Hx Hs%bool_decide_eq_true. rewrite Forall_forall in Hs. by apply Hs. }
  destruct (store_run_inv sight l [] [] ∅ Hg H0' Hn Hu) as (ps & ss & cs & [K1 K2 K3 [K4 _] [K5 _] K6 K7]).
  exists ps, ss, cs. split; [done|]. split; [done|]. split; [done|]. split; [done|]. split; [done|].
  split; [intros Hall; apply K6; by apply bool_decide_eq_true|].
  eapply Forall_impl; [exact K7|]. intros c (pem & key & Hin & [b Hp] & [b' Hk]). rewrite List.app_nil_r in Hin.
  destruct (in_given l _ Hin) as (uuid & ds & pid & na & pem' & key' & [= -> <- <-] & Hop).
  exists uuid, ds, pid, na, pem, key, b, b'. done.
Qed.
End Invariant.

(** *** Witnesses *)

#[global] Instance vendor_countable : Countable Vendor.
Proof.
  refine (inj_countable vendor_index (fun i => vendor_from_index i) _). by intros [].
Defined.
#[global] Instance provider_countable : Countable Provider.
Proof.
  refine (inj_countable' (fun p => (pr_id p, pr_name p, pr_vendor p, pr_access_key_id p)) (fun '(i, n, v, a) => MkProvider i n v a) _). by intros [].
Defined.
#[global] Instance cert_countable : Countable Cert.
Proof.
  refine (inj_countable' (fun c => (ce_id c, ce_domains c, ce_provider_id c, ce_not_after c)) (fun '(i, d, p, n) => MkCert i d p n) _). by intros [].
Defined.
(** JSON for the examples. *)
Definition ex_store_json {A} `{Countable A} : Json A := {| to_json := ex_show; from_json := ex_parse |}.
Lemma ex_store_json_laws {A} `{Countable A} : JsonLaws A (H := ex_store_json).
Proof. split; [apply ex_parse_show|apply ex_show_not_blank]. Qed.
#[local] Existing Instance ex_store_json.
#[local] Existing Instance ex_store_json_laws.
#[local] Instance ex_unix : Platform := {| cfg_unix := true |}.

(** A provider is added, its key changed but for a write that fails, and two
    certificates are issued for it, of which the second's index cannot be renamed. *)
Definition ex_ops : list (StoreOp * list Fault) :=
  [(StUpsert "0123456789abcdef" (MkProvider "" "dns" Cloudflare "") (Some " key "), []);
   (StUpsert "1123456789abcdef" (MkProvider "p_0123456789ab" "dns" Cloudflare "") (Some "other"),
     [Works; Works; Works; Works; Works; Fails "full" None]);
   (StAddCert "2123456789abcdef" ["a.example"] "p_0123456789ab" "2026-01-01T00:00:00Z" "chain" "key", []);
   (StAddCert "3123456789abcdef" ["b.example"] "p_0123456789ab" "2026-01-01T00:00:00Z" "chain 2" "key 2",
     [Works; Works; Works; Works; Works; Works; Works; Works; Works; Fails "busy" None])].
Lemma store_consistent_witness :
  view [] certs_index_path (store_run "/data" ∅ ex_ops) = Some [MkCert "c_2123456789ab" ["a.example"] "p_0123456789ab" "2026-01-01T00:00:00Z"]
  /\ exists ps : list Provider, view [] providers_path (store_run "/data" ∅ ex_ops) = Some ps /\ NoDup (pr_id <$> ps).
Proof.
  split; [vm_compute; reflexivity|].
  destruct (store_consistent "/data" ex_ops) as (ps & ss & cs & Hp & _ & _ & Hn & _); [apply (bool_decide_unpack _); vm_compute; exact I|].
  exists ps. split; [exact Hp|exact Hn].
Defined.

(** A check for the secrets' file that fails costs every other provider its secret. *)
Lemma overlooked_secrets_wiped :
  let fs := store_run "/data" ∅
    [(StUpsert "0123456789abcdef" (MkProvider "" "dns" Cloudflare "") (Some "key"), []);
     (StUpsert "1123456789abcdef" (MkProvider "" "other" Aliyun "") (Some "key 2"), [Works; Works; Blind])] in
  pr_id <$> default [] (view [] providers_path fs) = ["p_0123456789ab"; "p_1123456789ab"]
  /\ (view ∅ secrets_path fs : option (gmap string string)) = Some {["p_1123456789ab" := "key 2"]}.
Proof. split; by vm_compute. Qed.

(** Issuing works on a copy of the store while the window goes on using its own: an
    index that [add_cert] read before a certificate was deleted brings it back when it
    is saved, without its files. *)
Lemma deleted_cert_comes_back :
  let s := MkIoState (store_run "/data" ∅ ex_ops) [] in
  let new := MkCert "c_4123456789ab" ["d.example"] "p_0123456789ab" "2026-01-01T00:00:00Z" in
  let read := load_certs "/data" s in
  let deleted := delete_cert "/data" "c_2123456789ab" read.2 in
  let saved := save_certs "/data" (new :: default [] (result_ok read.1)) deleted.2 in
  is_ok deleted.1 = true /\ is_ok saved.1 = true
  /\ ce_id <$> default [] (view [] certs_index_path (io_fs saved.2)) = ["c_4123456789ab"; "c_2123456789ab"]
  /\ io_fs saved.2 !! key_pem_path "c_2123456789ab" = None.
Proof. by vm_compute. Qed.
