(* ===== verification/CertDns.v ===== *)
(** * The DNS providers of the desktop's certificates

    [desktop/src/cert/dns]: how a TXT record is put where a certificate authority
    looks for it, and taken away, through the interfaces of three providers.  A
    provider's service is a parameter: each call is an operation on its state that
    gives the fields the code reads of the answer.  Signing and HTTP are not
    modelled. *)

From S2P Require Import Prelude RustStr CertStore.

Local Open Scope string_scope.

Definition is_dot (c : ascii) : bool := Ascii.eqb "." c.
Definition is_quote (c : ascii) : bool := (code c =? 34)%N.
(** What is before the zone in a host's name. *)
Definition relative_name (host zone : string) : string :=
  if String.eqb host zone then "@" else match strip_suffix ("." ++ zone) host with Some prefix => prefix | None => host end.

(** The trait: the record's identifier is given back by [upsert_txt]. *)
Record DnsProvider (W : Type) := MkDns {
  upsert_txt : string -> string -> Eff W string;
  delete_txt : string -> Eff W unit }.
Arguments MkDns {W}.
Arguments upsert_txt {W}.
Arguments delete_txt {W}.

(** A TXT record of a listing; an absent field is the empty string. *)
Record TxtRecord := MkTxt { tx_rr : string; tx_value : string; tx_id : string }.

(** ** Aliyun *)

Class AliyunApi (W : Type) := {
  al_describe_domain : string -> Eff W unit;
  al_describe_records : string -> string -> Eff W (list TxtRecord);
  al_delete_record : string -> Eff W unit;
  al_add_record : string -> string -> string -> Eff W (option string) }.

Section Aliyun.
Context {W : Type} `{AliyunApi W}.

Fixpoint aliyun_find (fuel : nat) (host name : string) : Eff W (string * string) :=
  match fuel with
  | O => io_bail ("aliyun domain not found for " ++ host)
  | S fuel => fun w =>
      match al_describe_domain name w with
      | (Ok _, w) => (Ok (name, relative_name host name), w)
      | (Err _, w) =>
          match split_once "." name with
          | Some (_, rest) => aliyun_find fuel host rest w
          | None => io_bail ("aliyun domain not found for " ++ host) w
          end
      end
  end.
Definition aliyun_find_domain (host : string) : Eff W (string * string) :=
  let host := trim_end_matches is_dot host in aliyun_find (S (String.length host)) host host.

(** The records at the name: one with the value ends the loop, others are deleted. *)
Fixpoint aliyun_records (rr value : string) (records : list TxtRecord) : Eff W (option string) :=
  match records with
  | [] => io_ret None
  | r :: records =>
      if negb (String.eqb (tx_rr r) rr) || is_empty (tx_id r) then aliyun_records rr value records else
      if String.eqb (tx_value r) value then io_ret (Some (tx_id r)) else
      do! io_ignore (al_delete_record (tx_id r)) ;;
      aliyun_records rr value records
  end.
Definition aliyun_upsert (host value : string) : Eff W string :=
  do? at_ := aliyun_find_domain host in
  let '(domain, rr) := at_ in
  do? records := al_describe_records domain rr in
  do? found := aliyun_records rr value records in
  match found with
  | Some id => io_ret id
  | None =>
      do? id := al_add_record domain rr value in
      match id with Some id => io_ret id | None => io_bail "aliyun missing RecordId" end
  end.
Definition aliyun_delete (record_id : string) : Eff W unit :=
  fun w => match al_delete_record record_id w with (Err _, w) => (Err "aliyun delete txt", w) | r => r end.
Definition aliyun_dns : DnsProvider W := MkDns aliyun_upsert aliyun_delete.
End Aliyun.

(** ** Tencent *)

Definition u64_max : Z := 2 ^ 64 - 1.
(** Identifiers are numbers; an absent one is zero. *)
Record TencentRecord := MkTcRecord { tc_rr : string; tc_value : string; tc_id : Z }.
Class TencentApi (W : Type) := {
  tc_domain_list : Eff W (list (string * Z));
  tc_record_list : string -> Z -> string -> Eff W (list TencentRecord);
  tc_delete_record : string -> Z -> Z -> Eff W unit;
  tc_create_record : string -> Z -> string -> string -> Eff W (option Z) }.

Section Tencent.
Context {W : Type} `{TencentApi W}.

Definition tencent_rr (host name : string) : string :=
  if eq_ignore_ascii_case host name then "@" else
  match strip_suffix ("." ++ name) host with
  | Some rr => rr
  | None => match strip_suffix ("." ++ to_lower name) host with Some rr => rr | None => host end
  end.
Definition tencent_domain (domains : list (string * Z)) (name : string) : option (string * Z) :=
  List.find (fun d => negb (is_empty d.1) && eq_ignore_ascii_case d.1 name) domains.
Fixpoint tencent_find (fuel : nat) (domains : list (string * Z)) (host name : string) : Anyhow (Z * string * string) :=
  match fuel with
  | O => Err ("tencent domain not found for " ++ host)
  | S fuel =>
      match tencent_domain domains name with
      | Some (dn, id) => Ok (id, dn, tencent_rr host name)
      | None =>
          match split_once "." name with
          | Some (_, rest) => tencent_find fuel domains host rest
          | None => Err ("tencent domain not found for " ++ host)
          end
      end
  end.
Definition tencent_find_domain (host : string) : Eff W (Z * string * string) :=
  let host := trim_end_matches is_dot host in
  do? domains := tc_domain_list in
  fun w => (tencent_find (S (String.length host)) domains host host, w).

Definition tencent_id (domain : string) (id : Z) : string := domain ++ ":" ++ show_Z id.
Fixpoint tencent_records (domain_id : Z) (domain rr value : string) (records : list TencentRecord) : Eff W (option string) :=
  match records with
  | [] => io_ret None
  | r :: records =>
      if negb (is_empty (tc_rr r)) && negb (String.eqb (tc_rr r) rr) then tencent_records domain_id domain rr value records else
      if String.eqb (tc_value r) value && (0 <? tc_id r)%Z then io_ret (Some (tencent_id domain (tc_id r))) else
      if (0 <? tc_id r)%Z then
        do! io_ignore (tc_delete_record domain domain_id (tc_id r)) ;;
        tencent_records domain_id domain rr value records
      else tencent_records domain_id domain rr value records
  end.
Definition tencent_upsert (host value : string) : Eff W string :=
  do? at_ := tencent_find_domain host in
  let '(domain_id, domain, rr) := at_ in
  do? found := (fun w => match tc_record_list domain domain_id rr w with
                         | (Ok records, w) => tencent_records domain_id domain rr value records w
                         | (Err _, w) => (Ok None, w)
                         end) in
  match found with
  | Some id => io_ret id
  | None =>
      do? id := tc_create_record domain domain_id rr value in
      match id with Some id => io_ret (tencent_id domain id) | None => io_bail "tencent missing RecordId" end
  end.
Definition tencent_delete (record_id : string) : Eff W unit :=
  match split_once ":" record_id with
  | None => io_bail "tencent record id missing domain prefix"
  | Some (d, i) =>
      match parse_uint u64_max i with
      | None => io_bail "tencent record id"
      | Some id => fun w => match tc_delete_record d 0 id w with (Err _, w) => (Err "tencent delete txt", w) | r => r end
      end
  end.
Definition tencent_dns : DnsProvider W := MkDns tencent_upsert tencent_delete.
End Tencent.

(** ** Cloudflare *)

(** An answer carries a flag of its own; an error is one of the request or its JSON. *)
Class CloudflareApi (W : Type) := {
  cf_zones : string -> Eff W (bool * list (string * string));
  cf_txt_records : string -> string -> Eff W (list (string * string));
  cf_create_txt : string -> string -> string -> Eff W (bool * string);
  cf_delete_txt : string -> string -> Eff W bool }.

Section Cloudflare.
Context {W : Type} `{CloudflareApi W}.

Fixpoint cloudflare_find (fuel : nat) (domain name : string) : Eff W (string * string) :=
  match fuel with
  | O => io_bail ("cloudflare zone not found for " ++ domain)
  | S fuel =>
      do? resp := cf_zones name in
      if negb resp.1 then io_bail "cloudflare zones error" else
      match resp.2 with
      | z :: _ => io_ret z
      | [] =>
          match split_once "." name with
          | Some (_, rest) => cloudflare_find fuel domain rest
          | None => io_bail ("cloudflare zone not found for " ++ domain)
          end
      end
  end.
Definition cloudflare_find_zone (domain : string) : Eff W (string * string) :=
  let name := trim_end_matches is_dot domain in cloudflare_find (S (String.length name)) domain name.
Definition cloudflare_upsert (host value : string) : Eff W string :=
  let host := trim_end_matches is_dot host in
  do? zone := cloudflare_find_zone host in
  let '(zone_id, zone_name) := zone in
  let relative := relative_name host zone_name in
  do? listed := cf_txt_records zone_id host in
  match List.find (fun r => String.eqb (trim_matches is_quote r.2) value) listed with
  | Some (id, _) => io_ret (zone_id ++ ":" ++ id)
  | None =>
      do? created := cf_create_txt zone_id relative value in
      if negb created.1 then io_bail "cloudflare create txt failed" else io_ret (zone_id ++ ":" ++ created.2)
  end.
Definition cloudflare_delete (record_id : string) : Eff W unit :=
  match split_once ":" record_id with
  | None => io_bail "invalid cloudflare record id"
  | Some (zone_id, id) => do? _success := cf_delete_txt zone_id id in io_ret tt
  end.
Definition cloudflare_dns : DnsProvider W := MkDns cloudflare_upsert cloudflare_delete.
End Cloudflare.

(** ** Choosing one, and waiting for a record *)

Section Build.
Context {W : Type} `{AliyunApi W, TencentApi W, CloudflareApi W}.

(** The credentials are the services' concern and not part of the operations. *)
Definition build_provider (provider : Provider) (secret : string) : Anyhow (DnsProvider W) :=
  if is_empty (trim secret) then Err "dns secret is empty" else
  match pr_vendor provider with
  | Cloudflare => Ok cloudflare_dns
  | Aliyun => if is_empty (trim (pr_access_key_id provider)) then Err "accessKeyId is required for aliyun" else Ok aliyun_dns
  | Tencent => if is_empty (trim (pr_access_key_id provider)) then Err "secretId is required for tencent" else Ok tencent_dns
  end.
End Build.

Definition challenge_name (domain : string) : string := "_acme-challenge." ++ domain.

(** One attempt: what the three resolvers answer. *)
Definition txt_visible (expected : string) (answers : list (Anyhow (list string))) : bool :=
  existsb (fun r => match r with Ok l => existsb (fun a => String.eqb (trim_matches is_quote a) expected) l | Err _ => false end) answers.
(** [before]: the attempts that end before the deadline; the flag is read before each. *)
Fixpoint wait_attempts (host expected : string) (rounds : nat -> list (Anyhow (list string))) (attempt before : nat) {S : Type} (check_cancel : Eff S unit) : Eff S unit :=
  do! check_cancel ;;
  if txt_visible expected (rounds attempt) then io_ret tt else
  match before with
  | O => io_bail ("DNS TXT for " ++ host ++ " not visible after 150s (value may not have propagated)")
  | S before => wait_attempts host expected rounds (Datatypes.S attempt) before check_cancel
  end.
Definition wait_txt_propagated (host expected : string) (rounds : nat -> list (Anyhow (list string))) (before : nat) {S : Type} (check_cancel : Eff S unit) : Eff S unit :=
  wait_attempts (trim_end_matches is_dot host) (trim_matches is_quote (trim expected)) rounds 1 before check_cancel.

(** ** Lemmas *)

(** The name itself or a parent of it. *)
Definition under (host zone : string) : Prop := host = zone \/ exists p, host = p ++ "." ++ zone.
Lemma under_split host name a rest : under host name -> split_once "." name = Some (a, rest) -> under host rest.
Proof.
  intros Hu [-> _]%split_once_spec. right. destruct Hu as [->|[p ->]]; [by exists a|].
  exists (p ++ "." ++ a). by rewrite !app_assoc.
Qed.
Lemma relative_name_under host zone : under host zone ->
  (relative_name host zone = "@" /\ host = zone) \/ host = relative_name host zone ++ "." ++ zone.
Proof.
  unfold relative_name. destruct (String.eqb_spec host zone) as [->|Hne]; [by left|]. intros [?|[p Hp]]; [done|]. right.
  by rewrite (proj2 (strip_suffix_spec ("." ++ zone) host p) Hp).
Qed.
Lemma split_once_shorter c s a b : split_once c s = Some (a, b) -> String.length b < String.length s.
Proof. intros [-> _]%split_once_spec. rewrite length_app_s. cbn. lia. Qed.

Lemma aliyun_find_under {W : Type} `{AliyunApi W} fuel host name w domain rr w' : under host name ->
  aliyun_find fuel host name w = (Ok (domain, rr), w') -> under host domain /\ rr = relative_name host domain.
Proof.
  revert name w. induction fuel as [|fuel IH]; intros name w Hu; cbn; [done|].
  destruct (al_describe_domain name w) as [[?|?] w1]; [by intros [= <- <- <-]|].
  destruct (split_once "." name) as [[a rest]|] eqn:Es; [|done]. apply IH. by eapply under_split.
Qed.
(** Nothing shorter than the first accepted name is settled for, and the search only
    gives up when every parent is refused. *)
Fixpoint parents (fuel : nat) (name : string) : list string :=
  name :: match fuel with
          | O => []
          | S fuel => match split_once "." name with Some (_, rest) => parents fuel rest | None => [] end
          end.
Lemma aliyun_find_first {W : Type} `{AliyunApi W} (hosted : string -> bool) fuel host name w :
  (forall n w, al_describe_domain n w = ((if hosted n then Ok tt else Err "DomainNotExists"), w)) -> String.length name < fuel ->
  (aliyun_find fuel host name w).1 = match List.find hosted (parents fuel name) with
                                     | Some n => Ok (n, relative_name host n)
                                     | None => Err ("aliyun domain not found for " ++ host)
                                     end.
Proof.
  intros Hd. revert name. induction fuel as [|fuel IH]; intros name Hl; [lia|]. cbn [aliyun_find parents List.find]. rewrite Hd.
  destruct (hosted name); [done|]. destruct (split_once "." name) as [[a rest]|] eqn:Es; [|done].
  apply split_once_shorter in Es. rewrite IH by lia. done.
Qed.

(** The service with a record of what it was asked to delete. *)
Definition aliyun_logged {W : Type} `{AliyunApi W} : AliyunApi (W * list string) := {|
  al_describe_domain n := fun '(w, l) => let '(r, w) := al_describe_domain n w in (r, (w, l));
  al_describe_records d rr := fun '(w, l) => let '(r, w) := al_describe_records d rr w in (r, (w, l));
  al_delete_record id := fun '(w, l) => let '(r, w) := al_delete_record id w in (r, (w, l ++ [id])%list);
  al_add_record d rr v := fun '(w, l) => let '(r, w) := al_add_record d rr v w in (r, (w, l)) |}.
Definition tencent_logged {W : Type} `{TencentApi W} : TencentApi (W * list Z) := {|
  tc_domain_list := fun '(w, l) => let '(r, w) := tc_domain_list w in (r, (w, l));
  tc_record_list d i rr := fun '(w, l) => let '(r, w) := tc_record_list d i rr w in (r, (w, l));
  tc_delete_record d i id := fun '(w, l) => let '(r, w) := tc_delete_record d i id w in (r, (w, l ++ [id])%list);
  tc_create_record d i rr v := fun '(w, l) => let '(r, w) := tc_create_record d i rr v w in (r, (w, l)) |}.

(** Putting a record deletes only others at the very name, and what is found there
    already is one with the value. *)
Theorem aliyun_deletes_stale {W : Type} `{AliyunApi W} rr value records w :
  exists found w' ids, aliyun_records (H := aliyun_logged) rr value records (w, []) = (Ok found, (w', ids))
  /\ Forall (fun id => exists r, r ∈ records /\ tx_rr r = rr /\ tx_value r <> value /\ tx_id r = id) ids
  /\ match found with Some id => exists r, r ∈ records /\ tx_rr r = rr /\ tx_value r = value /\ tx_id r = id
     | None => forall r, r ∈ records -> tx_rr r = rr -> tx_id r <> "" -> tx_value r <> value /\ tx_id r ∈ ids end.
Proof.
  enough (forall l w, exists found w' ids, aliyun_records (H := aliyun_logged) rr value records (w, l) = (Ok found, (w', (l ++ ids)%list))
    /\ Forall (fun id => exists r, r ∈ records /\ tx_rr r = rr /\ tx_value r <> value /\ tx_id r = id) ids
    /\ match found with Some id => exists r, r ∈ records /\ tx_rr r = rr /\ tx_value r = value /\ tx_id r = id
       | None => forall r, r ∈ records -> tx_rr r = rr -> tx_id r <> "" -> tx_value r <> value /\ tx_id r ∈ ids end) as Hg by apply (Hg [] w).
  clear w. induction records as [|r records IH]; intros l w; cbn [aliyun_records].
  { exists None, w, []. rewrite List.app_nil_r. split; [done|]. split; [done|]. set_solver. }
  destruct (negb (String.eqb (tx_rr r) rr) || is_empty (tx_id r)) eqn:Eg.
  - destruct (IH l w) as (found & w' & ids & -> & Hids & Hf). exists found, w', ids. split; [done|]. split.
    + eapply Forall_impl; [exact Hids|]. intros id (r' & ? & ?). exists r'. set_solver.
    + destruct found as [id|]; [destruct Hf as (r' & ? & ?); exists r'; set_solver|]. intros r' [->|Hr']%elem_of_cons Hrr Hid; [|by apply Hf].
      rewrite Hrr, String.eqb_refl in Eg. cbn in Eg. by apply is_empty_true in Eg.
  - apply orb_false_iff in Eg as [Err%negb_false_iff%String.eqb_eq Eid%is_empty_false].
    destruct (String.eqb_spec (tx_value r) value) as [Ev|Ev].
    + exists (Some (tx_id r)), w, []. rewrite List.app_nil_r. split; [done|]. split; [done|]. exists r. set_solver.
    + unfold io_bind, io_ignore. cbn [al_delete_record aliyun_logged]. destruct (al_delete_record (tx_id r) w) as [o w1]. cbn [snd].
      destruct (IH (l ++ [tx_id r])%list w1) as (found & w' & ids & -> & Hids & Hf). exists found, w', (tx_id r :: ids).
      split; [by rewrite <- List.app_assoc|]. split.
      * apply Forall_cons. split; [exists r; set_solver|]. eapply Forall_impl; [exact Hids|]. intros id (r' & ? & ?). exists r'. set_solver.
      * destruct found as [id|]; [destruct Hf as (r' & ? & ?); exists r'; set_solver|].
        intros r' [->|Hr']%elem_of_cons Hrr Hid; [set_solver|]. destruct (Hf r' Hr' Hrr Hid). set_solver.
Qed.

(** What [upsert_txt] gives back names the record to [delete_txt]. *)
Theorem tencent_id_deletes {W : Type} `{TencentApi W} domain id w : sforall (fun c => negb (Ascii.eqb ":" c)) domain = true -> (0 <= id <= u64_max)%Z ->
  (tencent_delete (tencent_id domain id) w).2 = (tc_delete_record domain 0 id w).2
  /\ is_ok (tencent_delete (tencent_id domain id) w).1 = is_ok (tc_delete_record domain 0 id w).1.
Proof.
  intros Hd Hi. unfold tencent_delete, tencent_id.
  assert (split_once ":" (domain ++ ":" ++ show_Z id) = Some (domain, show_Z id)) as -> by (apply split_once_spec; done).
  rewrite parse_uint_show by done. by destruct (tc_delete_record domain 0 id w) as [[?|?] ?].
Qed.

(** A record is waited for until a resolver shows it, and no longer than the deadline. *)
Lemma wait_visible host expected rounds attempt before {S : Type} (check_cancel : Eff S unit) s s' :
  wait_attempts host expected rounds attempt before check_cancel s = (Ok tt, s') ->
  exists k, attempt <= k <= attempt + before /\ txt_visible expected (rounds k) = true.
Proof.
  revert attempt s. induction before as [|before IH]; intros attempt s; cbn; unfold io_bind; destruct (check_cancel s) as [[[]|e] s1]; try done;
    destruct (txt_visible expected (rounds attempt)) eqn:Ev; try done.
  - intros _. exists attempt. split; [lia|done].
  - intros _. exists attempt. split; [lia|done].
  - intros (k & ? & ?)%IH. exists k. split; [lia|done].
Qed.
