(* ===== verification/DnsSigning.v ===== *)
(** * What is sent to the DNS services

    The calls of [desktop/src/cert/dns/aliyun.rs] and [tencent.rs]: how a request's
    parameters are written and signed, and what an answer means.  Hashing, HMAC, base64,
    JSON and the clock are parameters; a [BTreeMap] is a list sorted by key. *)

From stdpp Require Import sorting.
From S2P Require Import Prelude RustStr.

Local Open Scope string_scope.

(** ** Percent encoding *)

Definition hex_upper (n : N) : ascii := if (n <? 10)%N then byte_of (48 + n) else byte_of (55 + n).
(** Whether a byte stays as it is: [ENCODE_SET] is what does not. *)
Definition unreserved (c : ascii) : bool := is_alnum c || Ascii.eqb c "-" || Ascii.eqb c "_" || Ascii.eqb c "." || Ascii.eqb c "~".
Definition enc_byte (c : ascii) : string :=
  if unreserved c then String c "" else String "%" (String (hex_upper (code c / 16)) (String (hex_upper (code c mod 16)) "")).
Fixpoint enc (s : string) : string := match s with "" => "" | String c s => enc_byte c ++ enc s end.

(** ** Aliyun *)

Definition query_pair (kv : string * string) : string := enc kv.1 ++ "=" ++ enc kv.2.
Definition query_of (params : list (string * string)) : string := join "&" (map query_pair params).
(** [BTreeMap::insert] *)
Fixpoint params_insert (k v : string) (params : list (string * string)) : list (string * string) :=
  match params with
  | [] => [(k, v)]
  | (k', v') :: rest =>
      match String.compare k k' with Lt => (k, v) :: params | Eq => (k, v) :: rest | Gt => (k', v') :: params_insert k v rest end
  end.
Definition params_of (l : list (string * string)) : list (string * string) := fold_left (fun m '(k, v) => params_insert k v m) l [].

Section Aliyun.
Context (hmac_sha1 : string -> string -> string) (base64 : string -> string) (access_key_id access_key_secret : string).

Definition aliyun_string_to_sign (params : list (string * string)) : string := "GET&" ++ enc "/" ++ "&" ++ enc (query_of params).
Definition aliyun_sign (params : list (string * string)) : string := base64 (hmac_sha1 (access_key_secret ++ "&") (aliyun_string_to_sign params)).
Definition aliyun_common (timestamp nonce : string) : list (string * string) :=
  [("Format", "JSON"); ("Version", "2015-01-09"); ("AccessKeyId", access_key_id); ("SignatureMethod", "HMAC-SHA1"); ("Timestamp", timestamp);
   ("SignatureVersion", "1.0"); ("SignatureNonce", nonce)].
Definition aliyun_params (params : list (string * string)) (timestamp nonce : string) : list (string * string) :=
  fold_left (fun m '(k, v) => params_insert k v m) (aliyun_common timestamp nonce) params.
Definition aliyun_signed (params : list (string * string)) (timestamp nonce : string) : list (string * string) :=
  let params := aliyun_params params timestamp nonce in params_insert "Signature" (aliyun_sign params) params.
Definition aliyun_url (params : list (string * string)) (timestamp nonce : string) : string :=
  "https://alidns.aliyuncs.com/?" ++ query_of (aliyun_signed params timestamp nonce).
End Aliyun.
(** The answer: [code] tells whether the JSON has a [Code]. *)
Definition aliyun_answer {J} (from_json : string -> option J) (code : J -> bool) (text : Anyhow string) : Anyhow J :=
  let? text := text in
  let? v := ok_or (from_json text) ("aliyun dns json: " ++ text) in
  bail_if code v with ("aliyun dns error: " ++ text) ;; Ok v.

(** ** Tencent *)

Section Tencent.
Context (sha256_hex : string -> string) (hmac_sha256 : string -> string -> string) (hex : string -> string)
  (utc_date : Z -> string) (secret_id secret_key : string).

Definition tc_host : string := "dnspod.tencentcloudapi.com".
Definition tc_signed_headers : string := "content-type;host;x-tc-action".
Definition nl : string := String lf "".
Definition tc_canonical_request (action body : string) : string :=
  "POST" ++ nl ++ "/" ++ nl ++ nl
  ++ "content-type:application/json; charset=utf-8" ++ nl ++ "host:" ++ tc_host ++ nl ++ "x-tc-action:" ++ to_lower action ++ nl
  ++ nl ++ tc_signed_headers ++ nl ++ sha256_hex body.
Definition tc_scope (date : string) : string := date ++ "/dnspod/tc3_request".
Definition tc_string_to_sign (timestamp : Z) (date action body : string) : string :=
  "TC3-HMAC-SHA256" ++ nl ++ show_Z timestamp ++ nl ++ tc_scope date ++ nl ++ sha256_hex (tc_canonical_request action body).
Definition tc_signing_key (date : string) : string := hmac_sha256 (hmac_sha256 (hmac_sha256 ("TC3" ++ secret_key) date) "dnspod") "tc3_request".
(** The clock is read twice: for the time stamp, and for the date. *)
Definition tc_authorization (now now' : Z) (action body : string) : string :=
  let date := utc_date now' in
  "TC3-HMAC-SHA256 Credential=" ++ secret_id ++ "/" ++ tc_scope date ++ ", SignedHeaders=" ++ tc_signed_headers
  ++ ", Signature=" ++ hex (hmac_sha256 (tc_signing_key date) (tc_string_to_sign now date action body)).
Definition tc_headers (now now' : Z) (action body : string) : list (string * string) :=
  [("Authorization", tc_authorization now now' action body); ("Content-Type", "application/json; charset=utf-8"); ("Host", tc_host);
   ("X-TC-Action", action); ("X-TC-Timestamp", show_Z now); ("X-TC-Version", "2021-03-23")].
End Tencent.
Record TcAnswer (J : Type) := MkTcAnswer { ta_error : option (string * string); ta_extra : J }.
Arguments MkTcAnswer {J}.
Arguments ta_error {J}.
Arguments ta_extra {J}.
Definition tencent_answer {J} (from_json : string -> option (TcAnswer J)) (strip : J -> J) (text : Anyhow string) : Anyhow J :=
  let? text := text in
  let? v := ok_or (from_json text) ("tencent dns json: " ++ text) in
  match ta_error v with
  | Some (code, message) => Err ("tencent dns error: " ++ code ++ " - " ++ message)
  | None => Ok (strip (ta_extra v))
  end.

(** ** What the service reads *)

Definition hex_digit (c : ascii) : N := if (code c <? 58)%N then code c - 48 else code c - 55.
Fixpoint unescape (s : string) : string :=
  match s with
  | "" => ""
  | String c rest =>
      if Ascii.eqb c "%" then match rest with String a (String b rest) => String (byte_of (16 * hex_digit a + hex_digit b)) (unescape rest) | _ => s end
      else String c (unescape rest)
  end.
Definition read_pair (s : string) : option (string * string) :=
  match split_once "=" s with Some (k, v) => Some (unescape k, unescape v) | None => None end.
Definition read_query (s : string) : option (list (string * string)) := if is_empty s then Some [] else mapM read_pair (split "&" s).

(** ** Lemmas *)

Lemma unescape_byte c t : unescape (enc_byte c ++ t) = String c (unescape t).
Proof. destruct c as [[] [] [] [] [] [] [] []]; reflexivity. Qed.
Lemma enc_byte_clear c : sforall (fun d => unreserved d || Ascii.eqb d "%") (enc_byte c) = true.
Proof. destruct c as [[] [] [] [] [] [] [] []]; reflexivity. Qed.
Lemma unescape_enc s : unescape (enc s) = s.
Proof. induction s as [|c s IH]; [done|]. cbn [enc]. by rewrite unescape_byte, IH. Qed.
Lemma enc_clear s : sforall (fun d => unreserved d || Ascii.eqb d "%") (enc s) = true.
Proof. induction s as [|c s IH]; [done|]. cbn [enc]. by rewrite sforall_app, enc_byte_clear, IH. Qed.
Lemma enc_without c s : unreserved c = false -> Ascii.eqb c "%" = false -> sforall (fun d => negb (Ascii.eqb c d)) (enc s) = true.
Proof.
  intros Hu Hp. eapply sforall_impl; [|apply enc_clear]. cbn. intros d Hd. destruct (Ascii.eqb_spec c d) as [<-|]; [|done]. by rewrite Hu, Hp in Hd.
Qed.

Lemma query_pair_read kv : read_pair (query_pair kv) = Some kv.
Proof.
  destruct kv as [k v]. unfold read_pair, query_pair. cbn [fst snd].
  assert (split_once "=" (enc k ++ "=" ++ enc v) = Some (enc k, enc v)) as ->; [|by rewrite !unescape_enc].
  apply split_once_spec. split; [done|]. by apply enc_without.
Qed.
Lemma query_pair_clear kv : sforall (fun d => negb (Ascii.eqb "&" d)) (query_pair kv) = true.
Proof. unfold query_pair. rewrite !sforall_app, !enc_without by done. done. Qed.
Lemma query_pair_nonempty kv s : is_empty (query_pair kv ++ s) = false.
Proof. unfold query_pair. by destruct (enc kv.1). Qed.
Lemma split_query params : params <> [] -> split "&" (query_of params) = map query_pair params.
Proof.
  intros Hne. destruct params as [|kv params]; [done|]. clear Hne. revert kv. induction params as [|kv' params IH]; intros kv.
  - unfold query_of. cbn. apply split_none, query_pair_clear.
  - change (split "&" (query_pair kv ++ String "&" (query_of (kv' :: params))) = query_pair kv :: map query_pair (kv' :: params)).
    rewrite split_app by apply query_pair_clear. by rewrite IH.
Qed.
Lemma query_read params : read_query (query_of params) = Some params.
Proof.
  unfold read_query. destruct params as [|kv params]; [done|].
  assert (is_empty (query_of (kv :: params)) = false) as ->.
  { unfold query_of. destruct params as [|kv' params]; cbn [map join]; [|apply query_pair_nonempty]. rewrite <- (RustStr.app_nil_r (query_pair kv)). apply query_pair_nonempty. }
  rewrite split_query by done. apply mapM_Some_2. generalize (kv :: params). intros l. induction l as [|x l IH]; cbn [map]; constructor; [apply query_pair_read|done].
Qed.

Definition named (k : string) (kv : string * string) : bool := String.eqb kv.1 k.
Lemma params_insert_others k v params :
  List.filter (fun kv => negb (named k kv)) (params_insert k v params) = List.filter (fun kv => negb (named k kv)) params.
Proof.
  unfold named. induction params as [|[k' v'] params IH]; cbn [params_insert List.filter fst]; [by rewrite String.eqb_refl|].
  destruct (String.compare k k') eqn:E; [apply String.compare_eq_iff in E as <-|..]; cbn [List.filter fst]; rewrite ?String.eqb_refl; [done|done|by rewrite IH].
Qed.
Lemma params_insert_in k v params : (k, v) ∈ params_insert k v params.
Proof. induction params as [|[k' v'] params IH]; cbn; [by left|]. destruct (String.compare k k'); [by left|by left|by right]. Qed.
Lemma params_insert_names k v params x : x ∈ params_insert k v params -> x = (k, v) \/ x ∈ params.
Proof.
  induction params as [|[k' v'] params IH]; cbn; [intros ?%list_elem_of_singleton; by left|]. destruct (String.compare k k'); rewrite !elem_of_cons; tauto.
Qed.
Lemma params_fold_names l : forall params x, x ∈ fold_left (fun m '(k, v) => params_insert k v m) l params -> x ∈ l \/ x ∈ params.
Proof.
  induction l as [|[k v] l IH]; intros params x; cbn [fold_left]; [by right|]. intros [Hx|Hx]%IH; [left; by right|].
  apply params_insert_names in Hx as [->|Hx]; [left; by left|by right].
Qed.
Lemma filter_absent k params : (forall v, (k, v) ∉ params) -> List.filter (fun kv => negb (named k kv)) params = params.
Proof.
  unfold named. induction params as [|[k' v'] params IH]; intros Hn; [done|]. cbn [List.filter fst]. destruct (String.eqb_spec k' k) as [->|Hne].
  - by destruct (Hn v'); left.
  - cbn [negb]. rewrite IH; [done|]. intros v Hv. apply (Hn v). by right.
Qed.

(** ** Properties *)

(** What the service reads of the request is what was signed: every parameter, with its
    value byte for byte, and a signature that comes out the same when the service computes
    it from the parameters it has read. *)
Theorem aliyun_request_verifies (hmac_sha1 : string -> string -> string) (base64 : string -> string) (id secret timestamp nonce : string)
    (params : list (string * string)) :
  "Signature" ∉ map fst params ->
  exists read, read_query (query_of (aliyun_signed hmac_sha1 base64 id secret params timestamp nonce)) = Some read
    /\ ("Signature", aliyun_sign hmac_sha1 base64 secret (List.filter (fun kv => negb (named "Signature" kv)) read)) ∈ read.
Proof.
  intros Hn. eexists. split; [apply query_read|]. unfold aliyun_signed. rewrite params_insert_others, filter_absent; [apply params_insert_in|].
  intros v [Hv|Hv]%params_fold_names.
  - unfold aliyun_common in Hv. rewrite !elem_of_cons, elem_of_nil in Hv. by repeat (destruct Hv as [[=]|Hv]).
  - apply Hn. change (map fst params) with (fst <$> params). apply list_elem_of_fmap. by exists ("Signature", v).
Qed.
(** Two sets of parameters that are signed alike are the same. *)
Lemma aliyun_signed_text_injective p q : aliyun_string_to_sign p = aliyun_string_to_sign q -> p = q.
Proof.
  unfold aliyun_string_to_sign. intros E. cbn in E. injection E as E. apply (f_equal unescape) in E. rewrite !unescape_enc in E.
  apply (f_equal read_query) in E. rewrite !query_read in E. by injection E.
Qed.
(** Putting one parameter in leaves the values of the others. *)
Lemma params_insert_keeps k v params k' : k' <> k ->
  List.find (named k') (params_insert k v params) = List.find (named k') params.
Proof.
  intros Hne. unfold named. induction params as [|[k1 v1] params IH]; cbn [params_insert List.find fst].
  - by rewrite (proj2 (String.eqb_neq k k')) by done.
  - destruct (String.compare k k1) eqn:E; [apply String.compare_eq_iff in E as <-|..]; cbn [List.find fst]; [by rewrite (proj2 (String.eqb_neq k k')) by done..|]. by rewrite IH.
Qed.

(** The date of the credential is read from the clock after the time stamp: a call across
    midnight is signed for another day than its time stamp's. *)
Lemma tencent_midnight sha hmac hex secret_id secret_key action body :
  let utc_date now := if (now <? 86400)%Z then "1970-01-01" else "1970-01-02" in
  exists rest, tc_authorization sha hmac hex utc_date secret_id secret_key 86399 86400 action body
     = "TC3-HMAC-SHA256 Credential=" ++ secret_id ++ "/1970-01-02/dnspod/tc3_request" ++ rest
  /\ ("X-TC-Timestamp", "86399") ∈ tc_headers sha hmac hex utc_date secret_id secret_key 86399 86400 action body
  /\ utc_date 86399%Z = "1970-01-01".
Proof. cbn zeta. eexists. split; [unfold tc_authorization; f_equal|]. split; [|done]. unfold tc_headers. do 4 right. by left. Qed.

(** *** Witness *)

Definition ex_params : list (string * string) := params_of [("Action", "AddDomainRecord"); ("RR", "_acme-challenge.a"); ("Value", "a+b/c d=&")].
Lemma aliyun_request_verifies_witness :
  exists read, read_query (query_of (aliyun_signed (fun k m => k ++ m) (fun s => s) "id" "secret" ex_params "2024-01-01T00:00:00Z" "n")) = Some read
    /\ ("Signature", aliyun_sign (fun k m => k ++ m) (fun s => s) "secret" (List.filter (fun kv => negb (named "Signature" kv)) read)) ∈ read.
Proof.
  apply aliyun_request_verifies. apply (bool_decide_unpack ("Signature" ∉ map fst ex_params)). vm_compute. exact I.
Defined.
Example query_text : query_of ex_params = "Action=AddDomainRecord&RR=_acme-challenge.a&Value=a%2Bb%2Fc%20d%3D%26".
Proof. vm_compute. reflexivity. Qed.
