(* ===== verification/CertIssue.v ===== *)
(** * Issuing a certificate

    [desktop/src/cert/issue.rs] and its caller in [desktop/src/main.rs].  The
    certificate authority is what each of its answers is; the DNS provider is any
    implementation of the trait; the flag that cancels is read from a list, false
    when it ends. *)

From S2P Require Import Prelude RustStr CertStore CertDns.

Local Open Scope string_scope.

Inductive IssueStep := Prepare | Order | DnsWrite | DnsWait | Validate | Finalize | Cleanup.
#[global] Instance step_eq_dec : EqDecision IssueStep.
Proof. solve_decision. Defined.
Definition step_index (s : IssueStep) : Z :=
  match s with Prepare => 0 | Order => 1 | DnsWrite => 2 | DnsWait => 3 | Validate => 4 | Finalize => 5 | Cleanup => 6 end.
Record IssueRequest := MkIssueRequest { iq_domains : list string; iq_provider_id : string }.
Record PendingTxt := MkPending { pt_host : string; pt_value : string; pt_record_id : string }.

(** ** The authority *)

Inductive AuthorizationStatus := AzPending | AzValid | AzOther (debug : string).
(** [az_challenge]: the identifier and the TXT value of the dns-01 challenge. *)
Record Authorization := MkAuthz { az_status : AuthorizationStatus; az_challenge : option (string * string); az_set_ready : Anyhow unit }.
(** A call that takes time: the seconds it takes, and how it ends. *)
Definition Timed (A : Type) : Type := (nat * Anyhow A)%type.
Record Acme := MkAcme {
  ac_builder : Anyhow unit;
  ac_from_credentials : string -> Anyhow unit;
  ac_create : Anyhow string;
  ac_new_order : list string -> Anyhow unit;
  ac_authorizations : list (Anyhow Authorization);
  ac_resolvers : PendingTxt -> nat -> list (Anyhow (list string));
  ac_attempts : PendingTxt -> nat;
  ac_authorizations_again : list (Anyhow Authorization);
  ac_poll_ready : Timed (bool * string);
  ac_finalize : Timed string;
  ac_poll_certificate : Timed string }.

(** ** The state of an issue *)

(** What is asked of the DNS provider, with what it answers. *)
Inductive DnsEvent := DnsUpserted (host value : string) (r : Anyhow string) | DnsDeleted (id : string).
Record IssueState (W : Type) := MkIssue {
  ix_io : IoState; ix_dns : W; ix_cancel : list bool; ix_steps : list IssueStep; ix_pending : list PendingTxt; ix_events : list DnsEvent }.
Arguments MkIssue {W}.
Arguments ix_io {W}.
Arguments ix_dns {W}.
Arguments ix_cancel {W}.
Arguments ix_steps {W}.
Arguments ix_pending {W}.
Arguments ix_events {W}.

Section Issue.
Context {W : Type} `{AliyunApi W, TencentApi W, CloudflareApi W}.
Context (root : string) `{Platform, Json (list Provider), Json (gmap string string), Json (list Cert)}.
(** Whether text parses as the account's credentials. *)
Context (credentials_parse : string -> bool).

Abbreviation Is A := (Eff (IssueState W) A).
Definition lift_io {A} (m : Io A) : Is A :=
  fun s => let '(r, io) := m (ix_io s) in (r, MkIssue io (ix_dns s) (ix_cancel s) (ix_steps s) (ix_pending s) (ix_events s)).
Definition of_result {A} (r : Anyhow A) : Is A := fun s => (r, s).
(** [.context(c)]: what [to_string] gives is the context. *)
Definition with_context {A} (c : string) (m : Is A) : Is A := fun s => let '(r, s) := m s in (map_err (fun _ => c) r, s).
Definition on_step (step : IssueStep) : Is unit :=
  fun s => (Ok tt, MkIssue (ix_io s) (ix_dns s) (ix_cancel s) (ix_steps s ++ [step])%list (ix_pending s) (ix_events s)).
Definition check_cancel : Is unit :=
  fun s => (if List.hd false (ix_cancel s) then Err "cancelled" else Ok tt,
            MkIssue (ix_io s) (ix_dns s) (tail (ix_cancel s)) (ix_steps s) (ix_pending s) (ix_events s)).
Fixpoint until_cancel_go {A} (seconds : nat) (r : Anyhow A) : Is A :=
  match seconds with
  | O => of_result r
  | S seconds => do! check_cancel ;; until_cancel_go seconds r
  end.
Definition until_cancel {A} (call : Timed A) : Is A := until_cancel_go call.1 call.2.

(** [load_or_create_account]. *)
Definition load_or_create_account (ac : Acme) : Is unit :=
  do! with_context "acme account builder" (of_result (ac_builder ac)) ;;
  do? there := lift_io (fs_exists acme_account_path) in
  if there then
    do? raw := lift_io (fs_read "read acme account" acme_account_path) in
    if negb (credentials_parse raw) then io_bail "parse acme account" else
    with_context "acme from_credentials" (of_result (ac_from_credentials ac raw))
  else
    do? creds := with_context "acme create account" (of_result (ac_create ac)) in
    do! lift_io (fs_write "write acme account" acme_account_path creds) ;;
    lift_io (set_private_mode acme_account_path).

(** ** The steps *)

Definition clean_domains (domains : list string) : list string :=
  List.filter (fun d => negb (is_empty d)) (map (fun d => to_lower (trim_end_matches is_dot (trim d))) domains).
Definition bad_domain (d : string) : bool := contains "*" d || contains " " d || negb (contains "." d).

Section Dns.
Context (dns : DnsProvider W) (ac : Acme).

Definition upsert (host value : string) : Is string :=
  fun s => let '(r, w) := upsert_txt dns host value (ix_dns s) in
           (r, MkIssue (ix_io s) w (ix_cancel s) (ix_steps s) (ix_pending s) (ix_events s ++ [DnsUpserted host value r])%list).
Definition push_pending (p : PendingTxt) : Is unit :=
  fun s => (Ok tt, MkIssue (ix_io s) (ix_dns s) (ix_cancel s) (ix_steps s) (ix_pending s ++ [p])%list (ix_events s)).

Fixpoint write_records (l : list (Anyhow Authorization)) : Is unit :=
  match l with
  | [] => io_ret tt
  | result :: l =>
      do! check_cancel ;;
      do? authz := with_context "acme authorizations" (of_result result) in
      match az_status authz with
      | AzValid => write_records l
      | AzOther other => io_bail ("unexpected authorization status: " ++ other)
      | AzPending =>
          match az_challenge authz with
          | None => io_bail "dns-01 challenge missing"
          | Some (identifier, value) =>
              let host := challenge_name identifier in
              do? record_id := upsert host value in
              do! push_pending (MkPending host value record_id) ;;
              write_records l
          end
      end
  end.
Fixpoint wait_records (pending : list PendingTxt) : Is unit :=
  match pending with
  | [] => io_ret tt
  | p :: pending =>
      do! check_cancel ;;
      do! with_context "wait dns propagation"
            (wait_txt_propagated (pt_host p) (pt_value p) (ac_resolvers ac p) (ac_attempts ac p) check_cancel) ;;
      wait_records pending
  end.
Fixpoint set_ready (l : list (Anyhow Authorization)) : Is unit :=
  match l with
  | [] => io_ret tt
  | result :: l =>
      do! check_cancel ;;
      do? authz := with_context "acme authorizations" (of_result result) in
      match az_status authz, az_challenge authz with
      | AzValid, _ | _, None => set_ready l
      | _, Some _ =>
          do! with_context "acme set_challenge_ready" (of_result (az_set_ready authz)) ;;
          set_ready l
      end
  end.

(** The block whose result is the issue's, once the order is placed. *)
Definition obtain (domains : list string) (provider_id uuid not_after : string) : Is Cert :=
  do! write_records (ac_authorizations ac) ;;
  do! on_step DnsWait ;;
  do! (fun s => wait_records (ix_pending s) s) ;;
  do! on_step Validate ;;
  do! set_ready (ac_authorizations_again ac) ;;
  do? status := with_context "acme poll_ready" (until_cancel (ac_poll_ready ac)) in
  if negb status.1 then io_bail ("acme order not ready: " ++ status.2) else
  do! check_cancel ;;
  do! on_step Finalize ;;
  do? private_key_pem := with_context "acme finalize" (until_cancel (ac_finalize ac)) in
  do? cert_chain_pem := with_context "acme certificate" (until_cancel (ac_poll_certificate ac)) in
  let cert := MkCert (new_id "c" uuid) domains provider_id not_after in
  do! lift_io (add_cert root cert cert_chain_pem private_key_pem) ;;
  io_ret cert.

Fixpoint cleanup_dns (ids : list string) : Is unit :=
  match ids with
  | [] => io_ret tt
  | id :: ids =>
      do! (fun s => let '(_, w) := delete_txt dns id (ix_dns s) in
             (Ok tt, MkIssue (ix_io s) w (ix_cancel s) (ix_steps s) (ix_pending s) (ix_events s ++ [DnsDeleted id])%list)) ;;
      cleanup_dns ids
  end.
Definition cleanup : Is unit :=
  fun s => let ids := map pt_record_id (ix_pending s) in
           match ids with [] => (Ok tt, s) | _ => (do! on_step Cleanup ;; cleanup_dns ids) s end.
(** The block's result is kept across the cleaning up. *)
Definition then_cleanup {A} (m : Is A) : Is A := fun s => let '(r, s) := m s in (r, (cleanup s).2).
End Dns.

Definition issue (ac : Acme) (req : IssueRequest) (uuid not_after : string) : Is Cert :=
  let domains := clean_domains (iq_domains req) in
  match domains with [] => io_bail "domains is required" | _ =>
  match List.find bad_domain domains with Some d => io_bail ("invalid domain: " ++ d) | None =>
  do? provider := lift_io (get_provider root (iq_provider_id req)) in
  match provider with None => io_bail "provider not found" | Some provider =>
  do? secret := lift_io (get_secret root (iq_provider_id req)) in
  match secret with None => io_bail "provider secret not found" | Some secret =>
  do? dns := of_result (build_provider provider secret) in
  do! on_step Prepare ;;
  do! check_cancel ;;
  do! load_or_create_account ac ;;
  do! check_cancel ;;
  do! on_step Order ;;
  do! with_context "acme new_order" (of_result (ac_new_order ac domains)) ;;
  do! check_cancel ;;
  do! on_step DnsWrite ;;
  then_cleanup dns (obtain dns ac domains (iq_provider_id req) uuid not_after)
  end end end end.
End Issue.

(** ** The window that asked for it

    [timed_out]: the 360 seconds passed first, which sets the flag and waits for the
    issue to end. *)

Inductive IssueShown := ShownIssued (c : Cert) | ShownNothing | ShownCancelled | ShownTimeout | ShownFailed (e : string).
Definition submit_result (timed_out : bool) (r : Anyhow Cert) : Anyhow Cert :=
  if timed_out then match r with Err e => if contains "cancelled" e then Err "timeout" else Err e | Ok c => Ok c end else r.
(** [cancelled]: the flag when the result is shown; [issuing]: whether the window still waits. *)
Definition issue_shown (cancelled issuing : bool) (r : Anyhow Cert) : IssueShown :=
  if cancelled && negb issuing then ShownNothing else
  match r with
  | Ok c => ShownIssued c
  | Err e => if contains "cancelled" e then ShownCancelled else if contains "timeout" e then ShownTimeout else ShownFailed e
  end.

(** The flag is the window's, not the issue's. [domains] and [key]: what the form's
    names come to, and whether a provider is chosen. *)
Record IssueWindow := MkWindow { iw_cancel : bool; iw_issuing : bool }.
Definition apply_cancel (w : IssueWindow) : IssueWindow := if iw_issuing w then MkWindow true false else w.
Definition apply_submit (domains : list string) (key : bool) (w : IssueWindow) : IssueWindow :=
  if iw_issuing w then w else match domains with [] => w | _ => if key then MkWindow false true else w end.

(** ** Reasoning *)

Definition hoare {S A : Type} (P : S -> Prop) (m : Eff S A) (Q : A -> S -> Prop) (E : S -> Prop) : Prop :=
  forall s, P s -> match m s with (Ok a, s') => Q a s' | (Err _, s') => E s' end.
Section Hoare.
Context {S A B : Type}.
Implicit Types P E : S -> Prop.
Lemma h_ret P (a : A) (Q : A -> S -> Prop) E : (forall s, P s -> Q a s) -> hoare P (io_ret a) Q E.
Proof. intros H s. apply H. Qed.
Lemma h_bail P e (Q : A -> S -> Prop) E : (forall s, P s -> E s) -> hoare P (io_bail e) Q E.
Proof. intros H s. apply H. Qed.
Lemma h_bind P (m : Eff S A) (k : A -> Eff S B) Q R E : hoare P m Q E -> (forall a, hoare (Q a) (k a) R E) -> hoare P (io_bind m k) R E.
Proof. intros Hm Hk s Hs. unfold io_bind. specialize (Hm s Hs). destruct (m s) as [[a|e] s']; [exact (Hk a s' Hm)|done]. Qed.
Lemma h_weaken P P' (m : Eff S A) Q Q' E E' : hoare P' m Q' E' ->
  (forall s, P s -> P' s) -> (forall a s, Q' a s -> Q a s) -> (forall s, E' s -> E s) -> hoare P m Q E.
Proof. intros Hm HP HQ HE s Hs. specialize (Hm s (HP _ Hs)). destruct (m s) as [[a|e] s']; auto. Qed.
Lemma keeps_bind P (m : Eff S A) (k : A -> Eff S B) : hoare P m (fun _ => P) P -> (forall a, hoare P (k a) (fun _ => P) P) ->
  hoare P (io_bind m k) (fun _ => P) P.
Proof. apply h_bind. Qed.
Lemma keeps_ret P (a : A) : hoare P (io_ret a) (fun _ => P) P.
Proof. by apply h_ret. Qed.
Lemma keeps_bail P e : hoare P (io_bail (A := A) e) (fun _ => P) P.
Proof. by apply h_bail. Qed.
End Hoare.

Section IssueFacts.
Context {W : Type} `{AliyunApi W, TencentApi W, CloudflareApi W}.
Context (root : string) {platform : Platform} `{JsonLaws (list Provider), JsonLaws (gmap string string), JsonLaws (list Cert)}.
Context (credentials_parse : string -> bool).
Implicit Types P : IssueState W -> Prop.

(** A predicate that does not look at the flag, and one that does not look at the files. *)
Definition flagless P : Prop := forall s l, P s -> P (MkIssue (ix_io s) (ix_dns s) l (ix_steps s) (ix_pending s) (ix_events s)).
Definition fileless P : Prop := forall s io, P s -> P (MkIssue io (ix_dns s) (ix_cancel s) (ix_steps s) (ix_pending s) (ix_events s)).

Lemma keeps_check P : flagless P -> hoare P check_cancel (fun _ => P) P.
Proof. intros HP s Hs. unfold check_cancel. destruct (List.hd false _); by apply HP. Qed.
Lemma keeps_result {A} P (r : Anyhow A) : hoare P (of_result r) (fun _ => P) P.
Proof. intros s Hs. unfold of_result. by destruct r. Qed.
Lemma h_context {A} P c (m : Eff (IssueState W) A) Q E : hoare P m Q E -> hoare P (with_context c m) Q E.
Proof. intros H' s Hs. unfold with_context. specialize (H' s Hs). by destruct (m s) as [[a|e] s']. Qed.
Lemma keeps_until {A} P (call : Timed A) : flagless P -> hoare P (until_cancel call) (fun _ => P) P.
Proof.
  intros HP. destruct call as [n r]. unfold until_cancel. cbn. induction n as [|n IH]; cbn; [apply keeps_result|].
  apply keeps_bind; [by apply keeps_check|]. intros ?. exact IH.
Qed.
Lemma until_result {A} (call : Timed A) (P : IssueState W -> Prop) : flagless P -> hoare P (until_cancel call) (fun a s => call.2 = Ok a /\ P s) P.
Proof.
  intros HP. destruct call as [n r]. unfold until_cancel. cbn. induction n as [|n IH]; cbn.
  - intros s Hs. unfold of_result. by destruct r.
  - eapply h_bind; [by apply keeps_check|]. intros ?. exact IH.
Qed.
Lemma h_lift {A} sight (F : Fs -> Prop) (m : Io A) (Q : A -> Fs -> Prop) E P : fileless P -> io_triple sight F m Q E ->
  hoare (fun s => (sighted sight (ix_io s) /\ F (io_fs (ix_io s))) /\ P s) (lift_io m)
    (fun a s => (sighted sight (ix_io s) /\ Q a (io_fs (ix_io s))) /\ P s) (fun s => (sighted sight (ix_io s) /\ E (io_fs (ix_io s))) /\ P s).
Proof.
  intros HP Ht s [[Hg Hf] Hp]. unfold lift_io. destruct (Ht (ix_io s) Hg Hf) as [Hg' H']. destruct (m (ix_io s)) as [[a|e] io]; cbn in *;
    (split; [done|by apply HP]).
Qed.
Lemma keeps_lift {A} (m : Io A) P : fileless P -> hoare P (lift_io m) (fun _ => P) P.
Proof. intros HP s Hp. unfold lift_io. destruct (m (ix_io s)) as [[a|e] io]; by apply HP. Qed.
Lemma keeps_wait P pending (ac : Acme) : flagless P -> hoare P (wait_records ac pending) (fun _ => P) P.
Proof.
  intros HP. assert (forall host expected rounds before attempt, hoare P (wait_attempts host expected rounds attempt before check_cancel) (fun _ => P) P) as Hw.
  { intros host expected rounds before. induction before as [|before IH]; intros attempt; cbn; (apply keeps_bind; [by apply keeps_check|]); intros ?;
      (destruct (txt_visible _ _); [apply keeps_ret|]); [apply keeps_bail|apply IH]. }
  induction pending as [|p pending IH]; cbn; [apply keeps_ret|]. apply keeps_bind; [by apply keeps_check|]. intros ?.
  apply keeps_bind; [apply h_context, Hw|]. intros ?. exact IH.
Qed.
Lemma keeps_set_ready P l : flagless P -> hoare P (set_ready l) (fun _ => P) P.
Proof.
  intros HP. induction l as [|result l IH]; cbn; [apply keeps_ret|]. apply keeps_bind; [by apply keeps_check|]. intros ?.
  apply keeps_bind; [apply h_context, keeps_result|]. intros [[] [[identifier value]|] sr]; cbn; try exact IH;
    (apply keeps_bind; [apply h_context, keeps_result|]; intros ?; exact IH).
Qed.
Lemma keeps_account P ac : flagless P -> fileless P -> hoare P (load_or_create_account credentials_parse ac) (fun _ => P) P.
Proof.
  intros HP HF. unfold load_or_create_account. apply keeps_bind; [apply h_context, keeps_result|]. intros ?.
  apply keeps_bind; [by apply keeps_lift|]. intros [|].
  - apply keeps_bind; [by apply keeps_lift|]. intros raw. destruct (negb _); [apply keeps_bail|apply h_context, keeps_result].
  - apply keeps_bind; [apply h_context, keeps_result|]. intros creds. apply keeps_bind; [by apply keeps_lift|]. intros ?. by apply keeps_lift.
Qed.

(** *** The records that were made *)

Definition upserted_ids (events : list DnsEvent) : list string :=
  omap (fun e => match e with DnsUpserted _ _ (Ok id) => Some id | _ => None end) events.
Definition only_upserts (events : list DnsEvent) : Prop := Forall (fun e => match e with DnsUpserted _ _ _ => True | _ => False end) events.
Definition pending_ok (s : IssueState W) : Prop := map pt_record_id (ix_pending s) = upserted_ids (ix_events s) /\ only_upserts (ix_events s).
Definition cleaned_up (s : IssueState W) : Prop :=
  exists ups, ix_events s = (ups ++ map DnsDeleted (upserted_ids ups))%list /\ only_upserts ups.

Lemma upsert_pending dns host value : hoare pending_ok (upsert dns host value)
  (fun id s => (map pt_record_id (ix_pending s) ++ [id])%list = upserted_ids (ix_events s) /\ only_upserts (ix_events s)) pending_ok.
Proof.
  intros s [Hp Ho]. unfold upsert, pending_ok, only_upserts, upserted_ids in *. destruct (upsert_txt dns host value (ix_dns s)) as [r w].
  assert (Forall (fun e => match e with DnsUpserted _ _ _ => True | _ => False end) (ix_events s ++ [DnsUpserted host value r])%list) as Ho'
    by (apply Forall_app; split; [done|by apply Forall_singleton]).
  destruct r as [id|e]; cbn [ix_pending ix_events]; rewrite omap_app; cbn; rewrite Hp; [done|]. by rewrite List.app_nil_r.
Qed.
Lemma keeps_write dns l : hoare pending_ok (write_records dns l) (fun _ => pending_ok) pending_ok.
Proof.
  induction l as [|result l IH]; cbn; [apply keeps_ret|]. apply keeps_bind; [apply keeps_check; exact (fun _ _ H => H)|]. intros ?.
  apply keeps_bind; [apply h_context, keeps_result|]. intros [[| |other] challenge sr]; cbn; [|exact IH|apply keeps_bail].
  destruct challenge as [[identifier value]|]; [|apply keeps_bail].
  eapply h_bind; [apply upsert_pending|].
  intros id. apply h_bind with (Q := fun _ => pending_ok); [|intros ?; exact IH].
  intros s [Hp Ho]. unfold push_pending, pending_ok. cbn. rewrite map_app. cbn. by rewrite Hp.
Qed.
Lemma keeps_step P step : (forall s l, P s -> P (MkIssue (ix_io s) (ix_dns s) (ix_cancel s) l (ix_pending s) (ix_events s))) ->
  hoare P (on_step step) (fun _ => P) P.
Proof. intros HP s Hs. cbn. by apply HP. Qed.
Ltac kept := first [apply keeps_check; exact (fun _ _ H => H)|apply keeps_step; exact (fun _ _ H => H)|apply h_context, keeps_until; exact (fun _ _ H => H)
  |apply h_context, keeps_result|apply keeps_lift; exact (fun _ _ H => H)|apply keeps_result|apply keeps_set_ready; exact (fun _ _ H => H)
  |apply keeps_account; exact (fun _ _ H => H)|apply keeps_ret|apply keeps_bail].

Lemma keeps_obtain dns ac domains pid uuid na : hoare pending_ok (obtain root dns ac domains pid uuid na) (fun _ => pending_ok) pending_ok.
Proof.
  unfold obtain. apply keeps_bind; [apply keeps_write|]. intros ?. apply keeps_bind; [kept|]. intros ?.
  apply keeps_bind; [intros s Hs; apply keeps_wait; [exact (fun _ _ H => H)|exact Hs]|]. intros ?.
  repeat (apply keeps_bind; [kept|]; intros ?). destruct (negb _); [kept|].
  repeat (apply keeps_bind; [kept|]; intros ?). kept.
Qed.
Lemma cleanup_dns_events dns ids (s : IssueState W) : ix_events (cleanup_dns dns ids s).2 = (ix_events s ++ map DnsDeleted ids)%list
  /\ ix_io (cleanup_dns dns ids s).2 = ix_io s.
Proof.
  revert s. induction ids as [|id ids IH]; intros s; cbn; [by rewrite List.app_nil_r|]. unfold io_bind at 1 2.
  destruct (delete_txt dns id (ix_dns s)) as [r w]. rewrite (proj1 (IH _)), (proj2 (IH _)). cbn. by rewrite <- List.app_assoc.
Qed.
Lemma cleanup_events dns (s : IssueState W) : ix_events (cleanup dns s).2 = (ix_events s ++ map DnsDeleted (map pt_record_id (ix_pending s)))%list
  /\ ix_io (cleanup dns s).2 = ix_io s.
Proof.
  unfold cleanup. destruct (map pt_record_id (ix_pending s)) as [|id ids]; [cbn; by rewrite List.app_nil_r|].
  unfold io_bind. cbn [on_step]. destruct (cleanup_dns_events dns (id :: ids) (MkIssue (ix_io s) (ix_dns s) (ix_cancel s) (ix_steps s ++ [Cleanup])%list (ix_pending s) (ix_events s))) as [-> ->].
  done.
Qed.

(** C30: No record is left behind. However an issue ends - with a certificate, with an
    error of the authority, the resolvers, the files or the DNS service, or cancelled
    at any point - the records that the service reported to have made are the ones it
    is asked to delete, each once, in order, after everything else. *)
Theorem issue_cleans_up (ac : Acme) (req : IssueRequest) (uuid not_after : string) (s : IssueState W) :
  ix_pending s = [] -> ix_events s = [] ->
  exists ups, ix_events (issue root credentials_parse ac req uuid not_after s).2 = (ups ++ map DnsDeleted (upserted_ids ups))%list /\ only_upserts ups.
Proof.
  intros Hp He. set (P := fun s : IssueState W => ix_pending s = [] /\ ix_events s = []).
  assert (forall s, P s -> cleaned_up s) as HP by (intros s' [_ He']; exists []; rewrite He'; split; [done|by apply Forall_nil]).
  enough (hoare P (issue root credentials_parse ac req uuid not_after) (fun _ => cleaned_up) cleaned_up) as Hh.
  { specialize (Hh s (conj Hp He)). by destruct (issue _ _ _ _ _ _ s) as [[?|?] ?]. }
  unfold issue. destruct (clean_domains (iq_domains req)) as [|d0 ds] eqn:Ed; [by apply h_bail|]. destruct (List.find _ _); [by apply h_bail|].
  assert (forall A B (m : Eff (IssueState W) A) (k : A -> Eff _ B), hoare P m (fun _ => P) P -> (forall a, hoare P (k a) (fun _ => cleaned_up) cleaned_up) ->
    hoare P (io_bind m k) (fun _ => cleaned_up) cleaned_up) as Hbind.
  { intros A B m k Hm Hk. eapply h_bind; [|exact Hk]. eapply h_weaken; [exact Hm|done|done|exact HP]. }
  apply Hbind; [kept|]. intros [provider|]; [|by apply h_bail]. apply Hbind; [kept|]. intros [secret|]; [|by apply h_bail].
  apply Hbind; [kept|]. intros dns. repeat (apply Hbind; [kept|]; intros ?).
  intros s' [Hp' He']. unfold then_cleanup.
  pose proof (keeps_obtain dns ac (d0 :: ds) (iq_provider_id req) uuid not_after s' ltac:(split; [by rewrite Hp', He'|by rewrite He'; apply Forall_nil])) as Ho.
  destruct (obtain _ _ _ _ _ _ _ s') as [r s1]. assert (pending_ok s1) as [Hq Hu] by (by destruct r).
  assert (cleaned_up (cleanup dns s1).2) as Hc.
  { exists (ix_events s1). split; [|done]. rewrite (proj1 (cleanup_events dns s1)). by rewrite Hq. }
  by destruct r.
Qed.

(** *** The certificate *)

(** The index says [cs], and no existence check fails. *)
Definition index_says (cs : list Cert) (fs : Fs) : Prop := view [] certs_index_path fs = Some cs.
Definition index_is (cs : list Cert) (s : IssueState W) : Prop := sighted true (ix_io s) /\ index_says cs (io_fs (ix_io s)).
(** What it takes for a certificate to be issued. *)
Definition issued (ac : Acme) (cs : list Cert) (c : Cert) (s : IssueState W) : Prop :=
  (exists debug, (ac_poll_ready ac).2 = Ok (true, debug))
  /\ (exists key chain b, (ac_finalize ac).2 = Ok key /\ (ac_poll_certificate ac).2 = Ok chain
     /\ io_fs (ix_io s) !! cert_pem_path (ce_id c) = Some (MkFile chain b) /\ key_kept (io_fs (ix_io s)) (key_pem_path (ce_id c)) key)
  /\ index_is (c :: List.filter (fun d => negb (String.eqb (ce_id d) (ce_id c))) cs) s.

Lemma h_know {A} (p : Prop) P (m : Eff (IssueState W) A) Q E : (p -> hoare P m Q E) -> hoare (fun s => p /\ P s) m Q E.
Proof. intros H' s [Hp Hs]. exact (H' Hp s Hs). Qed.
Lemma keeps_write_index cs dns l : hoare (index_is cs) (write_records dns l) (fun _ => index_is cs) (index_is cs).
Proof.
  induction l as [|result l IH]; cbn -[upsert]; [apply keeps_ret|]. apply keeps_bind; [kept|]. intros ?.
  apply keeps_bind; [kept|]. intros [[| |other] challenge sr]; cbn -[upsert]; [|exact IH|kept].
  destruct challenge as [[identifier value]|]; [|kept].
  apply keeps_bind; [intros s Hs; unfold upsert; by destruct (upsert_txt dns _ value (ix_dns s)) as [[id|e] w]|].
  intros id. apply keeps_bind; [by intros s Hs|]. intros ?. exact IH.
Qed.
Lemma obtain_index dns ac domains pid uuid na cs :
  hoare (index_is cs) (obtain root dns ac domains pid uuid na)
    (fun c s => c = MkCert (new_id "c" uuid) domains pid na /\ issued ac cs c s) (index_is cs).
Proof.
  unfold obtain. eapply h_bind; [apply keeps_write_index|]. intros ?. eapply h_bind; [kept|]. intros ?.
  eapply h_bind with (Q := fun _ => index_is cs); [intros s Hs; exact (keeps_wait (index_is cs) _ _ (fun _ _ H => H) s Hs)|]. intros ?.
  eapply h_bind; [kept|]. intros ?. eapply h_bind; [kept|]. intros ?.
  eapply h_bind; [apply h_context, until_result; exact (fun _ _ H => H)|]. intros [ready debug]. apply h_know. intros Eready.
  destruct ready; cbn [fst snd negb]; [|by apply h_bail].
  eapply h_bind; [kept|]. intros ?. eapply h_bind; [kept|]. intros ?.
  eapply h_bind; [apply h_context, until_result; exact (fun _ _ H => H)|]. intros key. apply h_know. intros Ekey.
  eapply h_bind; [apply h_context, until_result; exact (fun _ _ H => H)|]. intros chain. apply h_know. intros Echain.
  set (c := MkCert _ _ _ _). eapply h_bind with (Q := fun _ => issued ac cs c).
  - eapply h_weaken; [apply (h_lift _ _ _ _ _ (fun _ => True) ltac:(done) (t_add_cert_index root c chain key cs))|done| |by intros s [? _]].
    intros ? s ((Hg & Hv & [b Hb] & Hk) & _). split; [by exists debug|]. split; [by exists key, chain, b|done].
  - intros ?. by apply h_ret.
Qed.

Lemma index_lift {A} cs (m : Io A) : io_triple true (index_says cs) m (fun _ => index_says cs) (index_says cs) ->
  hoare (index_is cs) (lift_io (W := W) m) (fun _ => index_is cs) (index_is cs).
Proof.
  intros Ht. eapply h_weaken; [apply (h_lift _ _ _ _ _ (fun _ => True) ltac:(done) Ht)|done|by intros ? s [? _]|by intros s [? _]].
Qed.
(** Reading another file, whatever it says. *)
Lemma t_read_any {A : Type} `{Json A} sight (P : Fs -> Prop) (dflt : A) p : io_triple sight P (read_json_or_default root dflt p) (fun _ => P) P.
Proof.
  unfold read_json_or_default. eapply t_bind; [apply t_fs_exists|]. intros [|]; cbn [negb]; [|apply t_ret; by intros fs [? _]].
  eapply t_bind; [eapply t_weaken; [apply (t_fs_read P)|by intros fs [? _]|exact (fun _ _ H => H)|done]|]. intros raw.
  destruct (is_empty _); [apply t_ret; by intros fs [? _]|]. destruct (from_json _); [apply t_ret|apply t_bail]; by intros fs [? _].
Qed.
Lemma index_read {A B} `{Json A} cs (dflt : A) p (f : A -> B) :
  hoare (index_is cs) (lift_io (do? a := read_json_or_default root dflt p in io_ret (f a))) (fun _ => index_is cs) (index_is cs).
Proof. apply index_lift. eapply t_bind; [apply t_read_any|]. intros a. by apply t_ret. Qed.
(** The account's file is not the index. *)
Lemma account_index cs ac : hoare (index_is cs) (load_or_create_account credentials_parse ac) (fun _ => index_is cs) (index_is cs).
Proof.
  assert (forall fs f, index_says cs fs -> index_says cs (<[acme_account_path := f]> fs)) as Hput.
  { intros fs f Hv. unfold index_says. rewrite (view_same _ _ fs); [done|]. by apply lookup_insert_ne. }
  unfold load_or_create_account. apply keeps_bind; [kept|]. intros ?.
  apply keeps_bind; [apply index_lift; eapply t_weaken; [apply t_fs_exists|done|by intros ? fs [? _]|done]|]. intros [|].
  - apply keeps_bind; [apply index_lift; eapply t_weaken; [apply t_fs_read|done|by intros ? fs [? _]|done]|].
    intros raw. destruct (negb _); kept.
  - apply keeps_bind; [kept|]. intros creds.
    apply keeps_bind; [apply index_lift, t_call; [intros fs Hf; by apply Hput|intros fs [r|] Hf; [by apply Hput|done]]|]. intros ?.
    apply index_lift, t_private; [done|]. intros fs Hf. unfold index_says. by rewrite made_private_view.
Qed.

(** Issuing is all or nothing. A certificate that is returned is for the requested
    names, the authority validated the order, and it heads the store's list with its
    chain and its private key on disk; on any error, or when cancelled, the list is
    what it was - as long as no check whether a file exists fails. *)
Theorem issue_all_or_nothing (ac : Acme) (req : IssueRequest) (uuid not_after : string) (cs : list Cert) (s : IssueState W) :
  Blind ∉ io_faults (ix_io s) -> view [] certs_index_path (io_fs (ix_io s)) = Some cs ->
  match issue root credentials_parse ac req uuid not_after s with
  | (Ok c, s') => c = MkCert (new_id "c" uuid) (clean_domains (iq_domains req)) (iq_provider_id req) not_after /\ issued ac cs c s'
  | (Err _, s') => view [] certs_index_path (io_fs (ix_io s')) = Some cs
  end.
Proof.
  intros Hg Hv. enough (hoare (index_is cs) (issue root credentials_parse ac req uuid not_after)
    (fun c s => c = MkCert (new_id "c" uuid) (clean_domains (iq_domains req)) (iq_provider_id req) not_after /\ issued ac cs c s) (index_is cs)) as Hh.
  { specialize (Hh s (conj (fun _ => Hg) Hv)). destruct (issue _ _ _ _ _ _ s) as [[c|e] s']; [done|exact (proj2 Hh)]. }
  clear s Hg Hv. unfold issue. destruct (clean_domains (iq_domains req)) as [|d0 ds] eqn:Ed; [by apply h_bail|]. destruct (List.find _ _); [by apply h_bail|].
  eapply h_bind; [apply index_read|]. intros [provider|]; [|by apply h_bail].
  eapply h_bind; [apply index_read|]. intros [secret|]; [|by apply h_bail].
  eapply h_bind; [kept|]. intros dns. do 2 (eapply h_bind; [kept|]; intros ?).
  eapply h_bind; [apply account_index|]. intros ?. do 5 (eapply h_bind; [kept|]; intros ?).
  intros s Hs. unfold then_cleanup. cbv beta. pose proof (obtain_index dns ac (d0 :: ds) (iq_provider_id req) uuid not_after cs s Hs) as Ho.
  destruct (obtain _ _ _ _ _ _ _ s) as [r s1]. pose proof (proj2 (cleanup_events dns s1)) as Ei.
  destruct r as [c|e]; [destruct Ho as [-> Ho]; split; [done|]|]; unfold issued, index_is in *; by rewrite Ei.
Qed.

(** *** What the window shows

    When the flag is found set while the authority is waited for, the error carries the
    call's context and no longer says that it was cancelled: the time that ran out is
    shown as a failure of the call. *)
Theorem timeout_shown_as_failure {A} (c : string) (call : Timed A) k rest (s : IssueState W) :
  k < call.1 -> ix_cancel s = (replicate k false ++ true :: rest)%list ->
  (with_context c (until_cancel call) s).1 = Err c.
Proof.
  destruct call as [n r]. unfold with_context, until_cancel. cbn [fst snd]. revert k s.
  induction n as [|n IH]; intros k s Hk Hc; [lia|]. cbn. unfold io_bind, check_cancel. rewrite Hc.
  destruct k as [|k]; cbn; [done|]. apply (IH k); [lia|done].
Qed.
End IssueFacts.
Lemma poll_ready_timeout_shown : issue_shown true true (submit_result true (Err "acme poll_ready")) = ShownFailed "acme poll_ready"
  /\ issue_shown true true (submit_result true (Err "wait dns propagation")) = ShownFailed "wait dns propagation"
  /\ issue_shown true true (submit_result true (Err "cancelled")) = ShownTimeout.
Proof. by vm_compute. Qed.
(** Asking again right after cancelling takes the flag back from the issue that has not
    seen it yet. *)
Lemma resubmit_uncancels w d ds : iw_issuing w = false ->
  iw_cancel (apply_cancel (apply_submit (d :: ds) true w)) = true
  /\ iw_cancel (apply_submit (d :: ds) true (apply_cancel (apply_submit (d :: ds) true w))) = false.
Proof. unfold apply_submit. by intros ->. Qed.

(** *** Witnesses *)

#[local] Existing Instance ex_store_json.
#[local] Existing Instance ex_store_json_laws.
#[local] Existing Instance ex_unix.
(** A service that hosts one zone and numbers its records. *)
#[local] Instance ex_aliyun : AliyunApi nat := {
  al_describe_domain _ := io_bail "none"; al_describe_records _ _ := io_bail "none"; al_delete_record _ := io_bail "none"; al_add_record _ _ _ := io_bail "none" }.
#[local] Instance ex_tencent : TencentApi nat := {
  tc_domain_list := io_bail "none"; tc_record_list _ _ _ := io_bail "none"; tc_delete_record _ _ _ := io_bail "none"; tc_create_record _ _ _ _ := io_bail "none" }.
#[local] Instance ex_cloudflare : CloudflareApi nat := {
  cf_zones name := io_ret (true, if String.eqb name "a.example" then [("z", name)] else []);
  cf_txt_records _ _ := io_ret [];
  cf_create_txt _ _ _ := fun n => (Ok (true, show_N (N.of_nat n)), S n);
  cf_delete_txt _ _ := io_ret true }.
Definition ex_acme : Acme :=
  MkAcme (Ok tt) (fun _ => Ok tt) (Ok "credentials") (fun _ => Ok tt)
    [Ok (MkAuthz AzPending (Some ("a.example", "v1")) (Ok tt)); Ok (MkAuthz AzPending (Some ("w.a.example", "v2")) (Ok tt))]
    (fun p attempt => if (attempt <? 2)%nat then [Err "doh request"] else [Ok [pt_value p]]) (fun _ => 50)
    [Ok (MkAuthz AzPending (Some ("a.example", "v1")) (Ok tt)); Ok (MkAuthz AzValid None (Ok tt))]
    (3, Ok (true, "Ready")) (1, Ok "key") (2, Ok "chain").
Definition ex_issue_state (cancel : list bool) : IssueState nat :=
  MkIssue (MkIoState (store_run "/data" ∅ ex_ops) []) 7 cancel [] [] [].
Definition ex_request : IssueRequest := MkIssueRequest [" A.example. "; "w.a.example"] "p_0123456789ab".
Definition ex_issue (cancel : list bool) : Anyhow Cert * IssueState nat :=
  issue "/data" (fun _ => true) ex_acme ex_request "4123456789abcdef" "2026-01-01T00:00:00Z" (ex_issue_state cancel).

Lemma issue_cleans_up_witness :
  ix_events (ex_issue (replicate 8 false ++ [true])%list).2
    = [DnsUpserted "_acme-challenge.a.example" "v1" (Ok "z:7"); DnsUpserted "_acme-challenge.w.a.example" "v2" (Ok "z:8"); DnsDeleted "z:7"; DnsDeleted "z:8"]
  /\ exists ups, ix_events (ex_issue (replicate 8 false ++ [true])%list).2 = (ups ++ map DnsDeleted (upserted_ids ups))%list /\ only_upserts ups.
Proof.
  split; [vm_compute; reflexivity|]. unfold ex_issue.
  pose proof (issue_cleans_up "/data" (fun _ => true) ex_acme ex_request "4123456789abcdef" "2026-01-01T00:00:00Z"
    (ex_issue_state (replicate 8 false ++ [true])%list)) as H.
  apply H; reflexivity.
Defined.
Lemma issue_all_or_nothing_witness : is_ok (ex_issue []).1 = true
  /\ match ex_issue [] with
     | (Ok c, s') => c = MkCert (new_id "c" "4123456789abcdef") (clean_domains (iq_domains ex_request)) (iq_provider_id ex_request) "2026-01-01T00:00:00Z"
         /\ issued ex_acme [MkCert "c_2123456789ab" ["a.example"] "p_0123456789ab" "2026-01-01T00:00:00Z"] c s'
     | (Err _, s') => view [] certs_index_path (io_fs (ix_io s')) = Some [MkCert "c_2123456789ab" ["a.example"] "p_0123456789ab" "2026-01-01T00:00:00Z"]
     end.
Proof.
  split; [vm_compute; reflexivity|]. unfold ex_issue.
  pose proof (issue_all_or_nothing "/data" (fun _ => true) ex_acme ex_request "4123456789abcdef" "2026-01-01T00:00:00Z"
    [MkCert "c_2123456789ab" ["a.example"] "p_0123456789ab" "2026-01-01T00:00:00Z"] (ex_issue_state [])) as H.
  apply H; [cbn; intros Hin; inversion Hin|vm_compute; reflexivity].
Defined.
Lemma timeout_shown_as_failure_witness : (with_context "acme poll_ready" (until_cancel (180, Ok true)) (ex_issue_state [false; true])).1 = Err "acme poll_ready".
Proof. apply (timeout_shown_as_failure "acme poll_ready" (180, Ok true) 1 []); [cbn; lia|reflexivity]. Defined.
