(* ===== verification/CertLibrary.v ===== *)
(** * The library of certificates in the desktop's windows

    [desktop/src/cert_bridge.rs] and the certificate page's handlers of
    [desktop/src/main.rs]: the rows the page shows of the store, the files a tunnel
    takes from it, and what may be deleted.  chrono's dates are a parameter; what the
    list of certificates reads as is an argument where only that matters. *)

From Stdlib Require Import Sorting.Sorted.
From S2P Require Import Prelude RustStr Utf8 Examples Config CertStore CertIssue DesktopConfig.

Local Open Scope string_scope.

(** ** Paths *)

(** [Path]'s equality is by components: separators may repeat and end a path, and a
    dot is a component only where it begins a relative one. *)
Definition path_components (s : string) : bool * list string :=
  let parts := List.filter (fun p => negb (is_empty p)) (split "/" s) in
  let absolute := starts_with "/" s in
  let no_dots := List.filter (fun p => negb (String.eqb p ".")) in
  (absolute, match parts with
             | "." :: rest => if absolute then no_dots parts else "." :: no_dots rest
             | _ => no_dots parts
             end).
Definition paths_eq (a b : string) : bool := bool_decide (path_components (trim a) = path_components (trim b)).

(** ** Text *)

Definition vendor_label (v : Vendor) : string := match v with Cloudflare => "Cloudflare" | Aliyun => "Aliyun" | Tencent => "Tencent" end.

(** [s.chars()]: the bytes of each character. *)
Fixpoint char_list_go (fuel : nat) (s : string) : list string :=
  match fuel, s with
  | S fuel, String _ _ => let n := Nat.max 1 (utf8_head s).1 in stake n s :: char_list_go fuel (sdrop n s)
  | _, _ => []
  end.
Definition char_list (s : string) : list string := char_list_go (String.length s) s.
Definition bytes (l : list N) : string := foldr (fun b s => String (byte_of b) s) "" l.
Definition bullet : string := bytes [226; 128; 162]%N.
Definition MID : string := join "" (replicate 8 bullet).
Definition mask_secret (s : string) : string :=
  let chars := char_list (trim s) in
  if (length chars <=? 4 + 4)%nat then MID else
  join "" (take 4 chars) ++ MID ++ join "" (drop (length chars - 4) chars).
Definition middle_dot : string := bytes [194; 183]%N.

(** ** Rows *)

Class CertDates := { parse_time : string -> option Z; format_day : Z -> string }.

Record CertRow := MkCertRow {
  cr_id : string; cr_domains : string; cr_not_after : string; cr_provider_id : string; cr_provider_name : string; cr_expired : bool }.
Record KeyRow := MkKeyRow {
  kr_id : string; kr_name : string; kr_vendor : string; kr_vendor_index : Z; kr_access_key_id : string; kr_secret_mask : string }.
(** What [refresh] puts on the page: rows, and the labels of two lists. *)
Record CertPage := MkCertPage { cg_certs : list CertRow; cg_keys : list KeyRow; cg_key_labels : list string; cg_library_labels : list string }.

Section Rows.
Context `{CertDates}.

Definition is_expired (now : Z) (not_after : string) : bool := match parse_time not_after with Some t => (t <? now)%Z | None => false end.
Definition display_not_after (not_after : string) : string := match parse_time not_after with Some t => format_day t | None => not_after end.
Definition cert_row (now : Z) (providers : list Provider) (c : Cert) : CertRow :=
  MkCertRow (ce_id c) (join ", " (ce_domains c)) (display_not_after (ce_not_after c)) (ce_provider_id c)
    (match List.find (fun p => String.eqb (pr_id p) (ce_provider_id c)) providers with
     | Some p => pr_name p ++ " " ++ middle_dot ++ " " ++ vendor_label (pr_vendor p) | None => "" end)
    (is_expired now (ce_not_after c)).
(** [secret]: what [get_secret] gives, an error included. *)
Definition key_row (secret : string -> Anyhow (option string)) (p : Provider) : KeyRow :=
  MkKeyRow (pr_id p) (pr_name p) (vendor_label (pr_vendor p)) (vendor_index (pr_vendor p)) (pr_access_key_id p)
    (match secret (pr_id p) with Ok (Some s) => mask_secret s | _ => MID end).
Definition refresh (now : Z) (certs : Anyhow (list Cert)) (providers : Anyhow (list Provider)) (secret : string -> Anyhow (option string)) : CertPage :=
  let '(certs, providers) := match certs, providers with Ok c, Ok k => (c, k) | _, _ => ([], []) end in
  let cert_rows := map (cert_row now providers) certs in
  let key_rows := map (key_row secret) providers in
  MkCertPage cert_rows key_rows (map (fun k => kr_name k ++ " " ++ middle_dot ++ " " ++ kr_vendor k) key_rows)
    (map (fun c => cr_domains c ++ " (" ++ cr_not_after c ++ ")") cert_rows).
End Rows.

(** ** A tunnel's files *)

Section Library.
Context (root : string).

Definition cert_pem_display (id : string) : string := show_path root (cert_pem_path id).
Definition key_pem_display (id : string) : string := show_path root (key_pem_path id).

(** [certs]: what reading the list gives, at the one reading of each. *)
Definition resolve_library_paths (certs : Anyhow (list Cert)) (cert_id : string) : Anyhow (string * string) :=
  let? l := certs in
  match List.find (fun c => String.eqb (ce_id c) cert_id) l with
  | Some _ => Ok (cert_pem_display cert_id, key_pem_display cert_id)
  | None => Err "cert not found"
  end.
Fixpoint find_index (cert_file key_file : string) (i : nat) (l : list Cert) : option Z :=
  match l with
  | [] => None
  | c :: l =>
      if paths_eq cert_file (cert_pem_display (ce_id c)) && paths_eq key_file (key_pem_display (ce_id c)) then Some (Z.of_nat i)
      else find_index cert_file key_file (S i) l
  end.
Definition find_library_index (certs : Anyhow (list Cert)) (cert_file key_file : string) : option Z :=
  match certs with Ok l => find_index cert_file key_file 0 l | Err _ => None end.
(** [index as usize]: a negative one is out of range. *)
Definition library_cert_id_at (certs : Anyhow (list Cert)) (index : Z) : option string :=
  match certs with
  | Ok l => if (index <? 0)%Z then None else ce_id <$> l !! Z.to_nat index
  | Err _ => None
  end.

(** Of a tunnel's row, what decides whether it uses a certificate. *)
Definition uses_cert (cp kp : string) (p : TunnelParts) : bool :=
  tp_plugin_tls_term p && paths_eq (tp_plugin_cert_file p) cp && paths_eq (tp_plugin_key_file p) kp.
Definition cert_paths_used_by_tunnels (certs : Anyhow (list Cert)) (cert_id : string) (tunnels : list TunnelParts) : bool :=
  match resolve_library_paths certs cert_id with
  | Ok (cp, kp) => existsb (uses_cert cp kp) tunnels
  | Err _ => false
  end.

(** ** The page's handlers *)

Context `{Platform, Json (list Provider), Json (gmap string string), Json (list Cert)}.

Definition save_provider (uuid_simple id name : string) (vendor : Z) (access_key_id secret : string) : Io unit :=
  match vendor_from_index vendor with
  | None => io_bail "invalid vendor"
  | Some v =>
      let secret_opt := if is_empty (trim secret) then None else Some (trim secret) in
      do? _p := upsert_provider root uuid_simple (MkProvider id (trim name) v (trim access_key_id)) secret_opt in io_ret tt
  end.
Definition on_cert_key_save (uuid_simple id name : string) (vendor : Z) (access_key_id secret : string) : Io unit :=
  if is_empty (trim name) then io_bail "cert_key_name_required" else
  if is_empty id && is_empty (trim secret) then io_bail "cert_secret_required" else
  save_provider uuid_simple id name vendor access_key_id secret.
(** [row]: the id of the page's row at the index, when there is one; the list is read
    once to see whether a tunnel uses the certificate and again to delete it. *)
Definition on_cert_delete (row : option string) (tunnels : list TunnelParts) : Io unit :=
  match row with
  | None => io_ret tt
  | Some id =>
      fun s =>
        let '(certs, s) := load_certs root s in
        if cert_paths_used_by_tunnels certs id tunnels then (Err "cert_in_use", s) else delete_cert root id s
  end.
End Library.

(** ** Progress *)

(** [IssueProgress::report] while an issue runs: the furthest step so far, and the
    steps the window is told. *)
Definition progress_report (last : Z) (shown : list Z) (step : IssueStep) : Z * list Z :=
  let step_i := step_index step in
  let next := Z.max last step_i in
  if (step_i <=? last)%Z then (next, shown) else (next, (shown ++ [step_i])%list).
Definition progress_run (steps : list IssueStep) : Z * list Z :=
  fold_left (fun '(last, shown) step => progress_report last shown step) steps ((-1)%Z, []).

(** ** Lemmas *)

Lemma char_list_go_join fuel s : String.length s <= fuel -> join "" (char_list_go fuel s) = s.
Proof.
  revert s. induction fuel as [|fuel IH]; intros [|a s] Hl; cbn [char_list_go]; try done; [cbn in Hl; lia|].
  set (n := Nat.max 1 (utf8_head (String a s)).1). assert (0 < n) as Hn by lia.
  assert (join "" (char_list_go fuel (sdrop n (String a s))) = sdrop n (String a s)) as Hrest.
  { apply IH. rewrite length_sdrop. cbn [String.length] in *. lia. }
  assert (forall w l, join "" (w :: l) = (w ++ join "" l)%string) as Hj by (intros w [|? ?]; cbn [join]; [by rewrite app_nil_r|done]).
  rewrite Hj, Hrest. apply stake_sdrop.
Qed.
Lemma join_empty_app (a b : list string) : join "" (a ++ b)%list = join "" a ++ join "" b.
Proof.
  assert (forall w l, join "" (w :: l) = (w ++ join "" l)%string) as Hj by (intros w [|? ?]; cbn [join]; [by rewrite app_nil_r|done]).
  induction a as [|w a IH]; [done|]. cbn [List.app]. by rewrite !Hj, IH, app_assoc.
Qed.
Lemma char_list_nonempty s : Forall (fun w => w <> "") (char_list s).
Proof.
  unfold char_list. generalize (String.length s) as fuel. intros fuel. revert s. induction fuel as [|fuel IH]; intros [|a s]; cbn [char_list_go]; try constructor; [|apply IH].
  by destruct (Nat.max 1 (utf8_head (String a s)).1) as [|n] eqn:E; [lia|].
Qed.
Lemma join_nonempty l w : w ∈ l -> w <> "" -> join "" l <> "".
Proof.
  intros Hw Hne. apply list_elem_of_split in Hw as (a & b & ->). rewrite join_empty_app. intros E.
  assert (join "" (w :: b) = "") as E2 by (destruct (join "" a); [exact E|done]).
  destruct b; cbn [join] in E2; destruct w; done.
Qed.

Lemma find_index_spec root cert key l i z : find_index root cert key i l = Some z ->
  exists k c, l !! k = Some c /\ z = Z.of_nat (i + k) /\ paths_eq cert (cert_pem_display root (ce_id c)) = true /\ paths_eq key (key_pem_display root (ce_id c)) = true.
Proof.
  revert i. induction l as [|c l IH]; intros i; cbn [find_index]; [done|]. destruct (_ && _) eqn:E.
  - intros [= <-]. apply andb_prop in E as [? ?]. exists 0, c. rewrite Nat.add_0_r. done.
  - intros (k & c' & Hk & -> & ?)%IH. exists (S k), c'. split; [done|]. split; [f_equal; lia|done].
Qed.
Lemma find_listed l c : c ∈ l -> exists c', List.find (fun d => String.eqb (ce_id d) (ce_id c)) l = Some c'.
Proof.
  intros Hc. destruct (List.find _ l) as [c'|] eqn:E; [by exists c'|]. exfalso.
  apply list_elem_of_In in Hc. apply (List.find_none _ _ E) in Hc. by rewrite String.eqb_refl in Hc.
Qed.

(** ** Properties *)

(** A certificate found in the library for a tunnel's files is chosen by its index
    and gives the same files back. *)
Theorem library_choice_roundtrip (root : string) (l : list Cert) (cert key : string) (i : Z) :
  find_library_index root (Ok l) cert key = Some i ->
  exists id c k, library_cert_id_at (Ok l) i = Some id /\ resolve_library_paths root (Ok l) id = Ok (c, k)
    /\ paths_eq cert c = true /\ paths_eq key k = true.
Proof.
  intros (k & c & Hk & -> & Hc & Hkey)%find_index_spec. cbn [Nat.add] in *. unfold library_cert_id_at.
  rewrite (proj2 (Z.ltb_ge _ _)) by lia. rewrite Nat2Z.id, Hk. exists (ce_id c), (cert_pem_display root (ce_id c)), (key_pem_display root (ce_id c)).
  split; [done|]. split; [|done]. unfold resolve_library_paths.
  destruct (find_listed l c) as [c' ->]; [by apply list_elem_of_lookup_2 in Hk|done].
Qed.

(** What a secret's mask leaves out is not empty, and short secrets do not show at all. *)
Theorem mask_hides (s : string) : mask_secret s = MID \/
  exists head hidden tail, trim s = head ++ hidden ++ tail /\ mask_secret s = head ++ MID ++ tail /\ hidden <> ""
    /\ length (char_list (trim s)) > 8.
Proof.
  unfold mask_secret. set (l := char_list (trim s)). destruct (Nat.leb_spec (length l) (4 + 4)) as [Hl|Hl]; [by left|right].
  exists (join "" (take 4 l)), (join "" (take (length l - 8) (drop 4 l))), (join "" (drop (length l - 4) l)).
  split; [|split; [done|split; [|exact Hl]]].
  - rewrite <- !join_empty_app. replace (drop (length l - 4) l) with (drop (length l - 8) (drop 4 l)) by (rewrite drop_drop; f_equal; lia).
    rewrite !take_drop. symmetry. by apply char_list_go_join.
  - destruct (l !! 4) as [w|] eqn:Hw; [|apply lookup_ge_None in Hw; lia].
    apply (join_nonempty _ w).
    + apply (list_elem_of_lookup_2 _ 0). rewrite lookup_take_lt by lia. by rewrite lookup_drop.
    + pose proof (char_list_nonempty (trim s)) as Hne. fold l in Hne. rewrite Forall_forall in Hne. apply Hne. by eapply list_elem_of_lookup_2.
Qed.

(** The window is told each step at most once and in order, whatever order they are
    reported in. *)
Theorem progress_increasing (steps : list IssueStep) : StronglySorted Z.lt (progress_run steps).2.
Proof.
  unfold progress_run. enough (forall last shown, StronglySorted Z.lt shown -> Forall (fun z => z <= last)%Z shown ->
    StronglySorted Z.lt (fold_left (fun '(last, shown) step => progress_report last shown step) steps (last, shown)).2) as Hg by (apply Hg; constructor).
  induction steps as [|step steps IH]; intros last shown Hs Hl; [done|]. cbn [fold_left]. unfold progress_report at 2. destruct (Z.leb_spec (step_index step) last).
  - apply IH; [done|]. eapply Forall_impl; [exact Hl|]. cbn. lia.
  - apply IH.
    + clear -Hs Hl H. induction Hs as [|z l Hs IH Hz]; cbn; [by repeat constructor|]. apply Forall_cons in Hl as [Hz' Hl].
      constructor; [by apply IH|]. apply Forall_app. split; [done|]. apply Forall_singleton. lia.
    + apply Forall_app. split; [eapply Forall_impl; [exact Hl|]; cbn; lia|]. apply Forall_singleton. lia.
Qed.

Section Delete.
Context (root : string) {platform : Platform} `{JsonLaws (list Provider), JsonLaws (gmap string string), JsonLaws (list Cert)}.

(** A certificate a tunnel uses is not deleted: when the list can be read and has
    it, and a tunnel on the page ends TLS with its chain and key, however their paths
    are spelled, the request is refused and no file changes. *)
Theorem used_cert_kept (id : string) (tunnels : list TunnelParts) (p : TunnelParts) (c : Cert) (cs : list Cert) (s : IoState) :
  view [] certs_index_path (io_fs s) = Some cs -> Forall (fun f => f = Works) (take 2 (io_faults s)) ->
  c ∈ cs -> ce_id c = id -> p ∈ tunnels -> tp_plugin_tls_term p = true ->
  paths_eq (tp_plugin_cert_file p) (cert_pem_display root id) = true -> paths_eq (tp_plugin_key_file p) (key_pem_display root id) = true ->
  exists s', on_cert_delete root (Some id) tunnels s = (Err "cert_in_use", s') /\ io_fs s' = io_fs s.
Proof.
  intros Hv Hf Hc <- Hp Ht H1' H2'. unfold on_cert_delete.
  assert (exists s', load_certs root s = (Ok cs, s') /\ io_fs s' = io_fs s) as (s' & -> & Hfs).
  { destruct s as [fs faults]. cbn [io_fs io_faults] in *.
    assert (forall m (k : bool -> Io (list Cert)), io_bind (fs_exists m) k (MkIoState fs faults)
      = k (bool_decide (is_Some (fs !! m))) (MkIoState fs (tail faults))) as Hex.
    { intros m k. unfold io_bind, fs_exists. cbn. by destruct faults as [|f ?]; [|apply Forall_cons in Hf as [-> _]]. }
    assert (forall c m (k : string -> Io (list Cert)), io_bind (fs_read c m) k (MkIoState fs (tail faults))
      = match fs !! m with Some f => k (fl_text f) (MkIoState fs (tail (tail faults))) | None => (Err c, MkIoState fs (tail (tail faults))) end) as Hrd.
    { intros c' m k. unfold io_bind at 1, fs_read, io_bind, io_call. cbn.
      destruct faults as [|? [|f ?]]; cbn; [by destruct (fs !! m)..|]. cbn in Hf. rewrite !Forall_cons in Hf. destruct Hf as (_ & -> & _).
      cbn. by destruct (fs !! m). }
    unfold load_certs, read_json_or_default. rewrite Hex. unfold view in Hv. destruct (fs !! certs_index_path) as [f|] eqn:Ef; cbn [bool_decide decide].
    - rewrite bool_decide_true by by eexists. cbn [negb]. rewrite Hrd, Ef.
      destruct (is_empty (trim (fl_text f))); [injection Hv as <-; by eexists|]. destruct (from_json (fl_text f)) as [l|e]; [|done].
      injection Hv as <-. by eexists.
    - injection Hv as <-. rewrite bool_decide_false by by intros [? ?]. by eexists. }
  assert (cert_paths_used_by_tunnels root (Ok cs) (ce_id c) tunnels = true) as ->; [|by exists s'].
  unfold cert_paths_used_by_tunnels, resolve_library_paths. destruct (find_listed cs c Hc) as [c' ->]. apply existsb_exists. exists p.
  split; [by apply list_elem_of_In|]. unfold uses_cert. by rewrite Ht, H1', H2'.
Qed.
End Delete.

(** *** Witnesses *)

#[local] Existing Instance ex_store_json.
#[local] Existing Instance ex_store_json_laws.
#[local] Existing Instance ex_unix.
Definition ex_tls_row : TunnelParts :=
  MkTunnelParts "site" "https" "127.0.0.1" "80" "0" "a.example" "" "" "" "" "" "client" "" true "127.0.0.1:80"
    "/data/certs//c_2123456789ab/fullchain.pem" " /data/certs/c_2123456789ab/./privkey.pem" "" "" "".
Definition ex_cert : Cert := MkCert "c_2123456789ab" ["a.example"] "p_0123456789ab" "2026-01-01T00:00:00Z".

Lemma library_choice_roundtrip_witness :
  exists id c k, library_cert_id_at (Ok [MkCert "c_0" [] "" ""; ex_cert]) 1 = Some id
    /\ resolve_library_paths "/data" (Ok [MkCert "c_0" [] "" ""; ex_cert]) id = Ok (c, k)
    /\ paths_eq (tp_plugin_cert_file ex_tls_row) c = true /\ paths_eq (tp_plugin_key_file ex_tls_row) k = true.
Proof. apply (library_choice_roundtrip "/data" [MkCert "c_0" [] "" ""; ex_cert]). vm_compute. reflexivity. Defined.
Lemma used_cert_kept_witness : exists s', on_cert_delete "/data" (Some "c_2123456789ab") [ex_tls_row] (MkIoState (store_run "/data" ∅ ex_ops) []) = (Err "cert_in_use", s')
  /\ io_fs s' = store_run "/data" ∅ ex_ops.
Proof.
  pose proof (used_cert_kept "/data" "c_2123456789ab" [ex_tls_row] ex_tls_row ex_cert [ex_cert] (MkIoState (store_run "/data" ∅ ex_ops) [])) as H.
  apply H; [vm_compute; reflexivity|constructor|left|reflexivity|left|reflexivity|vm_compute; reflexivity|vm_compute; reflexivity].
Defined.

(** When that reading fails, the certificate counts as unused, and if the next one
    succeeds it is deleted under the tunnel that uses it. *)
Lemma used_cert_deleted :
  is_ok (on_cert_delete "/data" (Some "c_2123456789ab") [ex_tls_row] (MkIoState (store_run "/data" ∅ ex_ops) [Works; Fails "busy" None])).1 = true
  /\ view (A := list Cert) [] certs_index_path
       (io_fs (on_cert_delete "/data" (Some "c_2123456789ab") [ex_tls_row] (MkIoState (store_run "/data" ∅ ex_ops) [Works; Fails "busy" None])).2) = Some [].
Proof. split; vm_compute; reflexivity. Qed.
