(* ===== verification/CertPage.v ===== *)
(** * The certificate page of the desktop's window

    The handlers [desktop/src/main.rs] installs for the page of certificates and DNS
    keys: which editor is open, the key being edited, the request for a certificate
    and the issues that run for it.  The rows are those of [CertLibrary], the store's
    operations those of [CertStore], what an issue ends with that of [CertIssue]. *)

From S2P Require Import Prelude RustStr Utf8 Examples Config CertStore CertIssue CertLibrary.

Local Open Scope string_scope.

(** ** The page *)

Inductive Editor := ListShown | ApplyShown | KeyShown | DetailShown.
(** [cert_editor_mode]. *)
Definition editor_mode (e : Editor) : Z := match e with ListShown => 0 | ApplyShown => 1 | KeyShown => 2 | DetailShown => 3 end.
Record KeyForm := MkKeyForm { kf_id : string; kf_name : string; kf_vendor : Z; kf_access_key_id : string; kf_secret : string }.
Record Detail := MkDetail {
  dt_id : string; dt_domains : string; dt_not_after : string; dt_provider_name : string; dt_cert_path : string; dt_key_path : string }.
(** [pg_running]: issues spawned whose result the window has not been given. *)
Record PageState := MkPageState {
  pg_tab : Z; pg_editor : Editor; pg_form : KeyForm; pg_detail : Detail; pg_domains : string; pg_key_index : Z;
  pg_step : Z; pg_failed : bool; pg_issue : IssueWindow; pg_running : nat }.

Definition set_editor (e : Editor) (p : PageState) : PageState :=
  MkPageState (pg_tab p) e (pg_form p) (pg_detail p) (pg_domains p) (pg_key_index p) (pg_step p) (pg_failed p) (pg_issue p) (pg_running p).
Definition set_form (f : KeyForm) (p : PageState) : PageState :=
  MkPageState (pg_tab p) (pg_editor p) f (pg_detail p) (pg_domains p) (pg_key_index p) (pg_step p) (pg_failed p) (pg_issue p) (pg_running p).
Definition set_request (domains : string) (key_index : Z) (p : PageState) : PageState :=
  MkPageState (pg_tab p) (pg_editor p) (pg_form p) (pg_detail p) domains key_index (pg_step p) (pg_failed p) (pg_issue p) (pg_running p).
Definition set_progress (step : Z) (failed : bool) (p : PageState) : PageState :=
  MkPageState (pg_tab p) (pg_editor p) (pg_form p) (pg_detail p) (pg_domains p) (pg_key_index p) step failed (pg_issue p) (pg_running p).
Definition set_issue (w : IssueWindow) (running : nat) (p : PageState) : PageState :=
  MkPageState (pg_tab p) (pg_editor p) (pg_form p) (pg_detail p) (pg_domains p) (pg_key_index p) (pg_step p) (pg_failed p) w running.

(** ** Rows *)

(** [row_data(index as usize)]: a negative index is out of range. *)
Definition row_data {A : Type} (rows : list A) (index : Z) : option A := if (index <? 0)%Z then None else rows !! Z.to_nat index.

(** ** Opening and closing *)

Definition on_cert_add (keys : list KeyRow) (p : PageState) : Anyhow unit * PageState :=
  if (pg_tab p =? 1)%Z then (Ok tt, set_editor KeyShown (set_form (MkKeyForm "" "" 0 "" "") p)) else
  match keys with
  | [] => (Err "cert_need_key", MkPageState 1 (pg_editor p) (pg_form p) (pg_detail p) (pg_domains p) (pg_key_index p) (pg_step p) (pg_failed p) (pg_issue p) (pg_running p))
  | _ => (Ok tt, set_editor ApplyShown (set_progress (-1) false (set_request "" 0 p)))
  end.
Definition on_cert_key_edit (keys : list KeyRow) (index : Z) (p : PageState) : PageState :=
  match row_data keys index with
  | Some k => set_editor KeyShown (set_form (MkKeyForm (kr_id k) (kr_name k) (kr_vendor_index k) (kr_access_key_id k) "") p)
  | None => p
  end.
Definition on_cert_key_cancel (p : PageState) : PageState := set_editor ListShown p.
Definition on_cert_detail_close (p : PageState) : PageState := set_editor ListShown p.
(** [certs]: what the store's list reads as; an unknown certificate has no paths. *)
Definition on_cert_detail (root : string) (certs : Anyhow (list Cert)) (rows : list CertRow) (index : Z) (p : PageState) : PageState :=
  match row_data rows index with
  | None => p
  | Some c =>
      let '(cert_path, key_path) := match resolve_library_paths root certs (cr_id c) with Ok paths => paths | Err _ => ("", "") end in
      MkPageState (pg_tab p) DetailShown (pg_form p)
        (MkDetail (cr_id c) (cr_domains c) (cr_not_after c) (cr_provider_name c) cert_path key_path)
        (pg_domains p) (pg_key_index p) (pg_step p) (pg_failed p) (pg_issue p) (pg_running p)
  end.

(** ** Keys *)

Section Keys.
Context (root : string) `{Platform, Json (list Provider), Json (gmap string string)}.

(** What the toast says of a failure is the result's error; the rows are drawn again
    when it succeeds. *)
Definition key_save (uuid_simple : string) (p : PageState) (s : IoState) : Anyhow unit * PageState * IoState :=
  let f := pg_form p in
  let '(r, s) := on_cert_key_save root uuid_simple (kf_id f) (kf_name f) (kf_vendor f) (kf_access_key_id f) (kf_secret f) s in
  (r, match r with Ok _ => set_editor ListShown p | Err _ => p end, s).
Definition on_cert_key_delete (keys : list KeyRow) (index : Z) : Io unit :=
  match row_data keys index with Some k => delete_provider root (kr_id k) | None => io_ret tt end.
End Keys.

(** ** Issues *)

(** [',' | '，'] or white space: the bytes of one character. *)
Definition domain_separator (c : string) : bool :=
  String.eqb c "," || String.eqb c (bytes [239; 188; 140]%N) || is_empty (trim c).
(** [split] by a predicate on characters. *)
Fixpoint split_chars (sep : string -> bool) (chars : list string) : list string :=
  match chars with
  | [] => [""]
  | c :: rest =>
      if sep c then "" :: split_chars sep rest else
      match split_chars sep rest with w :: ws => (c ++ w) :: ws | [] => [c] end
  end.
Definition request_domains (raw : string) : list string :=
  List.filter (fun s => negb (is_empty s)) (map trim (split_chars domain_separator (char_list raw))).

Definition on_cert_apply_cancel (p : PageState) : PageState :=
  set_editor ListShown (set_progress (-1) false (set_issue (apply_cancel (pg_issue p)) (pg_running p) p)).
(** What is spawned, if the request is taken. *)
Definition on_cert_apply_submit (keys : list KeyRow) (p : PageState) : Anyhow (option IssueRequest) * PageState :=
  if iw_issuing (pg_issue p) then (Ok None, p) else
  match request_domains (pg_domains p) with
  | [] => (Err "cert_domains_required", p)
  | domains =>
      match row_data keys (pg_key_index p) with
      | None => (Err "cert_need_key", p)
      | Some key =>
          (Ok (Some (MkIssueRequest domains (kr_id key))),
           set_progress 0 false (set_issue (apply_submit domains true (pg_issue p)) (S (pg_running p)) p))
      end
  end.
(** [IssueProgress::report]'s closure on the window's loop. *)
Definition on_progress (step : IssueStep) (p : PageState) : PageState :=
  if iw_issuing (pg_issue p) then set_progress (step_index step) (pg_failed p) p else p.
(** The 360 seconds are over: the task sets the flag. *)
Definition on_timeout (p : PageState) : PageState := set_issue (MkWindow true (iw_issuing (pg_issue p))) (pg_running p) p.
(** An issue's result, on the window's loop. *)
Definition on_issue_done (r : Anyhow Cert) (p : PageState) : IssueShown * PageState :=
  match pg_running p with
  | 0 => (ShownNothing, p)
  | S running =>
      let w := pg_issue p in
      let shown := issue_shown (iw_cancel w) (iw_issuing w) r in
      let stopped := set_issue (MkWindow (iw_cancel w) false) running p in
      (shown, match shown with
              | ShownNothing => set_issue w running p
              | ShownIssued _ | ShownCancelled => set_editor ListShown (set_progress (-1) false stopped)
              | ShownTimeout | ShownFailed _ => set_progress (pg_step p) true stopped
              end)
  end.

(** ** What happens to the page *)

Inductive PageEvent :=
  | EvAdd | EvKeyEdit (index : Z) | EvKeyCancel | EvDetailClose | EvTab (tab : Z) | EvRequest (domains : string) (key_index : Z)
  | EvSubmit | EvCancel | EvProgress (step : IssueStep) | EvTimeout | EvDone (r : Anyhow Cert).
Definition page_step (keys : list KeyRow) (p : PageState) (e : PageEvent) : PageState :=
  match e with
  | EvAdd => (on_cert_add keys p).2
  | EvKeyEdit index => on_cert_key_edit keys index p
  | EvKeyCancel => on_cert_key_cancel p
  | EvDetailClose => on_cert_detail_close p
  | EvTab tab => MkPageState tab (pg_editor p) (pg_form p) (pg_detail p) (pg_domains p) (pg_key_index p) (pg_step p) (pg_failed p) (pg_issue p) (pg_running p)
  | EvRequest domains key_index => set_request domains key_index p
  | EvSubmit => (on_cert_apply_submit keys p).2
  | EvCancel => on_cert_apply_cancel p
  | EvProgress step => on_progress step p
  | EvTimeout => on_timeout p
  | EvDone r => (on_issue_done r p).2
  end.
Definition cert_page_run (keys : list KeyRow) (p : PageState) (es : list PageEvent) : PageState := fold_left (page_step keys) es p.
Definition page0 : PageState :=
  MkPageState 0 ListShown (MkKeyForm "" "" 0 "" "") (MkDetail "" "" "" "" "" "") "" 0 (-1) false (MkWindow false false) 0.

(** ** Lemmas *)

(** A printing character of ASCII that separates no domains. *)
Definition domain_char (c : ascii) : bool := (32 <? code c)%N && (code c <? 128)%N && negb (Ascii.eqb c ",").
Definition single (c : ascii) : string := String c "".

Lemma domain_char_spec c : domain_char c = true -> (32 < code c < 128)%N /\ c <> ","%char.
Proof. unfold domain_char. intros [[H1%N.ltb_lt H2%N.ltb_lt]%andb_true_iff H3]%andb_true_iff. split; [lia|]. intros ->. done. Qed.
Lemma domain_char_plain c s : domain_char c = true -> ws_len (String c s) = 0.
Proof.
  intros [Hc _]%domain_char_spec. assert (forall k, (128 <= k)%N -> (code c =? k)%N = false) as He by (intros; apply N.eqb_neq; lia).
  cbn [ws_len]. destruct (N.leb_spec (code c) 13); [lia|]. destruct (N.eqb_spec (code c) 32); [lia|]. rewrite andb_false_r. cbn [orb].
  destruct s as [|b [|d s]]; rewrite ?He by lia; done.
Qed.
Lemma domain_trimmed d : sforall domain_char d = true -> trimmed d.
Proof.
  intros Hd. destruct d as [|c d]; [done|]. unfold trimmed, trim. rewrite trim_start_id by (apply domain_char_plain; by apply andb_true_iff in Hd as [? _]).
  apply trim_end_id. rewrite <- sforall_srev in Hd. destruct (srev (String c d)) as [|a r]; [done|]. apply andb_true_iff in Hd as [Ha _].
  apply ws_len_rev_plain; [apply domain_char_spec in Ha as [[] _]; done|by apply domain_char_plain].
Qed.
Lemma char_list_ascii s : sforall (fun c => (code c <? 128)%N) s = true -> char_list s = map single (String.list_ascii_of_string s).
Proof.
  unfold char_list. induction s as [|c s IH]; [done|]. intros [Hc Hs]%andb_true_iff. cbn [String.length char_list_go].
  unfold utf8_head. rewrite Hc. cbn [fst Nat.max stake sdrop]. cbn. f_equal. by apply IH.
Qed.
Lemma domain_char_kept c : domain_char c = true -> domain_separator (single c) = false.
Proof.
  intros Hc. unfold domain_separator. assert (trim (single c) = single c) as -> by (apply domain_trimmed; cbn; by rewrite Hc).
  apply domain_char_spec in Hc as [_ Hc]. unfold single. destruct (String.eqb_spec (String c "") ",") as [[= ?]|_]; [done|].
  destruct (String.eqb_spec (String c "") (bytes [239; 188; 140]%N)) as [E|_]; [|done]. by apply (f_equal String.length) in E.
Qed.
(** A word in front of text stays one word. *)
Lemma split_word w rest v vs : sforall domain_char w = true -> split_chars domain_separator rest = v :: vs ->
  split_chars domain_separator (map single (String.list_ascii_of_string w) ++ rest) = (w ++ v)%string :: vs.
Proof.
  intros Hw Hr. induction w as [|c w IH]; [done|]. apply andb_true_iff in Hw as [Hc Hw]. cbn [String.list_ascii_of_string map List.app split_chars].
  rewrite domain_char_kept, (IH Hw) by done. done.
Qed.
Lemma split_domains ds : Forall (fun d => sforall domain_char d = true /\ d <> "") ds ->
  List.filter (fun s => negb (is_empty s)) (map trim (split_chars domain_separator (map single (String.list_ascii_of_string (join ", " ds))))) = ds.
Proof.
  induction 1 as [|d ds [Hd Hne] Hds IH]; [done|].
  assert (trim d = d /\ negb (is_empty d) = true) as [Ht He] by (split; [by apply domain_trimmed|by destruct d]).
  destruct ds as [|d' ds].
  - cbn [join]. pose proof (split_word d [] "" [] Hd eq_refl) as Hs. rewrite List.app_nil_r, app_nil_r in Hs. rewrite Hs. cbn [map List.filter]. by rewrite Ht, He.
  - change (join ", " (d :: d' :: ds)) with (d ++ ", " ++ join ", " (d' :: ds)).
    assert (forall a b, String.list_ascii_of_string (a ++ b)%string = (String.list_ascii_of_string a ++ String.list_ascii_of_string b)%list) as Happ
      by (intros a b; induction a as [|c a IHa]; [done|]; cbn; by rewrite IHa).
    rewrite Happ, List.map_app. erewrite split_word; [|done|reflexivity]. cbn [map List.filter]. rewrite app_nil_r, Ht, He. f_equal. exact IH.
Qed.

(** ** Theorems *)

(** The names a certificate is listed with, copied into the request's field, ask for
    exactly those names: reading back names joined by a comma and a space loses,
    splits and reorders none. *)
Theorem request_domains_roundtrip (ds : list string) : Forall (fun d => sforall domain_char d = true /\ d <> "") ds ->
  request_domains (join ", " ds) = ds.
Proof.
  intros Hds. unfold request_domains. rewrite char_list_ascii; [by apply split_domains|].
  assert (forall d, sforall domain_char d = true -> sforall (fun c => (code c <? 128)%N) d = true) as Hascii.
  { intros d. apply sforall_impl. intros c [Hc _]%domain_char_spec. apply N.ltb_lt. lia. }
  induction Hds as [|d ds [Hd _] _ IH]; [done|]. destruct ds as [|d' ds]; [by apply Hascii|].
  change (join ", " (d :: d' :: ds)) with (d ++ ", " ++ join ", " (d' :: ds)). rewrite !sforall_app, IH, (Hascii d Hd). done.
Qed.

(** What the page always is: the step is one the window can draw, a failure is shown
    only when nothing is waited for, and what is waited for is running. *)
Definition cert_page_ok (p : PageState) : Prop :=
  (-1 <= pg_step p <= 6)%Z /\ (pg_failed p = true -> iw_issuing (pg_issue p) = false) /\ (iw_issuing (pg_issue p) = true -> 0 < pg_running p).
Lemma cert_page_step_ok keys p e : cert_page_ok p -> cert_page_ok (page_step keys p e).
Proof.
  intros Hp. pose proof Hp as (Hs & Hf & Hr). destruct e as [|index| | |tab|domains key_index| | |step| |r]; cbn [page_step].
  - unfold on_cert_add. destruct (_ =? 1)%Z; [done|]. destruct keys; [done|]. split; [cbn; lia|done].
  - unfold on_cert_key_edit. by destruct (row_data keys index).
  - done.
  - done.
  - done.
  - done.
  - unfold on_cert_apply_submit. destruct (iw_issuing _) eqn:Ei; [done|]. destruct (request_domains _); [done|]. destruct (row_data _ _); [|done].
    split; [cbn; lia|]. split; [done|]. cbn. lia.
  - unfold on_cert_apply_cancel, apply_cancel. split; [cbn; lia|]. cbn. split; [done|].
    destruct (iw_issuing (pg_issue p)) eqn:Ei; cbn; [done|by rewrite Ei].
  - unfold on_progress. destruct (iw_issuing _) eqn:Ei; [|done]. split; [destruct step; cbn; lia|exact (proj2 Hp)].
  - done.
  - unfold on_issue_done. destruct (pg_running p) as [|n]; [done|]. cbn [snd].
    destruct (issue_shown _ _ r) eqn:Er; try (split; [cbn; lia|done]).
    unfold issue_shown in Er. destruct (iw_issuing (pg_issue p)) eqn:Ei.
    { rewrite andb_false_r in Er. cbn [negb] in Er. destruct r; [done|]. destruct (contains _ _); [done|]. by destruct (contains _ _). }
    split; [done|]. cbn. rewrite Ei. done.
Qed.
Theorem cert_page_always_ok (keys : list KeyRow) (es : list PageEvent) : cert_page_ok (cert_page_run keys page0 es).
Proof.
  assert (forall p, cert_page_ok p -> cert_page_ok (cert_page_run keys p es)) as H; [|apply H; split; [cbn; lia|done]].
  induction es as [|e es IH]; intros p Hp; [done|]. cbn. apply IH. by apply cert_page_step_ok.
Qed.

(** While nobody cancels, the page waits for at most one issue, and it waits exactly
    while one runs, whatever else is clicked and however the issues end. *)
Theorem one_issue_at_a_time (keys : list KeyRow) (es : list PageEvent) : EvCancel ∉ es ->
  pg_running (cert_page_run keys page0 es) = if iw_issuing (pg_issue (cert_page_run keys page0 es)) then 1 else 0.
Proof.
  assert (forall p, (pg_running p = if iw_issuing (pg_issue p) then 1 else 0) -> EvCancel ∉ es ->
    pg_running (cert_page_run keys p es) = if iw_issuing (pg_issue (cert_page_run keys p es)) then 1 else 0) as H; [|by apply H].
  induction es as [|e es IH]; intros p Hp Hc; [done|]. cbn. apply IH; [|set_solver].
  assert (e <> EvCancel) as He by set_solver. clear IH Hc.
  destruct e as [|index| | |tab|domains key_index| | |step| |r]; cbn [page_step]; try done.
  - unfold on_cert_add. destruct (_ =? 1)%Z; [done|]. by destruct keys.
  - unfold on_cert_key_edit. by destruct (row_data keys index).
  - unfold on_cert_apply_submit. destruct (iw_issuing (pg_issue p)) eqn:Ei; [cbn; by rewrite Ei|]. destruct (request_domains _); [cbn; by rewrite Ei|].
    destruct (row_data _ _); [|cbn; by rewrite Ei]. cbn. unfold apply_submit. rewrite Ei. cbn. by rewrite Hp.
  - unfold on_progress. destruct (iw_issuing (pg_issue p)) eqn:Ei; cbn; by rewrite ?Ei.
  - unfold on_issue_done. destruct (iw_issuing (pg_issue p)) eqn:Ei; rewrite Hp; [|cbn; by rewrite Ei].
    cbn [snd]. unfold issue_shown. rewrite andb_false_r. destruct r as [c|e]; [done|]. destruct (contains _ _); [done|]. by destruct (contains _ _).
Qed.

Section Edit.
Context (root : string) {platform : Platform} `{JsonLaws (list Provider), JsonLaws (gmap string string)}.
Abbreviation triple := (io_triple false).

Lemma vendor_indexed v : vendor_from_index (vendor_index v) = Some v.
Proof. by destruct v. Qed.
Lemma replace_listed ps i p : ps !! i = Some p -> NoDup (pr_id <$> ps) -> replace_provider p ps = Some ps.
Proof.
  revert i. induction ps as [|q ps IH]; intros [|i] Hi Hn; [done..| |].
  - injection Hi as ->. cbn. by rewrite String.eqb_refl.
  - cbn [fmap list_fmap] in Hn. apply NoDup_cons in Hn as [Hq Hn]. cbn [replace_provider]. rewrite (IH i Hi Hn).
    destruct (String.eqb_spec (pr_id q) (pr_id p)) as [E|_]; [|done]. exfalso. apply Hq. rewrite E.
    apply list_elem_of_fmap. exists p. split; [done|]. by eapply list_elem_of_lookup_2.
Qed.
Lemma row_listed {A B : Type} (f : A -> B) (l : list A) i a : l !! i = Some a -> row_data (map f l) (Z.of_nat i) = Some (f a).
Proof.
  intros Hi. unfold row_data. destruct (Z.ltb_spec (Z.of_nat i) 0); [lia|]. rewrite Nat2Z.id.
  change (map f l) with (f <$> l). by rewrite list_lookup_fmap, Hi.
Qed.

Definition providers_kept (ps : list Provider) (fs0 fs : Fs) : Prop :=
  view [] providers_path fs = Some ps /\ same_but [with_extension "tmp" providers_path; providers_path] fs0 fs.

(** Saving the list that is there, at whatever call it fails. *)
Lemma t_resave ps fs0 : triple (providers_kept ps fs0) (save_providers root ps) (fun _ => providers_kept ps fs0) (providers_kept ps fs0).
Proof.
  apply t_write; [done| |].
  - intros fs fs' [Hv Hs] Hs'. split; [rewrite <- Hv; apply view_same, Hs'; vm_compute; set_solver|].
    intros q Hq. rewrite Hs' by set_solver. by apply Hs.
  - intros fs fs' b [Hv Hs] Hs' Hw. split; [by eapply view_written|]. intros q Hq. rewrite Hs' by set_solver. by apply Hs.
Qed.

(** A key opened in the editor and saved as it is shown, the secret left blank, stays
    the key it was: every provider, in its place, and no file but the list of
    providers is touched, whichever call to the file system fails; the editor closes
    only if the save succeeded. *)
Theorem key_edit_saved_unchanged (uuid : string) (secret : string -> Anyhow (option string)) (ps : list Provider) (i : nat) (p : Provider)
    (page : PageState) (s : IoState) :
  view [] providers_path (io_fs s) = Some ps -> ps !! i = Some p -> NoDup (pr_id <$> ps) ->
  pr_id p <> "" -> pr_name p <> "" -> trimmed (pr_name p) -> trimmed (pr_access_key_id p) ->
  let opened := on_cert_key_edit (map (key_row secret) ps) (Z.of_nat i) page in
  let '(r, page', s') := key_save root uuid opened s in
  view [] providers_path (io_fs s') = Some ps
  /\ same_but [with_extension "tmp" providers_path; providers_path] (io_fs s) (io_fs s')
  /\ pg_editor page' = if is_ok r then ListShown else KeyShown.
Proof.
  intros Hv Hi Hn Hid Hname Htn Hta opened. unfold opened, on_cert_key_edit. rewrite (row_listed _ _ _ _ Hi). unfold key_save.
  cbn [pg_form set_editor set_form kf_id kf_name kf_vendor kf_access_key_id kf_secret key_row kr_id kr_name kr_vendor_index kr_access_key_id].
  enough (triple (providers_kept ps (io_fs s)) (on_cert_key_save root uuid (pr_id p) (pr_name p) (vendor_index (pr_vendor p)) (pr_access_key_id p) "")
            (fun _ => providers_kept ps (io_fs s)) (providers_kept ps (io_fs s))) as Ht.
  { destruct (Ht s ltac:(done) (conj Hv (same_refl _ _))) as [_ Hk]. by destruct (on_cert_key_save root uuid _ _ _ _ _ s) as [[u|e] s'], Hk. }
  unfold on_cert_key_save, save_provider. rewrite vendor_indexed, Htn, Hta, (proj2 (is_empty_false _) Hname), (proj2 (is_empty_false _) Hid).
  cbn [andb]. change (is_empty (trim "")) with true. cbv iota. eapply t_bind with (Q := fun _ => providers_kept ps (io_fs s)); [|intros ?; by apply t_ret].
  unfold upsert_provider. cbn [pr_name pr_id]. rewrite Htn, (proj2 (is_empty_false _) Hname), (proj2 (is_empty_false _) Hid).
  assert (MkProvider (pr_id p) (pr_name p) (pr_vendor p) (pr_access_key_id p) = p) as -> by by destruct p.
  eapply t_bind; [apply (t_read root (providers_kept ps (io_fs s)) [] ps); by intros fs [? _]|].
  intros ps'. cbn beta. eapply t_know; [intros fs [_ Hl]; exact Hl|].
  intros [->|[_ ->]]; [|cbn [replace_provider]; eapply t_bind with (Q := fun _ _ => False); [by apply t_bail; intros fs [? _]|by intros ? ? ? []]].
  rewrite (replace_listed _ _ _ Hi Hn).
  eapply t_bind with (Q := fun r fs => r = (p, ps) /\ providers_kept ps (io_fs s) fs); [apply t_ret; by intros fs [Hk _]|].
  intros [p' ps']. apply t_pure. intros [= -> ->].
  eapply t_bind with (Q := fun _ => providers_kept ps (io_fs s)); [by apply t_ret|]. intros [].
  eapply t_bind; [apply t_resave|]. intros []. by apply t_ret.
Qed.
End Edit.

(** *** Witnesses *)

#[local] Existing Instance ex_store_json.
#[local] Existing Instance ex_store_json_laws.
#[local] Existing Instance ex_unix.

Lemma request_domains_roundtrip_witness : request_domains "a.example, *.b.example" = ["a.example"; "*.b.example"].
Proof. apply (request_domains_roundtrip ["a.example"; "*.b.example"]). repeat constructor; done. Defined.
(** The field takes both commas and any white space, and ignores empty names. *)
Lemma request_domains_separators : request_domains ("a.example" ++ bytes [239; 188; 140]%N ++ "b.example,, c.example ") = ["a.example"; "b.example"; "c.example"].
Proof. by vm_compute. Qed.

Definition ex_provider : Provider := MkProvider "p_0123456789ab" "dns" Cloudflare "".
Definition ex_providers_fs : Fs := {[ providers_path := MkFile (to_json [ex_provider]) false ]}.
Lemma key_edit_saved_unchanged_witness :
  let opened := on_cert_key_edit (map (key_row (fun _ => Ok None)) [ex_provider]) 0 page0 in
  let '(r, page', s') := key_save "/data" "" opened (MkIoState ex_providers_fs [Works; Works; Works; Works; Fails "full" None]) in
  view [] providers_path (io_fs s') = Some [ex_provider]
  /\ same_but [with_extension "tmp" providers_path; providers_path] ex_providers_fs (io_fs s')
  /\ pg_editor page' = if is_ok r then ListShown else KeyShown.
Proof.
  apply (key_edit_saved_unchanged "/data" "" (fun _ => Ok None) [ex_provider] 0 ex_provider page0 (MkIoState ex_providers_fs [Works; Works; Works; Works; Fails "full" None]));
    [vm_compute; reflexivity|reflexivity|apply NoDup_singleton|done|done|reflexivity|reflexivity].
Defined.

Definition ex_key : KeyRow := key_row (fun _ => Ok None) ex_provider.
Definition ex_asked : list PageEvent := [EvRequest "a.example" 0; EvSubmit].
Lemma one_issue_at_a_time_witness : pg_running (cert_page_run [ex_key] page0 ex_asked) = 1.
Proof. rewrite (one_issue_at_a_time [ex_key] ex_asked); [vm_compute; reflexivity|]. unfold ex_asked. rewrite !not_elem_of_cons. split; [done|]. split; [done|apply not_elem_of_nil]. Defined.

(** Cancelling is not waiting: asked again at once, a second issue runs beside the
    first, and what the first one ends with is shown as the second's: the page stops
    waiting and closes the form while the second issue still runs. *)
Lemma cancelled_result_ends_next :
  let asked_twice := cert_page_run [ex_key] page0 (ex_asked ++ [EvCancel] ++ [EvAdd] ++ ex_asked) in
  let '(shown, after) := on_issue_done (Err "cancelled") asked_twice in
  pg_running asked_twice = 2 /\ iw_issuing (pg_issue asked_twice) = true
  /\ shown = ShownCancelled /\ iw_issuing (pg_issue after) = false /\ pg_editor after = ListShown /\ pg_running after = 1.
Proof. vm_compute. repeat split. Qed.
