(* ===== verification/TunnelEditor.v ===== *)
(** * The desktop's tunnel editor

    The tunnel page of [desktop/src/main.rs]: its rows, the form a row is edited in,
    saving and deleting, and the remote addresses shown beside the rows.  Whether the
    client is active, what the library of certificates reads as and how writing the
    configuration ends are arguments; toasts are results. *)

From S2P Require Import Prelude RustStr Float64 Config ServerConfig ClientConfig CertStore DesktopConfig CertLibrary.

Local Open Scope string_scope.

(** ** Indexes of the form's lists *)

Definition type_index (tunnel_type : string) : Z :=
  if String.eqb tunnel_type "udp" then 1 else if String.eqb tunnel_type "http" then 2
  else if String.eqb tunnel_type "https" then 3 else if String.eqb tunnel_type "socks5" then 4 else 0.
Definition type_name (index : Z) : string :=
  if (index =? 1)%Z then "udp" else if (index =? 2)%Z then "http" else if (index =? 3)%Z then "https"
  else if (index =? 4)%Z then "socks5" else "tcp".
Definition bandwidth_side_index (mode : string) : Z := if String.eqb mode "server" then 1 else 0.
Definition bandwidth_side_name (index : Z) : string := if (index =? 1)%Z then "server" else "client".
Definition proxy_protocol_index (version : string) : Z := if String.eqb version "v1" then 1 else if String.eqb version "v2" then 2 else 0.
Definition proxy_protocol_name (index : Z) : string := if (index =? 1)%Z then "v1" else if (index =? 2)%Z then "v2" else "".

(** ** Rows and the form *)

Record TunnelRow := MkRow { rw_parts : TunnelParts; rw_remote_addr : string }.
Record EditForm := MkEditForm {
  ef_name : string; ef_type_index : Z; ef_local_ip : string; ef_local_port : string; ef_remote_port : string; ef_domains : string;
  ef_locations : string; ef_basic_auth_user : string; ef_basic_auth_password : string; ef_host_header_rewrite : string;
  ef_bandwidth_limit : string; ef_bandwidth_side_index : Z; ef_proxy_protocol_index : Z; ef_plugin_tls_term : bool;
  ef_plugin_local_addr : string; ef_cert_source_index : Z; ef_cert_library_index : Z; ef_plugin_cert_file : string;
  ef_plugin_key_file : string; ef_plugin_host_rewrite : string; ef_plugin_username : string; ef_plugin_password : string }.

Definition reset_tunnel_form : EditForm :=
  MkEditForm "" 0 "127.0.0.1" "8080" "9000" "" "" "" "" "" "" 0 0 false "127.0.0.1:8080" 1 0 "" "" "" "" "".

Definition tunnel_to_row (show_f64 : f64 -> string) (t : TunnelConfig) : TunnelRow := MkRow (tunnel_to_parts show_f64 t) "".

Section Form.
Context (root : string) (certs : Anyhow (list Cert)).

(** Where the files come from: the library, a path, or nowhere. *)
Definition cert_source (p : TunnelParts) : Z * Z :=
  let cert := trim (tp_plugin_cert_file p) in
  let key := trim (tp_plugin_key_file p) in
  if negb (tp_plugin_tls_term p) then (1, 0)%Z
  else if is_empty cert && is_empty key then (2, 0)%Z
  else match find_library_index root certs cert key with Some idx => (0%Z, idx) | None => (1, 0)%Z end.
Definition fill_tunnel_form (p : TunnelParts) : EditForm :=
  let '(source, library) := cert_source p in
  MkEditForm (tp_name p) (type_index (tp_tunnel_type p)) (tp_local_ip p) (tp_local_port p) (tp_remote_port p) (tp_domains p)
    (tp_locations p) (tp_basic_auth_user p) (tp_basic_auth_password p) (tp_host_header_rewrite p) (tp_bandwidth p)
    (bandwidth_side_index (tp_bandwidth_limit_side p)) (proxy_protocol_index (tp_proxy_protocol_version p)) (tp_plugin_tls_term p)
    (tp_plugin_local_addr p) source library (tp_plugin_cert_file p) (tp_plugin_key_file p) (tp_plugin_host_rewrite p)
    (tp_plugin_username p) (tp_plugin_password p).
Definition resolve_tunnel_cert_paths (f : EditForm) : string * string :=
  if (ef_cert_source_index f =? 0)%Z then
    match library_cert_id_at certs (ef_cert_library_index f) with
    | Some id => match resolve_library_paths root certs id with Ok paths => paths | Err _ => ("", "") end
    | None => ("", "")
    end
  else if (ef_cert_source_index f =? 2)%Z then ("", "")
  else (ef_plugin_cert_file f, ef_plugin_key_file f).
Definition collect_tunnel_form (f : EditForm) : TunnelRow :=
  let ty := type_name (ef_type_index f) in
  let is_socks5 := String.eqb ty "socks5" in
  let is_http := String.eqb ty "http" in
  let is_https := String.eqb ty "https" in
  let plugin := is_https && ef_plugin_tls_term f in
  let only (b : bool) (s : string) := if b then s else "" in
  MkRow (MkTunnelParts (ef_name f) ty (only (negb is_socks5) (ef_local_ip f)) (only (negb is_socks5) (ef_local_port f))
    (if is_http || is_https then "0" else ef_remote_port f) (only (is_http || is_https) (ef_domains f)) (only is_http (ef_locations f))
    (only is_http (ef_basic_auth_user f)) (only is_http (ef_basic_auth_password f)) (only is_http (ef_host_header_rewrite f))
    (ef_bandwidth_limit f) (bandwidth_side_name (ef_bandwidth_side_index f))
    (only (negb plugin) (proxy_protocol_name (ef_proxy_protocol_index f))) plugin
    (only plugin ((if is_empty (trim (ef_local_ip f)) then "127.0.0.1" else trim (ef_local_ip f)) ++ ":" ++ trim (ef_local_port f)))
    (only plugin (resolve_tunnel_cert_paths f).1) (only plugin (resolve_tunnel_cert_paths f).2) (only plugin (ef_plugin_host_rewrite f))
    (only is_socks5 (ef_plugin_username f)) (only is_socks5 (ef_plugin_password f))) "".
End Form.

(** ** Remote addresses *)

Definition omit_gateway_port (tunnel_type : string) : option Z :=
  let t := to_lower (trim tunnel_type) in
  if String.eqb t "http" then Some 80%Z else if String.eqb t "https" then Some 443%Z else None.
Definition split_host_port (s : string) : option (string * string) :=
  if starts_with "[" s then
    match find_char (Ascii.eqb "]") s with
    | None => None
    | Some close =>
        match strip_prefix ":" (sdrop (S close) s) with
        | Some port => if is_empty port then None else Some (stake (S close) s, port)
        | None => None
        end
    end
  else match rsplit_once ":" s with
       | Some (host, port) => if is_empty host || is_empty port || contains ":" host then None else Some (host, port)
       | None => None
       end.
Definition strip_omitted_port (hostport : string) (omit : Z) : string :=
  match split_host_port hostport with
  | Some (host, port) => if bool_decide (parse_uint u16_max port = Some omit) then host else hostport
  | None => hostport
  end.
Definition push_part (omit : Z) (out part : string) : string :=
  let part := trim part in
  if is_empty part then out else (if is_empty out then out else out ++ ",") ++ strip_omitted_port part omit.
Definition display_remote_addr (tunnel_type addr : string) : string :=
  match omit_gateway_port tunnel_type with
  | None => addr
  | Some omit =>
      let addr := trim addr in
      if is_empty addr then "" else
      if negb (contains "," addr) then strip_omitted_port addr omit else fold_left (push_part omit) (split "," addr) ""
  end.
Definition apply_tunnel_remotes (remotes : gmap string string) (rows : list TunnelRow) : list TunnelRow :=
  map (fun row => MkRow (rw_parts row)
         (display_remote_addr (tp_tunnel_type (rw_parts row)) (default "" (remotes !! tp_name (rw_parts row))))) rows.
Definition retain_remote_addr (previous : list TunnelRow) (row : TunnelRow) : TunnelRow :=
  if negb (is_empty (rw_remote_addr row)) then row else
  match List.find (fun p => String.eqb (tp_name (rw_parts p)) (tp_name (rw_parts row))) previous with
  | None => row
  | Some prev =>
      if negb (String.eqb (tp_domains (rw_parts prev)) (tp_domains (rw_parts row)))
         || negb (String.eqb (tp_remote_port (rw_parts prev)) (tp_remote_port (rw_parts row)))
         || negb (String.eqb (tp_tunnel_type (rw_parts prev)) (tp_tunnel_type (rw_parts row))) then row
      else if negb (is_empty (rw_remote_addr prev)) then MkRow (rw_parts row) (rw_remote_addr prev) else row
  end.
Definition retain_remote_addrs (rows previous : list TunnelRow) : list TunnelRow := map (retain_remote_addr previous) rows.

(** ** The page *)

Inductive EditRefusal :=
| NameRequired | LocalPortRequired | LocalPortInvalid | RemotePortRequired | RemotePortInvalid
| UsernameRequired | PasswordRequired | DomainRequired | NameExists | PersistFailed (e : string).

Definition require_port_field (raw : string) (required invalid : EditRefusal) : Result unit EditRefusal :=
  let t := trim raw in
  if is_empty t then Err required else if bool_decide (parse_uint u16_max t = None) then Err invalid else Ok tt.
(** The checks before the row is made. *)
Definition check_form (f : EditForm) : Result unit EditRefusal :=
  if is_empty (trim (ef_name f)) then Err NameRequired else
  let ty_idx := ef_type_index f in
  if (ty_idx =? 4)%Z then
    let? _ := require_port_field (ef_remote_port f) RemotePortRequired RemotePortInvalid in
    if is_empty (trim (ef_plugin_username f)) then Err UsernameRequired else
    if is_empty (trim (ef_plugin_password f)) then Err PasswordRequired else Ok tt
  else if (ty_idx =? 2)%Z || (ty_idx =? 3)%Z then
    if is_empty (trim (ef_domains f)) then Err DomainRequired else
    require_port_field (ef_local_port f) LocalPortRequired LocalPortInvalid
  else
    let? _ := require_port_field (ef_local_port f) LocalPortRequired LocalPortInvalid in
    require_port_field (ef_remote_port f) RemotePortRequired RemotePortInvalid.

(** [ep_generation]: the remote addresses the page has last taken over. *)
Record EditPage := MkEditPage { ep_rows : list TunnelRow; ep_open : bool; ep_index : Z; ep_form : EditForm; ep_generation : Z }.

Definition row_name (r : TunnelRow) : string := tp_name (rw_parts r).
(** The row put in its place, or at the end: [None] when its name is taken. *)
Definition place_row (index : Z) (row : TunnelRow) (rows : list TunnelRow) : option (list TunnelRow) :=
  if (0 <=? index)%Z then
    let i := Z.to_nat index in
    if existsb (fun '(idx, p) => negb (idx =? i)%nat && String.eqb (row_name p) (row_name row)) (combine (seq 0 (length rows)) rows) then None
    else Some (if (i <? length rows)%nat then <[i := row]> rows else rows)
  else if existsb (fun p => String.eqb (row_name p) (row_name row)) rows then None else Some (rows ++ [row])%list.

Section Page.
Context (parse_f64 : string -> option f64).

(** [persist_tunnels]: what is written when writing works. *)
Definition persist_tunnels (existing : option (Anyhow ClientConfig)) (f : ServerForm) (uuid uuid' : string)
    (save : ClientConfig -> Anyhow unit) (rows : list TunnelRow) : Anyhow ClientConfig :=
  let? tunnels := collect_tunnel_configs parse_f64 (map rw_parts rows) in
  let? c := load_merge_tunnels existing f tunnels uuid uuid' in
  let? _ := save c in
  Ok c.

Definition on_tunnel_add (p : EditPage) : EditPage := MkEditPage (ep_rows p) true (-1) reset_tunnel_form (ep_generation p).
Definition on_tunnel_cancel (p : EditPage) : EditPage := MkEditPage (ep_rows p) false (-1) (ep_form p) (ep_generation p).
(** A row's button gives an index that the page has. *)
Definition on_tunnel_edit (root : string) (certs : Anyhow (list Cert)) (index : nat) (p : EditPage) : EditPage :=
  match ep_rows p !! index with
  | Some row => MkEditPage (ep_rows p) true (Z.of_nat index) (fill_tunnel_form root certs (rw_parts row)) (ep_generation p)
  | None => p
  end.
Definition settle (active : bool) (rows previous : list TunnelRow) : list TunnelRow := if active then rows else retain_remote_addrs rows previous.
Definition on_tunnel_save (root : string) (certs : Anyhow (list Cert)) (active : bool) (persist : list TunnelRow -> Anyhow ClientConfig)
    (p : EditPage) : EditPage * Result ClientConfig EditRefusal :=
  match check_form (ep_form p) with
  | Err e => (p, Err e)
  | Ok _ =>
      match place_row (ep_index p) (collect_tunnel_form root certs (ep_form p)) (ep_rows p) with
      | None => (p, Err NameExists)
      | Some rows =>
          match persist rows with
          | Ok c => (MkEditPage (settle active rows (ep_rows p)) false (-1) (ep_form p) 0, Ok c)
          | Err e => (p, Err (PersistFailed e))
          end
      end
  end.
Definition on_tunnel_delete (active : bool) (persist : list TunnelRow -> Anyhow ClientConfig) (index : nat) (p : EditPage)
    : EditPage * Result ClientConfig EditRefusal :=
  let rows := (take index (ep_rows p) ++ drop (S index) (ep_rows p))%list in
  match persist rows with
  | Ok c => (MkEditPage (settle active rows (ep_rows p)) (ep_open p) (ep_index p) (ep_form p) 0, Ok c)
  | Err e => (p, Err (PersistFailed e))
  end.
(** The page's timer: the client's remote addresses, when they changed. *)
Definition tick_remotes (changed : option (Z * gmap string string)) (p : EditPage) : EditPage :=
  match changed with
  | Some (next, remotes) => MkEditPage (apply_tunnel_remotes remotes (ep_rows p)) (ep_open p) (ep_index p) (ep_form p) next
  | None => p
  end.
End Page.

(** ** Lemmas: rows *)

Lemma existsb_false {A} (f : A -> bool) l : existsb f l = false <-> Forall (fun a => f a = false) l.
Proof.
  induction l as [|a l IH]; cbn; [by split|]. rewrite orb_false_iff, Forall_cons, IH. done.
Qed.
Lemma combine_seq {A} (l : list A) k a n : (k, a) ∈ combine (seq n (length l)) l <-> n <= k /\ l !! (k - n) = Some a.
Proof.
  revert n. induction l as [|b l IH]; intros n; cbn [length seq combine].
  - rewrite elem_of_nil, lookup_nil. naive_solver.
  - rewrite elem_of_cons, IH. destruct (decide (k = n)) as [->|Hne].
    + rewrite Nat.sub_diag. cbn. split; [intros [[= ->]|[? _]]; [done|lia]|]. intros [_ [= ->]]. by left.
    + destruct (decide (n < k)) as [Hlt|Hge].
      * replace (k - n) with (S (k - S n)) by lia. cbn. split; [intros [[= ? ?]|[? ?]]; [lia|split; [lia|done]]|intros [_ ?]; right; split; [lia|done]].
      * split; [intros [[= ? ?]|[? _]]; lia|intros [? _]; lia].
Qed.
Lemma place_row_names index row rows rows' : place_row index row rows = Some rows' -> NoDup (map row_name rows) -> NoDup (map row_name rows').
Proof.
  unfold place_row. intros E Hn. destruct (0 <=? index)%Z.
  - set (i := Z.to_nat index) in *. destruct (existsb _ (combine _ _)) eqn:Ex; [done|]. injection E as <-.
    destruct (Nat.ltb_spec i (length rows)) as [Hi|]; [|done]. rewrite existsb_false, Forall_forall in Ex.
    change (NoDup (row_name <$> <[i := row]> rows)). rewrite list_fmap_insert. apply NoDup_alt. intros a b x Ha Hb.
    change (map row_name rows) with (row_name <$> rows) in Hn. pose proof (proj1 (NoDup_alt _) Hn) as Hn'.
    assert (forall k, k <> i -> (<[i := row_name row]> (row_name <$> rows)) !! k = Some x -> x <> row_name row) as Hother.
    { intros k Hk. rewrite list_lookup_insert_ne by done. rewrite list_lookup_fmap. intros (p & Hp & ->)%fmap_Some Heq.
      specialize (Ex (k, p) (proj2 (combine_seq rows k p 0) ltac:(rewrite Nat.sub_0_r; split; [lia|done]))). cbn in Ex.
      rewrite (proj2 (Nat.eqb_neq _ _) Hk), Heq, String.eqb_refl in Ex. done. }
    destruct (decide (a = i)) as [->|Hai], (decide (b = i)) as [->|Hbi]; [done|..].
    + rewrite list_lookup_insert_eq in Ha by (by rewrite length_fmap). injection Ha as <-. by destruct (Hother b Hbi Hb).
    + rewrite list_lookup_insert_eq in Hb by (by rewrite length_fmap). injection Hb as <-. by destruct (Hother a Hai Ha).
    + rewrite list_lookup_insert_ne in Ha, Hb by done. by eapply Hn'.
  - destruct (existsb _ rows) eqn:Ex; [done|]. injection E as <-. rewrite existsb_false, Forall_forall in Ex.
    rewrite map_app. apply NoDup_app. split; [done|]. split; [|apply NoDup_singleton]. intros x (p & -> & Hp)%list_elem_of_fmap. cbn.
    intros Hx%list_elem_of_singleton. specialize (Ex p Hp). by rewrite Hx, String.eqb_refl in Ex.
Qed.
Lemma retain_parts previous row : rw_parts (retain_remote_addr previous row) = rw_parts row.
Proof.
  unfold retain_remote_addr. destruct (negb _); [done|]. destruct (List.find _ _) as [prev|]; [|done]. destruct (_ || _); [done|]. by destruct (negb _).
Qed.
Lemma settle_parts active rows previous : map rw_parts (settle active rows previous) = map rw_parts rows.
Proof.
  unfold settle, retain_remote_addrs. destruct active; [done|]. rewrite map_map. apply map_ext. apply retain_parts.
Qed.
Lemma names_parts rows : map row_name rows = map tp_name (map rw_parts rows).
Proof. by rewrite map_map. Qed.
Lemma remotes_parts remotes rows : map rw_parts (apply_tunnel_remotes remotes rows) = map rw_parts rows.
Proof. unfold apply_tunnel_remotes. rewrite map_map. by apply map_ext. Qed.

(** ** What happens to the page *)

Inductive EditOp :=
| OpAdd | OpCancel
| OpEdit (certs : Anyhow (list Cert)) (index : nat)
| OpType (f : EditForm)
| OpSave (certs : Anyhow (list Cert)) (active : bool) (persist : list TunnelRow -> Anyhow ClientConfig)
| OpDelete (active : bool) (persist : list TunnelRow -> Anyhow ClientConfig) (index : nat)
| OpTick (changed : option (Z * gmap string string)).
Definition edit_op (root : string) (p : EditPage) (op : EditOp) : EditPage :=
  match op with
  | OpAdd => on_tunnel_add p
  | OpCancel => on_tunnel_cancel p
  | OpEdit certs index => on_tunnel_edit root certs index p
  | OpType f => MkEditPage (ep_rows p) (ep_open p) (ep_index p) f (ep_generation p)
  | OpSave certs active persist => (on_tunnel_save root certs active persist p).1
  | OpDelete active persist index => (on_tunnel_delete active persist index p).1
  | OpTick changed => tick_remotes changed p
  end.
Definition edit_run (root : string) (p : EditPage) (ops : list EditOp) : EditPage := fold_left (edit_op root) ops p.

Lemma edit_op_names root p op : NoDup (map row_name (ep_rows p)) -> NoDup (map row_name (ep_rows (edit_op root p op))).
Proof.
  intros Hn. destruct op as [| |certs index|f|certs active persist|active persist index|changed]; cbn; try done.
  - unfold on_tunnel_edit. by destruct (ep_rows p !! index).
  - unfold on_tunnel_save. destruct (check_form _); [|done]. destruct (place_row _ _ _) as [rows|] eqn:Ep; [|done].
    destruct (persist rows); cbn; [|done]. rewrite names_parts, settle_parts, <- names_parts. by eapply place_row_names.
  - unfold on_tunnel_delete. destruct (persist _); cbn; [|done]. rewrite names_parts, settle_parts, <- names_parts.
    rewrite map_app. rewrite <- (take_drop index (ep_rows p)), map_app in Hn. apply NoDup_app in Hn as (N1 & N2 & N3).
    assert (forall x, x ∈ map row_name (drop (S index) (ep_rows p)) -> x ∈ map row_name (drop index (ep_rows p))) as Hd.
    { intros x (r & -> & Hr)%list_elem_of_fmap. apply list_elem_of_fmap. exists r. split; [done|].
      replace (drop (S index) (ep_rows p)) with (drop 1 (drop index (ep_rows p))) in Hr by (rewrite drop_drop; f_equal; lia).
      destruct (drop index (ep_rows p)); [done|by right]. }
    apply NoDup_app. split; [done|]. split; [intros x Hx Hx'; by apply (N2 x Hx), Hd|].
    replace (drop (S index) (ep_rows p)) with (drop 1 (drop index (ep_rows p))) by (rewrite drop_drop; f_equal; lia).
    destruct (drop index (ep_rows p)); [done|]. by inversion N3.
  - unfold tick_remotes. destruct changed as [[next remotes]|]; cbn; [|done]. by rewrite names_parts, remotes_parts, <- names_parts.
Qed.

(** No two tunnels on the page share a name, whatever is added, edited, deleted,
    refused or fails to be written, and however the client's addresses change. *)
Theorem editor_names_unique (root : string) (p : EditPage) (ops : list EditOp) :
  NoDup (map row_name (ep_rows p)) -> NoDup (map row_name (ep_rows (edit_run root p ops))).
Proof.
  unfold edit_run. revert p. induction ops as [|op ops IH]; intros p Hn; [done|]. apply IH. by apply edit_op_names.
Qed.

Lemma place_row_same i row old rows : rows !! i = Some old -> row_name row = row_name old -> NoDup (map row_name rows) ->
  place_row (Z.of_nat i) row rows = Some (<[i := row]> rows).
Proof.
  intros Hi Hname Hn. unfold place_row. rewrite (proj2 (Z.leb_le 0 _)) by lia. rewrite Nat2Z.id.
  rewrite (proj2 (Nat.ltb_lt i _)) by (by eapply lookup_lt_Some). rewrite (proj2 (existsb_false _ _)); [done|].
  apply Forall_forall. intros [k r] [_ Hk]%combine_seq. rewrite Nat.sub_0_r in Hk. destruct (decide (k = i)) as [->|Hne].
  - by rewrite Nat.eqb_refl.
  - rewrite (proj2 (String.eqb_neq (row_name r) _)); [apply andb_false_r|]. intros E. apply Hne.
    apply (proj1 (NoDup_alt _) Hn k i (row_name r)); change (map row_name rows) with (row_name <$> rows); rewrite list_lookup_fmap.
    + by rewrite Hk.
    + rewrite Hi. cbn. by rewrite E, Hname.
Qed.

(** ** A tunnel opened and saved as it is *)

Section Unchanged.
Context (root : string) (certs : Anyhow (list Cert)).

(** What the form keeps of a row: one of its five types, with what the type does not
    have left empty, and files that are nowhere, outside the library, or written as
    the library writes them. *)
Record row_ready (p : TunnelParts) : Prop := {
  rr_type : tp_tunnel_type p ∈ ["tcp"; "udp"; "http"; "https"; "socks5"];
  rr_lists : tp_bandwidth_limit_side p ∈ ["client"; "server"] /\ tp_proxy_protocol_version p ∈ [""; "v1"; "v2"];
  rr_socks5 : if String.eqb (tp_tunnel_type p) "socks5" then tp_local_ip p = "" /\ tp_local_port p = ""
              else tp_plugin_username p = "" /\ tp_plugin_password p = "";
  rr_web : if String.eqb (tp_tunnel_type p) "http" || String.eqb (tp_tunnel_type p) "https" then tp_remote_port p = "0" else tp_domains p = "";
  rr_http : String.eqb (tp_tunnel_type p) "http" = false ->
    tp_locations p = "" /\ tp_basic_auth_user p = "" /\ tp_basic_auth_password p = "" /\ tp_host_header_rewrite p = "";
  rr_tls : if tp_plugin_tls_term p
           then tp_tunnel_type p = "https" /\ tp_proxy_protocol_version p = "" /\ trim (tp_local_ip p) <> ""
             /\ tp_plugin_local_addr p = trim (tp_local_ip p) ++ ":" ++ trim (tp_local_port p)
             /\ (trim (tp_plugin_cert_file p) = "" -> trim (tp_plugin_key_file p) = "" -> tp_plugin_cert_file p = "" /\ tp_plugin_key_file p = "")
             /\ forall i id, find_library_index root certs (trim (tp_plugin_cert_file p)) (trim (tp_plugin_key_file p)) = Some i ->
                  library_cert_id_at certs i = Some id ->
                  tp_plugin_cert_file p = cert_pem_display root id /\ tp_plugin_key_file p = key_pem_display root id
           else tp_plugin_local_addr p = "" /\ tp_plugin_cert_file p = "" /\ tp_plugin_key_file p = "" /\ tp_plugin_host_rewrite p = "" }.

Lemma find_index_resolves cert key i : find_library_index root certs cert key = Some i ->
  exists id, library_cert_id_at certs i = Some id /\ resolve_library_paths root certs id = Ok (cert_pem_display root id, key_pem_display root id).
Proof.
  unfold find_library_index. destruct certs as [l|]; [|done]. intros (k & c & Hk & -> & _)%find_index_spec. cbn [Nat.add].
  exists (ce_id c). unfold library_cert_id_at, resolve_library_paths. rewrite (proj2 (Z.ltb_ge _ _)) by lia. rewrite Nat2Z.id, Hk.
  split; [done|]. destruct (find_listed l c) as [c' ->]; [by apply list_elem_of_lookup_2 in Hk|done].
Qed.
Lemma files_kept p : row_ready p -> tp_plugin_tls_term p = true ->
  resolve_tunnel_cert_paths root certs (fill_tunnel_form root certs p) = (tp_plugin_cert_file p, tp_plugin_key_file p).
Proof.
  intros Hr Ht. pose proof (rr_tls p Hr) as H. rewrite Ht in H. destruct H as (_ & _ & _ & _ & Hblank & Hlib).
  unfold fill_tunnel_form. destruct (cert_source root certs p) as [src lib] eqn:Es. unfold cert_source in Es. rewrite Ht in Es. cbn [negb] in Es.
  unfold resolve_tunnel_cert_paths. cbn [ef_cert_source_index ef_cert_library_index ef_plugin_cert_file ef_plugin_key_file].
  destruct (is_empty (trim (tp_plugin_cert_file p)) && is_empty (trim (tp_plugin_key_file p))) eqn:Ee.
  - injection Es as <- <-. cbn. apply andb_prop in Ee as [E1%is_empty_true E2%is_empty_true]. by destruct (Hblank E1 E2) as [-> ->].
  - destruct (find_library_index _ _ _ _) as [idx|] eqn:Ef; injection Es as <- <-; cbn; [|done].
    destruct (find_index_resolves _ _ _ Ef) as (id & Hid & Hres). rewrite Hid, Hres. by destruct (Hlib idx id eq_refl Hid) as [-> ->].
Qed.
Lemma collect_fill p : row_ready p -> collect_tunnel_form root certs (fill_tunnel_form root certs p) = MkRow p "".
Proof.
  intros Hr. pose proof (files_kept p Hr) as Hfiles. destruct Hr as [Hty [Hside Hver] Hs Hw Hh Ht].
  unfold collect_tunnel_form. destruct (resolve_tunnel_cert_paths root certs (fill_tunnel_form root certs p)) as [cf kf].
  unfold fill_tunnel_form. destruct (cert_source root certs p) as [src lib].
  cbn [ef_name ef_type_index ef_local_ip ef_local_port ef_remote_port ef_domains ef_locations ef_basic_auth_user ef_basic_auth_password
    ef_host_header_rewrite ef_bandwidth_limit ef_bandwidth_side_index ef_proxy_protocol_index ef_plugin_tls_term ef_plugin_host_rewrite
    ef_plugin_username ef_plugin_password fst snd].
  destruct p as [name ty ip port rport domains locs bu bp hr bw side ppv tls laddr cert key hrw un pw]. cbn in *.
  assert (bandwidth_side_name (bandwidth_side_index side) = side) as ->
    by (repeat (apply elem_of_cons in Hside as [->|Hside]; [done|]); by apply elem_of_nil in Hside).
  assert (proxy_protocol_name (proxy_protocol_index ppv) = ppv) as ->
    by (repeat (apply elem_of_cons in Hver as [->|Hver]; [done|]); by apply elem_of_nil in Hver).
  f_equal.
  repeat (apply elem_of_cons in Hty as [->|Hty]); try (by apply elem_of_nil in Hty); cbn in Hs, Hw, Hh, Ht |- *;
    (try destruct (Hh eq_refl) as (-> & -> & -> & ->)); destruct Hs as [Hs1 Hs2]; destruct tls; destruct_and ?; subst; try done.
  pose proof (Hfiles eq_refl) as [= -> ->]. by rewrite (proj2 (is_empty_false _)).
Qed.

Context (parse_f64 : string -> option f64) (show_f64 : f64 -> string).

(** The checks of the form, for a tunnel that the client accepts. *)
Record form_accepts (t : TunnelConfig) : Prop := {
  fa_name : trim (tc_name t) <> "";
  fa_domains : tp_tunnel_type (tunnel_to_parts show_f64 t) ∈ ["http"; "https"] -> tc_domains t <> [];
  fa_socks5 : forall p, socks5_of t = Some p -> trim (pl_username p) <> "" /\ trim (pl_password p) <> "" }.

Lemma port_field_shown z a b : in_u16 z -> require_port_field (show_Z z) a b = Ok tt.
Proof.
  intros Hz. unfold require_port_field. rewrite trimmed_show, (proj2 (is_empty_false _) (show_Z_nonempty z (proj1 Hz))).
  by rewrite parse_uint_show.
Qed.
Lemma csv_join_not_blank l : Forall csv_item l -> l <> [] -> is_empty (trim (join "," l)) = false.
Proof.
  intros Hl Hne. apply is_empty_false. destruct l as [|w l]; [done|]. apply Forall_cons in Hl as [(Ht & Hw & _) _].
  assert (ws_len w = 0) as Hws by (rewrite <- Ht; apply trim_ws). apply trim_nonempty.
  - destruct l as [|w' l]; [exact Hws|]. change (ws_len (w ++ String "," (join "," (w' :: l))) = 0).
    by rewrite ws_len_app_ascii by done.
  - destruct l as [|w' l]; [done|]. cbn [join]. by destruct w.
Qed.

Abbreviation to_parts := (tunnel_to_parts show_f64).

Lemma local_port_shown t : editable parse_f64 show_f64 t -> socks5_of t = None ->
  exists z, in_u16 z /\ tp_local_port (to_parts t) = show_Z z.
Proof.
  intros He Hs. pose proof (ed_kind _ _ _ He) as Hk. unfold tunnel_to_parts, local_parts. rewrite Hs. unfold socks5_of, tls_term_of in *.
  destruct (tc_plugin t) as [p|].
  - destruct Hk as [_ Hf]. inversion Hf as [|s c k r _ (h & q & Hq & _ & _ & _ & Hu) _ _ _]; subst p; [done|].
    change (is_tls_term_plugin _) with true. cbn [pl_service]. rewrite Hq. by exists q.
  - destruct Hk as (_ & _ & Hend). rewrite (canonical_nonempty _ _ Hend). destruct Hend as (h & q & Hq & _ & _ & _ & Hu). rewrite Hq. by exists q.
Qed.
Lemma type_shown t : editable parse_f64 show_f64 t -> tp_tunnel_type (to_parts t) = "socks5" <-> socks5_of t <> None.
Proof.
  intros He. pose proof (ed_kind _ _ _ He) as Hk. unfold tunnel_to_parts. destruct (local_parts t) as [ip port]. cbn.
  destruct (socks5_of t) as [p|] eqn:Es; [by split|]. split; [|done]. intros E. exfalso. unfold socks5_of in Es.
  destruct (tc_plugin t) as [p|]; [|tauto]. destruct Hk as [_ Hf]. inversion Hf as [|? ? ? ? Hp]; subst p; [done|congruence].
Qed.

(** The form of a tunnel opened from its row is not refused. *)
Lemma check_fill t : editable parse_f64 show_f64 t -> row_ready (to_parts t) -> form_accepts t ->
  check_form (fill_tunnel_form root certs (to_parts t)) = Ok tt.
Proof.
  intros He Hr [Hname Hdom Hsocks]. pose proof (rr_type _ Hr) as Hty. pose proof (type_shown t He) as Hst.
  pose proof (local_port_shown t He) as Hlp. destruct (to_parts_like show_f64 t) as (Hn & Hrp & Hd & _).
  unfold check_form, fill_tunnel_form. destruct (cert_source root certs (to_parts t)) as [src lib].
  cbn [ef_name ef_type_index ef_local_port ef_remote_port ef_domains ef_plugin_username ef_plugin_password].
  rewrite Hn, (proj2 (is_empty_false _) Hname), Hrp, port_field_shown by apply (ed_port _ _ _ He).
  destruct (socks5_of t) as [p|] eqn:Es.
  - rewrite (proj2 Hst) by done. cbn [type_index Z.eqb]. destruct (Hsocks p eq_refl) as [Hu Hw].
    unfold tunnel_to_parts. destruct (local_parts t) as [ip port]. cbn [tp_plugin_username tp_plugin_password].
    rewrite Es. by rewrite (proj2 (is_empty_false _) Hu), (proj2 (is_empty_false _) Hw).
  - destruct (Hlp eq_refl) as (z & Hz & ->). rewrite !port_field_shown by done. rewrite Hd.
    repeat (apply elem_of_cons in Hty as [Hty|Hty]); try (by apply elem_of_nil in Hty); rewrite Hty in *; cbn; try done;
      try (rewrite csv_join_not_blank; [done|apply (ed_lists _ _ _ He)|apply Hdom; set_solver]).
    by destruct (proj1 Hst eq_refl).
Qed.
End Unchanged.

(** What the page shows is what the file says. *)
Definition page_shows (show_f64 : f64 -> string) (c : ClientConfig) (p : EditPage) : Prop :=
  map rw_parts (ep_rows p) = map (tunnel_to_parts show_f64) (cc_tunnels c).

Lemma persist_shown parse_f64 show_f64 c f uuid uuid' save rows :
  map rw_parts rows = map (tunnel_to_parts show_f64) (cc_tunnels c) ->
  Forall (fun t => editable parse_f64 show_f64 t /\ tc_name t <> "") (cc_tunnels c) ->
  client_complete c = c -> trim (cc_agent_id c) <> "" -> save c = Ok tt ->
  persist_tunnels parse_f64 (Some (Ok c)) f uuid uuid' save rows = Ok c.
Proof.
  intros Hp He Hc Ha Hs. unfold persist_tunnels. rewrite Hp, rows_shown by done. cbn [load_merge_tunnels].
  replace (MkClientConfig _ _ _ _ _ _ _ _) with c by (by destruct c). rewrite Hc. unfold ensure_agent_id.
  rewrite (proj2 (is_empty_false _) Ha). cbn. by rewrite Hs.
Qed.

(** C34: Take a completed configuration with an agent id whose tunnels have distinct
    names and are [editable], the spelling the form itself writes, and of it a tunnel
    whose row the form can keep ([row_ready]: one of its five types, nothing in the
    fields its type does not have, certificate files as the library writes them) and
    that passes the form's checks ([form_accepts]).  Opening that tunnel and saving the
    form as it stands, where writing the file succeeds, is accepted, writes the very
    configuration that was there, leaves the page's tunnels as they were and closes the
    form - whatever part of the configuration the form does not show.  A tunnel in
    another spelling may change on the way ([upper_type_changes],
    [limit_side_changes]). *)
Theorem edit_saved_unchanged (root : string) (certs : Anyhow (list Cert)) (parse_f64 : string -> option f64) (show_f64 : f64 -> string)
    (c : ClientConfig) (p : EditPage) (i : nat) (t : TunnelConfig) (active : bool) (f : ServerForm) (uuid uuid' : string)
    (save : ClientConfig -> Anyhow unit) :
  page_shows show_f64 c p -> cc_tunnels c !! i = Some t ->
  Forall (fun t => editable parse_f64 show_f64 t /\ tc_name t <> "") (cc_tunnels c) -> NoDup (map tc_name (cc_tunnels c)) ->
  row_ready root certs (tunnel_to_parts show_f64 t) -> form_accepts show_f64 t ->
  client_complete c = c -> trim (cc_agent_id c) <> "" -> save c = Ok tt ->
  let '(p', r) := on_tunnel_save root certs active (persist_tunnels parse_f64 (Some (Ok c)) f uuid uuid' save)
                    (on_tunnel_edit root certs i p) in
  r = Ok c /\ page_shows show_f64 c p' /\ ep_open p' = false.
Proof.
  intros Hp Hi He Hn Hr Hf Hc Ha Hs. unfold page_shows in Hp.
  assert (exists row, ep_rows p !! i = Some row /\ rw_parts row = tunnel_to_parts show_f64 t) as (row & Hrow & Hparts).
  { assert (map rw_parts (ep_rows p) !! i = Some (tunnel_to_parts show_f64 t)) as E
      by (rewrite Hp; change (map ?f ?l) with (f <$> l); by rewrite list_lookup_fmap, Hi).
    change (map rw_parts (ep_rows p)) with (rw_parts <$> ep_rows p) in E. rewrite list_lookup_fmap in E.
    destruct (ep_rows p !! i) as [row|]; [|done]. injection E as E. by exists row. }
  assert (map row_name (ep_rows p) = map tc_name (cc_tunnels c)) as Hnames.
  { rewrite names_parts, Hp, map_map. apply map_ext. intros t'. by destruct (to_parts_like show_f64 t') as [-> _]. }
  unfold on_tunnel_edit. rewrite Hrow. unfold on_tunnel_save. cbn [ep_form ep_index ep_rows ep_generation].
  pose proof (proj1 (proj1 (Forall_lookup _ _) He i t Hi)) as Het. rewrite Hparts, (check_fill root certs parse_f64 show_f64 t Het Hr Hf).
  rewrite collect_fill by done. rewrite (place_row_same i _ row) by (rewrite ?Hnames; try done; unfold row_name; by rewrite Hparts).
  assert (map rw_parts (<[i := MkRow (tunnel_to_parts show_f64 t) ""]> (ep_rows p)) = map (tunnel_to_parts show_f64) (cc_tunnels c)) as Hsame.
  { rewrite <- Hp. change (map ?f ?l) with (f <$> l). rewrite list_fmap_insert. apply list_insert_id. rewrite list_lookup_fmap, Hrow. cbn. by rewrite Hparts. }
  rewrite (persist_shown _ show_f64) by done. cbn. split; [done|]. split; [|done]. unfold page_shows. cbn [ep_rows]. by rewrite settle_parts.
Qed.

(** *** Witnesses *)

Definition ex_shown : TunnelConfig :=
  MkTunnel "plain" "tcp" "127.0.0.1:22" 2222 [] [] "" "" "" ex_transport None.
Definition ex_site : TunnelConfig :=
  MkTunnel "tls" "https" "" 0 ["d.example"] [] "" "" "" (MkTunnelTransport (f_of_Z 0) "client" "")
    (Some (MkPlugin "tls-term" "127.0.0.1:80" "/c.pem" "/k.pem" "inner" "" "")).
Definition ex_tunnels : list TunnelConfig := [ex_plain; ex_socks5; ex_shown; ex_site].
Definition ex_config : ClientConfig :=
  client_complete (MkClientConfig "example.org:7000" "ops" "agent-1" (MkClientAuth "token" "tok") client_transport_default
    ex_tunnels 1500 log_default).
Definition ex_page : EditPage := MkEditPage (map (tunnel_to_row (fun _ => "")) ex_tunnels) false (-1) reset_tunnel_form 0.
Definition ex_form : ServerForm := form_of ex_config.

Lemma edit_saved_unchanged_witness :
  let persist := persist_tunnels (fun _ => None) (Some (Ok ex_config)) ex_form "u" "v" (fun _ => Ok tt) in
  let '(p', r) := on_tunnel_save "/data" (Err "no library") false persist (on_tunnel_edit "/data" (Err "no library") 3 ex_page) in
  r = Ok ex_config /\ page_shows (fun _ => "") ex_config p' /\ ep_open p' = false.
Proof.
  assert (Forall (fun t => editable (fun _ => None) (fun _ => "") t /\ tc_name t <> "") ex_tunnels) as He.
  { repeat constructor; try done; try (by left); cbn; eexists _, _; repeat split; done. }
  assert (NoDup ["web"; "socks"; "plain"; "tls"]) as Hn by (repeat constructor; set_solver).
  assert (row_ready "/data" (Err "no library") (tunnel_to_parts (fun _ => "") ex_site)) as Hr.
  { split; try (vm_compute; intuition congruence); [by do 3 apply list_elem_of_further; left|by split; left]. }
  assert (form_accepts (fun _ => "") ex_site) as Hf by (split; [discriminate|discriminate|intros ? [=]]).
  pose proof (edit_saved_unchanged "/data" (Err "no library") (fun _ => None) (fun _ => "") ex_config ex_page 3 ex_site false ex_form "u" "v"
    (fun _ => Ok tt)) as H.
  apply H; [vm_compute; reflexivity|reflexivity|exact He|exact Hn|exact Hr|exact Hf|vm_compute; reflexivity|discriminate|reflexivity].
Defined.

Lemma editor_names_unique_witness :
  NoDup (map row_name (ep_rows (edit_run "/data" ex_page
    [OpEdit (Err "no library") 3; OpSave (Err "no library") false (fun _ => Err "disk full"); OpDelete false (fun _ => Ok ex_config) 0;
     OpAdd; OpSave (Err "no library") false (fun _ => Ok ex_config)]))).
Proof.
  assert (NoDup ["web"; "socks"; "plain"; "tls"]) as Hn by (repeat constructor; set_solver).
  pose proof (editor_names_unique "/data" ex_page
    [OpEdit (Err "no library") 3; OpSave (Err "no library") false (fun _ => Err "disk full"); OpDelete false (fun _ => Ok ex_config) 0;
     OpAdd; OpSave (Err "no library") false (fun _ => Ok ex_config)] Hn) as H. exact H.
Defined.

(** ** What the editor lets through, and what it loses *)

(** A configuration that says its protocol in capitals is accepted, but the form knows
    its types in lower case only: saved as it stands, the web tunnel is a TCP one
    without a domain, which the next load refuses. *)
Definition ex_upper : TunnelConfig :=
  MkTunnel "web" "HTTP" "127.0.0.1:8080" 0 ["a.example"] [] "" "" "" ex_transport None.
Lemma upper_type_changes root certs parse show :
  validate_tunnel_config show ex_upper = Ok tt
  /\ check_form (fill_tunnel_form root certs (tunnel_to_parts show ex_upper)) = Ok tt
  /\ exists t, tunnel_from_parts parse (rw_parts (collect_tunnel_form root certs (fill_tunnel_form root certs (tunnel_to_parts show ex_upper)))) = Ok t
     /\ tc_protocol t = "tcp" /\ tc_domains t = [] /\ is_ok (validate_tunnel_config show t) = false.
Proof.
  split; [by vm_compute|]. change (tunnel_to_parts show ex_upper) with
    (MkTunnelParts "web" "HTTP" "127.0.0.1" "8080" "0" "a.example" "" "" "" "" "" "client" "v2" false "" "" "" "" "" "").
  split; [by vm_compute|]. eexists. split; [vm_compute; reflexivity|]. by vm_compute.
Qed.

(** The names are compared as they are typed and written trimmed: a second tunnel
    whose name ends in a space is taken in, and the file with both is refused. *)
Lemma spaced_name_saved root certs parse show :
  let row := MkTunnelParts "web " "tcp" "127.0.0.1" "8080" "9000" "" "" "" "" "" "" "client" "" false "" "" "" "" "" "" in
  let rows := [MkRow (MkTunnelParts "web" "tcp" "127.0.0.1" "80" "9001" "" "" "" "" "" "" "client" "" false "" "" "" "" "" "") ""] in
  check_form (fill_tunnel_form root certs row) = Ok tt
  /\ exists rows' l, place_row (-1) (collect_tunnel_form root certs (fill_tunnel_form root certs row)) rows = Some rows'
     /\ collect_tunnel_configs parse (map rw_parts rows') = Ok l /\ map tc_name l = ["web"; "web"]
     /\ is_ok (validate_tunnels show ∅ l) = false.
Proof. split; [by vm_compute|]. eexists _, _. split; [vm_compute; reflexivity|]. split; [vm_compute; reflexivity|]. by vm_compute. Qed.

(** The form asks for a port that is a number, and takes 0; the file then is refused. *)
Lemma port_zero_saved root certs parse show :
  let row := MkTunnelParts "web" "tcp" "127.0.0.1" "8080" "0" "" "" "" "" "" "" "client" "" false "" "" "" "" "" "" in
  check_form (fill_tunnel_form root certs row) = Ok tt
  /\ exists l, collect_tunnel_configs parse [rw_parts (collect_tunnel_form root certs (fill_tunnel_form root certs row))] = Ok l
     /\ is_ok (validate_tunnels show ∅ l) = false.
Proof. split; [by vm_compute|]. eexists. split; [vm_compute; reflexivity|]. by vm_compute. Qed.

(** *** Addresses shown without the gateway's usual port *)

Example display_http : display_remote_addr " HTTP " "a.example:80, b.example:8080 ,,[::1]:80" = "a.example,b.example:8080,[::1]".
Proof. reflexivity. Qed.
Example display_https : display_remote_addr "https" " c.example:443 " = "c.example".
Proof. reflexivity. Qed.
Example display_tcp : display_remote_addr "tcp" " 0.0.0.0:80 " = " 0.0.0.0:80 ".
Proof. reflexivity. Qed.
