(* ===== verification/HandleTasks.v ===== *)
(** * Starting, stopping and the client's task, interleaved

    [ClientHandle] of [client/src/handle.rs] as it is shared: the call of [start]
    (one front end's thread), any number of calls of [stop] and the client's tasks run
    at once, and each lock they take is a step of its own.  A slot holds the number of
    the start its token, task or sender belongs to.  What the service does in its task
    is its choice; pending log lines are left out. *)

From S2P Require Import Prelude RustStr Config ClientHandle.

Local Open Scope string_scope.

(** ** State *)

Record Slots := MkSlots {
  sl_status : ClientStatus; sl_error : option string; sl_remotes : TunnelRemoteState;
  sl_cancel : option nat; sl_join : option nat; sl_reload : option nat }.
Definition put_status (s : ClientStatus) (sl : Slots) : Slots :=
  MkSlots s (sl_error sl) (sl_remotes sl) (sl_cancel sl) (sl_join sl) (sl_reload sl).
Definition put_error (e : option string) (sl : Slots) : Slots :=
  MkSlots (sl_status sl) e (sl_remotes sl) (sl_cancel sl) (sl_join sl) (sl_reload sl).
Definition put_remotes (r : TunnelRemoteState) (sl : Slots) : Slots :=
  MkSlots (sl_status sl) (sl_error sl) r (sl_cancel sl) (sl_join sl) (sl_reload sl).
Definition put_cancel (c : option nat) (sl : Slots) : Slots :=
  MkSlots (sl_status sl) (sl_error sl) (sl_remotes sl) c (sl_join sl) (sl_reload sl).
Definition put_join (j : option nat) (sl : Slots) : Slots :=
  MkSlots (sl_status sl) (sl_error sl) (sl_remotes sl) (sl_cancel sl) j (sl_reload sl).
Definition put_reload (r : option nat) (sl : Slots) : Slots :=
  MkSlots (sl_status sl) (sl_error sl) (sl_remotes sl) (sl_cancel sl) (sl_join sl) r.
Definition clear_remotes (sl : Slots) : Slots := put_remotes (clear_tunnel_remotes (sl_remotes sl)) sl.

(** Where the task of a start is.  It can be aborted where it waits; its first poll
    goes on to the service's first wait, its last one from there to the end. *)
Inductive TaskPc :=
| TSpawned | TReading | TSending (token : nat) | TParked (token : nat) | TPolling (token : nat)
| TFailed (e : string) | TClear | TDropSender | TDropToken | TSetStopped
| TDone | TPanicked | TAborted.
Inductive StopPc :=
| StCheck | StError | StStatus | StCancel | StJoin | StWait (n : nat) | StSetStopped | StRemotes | StReload.
Inductive StartPc :=
| SaCheck (valid : Anyhow unit) | SaCancel (n : nat) | SaStatus (n : nat) | SaError (n : nat) | SaRemotes (n : nat) | SaSpawn (n : nat) | SaJoin (n : nat).

Record HandleWorld := MkHandleWorld {
  w_slots : Slots; w_tasks : gmap nat TaskPc; w_cancelled : gset nat; w_aborted : gset nat;
  w_start : option StartPc; w_stops : gmap nat StopPc; w_next : nat }.
Definition handle_world_new : HandleWorld := MkHandleWorld (MkSlots Stopped None remotes_default None None None) ∅ ∅ ∅ None ∅ 1.
Definition put_slots (f : Slots -> Slots) (w : HandleWorld) : HandleWorld :=
  MkHandleWorld (f (w_slots w)) (w_tasks w) (w_cancelled w) (w_aborted w) (w_start w) (w_stops w) (w_next w).
Definition put_task (n : nat) (pc : TaskPc) (w : HandleWorld) : HandleWorld :=
  MkHandleWorld (w_slots w) (<[n := pc]> (w_tasks w)) (w_cancelled w) (w_aborted w) (w_start w) (w_stops w) (w_next w).
Definition put_start (pc : option StartPc) (w : HandleWorld) : HandleWorld :=
  MkHandleWorld (w_slots w) (w_tasks w) (w_cancelled w) (w_aborted w) pc (w_stops w) (w_next w).
Definition put_stop (i : nat) (pc : option StopPc) (w : HandleWorld) : HandleWorld :=
  MkHandleWorld (w_slots w) (w_tasks w) (w_cancelled w) (w_aborted w) (w_start w) (partial_alter (fun _ => pc) i (w_stops w)) (w_next w).
Definition cancel_token (t : option nat) (w : HandleWorld) : HandleWorld :=
  MkHandleWorld (w_slots w) (w_tasks w) (match t with Some t => {[t]} ∪ w_cancelled w | None => w_cancelled w end) (w_aborted w) (w_start w) (w_stops w) (w_next w).
Definition abort_handle (n : nat) (w : HandleWorld) : HandleWorld :=
  MkHandleWorld (w_slots w) (w_tasks w) (w_cancelled w) ({[n]} ∪ w_aborted w) (w_start w) (w_stops w) (w_next w).

(** ** Steps *)

(** [start_with]; [valid] is what preparing and validating the configuration gives. *)
Definition start_turn (w : HandleWorld) : option HandleWorld :=
  match w_start w with
  | None => None
  | Some (SaCheck valid) =>
      if is_active (sl_status (w_slots w)) then Some (put_start None w) else
      match valid with
      | Err _ => Some (put_start None w)
      | Ok _ => Some (MkHandleWorld (w_slots w) (w_tasks w) (w_cancelled w) (w_aborted w) (Some (SaCancel (w_next w))) (w_stops w) (S (w_next w)))
      end
  | Some (SaCancel n) => Some (put_start (Some (SaStatus n)) (put_slots (put_cancel (Some n)) w))
  | Some (SaStatus n) => Some (put_start (Some (SaError n)) (put_slots (put_status Starting) w))
  | Some (SaError n) => Some (put_start (Some (SaRemotes n)) (put_slots (put_error None) w))
  | Some (SaRemotes n) => Some (put_start (Some (SaSpawn n)) (put_slots clear_remotes w))
  | Some (SaSpawn n) => Some (put_start (Some (SaJoin n)) (put_task n TSpawned w))
  | Some (SaJoin n) => Some (put_start None (put_slots (put_join (Some n)) w))
  end.

Definition task_over (pc : TaskPc) : bool := match pc with TDone | TPanicked | TAborted => true | _ => false end.
(** [stop]; [timeout]: five seconds have passed where it waits. *)
Definition stop_turn (w : HandleWorld) (i : nat) (timeout : bool) : option HandleWorld :=
  let go pc w := Some (put_stop i (Some pc) w) in
  match w_stops w !! i with
  | None => None
  | Some StCheck => if bool_decide (sl_status (w_slots w) = Stopped) then Some (put_stop i None w) else go StError w
  | Some StError => go StStatus (put_slots (put_error None) w)
  | Some StStatus => go StCancel (put_slots (put_status Stopping) w)
  | Some StCancel => go StJoin (put_slots (put_cancel None) (cancel_token (sl_cancel (w_slots w)) w))
  | Some StJoin => go (match sl_join (w_slots w) with Some n => StWait n | None => StSetStopped end) (put_slots (put_join None) w)
  | Some (StWait n) =>
      if timeout then go StSetStopped (abort_handle n w)
      else match w_tasks w !! n with Some pc => if task_over pc then go StRemotes w else None | None => None end
  | Some StSetStopped => go StRemotes (put_slots (put_status Stopped) w)
  | Some StRemotes => go StReload (put_slots clear_remotes w)
  | Some StReload => Some (put_stop i None (put_slots (put_reload None) w))
  end.

(** What the service does to the handle while it is polled. *)
Inductive ServiceAct := SvStatus (s : ClientStatus) | SvRemote (o : RemoteOp).
Definition service_act (a : ServiceAct) (sl : Slots) : Slots :=
  match a with SvStatus s => put_status s sl | SvRemote o => put_remotes (remote_step (sl_remotes sl) o) sl end.
Definition service_status (a : ServiceAct) : bool :=
  match a with SvStatus (Stopped | Stopping) => false | _ => true end.
Inductive TaskChoice :=
| Poll | Prepared (valid : Anyhow unit) | Next | Acts (a : ServiceAct) | Park | Ends (result : Anyhow unit) | Panics.

Definition client_task_turn (w : HandleWorld) (n : nat) (c : TaskChoice) : option HandleWorld :=
  let go pc w := Some (put_task n pc w) in
  let aborted := bool_decide (n ∈ w_aborted w) in
  let ends (result : Anyhow unit) := go (match result with Err e => TFailed e | Ok _ => TClear end) in
  match w_tasks w !! n, c with
  | Some TSpawned, Poll => go (if aborted then TAborted else TReading) w
  | Some TReading, Prepared (Err e) => ends (Err e) w
  | Some TReading, Prepared (Ok _) =>
      match sl_cancel (w_slots w) with Some t => go (TSending t) w | None => ends (Err "missing cancel token") w end
  | Some (TSending t), Next => go (TPolling t) (put_slots (put_reload (Some n)) w)
  | Some (TPolling t), Acts a => if service_status a then Some (put_slots (service_act a) w) else None
  | Some (TPolling t), Park => go (TParked t) w
  | Some (TPolling t), Ends result => ends result w
  | Some (TPolling t), Panics => go TPanicked w
  | Some (TParked t), Poll => go (if aborted then TAborted else TPolling t) w
  | Some (TFailed e), Next => go TClear (put_slots (put_error (Some e)) w)
  | Some TClear, Next => go TDropSender (put_slots clear_remotes w)
  | Some TDropSender, Next => go TDropToken (put_slots (put_reload None) w)
  | Some TDropToken, Next => go TSetStopped (put_slots (put_cancel None) w)
  | Some TSetStopped, Next => go TDone (put_slots (put_status Stopped) w)
  | _, _ => None
  end.

Inductive HandleEv :=
| CallStart (valid : Anyhow unit) | StartTurn | CallStop (i : nat) | StopTurn (i : nat) (timeout : bool) | TaskTurn (n : nat) (c : TaskChoice).
Definition handle_step (w : HandleWorld) (ev : HandleEv) : option HandleWorld :=
  match ev with
  | CallStart valid => if bool_decide (w_start w = None) then Some (put_start (Some (SaCheck valid)) w) else None
  | StartTurn => start_turn w
  | CallStop i => if bool_decide (w_stops w !! i = None) then Some (put_stop i (Some StCheck) w) else None
  | StopTurn i timeout => stop_turn w i timeout
  | TaskTurn n c => client_task_turn w n c
  end.
Definition handle_run (w : HandleWorld) (evs : list HandleEv) : option HandleWorld :=
  fold_left (fun w ev => match w with Some w => handle_step w ev | None => None end) evs (Some w).
(** [reload]: whose sender takes the request. *)
Definition reload_target (sl : Slots) : Anyhow nat :=
  bail_if negb (is_active (sl_status sl)) with "client is not running" ;;
  match sl_reload sl with Some n => Ok n | None => Err "reload channel not ready" end.

(** ** One call at a time *)

Definition in_call (w : HandleWorld) : bool := negb (bool_decide (w_start w = None /\ w_stops w = ∅)).
(** No call is made while another is under way, and a client ends within a stop's time
    and does not panic. *)
Definition orderly (w : HandleWorld) (ev : HandleEv) : bool :=
  match ev with
  | CallStart _ | CallStop _ => negb (in_call w)
  | StopTurn _ timeout => negb timeout
  | TaskTurn _ Panics => false
  | _ => true
  end.
Fixpoint orderly_run (w : HandleWorld) (evs : list HandleEv) : option HandleWorld :=
  match evs with
  | [] => Some w
  | ev :: evs => if orderly w ev then match handle_step w ev with Some w => orderly_run w evs | None => None end else None
  end.

Definition task_alive (w : HandleWorld) (n : nat) : Prop :=
  match w_tasks w !! n with Some pc => task_over pc = false | None => False end.
Definition task_serving (w : HandleWorld) (n : nat) : Prop :=
  match w_tasks w !! n with Some (TParked _ | TPolling _) => True | _ => False end.

(** *** The invariant *)

Definition told (w : HandleWorld) (n : nat) : Prop :=
  match w_tasks w !! n with
  | Some (TSpawned | TReading) => sl_cancel (w_slots w) = None
  | Some (TSending t | TParked t | TPolling t) => t ∈ w_cancelled w
  | _ => True
  end.
Definition token_held (w : HandleWorld) (n : nat) : Prop :=
  match w_tasks w !! n with
  | Some (TSpawned | TReading | TSending _ | TParked _ | TPolling _) => sl_cancel (w_slots w) = Some n
  | _ => True
  end.
(** The slots beside a task that is not over. *)
Definition slots_fit (sl : Slots) (n : nat) (pc : TaskPc) : Prop :=
  sl_status sl <> Stopped /\
  match pc with
  | TSpawned | TReading | TDropToken => sl_reload sl = None
  | TSending t => t = n /\ sl_reload sl = None
  | TParked t | TPolling t => t = n /\ sl_reload sl = Some n
  | TFailed _ | TClear | TDropSender => True
  | TSetStopped => sl_reload sl = None /\ sl_cancel sl = None
  | TDone | TPanicked | TAborted => False
  end.
Definition others_done (w : HandleWorld) (cur : option nat) : Prop := forall m pc, w_tasks w !! m = Some pc -> Some m <> cur -> pc = TDone.
Definition busy (w : HandleWorld) (n : nat) : Prop := exists pc, w_tasks w !! n = Some pc /\ slots_fit (w_slots w) n pc.
Definition slots_clear (sl : Slots) : Prop := sl_cancel sl = None /\ sl_reload sl = None.
Definition halted (s : ClientStatus) : Prop := s = Stopped \/ s = Stopping.

Definition calm (w : HandleWorld) (cur : option nat) : Prop :=
  let sl := w_slots w in
  match cur with
  | Some n => sl_join sl = Some n /\ token_held w n
  | None => slots_clear sl /\ (sl_status sl = Stopped \/ sl_status sl = Stopping /\ sl_join sl = None)
  end.
Definition start_phase (w : HandleWorld) (cur : option nat) (pc : option StartPc) : Prop :=
  let sl := w_slots w in
  let next n := cur = None /\ sl_reload sl = None /\ n < w_next w /\ w_tasks w !! n = None in
  match pc with
  | None | Some (SaCheck _) => calm w cur
  | Some (SaCancel n) => next n
  | Some (SaStatus n) => next n /\ sl_cancel sl = Some n
  | Some (SaError n | SaRemotes n | SaSpawn n) => next n /\ sl_cancel sl = Some n /\ sl_status sl <> Stopped
  | Some (SaJoin n) =>
      w_tasks w !! n <> None /\
      match cur with Some m => m = n /\ token_held w n | None => slots_clear sl /\ sl_status sl = Stopped end
  end.
Definition stop_phase (w : HandleWorld) (cur : option nat) (pc : StopPc) : Prop :=
  let sl := w_slots w in
  match pc with
  | StCheck | StError | StStatus => calm w cur
  | StCancel => match cur with Some n => sl_join sl = Some n /\ token_held w n | None => slots_clear sl /\ halted (sl_status sl) end
  | StJoin => sl_cancel sl = None /\ match cur with Some n => sl_join sl = Some n /\ told w n | None => sl_reload sl = None /\ halted (sl_status sl) end
  | StWait m => sl_cancel sl = None /\ sl_join sl = None /\ w_tasks w !! m <> None /\
      match cur with Some n => m = n /\ told w n | None => sl_reload sl = None /\ halted (sl_status sl) end
  | StSetStopped | StRemotes | StReload => cur = None /\ slots_clear sl /\ sl_join sl = None /\ halted (sl_status sl)
  end.
Definition phase (w : HandleWorld) (cur : option nat) : Prop :=
  (w_stops w = ∅ /\ start_phase w cur (w_start w))
  \/ (w_start w = None /\ exists i pc, w_stops w = {[i := pc]} /\ stop_phase w cur pc).

Record ordered (w : HandleWorld) (cur : option nat) : Prop := {
  or_others : others_done w cur;
  or_busy : match cur with Some n => busy w n | None => True end;
  or_fresh : forall n, w_tasks w !! n <> None -> n < w_next w;
  or_join : forall n, sl_join (w_slots w) = Some n -> w_tasks w !! n <> None;
  or_aborted : w_aborted w = ∅;
  or_phase : phase w cur }.

(** *** Turns of the task *)

(** What a turn of the task leaves as it is. *)
Record same_calls (w w' : HandleWorld) : Prop := {
  sc_join : sl_join (w_slots w') = sl_join (w_slots w);
  sc_start : w_start w' = w_start w; sc_stops : w_stops w' = w_stops w; sc_next : w_next w' = w_next w; sc_aborted : w_aborted w' = w_aborted w;
  sc_cancel : sl_cancel (w_slots w) = None -> sl_cancel (w_slots w') = None }.

Ltac move_task :=
  split; [by split|]; split; [eexists; first [done|eassumption]|]; unfold slots_clear, slots_fit, put_task, put_slots, put_reload, put_cancel, put_status, put_error; cbn;
  rewrite ?lookup_insert_eq; first [ left; split; [eexists; split; [first [done|eassumption]|]; cbn; naive_solver | cbn; naive_solver ] | right; cbn; naive_solver ].

Lemma busy_turn w n c w' : busy w n -> token_held w n \/ told w n -> w_aborted w = ∅ -> orderly w (TaskTurn n c) = true ->
  client_task_turn w n c = Some w' ->
  same_calls w w' /\ (exists pc, w_tasks w' = <[n := pc]> (w_tasks w)) /\
  ((busy w' n /\ (token_held w n -> token_held w' n) /\ (told w n -> told w' n))
   \/ (w_tasks w' !! n = Some TDone /\ slots_clear (w_slots w') /\ sl_status (w_slots w') = Stopped)).
Proof.
  intros (pc & Hpc & Hs & Hf) Ht Ha Ho. unfold busy, token_held, told, client_task_turn in *. rewrite Ha, Hpc in *.
  rewrite bool_decide_eq_false_2 by set_solver.
  assert (w_tasks w = <[n := pc]> (w_tasks w)) as Hsame by (symmetry; by apply insert_id).
  destruct pc; cbn in Hf; try done; destruct c as [|[[]|err]| |a| |[[]|err]|]; try done; cbn [task_over orderly] in *;
    try (destruct (sl_cancel (w_slots w)) as [t|] eqn:Ec); try (destruct (service_status a) eqn:Ea; [|done]); intros; simplify_eq; destruct_and ?; subst.
  all: try (by move_task).
  all: split; [destruct a; by split|]; split; [by eexists|]; left; cbn [w_tasks put_slots w_slots w_cancelled]; rewrite Hpc;
    split; [eexists; split; [done|]; destruct a as [[]|]; done|destruct a; cbn; by rewrite Ec].
Qed.

(** *** Each step keeps the order *)

Lemma task_alive_cur w cur n : ordered w cur -> (exists c w', client_task_turn w n c = Some w') -> cur = Some n.
Proof.
  intros Ho (c & w' & E). unfold client_task_turn in E. destruct (w_tasks w !! n) as [pc|] eqn:En; [|done].
  destruct (decide (cur = Some n)) as [->|Hne]; [done|]. by rewrite (or_others _ _ Ho n pc En) in E by congruence.
Qed.
Lemma phase_token w n : ordered w (Some n) -> token_held w n \/ told w n.
Proof.
  intros [_ _ _ _ _ [[_ Hp]|[_ (i & pc & _ & Hp)]]].
  - destruct (w_start w) as [[]|]; cbn in Hp; destruct_and ?; try done; left; intuition congruence.
  - destruct pc; cbn in Hp; destruct_and ?; try done; intuition congruence.
Qed.
Lemma insert_present (m : gmap nat TaskPc) n pc k : m !! n <> None -> <[n := pc]> m !! k <> None <-> m !! k <> None.
Proof. intros Hn. destruct (decide (n = k)) as [->|Hne]; [by rewrite lookup_insert_eq|by rewrite lookup_insert_ne]. Qed.

Lemma ordered_task_turn w cur n c w' : ordered w cur -> orderly w (TaskTurn n c) = true -> client_task_turn w n c = Some w' ->
  exists cur', ordered w' cur'.
Proof.
  intros Ho Hord E. pose proof (task_alive_cur w cur n Ho ltac:(by eexists _, _)) as ->. pose proof (phase_token w n Ho) as Ht.
  destruct Ho as [Hot Hb Hfr Hj Ha Hph]. destruct (busy_turn w n c w' Hb Ht Ha Hord E) as ([Sj Sst Ssp Sn Sa Sc] & (pc & Htasks) & Hcase).
  assert (w_tasks w !! n <> None) as Hn by (destruct Hb as (pc0 & -> & _); done).
  assert (forall k, w_tasks w' !! k <> None <-> w_tasks w !! k <> None) as Hkeys by (intros k; rewrite Htasks; by apply insert_present).
  assert (forall m pc', m <> n -> w_tasks w' !! m = Some pc' -> pc' = TDone) as Hoth.
  { intros m pc' Hm. rewrite Htasks, lookup_insert_ne by done. intros Hl. apply (Hot m pc' Hl). congruence. }
  destruct Hcase as [(Hb' & Hheld & Htold)|(Hdone & [Hc Hr] & Hst)]; [exists (Some n)|exists None]; split.
  1: intros m pc' Hm Hne; apply (Hoth m pc'); [congruence|done].
  6: intros m pc' Hm _; destruct (decide (m = n)) as [->|Hne]; [congruence|by eapply Hoth].
  all: try done.
  all: try (by intros k Hk; rewrite ?Sn; apply Hfr, Hkeys).
  all: try (by intros k Hk; rewrite Sj in Hk; apply Hkeys, Hj).
  all: try (by rewrite Sa).
  all: destruct Hph as [[Hs Hp]|(Hs & i & spc & Hi & Hp)];
    [left; split; [by rewrite Ssp|]; rewrite Sst; destruct (w_start w) as [[]|]|right; split; [by rewrite Sst|]; exists i, spc; split; [by rewrite Ssp|]; destruct spc];
    cbn in Hp |- *; rewrite ?Sj, ?Hkeys; clear Hkeys Hoth Hot Hb Hfr Hj Hn E Htasks; unfold slots_clear, halted, calm in *; destruct_and ?; subst;
    try discriminate; repeat split; auto.
Qed.

Ltac open_phase Ho := let Ho' := fresh in pose proof Ho as Ho'; destruct Ho' as [Hot Hb Hfr Hj Ha Hph].
Lemma busy_slots w w' n : w_tasks w' = w_tasks w -> sl_reload (w_slots w') = sl_reload (w_slots w) ->
  (sl_cancel (w_slots w') = sl_cancel (w_slots w) \/ sl_cancel (w_slots w') = None) -> sl_status (w_slots w') <> Stopped -> busy w n -> busy w' n.
Proof.
  intros Et Er Ec Es (pc & Hpc & Hs & Hf). exists pc. rewrite Et. split; [done|]. split; [done|]. rewrite Er.
  destruct pc; try done. destruct Hf as [Hr Hc]. rewrite Hc in Ec. intuition.
Qed.
(** Steps of a call that leave the tasks alone. *)
Lemma ordered_same_tasks w w' cur : ordered w cur -> w_tasks w' = w_tasks w -> w_aborted w' = w_aborted w -> w_next w <= w_next w' ->
  (sl_join (w_slots w') = sl_join (w_slots w) \/ sl_join (w_slots w') = None) ->
  (forall n, cur = Some n -> busy w' n) -> phase w' cur -> ordered w' cur.
Proof.
  intros [Hot Hb Hfr Hj Ha _] Et Ea En Ej Hbusy Hph. split; [| | | |by rewrite Ea|done].
  - intros m pc. rewrite Et. apply Hot.
  - destruct cur; auto.
  - intros n. rewrite Et. intros Hn. apply Hfr in Hn. lia.
  - intros n. rewrite Et. destruct Ej as [->| ->]; [apply Hj|done].
Qed.
Lemma busy_active w cur : ordered w cur -> sl_status (w_slots w) = Stopped -> cur = None.
Proof. intros [_ Hb _ _ _ _] Hs. destruct cur; [|done]. by destruct Hb as (pc & _ & Hn & _). Qed.

Lemma ordered_start_turn w cur w' : ordered w cur -> start_turn w = Some w' -> exists cur', ordered w' cur'.
Proof.
  intros Ho E. open_phase Ho. unfold start_turn in E. destruct (w_start w) as [pc|] eqn:Es; [|done].
  destruct Hph as [[Hs Hp]|[Hn _]]; [|congruence]. rewrite Es in Hp.
  destruct pc as [valid|n|n|n|n|n|n]; cbn in Hp.
  - destruct (is_active _) eqn:Eact; [injection E as <-; exists cur; apply (ordered_same_tasks w); auto; [by intros n ->|left; by split]|].
    destruct valid as [[]|e]; injection E as <-; [|exists cur; apply (ordered_same_tasks w); auto; [by intros n ->|left; by split]].
    assert (sl_status (w_slots w) = Stopped) as Hst by (by destruct (sl_status (w_slots w))).
    pose proof (busy_active _ _ Ho Hst) as ->. exists None. apply (ordered_same_tasks w); auto; [cbn; lia|done|]. left. split; [done|].
    cbn. destruct Hp as [[_ Hr] _]. repeat split; [done|lia|]. destruct (w_tasks w !! w_next w) eqn:El; [|done].
    assert (w_next w < w_next w) by (apply Hfr; by rewrite El). lia.
  - injection E as <-. destruct Hp as (-> & Hr & Hlt & Hnone). exists None. apply (ordered_same_tasks w); auto; [done|]. left. by repeat split.
  - injection E as <-. destruct Hp as ((-> & Hr & Hlt & Hnone) & Hc). exists None. apply (ordered_same_tasks w); auto; [done|]. left. by repeat split.
  - injection E as <-. destruct Hp as ((-> & Hr & Hlt & Hnone) & Hc & Hst). exists None. apply (ordered_same_tasks w); auto; [done|]. left. by repeat split.
  - injection E as <-. destruct Hp as ((-> & Hr & Hlt & Hnone) & Hc & Hst). exists None. apply (ordered_same_tasks w); auto; [done|]. left. by repeat split.
  - injection E as <-. destruct Hp as ((-> & Hr & Hlt & Hnone) & Hc & Hst). exists (Some n). split; cbn.
    + intros m pc. cbn. destruct (decide (m = n)) as [->|Hne]; [done|]. rewrite lookup_insert_ne by done. intros Hl _. by eapply Hot.
    + exists TSpawned. cbn. rewrite lookup_insert_eq. by repeat split.
    + intros k. destruct (decide (k = n)) as [->|Hne]; [done|]. rewrite lookup_insert_ne by done. apply Hfr.
    + intros k Hk. destruct (decide (k = n)) as [->|Hne]; [by rewrite lookup_insert_eq|]. rewrite lookup_insert_ne by done. by apply Hj.
    + done.
    + left. split; [done|]. cbn. rewrite lookup_insert_eq. unfold token_held. cbn. rewrite lookup_insert_eq. by split.
  - injection E as <-. destruct Hp as (Hn & Hp). exists cur. split; cbn; auto; [by intros k [= <-]|].
    left. split; [done|]. cbn. destruct cur as [m|]; [|naive_solver]. destruct Hp as [-> Hp]. by split.
Qed.

Lemma put_stop_singleton w i pc pc' : w_stops w = {[i := pc]} -> w_stops (put_stop i (Some pc') w) = {[i := pc']}.
Proof. intros E. cbn. rewrite E. change (<[i := pc']> ({[i := pc]} : gmap nat StopPc) = {[i := pc']}). by rewrite insert_singleton_eq. Qed.
Lemma put_stop_last w i pc : w_stops w = {[i := pc]} -> w_stops (put_stop i None w) = ∅.
Proof. intros E. cbn. rewrite E. change (delete i ({[i := pc]} : gmap nat StopPc) = ∅). by rewrite delete_singleton_eq. Qed.

Ltac same_tasks :=
  match goal with Hb : match ?cur with _ => _ end |- ordered _ ?cur =>
    eapply ordered_same_tasks; [eassumption|done|done|done|by auto|
      let n := fresh in intros n E'; (subst cur || rewrite E' in Hb || discriminate E'); first [exact Hb|eapply busy_slots; [..|exact Hb]; cbn; eauto]|]
  | |- ordered _ None => eapply ordered_same_tasks; [eassumption|done|done|done|by auto|done|] end.
Lemma ordered_stop_turn w cur i w' : ordered w cur -> stop_turn w i false = Some w' -> ordered w' cur.
Proof.
  intros Ho E. open_phase Ho. unfold stop_turn in E. destruct (w_stops w !! i) as [pc|] eqn:Es; [|done].
  destruct Hph as [[Hs _]|(Hst & j & pc' & Hs & Hp)]; [by rewrite Hs, lookup_empty in Es|].
  assert (j = i /\ pc' = pc) as [-> ->] by (rewrite Hs in Es; by apply lookup_singleton_Some in Es).
  assert (forall w1 pc1, w_stops w1 = w_stops w -> w_start w1 = None -> stop_phase (put_stop i (Some pc1) w1) cur pc1 ->
            phase (put_stop i (Some pc1) w1) cur) as Hgo.
  { intros w1 pc1 E1 E2 Hp1. right. split; [done|]. exists i, pc1. split; [|done]. apply (put_stop_singleton _ _ pc). congruence. }
  assert (forall w1, w_stops w1 = w_stops w -> w_start w1 = None -> calm (put_stop i None w1) cur -> phase (put_stop i None w1) cur) as Hend.
  { intros w1 E1 E2 Hp1. left. split; [apply (put_stop_last _ _ pc); congruence|]. cbn. by rewrite E2. }
  assert (forall n, cur = Some n -> sl_status (w_slots w) <> Stopped) as Hactive by (intros n ->; by destruct Hb as (? & _ & ? & _)).
  destruct pc; cbn in Hp.
  - destruct (bool_decide_reflect (sl_status (w_slots w) = Stopped)); injection E as <-;
      same_tasks; [by apply Hend|by apply Hgo].
  - injection E as <-. same_tasks. by apply Hgo.
  - injection E as <-. same_tasks. apply Hgo; [done..|].
    cbn. destruct cur as [n|]; [done|]. destruct Hp as [? _]. split; [done|by right].
  - injection E as <-. same_tasks. apply Hgo; [done..|].
    cbn. split; [done|]. destruct cur as [n|]; [|by destruct Hp as [[_ ?] ?]]. destruct Hp as [Hjn Htok]. split; [done|].
    revert Htok. unfold token_held, told. cbn. destruct Hb as (pc & Hpc & _ & Hf). rewrite Hpc. destruct pc; try done; intros ->; cbn in Hf; destruct Hf as [-> _]; set_solver.
  - injection E as <-. same_tasks.
    destruct Hp as [Hc Hp]. destruct (sl_join (w_slots w)) as [m|] eqn:Ej; (apply Hgo; [done..|]); cbn.
    + repeat split; [done|by apply Hj|]. destruct cur as [n|]; [|done]. destruct Hp as [[= ->] ?]. by split.
    + destruct cur as [n|]; [by destruct Hp|]. destruct Hp as [Hr Hh]. by repeat split.
  - destruct (w_tasks w !! n) as [tpc|] eqn:En; [|done]. destruct (task_over tpc) eqn:Eo; [|done]. injection E as <-.
    same_tasks. apply Hgo; [done..|]. destruct Hp as (Hc & Hjn & _ & Hp).
    destruct cur as [m|]; [|cbn; destruct Hp as [Hr Hh]; by repeat split]. destruct Hp as [-> _]. destruct Hb as (tpc' & Hpc & _ & Hf).
    exfalso. rewrite En in Hpc. injection Hpc as <-. by destruct tpc.
  - injection E as <-. destruct Hp as (-> & Hcl & Hjn & Hh). same_tasks. apply Hgo; [done..|]. cbn. repeat split; try apply Hcl; try done. by left.
  - injection E as <-. destruct Hp as (-> & Hcl & Hjn & Hh). same_tasks. apply Hgo; [done..|]. cbn. by repeat split; try apply Hcl.
  - injection E as <-. destruct Hp as (-> & Hcl & Hjn & Hh). same_tasks. apply Hend; [done..|]. cbn.
    destruct Hcl as [Hc _]. repeat split; [done|]. destruct Hh as [?|?]; [by left|by right].
Qed.

Lemma ordered_new : ordered handle_world_new None.
Proof. split; try done. left. split; [done|]. cbn. split; [done|]. by left. Qed.
Lemma in_call_false w : in_call w = false -> w_start w = None /\ w_stops w = ∅.
Proof. unfold in_call. by destruct (bool_decide_reflect (w_start w = None /\ w_stops w = ∅)). Qed.
Lemma ordered_step w cur ev w' : ordered w cur -> orderly w ev = true -> handle_step w ev = Some w' -> exists cur', ordered w' cur'.
Proof.
  intros Ho Hord E. destruct ev as [valid| |i|i timeout|n c]; cbn in E.
  - apply negb_true_iff, in_call_false in Hord as [Hs Hs']. rewrite bool_decide_eq_true_2 in E by done. injection E as <-. exists cur.
    open_phase Ho. same_tasks. left. split; [done|]. destruct Hph as [[_ Hp]|(_ & i & pc & E & _)]; [by rewrite Hs in Hp|].
    rewrite Hs' in E. by apply symmetry, (map_non_empty_singleton (M := gmap nat)) in E.
  - by eapply ordered_start_turn.
  - apply negb_true_iff, in_call_false in Hord as [Hs Hs']. rewrite Hs', bool_decide_eq_true_2 in E by done. injection E as <-. exists cur.
    open_phase Ho. same_tasks. right. split; [done|]. exists i, StCheck. split; [cbn; rewrite Hs'; change (<[i := StCheck]> (∅ : gmap nat StopPc) = {[i := StCheck]}); by rewrite insert_empty|].
    destruct Hph as [[_ Hp]|(_ & j & pc & E & _)]; [by rewrite Hs in Hp|]. rewrite Hs' in E. by apply symmetry, (map_non_empty_singleton (M := gmap nat)) in E.
  - destruct timeout; [done|]. exists cur. by eapply ordered_stop_turn.
  - by eapply ordered_task_turn.
Qed.
Lemma orderly_run_ordered evs : forall w cur w', ordered w cur -> orderly_run w evs = Some w' -> exists cur', ordered w' cur'.
Proof.
  induction evs as [|ev evs IH]; intros w cur w' Ho E; cbn in E; [injection E as <-; by exists cur|].
  destruct (orderly w ev) eqn:Eo; [|done]. destruct (handle_step w ev) as [w1|] eqn:E1; [|done].
  destruct (ordered_step _ _ _ _ Ho Eo E1) as [cur1 Ho1]. by eapply IH.
Qed.
Lemma alive_cur w cur n : ordered w cur -> task_alive w n -> cur = Some n.
Proof.
  intros Ho. unfold task_alive. destruct (w_tasks w !! n) as [pc|] eqn:En; [|done]. intros Hp. destruct (decide (cur = Some n)) as [|Hne]; [done|].
  by rewrite (or_others _ _ Ho n pc En) in Hp by congruence.
Qed.
Lemma busy_alive w n : busy w n -> task_alive w n.
Proof. unfold task_alive. intros (pc & -> & _ & Hf). by destruct pc. Qed.
Lemma quiet_calm w cur : ordered w cur -> in_call w = false -> calm w cur.
Proof.
  intros Ho [Hs Hs']%in_call_false. destruct (or_phase _ _ Ho) as [[_ Hp]|(_ & i & pc & E & _)]; [by rewrite Hs in Hp|].
  rewrite Hs' in E. by apply symmetry, (map_non_empty_singleton (M := gmap nat)) in E.
Qed.

(** C20: As long as a call is made only when the one before it has returned - and a client
    ends in the time a stop allows it and does not panic - two clients never run at once,
    however their tasks interleave with the calls.  Between calls a client's status says
    it is active, its task is the one a stop would wait for, and while it serves the token
    a stop would cancel and the sender a reload would use are its own; without a client
    nothing of one is left.  A stop that waits has told the client to end, and when it
    returns no client runs. *)
Theorem one_client_at_a_time (evs : list HandleEv) (w : HandleWorld) :
  orderly_run handle_world_new evs = Some w ->
  let sl := w_slots w in
  (forall n m, task_alive w n -> task_alive w m -> n = m)
  /\ (in_call w = false ->
      (forall n, task_alive w n -> is_active (sl_status sl) = true /\ sl_join sl = Some n
                 /\ (task_serving w n -> sl_cancel sl = Some n /\ reload_target sl = Ok n))
      /\ ((forall n, ~ task_alive w n) -> sl_cancel sl = None /\ sl_reload sl = None
                 /\ (sl_status sl = Stopped \/ sl_status sl = Stopping /\ sl_join sl = None)))
  /\ (forall i m, w_stops w !! i = Some (StWait m) -> (task_alive w m -> told w m) /\ forall n, task_alive w n -> n = m)
  /\ (forall i w', w_stops w !! i <> None -> handle_step w (StopTurn i false) = Some w' -> w_stops w' !! i = None ->
      forall n, ~ task_alive w' n).
Proof.
  intros E sl. destruct (orderly_run_ordered _ _ _ _ ordered_new E) as [cur Ho]. split; [|split; [|split]].
  - intros n m Hn%(alive_cur _ _ _ Ho) Hm%(alive_cur _ _ _ Ho). congruence.
  - intros Hq. pose proof (quiet_calm _ _ Ho Hq) as Hc. split.
    + intros n Hn%(alive_cur _ _ _ Ho). subst cur. destruct Hc as [Hj Htok]. destruct (or_busy _ _ Ho) as (pc & Hpc & Hst & Hf).
      assert (is_active (sl_status sl) = true) as Hact by (subst sl; by destruct (sl_status (w_slots w))). split; [done|]. split; [done|].
      unfold task_serving, token_held in *. rewrite Hpc in *. unfold reload_target. rewrite Hact. intros Hserv.
      destruct pc; try done; cbn in Hf; destruct Hf as [-> Hr]; subst sl; by rewrite Hr.
    + intros Hno. destruct cur as [n|]; [by destruct (Hno n (busy_alive _ _ (or_busy _ _ Ho)))|]. by destruct Hc as [[? ?] ?].
  - intros i m Hi. destruct (or_phase _ _ Ho) as [[Hs _]|(_ & j & pc & Hs & Hp)]; [by rewrite Hs, lookup_empty in Hi|].
    rewrite Hs in Hi. apply lookup_singleton_Some in Hi as [-> ->]. destruct Hp as (_ & _ & _ & Hp). split.
    + intros Hn%(alive_cur _ _ _ Ho). subst cur. by destruct Hp as [_ ?].
    + intros n Hn%(alive_cur _ _ _ Ho). subst cur. by destruct Hp as [-> _].
  - intros i w' Hi Estep Hi' n Hn. pose proof (ordered_stop_turn _ _ _ _ Ho Estep) as Ho'. pose proof (alive_cur _ _ _ Ho' Hn) as ->.
    destruct (or_phase _ _ Ho) as [[Hs _]|(_ & j & pc & Hs & Hp)]; [by rewrite Hs, lookup_empty in Hi|].
    rewrite Hs in Hi. destruct (decide (j = i)) as [->|Hne]; [|by rewrite lookup_singleton_ne in Hi].
    cbn in Estep. unfold stop_turn in Estep. rewrite Hs, lookup_singleton_eq in Estep. destruct (or_busy _ _ Ho) as (tpc & _ & Hact & _).
    assert (forall w1 pc', Some (put_stop i (Some pc') w1) = Some w' -> False) as Hno.
    { intros w1 pc' [= <-]. cbn in Hi'. by rewrite lookup_partial_alter_eq in Hi'. }
    destruct pc; try (by eapply Hno); [|by destruct (w_tasks w !! _) as [pc'|]; [destruct (task_over pc'); [by eapply Hno|]|]|by destruct Hp].
    rewrite bool_decide_eq_false_2 in Estep by done. by eapply Hno.
Qed.

Lemma all_over w : map_Forall (fun _ pc => task_over pc = true) (w_tasks w) -> forall n, ~ task_alive w n.
Proof. intros Hall n. unfold task_alive. destruct (w_tasks w !! n) as [pc|] eqn:E; [|by intros []]. pose proof (Hall n pc E) as H. cbn in H. by rewrite H. Qed.
(** A stop under way can always go on, but where it waits for the client; and that one
    has a turn to take. *)
Lemma stop_never_stuck evs w i : orderly_run handle_world_new evs = Some w -> w_stops w !! i <> None ->
  (exists w', handle_step w (StopTurn i false) = Some w')
  \/ exists m, w_stops w !! i = Some (StWait m) /\ task_alive w m /\ exists c w', orderly w (TaskTurn m c) = true /\ handle_step w (TaskTurn m c) = Some w'.
Proof.
  intros E Hi. destruct (orderly_run_ordered _ _ _ _ ordered_new E) as [cur Ho]. cbn. unfold stop_turn.
  destruct (w_stops w !! i) as [pc|] eqn:Es; [|done]. destruct (or_phase _ _ Ho) as [[Hs _]|(_ & j & pc' & Hs & Hp)]; [by rewrite Hs, lookup_empty in Es|].
  rewrite Hs in Es. apply lookup_singleton_Some in Es as [-> ->]. destruct pc; try (left; by eexists); [left; by case_bool_decide; eexists|].
  destruct Hp as (_ & _ & Hn & _). destruct (w_tasks w !! n) as [tpc|] eqn:En; [|done]. destruct (task_over tpc) eqn:Eo; [left; by eexists|].
  right. exists n. split; [done|]. unfold task_alive. rewrite En. split; [done|]. unfold client_task_turn. rewrite En.
  destruct tpc; try done; first [by exists Poll; eexists|by exists Next; eexists|by exists (Prepared (Err "")); eexists|by exists Park; eexists].
Qed.

(** *** Witness *)

Definition start_evs : list HandleEv := CallStart (Ok tt) :: replicate 7 StartTurn.
Definition client_opens (n : nat) : list HandleEv := map (TaskTurn n) [Poll; Prepared (Ok tt); Next; Acts (SvStatus Running); Park].
Definition client_ends (n : nat) : list HandleEv := map (TaskTurn n) ([Poll; Ends (Ok tt)] ++ replicate 4 Next)%list.
Definition stop_turns (i k : nat) : list HandleEv := replicate k (StopTurn i false).

Lemma one_client_at_a_time_witness :
  exists w, orderly_run handle_world_new (start_evs ++ client_opens 1 ++ [CallStop 7] ++ stop_turns 7 5 ++ client_ends 1 ++ stop_turns 7 2)%list = Some w
    /\ forall w', handle_step w (StopTurn 7 false) = Some w' -> w_stops w' !! 7 = None -> forall n, ~ task_alive w' n.
Proof.
  eexists. split; [vm_compute; reflexivity|]. intros w' Hstep Hret.
  refine (proj2 (proj2 (proj2 (one_client_at_a_time (start_evs ++ client_opens 1 ++ [CallStop 7] ++ stop_turns 7 5 ++ client_ends 1 ++ stop_turns 7 2)%list _ _))) 7 w' _ Hstep Hret);
    [vm_compute; reflexivity|vm_compute; discriminate].
Defined.

(** ** Calls that overlap, and calls that race the client's end *)

(** Nothing keeps a second stop from being called while the first one waits: it finds the
    task taken, says Stopped and lets a new client start beside the old one, whose end
    then says Stopped again and takes the new one's token and sender out of the slots.
    The new client goes on serving: no stop reaches it, and a third one can be started. *)
Definition three_clicks : list HandleEv :=
  (start_evs ++ client_opens 1 ++ [CallStop 1] ++ stop_turns 1 5 ++ [CallStop 2] ++ stop_turns 2 8
   ++ start_evs ++ client_opens 2 ++ client_ends 1 ++ stop_turns 1 3)%list.
Lemma overlapping_stops_lose_client :
  exists w, handle_run handle_world_new three_clicks = Some w
    /\ in_call w = false /\ sl_status (w_slots w) = Stopped /\ task_serving w 2 /\ (2 ∉ w_cancelled w)
    /\ handle_run w [CallStop 3; StopTurn 3 false] = Some w
    /\ exists w', handle_run w (start_evs ++ client_opens 3)%list = Some w' /\ task_serving w' 2 /\ task_serving w' 3.
Proof.
  eexists. split; [vm_compute; reflexivity|]. split; [done|]. split; [done|]. split; [done|].
  split; [by apply (bool_decide_unpack (2 ∉ _)); vm_compute|]. split; [vm_compute; reflexivity|]. eexists. split; [vm_compute; reflexivity|done].
Qed.

(** The client's end says Stopped before the stop that waits for it has finished: a client
    started in between loses the sender it has just filed, and can never be reloaded. *)
Lemma late_stop_blocks_reload :
  exists w, handle_run handle_world_new (start_evs ++ client_opens 1 ++ [CallStop 1] ++ stop_turns 1 5 ++ client_ends 1
                                         ++ start_evs ++ client_opens 2 ++ stop_turns 1 3)%list = Some w
    /\ in_call w = false /\ sl_status (w_slots w) = Running /\ task_serving w 2
    /\ reload_target (w_slots w) = Err "reload channel not ready".
Proof. eexists. split; [vm_compute; reflexivity|done]. Qed.

(** A client that ends of itself between a stop's look at the status and its own word on it
    leaves the status Stopping for good: a start is refused, and why the client ended is
    lost, until somebody stops what does not run. *)
Definition end_in_stop : list HandleEv :=
  (start_evs ++ client_opens 1 ++ map (TaskTurn 1) ([Poll; Ends (Err "login refused")] ++ replicate 4 Next)
   ++ [CallStop 1; StopTurn 1 false; TaskTurn 1 Next] ++ stop_turns 1 7)%list.
Lemma end_in_stop_leaves_stopping :
  exists w, orderly_run handle_world_new end_in_stop = Some w
    /\ in_call w = false /\ (forall n, ~ task_alive w n) /\ sl_status (w_slots w) = Stopping /\ sl_error (w_slots w) = None
    /\ handle_run w [CallStart (Ok tt); StartTurn] = Some w
    /\ exists w', orderly_run w (CallStop 1 :: stop_turns 1 8) = Some w' /\ in_call w' = false /\ sl_status (w_slots w') = Stopped.
Proof.
  eexists. split; [vm_compute; reflexivity|]. split; [done|]. split.
  - apply all_over. apply (bool_decide_unpack (map_Forall _ _)). by vm_compute.
  - split; [done|]. split; [done|]. split; [vm_compute; reflexivity|]. eexists. split; [vm_compute; reflexivity|done].
Qed.

(** A client stopped before its task has looked for its token ends with an error of its own. *)
Lemma early_stop_is_an_error :
  exists w, orderly_run handle_world_new (start_evs ++ [CallStop 1] ++ stop_turns 1 5
              ++ map (TaskTurn 1) ([Poll; Prepared (Ok tt)] ++ replicate 5 Next) ++ stop_turns 1 3)%list = Some w
    /\ in_call w = false /\ sl_status (w_slots w) = Stopped /\ sl_error (w_slots w) = Some "missing cancel token".
Proof. eexists. split; [vm_compute; reflexivity|done]. Qed.
