(* ===== verification/ServerRun.v ===== *)
(** * Running the server

    [server/src/main.rs] and [Service::run] of [server/src/service/mod.rs]: the
    configuration a server starts with, the listeners it starts, in their order, and how
    the end of any one of them ends the server; the accept loops of
    [server/src/service/ingress.rs], [server/src/tunnel/http.rs] and
    [server/src/tunnel/https.rs].  Binding, accepting and the tasks that serve a
    connection are outcomes. *)

From S2P Require Import Prelude RustStr Net Config ServerConfig ClientTunnels.

Local Open Scope string_scope.

(** ** Accept loops *)

(** One turn of a gateway's loop: [shutdown] was notified, or what [accept] gave. *)
Inductive GwTurn := GwShutdown | GwAccepted (peer : SocketAddr) | GwAcceptFailed (e : string).
(** The connections handed to tasks of their own, and how the loop ended, if it did. *)
Fixpoint gw_loop (turns : list GwTurn) : list SocketAddr * option (Anyhow unit) :=
  match turns with
  | [] => ([], None)
  | (GwShutdown | GwAcceptFailed _) :: _ => ([], Some (Ok tt))
  | GwAccepted peer :: turns => let '(peers, r) := gw_loop turns in (peer :: peers, r)
  end.
Definition run_http_gw_listener (bind : string -> Anyhow unit) (bind_addr : string) (port : Z) (turns : list GwTurn)
    : list SocketAddr * option (Anyhow unit) :=
  match bind (bind_addr ++ ":" ++ show_Z port) with Err e => ([], Some (Err e)) | Ok _ => gw_loop turns end.
Definition run_https_gw_listener := run_http_gw_listener.
(** [run_tcp], [run_kcp] and [run_quic]: what each accept gave. *)
Fixpoint accept_loop (accepts : list (Anyhow SocketAddr)) : list SocketAddr * option (Anyhow unit) :=
  match accepts with
  | [] => ([], None)
  | Err e :: _ => ([], Some (Err e))
  | Ok peer :: accepts => let '(peers, r) := accept_loop accepts in (peer :: peers, r)
  end.
Definition quic_accept (incoming : option SocketAddr) : Anyhow SocketAddr := ok_or incoming "quic endpoint closed".

(** ** Starting the listeners *)

Inductive Listener := LHttpGw (addr : string) | LHttpsGw (addr : string) | LQuic (addr : SocketAddr) | LKcp (addr : SocketAddr) | LDashboard (addr : string) | LTcp (addr : string).
#[global] Instance Listener_eq_dec : EqDecision Listener.
Proof. solve_decision. Defined.
(** What the machine says to the sockets that are opened before their tasks. *)
Record RunEnv := MkRunEnv { re_bind : string -> Anyhow unit; re_quic : SocketAddr -> Anyhow unit; re_kcp : SocketAddr -> Anyhow unit }.

Section Setup.
Context (env : RunEnv) (c : ServerConfig).

Definition udp_addr (host : string) (port : Z) (error : string) : Anyhow SocketAddr := ok_or (parse_socket_addr (host ++ ":" ++ show_Z port)) error.
Definition setup_quic (host : string) : Anyhow (list Listener) :=
  if quic_enabled c then
    let? addr := udp_addr host (sc_quic_port c) "invalid quic bind addr: invalid socket address syntax" in
    let? _ := re_quic env addr in Ok [LQuic addr]
  else Ok [].
Definition setup_kcp (host : string) : Anyhow (list Listener) :=
  if kcp_enabled c then
    let? addr := udp_addr host (sc_kcp_port c) "invalid kcp bind addr: invalid socket address syntax" in
    let? _ := re_kcp env addr in Ok [LKcp addr]
  else Ok [].
Definition gateways : list Listener :=
  ((if http_gw_enabled c then [LHttpGw (sc_proxy_addr c ++ ":" ++ show_Z (sc_http_gw_port c))] else [])
   ++ (if https_gw_enabled c then [LHttpsGw (sc_proxy_addr c ++ ":" ++ show_Z (sc_https_gw_port c))] else []))%list.
Definition dashboard_listener : list Listener :=
  if dashboard_enabled (sc_dashboard c) then [LDashboard (db_addr (sc_dashboard c) ++ ":" ++ show_Z (db_port (sc_dashboard c)))] else [].

(** The listener tasks spawned, up to the first thing that fails: [run] then returns and
    what was spawned goes with the set. *)
Definition run_setup : list Listener * Anyhow unit :=
  match re_bind env (sc_listen c) with
  | Err e => ([], Err e)
  | Ok _ =>
      match listen_host c with
      | Err e => ([], Err ("invalid listen: " ++ e))
      | Ok host =>
          match setup_quic host with
          | Err e => (gateways, Err e)
          | Ok quic =>
              match setup_kcp host with
              | Err e => (gateways ++ quic, Err e)%list
              | Ok kcp => (gateways ++ quic ++ kcp ++ dashboard_listener ++ [LTcp (sc_listen c)], Ok tt)%list
              end
          end
      end
  end.
End Setup.

(** ** Until the first listener ends *)

Inductive Joined := Returned (r : Anyhow unit) | JoinCancelled | JoinPanicked (e : string).
Definition join_outcome (j : Joined) : Anyhow unit :=
  match j with Returned r => r | JoinCancelled => Ok tt | JoinPanicked e => Err ("listener task join: " ++ e) end.

(** [rn_ended]: tasks that ended and are not joined yet; [rn_first] is the first one joined,
    after which the rest is aborted; [rn_result] what [run] returned. *)
Record RunState := MkRun { rn_running : list Listener; rn_ended : list Joined; rn_first : option Joined; rn_result : option (Anyhow unit) }.
Inductive RunEv := TaskEnd (k : nat) (j : Joined) | JoinNext (k : nat).
Definition run_step (s : RunState) (ev : RunEv) : option RunState :=
  match rn_result s, ev with
  | Some _, _ => None
  | None, TaskEnd k j =>
      match rn_running s !! k, j, rn_first s with
      | None, _, _ | _, JoinCancelled, None => None
      | Some _, _, _ => Some (MkRun (delete k (rn_running s)) (rn_ended s ++ [j])%list (rn_first s) None)
      end
  | None, JoinNext k =>
      match rn_ended s !! k with
      | None => None
      | Some j =>
          let first := match rn_first s with Some f => f | None => j end in
          let ended := delete k (rn_ended s) in
          Some (MkRun (rn_running s) ended (Some first)
                  (match rn_running s, ended with [], [] => Some (join_outcome first) | _, _ => None end))
      end
  end.
Definition run_serving (ls : list Listener) (evs : list RunEv) : option RunState :=
  fold_left (fun s ev => match s with Some s => run_step s ev | None => None end) evs (Some (MkRun ls [] None None)).

(** [main.rs]: the configuration, and the path it came from. *)
Definition load_server_config (load : string -> Anyhow ServerConfig) (config : option string) : Anyhow (ServerConfig * option string) :=
  match config with
  | Some path =>
      let path := trim path in
      if is_empty path then let? _ := server_validate server_from_defaults in Ok (server_from_defaults, None)
      else let? c := load path in Ok (c, Some path)
  | None => let? _ := server_validate server_from_defaults in Ok (server_from_defaults, None)
  end.

(** ** Properties *)

(** Without a file the server starts with its defaults, which are valid; a path of spaces is none. *)
Lemma defaults_load load s : is_empty (trim s) = true -> load_server_config load (Some s) = Ok (server_from_defaults, None) /\ load_server_config load None = Ok (server_from_defaults, None).
Proof. intros Hs. unfold load_server_config. rewrite Hs. split; vm_compute; reflexivity. Qed.

Lemma run_step_inv s ev s' :
  (rn_result s = None -> rn_first s = None -> JoinCancelled ∉ rn_ended s) -> (forall j, rn_first s = Some j -> j <> JoinCancelled) ->
  run_step s ev = Some s' ->
  (rn_result s' = None -> rn_first s' = None -> JoinCancelled ∉ rn_ended s')
  /\ (forall j, rn_first s' = Some j -> j <> JoinCancelled)
  /\ (forall r, rn_result s' = Some r -> rn_running s' = [] /\ rn_ended s' = [] /\ exists j, rn_first s' = Some j /\ r = join_outcome j).
Proof.
  intros Hn Hf E. unfold run_step in E. destruct (rn_result s) eqn:Er; [done|]. destruct ev as [k j|k].
  - destruct (rn_running s !! k); [|done]. destruct j, (rn_first s) as [f|] eqn:Ef; try done; injection E as <-; cbn; (split; [|by split]); intros _ [=];
      rewrite elem_of_app, list_elem_of_singleton; intros [H|[=]]; by apply Hn.
  - destruct (rn_ended s !! k) as [j|] eqn:Ek; [|done]. injection E as <-. cbn. split; [done|]. split.
    + intros j' [= <-]. destruct (rn_first s) as [f|] eqn:Ef; [by apply Hf|]. intros ->. apply Hn; [done..|]. by eapply list_elem_of_lookup_2.
    + intros r Hr. destruct (rn_running s), (delete k (rn_ended s)); try done. injection Hr as <-. repeat split. by eexists.
Qed.

(** [run] returns only when every listener task is over, and with what the one that was
    joined first made of itself: no listener had been cancelled before. *)
Theorem run_first_decides (ls : list Listener) (evs : list RunEv) (s : RunState) (r : Anyhow unit) :
  run_serving ls evs = Some s -> rn_result s = Some r ->
  rn_running s = [] /\ rn_ended s = [] /\ exists j, rn_first s = Some j /\ j <> JoinCancelled /\ r = join_outcome j.
Proof.
  unfold run_serving. intros E. assert (forall evs s0 s, (rn_result s0 = None -> rn_first s0 = None -> JoinCancelled ∉ rn_ended s0) ->
    (forall j, rn_first s0 = Some j -> j <> JoinCancelled) ->
    (forall r, rn_result s0 = Some r -> rn_running s0 = [] /\ rn_ended s0 = [] /\ exists j, rn_first s0 = Some j /\ r = join_outcome j) ->
    fold_left (fun s ev => match s with Some s => run_step s ev | None => None end) evs (Some s0) = Some s ->
    forall r, rn_result s = Some r -> rn_running s = [] /\ rn_ended s = [] /\ exists j, rn_first s = Some j /\ j <> JoinCancelled /\ r = join_outcome j) as Hgen.
  { clear. induction evs as [|ev evs IH]; intros s0 s H1 H2 H3; cbn [fold_left].
    - intros [= <-] r Hr. destruct (H3 r Hr) as (? & ? & j & Hj & ->). repeat split; try done. exists j. repeat split; auto.
    - destruct (run_step s0 ev) as [s1|] eqn:E1.
      + destruct (run_step_inv _ _ _ H1 H2 E1) as (H1' & H2' & H3'). by apply IH.
      + intros E. exfalso. clear -E. revert E. induction evs; cbn; [done|]. done. }
  intros Hr. eapply Hgen; [| | |exact E|exact Hr]; cbn; try done. intros _ _. apply not_elem_of_nil.
Qed.

(** A set-up that fails starts no listener for the control connections. *)
Lemma setup_failed_no_tcp env c e : (run_setup env c).2 = Err e -> forall a, LTcp a ∉ (run_setup env c).1.
Proof.
  unfold run_setup. intros E a. assert (LTcp a ∉ gateways c) as Hg by (unfold gateways; destruct (http_gw_enabled c), (https_gw_enabled c); set_solver).
  destruct (re_bind env (sc_listen c)); [|set_solver]. destruct (listen_host c) as [host|]; [|set_solver].
  assert (forall q, setup_quic env c host = Ok q -> LTcp a ∉ q) as Hq.
  { unfold setup_quic. intros q. destruct (quic_enabled c); [|intros [= <-]; set_solver]. destruct (udp_addr _ _ _) as [ad|]; [|done].
    destruct (re_quic env ad); [|done]. intros [= <-]. set_solver. }
  destruct (setup_quic env c host) as [q|]; [|done]. destruct (setup_kcp env c host) as [k|]; [done|]. cbn. rewrite elem_of_app. intros [?|?]; [done|by eapply Hq].
Qed.

(** ** What ends the server *)

(** A listener that could not accept one connection - for want of a file descriptor, say -
    ends the whole server; a gateway does so without an error. *)
Lemma tcp_accept_failure_stops_server peer rest :
  accept_loop (Ok peer :: Err "Too many open files" :: rest) = ([peer], Some (Err "Too many open files"))
  /\ exists s, run_serving [LHttpGw "0.0.0.0:80"; LTcp "0.0.0.0:9527"]
       [TaskEnd 1 (Returned (Err "Too many open files")); JoinNext 0; TaskEnd 0 JoinCancelled; JoinNext 0] = Some s
     /\ rn_result s = Some (Err "Too many open files").
Proof. split; [done|]. eexists. by split. Qed.
Lemma gateway_accept_failure_is_success peer rest :
  gw_loop (GwAccepted peer :: GwAcceptFailed "Too many open files" :: rest) = ([peer], Some (Ok tt))
  /\ exists s, run_serving [LHttpGw "0.0.0.0:80"; LTcp "0.0.0.0:9527"]
       [TaskEnd 0 (Returned (Ok tt)); JoinNext 0; TaskEnd 0 JoinCancelled; JoinNext 0] = Some s
     /\ rn_result s = Some (Ok tt).
Proof. split; [done|]. eexists. by split. Qed.

(** A listen address that is a host name is valid, and serves TCP; with QUIC on the server
    does not start. *)
Definition ex_named : ServerConfig :=
  server_complete (MkServerConfig "localhost:7000" 7001 0 0 0 "" (sc_auth server_config_default) "" (sc_transport server_config_default)
    (sc_dashboard server_config_default) 1500 (sc_log server_config_default)).
Lemma named_listen_refuses_quic quic kcp :
  server_validate ex_named = Ok tt
  /\ run_setup (MkRunEnv (fun _ => Ok tt) quic kcp) ex_named = ([], Err "invalid quic bind addr: invalid socket address syntax").
Proof. split; vm_compute; reflexivity. Qed.

(** The dashboard's port is not held against the others: one equal to the listen address's
    passes validation, and the listener that comes second cannot bind. *)
Definition ex_same_port : ServerConfig :=
  server_complete (MkServerConfig "0.0.0.0:7000" 0 0 0 0 "" (sc_auth server_config_default) "" (sc_transport server_config_default)
    (MkDashboardConfig "0.0.0.0" 7000 "admin" "secret") 1500 (sc_log server_config_default)).
Lemma dashboard_port_unchecked env : re_bind env "0.0.0.0:7000" = Ok tt ->
  server_validate ex_same_port = Ok tt
  /\ run_setup env ex_same_port = ([LDashboard "0.0.0.0:7000"; LTcp "0.0.0.0:7000"], Ok tt).
Proof. intros Hb. split; [vm_compute; reflexivity|]. unfold run_setup. change (sc_listen ex_same_port) with "0.0.0.0:7000". rewrite Hb. reflexivity. Qed.

(** *** Witness *)

Lemma run_first_decides_witness :
  exists s, run_serving [LDashboard "127.0.0.1:7500"; LTcp "0.0.0.0:9527"] [TaskEnd 1 (JoinPanicked "boom"); JoinNext 0; TaskEnd 0 JoinCancelled; JoinNext 0] = Some s
    /\ rn_running s = [] /\ rn_result s = Some (Err "listener task join: boom").
Proof.
  eexists. split; [vm_compute; reflexivity|]. split; [|reflexivity].
  by apply (run_first_decides [LDashboard "127.0.0.1:7500"; LTcp "0.0.0.0:9527"] [TaskEnd 1 (JoinPanicked "boom"); JoinNext 0; TaskEnd 0 JoinCancelled; JoinNext 0]
    _ (Err "listener task join: boom")).
Defined.
