(* ===== verification/PluginServe.v ===== *)
(** * What a plugin does with a connection

    [client/src/plugin/tls_term.rs] and [client/src/plugin/socks5.rs] from the data
    connection they are given: the TLS plugin takes TLS off, finds the request's head,
    changes it and joins the local service; the SOCKS5 plugin lets in who knows the
    credentials and relays.  TLS, httparse, fast-socks5 and the sockets are parameters or
    outcomes. *)

From S2P Require Import Prelude RustStr HttpHead ClientTunnels.

Local Open Scope string_scope.

(** ** The TLS plugin *)

Section TlsTerm.
Context (httparse : string -> HttpParse).

(** What has been read so far: [None] to read on. *)
Definition split_head (buf : string) : option (Anyhow (string * string)) :=
  if (MAX_HEAD <? String.length buf)%nat then Some (Err "http headers too large") else
  match httparse buf with
  | PError e => Some (Err e)
  | PPartial => None
  | PComplete header_len _ _ _ =>
      Some (bail_if (String.length buf <? header_len)%nat with "httparse header length exceeds buffer" ;;
            Ok (stake header_len buf, sdrop header_len buf))
  end.
(** [chunks]: what each read gives, an empty one at the end of the stream. *)
Fixpoint read_request_head (buf : string) (chunks : list string) : option (Anyhow (string * string) * list string) :=
  match chunks with
  | [] => None
  | chunk :: chunks =>
      if is_empty chunk then Some (Err "client closed before http headers completed", chunks) else
      match split_head (buf ++ chunk) with
      | Some r => Some (r, chunks)
      | None => read_request_head (buf ++ chunk) chunks
      end
  end.

(** [TlsTermPlugin::handle] up to the joining: what the local service is sent, and the
    reads that are left.  [write] is the outcome of the writes. *)
Definition tls_term_handle (accept : Anyhow unit) (dial : string -> Anyhow unit) (write : string -> Anyhow unit)
    (local_addr host_header_rewrite src_addr : string) (chunks : list string) : option (Anyhow string * list string) :=
  match accept with
  | Err e => Some (Err ("tls-term TLS accept failed: " ++ e), chunks)
  | Ok _ =>
      match dial local_addr with
      | Err e => Some (Err ("tls-term dial " ++ local_addr ++ ": " ++ e), chunks)
      | Ok _ =>
          match read_request_head "" chunks with
          | None => None
          | Some (r, rest) => Some (
              let? ' (headers, body_prefix) := r in
              let? headers := apply_host_rewrite headers host_header_rewrite in
              let? headers := apply_x_forwarded_for headers src_addr "https" in
              let? _ := write headers in
              let? _ := if is_empty body_prefix then Ok tt else write body_prefix in
              Ok (headers ++ body_prefix), rest)
          end
      end
  end.
End TlsTerm.

(** [try_join!] of two [tokio::io::copy]: a direction ends with its reader's stream, and its
    writer is not shut down; the whole ends with both, or with an error. *)
Inductive CopyEnd := LocalEof | ClientEof | CopyFailed.
#[global] Instance CopyEnd_eq_dec : EqDecision CopyEnd.
Proof. solve_decision. Defined.
Definition join_over (ends : list CopyEnd) : bool :=
  bool_decide (CopyFailed ∈ ends) || (bool_decide (LocalEof ∈ ends) && bool_decide (ClientEof ∈ ends)).
(** A side learns that the other's stream has ended when the joining is over and drops both. *)
Definition client_sees_end (ends : list CopyEnd) : bool := join_over ends.

(** ** The SOCKS5 plugin *)

Inductive Socks5Command := TCPConnect | TCPBind | UDPAssociate.
Definition command_name (c : Socks5Command) : string :=
  match c with TCPConnect => "TCPConnect" | TCPBind => "TCPBind" | UDPAssociate => "UDPAssociate" end.
(** The steps of fast-socks5: the login, given the check; the command; the target's address. *)
Record SocksProtocol := MkSocks {
  sk_accept : (string -> string -> bool) -> Anyhow unit; sk_read_command : Anyhow (Socks5Command * string); sk_resolve : string -> Anyhow string }.
Inductive SocksServed := SocksRelay (target : string) | SocksRefused.
(** [serve]: the relay's own error is only logged; an unsupported command is answered before
    it is an error. *)
Definition socks5_serve (p : Plugin) (w : SocksProtocol) : option SocksServed * Anyhow unit :=
  match
    (let? _ := sk_accept w (socks5_accepts p) in
     let? ' (cmd, target) := sk_read_command w in
     let? target := sk_resolve w target in
     Ok (cmd, target))
  with
  | Err e => (None, Err e)
  | Ok (TCPConnect, target) => (Some (SocksRelay target), Ok tt)
  | Ok (cmd, _) => (Some SocksRefused, Err ("socks5 unsupported command " ++ command_name cmd))
  end.

(** ** Properties *)

Lemma read_request_head_conserves httparse chunks : forall buf h b rest,
  read_request_head httparse buf chunks = Some (Ok (h, b), rest) ->
  exists used, chunks = (used ++ rest)%list /\ (buf +:+ join "" used = h +:+ b) /\ String.length (h +:+ b) <= MAX_HEAD
    /\ (forall k, 0 < k < length used -> split_head httparse (buf +:+ join "" (take k used)) = None).
Proof.
  induction chunks as [|c chunks IH]; intros buf h b rest; [done|]. cbn [read_request_head]. destruct (is_empty c); [done|].
  destruct (split_head httparse (buf ++ c)) as [r|] eqn:Es.
  - intros [= -> <-]. exists [c]. split; [done|]. unfold split_head in Es. destruct (Nat.ltb_spec MAX_HEAD (String.length (buf ++ c))); [done|].
    destruct (httparse _) as [n m t hd| |]; try done. destruct (Nat.ltb_spec (String.length (buf ++ c)) n); [done|]. injection Es as <- <-.
    rewrite stake_sdrop. repeat split; [done..|cbn; lia].
  - intros (used & -> & Hu & Hlen & Hk)%IH. exists (c :: used). split; [done|]. rewrite join_nil_cons, <- RustStr.app_assoc, Hu. repeat split; [done..|].
    intros [|k] Hb; [lia|]. cbn [take]. rewrite join_nil_cons, <- RustStr.app_assoc. destruct k as [|k].
    + cbn. by rewrite RustStr.app_nil_r.
    + apply Hk. cbn in Hb. lia.
Qed.

(** The TLS plugin hands the local service all the client sent: what it writes before the
    streams are joined is the head, with the host and forwarding lines it was told to set,
    and whatever came with it, in order; what is left is still to be read. *)
Theorem tls_term_transparent (httparse : string -> HttpParse) (accept : Anyhow unit) (dial write : string -> Anyhow unit)
    (local_addr rewrite src_addr sent : string) (chunks rest : list string) :
  tls_term_handle httparse accept dial write local_addr rewrite src_addr chunks = Some (Ok sent, rest) ->
  exists used head body h1 h2,
    chunks = (used ++ rest)%list /\ join "" used = head +:+ body
    /\ apply_host_rewrite head rewrite = Ok h1 /\ apply_x_forwarded_for h1 src_addr "https" = Ok h2
    /\ sent = h2 +:+ body /\ accept = Ok tt /\ dial local_addr = Ok tt.
Proof.
  unfold tls_term_handle. destruct accept as [[]|]; [|done]. destruct (dial local_addr) as [[]|] eqn:Ed; [|done].
  destruct (read_request_head httparse "" chunks) as [[r rest']|] eqn:Er; [|done]. intros [= E <-].
  destruct r as [[h b]|]; [|done]. destruct (apply_host_rewrite h rewrite) as [h1|] eqn:E1; [|done].
  destruct (apply_x_forwarded_for h1 src_addr "https") as [h2|] eqn:E2; [|done]. destruct (write h2); [|done].
  apply read_request_head_conserves in Er as (used & Hc & Hu & _). exists used, h, b, h1, h2.
  assert (sent = h2 +:+ b) as ->; [|by repeat split]. destruct (is_empty b); [|destruct (write b); [|done]]; by injection E as <-.
Qed.

(** Only who shows the plugin's credentials gets a relay, whatever the protocol does. *)
Theorem socks5_gate (name username password target : string) (w : SocksProtocol) (offered : string -> string -> Prop) :
  (forall check, sk_accept w check = Ok tt -> exists u p, offered u p /\ check u p = true) ->
  (socks5_serve (Socks5 name username password) w).1 = Some (SocksRelay target) ->
  offered username password /\ exists t, sk_read_command w = Ok (TCPConnect, t) /\ sk_resolve w t = Ok target.
Proof.
  intros Hacc. unfold socks5_serve. destruct (sk_accept w _) as [[]|] eqn:Ea; [|done]. destruct (sk_read_command w) as [[cmd t]|]; [|done].
  destruct (sk_resolve w t) as [t'|] eqn:Et; [|done]. destruct cmd; try done. intros [= ->].
  destruct (Hacc _ Ea) as (u & p & Ho & [Hu%String.eqb_eq Hp%String.eqb_eq]%andb_prop). subst. split; [done|]. by exists t.
Qed.

(** A local service that closes its connection after the answer, as it may to end a body
    without a length, is not heard of by the client: its end reaches it only when the
    client has ended its own side, too, or something fails. *)
Lemma local_end_not_told ends : ClientEof ∉ ends -> CopyFailed ∉ ends -> client_sees_end (ends ++ [LocalEof]) = false.
Proof.
  intros Hc Hf. unfold client_sees_end, join_over. rewrite (bool_decide_eq_false_2 (CopyFailed ∈ _)) by set_solver.
  rewrite (bool_decide_eq_false_2 (ClientEof ∈ _)) by set_solver. apply andb_false_r.
Qed.

(** *** Witnesses *)

Definition ex_parse (buf : string) : HttpParse :=
  match find (crlf +:+ crlf) buf with Some i => PComplete (i + 4) (Some "GET") (Some "/") [] | None => PPartial end.
Definition ex_reads : list string := ["GET / HTTP/1.1" +:+ crlf; "Host: a" +:+ crlf +:+ crlf +:+ "bo"; "dy"].
Lemma tls_term_transparent_witness :
  exists used head body h1 h2, ex_reads = (used ++ ["dy"])%list /\ join "" used = head +:+ body
    /\ apply_host_rewrite head "inner" = Ok h1 /\ apply_x_forwarded_for h1 "9.9.9.9" "https" = Ok h2
    /\ ("GET / HTTP/1.1" +:+ crlf +:+ "Host: inner" +:+ crlf +:+ "X-Forwarded-For: 9.9.9.9" +:+ crlf
        +:+ "X-Forwarded-Proto: https" +:+ crlf +:+ crlf +:+ "bo")%string = h2 +:+ body
    /\ @Ok unit string tt = Ok tt /\ @Ok unit string tt = Ok tt.
Proof.
  apply (tls_term_transparent ex_parse (Ok tt) (fun _ => Ok tt) (fun _ => Ok tt) "127.0.0.1:80" "inner" "9.9.9.9").
  vm_compute. reflexivity.
Defined.
Lemma socks5_gate_witness :
  ("me", "pw") = ("me", "pw") /\ exists t, @Ok _ string (TCPConnect, "h:80") = Ok (TCPConnect, t) /\ @Ok _ string t = Ok "h:80".
Proof.
  apply (socks5_gate "socks" "me" "pw" "h:80"
    (MkSocks (fun check => if check "me" "pw" then Ok tt else Err "no") (Ok (TCPConnect, "h:80")) (fun t => Ok t)) (fun u p => (u, p) = ("me", "pw"))).
  - cbn. intros check. destruct (check "me" "pw") eqn:E; [|done]. intros _. by exists "me", "pw".
  - reflexivity.
Defined.
