(* ===== verification/DesktopWindow.v ===== *)
(** * The desktop's window around the client

    The launch and configuration pages of [desktop/src/main.rs], its timer and what a
    reload reports, with the texts of [desktop/src/i18n.rs] and the preferences of
    [desktop/src/ui_prefs.rs].  What the client says of itself, how files read and
    writing them ends are arguments; starting, stopping and reloading are commands to
    the runtime; the two tables of texts are parameters. *)

From S2P Require Import Prelude RustStr Float64 Config ServerConfig ClientConfig Reload ClientHandle DesktopConfig CertLibrary TunnelEditor.

Local Open Scope string_scope.

(** ** Texts *)

Inductive Locale := ZhCn | EnUs.
Definition locale_from_index (i : Z) : Locale := if (i =? 1)%Z then EnUs else ZhCn.

(** [str::replace] of a text that is not empty. *)
Fixpoint replace_all_go (fuel : nat) (from to s : string) : string :=
  match fuel with
  | O => s
  | S fuel =>
      match find from s with
      | Some i => stake i s ++ to ++ replace_all_go fuel from to (sdrop (i + String.length from) s)
      | None => s
      end
  end.
Definition replace_all (from to s : string) : string := replace_all_go (S (String.length s)) from to s.

Definition parse_property (m : gmap string string) (line : string) : gmap string string :=
  let line := trim line in
  if is_empty line || starts_with "#" line then m else
  match split_once "=" line with
  | Some (key, value) => <[trim key := trim value]> m
  | None => m
  end.
Definition parse_properties (raw : string) : gmap string string := fold_left parse_property (split lf raw) ∅.

Section Texts.
Context (zh_properties en_properties : string).

Definition table (locale : Locale) : gmap string string :=
  match locale with ZhCn => parse_properties zh_properties | EnUs => parse_properties en_properties end.
Definition msg (locale : Locale) (key : string) : string := default key (table locale !! key).
Definition msg_fmt (locale : Locale) (key : string) (replacements : list (string * string)) : string :=
  fold_left (fun s '(from, to) => replace_all from to s) replacements (msg locale key).
Definition format_uptime (locale : Locale) (secs : Z) : string :=
  if (secs <? 60)%Z then msg_fmt locale "msg.uptime-seconds" [("{secs}", show_Z secs)]
  else msg_fmt locale "msg.uptime-minutes" [("{mins}", show_Z (secs / 60)); ("{secs}", show_Z (secs mod 60))].
Definition failure (locale : Locale) (key err : string) : string := msg_fmt locale key [("{err}", err)].

(** ** The window *)

Inductive ToastKind := ToastSuccess | ToastError.
(** [wd_toasts] and [wd_logs]: what has been shown, the latest last; [wd_started_at] in seconds. *)
Record Window := MkWindow {
  wd_locale : Locale; wd_form : ServerForm; wd_path : string; wd_page : EditPage;
  wd_running : bool; wd_label : string; wd_started_at : option Z; wd_last_uptime : Z;
  wd_toasts : list (ToastKind * string); wd_logs : list string }.
Definition show_toast (kind : ToastKind) (text : string) (w : Window) : Window :=
  if is_empty text then w else
  MkWindow (wd_locale w) (wd_form w) (wd_path w) (wd_page w) (wd_running w) (wd_label w) (wd_started_at w) (wd_last_uptime w)
    (wd_toasts w ++ [(kind, text)])%list (wd_logs w).
Definition push_logs (lines : list string) (w : Window) : Window :=
  MkWindow (wd_locale w) (wd_form w) (wd_path w) (wd_page w) (wd_running w) (wd_label w) (wd_started_at w) (wd_last_uptime w)
    (wd_toasts w) (wd_logs w ++ lines)%list.
Definition push_log (line : string) (w : Window) : Window := push_logs [line] w.
Definition set_running (running : bool) (w : Window) : Window :=
  MkWindow (wd_locale w) (wd_form w) (wd_path w) (wd_page w) running (wd_label w) (wd_started_at w) (wd_last_uptime w) (wd_toasts w) (wd_logs w).
Definition set_label (label : string) (w : Window) : Window :=
  MkWindow (wd_locale w) (wd_form w) (wd_path w) (wd_page w) (wd_running w) label (wd_started_at w) (wd_last_uptime w) (wd_toasts w) (wd_logs w).
Definition set_clock (started_at : option Z) (last_uptime : Z) (w : Window) : Window :=
  MkWindow (wd_locale w) (wd_form w) (wd_path w) (wd_page w) (wd_running w) (wd_label w) started_at last_uptime (wd_toasts w) (wd_logs w).
Definition set_page (p : EditPage) (w : Window) : Window :=
  MkWindow (wd_locale w) (wd_form w) (wd_path w) p (wd_running w) (wd_label w) (wd_started_at w) (wd_last_uptime w) (wd_toasts w) (wd_logs w).
Definition set_config (f : ServerForm) (path : string) (w : Window) : Window :=
  MkWindow (wd_locale w) f path (wd_page w) (wd_running w) (wd_label w) (wd_started_at w) (wd_last_uptime w) (wd_toasts w) (wd_logs w).
Definition toast_err (text : string) : Window -> Window := show_toast ToastError text.
Definition toast_ok (text : string) : Window -> Window := show_toast ToastSuccess text.
Definition dash : string := bytes [226; 128; 148]%N.

(** Commands to the runtime. *)
Inductive Command := CmdStop | CmdStart (cfg : ClientConfig) (path : string) | CmdReload (cfg : ClientConfig) (path : string) | CmdSave (cfg : ClientConfig) (path : string).

(** *** The launch page *)

Section Launch.
Context (parse_f64 : string -> option f64) (default_config_path : string).
(** [load_for_edit] of the file at a path, [None] where there is none. *)
Context (existing : string -> option (Anyhow ClientConfig)) (save : ClientConfig -> Anyhow unit).

(** The configuration of the form and the tunnels on the page. *)
Definition window_config (uuid : string) (w : Window) : Anyhow (ClientConfig * string) :=
  let path := resolve_path default_config_path (wd_path w) in
  let? tunnels := collect_tunnel_configs parse_f64 (map rw_parts (ep_rows (wd_page w))) in
  let? c := load_merge_server_fields (existing path) (wd_form w) tunnels uuid in
  Ok (c, path).
Definition start_failed (detail line : string) (w : Window) : Window :=
  push_log ("ERROR " ++ line ++ ": " ++ detail) (toast_err (failure (wd_locale w) "msg.client-start-failed" detail) (set_running false w)).
(** [start]: what starting gives. *)
Definition on_toggle_client (status : ClientStatus) (start : ClientConfig -> Anyhow unit) (now : Z) (uuid uuid' : string) (w : Window)
    : Window * list Command :=
  if is_active status then
    (push_log (msg (wd_locale w) "msg.client-stopped") (set_label dash (set_running false (set_clock None (wd_last_uptime w) w))), [CmdStop])
  else
    match window_config uuid w with
    | Err e => (start_failed e "failed to start" w, [])
    | Ok (cfg, path) =>
        let '(cfg, assigned) := ensure_agent_id uuid' cfg in
        let saved := if assigned then save cfg else Ok tt in
        let cmds := if assigned then [CmdSave cfg path] else [] in
        match saved with
        | Err e => (start_failed e "failed to persist agent_id" w, cmds)
        | Ok _ =>
            let w := if assigned then push_log ("INFO  assigned agent_id " ++ cc_agent_id cfg) w else w in
            match start cfg with
            | Ok _ =>
                (push_log (msg (wd_locale w) "msg.client-started")
                   (set_label (msg (wd_locale w) "msg.running-label-zero") (set_running true (set_clock (Some now) (wd_last_uptime w) w))),
                 (cmds ++ [CmdStart cfg path])%list)
            | Err e => (start_failed e "failed to start" w, (cmds ++ [CmdStart cfg path])%list)
            end
        end
    end.

(** The timer: the client's lines, its addresses, and whether it runs. *)
Definition on_tick (status : ClientStatus) (drained : list string) (remotes : option (Z * gmap string string)) (last_error : option string) (now : Z)
    (w : Window) : Window :=
  let w := push_logs drained w in
  let w := set_page (tick_remotes remotes (wd_page w)) w in
  let running := is_active status in
  let was_running := wd_running w in
  let w :=
    if Bool.eqb was_running running then w else
    let w := set_running running w in
    if was_running && negb running then
      let w := set_label dash (set_clock None u64_max w) in
      match last_error with
      | Some err =>
          let detail := trim err in
          if is_empty detail then w
          else push_log ("ERROR " ++ detail) (toast_err (failure (wd_locale w) "msg.client-stopped-error" detail) w)
      | None => w
      end
    else w in
  if running then
    let secs := match wd_started_at w with Some t => (now - t)%Z | None => 0%Z end in
    if (wd_last_uptime w =? secs)%Z then w
    else set_label (format_uptime (wd_locale w) secs) (set_clock (wd_started_at w) secs w)
  else w.

(** *** The configuration page *)

Definition reload_commands (status : ClientStatus) (cfg : ClientConfig) (path : string) : list Command :=
  if is_active status then [CmdReload cfg path] else [].
Definition apply_if_running (status : ClientStatus) (cfg : ClientConfig) (path : string) (w : Window) : Window * list Command :=
  ((if is_active status then push_log "INFO  applying reload" w else w), reload_commands status cfg path).
Definition persist_server_config (status : ClientStatus) (uuid : string) (w : Window) : Anyhow (Window * list Command) :=
  let? ' (cfg, path) := window_config uuid w in
  let? _ := save cfg in
  let '(w, cmds) := apply_if_running status cfg path (set_config (wd_form w) path w) in
  Ok (w, CmdSave cfg path :: cmds).
Definition on_config_save (status : ClientStatus) (uuid : string) (w : Window) : Window * list Command :=
  let f := wd_form w in
  let say key := (toast_err (msg (wd_locale w) key) w, []) in
  if is_empty (trim (sf_server_addr f)) then say "msg.config-addr-required" else
  match require_port_field (sf_server_port f) RemotePortRequired RemotePortInvalid with
  | Err RemotePortRequired => say "msg.config-port-required"
  | Err _ => say "msg.config-port-invalid"
  | Ok _ =>
      match persist_server_config status uuid w with
      | Err e => (push_log ("ERROR failed to save config: " ++ e) (toast_err (failure (wd_locale w) "msg.config-persist-failed" e) w), [])
      | Ok (w, cmds) =>
          if is_active status
          then (set_page (MkEditPage (ep_rows (wd_page w)) (ep_open (wd_page w)) (ep_index (wd_page w)) (ep_form (wd_page w)) 0) w, cmds)
          else (push_log "INFO  config saved" (toast_ok (msg (wd_locale w) "msg.config-saved") w), cmds)
      end
  end.
Definition reset_form : ServerForm :=
  MkServerForm "127.0.0.1" "9527" "" "" 0 "1" true true "" "30" "" "" "1500" "" "" "" "" "10" "30" "100000".
Definition on_config_reset (w : Window) : Window :=
  push_log "INFO  config reset to defaults"
    (toast_ok (msg (wd_locale w) "msg.config-reset") (set_config reset_form default_config_path w)).
(** What a reload came to. *)
Definition reload_failure_log (f : string * string) : string := "WARN  reload tunnel " ++ f.1 ++ ": " ++ f.2.
Definition finish_reload_ui (o : ReloadOutcome) (w : Window) : Window :=
  let count {A} (l : list A) := show_Z (Z.of_nat (length l)) in
  let w := push_log ("INFO  reload applied: +" ++ count (ro_added o) ++ " -" ++ count (ro_removed o) ++ " ~" ++ count (ro_updated o)
                     ++ " mode=" ++ level_label (ro_level o)) w in
  let w := push_logs (map reload_failure_log (ro_failed o)) w in
  let say key := toast_ok (msg (wd_locale w) key) w in
  if negb (succeeded o) then toast_err (msg (wd_locale w) "msg.reload-partial") w else
  match ro_level o with
  | LvReconnectControl => say "msg.config-saved-reconnecting"
  | LvTunnelsOnly => say "msg.config-saved-applied"
  | LvNoop => say "msg.config-saved"
  end.
Definition reload_done (r : Anyhow ReloadOutcome) (w : Window) : Window :=
  match r with
  | Ok o => finish_reload_ui o w
  | Err e => push_log ("ERROR reload failed: " ++ e) (toast_err (failure (wd_locale w) "msg.reload-failed" e) w)
  end.
End Launch.

(** The window as it opens. *)
Definition load_window (show_f64 : f64 -> string) (existing : option (Anyhow ClientConfig)) (save : ClientConfig -> Anyhow unit) (path uuid : string) (w : Window)
    : Window * list Command :=
  let tunnels rows := set_page (MkEditPage rows (ep_open (wd_page w)) (ep_index (wd_page w)) (ep_form (wd_page w)) (ep_generation (wd_page w))) in
  match existing with
  | None => (push_log "INFO  no config file yet; Config page fields used on first start/save" (tunnels [] w), [])
  | Some (Err e) => (push_log ("ERROR failed to load config: " ++ e) (tunnels [] w), [])
  | Some (Ok cfg) =>
      let '(cfg, assigned) := ensure_agent_id uuid cfg in
      let w := if assigned then
                 match save cfg with
                 | Err e => push_log ("WARN  failed to persist agent_id: " ++ e) w
                 | Ok _ => push_log ("INFO  assigned agent_id " ++ cc_agent_id cfg) w
                 end
               else w in
      (push_log ("INFO  loaded config " ++ path) (set_config (form_of cfg) (wd_path w) (tunnels (map (tunnel_to_row show_f64) (cc_tunnels cfg)) w)),
       if assigned then [CmdSave cfg path] else [])
  end.
End Texts.

(** ** Preferences *)

Record UiPrefs := MkPrefs { up_locale : string; up_theme : string }.
Definition prefs_default : UiPrefs := MkPrefs "zh" "light".
Definition locale_index (p : UiPrefs) : Z := if eq_ignore_ascii_case (up_locale p) "en" then 1 else 0.
Definition theme_index (p : UiPrefs) : Z := if eq_ignore_ascii_case (up_theme p) "dark" then 1 else 0.
Definition set_locale_index (i : Z) (p : UiPrefs) : UiPrefs := MkPrefs (if (i =? 1)%Z then "en" else "zh") (up_theme p).
Definition set_theme_index (i : Z) (p : UiPrefs) : UiPrefs := MkPrefs (up_locale p) (if (i =? 1)%Z then "dark" else "light").
Definition prefs_normalize (p : UiPrefs) : UiPrefs :=
  MkPrefs (if negb (eq_ignore_ascii_case (up_locale p) "en") then "zh" else "en") (if eq_ignore_ascii_case (up_theme p) "dark" then "dark" else "light").
Section Prefs.
Context (from_toml : string -> Anyhow UiPrefs) (to_toml : UiPrefs -> Anyhow string).
(** [file]: the file's text, when there is one that can be read. *)
Definition prefs_load (file : option (Anyhow string)) : UiPrefs :=
  match file with
  | None => prefs_default
  | Some r => match (let? raw := r in let? p := from_toml raw in Ok (prefs_normalize p)) with Ok p => p | Err _ => prefs_default end
  end.
Definition persist_prefs (locale theme : Z) : Anyhow string := to_toml (set_theme_index theme (set_locale_index locale prefs_default)).
End Prefs.

(** ** Properties *)

Section Laws.
Context (zh en : string) (parse_f64 : string -> option f64) (show_f64 : f64 -> string) (default_path : string).

Lemma endpoint_fields dp s : canonical_endpoint dp s -> dp = 9527%Z ->
  is_empty (trim (split_server_endpoint s).1) = false /\ exists z, in_u16 z /\ (split_server_endpoint s).2 = show_Z z.
Proof.
  intros (h & p & Hp & -> & Ht & Hne & Hu) ->. unfold split_server_endpoint. rewrite Hp. cbn [fst snd]. rewrite Ht. split; [by apply is_empty_false|]. by exists p.
Qed.
Lemma form_checked c : canonical_endpoint 9527 (cc_server c) ->
  is_empty (trim (sf_server_addr (form_of c))) = false /\ require_port_field (sf_server_port (form_of c)) RemotePortRequired RemotePortInvalid = Ok tt.
Proof.
  intros Hc. destruct (endpoint_fields _ _ Hc eq_refl) as (Ha & z & Hz & Hp). unfold form_of. destruct (split_server_endpoint _) as [h p]. cbn in *.
  subst p. split; [done|]. by apply port_field_shown.
Qed.
(** What the window would write or start is what is in the file. *)
Lemma window_config_shown existing c uuid w :
  form_ready parse_f64 show_f64 c -> client_complete c = c ->
  wd_form w = form_of c -> page_shows show_f64 c (wd_page w) -> existing (resolve_path default_path (wd_path w)) = Some (Ok c) ->
  window_config parse_f64 default_path existing uuid w = Ok (c, resolve_path default_path (wd_path w)).
Proof.
  intros Hf Hc Hform Hp He. unfold window_config. rewrite He, Hform. unfold page_shows in Hp. rewrite Hp.
  pose proof (form_roundtrip parse_f64 show_f64 c uuid Hf Hc) as Hr. unfold rows_of in Hr.
  destruct (collect_tunnel_configs _ _) as [ts|]; [|done]. by rewrite Hr.
Qed.
End Laws.

(** C33: Where the file holds a completed configuration in the spelling the page
    itself writes ([form_ready]: addresses as the page prints them, an agent id, token
    authentication, a lower-case transport, strings and lists without outer white space
    or commas, numbers in the range of their fields, heartbeats in order, named tunnels
    that are [editable], a side of client or server among them), saving the page as it
    was filled, where writing the file succeeds, writes the very configuration the file
    holds, its tunnels included, tells a running client to follow it and no other, and
    leaves the form and the tunnels as they are.  The other spellings are not kept, and
    the development says how each changes ([saved_tunnel_refused],
    [limit_side_changes], [location_split], [ipv6_server_grows]). *)
Theorem config_saved_unchanged (zh en : string) (parse_f64 : string -> option f64) (show_f64 : f64 -> string) (default_path : string)
    (existing : string -> option (Anyhow ClientConfig)) (save : ClientConfig -> Anyhow unit) (status : ClientStatus) (uuid : string)
    (c : ClientConfig) (w : Window) :
  form_ready parse_f64 show_f64 c -> client_complete c = c ->
  wd_form w = form_of c -> page_shows show_f64 c (wd_page w) ->
  existing (resolve_path default_path (wd_path w)) = Some (Ok c) -> save c = Ok tt ->
  let '(w', cmds) := on_config_save zh en parse_f64 default_path existing save status uuid w in
  let path := resolve_path default_path (wd_path w) in
  cmds = CmdSave c path :: reload_commands status c path
  /\ wd_form w' = wd_form w /\ page_shows show_f64 c (wd_page w') /\ wd_path w' = path.
Proof.
  intros Hf Hc Hform Hp He Hs. destruct (form_checked c (fr_server _ _ _ Hf)) as [Haddr Hport].
  unfold on_config_save. rewrite Hform, Haddr, Hport. unfold persist_server_config. rewrite (window_config_shown _ show_f64 _ _ c) by done.
  rewrite Hs. unfold apply_if_running. destruct (is_active status); cbn; [by repeat split|].
  unfold toast_ok, show_toast. destruct (is_empty (msg zh en (wd_locale w) "msg.config-saved")); by repeat split.
Qed.

(** The timer makes the window say what the client says, and when the client has ended
    shows why, once, and stops the clock. *)
Theorem tick_follows_client (zh en : string) (status : ClientStatus) (drained : list string) (remotes : option (Z * gmap string string))
    (last_error : option string) (now : Z) (w : Window) :
  let w' := on_tick zh en status drained remotes last_error now w in
  wd_running w' = is_active status
  /\ (is_active status = true -> wd_last_uptime w' = match wd_started_at w' with Some t => (now - t)%Z | None => 0%Z end)
  /\ (wd_running w = true -> is_active status = false ->
      wd_label w' = dash /\ wd_started_at w' = None
      /\ forall e, last_error = Some e -> trim e <> "" -> failure zh en (wd_locale w) "msg.client-stopped-error" (trim e) <> "" ->
         wd_toasts w' = (wd_toasts w ++ [(ToastError, failure zh en (wd_locale w) "msg.client-stopped-error" (trim e))])%list
         /\ exists lines, wd_logs w' = (wd_logs w ++ drained ++ lines)%list /\ lines = ["ERROR " +:+ trim e]).
Proof.
  cbn zeta. unfold on_tick. destruct (is_active status) eqn:Ea; cbn [andb negb].
  - assert (forall w0, wd_running w0 = true -> wd_running (if (wd_last_uptime w0 =? match wd_started_at w0 with Some t => now - t | None => 0 end)%Z then w0
        else set_label (format_uptime zh en (wd_locale w0) match wd_started_at w0 with Some t => (now - t)%Z | None => 0%Z end)
               (set_clock (wd_started_at w0) match wd_started_at w0 with Some t => (now - t)%Z | None => 0%Z end w0)) = true) as Hrun
      by (intros w0 H0; by destruct (_ =? _)%Z).
    rewrite andb_false_r. split; [|split; [intros _|done]].
    + change (wd_running (set_page ?p (push_logs ?l w))) with (wd_running w). destruct (wd_running w) eqn:Er; cbn [Bool.eqb]; by apply Hrun.
    + set (w1 := if Bool.eqb _ _ then _ else _). clearbody w1. destruct (Z.eqb_spec (wd_last_uptime w1) match wd_started_at w1 with Some t => (now - t)%Z | None => 0%Z end) as [E|E]; [exact E|done].
  - destruct (wd_running w) eqn:Er; cbn [Bool.eqb push_logs set_page wd_running] in *; rewrite ?Er; cbn [Bool.eqb andb].
    + assert (forall text w0, wd_running (toast_err text w0) = wd_running w0 /\ wd_label (toast_err text w0) = wd_label w0 /\ wd_started_at (toast_err text w0) = wd_started_at w0)
        as Ht by (intros text w0; unfold toast_err, show_toast; by destruct (is_empty text)).
      split; [|split; [done|intros _ _]].
      * destruct last_error as [e|]; [|done]. destruct (is_empty (trim e)); [done|]. cbn. by rewrite (proj1 (Ht _ _)).
      * split; [|split].
        -- destruct last_error as [e|]; [|done]. destruct (is_empty (trim e)); [done|]. cbn. by rewrite (proj1 (proj2 (Ht _ _))).
        -- destruct last_error as [e|]; [|done]. destruct (is_empty (trim e)); [done|]. cbn. by rewrite (proj2 (proj2 (Ht _ _))).
        -- intros e -> He Hfail. rewrite (proj2 (is_empty_false _) He). cbn -[failure]. unfold toast_err, show_toast. cbn -[failure].
           rewrite (proj2 (is_empty_false _) Hfail). cbn -[failure]. split; [done|]. eexists. split; [|done]. by rewrite <- (assoc_L (++))%list.
    + split; [done|]. by split.
Qed.

(** Preferences that were saved are the ones that are loaded, whatever case a hand has
    written them in. *)
Lemma prefs_roundtrip from_toml to_toml locale theme text :
  to_toml (set_theme_index theme (set_locale_index locale prefs_default)) = Ok text ->
  from_toml text = Ok (set_theme_index theme (set_locale_index locale prefs_default)) ->
  persist_prefs to_toml locale theme = Ok text
  /\ locale_index (prefs_load from_toml (Some (Ok text))) = (if (locale =? 1)%Z then 1%Z else 0%Z)
  /\ theme_index (prefs_load from_toml (Some (Ok text))) = (if (theme =? 1)%Z then 1%Z else 0%Z).
Proof.
  intros Ht Hf. split; [done|]. unfold prefs_load. rewrite Hf. unfold set_theme_index, set_locale_index.
  destruct (locale =? 1)%Z, (theme =? 1)%Z; split; vm_compute; reflexivity.
Qed.
Lemma normalize_indexes p : locale_index (prefs_normalize p) = locale_index p /\ theme_index (prefs_normalize p) = theme_index p
  /\ prefs_normalize (prefs_normalize p) = prefs_normalize p.
Proof.
  unfold locale_index, theme_index, prefs_normalize. cbn [up_locale up_theme].
  destruct (eq_ignore_ascii_case (up_locale p) "en"), (eq_ignore_ascii_case (up_theme p) "dark"); repeat split; vm_compute; reflexivity.
Qed.

(** *** Witness *)

Definition ex_window (c : ClientConfig) (rows : list TunnelConfig) (running : bool) (label : string) : Window :=
  MkWindow EnUs (form_of c) "orbien.toml" (MkEditPage (map (tunnel_to_row (fun _ => "")) rows) false (-1) reset_tunnel_form 7) running label None u64_max [] [].
Definition ex_texts : string :=
  "# texts" ++ String lf "" ++ "msg.uptime-seconds={secs}s" ++ String lf "" ++ "msg.uptime-minutes = {mins}m {secs}s" ++ String lf "" ++ "msg.client-stopped-error=Stopped: {err}".
Lemma config_saved_unchanged_witness :
  let w := ex_window ex_desktop (cc_tunnels ex_desktop) true "5m 0s" in
  let '(w', cmds) := on_config_save "" ex_texts (fun _ => None) "/home/me/orbien.toml" (fun _ => Some (Ok ex_desktop)) (fun _ => Ok tt) Running "0" w in
  cmds = [CmdSave ex_desktop "orbien.toml"; CmdReload ex_desktop "orbien.toml"]
  /\ wd_form w' = wd_form w /\ page_shows (fun _ => "") ex_desktop (wd_page w') /\ wd_path w' = "orbien.toml".
Proof.
  assert (form_ready (fun _ => None) (fun _ => "") ex_desktop) as Hf.
  { split; [exists "example.org", 7000%Z; repeat split; done|split; [reflexivity|discriminate]|left|repeat constructor
           |vm_compute; intuition discriminate|vm_compute; discriminate|apply ex_editable]. }
  pose proof (config_saved_unchanged "" ex_texts (fun _ => None) (fun _ => "") "/home/me/orbien.toml" (fun _ => Some (Ok ex_desktop)) (fun _ => Ok tt) Running "0"
    ex_desktop (ex_window ex_desktop (cc_tunnels ex_desktop) true "5m 0s") Hf) as H.
  apply H; [reflexivity|reflexivity|vm_compute; reflexivity|reflexivity|reflexivity].
Defined.

Example uptime_texts : format_uptime "" ex_texts EnUs 59 = "59s" /\ format_uptime "" ex_texts EnUs 3725 = "62m 5s" /\ format_uptime "" ex_texts ZhCn 5 = "msg.uptime-seconds".
Proof. repeat split; vm_compute; reflexivity. Qed.

(** ** What the window gets wrong *)

(** The identity of an agent is assigned where the configuration is put together, so the
    start never finds one to save: with no file every start is another agent. *)
Lemma start_never_saves zh en parse_f64 dp existing save status start now uuid uuid' w c path :
  trim (new_agent_id uuid) <> "" -> CmdSave c path ∉ (on_toggle_client zh en parse_f64 dp existing save status start now uuid uuid' w).2.
Proof.
  intros Hu. unfold on_toggle_client. destruct (is_active status); [set_solver|].
  destruct (window_config parse_f64 dp existing uuid w) as [[cfg p]|] eqn:E; [|cbn; set_solver].
  assert (trim (cc_agent_id cfg) <> "") as Hid.
  { unfold window_config in E. destruct (collect_tunnel_configs _ _); [|done]. destruct (load_merge_server_fields _ _ _ _) as [c0|] eqn:El; [|done].
    injection E as -> _. unfold load_merge_server_fields in El. destruct (match existing _ with Some c => c | None => _ end); [|done].
    destruct (assemble_server _ _); [|done]. cbn zeta in El. destruct (_ && _); [done|]. injection El as <-. unfold ensure_agent_id.
    destruct (is_empty (trim _)) eqn:Ee; cbn; [done|]. by apply is_empty_false in Ee. }
  unfold ensure_agent_id. rewrite (proj2 (is_empty_false _) Hid). cbn. destruct (start cfg); cbn; set_solver.
Qed.
Definition ex_fresh : Window := MkWindow EnUs reset_form "orbien.toml" (MkEditPage [] false (-1) reset_tunnel_form 0) false dash None u64_max [] [].
Lemma start_forgets_agent_id parse_f64 start : (forall c, start c = Ok tt) ->
  exists c1 c2, (on_toggle_client "" "" parse_f64 "" (fun _ => None) (fun _ => Ok tt) Stopped start 0 "0123456789abcdef0123" "x" ex_fresh).2 = [CmdStart c1 "orbien.toml"]
    /\ (on_toggle_client "" "" parse_f64 "" (fun _ => None) (fun _ => Ok tt) Stopped start 0 "fedcba98765432100123" "x" ex_fresh).2 = [CmdStart c2 "orbien.toml"]
    /\ cc_agent_id c1 <> cc_agent_id c2.
Proof.
  intros Hs. unfold on_toggle_client. cbn [is_active].
  destruct (window_config parse_f64 "" _ "0123456789abcdef0123" ex_fresh) as [[c1 p1]|] eqn:E1; [|by vm_compute in E1].
  destruct (window_config parse_f64 "" _ "fedcba98765432100123" ex_fresh) as [[c2 p2]|] eqn:E2; [|by vm_compute in E2].
  vm_compute in E1, E2. injection E1 as <- <-. injection E2 as <- <-. vm_compute. rewrite !Hs. eexists _, _. split; [reflexivity|]. split; [reflexivity|]. discriminate.
Qed.

(** A client that ended since the timer last looked, and whose new start fails: the window
    goes on showing how long the old one has run, and why it ended is never told. *)
Lemma failed_restart_keeps_label zh en parse_f64 start now uuid uuid' drained e :
  window_config parse_f64 "" (fun _ => Some (Err "no such file")) uuid (ex_window ex_desktop [] true "5m 0s") = Err "no such file" ->
  let w := (on_toggle_client zh en parse_f64 "" (fun _ => Some (Err "no such file")) (fun _ => Ok tt) Stopped start now uuid uuid' (ex_window ex_desktop [] true "5m 0s")).1 in
  let w' := on_tick zh en Stopped drained None (Some e) now w in
  wd_running w' = false /\ wd_label w' = "5m 0s" /\ wd_toasts w' = wd_toasts w.
Proof.
  intros E. unfold on_toggle_client. cbn [is_active]. rewrite E. cbn zeta. cbn [fst]. unfold start_failed, toast_err, show_toast.
  destruct (is_empty (failure zh en _ _ _)); by repeat split.
Qed.
Lemma failed_restart_keeps_label_witness parse uuid :
  window_config parse "" (fun _ => Some (Err "no such file")) uuid (ex_window ex_desktop [] true "5m 0s") = Err "no such file".
Proof. reflexivity. Qed.

(** A client told to stop counts as running until it has: the next turn of the timer shows
    it as running again, for no time at all, after the log has said that it stopped. *)
Lemma stopping_shown_as_running now :
  let w := (on_toggle_client "" ex_texts (fun _ => None) "" (fun _ => None) (fun _ => Ok tt) Running (fun _ => Ok tt) now "0" "0" (ex_window ex_desktop [] true "5m 0s")).1 in
  wd_running w = false /\ wd_logs w = ["msg.client-stopped"]
  /\ let w' := on_tick "" ex_texts Stopping [] None None now w in wd_running w' = true /\ wd_label w' = "0s".
Proof. repeat split; vm_compute; reflexivity. Qed.
